(* ===== verification/_CoqProject ===== *)
-Q . S2P
Prelude.v
PyFloat.v
PyValue.v
Json.v
PyNumbers.v
Sha256.v
Paths.v
JsonStore.v
DateTime.v
AuthorityTransitions.v
AuthorityInterface.v
AuthorityFacts.v
AuthorityTheorems.v
SchemaValidation.v
Models.v
Schemas.v
Contracts.v
PacketFacts.v
InfraGraph.v
InfraGraphFacts.v
Merkle.v
StateStore.v
StateFacts.v
StateTypes.v
StateEvents.v
StateTheorems.v
StateRecords.v
LearningLogic.v
RunMachine.v
Steering.v
Timeline.v
RunAdmission.v
ExecutionAttempts.v
DeferredRuns.v
EvidenceSufficiency.v
RemediationSafety.v
TrustLadder.v
TrustTheorems.v
Signing.v
RegistryFile.v
MetricRules.v
Ownership.v
OperatorReviews.v
Coordinator.v
OperatorActions.v
CreateRun.v
RunEvidence.v
RunDecision.v
ApprovalQueue.v
RunExecution.v
RunFrame.v
RunTheorems.v
RunEnds.v
RunExamples.v
ConnectorCertification.v
AutonomyPolicy.v
PermitValidation.v
PermitLedger.v
PermitLedgerFacts.v
Permits.v
PermitRecovery.v
PermitFacts.v
PermitTheorems.v
PermitSafety.v
PermitExamples.v
HsaiBridge.v
HsaiTheorems.v
HsaiExamples.v
Orchestrator.v
OrchestratorTheorems.v
OrchestratorOnce.v
OrchestratorEnds.v
OrchestratorExamples.v
PatchActuator.v
PatchActuatorTheorems.v
ReviewBlockers.v
Trajectory.v
EvaluationAdvice.v
Evaluation.v
EvaluationTheorems.v
