(* ===== verification/Prelude.v ===== *)
(** * Orbital Mesh: a verification development

    Orbital Mesh is a control plane for bounded remediation: it turns signals
    into decisions, gates them by policy and evidence, executes the ones that
    pass through narrow actuators, and keeps a log whose Merkle roots can be
    checked later.  This library models the parts that decide and record -
    mostly [src/shared/mesh_runtime/] - as executable functions over explicit
    state, and proves what makes them correct.

    ** How the code is modelled

    Python values are the type [value] of [PyValue] (dictionaries keep insertion
    order), strings are their UTF-8 bytes, integers are unbounded [Z] as in
    Python, floats are IEEE-754 binary64 computed with [SpecFloat] ([PyFloat],
    [PyNumbers]).  A function that may raise returns [res]: [Ok] or [Err] with
    an exception of the classes below; [x ← m; k] is sequencing and
    [raise_if b with Cls msg; k] a guard.  Stateful code takes its file, ledger
    or table and returns the new one.  Clock readings, random identifiers, the
    order in which Python visits a set, the answers of external services and
    the success of disk writes are arguments, so a theorem holds for all of
    them.  Messages of exceptions are kept where the code shows them and
    abbreviated where they are the interpreter's own.

    ** The parts

    Language and library:
    - [Prelude]: exceptions, the monad, strings, tactics;
      [PyFloat], [PyValue], [PyNumbers]: values and their operations,
      with [sorted(set(...))];
      [Json]: [json.dumps], sorting, equality after a round trip;
      [Sha256]: SHA-256 and HMAC, computed;
      [DateTime]: the calendar, ISO-8601 printing and parsing;
      [Paths]: POSIX paths, links, [resolve], file reads and atomic replacement.
    - [JsonStore]: [json_store.py], the locked state files every store uses; a
      section reads the payload, runs a body, and writes when it changed.

    Contracts and packets:
    - [SchemaValidation], [Schemas]: [schema_validation.py] and the JSON schemas
      it is called with; [PacketFacts] reads types off validated packets.
    - [Models]: [control_plane_models.py]; [Contracts]: [contracts.py].

    Run log:
    - [Merkle]: [merkle.py]; [Timeline]: [timeline_proof.py];
      [Signing]: the HMAC half of [perennial/signing.py].

    Gates and policies:
    - [RunAdmission]: [run_admission.py]; [EvidenceSufficiency]:
      [evidence_sufficiency.py]; [RegistryFile], [ConnectorCertification]:
      [connector_certification.py]; [AutonomyPolicy]: [autonomy_policy.py];
      [RemediationSafety]: [remediation_safety.py].
    - [MetricRules]: [metric_action_rules.py], the rules that propose an action
      for a metric, and the view of a trigger they are matched on.

    Stores:
    - [StateStore] (sessions, goals, events, cache, vault mirror) and
      [StateRecords] (benchmarks, outcomes, artifacts, memory records), with the
      theorems in [StateFacts] (a class of relations every operation respects),
      [StateTypes], [StateEvents] and [StateTheorems], which has worked stores
      too: [control_plane_state.py]; [LearningLogic]:
      [learning_logic.py], statistics over the stored outcomes.
    - [AuthorityTransitions] (one function per record transition),
      [AuthorityInterface] (abstract states and calls, a class of back ends and
      what follows for any of them), [AuthorityFacts] (the record invariant),
      [AuthorityTheorems] (the file back end implements the class):
      [repo_patch_authority_store.py].
    - [PermitValidation]: [repo_patch_permit_validation.py];
      [PermitLedger], [Permits], [PermitRecovery], and the
      theorems in [PermitLedgerFacts], [PermitFacts], [PermitTheorems],
      [PermitSafety], with a worked permit in [PermitExamples]:
      [repo_patch_permits.py].
    - [ExecutionAttempts]: [execution_attempts.py]; [DeferredRuns]:
      [deferred_runs.py]; [TrustLadder], [TrustTheorems]:
      [trust_ladder.py]; [InfraGraph], [InfraGraphFacts]: [infra_graph.py].

    Runs ([src/services/control_plane.py], the coordinator):
    - [Ownership]: [ownership.py]; [OperatorReviews]: [operator_handoff.py],
      [override_review.py], [postmortem_review.py]; [Steering]: the validation
      of a command and the control object of a run.
    - [RunMachine]: programs that are interleaved with other threads.  A program
      reads a list of ticks; each step takes one, lets the environment of that
      tick change the shared state in any way, and then runs one section under
      a lock or one operation of the store.  It also has the logic of programs:
      the relations they respect, weakest preconditions, and bounds on steps,
      each a type class or a set of rules that follows the structure of a
      program.
    - [Coordinator] (state, admission, controls, clean-up; the stages of the
      pipeline and all other callees, as arguments),
      [CreateRun] ([create_run] and the deferred rechecks), [RunEvidence] and
      [RunDecision] (what a run records on its way, recovery, overrides),
      [OperatorActions] ([steer_run], the kill switch), [RunExecution]
      ([_wait_if_needed], [_execute_run] in its phases, the worker loop),
      [ApprovalQueue]: [approval_queue.py], the runs that wait and what an
      operator is offered for each.
    - [RunFrame] (what each operation leaves alone), [RunTheorems] (what is
      executed and what approves it), [RunEnds] (ends, locks, cancellation,
      admission to a held target), [RunExamples] (runs from beginning to end).

    Execution of a decision:
    - [HsaiBridge]: [shlex.split] and [hsai_bridge.py], the requests a repository patch makes to
      the external admission gate, the checks of the answer, the proof packet and
      the execution context, with the theorems in [HsaiTheorems] and worked
      requests of both versions in [HsaiExamples].
    - [Orchestrator]: [src/services/orchestrator/service.py], [execute] with the
      ledger of attempts, the gate, the review, the authority service and the
      retry loop, as a program of [RunMachine]; [OrchestratorTheorems] (what is
      acted on), [OrchestratorOnce]
      (at most once), [OrchestratorEnds] (ends, number of attempts),
      [OrchestratorExamples] (worked calls, and what the guards do not exclude).
    - [PatchActuator]: [src/services/actuators/repo_patch.py], the executor that
      claims the permit of a decision, replaces the target and runs the test
      commands, and [write_immutable_backup], as a program of [RunMachine] over
      the ledger of permits and the file system ([world] of [PermitRecovery]);
      [PatchActuatorTheorems] has its theorems and worked executions.

    Evaluation of a decision:
    - [ReviewBlockers]: [review_blockers.py]; [Trajectory]:
      [src/services/evaluation/mesh_evaluator.py], [temperature_policy.py] and
      [phoenix_trace.py]; [EvaluationAdvice]: [evaluation_stack.py] and
      [sre_judge.py] (both under [src/services/evaluation/]).
    - [Evaluation]: [src/services/evaluation/service.py] with the three policy
      files it reads and the ledger of evaluated triggers of [state.py].
      [evaluate] is the composition of [check_plan], [run_gates] (business
      rules, readiness, evidence, autonomy policy, safety case) and [conclude]
      (trajectory, judge, verdict); [EvaluationTheorems] has its theorems, the
      composition with [Orchestrator], and worked evaluations.

    The parts interact as in the code: every store runs its sections through
    [JsonStore]; packets are validated through [Schemas]; the autonomy policy
    reads the connector registry that the certification matrix is built from;
    permits use signing, digests, paths and the ledger; a permit's target is
    read and replaced through [Paths]; the control-plane store computes leaf
    hashes and roots with [Merkle] and validates memory records through
    [Contracts]; the coordinator admits with [RunAdmission] and [Ownership],
    keeps sessions and events in [StateStore], reviews in [OperatorReviews],
    deferred runs and trust in their stores, and validates what its services
    return through [Contracts]; the orchestrator keeps its attempts in
    [ExecutionAttempts] and asks the gate and builds its packets through
    [HsaiBridge]; the evaluation calls the gates and policies above and hands
    its result to the orchestrator.

    ** What the theorems show

    - Permits: whatever is called in whatever order, with files changing in
      between, a permit is consumed once and a fenced root gets no new permit;
      its state moves along the table of transitions, except that an abort whose
      restoration fails goes to recovery from any state it names, a terminal one
      included ([late_abort_reopens]; no caller names one); a consume was
      authorised for the bytes on disk; an abort restores those bytes or fences;
      recovery leaves nothing half done; issuing is idempotent and what is issued
      verifies.
    - Runs, for every environment of other threads and every answer or error of
      the services: the orchestrator is called at most once, on what was
      evaluated last and passed, and in manual mode after an approval; a held
      target admits nobody; however work on a run ends nothing of it stays in
      memory; a cancelled wait ends; lock tables stay consistent.  What these do
      not exclude is in [RunExamples].
    - Orchestrator, for every behaviour of adapters, gate, authority service and
      other threads: what is acted on was evaluated, passed and - for a
      repository patch - admitted by a gate bound to this decision and
      evaluation and goes to the authority service only directly after a review
      that succeeded and kept its contract; [execute] ends within a stated number
      of steps.  A replay-guarded action is carried out once over any sequence of
      calls, made one after the other, if adapters name one of the three outcomes
      and nobody reopens the attempt ([OrchestratorExamples] shows that it takes
      these conditions).
    - Evaluation: a result recommends execution exactly when every gate, listed
      as a condition, is clear; one trigger is let through once, over any
      sequence of evaluations; what the orchestrator carries out on a result
      had every gate clear; the ledger keeps its type; a recovery is offered
      exactly when every blocker can be lifted.
    - Admission bridge: for a request with identifiers that are not blank, and
      whatever the external gate answers or raises, there is a gate, open exactly
      for a checked answer that says allow, and with a blank one the evaluation
      raises; one gate admits one decision; what was attached or exported verifies, with the exact
      condition.
    - Executor of patches, whatever others do to the files between its steps:
      only the bytes the claimed permit names are written and only allowed
      commands are run; an execution that claims and returns has ended its
      transaction: committed, or aborted with the target back at its bytes, or in
      recovery with the root fenced.  If the others also keep to the state machine of the ledger, a target is
      written once per permit, and an interrupted execution is ended by
      recovery.  That the bytes go to the path of the permit is not among these
      ([patch_of_another_target]).
    - Authority store: the file back end refines an abstract registry; a
      command is dispatched at most once and completed at most once.
    - Control-plane store: under any calls and interleavings a run that ended
      stays ended, its cursor does not go back and the session file stays
      bounded without losing a run; while events are numbered by the store, with
      appends that do not overlap and sessions that are not behind, they are in
      increasing order and the cache is invisible; overlapping appends get one
      number, and so may events that bring their own.
    - Run log: every generated Merkle proof verifies, and a verified proof of the
      tree's depth means the event is in the log or SHA-256 has a collision, which
      the theorem exhibits (a shorter one proves an inner node); timeline proofs
      check their own order and roots.
    - Gates and policies: for every schema-valid input the packet or verdict is
      produced and says yes exactly when the stated conditions hold, or, where the
      code can raise - a registry that is no UTF-8, an artifact or a success rate
      of another type -, exactly that exception is raised.
    - Metric rules: a proposal is the one of the first rule whose conditions, its
      own pattern among them, all hold, for rules of which no two of one name
      differ in it, and a number of replicas to scale by keeps to the bound of its rule;
      what is not bounded is shown next to it.
    - Approval queue: the packet is always built and valid, and offers an
      approval exactly when the run would accept it.
    - Stores: outcomes are learned as the thresholds say, over any history;
      deferred runs are claimed once; graph search equals reachability; the
      snapshot round-trips.
    - Validation accepts whatever satisfies a schema, and nothing else if the
      schema only states keywords that are read; otherwise it decides the part of
      the schema that is enforced ([SchemaValidation]).

    ** Fuel

    Scans of a string (replacement, stripping, decoding) take its length as
    fuel, since each step consumes a character; [str_of_Z] takes a bound on the
    digits, [Paths] the forty links the kernel follows and [f_repr] the
    seventeen digits that identify a double.  Merkle layers halve, and their
    fuel is
    the number of leaves.  The search of [InfraGraph] recurses on the depth the
    caller asks for, and a theorem shows how much depth is ever useful.  A
    program of [RunMachine] that runs out of ticks is [Unfinished]; its loops
    take as fuel the number of ticks, since every turn takes one, and
    [cancelled_wait_ends] counts the ticks a wait needs.  The retry loop of the
    orchestrator is such a loop: its condition is tested in each turn, and
    [execute_ends] shows that the count of attempts ends it, within a number of
    ticks it states.

    ** Not modelled

    Python's own JSON parser: state files hold parsed values or garbage
    ([JsonStore]), configuration files carry the result of [json.loads]
    ([RegistryFile]).  Lowercasing outside ASCII.  File locks, since a locked
    section is one step of a trace.  Ed25519 signatures and the
    external gate, which are arguments, as are the completion a judge asks a
    model for, the redaction of its prompt and the probe of the token service;
    run events of an evaluation are [RunEvent] records; the permit store takes the validator of
    a gate as an argument too.  The engine of regular expressions, which the
    patterns of metric rules are compiled by.  What a test command does to the files, which is
    the environment of a tick.  The file bundle of a formal back end, the choice
    of an adapter from the configuration, and logging.  The rendering of vault notes and the Helix and
    Zaxy mirrors (what is sent to them is kept).  The Postgres back ends, the
    HTTP server and the read-only endpoints of the coordinator (exports, reports,
    simulations), the stages under [src/services/] other than evaluation
    (arguments of a run; so is the evaluation of a run, whose [evaluate] is
    proved about apart from it), the agent lanes, memory retrieval, integrations, packages and user interfaces; the manifest
    lists them with reasons.

    ** Plan

    Next: durable workflows on top of the control-plane store, memory retrieval and maintenance,
    the disposable worktree a patch is verified in, and the Postgres authority
    back end against the same interface. *)

From Stdlib Require Export ZArith Lia Bool Ascii.
From stdpp Require Export base tactics decidable option list strings.
#[global] Open Scope string_scope.
#[global] Open Scope list_scope.
#[global] Open Scope Z_scope.

(** ** Python exceptions *)

(** The exception classes the modelled code raises or catches. *)
Inductive exc_class :=
  | ValueError
  | TypeError
  | KeyError
  | IndexError
  | AttributeError
  | OverflowError
  | OSError
  | RuntimeError
  | UnicodeError
  | JSONDecodeError
  | SchemaValidationError
  | AuthorityStoreError
  | AuthorityConflictError
  | AuthorityNotFoundError
  | AuthorityStateError
  | RepoPatchPermitSemanticError.

#[export] Instance exc_class_eq_dec : EqDecision exc_class.
Proof. solve_decision. Defined.

Record exc := Exc { exc_cls : exc_class; exc_msg : string }.

(** The direct base class of a class, among the classes above. *)
Definition exc_base (c : exc_class) : option exc_class :=
  match c with
  | UnicodeError | JSONDecodeError | SchemaValidationError | AuthorityStoreError | RepoPatchPermitSemanticError =>
      Some ValueError
  | AuthorityConflictError | AuthorityNotFoundError | AuthorityStateError =>
      Some AuthorityStoreError
  | _ => None
  end.

(** [isinstance_exc c d]: an exception of class [c] is caught by [except d].
    The class tree has depth three, so two steps up are enough. *)
Definition isinstance_exc (c d : exc_class) : bool :=
  bool_decide (c = d)
  || match exc_base c with
     | None => false
     | Some b =>
         bool_decide (b = d)
         || match exc_base b with None => false | Some b' => bool_decide (b' = d) end
     end.

(** A computation that returns a value or raises. *)
Inductive res (A : Type) :=
  | Ok (a : A)
  | Err (e : exc).
Arguments Ok {A} a.
Arguments Err {A} e.

#[export] Instance res_ret : MRet res := @Ok.
#[export] Instance res_bind : MBind res :=
  λ A B f m, match m with Ok a => f a | Err e => Err e end.

Definition raise {A} (c : exc_class) (msg : string) : res A := Err (Exc c msg).

Declare Scope py_scope.
Delimit Scope py_scope with py.

(** [if cond: raise cls(msg)] followed by [k]. *)
Notation "'raise_if' b 'with' c msg ';' k" :=
  (if (b : bool) then raise c msg else k)
  (at level 100, b at level 99, c at level 0, msg at level 0, k at level 200,
   right associativity) : py_scope.
#[global] Open Scope py_scope.

Definition is_ok {A} (m : res A) : bool := match m with Ok _ => true | Err _ => false end.

(** The result raises an exception caught by [except c]. *)
Definition raises {A} (m : res A) (c : exc_class) : Prop :=
  match m with Ok _ => False | Err e => isinstance_exc (exc_cls e) c = true end.

(** [for x in l: f(x)] when [f] may raise and the loop body has no other
    effect. *)
Fixpoint res_iter {A} (f : A → res unit) (l : list A) : res unit :=
  match l with
  | [] => Ok ()
  | x :: l' => _ ← f x; res_iter f l'
  end.

(** [\[f(x) for x in l\]] when [f] may raise. *)
Fixpoint res_map {A B} (f : A → res B) (l : list A) : res (list B) :=
  match l with
  | [] => Ok []
  | x :: l' => y ← f x; ys ← res_map f l'; Ok (y :: ys)
  end.

Lemma res_bind_Ok {A B} (m : res A) (f : A → res B) b :
  (x ← m; f x) = Ok b → ∃ a, m = Ok a ∧ f a = Ok b.
Proof. destruct m; simpl; [eauto | discriminate]. Qed.

Lemma raise_if_Ok {A} (b : bool) c msg (k : res A) a :
  (if b then raise c msg else k) = Ok a → b = false ∧ k = Ok a.
Proof. destruct b; [discriminate | auto]. Qed.

Lemma res_iter_Ok {A} (f : A → res unit) l :
  res_iter f l = Ok () ↔ Forall (λ x, f x = Ok ()) l.
Proof.
  induction l as [|x l IH]; simpl.
  - split; [constructor | done].
  - rewrite Forall_cons, <- IH. destruct (f x) as [[]|e]; simpl; [tauto|].
    split; [discriminate | intros [[=] _]].
Qed.

(** Peel successful binds and guards off a hypothesis [m = Ok b]. *)
Ltac res_inv H :=
  repeat match type of H with
  | (if ?b then raise _ _ else _) = Ok _ =>
      let Hb := fresh "Hg" in
      apply raise_if_Ok in H; destruct H as [Hb H]
  | mbind _ _ = Ok _ =>
      let x := fresh "x" in
      let Hx := fresh "Hx" in
      apply res_bind_Ok in H; destruct H as (x & Hx & H)
  | Ok _ = Ok _ => injection H; clear H; intros; subst
  | raise _ _ = Ok _ => discriminate H
  | Err _ = Ok _ => discriminate H
  end.

(** The same through binds of pairs. *)
Ltac res_inv_pairs H :=
  res_inv H;
  repeat (match type of H with (match ?x with pair _ _ => _ end) = Ok _ => destruct x end; res_inv H).

Lemma res_map_Forall {A B} (f : A → res B) (P : B → Prop) l l' :
  (∀ x y, f x = Ok y → P y) → res_map f l = Ok l' → Forall P l'.
Proof.
  intros Hf. revert l'. induction l as [|x l IH]; intros l' H; simpl in H; res_inv H; constructor; eauto.
Qed.

Lemma res_map_length {A B} (f : A → res B) l : ∀ l', res_map f l = Ok l' → length l' = length l.
Proof. induction l as [|a l IH]; intros l' H; cbn [res_map] in H; res_inv H; cbn; [done|]. f_equal. by apply IH. Qed.

(** ** Strings *)

(** Python [str] values are represented by their UTF-8 bytes, one [ascii]
    per byte; comparison by code point is then comparison byte by byte. *)
Definition byte_z (c : ascii) : Z := Z.of_N (N_of_ascii c).

Fixpoint str_ltb (s t : string) : bool :=
  match s, t with
  | _, EmptyString => false
  | EmptyString, String _ _ => true
  | String a s', String b t' =>
      if byte_z a <? byte_z b then true
      else if byte_z a =? byte_z b then str_ltb s' t' else false
  end.

Definition str_leb (s t : string) : bool := negb (str_ltb t s).

Fixpoint str_chars (s : string) : list ascii :=
  match s with EmptyString => [] | String c s' => c :: str_chars s' end.

Fixpoint chars_str (l : list ascii) : string :=
  match l with [] => EmptyString | c :: l' => String c (chars_str l') end.

(** [sep.join(l)] *)
Fixpoint str_join (sep : string) (l : list string) : string :=
  match l with
  | [] => ""
  | [s] => s
  | s :: l' => s +:+ sep +:+ str_join sep l'
  end.

(** [s.startswith(p)] *)
Definition str_startswith (p s : string) : bool := String.prefix p s.

(** [s\[n:\]] *)
Fixpoint str_drop (n : nat) (s : string) : string :=
  match n, s with
  | S n', String _ s' => str_drop n' s'
  | _, _ => s
  end.

(** [s.removeprefix(p)] *)
Definition str_removeprefix (p s : string) : string :=
  if String.prefix p s then str_drop (String.length p) s else s.

(** The text before and after the first occurrence of [find]. *)
Fixpoint split_at (find s : string) : option (string * string) :=
  if String.prefix find s then Some ("", str_drop (String.length find) s)
  else match s with
       | EmptyString => None
       | String c s' => match split_at find s' with
                        | Some (a, b) => Some (String c a, b)
                        | None => None
                        end
       end.

(** [find in s] and [s.replace(find, new, 1)] *)
Definition str_contains (find s : string) : bool :=
  match split_at find s with Some _ => true | None => false end.

Definition str_replace_first (find new s : string) : string :=
  match split_at find s with Some (a, b) => a +:+ new +:+ b | None => s end.

(** The characters of a UTF-8 string, as strings: a byte that continues a
    character goes with the one before. *)
Fixpoint utf8_chars (s : string) : list string :=
  match s with
  | EmptyString => []
  | String c s' =>
      match utf8_chars s' with
      | [] => [String c ""]
      | w :: ws =>
          match w with
          | String d _ => if (128 <=? byte_z d) && (byte_z d <? 192) then String c w :: ws
                          else String c "" :: w :: ws
          | EmptyString => String c "" :: ws
          end
      end
  end.

(** Decimal rendering of an integer: [str(n)]. *)
Definition digit_ascii (d : Z) : ascii := ascii_of_N (Z.to_N (48 + d)).

Fixpoint nat_digits_go (fuel : nat) (n : Z) (acc : string) : string :=
  match fuel with
  | O => acc
  | S fuel' =>
      let acc' := String (digit_ascii (n mod 10)) acc in
      if n / 10 =? 0 then acc' else nat_digits_go fuel' (n / 10) acc'
  end.

(** The fuel is the bit length plus one: each step divides by ten. *)
Definition str_of_Z (n : Z) : string :=
  let a := Z.abs n in
  let body := nat_digits_go (S (Z.to_nat (Z.log2 a))) a "" in
  if n <? 0 then "-" +:+ body else body.

(** Zero padded to [w] digits: [f"{n:0wd}"] for [0 <= n < 10^w]. *)
Fixpoint pad_digits (w : nat) (n : Z) : string :=
  match w with
  | O => ""
  | S w' => String (digit_ascii ((n / 10 ^ Z.of_nat w') mod 10)) (pad_digits w' n)
  end.
