(* ===== verification/PyFloat.v ===== *)
(** * Python floats

    IEEE-754 binary64 arithmetic as computed by CPython, on the Standard
    Library's executable [spec_float].  Conversions that CPython rounds
    correctly (integer true division, decimal literals, [round], [repr]) are
    computed from exact ratios and rounded once. *)

From S2P Require Import Prelude.
From Stdlib Require Export Floats.SpecFloat.

Abbreviation float := spec_float.

Definition prec64 : Z := 53.
Definition emax64 : Z := 1024.

Definition f_add : float → float → float := SFadd prec64 emax64.
Definition f_sub : float → float → float := SFsub prec64 emax64.
Definition f_mul : float → float → float := SFmul prec64 emax64.
Definition f_div : float → float → float := SFdiv prec64 emax64.

(** [float(n)] for an integer; the infinities stand for [OverflowError]. *)
Definition f_of_Z (n : Z) : float := binary_normalize prec64 emax64 n 0 false.

(** The binary64 number nearest to [num / den], ties to even. *)
Definition f_of_pos_ratio (s : bool) (num den : positive) : float :=
  let '(mz, ez, lz) := SFdiv_core_binary prec64 emax64 (Zpos num) 0 (Zpos den) 0 in
  binary_round_aux prec64 emax64 s mz ez lz.

Definition f_of_ratio (num : Z) (den : positive) : float :=
  match num with
  | Z0 => S754_zero false
  | Zpos p => f_of_pos_ratio false p den
  | Zneg p => f_of_pos_ratio true p den
  end.

(** [a / b] on integers, [b > 0]: CPython rounds the exact quotient once. *)
Definition int_truediv (a : Z) (b : positive) : float := f_of_ratio a b.

(** ** Exact comparison

    Python compares integers and floats by their exact values. *)

(** The exact value of a finite number as [m * 2^e]. *)
Definition f_exact (f : float) : option (Z * Z) :=
  match f with
  | S754_zero _ => Some (0, 0)
  | S754_finite s m e => Some (if s then Zneg m else Zpos m, e)
  | _ => None
  end.

Definition exact_compare (x y : Z * Z) : comparison :=
  let '(m1, e1) := x in
  let '(m2, e2) := y in
  let e := Z.min e1 e2 in
  Z.compare (m1 * 2 ^ (e1 - e)) (m2 * 2 ^ (e2 - e)).

(** Comparison of floats; [None] when one side is a NaN. *)
Definition f_compare (x y : float) : option comparison :=
  match x, y with
  | S754_nan, _ | _, S754_nan => None
  | S754_infinity true, S754_infinity true => Some Eq
  | S754_infinity false, S754_infinity false => Some Eq
  | S754_infinity true, _ => Some Lt
  | _, S754_infinity true => Some Gt
  | S754_infinity false, _ => Some Gt
  | _, S754_infinity false => Some Lt
  | _, _ =>
      match f_exact x, f_exact y with
      | Some a, Some b => Some (exact_compare a b)
      | _, _ => None
      end
  end.

(** An integer seen as an exact number, for comparison with a float. *)
Definition fz_compare (f : float) (n : Z) : option comparison :=
  match f with
  | S754_nan => None
  | S754_infinity s => Some (if s then Lt else Gt)
  | _ => match f_exact f with
         | Some a => Some (exact_compare a (n, 0))
         | None => None
         end
  end.

Definition f_leb (x y : float) : bool :=
  match f_compare x y with Some Lt | Some Eq => true | _ => false end.
Definition f_ltb (x y : float) : bool :=
  match f_compare x y with Some Lt => true | _ => false end.
Definition f_eqb (x y : float) : bool :=
  match f_compare x y with Some Eq => true | _ => false end.

Definition f_is_finite (f : float) : bool :=
  match f with S754_zero _ | S754_finite _ _ _ => true | _ => false end.

Definition f_is_zero (f : float) : bool :=
  match f with S754_zero _ => true | _ => false end.

(** Python's [max(a, b)] and [min(a, b)]: the second argument replaces the
    first only when strictly better. *)
Definition f_max (a b : float) : float := if f_ltb a b then b else a.
Definition f_min (a b : float) : float := if f_ltb b a then b else a.

(** ** Rounding to decimals *)

(** The integer nearest to [num / den], ties to even ([den > 0]). *)
Definition div_half_even (num den : Z) : Z :=
  let q := num / den in
  let r := num mod den in
  match Z.compare (2 * r) den with
  | Lt => q
  | Gt => q + 1
  | Eq => if Z.even q then q else q + 1
  end.

(** [m * 2^e * 10^k] as a ratio with a positive denominator. *)
Definition scaled_ratio (m e k : Z) : Z * Z :=
  (m * 2 ^ Z.max e 0 * 10 ^ Z.max k 0, 2 ^ Z.max (- e) 0 * 10 ^ Z.max (- k) 0).

(** [round(x, k)] for a float [x] and [k >= 0]: the exact binary value is
    rounded half to even at [k] decimals and read back. *)
Definition f_round (x : float) (k : nat) : float :=
  match x with
  | S754_finite s m e =>
      let '(num, den) := scaled_ratio (Zpos m) e (Z.of_nat k) in
      match div_half_even num den with
      | Zpos p => f_of_pos_ratio s p (Z.to_pos (10 ^ Z.of_nat k))
      | _ => S754_zero s
      end
  | _ => x
  end.

(** ** [repr] *)

(** The position [p] of the decimal point of [num/den]:
    [10^(p-1) <= num/den < 10^p]. Found by search from an estimate. *)
Fixpoint dec_point_go (fuel : nat) (num den p : Z) : Z :=
  match fuel with
  | O => p
  | S fuel' =>
      if num * 10 ^ Z.max (- p) 0 <? den * 10 ^ Z.max p 0 then
        if den * 10 ^ Z.max (p - 1) 0 <=? num * 10 ^ Z.max (1 - p) 0 then p
        else dec_point_go fuel' num den (p - 1)
      else dec_point_go fuel' num den (p + 1)
  end.

(** The estimate [bits * 30103 / 100000] is off by at most two. *)
Definition dec_point (m e : Z) : Z :=
  let '(num, den) := scaled_ratio m e 0 in
  dec_point_go 8 num den ((Z.log2 m + 1 + e) * 30103 / 100000).

(** The float nearest to [digits * 10^k]. *)
Definition f_of_digits (digits k : Z) : float :=
  match digits with
  | Zpos p =>
      if 0 <=? k then f_of_pos_ratio false (p * Z.to_pos (10 ^ k)) 1
      else f_of_pos_ratio false p (Z.to_pos (10 ^ (- k)))
  | _ => S754_zero false
  end.

(** The shortest digit string that reads back as [m * 2^e], the closest one
    among those of that length; 17 digits always suffice. *)
Fixpoint shortest_go (fuel : nat) (n m e p : Z) : Z * Z :=
  let k := n - p in
  let '(num, den) := scaled_ratio m e k in
  let best := div_half_even num den in
  let other := if best * den <=? num then best + 1 else best - 1 in
  match fuel with
  | O => (best, - k)
  | S fuel' =>
      let x := S754_finite false (Z.to_pos m) e in
      if f_eqb (f_of_digits best (- k)) x then (best, - k)
      else if f_eqb (f_of_digits other (- k)) x then (other, - k)
      else shortest_go fuel' (n + 1) m e p
  end.

Fixpoint strip_zeros (fuel : nat) (digits k : Z) : Z * Z :=
  match fuel with
  | O => (digits, k)
  | S fuel' => if (digits mod 10 =? 0) && negb (digits =? 0)
               then strip_zeros fuel' (digits / 10) (k + 1) else (digits, k)
  end.

Definition zeros (n : Z) : string := chars_str (replicate (Z.to_nat n) "0"%char).

(** [float.__repr__]: exponent notation when the decimal point is at or below
    -4 or above 16. *)
Definition f_repr (f : float) : string :=
  match f with
  | S754_nan => "nan"
  | S754_infinity s => if s then "-inf" else "inf"
  | S754_zero s => if s then "-0.0" else "0.0"
  | S754_finite s m e =>
      let '(d0, k0) := shortest_go 16 1 (Zpos m) e (dec_point (Zpos m) e) in
      let '(d, k) := strip_zeros 20 d0 k0 in
      let ds := str_of_Z d in
      let n := Z.of_nat (String.length ds) in
      let p := n + k in
      let body :=
        if (p <=? -4) || (16 <? p) then
          let ex := p - 1 in
          let mant :=
            match ds with
            | String c EmptyString => ds
            | String c rest => String c ("." +:+ rest)
            | EmptyString => ""
            end in
          mant +:+ "e" +:+ (if ex <? 0 then "-" else "+")
            +:+ (if Z.abs ex <? 10 then "0" else "") +:+ str_of_Z (Z.abs ex)
        else if p <=? 0 then "0." +:+ zeros (- p) +:+ ds
        else if n <=? p then ds +:+ zeros (p - n) +:+ ".0"
        else String.substring 0 (Z.to_nat p) ds +:+ "."
               +:+ str_drop (Z.to_nat p) ds in
      if s then "-" +:+ body else body
  end.

(** [f"{x:.0%}"] *)
Definition f_percent0 (x : float) : string :=
  match f_mul x (f_of_Z 100) with
  | S754_finite s m e =>
      let '(num, den) := scaled_ratio (Zpos m) e 0 in
      (if s then "-" else "") +:+ str_of_Z (div_half_even num den) +:+ "%"
  | S754_zero s => if s then "-0%" else "0%"
  | S754_infinity s => if s then "-inf%" else "inf%"
  | S754_nan => "nan%"
  end.
