(* ===== verification/PyValue.v ===== *)
(** * Python values

    The JSON-shaped values the modelled code passes around, with Python's
    equality, truth value, dictionary operations and [str]/[repr].
    Dictionaries keep insertion order, as Python's do. *)

From S2P Require Import Prelude PyFloat.

#[warnings="-register-all"]
Inductive value :=
  | VNone
  | VBool (b : bool)
  | VInt (z : Z)
  | VFloat (f : float)
  | VStr (s : string)
  | VList (l : list value)
  | VDict (d : list (string * value)).

Abbreviation dict := (list (string * value)).

(** Induction that goes under the list and dict constructors. *)
Section value_ind.
Variable P : value → Prop.
Hypothesis HNone : P VNone.
Hypothesis HBool : ∀ b, P (VBool b).
Hypothesis HInt : ∀ z, P (VInt z).
Hypothesis HFloat : ∀ f, P (VFloat f).
Hypothesis HStr : ∀ s, P (VStr s).
Hypothesis HList : ∀ l, Forall P l → P (VList l).
Hypothesis HDict : ∀ d, Forall (λ kv, P kv.2) d → P (VDict d).

Fixpoint value_deep_ind (v : value) : P v :=
  match v with
  | VNone => HNone
  | VBool b => HBool b
  | VInt z => HInt z
  | VFloat f => HFloat f
  | VStr s => HStr s
  | VList l =>
      HList l ((fix go l : Forall P l :=
                  match l with
                  | [] => Forall_nil_2 _
                  | x :: l' => Forall_cons_2 _ _ _ (value_deep_ind x) (go l')
                  end) l)
  | VDict d =>
      HDict d ((fix go d : Forall (λ kv, P kv.2) d :=
                  match d with
                  | [] => Forall_nil_2 _
                  | x :: d' => Forall_cons_2 _ _ _ (value_deep_ind x.2) (go d')
                  end) d)
  end.
End value_ind.

#[export] Instance float_eq_dec : EqDecision float.
Proof. change (EqDecision SpecFloat.spec_float). solve_decision. Defined.

#[export] Instance value_eq_dec : EqDecision value.
Proof.
  refine (fix go a b {struct a} : Decision (a = b) :=
    match a, b with
    | VNone, VNone => left eq_refl
    | VBool x, VBool y => cast_if (decide (x = y))
    | VInt x, VInt y => cast_if (decide (x = y))
    | VFloat x, VFloat y => cast_if (decide (x = y))
    | VStr x, VStr y => cast_if (decide (x = y))
    | VList x, VList y => cast_if (@list_eq_dec _ go x y)
    | VDict x, VDict y => cast_if (@list_eq_dec _ (@prod_eq_dec _ _ _ go) x y)
    | _, _ => right _
    end); clear go; congruence.
Defined.

(** ** Dictionaries *)

(** [d.get(k)], [None] when the key is absent. *)
Fixpoint dget (k : string) (d : dict) : option value :=
  match d with
  | [] => None
  | (k', v) :: d' => if String.eqb k k' then Some v else dget k d'
  end.

(** [d\[k\] = v]: an existing key keeps its position. *)
Fixpoint dset (k : string) (v : value) (d : dict) : dict :=
  match d with
  | [] => [(k, v)]
  | (k', v') :: d' => if String.eqb k k' then (k', v) :: d' else (k', v') :: dset k v d'
  end.

(** [d.pop(k, None)] *)
Fixpoint dpop (k : string) (d : dict) : dict :=
  match d with
  | [] => []
  | (k', v) :: d' => if String.eqb k k' then dpop k d' else (k', v) :: dpop k d'
  end.

(** [d.update(e)] *)
Definition dupdate (d e : dict) : dict := fold_left (λ acc kv, dset kv.1 kv.2 acc) e d.

(** [d.get(k)] as a Python value *)
Definition dgetN (k : string) (d : dict) : value := default VNone (dget k d).

(** [d.get(k, x)] *)
Definition dget_or (k : string) (x : value) (d : dict) : value := default x (dget k d).

(** [d\[k\]] *)
Definition ditem (k : string) (d : dict) : res value :=
  match dget k d with Some v => Ok v | None => raise KeyError k end.

Definition dhas (k : string) (d : dict) : bool :=
  match dget k d with Some _ => true | None => false end.

(** ** Truth and types *)

(** [bool(v)] *)
Definition truthy (v : value) : bool :=
  match v with
  | VNone => false
  | VBool b => b
  | VInt z => negb (z =? 0)
  | VFloat f => negb (f_is_zero f)
  | VStr s => negb (String.eqb s "")
  | VList l => match l with [] => false | _ => true end
  | VDict d => match d with [] => false | _ => true end
  end.

(** [a or b] *)
Definition py_or (a b : value) : value := if truthy a then a else b.

Definition is_none (v : value) : bool := match v with VNone => true | _ => false end.
Definition is_dict (v : value) : bool := match v with VDict _ => true | _ => false end.
Definition is_list (v : value) : bool := match v with VList _ => true | _ => false end.
Definition is_str (v : value) : bool := match v with VStr _ => true | _ => false end.

(** [v is True] and [v is False] *)
Definition is_true (v : value) : bool := match v with VBool true => true | _ => false end.
Definition is_false (v : value) : bool := match v with VBool false => true | _ => false end.

Definition as_dict (v : value) : option dict :=
  match v with VDict d => Some d | _ => None end.
Definition as_list (v : value) : option (list value) :=
  match v with VList l => Some l | _ => None end.
Definition as_str (v : value) : option string :=
  match v with VStr s => Some s | _ => None end.

(** [v if isinstance(v, dict) else {}], a recurring guard of the sources. *)
Definition dict_or_empty (v : value) : dict := default [] (as_dict v).

(** ** Equality

    Python's [==]: numbers compare by exact value across [bool], [int] and
    [float], dictionaries compare without regard to order. *)

Definition num_of (v : value) : option (Z + float) :=
  match v with
  | VBool b => Some (inl (Z.b2z b))
  | VInt z => Some (inl z)
  | VFloat f => Some (inr f)
  | _ => None
  end.

Definition num_compare (x y : Z + float) : option comparison :=
  match x, y with
  | inl a, inl b => Some (Z.compare a b)
  | inl a, inr f => option_map CompOpp (fz_compare f a)
  | inr f, inl a => fz_compare f a
  | inr f, inr g => f_compare f g
  end.

Definition num_eqb (x y : Z + float) : bool :=
  match num_compare x y with Some Eq => true | _ => false end.

Fixpoint py_eq (a b : value) {struct a} : bool :=
  match a with
  | VNone => match b with VNone => true | _ => false end
  | VStr s => match b with VStr t => String.eqb s t | _ => false end
  | VList l =>
      match b with
      | VList m =>
          (fix go l m : bool :=
             match l, m with
             | [], [] => true
             | x :: l', y :: m' => py_eq x y && go l' m'
             | _, _ => false
             end) l m
      | _ => false
      end
  | VDict d =>
      match b with
      | VDict e =>
          Nat.eqb (length d) (length e)
          && (fix go d : bool :=
                match d with
                | [] => true
                | (k, x) :: d' =>
                    match dget k e with Some y => py_eq x y | None => false end && go d'
                end) d
      | _ => false
      end
  | _ => match num_of a, num_of b with
         | Some x, Some y => num_eqb x y
         | _, _ => false
         end
  end.

(** [v == "s"] *)
Definition is_string (s : string) (v : value) : bool :=
  match v with VStr t => String.eqb s t | _ => false end.

(** [v in {"a", "b", ...}] *)
Definition str_in (v : value) (l : list string) : bool :=
  match v with VStr t => existsb (String.eqb t) l | _ => false end.

(** [v in S] for a set of strings: lists and dictionaries are unhashable. *)
Definition in_str_set (v : value) (l : list string) : res bool :=
  match v with
  | VList _ => raise TypeError "unhashable type: 'list'"
  | VDict _ => raise TypeError "unhashable type: 'dict'"
  | _ => Ok (str_in v l)
  end.

(** [s in l] for strings *)
Definition mem_str (s : string) (l : list string) : bool := existsb (String.eqb s) l.

(** ** [repr] and [str] *)

Definition hex_digit (n : Z) : ascii :=
  ascii_of_N (Z.to_N (if n <? 10 then 48 + n else 87 + n)).

(** [w] hexadecimal digits of [n]. *)
Fixpoint hex_pad (w : nat) (n : Z) : string :=
  match w with
  | O => ""
  | S w' => String (hex_digit ((n / 16 ^ Z.of_nat w') mod 16)) (hex_pad w' n)
  end.

Definition dquote : ascii := ascii_of_N 34.
Definition squote : ascii := ascii_of_N 39.
Definition bslash : ascii := ascii_of_N 92.

(** [repr] of a string, for printable non-ASCII text kept verbatim. *)
Definition repr_char (q c : ascii) : string :=
  let n := byte_z c in
  if n =? 92 then String bslash (String bslash "")
  else if Ascii.eqb c q then String bslash (String c "")
  else if n =? 9 then String bslash "t"
  else if n =? 10 then String bslash "n"
  else if n =? 13 then String bslash "r"
  else if (n <? 32) || (n =? 127) then String bslash (String "x"%char (hex_pad 2 n))
  else String c "".

Definition repr_str (s : string) : string :=
  let cs := str_chars s in
  let q := if existsb (Ascii.eqb squote) cs && negb (existsb (Ascii.eqb dquote) cs)
           then dquote else squote in
  String q (fold_right (λ c acc, repr_char q c +:+ acc) (String q "") cs).

Fixpoint py_repr (v : value) : string :=
  match v with
  | VNone => "None"
  | VBool b => if b then "True" else "False"
  | VInt z => str_of_Z z
  | VFloat f => f_repr f
  | VStr s => repr_str s
  | VList l => "[" +:+ str_join ", " (map py_repr l) +:+ "]"
  | VDict d =>
      "{" +:+ str_join ", "
        ((fix go d := match d with
                      | [] => []
                      | (k, x) :: d' => (repr_str k +:+ ": " +:+ py_repr x) :: go d'
                      end) d) +:+ "}"
  end.

(** [str(v)] *)
Definition py_str (v : value) : string :=
  match v with VStr s => s | _ => py_repr v end.

(** [str(exc)]: a [KeyError] shows the key. *)
Definition exc_str (e : exc) : string :=
  match exc_cls e with KeyError => repr_str (exc_msg e) | _ => exc_msg e end.

(** ** Whitespace

    [str.strip()] removes Unicode white space; the multi-byte characters are
    listed by their UTF-8 bytes. *)

Definition bytes (l : list Z) : list ascii := map (λ n, ascii_of_N (Z.to_N n)) l.

Definition multibyte_ws : list (list ascii) :=
  map bytes ([[194; 133]; [194; 160]; [225; 154; 128]; [226; 128; 168]; [226; 128; 169];
              [226; 128; 175]; [226; 129; 159]; [227; 128; 128]]
             ++ map (λ n, [226; 128; n]) [128; 129; 130; 131; 132; 133; 134; 135; 136; 137; 138]).

Definition is_ws (c : ascii) : bool :=
  let n := byte_z c in ((9 <=? n) && (n <=? 13)) || ((28 <=? n) && (n <=? 32)).

Fixpoint drop_prefix (p l : list ascii) : option (list ascii) :=
  match p, l with
  | [], _ => Some l
  | a :: p', b :: l' => if Ascii.eqb a b then drop_prefix p' l' else None
  | _, [] => None
  end.

Fixpoint first_prefix (ps : list (list ascii)) (l : list ascii) : option (list ascii) :=
  match ps with
  | [] => None
  | p :: ps' => match drop_prefix p l with Some r => Some r | None => first_prefix ps' l end
  end.

(** Each step drops at least one byte, so the length is enough fuel. *)
Fixpoint lstrip_go (ps : list (list ascii)) (fuel : nat) (l : list ascii) : list ascii :=
  match fuel with
  | O => l
  | S fuel' =>
      match l with
      | [] => []
      | c :: l' =>
          if is_ws c then lstrip_go ps fuel' l'
          else match first_prefix ps l with Some r => lstrip_go ps fuel' r | None => l end
      end
  end.

Definition str_strip (s : string) : string :=
  let l := str_chars s in
  let l1 := lstrip_go multibyte_ws (length l) l in
  let r := rev l1 in
  chars_str (rev (lstrip_go (map (@rev _) multibyte_ws) (length r) r)).

(** ASCII part of [str.lower()]; see the uses for why it is enough there. *)
Definition lower_char (c : ascii) : ascii :=
  let n := byte_z c in
  if (65 <=? n) && (n <=? 90) then ascii_of_N (Z.to_N (n + 32)) else c.
Definition str_lower (s : string) : string := chars_str (map lower_char (str_chars s)).

(** ** [int(v)] *)

Definition is_dec_digit (c : ascii) : bool :=
  let n := byte_z c in (48 <=? n) && (n <=? 57).

(** ASCII digits with single underscores between them. *)
Fixpoint int_digits (acc : Z) (after_digit : bool) (l : list ascii) : option Z :=
  match l with
  | [] => if after_digit then Some acc else None
  | c :: l' =>
      if is_dec_digit c then int_digits (acc * 10 + (byte_z c - 48)) true l'
      else if Ascii.eqb c "_" && after_digit
           then match l' with [] => None | _ => int_digits acc false l' end
           else None
  end.

Definition int_of_str (s : string) : option Z :=
  match str_chars (str_strip s) with
  | c :: l =>
      if Ascii.eqb c "-" then Z.opp <$> int_digits 0 false l
      else if Ascii.eqb c "+" then int_digits 0 false l
      else int_digits 0 false (c :: l)
  | [] => None
  end.

Definition py_int (v : value) : res Z :=
  match v with
  | VBool b => Ok (Z.b2z b)
  | VInt z => Ok z
  | VFloat f =>
      match f with
      | S754_nan => raise ValueError "cannot convert float NaN to integer"
      | S754_infinity _ => raise OverflowError "cannot convert float infinity to integer"
      | S754_zero _ => Ok 0
      | S754_finite s m e => let a := Z.shiftl (Zpos m) e in Ok (if s then - a else a)
      end
  | VStr s => match int_of_str s with
              | Some z => Ok z
              | None => raise ValueError ("invalid literal for int() with base 10: " +:+ repr_str s)
              end
  | VNone => raise TypeError "int() argument must be a string, a bytes-like object or a real number, not 'NoneType'"
  | VList _ => raise TypeError "int() argument must be a string, a bytes-like object or a real number, not 'list'"
  | VDict _ => raise TypeError "int() argument must be a string, a bytes-like object or a real number, not 'dict'"
  end.

(** ** Dictionary lemmas *)

Lemma dget_dset_eq k v d : dget k (dset k v d) = Some v.
Proof.
  induction d as [|[k' v'] d IH]; simpl; [by rewrite String.eqb_refl|].
  destruct (String.eqb k k') eqn:E; simpl; by rewrite E.
Qed.

Lemma dget_dset_ne k k' v d : String.eqb k k' = false → dget k (dset k' v d) = dget k d.
Proof.
  intros Hne. induction d as [|[k1 v1] d IH]; simpl; [by rewrite Hne|].
  destruct (String.eqb k' k1) eqn:E; simpl; [|by rewrite IH].
  apply String.eqb_eq in E as ->. by rewrite Hne.
Qed.

Lemma dget_dset k k' v d :
  dget k (dset k' v d) = if String.eqb k k' then Some v else dget k d.
Proof.
  destruct (String.eqb k k') eqn:E; [|by apply dget_dset_ne].
  apply String.eqb_eq in E as ->. apply dget_dset_eq.
Qed.

Lemma dget_app k d e :
  dget k (d ++ e) = match dget k d with Some v => Some v | None => dget k e end.
Proof. induction d as [|[k' v] d IH]; simpl; [done|]. by destruct (String.eqb k k'). Qed.

Lemma dget_dpop k k' d :
  dget k (dpop k' d) = if String.eqb k' k then None else dget k d.
Proof.
  induction d as [|[k1 v1] d IH]; simpl; [by destruct (String.eqb k' k)|].
  destruct (String.eqb k' k1) eqn:E1; simpl; rewrite IH.
  - apply String.eqb_eq in E1 as ->.
    destruct (String.eqb k1 k) eqn:E2; [done|].
    rewrite String.eqb_sym in E2. by rewrite E2.
  - destruct (String.eqb k k1) eqn:E2; [|done].
    apply String.eqb_eq in E2 as ->. by rewrite E1.
Qed.

Lemma dget_In k d v : dget k d = Some v → (k, v) ∈ d.
Proof.
  induction d as [|[k' v'] d IH]; simpl; [done|].
  destruct (String.eqb k k') eqn:E; intros H.
  - apply String.eqb_eq in E. simplify_eq. apply list_elem_of_here.
  - apply list_elem_of_further. auto.
Qed.

Lemma dgetN_Some k d v : dget k d = Some v → dgetN k d = v.
Proof. unfold dgetN. by intros ->. Qed.

Lemma dgetN_None k d : dget k d = None → dgetN k d = VNone.
Proof. unfold dgetN. by intros ->. Qed.

Lemma eqb_str_refl s : String.eqb s s = true. Proof. apply String.eqb_refl. Qed.

(** Rewrites lookups in updated dictionaries; the keys are literals, so the
    key comparisons compute. *)
Create Rewrite HintDb dict.
#[export] Hint Rewrite dget_dset dget_dpop : dict.

Ltac simp_dict := autorewrite with dict; cbn [String.eqb Ascii.eqb Bool.eqb dget].
Ltac simp_dict_in H := autorewrite with dict in H; cbn [String.eqb Ascii.eqb Bool.eqb dget] in H.

(** ** Equality on scalars *)

Lemma is_string_true s v : is_string s v = true → v = VStr s.
Proof. destruct v; simpl; try done. intros H. apply String.eqb_eq in H. by subst. Qed.

Lemma is_string_refl s : is_string s (VStr s) = true.
Proof. apply String.eqb_refl. Qed.

Lemma py_eq_str v s : py_eq v (VStr s) = true → v = VStr s.
Proof. destruct v; simpl; try done. intros H. apply String.eqb_eq in H. by subst. Qed.

Lemma py_eq_str_l v s : py_eq (VStr s) v = true → v = VStr s.
Proof. destruct v; simpl; try done. intros H. apply String.eqb_eq in H. by subst. Qed.

Lemma py_eq_VStr_refl s : py_eq (VStr s) (VStr s) = true.
Proof. apply String.eqb_refl. Qed.

Lemma py_eq_VInt a b : py_eq (VInt a) (VInt b) = (a =? b).
Proof. simpl. unfold num_eqb, num_compare. by destruct (Z.compare_spec a b); lia. Qed.

Lemma dgetN_dset k k' v d : dgetN k (dset k' v d) = if String.eqb k k' then v else dgetN k d.
Proof. unfold dgetN. rewrite dget_dset. by destruct (String.eqb k k'). Qed.
#[export] Hint Rewrite dgetN_dset : dict.

Lemma dgetN_ditem k d v : dgetN k d = v → v ≠ VNone → ditem k d = Ok v.
Proof. unfold dgetN, ditem. by destruct (dget k d); simpl; intros <-. Qed.

Lemma ditem_dgetN k d v : ditem k d = Ok v → dgetN k d = v.
Proof. unfold ditem, dgetN. destruct (dget k d); [by intros [= ->]|done]. Qed.

Lemma dset_same k v d : dget k d = Some v → dset k v d = d.
Proof.
  induction d as [|[k' v'] d IH]; cbn [dget dset]; [done|].
  destruct (String.eqb_spec k k') as [->|_]; intros H; [congruence|]. by rewrite IH.
Qed.

Lemma str_in_Ok v l : str_in v l = true → ∃ s, v = VStr s ∧ s ∈ l.
Proof.
  destruct v as [| | | |s| |]; try done. simpl. intros H.
  apply existsb_exists in H as (x & Hin & Hx). apply String.eqb_eq in Hx as <-.
  exists s. by rewrite list_elem_of_In.
Qed.

Lemma in_str_set_Ok v l : in_str_set v l = Ok true → ∃ s, v = VStr s ∧ s ∈ l.
Proof. intros H. apply str_in_Ok. by destruct v; simplify_eq/=. Qed.

(** Lookups in updated records, the keys being literals. *)
Ltac simp_rec := repeat (rewrite !dgetN_dset; cbn [String.eqb Ascii.eqb Bool.eqb]).

(** ** Access paths *)

(** [d.setdefault(k, v)]: the value and the dictionary with the key set. *)
Definition dsetdefault (k : string) (v : value) (d : dict) : value * dict :=
  match dget k d with Some w => (w, d) | None => (v, dset k v d) end.

(** The value under a path of keys. *)
Fixpoint dpath (ks : list string) (v : value) : option value :=
  match ks with
  | [] => Some v
  | k :: ks' =>
      match v with VDict d => match dget k d with Some w => dpath ks' w | None => None end
                 | _ => None end
  end.

(** ** Values of unknown type

    What the operations of the language do on a value whose type the source
    does not check. *)

(** [type(v).__name__] *)
Definition type_name (v : value) : string :=
  match v with
  | VNone => "NoneType"
  | VBool _ => "bool"
  | VInt _ => "int"
  | VFloat _ => "float"
  | VStr _ => "str"
  | VList _ => "list"
  | VDict _ => "dict"
  end.

(** [v.get(k)] *)
Definition py_get (v : value) (k : string) : res value :=
  match v with
  | VDict d => Ok (dgetN k d)
  | _ => raise AttributeError (repr_str (type_name v) +:+ " object has no attribute 'get'")
  end.

(** [v.get(key)] for a key of any type *)
Definition py_get_key (v key : value) : res value :=
  match v, key with
  | VDict _, (VList _ | VDict _) => raise TypeError ("unhashable type: " +:+ repr_str (type_name key))
  | _, VStr k => py_get v k
  | VDict _, _ => Ok VNone
  | _, _ => py_get v ""
  end.

(** [v\[k\]] for a string [k] *)
Definition subscript (v : value) (k : string) : res value :=
  match v with
  | VDict d => ditem k d
  | VStr _ | VList _ => raise TypeError "indices must be integers or slices, not str"
  | _ => raise TypeError (repr_str (type_name v) +:+ " object is not subscriptable")
  end.

(** [v\[k\] = x] *)
Definition set_item (v : value) (k : string) (x : value) : res value :=
  match v with
  | VDict d => Ok (VDict (dset k x d))
  | _ => raise TypeError (repr_str (type_name v) +:+ " object does not support item assignment")
  end.

(** [k in v] *)
Definition py_contains (k : string) (v : value) : res bool :=
  match v with
  | VDict d => Ok (dhas k d)
  | VList l => Ok (existsb (is_string k) l)
  | VStr s => Ok (str_contains k s)
  | _ => raise TypeError ("argument of type " +:+ repr_str (type_name v) +:+ " is not iterable")
  end.

(** [list(v)], the items a [for] loop over [v] visits *)
Definition py_iter (v : value) : res (list value) :=
  match v with
  | VList l => Ok l
  | VDict d => Ok (map (λ kv, VStr kv.1) d)
  | VStr s => Ok (map VStr (utf8_chars s))
  | _ => raise TypeError (repr_str (type_name v) +:+ " object is not iterable")
  end.

(** [dict(v)].  Of the sequences of pairs it also accepts only the empty ones
    are modelled; the others are refused here. *)
Definition py_dict (v : value) : res dict :=
  match v with
  | VDict d => Ok d
  | VList [] | VStr "" => Ok []
  | VList _ => raise TypeError "cannot convert dictionary update sequence element #0 to a sequence"
  | VStr _ => raise ValueError "dictionary update sequence element #0 has length 1; 2 is required"
  | _ => raise TypeError (repr_str (type_name v) +:+ " object is not iterable")
  end.

(** [v.append(x)] and [v.update(d)] *)
Definition py_append (v x : value) : res value :=
  match v with
  | VList l => Ok (VList (l ++ [x]))
  | _ => raise AttributeError (repr_str (type_name v) +:+ " object has no attribute 'append'")
  end.

Definition py_update (v : value) (d : dict) : res value :=
  match v with
  | VDict e => Ok (VDict (dupdate e d))
  | _ => raise AttributeError (repr_str (type_name v) +:+ " object has no attribute 'update'")
  end.
