(* ===== verification/Json.v ===== *)
(** * JSON serialization

    [json.dumps] with [sort_keys=True] and compact separators, in both the
    ASCII-only and the UTF-8 form, as used for every digest of the system. *)

From S2P Require Import Prelude PyFloat PyValue.
From Stdlib Require Import Sorted.

(** ** Key sorting

    [sort_keys=True] sorts each object by key.  The insertion sort is stable,
    so lookups are unaffected. *)

Fixpoint insert_key {A} (k : string) (v : A) (d : list (string * A)) : list (string * A) :=
  match d with
  | [] => [(k, v)]
  | (k', v') :: d' =>
      if str_leb k k' then (k, v) :: d else (k', v') :: insert_key k v d'
  end.

Definition sort_keys {A} (d : list (string * A)) : list (string * A) :=
  fold_right (λ kv acc, insert_key kv.1 kv.2 acc) [] d.

(** The value as it is read back after being written with sorted keys. *)
Fixpoint json_sort (v : value) : value :=
  match v with
  | VList l => VList (map json_sort l)
  | VDict d =>
      VDict (sort_keys
               ((fix go (d : dict) : dict :=
                   match d with
                   | [] => []
                   | (k, x) :: d' => (k, json_sort x) :: go d'
                   end) d))
  | _ => v
  end.

Definition map_values (f : value → value) (d : dict) : dict := map (λ kv, (kv.1, f kv.2)) d.

Definition sort_dict (d : dict) : dict := sort_keys (map_values json_sort d).

Lemma json_sort_some (v : value) : json_sort <$> Some v = Some (json_sort v).
Proof. done. Qed.

Lemma json_sort_dict d : json_sort (VDict d) = VDict (sort_dict d).
Proof.
  simpl. unfold sort_dict. do 2 f_equal.
  induction d as [|[k x] d IH]; simpl; [done | by rewrite IH].
Qed.

(** ** String escapes *)

(** The code points of a UTF-8 string. *)
Fixpoint code_points_go (fuel : nat) (l : list ascii) : list Z :=
  match fuel with
  | O => []
  | S fuel' =>
      match l with
      | [] => []
      | a :: l1 =>
          let n := byte_z a in
          if n <? 128 then n :: code_points_go fuel' l1
          else
            let cont b := byte_z b mod 64 in
            if n <? 224 then
              match l1 with
              | b :: l2 => ((n mod 32) * 64 + cont b) :: code_points_go fuel' l2
              | _ => [n]
              end
            else if n <? 240 then
              match l1 with
              | b :: c :: l2 =>
                  ((n mod 16) * 4096 + cont b * 64 + cont c) :: code_points_go fuel' l2
              | _ => [n]
              end
            else
              match l1 with
              | b :: c :: d :: l2 =>
                  ((n mod 8) * 262144 + cont b * 4096 + cont c * 64 + cont d)
                    :: code_points_go fuel' l2
              | _ => [n]
              end
      end
  end.

Definition code_points (s : string) : list Z :=
  let l := str_chars s in code_points_go (length l) l.

Definition u_escape (n : Z) : string := String bslash (String "u"%char (hex_pad 4 n)).

(** The two-character escapes, shared by both forms. *)
Definition short_escape (n : Z) : option string :=
  let esc (c : ascii) := Some (String bslash (String c "")) in
  if n =? 34 then esc dquote
  else if n =? 92 then esc bslash
  else if n =? 10 then esc "n"%char
  else if n =? 13 then esc "r"%char
  else if n =? 9 then esc "t"%char
  else if n =? 12 then esc "f"%char
  else if n =? 8 then esc "b"%char
  else None.

(** One code point with [ensure_ascii=True]. *)
Definition escape_ascii (n : Z) : string :=
  match short_escape n with
  | Some s => s
  | None =>
      if (32 <=? n) && (n <=? 126) then String (ascii_of_N (Z.to_N n)) ""
      else if n <? 65536 then u_escape n
      else let m := n - 65536 in
           u_escape (55296 + m / 1024) +:+ u_escape (56320 + m mod 1024)
  end.

(** One byte with [ensure_ascii=False]. *)
Definition escape_utf8 (c : ascii) : string :=
  match short_escape (byte_z c) with
  | Some s => s
  | None => if byte_z c <? 32 then u_escape (byte_z c) else String c ""
  end.

Definition quote (body : string) : string := String dquote (body +:+ String dquote "").

Definition json_string (ensure_ascii : bool) (s : string) : string :=
  quote (if ensure_ascii
         then fold_right (λ n acc, escape_ascii n +:+ acc) "" (code_points s)
         else fold_right (λ c acc, escape_utf8 c +:+ acc) "" (str_chars s)).

Definition json_float (f : float) : string :=
  match f with
  | S754_nan => "NaN"
  | S754_infinity s => if s then "-Infinity" else "Infinity"
  | _ => f_repr f
  end.

Fixpoint json_print (ea : bool) (v : value) : string :=
  match v with
  | VNone => "null"
  | VBool b => if b then "true" else "false"
  | VInt z => str_of_Z z
  | VFloat f => json_float f
  | VStr s => json_string ea s
  | VList l => "[" +:+ str_join "," (map (json_print ea) l) +:+ "]"
  | VDict d =>
      "{" +:+ str_join ","
        ((fix go (d : dict) : list string :=
            match d with
            | [] => []
            | (k, x) :: d' => (json_string ea k +:+ ":" +:+ json_print ea x) :: go d'
            end) d) +:+ "}"
  end.

(** [json.dumps(v, sort_keys=True, separators=(",", ":"), ensure_ascii=ea)] *)
Definition dumps (ea : bool) (v : value) : string := json_print ea (json_sort v).

(** [allow_nan=False] refuses values that hold a NaN or an infinity. *)
Fixpoint json_finite (v : value) : bool :=
  match v with
  | VFloat f => f_is_finite f
  | VList l => forallb json_finite l
  | VDict d => (fix go (d : dict) : bool :=
                  match d with [] => true | (_, x) :: d' => json_finite x && go d' end) d
  | _ => true
  end.

Definition nan_error : string := "Out of range float values are not JSON compliant".

Definition dumps_finite (ea : bool) (v : value) : res string :=
  if json_finite v then Ok (dumps ea v) else raise ValueError nan_error.

(** ** Facts *)

Lemma str_ltb_irrefl s : str_ltb s s = false.
Proof. induction s as [|c s IH]; simpl; [done|]. by rewrite Z.ltb_irrefl, Z.eqb_refl. Qed.

Lemma str_leb_refl s : str_leb s s = true.
Proof. unfold str_leb. by rewrite str_ltb_irrefl. Qed.

Lemma byte_z_inj a b : byte_z a = byte_z b → a = b.
Proof.
  unfold byte_z. intros H. apply (inj Z.of_N) in H.
  rewrite <- (ascii_N_embedding a), <- (ascii_N_embedding b). by rewrite H.
Qed.

Lemma str_ltb_trans s t u : str_ltb s t = true → str_ltb t u = true → str_ltb s u = true.
Proof.
  revert t u. induction s as [|a s IH]; intros [|b t] [|c u]; simpl; try done.
  repeat case_match; rewrite ?Z.ltb_lt, ?Z.ltb_ge, ?Z.eqb_eq, ?Z.eqb_neq in *;
    intros; try done; try lia; eauto.
Qed.

Lemma str_ltb_total s t : str_ltb s t = false → str_ltb t s = false → s = t.
Proof.
  revert t. induction s as [|a s IH]; intros [|b t]; simpl; try done.
  repeat case_match; rewrite ?Z.ltb_lt, ?Z.ltb_ge, ?Z.eqb_eq, ?Z.eqb_neq in *;
    intros; try done; try lia.
  f_equal; [by apply byte_z_inj | by apply IH].
Qed.

Lemma str_leb_total s t : str_leb s t = false → str_leb t s = true.
Proof.
  unfold str_leb. rewrite negb_false_iff, negb_true_iff. intros H.
  destruct (str_ltb s t) eqn:E; [|done].
  by rewrite <- (str_ltb_irrefl s), (str_ltb_trans s t s).
Qed.

Lemma str_leb_trans s t u : str_leb s t = true → str_leb t u = true → str_leb s u = true.
Proof.
  unfold str_leb. rewrite !negb_true_iff. intros H1 H2.
  destruct (str_ltb u s) eqn:E; [|done].
  destruct (str_ltb s t) eqn:E2.
  - by rewrite <- H2, (str_ltb_trans u s t).
  - by rewrite (str_ltb_total s t) in E by done; rewrite <- H2, E.
Qed.

Section sort_keys.
Context {A : Type}.
Implicit Types d : list (string * A).

(** Lookup in an association list of any type. *)
Fixpoint alookup (k : string) d : option A :=
  match d with
  | [] => None
  | (k', v) :: d' => if String.eqb k k' then Some v else alookup k d'
  end.

Lemma alookup_insert_key k k' v d :
  alookup k (insert_key k' v d) = if String.eqb k k' then Some v else alookup k d.
Proof.
  induction d as [|[k1 v1] d IH]; simpl; [done|].
  destruct (str_leb k' k1) eqn:E; simpl; [done|]. rewrite IH.
  destruct (String.eqb k k1) eqn:E1; [|done].
  destruct (String.eqb k k') eqn:E2; [|done].
  apply String.eqb_eq in E1 as ->. apply String.eqb_eq in E2 as ->.
  by rewrite str_leb_refl in E.
Qed.

Lemma alookup_sort_keys k d : alookup k (sort_keys d) = alookup k d.
Proof.
  induction d as [|[k1 v1] d IH]; simpl; [done|]. by rewrite alookup_insert_key, IH.
Qed.

Definition key_le (x y : string * A) : Prop := str_leb x.1 y.1 = true.

Lemma insert_key_sorted k v d : Sorted key_le d → Sorted key_le (insert_key k v d).
Proof.
  induction 1 as [|[k1 v1] d Hd IH Hhd]; simpl; [by repeat constructor|].
  destruct (str_leb k k1) eqn:E; [by repeat constructor|].
  apply str_leb_total in E. constructor; [done|].
  destruct d as [|[k2 v2] d]; simpl in *; [by constructor|].
  inversion Hhd; subst. destruct (str_leb k k2); by constructor.
Qed.

Lemma sort_keys_sorted d : Sorted key_le (sort_keys d).
Proof. induction d as [|[k v] d IH]; simpl; [constructor | by apply insert_key_sorted]. Qed.

Lemma sort_keys_id d : Sorted key_le d → sort_keys d = d.
Proof.
  induction 1 as [|[k v] d Hd IH Hhd]; simpl; [done|]. rewrite IH.
  destruct Hhd as [|[k1 v1] d Hle]; simpl; [done|]. unfold key_le in Hle; simpl in Hle.
  by rewrite Hle.
Qed.

Lemma length_insert_key k v d : length (insert_key k v d) = S (length d).
Proof. induction d as [|[k1 v1] d IH]; simpl; [done|]. case_match; simpl; auto. Qed.

Lemma length_sort_keys d : length (sort_keys d) = length d.
Proof. induction d as [|[k v] d IH]; simpl; [done|]. by rewrite length_insert_key, IH. Qed.
End sort_keys.

Lemma dget_alookup k (d : dict) : dget k d = alookup k d.
Proof. induction d as [|[k' v] d IH]; simpl; [done|]. by rewrite IH. Qed.

Lemma dget_map_values k f d : dget k (map_values f d) = f <$> dget k d.
Proof. induction d as [|[k' v] d IH]; simpl; [done|]. by destruct (String.eqb k k'). Qed.

(** Looking a key up in a sorted dictionary gives the sorted value. *)
Lemma dget_sort_dict k d : dget k (sort_dict d) = json_sort <$> dget k d.
Proof.
  unfold sort_dict. by rewrite dget_alookup, alookup_sort_keys, <- dget_alookup, dget_map_values.
Qed.

Lemma map_sort_keys (f : value → value) d :
  map_values f (sort_keys d) = sort_keys (map_values f d).
Proof.
  induction d as [|[k v] d IH]; simpl; [done|]. rewrite <- IH. clear.
  induction (sort_keys d) as [|[k1 v1] e IH]; simpl; [done|].
  destruct (str_leb k k1); simpl; [done|]. by rewrite IH.
Qed.

(** Sorting is idempotent: what was written sorted is read back unchanged. *)
Lemma json_sort_idem v : json_sort (json_sort v) = json_sort v.
Proof.
  induction v as [| | | | |l IH|d IH] using value_deep_ind; try done.
  - simpl. f_equal. rewrite map_map. induction IH; simpl; congruence.
  - rewrite !json_sort_dict. f_equal. unfold sort_dict at 1.
    unfold sort_dict. rewrite map_sort_keys.
    rewrite (sort_keys_id (sort_keys _)) by apply sort_keys_sorted.
    f_equal. unfold map_values. rewrite map_map. simpl.
    induction IH as [|[k x] d Hx _ IHd]; simpl in *; [done|]. by rewrite Hx, IHd.
Qed.

(** A digest input does not depend on the key order of the value. *)
Lemma dumps_json_sort ea v : dumps ea (json_sort v) = dumps ea v.
Proof. unfold dumps. by rewrite json_sort_idem. Qed.

Lemma json_finite_dict d : json_finite (VDict d) = forallb (λ kv, json_finite kv.2) d.
Proof. induction d as [|[k x] d IH]; simpl in *; [done | by rewrite IH]. Qed.

Lemma forallb_insert_key {A} (f : string * A → bool) k v d :
  forallb f (insert_key k v d) = f (k, v) && forallb f d.
Proof.
  induction d as [|[k1 v1] d IH]; simpl; [done|].
  destruct (str_leb k k1); simpl; [done|]. rewrite IH.
  by rewrite !andb_assoc, (andb_comm (f (k1, v1))).
Qed.

Lemma forallb_sort_keys {A} (f : string * A → bool) d : forallb f (sort_keys d) = forallb f d.
Proof. induction d as [|[k v] d IH]; simpl; [done|]. by rewrite forallb_insert_key, IH. Qed.

Lemma json_finite_sort v : json_finite (json_sort v) = json_finite v.
Proof.
  induction v as [| | | | |l IH|d IH] using value_deep_ind; try done.
  - simpl. induction IH; simpl; congruence.
  - rewrite json_sort_dict, !json_finite_dict. unfold sort_dict. rewrite forallb_sort_keys.
    induction IH as [|[k x] d Hx _ IHd]; simpl in *; [done|]. by rewrite Hx, IHd.
Qed.

Lemma dumps_finite_sort ea v : dumps_finite ea (json_sort v) = dumps_finite ea v.
Proof. unfold dumps_finite. by rewrite json_finite_sort, dumps_json_sort. Qed.

(** Removing a key commutes with sorting. *)
Lemma dpop_insert_key k k' v d :
  Sorted key_le d →
  dpop k (insert_key k' v d) = if String.eqb k k' then dpop k d else insert_key k' v (dpop k d).
Proof.
  induction 1 as [|[k1 v1] d Hd IH Hhd]; simpl; [by destruct (String.eqb k k')|].
  destruct (str_leb k' k1) eqn:E; simpl.
  - destruct (String.eqb k k') eqn:E1, (String.eqb k k1) eqn:E2; simpl; try done.
    + (* the head goes: insertion still comes first in a sorted list *)
      symmetry. assert (Hle : Forall (λ kv, str_leb k' kv.1 = true) (dpop k d)).
          { clear IH E1.
        assert (Hall : Forall (λ kv, str_leb k1 kv.1 = true) d).
        { assert (HS : Sorted key_le ((k1, v1) :: d)) by by constructor.
          apply Sorted_StronglySorted in HS; [by inversion HS|].
          intros x y z; unfold key_le; apply str_leb_trans. }
        clear Hd Hhd. induction Hall as [|[k2 v2] d H2 _ IHd]; simpl; [constructor|].
        destruct (String.eqb k k2); [done|]. constructor; [|done]. simpl in *.
        by apply str_leb_trans with k1. }
      destruct (dpop k d) as [|[k2 v2] e]; simpl; [done|]. inversion Hle; subst. simpl in *.
      by case_match.
    + by rewrite E.
  - rewrite IH. destruct (String.eqb k k1) eqn:E2, (String.eqb k k') eqn:E1; simpl; try done.
    by rewrite E.
Qed.

Lemma dpop_sort_keys k d : dpop k (sort_keys d) = sort_keys (dpop k d).
Proof.
  induction d as [|[k1 v1] d IH]; simpl; [done|].
  rewrite dpop_insert_key by apply sort_keys_sorted. rewrite IH.
  by destruct (String.eqb k k1).
Qed.

Lemma dpop_map_values k f d : dpop k (map_values f d) = map_values f (dpop k d).
Proof. induction d as [|[k1 v1] d IH]; simpl; [done|]. case_match; simpl; congruence. Qed.

Lemma dpop_sort_dict k d : dpop k (sort_dict d) = sort_dict (dpop k d).
Proof. unfold sort_dict. by rewrite dpop_sort_keys, dpop_map_values. Qed.

Lemma sort_dict_nil d : sort_dict d = [] ↔ d = [].
Proof.
  unfold sort_dict. rewrite <- !length_zero_iff_nil, length_sort_keys. unfold map_values.
  by rewrite length_map.
Qed.

Lemma dgetN_sort_dict k d : dgetN k (sort_dict d) = json_sort (dgetN k d).
Proof. unfold dgetN. rewrite dget_sort_dict. by destruct (dget k d). Qed.

Lemma is_string_sort s v : is_string s (json_sort v) = is_string s v.
Proof. by destruct v. Qed.

Lemma py_eq_sort_int v n : py_eq (json_sort v) (VInt n) = py_eq v (VInt n).
Proof. by destruct v. Qed.

Lemma py_eq_sort_str v s : py_eq (json_sort v) (VStr s) = py_eq v (VStr s).
Proof. by destruct v. Qed.

(** ** Reading back

    A value without NaN whose dictionaries have distinct keys is equal, in
    Python's sense, to what is read back after it was written. *)
Fixpoint plain (v : value) : bool :=
  match v with
  | VFloat f => f_is_finite f
  | VList l => forallb plain l
  | VDict d => bool_decide (NoDup (map fst d))
               && (fix go (d : dict) : bool :=
                     match d with [] => true | (_, x) :: d' => plain x && go d' end) d
  | _ => true
  end.

Lemma plain_dict d : plain (VDict d) = bool_decide (NoDup (map fst d)) && forallb (λ kv, plain kv.2) d.
Proof. cbn [plain]. f_equal. induction d as [|[k x] d IH]; simpl in *; [done | by rewrite IH]. Qed.

Lemma f_compare_refl f : f_is_finite f = true → f_compare f f = Some Eq.
Proof.
  destruct f as [s|s| |s m e]; try done. intros _. unfold f_compare. cbn [f_exact].
  unfold exact_compare. f_equal. destruct s; apply Z.compare_refl.
Qed.

Lemma num_eqb_refl v x : plain v = true → num_of v = Some x → num_eqb x x = true.
Proof.
  unfold num_eqb. destruct v; cbn; intros Hp [= <-]; cbn; rewrite ?Z.compare_refl; try done.
  by rewrite f_compare_refl.
Qed.

Lemma dget_NoDup (k : string) (v : value) (d : dict) :
  NoDup (map fst d) → (k, v) ∈ d → dget k d = Some v.
Proof.
  induction d as [|[k' v'] d IH]; cbn [map fst dget]; intros Hnd Hin; [by apply elem_of_nil in Hin|].
  apply NoDup_cons in Hnd as [Hk Hnd]. apply elem_of_cons in Hin as [[= -> ->]|Hin]; [by rewrite String.eqb_refl|].
  destruct (String.eqb_spec k k') as [->|_]; [|by apply IH].
  destruct Hk. apply list_elem_of_In, in_map_iff. exists (k', v). split; [done|by apply list_elem_of_In].
Qed.

Lemma insert_key_In {A} k (v : A) d kv : kv ∈ insert_key k v d ↔ kv = (k, v) ∨ kv ∈ d.
Proof.
  induction d as [|[k1 v1] d IH]; simpl; [by rewrite elem_of_cons|].
  destruct (str_leb k k1); [by rewrite elem_of_cons|]. rewrite !elem_of_cons, IH. tauto.
Qed.

Lemma sort_keys_In {A} (d : list (string * A)) kv : kv ∈ sort_keys d ↔ kv ∈ d.
Proof. induction d as [|[k v] d IH]; simpl; [done|]. by rewrite insert_key_In, IH, elem_of_cons. Qed.

Lemma py_eq_dict_intro (d e : dict) :
  length d = length e → (∀ k x, (k, x) ∈ d → ∃ y, dget k e = Some y ∧ py_eq x y = true) →
  py_eq (VDict d) (VDict e) = true.
Proof.
  intros Hlen Hall. cbn [py_eq]. rewrite Hlen, Nat.eqb_refl. cbn [andb]. clear Hlen. revert Hall.
  induction d as [|[k x] d IH]; intros Hall; [done|].
  destruct (Hall k x) as (y & -> & ->); [apply list_elem_of_here|]. cbn [andb]. apply IH.
  intros k' x' Hin. apply Hall. by apply list_elem_of_further.
Qed.

Lemma py_eq_read_back v : plain v = true → py_eq (json_sort v) v = true.
Proof.
  induction v as [| | | | |l IH|d IH] using value_deep_ind; intros Hp; try done.
  - by apply (num_eqb_refl (VBool b)).
  - by apply (num_eqb_refl (VInt z)).
  - by apply (num_eqb_refl (VFloat f)).
  - apply String.eqb_refl.
  - cbn [json_sort py_eq plain] in *. induction IH as [|x l Hx _ IHl]; [done|].
    cbn [map forallb] in *. apply andb_true_iff in Hp as [Hp1 Hp2]. by rewrite Hx, IHl.
  - rewrite plain_dict in Hp. apply andb_true_iff in Hp as [Hnd%bool_decide_eq_true Hp].
    rewrite forallb_forall in Hp. rewrite Forall_forall in IH. rewrite json_sort_dict.
    apply py_eq_dict_intro.
    + unfold sort_dict, map_values. by rewrite length_sort_keys, length_map.
    + intros k x Hin. apply sort_keys_In, list_elem_of_In, in_map_iff in Hin as ([k' y] & [= -> <-] & Hin).
      exists y. apply list_elem_of_In in Hin. split; [by apply dget_NoDup|].
      apply (IH _ Hin). apply (Hp (k, y)). by apply list_elem_of_In.
Qed.
