(* ===== verification/PyNumbers.v ===== *)
(** * Numbers of unknown type

    Division, order and conversion on values whose type the source does not
    check, and the order of floats.  [float()] reads a string of ASCII digits;
    the decimal digits of other scripts, which Python reads too, are refused. *)

From S2P Require Import Prelude PyFloat PyValue Json.
From Stdlib Require Import Sorted.

(** [v / n] for [n > 0]: the quotient of two integers is the nearest float, or
    raises above the largest one; a float is divided by the nearest float to
    [n]. *)
Definition py_truediv (v : value) (n : Z) : res float :=
  match num_of v with
  | Some (inl z) =>
      raise_if (2 ^ 1024 - 2 ^ 970) * n <=? Z.abs z
        with OverflowError "integer division result too large for a float";
      Ok (int_truediv z (Z.to_pos n))
  | Some (inr x) =>
      raise_if 2 ^ 1024 - 2 ^ 970 <=? n with OverflowError "int too large to convert to float";
      Ok (f_div x (f_of_Z n))
  | None => raise TypeError ("unsupported operand type(s) for /: " +:+ repr_str (type_name v) +:+ " and 'int'")
  end.

(** [a >= b] for numbers *)
Definition py_ge (a : value) (b : Z + float) : res bool :=
  match num_of a with
  | Some x => Ok (match num_compare x b with Some Lt | None => false | _ => true end)
  | None => raise TypeError ("'>=' not supported between instances of " +:+ repr_str (type_name a))
  end.

(** A run of digits with single underscores between them: its value after
    [acc], how many digits it has after [n], and what follows it. *)
Fixpoint digit_part (acc n : Z) (after_digit : bool) (l : list ascii) : Z * Z * list ascii :=
  match l with
  | c :: l' =>
      if is_dec_digit c then digit_part (acc * 10 + (byte_z c - 48)) (n + 1) true l'
      else
        match l' with
        | d :: _ => if Ascii.eqb c "_" && after_digit && is_dec_digit d then digit_part acc n false l' else (acc, n, l)
        | [] => (acc, n, l)
        end
  | [] => (acc, n, l)
  end.

(** The exponent after a mantissa: [None] when what follows is none. *)
Definition exponent_part (l : list ascii) : option Z :=
  match l with
  | [] => Some 0
  | c :: l' =>
      if Ascii.eqb (lower_char c) "e" then
        let '(s, l'') := match l' with
                         | d :: m => if Ascii.eqb d "-" then (-1, m) else if Ascii.eqb d "+" then (1, m) else (1, l')
                         | [] => (1, [])
                         end in
        match digit_part 0 0 false l'' with
        | (e, n, []) => if n =? 0 then None else Some (s * e)
        | _ => None
        end
      else None
  end.

Definition unsigned_float (l : list ascii) : option float :=
  let word := chars_str (map lower_char l) in
  if String.eqb word "inf" || String.eqb word "infinity" then Some (S754_infinity false)
  else if String.eqb word "nan" then Some S754_nan
  else
    let '(i, n, l) := digit_part 0 0 false l in
    let '(m, n', l) :=
      match l with
      | c :: l' => if Ascii.eqb c "." then digit_part i n false l' else (i, n, l)
      | [] => (i, n, l)
      end in
    if n' =? 0 then None
    else e ← exponent_part l; Some (f_of_digits m (e - (n' - n))).

(** [float(s)] *)
Definition float_of_str (s : string) : option float :=
  match str_chars (str_strip s) with
  | c :: l =>
      if Ascii.eqb c "-" then SFopp <$> unsigned_float l
      else if Ascii.eqb c "+" then unsigned_float l
      else unsigned_float (c :: l)
  | [] => None
  end.

(** [float(v)] *)
Definition py_float (v : value) : res float :=
  match v with
  | VFloat f => Ok f
  | VInt z =>
      raise_if 2 ^ 1024 - 2 ^ 970 <=? Z.abs z with OverflowError "int too large to convert to float";
      Ok (f_of_Z z)
  | VBool b => Ok (f_of_Z (Z.b2z b))
  | VStr s =>
      match float_of_str s with
      | Some f => Ok f
      | None => raise ValueError ("could not convert string to float: " +:+ repr_str s)
      end
  | _ => raise TypeError ("float() argument must be a string or a real number, not " +:+ repr_str (type_name v))
  end.

Example float_reads :
  map float_of_str [" 2.5 "; "-1_0e-1"; ".5"; "1."; "INF"; "1__0"; "1_.5"; "e5"; "."; "0x1"]
  = [Some (f_of_ratio 5 2); Some (f_of_Z (-1)); Some (f_of_ratio 1 2); Some (f_of_Z 1); Some (S754_infinity false);
     None; None; None; None; None].
Proof. vm_compute. reflexivity. Qed.

(** ** The order of floats *)

(** [max(0.0, min(x, 1.0))] *)
Definition f_clamp (x : float) : float := f_max (S754_zero false) (f_min x (f_of_Z 1)).

Lemma exact_compare_antisym x y : exact_compare y x = CompOpp (exact_compare x y).
Proof.
  destruct x as [m1 e1], y as [m2 e2]. unfold exact_compare. rewrite (Z.min_comm e2 e1).
  apply Z.compare_antisym.
Qed.

Lemma f_compare_antisym x y : f_compare y x = CompOpp <$> f_compare x y.
Proof.
  destruct x as [sx|[]| |sx mx ex], y as [sy|[]| |sy my ey]; try reflexivity;
    unfold f_compare, f_exact; cbn [fmap option_fmap option_map]; f_equal; apply exact_compare_antisym.
Qed.

Lemma f_ltb_leb x y : f_ltb x y = true → f_leb x y = true.
Proof. unfold f_ltb, f_leb. by destruct (f_compare x y) as [[]|]. Qed.

(** A number that is comparable and not above is below. *)
Lemma f_not_ltb_leb x y : f_ltb x y = false → f_compare x y ≠ None → f_leb y x = true.
Proof.
  unfold f_ltb, f_leb. rewrite (f_compare_antisym x y). by destruct (f_compare x y) as [[]|].
Qed.

Lemma f_compare_some x y z : f_compare x y ≠ None → f_compare z z ≠ None → f_compare z y ≠ None.
Proof.
  destruct x as [|[]| |], y as [|[]| |], z as [|[]| |]; cbn; intros H1 H2; try done.
Qed.

(** Clamping any float, a NaN included, gives a number between 0 and 1. *)
Lemma f_clamp_bounds x :
  f_leb (S754_zero false) (f_clamp x) = true ∧ f_leb (f_clamp x) (f_of_Z 1) = true.
Proof.
  unfold f_clamp, f_max. destruct (f_ltb (S754_zero false) (f_min x (f_of_Z 1))) eqn:H0.
  - split; [by apply f_ltb_leb|]. unfold f_min in *.
    destruct (f_ltb (f_of_Z 1) x) eqn:H1; [reflexivity|].
    apply f_not_ltb_leb; [done|].
    apply (f_compare_some (S754_zero false)); [|done].
    unfold f_ltb in H0. by destruct (f_compare (S754_zero false) x).
  - split; reflexivity.
Qed.

(** * Sorted lists and sets of strings

    [sorted(l)] and [sorted(set(l))], in which the packets list their blockers,
    references and missing items. *)

(** [sorted(l)] *)
Definition sort_strings (l : list string) : list string := map fst (sort_keys (map (λ s, (s, ())) l)).

(** [sorted(set(l))] *)
Definition sorted_set (l : list string) : list string := sort_strings (remove_dups l).

(** [sorted(set(a) - set(b))] *)
Definition sorted_diff (a b : list string) : list string :=
  sorted_set (List.filter (λ s, negb (mem_str s b)) a).

Lemma mem_str_elem s l : mem_str s l = true ↔ s ∈ l.
Proof.
  unfold mem_str. rewrite existsb_exists. split.
  - intros (x & Hx & ->%String.eqb_eq). by apply list_elem_of_In.
  - intros H. exists s. split; [by apply list_elem_of_In|]. apply String.eqb_refl.
Qed.

Lemma sort_strings_elem l s : s ∈ sort_strings l ↔ s ∈ l.
Proof.
  unfold sort_strings. rewrite list_elem_of_fmap. split.
  - intros ([x []] & -> & H). apply sort_keys_In, list_elem_of_fmap in H as (y & [= ->] & H). done.
  - intros H. exists (s, ()). split; [done|]. apply sort_keys_In, list_elem_of_fmap. eauto.
Qed.

Lemma sorted_set_elem l s : s ∈ sorted_set l ↔ s ∈ l.
Proof. unfold sorted_set. by rewrite sort_strings_elem, elem_of_remove_dups. Qed.

Lemma sorted_diff_elem a b s : s ∈ sorted_diff a b ↔ s ∈ a ∧ s ∉ b.
Proof.
  unfold sorted_diff. rewrite sorted_set_elem, <- (mem_str_elem s b), !list_elem_of_In, filter_In.
  rewrite negb_true_iff, not_true_iff_false. tauto.
Qed.

Lemma length_sort_strings l : length (sort_strings l) = length l.
Proof. unfold sort_strings. by rewrite length_map, length_sort_keys, length_map. Qed.

Lemma sorted_set_nil l : sorted_set l = [] ↔ l = [].
Proof.
  rewrite <- !length_zero_iff_nil. unfold sorted_set. rewrite length_sort_strings.
  rewrite !length_zero_iff_nil. split; [|by intros ->].
  destruct l as [|x l]; [done|]. intros H.
  assert (x ∈ remove_dups (x :: l)) as Hx by (apply elem_of_remove_dups; left).
  rewrite H in Hx. by apply elem_of_nil in Hx.
Qed.

Lemma sorted_diff_nil a b : sorted_diff a b = [] ↔ ∀ s, s ∈ a → s ∈ b.
Proof.
  split.
  - intros H s Hs. destruct (decide (s ∈ b)) as [|Hn]; [done|].
    assert (s ∈ sorted_diff a b) as Hx by by apply sorted_diff_elem.
    rewrite H in Hx. by apply elem_of_nil in Hx.
  - intros H. destruct (sorted_diff a b) as [|s l] eqn:E; [done|].
    assert (s ∈ sorted_diff a b) as Hs by (rewrite E; left).
    apply sorted_diff_elem in Hs as [Ha Hb]. by destruct Hb; apply H.
Qed.

(** The items come without repetition, in order. *)
Lemma sort_strings_NoDup l : NoDup l → NoDup (sort_strings l).
Proof.
  unfold sort_strings. induction l as [|x l IH]; simpl; [constructor|]. intros [Hx Hl]%NoDup_cons.
  specialize (IH Hl).
  assert (∀ (m : list (string * unit)), x ∉ map fst m → NoDup (map fst m) →
    NoDup (map fst (insert_key x () m))) as Hins.
  { clear. induction m as [|[k u] m IH]; intros Hx Hm; cbn [insert_key].
    - constructor; [apply not_elem_of_nil|constructor].
    - cbn [map fst] in Hx, Hm. apply not_elem_of_cons in Hx as [Hk Hx].
      apply NoDup_cons in Hm as [Hkm Hm]. destruct (str_leb x k); cbn [map fst].
      + apply NoDup_cons. split; [|by apply NoDup_cons].
        by apply not_elem_of_cons.
      + apply NoDup_cons. split; [|by apply IH].
        intros ([k' v'] & -> & Hin)%list_elem_of_fmap. apply insert_key_In in Hin as [[= -> _]|Hin].
        * done.
        * apply Hkm. apply list_elem_of_fmap. by exists (k', v'). }
  apply Hins; [|done]. intros H. apply Hx.
  pose proof (sort_strings_elem l x) as Hs. unfold sort_strings in Hs. by apply Hs.
Qed.

Lemma sorted_set_NoDup l : NoDup (sorted_set l).
Proof. apply sort_strings_NoDup, NoDup_remove_dups. Qed.
