(* ===== verification/Sha256.v ===== *)
(** * SHA-256 and HMAC-SHA-256

    Executable definitions of [hashlib.sha256(...).hexdigest()] and
    [hmac.new(key, msg, hashlib.sha256).hexdigest()] (FIPS 180-4, RFC 2104),
    on strings of bytes. *)

From S2P Require Import Prelude PyFloat PyValue.
#[local] Open Scope N_scope.

Definition mask32 : N := 4294967295.
Definition add32 (x y : N) : N := N.land (x + y) mask32.
Definition rotr (n x : N) : N :=
  N.lor (N.shiftr x n) (N.land (N.shiftl x (32 - n)) mask32).

Definition ch (x y z : N) : N := N.lxor (N.land x y) (N.land (N.lxor x mask32) z).
Definition maj (x y z : N) : N :=
  N.lxor (N.lxor (N.land x y) (N.land x z)) (N.land y z).
Definition big_sigma0 (x : N) : N := N.lxor (N.lxor (rotr 2 x) (rotr 13 x)) (rotr 22 x).
Definition big_sigma1 (x : N) : N := N.lxor (N.lxor (rotr 6 x) (rotr 11 x)) (rotr 25 x).
Definition small_sigma0 (x : N) : N := N.lxor (N.lxor (rotr 7 x) (rotr 18 x)) (N.shiftr x 3).
Definition small_sigma1 (x : N) : N := N.lxor (N.lxor (rotr 17 x) (rotr 19 x)) (N.shiftr x 10).

(** The round constants: fractional parts of the cube roots of the first
    sixty-four primes. *)
Definition round_constants : list N :=
  [1116352408; 1899447441; 3049323471; 3921009573; 961987163; 1508970993; 2453635748;
   2870763221; 3624381080; 310598401; 607225278; 1426881987; 1925078388; 2162078206;
   2614888103; 3248222580; 3835390401; 4022224774; 264347078; 604807628; 770255983;
   1249150122; 1555081692; 1996064986; 2554220882; 2821834349; 2952996808; 3210313671;
   3336571891; 3584528711; 113926993; 338241895; 666307205; 773529912; 1294757372;
   1396182291; 1695183700; 1986661051; 2177026350; 2456956037; 2730485921; 2820302411;
   3259730800; 3345764771; 3516065817; 3600352804; 4094571909; 275423344; 430227734;
   506948616; 659060556; 883997877; 958139571; 1322822218; 1537002063; 1747873779;
   1955562222; 2024104815; 2227730452; 2361852424; 2428436474; 2756734187; 3204031479;
   3329325298].

Record hash_state := HS { ha : N; hb : N; hc : N; hd : N; he : N; hf : N; hg : N; hh : N }.

Definition initial_state : hash_state :=
  HS 1779033703 3144134277 1013904242 2773480762 1359893119 2600822924 528734635 1541459225.

Definition round (s : hash_state) (k w : N) : hash_state :=
  let t1 := add32 (add32 (add32 (hh s) (big_sigma1 (he s))) (ch (he s) (hf s) (hg s)))
                  (add32 k w) in
  let t2 := add32 (big_sigma0 (ha s)) (maj (ha s) (hb s) (hc s)) in
  HS (add32 t1 t2) (ha s) (hb s) (hc s) (add32 (hd s) t1) (he s) (hf s) (hg s).

(** The next word of the message schedule, from a window of sixteen. *)
Definition schedule_next (w : list N) : N :=
  add32 (add32 (small_sigma1 (nth 14 w 0)) (nth 9 w 0))
        (add32 (small_sigma0 (nth 1 w 0)) (nth 0 w 0)).

Fixpoint rounds (ks w : list N) (s : hash_state) : hash_state :=
  match ks, w with
  | k :: ks', x :: w' => rounds ks' (w' ++ [schedule_next w]) (round s k x)
  | _, _ => s
  end.

Definition compress (s : hash_state) (block : list N) : hash_state :=
  let r := rounds round_constants block s in
  HS (add32 (ha s) (ha r)) (add32 (hb s) (hb r)) (add32 (hc s) (hc r)) (add32 (hd s) (hd r))
     (add32 (he s) (he r)) (add32 (hf s) (hf r)) (add32 (hg s) (hg r)) (add32 (hh s) (hh r)).

(** Big-endian bytes of [n]. *)
Fixpoint be_bytes (k : nat) (n : N) : list N :=
  match k with
  | O => []
  | S k' => N.land (N.shiftr n (8 * N.of_nat k')) 255 :: be_bytes k' n
  end.

Fixpoint words (l : list N) : list N :=
  match l with
  | a :: b :: c :: d :: l' =>
      (N.shiftl a 24 + N.shiftl b 16 + N.shiftl c 8 + d) :: words l'
  | _ => []
  end.

(** The message, the bit 1, zeros up to 56 modulo 64, the length in bits. *)
Definition pad (msg : list N) : list N :=
  let n := length msg in
  let z := ((119 - n mod 64) mod 64)%nat in
  msg ++ 128 :: replicate z 0 ++ be_bytes 8 (8 * N.of_nat n).

(** One block of sixteen words per step; the word count bounds the steps. *)
Fixpoint blocks (fuel : nat) (ws : list N) (s : hash_state) : hash_state :=
  match fuel with
  | O => s
  | S fuel' =>
      match ws with
      | [] => s
      | _ => blocks fuel' (drop 16 ws) (compress s (take 16 ws))
      end
  end.

Definition sha256_bytes (msg : list N) : list N :=
  let ws := words (pad msg) in
  let s := blocks (S (length ws / 16)) ws initial_state in
  concat (map (be_bytes 4) [ha s; hb s; hc s; hd s; he s; hf s; hg s; hh s]).

Definition str_bytes (s : string) : list N := map N_of_ascii (str_chars s).

Fixpoint hex_bytes (l : list N) : string :=
  match l with
  | [] => ""
  | b :: l' => hex_pad 2 (Z.of_N b) +:+ hex_bytes l'
  end.

(** [hashlib.sha256(s).hexdigest()] *)
Definition sha256_hex (s : string) : string := hex_bytes (sha256_bytes (str_bytes s)).

(** [hmac.new(key, msg, hashlib.sha256).hexdigest()] *)
Definition hmac_block_key (key : list N) : list N :=
  let k := if (64 <? length key)%nat then sha256_bytes key else key in
  k ++ replicate (64 - length k) 0.

Definition hmac_sha256_hex (key msg : string) : string :=
  let k := hmac_block_key (str_bytes key) in
  let inner := sha256_bytes (map (N.lxor 54) k ++ str_bytes msg) in
  hex_bytes (sha256_bytes (map (N.lxor 92) k ++ inner)).

(** ** Test vectors *)

Example sha256_empty :
  sha256_hex "" = "e3b0c44298fc1c149afbf4c8996fb92427ae41e4649b934ca495991b7852b855".
Proof. vm_compute. reflexivity. Qed.

Example sha256_abc :
  sha256_hex "abc" = "ba7816bf8f01cfea414140de5dae2223b00361a396177a9cb410ff61f20015ad".
Proof. vm_compute. reflexivity. Qed.

Example hmac_jefe :
  hmac_sha256_hex "Jefe" "what do ya want for nothing?"
  = "5bdcc146bf60754e6a042426089575c75a003f089d2739839dec58b964ec3843".
Proof. vm_compute. reflexivity. Qed.

(** ** Shape of a digest *)

Definition is_hex (c : ascii) : bool :=
  let n := byte_z c in
  ((48 <=? n)%Z && (n <=? 57)%Z) || ((97 <=? n)%Z && (n <=? 102)%Z).

(** The pattern [^\[0-9a-f\]{n}$] under [re.fullmatch]. *)
Definition is_hex_string (n : nat) (s : string) : bool :=
  Nat.eqb (String.length s) n && forallb is_hex (str_chars s).

Lemma is_hex_digit n : (0 <= n < 16)%Z → is_hex (hex_digit n) = true.
Proof.
  intros H.
  assert (Hall : forallb (λ k, is_hex (hex_digit (Z.of_nat k))) (seq 0 16) = true)
    by (vm_compute; reflexivity).
  rewrite forallb_forall in Hall. specialize (Hall (Z.to_nat n)).
  rewrite Z2Nat.id in Hall by lia. apply Hall, in_seq. lia.
Qed.

Lemma hex_pad_shape w n :
  String.length (hex_pad w n) = w ∧ forallb is_hex (str_chars (hex_pad w n)) = true.
Proof.
  induction w as [|w [IH1 IH2]]; [done|]. cbn [hex_pad String.length str_chars forallb].
  rewrite IH1, IH2, is_hex_digit; [done|]. apply Z.mod_pos_bound. lia.
Qed.

Lemma str_length_app s t :
  String.length (s +:+ t) = (String.length s + String.length t)%nat.
Proof. induction s as [|c s IH]; simpl; [done | by rewrite IH]. Qed.

Lemma str_chars_app s t : str_chars (s +:+ t) = str_chars s ++ str_chars t.
Proof. induction s as [|c s IH]; simpl; [done | by rewrite IH]. Qed.

Lemma hex_bytes_shape l :
  String.length (hex_bytes l) = (2 * length l)%nat
  ∧ forallb is_hex (str_chars (hex_bytes l)) = true.
Proof.
  induction l as [|b l [IH1 IH2]]; [done|]. cbn [hex_bytes length].
  destruct (hex_pad_shape 2 (Z.of_N b)) as [H1 H2].
  rewrite str_length_app, str_chars_app, forallb_app, H1, H2, IH1, IH2. split; [lia | done].
Qed.

Lemma length_be_bytes k n : length (be_bytes k n) = k.
Proof. induction k; simpl; auto. Qed.

Lemma length_sha256_bytes msg : length (sha256_bytes msg) = 32%nat.
Proof. unfold sha256_bytes. cbn [map concat]. by rewrite !length_app, !length_be_bytes. Qed.

Lemma sha256_hex_shape s : is_hex_string 64 (sha256_hex s) = true.
Proof.
  unfold is_hex_string, sha256_hex.
  destruct (hex_bytes_shape (sha256_bytes (str_bytes s))) as [-> ->].
  by rewrite length_sha256_bytes.
Qed.

Lemma hmac_hex_shape key msg : is_hex_string 64 (hmac_sha256_hex key msg) = true.
Proof.
  unfold is_hex_string, hmac_sha256_hex. cbv zeta.
  match goal with |- context [hex_bytes ?l] => destruct (hex_bytes_shape l) as [-> ->] end.
  by rewrite length_sha256_bytes.
Qed.

#[global] Arguments sha256_bytes : simpl never.
#[global] Arguments sha256_hex : simpl never.
#[global] Arguments hmac_sha256_hex : simpl never.
