(* ===== verification/Paths.v ===== *)
(** * Paths and files

    The parts of [pathlib] and of the file system the repo-patch code uses, as
    CPython 3.11 implements them on Linux: pure paths, [resolve] with its
    treatment of symbolic links and link loops, the kernel's own path walk, and
    reading and atomically replacing files.  Permissions are not modelled;
    whether the disk accepts a write is an argument.  The message of an
    [OSError] is the path alone. *)

From S2P Require Import Prelude PyFloat PyValue Sha256.
From stdpp Require Import gmap.
#[local] Open Scope Z_scope.

(** ** Pure paths *)

Record path := Path { p_root : string; p_parts : list string }.

#[export] Instance path_eq_dec : EqDecision path.
Proof. solve_decision. Defined.

Definition slash : ascii := "/"%char.

(** [s.split("/")] *)
Fixpoint split_slash (s : string) : list string :=
  match s with
  | EmptyString => [""]
  | String c s' =>
      let rest := split_slash s' in
      if Ascii.eqb c slash then "" :: rest
      else match rest with [] => [String c ""] | w :: ws => String c w :: ws end
  end.

(** The components: empty ones and dots are dropped, double dots stay. *)
Definition path_parts (s : string) : list string :=
  List.filter (λ w, negb (String.eqb w "" || String.eqb w ".")) (split_slash s).

(** Exactly two leading slashes are a root of their own. *)
Definition path_root (s : string) : string :=
  if String.prefix "//" s && negb (String.prefix "///" s) then "//"
  else if String.prefix "/" s then "/" else "".

(** [Path(s)] and [str(p)] *)
Definition parse_path (s : string) : path := Path (path_root s) (path_parts s).

Definition path_str (p : path) : string :=
  match p_root p, p_parts p with
  | "", [] => "."
  | root, parts => root +:+ str_join "/" parts
  end.

Definition is_absolute (p : path) : bool := negb (String.eqb (p_root p) "").

(** [p / q] *)
Definition path_join (p q : path) : path :=
  if is_absolute q then q else Path (p_root p) (p_parts p ++ p_parts q).

(** [p.relative_to(q)], [None] for [ValueError]. *)
Fixpoint drop_parts (q p : list string) : option (list string) :=
  match q, p with
  | [], _ => Some p
  | a :: q', b :: p' => if String.eqb a b then drop_parts q' p' else None
  | _ :: _, [] => None
  end.

Definition relative_to (p q : path) : option path :=
  if String.eqb (p_root p) (p_root q)
  then match drop_parts (p_parts q) (p_parts p) with Some r => Some (Path "" r) | None => None end
  else None.

(** ** The file system *)

(** A node by its location, the list of names from the root; the root itself is
    always a directory. *)
Inductive node :=
  | NFile (content : string)
  | NDir
  | NLink (target : string).

Abbreviation nodes := (gmap (list string) node).

Record filesystem := Filesystem { fs_nodes : nodes; fs_cwd : list string }.

Definition link_start (cur : list string) (target : path) : list string :=
  if is_absolute target then [] else cur.

(** The kernel's walk from directory [cur] through the names [todo].  [links]
    bounds the symbolic links it follows; the last name is followed only when
    [follow] holds. *)
Inductive walk_result :=
  | Found (loc : list string)
  | Missing
  | TooManyLinks.

Fixpoint walk (links : nat) (fs : nodes) (follow : bool) (cur todo : list string) : walk_result :=
  (fix go (cur todo : list string) : walk_result :=
     match todo with
     | [] => Found cur
     | name :: rest =>
         if String.eqb name ".." then go (removelast cur) rest
         else
           let loc := cur ++ [name] in
           match fs !! loc with
           | None => Missing
           | Some NDir => go loc rest
           | Some (NFile _) => match rest with [] => Found loc | _ => Missing end
           | Some (NLink target) =>
               match rest, follow with
               | [], false => Found loc
               | _, _ =>
                   match links with
                   | O => TooManyLinks
                   | S links' =>
                       let p := parse_path target in
                       walk links' fs follow (link_start cur p) (p_parts p ++ rest)
                   end
               end
           end
     end) cur todo.

(** Linux follows at most forty links. *)
Definition max_links : nat := 40.

Definition start_of (fs : filesystem) (p : path) : list string :=
  if is_absolute p then [] else fs_cwd fs.

Definition has_nul (p : path) : bool :=
  existsb (λ s, existsb (λ c, byte_z c =? 0) (str_chars s)) (p_parts p).

(** [os.lstat] and [os.stat]: the location of the entry. *)
Definition lstat (fs : filesystem) (p : path) : walk_result :=
  if has_nul p then Missing
  else walk max_links (fs_nodes fs) false (start_of fs p) (p_parts p).

Definition stat (fs : filesystem) (p : path) : walk_result :=
  if has_nul p then Missing
  else walk max_links (fs_nodes fs) true (start_of fs p) (p_parts p).

Definition node_at (fs : filesystem) (w : walk_result) : option node :=
  match w with
  | Found [] => Some NDir
  | Found loc => fs_nodes fs !! loc
  | _ => None
  end.

(** [p.is_symlink()]: a path that cannot be walked is none. *)
Definition is_symlink (fs : filesystem) (p : path) : bool :=
  match node_at fs (lstat fs p) with Some (NLink _) => true | _ => false end.

(** [p.is_file()] *)
Definition is_file (fs : filesystem) (p : path) : bool :=
  match node_at fs (stat fs p) with Some (NFile _) => true | _ => false end.

(** [p.read_bytes()] *)
Definition read_bytes (fs : filesystem) (p : path) : res string :=
  if has_nul p then raise ValueError "embedded null byte"
  else match node_at fs (stat fs p) with
       | Some (NFile content) => Ok content
       | _ => raise OSError (path_str p)
       end.

(** ** [resolve] *)

(** [_joinrealpath] of [posixpath]: the links met are replaced by what they
    point to, missing entries are kept.  [depth] bounds the links being resolved
    at once; these are distinct nodes unless there is a loop, so the number of
    nodes is enough.  At a loop the rest of the path is kept unresolved. *)
Fixpoint realpath (depth : nat) (fs : nodes) (cur todo : list string) : bool * list string :=
  (fix go (cur todo : list string) : bool * list string :=
     match todo with
     | [] => (true, cur)
     | name :: rest =>
         if String.eqb name ".." then go (removelast cur) rest
         else
           let loc := cur ++ [name] in
           match fs !! loc with
           | Some (NLink target) =>
               match depth with
               | O => (false, loc ++ rest)
               | S depth' =>
                   let p := parse_path target in
                   let '(resolved, cur') := realpath depth' fs (link_start cur p) (p_parts p) in
                   if resolved then go cur' rest else (false, cur' ++ rest)
               end
           | _ => go loc rest
           end
     end) cur todo.

(** [abspath] of an absolute path: the double dots left after a loop are
    removed without looking at the file system. *)
Definition normalise (parts : list string) : list string :=
  fold_left (λ acc name, if String.eqb name ".." then removelast acc else acc ++ [name]) parts [].

Definition real_parts (fs : filesystem) (p : path) : bool * list string :=
  realpath (size (fs_nodes fs)) (fs_nodes fs) (start_of fs p) (p_parts p).

(** [p.resolve()]: after a loop the resulting path is probed with [stat], and
    only a loop the probe meets as well is reported. *)
Definition resolve (fs : filesystem) (p : path) : res path :=
  if has_nul p then raise ValueError "lstat: embedded null character in path"
  else
    let '(resolved, parts) := real_parts fs p in
    let r := Path "/" (normalise parts) in
    if resolved then Ok r
    else match stat fs r with
         | TooManyLinks => raise RuntimeError ("Symlink loop from " +:+ repr_str (path_str r))
         | _ => Ok r
         end.

(** ** Writing *)

(** [os.replace] of a fresh temporary file onto [p]: the entry of the name is
    replaced, a link included; a directory cannot be.  [disk_ok] says whether
    the temporary file could be written. *)
Definition atomic_replace_bytes (fs : filesystem) (p : path) (content : string) (disk_ok : bool)
    : res filesystem :=
  match node_at fs (stat fs p), lstat fs p with
  | Some _, Found loc =>
      match node_at fs (Found loc) with
      | Some NDir | None => raise OSError (path_str p)
      | Some _ => if disk_ok then Ok (Filesystem (<[loc := NFile content]> (fs_nodes fs)) (fs_cwd fs))
                  else raise OSError (path_str p)
      end
  | _, _ => raise OSError (path_str p)
  end.

(** ** Text *)

(** Strict UTF-8: no overlong forms, no surrogates, nothing above U+10FFFF. *)
Definition is_cont (c : ascii) : bool := let n := byte_z c in (128 <=? n) && (n <=? 191).

Definition between (lo hi : Z) (c : ascii) : bool := (lo <=? byte_z c) && (byte_z c <=? hi).

(** Each step consumes a byte at least, so the length is enough fuel. *)
Fixpoint valid_utf8_go (fuel : nat) (l : list ascii) : bool :=
  match fuel, l with
  | _, [] => true
  | O, _ => false
  | S fuel', a :: l1 =>
      let n := byte_z a in
      if n <? 128 then valid_utf8_go fuel' l1
      else
        match l1 with
        | b :: l2 =>
            if (194 <=? n) && (n <=? 223) then is_cont b && valid_utf8_go fuel' l2
            else
              match l2 with
              | c :: l3 =>
                  if (224 <=? n) && (n <=? 239) then
                    between (if n =? 224 then 160 else 128) (if n =? 237 then 159 else 191) b
                    && is_cont c && valid_utf8_go fuel' l3
                  else
                    match l3 with
                    | d :: l4 =>
                        (240 <=? n) && (n <=? 244)
                        && between (if n =? 240 then 144 else 128) (if n =? 244 then 143 else 191) b
                        && is_cont c && is_cont d && valid_utf8_go fuel' l4
                    | [] => false
                    end
              | [] => false
              end
        | [] => false
        end
  end.

Definition valid_utf8 (s : string) : bool :=
  let l := str_chars s in valid_utf8_go (length l) l.

Definition cr : ascii := ascii_of_N 13.
Definition lf : ascii := ascii_of_N 10.

(** Universal newlines: every line end reads as a line feed. *)
Fixpoint universal_newlines (s : string) : string :=
  match s with
  | EmptyString => ""
  | String c s' =>
      if Ascii.eqb c cr then
        match s' with
        | String d s'' => if Ascii.eqb d lf then String lf (universal_newlines s'')
                          else String lf (universal_newlines s')
        | EmptyString => String lf ""
        end
      else String c (universal_newlines s')
  end.

(** [p.read_text(encoding="utf-8")]; a decoding error is a [UnicodeError]. *)
Definition read_text (fs : filesystem) (p : path) : res string :=
  raw ← read_bytes fs p;
  raise_if negb (valid_utf8 raw) with UnicodeError "'utf-8' codec can't decode";
  Ok (universal_newlines raw).

Definition bytes_digest (content : string) : string := "sha256:" +:+ sha256_hex content.

(** [file_digest] *)
Definition file_digest (fs : filesystem) (p : path) : res string :=
  content ← read_bytes fs p; Ok (bytes_digest content).

(** ** Facts *)

(** The equations of the two walks. *)
Lemma walk_cons links fs follow cur name rest :
  walk links fs follow cur (name :: rest) =
  if String.eqb name ".." then walk links fs follow (removelast cur) rest
  else match fs !! (cur ++ [name]) with
       | None => Missing
       | Some NDir => walk links fs follow (cur ++ [name]) rest
       | Some (NFile _) => match rest with [] => Found (cur ++ [name]) | _ => Missing end
       | Some (NLink target) =>
           match rest, follow with
           | [], false => Found (cur ++ [name])
           | _, _ =>
               match links with
               | O => TooManyLinks
               | S links' => walk links' fs follow (link_start cur (parse_path target))
                               (p_parts (parse_path target) ++ rest)
               end
           end
       end.
Proof. by destruct links. Qed.

Lemma walk_nil links fs follow cur : walk links fs follow cur [] = Found cur.
Proof. by destruct links. Qed.

Lemma realpath_cons depth fs cur name rest :
  realpath depth fs cur (name :: rest) =
  if String.eqb name ".." then realpath depth fs (removelast cur) rest
  else match fs !! (cur ++ [name]) with
       | Some (NLink target) =>
           match depth with
           | O => (false, (cur ++ [name]) ++ rest)
           | S depth' =>
               let '(resolved, cur') := realpath depth' fs (link_start cur (parse_path target))
                                          (p_parts (parse_path target)) in
               if resolved then realpath depth fs cur' rest else (false, cur' ++ rest)
           end
       | _ => realpath depth fs (cur ++ [name]) rest
       end.
Proof. by destruct depth. Qed.

Lemma realpath_nil depth fs cur : realpath depth fs cur [] = (true, cur).
Proof. by destruct depth. Qed.

(** A location all of whose prefixes are no links and that has no double dots. *)
Record clean (fs : nodes) (l : list string) : Prop := Clean {
  clean_links : ∀ a b t, l = a ++ b → fs !! a ≠ Some (NLink t);
  clean_names : Forall (λ s, s ≠ "..") l }.

Section clean.
Context (fs : nodes) (root_dir : ∀ t, fs !! [] ≠ Some (NLink t)).

Lemma clean_nil : clean fs [].
Proof. split; [|constructor]. intros a b t H. symmetry in H. by apply app_nil in H as [-> _]. Qed.

Lemma clean_prefix a b : clean fs (a ++ b) → clean fs a.
Proof.
  intros [Hl Hn]. split; [|by apply Forall_app in Hn as [? _]].
  intros x y t ->. apply (Hl x (y ++ b)). by rewrite app_assoc.
Qed.

Lemma clean_removelast l : clean fs l → clean fs (removelast l).
Proof.
  destruct l as [|x l] using rev_ind; [done|]. rewrite removelast_last. apply clean_prefix.
Qed.

Lemma clean_snoc l name :
  clean fs l → name ≠ ".." → (∀ t, fs !! (l ++ [name]) ≠ Some (NLink t)) → clean fs (l ++ [name]).
Proof.
  intros [Hl Hn] Hne Hlk. split; [|by rewrite Forall_app, Forall_singleton].
  intros a b t Hab. destruct b as [|y b _] using rev_ind.
  - rewrite app_nil_r in Hab. subst a. apply Hlk.
  - rewrite app_assoc in Hab. apply app_inj_tail in Hab as [Hab _]. by apply (Hl a b).
Qed.

Lemma realpath_clean depth : ∀ todo cur out,
  clean fs cur → realpath depth fs cur todo = (true, out) → clean fs out.
Proof.
  induction depth as [|depth IHd]; intros todo; induction todo as [|name rest IH]; intros cur out Hc;
    rewrite ?realpath_nil, ?realpath_cons; try (intros [= <-]; exact Hc);
    (destruct (String.eqb_spec name "..") as [->|Hne]; [by apply IH, clean_removelast|]);
    destruct (fs !! (cur ++ [name])) as [[c| |target]|] eqn:Hn;
    try (apply IH; apply clean_snoc; [done|done|congruence]); try done.
  destruct (realpath depth fs _ _) as [[] cur'] eqn:Hr; [|done].
  apply IH. eapply IHd; [|exact Hr]. unfold link_start. destruct (is_absolute _); [apply clean_nil|done].
Qed.

(** Double dots do not occur in a resolved path, so normalising keeps it. *)
Lemma normalise_clean l : Forall (λ s, s ≠ "..") l → normalise l = l.
Proof.
  intros Hl. unfold normalise. set (step := λ (acc : list string) name, if String.eqb name ".." then _ else _).
  enough (∀ acc, fold_left step l acc = acc ++ l) as H by apply H.
  induction Hl as [|x l Hx _ IH]; intros acc; cbn [fold_left]; [by rewrite app_nil_r|].
  rewrite IH. unfold step. apply String.eqb_neq in Hx as ->. by rewrite <- app_assoc.
Qed.

(** Walking along a clean location follows no link. *)
Lemma walk_clean links follow todo : ∀ cur,
  clean fs (cur ++ todo) →
  walk links fs follow cur todo = Found (cur ++ todo) ∨ walk links fs follow cur todo = Missing.
Proof.
  induction todo as [|name rest IH]; intros cur Hc.
  - rewrite walk_nil, app_nil_r. by left.
  - rewrite walk_cons. assert (name ≠ "..") as Hne.
    { destruct Hc as [_ Hn]. rewrite Forall_app, Forall_cons in Hn. tauto. }
    apply String.eqb_neq in Hne as ->.
    assert (cur ++ name :: rest = (cur ++ [name]) ++ rest) as E by (by rewrite <- app_assoc).
    destruct (fs !! (cur ++ [name])) as [[c| |t]|] eqn:Hn; [..|by right].
    + destruct rest; [by left|by right].
    + rewrite E in Hc |- *. by apply IH.
    + by destruct (clean_links _ _ Hc (cur ++ [name]) rest t E).
Qed.
End clean.

(** What a path resolves to when no loop is met: a clean location, whose file
    is the one the path is read through. *)
Lemma resolve_clean fs p r :
  (∀ t, fs_nodes fs !! [] ≠ Some (NLink t)) →
  clean (fs_nodes fs) (fs_cwd fs) → (real_parts fs p).1 = true →
  resolve fs p = Ok r → p_root r = "/" ∧ clean (fs_nodes fs) (p_parts r).
Proof.
  intros Hroot Hcwd Hok. unfold resolve, real_parts in *. destruct (has_nul p); [done|].
  destruct (realpath _ _ _ _) as [resolved parts] eqn:Hr. simpl in Hok. subst resolved.
  apply realpath_clean in Hr; [|done|].
  - intros [= <-]. cbn [p_root p_parts]. by rewrite normalise_clean by apply Hr.
  - unfold start_of. destruct (is_absolute p); [by apply clean_nil|done].
Qed.

Lemma clean_file fs p :
  p_root p = "/" → clean (fs_nodes fs) (p_parts p) → is_file fs p = true →
  ∃ content, fs_nodes fs !! p_parts p = Some (NFile content)
    ∧ stat fs p = Found (p_parts p) ∧ read_bytes fs p = Ok content.
Proof.
  intros Hroot Hc. unfold is_file, read_bytes, stat. destruct (has_nul p); [done|].
  unfold start_of, is_absolute. rewrite Hroot. cbn [String.eqb Ascii.eqb Bool.eqb negb].
  destruct (walk_clean (fs_nodes fs) max_links true (p_parts p) [] Hc) as [->| ->]; [|done].
  rewrite app_nil_l. unfold node_at. destruct (p_parts p) as [|x l] eqn:E; [done|].
  destruct (fs_nodes fs !! (x :: l)) as [[content| |]|]; try done. eauto.
Qed.

Lemma drop_parts_app q p r : drop_parts q p = Some r → p = q ++ r.
Proof.
  revert p. induction q as [|a q IH]; intros [|b p]; simpl; try (by intros [= ->]); try done.
  destruct (String.eqb_spec a b) as [->|]; [|done]. intros H. by rewrite (IH _ H).
Qed.
