(* ===== verification/JsonStore.v ===== *)
(** * Locked JSON state files

    [src/shared/mesh_runtime/json_store.py]: the read-modify-write section that
    every file-backed store of the runtime goes through.  A file is described
    by what its text parses to; writing a payload and parsing the text back
    gives the payload with its keys sorted, at every depth
    ([json.dumps(..., sort_keys=True)]).  The advisory lock makes a section
    atomic, so a section is a function from file to file. *)

From S2P Require Import Prelude PyFloat PyValue Json.

(** The text of a file: white space only, not JSON, or the text of a value. *)
Inductive text :=
  | Blank
  | Garbage (raw : string)
  | Text (v : value).

(** The state file ([None] when there is none) and its backups, oldest
    first. *)
Record file := File { f_text : option text; f_backups : list text }.

Definition no_file : file := File None [].

(** [_backup_corrupt_json] *)
Definition backup_corrupt_json (f : file) (raw : text) : file :=
  File (f_text f) (f_backups f ++ [raw]).

(** [_load_payload]: the payload, whether the input was corrupt, and the file
    with its backups. *)
Definition load_payload (f : file) (raw : text) : dict * bool * file :=
  match raw with
  | Blank => ([], false, f)
  | Garbage _ => ([], true, backup_corrupt_json f raw)
  | Text (VDict payload) => (payload, false, f)
  | Text _ => ([], true, backup_corrupt_json f raw)
  end.

(** [_serialize_payload], as the value the text parses to. *)
Definition serialize_payload (payload : dict) : text := Text (VDict (sort_dict payload)).

(** [_atomic_write] *)
Definition atomic_write (f : file) (t : text) : file := File (Some t) (f_backups f).

(** [LockedJsonFile.__enter__] *)
Definition locked_enter (recover_corrupt_input : bool) (path : string) (f : file)
    : res (dict * bool) * file :=
  let raw := default Blank (f_text f) in
  let '(payload, corrupt, f1) := load_payload f raw in
  if corrupt && negb recover_corrupt_input
  then (raise ValueError ("corrupt JSON state file: " +:+ path), f1)
  else (Ok (payload, corrupt), f1).

(** [LockedJsonFile.__exit__] after a body that did not raise: [payload] is
    the dictionary as the body left it.  Python compares the members of two
    dictionaries by identity before equality, so an untouched payload is equal
    to its copy even when it holds a NaN. *)
Definition locked_exit (on_enter : dict) (corrupt : bool) (payload : dict) (f : file) : file :=
  let payload_changed :=
    negb (bool_decide (payload = on_enter) || py_eq (VDict payload) (VDict on_enter)) in
  let file_existed := match f_text f with Some _ => true | None => false end in
  let should_write :=
    if negb file_existed && negb (truthy (VDict payload)) && negb corrupt then false
    else corrupt || payload_changed in
  if should_write then atomic_write f (serialize_payload payload) else f.

(** [with LockedJsonFile(path, recover_corrupt_input=...) as payload: body].
    The body returns its result and the payload it mutated; when it raises,
    nothing is written. *)
Definition locked_json {A} (recover_corrupt_input : bool) (path : string) (f : file)
    (body : dict → res (A * dict)) : res A * file :=
  match locked_enter recover_corrupt_input path f with
  | (Err e, f1) => (Err e, f1)
  | (Ok (on_enter, corrupt), f1) =>
      match body on_enter with
      | Err e => (Err e, f1)
      | Ok (a, payload) => (Ok a, locked_exit on_enter corrupt payload f1)
      end
  end.

(** [parse_state_json_file] *)
Definition parse_state_json_file (f : file) (raw : text) : dict * file :=
  let '(payload, _, f1) := load_payload f raw in (payload, f1).

(** ** Facts *)

(** What a section reads: the payload of a file that holds a dictionary, and
    the empty dictionary of a missing or blank one. *)
Definition file_payload (f : file) : option dict :=
  match f_text f with
  | None | Some Blank => Some []
  | Some (Text (VDict d)) => Some d
  | _ => None
  end.

Lemma locked_enter_payload recover path f d :
  file_payload f = Some d → locked_enter recover path f = (Ok (d, false), f).
Proof.
  unfold file_payload, locked_enter, load_payload.
  destruct (f_text f) as [[|raw|[]]|]; simpl; intros; simplify_eq; done.
Qed.

(** The equality test that decides whether a section writes. *)
Lemma py_eq_dict_length d e : py_eq (VDict d) (VDict e) = true → length d = length e.
Proof. cbn [py_eq]. intros H. apply andb_true_iff in H as [H _]. by apply Nat.eqb_eq in H. Qed.

Lemma py_eq_dict_get d e k v :
  py_eq (VDict d) (VDict e) = true → (k, v) ∈ d →
  ∃ w, dget k e = Some w ∧ py_eq v w = true.
Proof.
  cbn [py_eq]. intros H. apply andb_true_iff in H as [_ H]. revert H.
  induction d as [|[k' x] d IH]; intros H Hin; [by apply elem_of_nil in Hin|].
  apply andb_true_iff in H as [H1 H2]. apply elem_of_cons in Hin as [[= -> ->]|Hin]; [|by apply IH].
  destruct (dget k' e); [eauto|done].
Qed.

Lemma py_eq_dict_dget d e k v :
  py_eq (VDict d) (VDict e) = true → dget k d = Some v →
  ∃ w, dget k e = Some w ∧ py_eq v w = true.
Proof. intros H Hk. eapply py_eq_dict_get; [done|]. by apply dget_In. Qed.

(** A body that changes the payload has its change on the file. *)
Lemma locked_exit_changed on_enter corrupt payload f :
  py_eq (VDict payload) (VDict on_enter) = false → payload ≠ on_enter → payload ≠ [] →
  locked_exit on_enter corrupt payload f = atomic_write f (serialize_payload payload).
Proof.
  intros Hc Hd Hne. unfold locked_exit. rewrite Hc, bool_decide_false by done.
  destruct payload; [done|].
  cbn [truthy negb]. rewrite andb_false_r, orb_true_r. done.
Qed.

Lemma locked_exit_unchanged on_enter payload f :
  payload = on_enter ∨ py_eq (VDict payload) (VDict on_enter) = true →
  locked_exit on_enter false payload f = f.
Proof.
  intros Hc. unfold locked_exit.
  assert (bool_decide (payload = on_enter) || py_eq (VDict payload) (VDict on_enter) = true) as ->.
  { apply orb_true_iff. rewrite bool_decide_eq_true. tauto. }
  by destruct (_ && _).
Qed.

(** A body that raises leaves a readable file alone. *)
Lemma locked_json_Err {A} recover path f d (body : dict → res (A * dict)) e :
  file_payload f = Some d → body d = Err e → locked_json recover path f body = (Err e, f).
Proof. intros Hd Hb. unfold locked_json. by rewrite (locked_enter_payload _ _ _ _ Hd), Hb. Qed.

Lemma locked_json_Ok {A} recover path f d (body : dict → res (A * dict)) a d' :
  file_payload f = Some d → body d = Ok (a, d') →
  locked_json recover path f body = (Ok a, locked_exit d false d' f).
Proof. intros Hd Hb. unfold locked_json. by rewrite (locked_enter_payload _ _ _ _ Hd), Hb. Qed.

Lemma file_payload_write f payload :
  file_payload (atomic_write f (serialize_payload payload)) = Some (sort_dict payload).
Proof. done. Qed.

(** ** Paths through a section

    Equality and sorting both keep the strings found under a path, so a
    section establishes them whether or not it rewrites the file. *)

Lemma dpath_sort ks : ∀ v s, dpath ks v = Some (VStr s) → dpath ks (json_sort v) = Some (VStr s).
Proof.
  induction ks as [|k ks IH]; intros v s; cbn [dpath]; [by intros [= ->]|].
  destruct v as [| | | | | |d]; try done. rewrite json_sort_dict, dget_sort_dict.
  destruct (dget k d); [|done]. apply IH.
Qed.

Lemma dpath_py_eq ks : ∀ v w s,
  py_eq v w = true → dpath ks v = Some (VStr s) → dpath ks w = Some (VStr s).
Proof.
  induction ks as [|k ks IH]; intros v w s Heq; cbn [dpath].
  - intros [= ->]. by apply py_eq_str_l in Heq as ->.
  - destruct v as [| | | | | |d]; try done. destruct w as [| | | | | |e]; try done.
    destruct (dget k d) as [x|] eqn:Hx; [|done]. intros Hp.
    destruct (py_eq_dict_dget _ _ _ _ Heq Hx) as (y & -> & Hxy). by eapply IH.
Qed.

(** The payload of the file has the string [s] under the path. *)
Definition file_has (f : file) (ks : list string) (s : string) : Prop :=
  ∃ d, file_payload f = Some d ∧ dpath ks (VDict d) = Some (VStr s).

Lemma locked_exit_has d d' f ks s :
  file_payload f = Some d → dpath ks (VDict d') = Some (VStr s) →
  file_has (locked_exit d false d' f) ks s.
Proof.
  intros Hd Hs.
  destruct (bool_decide (d' = d) || py_eq (VDict d') (VDict d)) eqn:Heq.
  - rewrite locked_exit_unchanged by (apply orb_true_iff in Heq as [H%bool_decide_eq_true|]; auto).
    exists d. split; [done|]. apply orb_true_iff in Heq as [->%bool_decide_eq_true|Heq]; [done|].
    by eapply dpath_py_eq.
  - apply orb_false_iff in Heq as [Hne%bool_decide_eq_false Heq].
    destruct (decide (d' = [])) as [->|Hnil].
    + destruct ks; [done|by simpl in Hs].
    + rewrite locked_exit_changed by done. exists (sort_dict d'). split; [done|].
      rewrite <- json_sort_dict. by apply dpath_sort.
Qed.

(** A section whose body puts [s] under the path when it succeeds. *)
Lemma locked_json_has {A} recover path f d (body : dict → res (A * dict)) a f' ks s :
  file_payload f = Some d →
  (∀ d', body d = Ok (a, d') → dpath ks (VDict d') = Some (VStr s)) →
  locked_json recover path f body = (Ok a, f') → file_has f' ks s.
Proof.
  intros Hd Hb H. unfold locked_json in H. rewrite (locked_enter_payload _ _ _ _ Hd) in H.
  destruct (body d) as [[x d']|] eqn:E; [|done]. injection H as -> <-.
  apply locked_exit_has; auto.
Qed.

(** A section whose body keeps it there. *)
Lemma locked_json_keeps {A} recover path f (body : dict → res (A * dict)) ks s :
  (∀ d a d', dpath ks (VDict d) = Some (VStr s) → body d = Ok (a, d') →
     dpath ks (VDict d') = Some (VStr s)) →
  file_has f ks s → file_has (locked_json recover path f body).2 ks s.
Proof.
  intros Hb (d & Hd & Hs). unfold locked_json. rewrite (locked_enter_payload _ _ _ _ Hd).
  destruct (body d) as [[x d']|] eqn:E; simpl.
  - apply locked_exit_has; eauto.
  - by exists d.
Qed.

(** A section whose body moves the string under the path within [P]. *)
Lemma locked_json_moves {A} recover path f (body : dict → res (A * dict)) ks s (P : string → Prop) :
  P s →
  (∀ d a d', dpath ks (VDict d) = Some (VStr s) → body d = Ok (a, d') →
     ∃ s', dpath ks (VDict d') = Some (VStr s') ∧ P s') →
  file_has f ks s → ∃ s', file_has (locked_json recover path f body).2 ks s' ∧ P s'.
Proof.
  intros HP Hb (d & Hd & Hs). unfold locked_json. rewrite (locked_enter_payload _ _ _ _ Hd).
  destruct (body d) as [[x d']|] eqn:E; simpl.
  - destruct (Hb _ _ _ Hs E) as (s' & Hs' & HP'). exists s'. split; [by apply locked_exit_has|done].
  - exists s. split; [by exists d|done].
Qed.

(** A strict section that succeeds started from a readable file. *)
Lemma locked_json_strict {A} path f (body : dict → res (A * dict)) a f' :
  locked_json false path f body = (Ok a, f') →
  ∃ d d', file_payload f = Some d ∧ body d = Ok (a, d') ∧ f' = locked_exit d false d' f.
Proof.
  unfold locked_json, locked_enter, load_payload, file_payload.
  destruct (f_text f) as [[|raw|[]]|]; cbn [default from_option id negb andb]; try done;
    (match goal with |- context [body ?d] => destruct (body d) as [[x d']|e] eqn:E end; [|done]);
    intros [= -> <-]; eauto.
Qed.

Lemma file_has_payload f d ks s :
  file_payload f = Some d → file_has f ks s → dpath ks (VDict d) = Some (VStr s).
Proof. intros Hd (d' & Hd' & Hs). congruence. Qed.

Lemma file_has_unique f ks s s' : file_has f ks s → file_has f ks s' → s = s'.
Proof. intros (d & Hd & Hs) (d' & Hd' & Hs'). congruence. Qed.

(** What a recovering section starts from: a corrupt file counts as empty. *)
Definition file_contents (f : file) : dict := default [] (file_payload f).

(** Every way a recovering section can end. *)
Lemma locked_json_cases {A} path f (body : dict → res (A * dict)) r f' :
  locked_json true path f body = (r, f') →
  match r with
  | Ok a => ∃ d', body (file_contents f) = Ok (a, d')
      ∧ (file_payload f' = Some (sort_dict d')
         ∨ (file_payload f' = Some (file_contents f)
            ∧ (d' = file_contents f ∨ py_eq (VDict d') (VDict (file_contents f)) = true)))
  | Err e => body (file_contents f) = Err e ∧ file_payload f' = file_payload f
  end.
Proof.
  unfold file_contents. destruct (file_payload f) as [d|] eqn:Hd; cbn [default from_option id].
  - unfold locked_json. rewrite (locked_enter_payload _ _ _ _ Hd).
    destruct (body d) as [[a d']|e]; intros [= <- <-]; [|done]. exists d'. split; [done|].
    destruct (bool_decide (d' = d) || py_eq (VDict d') (VDict d)) eqn:Heq.
    + apply orb_true_iff in Heq. rewrite bool_decide_eq_true in Heq. right.
      by rewrite locked_exit_unchanged.
    + apply orb_false_iff in Heq as [Hne%bool_decide_eq_false Heq].
      destruct (decide (d' = [])) as [->|Hnil]; [|left; by rewrite locked_exit_changed].
      unfold locked_exit. rewrite Heq, bool_decide_false by done.
      destruct (f_text f) eqn:Ht; [by left|]. right.
      unfold file_payload in Hd |- *. rewrite Ht in *. injection Hd as <-. split; [done|by left].
  - unfold file_payload in Hd. unfold locked_json, locked_enter, load_payload.
    destruct (f_text f) as [t|] eqn:Ht; [|done]. cbn [default from_option id].
    destruct t as [|raw|v]; [done| |destruct v; try done]; cbn [negb andb];
      (destruct (body []) as [[a d']|e]; intros [= <- <-];
        [exists d'; split; [done|]; left; unfold locked_exit; cbn [f_text backup_corrupt_json];
         rewrite Ht; done | split; [done|]; unfold file_payload; cbn [f_text backup_corrupt_json];
         by rewrite Ht]).
Qed.
