(* ===== verification/DateTime.v ===== *)
(** * Dates and times

    Python's [datetime], [timedelta] arithmetic, [isoformat] and
    [fromisoformat] (the grammar of Python 3.11), executable, with the round
    trip the state files rely on. *)

From S2P Require Import Prelude Sha256.

(** ** The proleptic Gregorian calendar, as in CPython's [datetime] *)

Definition is_leap (y : Z) : bool :=
  (y mod 4 =? 0) && (negb (y mod 100 =? 0) || (y mod 400 =? 0)).

Definition days_before_year (y : Z) : Z :=
  let y1 := y - 1 in y1 * 365 + y1 / 4 - y1 / 100 + y1 / 400.

Definition month_days : list Z := [31; 28; 31; 30; 31; 30; 31; 31; 30; 31; 30; 31].

Definition days_in_month (y m : Z) : Z :=
  if (m =? 2) && is_leap y then 29 else nth (Z.to_nat (m - 1)) month_days 0.

Definition cumulative_days : list Z :=
  [0; 31; 59; 90; 120; 151; 181; 212; 243; 273; 304; 334].

Definition days_before_month (y m : Z) : Z :=
  nth (Z.to_nat (m - 1)) cumulative_days 0 + (if (2 <? m) && is_leap y then 1 else 0).

(** 0001-01-01 is day 1. *)
Definition ymd2ord (y m d : Z) : Z := days_before_year y + days_before_month y m + d.

(** Month and day of day [n] (from 0) of a year: an estimate of the month,
    corrected by one when too large. *)
Definition month_day (leap : bool) (n : Z) : Z * Z :=
  let before m := nth (Z.to_nat (m - 1)) cumulative_days 0
                  + (if (2 <? m) && leap then 1 else 0) in
  let m := Z.shiftr (n + 50) 5 in
  if n <? before m
  then (m - 1, n - (before m - (if (m - 1 =? 2) && leap then 29
                                else nth (Z.to_nat (m - 2)) month_days 0)) + 1)
  else (m, n - before m + 1).

(** Day [n] (from 0) of a 400-year cycle as year (from 1), month and day. *)
Definition cycle_ymd (n : Z) : Z * Z * Z :=
  let n100 := n / 36524 in let n := n mod 36524 in
  let n4 := n / 1461 in let n := n mod 1461 in
  let n1 := n / 365 in let n := n mod 365 in
  let y := 1 + n100 * 100 + n4 * 4 + n1 in
  if (n1 =? 4) || (n100 =? 4) then (y - 1, 12, 31)
  else
    let leap := (n1 =? 3) && (negb (n4 =? 24) || (n100 =? 3)) in
    let '(m, d) := month_day leap n in (y, m, d).

Definition ord2ymd (ord : Z) : Z * Z * Z :=
  let '(y, m, d) := cycle_ymd ((ord - 1) mod 146097) in
  ((ord - 1) / 146097 * 400 + y, m, d).

Definition valid_ymd (y m d : Z) : bool :=
  (1 <=? y) && (y <=? 9999) && (1 <=? m) && (m <=? 12)
  && (1 <=? d) && (d <=? days_in_month y m).

(** ** Datetimes *)

Definition day_us : Z := 86400000000.
Definition max_ord : Z := 3652059.

(** The local time in microseconds since 0001-01-01T00:00:00, and the UTC
    offset in microseconds; [None] for a naive datetime. *)
Record datetime := DT { dt_local : Z; dt_off : option Z }.

#[export] Instance datetime_eq_dec : EqDecision datetime.
Proof. solve_decision. Defined.

Definition in_range (us : Z) : bool := (0 <=? us) && (us <? max_ord * day_us).

(** The instant of an aware datetime. *)
Definition dt_instant (t : datetime) : option Z :=
  off ← dt_off t; Some (dt_local t - off).

(** [t.astimezone(timezone.utc)] for an aware [t]. *)
Definition astimezone_utc (t : datetime) : res datetime :=
  match dt_instant t with
  | None => raise RuntimeError "naive datetime: system time zone not modelled"
  | Some u => if in_range u then Ok (DT u (Some 0)) else raise OverflowError "date value out of range"
  end.

(** [t + timedelta(seconds=n)] *)
Definition add_seconds (t : datetime) (n : Z) : res datetime :=
  let u := dt_local t + n * 1000000 in
  if in_range u then Ok (DT u (dt_off t)) else raise OverflowError "date value out of range".

Definition naive_aware_error : string :=
  "can't compare offset-naive and offset-aware datetimes".

(** [a < b]; comparing a naive with an aware datetime raises. *)
Definition dt_ltb (a b : datetime) : res bool :=
  match dt_instant a, dt_instant b with
  | Some x, Some y => Ok (x <? y)
  | None, None => Ok (dt_local a <? dt_local b)
  | _, _ => raise TypeError naive_aware_error
  end.

Definition dt_leb (a b : datetime) : res bool := x ← dt_ltb b a; Ok (negb x).

(** ** [isoformat] *)

Definition pad2 (n : Z) : string := pad_digits 2 n.

Definition format_offset (off : Z) : string :=
  let a := Z.abs off in
  let hh := a / 3600000000 in
  let mm := (a / 60000000) mod 60 in
  let ss := (a / 1000000) mod 60 in
  let us := a mod 1000000 in
  (if off <? 0 then "-" else "+") +:+ pad2 hh +:+ ":" +:+ pad2 mm
  +:+ (if (ss =? 0) && (us =? 0) then ""
       else ":" +:+ pad2 ss +:+ (if us =? 0 then "" else "." +:+ pad_digits 6 us)).

(** [t.isoformat()] *)
Definition isoformat (t : datetime) : string :=
  let '(y, mo, d) := ord2ymd (dt_local t / day_us + 1) in
  let s := dt_local t mod day_us in
  let us := s mod 1000000 in
  pad_digits 4 y +:+ "-" +:+ pad2 mo +:+ "-" +:+ pad2 d +:+ "T"
  +:+ pad2 (s / 3600000000) +:+ ":" +:+ pad2 ((s / 60000000) mod 60) +:+ ":"
  +:+ pad2 ((s / 1000000) mod 60)
  +:+ (if us =? 0 then "" else "." +:+ pad_digits 6 us)
  +:+ match dt_off t with None => "" | Some off => format_offset off end.

(** ** [fromisoformat] *)

Definition is_digit (c : ascii) : bool :=
  let n := byte_z c in (48 <=? n) && (n <=? 57).

Definition digit_val (c : ascii) : Z := byte_z c - 48.

Fixpoint digits_val (acc : Z) (l : list ascii) : option Z :=
  match l with
  | [] => Some acc
  | c :: l' => if is_digit c then digits_val (acc * 10 + digit_val c) l' else None
  end.

(** Exactly [n] digits at the front of [l]. *)
Definition read_digits (n : nat) (l : list ascii) : option (Z * list ascii) :=
  if (n <=? length l)%nat
  then v ← digits_val 0 (take n l); Some (v, drop n l)
  else None.

Definition next_is (c : ascii) (l : list ascii) : bool :=
  match l with c' :: _ => Ascii.eqb c c' | [] => false end.

Definition char_at (n : nat) (l : list ascii) : ascii := nth n l "000"%char.

(** [_find_isoformat_datetime_separator] *)
Fixpoint digit_run (l : list ascii) : nat :=
  match l with
  | c :: l' => if is_digit c then S (digit_run l') else O
  | [] => O
  end.

Definition find_separator (l : list ascii) : option nat :=
  let n := length l in
  if Nat.eqb n 7 then Some 7%nat
  else if Ascii.eqb (char_at 4 l) "-" then
    if Ascii.eqb (char_at 5 l) "W" then
      if (8 <? n)%nat && Ascii.eqb (char_at 8 l) "-" then
        if Nat.eqb n 9 then None
        else if (10 <? n)%nat && is_digit (char_at 10 l) then Some 8%nat
        else Some 10%nat
      else Some 8%nat
    else Some 10%nat
  else if Ascii.eqb (char_at 4 l) "W" then
    let idx := (7 + digit_run (drop 7 l))%nat in
    if (idx <? 9)%nat then Some idx
    else if Nat.even idx then Some 7%nat else Some 8%nat
  else Some 8%nat.

(** [_isoweek_to_gregorian] *)
Definition isoweek_ord (y w d : Z) : option Z :=
  let first := ymd2ord y 1 1 in
  let long := (first mod 7 =? 4) || ((first mod 7 =? 3) && is_leap y) in
  if negb ((1 <=? y) && (y <=? 9999)) then None
  else if negb (((0 <? w) && (w <? 53)) || ((w =? 53) && long)) then None
  else if negb ((0 <? d) && (d <? 8)) then None
  else
    let wd := (first + 6) mod 7 in
    let monday := first - wd + (if 3 <? wd then 7 else 0) in
    Some (monday + (w - 1) * 7 + (d - 1)).

(** [_parse_isoformat_date], giving the day number. *)
Definition parse_date (l : list ascii) : option Z :=
  '(y, l1) ← read_digits 4 l;
  let has_sep := next_is "-" l1 in
  let l2 := if has_sep then drop 1 l1 else l1 in
  if next_is "W" l2 then
    '(w, l3) ← read_digits 2 (drop 1 l2);
    match l3 with
    | [] => isoweek_ord y w 1
    | _ => if negb (Bool.eqb (next_is "-" l3) has_sep) then None
           else '(d, _) ← read_digits 1 (if has_sep then drop 1 l3 else l3);
                isoweek_ord y w d
    end
  else
    '(m, l3) ← read_digits 2 l2;
    if negb (Bool.eqb (next_is "-" l3) has_sep) then None
    else '(d, _) ← read_digits 2 (if has_sep then drop 1 l3 else l3);
         if valid_ymd y m d then Some (ymd2ord y m d) else None.

(** The fraction after the seconds: up to six digits count, the rest must be
    digits. *)
Definition parse_fraction (l : list ascii) : option Z :=
  match l with
  | [] => Some 0
  | c :: r =>
      if Ascii.eqb c "." || Ascii.eqb c "," then
        let k := Nat.min 6 (length r) in
        if Nat.eqb k 0 then None
        else
          '(v, rest) ← read_digits k r;
          if forallb is_digit rest then Some (v * 10 ^ (6 - Z.of_nat k)) else None
      else None
  end.

(** [_parse_hh_mm_ss_ff]: [HH\[:?MM\[:?SS\[{.,}f+\]\]\]]. *)
Definition parse_hms (l : list ascii) : option (Z * Z * Z * Z) :=
  '(h, l1) ← read_digits 2 l;
  match l1 with
  | [] => Some (h, 0, 0, 0)
  | c1 :: r1 =>
      let has_sep := Ascii.eqb c1 ":" in
      '(m, l2) ← read_digits 2 (if has_sep then r1 else l1);
      match l2 with
      | [] => Some (h, m, 0, 0)
      | c2 :: r2 =>
          if has_sep && negb (Ascii.eqb c2 ":") then None
          else
            '(s, l3) ← read_digits 2 (if has_sep then r2 else l2);
            us ← parse_fraction l3;
            Some (h, m, s, us)
      end
  end.

Fixpoint find_char (c : ascii) (l : list ascii) : option nat :=
  match l with
  | [] => None
  | c' :: l' => if Ascii.eqb c c' then Some O else S <$> find_char c l'
  end.

(** The position just after the zone marker: the first minus, else the first
    plus, else the first Z. *)
Definition zone_pos (l : list ascii) : option nat :=
  match find_char "-" l with
  | Some n => Some (S n)
  | None => match find_char "+" l with
            | Some n => Some (S n)
            | None => S <$> find_char "Z" l
            end
  end.

Definition hms_us (h m s us : Z) : Z := ((h * 60 + m) * 60 + s) * 1000000 + us.

(** [_parse_isoformat_time]: the time of day and the offset. *)
Definition parse_time_of_day (l : list ascii) : option (Z * option Z) :=
  if (length l <? 2)%nat then None
  else
    let zp := zone_pos l in
    let body := match zp with Some p => take (p - 1) l | None => l end in
    '(h, m, s, us) ← parse_hms body;
    if negb ((h <? 24) && (m <? 60) && (s <? 60)) then None
    else
      let t := hms_us h m s us in
      match zp with
      | None => Some (t, None)
      | Some p =>
          let mark := char_at (p - 1) l in
          if Nat.eqb p (length l) && Ascii.eqb mark "Z" then Some (t, Some 0)
          else
            let z := drop p l in
            if Nat.eqb (length z) 0 || Nat.eqb (length z) 1 || Nat.eqb (length z) 3 then None
            else
              '(zh, zm, zs, zus) ← parse_hms z;
              let off := hms_us zh zm zs zus in
              if off <? day_us
              then Some (t, Some (if Ascii.eqb mark "-" then - off else off))
              else None
      end.

(** [datetime.fromisoformat]; [None] stands for [ValueError].  The separator
    may be any one character, so a multi-byte one is skipped whole. *)
Definition separator_width (c : ascii) : nat :=
  let n := byte_z c in
  if n <? 128 then 1%nat else if n <? 224 then 2%nat else if n <? 240 then 3%nat else 4%nat.

Definition fromisoformat (s : string) : option datetime :=
  let l := str_chars s in
  if (length l <? 7)%nat then None
  else
    sep ← find_separator l;
    ord ← parse_date (take sep l);
    if negb ((1 <=? ord) && (ord <=? max_ord)) then None
    else
      let rest := drop (sep + separator_width (char_at sep l)) l in
      match rest with
      | [] => Some (DT ((ord - 1) * day_us) None)
      | _ => '(t, off) ← parse_time_of_day rest;
             Some (DT ((ord - 1) * day_us + t) off)
      end.

(** [s.replace(old, new)] for a nonempty [old]; each step consumes at least
    one character, so the length is enough fuel. *)
Fixpoint replace_go (fuel : nat) (old new s : string) : string :=
  match fuel with
  | O => s
  | S fuel' =>
      match s with
      | EmptyString => EmptyString
      | String c s' =>
          if String.prefix old s
          then new +:+ replace_go fuel' old new (str_drop (String.length old) s)
          else String c (replace_go fuel' old new s')
      end
  end.

Definition str_replace (old new s : string) : string :=
  replace_go (S (String.length s)) old new s.

(** * Dates and times: the calendar and the ISO-8601 round trip *)

#[local] Ltac Zify.zify_post_hook ::= Z.to_euclidean_division_equations.

(** ** The calendar *)

Definition dim (leap : bool) (m : Z) : Z :=
  if (m =? 2) && leap then 29 else nth (Z.to_nat (m - 1)) month_days 0.
Definition dbm (leap : bool) (m : Z) : Z :=
  nth (Z.to_nat (m - 1)) cumulative_days 0 + (if (2 <? m) && leap then 1 else 0).

Definition month_day_ok (leap : bool) (n : Z) : bool :=
  let '(m, d) := month_day leap n in
  (dbm leap m + d =? n + 1) && (1 <=? m) && (m <=? 12) && (1 <=? d) && (d <=? dim leap m).

Lemma month_day_spec leap n :
  0 <= n < 365 + Z.b2z leap →
  let '(m, d) := month_day leap n in
  dbm leap m + d = n + 1 ∧ 1 <= m <= 12 ∧ 1 <= d <= dim leap m.
Proof.
  intros Hn.
  assert (Hall : ∀ b, forallb (λ k, month_day_ok b (Z.of_nat k))
                        (seq 0 (365 + Nat.b2n b)) = true)
    by (intros []; vm_compute; reflexivity).
  specialize (Hall leap). rewrite forallb_forall in Hall.
  specialize (Hall (Z.to_nat n)). rewrite Z2Nat.id in Hall by lia.
  unfold month_day_ok in Hall. destruct (month_day leap n) as [m d].
  rewrite !andb_true_iff, !Z.leb_le, Z.eqb_eq in Hall.
  destruct Hall as [[[[H1 H2] H3] H4] H5]; [|done].
  apply in_seq. destruct leap; simpl in *; lia.
Qed.

(** The first day of a year, by its position in the 400-year cycle. *)
Lemma days_before_year_cycle a b c :
  0 <= a <= 3 → 0 <= b <= 24 → 0 <= c <= 3 →
  days_before_year (1 + a * 100 + b * 4 + c) = a * 36524 + b * 1461 + c * 365.
Proof.
  intros Ha Hb Hc. unfold days_before_year.
  replace ((1 + a * 100 + b * 4 + c - 1) / 4) with (a * 25 + b) by lia.
  replace ((1 + a * 100 + b * 4 + c - 1) / 100) with a by lia.
  replace ((1 + a * 100 + b * 4 + c - 1) / 400) with 0 by lia. lia.
Qed.

Lemma is_leap_cycle a b c :
  0 <= a <= 3 → 0 <= b <= 24 → 0 <= c <= 3 →
  is_leap (1 + a * 100 + b * 4 + c) = (c =? 3) && (negb (b =? 24) || (a =? 3)).
Proof.
  intros Ha Hb Hc. unfold is_leap.
  assert (H4 : ((1 + a * 100 + b * 4 + c) mod 4 =? 0) = (c =? 3))
    by (destruct (c =? 3) eqn:E; lia).
  rewrite H4. destruct (c =? 3) eqn:E; [|done]. apply Z.eqb_eq in E as ->. cbn [andb].
  assert (H100 : ((1 + a * 100 + b * 4 + 3) mod 100 =? 0) = (b =? 24))
    by (destruct (b =? 24) eqn:E; lia).
  assert (H400 : (b = 24) → ((1 + a * 100 + b * 4 + 3) mod 400 =? 0) = (a =? 3))
    by (intros ->; destruct (a =? 3) eqn:E; lia).
  rewrite H100. destruct (b =? 24) eqn:E; [|done]. apply Z.eqb_eq in E. by rewrite H400.
Qed.

Lemma cycle_ymd_spec n :
  0 <= n < 146097 →
  let '(y, m, d) := cycle_ymd n in
  ymd2ord y m d = n + 1 ∧ 1 <= y <= 400 ∧ 1 <= m <= 12 ∧ 1 <= d <= days_in_month y m
  ∧ (y = 400 → 145731 <= n).
Proof.
  intros Hn. unfold cycle_ymd.
  pose proof (Z.div_mod n 36524 ltac:(lia)). pose proof (Z.mod_pos_bound n 36524 ltac:(lia)).
  set (a := n / 36524) in *. set (r := n mod 36524) in *.
  pose proof (Z.div_mod r 1461 ltac:(lia)). pose proof (Z.mod_pos_bound r 1461 ltac:(lia)).
  set (b := r / 1461) in *. set (r2 := r mod 1461) in *.
  pose proof (Z.div_mod r2 365 ltac:(lia)). pose proof (Z.mod_pos_bound r2 365 ltac:(lia)).
  set (c := r2 / 365) in *. set (r3 := r2 mod 365) in *.
  clearbody a r b r2 c r3.
  assert (0 <= a <= 4) by lia. assert (0 <= b <= 24) by lia. assert (0 <= c <= 4) by lia.
  destruct ((c =? 4) || (a =? 4)) eqn:E.
  - (* the last day of a leap year *)
    assert (Hl : ∃ a' b', 0 <= a' <= 3 ∧ 0 <= b' <= 24 ∧ (b' <> 24 ∨ a' = 3) ∧
                 1 + a * 100 + b * 4 + c - 1 = 1 + a' * 100 + b' * 4 + 3 ∧
                 n = a' * 36524 + b' * 1461 + 1460).
    { apply orb_true_iff in E. rewrite !Z.eqb_eq in E. destruct (decide (a = 4)) as [->|].
      - exists 3, 24. assert (b = 0 ∧ c = 0) as [-> ->] by lia. lia.
      - exists a, b. destruct E as [-> | ?]; [|done]. lia. }
    destruct Hl as (a' & b' & ? & ? & ? & -> & ->).
    unfold ymd2ord, days_before_month, days_in_month.
    rewrite days_before_year_cycle, is_leap_cycle by lia.
    replace ((3 =? 3) && (negb (b' =? 24) || (a' =? 3))) with true by lia.
    change (Z.to_nat (12 - 1)) with 11%nat. cbn. lia.
  - apply orb_false_iff in E as [Ec Ea]. apply Z.eqb_neq in Ec, Ea.
    pose proof (is_leap_cycle a b c ltac:(lia) ltac:(lia) ltac:(lia)) as Hleap.
    rewrite <- Hleap. set (leap := is_leap _) in *.
    pose proof (month_day_spec leap r3) as Hmd.
    destruct (month_day leap r3) as [m d].
    destruct Hmd as (Hsum & Hm & Hd); [destruct leap; simpl; lia|].
    unfold ymd2ord, days_before_month, days_in_month. fold leap.
    rewrite days_before_year_cycle by lia. unfold dbm, dim in *. lia.
Qed.

Lemma mod_shift y k b c e : 0 < b → e = b * c → (y + e * k) mod b = y mod b.
Proof.
  intros Hb ->. replace (y + b * c * k) with (y + (c * k) * b) by ring. apply Z_mod_plus_full.
Qed.

Lemma div_shift y k b c e : 0 < b → e = b * c → (y + e * k) / b = y / b + c * k.
Proof.
  intros Hb ->. replace (y + b * c * k) with (y + (c * k) * b) by ring.
  apply Z_div_plus_full. lia.
Qed.

Lemma is_leap_shift y k : is_leap (y + 400 * k) = is_leap y.
Proof.
  unfold is_leap.
  by rewrite (mod_shift y k 4 100), (mod_shift y k 100 4), (mod_shift y k 400 1).
Qed.

Lemma days_in_month_shift y m k : days_in_month (y + 400 * k) m = days_in_month y m.
Proof. unfold days_in_month. by rewrite is_leap_shift. Qed.

Lemma ymd2ord_shift y m d k : ymd2ord (y + 400 * k) m d = ymd2ord y m d + 146097 * k.
Proof.
  unfold ymd2ord, days_before_month. rewrite is_leap_shift.
  enough (days_before_year (y + 400 * k) = days_before_year y + 146097 * k) by lia.
  unfold days_before_year. replace (y + 400 * k - 1) with (y - 1 + 400 * k) by lia.
  rewrite (div_shift _ k 4 100), (div_shift _ k 100 4), (div_shift _ k 400 1) by done. lia.
Qed.

Lemma ord2ymd_shift n k :
  ord2ymd (n + 146097 * k) = let '(y, m, d) := ord2ymd n in (y + 400 * k, m, d).
Proof.
  unfold ord2ymd.
  replace (n + 146097 * k - 1) with (n - 1 + 146097 * k) by lia.
  rewrite (mod_shift _ k _ 1), (div_shift _ k _ 1) by done.
  destruct (cycle_ymd _) as [[y m] d]. generalize ((n - 1) / 146097). intros q.
  do 2 f_equal. lia.
Qed.

(** Every day of the supported range splits into a valid date and back. *)
Lemma ord2ymd_valid n :
  1 <= n <= max_ord →
  let '(y, m, d) := ord2ymd n in
  ymd2ord y m d = n ∧ 1 <= y <= 9999 ∧ 1 <= m <= 12 ∧ 1 <= d <= days_in_month y m.
Proof.
  unfold max_ord. intros Hn.
  pose proof (Z.div_mod (n - 1) 146097 ltac:(lia)) as Hdm.
  pose proof (Z.mod_pos_bound (n - 1) 146097 ltac:(lia)) as Hr.
  set (k := (n - 1) / 146097) in *. set (r := (n - 1) mod 146097) in *.
  assert (Hk : 0 <= k <= 24) by lia.
  replace n with (r + 1 + 146097 * k) by lia. rewrite ord2ymd_shift.
  unfold ord2ymd. rewrite Z.add_simpl_r, Z.mod_small, Z.div_small by lia.
  pose proof (cycle_ymd_spec r Hr) as Hc. destruct (cycle_ymd r) as [[y m] d].
  rewrite Z.mul_0_l, Z.add_0_l, ymd2ord_shift, days_in_month_shift. lia.
Qed.

Lemma ord2ymd_valid_ymd n :
  1 <= n <= max_ord →
  let '(y, m, d) := ord2ymd n in ymd2ord y m d = n ∧ valid_ymd y m d = true.
Proof.
  intros Hn. pose proof (ord2ymd_valid n Hn) as H.
  destruct (ord2ymd n) as [[y m] d]. destruct H as (-> & ? & ? & ?). split; [done|].
  unfold valid_ymd. rewrite !andb_true_iff, !Z.leb_le. lia.
Qed.

(** ** Digits *)

Lemma digit_cases (P : Z → Prop) :
  P 0 → P 1 → P 2 → P 3 → P 4 → P 5 → P 6 → P 7 → P 8 → P 9 →
  ∀ d, 0 <= d < 10 → P d.
Proof.
  intros. assert (Hd : d ∈ map Z.of_nat (seq 0 10)).
  { apply list_elem_of_fmap. exists (Z.to_nat d). rewrite elem_of_seq. lia. }
  repeat (apply elem_of_cons in Hd as [->|Hd]; [done|]).
  by apply not_elem_of_nil in Hd.
Qed.

Lemma digit_ascii_spec d :
  0 <= d < 10 → is_digit (digit_ascii d) = true ∧ digit_val (digit_ascii d) = d.
Proof. revert d. by apply digit_cases. Qed.

(** The digits of a padded number, as a list of characters. *)
Definition pad_chars (w : nat) (n : Z) : list ascii := str_chars (pad_digits w n).

Lemma str_chars_pad w n :
  Forall (λ c, is_digit c = true) (pad_chars w n)
  ∧ length (pad_chars w n) = w.
Proof.
  induction w as [|w [IH1 IH2]]; [by split; [constructor|]|].
  unfold pad_chars in *; cbn [pad_digits str_chars length]. split; [|by rewrite IH2].
  constructor; [|done]. apply digit_ascii_spec, Z.mod_pos_bound. lia.
Qed.

Lemma digits_val_pad w n acc :
  0 <= n →
  digits_val acc (pad_chars w n) = Some (acc * 10 ^ Z.of_nat w + n mod 10 ^ Z.of_nat w).
Proof.
  revert acc. induction w as [|w IH]; intros acc Hn.
  - unfold pad_chars; simpl. by rewrite Z.mod_1_r, Z.mul_1_r, Z.add_0_r.
  - unfold pad_chars in *; cbn [pad_digits str_chars digits_val].
    set (q := n / 10 ^ Z.of_nat w).
    destruct (digit_ascii_spec (q mod 10)) as [-> ->]; [apply Z.mod_pos_bound; lia|].
    rewrite IH by done. f_equal. rewrite Nat2Z.inj_succ, Z.pow_succ_r by lia.
    pose proof (Z.pow_pos_nonneg 10 (Z.of_nat w)) as Hp.
    rewrite (Z.mul_comm 10 (10 ^ _)), Z.rem_mul_r by lia. fold q. ring.
Qed.

Lemma read_digits_pad w n rest :
  0 <= n < 10 ^ Z.of_nat w →
  read_digits w (pad_chars w n ++ rest) = Some (n, rest).
Proof.
  intros Hn. unfold read_digits. destruct (str_chars_pad w n) as [_ Hlen].
  rewrite length_app, Hlen, (proj2 (Nat.leb_le _ _)) by lia.
  rewrite take_app_length', drop_app_length' by done.
  rewrite digits_val_pad by lia. simpl. by rewrite Z.mod_small.
Qed.

Lemma digit_neq c d : is_digit c = false → is_digit d = true → Ascii.eqb c d = false.
Proof.
  intros Hc Hd. destruct (Ascii.eqb c d) eqn:E; [|done].
  apply Ascii.eqb_eq in E as ->. congruence.
Qed.

Lemma next_is_pad c w n rest :
  is_digit c = false → (0 < w)%nat → next_is c (pad_chars w n ++ rest) = false.
Proof.
  intros Hc Hw. destruct (str_chars_pad w n) as [Hd Hlen].
  destruct (pad_chars w n) as [|d l]; simpl in *; [lia|].
  inversion Hd; subst. by apply digit_neq.
Qed.

Lemma find_char_skip c l r :
  Forall (λ d, Ascii.eqb c d = false) l →
  find_char c (l ++ r) = (λ n, (length l + n)%nat) <$> find_char c r.
Proof.
  induction 1 as [|d l Hd _ IH]; simpl; [by destruct (find_char c r)|].
  rewrite Hd, IH. by destruct (find_char c r).
Qed.

(** ** The time of day *)

#[local] Opaque pad_chars read_digits next_is.

Definition time_chars (h m s us : Z) : list ascii :=
  pad_chars 2 h ++ ":"%char :: pad_chars 2 m ++ ":"%char :: pad_chars 2 s
  ++ (if us =? 0 then [] else "."%char :: pad_chars 6 us).

Lemma parse_hms_time h m s us :
  0 <= h < 100 → 0 <= m < 100 → 0 <= s < 100 → 0 <= us < 1000000 →
  parse_hms (time_chars h m s us) = Some (h, m, s, us).
Proof.
  intros Hh Hm Hs Hus. unfold parse_hms, time_chars.
  rewrite read_digits_pad by lia. simpl. rewrite read_digits_pad by lia. simpl.
  rewrite read_digits_pad by lia. simpl.
  destruct (us =? 0) eqn:E; simpl; [apply Z.eqb_eq in E; by subst|].
  destruct (str_chars_pad 6 us) as [_ Hlen]. rewrite Hlen. simpl.
  rewrite <- (app_nil_r (pad_chars _ _)), read_digits_pad by lia. simpl.
  by rewrite Z.mul_1_r.
Qed.

Lemma time_chars_no c h m s us :
  is_digit c = false → Ascii.eqb c ":" = false → Ascii.eqb c "." = false →
  Forall (λ d, Ascii.eqb c d = false) (time_chars h m s us).
Proof.
  intros Hc H1 H2. unfold time_chars.
  assert (Hp : ∀ w n, Forall (λ d, Ascii.eqb c d = false) (pad_chars w n)).
  { intros w n. eapply Forall_impl; [apply str_chars_pad|]. intros d. by apply digit_neq. }
  repeat (apply Forall_app; split; [apply Hp|]; constructor; [done|]).
  apply Forall_app; split; [apply Hp|]. destruct (us =? 0); [constructor|].
  constructor; [done | apply Hp].
Qed.

Lemma length_time_chars h m s us : (8 <= length (time_chars h m s us))%nat.
Proof.
  unfold time_chars. rewrite !length_app; simpl. rewrite !length_app; simpl.
  rewrite !length_app, !(proj2 (str_chars_pad _ _)). lia.
Qed.

#[local] Opaque time_chars.

(** The characters of the UTC suffix. *)
Definition utc_suffix : list ascii := ["+"; "0"; "0"; ":"; "0"; "0"]%char.

Lemma zone_pos_time h m s us :
  zone_pos (time_chars h m s us ++ utc_suffix) = Some (S (length (time_chars h m s us))).
Proof.
  unfold zone_pos. rewrite !find_char_skip by (by apply time_chars_no).
  simpl. by rewrite Nat.add_0_r.
Qed.

Lemma parse_time_utc h m s us :
  0 <= h < 24 → 0 <= m < 60 → 0 <= s < 60 → 0 <= us < 1000000 →
  parse_time_of_day (time_chars h m s us ++ utc_suffix) = Some (hms_us h m s us, Some 0).
Proof.
  intros Hh Hm Hs Hus. unfold parse_time_of_day.
  pose proof (length_time_chars h m s us) as Hlen.
  rewrite (proj2 (Nat.ltb_ge _ _)) by (rewrite length_app; lia).
  rewrite zone_pos_time. cbn [Nat.sub]. rewrite Nat.sub_0_r, take_app_length.
  rewrite parse_hms_time by lia. cbn [mbind option_bind].
  replace (h <? 24) with true by lia. replace (m <? 60) with true by lia.
  replace (s <? 60) with true by lia. cbn [andb negb].
  rewrite length_app. set (L := length (time_chars h m s us)) in *.
  assert (Nat.eqb (S L) (L + length utc_suffix) = false) as ->
    by (apply Nat.eqb_neq; cbn [length utc_suffix]; lia).
  cbn [andb]. replace (S L) with (L + 1)%nat by lia.
  rewrite <- drop_drop. unfold L. rewrite drop_app_length. cbn.
  unfold char_at. rewrite app_nth2 by lia. rewrite Nat.sub_diag. done.
Qed.

(** ** The round trip *)

Definition date_chars (y m d : Z) : list ascii :=
  pad_chars 4 y ++ "-"%char :: pad_chars 2 m ++ "-"%char :: pad_chars 2 d.

Lemma length_date_chars y m d : length (date_chars y m d) = 10%nat.
Proof.
  unfold date_chars. rewrite !length_app; simpl. rewrite !length_app; simpl.
  by rewrite !(proj2 (str_chars_pad _ _)).
Qed.

Lemma parse_date_chars y m d :
  valid_ymd y m d = true → parse_date (date_chars y m d) = Some (ymd2ord y m d).
Proof.
  intros Hv. pose proof Hv as Hb. unfold valid_ymd in Hb.
  rewrite !andb_true_iff, !Z.leb_le in Hb.
  assert (Hd : days_in_month y m <= 31).
  { unfold days_in_month. destruct (_ && _); [lia|].
    assert (Hall : Forall (λ x, x <= 31) month_days) by (by repeat constructor).
    destruct (nth_in_or_default (Z.to_nat (m - 1)) month_days 0) as [H | ->]; [|lia].
    rewrite Forall_forall in Hall. apply Hall. by apply list_elem_of_In. }
  unfold parse_date, date_chars.
  rewrite read_digits_pad by lia.
  cbn [mbind option_bind]. change (next_is _ (_ :: _)) with true. cbn [drop].
  rewrite drop_0, (next_is_pad "W") by (done || lia). rewrite read_digits_pad by lia.
  cbn [mbind option_bind]. change (next_is _ (_ :: _)) with true. cbn [drop Bool.eqb negb].
  rewrite drop_0, <- (app_nil_r (pad_chars 2 d)), read_digits_pad by lia. simpl.
  by rewrite Hv.
Qed.

Lemma find_separator_date y m d l : find_separator (date_chars y m d ++ l) = Some 10%nat.
Proof.
  unfold find_separator. rewrite length_app, length_date_chars. cbn [Nat.add Nat.eqb].
  assert (H4 : char_at 4 (date_chars y m d ++ l) = "-"%char).
  { unfold char_at, date_chars. rewrite <- app_assoc. cbn [app].
    destruct (str_chars_pad 4 y) as [_ Hlen].
    rewrite app_nth2 by (rewrite Hlen; lia). by rewrite Hlen. }
  assert (H5 : Ascii.eqb (char_at 5 (date_chars y m d ++ l)) "W" = false).
  { unfold char_at, date_chars. rewrite <- app_assoc. cbn [app].
    destruct (str_chars_pad 4 y) as [_ Hlen]. destruct (str_chars_pad 2 m) as [Hd Hlen2].
    rewrite app_nth2 by (rewrite Hlen; lia). rewrite Hlen. cbn [Nat.sub nth].
    destruct (pad_chars 2 m) as [|c r]; [done|]. cbn [app nth].
    inversion Hd; subst. rewrite Ascii.eqb_sym. by apply digit_neq. }
  by rewrite H4, H5.
Qed.

Lemma fromisoformat_chars y mo d h m s us :
  valid_ymd y mo d = true → 1 <= ymd2ord y mo d <= max_ord →
  0 <= h < 24 → 0 <= m < 60 → 0 <= s < 60 → 0 <= us < 1000000 →
  fromisoformat (chars_str (date_chars y mo d ++ "T"%char :: time_chars h m s us ++ utc_suffix))
  = Some (DT ((ymd2ord y mo d - 1) * day_us + hms_us h m s us) (Some 0)).
Proof.
  intros Hv Hord Hh Hm Hs Hus. unfold fromisoformat.
  assert (Hcs : ∀ l, str_chars (chars_str l) = l) by (induction l; simpl; congruence).
  rewrite Hcs, length_app, length_date_chars. cbn [Nat.add Nat.ltb Nat.leb].
  rewrite find_separator_date. cbn [mbind option_bind].
  rewrite (take_app_length' (date_chars y mo d)) by (by rewrite length_date_chars). rewrite parse_date_chars by done.
  cbn [mbind option_bind]. 
  replace (1 <=? ymd2ord y mo d) with true by lia.
  replace (ymd2ord y mo d <=? max_ord) with true by lia. cbn [andb negb].
  assert (Hsep : char_at 10 (date_chars y mo d ++ "T"%char :: time_chars h m s us ++ utc_suffix)
                 = "T"%char).
  { unfold char_at. rewrite app_nth2 by (rewrite length_date_chars; lia).
    by rewrite length_date_chars. }
  rewrite Hsep. change (10 + separator_width "T")%nat with 11%nat.
  change 11%nat with (10 + 1)%nat. rewrite <- drop_drop.
  rewrite (drop_app_length' (date_chars y mo d)) by (by rewrite length_date_chars). cbn [drop].
  rewrite drop_0, parse_time_utc by done.
  pose proof (length_time_chars h m s us) as Hlen.
  by destruct (time_chars h m s us) as [|c r]; [simpl in Hlen; lia|].
Qed.

(** [datetime.fromisoformat(s.replace("Z", "+00:00"))] and
    [t.isoformat().replace("+00:00", "Z")], the pair of conversions the state
    files are written and read with. *)
Definition iso_z (t : datetime) : string := str_replace "+00:00" "Z" (isoformat t).
Definition parse_iso_z (s : string) : option datetime :=
  fromisoformat (str_replace "Z" "+00:00" s).

Lemma chars_str_chars s : chars_str (str_chars s) = s.
Proof. induction s; simpl; congruence. Qed.

Lemma chars_str_app l r : chars_str (l ++ r) = chars_str l +:+ chars_str r.
Proof. induction l as [|c l IH]; simpl; [done | by rewrite IH]. Qed.

Lemma prefix_neq c old d s : Ascii.eqb c d = false → String.prefix (String c old) (String d s) = false.
Proof.
  intros H. simpl. destruct (ascii_dec c d) as [->|]; [|done]. by rewrite Ascii.eqb_refl in H.
Qed.

Lemma replace_go_skip c old new body r fuel :
  Forall (λ d, Ascii.eqb c d = false) body →
  replace_go (length body + fuel) (String c old) new (chars_str (body ++ r))
  = chars_str body +:+ replace_go fuel (String c old) new (chars_str r).
Proof.
  induction 1 as [|d body Hd _ IH]; [done|].
  cbn [length Nat.add app chars_str replace_go]. rewrite prefix_neq by done.
  by rewrite IH.
Qed.

Lemma str_length_chars l : String.length (chars_str l) = length l.
Proof. induction l as [|c l IH]; simpl; [done | by rewrite IH]. Qed.

Section utc_body.
Variables y mo d h m s us : Z.
Let body : list ascii := date_chars y mo d ++ "T"%char :: time_chars h m s us.

Lemma body_no c :
  is_digit c = false → Ascii.eqb c ":" = false → Ascii.eqb c "." = false →
  Ascii.eqb c "-" = false → Ascii.eqb c "T" = false →
  Forall (λ d, Ascii.eqb c d = false) body.
Proof.
  intros Hc H1 H2 H3 H4.
  assert (Hp : ∀ w n, Forall (λ d, Ascii.eqb c d = false) (pad_chars w n)).
  { intros w n. eapply Forall_impl; [apply str_chars_pad|]. intros x. by apply digit_neq. }
  unfold body, date_chars.
  apply Forall_app; split; [|by constructor; [|apply time_chars_no]].
  repeat (apply Forall_app; split; [apply Hp|]; constructor; [done|]). apply Hp.
Qed.

Lemma replace_utc_z :
  str_replace "+00:00" "Z" (chars_str (body ++ utc_suffix)) = chars_str (body ++ ["Z"%char]).
Proof.
  unfold str_replace. rewrite str_length_chars, length_app, plus_n_Sm, replace_go_skip.
  - rewrite chars_str_app. done.
  - by apply body_no.
Qed.

Lemma replace_z_utc :
  str_replace "Z" "+00:00" (chars_str (body ++ ["Z"%char])) = chars_str (body ++ utc_suffix).
Proof.
  unfold str_replace. rewrite str_length_chars, length_app, plus_n_Sm, replace_go_skip.
  - rewrite chars_str_app. done.
  - by apply body_no.
Qed.
End utc_body.

#[local] Transparent time_chars pad_chars.

Lemma isoformat_utc u :
  in_range u = true →
  ∃ y mo d h m s us,
    isoformat (DT u (Some 0))
    = chars_str ((date_chars y mo d ++ "T"%char :: time_chars h m s us) ++ utc_suffix)
    ∧ fromisoformat
        (chars_str ((date_chars y mo d ++ "T"%char :: time_chars h m s us) ++ utc_suffix))
      = Some (DT u (Some 0)).
Proof.
  unfold in_range, day_us. rewrite andb_true_iff, Z.leb_le, Z.ltb_lt. intros Hu.
  set (n := u / 86400000000). set (r := u mod 86400000000).
  assert (Hdm : u = 86400000000 * n + r) by (apply Z.div_mod; lia).
  assert (Hr : 0 <= r < 86400000000) by (apply Z.mod_pos_bound; lia).
  assert (Hn : 1 <= n + 1 <= max_ord) by (unfold max_ord in *; lia).
  pose proof (ord2ymd_valid_ymd _ Hn) as Hv.
  unfold isoformat. cbn [dt_local dt_off]. fold day_us. change (u / day_us) with n.
  change (u mod day_us) with r. destruct (ord2ymd (n + 1)) as [[y mo] d].
  destruct Hv as [Hord Hv].
  exists y, mo, d, (r / 3600000000), ((r / 60000000) mod 60), ((r / 1000000) mod 60), (r mod 1000000).
  split.
  - rewrite <- (chars_str_chars (_ +:+ _)). f_equal. rewrite !str_chars_app.
    unfold date_chars, time_chars, pad_chars, pad2. fold day_us.
    destruct (r mod 1000000 =? 0);
      repeat first [rewrite <- app_assoc | progress cbn [app str_chars]]; reflexivity.
  - rewrite <- app_assoc. cbn [app]. rewrite fromisoformat_chars; try done; try lia.
    f_equal. f_equal. rewrite Hord. unfold hms_us, day_us. lia.
Qed.

(** A UTC time written to a state file is read back as the same time. *)
Lemma parse_iso_z_format u :
  in_range u = true → parse_iso_z (iso_z (DT u (Some 0))) = Some (DT u (Some 0)).
Proof.
  intros Hu. destruct (isoformat_utc u Hu) as (y & mo & d & h & m & s & us & Hiso & Hparse).
  unfold parse_iso_z, iso_z. by rewrite Hiso, replace_utc_z, replace_z_utc.
Qed.
