(* ===== verification/AuthorityTransitions.v ===== *)
(** * Repo-patch authority: record transitions

    The pure part of [src/shared/mesh_runtime/repo_patch_authority_store.py]:
    request validation, the four record transitions, the hash-chained event
    receipts and their reconciliation.  Records and events are the source's
    dictionaries; both store back ends call these functions. *)

From S2P Require Import Prelude PyFloat PyValue Json Sha256 DateTime.

Definition AUTHORITY_STORE_VERSION : string := "mesh.repo_patch_authority_store.v1".
Definition AUTHORITY_RECORD_VERSION : string := "mesh.repo_patch_authority_record.v1".
Definition AUTHORITY_EVENT_VERSION : string := "mesh.repo_patch_authority_event_receipt.v1".
Definition GENESIS_EVENT_DIGEST : string :=
  "sha256:0000000000000000000000000000000000000000000000000000000000000000".
Definition TERMINAL_OUTCOMES : list string := ["succeeded"; "failed"; "rejected"; "unknown"].

(** ** Helpers *)

Definition canonical_authority_digest (v : value) : res string :=
  encoded ← dumps_finite false v;
  Ok ("sha256:" +:+ sha256_hex encoded).

Definition required_text (v : value) (field : string) : res unit :=
  match v with
  | VStr s => if String.eqb (str_strip s) ""
              then raise AuthorityStoreError (field +:+ " must be a nonempty string")
              else Ok ()
  | _ => raise AuthorityStoreError (field +:+ " must be a nonempty string")
  end.

Definition required_version (v : value) : res unit :=
  match v with
  | VInt n => if n <? 1
              then raise AuthorityStoreError "expected_version must be a positive integer"
              else Ok ()
  | _ => raise AuthorityStoreError "expected_version must be a positive integer"
  end.

(** A JSON round trip, refused for NaN and infinities. *)
Definition json_copy (v : value) : res value :=
  if json_finite v then Ok v
  else raise AuthorityStoreError "authority payload must be finite JSON data".

Definition format_time (t : datetime) : res string :=
  match dt_off t with
  | None => raise AuthorityStoreError "authority-store clock must return a timezone-aware datetime"
  | Some _ => u ← astimezone_utc t; Ok (iso_z u)
  end.

Definition parse_time (s : string) : res datetime :=
  match parse_iso_z s with
  | None => raise AuthorityStoreError "authority-store timestamp is malformed"
  | Some t =>
      match dt_off t with
      | None => raise AuthorityStoreError "authority-store timestamp must be timezone-aware"
      | Some _ => astimezone_utc t
      end
  end.

(** ** Validation *)

Definition validate_record_binding (record : dict) : res unit :=
  raise_if negb (is_string AUTHORITY_RECORD_VERSION (dgetN "schema_version" record))
    with AuthorityStoreError "unsupported repo-patch authority-record version";
  let binding := dgetN "action_binding" record in
  raise_if negb (is_dict binding && truthy binding)
    with AuthorityStoreError "authority record action binding is malformed";
  digest ← canonical_authority_digest binding;
  raise_if negb (is_string digest (dgetN "action_binding_digest" record))
    with AuthorityStoreError "authority record action binding digest is invalid";
  Ok ().

Definition require_lease (record : dict) (lease_id : value) : res unit :=
  _ ← required_text lease_id "lease_id";
  raise_if negb (py_eq (dgetN "lease_id" record) lease_id)
    with AuthorityConflictError "authority lease id mismatch";
  Ok ().

Definition require_transition (record : dict) (expected_version : value)
    (allowed_states : list string) : res unit :=
  _ ← validate_record_binding record;
  _ ← required_version expected_version;
  raise_if negb (py_eq (dgetN "version" record) expected_version)
    with AuthorityConflictError
      ("authority version conflict: expected " +:+ py_str expected_version
       +:+ ", found " +:+ py_repr (dgetN "version" record));
  allowed ← in_str_set (dgetN "state" record) allowed_states;
  raise_if negb allowed
    with AuthorityStateError
      ("authority state " +:+ py_repr (dgetN "state" record)
       +:+ " does not allow this transition");
  Ok ().

Definition require_same_issue (existing request : dict) : res unit :=
  _ ← validate_record_binding existing;
  _ ← res_iter (λ field,
         raise_if negb (py_eq (dgetN field existing) (dgetN field request))
           with AuthorityConflictError ("issue-or-get conflict on " +:+ field);
         Ok ())
       ["authority_id"; "idempotency_key"; "nonce"; "action_binding_digest"];
  raise_if negb (py_eq (dgetN "action_binding" existing) (dgetN "action_binding" request))
    with AuthorityConflictError "issue-or-get conflict on full action binding";
  Ok ().

Definition validated_issue_request (authority_id idempotency_key nonce action_binding : value)
    : res dict :=
  _ ← required_text authority_id "authority_id";
  _ ← required_text idempotency_key "idempotency_key";
  match nonce with
  | VStr n =>
      raise_if negb (is_hex_string 64 n)
        with AuthorityStoreError "nonce must be 64 lowercase hexadecimal characters";
      raise_if negb (is_dict action_binding && truthy action_binding)
        with AuthorityStoreError "action_binding must be a nonempty object";
      binding ← json_copy action_binding;
      digest ← canonical_authority_digest binding;
      Ok [("authority_id", authority_id);
          ("idempotency_key", idempotency_key);
          ("nonce", nonce);
          ("action_binding", binding);
          ("action_binding_digest", VStr digest)]
  | _ => raise TypeError "expected string or bytes-like object"
  end.

(** ** Events *)

(** The event of the new state, chained to the latest one, and the record
    pointing at it. *)
Definition with_event (record : dict) (event_type : string) (payload : dict)
    : res (dict * dict) :=
  n ← py_int (dget_or "event_sequence" (VInt 0) record);
  let sequence := n + 1 in
  authority_id ← ditem "authority_id" record;
  version ← ditem "version" record;
  binding_digest ← ditem "action_binding_digest" record;
  updated_at ← ditem "updated_at" record;
  event_payload ← json_copy (VDict payload);
  let event_body :=
    [("schema_version", VStr AUTHORITY_EVENT_VERSION);
     ("authority_id", authority_id);
     ("sequence", VInt sequence);
     ("event_type", VStr event_type);
     ("state_version", version);
     ("action_binding_digest", binding_digest);
     ("previous_event_digest",
        py_or (dgetN "latest_event_digest" record) (VStr GENESIS_EVENT_DIGEST));
     ("recorded_at", updated_at);
     ("payload", event_payload)] in
  event_digest ← canonical_authority_digest (VDict event_body);
  let event :=
    event_body
    ++ [("event_id", VStr ("authority_event_" +:+ str_removeprefix "sha256:" event_digest));
        ("event_digest", VStr event_digest)] in
  Ok (dset "latest_event_digest" (VStr event_digest)
        (dset "event_sequence" (VInt sequence) record),
      event).

Definition new_issue (request : dict) (now : datetime) : res (dict * dict) :=
  timestamp ← format_time now;
  let record :=
    ("schema_version", VStr AUTHORITY_RECORD_VERSION) :: request
    ++ [("state", VStr "issued");
        ("version", VInt 1);
        ("lease_id", VNone);
        ("lease_expires_at", VNone);
        ("dispatched_at", VNone);
        ("terminal_outcome", VNone);
        ("terminal_result", VNone);
        ("issued_at", VStr timestamp);
        ("updated_at", VStr timestamp);
        ("event_sequence", VInt 0);
        ("latest_event_digest", VStr GENESIS_EVENT_DIGEST)] in
  key ← ditem "idempotency_key" request;
  nonce ← ditem "nonce" request;
  with_event record "issued" [("idempotency_key", key); ("nonce", nonce)].

(** ** Transitions *)

(** [expected_version + 1] once the version has been validated. *)
Definition next_version (expected_version : value) : value :=
  match expected_version with VInt n => VInt (n + 1) | v => v end.

Definition require_positive_seconds (v : value) : res Z :=
  match v with
  | VInt n => if n <=? 0
              then raise AuthorityStoreError "lease_seconds must be a positive integer"
              else Ok n
  | _ => raise AuthorityStoreError "lease_seconds must be a positive integer"
  end.

(** [not isinstance(v, str) or now <= _parse_time(v)] *)
Definition lease_active (now : datetime) (v : value) : res bool :=
  match v with
  | VStr s => t ← parse_time s; dt_leb now t
  | _ => Ok true
  end.

(** [not isinstance(v, str) or now > _parse_time(v)] *)
Definition lease_lapsed (now : datetime) (v : value) : res bool :=
  match v with
  | VStr s => t ← parse_time s; dt_ltb t now
  | _ => Ok true
  end.

(** The guard of a second lease: the first one has lapsed and its identifier
    is not reused. *)
Definition reclaim_guard (current : dict) (lease_id : value) (now : datetime) : res unit :=
  if is_string "leased" (dgetN "state" current) then
    active ← lease_active now (dgetN "lease_expires_at" current);
    raise_if active
      with AuthorityStateError "authority pre-dispatch lease is still active";
    raise_if py_eq (dgetN "lease_id" current) lease_id
      with AuthorityConflictError "authority expired lease reclaim requires a fresh lease id";
    Ok ()
  else Ok ().

Definition lease_transition (current : dict) (expected_version lease_id lease_seconds : value)
    (now : datetime) : res (dict * dict) :=
  _ ← require_transition current expected_version ["issued"; "leased"];
  _ ← required_text lease_id "lease_id";
  seconds ← require_positive_seconds lease_seconds;
  let previous_lease_id := dgetN "lease_id" current in
  let leased := is_string "leased" (dgetN "state" current) in
  _ ← reclaim_guard current lease_id now;
  expiry ← add_seconds now seconds;
  expires_at ← format_time expiry;
  updated_at ← format_time now;
  let updated :=
    dset "updated_at" (VStr updated_at)
      (dset "lease_expires_at" (VStr expires_at)
        (dset "lease_id" lease_id
          (dset "version" (next_version expected_version)
            (dset "state" (VStr "leased") current)))) in
  with_event updated
    (if leased then "expired_pre_dispatch_lease_reclaimed" else "leased_for_dispatch")
    [("lease_id", lease_id);
     ("lease_expires_at", VStr expires_at);
     ("previous_lease_id", previous_lease_id)].

Definition dispatch_transition (current : dict) (expected_version lease_id : value)
    (now : datetime) : res (dict * dict) :=
  _ ← require_transition current expected_version ["leased"];
  _ ← require_lease current lease_id;
  lapsed ← lease_lapsed now (dgetN "lease_expires_at" current);
  raise_if lapsed with AuthorityStateError "authority dispatch lease expired";
  stamp ← format_time now;
  let updated :=
    dset "updated_at" (VStr stamp)
      (dset "dispatched_at" (VStr stamp)
        (dset "version" (next_version expected_version)
          (dset "state" (VStr "dispatched") current))) in
  with_event updated "marked_dispatched" [("lease_id", lease_id)].

Definition terminal_transition (current : dict) (expected_version lease_id outcome result : value)
    (now : datetime) : res (dict * dict) :=
  _ ← require_transition current expected_version ["leased"; "dispatched"];
  _ ← require_lease current lease_id;
  known ← in_str_set outcome TERMINAL_OUTCOMES;
  raise_if negb known
    with AuthorityStoreError ("unsupported terminal outcome " +:+ py_repr outcome);
  raise_if is_string "leased" (dgetN "state" current) && negb (str_in outcome ["failed"; "rejected"])
    with AuthorityStateError "a pre-dispatch lease may complete only as failed or rejected";
  raise_if negb (is_dict result)
    with AuthorityStoreError "terminal result must be an object";
  terminal_result ← json_copy result;
  stamp ← format_time now;
  let updated :=
    dset "updated_at" (VStr stamp)
      (dset "terminal_result" terminal_result
        (dset "terminal_outcome" outcome
          (dset "version" (next_version expected_version)
            (dset "state" (VStr "terminal") current)))) in
  result_digest ← canonical_authority_digest terminal_result;
  with_event updated "terminal_completed"
    [("lease_id", lease_id);
     ("outcome", outcome);
     ("result_digest", VStr result_digest);
     ("dispatch_observed", VBool (is_string "dispatched" (dgetN "state" current)))].

(** ** Reconciliation *)

(** One receipt of the chain: its position, its bindings and its digest.
    Returns the digest the next receipt must point at. *)
Definition check_event (record : dict) (seq : Z) (previous : string) (event : value)
    : res string :=
  match event with
  | VDict e =>
      raise_if negb (py_eq (dgetN "sequence" e) (VInt seq))
        with AuthorityStoreError "authority event sequence is not contiguous";
      raise_if negb (is_string AUTHORITY_EVENT_VERSION (dgetN "schema_version" e))
        with AuthorityStoreError "authority event schema version is unsupported";
      raise_if negb (py_eq (dgetN "state_version" e) (VInt seq))
        with AuthorityStoreError "authority event state version is not contiguous";
      raise_if negb (py_eq (dgetN "authority_id" e) (dgetN "authority_id" record))
        with AuthorityStoreError "authority event record binding mismatch";
      raise_if negb (py_eq (dgetN "action_binding_digest" e) (dgetN "action_binding_digest" record))
        with AuthorityStoreError "authority event action binding mismatch";
      raise_if negb (is_string previous (dgetN "previous_event_digest" e))
        with AuthorityStoreError "authority event digest chain is broken";
      let claimed := dgetN "event_digest" e in
      let body := dpop "event_digest" (dpop "event_id" e) in
      digest ← canonical_authority_digest (VDict body);
      raise_if negb (is_string digest claimed)
        with AuthorityStoreError "authority event digest is invalid";
      Ok (py_str claimed)
  | _ => raise AuthorityStoreError "authority event receipt is malformed"
  end.

Fixpoint check_events (record : dict) (seq : Z) (previous : string) (events : list value)
    : res string :=
  match events with
  | [] => Ok previous
  | e :: events' =>
      digest ← check_event record seq previous e;
      check_events record (seq + 1) digest events'
  end.

(** [events\[-1\].get("state_version")]; the last event is a dictionary once
    the chain has been checked. *)
Definition last_state_version (events : list value) : value :=
  match last events with Some (VDict e) => dgetN "state_version" e | _ => VNone end.

Definition reconciliation_payload (record : dict) (events : value) : res dict :=
  _ ← validate_record_binding record;
  match events with
  | VList (e0 :: es) =>
      let evs := e0 :: es in
      previous ← check_events record 1 GENESIS_EVENT_DIGEST evs;
      raise_if negb (py_eq (dgetN "event_sequence" record) (VInt (Z.of_nat (length evs))))
        with AuthorityStoreError "authority record event sequence mismatch";
      raise_if negb (is_string previous (dgetN "latest_event_digest" record))
        with AuthorityStoreError "authority record latest event digest mismatch";
      raise_if negb (py_eq (last_state_version evs) (dgetN "version" record))
        with AuthorityStoreError "authority record version is not reconciled";
      Ok [("schema_version", VStr AUTHORITY_STORE_VERSION);
          ("record", VDict record);
          ("events", VList evs);
          ("event_chain_valid", VBool true)]
  | _ => raise AuthorityStoreError "authority event receipts are missing"
  end.
