(* ===== verification/AuthorityInterface.v ===== *)
(** * Repo-patch authority: the store interface

    The source's protocol [RepoPatchAuthorityStore], as the calls a client
    makes and what the store promises about them, stated on the abstract state
    [gmap string authority].  The client-side guarantees (one dispatch, one
    outcome, one winner per version) are proved here once, from the promises
    alone. *)

From S2P Require Import Prelude PyFloat PyValue DateTime AuthorityTransitions.
From stdpp Require Import gmap.
#[local] Open Scope Z_scope.

(** * Repo-patch authority: abstract specification

    What the authority store promises, without dictionaries, digests or time
    strings: a record moves through a small life cycle, one version per step. *)

(** The life of one authority.  Expiries are instants in microseconds. *)
Inductive lifecycle :=
  | Issued
  | Leased (lease : string) (expiry : Z)
  | Dispatched (lease : string)
  | Terminal (lease : string) (outcome : string) (dispatch_observed : bool).

#[export] Instance lifecycle_eq_dec : EqDecision lifecycle.
Proof. solve_decision. Defined.

Record authority := Authority {
  a_id : string;
  a_key : string;
  a_nonce : string;
  a_binding_digest : string;
  a_version : Z;
  a_life : lifecycle }.

#[export] Instance authority_eq_dec : EqDecision authority.
Proof. solve_decision. Defined.

(** What a caller binds an authority to is fixed at issue. *)
Definition same_binding (a b : authority) : Prop :=
  a_id a = a_id b ∧ a_key a = a_key b ∧ a_nonce a = a_nonce b
  ∧ a_binding_digest a = a_binding_digest b.

(** One step of the life cycle at instant [now]. *)
Inductive life_step (now : Z) : lifecycle → lifecycle → Prop :=
  | step_lease l e : now < e → life_step now Issued (Leased l e)
  | step_reclaim l e l' e' :
      e < now → l ≠ l' → now < e' → life_step now (Leased l e) (Leased l' e')
  | step_dispatch l e : now <= e → life_step now (Leased l e) (Dispatched l)
  | step_abandon l e out :
      out ∈ ["failed"; "rejected"] → life_step now (Leased l e) (Terminal l out false)
  | step_complete l out :
      out ∈ TERMINAL_OUTCOMES → life_step now (Dispatched l) (Terminal l out true).

Definition authority_step (now : Z) (a b : authority) : Prop :=
  same_binding a b ∧ a_version b = a_version a + 1 ∧ life_step now (a_life a) (a_life b).

(** The next version of [a], with life [l]. *)
Definition bump (a : authority) (l : lifecycle) : authority :=
  Authority (a_id a) (a_key a) (a_nonce a) (a_binding_digest a) (a_version a + 1) l.

(** Any number of steps. *)
Inductive authority_steps : authority → authority → Prop :=
  | steps_refl a : authority_steps a a
  | steps_next now a b c : authority_steps a b → authority_step now b c → authority_steps a c.

(** ** The abstraction function: what a stored record means *)

Definition life_of (r : dict) : option lifecycle :=
  let lease := as_str (dgetN "lease_id" r) in
  match dgetN "state" r with
  | VStr s =>
      if String.eqb s "issued" then Some Issued
      else if String.eqb s "leased" then
        l ← lease; e ← as_str (dgetN "lease_expires_at" r); t ← parse_iso_z e;
        i ← dt_instant t; Some (Leased l i)
      else if String.eqb s "dispatched" then l ← lease; Some (Dispatched l)
      else if String.eqb s "terminal" then
        l ← lease; o ← as_str (dgetN "terminal_outcome" r);
        Some (Terminal l o (negb (is_none (dgetN "dispatched_at" r))))
      else None
  | _ => None
  end.

Definition as_int (v : value) : option Z := match v with VInt n => Some n | _ => None end.

Definition authority_of (r : dict) : option authority :=
  id ← as_str (dgetN "authority_id" r);
  key ← as_str (dgetN "idempotency_key" r);
  nonce ← as_str (dgetN "nonce" r);
  digest ← as_str (dgetN "action_binding_digest" r);
  version ← as_int (dgetN "version" r);
  life ← life_of r;
  Some (Authority id key nonce digest version life).

(** ** Consequences of the life cycle *)

Definition is_terminal (l : lifecycle) : bool :=
  match l with Terminal _ _ _ => true | _ => false end.

(** Has the action been handed to the executor? *)
Definition dispatch_seen (l : lifecycle) : bool :=
  match l with Dispatched _ => true | Terminal _ _ d => d | _ => false end.

Lemma life_step_terminal now l l' : life_step now l l' → is_terminal l = false.
Proof. by destruct 1. Qed.

Lemma life_step_dispatch_seen now l l' :
  life_step now l l' → dispatch_seen l = true → dispatch_seen l' = true.
Proof. by destruct 1. Qed.

Lemma same_binding_trans a b c : same_binding a b → same_binding b c → same_binding a c.
Proof. unfold same_binding. intuition congruence. Qed.

Lemma authority_steps_binding a b : authority_steps a b → same_binding a b.
Proof.
  induction 1 as [a|now a b c _ IH [Hb _]]; [by repeat split|].
  by eapply same_binding_trans.
Qed.

Lemma authority_steps_version a b :
  authority_steps a b → a = b ∨ a_version a < a_version b.
Proof.
  induction 1 as [a|now a b c _ IH (_ & Hv & _)]; [by left|]. right.
  destruct IH as [->|]; lia.
Qed.

Lemma authority_steps_terminal a b :
  authority_steps a b → is_terminal (a_life a) = true → b = a.
Proof.
  intros Hs Ht. induction Hs as [a|now a b c _ IH (_ & _ & Hl)]; [done|].
  rewrite (IH Ht) in Hl. apply life_step_terminal in Hl. congruence.
Qed.

(** The methods of the protocol and their arguments. *)
Inductive call :=
  | IssueOrGet (authority_id idempotency_key nonce action_binding : value)
  | LeaseForDispatch (authority_id expected_version lease_id lease_seconds : value)
  | MarkDispatched (authority_id expected_version lease_id : value)
  | CompleteTerminal (authority_id expected_version lease_id outcome result : value)
  | ReadForReconciliation (authority_id : value).

(** Abstract state: the issued authorities by identifier. *)
Abbreviation registry := (gmap string authority).

(** Identifiers, idempotency keys and nonces each name one authority. *)
Record registry_ok (m : registry) : Prop := RegistryOk {
  reg_id : ∀ id a, m !! id = Some a → a_id a = id;
  reg_key : ∀ id id' a a', m !! id = Some a → m !! id' = Some a' → a_key a = a_key a' → id = id';
  reg_nonce : ∀ id id' a a',
    m !! id = Some a → m !! id' = Some a' → a_nonce a = a_nonce a' → id = id' }.

(** A transition of the authority [id] at its current version. *)
Definition reg_step (now : datetime) (m : registry) (id : string) (version : value)
    (l : lifecycle) (m' : registry) : Prop :=
  ∃ i a, dt_instant now = Some i ∧ m !! id = Some a ∧ version = VInt (a_version a)
    ∧ life_step i (a_life a) l ∧ m' = <[id := bump a l]> m.

(** The effect of a successful call, and what it returns. *)
Inductive call_ok (now : datetime) (m : registry) : call → value → registry → Prop :=
  | ok_get id a key nonce binding r :
      m !! id = Some a → a_key a = key → a_nonce a = nonce →
      canonical_authority_digest binding = Ok (a_binding_digest a) →
      authority_of r = Some a →
      call_ok now m (IssueOrGet (VStr id) (VStr key) (VStr nonce) binding) (VDict r) m
  | ok_issue id key nonce binding digest r :
      m !! id = None →
      (∀ id' a, m !! id' = Some a → a_key a ≠ key ∧ a_nonce a ≠ nonce) →
      canonical_authority_digest binding = Ok digest →
      authority_of r = Some (Authority id key nonce digest 1 Issued) →
      call_ok now m (IssueOrGet (VStr id) (VStr key) (VStr nonce) binding) (VDict r)
        (<[id := Authority id key nonce digest 1 Issued]> m)
  | ok_lease id version l secs e r m' a' :
      reg_step now m id version (Leased l e) m' →
      m' !! id = Some a' → authority_of r = Some a' →
      call_ok now m (LeaseForDispatch (VStr id) version (VStr l) secs) (VDict r) m'
  | ok_dispatch id version l r m' a' :
      reg_step now m id version (Dispatched l) m' →
      m' !! id = Some a' → authority_of r = Some a' →
      call_ok now m (MarkDispatched (VStr id) version (VStr l)) (VDict r) m'
  | ok_terminal id version l outcome seen result r m' a' :
      reg_step now m id version (Terminal l outcome seen) m' →
      m' !! id = Some a' → authority_of r = Some a' →
      call_ok now m (CompleteTerminal (VStr id) version (VStr l) (VStr outcome) result) (VDict r) m'
  | ok_read_none id :
      (∀ s, id = VStr s → m !! s = None) →
      call_ok now m (ReadForReconciliation id) VNone m
  | ok_read id a p r evs :
      m !! id = Some a →
      dget "record" p = Some (VDict r) → authority_of r = Some a →
      dget "events" p = Some (VList evs) → Z.of_nat (length evs) = a_version a →
      dget "event_chain_valid" p = Some (VBool true) →
      call_ok now m (ReadForReconciliation (VStr id)) (VDict p) m.

(** A store: a state, its calls, and the abstract state it stands for.  A call
    that raises changes nothing; reading never raises for a string
    identifier. *)
Class AuthorityStore (S : Type) := {
  store_init : S;
  store_call : S → datetime → call → res value * S;
  represents : S → registry → Prop;
  represents_ok s m : represents s m → registry_ok m;
  store_init_ok : represents store_init ∅;
  store_call_ok s m now c v s' :
    represents s m → store_call s now c = (Ok v, s') →
    ∃ m', call_ok now m c v m' ∧ represents s' m';
  store_call_err s m now c e s' :
    represents s m → store_call s now c = (Err e, s') → s' = s;
  store_read_total s m now id :
    represents s m → is_ok (store_call s now (ReadForReconciliation (VStr id))).1 = true }.

(** ** Sequences of calls *)

(** The lock or the row lock serialises calls: a run is a sequence of timed
    calls. *)
Definition trace := list (datetime * call).

Fixpoint run {S} `{AuthorityStore S} (s : S) (cs : trace) : list (call * res value) * S :=
  match cs with
  | [] => ([], s)
  | (now, c) :: cs' =>
      let '(r, s1) := store_call s now c in
      let '(rs, s2) := run s1 cs' in
      ((c, r) :: rs, s2)
  end.

(** How many calls of a run satisfy [w] and succeed. *)
Definition successes (w : call → bool) (rs : list (call * res value)) : nat :=
  length (List.filter (λ cr, w cr.1 && is_ok cr.2) rs).

Definition dispatches_of (id : string) (c : call) : bool :=
  match c with MarkDispatched i _ _ => is_string id i | _ => false end.

Definition completions_of (id : string) (c : call) : bool :=
  match c with CompleteTerminal i _ _ _ _ => is_string id i | _ => false end.

(** A compare-and-set on [id] that expects [version]. *)
Definition swaps_of (id : string) (version : Z) (c : call) : bool :=
  match c with
  | LeaseForDispatch i v _ _ | MarkDispatched i v _ | CompleteTerminal i v _ _ _ =>
      is_string id i && bool_decide (v = VInt version)
  | _ => false
  end.

(** ** Client lemmas *)

(** What a successful call does to the entry of one identifier. *)
Lemma call_ok_entry now m c v m' id :
  call_ok now m c v m' →
  (m' !! id = m !! id ∧ dispatches_of id c = false ∧ completions_of id c = false
     ∧ ∀ n, swaps_of id n c = false)
  ∨ (m !! id = None ∧ dispatches_of id c = false ∧ completions_of id c = false
     ∧ (∀ n, swaps_of id n c = false) ∧ ∃ a, m' !! id = Some a ∧ a_life a = Issued)
  ∨ (∃ i a l, dt_instant now = Some i ∧ m !! id = Some a ∧ life_step i (a_life a) l
     ∧ m' !! id = Some (bump a l)
     ∧ (dispatches_of id c = true → ∃ s, l = Dispatched s)
     ∧ (completions_of id c = true → is_terminal l = true)
     ∧ ∀ n, swaps_of id n c = true → n = a_version a).
Proof.
  assert (Hstep : ∀ i ver l m1, reg_step now m i ver l m1 →
    (id ≠ i ∧ m1 !! id = m !! id) ∨
    (id = i ∧ ∃ j a, dt_instant now = Some j ∧ m !! id = Some a ∧ life_step j (a_life a) l
       ∧ m1 !! id = Some (bump a l) ∧ ver = VInt (a_version a))).
  { intros i ver l m1 (j & a & Hj & Ha & -> & Hl & ->). destruct (decide (id = i)) as [->|Hne].
    - right. split; [done|]. exists j, a. by rewrite lookup_insert_eq.
    - left. by rewrite lookup_insert_ne. }
  destruct 1 as [i a key nonce b r Ha _ _ _ _|i key nonce b dg r Hn _ _ _
    |i ver l secs e r m1 a' Hs _ _|i ver l r m1 a' Hs _ _|i ver l o seen res r m1 a' Hs _ _| |];
    cbn [dispatches_of completions_of swaps_of is_string]; [by left| | | | |by left|by left].
  { destruct (decide (id = i)) as [->|]; [|left; by rewrite lookup_insert_ne].
    right; left. rewrite lookup_insert_eq. split; [done|]. do 3 (split; [done|]). by eexists. }
  all: apply Hstep in Hs as [[Hne Heq]|[-> (j & a & Hj & Ha & Hl & Hm & Hv)]];
    [left; destruct (String.eqb_spec id i); try done|right; right; exists j, a; eexists].
  all: rewrite ?String.eqb_refl; do 4 (split; [done|]); split; [intros ?|split; [intros ?|]];
    try done; eauto; intros n [_ Hn]%andb_true_iff; apply bool_decide_eq_true in Hn; congruence.
Qed.

(** A 0/1 potential that every counted success raises bounds their number. *)
Section potential.
Context {S : Type} `{AuthorityStore S}.
Variable w : call → bool.
Variable pot : registry → nat.
Hypothesis pot_le : ∀ m, (pot m <= 1)%nat.
Hypothesis pot_step : ∀ now m c v m',
  call_ok now m c v m' → ((if w c then 1 else 0) + pot m <= pot m')%nat.

Lemma run_potential cs : ∀ (s : S) m,
  represents s m → (successes w (run s cs).1 + pot m <= 1)%nat.
Proof.
  induction cs as [|[now c] cs IH]; intros s m Hm; simpl; [apply pot_le|].
  destruct (store_call s now c) as [r s1] eqn:Hc.
  destruct (run s1 cs) as [rs s2] eqn:Hr. simpl.
  unfold successes. simpl. destruct r as [v|e].
  - destruct (store_call_ok _ _ _ _ _ _ Hm Hc) as (m1 & Hok & Hm1).
    specialize (IH s1 m1 Hm1). rewrite Hr in IH. unfold successes in IH. simpl in IH.
    apply pot_step in Hok. rewrite andb_true_r. destruct (w c); simpl; lia.
  - pose proof (store_call_err _ _ _ _ _ _ Hm Hc) as ->. specialize (IH s m Hm).
    rewrite Hr in IH. rewrite andb_false_r. exact IH.
Qed.
End potential.

Definition entry_pot (p : authority → bool) (id : string) (m : registry) : nat :=
  match m !! id with Some a => if p a then 1 else 0 | None => 0 end.

Section client.
Context {S : Type} `{AuthorityStore S}.

Lemma run_dispatch_once cs id (s : S) m :
  represents s m → (successes (dispatches_of id) (run s cs).1 <= 1)%nat.
Proof.
  intros Hm. enough (successes (dispatches_of id) (run s cs).1
    + entry_pot (λ a, dispatch_seen (a_life a)) id m <= 1)%nat by lia.
  apply run_potential; [intros m0; unfold entry_pot; repeat case_match; lia| |done].
  intros now m0 c v m' Hc. unfold entry_pot.
  destruct (call_ok_entry _ _ _ _ _ id Hc) as
    [(-> & -> & _)|[(-> & -> & _ & _ & a & -> & ->)|(i & a & l & _ & -> & Hl & -> & Hd & _)]];
    simpl; try lia.
  destruct (dispatches_of id c).
  - destruct Hd as [s0 ->]; [done|]. by inversion Hl.
  - destruct (dispatch_seen (a_life a)) eqn:E; [|lia].
    by rewrite (life_step_dispatch_seen _ _ _ Hl E).
Qed.

Lemma run_complete_once cs id (s : S) m :
  represents s m → (successes (completions_of id) (run s cs).1 <= 1)%nat.
Proof.
  intros Hm. enough (successes (completions_of id) (run s cs).1
    + entry_pot (λ a, is_terminal (a_life a)) id m <= 1)%nat by lia.
  apply run_potential; [intros m0; unfold entry_pot; repeat case_match; lia| |done].
  intros now m0 c v m' Hc. unfold entry_pot.
  destruct (call_ok_entry _ _ _ _ _ id Hc) as
    [(-> & _ & -> & _)|[(-> & _ & -> & _ & a & -> & ->)|(i & a & l & _ & -> & Hl & -> & _ & Ht & _)]];
    simpl; try lia.
  rewrite (life_step_terminal _ _ _ Hl). destruct (completions_of id c); [|lia].
  by rewrite Ht.
Qed.

Lemma run_swap_once cs id n (s : S) m :
  represents s m → (successes (swaps_of id n) (run s cs).1 <= 1)%nat.
Proof.
  intros Hm. enough (successes (swaps_of id n) (run s cs).1
    + entry_pot (λ a, n <? a_version a)%Z id m <= 1)%nat by lia.
  apply run_potential; [intros m0; unfold entry_pot; repeat case_match; lia| |done].
  intros now m0 c v m' Hc. unfold entry_pot.
  destruct (call_ok_entry _ _ _ _ _ id Hc) as
    [(-> & _ & _ & ->)|[(-> & _ & _ & -> & a & -> & _)|(i & a & l & _ & -> & Hl & -> & _ & _ & Hn)]];
    simpl; [by destruct (m0 !! id)|lia|].
  destruct (swaps_of id n c) eqn:Es.
  - rewrite (Hn n Es), Z.ltb_irrefl. destruct (a_version a <? a_version a + 1)%Z eqn:E; lia.
  - destruct (n <? a_version a)%Z eqn:E; [|lia].
    destruct (n <? a_version a + 1)%Z eqn:E'; lia.
Qed.

(** Every state a run reaches stands for a registry. *)
Lemma run_represents cs : ∀ (s : S) m, represents s m → ∃ m', represents (run s cs).2 m'.
Proof.
  induction cs as [|[now c] cs IH]; intros s m Hm; simpl; [eauto|].
  destruct (store_call s now c) as [r s1] eqn:Hc.
  destruct (run s1 cs) as [rs s2] eqn:Hr. simpl.
  assert (∃ m1, represents s1 m1) as [m1 Hm1].
  { destruct r as [v|e].
    - destruct (store_call_ok _ _ _ _ _ _ Hm Hc) as (m1 & _ & ?). eauto.
    - rewrite (store_call_err _ _ _ _ _ _ Hm Hc). eauto. }
  destruct (IH _ _ Hm1) as [m' Hm']. rewrite Hr in Hm'. eauto.
Qed.
End client.
