(* ===== verification/AuthorityFacts.v ===== *)
(** * Repo-patch authority: the record invariant and the transitions

    [good r evs]: the stored record [r] and its event receipts [evs] agree.
    Every transition preserves it and refines the abstract life cycle. *)

From S2P Require Import Prelude PyFloat PyValue Json Sha256 DateTime.
From S2P Require Import AuthorityTransitions AuthorityInterface.

(** ** Digests and times *)

Lemma digest_Ok v d :
  canonical_authority_digest v = Ok d →
  json_finite v = true ∧ d = "sha256:" +:+ sha256_hex (dumps false v).
Proof.
  unfold canonical_authority_digest, dumps_finite. intros H. res_inv H.
  destruct (json_finite v); res_inv Hx. done.
Qed.

Lemma digest_finite v :
  json_finite v = true →
  canonical_authority_digest v = Ok ("sha256:" +:+ sha256_hex (dumps false v)).
Proof. unfold canonical_authority_digest, dumps_finite. by intros ->. Qed.

Lemma digest_sort v : canonical_authority_digest (json_sort v) = canonical_authority_digest v.
Proof. unfold canonical_authority_digest. by rewrite dumps_finite_sort. Qed.

Lemma astimezone_Ok t u :
  astimezone_utc t = Ok u → ∃ i, dt_instant t = Some i ∧ in_range i = true ∧ u = DT i (Some 0).
Proof.
  unfold astimezone_utc. destruct (dt_instant t) as [i|]; [|done].
  destruct (in_range i) eqn:E; intros H; res_inv H. eauto.
Qed.

Lemma format_time_Ok t s :
  format_time t = Ok s →
  ∃ i, dt_instant t = Some i ∧ in_range i = true ∧ parse_iso_z s = Some (DT i (Some 0)).
Proof.
  unfold format_time. destruct (dt_off t); [|done]. intros H. res_inv H.
  apply astimezone_Ok in Hx as (i & Hi & Hr & ->). exists i.
  by rewrite parse_iso_z_format.
Qed.

Lemma add_seconds_Ok t n u i :
  add_seconds t n = Ok u → dt_instant t = Some i → dt_instant u = Some (i + n * 1000000).
Proof.
  unfold add_seconds, dt_instant. intros H Hi. destruct (in_range _); res_inv H.
  simpl. destruct (dt_off t); simplify_eq/=. f_equal. lia.
Qed.

(** ** Equality on scalars *)

Definition scalar_key (v : value) : bool :=
  match v with VList _ | VDict _ => false | _ => true end.

Lemma json_sort_scalar v : scalar_key v = true → json_sort v = v.
Proof. by destruct v. Qed.

(** ** Checking the chain *)

Lemma check_event_sort r r' seq prev e d id dg :
  dgetN "authority_id" r = VStr id → dgetN "authority_id" r' = VStr id →
  dgetN "action_binding_digest" r = VStr dg → dgetN "action_binding_digest" r' = VStr dg →
  check_event r seq prev e = Ok d → check_event r' seq prev (json_sort e) = Ok d.
Proof.
  intros Hid Hid' Hdg Hdg' H. destruct e as [| | | | | |e]; try done.
  rewrite json_sort_dict. unfold check_event in *.
  rewrite Hid, Hdg in H. rewrite !dgetN_sort_dict, Hid', Hdg', !is_string_sort,
    !py_eq_sort_int, !py_eq_sort_str, !dpop_sort_dict, <- json_sort_dict, digest_sort.
  destruct (negb (py_eq _ (VInt seq))); [done|].
  destruct (negb (is_string AUTHORITY_EVENT_VERSION _)); [done|].
  destruct (negb (py_eq _ (VInt seq))); [done|].
  destruct (negb (py_eq _ (VStr id))); [done|].
  destruct (negb (py_eq _ (VStr dg))); [done|].
  destruct (negb (is_string prev _)); [done|].
  destruct (canonical_authority_digest _) as [x|]; [|done]. simpl in *.
  rewrite is_string_sort. destruct (is_string x _) eqn:E; [|done]. simpl in *.
  apply is_string_true in E. by rewrite E in *.
Qed.

Lemma check_events_sort r r' seq prev evs d id dg :
  dgetN "authority_id" r = VStr id → dgetN "authority_id" r' = VStr id →
  dgetN "action_binding_digest" r = VStr dg → dgetN "action_binding_digest" r' = VStr dg →
  check_events r seq prev evs = Ok d → check_events r' seq prev (map json_sort evs) = Ok d.
Proof.
  intros Hi Hi' Hg Hg'. revert seq prev.
  induction evs as [|e evs IH]; intros seq prev H; simpl in *; [done|]. res_inv H.
  rewrite (check_event_sort r r' seq prev e x id dg) by done. by apply IH.
Qed.

Lemma check_event_ext r r' seq prev e :
  dgetN "authority_id" r' = dgetN "authority_id" r →
  dgetN "action_binding_digest" r' = dgetN "action_binding_digest" r →
  check_event r' seq prev e = check_event r seq prev e.
Proof. intros H1 H2. unfold check_event. by rewrite H1, H2. Qed.

Lemma check_events_ext r r' seq prev evs :
  dgetN "authority_id" r' = dgetN "authority_id" r →
  dgetN "action_binding_digest" r' = dgetN "action_binding_digest" r →
  check_events r' seq prev evs = check_events r seq prev evs.
Proof.
  intros H1 H2. revert seq prev. induction evs as [|e evs IH]; intros seq prev; simpl; [done|].
  rewrite (check_event_ext r r') by done. destruct (check_event r seq prev e); simpl; auto.
Qed.

Lemma check_events_snoc r seq prev evs e d d' :
  check_events r seq prev evs = Ok d →
  check_event r (seq + Z.of_nat (length evs)) d e = Ok d' →
  check_events r seq prev (evs ++ [e]) = Ok d'.
Proof.
  revert seq prev. induction evs as [|e0 evs IH]; intros seq prev H1 H2; simpl in *.
  - res_inv H1. rewrite Z.add_0_r in H2. by rewrite H2.
  - res_inv H1. rewrite Hx. simpl. apply IH; [done|].
    by replace (seq + 1 + Z.of_nat (length evs)) with (seq + Z.of_nat (S (length evs))) by lia.
Qed.

Lemma check_events_nonempty r seq prev e evs d :
  check_events r seq prev (e :: evs) = Ok d → ∃ h, d = "sha256:" +:+ h.
Proof.
  assert (Hev : ∀ s p ev x, check_event r s p ev = Ok x → ∃ h, x = "sha256:" +:+ h).
  { intros s p ev x H. destruct ev; try done. unfold check_event in H. res_inv H.
    apply digest_Ok in Hx as [_ ->]. apply negb_false_iff, is_string_true in Hg5.
    rewrite Hg5. simpl. eauto. }
  revert seq prev e. induction evs as [|e' evs IH]; intros seq prev e H.
  - simpl in H. res_inv H. by eapply Hev.
  - simpl in H. apply res_bind_Ok in H as (x & _ & H). by eapply IH.
Qed.

(** ** The invariant *)

(** Receipts of a given type. *)
Definition count_events (ty : string) (evs : list value) : nat :=
  length (List.filter (λ e, match e with
                            | VDict d => is_string ty (dgetN "event_type" d)
                            | _ => false end) evs).

Lemma count_events_snoc ty evs e :
  count_events ty (evs ++ [VDict e])
  = (count_events ty evs + if is_string ty (dgetN "event_type" e) then 1 else 0)%nat.
Proof.
  unfold count_events. rewrite List.filter_app, length_app. f_equal. simpl.
  by destruct (is_string ty _).
Qed.

Lemma count_events_sort ty evs : count_events ty (map json_sort evs) = count_events ty evs.
Proof.
  unfold count_events. induction evs as [|e evs IH]; [done|]. simpl.
  destruct e; try done. rewrite json_sort_dict, dgetN_sort_dict, is_string_sort.
  destruct (is_string ty _); simpl; by rewrite IH.
Qed.

Record good (r : dict) (evs : list value) (a : authority) : Prop := Good {
  good_schema : dgetN "schema_version" r = VStr AUTHORITY_RECORD_VERSION;
  good_id : dgetN "authority_id" r = VStr (a_id a);
  good_key : dgetN "idempotency_key" r = VStr (a_key a);
  good_nonce : dgetN "nonce" r = VStr (a_nonce a);
  good_digest : dgetN "action_binding_digest" r = VStr (a_binding_digest a);
  good_binding : ∃ b, dgetN "action_binding" r = VDict b ∧ b ≠ []
                   ∧ canonical_authority_digest (VDict b) = Ok (a_binding_digest a);
  good_version : dgetN "version" r = VInt (a_version a);
  good_life : life_of r = Some (a_life a);
  good_dispatched_at : is_none (dgetN "dispatched_at" r) = negb (dispatch_seen (a_life a));
  good_lease : json_finite (dgetN "lease_id" r) = true;
  good_length : Z.of_nat (length evs) = a_version a ∧ evs ≠ [];
  good_sequence : dgetN "event_sequence" r = VInt (a_version a);
  good_last : last_state_version evs = VInt (a_version a);
  good_chain : ∃ d, check_events r 1 GENESIS_EVENT_DIGEST evs = Ok d
                 ∧ dgetN "latest_event_digest" r = VStr d;
  good_dispatches : count_events "marked_dispatched" evs
                    = if dispatch_seen (a_life a) then 1%nat else 0%nat;
  good_terminals : count_events "terminal_completed" evs
                   = if is_terminal (a_life a) then 1%nat else 0%nat }.

Lemma good_authority r evs a : good r evs a → authority_of r = Some a.
Proof.
  intros []. unfold authority_of.
  rewrite good_id0, good_key0, good_nonce0, good_digest0, good_version0, good_life0. simpl.
  by destruct a.
Qed.

(** Reading a record back from the state file, where keys are sorted. *)
Lemma life_of_sort r : life_of (sort_dict r) = life_of r.
Proof.
  unfold life_of. rewrite !dgetN_sort_dict.
  assert (Hs : ∀ v, as_str (json_sort v) = as_str v) by (by destruct v).
  assert (Hn : ∀ v, is_none (json_sort v) = is_none v) by (by destruct v).
  rewrite !Hs, Hn. by destruct (dgetN "state" r).
Qed.

Lemma last_state_version_sort evs n :
  last_state_version evs = VInt n → last_state_version (map json_sort evs) = VInt n.
Proof.
  unfold last_state_version. change (map json_sort evs) with (json_sort <$> evs).
  rewrite fmap_last. destruct (last evs) as [e|]; simpl; [|done].
  destruct e; try done. rewrite json_sort_dict, dgetN_sort_dict. by intros ->.
Qed.

Lemma good_sort r evs a : good r evs a → good (sort_dict r) (map json_sort evs) a.
Proof.
  intros G. pose proof G as []. split; rewrite ?dgetN_sort_dict.
  - by rewrite good_schema0.
  - by rewrite good_id0.
  - by rewrite good_key0.
  - by rewrite good_nonce0.
  - by rewrite good_digest0.
  - destruct good_binding0 as (b & -> & Hb & Hd). exists (sort_dict b).
    rewrite json_sort_dict. split; [done|]. rewrite sort_dict_nil, <- json_sort_dict, digest_sort.
    done.
  - by rewrite good_version0.
  - by rewrite life_of_sort.
  - rewrite <- good_dispatched_at0. by destruct (dgetN "dispatched_at" r).
  - by rewrite json_finite_sort.
  - rewrite length_map. destruct good_length0 as [? Hne]. split; [done|]. by destruct evs.
  - by rewrite good_sequence0.
  - by apply last_state_version_sort.
  - destruct good_chain0 as (d & Hc & Hd). exists d. rewrite Hd. split; [|done].
    eapply check_events_sort; [exact good_id0| |exact good_digest0| |exact Hc];
      by rewrite dgetN_sort_dict, ?good_id0, ?good_digest0.
  - by rewrite count_events_sort.
  - by rewrite count_events_sort.
Qed.

(** A good record is accepted by reconciliation. *)
Lemma good_validate r evs a : good r evs a → validate_record_binding r = Ok ().
Proof.
  intros []. unfold validate_record_binding. destruct good_binding0 as (b & -> & Hb & Hd).
  rewrite good_schema0, is_string_refl. destruct b as [|kv b]; [done|].
  cbn [negb is_dict truthy andb]. rewrite Hd. cbn [mbind res_bind].
  by rewrite good_digest0, is_string_refl.
Qed.

Lemma good_reconciles r evs a :
  good r evs a →
  reconciliation_payload r (VList evs)
  = Ok [("schema_version", VStr AUTHORITY_STORE_VERSION); ("record", VDict r);
        ("events", VList evs); ("event_chain_valid", VBool true)].
Proof.
  intros G. unfold reconciliation_payload. rewrite (good_validate _ _ _ G). destruct G.
  cbn [mbind res_bind]. destruct good_length0 as [Hlen Hne]. destruct evs as [|e es]; [done|].
  destruct good_chain0 as (d & -> & Hd). cbn [mbind res_bind].
  rewrite good_sequence0, Hlen, Hd, good_last0, good_version0, !py_eq_VInt, !Z.eqb_refl.
  by rewrite is_string_refl.
Qed.

(** ** One more event *)

Lemma with_event_spec r ty payload r' e n prev aid dg ts :
  dgetN "event_sequence" r = VInt n → dgetN "version" r = VInt (n + 1) →
  dgetN "latest_event_digest" r = VStr prev → prev ≠ "" →
  dgetN "authority_id" r = VStr aid → dgetN "action_binding_digest" r = VStr dg →
  dgetN "updated_at" r = VStr ts →
  with_event r ty payload = Ok (r', e) →
  ∃ d, r' = dset "latest_event_digest" (VStr d) (dset "event_sequence" (VInt (n + 1)) r)
     ∧ check_event r (n + 1) prev (VDict e) = Ok d
     ∧ dgetN "event_type" e = VStr ty ∧ dgetN "state_version" e = VInt (n + 1).
Proof.
  intros Hs Hv Hl Hne Hid Hdg Hts H. unfold with_event in H.
  replace (dget_or "event_sequence" (VInt 0) r) with (VInt n) in H
    by (revert Hs; unfold dgetN, dget_or; by destruct (dget "event_sequence" r)).
  rewrite (dgetN_ditem _ _ _ Hid), (dgetN_ditem _ _ _ Hv), (dgetN_ditem _ _ _ Hdg),
    (dgetN_ditem _ _ _ Hts) in H by done.
  cbn [py_int mbind res_bind] in H. apply res_bind_Ok in H as (pl & _ & H).
  rewrite Hl in H. assert (py_or (VStr prev) (VStr GENESIS_EVENT_DIGEST) = VStr prev) as Hpo.
  { unfold py_or, truthy. by destruct (String.eqb_spec prev ""). }
  rewrite Hpo in H. apply res_bind_Ok in H as (d & Hd & H). injection H as <- <-.
  exists d. split; [done|]. split; [|by split].
  unfold check_event. rewrite Hid, Hdg.
  cbn [dgetN dget String.eqb Ascii.eqb Bool.eqb app default from_option id].
  rewrite !py_eq_VInt, Z.eqb_refl, !py_eq_VStr_refl, !is_string_refl.
  cbn [negb dpop String.eqb Ascii.eqb Bool.eqb]. rewrite Hd. cbn [mbind res_bind].
  by rewrite is_string_refl.
Qed.

Lemma life_of_event_fields r d s :
  life_of (dset "latest_event_digest" d (dset "event_sequence" s r)) = life_of r.
Proof. unfold life_of. simp_rec. done. Qed.

(** The invariant survives an update [u] of the record followed by its event,
    when the update keeps the bindings and bumps the version. *)
Lemma extend_good r evs a u ty payload r' e l ts :
  good r evs a →
  (∀ k, k ∈ ["schema_version"; "authority_id"; "idempotency_key"; "nonce";
             "action_binding_digest"; "action_binding"; "event_sequence";
             "latest_event_digest"] → dgetN k u = dgetN k r) →
  dgetN "version" u = VInt (a_version a + 1) →
  dgetN "updated_at" u = VStr ts →
  life_of u = Some l →
  is_none (dgetN "dispatched_at" u) = negb (dispatch_seen l) →
  json_finite (dgetN "lease_id" u) = true →
  with_event u ty payload = Ok (r', e) →
  ((if dispatch_seen (a_life a) then 1 else 0)
   + (if String.eqb "marked_dispatched" ty then 1 else 0)
   = if dispatch_seen l then 1 else 0)%nat →
  ((if is_terminal (a_life a) then 1 else 0)
   + (if String.eqb "terminal_completed" ty then 1 else 0)
   = if is_terminal l then 1 else 0)%nat →
  good r' (evs ++ [VDict e]) (bump a l).
Proof.
  intros G Hsame Hver Hts Hlife Hnd Hlf Hev Hcd Hct. destruct G.
  assert (Hk : ∀ k, existsb (String.eqb k) ["schema_version"; "authority_id"; "idempotency_key";
      "nonce"; "action_binding_digest"; "action_binding"; "event_sequence";
      "latest_event_digest"] = true → dgetN k u = dgetN k r).
  { intros k Hin. apply Hsame. apply existsb_exists in Hin as (x & Hin & Hx).
    apply String.eqb_eq in Hx as ->. by apply list_elem_of_In. }
  clear Hsame. destruct good_chain0 as (prev & Hchain & Hprev).
  destruct good_length0 as [Hlen Hne].
  assert (Hpne : prev ≠ "").
  { destruct evs; [done|]. apply check_events_nonempty in Hchain as [h ->]. done. }
  destruct (with_event_spec u ty payload r' e (a_version a) prev (a_id a) (a_binding_digest a) ts)
    as (d & -> & Hce & Hty & Hsv); try done; try (rewrite Hk by done; done).
  split; cbn [a_id a_key a_nonce a_binding_digest a_version a_life];
    simp_rec; rewrite ?Hk by done; try done.
  - by rewrite life_of_event_fields.
  - rewrite length_app. simpl. split; [lia|]. by destruct evs.
  - unfold last_state_version. rewrite last_snoc. done.
  - exists d. split; [|done]. eapply check_events_snoc.
    + rewrite (check_events_ext r); [exact Hchain| |]; simp_rec; by rewrite Hk.
    + rewrite (check_event_ext u) by (by simp_rec). rewrite Hlen.
      by replace (1 + a_version a) with (a_version a + 1) by lia.
  - rewrite count_events_snoc, good_dispatches0, Hty. unfold is_string. by rewrite Hcd.
  - rewrite count_events_snoc, good_terminals0, Hty. unfold is_string. by rewrite Hct.
Qed.

(** ** The transitions refine the life cycle *)

Lemma required_text_Ok v field : required_text v field = Ok () → ∃ s, v = VStr s.
Proof. destruct v; try done. eauto. Qed.

Lemma require_transition_Ok r ev allowed evs a :
  good r evs a → require_transition r ev allowed = Ok () →
  ev = VInt (a_version a) ∧ str_in (dgetN "state" r) allowed = true.
Proof.
  intros G H. unfold require_transition in H. rewrite (good_validate _ _ _ G) in H.
  cbn [mbind res_bind] in H. destruct G. res_inv H.
  apply negb_false_iff in Hg. rewrite good_version0 in Hg.
  destruct ev; try done. rewrite py_eq_VInt in Hg. apply Z.eqb_eq in Hg as ->.
  split; [done|]. apply negb_false_iff in Hg0 as ->.
  unfold in_str_set in Hx0. by destruct (dgetN "state" r); simplify_eq.
Qed.

Lemma require_lease_Ok r lease :
  require_lease r lease = Ok () → ∃ s, lease = VStr s ∧ dgetN "lease_id" r = VStr s.
Proof.
  unfold require_lease. intros H. res_inv H. destruct x.
  apply required_text_Ok in Hx as [s ->]. apply negb_false_iff, py_eq_str in Hg. eauto.
Qed.

(** Case analysis on the stored state. *)
Lemma life_of_state r l :
  life_of r = Some l →
  match l with
  | Issued => dgetN "state" r = VStr "issued"
  | Leased s i => dgetN "state" r = VStr "leased" ∧ dgetN "lease_id" r = VStr s
      ∧ ∃ e t, dgetN "lease_expires_at" r = VStr e ∧ parse_iso_z e = Some t ∧ dt_instant t = Some i
  | Dispatched s => dgetN "state" r = VStr "dispatched" ∧ dgetN "lease_id" r = VStr s
  | Terminal s o d => dgetN "state" r = VStr "terminal"
  end.
Proof.
  unfold life_of. intros H. destruct (dgetN "state" r) as [| | | |st| |]; try done.
  destruct (String.eqb st "issued") eqn:E1; [apply String.eqb_eq in E1; by simplify_eq|].
  destruct (String.eqb st "leased") eqn:E2.
  { apply String.eqb_eq in E2.
    destruct (dgetN "lease_id" r); simplify_option_eq.
    destruct (dgetN "lease_expires_at" r); simplify_option_eq.
    split; [done|]. split; [done|]. eauto 6. }
  destruct (String.eqb st "dispatched") eqn:E3.
  { apply String.eqb_eq in E3. destruct (dgetN "lease_id" r); by simplify_option_eq. }
  destruct (String.eqb st "terminal") eqn:E4; [|done].
  apply String.eqb_eq in E4. destruct (dgetN "lease_id" r); simplify_option_eq.
  destruct (dgetN "terminal_outcome" r); by simplify_option_eq.
Qed.

(** Issuing creates version one. *)
Lemma new_issue_good aid key nonce binding req now r e :
  validated_issue_request aid key nonce binding = Ok req →
  new_issue req now = Ok (r, e) →
  ∃ id k n dg, aid = VStr id ∧ key = VStr k ∧ nonce = VStr n
    ∧ canonical_authority_digest binding = Ok dg
    ∧ good r [VDict e] (Authority id k n dg 1 Issued).
Proof.
  unfold validated_issue_request. intros H Hn. res_inv H.
  destruct x, x0. apply required_text_Ok in Hx as [id ->], Hx0 as [k ->].
  destruct nonce as [| | | |n| |]; try done. res_inv H.
  apply negb_false_iff, andb_true_iff in Hg0 as [Hd Ht].
  unfold json_copy in Hx. destruct (json_finite binding); [|done]. injection Hx as <-.
  destruct binding as [| | | | | |b]; try done.
  unfold new_issue in Hn. apply res_bind_Ok in Hn as (ts & Hts & Hn).
  cbn [ditem dget String.eqb Ascii.eqb Bool.eqb mbind res_bind] in Hn.
  edestruct (λ u ty pl, with_event_spec u ty pl r e 0 GENESIS_EVENT_DIGEST id x0 ts)
    as (d & -> & Hce & Hty & Hsv); [..|exact Hn|]; try reflexivity; [discriminate|].
  exists id, k, n, x0. do 4 (split; [done|]).
  split; simp_rec; try done.
  - exists b. split; [done|]. split; [|done]. by destruct b.
  - exists d. split; [|done]. cbn [check_events].
    change (0 + 1) with 1 in *.
    erewrite check_event_ext; [rewrite Hce; reflexivity|by simp_rec..].
  - unfold count_events. cbn [List.filter]. by rewrite Hty.
  - unfold count_events. cbn [List.filter]. by rewrite Hty.
Qed.

Lemma parse_time_Ok s t :
  parse_time s = Ok t →
  ∃ t0 j, parse_iso_z s = Some t0 ∧ dt_instant t0 = Some j ∧ t = DT j (Some 0).
Proof.
  unfold parse_time. destruct (parse_iso_z s) as [t0|]; [|done].
  destruct (dt_off t0); [|done]. intros H. apply astimezone_Ok in H as (j & Hj & _ & ->). eauto.
Qed.

Lemma dt_ltb_Ok a b (x : bool) i j :
  dt_instant a = Some i → dt_instant b = Some j → dt_ltb a b = Ok x → x = (i <? j).
Proof. unfold dt_ltb. intros -> ->. by intros [= ->]. Qed.

Lemma dt_instant_utc j : dt_instant (DT j (Some 0)) = Some j.
Proof. unfold dt_instant. simpl. f_equal. lia. Qed.

(** The expiry tests, read on instants. *)
Lemma lease_active_Ok now i s t j :
  dt_instant now = Some i → parse_iso_z s = Some t → dt_instant t = Some j →
  lease_active now (VStr s) = Ok false → j < i.
Proof.
  intros Hi Ht Hj H. unfold lease_active, dt_leb in H. res_inv H.
  apply parse_time_Ok in Hx as (t0 & j' & Ht' & Hj' & ->). simplify_eq.
  apply (dt_ltb_Ok _ _ _ j i) in Hx0; [|apply dt_instant_utc|done].
  destruct x0; [|done]. by apply eq_sym, Z.ltb_lt in Hx0.
Qed.

Lemma lease_lapsed_Ok now i s t j :
  dt_instant now = Some i → parse_iso_z s = Some t → dt_instant t = Some j →
  lease_lapsed now (VStr s) = Ok false → i <= j.
Proof.
  intros Hi Ht Hj H. unfold lease_lapsed in H. res_inv H.
  apply parse_time_Ok in Hx as (t0 & j' & Ht' & Hj' & ->). simplify_eq.
  apply (dt_ltb_Ok _ _ _ j i) in H; [|apply dt_instant_utc|done].
  by apply eq_sym, Z.ltb_ge in H.
Qed.

(** The record left by a lease. *)
Lemma life_of_leased u s x t j :
  dgetN "state" u = VStr "leased" → dgetN "lease_id" u = VStr s →
  dgetN "lease_expires_at" u = VStr x → parse_iso_z x = Some t → dt_instant t = Some j →
  life_of u = Some (Leased s j).
Proof. intros H1 H2 H3 H4 H5. unfold life_of. rewrite H1, H2, H3. simpl. by rewrite H4; simpl; rewrite H5. Qed.

(** A version step from [a] to the life [l] at the instant of [now], which the
    record and events [r'], [evs'] carry. *)
Definition steps_to (a : authority) (now : datetime) (l : lifecycle)
    (r' : dict) (evs' : list value) : Prop :=
  ∃ i, dt_instant now = Some i ∧ life_step i (a_life a) l ∧ good r' evs' (bump a l).

(** Keys that an update leaves alone. *)
Ltac solve_frame :=
  let k := fresh "k" in let Hk := fresh "Hk" in
  intros k Hk; simp_rec;
  repeat (apply elem_of_cons in Hk as [->|Hk]; [done|]); by apply elem_of_nil in Hk.

Lemma lease_transition_good r evs a ev lid secs now r' e :
  good r evs a → lease_transition r ev lid secs now = Ok (r', e) →
  ev = VInt (a_version a)
  ∧ ∃ s n i, lid = VStr s ∧ secs = VInt n ∧ dt_instant now = Some i
      ∧ in_range (i + n * 1000000) = true
      ∧ steps_to a now (Leased s (i + n * 1000000)) r' (evs ++ [VDict e]).
Proof.
  intros G H. unfold lease_transition in H.
  apply res_bind_Ok in H as ([] & Htr & H).
  pose proof (require_transition_Ok _ _ _ _ _ G Htr) as [-> Hst].
  apply res_bind_Ok in H as ([] & Hl & H). apply required_text_Ok in Hl as [l' ->].
  apply res_bind_Ok in H as (secs' & Hsecs & H).
  apply res_bind_Ok in H as ([] & Hre & H).
  apply res_bind_Ok in H as (t' & Hadd & H).
  apply res_bind_Ok in H as (x' & Hx & H).
  apply res_bind_Ok in H as (ts & Hts & H).
  apply format_time_Ok in Hx as (j & Hj & Hjr & Hp).
  apply format_time_Ok in Hts as (i & Hi & _ & _).
  assert (j = i + secs' * 1000000) as ->.
  { eapply add_seconds_Ok in Hadd; [|done]. congruence. }
  assert (0 < secs' ∧ secs = VInt secs') as [Hpos ->].
  { destruct secs as [| |n| | | |]; try done. simpl in Hsecs.
    destruct (n <=? 0) eqn:E; [done|]. injection Hsecs as <-. split; [lia|done]. }
  split; [done|]. exists l', secs', i. do 4 (split; [done|]).
  exists i. split; [done|].
  assert (life_step i (a_life a) (Leased l' (i + secs' * 1000000))
    ∧ dispatch_seen (a_life a) = false ∧ is_terminal (a_life a) = false) as (Hstep & Hd & Ht).
  { pose proof (life_of_state _ _ (good_life _ _ _ G)) as Hlife.
    destruct (a_life a) as [|s x|s|s o d].
    - split; [|done]. constructor. lia.
    - destruct Hlife as (Hs & Hlid & x0 & t0 & Hexp & Ht0 & Hx0). split; [|done].
      unfold reclaim_guard in Hre. rewrite Hs, Hexp, Hlid, is_string_refl in Hre.
      apply res_bind_Ok in Hre as (b & Hact & Hre). res_inv Hre. simpl in Hg. subst b.
      constructor; [|by intros ->; rewrite py_eq_VStr_refl in Hg0|lia].
      by eapply lease_active_Ok.
    - destruct Hlife as [Hs _]. by rewrite Hs in Hst.
    - by rewrite Hlife in Hst. }
  split; [done|].
  eapply extend_good; [exact G|..|exact H|by rewrite Hd; destruct (is_string "leased" _)
                        |by rewrite Ht; destruct (is_string "leased" _)].
  - solve_frame.
  - by simp_rec.
  - by simp_rec.
  - eapply life_of_leased; [by simp_rec..|exact Hp|apply dt_instant_utc].
  - simp_rec. by rewrite (good_dispatched_at _ _ _ G), Hd.
  - by simp_rec.
Qed.

Lemma dispatch_transition_good r evs a ev lid now r' e :
  good r evs a → dispatch_transition r ev lid now = Ok (r', e) →
  ev = VInt (a_version a)
  ∧ ∃ s, lid = VStr s ∧ steps_to a now (Dispatched s) r' (evs ++ [VDict e]).
Proof.
  intros G H. unfold dispatch_transition in H.
  apply res_bind_Ok in H as ([] & Htr & H).
  pose proof (require_transition_Ok _ _ _ _ _ G Htr) as [-> Hst].
  apply res_bind_Ok in H as ([] & Hl & H). apply require_lease_Ok in Hl as (l' & -> & Hlid).
  apply res_bind_Ok in H as (b & Hlap & H). apply raise_if_Ok in H as [-> H].
  apply res_bind_Ok in H as (ts & Hts & H).
  apply format_time_Ok in Hts as (i & Hi & _ & _).
  split; [done|]. exists l'. split; [done|]. exists i. split; [done|].
  pose proof (life_of_state _ _ (good_life _ _ _ G)) as Hlife.
  assert (∃ j, a_life a = Leased l' j ∧ i <= j) as (j & Ha & Hij).
  { destruct (a_life a) as [|s x|s|s o d].
    - by rewrite Hlife in Hst.
    - destruct Hlife as (_ & Hlid' & x0 & t0 & Hexp & Ht0 & Hx0). exists x. split; [congruence|].
      rewrite Hexp in Hlap. by eapply lease_lapsed_Ok.
    - destruct Hlife as [Hs _]. by rewrite Hs in Hst.
    - by rewrite Hlife in Hst. }
  split. { rewrite Ha. by constructor. }
  eapply extend_good; [exact G|..|exact H|by rewrite Ha|by rewrite Ha].
  - solve_frame.
  - by simp_rec.
  - by simp_rec.
  - unfold life_of. simp_rec. by rewrite Hlid.
  - by simp_rec.
  - simp_rec. by rewrite Hlid.
Qed.

Lemma terminal_transition_good r evs a ev lid out result now r' e :
  good r evs a → terminal_transition r ev lid out result now = Ok (r', e) →
  ev = VInt (a_version a)
  ∧ ∃ s o, lid = VStr s ∧ out = VStr o
      ∧ steps_to a now (Terminal s o (dispatch_seen (a_life a))) r' (evs ++ [VDict e]).
Proof.
  intros G H. unfold terminal_transition in H.
  apply res_bind_Ok in H as ([] & Htr & H).
  pose proof (require_transition_Ok _ _ _ _ _ G Htr) as [-> Hst].
  apply res_bind_Ok in H as ([] & Hl & H). apply require_lease_Ok in Hl as (l' & -> & Hlid).
  apply res_bind_Ok in H as (b & Hout & H). apply raise_if_Ok in H as [Hb H].
  apply raise_if_Ok in H as [Hpre H]. apply raise_if_Ok in H as [_ H].
  apply res_bind_Ok in H as (res & _ & H).
  apply res_bind_Ok in H as (ts & Hts & H). apply format_time_Ok in Hts as (i & Hi & _ & _).
  apply res_bind_Ok in H as (dg & _ & H).
  apply negb_false_iff in Hb as ->.
  apply in_str_set_Ok in Hout as (o & -> & Ho).
  pose proof (life_of_state _ _ (good_life _ _ _ G)) as Hlife.
  assert (∃ seen, dispatch_seen (a_life a) = seen ∧ is_terminal (a_life a) = false
    ∧ life_step i (a_life a) (Terminal l' o seen)
    ∧ is_none (dgetN "dispatched_at" r) = negb seen) as (seen & Hd & Ht & Hstep & Hnone).
  { exists (dispatch_seen (a_life a)). split; [done|].
    destruct (a_life a) as [|s x|s|s o' d] eqn:Ha.
    - by rewrite Hlife in Hst.
    - destruct Hlife as (Hs & Hlid' & _). rewrite Hs, is_string_refl in Hpre.
      apply negb_false_iff, str_in_Ok in Hpre as (o' & [= <-] & Ho').
      split; [done|]. split; [rewrite Hlid in Hlid'; injection Hlid' as <-; by constructor|].
      by rewrite (good_dispatched_at _ _ _ G), Ha.
    - destruct Hlife as (Hs & Hlid'). split; [done|].
      split; [rewrite Hlid in Hlid'; injection Hlid' as <-; by constructor|].
      by rewrite (good_dispatched_at _ _ _ G), Ha.
    - by rewrite Hlife in Hst. }
  split; [done|]. exists l', o. do 2 (split; [done|]). rewrite Hd.
  exists i. split; [done|]. split; [done|].
  eapply extend_good; [exact G|..|exact H|rewrite Hd; by destruct seen|by rewrite Ht].
  - solve_frame.
  - by simp_rec.
  - by simp_rec.
  - unfold life_of. simp_rec. rewrite Hlid. simpl. rewrite Hnone. by rewrite negb_involutive.
  - by simp_rec.
  - simp_rec. by rewrite Hlid.
Qed.

(** ** When a transition is allowed *)

Lemma with_event_total u ty payload n prev aid v dg ts :
  dgetN "event_sequence" u = VInt n → dgetN "version" u = VInt v →
  dgetN "latest_event_digest" u = VStr prev → dgetN "authority_id" u = VStr aid →
  dgetN "action_binding_digest" u = VStr dg → dgetN "updated_at" u = VStr ts →
  json_finite (VDict payload) = true → is_ok (with_event u ty payload) = true.
Proof.
  intros Hs Hv Hl Hid Hdg Hts Hp. unfold with_event.
  replace (dget_or "event_sequence" (VInt 0) u) with (VInt n)
    by (revert Hs; unfold dgetN, dget_or; by destruct (dget "event_sequence" u)).
  rewrite (dgetN_ditem _ _ _ Hid), (dgetN_ditem _ _ _ Hv), (dgetN_ditem _ _ _ Hdg),
    (dgetN_ditem _ _ _ Hts) by done.
  cbn [py_int mbind res_bind]. unfold json_copy. rewrite Hp, Hl. cbn [mbind res_bind].
  rewrite digest_finite; [done|]. rewrite json_finite_dict. cbn [forallb snd]. rewrite Hp.
  unfold py_or. by destruct (truthy (VStr prev)).
Qed.

Lemma good_version_pos r evs a : good r evs a → 1 <= a_version a.
Proof. intros []. destruct good_length0 as [Hl Hne]. destruct evs; [done|]. simpl in Hl. lia. Qed.

Lemma require_transition_total r evs a states s :
  good r evs a → dgetN "state" r = VStr s → s ∈ states →
  require_transition r (VInt (a_version a)) states = Ok ().
Proof.
  intros G Hs Hin. pose proof (good_version_pos _ _ _ G). unfold require_transition.
  rewrite (good_validate _ _ _ G). cbn [mbind res_bind required_version].
  destruct (a_version a <? 1) eqn:E; [lia|].
  rewrite (good_version _ _ _ G), py_eq_VInt, Z.eqb_refl, Hs. cbn [negb mbind res_bind in_str_set str_in].
  assert (existsb (String.eqb s) states = true) as ->; [|done].
  apply existsb_exists. exists s. rewrite <- list_elem_of_In. by rewrite String.eqb_refl.
Qed.

Lemma format_time_total t i :
  dt_instant t = Some i → in_range i = true → format_time t = Ok (iso_z (DT i (Some 0))).
Proof.
  intros Hi Hr. unfold format_time, astimezone_utc. rewrite Hi, Hr. unfold dt_instant in Hi.
  by destruct (dt_off t).
Qed.

Lemma dispatch_enabled_if r evs a s e now i :
  good r evs a → a_life a = Leased s e → required_text (VStr s) "lease_id" = Ok () →
  dt_instant now = Some i → in_range i = true → in_range e = true → i <= e →
  is_ok (dispatch_transition r (VInt (a_version a)) (VStr s) now) = true.
Proof.
  intros G Hl Hs Hi Hr Hre Hie. pose proof (life_of_state _ _ (good_life _ _ _ G)) as Hlife.
  rewrite Hl in Hlife. destruct Hlife as (Hst & Hlid & x & t & Hx & Ht & Hte).
  unfold dispatch_transition. rewrite (require_transition_total _ _ _ _ _ G Hst) by left.
  cbn [mbind res_bind]. unfold require_lease. rewrite Hs, Hlid, py_eq_VStr_refl, Hx.
  cbn [negb mbind res_bind lease_lapsed]. unfold parse_time. rewrite Ht.
  assert (∃ off, dt_off t = Some off) as [off Hoff].
  { unfold dt_instant in Hte. destruct (dt_off t); [eauto|done]. }
  rewrite Hoff. unfold astimezone_utc. rewrite Hte, Hre. cbn [mbind res_bind].
  unfold dt_ltb. rewrite dt_instant_utc, Hi. cbn [mbind res_bind].
  destruct (e <? i) eqn:E; [lia|]. rewrite (format_time_total _ _ Hi Hr). cbn [mbind res_bind].
  destruct (good_chain _ _ _ G) as (d & _ & Hd).
  eapply with_event_total; simp_rec; first [apply G|exact Hd|done].
Qed.

Lemma add_seconds_total t n i :
  dt_instant t = Some i → in_range (dt_local t + n * 1000000) = true →
  ∃ u, add_seconds t n = Ok u ∧ dt_instant u = Some (i + n * 1000000).
Proof.
  intros Hi Hr. unfold add_seconds. rewrite Hr. eexists. split; [done|].
  unfold dt_instant in *. simpl. destruct (dt_off t); simplify_eq/=. f_equal. lia.
Qed.

Lemma lease_enabled_if r evs a s n now i :
  good r evs a → a_life a = Issued → required_text (VStr s) "lease_id" = Ok () → 0 < n →
  dt_instant now = Some i → in_range i = true →
  in_range (dt_local now + n * 1000000) = true → in_range (i + n * 1000000) = true →
  is_ok (lease_transition r (VInt (a_version a)) (VStr s) (VInt n) now) = true.
Proof.
  intros G Hl Hs Hn Hi Hr Hr1 Hr2. pose proof (life_of_state _ _ (good_life _ _ _ G)) as Hst.
  rewrite Hl in Hst. unfold lease_transition.
  rewrite (require_transition_total _ _ _ _ _ G Hst) by left.
  cbn [mbind res_bind]. rewrite Hs. unfold require_positive_seconds.
  destruct (n <=? 0) eqn:E; [lia|]. unfold reclaim_guard. rewrite Hst.
  cbn [mbind res_bind is_string String.eqb Ascii.eqb Bool.eqb].
  destruct (add_seconds_total _ _ _ Hi Hr1) as (u & -> & Hu). cbn [mbind res_bind].
  rewrite (format_time_total _ _ Hu Hr2), (format_time_total _ _ Hi Hr). cbn [mbind res_bind].
  destruct (good_chain _ _ _ G) as (d & _ & Hd).
  eapply with_event_total; simp_rec; try first [apply G|exact Hd|done].
  rewrite json_finite_dict. cbn [forallb snd].
  by rewrite (good_lease _ _ _ G).
Qed.

Lemma new_issue_total id k n b now i :
  required_text (VStr id) "authority_id" = Ok () →
  required_text (VStr k) "idempotency_key" = Ok () → is_hex_string 64 n = true →
  b ≠ [] → json_finite (VDict b) = true → dt_instant now = Some i → in_range i = true →
  ∃ req, validated_issue_request (VStr id) (VStr k) (VStr n) (VDict b) = Ok req
    ∧ is_ok (new_issue req now) = true.
Proof.
  intros Hid Hk Hn Hb Hf Hi Hr. unfold validated_issue_request. rewrite Hid, Hk.
  cbn [mbind res_bind]. rewrite Hn. destruct b as [|kv b]; [done|].
  cbn [negb is_dict truthy andb]. unfold json_copy. rewrite Hf. cbn [mbind res_bind].
  rewrite (digest_finite _ Hf). cbn [mbind res_bind]. eexists. split; [done|]. unfold new_issue.
  rewrite (format_time_total _ _ Hi Hr). cbn [mbind res_bind ditem dget String.eqb Ascii.eqb Bool.eqb].
  by eapply with_event_total.
Qed.
