(* ===== verification/AuthorityTheorems.v ===== *)
(** * Repo-patch authority: what the store guarantees

    The properties of the file-backed authority store and of its transitions,
    read off the interface and the record invariant. *)

From S2P Require Import Prelude PyFloat PyValue Json JsonStore Sha256 DateTime AuthorityTransitions AuthorityInterface AuthorityFacts.
From stdpp Require Import gmap.

(** * Repo-patch authority: the file back end

    [FileRepoPatchAuthorityStore]: the five methods over one locked JSON file,
    and the proof that it implements the interface. *)

(** [d.get(k)] for a key of any type: the keys of a JSON object are strings,
    lists and dictionaries are unhashable. *)
Definition get_any (k : value) (d : dict) : res value :=
  match k with
  | VStr s => Ok (dgetN s d)
  | VList _ => raise TypeError "unhashable type: 'list'"
  | VDict _ => raise TypeError "unhashable type: 'dict'"
  | _ => Ok VNone
  end.

(** [_file_root] *)
Definition file_root (payload : dict) : res dict :=
  let root :=
    if truthy (VDict payload) then payload
    else dupdate payload
           [("schema_version", VStr AUTHORITY_STORE_VERSION);
            ("records", VDict []);
            ("idempotency", VDict []);
            ("nonces", VDict []);
            ("events", VDict [])] in
  raise_if negb (is_string AUTHORITY_STORE_VERSION (dgetN "schema_version" root))
    with AuthorityStoreError "unsupported repo-patch authority-store version";
  _ ← res_iter (λ field,
        raise_if negb (is_dict (dgetN field root))
          with AuthorityStoreError ("authority store field " +:+ repr_str field +:+ " is malformed");
        Ok ())
      ["records"; "idempotency"; "nonces"; "events"];
  Ok root.

(** The table [root\[field\]] of a checked root. *)
Definition table (field : string) (root : dict) : dict := dict_or_empty (dgetN field root).

(** [root\[field\]\[key\] = v] *)
Definition table_set (field key : string) (v : value) (root : dict) : dict :=
  dset field (VDict (dset key v (table field root))) root.

(** [_required_record] *)
Definition required_record (records : dict) (authority_id : value) : res dict :=
  _ ← required_text authority_id "authority_id";
  record ← get_any authority_id records;
  match record with
  | VDict record => _ ← validate_record_binding record; Ok record
  | _ => raise AuthorityNotFoundError
           ("authority record " +:+ py_repr authority_id +:+ " does not exist")
  end.

(** [_store_file_transition] *)
Definition store_file_transition (root updated event : dict) : res dict :=
  authority_id ← ditem "authority_id" updated;
  events ← get_any authority_id (table "events" root);
  match authority_id, events with
  | VStr id, VList l =>
      Ok (table_set "records" id (VDict updated) (table_set "events" id (VList (l ++ [VDict event])) root))
  | _, _ => raise AuthorityStoreError "authority event receipts are missing"
  end.

Definition file_issue_body (authority_id idempotency_key nonce : string) (request : dict)
    (now : datetime) (payload : dict) : res (value * dict) :=
  root ← file_root payload;
  let existing_id :=
    let known := dgetN idempotency_key (table "idempotency" root) in
    if truthy known then known
    else if dhas authority_id (table "records" root) then VStr authority_id else VNone in
  if negb (is_none existing_id) then
    existing ← required_record (table "records" root) (VStr (py_str existing_id));
    _ ← require_same_issue existing request;
    Ok (VDict existing, root)
  else
    let nonce_owner := dgetN nonce (table "nonces" root) in
    raise_if negb (is_none nonce_owner)
      with AuthorityConflictError ("authority nonce already belongs to " +:+ py_repr nonce_owner);
    issued ← new_issue request now;
    let '(record, event) := (issued : dict * dict) in
    Ok (VDict record,
        table_set "events" authority_id (VList [VDict event])
          (table_set "nonces" nonce (VStr authority_id)
            (table_set "idempotency" idempotency_key (VStr authority_id)
              (table_set "records" authority_id (VDict record) root)))).

(** The common shape of the three transitions. *)
Definition file_transition_body (authority_id : value)
    (transition : dict → res (dict * dict)) (payload : dict) : res (value * dict) :=
  root ← file_root payload;
  current ← required_record (table "records" root) authority_id;
  moved ← transition current;
  let '(updated, event) := (moved : dict * dict) in
  root' ← store_file_transition root updated event;
  Ok (VDict updated, root').

Definition file_read_body (authority_id : value) (payload : dict) : res (value * dict) :=
  if negb (truthy (VDict payload)) then Ok (VNone, payload)
  else
    root ← file_root payload;
    record ← get_any authority_id (table "records" root);
    if is_none record then Ok (VNone, root)
    else
      match record with
      | VDict record =>
          events ← get_any authority_id (table "events" root);
          p ← reconciliation_payload record events;
          Ok (VDict p, root)
      | _ => raise AuthorityStoreError "authority record is malformed"
      end.

Section file_store.
(** The resolved path of the state file, for messages only. *)
Variable path : string.

Definition file_issue_or_get (f : file) (now : datetime)
    (authority_id idempotency_key nonce action_binding : value) : res value * file :=
  match validated_issue_request authority_id idempotency_key nonce action_binding with
  | Err e => (Err e, f)
  | Ok request =>
      match authority_id, idempotency_key, nonce with
      | VStr id, VStr key, VStr n =>
          locked_json false path f (file_issue_body id key n request now)
      | _, _, _ => (raise TypeError "unreachable: the request has been validated", f)
      end
  end.

Definition file_lease_for_dispatch (f : file) (now : datetime)
    (authority_id expected_version lease_id lease_seconds : value) : res value * file :=
  locked_json false path f (file_transition_body authority_id (λ current,
    lease_transition current expected_version lease_id lease_seconds now)).

Definition file_mark_dispatched (f : file) (now : datetime)
    (authority_id expected_version lease_id : value) : res value * file :=
  locked_json false path f (file_transition_body authority_id (λ current,
    dispatch_transition current expected_version lease_id now)).

Definition file_complete_terminal (f : file) (now : datetime)
    (authority_id expected_version lease_id outcome result : value) : res value * file :=
  locked_json false path f (file_transition_body authority_id (λ current,
    terminal_transition current expected_version lease_id outcome result now)).

Definition file_read_for_reconciliation (f : file) (authority_id : value) : res value * file :=
  locked_json false path f (file_read_body authority_id).

Definition file_call (f : file) (now : datetime) (c : call) : res value * file :=
  match c with
  | IssueOrGet id key nonce binding => file_issue_or_get f now id key nonce binding
  | LeaseForDispatch id v l s => file_lease_for_dispatch f now id v l s
  | MarkDispatched id v l => file_mark_dispatched f now id v l
  | CompleteTerminal id v l o r => file_complete_terminal f now id v l o r
  | ReadForReconciliation id => file_read_for_reconciliation f id
  end.
End file_store.

(** ** The tables of the root *)

Lemma table_sort f d : table f (sort_dict d) = sort_dict (table f d).
Proof. unfold table. rewrite dgetN_sort_dict. destruct (dgetN f d); try done. by rewrite json_sort_dict. Qed.

Lemma table_set_table f f' k v d :
  table f (table_set f' k v d) = if String.eqb f f' then dset k v (table f d) else table f d.
Proof.
  unfold table_set, table. rewrite dgetN_dset. destruct (String.eqb f f') eqn:E; [|done].
  by apply String.eqb_eq in E as ->.
Qed.

Lemma dgetN_table_set g f k v d :
  dgetN g (table_set f k v d)
  = if String.eqb g f then VDict (dset k v (table f d)) else dgetN g d.
Proof. unfold table_set. apply dgetN_dset. Qed.

Definition root_fields : list string := ["records"; "idempotency"; "nonces"; "events"].

(** The root of a written file and the registry it stands for. *)
Record root_ok (d : dict) (m : registry) : Prop := RootOk {
  ro_schema : dgetN "schema_version" d = VStr AUTHORITY_STORE_VERSION;
  ro_tables : ∀ f, f ∈ root_fields → is_dict (dgetN f d) = true;
  ro_reg : registry_ok m;
  ro_text : ∀ id a, m !! id = Some a → required_text (VStr id) "authority_id" = Ok ();
  ro_records : ∀ id a, m !! id = Some a →
    ∃ r evs, dget id (table "records" d) = Some (VDict r)
           ∧ dget id (table "events" d) = Some (VList evs) ∧ good r evs a;
  ro_absent : ∀ id, m !! id = None → dget id (table "records" d) = None;
  ro_idempotency : ∀ k v, dget k (table "idempotency" d) = Some v ↔
    ∃ id a, v = VStr id ∧ m !! id = Some a ∧ a_key a = k;
  ro_nonces : ∀ n v, dget n (table "nonces" d) = Some v ↔
    ∃ id a, v = VStr id ∧ m !! id = Some a ∧ a_nonce a = n }.

Lemma root_ok_sort d m : root_ok d m → root_ok (sort_dict d) m.
Proof.
  intros []. split; try done.
  - by rewrite dgetN_sort_dict, ro_schema0.
  - intros f Hf. rewrite dgetN_sort_dict. specialize (ro_tables0 f Hf). by destruct (dgetN f d).
  - intros id a Ha. destruct (ro_records0 id a Ha) as (r & evs & Hr & He & G).
    exists (sort_dict r), (map json_sort evs).
    rewrite !table_sort, !dget_sort_dict, Hr, He, !json_sort_some, json_sort_dict.
    do 2 (split; [done|]). by apply good_sort.
  - intros id Hid. by rewrite table_sort, dget_sort_dict, ro_absent0.
  - intros k v. rewrite table_sort, dget_sort_dict, <- ro_idempotency0.
    destruct (dget k _) as [w|] eqn:E; [|done]. simpl.
    apply ro_idempotency0 in E as (id & a & -> & _). done.
  - intros k v. rewrite table_sort, dget_sort_dict, <- ro_nonces0.
    destruct (dget k _) as [w|] eqn:E; [|done]. simpl.
    apply ro_nonces0 in E as (id & a & -> & _). done.
Qed.

(** What [file_root] makes of a payload: the empty one gets its tables. *)
Definition fresh_root : dict :=
  [("schema_version", VStr AUTHORITY_STORE_VERSION); ("records", VDict []);
   ("idempotency", VDict []); ("nonces", VDict []); ("events", VDict [])].

Lemma fresh_root_ok : root_ok fresh_root ∅.
Proof.
  split; try done.
  - intros f Hf. repeat (apply elem_of_cons in Hf as [->|Hf]; [done|]). by apply elem_of_nil in Hf.
  - intros k v. split; [done|]. intros (id & a & _ & Ha & _). by rewrite lookup_empty in Ha.
  - intros k v. split; [done|]. intros (id & a & _ & Ha & _). by rewrite lookup_empty in Ha.
Qed.

Lemma file_root_ok d m : root_ok d m → d ≠ [] → file_root d = Ok d.
Proof.
  intros [] Hne. unfold file_root. destruct d as [|kv d]; [done|]. cbn [truthy].
  rewrite ro_schema0, is_string_refl. cbn [negb].
  assert (res_iter (λ field, if negb (is_dict (dgetN field (kv :: d)))
    then raise AuthorityStoreError ("authority store field " +:+ repr_str field +:+ " is malformed")
    else Ok ()) root_fields = Ok ()) as Hit.
  { apply res_iter_Ok, Forall_forall. intros f Hf. by rewrite ro_tables0. }
  unfold root_fields in Hit. by rewrite Hit.
Qed.

(** The registry a file stands for. *)
Definition file_represents (f : file) (m : registry) : Prop :=
  ∃ d, file_payload f = Some d ∧ ((d = [] ∧ m = ∅) ∨ (d ≠ [] ∧ root_ok d m)).

(** Every section starts from a checked root. *)
Lemma file_represents_root f m :
  file_represents f m →
  ∃ d root, file_payload f = Some d ∧ file_root d = Ok root ∧ root_ok root m
    ∧ (d = root ∨ (d = [] ∧ m = ∅)).
Proof.
  intros (d & Hd & [[-> ->]|[Hne Hr]]).
  - exists [], fresh_root. split; [done|]. split; [done|]. split; [apply fresh_root_ok|by right].
  - exists d, d. split; [done|]. split; [by eapply file_root_ok|]. split; [done|by left].
Qed.

(** A section that leaves a good root which differs from what it read. *)
Lemma file_represents_write f d root' m' :
  file_payload f = Some d → (d = [] ∨ root' ≠ d ∧ py_eq (VDict root') (VDict d) = false) →
  root_ok root' m' → file_represents (locked_exit d false root' f) m'.
Proof.
  intros Hd Hne Hr. assert (root' ≠ []) as Hnil.
  { intros ->. by destruct Hr. }
  assert (root' ≠ d ∧ py_eq (VDict root') (VDict d) = false) as [Hne1 Hne2].
  { destruct Hne as [->|?]; [|done]. split; [done|]. by destruct root'. }
  rewrite locked_exit_changed by done.
  exists (sort_dict root'). split; [apply file_payload_write|]. right.
  split; [by rewrite sort_dict_nil|by apply root_ok_sort].
Qed.

(** ** The calls refine the interface *)

Lemma required_record_ok root m v r :
  root_ok root m → required_record (table "records" root) v = Ok r →
  ∃ id a evs, v = VStr id ∧ m !! id = Some a ∧ dget id (table "records" root) = Some (VDict r)
    ∧ dget id (table "events" root) = Some (VList evs) ∧ good r evs a.
Proof.
  intros Hr H. unfold required_record in H.
  apply res_bind_Ok in H as ([] & Hv & H). apply required_text_Ok in Hv as [id ->].
  cbn [get_any mbind res_bind] in H.
  destruct (m !! id) as [a|] eqn:Ha.
  - destruct (ro_records _ _ Hr id a Ha) as (r' & evs & Hr' & He & G).
    rewrite (dgetN_Some _ _ _ Hr') in H.
    rewrite (good_validate _ _ _ G) in H. injection H as <-. eauto 8.
  - by rewrite (dgetN_None _ _ (ro_absent _ _ Hr id Ha)) in H.
Qed.

Lemma required_record_present root m id a :
  root_ok root m → m !! id = Some a →
  ∃ r evs, required_record (table "records" root) (VStr id) = Ok r
    ∧ dget id (table "events" root) = Some (VList evs) ∧ good r evs a.
Proof.
  intros Hr Ha. destruct (ro_records _ _ Hr id a Ha) as (r & evs & Hr' & He & G).
  exists r, evs. split; [|done]. unfold required_record.
  rewrite (ro_text _ _ Hr id a Ha). cbn [mbind res_bind get_any].
  rewrite (dgetN_Some _ _ _ Hr'). by rewrite (good_validate _ _ _ G).
Qed.

(** Two roots whose records differ in one place are different payloads. *)
Lemma record_changed root root' id r r' n :
  dget id (table "records" root) = Some (VDict r) →
  dget id (table "records" root') = Some (VDict r') →
  dgetN "version" r = VInt n → dgetN "version" r' = VInt (n + 1) →
  root' ≠ root ∧ py_eq (VDict root') (VDict root) = false.
Proof.
  intros Hr Hr' Hv Hv'. split.
  { intros ->. simplify_eq. rewrite Hv in Hv'. injection Hv'. lia. }
  apply not_true_is_false. intros Heq.
  assert (Htab : ∀ R x, dget id (table "records" R) = Some x →
    ∃ t, dget "records" R = Some (VDict t) ∧ dget id t = Some x).
  { intros R x Hx. unfold table, dgetN in Hx. destruct (dget "records" R) as [[]|]; try done. eauto. }
  apply Htab in Hr as (t & Ht & Hr). apply Htab in Hr' as (t' & Ht' & Hr').
  destruct (py_eq_dict_dget _ _ _ _ Heq Ht') as (w & Hw & Heq1). simplify_eq.
  destruct (py_eq_dict_dget _ _ _ _ Heq1 Hr') as (w & Hw' & Heq2). simplify_eq.
  unfold dgetN in Hv, Hv'. destruct (dget "version" r') as [v'|] eqn:E'; [|done]. simpl in Hv'. subst.
  destruct (py_eq_dict_dget _ _ _ _ Heq2 E') as (w & Hw2 & Heq3). rewrite Hw2 in Hv.
  simpl in Hv. subst. rewrite py_eq_VInt in Heq3. lia.
Qed.

Lemma record_added root root' id r :
  dget id (table "records" root) = None →
  is_dict (dgetN "records" root) = true →
  dget id (table "records" root') = Some r →
  root' ≠ root ∧ py_eq (VDict root') (VDict root) = false.
Proof.
  intros Hn Hd Hr. split; [congruence|]. apply not_true_is_false. intros Heq. unfold table, dgetN, dict_or_empty in *.
  destruct (dget "records" root') as [[]|] eqn:E'; try done.
  destruct (py_eq_dict_dget _ _ _ _ Heq E') as (w & Hw & Heq1). rewrite Hw in Hn, Hd. simpl in *.
  destruct w as [| | | | | |t]; try done. simpl in *.
  destruct (py_eq_dict_dget _ _ _ _ Heq1 Hr) as (w & Hw' & _). congruence.
Qed.

(** Replacing the record and extending the receipts of one authority. *)
Lemma root_ok_step root m id a l r' evs :
  root_ok root m → m !! id = Some a → good r' evs (bump a l) →
  root_ok (table_set "records" id (VDict r') (table_set "events" id (VList evs) root))
    (<[id := bump a l]> m).
Proof.
  intros [] Ha G.
  assert (Hold : ∀ i b, <[id := bump a l]> m !! i = Some b →
    ∃ b0, m !! i = Some b0 ∧ a_id b = a_id b0 ∧ a_key b = a_key b0 ∧ a_nonce b = a_nonce b0).
  { intros i b Hb. apply lookup_insert_Some in Hb as [[<- <-]|[_ Hb]]; [|eauto].
    exists a. by repeat split. }
  assert (Hnew : ∀ i b, m !! i = Some b →
    ∃ b', <[id := bump a l]> m !! i = Some b' ∧ a_key b' = a_key b ∧ a_nonce b' = a_nonce b).
  { intros i b Hb. destruct (decide (i = id)) as [->|].
    - simplify_eq. exists (bump a l). by rewrite lookup_insert_eq.
    - exists b. by rewrite lookup_insert_ne. }
  split.
  - rewrite !dgetN_table_set. done.
  - intros f Hf. rewrite !dgetN_table_set. destruct (String.eqb f "records"); [done|].
    destruct (String.eqb f "events"); [done|]. by apply ro_tables0.
  - destruct ro_reg0 as [Hrid Hrkey Hrnonce]. split.
    + intros i b Hb. apply Hold in Hb as (b0 & Hb0 & -> & _). by apply Hrid.
    + intros i i' b b' Hb Hb' Hk. apply Hold in Hb as (b0 & Hb0 & _ & Hk0 & _),
        Hb' as (b1 & Hb1 & _ & Hk1 & _). eapply Hrkey; eauto. congruence.
    + intros i i' b b' Hb Hb' Hk. apply Hold in Hb as (b0 & Hb0 & _ & _ & Hk0),
        Hb' as (b1 & Hb1 & _ & _ & Hk1). eapply Hrnonce; eauto. congruence.
  - intros i b Hb. apply Hold in Hb as (b0 & Hb0 & _). by eapply ro_text0.
  - intros i b Hb. rewrite !table_set_table. cbn [String.eqb Ascii.eqb Bool.eqb].
    rewrite !dget_dset. destruct (String.eqb_spec i id) as [->|Hi].
    + rewrite lookup_insert_eq in Hb. injection Hb as <-. eauto.
    + rewrite lookup_insert_ne in Hb by done. by apply ro_records0.
  - intros i Hi. apply lookup_insert_None in Hi as [Hi Hne].
    rewrite !table_set_table. cbn [String.eqb Ascii.eqb Bool.eqb].
    rewrite dget_dset. destruct (String.eqb_spec i id) as [->|]; [done|]. by apply ro_absent0.
  - intros k v. rewrite !table_set_table. cbn [String.eqb Ascii.eqb Bool.eqb].
    rewrite ro_idempotency0. split; intros (i & b & -> & Hb & <-); exists i.
    + apply Hnew in Hb as (b' & ? & ? & _). eauto.
    + apply Hold in Hb as (b0 & ? & _ & -> & _). eauto.
  - intros k v. rewrite !table_set_table. cbn [String.eqb Ascii.eqb Bool.eqb].
    rewrite ro_nonces0. split; intros (i & b & -> & Hb & <-); exists i.
    + apply Hnew in Hb as (b' & ? & _ & ?). eauto.
    + apply Hold in Hb as (b0 & ? & _ & _ & ->). eauto.
Qed.

Lemma locked_json_inv {A} path f d (body : dict → res (A * dict)) v f' :
  file_payload f = Some d → locked_json false path f body = (Ok v, f') →
  ∃ d', body d = Ok (v, d') ∧ f' = locked_exit d false d' f.
Proof.
  intros Hd H. destruct (body d) as [[w d']|e] eqn:Hb.
  - rewrite (locked_json_Ok _ _ _ _ _ _ _ Hd Hb) in H. injection H as -> <-. eauto.
  - by rewrite (locked_json_Err _ _ _ _ _ _ Hd Hb) in H.
Qed.

Lemma locked_json_raises {A} path f d (body : dict → res (A * dict)) e f' :
  file_payload f = Some d → locked_json false path f body = (Err e, f') → f' = f.
Proof.
  intros Hd H. destruct (body d) as [[w d']|e'] eqn:Hb.
  - by rewrite (locked_json_Ok _ _ _ _ _ _ _ Hd Hb) in H.
  - rewrite (locked_json_Err _ _ _ _ _ _ Hd Hb) in H. by injection H as _ <-.
Qed.

(** A transition of the file store is a transition of the registry. *)
Lemma file_transition_step path f m idv T ev now (Q : lifecycle → Prop) v f' :
  (∀ r evs a r' e, good r evs a → T r = Ok (r', e) →
     ev = VInt (a_version a) ∧ ∃ l, Q l ∧ steps_to a now l r' (evs ++ [VDict e])) →
  file_represents f m →
  locked_json false path f (file_transition_body idv T) = (Ok v, f') →
  ∃ id r l m' a', idv = VStr id ∧ v = VDict r ∧ Q l ∧ reg_step now m id ev l m'
    ∧ m' !! id = Some a' ∧ authority_of r = Some a' ∧ file_represents f' m'.
Proof.
  intros HT Hf H. destruct (file_represents_root _ _ Hf) as (d & root & Hd & Hroot & Hok & Hdr).
  destruct (locked_json_inv _ _ _ _ _ _ Hd H) as (d' & Hb & ->).
  unfold file_transition_body in Hb. rewrite Hroot in Hb. cbn [mbind res_bind] in Hb.
  apply res_bind_Ok in Hb as (r & Hr & Hb).
  apply (required_record_ok _ _ _ _ Hok) in Hr as (id & a & evs & -> & Ha & Hr & He & G).
  apply res_bind_Ok in Hb as ([r' e] & Hmv & Hb).
  destruct (HT _ _ _ _ _ G Hmv) as (Hev & l & HQ & i & Hi & Hl & G').
  apply res_bind_Ok in Hb as (root' & Hst & Hb). injection Hb as <- <-.
  unfold store_file_transition in Hst.
  rewrite (dgetN_ditem _ _ _ (good_id _ _ _ G')) in Hst by done.
  replace (a_id (bump a l)) with id in Hst
    by (symmetry; apply (reg_id _ (ro_reg _ _ Hok) _ _ Ha)).
  cbn [mbind res_bind get_any] in Hst. rewrite (dgetN_Some _ _ _ He) in Hst. injection Hst as <-.
  exists id, r', l, (<[id := bump a l]> m), (bump a l).
  rewrite lookup_insert_eq. pose proof (good_authority _ _ _ G').
  do 3 (split; [done|]). split; [by exists i, a|]. do 2 (split; [done|]).
  destruct Hdr as [->|[-> ->]]; [|by rewrite lookup_empty in Ha].
  assert (dget id (table "records" (table_set "records" id (VDict r')
    (table_set "events" id (VList (evs ++ [VDict e])) root))) = Some (VDict r')) as Hr'.
  { rewrite table_set_table. apply dget_dset_eq. }
  destruct (record_changed _ _ _ _ _ _ Hr Hr' (good_version _ _ _ G) (good_version _ _ _ G'))
    as [Hne1 Hne2].
  eapply file_represents_write; [exact Hd|by right|by apply root_ok_step].
Qed.

(** Adding a fresh authority. *)
Lemma root_ok_issue root m a r e :
  root_ok root m → m !! a_id a = None →
  (∀ id' b, m !! id' = Some b → a_key b ≠ a_key a ∧ a_nonce b ≠ a_nonce a) →
  required_text (VStr (a_id a)) "authority_id" = Ok () → good r [VDict e] a →
  root_ok (table_set "events" (a_id a) (VList [VDict e])
            (table_set "nonces" (a_nonce a) (VStr (a_id a))
              (table_set "idempotency" (a_key a) (VStr (a_id a))
                (table_set "records" (a_id a) (VDict r) root))))
    (<[a_id a := a]> m).
Proof.
  intros [] Hnone Hfresh Htext G.
  assert (Hold : ∀ i b, <[a_id a := a]> m !! i = Some b → (i = a_id a ∧ b = a) ∨ m !! i = Some b).
  { intros i b Hb. apply lookup_insert_Some in Hb as [[<- <-]|[_ Hb]]; auto. }
  assert (Hnew : ∀ i b, m !! i = Some b → <[a_id a := a]> m !! i = Some b).
  { intros i b Hb. rewrite lookup_insert_ne; [done|]. intros <-. congruence. }
  assert (Hidx : ∀ (proj : authority → string) t,
    (∀ k v, dget k t = Some v ↔ ∃ id b, v = VStr id ∧ m !! id = Some b ∧ proj b = k) →
    (∀ id' b, m !! id' = Some b → proj b ≠ proj a) →
    ∀ k v, dget k (dset (proj a) (VStr (a_id a)) t) = Some v
      ↔ ∃ id b, v = VStr id ∧ <[a_id a := a]> m !! id = Some b ∧ proj b = k).
  { intros proj t Ht Hf k v. rewrite dget_dset. destruct (String.eqb_spec k (proj a)) as [->|Hk].
    - split; [intros [= <-]; exists (a_id a), a; by rewrite lookup_insert_eq|].
      intros (id & b & -> & Hb & Hp). apply Hold in Hb as [[-> ->]|Hb]; [done|].
      by destruct (Hf _ _ Hb).
    - rewrite Ht. split; intros (id & b & -> & Hb & <-); exists id, b; [by auto|].
      apply Hold in Hb as [[-> ->]|Hb]; done. }
  split; try (intros; rewrite !table_set_table; cbn [String.eqb Ascii.eqb Bool.eqb]).
  - rewrite !dgetN_table_set. done.
  - intros f Hf. rewrite !dgetN_table_set.
    repeat (destruct (String.eqb f _); [done|]). by apply ro_tables0.
  - destruct ro_reg0 as [Hrid Hrkey Hrnonce]. split.
    + intros i b Hb. apply Hold in Hb as [[-> ->]|Hb]; [done|]. by apply Hrid.
    + intros i i' b b' Hb Hb' Hk. apply Hold in Hb as [[-> ->]|Hb], Hb' as [[-> ->]|Hb']; try done.
      * by destruct (Hfresh _ _ Hb') as [[] _].
      * by destruct (Hfresh _ _ Hb) as [[] _].
      * by eapply Hrkey.
    + intros i i' b b' Hb Hb' Hk. apply Hold in Hb as [[-> ->]|Hb], Hb' as [[-> ->]|Hb']; try done.
      * by destruct (Hfresh _ _ Hb') as [_ []].
      * by destruct (Hfresh _ _ Hb) as [_ []].
      * by eapply Hrnonce.
  - intros i b Hb. apply Hold in Hb as [[-> ->]|Hb]; [done|]. by eapply ro_text0.
  - rename select (_ !! _ = Some _) into Hb. rewrite !dget_dset.
    apply Hold in Hb as [[-> ->]|Hb]; [rewrite String.eqb_refl; eauto|].
    destruct (String.eqb_spec id (a_id a)) as [->|]; [congruence|]. by apply ro_records0.
  - rename select (_ !! _ = None) into Hi. apply lookup_insert_None in Hi as [Hi Hne].
    rewrite dget_dset. destruct (String.eqb_spec id (a_id a)) as [->|]; [done|]. by apply ro_absent0.
  - apply Hidx; [done|]. intros id' b Hb. by destruct (Hfresh _ _ Hb).
  - apply Hidx; [done|]. intros id' b Hb. by destruct (Hfresh _ _ Hb).
Qed.

Lemma validated_issue_Ok aid key nonce binding req :
  validated_issue_request aid key nonce binding = Ok req →
  ∃ id k n dg, aid = VStr id ∧ key = VStr k ∧ nonce = VStr n
    ∧ required_text (VStr id) "authority_id" = Ok ()
    ∧ canonical_authority_digest binding = Ok dg
    ∧ dgetN "authority_id" req = VStr id ∧ dgetN "idempotency_key" req = VStr k
    ∧ dgetN "nonce" req = VStr n ∧ dgetN "action_binding_digest" req = VStr dg.
Proof.
  unfold validated_issue_request. intros H. res_inv H. destruct x, x0.
  pose proof Hx as Hid. apply required_text_Ok in Hx as [id ->], Hx0 as [k ->].
  destruct nonce as [| | | |n| |]; try done. res_inv H.
  unfold json_copy in Hx. destruct (json_finite binding); [|done]. injection Hx as <-.
  exists id, k, n, x0. do 5 (split; [done|]). done.
Qed.

Lemma same_issue_Ok r req evs a id k n dg :
  good r evs a → require_same_issue r req = Ok () →
  dgetN "authority_id" req = VStr id → dgetN "idempotency_key" req = VStr k →
  dgetN "nonce" req = VStr n → dgetN "action_binding_digest" req = VStr dg →
  a_id a = id ∧ a_key a = k ∧ a_nonce a = n ∧ a_binding_digest a = dg.
Proof.
  intros G H H1 H2 H3 H4. unfold require_same_issue in H.
  apply res_bind_Ok in H as ([] & _ & H). apply res_bind_Ok in H as ([] & Hf & _).
  apply res_iter_Ok in Hf. repeat (apply Forall_cons in Hf as [? Hf]).
  repeat match goal with
  | H : (if negb (py_eq _ _) then _ else _) = Ok () |- _ =>
      apply raise_if_Ok in H as [?%negb_false_iff _]
  end.
  rewrite H1, (good_id _ _ _ G), H2, (good_key _ _ _ G), H3, (good_nonce _ _ _ G), H4,
    (good_digest _ _ _ G) in *.
  repeat match goal with H : py_eq (VStr _) (VStr _) = true |- _ => apply py_eq_str in H end.
  by simplify_eq.
Qed.

(** The request names an authority that was issued before. *)
Lemma file_issue_known m root req r known id k n dg binding now :
  root_ok root m → canonical_authority_digest binding = Ok dg →
  dgetN "authority_id" req = VStr id → dgetN "idempotency_key" req = VStr k →
  dgetN "nonce" req = VStr n → dgetN "action_binding_digest" req = VStr dg →
  required_record (table "records" root) known = Ok r → require_same_issue r req = Ok () →
  m ≠ ∅ ∧ call_ok now m (IssueOrGet (VStr id) (VStr k) (VStr n) binding) (VDict r) m.
Proof.
  intros Hok Hdg H1 H2 H3 H4 Hr Hsame.
  destruct (required_record_ok _ _ _ _ Hok Hr) as (i & a & evs & _ & Ha & _ & _ & G).
  destruct (same_issue_Ok _ _ _ _ _ _ _ _ G Hsame H1 H2 H3 H4) as (Hi1 & Hi2 & Hi3 & Hi4).
  pose proof (reg_id _ (ro_reg _ _ Hok) _ _ Ha) as Hi. rewrite Hi in Hi1. subst i.
  split; [intros ->; by rewrite lookup_empty in Ha|].
  eapply ok_get; try done; [by rewrite Hi4|]. eapply good_authority, G.
Qed.

(** No index mentions the request. *)
Lemma file_issue_fresh m root id k n :
  root_ok root m →
  truthy (dgetN k (table "idempotency" root)) = false →
  dget id (table "records" root) = None →
  is_none (dgetN n (table "nonces" root)) = true →
  m !! id = None ∧ ∀ i a, m !! i = Some a → a_key a ≠ k ∧ a_nonce a ≠ n.
Proof.
  intros Hok Hkn Hnone Hown. split.
  - destruct (m !! id) as [a|] eqn:Ha; [|done].
    destruct (ro_records _ _ Hok _ _ Ha) as (r0 & evs & Hr0 & _). congruence.
  - intros i a Ha. split; intros Hk.
    + assert (dget k (table "idempotency" root) = Some (VStr i)) as Hget
        by (apply (ro_idempotency _ _ Hok); eauto).
      rewrite (dgetN_Some _ _ _ Hget) in Hkn.
      pose proof (ro_text _ _ Hok _ _ Ha) as Ht. by destruct i.
    + assert (dget n (table "nonces" root) = Some (VStr i)) as Hget
        by (apply (ro_nonces _ _ Hok); eauto).
      by rewrite (dgetN_Some _ _ _ Hget) in Hown.
Qed.

Lemma file_issue_step path f m now aid key nonce binding v f' :
  file_represents f m →
  file_issue_or_get path f now aid key nonce binding = (Ok v, f') →
  ∃ m', call_ok now m (IssueOrGet aid key nonce binding) v m' ∧ file_represents f' m'.
Proof.
  intros Hf H. unfold file_issue_or_get in H.
  destruct (validated_issue_request aid key nonce binding) as [req|] eqn:Hreq; [|done].
  destruct (validated_issue_Ok _ _ _ _ _ Hreq)
    as (id & k & n & dg & -> & -> & -> & Htext & Hdg & H1 & H2 & H3 & H4).
  destruct (file_represents_root _ _ Hf) as (d & root & Hd & Hroot & Hok & Hdr).
  destruct (locked_json_inv _ _ _ _ _ _ Hd H) as (d' & Hb & ->). clear H.
  unfold file_issue_body in Hb. rewrite Hroot in Hb. cbn [mbind res_bind] in Hb.
  destruct (negb (is_none _)) eqn:Hex in Hb.
  - apply res_bind_Ok in Hb as (r & Hr & Hb). apply res_bind_Ok in Hb as ([] & Hsame & Hb).
    injection Hb as <- <-.
    destruct (file_issue_known _ _ _ _ _ _ _ _ _ _ now Hok Hdg H1 H2 H3 H4 Hr Hsame) as [Hne Hc].
    exists m. split; [done|]. destruct Hdr as [->|[-> ->]]; [|done].
    rewrite locked_exit_unchanged; [done|by left].
  - apply negb_false_iff in Hex. apply raise_if_Ok in Hb as [Hown%negb_false_iff Hb].
    apply res_bind_Ok in Hb as ([r e] & Hnew & Hb). injection Hb as <- <-.
    destruct (new_issue_good _ _ _ _ _ _ _ _ Hreq Hnew)
      as (id' & k' & n' & dg' & [= <-] & [= <-] & [= <-] & Hdg' & G).
    rewrite Hdg in Hdg'. injection Hdg' as <-.
    set (known := dgetN k (table "idempotency" root)) in *.
    assert (dget id (table "records" root) = None ∧ truthy known = false) as [Hnone Hkn].
    { destruct (truthy known) eqn:Ht; [by destruct known|].
      unfold dhas in Hex. by destruct (dget id (table "records" root)). }
    destruct (file_issue_fresh _ _ _ _ _ Hok Hkn Hnone Hown) as [Hmid Hfresh].
    eexists. split; [eapply ok_issue; try done; by eapply good_authority|].
    eapply file_represents_write; [exact Hd| |
      exact (root_ok_issue _ _ (Authority id k n dg 1 Issued) _ _ Hok Hmid Hfresh Htext G)].
    destruct Hdr as [->|[-> _]]; [right|by left].
    eapply record_added; [exact Hnone|apply (ro_tables _ _ Hok); left|].
    rewrite !table_set_table. cbn [String.eqb Ascii.eqb Bool.eqb]. apply dget_dset_eq.
Qed.

(** ** Reading *)

Lemma file_read_body_ok d root m id a :
  root_ok root m → d = root → d ≠ [] → m !! id = Some a →
  ∃ r evs, good r evs a ∧ file_read_body (VStr id) d
    = Ok (VDict [("schema_version", VStr AUTHORITY_STORE_VERSION); ("record", VDict r);
                 ("events", VList evs); ("event_chain_valid", VBool true)], d).
Proof.
  intros Hok -> Hne Ha. destruct (ro_records _ _ Hok _ _ Ha) as (r & evs & Hr & He & G).
  exists r, evs. split; [done|]. unfold file_read_body.
  destruct root as [|kv root]; [done|]. cbn [truthy negb].
  rewrite (file_root_ok _ _ Hok) by done. cbn [mbind res_bind get_any].
  rewrite (dgetN_Some _ _ _ Hr). cbn [is_none]. rewrite (dgetN_Some _ _ _ He).
  by rewrite (good_reconciles _ _ _ G).
Qed.

Lemma file_read_body_none d m v id :
  (d = [] ∧ m = ∅) ∨ (d ≠ [] ∧ root_ok d m) →
  get_any v (table "records" d) = Ok id → (∀ s, v = VStr s → m !! s = None) →
  file_read_body v d = Ok (VNone, d).
Proof.
  intros [[-> ->]|[Hne Hok]] Hv Hm; [done|]. unfold file_read_body.
  destruct d as [|kv d]; [done|]. cbn [truthy negb].
  rewrite (file_root_ok _ _ Hok) by done. cbn [mbind res_bind].
  assert (get_any v (table "records" (kv :: d)) = Ok VNone) as ->; [|done].
  destruct v; try done. cbn [get_any]. by rewrite (dgetN_None _ _ (ro_absent _ _ Hok _ (Hm _ eq_refl))).
Qed.

Lemma file_read_step path f m now aid v f' :
  file_represents f m → file_read_for_reconciliation path f aid = (Ok v, f') →
  call_ok now m (ReadForReconciliation aid) v m ∧ f' = f.
Proof.
  intros (d & Hd & Hcases) H.
  destruct (locked_json_inv _ _ _ _ _ _ Hd H) as (d' & Hb & ->). clear H.
  assert (d' = d → locked_exit d false d' f = f) as Hex
    by (intros ->; rewrite locked_exit_unchanged; [done|by left]).
  destruct aid as [| | | |id| |]; cycle 4.
  { destruct (m !! id) as [a|] eqn:Ha.
    - destruct Hcases as [[-> ->]|[Hne Hok]]; [by rewrite lookup_empty in Ha|].
      destruct (file_read_body_ok _ _ _ _ _ Hok eq_refl Hne Ha) as (r & evs & G & Hbody).
      rewrite Hbody in Hb. injection Hb as <- <-. split; [|by apply Hex].
      eapply ok_read; [exact Ha|reflexivity|by eapply good_authority|reflexivity|
        apply (good_length _ _ _ G)|reflexivity].
    - rewrite (file_read_body_none _ m _ (dgetN id (table "records" d))) in Hb; [|done..|by intros ? [= <-]].
      injection Hb as <- <-. split; [|by apply Hex]. constructor. by intros ? [= <-]. }
  all: assert (v = VNone ∧ d' = d) as [-> ->]; [|split; [by constructor|by apply Hex]].
  all: unfold file_read_body in Hb; destruct Hcases as [[-> _]|[Hne Hok]];
    [by injection Hb as <- <-|].
  all: rewrite (file_root_ok _ _ Hok) in Hb by done.
  all: destruct d; [done|]; cbn in Hb; by simplify_eq.
Qed.

(** ** The instance *)

Lemma file_represents_ok f m : file_represents f m → registry_ok m.
Proof.
  intros (d & _ & [[_ ->]|[_ Hok]]); [|by destruct Hok].
  exact (ro_reg _ _ fresh_root_ok).
Qed.

Lemma file_call_ok path f m now c v f' :
  file_represents f m → file_call path f now c = (Ok v, f') →
  ∃ m', call_ok now m c v m' ∧ file_represents f' m'.
Proof.
  intros Hf H. destruct c; cbn [file_call] in H.
  - by eapply file_issue_step.
  - eapply (file_transition_step _ _ _ _ _ expected_version now
      (λ l, ∃ s j, lease_id = VStr s ∧ l = Leased s j)) in H as
      (id & r & l & m' & a' & -> & -> & (s & j & -> & ->) & Hs & Ha' & Hr & Hf'); [|clear|done].
    { exists m'. split; [|done]. by econstructor. }
    intros r evs a r' e G HT. destruct (lease_transition_good _ _ _ _ _ _ _ _ _ G HT)
      as (Hev & s & n & i & -> & _ & _ & _ & Hst). split; [done|]. exists (Leased s (i + n * 1000000)). eauto.
  - eapply (file_transition_step _ _ _ _ _ expected_version now
      (λ l, ∃ s, lease_id = VStr s ∧ l = Dispatched s)) in H as
      (id & r & l & m' & a' & -> & -> & (s & -> & ->) & Hs & Ha' & Hr & Hf'); [|clear|done].
    { exists m'. split; [|done]. by econstructor. }
    intros r evs a r' e G HT. destruct (dispatch_transition_good _ _ _ _ _ _ _ _ G HT)
      as (Hev & s & -> & Hst). split; [done|]. eauto.
  - eapply (file_transition_step _ _ _ _ _ expected_version now
      (λ l, ∃ s o seen, lease_id = VStr s ∧ outcome = VStr o ∧ l = Terminal s o seen)) in H as
      (id & r & l & m' & a' & -> & -> & (s & o & seen & -> & -> & ->) & Hs & Ha' & Hr & Hf');
      [|clear|done].
    { exists m'. split; [|done]. by econstructor. }
    intros r evs a r' e G HT. destruct (terminal_transition_good _ _ _ _ _ _ _ _ _ _ G HT)
      as (Hev & s & o & -> & -> & Hst). split; [done|]. eauto 8.
  - destruct (file_read_step _ _ _ now _ _ _ Hf H) as [Hc ->]. eauto.
Qed.

Lemma file_call_err path f m now c e f' :
  file_represents f m → file_call path f now c = (Err e, f') → f' = f.
Proof.
  intros (d & Hd & _) H. destruct c; cbn [file_call] in H;
    try (by eapply locked_json_raises).
  unfold file_issue_or_get in H.
  destruct (validated_issue_request _ _ _ _); [|by injection H].
  destruct authority_id; try (by injection H). destruct idempotency_key; try (by injection H).
  destruct nonce; try (by injection H). by eapply locked_json_raises.
Qed.

Lemma file_read_ok path f m now id :
  file_represents f m →
  is_ok (file_call path f now (ReadForReconciliation (VStr id))).1 = true.
Proof.
  intros (d & Hd & Hcases). cbn [file_call]. unfold file_read_for_reconciliation.
  destruct (m !! id) as [a|] eqn:Ha.
  - destruct Hcases as [[-> ->]|[Hne Hok]]; [by rewrite lookup_empty in Ha|].
    destruct (file_read_body_ok _ _ _ _ _ Hok eq_refl Hne Ha) as (r & evs & G & Hbody).
    by rewrite (locked_json_Ok _ _ _ _ _ _ _ Hd Hbody).
  - rewrite (locked_json_Ok _ _ _ _ _ _ _ Hd
      (file_read_body_none _ m (VStr id) _ Hcases eq_refl ltac:(by intros ? [= <-]))).
    done.
Qed.

Lemma file_init_ok : file_represents no_file ∅.
Proof. exists []. split; [done|]. by left. Qed.

#[export] Instance file_store (path : string) : AuthorityStore file := {
  store_init := no_file;
  store_call := file_call path;
  represents := file_represents;
  represents_ok := file_represents_ok;
  store_init_ok := file_init_ok;
  store_call_ok := file_call_ok path;
  store_call_err := file_call_err path;
  store_read_total := file_read_ok path }.

#[local] Open Scope Z_scope.

(** ** A concrete authority, for the witnesses *)

Definition demo_nonce : string :=
  "0123456789abcdef0123456789abcdef0123456789abcdef0123456789abcdef".
Definition demo_now : datetime := DT 63871372800000000 (Some 0).
Definition demo_instant : Z := 63871372800000000.
Definition demo_binding : dict := [("repo", VStr "svc"); ("patch", VStr "p1")].

Lemma demo_issued :
  ∃ dg r e, good r [VDict e] (Authority "auth-1" "idem-1" demo_nonce dg 1 Issued).
Proof.
  destruct (new_issue_total "auth-1" "idem-1" demo_nonce demo_binding demo_now demo_instant)
    as (req & Hreq & Hok); try done.
  destruct (new_issue req demo_now) as [[r e]|] eqn:Hnew; [|done].
  destruct (new_issue_good _ _ _ _ _ _ _ _ Hreq Hnew)
    as (id & k & n & dg & [= <-] & [= <-] & [= <-] & _ & G). eauto.
Qed.

Lemma demo_leased :
  ∃ dg r evs, good r evs
    (Authority "auth-1" "idem-1" demo_nonce dg 2 (Leased "lease-1" (demo_instant + 30 * 1000000))).
Proof.
  destruct demo_issued as (dg & r & e & G).
  pose proof (lease_enabled_if _ _ _ "lease-1" 30 demo_now demo_instant G eq_refl eq_refl
    ltac:(lia) eq_refl eq_refl eq_refl eq_refl) as Hok.
  destruct (lease_transition _ _ _ _ _) as [[r' e']|] eqn:Ht; [|done].
  destruct (lease_transition_good _ _ _ _ _ _ _ _ _ G Ht)
    as (_ & s & n & i & [= <-] & [= <-] & [= <-] & _ & j & _ & _ & G').
  exists dg, r'. eauto.
Qed.

(** ** The file store *)

(** C16: every call on a state file that stands for a registry either changes
    the registry as the abstract specification of that call allows, and returns
    the record of the new state, or raises and leaves the file untouched. *)
Theorem file_store_refines path f m now c :
  file_represents f m →
  match file_call path f now c with
  | (Ok v, f') => ∃ m', call_ok now m c v m' ∧ file_represents f' m'
  | (Err _, f') => f' = f
  end.
Proof.
  intros Hf. destruct (file_call path f now c) as [[v|e] f'] eqn:Hc.
  - by eapply file_call_ok.
  - by eapply file_call_err.
Qed.

Lemma file_store_refines_witness :
  file_represents no_file ∅ ∧
  match file_call "p" no_file demo_now (ReadForReconciliation (VStr "a")) with
  | (Ok v, f') => ∃ m', call_ok demo_now ∅ (ReadForReconciliation (VStr "a")) v m' ∧ file_represents f' m'
  | (Err _, f') => f' = no_file
  end.
Proof. split; [apply file_init_ok|]. apply (file_store_refines "p" no_file ∅). apply file_init_ok. Defined.

(** Whatever the calls, their arguments and the clock readings, an
    authority is dispatched at most once. *)
Theorem file_store_dispatches_once path (cs : trace) id :
  (successes (dispatches_of id) (run (H := file_store path) no_file cs).1 <= 1)%nat.
Proof. eapply run_dispatch_once, (store_init_ok (AuthorityStore := file_store path)). Qed.

(** An authority gets at most one terminal outcome. *)
Theorem file_store_completes_once path (cs : trace) id :
  (successes (completions_of id) (run (H := file_store path) no_file cs).1 <= 1)%nat.
Proof. eapply run_complete_once, (store_init_ok (AuthorityStore := file_store path)). Qed.

(** Of all the transitions of an authority that expect the same version,
    at most one succeeds: concurrent holders of a version cannot both win. *)
Theorem file_store_one_winner path (cs : trace) id version :
  (successes (swaps_of id version) (run (H := file_store path) no_file cs).1 <= 1)%nat.
Proof. eapply run_swap_once, (store_init_ok (AuthorityStore := file_store path)). Qed.

(** After any calls, reading an authority for reconciliation succeeds: the
    stored receipts always form a valid chain for the stored record. *)
Theorem file_store_reconciles path (cs : trace) id now :
  is_ok (file_call path (run (H := file_store path) no_file cs).2 now
           (ReadForReconciliation (VStr id))).1 = true.
Proof.
  destruct (run_represents (H := file_store path) cs no_file ∅ file_init_ok) as [m Hm].
  by eapply file_read_ok.
Qed.

(** ** The transitions *)

(** A dispatch is accepted exactly when the record is leased, the caller
    names its current version and its lease, and the lease has not expired. *)
Theorem dispatch_allowed_iff r evs a ev lid now :
  good r evs a →
  (∀ s e, a_life a = Leased s e → in_range e = true ∧ required_text (VStr s) "lease_id" = Ok ()) →
  is_ok (dispatch_transition r ev lid now) = true ↔
  ∃ s e i, a_life a = Leased s e ∧ ev = VInt (a_version a) ∧ lid = VStr s
    ∧ dt_instant now = Some i ∧ in_range i = true ∧ i <= e.
Proof.
  intros G Hwf. split.
  - destruct (dispatch_transition r ev lid now) as [[r' e']|] eqn:Ht; [|done]. intros _.
    destruct (dispatch_transition_good _ _ _ _ _ _ _ _ G Ht) as (Hev & s & Hs & i & Hi & Hl & _).
    inversion Hl as [| |s' e Hie Hs'| |]; subst. exists s, e, i. repeat split; try done.
    unfold dispatch_transition in Ht. res_inv Ht. apply format_time_Ok in Hx2 as (i' & Hi' & Hr & _).
    by simplify_eq.
  - intros (s & e & i & Hl & -> & -> & Hi & Hr & Hie). destruct (Hwf s e Hl) as [Hre Htext].
    by eapply dispatch_enabled_if.
Qed.

Lemma dispatch_allowed_iff_witness :
  ∃ r evs a, good r evs a ∧
    (is_ok (dispatch_transition r (VInt 2) (VStr "lease-1") demo_now) = true ↔
     ∃ s e i, a_life a = Leased s e ∧ VInt 2 = VInt (a_version a) ∧ VStr "lease-1" = VStr s
       ∧ dt_instant demo_now = Some i ∧ in_range i = true ∧ i <= e).
Proof.
  destruct demo_leased as (dg & r & evs & G). exists r, evs. eexists. split; [exact G|].
  apply (dispatch_allowed_iff _ _ _ _ _ _ G). intros s e [= <- <-]. by split.
Defined.
