(* ===== verification/SchemaValidation.v ===== *)
(** * Contract schemas

    [src/shared/mesh_runtime/schema_validation.py]: the subset of JSON Schema
    the runtime enforces on its packets.  A schema is the value its JSON file
    parses to. *)

From S2P Require Import Prelude PyFloat PyValue PyNumbers Json.

(** [_matches_type] *)
Definition matches_type (v schema_type : value) : bool :=
  if is_string "null" schema_type then is_none v
  else if is_string "string" schema_type then is_str v
  else if is_string "number" schema_type then
    match v with VInt _ | VFloat _ => true | _ => false end
  else if is_string "integer" schema_type then
    match v with VInt _ => true | _ => false end
  else if is_string "boolean" schema_type then
    match v with VBool _ => true | _ => false end
  else if is_string "object" schema_type then is_dict v
  else if is_string "array" schema_type then is_list v
  else true.

Definition no_attribute (v : value) (name : string) : string :=
  repr_str (type_name v) +:+ " object has no attribute " +:+ repr_str name.

(** [v in l] for a Python list *)
Definition in_list (v : value) (l : list value) : bool := existsb (py_eq v) l.

(** [schema.get("type") == name or (isinstance(schema.get("type"), list) and
    name in schema\["type"\] and right_shape)] *)
Definition typed_as (name : string) (schema : dict) (right_shape : bool) : bool :=
  let t := dgetN "type" schema in
  is_string name t
  || match t with VList l => in_list (VStr name) l && right_shape | _ => false end.

(** The enumeration test of [_validate_node]. *)
Definition check_enum (v : value) (schema : dict) (path : string) : res unit :=
  match dget "enum" schema with
  | None => Ok ()
  | Some (VList allowed) =>
      raise_if negb (in_list v allowed)
        with SchemaValidationError
          (path +:+ ": " +:+ py_repr v +:+ " not in enum " +:+ py_repr (VList allowed));
      Ok ()
  | Some _ => raise TypeError "argument of type is not a container"
  end.

(** The type test of [_validate_node]. *)
Definition check_type (v : value) (schema : dict) (path : string) : res unit :=
  match dget "type" schema with
  | None => Ok ()
  | Some t =>
      let allowed_types := match t with VList l => l | _ => [t] end in
      raise_if negb (existsb (matches_type v) allowed_types)
        with SchemaValidationError
          (path +:+ ": expected type " +:+ py_repr (VList allowed_types)
           +:+ ", got " +:+ type_name v);
      Ok ()
  end.

(** [for field_name in required: if field_name not in value: raise] *)
Definition check_required (v : dict) (schema : dict) (path : string) : res unit :=
  match dget_or "required" (VList []) schema with
  | VList required =>
      res_iter (λ field_name,
        let present := match field_name with VStr k => dhas k v | _ => false end in
        raise_if negb present
          with SchemaValidationError (path +:+ ": missing required field " +:+ py_repr field_name);
        Ok ())
        required
  | other => raise TypeError (repr_str (type_name other) +:+ " object is not iterable")
  end.

(** The sorted names of the fields that [properties] does not list. *)
Definition extra_keys (v properties : dict) : list string :=
  map fst (sort_keys (List.filter (λ kv, negb (dhas kv.1 properties)) v)).

Definition check_extra (v : dict) (schema properties : dict) (path : string) : res unit :=
  if is_false (dgetN "additionalProperties" schema) then
    match extra_keys v properties with
    | [] => Ok ()
    | keys => raise SchemaValidationError
                (path +:+ ": unexpected fields " +:+ py_repr (VList (map VStr keys)))
    end
  else Ok ().

Definition schema_properties (schema : dict) : res dict :=
  match dget_or "properties" (VDict []) schema with
  | VDict p => Ok p
  | other => raise AttributeError (no_attribute other "get")
  end.

Definition check_min_items (l : list value) (schema : dict) (path : string) : res unit :=
  match dgetN "minItems" schema with
  | VNone => Ok ()
  | VInt n =>
      raise_if Z.of_nat (length l) <? n
        with SchemaValidationError
          (path +:+ ": expected at least " +:+ str_of_Z n +:+ " items, got "
           +:+ str_of_Z (Z.of_nat (length l)));
      Ok ()
  | _ => raise TypeError "'<' not supported between these instances"
  end.

Section loops.
(** [_validate_node], which the two loops call back. *)
Variable node : value → value → string → res unit.

(** The loop over [value.items()]. *)
Fixpoint validate_fields (properties : dict) (path : string) (l : dict) : res unit :=
  match l with
  | [] => Ok ()
  | (field_name, field_value) :: l' =>
      _ ← match dgetN field_name properties with
          | VNone => Ok ()
          | property_schema => node field_value property_schema (path +:+ "." +:+ field_name)
          end;
      validate_fields properties path l'
  end.

(** [_validate_object] *)
Definition validate_object (v : dict) (schema : dict) (path : string) : res unit :=
  _ ← check_required v schema path;
  properties ← schema_properties schema;
  _ ← check_extra v schema properties path;
  validate_fields properties path v.

(** The loop over [enumerate(value)]. *)
Fixpoint validate_items (item_schema : value) (path : string) (index : nat) (l : list value)
    : res unit :=
  match l with
  | [] => Ok ()
  | item :: l' =>
      _ ← node item item_schema (path +:+ "[" +:+ str_of_Z (Z.of_nat index) +:+ "]");
      validate_items item_schema path (S index) l'
  end.

(** [_validate_array] *)
Definition validate_array (v : list value) (schema : dict) (path : string) : res unit :=
  _ ← check_min_items v schema path;
  match dgetN "items" schema with
  | VNone => Ok ()
  | item_schema => validate_items item_schema path O v
  end.
End loops.

(** [_validate_node] *)
Fixpoint validate_node (v : value) (schema : value) (path : string) {struct v} : res unit :=
  match schema with
  | VDict schema =>
      _ ← check_enum v schema path;
      _ ← check_type v schema path;
      if is_none v then Ok ()
      else if typed_as "object" schema (is_dict v) then
        match v with
        | VDict fields => validate_object validate_node fields schema path
        | _ => raise TypeError "value of type object is not a dictionary"
        end
      else if typed_as "array" schema (is_list v) then
        match v with
        | VList items => validate_array validate_node items schema path
        | _ => raise TypeError "value of type array is not a list"
        end
      else Ok ()
  | _ => raise TypeError "argument of type is not iterable"
  end.

(** [validate_payload], given the contents of the schema file. *)
Definition validate_payload (schema : value) (payload : dict) : res unit :=
  validate_node (VDict payload) schema "$".

(** ** Conformance to what is enforced

    What it means for a value to satisfy the keywords the validator reads, on
    the containers whose schema names their type; without paths, order or
    exceptions.  What the whole schema asks is [satisfies], below. *)

Definition schema_fields (s : dict) : dict := dict_or_empty (dget_or "properties" (VDict []) s).

Definition schema_list (key : string) (s : dict) : list value :=
  default [] (as_list (dget_or key (VList []) s)).

Definition enum_ok (v : value) (s : dict) : Prop :=
  dhas "enum" s = true → in_list v (schema_list "enum" s) = true.

Definition type_ok (v : value) (s : dict) : Prop :=
  ∀ t, dget "type" s = Some t →
  existsb (matches_type v) (match t with VList l => l | _ => [t] end) = true.

#[warnings="-register-all"]
Inductive conforms : value → value → Prop :=
  | Conforms v s :
      enum_ok v s → type_ok v s →
      (∀ fields, v = VDict fields → typed_as "object" s true = true →
         Forall (λ k, ∃ n, k = VStr n ∧ dhas n fields = true) (schema_list "required" s) ∧
         (is_false (dgetN "additionalProperties" s) = true →
            Forall (λ kv, dhas kv.1 (schema_fields s) = true) fields) ∧
         (∀ k x p, (k, x) ∈ fields → dget k (schema_fields s) = Some p → conforms x p)) →
      (∀ items, v = VList items → typed_as "array" s true = true →
         (∀ n, dgetN "minItems" s = VInt n → n <= Z.of_nat (length items)) ∧
         (∀ x p, x ∈ items → dget "items" s = Some p → conforms x p)) →
      conforms v (VDict s).

(** A schema of the shape every contract file has. *)
Definition keyword_ok (key : string) (x : value) : bool :=
  if String.eqb key "enum" then is_list x
  else if String.eqb key "type" then is_str x || match x with VList l => forallb is_str l | _ => false end
  else if String.eqb key "required" then match x with VList l => forallb is_str l | _ => false end
  else if String.eqb key "minItems" then match x with VInt _ => true | _ => false end
  else true.

Fixpoint schema_wf (s : value) : bool :=
  match s with
  | VDict d =>
      (fix go (d : dict) : bool :=
         match d with
         | [] => true
         | (k, x) :: d' =>
             keyword_ok k x
             && (if String.eqb k "properties" then
                   match x with
                   | VDict ps =>
                       (fix all (ps : dict) : bool :=
                          match ps with [] => true | (_, p) :: ps' => schema_wf p && all ps' end) ps
                   | _ => false
                   end
                 else if String.eqb k "items" then schema_wf x else true)
             && go d'
         end) d
  | _ => false
  end.

Lemma schema_wf_dict s : schema_wf s = true → ∃ d, s = VDict d.
Proof. destruct s; try done. eauto. Qed.

Lemma schema_wf_member d k x :
  schema_wf (VDict d) = true → dget k d = Some x →
  keyword_ok k x = true
  ∧ (k = "items" → schema_wf x = true)
  ∧ (k = "properties" → ∃ ps, x = VDict ps ∧ ∀ n p, dget n ps = Some p → schema_wf p = true).
Proof.
  intros Hwf Hx. cbn [schema_wf] in Hwf. induction d as [|[k' y] d IH]; [done|].
  apply andb_true_iff in Hwf as [[Hk Hsub]%andb_true_iff Hwf]. cbn [dget] in Hx.
  destruct (String.eqb_spec k k') as [->|]; [|by apply IH]. injection Hx as ->.
  split; [done|]. split; [by intros ->|]. intros ->. cbn [String.eqb Ascii.eqb Bool.eqb] in Hsub.
  destruct x as [| | | | | |ps]; try done. exists ps. split; [done|].
  clear -Hsub. induction ps as [|[m q] ps IH]; [done|]. cbn [dget].
  apply andb_true_iff in Hsub as [Hq Hsub]. intros n p.
  destruct (String.eqb n m); [by intros [= ->]|by apply IH].
Qed.

(** A check decides a proposition: it raises the validation error exactly when
    the proposition is false. *)
Definition decides (m : res unit) (P : Prop) : Prop :=
  match m with
  | Ok _ => P
  | Err e => exc_cls e = SchemaValidationError ∧ ¬ P
  end.

Lemma decides_iff m P Q : decides m P → (P ↔ Q) → decides m Q.
Proof. unfold decides. destruct m; tauto. Qed.

Lemma decides_bind m k P Q : decides m P → (P → decides k Q) → decides (_ ← m; k) (P ∧ Q).
Proof.
  unfold decides. destruct m as [[]|e]; simpl; [|tauto].
  intros HP Hk. specialize (Hk HP). destruct k; tauto.
Qed.

Lemma decides_if (b : bool) msg P :
  (b = false ↔ P) → decides (if b then raise SchemaValidationError msg else Ok ()) P.
Proof. intros HP. destruct b; simpl; [|tauto]. split; [done|]. intros H. by apply HP in H. Qed.

Lemma decides_iter {A} (f : A → res unit) (P : A → Prop) l :
  Forall (λ x, decides (f x) (P x)) l → decides (res_iter f l) (Forall P l).
Proof.
  induction 1 as [|x l Hx _ IH]; simpl; [constructor|].
  eapply decides_iff; [by apply decides_bind|]. by rewrite Forall_cons.
Qed.

Section checks.
Variable d : dict.
Hypothesis Hwf : schema_wf (VDict d) = true.

Lemma schema_list_Some key x :
  dget key d = Some x → is_list x = true → x = VList (schema_list key d).
Proof. unfold schema_list, dget_or. intros ->. by destruct x. Qed.

Lemma check_enum_decides v path : decides (check_enum v d path) (enum_ok v d).
Proof.
  unfold check_enum, enum_ok, dhas. destruct (dget "enum" d) as [x|] eqn:E; [|done].
  destruct (schema_wf_member _ _ _ Hwf E) as [Hk _].
  rewrite (schema_list_Some _ _ E Hk). apply decides_if. rewrite negb_false_iff. tauto.
Qed.

Lemma check_type_decides v path : decides (check_type v d path) (type_ok v d).
Proof.
  unfold check_type, type_ok. destruct (dget "type" d) as [t|]; [|by intros].
  apply decides_if. rewrite negb_false_iff. split; [by intros ? ? [= <-]|by intros H; apply H].
Qed.

Lemma check_required_decides v path :
  decides (check_required v d path)
    (Forall (λ k, ∃ n, k = VStr n ∧ dhas n v = true) (schema_list "required" d)).
Proof.
  unfold check_required. destruct (dget "required" d) as [x|] eqn:E.
  - destruct (schema_wf_member _ _ _ Hwf E) as [Hk _]. cbn in Hk.
    assert (dget_or "required" (VList []) d = VList (schema_list "required" d)) as ->.
    { unfold dget_or. rewrite E. apply schema_list_Some; [done|]. by destruct x. }
    apply decides_iter, Forall_forall. intros k _. apply decides_if. rewrite negb_false_iff.
    destruct k; try (split; [done|by intros (n & ? & _)]). split; [eauto|by intros (n & [= ->] & ?)].
  - unfold dget_or, schema_list, dget_or. rewrite E. constructor.
Qed.

Lemma extra_keys_nil v ps : extra_keys v ps = [] ↔ Forall (λ kv, dhas kv.1 ps = true) v.
Proof.
  unfold extra_keys. assert (∀ l : dict, map fst (sort_keys l) = [] ↔ l = []) as Hs.
  { intros l. split; [|by intros ->]. intros H. apply map_eq_nil in H.
    apply length_zero_iff_nil. rewrite <- (length_sort_keys l). by rewrite H. }
  rewrite Hs. induction v as [|[k x] v IH]; simpl; [split; constructor|].
  rewrite Forall_cons. simpl. destruct (dhas k ps); simpl; [tauto|]. split; [done|by intros [? _]].
Qed.

Lemma check_extra_decides v path :
  decides (check_extra v d (schema_fields d) path)
    (is_false (dgetN "additionalProperties" d) = true →
       Forall (λ kv, dhas kv.1 (schema_fields d) = true) v).
Proof.
  unfold check_extra. destruct (is_false _); [|done].
  destruct (extra_keys v (schema_fields d)) as [|k ks] eqn:E; simpl.
  - intros _. by apply extra_keys_nil.
  - split; [done|]. intros H. specialize (H eq_refl). apply extra_keys_nil in H. congruence.
Qed.

Lemma schema_properties_eq : schema_properties d = Ok (schema_fields d).
Proof.
  unfold schema_properties, schema_fields. destruct (dget "properties" d) as [x|] eqn:E.
  - destruct (schema_wf_member _ _ _ Hwf E) as (_ & _ & Hp).
    destruct (Hp eq_refl) as (ps & -> & _). unfold dget_or. by rewrite E.
  - unfold dget_or. by rewrite E.
Qed.

Lemma schema_fields_wf n p : dget n (schema_fields d) = Some p → schema_wf p = true.
Proof.
  unfold schema_fields, dget_or. destruct (dget "properties" d) as [x|] eqn:E; [|done].
  destruct (schema_wf_member _ _ _ Hwf E) as (_ & _ & Hp).
  destruct (Hp eq_refl) as (ps & -> & Hps). apply Hps.
Qed.

Lemma check_min_items_decides l path :
  decides (check_min_items l d path) (∀ n, dgetN "minItems" d = VInt n → n <= Z.of_nat (length l)).
Proof.
  unfold check_min_items, dgetN. destruct (dget "minItems" d) as [x|] eqn:E; [|done].
  destruct (schema_wf_member _ _ _ Hwf E) as [Hk _]. destruct x as [| |n| | | |]; try done.
  apply decides_if. rewrite Z.ltb_ge. split; [by intros ? ? [= <-]|by intros H; apply H].
Qed.

Lemma validate_fields_decides path l :
  Forall (λ kv, ∀ s p, schema_wf s = true → decides (validate_node kv.2 s p) (conforms kv.2 s)) l →
  decides (validate_fields validate_node (schema_fields d) path l)
    (∀ k x p, (k, x) ∈ l → dget k (schema_fields d) = Some p → conforms x p).
Proof.
  induction 1 as [|[k x] l Hx _ IH]; simpl; [by intros ? ? ? ?%elem_of_nil|].
  eapply decides_iff; [apply (decides_bind _ _ (∀ p, dget k (schema_fields d) = Some p → conforms x p))|].
  - unfold dgetN. destruct (dget k (schema_fields d)) as [p|] eqn:E; [|done].
    pose proof (schema_fields_wf _ _ E) as Hp. simpl.
    destruct (schema_wf_dict _ Hp) as [q ->]. eapply decides_iff; [by apply Hx|].
    split; [by intros ? ? [= <-]|by intros H; apply H].
  - by intros _.
  - split.
    + intros [H1 H2] k' x' p [[= -> ->]|Hin]%elem_of_cons Hp; eauto.
    + intros H. split; [intros p Hp|intros k' x' p Hin Hp];
        (eapply H; [apply elem_of_cons|done]); [by left|by right].
Qed.

Lemma validate_items_decides path item_schema l : ∀ index,
  schema_wf item_schema = true →
  Forall (λ x, ∀ s p, schema_wf s = true → decides (validate_node x s p) (conforms x s)) l →
  decides (validate_items validate_node item_schema path index l)
    (∀ x, x ∈ l → conforms x item_schema).
Proof.
  induction l as [|x l IH]; intros index Hs Hl; simpl; [by intros ? ?%elem_of_nil|].
  apply Forall_cons in Hl as [Hx Hl].
  eapply decides_iff; [by apply decides_bind; [apply Hx|intros _; apply IH]|].
  split; [intros [H1 H2] y [->|Hin]%elem_of_cons; auto|].
  intros H. split; [|intros y Hy]; apply H, elem_of_cons; [by left|by right].
Qed.
End checks.

Lemma typed_as_right name d b : typed_as name d b = true → typed_as name d true = true.
Proof.
  unfold typed_as. destruct (is_string name _); [done|]. destruct (dgetN "type" d); try done.
  simpl. rewrite !andb_true_r. destruct (in_list _ _); [done|]. by destruct b.
Qed.

(** Once the type test has passed, a value typed by the name of a container is
    that container. *)
Lemma typed_as_object v d :
  type_ok v d → typed_as "object" d (is_dict v) = true → is_dict v = true.
Proof.
  unfold typed_as, type_ok, dgetN. intros Ht. destruct (dget "type" d) as [t|]; [|done].
  specialize (Ht t eq_refl). simpl. intros [Hs|Hl]%orb_true_iff.
  - apply is_string_true in Hs as ->. cbn in Ht. by rewrite orb_false_r in Ht.
  - destruct t; try done. by apply andb_true_iff in Hl as [_ ?].
Qed.

Lemma typed_as_array v d :
  type_ok v d → typed_as "array" d (is_list v) = true → is_list v = true.
Proof.
  unfold typed_as, type_ok, dgetN. intros Ht. destruct (dget "type" d) as [t|]; [|done].
  specialize (Ht t eq_refl). simpl. intros [Hs|Hl]%orb_true_iff.
  - apply is_string_true in Hs as ->. cbn in Ht. by rewrite orb_false_r in Ht.
  - destruct t; try done. by apply andb_true_iff in Hl as [_ ?].
Qed.

(** The container part of [conforms]. *)
Definition object_ok (d fields : dict) : Prop :=
  typed_as "object" d true = true →
  Forall (λ k, ∃ n, k = VStr n ∧ dhas n fields = true) (schema_list "required" d) ∧
  (is_false (dgetN "additionalProperties" d) = true →
     Forall (λ kv, dhas kv.1 (schema_fields d) = true) fields) ∧
  (∀ k x p, (k, x) ∈ fields → dget k (schema_fields d) = Some p → conforms x p).

Definition array_ok (d : dict) (items : list value) : Prop :=
  typed_as "array" d true = true →
  (∀ n, dgetN "minItems" d = VInt n → n <= Z.of_nat (length items)) ∧
  (∀ x p, x ∈ items → dget "items" d = Some p → conforms x p).

Definition shape_ok (v : value) (d : dict) : Prop :=
  match v with VDict fields => object_ok d fields | VList items => array_ok d items | _ => True end.

Lemma conforms_inv v d :
  conforms v (VDict d) ↔ enum_ok v d ∧ type_ok v d ∧ shape_ok v d.
Proof.
  split.
  - inversion 1 as [v' d' H1 H2 H3 H4]; subst. split; [done|]. split; [done|].
    destruct v; try done; unfold shape_ok, array_ok, object_ok; eauto.
  - intros (H1 & H2 & H3). constructor; try done; intros ? ->; apply H3.
Qed.

(** The part of [validate_node] after the enumeration and the type test. *)
Definition validate_shape (v : value) (d : dict) (path : string) : res unit :=
  if is_none v then Ok ()
  else if typed_as "object" d (is_dict v) then
    match v with
    | VDict fields => validate_object validate_node fields d path
    | _ => raise TypeError "value of type object is not a dictionary"
    end
  else if typed_as "array" d (is_list v) then
    match v with
    | VList items => validate_array validate_node items d path
    | _ => raise TypeError "value of type array is not a list"
    end
  else Ok ().

Lemma validate_node_split v d path :
  validate_node v (VDict d) path
  = (_ ← check_enum v d path; _ ← check_type v d path; validate_shape v d path).
Proof. by destruct v. Qed.

Definition container_free (v : value) : bool :=
  match v with VList _ | VDict _ => false | _ => true end.

Lemma validate_shape_scalar v d path :
  container_free v = true → type_ok v d → validate_shape v d path = Ok ().
Proof.
  intros Hv Ht. unfold validate_shape. destruct (is_none v); [done|].
  destruct (typed_as "object" d _) eqn:E1; [apply typed_as_object in E1; [by destruct v|done]|].
  destruct (typed_as "array" d _) eqn:E2; [apply typed_as_array in E2; [by destruct v|done]|done].
Qed.

Definition node_decides (v : value) : Prop := ∀ s path,
  schema_wf s = true → decides (validate_node v s path) (conforms v s).

Lemma validate_object_decides d fields path :
  schema_wf (VDict d) = true → type_ok (VDict fields) d →
  Forall (λ kv, node_decides kv.2) fields →
  decides (validate_shape (VDict fields) d path) (object_ok d fields).
Proof.
  intros Hwf Ht IH. unfold validate_shape. cbn [is_none is_dict is_list]. unfold object_ok.
  destruct (typed_as "object" d true).
  - unfold validate_object. rewrite (schema_properties_eq _ Hwf).
    eapply decides_iff; [apply decides_bind; [by apply check_required_decides|intros _];
      cbn [mbind res_bind]; apply decides_bind; [by apply check_extra_decides|intros _];
      by apply validate_fields_decides|tauto].
  - destruct (typed_as "array" d false) eqn:E; [|done].
    by pose proof (typed_as_array (VDict fields) _ Ht E).
Qed.

Lemma validate_array_decides d items path :
  schema_wf (VDict d) = true → type_ok (VList items) d →
  Forall node_decides items →
  decides (validate_shape (VList items) d path) (array_ok d items).
Proof.
  intros Hwf Ht IH. unfold validate_shape. cbn [is_none is_dict is_list]. unfold array_ok.
  destruct (typed_as "object" d false) eqn:E;
    [by pose proof (typed_as_object (VList items) _ Ht E)|].
  destruct (typed_as "array" d true); [|done]. unfold validate_array.
  apply decides_iff with (P := (∀ n, dgetN "minItems" d = VInt n → n <= Z.of_nat (length items)) ∧
    (∀ x p, x ∈ items → dget "items" d = Some p → conforms x p)); [|tauto].
  apply decides_bind; [by apply check_min_items_decides|intros _].
  unfold dgetN. destruct (dget "items" d) as [p|] eqn:Hp; [|done].
  destruct (schema_wf_member _ _ _ Hwf Hp) as (_ & Hi & _). specialize (Hi eq_refl).
  destruct (schema_wf_dict _ Hi) as [q ->].
  eapply decides_iff; [by apply validate_items_decides|].
  split; [by intros H x p Hx [= <-]; apply H|by intros H x Hx; apply H].
Qed.

(** Validation decides conformance. *)
Lemma validate_node_decides v : node_decides v.
Proof.
  assert (∀ w, (∀ d path, schema_wf (VDict d) = true → type_ok w d →
    decides (validate_shape w d path) (shape_ok w d)) → node_decides w) as Hstep.
  { intros w Hw sch path Hwf. destruct (schema_wf_dict _ Hwf) as [d ->].
    rewrite validate_node_split. eapply decides_iff; [|symmetry; apply conforms_inv].
    apply decides_bind; [by apply check_enum_decides|intros _].
    apply decides_bind; [by apply check_type_decides|intros Ht]. by apply Hw. }
  induction v as [| | | | |l IH|fields IH] using value_deep_ind; apply Hstep; intros d path Hwf Ht.
  1-5: by rewrite validate_shape_scalar.
  - by apply validate_array_decides.
  - by apply validate_object_decides.
Qed.

(** ** JSON Schema

    What a schema file asks of a value, with the keywords the validator does not
    read.  Type names are those of the validator: an integer is a number written
    as one. *)

(** Equality of JSON: as Python's, but a boolean is no number. *)
Fixpoint json_eq (a b : value) {struct a} : bool :=
  match a, b with
  | VBool x, VBool y => Bool.eqb x y
  | VBool _, _ | _, VBool _ => false
  | VList l, VList m =>
      (fix go l m : bool :=
         match l, m with
         | [], [] => true
         | x :: l', y :: m' => json_eq x y && go l' m'
         | _, _ => false
         end) l m
  | VDict d, VDict e =>
      Nat.eqb (length d) (length e)
      && (fix go d : bool :=
            match d with
            | [] => true
            | (k, x) :: d' => match dget k e with Some y => json_eq x y | None => false end && go d'
            end) d
  | _, _ => py_eq a b
  end.

Lemma json_eq_py_eq a : ∀ b, json_eq a b = true → py_eq a b = true.
Proof.
  induction a as [|x| | | |l IH|d IH] using value_deep_ind; intros b H; destruct b as [|y| | | |m|e]; try done.
  - by destruct x, y.
  - cbn [json_eq py_eq] in *. revert m H. induction IH as [|x l Hx _ IH]; intros [|y m] H; try done.
    apply andb_true_iff in H as [Hy H]. by rewrite (Hx _ Hy), (IH _ H).
  - cbn [json_eq py_eq] in *. apply andb_true_iff in H as [-> H]. cbn [andb].
    induction IH as [|[k x] d Hx _ IH]; [done|]. apply andb_true_iff in H as [Hy H]. cbn [snd] in Hx.
    destruct (dget k e) as [y|]; [|done]. by rewrite (Hx _ Hy), (IH H).
Qed.

Definition type_names : list string := ["null"; "string"; "number"; "integer"; "boolean"; "object"; "array"].
Definition annotations : list string := ["$schema"; "$id"; "$comment"; "$defs"; "title"; "description"; "default"; "examples"].
Definition enforced_keywords : list string :=
  ["type"; "enum"; "required"; "properties"; "additionalProperties"; "items"; "minItems"].

Definition has_type (v t : value) : Prop := str_in t type_names = true ∧ matches_type v t = true.

(** A number on the right side of a bound; what is no number is not compared. *)
Definition bounded_by (wrong : comparison) (v bound : value) : Prop :=
  matches_type v (VStr "number") = true → ∀ x y, num_of v = Some x → num_of bound = Some y → num_compare x y ≠ Some wrong.

Section json_schema.
(** What any other keyword ([pattern], [format], [$ref], [anyOf], ...) with its
    argument asks of a value. *)
Context (other : string → value → value → Prop).

Definition assertion_ok (k : string) (x v : value) : Prop :=
  if String.eqb k "enum" then ∃ l y, x = VList l ∧ y ∈ l ∧ json_eq v y = true
  else if String.eqb k "const" then json_eq v x = true
  else if String.eqb k "minimum" then bounded_by Lt v x
  else if String.eqb k "maximum" then bounded_by Gt v x
  else if mem_str k annotations || mem_str k enforced_keywords then True
  else other k x v.

(** The value satisfies the schema, every keyword of it. *)
Inductive satisfies : value → value → Prop :=
  | Satisfies v s :
      (∀ t, dget "type" s = Some t → Exists (has_type v) (match t with VList l => l | _ => [t] end)) →
      (∀ k x, dget k s = Some x → assertion_ok k x v) →
      (∀ fields, v = VDict fields → Forall (λ k, ∃ n, k = VStr n ∧ dhas n fields = true) (schema_list "required" s)) →
      (∀ fields, v = VDict fields → dget "additionalProperties" s = Some (VBool false) →
         Forall (λ kv, dhas kv.1 (schema_fields s) = true) fields) →
      (∀ fields k x p, v = VDict fields → (k, x) ∈ fields → dget k (schema_fields s) = Some p → satisfies x p) →
      (∀ fields k x p, v = VDict fields → (k, x) ∈ fields → dhas k (schema_fields s) = false →
         dget "additionalProperties" s = Some (VDict p) → satisfies x (VDict p)) →
      (∀ items n, v = VList items → dgetN "minItems" s = VInt n → n <= Z.of_nat (length items)) →
      (∀ items x p, v = VList items → x ∈ items → dget "items" s = Some p → satisfies x p) →
      satisfies v (VDict s).

Lemma satisfies_assertion v d k x : satisfies v (VDict d) → dget k d = Some x → assertion_ok k x v.
Proof. inversion 1; eauto. Qed.

Lemma satisfies_field fields d k x p :
  satisfies (VDict fields) (VDict d) → (k, x) ∈ fields → dget k (schema_fields d) = Some p → satisfies x p.
Proof. inversion 1; eauto. Qed.

Lemma has_type_matches v l : Exists (has_type v) l → existsb (matches_type v) l = true.
Proof. rewrite Exists_exists, existsb_exists. intros (t & Hin & _ & Ht). exists t. by rewrite <- list_elem_of_In. Qed.

(** What satisfies the schema satisfies what is enforced of it. *)
Lemma satisfies_conforms v s : satisfies v s → conforms v s.
Proof.
  induction 1 as [v s Ht Ha Hreq Hadd _ IHp _ _ Hmin _ IHi]. constructor.
  - unfold enum_ok, dhas. destruct (dget "enum" s) as [x|] eqn:E; [intros _|done].
    destruct (Ha _ _ E) as (l & y & -> & Hin & Hy). unfold schema_list, dget_or. rewrite E.
    apply existsb_exists. exists y. split; [by apply list_elem_of_In|by apply json_eq_py_eq].
  - intros t E. by apply has_type_matches, Ht.
  - intros fields -> _. split; [by apply Hreq|]. split; [|intros k x p; by apply IHp].
    intros Hf. apply Hadd; [done|]. unfold dgetN in Hf. by destruct (dget "additionalProperties" s) as [[| [] | | | | |]|].
  - intros items -> _. split; [by intros n; apply Hmin|]. intros x p. by apply IHi.
Qed.

(** The validator reads every keyword of the schema: those of containers come
    with the type, the type names are known, and enumerations are of strings. *)
Definition read_keyword (d : dict) (k : string) (x : value) : bool :=
  if mem_str k annotations then true
  else if String.eqb k "type" then forallb (λ t, str_in t type_names) (match x with VList l => l | _ => [x] end)
  else if String.eqb k "enum" then forallb is_str (default [] (as_list x))
  else if String.eqb k "additionalProperties" then typed_as "object" d true && match x with VBool _ => true | _ => false end
  else if String.eqb k "required" || String.eqb k "properties" then typed_as "object" d true
  else if String.eqb k "items" || String.eqb k "minItems" then typed_as "array" d true
  else false.

Fixpoint only_enforced (s : value) : bool :=
  match s with
  | VDict d =>
      (fix go (e : dict) : bool :=
         match e with
         | [] => true
         | (k, x) :: e' =>
             read_keyword d k x
             && (if String.eqb k "properties" then
                   match x with
                   | VDict ps => (fix all (ps : dict) : bool :=
                                    match ps with [] => true | (_, p) :: ps' => only_enforced p && all ps' end) ps
                   | _ => true
                   end
                 else if String.eqb k "items" then only_enforced x else true)
             && go e'
         end) d
  | _ => false
  end.

Lemma only_enforced_member d k x :
  only_enforced (VDict d) = true → dget k d = Some x →
  read_keyword d k x = true
  ∧ (k = "items" → only_enforced x = true)
  ∧ (k = "properties" → ∀ n p, dget n (dict_or_empty x) = Some p → only_enforced p = true).
Proof.
  cbn [only_enforced]. generalize d at 1 4. intros whole Hwf Hx. induction d as [|[k' y] d IH]; [done|].
  apply andb_true_iff in Hwf as [[Hk Hsub]%andb_true_iff Hwf]. cbn [dget] in Hx.
  destruct (String.eqb_spec k k') as [->|]; [|by apply IH]. injection Hx as ->.
  split; [done|]. split; [by intros ->|]. intros ->. cbn [String.eqb Ascii.eqb Bool.eqb] in Hsub.
  destruct x as [| | | | | |ps]; try done. change (dict_or_empty (VDict ps)) with ps.
  clear -Hsub. induction ps as [|[m q] ps IH]; [done|].
  apply andb_true_iff in Hsub as [Hq Hsub]. intros n p. cbn [dget].
  destruct (String.eqb n m); [by intros [= ->]|by apply IH].
Qed.

Section enforced_only.
Context (d : dict) (Henf : only_enforced (VDict d) = true).

Lemma enforced_fields n p : dget n (schema_fields d) = Some p → only_enforced p = true.
Proof.
  unfold schema_fields, dget_or. destruct (dget "properties" d) as [x|] eqn:E; [|done].
  by apply (only_enforced_member _ _ _ Henf E).
Qed.

Lemma enforced_type v t :
  dget "type" d = Some t → type_ok v d → Exists (has_type v) (match t with VList l => l | _ => [t] end).
Proof.
  intros E Ht. specialize (Ht _ E). destruct (only_enforced_member _ _ _ Henf E) as [Hk _].
  change (read_keyword d "type" t) with (forallb (λ t, str_in t type_names) (match t with VList l => l | _ => [t] end)) in Hk.
  rewrite forallb_forall in Hk. apply existsb_exists in Ht as (x & Hin & Hx). apply Exists_exists. exists x.
  rewrite list_elem_of_In. split; [done|]. split; [by apply Hk|done].
Qed.

Lemma enforced_assertion v k x : dget k d = Some x → enum_ok v d → assertion_ok k x v.
Proof.
  intros E He. destruct (only_enforced_member _ _ _ Henf E) as [Hk _]. unfold assertion_ok.
  destruct (String.eqb_spec k "enum") as [->|Hne].
  - assert (dhas "enum" d = true) as Hh by (unfold dhas; by rewrite E). specialize (He Hh).
    unfold schema_list, dget_or in He. rewrite E in He. cbn [default from_option id] in He.
    change (read_keyword d "enum" x) with (forallb is_str (default [] (as_list x))) in Hk.
    destruct x as [| | | | |l|]; try done. cbn [as_list default from_option id] in *.
    apply existsb_exists in He as (y & Hin & Hy). rewrite forallb_forall in Hk. specialize (Hk _ Hin).
    destruct y as [| | | |s| |]; try done. apply py_eq_str in Hy as ->. exists l, (VStr s).
    rewrite list_elem_of_In. split; [done|]. split; [done|]. apply String.eqb_refl.
  - unfold read_keyword in Hk.
    repeat match type of Hk with context [String.eqb k ?c] =>
      destruct (String.eqb_spec k c) as [->|?]; [exact I|] end.
    destruct (mem_str k annotations) eqn:Ea; [|done]. apply mem_str_elem in Ea.
    repeat (apply elem_of_cons in Ea as [->|Ea]; [exact I|]). by apply elem_of_nil in Ea.
Qed.

(** A keyword of objects is stated for objects only, and one of arrays for
    arrays. *)
Lemma enforced_object k :
  mem_str k ["required"; "properties"; "additionalProperties"] = true → dhas k d = true → typed_as "object" d true = true.
Proof.
  unfold dhas. intros Hk. destruct (dget k d) as [x|] eqn:E; [intros _|done].
  destruct (only_enforced_member _ _ _ Henf E) as [Hr _].
  apply mem_str_elem in Hk. repeat (apply elem_of_cons in Hk as [->|Hk]); [exact Hr|exact Hr| |by apply elem_of_nil in Hk].
  change (typed_as "object" d true && match x with VBool _ => true | _ => false end = true) in Hr.
  by apply andb_true_iff in Hr as [? _].
Qed.

Lemma enforced_array k : mem_str k ["items"; "minItems"] = true → dhas k d = true → typed_as "array" d true = true.
Proof.
  unfold dhas. intros Hk. destruct (dget k d) as [x|] eqn:E; [intros _|done].
  destruct (only_enforced_member _ _ _ Henf E) as [Hr _].
  apply mem_str_elem in Hk. repeat (apply elem_of_cons in Hk as [->|Hk]); [exact Hr|exact Hr|by apply elem_of_nil in Hk].
Qed.
End enforced_only.

(** When the validator reads every keyword, what it enforces is the schema. *)
Lemma conforms_satisfies v : ∀ s, only_enforced s = true → conforms v s → satisfies v s.
Proof.
  assert (∀ w schema, only_enforced schema = true → conforms w schema →
    ∃ d, schema = VDict d ∧ only_enforced (VDict d) = true ∧ shape_ok w d
      ∧ (∀ t, dget "type" d = Some t → Exists (has_type w) (match t with VList l => l | _ => [t] end))
      ∧ (∀ k x, dget k d = Some x → assertion_ok k x w)) as Hhead.
  { intros w schema Henf Hc. destruct schema as [| | | | | |d]; try discriminate Henf.
    apply conforms_inv in Hc as (He & Ht & Hs). exists d. split; [reflexivity|]. split; [exact Henf|]. split; [exact Hs|].
    split; [intros t E; exact (enforced_type d Henf w t E Ht)|intros k x E; exact (enforced_assertion d Henf w k x E He)]. }
  induction v as [| | | | |l IH|fields IH] using value_deep_ind; intros schema H1 H2;
    destruct (Hhead _ _ H1 H2) as (d & -> & Henf & Hs & Ht & Ha); clear H1 H2 Hhead;
    (constructor; [exact Ht|exact Ha|..]); clear Ht Ha; try (intros; discriminate); cbn [shape_ok] in Hs.
  - intros items n [= <-] Hn. destruct (Hs ltac:(apply (enforced_array _ Henf "minItems");
      [done|unfold dhas, dgetN in *; by destruct (dget "minItems" d)])) as [Hmin _]. by apply Hmin.
  - intros items x p [= <-] Hx Hp. destruct (Hs ltac:(apply (enforced_array _ Henf "items"); [done|unfold dhas; by rewrite Hp])) as [_ Hi].
    rewrite Forall_forall in IH. apply IH; [done| |by apply Hi]. by apply (only_enforced_member _ _ _ Henf Hp).
  - intros f [= <-]. destruct (dhas "required" d) eqn:E.
    + by apply (Hs (enforced_object _ Henf "required" eq_refl E)).
    + unfold schema_list, dget_or, dhas in *. destruct (dget "required" d); [done|constructor].
  - intros f [= <-] E. destruct (Hs ltac:(apply (enforced_object _ Henf "additionalProperties"); [done|unfold dhas; by rewrite E]))
      as (_ & Ha & _). apply Ha. unfold dgetN. by rewrite E.
  - intros f k x p [= <-] Hin Hp. assert (dhas "properties" d = true) as Hh.
    { unfold dhas. unfold schema_fields, dget_or in Hp. by destruct (dget "properties" d). }
    destruct (Hs ltac:(by apply (enforced_object _ Henf "properties"))) as (_ & _ & Hps).
    rewrite Forall_forall in IH. apply (IH (k, x)); [done| |by apply (Hps k)]. by apply (enforced_fields _ Henf k).
  - intros f k x p [= <-] _ _ E. destruct (only_enforced_member _ _ _ Henf E) as [Hk _].
    change (typed_as "object" d true && false = true) in Hk. by rewrite andb_false_r in Hk.
Qed.
(** ** The guarantee *)

(** C34: the validator reads the keywords type, enum, required, properties,
    additionalProperties, items and minItems, and no other.  For every schema
    whose keywords have the shape the language asks for, as the modelled contract
    files have, with const, minimum and maximum meaning what the language says and
    whatever the remaining keywords mean: a value that satisfies the whole schema
    is accepted; when the schema states only keywords that are read, in the way
    they are read, a value is accepted exactly if it satisfies the schema; in
    general it is accepted exactly if it conforms to what is enforced; and what is
    refused does not satisfy the schema and raises [SchemaValidationError], no
    other exception. *)
Theorem validate_node_correct v schema path :
  schema_wf schema = true →
  (satisfies v schema → validate_node v schema path = Ok ())
  ∧ (only_enforced schema = true → validate_node v schema path = Ok () → satisfies v schema)
  ∧ (validate_node v schema path = Ok () ↔ conforms v schema)
  ∧ ∀ e, validate_node v schema path = Err e → exc_cls e = SchemaValidationError ∧ ¬ satisfies v schema.
Proof.
  intros Hwf. pose proof (validate_node_decides v schema path Hwf) as H. unfold decides in H.
  assert (satisfies v schema → conforms v schema) as Hsat by apply satisfies_conforms.
  destruct (validate_node v schema path) as [[]|e].
  - split; [done|]. split; [by intros Henf _; apply conforms_satisfies|done].
  - destruct H as [He Hno]. split; [by intros Hs; destruct (Hno (Hsat Hs))|]. split; [done|]. split; [done|].
    intros e' [= <-]. split; [done|]. by intros Hs; destruct (Hno (Hsat Hs)).
Qed.
End json_schema.

Definition id_schema : value :=
  VDict [("type", VStr "object"); ("required", VList [VStr "id"]); ("additionalProperties", VBool false);
         ("properties", VDict [("id", VDict [("type", VStr "string"); ("enum", VList [VStr "x"; VStr "y"])])])].

Lemma validate_node_correct_witness :
  satisfies (λ _ _ _, False) (VDict [("id", VStr "x")]) id_schema
  ∧ ¬ satisfies (λ _ _ _, False) (VDict [("id", VStr "z")]) id_schema.
Proof.
  split.
  - apply (validate_node_correct (λ _ _ _, False) (VDict [("id", VStr "x")]) id_schema "$"); reflexivity.
  - destruct (validate_node (VDict [("id", VStr "z")]) id_schema "$") as [|e] eqn:E; [vm_compute in E; discriminate E|].
    destruct (validate_node_correct (λ _ _ _, False) (VDict [("id", VStr "z")]) id_schema "$" eq_refl) as (_ & _ & _ & Hno).
    exact (proj2 (Hno e E)).
Defined.

(** A constant and a bound are not read: a packet of another version, with a
    negative count, is accepted, though it does not satisfy its schema. *)
Theorem const_and_minimum_not_read :
  let schema := VDict [("type", VStr "object");
                       ("properties", VDict [("version", VDict [("const", VStr "v1"); ("type", VStr "string")]);
                                             ("count", VDict [("type", VStr "integer"); ("minimum", VInt 0)])])] in
  let packet := VDict [("version", VStr "v2"); ("count", VInt (-1))] in
  validate_node packet schema "$" = Ok () ∧ ∀ other, ¬ satisfies other packet schema.
Proof.
  split; [reflexivity|]. intros other H.
  assert (satisfies other (VStr "v2") (VDict [("const", VStr "v1"); ("type", VStr "string")])) as Hv
    by (eapply (satisfies_field _ _ _ "version" _ _ H); [left|reflexivity]).
  by pose proof (satisfies_assertion _ _ _ "const" _ Hv eq_refl).
Qed.
