(* ===== verification/Models.v ===== *)
(** * Control-plane data models

    The dataclasses of [src/shared/mesh_runtime/control_plane_models.py] and
    their dictionaries ([dataclasses.asdict], which keeps the field order). *)

From S2P Require Import Prelude PyFloat PyValue.

(** ** Values of the annotated types *)

Definition strs (l : list string) : value := VList (map VStr l).
Definition dicts (l : list dict) : value := VList (map VDict l).
Definition opt_str (s : option string) : value := match s with Some s => VStr s | None => VNone end.
Definition opt_dict (d : option dict) : value := match d with Some d => VDict d | None => VNone end.

(** ** [GoalRecord] *)

Record GoalRecord := {
  goal_goal_id : string;
  goal_title : string;
  goal_objective : string;
  goal_success_criteria : list string;
  goal_status : string;
  goal_created_at : string;
  goal_updated_at : string;
  goal_tags : list string;
  goal_note_path : option string }.

Definition goal_to_dict (x : GoalRecord) : dict :=
  [("goal_id", VStr (goal_goal_id x));
   ("title", VStr (goal_title x));
   ("objective", VStr (goal_objective x));
   ("success_criteria", strs (goal_success_criteria x));
   ("status", VStr (goal_status x));
   ("created_at", VStr (goal_created_at x));
   ("updated_at", VStr (goal_updated_at x));
   ("tags", strs (goal_tags x));
   ("note_path", opt_str (goal_note_path x))].

(** ** [RunEvent] *)

Record RunEvent := {
  ev_event_id : string;
  ev_run_id : string;
  ev_sequence : Z;
  ev_stage : string;
  ev_event_type : string;
  ev_recorded_at : string;
  ev_payload : dict;
  ev_summary : option dict;
  ev_merkle_leaf_hash : option string;
  ev_artifact_key : option string;
  ev_integration_name : option string;
  ev_status : option string }.

Definition ev_to_dict (x : RunEvent) : dict :=
  [("event_id", VStr (ev_event_id x));
   ("run_id", VStr (ev_run_id x));
   ("sequence", VInt (ev_sequence x));
   ("stage", VStr (ev_stage x));
   ("event_type", VStr (ev_event_type x));
   ("recorded_at", VStr (ev_recorded_at x));
   ("payload", VDict (ev_payload x));
   ("summary", opt_dict (ev_summary x));
   ("merkle_leaf_hash", opt_str (ev_merkle_leaf_hash x));
   ("artifact_key", opt_str (ev_artifact_key x));
   ("integration_name", opt_str (ev_integration_name x));
   ("status", opt_str (ev_status x))].

(** ** [RunSession] *)

Record RunSession := {
  rs_run_id : string;
  rs_created_at : string;
  rs_updated_at : string;
  rs_goal_id : option string;
  rs_scenario_key : option string;
  rs_stage : string;
  rs_status : string;
  rs_steering_mode : string;
  rs_auto_mode : bool;
  rs_pause_points : list string;
  rs_pending_pause_stage : option string;
  rs_evaluation_mode : string;
  rs_orchestration_mode : string;
  rs_latest_event_id : option string;
  rs_latest_event_sequence : Z;
  rs_latest_merkle_root : option string;
  rs_operator_notes : list string;
  rs_artifacts : dict;
  rs_error : option string }.

(** [RunSession.to_dict], which the class overrides. *)
Definition rs_to_dict (x : RunSession) : dict :=
  [("run_id", VStr (rs_run_id x));
   ("created_at", VStr (rs_created_at x));
   ("updated_at", VStr (rs_updated_at x));
   ("goal_id", opt_str (rs_goal_id x));
   ("scenario_key", opt_str (rs_scenario_key x));
   ("stage", VStr (rs_stage x));
   ("status", VStr (rs_status x));
   ("steering_mode", VStr (rs_steering_mode x));
   ("auto_mode", VBool (rs_auto_mode x));
   ("pause_points", strs (rs_pause_points x));
   ("pending_pause_stage", opt_str (rs_pending_pause_stage x));
   ("evaluation_mode", VStr (rs_evaluation_mode x));
   ("orchestration_mode", VStr (rs_orchestration_mode x));
   ("latest_event_id", opt_str (rs_latest_event_id x));
   ("latest_event_sequence", VInt (rs_latest_event_sequence x));
   ("latest_merkle_root", opt_str (rs_latest_merkle_root x));
   ("operator_notes", strs (rs_operator_notes x));
   ("artifacts", VDict (rs_artifacts x));
   ("error", opt_str (rs_error x))].

(** ** [SteeringCommand] *)

Record SteeringCommand := {
  cmd_command_id : string;
  cmd_run_id : string;
  cmd_command_type : string;
  cmd_issued_at : string;
  cmd_payload : dict }.

Definition cmd_to_dict (x : SteeringCommand) : dict :=
  [("command_id", VStr (cmd_command_id x));
   ("run_id", VStr (cmd_run_id x));
   ("command_type", VStr (cmd_command_type x));
   ("issued_at", VStr (cmd_issued_at x));
   ("payload", VDict (cmd_payload x))].

(** ** [AgentAttemptThreadEvent] *)

Record AgentAttemptThreadEvent := {
  te_event_id : string;
  te_thread_id : string;
  te_sequence : Z;
  te_event_type : string;
  te_recorded_at : string;
  te_payload : dict;
  te_summary : option dict;
  te_status : option string }.

Definition te_to_dict (x : AgentAttemptThreadEvent) : dict :=
  [("event_id", VStr (te_event_id x));
   ("thread_id", VStr (te_thread_id x));
   ("sequence", VInt (te_sequence x));
   ("event_type", VStr (te_event_type x));
   ("recorded_at", VStr (te_recorded_at x));
   ("payload", VDict (te_payload x));
   ("summary", opt_dict (te_summary x));
   ("status", opt_str (te_status x))].

(** ** [AgentAttemptThread] *)

Record AgentAttemptThread := {
  th_thread_id : string;
  th_run_id : string;
  th_task_id : string;
  th_attempt_id : string;
  th_agent : string;
  th_adapter : string;
  th_status : string;
  th_created_at : string;
  th_updated_at : string;
  th_lifecycle : list string;
  th_events : list AgentAttemptThreadEvent;
  th_sandbox_ref : option string;
  th_harness : option string;
  th_released_at : option string;
  th_request : dict;
  th_tool_calls : list dict;
  th_output : dict;
  th_risk_flags : list string;
  th_test_results : list dict;
  th_release_status : dict;
  th_authority : dict }.

Definition th_to_dict (x : AgentAttemptThread) : dict :=
  [("thread_id", VStr (th_thread_id x));
   ("run_id", VStr (th_run_id x));
   ("task_id", VStr (th_task_id x));
   ("attempt_id", VStr (th_attempt_id x));
   ("agent", VStr (th_agent x));
   ("adapter", VStr (th_adapter x));
   ("status", VStr (th_status x));
   ("created_at", VStr (th_created_at x));
   ("updated_at", VStr (th_updated_at x));
   ("lifecycle", strs (th_lifecycle x));
   ("events", VList (map (λ y, VDict (te_to_dict y)) (th_events x)));
   ("sandbox_ref", opt_str (th_sandbox_ref x));
   ("harness", opt_str (th_harness x));
   ("released_at", opt_str (th_released_at x));
   ("request", VDict (th_request x));
   ("tool_calls", dicts (th_tool_calls x));
   ("output", VDict (th_output x));
   ("risk_flags", strs (th_risk_flags x));
   ("test_results", dicts (th_test_results x));
   ("release_status", VDict (th_release_status x));
   ("authority", VDict (th_authority x))].

(** ** [AgentAttempt] *)

Record AgentAttempt := {
  at_attempt_id : string;
  at_task_id : string;
  at_run_id : string;
  at_agent : string;
  at_adapter : string;
  at_status : string;
  at_started_at : string;
  at_completed_at : string;
  at_summary : string;
  at_changed_files : list string;
  at_test_results : list dict;
  at_risk_flags : list string;
  at_recommended_action : string;
  at_output : dict;
  at_observations_proposed : list dict;
  at_claims_proposed : list dict;
  at_procedures_proposed : list dict;
  at_citations : list dict;
  at_contradictions_detected : list dict;
  at_memory_actions_requested : list string }.

Definition at_to_dict (x : AgentAttempt) : dict :=
  [("attempt_id", VStr (at_attempt_id x));
   ("task_id", VStr (at_task_id x));
   ("run_id", VStr (at_run_id x));
   ("agent", VStr (at_agent x));
   ("adapter", VStr (at_adapter x));
   ("status", VStr (at_status x));
   ("started_at", VStr (at_started_at x));
   ("completed_at", VStr (at_completed_at x));
   ("summary", VStr (at_summary x));
   ("changed_files", strs (at_changed_files x));
   ("test_results", dicts (at_test_results x));
   ("risk_flags", strs (at_risk_flags x));
   ("recommended_action", VStr (at_recommended_action x));
   ("output", VDict (at_output x));
   ("observations_proposed", dicts (at_observations_proposed x));
   ("claims_proposed", dicts (at_claims_proposed x));
   ("procedures_proposed", dicts (at_procedures_proposed x));
   ("citations", dicts (at_citations x));
   ("contradictions_detected", dicts (at_contradictions_detected x));
   ("memory_actions_requested", strs (at_memory_actions_requested x))].

(** ** [AgentTask] *)

Record AgentTask := {
  tk_task_id : string;
  tk_run_id : string;
  tk_kind : string;
  tk_status : string;
  tk_created_at : string;
  tk_updated_at : string;
  tk_allowed_paths : list string;
  tk_test_commands : list string;
  tk_kubernetes_scope : dict;
  tk_memory_scope : dict;
  tk_memory_packet : dict;
  tk_memory_write_policy : dict;
  tk_open_questions : list string;
  tk_agents : list string;
  tk_orchestration_topology : dict;
  tk_lane_routing : dict;
  tk_attempts : list AgentAttempt;
  tk_selected_attempt_id : option string }.

Definition tk_to_dict (x : AgentTask) : dict :=
  [("task_id", VStr (tk_task_id x));
   ("run_id", VStr (tk_run_id x));
   ("kind", VStr (tk_kind x));
   ("status", VStr (tk_status x));
   ("created_at", VStr (tk_created_at x));
   ("updated_at", VStr (tk_updated_at x));
   ("allowed_paths", strs (tk_allowed_paths x));
   ("test_commands", strs (tk_test_commands x));
   ("kubernetes_scope", VDict (tk_kubernetes_scope x));
   ("memory_scope", VDict (tk_memory_scope x));
   ("memory_packet", VDict (tk_memory_packet x));
   ("memory_write_policy", VDict (tk_memory_write_policy x));
   ("open_questions", strs (tk_open_questions x));
   ("agents", strs (tk_agents x));
   ("orchestration_topology", VDict (tk_orchestration_topology x));
   ("lane_routing", VDict (tk_lane_routing x));
   ("attempts", VList (map (λ y, VDict (at_to_dict y)) (tk_attempts x)));
   ("selected_attempt_id", opt_str (tk_selected_attempt_id x))].

(** ** [IntegrationStatus] *)

Record IntegrationStatus := {
  ist_name : string;
  ist_ready : bool;
  ist_detail : string;
  ist_command : option string;
  ist_url : option string;
  ist_primary_route : option string;
  ist_fallback_route : option string;
  ist_warnings : list string;
  ist_certification : string;
  ist_required_before : string;
  ist_posture : string }.

Definition ist_to_dict (x : IntegrationStatus) : dict :=
  [("name", VStr (ist_name x));
   ("ready", VBool (ist_ready x));
   ("detail", VStr (ist_detail x));
   ("command", opt_str (ist_command x));
   ("url", opt_str (ist_url x));
   ("primary_route", opt_str (ist_primary_route x));
   ("fallback_route", opt_str (ist_fallback_route x));
   ("warnings", strs (ist_warnings x));
   ("certification", VStr (ist_certification x));
   ("required_before", VStr (ist_required_before x));
   ("posture", VStr (ist_posture x))].

(** ** [IntegrationReadiness] *)

Record IntegrationReadiness := {
  ird_checked_at : string;
  ird_profile : string;
  ird_status : string;
  ird_required_checks : dict;
  ird_optional_checks : dict;
  ird_blockers : list string;
  ird_blocker_details : dict;
  ird_connector_certification : dict;
  ird_orchestration_topology : dict;
  ird_promptfoo : IntegrationStatus;
  ird_hermes : IntegrationStatus;
  ird_goose : IntegrationStatus;
  ird_latentmas : IntegrationStatus;
  ird_deepagents : IntegrationStatus;
  ird_centaur : IntegrationStatus;
  ird_zaxy : IntegrationStatus;
  ird_eventloom : IntegrationStatus;
  ird_neo4j_projection : IntegrationStatus;
  ird_zaxy_mcp : IntegrationStatus;
  ird_langgraph_checkpointing : IntegrationStatus;
  ird_vault_path : string;
  ird_state_path : string;
  ird_integrations_config_path : string }.

Definition ird_to_dict (x : IntegrationReadiness) : dict :=
  [("checked_at", VStr (ird_checked_at x));
   ("profile", VStr (ird_profile x));
   ("status", VStr (ird_status x));
   ("required_checks", VDict (ird_required_checks x));
   ("optional_checks", VDict (ird_optional_checks x));
   ("blockers", strs (ird_blockers x));
   ("blocker_details", VDict (ird_blocker_details x));
   ("connector_certification", VDict (ird_connector_certification x));
   ("orchestration_topology", VDict (ird_orchestration_topology x));
   ("promptfoo", VDict (ist_to_dict (ird_promptfoo x)));
   ("hermes", VDict (ist_to_dict (ird_hermes x)));
   ("goose", VDict (ist_to_dict (ird_goose x)));
   ("latentmas", VDict (ist_to_dict (ird_latentmas x)));
   ("deepagents", VDict (ist_to_dict (ird_deepagents x)));
   ("centaur", VDict (ist_to_dict (ird_centaur x)));
   ("zaxy", VDict (ist_to_dict (ird_zaxy x)));
   ("eventloom", VDict (ist_to_dict (ird_eventloom x)));
   ("neo4j_projection", VDict (ist_to_dict (ird_neo4j_projection x)));
   ("zaxy_mcp", VDict (ist_to_dict (ird_zaxy_mcp x)));
   ("langgraph_checkpointing", VDict (ist_to_dict (ird_langgraph_checkpointing x)));
   ("vault_path", VStr (ird_vault_path x));
   ("state_path", VStr (ird_state_path x));
   ("integrations_config_path", VStr (ird_integrations_config_path x))].

(** ** [MerkleProofStep] *)

Record MerkleProofStep := {
  ps_position : string;
  ps_hash : string }.

Definition ps_to_dict (x : MerkleProofStep) : dict :=
  [("position", VStr (ps_position x));
   ("hash", VStr (ps_hash x))].

(** ** [MerkleSnapshot] *)

Record MerkleSnapshot := {
  ms_run_id : string;
  ms_root_hash : string;
  ms_leaf_count : Z;
  ms_event_ids : list string }.

Definition ms_to_dict (x : MerkleSnapshot) : dict :=
  [("run_id", VStr (ms_run_id x));
   ("root_hash", VStr (ms_root_hash x));
   ("leaf_count", VInt (ms_leaf_count x));
   ("event_ids", strs (ms_event_ids x))].

(** ** [MerkleProof] *)

Record MerkleProof := {
  mp_run_id : string;
  mp_event_id : string;
  mp_leaf_hash : string;
  mp_root_hash : string;
  mp_proof : list MerkleProofStep;
  mp_valid : bool }.

Definition mp_to_dict (x : MerkleProof) : dict :=
  [("run_id", VStr (mp_run_id x));
   ("event_id", VStr (mp_event_id x));
   ("leaf_hash", VStr (mp_leaf_hash x));
   ("root_hash", VStr (mp_root_hash x));
   ("proof", VList (map (λ y, VDict (ps_to_dict y)) (mp_proof x)));
   ("valid", VBool (mp_valid x))].

(** ** Operations *)

(** [RunEvent.canonical_payload]: the fields the Merkle leaf commits to, that is
    all but the leaf hash itself. *)
Definition canonical_payload (e : RunEvent) : dict :=
  [("event_id", VStr (ev_event_id e));
   ("run_id", VStr (ev_run_id e));
   ("sequence", VInt (ev_sequence e));
   ("stage", VStr (ev_stage e));
   ("event_type", VStr (ev_event_type e));
   ("recorded_at", VStr (ev_recorded_at e));
   ("payload", VDict (ev_payload e));
   ("summary", opt_dict (ev_summary e));
   ("artifact_key", opt_str (ev_artifact_key e));
   ("integration_name", opt_str (ev_integration_name e));
   ("status", opt_str (ev_status e))].

(** [RunSession.new].  [now] is the formatted clock reading, [stamp] its
    compact form and [hex] the random suffix. *)
Definition run_session_new (now stamp hex : string) (goal_id scenario_key : option string)
    (steering_mode : string) (auto_mode : bool) (pause_points : list string)
    (evaluation_mode orchestration_mode : string) (artifacts : dict) : RunSession :=
  {| rs_run_id := "run_" +:+ stamp +:+ "_" +:+ hex;
     rs_created_at := now;
     rs_updated_at := now;
     rs_goal_id := goal_id;
     rs_scenario_key := scenario_key;
     rs_stage := "queued";
     rs_status := "queued";
     rs_steering_mode := steering_mode;
     rs_auto_mode := auto_mode;
     rs_pause_points := pause_points;
     rs_pending_pause_stage := None;
     rs_evaluation_mode := evaluation_mode;
     rs_orchestration_mode := orchestration_mode;
     rs_latest_event_id := None;
     rs_latest_event_sequence := 0;
     rs_latest_merkle_root := None;
     rs_operator_notes := [];
     rs_artifacts := artifacts;
     rs_error := None |}.
