(* ===== verification/Schemas.v ===== *)
(** * The contract schemas

    The files of [src/shared/mesh_runtime/schemas/] that the modelled packets
    are validated against, as the values their JSON parses to. *)

From S2P Require Import Prelude PyFloat PyValue Models SchemaValidation.

Definition run_admission_schema : value :=
  VDict [
    ("$schema", VStr "https://json-schema.org/draft/2020-12/schema");
    ("$id", VStr "https://mesh.local/contracts/run-admission.schema.json");
    ("title", VStr "RunAdmission");
    ("type", VStr "object");
    ("required", VList [
      VStr "schema_version";
      VStr "generated_at";
      VStr "decision";
      VStr "run_id";
      VStr "tenant_id";
      VStr "target_lock_key";
      VStr "queue";
      VStr "quotas";
      VStr "lock";
      VStr "blockers"]);
    ("additionalProperties", VBool false);
    ("properties", VDict [
      ("schema_version", VDict [("const", VStr "mesh.run_admission.v1"); ("type", VStr "string")]);
      ("generated_at", VDict [("type", VStr "string")]);
      ("decision", VDict [("type", VStr "string"); ("enum", VList [VStr "admitted"; VStr "blocked"])]);
      ("run_id", VDict [("type", VStr "string")]);
      ("tenant_id", VDict [("type", VStr "string")]);
      ("target_lock_key", VDict [("type", VStr "string")]);
      ("queue", VDict [
        ("type", VStr "object");
        ("required", VList [VStr "current_depth"; VStr "max_size"; VStr "worker_count"]);
        ("properties", VDict [
          ("current_depth", VDict [("type", VStr "integer")]);
          ("max_size", VDict [("type", VStr "integer")]);
          ("worker_count", VDict [("type", VStr "integer")])])]);
      ("quotas", VDict [
        ("type", VStr "object");
        ("required", VList [VStr "tenant_active_runs"; VStr "tenant_active_run_quota"]);
        ("properties", VDict [
          ("tenant_active_runs", VDict [("type", VStr "integer")]);
          ("tenant_active_run_quota", VDict [("type", VStr "integer")])])]);
      ("lock", VDict [
        ("type", VStr "object");
        ("required", VList [VStr "granted"; VStr "holder_run_id"]);
        ("properties", VDict [
          ("granted", VDict [("type", VStr "boolean")]);
          ("holder_run_id", VDict [("type", VList [VStr "string"; VStr "null"])])])]);
      ("blockers", VDict [("type", VStr "array"); ("items", VDict [("type", VStr "string")])])])].

Definition timeline_proof_schema : value :=
  VDict [
    ("$schema", VStr "https://json-schema.org/draft/2020-12/schema");
    ("$id", VStr "https://mesh.local/contracts/timeline-proof.schema.json");
    ("title", VStr "TimelineProof");
    ("type", VStr "object");
    ("required", VList [
      VStr "schema_version";
      VStr "generated_at";
      VStr "run_id";
      VStr "event_count";
      VStr "timeline";
      VStr "merkle";
      VStr "checks"]);
    ("additionalProperties", VBool false);
    ("properties", VDict [
      ("schema_version", VDict [("const", VStr "mesh.timeline_proof.v1"); ("type", VStr "string")]);
      ("generated_at", VDict [("type", VStr "string")]);
      ("run_id", VDict [("type", VStr "string")]);
      ("event_count", VDict [("type", VStr "integer")]);
      ("timeline", VDict [
        ("type", VStr "array");
        ("items", VDict [
          ("type", VStr "object");
          ("required", VList [
            VStr "sequence";
            VStr "event_id";
            VStr "stage";
            VStr "event_type";
            VStr "recorded_at";
            VStr "time_unix_nano";
            VStr "payload_sha256";
            VStr "merkle_leaf_hash"]);
          ("properties", VDict [
            ("sequence", VDict [("type", VStr "integer")]);
            ("event_id", VDict [("type", VStr "string")]);
            ("stage", VDict [("type", VStr "string")]);
            ("event_type", VDict [("type", VStr "string")]);
            ("recorded_at", VDict [("type", VStr "string")]);
            ("time_unix_nano", VDict [("type", VList [VStr "integer"; VStr "null"])]);
            ("payload_sha256", VDict [("type", VStr "string")]);
            ("merkle_leaf_hash", VDict [("type", VList [VStr "string"; VStr "null"])]);
            ("artifact_key", VDict [("type", VList [VStr "string"; VStr "null"])]);
            ("integration_name", VDict [("type", VList [VStr "string"; VStr "null"])]);
            ("status", VDict [("type", VList [VStr "string"; VStr "null"])])])])]);
      ("merkle", VDict [("type", VStr "object")]);
      ("checks", VDict [
        ("type", VStr "object");
        ("required", VList [
          VStr "sequence_monotonic";
          VStr "sequence_gapless";
          VStr "timestamp_parseable";
          VStr "timestamp_non_decreasing";
          VStr "merkle_root_present";
          VStr "latest_event_proof_valid"]);
        ("properties", VDict [
          ("sequence_monotonic", VDict [("type", VStr "boolean")]);
          ("sequence_gapless", VDict [("type", VStr "boolean")]);
          ("timestamp_parseable", VDict [("type", VStr "boolean")]);
          ("timestamp_non_decreasing", VDict [("type", VStr "boolean")]);
          ("merkle_root_present", VDict [("type", VStr "boolean")]);
          ("latest_event_proof_valid", VDict [("type", VStr "boolean")])])])])].

Definition evidence_sufficiency_schema : value :=
  VDict [
    ("$schema", VStr "https://json-schema.org/draft/2020-12/schema");
    ("$id", VStr "https://mesh.local/contracts/evidence-sufficiency.schema.json");
    ("title", VStr "EvidenceSufficiency");
    ("type", VStr "object");
    ("required", VList [
      VStr "schema_version";
      VStr "passed";
      VStr "action_class";
      VStr "risk_tier";
      VStr "required_evidence_count";
      VStr "observed_evidence_count";
      VStr "evidence_refs";
      VStr "missing";
      VStr "notes"]);
    ("properties", VDict [
      ("schema_version", VDict [("type", VStr "string")]);
      ("passed", VDict [("type", VStr "boolean")]);
      ("action_class", VDict [("type", VStr "string")]);
      ("risk_tier", VDict [("type", VStr "string")]);
      ("required_evidence_count", VDict [("type", VStr "integer")]);
      ("observed_evidence_count", VDict [("type", VStr "integer")]);
      ("evidence_refs", VDict [("type", VStr "array"); ("items", VDict [("type", VStr "string")])]);
      ("missing", VDict [("type", VStr "array"); ("items", VDict [("type", VStr "string")])]);
      ("notes", VDict [("type", VStr "array"); ("items", VDict [("type", VStr "string")])])]);
    ("additionalProperties", VBool false)].

Definition repo_patch_execution_permit_schema : value :=
  VDict [
    ("$schema", VStr "https://json-schema.org/draft/2020-12/schema");
    ("$id", VStr "mesh.repo_patch_execution_permit.v1");
    ("type", VStr "object");
    ("required", VList [
      VStr "schema_version";
      VStr "transaction_version";
      VStr "permit_id";
      VStr "authority_scope";
      VStr "issuer";
      VStr "executor_audience";
      VStr "tenant";
      VStr "mesh_run_id";
      VStr "mesh_action_id";
      VStr "action_kind";
      VStr "authority_nonce";
      VStr "idempotency_key";
      VStr "hsai_request_digest";
      VStr "hsai_decision_digest";
      VStr "candidate_payload_digest";
      VStr "action_proposal_digest";
      VStr "evidence_packet_digest";
      VStr "mesh_policy_id";
      VStr "policy_snapshot_digest";
      VStr "canonical_actuation_payload_digest";
      VStr "repo_path";
      VStr "target_path";
      VStr "target_preimage_digest";
      VStr "target_postimage_digest";
      VStr "requested_claims";
      VStr "accepted_claims";
      VStr "explicit_nonclaims";
      VStr "enforced_nonclaims";
      VStr "expected_ledger_tip_before";
      VStr "issued_at";
      VStr "not_before";
      VStr "expires_at";
      VStr "authority_entry_digest";
      VStr "ledger_tip_after";
      VStr "permit_digest";
      VStr "authorization_proof"]);
    ("properties", VDict [
      ("schema_version", VDict [("const", VStr "mesh.repo_patch_execution_permit.v1")]);
      ("transaction_version", VDict [("const", VStr "mesh.repo_patch_execution_transaction.v1")]);
      ("permit_id", VDict [("type", VStr "string"); ("minLength", VInt 8)]);
      ("authority_scope", VDict [("const", VStr "local_disposable_repo_patch_only")]);
      ("issuer", VDict [("type", VStr "string"); ("minLength", VInt 1)]);
      ("executor_audience", VDict [("type", VStr "string"); ("minLength", VInt 1)]);
      ("tenant", VDict [("type", VStr "string"); ("minLength", VInt 1)]);
      ("mesh_run_id", VDict [("type", VStr "string"); ("minLength", VInt 1)]);
      ("mesh_action_id", VDict [("type", VStr "string"); ("minLength", VInt 1)]);
      ("action_kind", VDict [("const", VStr "repo_patch")]);
      ("authority_nonce", VDict [("type", VStr "string"); ("pattern", VStr "^[0-9a-f]{64}$")]);
      ("idempotency_key", VDict [("type", VStr "string"); ("minLength", VInt 1)]);
      ("hsai_request_digest", VDict [("$ref", VStr "#/$defs/digest")]);
      ("hsai_decision_digest", VDict [("$ref", VStr "#/$defs/digest")]);
      ("candidate_payload_digest", VDict [("$ref", VStr "#/$defs/digest")]);
      ("action_proposal_digest", VDict [("$ref", VStr "#/$defs/digest")]);
      ("evidence_packet_digest", VDict [("$ref", VStr "#/$defs/digest")]);
      ("mesh_policy_id", VDict [("type", VStr "string"); ("minLength", VInt 1)]);
      ("policy_snapshot_digest", VDict [("$ref", VStr "#/$defs/digest")]);
      ("canonical_actuation_payload_digest", VDict [("$ref", VStr "#/$defs/digest")]);
      ("repo_path", VDict [("type", VStr "string"); ("minLength", VInt 1)]);
      ("target_path", VDict [("type", VStr "string"); ("minLength", VInt 1)]);
      ("target_preimage_digest", VDict [("$ref", VStr "#/$defs/digest")]);
      ("target_postimage_digest", VDict [("$ref", VStr "#/$defs/digest")]);
      ("requested_claims", VDict [("type", VStr "array"); ("items", VDict [("type", VStr "string")])]);
      ("accepted_claims", VDict [("type", VStr "array"); ("items", VDict [("type", VStr "string")])]);
      ("explicit_nonclaims", VDict [
        ("type", VStr "array");
        ("minItems", VInt 1);
        ("items", VDict [("type", VStr "string")])]);
      ("enforced_nonclaims", VDict [
        ("type", VStr "array");
        ("minItems", VInt 1);
        ("items", VDict [("type", VStr "string")])]);
      ("expected_ledger_tip_before", VDict [("$ref", VStr "#/$defs/digest")]);
      ("issued_at", VDict [("type", VStr "string"); ("format", VStr "date-time")]);
      ("not_before", VDict [("type", VStr "string"); ("format", VStr "date-time")]);
      ("expires_at", VDict [("type", VStr "string"); ("format", VStr "date-time")]);
      ("authority_entry_digest", VDict [("$ref", VStr "#/$defs/digest")]);
      ("ledger_tip_after", VDict [("$ref", VStr "#/$defs/digest")]);
      ("permit_digest", VDict [("$ref", VStr "#/$defs/digest")]);
      ("authorization_proof", VDict [
        ("type", VStr "object");
        ("required", VList [
          VStr "signing_profile";
          VStr "algorithm";
          VStr "key_id";
          VStr "signature";
          VStr "payload_sha256";
          VStr "status";
          VStr "verifier"]);
        ("properties", VDict [
          ("signing_profile", VDict [("const", VStr "mesh-repo-patch-execution-permit-hmac-sha256-v1")]);
          ("algorithm", VDict [("const", VStr "hmac-sha256")]);
          ("key_id", VDict [("type", VStr "string"); ("minLength", VInt 1)]);
          ("signature", VDict [("type", VStr "string"); ("pattern", VStr "^[0-9a-f]{64}$")]);
          ("payload_sha256", VDict [("type", VStr "string"); ("pattern", VStr "^[0-9a-f]{64}$")]);
          ("status", VDict [("const", VStr "verified")]);
          ("verifier", VDict [("const", VStr "orbital_mesh_hmac_sha256_v1")])]);
        ("additionalProperties", VBool false)])]);
    ("$defs", VDict [
      ("digest", VDict [("type", VStr "string"); ("pattern", VStr "^sha256:[0-9a-f]{64}$")])]);
    ("additionalProperties", VBool false)].

Definition policy_lifecycle_packet_schema : value :=
  VDict [
    ("$schema", VStr "https://json-schema.org/draft/2020-12/schema");
    ("$id", VStr "https://mesh.local/contracts/policy-lifecycle-packet.schema.json");
    ("title", VStr "PolicyLifecyclePacket");
    ("type", VStr "object");
    ("required", VList [
      VStr "schema_version";
      VStr "generated_at";
      VStr "status";
      VStr "manifest_path";
      VStr "manifest_sha256";
      VStr "policy_hashes";
      VStr "combined_policy_sha256";
      VStr "coverage";
      VStr "signature";
      VStr "missing"]);
    ("properties", VDict [
      ("schema_version", VDict [("type", VStr "string")]);
      ("generated_at", VDict [("type", VStr "string")]);
      ("status", VDict [("type", VStr "string"); ("enum", VList [VStr "complete"; VStr "incomplete"])]);
      ("manifest_path", VDict [("type", VStr "string")]);
      ("manifest_sha256", VDict [("type", VList [VStr "string"; VStr "null"])]);
      ("policy_hashes", VDict [("type", VStr "array"); ("items", VDict [("type", VStr "object")])]);
      ("combined_policy_sha256", VDict [("type", VList [VStr "string"; VStr "null"])]);
      ("coverage", VDict [("type", VStr "object")]);
      ("signature", VDict [("type", VList [VStr "object"; VStr "null"])]);
      ("missing", VDict [("type", VStr "array"); ("items", VDict [("type", VStr "string")])])]);
    ("additionalProperties", VBool false)].

Definition policy_lifecycle_manifest_schema : value :=
  VDict [
    ("$schema", VStr "https://json-schema.org/draft/2020-12/schema");
    ("$id", VStr "https://mesh.local/contracts/policy-lifecycle-manifest.schema.json");
    ("title", VStr "PolicyLifecycleManifest");
    ("type", VStr "object");
    ("required", VList [VStr "version"; VStr "policies"]);
    ("properties", VDict [
      ("version", VDict [("type", VStr "string")]);
      ("policies", VDict [
        ("type", VStr "array");
        ("minItems", VInt 1);
        ("items", VDict [
          ("type", VStr "object");
          ("required", VList [
            VStr "path";
            VStr "owner";
            VStr "state";
            VStr "risk_tier";
            VStr "effective_from";
            VStr "review_expires_at";
            VStr "rollback_ref"]);
          ("properties", VDict [
            ("path", VDict [("type", VStr "string")]);
            ("owner", VDict [("type", VStr "string")]);
            ("state", VDict [
              ("type", VStr "string");
              ("enum", VList [VStr "draft"; VStr "dry-run"; VStr "active"; VStr "deprecated"])]);
            ("risk_tier", VDict [
              ("type", VStr "string");
              ("enum", VList [VStr "low"; VStr "medium"; VStr "high"])]);
            ("effective_from", VDict [("type", VStr "string")]);
            ("review_expires_at", VDict [("type", VStr "string")]);
            ("rollback_ref", VDict [("type", VStr "string")])]);
          ("additionalProperties", VBool false)])])]);
    ("additionalProperties", VBool false)].

Definition connector_certification_registry_schema : value :=
  VDict [
    ("$schema", VStr "https://json-schema.org/draft/2020-12/schema");
    ("$id", VStr "https://mesh.local/contracts/connector-certification-registry.schema.json");
    ("title", VStr "ConnectorCertificationRegistry");
    ("type", VStr "object");
    ("required", VList [VStr "schema_version"; VStr "connectors"]);
    ("additionalProperties", VBool false);
    ("properties", VDict [
      ("schema_version", VDict [("const", VStr "connector.certification.registry.v1"); ("type", VStr "string")]);
      ("generated_from", VDict [("type", VStr "array"); ("items", VDict [("type", VStr "string")])]);
      ("connectors", VDict [
        ("type", VStr "array");
        ("minItems", VInt 1);
        ("items", VDict [
          ("type", VStr "object");
          ("required", VList [
            VStr "connector_id";
            VStr "display_name";
            VStr "domain";
            VStr "state";
            VStr "required_before";
            VStr "authority_posture";
            VStr "credential_policy";
            VStr "credential_boundary";
            VStr "degraded_behavior";
            VStr "allowed_scopes";
            VStr "evidence_refs";
            VStr "blockers"]);
          ("additionalProperties", VBool false);
          ("properties", VDict [
            ("connector_id", VDict [("type", VStr "string")]);
            ("display_name", VDict [("type", VStr "string")]);
            ("domain", VDict [("type", VStr "string")]);
            ("state", VDict [
              ("type", VStr "string");
              ("enum", VList [
                VStr "disabled";
                VStr "mock";
                VStr "unfinished";
                VStr "read-only";
                VStr "proposal-only";
                VStr "staging-ready";
                VStr "pilot-ready";
                VStr "production-ready"])]);
            ("required_before", VDict [
              ("type", VStr "string");
              ("enum", VList [VStr "local"; VStr "staging"; VStr "pilot"; VStr "expansion"])]);
            ("authority_posture", VDict [("type", VStr "string")]);
            ("credential_policy", VDict [("type", VStr "string")]);
            ("credential_boundary", VDict [
              ("type", VStr "object");
              ("required", VList [
                VStr "service_account_ref";
                VStr "credential_mode";
                VStr "production_actuator_credentials_allowed";
                VStr "repo_write_credentials_allowed";
                VStr "runtime_secret_mount_required";
                VStr "rotation_evidence_ref";
                VStr "break_glass_recording_required"]);
              ("additionalProperties", VBool false);
              ("properties", VDict [
                ("service_account_ref", VDict [("type", VList [VStr "string"; VStr "null"])]);
                ("credential_mode", VDict [
                  ("type", VStr "string");
                  ("enum", VList [
                    VStr "none";
                    VStr "runtime-secret";
                    VStr "read-only-secret";
                    VStr "proposal-workspace"])]);
                ("production_actuator_credentials_allowed", VDict [("type", VStr "boolean")]);
                ("repo_write_credentials_allowed", VDict [("type", VStr "boolean")]);
                ("runtime_secret_mount_required", VDict [("type", VStr "boolean")]);
                ("rotation_evidence_ref", VDict [("type", VList [VStr "string"; VStr "null"])]);
                ("break_glass_recording_required", VDict [("type", VStr "boolean")])])]);
            ("degraded_behavior", VDict [("type", VStr "string")]);
            ("allowed_scopes", VDict [("type", VStr "array"); ("items", VDict [("type", VStr "string")])]);
            ("evidence_refs", VDict [("type", VStr "array"); ("items", VDict [("type", VStr "string")])]);
            ("blockers", VDict [("type", VStr "array"); ("items", VDict [("type", VStr "string")])])])])])])].

Definition connector_certification_matrix_schema : value :=
  VDict [
    ("$schema", VStr "https://json-schema.org/draft/2020-12/schema");
    ("$id", VStr "https://mesh.local/contracts/connector-certification-matrix.schema.json");
    ("title", VStr "ConnectorCertificationMatrix");
    ("type", VStr "object");
    ("required", VList [
      VStr "schema_version";
      VStr "generated_at";
      VStr "status";
      VStr "registry_path";
      VStr "registry_sha256";
      VStr "connectors";
      VStr "blockers"]);
    ("additionalProperties", VBool false);
    ("properties", VDict [
      ("schema_version", VDict [("const", VStr "mesh.connector_certification.v1"); ("type", VStr "string")]);
      ("generated_at", VDict [("type", VStr "string")]);
      ("status", VDict [("type", VStr "string"); ("enum", VList [VStr "complete"; VStr "incomplete"])]);
      ("registry_path", VDict [("type", VList [VStr "string"; VStr "null"])]);
      ("registry_sha256", VDict [("type", VList [VStr "string"; VStr "null"])]);
      ("connectors", VDict [
        ("type", VStr "object");
        ("additionalProperties", VDict [
          ("type", VStr "object");
          ("required", VList [
            VStr "connector_id";
            VStr "display_name";
            VStr "domain";
            VStr "state";
            VStr "certified_state";
            VStr "observed_state";
            VStr "required_before";
            VStr "authority_posture";
            VStr "credential_policy";
            VStr "credential_boundary";
            VStr "degraded_behavior";
            VStr "allowed_scopes";
            VStr "evidence_refs";
            VStr "blockers"]);
          ("properties", VDict [
            ("connector_id", VDict [("type", VStr "string")]);
            ("display_name", VDict [("type", VStr "string")]);
            ("domain", VDict [("type", VStr "string")]);
            ("state", VDict [("type", VStr "string")]);
            ("certified_state", VDict [("type", VStr "string")]);
            ("observed_state", VDict [("type", VStr "string")]);
            ("required_before", VDict [("type", VStr "string")]);
            ("authority_posture", VDict [("type", VStr "string")]);
            ("credential_policy", VDict [("type", VStr "string")]);
            ("credential_boundary", VDict [
              ("type", VStr "object");
              ("required", VList [
                VStr "service_account_ref";
                VStr "credential_mode";
                VStr "production_actuator_credentials_allowed";
                VStr "repo_write_credentials_allowed";
                VStr "runtime_secret_mount_required";
                VStr "rotation_evidence_ref";
                VStr "break_glass_recording_required"]);
              ("properties", VDict [
                ("service_account_ref", VDict [("type", VList [VStr "string"; VStr "null"])]);
                ("credential_mode", VDict [("type", VStr "string")]);
                ("production_actuator_credentials_allowed", VDict [("type", VStr "boolean")]);
                ("repo_write_credentials_allowed", VDict [("type", VStr "boolean")]);
                ("runtime_secret_mount_required", VDict [("type", VStr "boolean")]);
                ("rotation_evidence_ref", VDict [("type", VList [VStr "string"; VStr "null"])]);
                ("break_glass_recording_required", VDict [("type", VStr "boolean")])]);
              ("additionalProperties", VBool false)]);
            ("degraded_behavior", VDict [("type", VStr "string")]);
            ("allowed_scopes", VDict [("type", VStr "array"); ("items", VDict [("type", VStr "string")])]);
            ("evidence_refs", VDict [("type", VStr "array"); ("items", VDict [("type", VStr "string")])]);
            ("blockers", VDict [("type", VStr "array"); ("items", VDict [("type", VStr "string")])])]);
          ("additionalProperties", VBool false)])]);
      ("blockers", VDict [("type", VStr "array"); ("items", VDict [("type", VStr "string")])])])].

Definition ownership_registry_schema : value :=
  VDict [
    ("$schema", VStr "https://json-schema.org/draft/2020-12/schema");
    ("$id", VStr "https://mesh.local/contracts/ownership-registry.schema.json");
    ("title", VStr "OwnershipRegistry");
    ("type", VStr "object");
    ("required", VList [VStr "version"; VStr "records"]);
    ("properties", VDict [
      ("version", VDict [("type", VStr "string")]);
      ("records", VDict [
        ("type", VStr "array");
        ("minItems", VInt 1);
        ("items", VDict [
          ("type", VStr "object");
          ("required", VList [
            VStr "record_id";
            VStr "service";
            VStr "environment";
            VStr "namespace";
            VStr "tenant_id";
            VStr "customer_id";
            VStr "customer_boundary";
            VStr "owner";
            VStr "approver_roles";
            VStr "rollback_authority";
            VStr "escalation_route";
            VStr "allowed_action_classes";
            VStr "policy_refs";
            VStr "data_boundary"]);
          ("properties", VDict [
            ("record_id", VDict [("type", VStr "string")]);
            ("service", VDict [("type", VStr "string")]);
            ("environment", VDict [("type", VStr "string")]);
            ("namespace", VDict [("type", VStr "string")]);
            ("tenant_id", VDict [("type", VStr "string")]);
            ("customer_id", VDict [("type", VStr "string")]);
            ("customer_boundary", VDict [("type", VStr "string")]);
            ("owner", VDict [("type", VStr "object")]);
            ("approver_roles", VDict [
              ("type", VStr "array");
              ("minItems", VInt 1);
              ("items", VDict [("type", VStr "string")])]);
            ("rollback_authority", VDict [("type", VStr "object")]);
            ("escalation_route", VDict [("type", VStr "string")]);
            ("allowed_action_classes", VDict [
              ("type", VStr "array");
              ("minItems", VInt 1);
              ("items", VDict [("type", VStr "string")])]);
            ("policy_refs", VDict [
              ("type", VStr "array");
              ("minItems", VInt 1);
              ("items", VDict [("type", VStr "string")])]);
            ("data_boundary", VDict [
              ("type", VStr "object");
              ("required", VList [
                VStr "classification";
                VStr "export_allowed";
                VStr "retention_days";
                VStr "reservoir_refs";
                VStr "export_policy";
                VStr "legal_action_scope"]);
              ("properties", VDict [
                ("classification", VDict [("type", VStr "string")]);
                ("export_allowed", VDict [("type", VStr "boolean")]);
                ("retention_days", VDict [("type", VStr "integer"); ("minimum", VInt 0)]);
                ("reservoir_refs", VDict [("type", VStr "array"); ("items", VDict [("type", VStr "string")])]);
                ("export_policy", VDict [
                  ("type", VStr "object");
                  ("required", VList [
                    VStr "allowed";
                    VStr "allowed_destinations";
                    VStr "redaction_required"]);
                  ("properties", VDict [
                    ("allowed", VDict [("type", VStr "boolean")]);
                    ("allowed_destinations", VDict [("type", VStr "array"); ("items", VDict [("type", VStr "string")])]);
                    ("redaction_required", VDict [("type", VStr "boolean")])]);
                  ("additionalProperties", VBool false)]);
                ("legal_action_scope", VDict [
                  ("type", VStr "object");
                  ("required", VList [VStr "allowed"; VStr "review_required"; VStr "authority_ref"]);
                  ("properties", VDict [
                    ("allowed", VDict [("type", VStr "boolean")]);
                    ("review_required", VDict [("type", VStr "boolean")]);
                    ("authority_ref", VDict [("type", VStr "string")])]);
                  ("additionalProperties", VBool false)])]);
              ("additionalProperties", VBool false)])]);
          ("additionalProperties", VBool false)])])]);
    ("additionalProperties", VBool false)].

Definition ownership_boundary_schema : value :=
  VDict [
    ("$schema", VStr "https://json-schema.org/draft/2020-12/schema");
    ("$id", VStr "https://mesh.local/contracts/ownership-boundary.schema.json");
    ("title", VStr "OwnershipBoundary");
    ("type", VStr "object");
    ("required", VList [
      VStr "boundary_version";
      VStr "record_id";
      VStr "resolved";
      VStr "service";
      VStr "environment";
      VStr "namespace";
      VStr "tenant_id";
      VStr "customer_id";
      VStr "customer_boundary";
      VStr "owner";
      VStr "approver_roles";
      VStr "rollback_authority";
      VStr "escalation_route";
      VStr "allowed_action_classes";
      VStr "policy_refs";
      VStr "data_boundary";
      VStr "source_refs";
      VStr "blockers"]);
    ("properties", VDict [
      ("boundary_version", VDict [("type", VStr "string")]);
      ("record_id", VDict [("type", VStr "string")]);
      ("resolved", VDict [("type", VStr "boolean")]);
      ("service", VDict [("type", VStr "string")]);
      ("environment", VDict [("type", VStr "string")]);
      ("namespace", VDict [("type", VStr "string")]);
      ("tenant_id", VDict [("type", VStr "string")]);
      ("customer_id", VDict [("type", VStr "string")]);
      ("customer_boundary", VDict [("type", VStr "string")]);
      ("owner", VDict [("type", VStr "object")]);
      ("approver_roles", VDict [("type", VStr "array"); ("items", VDict [("type", VStr "string")])]);
      ("rollback_authority", VDict [("type", VStr "object")]);
      ("escalation_route", VDict [("type", VStr "string")]);
      ("allowed_action_classes", VDict [("type", VStr "array"); ("items", VDict [("type", VStr "string")])]);
      ("policy_refs", VDict [("type", VStr "array"); ("items", VDict [("type", VStr "string")])]);
      ("data_boundary", VDict [
        ("type", VStr "object");
        ("required", VList [
          VStr "classification";
          VStr "export_allowed";
          VStr "retention_days";
          VStr "reservoir_refs";
          VStr "export_policy";
          VStr "legal_action_scope"]);
        ("properties", VDict [
          ("classification", VDict [("type", VStr "string")]);
          ("export_allowed", VDict [("type", VStr "boolean")]);
          ("retention_days", VDict [("type", VStr "integer"); ("minimum", VInt 0)]);
          ("reservoir_refs", VDict [("type", VStr "array"); ("items", VDict [("type", VStr "string")])]);
          ("export_policy", VDict [
            ("type", VStr "object");
            ("required", VList [VStr "allowed"; VStr "allowed_destinations"; VStr "redaction_required"]);
            ("properties", VDict [
              ("allowed", VDict [("type", VStr "boolean")]);
              ("allowed_destinations", VDict [("type", VStr "array"); ("items", VDict [("type", VStr "string")])]);
              ("redaction_required", VDict [("type", VStr "boolean")])]);
            ("additionalProperties", VBool false)]);
          ("legal_action_scope", VDict [
            ("type", VStr "object");
            ("required", VList [VStr "allowed"; VStr "review_required"; VStr "authority_ref"]);
            ("properties", VDict [
              ("allowed", VDict [("type", VStr "boolean")]);
              ("review_required", VDict [("type", VStr "boolean")]);
              ("authority_ref", VDict [("type", VStr "string")])]);
            ("additionalProperties", VBool false)])]);
        ("additionalProperties", VBool false)]);
      ("source_refs", VDict [("type", VStr "array"); ("items", VDict [("type", VStr "string")])]);
      ("blockers", VDict [("type", VStr "array"); ("items", VDict [("type", VStr "string")])])]);
    ("additionalProperties", VBool false)].

Definition approval_queue_schema : value :=
  VDict [
    ("$schema", VStr "https://json-schema.org/draft/2020-12/schema");
    ("$id", VStr "https://mesh.local/contracts/approval-queue.schema.json");
    ("title", VStr "ApprovalQueue");
    ("type", VStr "object");
    ("required", VList [
      VStr "schema_version";
      VStr "generated_at";
      VStr "status";
      VStr "pending_count";
      VStr "blocked_count";
      VStr "source_refs";
      VStr "items"]);
    ("properties", VDict [
      ("schema_version", VDict [("type", VStr "string"); ("enum", VList [VStr "mesh.approval_queue.v1"])]);
      ("generated_at", VDict [("type", VStr "string")]);
      ("status", VDict [
        ("type", VStr "string");
        ("enum", VList [VStr "empty"; VStr "ready"; VStr "blocked"])]);
      ("pending_count", VDict [("type", VStr "integer")]);
      ("blocked_count", VDict [("type", VStr "integer")]);
      ("source_refs", VDict [("type", VStr "array"); ("items", VDict [("type", VStr "string")])]);
      ("items", VDict [
        ("type", VStr "array");
        ("items", VDict [
          ("type", VStr "object");
          ("required", VList [
            VStr "queue_id";
            VStr "run_id";
            VStr "created_at";
            VStr "updated_at";
            VStr "scenario_key";
            VStr "service";
            VStr "namespace";
            VStr "environment";
            VStr "stage";
            VStr "pending_pause_stage";
            VStr "steering_mode";
            VStr "decision_type";
            VStr "risk_level";
            VStr "final_recommendation";
            VStr "approval_state";
            VStr "blockers";
            VStr "requested_by";
            VStr "owner";
            VStr "approver_roles";
            VStr "allowed_commands";
            VStr "evidence_refs";
            VStr "latest_event_id"]);
          ("properties", VDict [
            ("queue_id", VDict [("type", VStr "string")]);
            ("run_id", VDict [("type", VStr "string")]);
            ("created_at", VDict [("type", VStr "string")]);
            ("updated_at", VDict [("type", VStr "string")]);
            ("scenario_key", VDict [("type", VList [VStr "string"; VStr "null"])]);
            ("service", VDict [("type", VList [VStr "string"; VStr "null"])]);
            ("namespace", VDict [("type", VList [VStr "string"; VStr "null"])]);
            ("environment", VDict [("type", VStr "string")]);
            ("stage", VDict [("type", VStr "string")]);
            ("pending_pause_stage", VDict [("type", VList [VStr "string"; VStr "null"])]);
            ("steering_mode", VDict [("type", VStr "string")]);
            ("decision_type", VDict [("type", VList [VStr "string"; VStr "null"])]);
            ("risk_level", VDict [("type", VList [VStr "string"; VStr "null"])]);
            ("final_recommendation", VDict [("type", VList [VStr "string"; VStr "null"])]);
            ("approval_state", VDict [("type", VStr "string"); ("enum", VList [VStr "pending"; VStr "blocked"])]);
            ("blockers", VDict [("type", VStr "array"); ("items", VDict [("type", VStr "string")])]);
            ("requested_by", VDict [("type", VList [VStr "object"; VStr "null"])]);
            ("owner", VDict [("type", VList [VStr "object"; VStr "null"])]);
            ("approver_roles", VDict [("type", VStr "array"); ("items", VDict [("type", VStr "string")])]);
            ("allowed_commands", VDict [("type", VStr "array"); ("items", VDict [("type", VStr "string")])]);
            ("evidence_refs", VDict [("type", VStr "array"); ("items", VDict [("type", VStr "string")])]);
            ("latest_event_id", VDict [("type", VList [VStr "string"; VStr "null"])])]);
          ("additionalProperties", VBool false)])])]);
    ("additionalProperties", VBool false)].

Definition operator_handoff_schema : value :=
  VDict [
    ("$schema", VStr "https://json-schema.org/draft/2020-12/schema");
    ("$id", VStr "https://mesh.local/contracts/operator-handoff.schema.json");
    ("title", VStr "OperatorHandoff");
    ("type", VStr "object");
    ("required", VList [
      VStr "schema_version";
      VStr "handoff_id";
      VStr "run_id";
      VStr "created_at";
      VStr "from_operator";
      VStr "to_operator";
      VStr "reason";
      VStr "next_action";
      VStr "urgency";
      VStr "status";
      VStr "related_event_id";
      VStr "due_at"]);
    ("additionalProperties", VBool false);
    ("properties", VDict [
      ("schema_version", VDict [("type", VStr "string"); ("enum", VList [VStr "mesh.operator_handoff.v1"])]);
      ("handoff_id", VDict [("type", VStr "string")]);
      ("run_id", VDict [("type", VStr "string")]);
      ("created_at", VDict [("type", VStr "string")]);
      ("from_operator", VDict [
        ("type", VStr "object");
        ("required", VList [VStr "operator_id"; VStr "roles"; VStr "source"]);
        ("additionalProperties", VBool false);
        ("properties", VDict [
          ("operator_id", VDict [("type", VStr "string")]);
          ("roles", VDict [("type", VStr "array"); ("items", VDict [("type", VStr "string")])]);
          ("source", VDict [("type", VStr "string")])])]);
      ("to_operator", VDict [
        ("type", VStr "object");
        ("required", VList [VStr "operator_id"; VStr "roles"; VStr "source"]);
        ("additionalProperties", VBool false);
        ("properties", VDict [
          ("operator_id", VDict [("type", VStr "string")]);
          ("roles", VDict [("type", VStr "array"); ("items", VDict [("type", VStr "string")])]);
          ("source", VDict [("type", VStr "string")])])]);
      ("reason", VDict [("type", VStr "string")]);
      ("next_action", VDict [("type", VStr "string")]);
      ("urgency", VDict [
        ("type", VStr "string");
        ("enum", VList [VStr "low"; VStr "normal"; VStr "high"; VStr "critical"])]);
      ("status", VDict [
        ("type", VStr "string");
        ("enum", VList [VStr "open"; VStr "acknowledged"; VStr "resolved"; VStr "cancelled"])]);
      ("related_event_id", VDict [("type", VList [VStr "string"; VStr "null"])]);
      ("due_at", VDict [("type", VList [VStr "string"; VStr "null"])])])].

Definition override_review_schema : value :=
  VDict [
    ("$schema", VStr "https://json-schema.org/draft/2020-12/schema");
    ("$id", VStr "https://mesh.local/contracts/override-review.schema.json");
    ("title", VStr "OverrideReview");
    ("type", VStr "object");
    ("required", VList [
      VStr "schema_version";
      VStr "review_id";
      VStr "run_id";
      VStr "created_at";
      VStr "reviewer";
      VStr "override_command";
      VStr "independent_reviewer";
      VStr "verdict";
      VStr "reason";
      VStr "findings";
      VStr "action_items";
      VStr "related_event_id"]);
    ("additionalProperties", VBool false);
    ("properties", VDict [
      ("schema_version", VDict [("type", VStr "string"); ("enum", VList [VStr "mesh.override_review.v1"])]);
      ("review_id", VDict [("type", VStr "string")]);
      ("run_id", VDict [("type", VStr "string")]);
      ("created_at", VDict [("type", VStr "string")]);
      ("reviewer", VDict [
        ("type", VStr "object");
        ("required", VList [VStr "operator_id"; VStr "roles"; VStr "source"]);
        ("additionalProperties", VBool false);
        ("properties", VDict [
          ("operator_id", VDict [("type", VStr "string")]);
          ("roles", VDict [("type", VStr "array"); ("items", VDict [("type", VStr "string")])]);
          ("source", VDict [("type", VStr "string")])])]);
      ("override_command", VDict [
        ("type", VStr "object");
        ("required", VList [
          VStr "event_id";
          VStr "command_id";
          VStr "command_type";
          VStr "issued_at";
          VStr "operator_id"]);
        ("additionalProperties", VBool false);
        ("properties", VDict [
          ("event_id", VDict [("type", VStr "string")]);
          ("command_id", VDict [("type", VStr "string")]);
          ("command_type", VDict [
            ("type", VStr "string");
            ("enum", VList [VStr "override_decision"; VStr "override_execution_parameters"])]);
          ("issued_at", VDict [("type", VStr "string")]);
          ("operator_id", VDict [("type", VList [VStr "string"; VStr "null"])])])]);
      ("independent_reviewer", VDict [("type", VStr "boolean")]);
      ("verdict", VDict [
        ("type", VStr "string");
        ("enum", VList [VStr "accepted"; VStr "needs_followup"; VStr "rejected"])]);
      ("reason", VDict [("type", VStr "string")]);
      ("findings", VDict [("type", VStr "array"); ("items", VDict [("type", VStr "string")])]);
      ("action_items", VDict [("type", VStr "array"); ("items", VDict [("type", VStr "string")])]);
      ("related_event_id", VDict [("type", VList [VStr "string"; VStr "null"])])])].

Definition postmortem_review_schema : value :=
  VDict [
    ("$schema", VStr "https://json-schema.org/draft/2020-12/schema");
    ("$id", VStr "https://mesh.local/contracts/postmortem-review.schema.json");
    ("title", VStr "PostmortemReview");
    ("type", VStr "object");
    ("required", VList [
      VStr "schema_version";
      VStr "review_id";
      VStr "run_id";
      VStr "created_at";
      VStr "reviewer";
      VStr "launcher_operator_id";
      VStr "independent_reviewer";
      VStr "verdict";
      VStr "findings";
      VStr "action_items";
      VStr "reviewed_export_id";
      VStr "reviewed_package_sha256";
      VStr "related_event_id"]);
    ("additionalProperties", VBool false);
    ("properties", VDict [
      ("schema_version", VDict [("type", VStr "string"); ("enum", VList [VStr "mesh.postmortem_review.v1"])]);
      ("review_id", VDict [("type", VStr "string")]);
      ("run_id", VDict [("type", VStr "string")]);
      ("created_at", VDict [("type", VStr "string")]);
      ("reviewer", VDict [
        ("type", VStr "object");
        ("required", VList [VStr "operator_id"; VStr "roles"; VStr "source"]);
        ("additionalProperties", VBool false);
        ("properties", VDict [
          ("operator_id", VDict [("type", VStr "string")]);
          ("roles", VDict [("type", VStr "array"); ("items", VDict [("type", VStr "string")])]);
          ("source", VDict [("type", VStr "string")])])]);
      ("launcher_operator_id", VDict [("type", VList [VStr "string"; VStr "null"])]);
      ("independent_reviewer", VDict [("type", VStr "boolean")]);
      ("verdict", VDict [
        ("type", VStr "string");
        ("enum", VList [VStr "accepted"; VStr "needs_followup"; VStr "rejected"])]);
      ("findings", VDict [("type", VStr "array"); ("items", VDict [("type", VStr "string")])]);
      ("action_items", VDict [("type", VStr "array"); ("items", VDict [("type", VStr "string")])]);
      ("reviewed_export_id", VDict [("type", VList [VStr "string"; VStr "null"])]);
      ("reviewed_package_sha256", VDict [("type", VList [VStr "string"; VStr "null"])]);
      ("related_event_id", VDict [("type", VList [VStr "string"; VStr "null"])])])].

Definition watcher_ownership_schema : value :=
  VDict [
    ("$schema", VStr "https://json-schema.org/draft/2020-12/schema");
    ("$id", VStr "https://mesh.local/contracts/watcher-ownership.schema.json");
    ("title", VStr "WatcherOwnership");
    ("type", VStr "object");
    ("required", VList [
      VStr "schema_version";
      VStr "status";
      VStr "environment";
      VStr "watcher_count";
      VStr "resolved_watcher_count";
      VStr "unresolved_watchers";
      VStr "source_refs";
      VStr "watchers"]);
    ("properties", VDict [
      ("schema_version", VDict [("type", VStr "string"); ("enum", VList [VStr "mesh.watcher_ownership.v1"])]);
      ("status", VDict [
        ("type", VStr "string");
        ("enum", VList [VStr "complete"; VStr "blocked"; VStr "empty"])]);
      ("environment", VDict [("type", VStr "string")]);
      ("watcher_count", VDict [("type", VStr "integer"); ("minimum", VInt 0)]);
      ("resolved_watcher_count", VDict [("type", VStr "integer"); ("minimum", VInt 0)]);
      ("unresolved_watchers", VDict [("type", VStr "array"); ("items", VDict [("type", VStr "string")])]);
      ("source_refs", VDict [("type", VStr "array"); ("items", VDict [("type", VStr "string")])]);
      ("watchers", VDict [
        ("type", VStr "array");
        ("items", VDict [
          ("type", VStr "object");
          ("required", VList [
            VStr "name";
            VStr "signal_source";
            VStr "running";
            VStr "target_count";
            VStr "resolved_target_count";
            VStr "owner";
            VStr "targets";
            VStr "blockers"]);
          ("properties", VDict [
            ("name", VDict [("type", VStr "string")]);
            ("signal_source", VDict [("type", VStr "string")]);
            ("running", VDict [("type", VStr "boolean")]);
            ("target_count", VDict [("type", VStr "integer"); ("minimum", VInt 0)]);
            ("resolved_target_count", VDict [("type", VStr "integer"); ("minimum", VInt 0)]);
            ("owner", VDict [("type", VStr "object")]);
            ("targets", VDict [
              ("type", VStr "array");
              ("items", VDict [
                ("type", VStr "object");
                ("required", VList [
                  VStr "service";
                  VStr "namespace";
                  VStr "kube_context";
                  VStr "environment";
                  VStr "resolved";
                  VStr "record_id";
                  VStr "owner";
                  VStr "tenant_id";
                  VStr "customer_id";
                  VStr "customer_boundary";
                  VStr "approver_roles";
                  VStr "rollback_authority";
                  VStr "escalation_route";
                  VStr "allowed_action_classes";
                  VStr "blockers"]);
                ("properties", VDict [
                  ("service", VDict [("type", VStr "string")]);
                  ("namespace", VDict [("type", VStr "string")]);
                  ("kube_context", VDict [("type", VList [VStr "string"; VStr "null"])]);
                  ("environment", VDict [("type", VStr "string")]);
                  ("resolved", VDict [("type", VStr "boolean")]);
                  ("record_id", VDict [("type", VStr "string")]);
                  ("owner", VDict [("type", VStr "object")]);
                  ("tenant_id", VDict [("type", VStr "string")]);
                  ("customer_id", VDict [("type", VStr "string")]);
                  ("customer_boundary", VDict [("type", VStr "string")]);
                  ("approver_roles", VDict [("type", VStr "array"); ("items", VDict [("type", VStr "string")])]);
                  ("rollback_authority", VDict [("type", VStr "object")]);
                  ("escalation_route", VDict [("type", VStr "string")]);
                  ("allowed_action_classes", VDict [("type", VStr "array"); ("items", VDict [("type", VStr "string")])]);
                  ("blockers", VDict [("type", VStr "array"); ("items", VDict [("type", VStr "string")])])]);
                ("additionalProperties", VBool false)])]);
            ("blockers", VDict [("type", VStr "array"); ("items", VDict [("type", VStr "string")])])]);
          ("additionalProperties", VBool false)])])]);
    ("additionalProperties", VBool false)].

Definition trigger_schema : value :=
  VDict [
    ("$schema", VStr "https://json-schema.org/draft/2020-12/schema");
    ("$id", VStr "https://mesh.local/contracts/trigger.schema.json");
    ("title", VStr "Trigger");
    ("type", VStr "object");
    ("required", VList [
      VStr "trigger_id";
      VStr "trigger_type";
      VStr "triggered_at";
      VStr "environment";
      VStr "service";
      VStr "endpoint";
      VStr "flag_key";
      VStr "current_rollout_pct";
      VStr "comparison_window";
      VStr "segment";
      VStr "metrics";
      VStr "related_context"]);
    ("properties", VDict [
      ("trigger_id", VDict [("type", VStr "string")]);
      ("trigger_type", VDict [
        ("type", VStr "string");
        ("enum", VList [
          VStr "feature_flag_performance_regression";
          VStr "kubernetes_deployment_unhealthy";
          VStr "otel_metric_regression";
          VStr "reth_node_degraded";
          VStr "webhook_alert_firing";
          VStr "generic_signal_firing"])]);
      ("triggered_at", VDict [("type", VStr "string"); ("format", VStr "date-time")]);
      ("environment", VDict [("type", VStr "string")]);
      ("service", VDict [("type", VStr "string")]);
      ("endpoint", VDict [("type", VStr "string")]);
      ("flag_key", VDict [("type", VList [VStr "string"; VStr "null"])]);
      ("current_rollout_pct", VDict [("type", VList [VStr "integer"; VStr "null"])]);
      ("comparison_window", VDict [
        ("type", VList [VStr "object"; VStr "null"]);
        ("required", VList [VStr "baseline"; VStr "observed"]);
        ("properties", VDict [
          ("baseline", VDict [("type", VStr "string")]);
          ("observed", VDict [("type", VStr "string")])]);
        ("additionalProperties", VBool false)]);
      ("segment", VDict [
        ("type", VStr "object");
        ("properties", VDict [
          ("customer_tier", VDict [("type", VStr "string")]);
          ("region", VDict [("type", VStr "string")])]);
        ("additionalProperties", VBool false)]);
      ("metrics", VDict [
        ("type", VStr "object");
        ("required", VList [
          VStr "baseline_p95_latency_ms";
          VStr "observed_p95_latency_ms";
          VStr "baseline_error_rate";
          VStr "observed_error_rate";
          VStr "sample_size"]);
        ("properties", VDict [
          ("baseline_p95_latency_ms", VDict [("type", VList [VStr "number"; VStr "null"])]);
          ("observed_p95_latency_ms", VDict [("type", VList [VStr "number"; VStr "null"])]);
          ("baseline_error_rate", VDict [("type", VList [VStr "number"; VStr "null"])]);
          ("observed_error_rate", VDict [("type", VList [VStr "number"; VStr "null"])]);
          ("baseline_timeout_rate", VDict [("type", VList [VStr "number"; VStr "null"])]);
          ("observed_timeout_rate", VDict [("type", VList [VStr "number"; VStr "null"])]);
          ("sample_size", VDict [("type", VList [VStr "integer"; VStr "null"])]);
          ("restart_count_total", VDict [("type", VList [VStr "integer"; VStr "null"])]);
          ("desired_replicas", VDict [("type", VList [VStr "integer"; VStr "null"])]);
          ("available_replicas", VDict [("type", VList [VStr "integer"; VStr "null"])]);
          ("peer_count", VDict [("type", VList [VStr "integer"; VStr "null"])]);
          ("block_lag", VDict [("type", VList [VStr "integer"; VStr "null"])]);
          ("disk_used_pct", VDict [("type", VList [VStr "number"; VStr "null"])])]);
        ("additionalProperties", VBool false)]);
      ("related_context", VDict [
        ("type", VStr "object");
        ("required", VList [VStr "release_id"; VStr "active_incidents"; VStr "similar_prior_cases"]);
        ("properties", VDict [
          ("release_id", VDict [("type", VList [VStr "string"; VStr "null"])]);
          ("active_incidents", VDict [("type", VStr "integer")]);
          ("similar_prior_cases", VDict [("type", VStr "integer")]);
          ("rollbacks_last_24h", VDict [("type", VStr "integer")]);
          ("regressions_last_7d", VDict [("type", VStr "integer")])]);
        ("additionalProperties", VBool true)])]);
    ("additionalProperties", VBool false)].

Definition decision_schema : value :=
  VDict [
    ("$schema", VStr "https://json-schema.org/draft/2020-12/schema");
    ("$id", VStr "https://mesh.local/contracts/decision.schema.json");
    ("title", VStr "Decision");
    ("type", VStr "object");
    ("required", VList [
      VStr "decision_id";
      VStr "trigger_id";
      VStr "decision_type";
      VStr "autonomy_tier";
      VStr "summary";
      VStr "reasoning";
      VStr "expected_outcome";
      VStr "risk";
      VStr "confidence";
      VStr "execution_plan"]);
    ("properties", VDict [
      ("decision_id", VDict [("type", VStr "string")]);
      ("trigger_id", VDict [("type", VStr "string")]);
      ("decision_type", VDict [
        ("type", VStr "string");
        ("enum", VList [
          VStr "no_action";
          VStr "reduce_rollout";
          VStr "disable_flag";
          VStr "defer_until";
          VStr "escalate";
          VStr "investigate_and_patch";
          VStr "rollback_deployment";
          VStr "restart_deployment";
          VStr "scale_deployment";
          VStr "patch_resources";
          VStr "restart_systemd_service"])]);
      ("autonomy_tier", VDict [
        ("type", VStr "string");
        ("enum", VList [VStr "autonomous"; VStr "approval_required"; VStr "escalated"])]);
      ("summary", VDict [("type", VStr "string")]);
      ("reasoning", VDict [
        ("type", VStr "object");
        ("required", VList [VStr "primary_hypothesis"; VStr "evidence"; VStr "alternatives_considered"]);
        ("properties", VDict [
          ("primary_hypothesis", VDict [("type", VStr "string")]);
          ("evidence", VDict [
            ("type", VStr "array");
            ("items", VDict [("type", VStr "string")]);
            ("minItems", VInt 1)]);
          ("evidence_pack", VDict [("type", VStr "object")]);
          ("ranked_hypotheses", VDict [("type", VStr "array"); ("items", VDict [("type", VStr "object")])]);
          ("observer_verdict", VDict [("type", VList [VStr "object"; VStr "null"])]);
          ("alternatives_considered", VDict [
            ("type", VStr "array");
            ("items", VDict [("type", VStr "string")]);
            ("minItems", VInt 1)])]);
        ("additionalProperties", VBool false)]);
      ("expected_outcome", VDict [
        ("type", VStr "object");
        ("required", VList [VStr "target_metrics"; VStr "time_to_effect"]);
        ("properties", VDict [
          ("target_metrics", VDict [
            ("type", VStr "object");
            ("required", VList [VStr "p95_latency_ms"; VStr "error_rate"]);
            ("properties", VDict [
              ("p95_latency_ms", VDict [("type", VStr "string")]);
              ("error_rate", VDict [("type", VStr "string")])]);
            ("additionalProperties", VBool false)]);
          ("time_to_effect", VDict [("type", VStr "string")])]);
        ("additionalProperties", VBool false)]);
      ("risk", VDict [
        ("type", VStr "object");
        ("required", VList [VStr "level"; VStr "blast_radius"; VStr "customer_impact_if_wrong"]);
        ("properties", VDict [
          ("level", VDict [
            ("type", VStr "string");
            ("enum", VList [VStr "low"; VStr "medium"; VStr "high"])]);
          ("blast_radius", VDict [("type", VStr "string")]);
          ("customer_impact_if_wrong", VDict [("type", VStr "string")])]);
        ("additionalProperties", VBool false)]);
      ("confidence", VDict [("type", VStr "number"); ("minimum", VInt 0); ("maximum", VInt 1)]);
      ("execution_plan", VDict [
        ("type", VStr "object");
        ("required", VList [VStr "system"; VStr "action"; VStr "parameters"; VStr "rollback_plan"]);
        ("properties", VDict [
          ("system", VDict [
            ("type", VStr "string");
            ("enum", VList [
              VStr "feature_flag_service";
              VStr "incident_service";
              VStr "audit_log_sink";
              VStr "repo_patch_service";
              VStr "kubernetes_service";
              VStr "systemd_service"])]);
          ("action", VDict [
            ("type", VStr "string");
            ("enum", VList [
              VStr "set_rollout";
              VStr "open_incident";
              VStr "record_no_action";
              VStr "record_defer_until";
              VStr "investigate_and_patch";
              VStr "rollback_deployment";
              VStr "restart_deployment";
              VStr "scale_deployment";
              VStr "patch_resources";
              VStr "restart_systemd_service";
              VStr "start_systemd_service";
              VStr "stop_systemd_service"])]);
          ("parameters", VDict [("type", VStr "object")]);
          ("rollback_plan", VDict [("type", VStr "string")])]);
        ("additionalProperties", VBool false)])]);
    ("additionalProperties", VBool false)].

Definition evidence_node_schema : value :=
  VDict [
    ("$schema", VStr "https://json-schema.org/draft/2020-12/schema");
    ("$id", VStr "https://mesh.local/contracts/evidence-node.schema.json");
    ("title", VStr "EvidenceNode");
    ("type", VStr "object");
    ("required", VList [
      VStr "evidence_id";
      VStr "run_id";
      VStr "analyzer";
      VStr "kind";
      VStr "summary";
      VStr "payload";
      VStr "source_event_ids";
      VStr "confidence";
      VStr "trusted"]);
    ("properties", VDict [
      ("evidence_id", VDict [("type", VStr "string")]);
      ("run_id", VDict [("type", VList [VStr "string"; VStr "null"])]);
      ("analyzer", VDict [("type", VStr "string")]);
      ("kind", VDict [("type", VStr "string")]);
      ("summary", VDict [("type", VStr "string")]);
      ("payload", VDict [("type", VStr "object")]);
      ("source_event_ids", VDict [("type", VStr "array"); ("items", VDict [("type", VStr "string")])]);
      ("confidence", VDict [("type", VStr "number")]);
      ("trusted", VDict [("type", VStr "boolean")])]);
    ("additionalProperties", VBool false)].

Definition subdecision_schema : value :=
  VDict [
    ("$schema", VStr "https://json-schema.org/draft/2020-12/schema");
    ("$id", VStr "https://mesh.local/contracts/subdecision.schema.json");
    ("title", VStr "Subdecision");
    ("type", VStr "object");
    ("required", VList [
      VStr "subdecision_id";
      VStr "analyzer";
      VStr "recommendation";
      VStr "confidence";
      VStr "risk_level";
      VStr "reasons";
      VStr "evidence_refs";
      VStr "requires_review"]);
    ("properties", VDict [
      ("subdecision_id", VDict [("type", VStr "string")]);
      ("analyzer", VDict [("type", VStr "string")]);
      ("recommendation", VDict [
        ("type", VStr "string");
        ("enum", VList [
          VStr "no_action";
          VStr "reduce_rollout";
          VStr "disable_flag";
          VStr "escalate";
          VStr "investigate_and_patch";
          VStr "rollback_deployment";
          VStr "restart_deployment";
          VStr "restart_systemd_service";
          VStr "scale_deployment";
          VStr "patch_resources";
          VStr "approval_required"])]);
      ("confidence", VDict [("type", VStr "number")]);
      ("risk_level", VDict [("type", VStr "string"); ("enum", VList [VStr "low"; VStr "medium"; VStr "high"])]);
      ("reasons", VDict [("type", VStr "array"); ("items", VDict [("type", VStr "string")])]);
      ("evidence_refs", VDict [("type", VStr "array"); ("items", VDict [("type", VStr "string")])]);
      ("requires_review", VDict [("type", VStr "boolean")])]);
    ("additionalProperties", VBool false)].

Definition scenario_analysis_schema : value :=
  VDict [
    ("$schema", VStr "https://json-schema.org/draft/2020-12/schema");
    ("$id", VStr "https://mesh.local/contracts/scenario-analysis.schema.json");
    ("title", VStr "ScenarioAnalysis");
    ("type", VStr "object");
    ("required", VList [
      VStr "analysis_id";
      VStr "trigger_id";
      VStr "created_at";
      VStr "suggested_decision_type";
      VStr "confidence";
      VStr "risk_level";
      VStr "autonomy_tier_hint";
      VStr "required_review_reasons";
      VStr "evidence_refs";
      VStr "subdecisions";
      VStr "evidence_nodes"]);
    ("properties", VDict [
      ("analysis_id", VDict [("type", VStr "string")]);
      ("trigger_id", VDict [("type", VStr "string")]);
      ("created_at", VDict [("type", VStr "string")]);
      ("suggested_decision_type", VDict [
        ("type", VStr "string");
        ("enum", VList [
          VStr "no_action";
          VStr "reduce_rollout";
          VStr "disable_flag";
          VStr "escalate";
          VStr "investigate_and_patch";
          VStr "rollback_deployment";
          VStr "restart_deployment";
          VStr "restart_systemd_service"])]);
      ("confidence", VDict [("type", VStr "number")]);
      ("risk_level", VDict [("type", VStr "string"); ("enum", VList [VStr "low"; VStr "medium"; VStr "high"])]);
      ("autonomy_tier_hint", VDict [
        ("type", VStr "string");
        ("enum", VList [VStr "autonomous"; VStr "approval_required"; VStr "escalated"])]);
      ("required_review_reasons", VDict [("type", VStr "array"); ("items", VDict [("type", VStr "string")])]);
      ("evidence_refs", VDict [("type", VStr "array"); ("items", VDict [("type", VStr "string")])]);
      ("subdecisions", VDict [("type", VStr "array"); ("items", VDict [("type", VStr "object")])]);
      ("evidence_nodes", VDict [("type", VStr "array"); ("items", VDict [("type", VStr "object")])]);
      ("merkle_root", VDict [("type", VList [VStr "string"; VStr "null"])]);
      ("merkle_event_ids", VDict [
        ("type", VList [VStr "array"; VStr "null"]);
        ("items", VDict [("type", VStr "string")])]);
      ("quality_measurements", VDict [("type", VList [VStr "object"; VStr "null"])])]);
    ("additionalProperties", VBool false)].

Definition investigation_plan_schema : value :=
  VDict [
    ("$schema", VStr "https://json-schema.org/draft/2020-12/schema");
    ("$id", VStr "https://mesh.local/contracts/investigation-plan.schema.json");
    ("title", VStr "InvestigationPlan");
    ("type", VStr "object");
    ("required", VList [
      VStr "plan_id";
      VStr "trigger_id";
      VStr "created_at";
      VStr "objective";
      VStr "probe_budget";
      VStr "probes"]);
    ("properties", VDict [
      ("plan_id", VDict [("type", VStr "string")]);
      ("trigger_id", VDict [("type", VStr "string")]);
      ("created_at", VDict [("type", VStr "string")]);
      ("objective", VDict [("type", VStr "string")]);
      ("probe_budget", VDict [
        ("type", VStr "object");
        ("properties", VDict [
          ("max_probes", VDict [("type", VStr "integer")]);
          ("max_total_latency_ms", VDict [("type", VStr "integer")]);
          ("mode", VDict [("type", VStr "string")])])]);
      ("probes", VDict [
        ("type", VStr "array");
        ("items", VDict [
          ("type", VStr "object");
          ("required", VList [VStr "probe_id"; VStr "name"; VStr "purpose"; VStr "read_only"]);
          ("properties", VDict [
            ("probe_id", VDict [("type", VStr "string")]);
            ("name", VDict [("type", VStr "string")]);
            ("purpose", VDict [("type", VStr "string")]);
            ("read_only", VDict [("type", VStr "boolean")])])])])]);
    ("additionalProperties", VBool false)].

Definition investigation_probe_result_schema : value :=
  VDict [
    ("$schema", VStr "https://json-schema.org/draft/2020-12/schema");
    ("$id", VStr "https://mesh.local/contracts/investigation-probe-result.schema.json");
    ("title", VStr "InvestigationProbeResult");
    ("type", VStr "object");
    ("required", VList [
      VStr "probe_id";
      VStr "name";
      VStr "status";
      VStr "started_at";
      VStr "completed_at";
      VStr "latency_ms";
      VStr "summary";
      VStr "findings";
      VStr "citations"]);
    ("properties", VDict [
      ("probe_id", VDict [("type", VStr "string")]);
      ("name", VDict [("type", VStr "string")]);
      ("status", VDict [
        ("type", VStr "string");
        ("enum", VList [VStr "completed"; VStr "skipped"; VStr "failed"])]);
      ("started_at", VDict [("type", VStr "string")]);
      ("completed_at", VDict [("type", VStr "string")]);
      ("latency_ms", VDict [("type", VStr "number")]);
      ("summary", VDict [("type", VStr "string")]);
      ("findings", VDict [("type", VStr "array"); ("items", VDict [("type", VStr "object")])]);
      ("citations", VDict [("type", VStr "array"); ("items", VDict [("type", VStr "object")])]);
      ("error", VDict [("type", VList [VStr "string"; VStr "null"])])]);
    ("additionalProperties", VBool false)].

Definition investigation_report_schema : value :=
  VDict [
    ("$schema", VStr "https://json-schema.org/draft/2020-12/schema");
    ("$id", VStr "https://mesh.local/contracts/investigation-report.schema.json");
    ("title", VStr "InvestigationReport");
    ("type", VStr "object");
    ("required", VList [
      VStr "report_id";
      VStr "trigger_id";
      VStr "created_at";
      VStr "plan";
      VStr "probe_results";
      VStr "findings";
      VStr "citations";
      VStr "uncertainty";
      VStr "stop_reason";
      VStr "recommended_next_step";
      VStr "safety_notes"]);
    ("properties", VDict [
      ("report_id", VDict [("type", VStr "string")]);
      ("trigger_id", VDict [("type", VStr "string")]);
      ("created_at", VDict [("type", VStr "string")]);
      ("plan", VDict [("type", VStr "object")]);
      ("probe_results", VDict [("type", VStr "array"); ("items", VDict [("type", VStr "object")])]);
      ("findings", VDict [("type", VStr "array"); ("items", VDict [("type", VStr "object")])]);
      ("citations", VDict [("type", VStr "array"); ("items", VDict [("type", VStr "object")])]);
      ("uncertainty", VDict [("type", VStr "number")]);
      ("stop_reason", VDict [("type", VStr "string")]);
      ("recommended_next_step", VDict [("type", VStr "string")]);
      ("safety_notes", VDict [("type", VStr "array"); ("items", VDict [("type", VStr "string")])]);
      ("root_cause_candidates", VDict [("type", VStr "array"); ("items", VDict [("type", VStr "object")])])]);
    ("additionalProperties", VBool false)].

Definition rca_report_schema : value :=
  VDict [
    ("$schema", VStr "https://json-schema.org/draft/2020-12/schema");
    ("$id", VStr "https://mesh.local/contracts/rca-report.schema.json");
    ("title", VStr "RcaReport");
    ("type", VStr "object");
    ("required", VList [
      VStr "report_id";
      VStr "trigger_id";
      VStr "created_at";
      VStr "likely_cause";
      VStr "confidence";
      VStr "supporting_evidence";
      VStr "disconfirming_evidence";
      VStr "ruled_out_causes";
      VStr "unknowns";
      VStr "evidence_checked";
      VStr "recommended_next_step";
      VStr "safety_reason"]);
    ("properties", VDict [
      ("report_id", VDict [("type", VStr "string")]);
      ("trigger_id", VDict [("type", VStr "string")]);
      ("created_at", VDict [("type", VStr "string")]);
      ("likely_cause", VDict [("type", VStr "string")]);
      ("confidence", VDict [("type", VStr "number"); ("minimum", VInt 0); ("maximum", VInt 1)]);
      ("supporting_evidence", VDict [("type", VStr "array"); ("items", VDict [("type", VStr "string")])]);
      ("disconfirming_evidence", VDict [("type", VStr "array"); ("items", VDict [("type", VStr "string")])]);
      ("ruled_out_causes", VDict [("type", VStr "array"); ("items", VDict [("type", VStr "string")])]);
      ("unknowns", VDict [("type", VStr "array"); ("items", VDict [("type", VStr "string")])]);
      ("evidence_checked", VDict [
        ("type", VStr "array");
        ("items", VDict [("type", VStr "object"); ("additionalProperties", VBool true)])]);
      ("recommended_next_step", VDict [("type", VStr "string")]);
      ("safety_reason", VDict [("type", VStr "string")])]);
    ("additionalProperties", VBool false)].

Definition recursive_chaos_arena_profile_schema : value :=
  VDict [
    ("title", VStr "RecursiveChaosArenaProfile");
    ("type", VStr "object");
    ("required", VList [
      VStr "schema_version";
      VStr "profile_id";
      VStr "display_name";
      VStr "arena_domain";
      VStr "safety_class";
      VStr "environment";
      VStr "target_refs";
      VStr "allowed_faults";
      VStr "blocked_faults";
      VStr "max_recursion_depth";
      VStr "cycle_budget";
      VStr "recovery_objectives";
      VStr "evidence_requirements"]);
    ("additionalProperties", VBool false);
    ("properties", VDict [
      ("schema_version", VDict [
        ("type", VStr "string");
        ("enum", VList [VStr "mesh.recursive_chaos.arena_profile.v1"])]);
      ("profile_id", VDict [("type", VStr "string")]);
      ("display_name", VDict [("type", VStr "string")]);
      ("arena_domain", VDict [
        ("type", VStr "string");
        ("enum", VList [
          VStr "kubernetes_service_platform";
          VStr "hardened_image_supply_chain";
          VStr "ai_model_serving_inference";
          VStr "ai_agent_tool_execution";
          VStr "durable_data_plane";
          VStr "vector_rag_retrieval";
          VStr "observability_signal_trust";
          VStr "crypto_rpc_node_mesh";
          VStr "cross_chain_verifier_signer";
          VStr "queue_event_workflow_plane";
          VStr "identity_authority_secrets";
          VStr "network_gateway_service_mesh";
          VStr "cicd_gitops_release";
          VStr "multi_region_provider_plane";
          VStr "capacity_scheduler_finops";
          VStr "evidence_audit_forensics"])]);
      ("safety_class", VDict [
        ("type", VStr "string");
        ("enum", VList [
          VStr "local_disposable";
          VStr "staging_owned";
          VStr "production_probe_only";
          VStr "production_mutating_blocked"])]);
      ("environment", VDict [("type", VStr "string")]);
      ("target_refs", VDict [
        ("type", VStr "array");
        ("minItems", VInt 1);
        ("items", VDict [("type", VStr "string")])]);
      ("allowed_faults", VDict [("type", VStr "array"); ("items", VDict [("type", VStr "string")])]);
      ("blocked_faults", VDict [("type", VStr "array"); ("items", VDict [("type", VStr "string")])]);
      ("max_recursion_depth", VDict [("type", VStr "integer")]);
      ("cycle_budget", VDict [
        ("type", VStr "object");
        ("required", VList [VStr "max_cycles"; VStr "max_duration_seconds"; VStr "max_parallel_faults"]);
        ("additionalProperties", VBool false);
        ("properties", VDict [
          ("max_cycles", VDict [("type", VStr "integer")]);
          ("max_duration_seconds", VDict [("type", VStr "integer")]);
          ("max_parallel_faults", VDict [("type", VStr "integer")])])]);
      ("recovery_objectives", VDict [
        ("type", VStr "object");
        ("required", VList [
          VStr "max_recovery_seconds";
          VStr "max_residual_drift";
          VStr "requires_post_state_probe"]);
        ("additionalProperties", VBool false);
        ("properties", VDict [
          ("max_recovery_seconds", VDict [("type", VStr "integer")]);
          ("max_residual_drift", VDict [("type", VStr "number")]);
          ("requires_post_state_probe", VDict [("type", VStr "boolean")])])]);
      ("evidence_requirements", VDict [
        ("type", VStr "object");
        ("required", VList [
          VStr "bind_run_id";
          VStr "bind_decision_id";
          VStr "bind_environment";
          VStr "bind_image_digest";
          VStr "require_recovery_packet"]);
        ("additionalProperties", VBool false);
        ("properties", VDict [
          ("bind_run_id", VDict [("type", VStr "boolean")]);
          ("bind_decision_id", VDict [("type", VStr "boolean")]);
          ("bind_environment", VDict [("type", VStr "boolean")]);
          ("bind_image_digest", VDict [("type", VStr "boolean")]);
          ("require_recovery_packet", VDict [("type", VStr "boolean")])])])])].

Definition recursive_chaos_experiment_manifest_schema : value :=
  VDict [
    ("title", VStr "RecursiveChaosExperimentManifest");
    ("type", VStr "object");
    ("required", VList [
      VStr "schema_version";
      VStr "manifest_id";
      VStr "profile_id";
      VStr "created_at";
      VStr "runner";
      VStr "safety_class";
      VStr "target_refs";
      VStr "experiments";
      VStr "safety_gates";
      VStr "mesh_integration";
      VStr "environment"]);
    ("additionalProperties", VBool false);
    ("properties", VDict [
      ("schema_version", VDict [
        ("type", VStr "string");
        ("enum", VList [VStr "mesh.recursive_chaos.experiment_manifest.v1"])]);
      ("manifest_id", VDict [("type", VStr "string")]);
      ("profile_id", VDict [("type", VStr "string")]);
      ("created_at", VDict [("type", VStr "string")]);
      ("runner", VDict [("type", VStr "string")]);
      ("safety_class", VDict [
        ("type", VStr "string");
        ("enum", VList [
          VStr "local_disposable";
          VStr "staging_owned";
          VStr "production_probe_only";
          VStr "production_mutating_blocked"])]);
      ("target_refs", VDict [
        ("type", VStr "array");
        ("minItems", VInt 1);
        ("items", VDict [("type", VStr "string")])]);
      ("experiments", VDict [
        ("type", VStr "array");
        ("minItems", VInt 1);
        ("items", VDict [
          ("type", VStr "object");
          ("required", VList [
            VStr "experiment_id";
            VStr "fault_family";
            VStr "target_ref";
            VStr "mutates_target";
            VStr "expected_mesh_decision"]);
          ("additionalProperties", VBool false);
          ("properties", VDict [
            ("experiment_id", VDict [("type", VStr "string")]);
            ("fault_family", VDict [("type", VStr "string")]);
            ("target_ref", VDict [("type", VStr "string")]);
            ("mutates_target", VDict [("type", VStr "boolean")]);
            ("expected_mesh_decision", VDict [("type", VStr "string")])])])]);
      ("safety_gates", VDict [
        ("type", VStr "object");
        ("required", VList [VStr "allow_mutation"; VStr "requires_probe_only"; VStr "forbidden_actions"]);
        ("additionalProperties", VBool false);
        ("properties", VDict [
          ("allow_mutation", VDict [("type", VStr "boolean")]);
          ("requires_probe_only", VDict [("type", VStr "boolean")]);
          ("forbidden_actions", VDict [("type", VStr "array"); ("items", VDict [("type", VStr "string")])])])]);
      ("mesh_integration", VDict [
        ("type", VStr "object");
        ("required", VList [
          VStr "creates_run";
          VStr "records_decision";
          VStr "operator_approval_respected";
          VStr "seals_packets_before_learning"]);
        ("additionalProperties", VBool false);
        ("properties", VDict [
          ("creates_run", VDict [("type", VStr "boolean")]);
          ("records_decision", VDict [("type", VStr "boolean")]);
          ("operator_approval_respected", VDict [("type", VStr "boolean")]);
          ("seals_packets_before_learning", VDict [("type", VStr "boolean")])])]);
      ("environment", VDict [("type", VStr "string")])])].

Definition recursive_chaos_cycle_packet_schema : value :=
  VDict [
    ("title", VStr "RecursiveChaosCyclePacket");
    ("type", VStr "object");
    ("required", VList [
      VStr "schema_version";
      VStr "cycle_id";
      VStr "manifest_id";
      VStr "profile_id";
      VStr "run_id";
      VStr "decision_id";
      VStr "started_at";
      VStr "completed_at";
      VStr "recursion_depth";
      VStr "selected_experiment";
      VStr "target";
      VStr "pre_state_ref";
      VStr "fault_state_ref";
      VStr "mesh_observation";
      VStr "safety_verdict";
      VStr "recovery_packet_id";
      VStr "learning_packet_id";
      VStr "evidence_refs";
      VStr "sealed"]);
    ("additionalProperties", VBool false);
    ("properties", VDict [
      ("schema_version", VDict [
        ("type", VStr "string");
        ("enum", VList [VStr "mesh.recursive_chaos.cycle_packet.v1"])]);
      ("cycle_id", VDict [("type", VStr "string")]);
      ("manifest_id", VDict [("type", VStr "string")]);
      ("profile_id", VDict [("type", VStr "string")]);
      ("run_id", VDict [("type", VStr "string")]);
      ("decision_id", VDict [("type", VList [VStr "string"; VStr "null"])]);
      ("started_at", VDict [("type", VStr "string")]);
      ("completed_at", VDict [("type", VStr "string")]);
      ("recursion_depth", VDict [("type", VStr "integer")]);
      ("selected_experiment", VDict [("type", VStr "object")]);
      ("target", VDict [("type", VStr "object")]);
      ("pre_state_ref", VDict [("type", VStr "string")]);
      ("fault_state_ref", VDict [("type", VStr "string")]);
      ("mesh_observation", VDict [("type", VStr "object")]);
      ("safety_verdict", VDict [
        ("type", VStr "object");
        ("required", VList [VStr "safety_class"; VStr "mutation_allowed"; VStr "forbidden_actions_enforced"]);
        ("additionalProperties", VBool false);
        ("properties", VDict [
          ("safety_class", VDict [
            ("type", VStr "string");
            ("enum", VList [
              VStr "local_disposable";
              VStr "staging_owned";
              VStr "production_probe_only";
              VStr "production_mutating_blocked"])]);
          ("mutation_allowed", VDict [("type", VStr "boolean")]);
          ("forbidden_actions_enforced", VDict [("type", VStr "boolean")])])]);
      ("recovery_packet_id", VDict [("type", VList [VStr "string"; VStr "null"])]);
      ("learning_packet_id", VDict [("type", VList [VStr "string"; VStr "null"])]);
      ("evidence_refs", VDict [
        ("type", VStr "array");
        ("minItems", VInt 1);
        ("items", VDict [("type", VStr "string")])]);
      ("sealed", VDict [("type", VStr "boolean")])])].

Definition recursive_chaos_ghost_recovery_packet_schema : value :=
  VDict [
    ("title", VStr "RecursiveChaosGhostRecoveryPacket");
    ("type", VStr "object");
    ("required", VList [
      VStr "schema_version";
      VStr "recovery_packet_id";
      VStr "cycle_id";
      VStr "run_id";
      VStr "decision_id";
      VStr "pre_state";
      VStr "fault_state";
      VStr "recovery_action";
      VStr "post_state";
      VStr "residual_drift";
      VStr "recovered";
      VStr "evidence_refs";
      VStr "sealed_at"]);
    ("additionalProperties", VBool false);
    ("properties", VDict [
      ("schema_version", VDict [
        ("type", VStr "string");
        ("enum", VList [VStr "mesh.recursive_chaos.ghost_recovery_packet.v1"])]);
      ("recovery_packet_id", VDict [("type", VStr "string")]);
      ("cycle_id", VDict [("type", VStr "string")]);
      ("run_id", VDict [("type", VStr "string")]);
      ("decision_id", VDict [("type", VList [VStr "string"; VStr "null"])]);
      ("pre_state", VDict [("type", VStr "object")]);
      ("fault_state", VDict [("type", VStr "object")]);
      ("recovery_action", VDict [
        ("type", VStr "object");
        ("required", VList [
          VStr "action_type";
          VStr "actor";
          VStr "started_at";
          VStr "completed_at";
          VStr "result"]);
        ("additionalProperties", VBool false);
        ("properties", VDict [
          ("action_type", VDict [("type", VStr "string")]);
          ("actor", VDict [("type", VStr "string")]);
          ("started_at", VDict [("type", VStr "string")]);
          ("completed_at", VDict [("type", VStr "string")]);
          ("result", VDict [("type", VStr "string")])])]);
      ("post_state", VDict [("type", VStr "object")]);
      ("residual_drift", VDict [
        ("type", VStr "object");
        ("required", VList [VStr "status"; VStr "changed_paths"; VStr "drift_score"]);
        ("additionalProperties", VBool false);
        ("properties", VDict [
          ("status", VDict [
            ("type", VStr "string");
            ("enum", VList [VStr "none"; VStr "bounded"; VStr "unbounded"])]);
          ("changed_paths", VDict [("type", VStr "array"); ("items", VDict [("type", VStr "string")])]);
          ("drift_score", VDict [("type", VStr "number")])])]);
      ("recovered", VDict [("type", VStr "boolean")]);
      ("evidence_refs", VDict [
        ("type", VStr "array");
        ("minItems", VInt 1);
        ("items", VDict [("type", VStr "string")])]);
      ("sealed_at", VDict [("type", VStr "string")])])].

Definition recursive_chaos_learning_packet_schema : value :=
  VDict [
    ("title", VStr "RecursiveChaosLearningPacket");
    ("type", VStr "object");
    ("required", VList [
      VStr "schema_version";
      VStr "learning_packet_id";
      VStr "cycle_id";
      VStr "run_id";
      VStr "source_packet_refs";
      VStr "sealed_source_required";
      VStr "mesh_brain_mode";
      VStr "mesh_model_mode";
      VStr "recommendations";
      VStr "training_allowed";
      VStr "mesh_model_training_allowed";
      VStr "advisory_only";
      VStr "sealed_at"]);
    ("additionalProperties", VBool false);
    ("properties", VDict [
      ("schema_version", VDict [
        ("type", VStr "string");
        ("enum", VList [VStr "mesh.recursive_chaos.learning_packet.v1"])]);
      ("learning_packet_id", VDict [("type", VStr "string")]);
      ("cycle_id", VDict [("type", VStr "string")]);
      ("run_id", VDict [("type", VStr "string")]);
      ("source_packet_refs", VDict [
        ("type", VStr "array");
        ("minItems", VInt 1);
        ("items", VDict [("type", VStr "string")])]);
      ("sealed_source_required", VDict [("type", VStr "boolean")]);
      ("mesh_brain_mode", VDict [
        ("type", VStr "string");
        ("enum", VList [VStr "recommend_only"; VStr "training_candidate"])]);
      ("mesh_model_mode", VDict [
        ("type", VStr "string");
        ("enum", VList [VStr "recommend_only"; VStr "training_candidate"])]);
      ("recommendations", VDict [
        ("type", VStr "array");
        ("items", VDict [
          ("type", VStr "object");
          ("required", VList [
            VStr "recommendation_type";
            VStr "summary";
            VStr "confidence";
            VStr "evidence_refs"]);
          ("additionalProperties", VBool false);
          ("properties", VDict [
            ("recommendation_type", VDict [("type", VStr "string")]);
            ("summary", VDict [("type", VStr "string")]);
            ("confidence", VDict [("type", VStr "number")]);
            ("evidence_refs", VDict [("type", VStr "array"); ("items", VDict [("type", VStr "string")])])])])]);
      ("training_allowed", VDict [("type", VStr "boolean")]);
      ("mesh_model_training_allowed", VDict [("type", VStr "boolean")]);
      ("advisory_only", VDict [("type", VStr "boolean")]);
      ("sealed_at", VDict [("type", VStr "string")])])].

Definition recursive_chaos_evidence_bundle_schema : value :=
  VDict [
    ("title", VStr "RecursiveChaosEvidenceBundle");
    ("type", VStr "object");
    ("required", VList [
      VStr "schema_version";
      VStr "bundle_id";
      VStr "generated_at";
      VStr "profile_id";
      VStr "manifest_id";
      VStr "environment";
      VStr "safety_class";
      VStr "cycle_packet_refs";
      VStr "ghost_recovery_packet_refs";
      VStr "learning_packet_refs";
      VStr "run_refs";
      VStr "decision_refs";
      VStr "artifact_refs";
      VStr "gate_results";
      VStr "production_readiness_claim";
      VStr "sealed"]);
    ("additionalProperties", VBool false);
    ("properties", VDict [
      ("schema_version", VDict [
        ("type", VStr "string");
        ("enum", VList [VStr "mesh.recursive_chaos.evidence_bundle.v1"])]);
      ("bundle_id", VDict [("type", VStr "string")]);
      ("generated_at", VDict [("type", VStr "string")]);
      ("profile_id", VDict [("type", VStr "string")]);
      ("manifest_id", VDict [("type", VStr "string")]);
      ("environment", VDict [("type", VStr "string")]);
      ("safety_class", VDict [
        ("type", VStr "string");
        ("enum", VList [
          VStr "local_disposable";
          VStr "staging_owned";
          VStr "production_probe_only";
          VStr "production_mutating_blocked"])]);
      ("cycle_packet_refs", VDict [
        ("type", VStr "array");
        ("minItems", VInt 1);
        ("items", VDict [("type", VStr "string")])]);
      ("ghost_recovery_packet_refs", VDict [("type", VStr "array"); ("items", VDict [("type", VStr "string")])]);
      ("learning_packet_refs", VDict [("type", VStr "array"); ("items", VDict [("type", VStr "string")])]);
      ("run_refs", VDict [("type", VStr "array"); ("items", VDict [("type", VStr "string")])]);
      ("decision_refs", VDict [("type", VStr "array"); ("items", VDict [("type", VStr "string")])]);
      ("artifact_refs", VDict [("type", VStr "array"); ("items", VDict [("type", VStr "string")])]);
      ("gate_results", VDict [
        ("type", VStr "array");
        ("minItems", VInt 1);
        ("items", VDict [
          ("type", VStr "object");
          ("required", VList [VStr "gate"; VStr "status"; VStr "evidence_ref"]);
          ("additionalProperties", VBool false);
          ("properties", VDict [
            ("gate", VDict [("type", VStr "string")]);
            ("status", VDict [
              ("type", VStr "string");
              ("enum", VList [VStr "pass"; VStr "fail"; VStr "blocked"; VStr "not_run"])]);
            ("evidence_ref", VDict [("type", VList [VStr "string"; VStr "null"])])])])]);
      ("production_readiness_claim", VDict [("type", VStr "boolean")]);
      ("sealed", VDict [("type", VStr "boolean")])])].

Definition memory_compaction_schema : value :=
  VDict [
    ("$schema", VStr "https://json-schema.org/draft/2020-12/schema");
    ("$id", VStr "https://mesh.local/contracts/memory-compaction.schema.json");
    ("title", VStr "MemoryCompactionRecord");
    ("type", VStr "object");
    ("required", VList [
      VStr "compaction_id";
      VStr "run_id";
      VStr "service";
      VStr "created_at";
      VStr "active_facts";
      VStr "suppressed_facts";
      VStr "source_event_ids"]);
    ("properties", VDict [
      ("compaction_id", VDict [("type", VStr "string")]);
      ("run_id", VDict [("type", VList [VStr "string"; VStr "null"])]);
      ("service", VDict [("type", VStr "string")]);
      ("created_at", VDict [("type", VStr "string")]);
      ("active_facts", VDict [("type", VStr "array"); ("items", VDict [("type", VStr "object")])]);
      ("suppressed_facts", VDict [("type", VStr "array"); ("items", VDict [("type", VStr "object")])]);
      ("source_event_ids", VDict [("type", VStr "array"); ("items", VDict [("type", VStr "string")])]);
      ("merkle_root", VDict [("type", VList [VStr "string"; VStr "null"])])]);
    ("additionalProperties", VBool false)].

Definition observation_record_schema : value :=
  VDict [
    ("$id", VStr "https://mesh.local/contracts/observation-record.schema.json");
    ("type", VStr "object");
    ("required", VList [
      VStr "observation_id";
      VStr "scope";
      VStr "kind";
      VStr "content";
      VStr "service";
      VStr "run_id";
      VStr "source_type";
      VStr "source_refs";
      VStr "created_at";
      VStr "author";
      VStr "tags";
      VStr "metadata"]);
    ("properties", VDict [
      ("observation_id", VDict [("type", VStr "string")]);
      ("scope", VDict [("type", VStr "object")]);
      ("kind", VDict [("type", VStr "string")]);
      ("content", VDict [("type", VStr "string")]);
      ("service", VDict [("type", VList [VStr "string"; VStr "null"])]);
      ("run_id", VDict [("type", VList [VStr "string"; VStr "null"])]);
      ("source_type", VDict [("type", VStr "string")]);
      ("source_refs", VDict [("type", VStr "array"); ("items", VDict [("type", VStr "object")])]);
      ("created_at", VDict [("type", VStr "string")]);
      ("author", VDict [("type", VStr "string")]);
      ("tags", VDict [("type", VStr "array"); ("items", VDict [("type", VStr "string")])]);
      ("metadata", VDict [("type", VStr "object")])]);
    ("additionalProperties", VBool false)].

Definition claim_record_schema : value :=
  VDict [
    ("$id", VStr "https://mesh.local/contracts/claim-record.schema.json");
    ("type", VStr "object");
    ("required", VList [
      VStr "claim_id";
      VStr "statement";
      VStr "entity_refs";
      VStr "supporting_observation_ids";
      VStr "contradicting_claim_ids";
      VStr "superseded_by";
      VStr "confidence";
      VStr "confidence_factors";
      VStr "freshness";
      VStr "tier";
      VStr "state";
      VStr "created_at";
      VStr "updated_at"]);
    ("properties", VDict [
      ("claim_id", VDict [("type", VStr "string")]);
      ("statement", VDict [("type", VStr "string")]);
      ("entity_refs", VDict [("type", VStr "array"); ("items", VDict [("type", VStr "string")])]);
      ("supporting_observation_ids", VDict [("type", VStr "array"); ("items", VDict [("type", VStr "string")])]);
      ("contradicting_claim_ids", VDict [("type", VStr "array"); ("items", VDict [("type", VStr "string")])]);
      ("superseded_by", VDict [("type", VList [VStr "string"; VStr "null"])]);
      ("confidence", VDict [("type", VStr "number")]);
      ("confidence_factors", VDict [("type", VStr "object")]);
      ("freshness", VDict [("type", VStr "number")]);
      ("tier", VDict [
        ("type", VStr "string");
        ("enum", VList [VStr "episodic"; VStr "semantic"; VStr "procedural"])]);
      ("state", VDict [
        ("type", VStr "string");
        ("enum", VList [
          VStr "active";
          VStr "stale";
          VStr "contradicted";
          VStr "superseded";
          VStr "archived"])]);
      ("created_at", VDict [("type", VStr "string")]);
      ("updated_at", VDict [("type", VStr "string")])]);
    ("additionalProperties", VBool false)].

Definition relationship_record_schema : value :=
  VDict [
    ("$id", VStr "https://mesh.local/contracts/relationship-record.schema.json");
    ("type", VStr "object");
    ("required", VList [
      VStr "relationship_id";
      VStr "from_id";
      VStr "to_id";
      VStr "type";
      VStr "confidence";
      VStr "supporting_observation_ids";
      VStr "state"]);
    ("properties", VDict [
      ("relationship_id", VDict [("type", VStr "string")]);
      ("from_id", VDict [("type", VStr "string")]);
      ("to_id", VDict [("type", VStr "string")]);
      ("type", VDict [("type", VStr "string")]);
      ("confidence", VDict [("type", VStr "number")]);
      ("supporting_observation_ids", VDict [("type", VStr "array"); ("items", VDict [("type", VStr "string")])]);
      ("state", VDict [("type", VStr "string")]);
      ("infra_node_key", VDict [("type", VList [VStr "string"; VStr "null"])])]);
    ("additionalProperties", VBool false)].

Definition supersession_record_schema : value :=
  VDict [
    ("$id", VStr "https://mesh.local/contracts/supersession-record.schema.json");
    ("type", VStr "object");
    ("required", VList [
      VStr "supersession_id";
      VStr "old_claim_id";
      VStr "new_claim_id";
      VStr "reason";
      VStr "created_at";
      VStr "created_by"]);
    ("properties", VDict [
      ("supersession_id", VDict [("type", VStr "string")]);
      ("old_claim_id", VDict [("type", VStr "string")]);
      ("new_claim_id", VDict [("type", VStr "string")]);
      ("reason", VDict [("type", VStr "string")]);
      ("created_at", VDict [("type", VStr "string")]);
      ("created_by", VDict [("type", VStr "string")])]);
    ("additionalProperties", VBool false)].

Definition retrieval_record_schema : value :=
  VDict [
    ("$id", VStr "https://mesh.local/contracts/retrieval-record.schema.json");
    ("type", VStr "object");
    ("required", VList [
      VStr "retrieval_id";
      VStr "query";
      VStr "scope";
      VStr "channels";
      VStr "candidate_ids";
      VStr "verified_ids";
      VStr "discarded_ids";
      VStr "created_at"]);
    ("properties", VDict [
      ("retrieval_id", VDict [("type", VStr "string")]);
      ("query", VDict [("type", VStr "string")]);
      ("scope", VDict [("type", VStr "object")]);
      ("channels", VDict [("type", VStr "array"); ("items", VDict [("type", VStr "string")])]);
      ("candidate_ids", VDict [("type", VStr "array"); ("items", VDict [("type", VStr "string")])]);
      ("verified_ids", VDict [("type", VStr "array"); ("items", VDict [("type", VStr "string")])]);
      ("discarded_ids", VDict [("type", VStr "array"); ("items", VDict [("type", VStr "string")])]);
      ("created_at", VDict [("type", VStr "string")])]);
    ("additionalProperties", VBool false)].

Definition memory_packet_schema : value :=
  VDict [
    ("$id", VStr "https://mesh.local/contracts/memory-packet.schema.json");
    ("type", VStr "object");
    ("required", VList [
      VStr "packet_id";
      VStr "scope";
      VStr "observations";
      VStr "claims";
      VStr "procedures";
      VStr "contradictions";
      VStr "citations";
      VStr "generated_at"]);
    ("properties", VDict [
      ("packet_id", VDict [("type", VStr "string")]);
      ("scope", VDict [("type", VStr "object")]);
      ("observations", VDict [("type", VStr "array"); ("items", VDict [("type", VStr "object")])]);
      ("claims", VDict [("type", VStr "array"); ("items", VDict [("type", VStr "object")])]);
      ("procedures", VDict [("type", VStr "array"); ("items", VDict [("type", VStr "object")])]);
      ("contradictions", VDict [("type", VStr "array"); ("items", VDict [("type", VStr "object")])]);
      ("citations", VDict [("type", VStr "array"); ("items", VDict [("type", VStr "object")])]);
      ("generated_at", VDict [("type", VStr "string")])]);
    ("additionalProperties", VBool false)].

Definition evaluation_result_schema : value :=
  VDict [
    ("$schema", VStr "https://json-schema.org/draft/2020-12/schema");
    ("$id", VStr "https://mesh.local/contracts/evaluation-result.schema.json");
    ("title", VStr "EvaluationResult");
    ("type", VStr "object");
    ("required", VList [
      VStr "evaluation_id";
      VStr "decision_id";
      VStr "passed";
      VStr "final_recommendation";
      VStr "stage_results";
      VStr "blocking_reasons"]);
    ("properties", VDict [
      ("evaluation_id", VDict [("type", VStr "string")]);
      ("decision_id", VDict [("type", VStr "string")]);
      ("passed", VDict [("type", VStr "boolean")]);
      ("final_recommendation", VDict [
        ("type", VStr "string");
        ("enum", VList [VStr "execute"; VStr "human_review"; VStr "reject"])]);
      ("stage_results", VDict [
        ("type", VStr "object");
        ("required", VList [
          VStr "schema_validation";
          VStr "policy_validation";
          VStr "contract_checks";
          VStr "trajectory_quality";
          VStr "behavioral_scores";
          VStr "verifier";
          VStr "business_rules";
          VStr "execution_readiness"]);
        ("properties", VDict [
          ("schema_validation", VDict [("type", VStr "object")]);
          ("policy_validation", VDict [("type", VStr "object")]);
          ("contract_checks", VDict [("type", VStr "object")]);
          ("trajectory_quality", VDict [("type", VStr "object")]);
          ("behavioral_scores", VDict [("type", VStr "object")]);
          ("verifier", VDict [("type", VStr "object")]);
          ("business_rules", VDict [("type", VStr "object")]);
          ("execution_readiness", VDict [("type", VStr "object")]);
          ("evidence_sufficiency", VDict [("type", VStr "object")]);
          ("autonomy_policy", VDict [("type", VStr "object")]);
          ("remediation_safety", VDict [("type", VStr "object")]);
          ("sre_judgment", VDict [("type", VStr "object")]);
          ("blocker_analysis", VDict [("type", VStr "object")]);
          ("evaluation_stack", VDict [("type", VStr "object")]);
          ("phoenix_spans", VDict [("type", VStr "array")])]);
        ("additionalProperties", VBool false)]);
      ("blocking_reasons", VDict [("type", VStr "array"); ("items", VDict [("type", VStr "string")])]);
      ("review_route", VDict [("type", VList [VStr "string"; VStr "null"])])]);
    ("additionalProperties", VBool false)].

Definition execution_record_schema : value :=
  VDict [
    ("$schema", VStr "https://json-schema.org/draft/2020-12/schema");
    ("$id", VStr "https://mesh.local/contracts/execution-record.schema.json");
    ("title", VStr "ExecutionRecord");
    ("type", VStr "object");
    ("required", VList [
      VStr "execution_id";
      VStr "decision_id";
      VStr "started_at";
      VStr "completed_at";
      VStr "executor";
      VStr "status";
      VStr "idempotency_key";
      VStr "applied_action";
      VStr "external_refs"]);
    ("properties", VDict [
      ("execution_id", VDict [("type", VStr "string")]);
      ("decision_id", VDict [("type", VStr "string")]);
      ("started_at", VDict [("type", VStr "string"); ("format", VStr "date-time")]);
      ("completed_at", VDict [("type", VStr "string"); ("format", VStr "date-time")]);
      ("executor", VDict [("type", VStr "string")]);
      ("status", VDict [
        ("type", VStr "string");
        ("enum", VList [VStr "succeeded"; VStr "failed"; VStr "rejected"])]);
      ("idempotency_key", VDict [("type", VStr "string")]);
      ("applied_action", VDict [
        ("type", VStr "object");
        ("required", VList [VStr "system"; VStr "action"; VStr "parameters"]);
        ("properties", VDict [
          ("system", VDict [("type", VStr "string")]);
          ("action", VDict [("type", VStr "string")]);
          ("parameters", VDict [("type", VStr "object")])]);
        ("additionalProperties", VBool false)]);
      ("external_refs", VDict [("type", VStr "object")]);
      ("failure", VDict [("type", VList [VStr "object"; VStr "null"])])]);
    ("additionalProperties", VBool false)].

Definition feedback_record_schema : value :=
  VDict [
    ("$schema", VStr "https://json-schema.org/draft/2020-12/schema");
    ("$id", VStr "https://mesh.local/contracts/feedback-record.schema.json");
    ("title", VStr "FeedbackRecord");
    ("type", VStr "object");
    ("required", VList [
      VStr "feedback_id";
      VStr "decision_id";
      VStr "execution_id";
      VStr "measured_at";
      VStr "window";
      VStr "outcome";
      VStr "metric_comparison";
      VStr "prediction_accuracy";
      VStr "side_effects";
      VStr "world_model_updates"]);
    ("properties", VDict [
      ("feedback_id", VDict [("type", VStr "string")]);
      ("decision_id", VDict [("type", VStr "string")]);
      ("execution_id", VDict [("type", VStr "string")]);
      ("measured_at", VDict [("type", VStr "string"); ("format", VStr "date-time")]);
      ("window", VDict [("type", VStr "string")]);
      ("outcome", VDict [
        ("type", VStr "string");
        ("enum", VList [VStr "successful"; VStr "escalated"; VStr "rolled_back"; VStr "unsuccessful"])]);
      ("metric_comparison", VDict [("type", VStr "object")]);
      ("prediction_accuracy", VDict [("type", VStr "object")]);
      ("side_effects", VDict [("type", VStr "array")]);
      ("recommended_follow_up", VDict [("type", VList [VStr "string"; VStr "null"])]);
      ("world_model_updates", VDict [("type", VStr "object")]);
      ("quality_measurements", VDict [("type", VList [VStr "object"; VStr "null"])])]);
    ("additionalProperties", VBool false)].

Definition hsai_admission_request_schema : value :=
  VDict [
    ("$schema", VStr "https://json-schema.org/draft/2020-12/schema");
    ("$id", VStr "https://mesh.local/contracts/hsai-admission-request.schema.json");
    ("title", VStr "HsaiAdmissionRequest");
    ("type", VStr "object");
    ("required", VList [
      VStr "schema_version";
      VStr "mesh_run_id";
      VStr "mesh_action_id";
      VStr "action_kind";
      VStr "actor_ref";
      VStr "mesh_policy_id";
      VStr "action_proposal_digest";
      VStr "candidate_payload_digest";
      VStr "evidence_packet_digest";
      VStr "attestation_refs";
      VStr "requested_claims";
      VStr "explicit_nonclaims";
      VStr "created_at"]);
    ("properties", VDict [
      ("schema_version", VDict [("type", VStr "string"); ("enum", VList [VStr "mesh.hsai_admission_request.v1"])]);
      ("mesh_run_id", VDict [("type", VStr "string")]);
      ("mesh_action_id", VDict [("type", VStr "string")]);
      ("action_kind", VDict [("type", VStr "string")]);
      ("actor_ref", VDict [
        ("type", VStr "object");
        ("required", VList [VStr "actor_id"; VStr "team_id"]);
        ("properties", VDict [
          ("actor_id", VDict [("type", VStr "string")]);
          ("team_id", VDict [("type", VStr "string")])]);
        ("additionalProperties", VBool false)]);
      ("mesh_policy_id", VDict [("type", VStr "string")]);
      ("action_proposal_digest", VDict [("type", VStr "string")]);
      ("candidate_payload_digest", VDict [("type", VStr "string")]);
      ("evidence_packet_digest", VDict [("type", VStr "string")]);
      ("attestation_refs", VDict [
        ("type", VStr "array");
        ("items", VDict [
          ("type", VStr "object");
          ("required", VList [VStr "kind"; VStr "digest"]);
          ("properties", VDict [
            ("kind", VDict [("type", VStr "string")]);
            ("digest", VDict [("type", VStr "string")])]);
          ("additionalProperties", VBool false)])]);
      ("requested_claims", VDict [("type", VStr "array"); ("items", VDict [("type", VStr "string")])]);
      ("explicit_nonclaims", VDict [("type", VStr "array"); ("items", VDict [("type", VStr "string")])]);
      ("created_at", VDict [("type", VStr "string")])]);
    ("additionalProperties", VBool false)].

Definition hsai_admission_request_v2_schema : value :=
  VDict [
    ("$schema", VStr "https://json-schema.org/draft/2020-12/schema");
    ("$id", VStr "https://mesh.local/contracts/hsai-admission-request-v2.schema.json");
    ("title", VStr "HsaiAdmissionRequestV2");
    ("type", VStr "object");
    ("required", VList [
      VStr "schema_version";
      VStr "mesh_run_id";
      VStr "mesh_action_id";
      VStr "action_kind";
      VStr "actor_ref";
      VStr "mesh_policy_id";
      VStr "action_proposal_digest";
      VStr "candidate_payload_digest";
      VStr "evidence_packet_digest";
      VStr "attestation_refs";
      VStr "requested_claims";
      VStr "explicit_nonclaims";
      VStr "created_at";
      VStr "candidate_payload";
      VStr "pre_execution_evidence"]);
    ("properties", VDict [
      ("schema_version", VDict [("enum", VList [VStr "mesh.hsai_admission_request.v2"])]);
      ("mesh_run_id", VDict [("type", VStr "string")]);
      ("mesh_action_id", VDict [("type", VStr "string")]);
      ("action_kind", VDict [("enum", VList [VStr "repo_patch"])]);
      ("actor_ref", VDict [("$ref", VStr "#/$defs/actor_ref")]);
      ("mesh_policy_id", VDict [("type", VStr "string")]);
      ("action_proposal_digest", VDict [("$ref", VStr "#/$defs/digest")]);
      ("candidate_payload_digest", VDict [("$ref", VStr "#/$defs/digest")]);
      ("evidence_packet_digest", VDict [("$ref", VStr "#/$defs/digest")]);
      ("attestation_refs", VDict [
        ("type", VStr "array");
        ("minItems", VInt 1);
        ("items", VDict [
          ("type", VStr "object");
          ("required", VList [VStr "kind"; VStr "digest"]);
          ("properties", VDict [
            ("kind", VDict [("type", VStr "string")]);
            ("digest", VDict [("$ref", VStr "#/$defs/digest")])]);
          ("additionalProperties", VBool false)])]);
      ("requested_claims", VDict [
        ("type", VStr "array");
        ("minItems", VInt 1);
        ("items", VDict [("type", VStr "string")])]);
      ("explicit_nonclaims", VDict [
        ("type", VStr "array");
        ("minItems", VInt 1);
        ("items", VDict [("type", VStr "string")])]);
      ("created_at", VDict [("type", VStr "string")]);
      ("candidate_payload", VDict [
        ("type", VStr "object");
        ("required", VList [
          VStr "decision_id";
          VStr "trigger_id";
          VStr "decision_type";
          VStr "autonomy_tier";
          VStr "summary";
          VStr "reasoning";
          VStr "expected_outcome";
          VStr "risk";
          VStr "confidence";
          VStr "execution_plan"]);
        ("properties", VDict [
          ("decision_id", VDict [("type", VStr "string")]);
          ("trigger_id", VDict [("type", VStr "string")]);
          ("decision_type", VDict [("enum", VList [VStr "investigate_and_patch"])]);
          ("autonomy_tier", VDict [("type", VStr "string")]);
          ("summary", VDict [("type", VStr "string")]);
          ("reasoning", VDict [("type", VStr "object")]);
          ("expected_outcome", VDict [("type", VStr "object")]);
          ("risk", VDict [("type", VStr "object")]);
          ("confidence", VDict [("type", VStr "number")]);
          ("execution_plan", VDict [
            ("type", VStr "object");
            ("required", VList [VStr "system"; VStr "action"; VStr "parameters"; VStr "rollback_plan"]);
            ("properties", VDict [
              ("system", VDict [("enum", VList [VStr "repo_patch_service"])]);
              ("action", VDict [("enum", VList [VStr "investigate_and_patch"])]);
              ("parameters", VDict [
                ("type", VStr "object");
                ("required", VList [
                  VStr "repo_path";
                  VStr "allowed_paths";
                  VStr "protected_paths";
                  VStr "patch_template";
                  VStr "test_commands";
                  VStr "mesh_run_id";
                  VStr "mesh_action_id";
                  VStr "mesh_policy_id";
                  VStr "actor_ref"]);
                ("properties", VDict [
                  ("repo_path", VDict [("type", VStr "string")]);
                  ("allowed_paths", VDict [
                    ("type", VStr "array");
                    ("minItems", VInt 1);
                    ("items", VDict [("type", VStr "string")])]);
                  ("protected_paths", VDict [("type", VStr "array"); ("items", VDict [("type", VStr "string")])]);
                  ("patch_template", VDict [
                    ("type", VStr "object");
                    ("required", VList [VStr "target_file"; VStr "find"; VStr "replace"]);
                    ("properties", VDict [
                      ("target_file", VDict [("type", VStr "string")]);
                      ("find", VDict [("type", VStr "string")]);
                      ("replace", VDict [("type", VStr "string")])]);
                    ("additionalProperties", VBool false)]);
                  ("test_commands", VDict [
                    ("type", VStr "array");
                    ("minItems", VInt 1);
                    ("items", VDict [
                      ("type", VStr "array");
                      ("minItems", VInt 1);
                      ("items", VDict [("type", VStr "string")])])]);
                  ("mesh_run_id", VDict [("type", VStr "string")]);
                  ("mesh_action_id", VDict [("type", VStr "string")]);
                  ("mesh_policy_id", VDict [("type", VStr "string")]);
                  ("actor_ref", VDict [("$ref", VStr "#/$defs/actor_ref")])]);
                ("additionalProperties", VBool false)]);
              ("rollback_plan", VDict [("type", VStr "string")])]);
            ("additionalProperties", VBool false)])]);
        ("additionalProperties", VBool false)]);
      ("pre_execution_evidence", VDict [
        ("type", VStr "object");
        ("required", VList [
          VStr "schema_version";
          VStr "decision_id";
          VStr "evaluation_id";
          VStr "evaluation_passed";
          VStr "final_recommendation";
          VStr "blocking_reasons";
          VStr "stage_results";
          VStr "stage_results_digest";
          VStr "preflight_receipt"]);
        ("properties", VDict [
          ("schema_version", VDict [("enum", VList [VStr "mesh.repo_patch_pre_execution_evidence.v1"])]);
          ("decision_id", VDict [("type", VStr "string")]);
          ("evaluation_id", VDict [("type", VStr "string")]);
          ("evaluation_passed", VDict [("type", VStr "boolean")]);
          ("final_recommendation", VDict [("type", VStr "string")]);
          ("blocking_reasons", VDict [("type", VStr "array"); ("items", VDict [("type", VStr "string")])]);
          ("stage_results", VDict [("type", VStr "object")]);
          ("stage_results_digest", VDict [("$ref", VStr "#/$defs/digest")]);
          ("preflight_receipt", VDict [("$ref", VStr "#/$defs/preflight_receipt")])]);
        ("additionalProperties", VBool false)])]);
    ("$defs", VDict [
      ("digest", VDict [("type", VStr "string"); ("pattern", VStr "^sha256:[0-9a-f]{64}$")]);
      ("actor_ref", VDict [
        ("type", VStr "object");
        ("required", VList [VStr "actor_id"; VStr "team_id"]);
        ("properties", VDict [
          ("actor_id", VDict [("type", VStr "string")]);
          ("team_id", VDict [("type", VStr "string")])]);
        ("additionalProperties", VBool false)]);
      ("preflight_receipt", VDict [
        ("type", VStr "object");
        ("required", VList [
          VStr "state_slice";
          VStr "base_commit";
          VStr "base_tree";
          VStr "target_path";
          VStr "target_preimage_digest";
          VStr "target_postimage_digest";
          VStr "authorized_diff_digest";
          VStr "changed_paths";
          VStr "test_results"]);
        ("properties", VDict [
          ("state_slice", VDict [("enum", VList [VStr "mesh.repo_patch_disposable_worktree.v1"])]);
          ("base_commit", VDict [("type", VStr "string")]);
          ("base_tree", VDict [("type", VStr "string")]);
          ("target_path", VDict [("type", VStr "string")]);
          ("target_preimage_digest", VDict [("$ref", VStr "#/$defs/digest")]);
          ("target_postimage_digest", VDict [("$ref", VStr "#/$defs/digest")]);
          ("authorized_diff_digest", VDict [("$ref", VStr "#/$defs/digest")]);
          ("changed_paths", VDict [
            ("type", VStr "array");
            ("minItems", VInt 1);
            ("items", VDict [("type", VStr "string")])]);
          ("test_results", VDict [
            ("type", VStr "array");
            ("minItems", VInt 1);
            ("items", VDict [
              ("type", VStr "object");
              ("required", VList [
                VStr "argv";
                VStr "returncode";
                VStr "stdout_digest";
                VStr "stderr_digest"]);
              ("properties", VDict [
                ("argv", VDict [
                  ("type", VStr "array");
                  ("minItems", VInt 1);
                  ("items", VDict [("type", VStr "string")])]);
                ("returncode", VDict [("type", VStr "integer")]);
                ("stdout_digest", VDict [("$ref", VStr "#/$defs/digest")]);
                ("stderr_digest", VDict [("$ref", VStr "#/$defs/digest")])]);
              ("additionalProperties", VBool false)])])]);
        ("additionalProperties", VBool false)])]);
    ("additionalProperties", VBool false)].

Definition hsai_admission_decision_schema : value :=
  VDict [
    ("$schema", VStr "https://json-schema.org/draft/2020-12/schema");
    ("$id", VStr "https://mesh.local/contracts/hsai-admission-decision.schema.json");
    ("title", VStr "HsaiAdmissionDecision");
    ("type", VStr "object");
    ("required", VList [
      VStr "schema_version";
      VStr "decision_id";
      VStr "mesh_run_id";
      VStr "mesh_action_id";
      VStr "action_kind";
      VStr "request_digest";
      VStr "candidate_digest";
      VStr "decision";
      VStr "admission_policy_id";
      VStr "gate_results";
      VStr "accepted_claims";
      VStr "enforced_nonclaims";
      VStr "formal_evidence_metadata";
      VStr "reason_codes";
      VStr "decision_digest";
      VStr "created_at"]);
    ("properties", VDict [
      ("schema_version", VDict [("type", VStr "string"); ("enum", VList [VStr "mesh.hsai_admission_decision.v1"])]);
      ("decision_id", VDict [("type", VStr "string")]);
      ("mesh_run_id", VDict [("type", VStr "string")]);
      ("mesh_action_id", VDict [("type", VStr "string")]);
      ("action_kind", VDict [("type", VStr "string")]);
      ("request_digest", VDict [("type", VStr "string")]);
      ("candidate_digest", VDict [("type", VStr "string")]);
      ("decision", VDict [
        ("type", VStr "string");
        ("enum", VList [VStr "allow"; VStr "deny"; VStr "needs_human"; VStr "error"])]);
      ("admission_policy_id", VDict [("type", VStr "string")]);
      ("gate_results", VDict [
        ("type", VStr "array");
        ("items", VDict [
          ("type", VStr "object");
          ("required", VList [VStr "gate"; VStr "result"]);
          ("properties", VDict [
            ("gate", VDict [("type", VStr "string")]);
            ("result", VDict [("type", VStr "string")]);
            ("metadata_digest", VDict [("type", VStr "string")])])])]);
      ("accepted_claims", VDict [("type", VStr "array"); ("items", VDict [("type", VStr "string")])]);
      ("enforced_nonclaims", VDict [("type", VStr "array"); ("items", VDict [("type", VStr "string")])]);
      ("formal_evidence_metadata", VDict [("type", VStr "object")]);
      ("reason_codes", VDict [("type", VStr "array"); ("items", VDict [("type", VStr "string")])]);
      ("decision_digest", VDict [("type", VStr "string")]);
      ("created_at", VDict [("type", VStr "string")])]);
    ("additionalProperties", VBool false)].

Definition combined_proof_packet_schema : value :=
  VDict [
    ("$schema", VStr "https://json-schema.org/draft/2020-12/schema");
    ("$id", VStr "https://mesh.local/contracts/combined-proof-packet.schema.json");
    ("title", VStr "CombinedProofPacket");
    ("type", VStr "object");
    ("required", VList [
      VStr "schema_version";
      VStr "mesh_run_id";
      VStr "mesh_action_id";
      VStr "mesh_policy_id";
      VStr "hsai_request_digest";
      VStr "hsai_decision_digest";
      VStr "hsai_candidate_digest";
      VStr "hsai_decision";
      VStr "nonclaims";
      VStr "action_execution_result";
      VStr "executor_receipt_digest";
      VStr "audit_export_metadata";
      VStr "created_at"]);
    ("properties", VDict [
      ("schema_version", VDict [("type", VStr "string"); ("enum", VList [VStr "mesh.combined_proof_packet.v1"])]);
      ("mesh_run_id", VDict [("type", VStr "string")]);
      ("mesh_action_id", VDict [("type", VStr "string")]);
      ("mesh_policy_id", VDict [("type", VStr "string")]);
      ("hsai_request_digest", VDict [("type", VStr "string")]);
      ("hsai_decision_digest", VDict [("type", VStr "string")]);
      ("hsai_candidate_digest", VDict [("type", VStr "string")]);
      ("hsai_decision", VDict [
        ("type", VStr "string");
        ("enum", VList [VStr "allow"; VStr "deny"; VStr "needs_human"; VStr "error"])]);
      ("nonclaims", VDict [("type", VStr "array"); ("items", VDict [("type", VStr "string")])]);
      ("action_execution_result", VDict [("type", VStr "object")]);
      ("executor_receipt_digest", VDict [("type", VList [VStr "string"; VStr "null"])]);
      ("audit_export_metadata", VDict [("type", VStr "object")]);
      ("created_at", VDict [("type", VStr "string")])]);
    ("additionalProperties", VBool false)].

(** [load_schema], for these files. *)
Definition load_schema (schema_name : string) : res value :=
  if String.eqb schema_name "run-admission.schema.json" then Ok run_admission_schema
  else if String.eqb schema_name "timeline-proof.schema.json" then Ok timeline_proof_schema
  else if String.eqb schema_name "evidence-sufficiency.schema.json" then Ok evidence_sufficiency_schema
  else if String.eqb schema_name "repo-patch-execution-permit.schema.json" then Ok repo_patch_execution_permit_schema
  else if String.eqb schema_name "policy-lifecycle-packet.schema.json" then Ok policy_lifecycle_packet_schema
  else if String.eqb schema_name "policy-lifecycle-manifest.schema.json" then Ok policy_lifecycle_manifest_schema
  else if String.eqb schema_name "connector-certification-registry.schema.json" then Ok connector_certification_registry_schema
  else if String.eqb schema_name "connector-certification-matrix.schema.json" then Ok connector_certification_matrix_schema
  else if String.eqb schema_name "ownership-registry.schema.json" then Ok ownership_registry_schema
  else if String.eqb schema_name "ownership-boundary.schema.json" then Ok ownership_boundary_schema
  else if String.eqb schema_name "approval-queue.schema.json" then Ok approval_queue_schema
  else if String.eqb schema_name "operator-handoff.schema.json" then Ok operator_handoff_schema
  else if String.eqb schema_name "override-review.schema.json" then Ok override_review_schema
  else if String.eqb schema_name "postmortem-review.schema.json" then Ok postmortem_review_schema
  else if String.eqb schema_name "watcher-ownership.schema.json" then Ok watcher_ownership_schema
  else if String.eqb schema_name "trigger.schema.json" then Ok trigger_schema
  else if String.eqb schema_name "decision.schema.json" then Ok decision_schema
  else if String.eqb schema_name "evidence-node.schema.json" then Ok evidence_node_schema
  else if String.eqb schema_name "subdecision.schema.json" then Ok subdecision_schema
  else if String.eqb schema_name "scenario-analysis.schema.json" then Ok scenario_analysis_schema
  else if String.eqb schema_name "investigation-plan.schema.json" then Ok investigation_plan_schema
  else if String.eqb schema_name "investigation-probe-result.schema.json" then Ok investigation_probe_result_schema
  else if String.eqb schema_name "investigation-report.schema.json" then Ok investigation_report_schema
  else if String.eqb schema_name "rca-report.schema.json" then Ok rca_report_schema
  else if String.eqb schema_name "recursive-chaos-arena-profile.schema.json" then Ok recursive_chaos_arena_profile_schema
  else if String.eqb schema_name "recursive-chaos-experiment-manifest.schema.json" then Ok recursive_chaos_experiment_manifest_schema
  else if String.eqb schema_name "recursive-chaos-cycle-packet.schema.json" then Ok recursive_chaos_cycle_packet_schema
  else if String.eqb schema_name "recursive-chaos-ghost-recovery-packet.schema.json" then Ok recursive_chaos_ghost_recovery_packet_schema
  else if String.eqb schema_name "recursive-chaos-learning-packet.schema.json" then Ok recursive_chaos_learning_packet_schema
  else if String.eqb schema_name "recursive-chaos-evidence-bundle.schema.json" then Ok recursive_chaos_evidence_bundle_schema
  else if String.eqb schema_name "memory-compaction.schema.json" then Ok memory_compaction_schema
  else if String.eqb schema_name "observation-record.schema.json" then Ok observation_record_schema
  else if String.eqb schema_name "claim-record.schema.json" then Ok claim_record_schema
  else if String.eqb schema_name "relationship-record.schema.json" then Ok relationship_record_schema
  else if String.eqb schema_name "supersession-record.schema.json" then Ok supersession_record_schema
  else if String.eqb schema_name "retrieval-record.schema.json" then Ok retrieval_record_schema
  else if String.eqb schema_name "memory-packet.schema.json" then Ok memory_packet_schema
  else if String.eqb schema_name "evaluation-result.schema.json" then Ok evaluation_result_schema
  else if String.eqb schema_name "execution-record.schema.json" then Ok execution_record_schema
  else if String.eqb schema_name "feedback-record.schema.json" then Ok feedback_record_schema
  else if String.eqb schema_name "hsai-admission-request.schema.json" then Ok hsai_admission_request_schema
  else if String.eqb schema_name "hsai-admission-request-v2.schema.json" then Ok hsai_admission_request_v2_schema
  else if String.eqb schema_name "hsai-admission-decision.schema.json" then Ok hsai_admission_decision_schema
  else if String.eqb schema_name "combined-proof-packet.schema.json" then Ok combined_proof_packet_schema
  else raise OSError ("No such file: " +:+ schema_name).

(** [validate_payload(schema_name, payload)] *)
Definition validate_named (schema_name : string) (payload : dict) : res unit :=
  schema ← load_schema schema_name;
  validate_payload schema payload.

Definition contract_schemas : list value :=
  [run_admission_schema; timeline_proof_schema; evidence_sufficiency_schema;
   repo_patch_execution_permit_schema; policy_lifecycle_packet_schema; policy_lifecycle_manifest_schema;
   connector_certification_registry_schema; connector_certification_matrix_schema; ownership_registry_schema;
   ownership_boundary_schema; approval_queue_schema; operator_handoff_schema; override_review_schema;
   postmortem_review_schema; watcher_ownership_schema; trigger_schema; decision_schema; evidence_node_schema;
   subdecision_schema; scenario_analysis_schema; investigation_plan_schema; investigation_probe_result_schema;
   investigation_report_schema; rca_report_schema; recursive_chaos_arena_profile_schema;
   recursive_chaos_experiment_manifest_schema; recursive_chaos_cycle_packet_schema;
   recursive_chaos_ghost_recovery_packet_schema; recursive_chaos_learning_packet_schema;
   recursive_chaos_evidence_bundle_schema; memory_compaction_schema; observation_record_schema;
   claim_record_schema; relationship_record_schema; supersession_record_schema; retrieval_record_schema;
   memory_packet_schema; evaluation_result_schema; execution_record_schema; feedback_record_schema;
   hsai_admission_request_schema; hsai_admission_request_v2_schema; hsai_admission_decision_schema;
   combined_proof_packet_schema].

Lemma schemas_wf : forallb schema_wf contract_schemas = true.
Proof. reflexivity. Qed.

(** Thirty of these files state only keywords the validator reads; the others state
    const, minimum, maximum, minLength, pattern, format or $ref besides, or a
    schema for the fields that are not listed. *)
Example wholly_enforced : length (List.filter only_enforced contract_schemas) = 30%nat ∧ length contract_schemas = 44%nat.
Proof. split; vm_compute; reflexivity. Qed.

(** A packet that conforms to its schema passes the validation. *)
Lemma validate_named_ok name schema payload :
  load_schema name = Ok schema → schema_wf schema = true → conforms (VDict payload) schema →
  validate_named name payload = Ok ().
Proof.
  intros Hl Hwf Hc. unfold validate_named. rewrite Hl. cbn [mbind res_bind].
  pose proof (validate_node_decides (VDict payload) schema "$" Hwf) as H.
  unfold validate_payload. destruct (validate_node _ _ _) as [[]|]; [done|].
  destruct H as [_ []]; done.
Qed.

(** Conformance of a packet whose fields are written out. *)
Definition required_present (d fields : dict) : bool :=
  forallb (λ k, match k with VStr n => dhas n fields | _ => false end) (schema_list "required" d).

Definition no_extra (d fields : dict) : bool :=
  negb (is_false (dgetN "additionalProperties" d))
  || forallb (λ kv, dhas kv.1 (schema_fields d)) fields.

(** The members that the schema constrains conform. *)
Fixpoint all_conform (props fields : dict) : Prop :=
  match fields with
  | [] => True
  | (k, x) :: rest =>
      match dget k props with
      | Some p => conforms x p ∧ all_conform props rest
      | None => all_conform props rest
      end
  end.

Lemma all_conform_In props fields k x p :
  all_conform props fields → (k, x) ∈ fields → dget k props = Some p → conforms x p.
Proof.
  induction fields as [|[k' y] rest IH]; cbn [all_conform]; intros H Hin Hp;
    [by apply elem_of_nil in Hin|].
  apply elem_of_cons in Hin as [[= <- <-]|Hin].
  - rewrite Hp in H. apply H.
  - destruct (dget k' props); apply IH; try done; apply H.
Qed.

Lemma object_ok_intro d fields :
  required_present d fields = true → no_extra d fields = true →
  all_conform (schema_fields d) fields → object_ok d fields.
Proof.
  intros Hr He Hc _. split; [|split].
  - apply Forall_forall. intros k Hk. unfold required_present in Hr. rewrite forallb_forall in Hr.
    specialize (Hr k). rewrite <- list_elem_of_In in Hr. specialize (Hr Hk).
    destruct k; try done. eauto.
  - intros Hf. unfold no_extra in He. rewrite Hf in He. simpl in He.
    apply Forall_forall. intros kv Hkv. rewrite forallb_forall in He. apply He.
    by rewrite <- list_elem_of_In.
  - intros k x p. by apply all_conform_In.
Qed.

Lemma array_ok_intro d items :
  dgetN "minItems" d = VNone →
  (∀ p, dget "items" d = Some p → Forall (λ x, conforms x p) items) → array_ok d items.
Proof.
  intros Hm Hi _. split; [intros n; by rewrite Hm|]. intros x p Hx Hp.
  specialize (Hi p Hp). rewrite Forall_forall in Hi. by apply Hi.
Qed.

Lemma conforms_scalar v d :
  container_free v = true → enum_ok v d → type_ok v d → conforms v (VDict d).
Proof. intros Hv He Ht. apply conforms_inv. split; [done|]. split; [done|]. by destruct v. Qed.

Lemma type_ok_intro v d t :
  dget "type" d = Some t →
  existsb (matches_type v) (match t with VList l => l | _ => [t] end) = true → type_ok v d.
Proof. intros Ht H t' Ht'. rewrite Ht in Ht'. by injection Ht' as <-. Qed.

Lemma enum_ok_none v d : dhas "enum" d = false → enum_ok v d.
Proof. unfold enum_ok. by intros ->. Qed.

Ltac solve_head :=
  first [apply enum_ok_none; reflexivity | intros _; reflexivity | idtac].
Ltac solve_type := eapply type_ok_intro; [reflexivity|]; try reflexivity.

(** Goals are left only for members whose shape is not known. *)
Ltac conform_step :=
  lazymatch goal with
  | |- conforms (VDict _) _ =>
      apply conforms_inv; split; [solve_head|split; [solve_type|apply object_ok_intro]];
      [reflexivity|reflexivity|
       cbn [all_conform schema_fields dget_or dget dict_or_empty as_dict default from_option id
            String.eqb Ascii.eqb Bool.eqb];
       repeat match goal with |- _ ∧ _ => split | |- True => exact I end]
  | |- conforms (VList _) _ =>
      apply conforms_inv; split; [solve_head|split; [solve_type|apply array_ok_intro]];
      [reflexivity|let p := fresh in intros p; cbn; first [discriminate | intros [= <-]]]
  | |- conforms _ _ => apply conforms_scalar; [try reflexivity|solve_head|try solve_type]
  end.

(** Every list of strings conforms to an array-of-strings schema. *)
Lemma conforms_strs l s :
  dget "type" s = Some (VStr "array") → dhas "enum" s = false → dgetN "minItems" s = VNone →
  dget "items" s = Some (VDict [("type", VStr "string")]) → conforms (strs l) (VDict s).
Proof.
  intros Ht He Hm Hi. apply conforms_inv. split; [by apply enum_ok_none|].
  split; [by eapply type_ok_intro|]. apply array_ok_intro; [done|].
  intros p Hp. rewrite Hi in Hp. injection Hp as <-.
  apply Forall_forall. intros x Hx. apply list_elem_of_fmap in Hx as (y & -> & _). conform_step.
Qed.
