(* ===== verification/Contracts.v ===== *)
(** * Contract dataclasses

    [src/shared/mesh_runtime/contracts.py]: every dataclass that crosses a
    service boundary, as its schema and its fields.  An instance is the
    dictionary of its fields, in field order; [to_dict] and [from_dict] are the
    two methods all classes inherit. *)

From S2P Require Import Prelude PyFloat PyValue Json SchemaValidation Schemas.

(** A dataclass: its schema and its fields, with their defaults. *)
Record contract_class := ContractClass {
  schema_name : string;
  fields : list (string * option value) }.

Definition field_names (c : contract_class) : list string := map fst (fields c).

(** An instance has exactly the fields of its class, in order. *)
Definition is_instance (c : contract_class) (x : dict) : Prop := map fst x = field_names c.

(** [ContractModel.to_dict]; [validate] is its check alone.  [asdict] copies the
    fields, in order: the instance is already the dictionary of its fields. *)
Definition to_dict (c : contract_class) (x : dict) : res dict :=
  let payload := x in
  _ ← validate_named (schema_name c) payload;
  Ok payload.

Definition validate (c : contract_class) (x : dict) : res unit :=
  payload ← to_dict c x;
  validate_named (schema_name c) payload.

(** The field values of [cls( **payload)]. *)
Fixpoint bind_fields (fs : list (string * option value)) (payload : dict) : res dict :=
  match fs with
  | [] => Ok []
  | (name, default) :: fs' =>
      v ← match dget name payload, default with
          | Some v, _ => Ok v
          | None, Some v => Ok v
          | None, None => raise TypeError ("missing required argument: " +:+ repr_str name)
          end;
      rest ← bind_fields fs' payload;
      Ok ((name, v) :: rest)
  end.

(** [cls( **payload)] *)
Definition construct (c : contract_class) (payload : dict) : res dict :=
  _ ← res_iter (λ kv,
        raise_if negb (mem_str kv.1 (field_names c))
          with TypeError ("unexpected keyword argument " +:+ repr_str kv.1);
        Ok ()) payload;
  bind_fields (fields c) payload.

(** [ContractModel.from_dict] *)
Definition from_dict (c : contract_class) (payload : dict) : res dict :=
  _ ← validate_named (schema_name c) payload;
  construct c payload.

(** ** The classes *)

Definition RECURSIVE_CHAOS_SAFETY_CLASSES : list string :=
  ["local_disposable"; "staging_owned"; "production_probe_only"; "production_mutating_blocked"].

Definition Trigger : contract_class := ContractClass "trigger.schema.json"
  [("trigger_id", None);
   ("trigger_type", None);
   ("triggered_at", None);
   ("environment", None);
   ("service", None);
   ("endpoint", None);
   ("flag_key", None);
   ("current_rollout_pct", None);
   ("comparison_window", None);
   ("segment", None);
   ("metrics", None);
   ("related_context", None)].

Definition Decision : contract_class := ContractClass "decision.schema.json"
  [("decision_id", None);
   ("trigger_id", None);
   ("summary", None);
   ("decision_type", None);
   ("autonomy_tier", None);
   ("reasoning", None);
   ("expected_outcome", None);
   ("risk", None);
   ("confidence", None);
   ("execution_plan", None)].

Definition EvidenceNode : contract_class := ContractClass "evidence-node.schema.json"
  [("evidence_id", None);
   ("run_id", None);
   ("analyzer", None);
   ("kind", None);
   ("summary", None);
   ("payload", None);
   ("source_event_ids", None);
   ("confidence", None);
   ("trusted", None)].

Definition Subdecision : contract_class := ContractClass "subdecision.schema.json"
  [("subdecision_id", None);
   ("analyzer", None);
   ("recommendation", None);
   ("confidence", None);
   ("risk_level", None);
   ("reasons", None);
   ("evidence_refs", None);
   ("requires_review", None)].

Definition ScenarioAnalysis : contract_class := ContractClass "scenario-analysis.schema.json"
  [("analysis_id", None);
   ("trigger_id", None);
   ("created_at", None);
   ("suggested_decision_type", None);
   ("confidence", None);
   ("risk_level", None);
   ("autonomy_tier_hint", None);
   ("required_review_reasons", None);
   ("evidence_refs", None);
   ("subdecisions", None);
   ("evidence_nodes", None);
   ("merkle_root", Some VNone);
   ("merkle_event_ids", Some VNone);
   ("quality_measurements", Some VNone)].

Definition InvestigationPlan : contract_class := ContractClass "investigation-plan.schema.json"
  [("plan_id", None);
   ("trigger_id", None);
   ("created_at", None);
   ("objective", None);
   ("probe_budget", None);
   ("probes", None)].

Definition InvestigationProbeResult : contract_class := ContractClass "investigation-probe-result.schema.json"
  [("probe_id", None);
   ("name", None);
   ("status", None);
   ("started_at", None);
   ("completed_at", None);
   ("latency_ms", None);
   ("summary", None);
   ("findings", None);
   ("citations", None);
   ("error", Some VNone)].

Definition InvestigationReport : contract_class := ContractClass "investigation-report.schema.json"
  [("report_id", None);
   ("trigger_id", None);
   ("created_at", None);
   ("plan", None);
   ("probe_results", None);
   ("findings", None);
   ("citations", None);
   ("uncertainty", None);
   ("stop_reason", None);
   ("recommended_next_step", None);
   ("safety_notes", None);
   ("root_cause_candidates", Some (VList []))].

Definition RcaReport : contract_class := ContractClass "rca-report.schema.json"
  [("report_id", None);
   ("trigger_id", None);
   ("created_at", None);
   ("likely_cause", None);
   ("confidence", None);
   ("supporting_evidence", None);
   ("disconfirming_evidence", None);
   ("ruled_out_causes", None);
   ("unknowns", None);
   ("evidence_checked", None);
   ("recommended_next_step", None);
   ("safety_reason", None)].

Definition RecursiveChaosArenaProfile : contract_class := ContractClass "recursive-chaos-arena-profile.schema.json"
  [("profile_id", None);
   ("display_name", None);
   ("arena_domain", None);
   ("safety_class", None);
   ("environment", None);
   ("target_refs", None);
   ("allowed_faults", None);
   ("blocked_faults", None);
   ("max_recursion_depth", None);
   ("cycle_budget", None);
   ("recovery_objectives", None);
   ("evidence_requirements", None);
   ("schema_version", Some (VStr "mesh.recursive_chaos.arena_profile.v1"))].

Definition RecursiveChaosExperimentManifest : contract_class := ContractClass "recursive-chaos-experiment-manifest.schema.json"
  [("manifest_id", None);
   ("profile_id", None);
   ("created_at", None);
   ("runner", None);
   ("safety_class", None);
   ("target_refs", None);
   ("experiments", None);
   ("safety_gates", None);
   ("mesh_integration", None);
   ("environment", None);
   ("schema_version", Some (VStr "mesh.recursive_chaos.experiment_manifest.v1"))].

Definition RecursiveChaosCyclePacket : contract_class := ContractClass "recursive-chaos-cycle-packet.schema.json"
  [("cycle_id", None);
   ("manifest_id", None);
   ("profile_id", None);
   ("run_id", None);
   ("decision_id", None);
   ("started_at", None);
   ("completed_at", None);
   ("recursion_depth", None);
   ("selected_experiment", None);
   ("target", None);
   ("pre_state_ref", None);
   ("fault_state_ref", None);
   ("mesh_observation", None);
   ("safety_verdict", None);
   ("recovery_packet_id", None);
   ("learning_packet_id", None);
   ("evidence_refs", None);
   ("sealed", None);
   ("schema_version", Some (VStr "mesh.recursive_chaos.cycle_packet.v1"))].

Definition RecursiveChaosGhostRecoveryPacket : contract_class := ContractClass "recursive-chaos-ghost-recovery-packet.schema.json"
  [("recovery_packet_id", None);
   ("cycle_id", None);
   ("run_id", None);
   ("decision_id", None);
   ("pre_state", None);
   ("fault_state", None);
   ("recovery_action", None);
   ("post_state", None);
   ("residual_drift", None);
   ("recovered", None);
   ("evidence_refs", None);
   ("sealed_at", None);
   ("schema_version", Some (VStr "mesh.recursive_chaos.ghost_recovery_packet.v1"))].

Definition RecursiveChaosLearningPacket : contract_class := ContractClass "recursive-chaos-learning-packet.schema.json"
  [("learning_packet_id", None);
   ("cycle_id", None);
   ("run_id", None);
   ("source_packet_refs", None);
   ("sealed_source_required", None);
   ("mesh_brain_mode", None);
   ("mesh_model_mode", None);
   ("recommendations", None);
   ("training_allowed", None);
   ("mesh_model_training_allowed", None);
   ("advisory_only", None);
   ("sealed_at", None);
   ("schema_version", Some (VStr "mesh.recursive_chaos.learning_packet.v1"))].

Definition RecursiveChaosEvidenceBundle : contract_class := ContractClass "recursive-chaos-evidence-bundle.schema.json"
  [("bundle_id", None);
   ("generated_at", None);
   ("profile_id", None);
   ("manifest_id", None);
   ("environment", None);
   ("safety_class", None);
   ("cycle_packet_refs", None);
   ("ghost_recovery_packet_refs", None);
   ("learning_packet_refs", None);
   ("run_refs", None);
   ("decision_refs", None);
   ("artifact_refs", None);
   ("gate_results", None);
   ("production_readiness_claim", None);
   ("sealed", None);
   ("schema_version", Some (VStr "mesh.recursive_chaos.evidence_bundle.v1"))].

Definition MemoryCompactionRecord : contract_class := ContractClass "memory-compaction.schema.json"
  [("compaction_id", None);
   ("run_id", None);
   ("service", None);
   ("created_at", None);
   ("active_facts", None);
   ("suppressed_facts", None);
   ("source_event_ids", None);
   ("merkle_root", Some VNone)].

Definition ObservationRecord : contract_class := ContractClass "observation-record.schema.json"
  [("observation_id", None);
   ("scope", None);
   ("kind", None);
   ("content", None);
   ("service", None);
   ("run_id", None);
   ("source_type", None);
   ("source_refs", None);
   ("created_at", None);
   ("author", None);
   ("tags", None);
   ("metadata", None)].

Definition ClaimRecord : contract_class := ContractClass "claim-record.schema.json"
  [("claim_id", None);
   ("statement", None);
   ("entity_refs", None);
   ("supporting_observation_ids", None);
   ("contradicting_claim_ids", None);
   ("superseded_by", None);
   ("confidence", None);
   ("confidence_factors", None);
   ("freshness", None);
   ("tier", None);
   ("state", None);
   ("created_at", None);
   ("updated_at", None)].

Definition RelationshipRecord : contract_class := ContractClass "relationship-record.schema.json"
  [("relationship_id", None);
   ("from_id", None);
   ("to_id", None);
   ("type", None);
   ("confidence", None);
   ("supporting_observation_ids", None);
   ("state", None);
   ("infra_node_key", Some VNone)].

Definition SupersessionRecord : contract_class := ContractClass "supersession-record.schema.json"
  [("supersession_id", None);
   ("old_claim_id", None);
   ("new_claim_id", None);
   ("reason", None);
   ("created_at", None);
   ("created_by", None)].

Definition RetrievalRecord : contract_class := ContractClass "retrieval-record.schema.json"
  [("retrieval_id", None);
   ("query", None);
   ("scope", None);
   ("channels", None);
   ("candidate_ids", None);
   ("verified_ids", None);
   ("discarded_ids", None);
   ("created_at", None)].

Definition MemoryPacket : contract_class := ContractClass "memory-packet.schema.json"
  [("packet_id", None);
   ("scope", None);
   ("observations", None);
   ("claims", None);
   ("procedures", None);
   ("contradictions", None);
   ("citations", None);
   ("generated_at", None)].

Definition EvaluationResult : contract_class := ContractClass "evaluation-result.schema.json"
  [("evaluation_id", None);
   ("decision_id", None);
   ("passed", None);
   ("final_recommendation", None);
   ("stage_results", None);
   ("blocking_reasons", None);
   ("review_route", Some VNone)].

Definition ExecutionRecord : contract_class := ContractClass "execution-record.schema.json"
  [("execution_id", None);
   ("decision_id", None);
   ("started_at", None);
   ("completed_at", None);
   ("executor", None);
   ("status", None);
   ("idempotency_key", None);
   ("applied_action", None);
   ("external_refs", None);
   ("failure", Some VNone)].

Definition FeedbackRecord : contract_class := ContractClass "feedback-record.schema.json"
  [("feedback_id", None);
   ("decision_id", None);
   ("execution_id", None);
   ("measured_at", None);
   ("window", None);
   ("outcome", None);
   ("metric_comparison", None);
   ("prediction_accuracy", None);
   ("side_effects", None);
   ("world_model_updates", None);
   ("recommended_follow_up", Some VNone);
   ("quality_measurements", Some VNone)].

Definition contract_classes : list contract_class :=
  [Trigger;
   Decision;
   EvidenceNode;
   Subdecision;
   ScenarioAnalysis;
   InvestigationPlan;
   InvestigationProbeResult;
   InvestigationReport;
   RcaReport;
   RecursiveChaosArenaProfile;
   RecursiveChaosExperimentManifest;
   RecursiveChaosCyclePacket;
   RecursiveChaosGhostRecoveryPacket;
   RecursiveChaosLearningPacket;
   RecursiveChaosEvidenceBundle;
   MemoryCompactionRecord;
   ObservationRecord;
   ClaimRecord;
   RelationshipRecord;
   SupersessionRecord;
   RetrievalRecord;
   MemoryPacket;
   EvaluationResult;
   ExecutionRecord;
   FeedbackRecord].

(** ** Round trips *)

Lemma bind_fields_instance fs x y :
  NoDup (map fst fs) → map fst x = map fst fs →
  (∀ k v, dget k x = Some v → dget k y = Some v) → bind_fields fs y = Ok x.
Proof.
  revert x. induction fs as [|[k d] fs IH]; intros [|[k' v] x] Hnd Hx Hy; try done.
  injection Hx as -> Hx. cbn [bind_fields]. cbn [map fst] in Hnd. apply NoDup_cons in Hnd as [Hk Hnd].
  rewrite (Hy k v) by (cbn [dget]; by rewrite String.eqb_refl). cbn [mbind res_bind].
  rewrite (IH x); [done..|]. intros k2 v2 H2. apply Hy. cbn [dget].
  destruct (String.eqb_spec k2 k) as [->|]; [|done]. exfalso. apply Hk. rewrite <- Hx.
  apply dget_In in H2. apply list_elem_of_fmap. by exists (k, v2).
Qed.

Lemma bind_fields_names fs y x : bind_fields fs y = Ok x → map fst x = map fst fs.
Proof.
  revert x. induction fs as [|[k d] fs IH]; intros x H; cbn [bind_fields] in H; [by res_inv H|].
  apply res_bind_Ok in H as (v & _ & H). apply res_bind_Ok in H as (r & Hr & H).
  injection H as <-. cbn [map fst]. by rewrite (IH _ Hr).
Qed.

Lemma construct_instance c x :
  NoDup (field_names c) → is_instance c x → construct c x = Ok x.
Proof.
  intros Hnd Hx. unfold construct.
  assert (res_iter (λ kv : string * value,
    if negb (mem_str kv.1 (field_names c))
    then raise TypeError ("unexpected keyword argument " +:+ repr_str kv.1) else Ok ()) x = Ok ()) as ->.
  { apply res_iter_Ok, Forall_forall. intros kv Hkv.
    assert (mem_str kv.1 (field_names c) = true) as ->; [|done].
    unfold mem_str. apply existsb_exists. exists kv.1. split; [|apply String.eqb_refl].
    rewrite <- Hx, <- list_elem_of_In. by apply list_elem_of_fmap_2. }
  by apply bind_fields_instance.
Qed.

Lemma contract_fields_distinct :
  forallb (λ c, bool_decide (NoDup (field_names c))) contract_classes = true.
Proof. reflexivity. Qed.

Lemma contract_schemas_known :
  forallb (λ c, is_ok (load_schema (schema_name c))) contract_classes = true.
Proof. reflexivity. Qed.

Lemma contract_class_NoDup c : c ∈ contract_classes → NoDup (field_names c).
Proof.
  intros Hc. pose proof contract_fields_distinct as H. rewrite forallb_forall in H.
  specialize (H c). rewrite <- list_elem_of_In in H. specialize (H Hc).
  by apply bool_decide_eq_true in H.
Qed.

(** ** The guarantees *)

Definition demo_result : dict :=
  [("evaluation_id", VStr "eval-1"); ("decision_id", VStr "dec-1"); ("passed", VBool true);
   ("final_recommendation", VStr "execute");
   ("stage_results", VDict (map (λ k, (k, VDict []))
      ["schema_validation"; "policy_validation"; "contract_checks"; "trajectory_quality";
       "behavioral_scores"; "verifier"; "business_rules"; "execution_readiness"]));
   ("blocking_reasons", VList []); ("review_route", VNone)].

(** What [from_dict] accepts is a valid payload whose fields are the
    instance's, the missing optional ones at their defaults; a payload that
    breaks the schema is refused with the schema's error. *)
Theorem contract_from_dict_sound c payload x :
  from_dict c payload = Ok x →
  is_instance c x
  ∧ validate_named (schema_name c) payload = Ok ()
  ∧ ∀ k, k ∈ field_names c → ∃ v, dget k x = Some v
      ∧ (dget k payload = Some v ∨ dget k payload = None ∧ (k, Some v) ∈ fields c).
Proof.
  unfold from_dict, construct. intros H. apply res_bind_Ok in H as ([] & Hv & H).
  apply res_bind_Ok in H as ([] & _ & H). split; [by apply bind_fields_names in H|]. split; [done|].
  unfold field_names. revert x H. induction (fields c) as [|[k0 d] fs IH]; intros x H k Hk;
    [by apply elem_of_nil in Hk|]. cbn [bind_fields] in H.
  apply res_bind_Ok in H as (v & Hval & H). apply res_bind_Ok in H as (r & Hr & H). injection H as <-.
  cbn [dget]. destruct (String.eqb_spec k k0) as [->|Hne].
  - exists v. split; [done|]. destruct (dget k0 payload) as [w|]; [left; by injection Hval as ->|].
    right. split; [done|]. destruct d; [|done]. injection Hval as ->. apply elem_of_cons. by left.
  - cbn [map fst] in Hk. apply elem_of_cons in Hk as [->|Hk]; [done|].
    destruct (IH _ Hr k Hk) as (w & Hw & Hcase). exists w. split; [done|].
    destruct Hcase as [?|[? ?]]; [by left|right]. split; [done|]. apply elem_of_cons. by right.
Qed.

Lemma contract_from_dict_sound_witness :
  is_instance EvaluationResult demo_result
  ∧ validate_named (schema_name EvaluationResult) demo_result = Ok ()
  ∧ ∀ k, k ∈ field_names EvaluationResult → ∃ v, dget k demo_result = Some v
      ∧ (dget k demo_result = Some v ∨ dget k demo_result = None ∧ (k, Some v) ∈ fields EvaluationResult).
Proof. apply (contract_from_dict_sound EvaluationResult demo_result). vm_compute. reflexivity. Defined.
