(* ===== verification/PacketFacts.v ===== *)
(** * Members of a validated packet

    What a packet or a contract instance that passed its schema is known to
    hold: the types of its members, read off the schema. *)

From S2P Require Import Prelude PyFloat PyValue Json PyNumbers SchemaValidation Schemas Contracts.

Lemma validate_named_conforms name schema payload :
  load_schema name = Ok schema → schema_wf schema = true →
  validate_named name payload = Ok () → conforms (VDict payload) schema.
Proof.
  intros Hl Hwf H. unfold validate_named in H. rewrite Hl in H. cbn [mbind res_bind] in H.
  pose proof (validate_node_decides (VDict payload) schema "$" Hwf) as Hd.
  unfold validate_payload in H. unfold decides in Hd. by rewrite H in Hd.
Qed.

Section members.
Variables (fields s : dict).
Hypothesis Hc : conforms (VDict fields) (VDict s).
Hypothesis Ht : typed_as "object" s true = true.

Lemma conforms_object :
  Forall (λ k, ∃ n, k = VStr n ∧ dhas n fields = true) (schema_list "required" s)
  ∧ (∀ k x p, (k, x) ∈ fields → dget k (schema_fields s) = Some p → conforms x p).
Proof. inversion Hc as [v d _ _ H _]; subst. destruct (H fields eq_refl Ht) as (H1 & _ & H2). done. Qed.

(** A member the schema constrains. *)
Lemma conforms_member k v p :
  dget k fields = Some v → dget k (schema_fields s) = Some p → conforms v p.
Proof. intros Hv Hp. eapply conforms_object; [by apply dget_In|done]. Qed.

(** A required one is there. *)
Lemma conforms_required k p :
  existsb (is_string k) (schema_list "required" s) = true → dget k (schema_fields s) = Some p →
  ∃ v, dget k fields = Some v ∧ conforms v p.
Proof.
  intros Hr Hp. destruct conforms_object as [H _]. rewrite Forall_forall in H.
  apply existsb_exists in Hr as (x & Hx & ->%is_string_true). apply list_elem_of_In in Hx.
  destruct (H _ Hx) as (n & [= <-] & Hn). unfold dhas in Hn.
  destruct (dget k fields) as [v|] eqn:E; [|done]. exists v. split; [done|]. by eapply conforms_member.
Qed.
End members.

(** What the type keyword alone says. *)
Lemma conforms_type v d t :
  conforms v (VDict d) → dget "type" d = Some (VStr t) → matches_type v (VStr t) = true.
Proof.
  intros H Ht. apply conforms_inv in H as (_ & H & _). specialize (H _ Ht). cbn [existsb] in H.
  by rewrite orb_false_r in H.
Qed.

Lemma conforms_dict v d :
  conforms v (VDict d) → dget "type" d = Some (VStr "object") → ∃ fields, v = VDict fields.
Proof. intros H Ht. apply (conforms_type _ _ _ H) in Ht. destruct v; try done. eauto. Qed.

Lemma conforms_str v d :
  conforms v (VDict d) → dget "type" d = Some (VStr "string") → ∃ s, v = VStr s.
Proof. intros H Ht. apply (conforms_type _ _ _ H) in Ht. destruct v; try done. eauto. Qed.

Lemma conforms_list v d :
  conforms v (VDict d) → dget "type" d = Some (VStr "array") → ∃ l, v = VList l.
Proof. intros H Ht. apply (conforms_type _ _ _ H) in Ht. destruct v; try done. eauto. Qed.

Lemma conforms_bool v d :
  conforms v (VDict d) → dget "type" d = Some (VStr "boolean") → ∃ b, v = VBool b.
Proof. intros H Ht. apply (conforms_type _ _ _ H) in Ht. destruct v; try done. eauto. Qed.

Lemma conforms_items l d p x :
  conforms (VList l) (VDict d) → typed_as "array" d true = true → dget "items" d = Some p →
  x ∈ l → conforms x p.
Proof. intros H Ht Hp Hx. inversion H as [v d' _ _ _ Hl]; subst. by eapply (Hl l eq_refl Ht). Qed.

(** An array of strings *)
Lemma conforms_strings v d :
  conforms v (VDict d) → dget "type" d = Some (VStr "array") → typed_as "array" d true = true →
  dget "items" d = Some (VDict [("type", VStr "string")]) →
  ∃ l, v = VList (map VStr l).
Proof.
  intros H Ht Ht' Hi. destruct (conforms_list _ _ H Ht) as [l ->].
  assert (Forall (λ x, conforms x (VDict [("type", VStr "string")])) l) as Hl.
  { apply Forall_forall. intros x. by apply (conforms_items l d _ x H). }
  clear -Hl. induction Hl as [|x l Hx _ [m [= ->]]]; [by exists []|].
  destruct (conforms_str _ _ Hx eq_refl) as [s ->]. by exists (s :: m).
Qed.

(** ** Decisions *)

(** The parts of a valid [Decision] that the policies read. *)
Record decision_parts (x : dict) := DecisionParts {
  dp_id : string;
  dp_type : string;
  dp_tier : string;
  dp_reasoning : dict;
  dp_risk : dict;
  dp_level : string;
  dp_plan : dict;
  dp_system : string;
  dp_action : string;
  dp_rollback : string;
  dp_evidence : list string;
  dp_parameters : dict;
  dp_id_eq : dgetN "decision_id" x = VStr dp_id;
  dp_type_eq : dgetN "decision_type" x = VStr dp_type;
  dp_tier_eq : dgetN "autonomy_tier" x = VStr dp_tier;
  dp_reasoning_eq : dgetN "reasoning" x = VDict dp_reasoning;
  dp_risk_eq : dgetN "risk" x = VDict dp_risk;
  dp_level_eq : dgetN "level" dp_risk = VStr dp_level;
  dp_level_in : dp_level ∈ ["low"; "medium"; "high"];
  dp_plan_eq : dgetN "execution_plan" x = VDict dp_plan;
  dp_system_eq : dgetN "system" dp_plan = VStr dp_system;
  dp_action_eq : dgetN "action" dp_plan = VStr dp_action;
  dp_rollback_eq : dgetN "rollback_plan" dp_plan = VStr dp_rollback;
  dp_evidence_eq : dgetN "evidence" dp_reasoning = VList (map VStr dp_evidence);
  dp_parameters_eq : dget "parameters" dp_plan = Some (VDict dp_parameters) }.

(** [member H k v Hv Hc]: the required member [k] of the packet [H] is about. *)
Ltac member H k v Hv Hc :=
  let Hm := fresh in
  pose proof (conforms_required _ _ H eq_refl k _ eq_refl eq_refl) as Hm;
  destruct Hm as (v & Hv & Hc).

Lemma valid_decision_parts x :
  validate_named "decision.schema.json" x = Ok () → inhabited (decision_parts x).
Proof.
  intros H. apply (validate_named_conforms _ decision_schema) in H; [|reflexivity..].
  unfold decision_schema in H.
  member H "decision_id" vi Ei Hi. member H "decision_type" vt Et Hty.
  member H "autonomy_tier" va Ea Hti. member H "reasoning" vr Er Hr. member H "risk" vk Ek Hk.
  member H "execution_plan" vp Ep Hp.
  destruct (conforms_str _ _ Hi eq_refl) as [i ->]. destruct (conforms_str _ _ Hty eq_refl) as [t ->].
  destruct (conforms_str _ _ Hti eq_refl) as [a ->].
  destruct (conforms_dict _ _ Hr eq_refl) as [r ->]. destruct (conforms_dict _ _ Hk eq_refl) as [k ->].
  destruct (conforms_dict _ _ Hp eq_refl) as [p ->].
  member Hr "evidence" ve Ee He. member Hk "level" vl El Hl. member Hp "system" vs Es Hs.
  member Hp "action" vc Ec Hac. member Hp "rollback_plan" vb Eb Hb. member Hp "parameters" vm Em Hm.
  destruct (conforms_strings _ _ He eq_refl eq_refl eq_refl) as [e ->].
  destruct (conforms_str _ _ Hl eq_refl) as [l ->]. destruct (conforms_str _ _ Hs eq_refl) as [s ->].
  destruct (conforms_str _ _ Hac eq_refl) as [c ->]. destruct (conforms_str _ _ Hb eq_refl) as [b ->].
  destruct (conforms_dict _ _ Hm eq_refl) as [m ->].
  apply inhabits.
  apply (DecisionParts x i t a r k l p s c b e m); try (by apply dgetN_Some); [|done].
  apply conforms_inv in Hl as (Hl & _). specialize (Hl eq_refl).
  apply mem_str_elem. exact Hl.
Qed.

(** The string under a path of keys, empty when there is none. *)
Definition str_at (ks : list string) (x : dict) : string :=
  default "" (dpath ks (VDict x) ≫= as_str).

Section parts.
Variable x : dict.
Variable p : decision_parts x.

Lemma str_at_1 k s : dgetN k x = VStr s → str_at [k] x = s.
Proof. unfold str_at, dgetN. cbn [dpath]. destruct (dget k x); simpl; [by intros ->|done]. Qed.

Lemma str_at_2 k l d s : dgetN k x = VDict d → dgetN l d = VStr s → str_at [k; l] x = s.
Proof.
  unfold str_at, dgetN. cbn [dpath]. destruct (dget k x); simpl; [|done]. intros ->.
  destruct (dget l d); simpl; [by intros ->|done].
Qed.

Lemma dp_type_at : str_at ["decision_type"] x = dp_type x p.
Proof. apply str_at_1, dp_type_eq. Qed.
Lemma dp_tier_at : str_at ["autonomy_tier"] x = dp_tier x p.
Proof. apply str_at_1, dp_tier_eq. Qed.
Lemma dp_action_at : str_at ["execution_plan"; "action"] x = dp_action x p.
Proof. eapply str_at_2; [apply dp_plan_eq|apply dp_action_eq]. Qed.
Lemma dp_system_at : str_at ["execution_plan"; "system"] x = dp_system x p.
Proof. eapply str_at_2; [apply dp_plan_eq|apply dp_system_eq]. Qed.
Lemma dp_rollback_at : str_at ["execution_plan"; "rollback_plan"] x = dp_rollback x p.
Proof. eapply str_at_2; [apply dp_plan_eq|apply dp_rollback_eq]. Qed.
Lemma dp_level_at : str_at ["risk"; "level"] x = dp_level x p.
Proof. eapply str_at_2; [apply dp_risk_eq|apply dp_level_eq]. Qed.
End parts.

(** A valid decision, for the examples. *)
Definition demo_decision : dict :=
  [("decision_id", VStr "decision-1");
   ("trigger_id", VStr "trigger-1");
   ("summary", VStr "scale the checkout deployment");
   ("decision_type", VStr "scale_deployment");
   ("autonomy_tier", VStr "autonomous");
   ("reasoning", VDict
      [("primary_hypothesis", VStr "saturation");
       ("evidence", VList [VStr "p95 over budget"; VStr "queue depth growing"]);
       ("evidence_pack", VDict [("citations", VList [VStr "c1"]); ("artifact_ref", VStr "artifact-1")]);
       ("alternatives_considered", VList [VStr "no action"])]);
   ("expected_outcome", VDict
      [("target_metrics", VDict [("p95_latency_ms", VStr "<300"); ("error_rate", VStr "<1%")]);
       ("time_to_effect", VStr "5m")]);
   ("risk", VDict
      [("level", VStr "medium"); ("blast_radius", VStr "one service");
       ("customer_impact_if_wrong", VStr "none")]);
   ("confidence", VInt 1);
   ("execution_plan", VDict
      [("system", VStr "kubernetes_service"); ("action", VStr "scale_deployment");
       ("parameters", VDict [("replicas", VInt 4)]); ("rollback_plan", VStr "scale back")])].
