(* ===== verification/InfraGraph.v ===== *)
(** * Infrastructure graph

    [src/shared/mesh_runtime/infra_graph.py]: the snapshot of the cluster's
    objects and their dependencies, its versioned copies and the queries on it.
    A node or an edge is the dictionary of its dataclass fields, as in
    [Contracts].  The order in which Python visits a set of strings is an
    argument, and so are the clock and the files that cannot be deleted. *)

From S2P Require Import Prelude PyFloat PyValue Json PyNumbers JsonStore SchemaValidation Schemas Contracts.

Definition NODE_KINDS : list string :=
  ["service"; "deployment"; "pod"; "namespace"; "node"; "configmap"; "secret"; "ingress"; "statefulset";
   "daemonset"; "job"].

Definition EDGE_KINDS : list string :=
  ["routes_to"; "selects"; "owns"; "mounts"; "scheduled_on"; "exposes"].

Definition MAX_VERSIONS : nat := 50.

(** The f-string formats its parts with [str]. *)
Definition node_key (kind namespace name : value) : string :=
  py_str kind +:+ ":" +:+ py_str (py_or namespace (VStr "_cluster")) +:+ ":" +:+ py_str name.

(** The dataclasses: fields and defaults; the schema name is not used. *)
Definition GraphNode : contract_class :=
  ContractClass "" [("kind", None); ("name", None); ("namespace", Some VNone); ("labels", Some (VDict []));
                    ("attributes", Some (VDict []))].

Definition GraphEdge : contract_class :=
  ContractClass "" [("kind", None); ("source", None); ("target", None); ("attributes", Some (VDict []))].

(** [GraphNode.key] *)
Definition graph_key (n : dict) : string :=
  node_key (dgetN "kind" n) (dgetN "namespace" n) (dgetN "name" n).

Record GraphSnapshot := Snapshot { recorded_at : value; nodes : list dict; edges : list dict }.

Definition snapshot_to_dict (s : GraphSnapshot) : dict :=
  [("recorded_at", recorded_at s);
   ("nodes", VList (map VDict (nodes s)));
   ("edges", VList (map VDict (edges s)))].

(** [cls( **v)] *)
Definition construct_value (c : contract_class) (v : value) : res dict :=
  match v with
  | VDict d => construct c d
  | _ => raise TypeError "argument after ** must be a mapping"
  end.

(** [GraphSnapshot(recorded_at=..., nodes=\[...\], edges=\[...\])] from a payload *)
Definition read_snapshot (payload : dict) : res GraphSnapshot :=
  ns ← py_iter (dget_or "nodes" (VList []) payload);
  nodes ← res_map (construct_value GraphNode) ns;
  es ← py_iter (dget_or "edges" (VList []) payload);
  edges ← res_map (construct_value GraphEdge) es;
  Ok (Snapshot (dget_or "recorded_at" (VStr "") payload) nodes edges).

(** [_validate] *)
Definition validate_graph (ns es : list dict) : res unit :=
  let node_keys := map graph_key ns in
  _ ← res_iter (λ n,
        known ← in_str_set (dgetN "kind" n) NODE_KINDS;
        raise_if negb known with ValueError ("unknown node kind: " +:+ py_str (dgetN "kind" n));
        Ok ()) ns;
  res_iter (λ e,
    known ← in_str_set (dgetN "kind" e) EDGE_KINDS;
    raise_if negb known with ValueError ("unknown edge kind: " +:+ py_str (dgetN "kind" e));
    source ← in_str_set (dgetN "source" e) node_keys;
    raise_if negb source with ValueError ("edge source not in graph: " +:+ py_str (dgetN "source" e));
    target ← in_str_set (dgetN "target" e) node_keys;
    raise_if negb target with ValueError ("edge target not in graph: " +:+ py_str (dgetN "target" e));
    Ok ()) es.

(** ** The stored graph *)

(** The snapshot file, and the version files by stem. *)
Record graph_state := GraphState { g_snapshot : file; g_versions : list (string * file) }.

Definition no_graph : graph_state := GraphState no_file [].

(** [sorted(p.stem for p in versions.glob("*.json"))] *)
Definition version_stems (vs : list (string * file)) : list string := sort_strings (map fst vs).

(** [payload.clear(); payload.update(snapshot)] in a locked section *)
Definition write_snapshot (path : string) (f : file) (s : GraphSnapshot) : res unit * file :=
  locked_json true path f (λ _, Ok ((), snapshot_to_dict s)).

Fixpoint str_without (c : ascii) (s : string) : string :=
  match s with
  | EmptyString => ""
  | String a s' => if Ascii.eqb a c then str_without c s' else String a (str_without c s')
  end.

(** [recorded_at.replace(":", "").replace(".", "")] *)
Definition safe_ts (stamp : string) : string := str_without "."%char (str_without ":"%char stamp).

Definition version_file (stem : string) (vs : list (string * file)) : file :=
  default no_file (alookup stem vs).

Definition set_version (stem : string) (f : file) (vs : list (string * file)) : list (string * file) :=
  (stem, f) :: List.filter (λ kv, negb (String.eqb kv.1 stem)) vs.

(** The name of a version file. *)
Definition version_name (kv : string * file) : string := kv.1 +:+ ".json".

(** [_prune_versions]; [pinned] are the files that [unlink] fails on. *)
Definition prune_versions (pinned : string → bool) (vs : list (string * file)) : list (string * file) :=
  let versions := sort_strings (map version_name vs) in
  let stale := take (length versions - MAX_VERSIONS) versions in
  List.filter (λ kv, negb (mem_str (version_name kv) stale && negb (pinned (version_name kv)))) vs.

Definition update_snapshot (path : string) (g : graph_state) (ns es : list dict) (stamp : string)
    (pinned : string → bool) : res GraphSnapshot * graph_state :=
  match validate_graph ns es with
  | Err e => (Err e, g)
  | Ok _ =>
      let snapshot := Snapshot (VStr stamp) ns es in
      match write_snapshot path (g_snapshot g) snapshot with
      | (Err e, f) => (Err e, GraphState f (g_versions g))
      | (Ok _, f) =>
          let stem := safe_ts stamp in
          match write_snapshot path (version_file stem (g_versions g)) snapshot with
          | (Err e, v) => (Err e, GraphState f (set_version stem v (g_versions g)))
          | (Ok _, v) =>
              (Ok snapshot, GraphState f (prune_versions pinned (set_version stem v (g_versions g))))
          end
      end
  end.

(** A snapshot file read back, [None] when there is none or it is empty. *)
Definition read_file (path : string) (f : file) : res (option GraphSnapshot) * file :=
  match f_text f with
  | None => (Ok None, f)
  | Some _ =>
      locked_json true path f (λ payload,
        match payload with
        | [] => Ok (None, payload)
        | _ => s ← read_snapshot payload; Ok (Some s, payload)
        end)
  end.

Definition snapshot (path : string) (g : graph_state) : res (option GraphSnapshot) * graph_state :=
  let '(r, f) := read_file path (g_snapshot g) in (r, GraphState f (g_versions g)).

Definition load_version (path : string) (g : graph_state) (version : string)
    : res (option GraphSnapshot) * graph_state :=
  match alookup version (g_versions g) with
  | None => (Ok None, g)
  | Some f => let '(r, f') := read_file path f in (r, GraphState (g_snapshot g) (set_version version f' (g_versions g)))
  end.

Definition list_versions (g : graph_state) : list string := version_stems (g_versions g).

(** ** Queries on a snapshot *)

(** The results of [f] that are there. *)
Fixpoint filter_map {A B} (f : A → option B) (l : list A) : list B :=
  match l with
  | [] => []
  | x :: l' => match f x with Some y => y :: filter_map f l' | None => filter_map f l' end
  end.


(** [{n.key: n for n in nodes}.get(key)]: the last node with the key *)
Definition node_index (s : GraphSnapshot) (key : string) : option dict :=
  alookup key (rev (map (λ n, (graph_key n, n)) (nodes s))).

Definition in_index (s : GraphSnapshot) (v : value) : bool :=
  match v with VStr k => match node_index s k with Some _ => true | None => false end | _ => false end.

(** The first node with the key. *)
Definition get_node (s : GraphSnapshot) (kind name namespace : value) : option dict :=
  List.find (λ n, String.eqb (graph_key n) (node_key kind namespace name)) (nodes s).

(** [edge_kinds] as a set, when it is given and not empty *)
Definition edge_allowed (allowed : list string) (e : dict) : res bool :=
  match allowed with [] => Ok true | _ => in_str_set (dgetN "kind" e) allowed end.

(** What one side of an edge adds to the next frontier: [here] is the side in
    the frontier, [there] the other one. *)
Definition reach_side (s : GraphSnapshot) (active : bool) (visited frontier : list string) (here there : value)
    : res (list string) :=
  inside ← (if active then in_str_set here frontier else Ok false);
  if inside : bool then
    seen ← in_str_set there visited;
    Ok (if negb seen && in_index s there then match there with VStr k => [k] | _ => [] end else [])
  else Ok [].

(** The next frontier, by one pass over the edges. *)
Fixpoint next_frontier (s : GraphSnapshot) (allowed : list string) (out inn : bool)
    (visited frontier : list string) (es : list dict) : res (list string) :=
  match es with
  | [] => Ok []
  | e :: es' =>
      ok ← edge_allowed allowed e;
      here ← (if ok : bool then
                a ← reach_side s out visited frontier (dgetN "source" e) (dgetN "target" e);
                b ← reach_side s inn visited frontier (dgetN "target" e) (dgetN "source" e);
                Ok (a ++ b)
              else Ok []);
      rest ← next_frontier s allowed out inn visited frontier es';
      Ok (here ++ rest)
  end.

(** The loop over the hops; [order] is the order in which a set is visited. *)
Fixpoint hop (s : GraphSnapshot) (order : list string → list string) (allowed : list string) (out inn : bool)
    (depth : nat) (visited frontier : list string) : res (list string) :=
  match depth with
  | O => Ok []
  | S depth' =>
      found ← next_frontier s allowed out inn visited frontier (edges s);
      let next := order (remove_dups found) in
      rest ← match next with
             | [] => Ok []
             | _ => hop s order allowed out inn depth' (next ++ visited) next
             end;
      Ok (next ++ rest)
  end.

Definition neighbors (s : GraphSnapshot) (order : list string → list string) (kind name namespace : value)
    (depth : Z) (edge_kinds : list string) (direction : string) : res (list dict) :=
  let start := node_key kind namespace name in
  match node_index s start with
  | None => Ok []
  | Some _ =>
      keys ← hop s order edge_kinds (mem_str direction ["out"; "both"]) (mem_str direction ["in"; "both"])
               (Z.to_nat depth) [start] [start];
      Ok (filter_map (node_index s) keys)
  end.

(** The targets of the edges of a kind whose source is one of [sources]. *)
Definition edge_targets (s : GraphSnapshot) (kind : string) (sources : list string) : list value :=
  map (dgetN "target")
    (List.filter (λ e, is_string kind (dgetN "kind" e) && str_in (dgetN "source" e) sources) (edges s)).

(** The strings of a set of keys. *)
Definition key_strings (l : list value) : list string :=
  filter_map (λ v, match v with VStr k => Some k | _ => None end) l.

(** The names of the services at the sources of the edges that [keep] accepts. *)
Definition service_sources (s : GraphSnapshot) (keep : dict → bool) : list value :=
  filter_map (λ e, match dgetN "source" e with
             | VStr k => n ← node_index s k;
                         if is_string "service" (dgetN "kind" n) then Some (dgetN "name" n) else None
             | _ => None
             end) (List.filter keep (edges s)).

(** Snapshots hold string names and endpoints where the code sorts or hashes
    them; [key_strings] keeps those. *)
Definition affected_services (s : GraphSnapshot) (deployment_name namespace : string) : list string :=
  let dep_key := node_key (VStr "deployment") (VStr namespace) (VStr deployment_name) in
  let pod_keys := key_strings (edge_targets s "owns" [dep_key]) in
  sorted_set (key_strings
    (service_sources s (λ e, is_string "selects" (dgetN "kind" e) && str_in (dgetN "target" e) pod_keys)
     ++ service_sources s (λ e, is_string "exposes" (dgetN "kind" e) && str_in (dgetN "target" e) [dep_key]))).

Definition upstream_dependencies (s : GraphSnapshot) (service : string) (namespace : value) : list dict :=
  let svc_key := node_key (VStr "service") namespace (VStr service) in
  match node_index s svc_key with
  | None => []
  | Some _ =>
      let dep_keys := key_strings (edge_targets s "exposes" [svc_key]) in
      let pod_keys := key_strings (edge_targets s "owns" dep_keys) in
      filter_map (λ v, match v with
                 | VStr k => n ← node_index s k;
                             if str_in (dgetN "kind" n) ["configmap"; "secret"] then Some n else None
                 | _ => None
                 end) (edge_targets s "mounts" pod_keys)
  end.

Definition graph_status (s : option GraphSnapshot) (versions : list string) : dict :=
  match s with
  | None => [("recorded_at", VNone); ("node_count", VInt 0); ("edge_count", VInt 0); ("versions", VInt 0)]
  | Some s =>
      [("recorded_at", recorded_at s); ("node_count", VInt (Z.of_nat (length (nodes s))));
       ("edge_count", VInt (Z.of_nat (length (edges s)))); ("versions", VInt (Z.of_nat (length versions)))]
  end.
