(* ===== verification/InfraGraphFacts.v ===== *)
(** * Infrastructure graph: guarantees

    Breadth-first search against a reference definition of reachability, the
    bound on stored versions, and reading back what was written. *)

From S2P Require Import Prelude PyFloat PyValue Json PyNumbers JsonStore SchemaValidation Schemas Contracts InfraGraph.

(** ** Well-formed graphs *)

Lemma in_str_set_true v l : in_str_set v l = Ok true ↔ ∃ k, v = VStr k ∧ k ∈ l.
Proof.
  split; [apply in_str_set_Ok|]. intros (k & -> & Hk). cbn [in_str_set str_in].
  f_equal. by apply mem_str_elem.
Qed.

(** What [_validate] checks of an edge. *)
Definition edge_ok (ns : list dict) (e : dict) : Prop :=
  ∃ kind a b, dgetN "kind" e = VStr kind ∧ dgetN "source" e = VStr a ∧ dgetN "target" e = VStr b
    ∧ kind ∈ EDGE_KINDS ∧ a ∈ map graph_key ns ∧ b ∈ map graph_key ns.

Lemma validate_graph_ok ns es :
  validate_graph ns es = Ok () ↔
  Forall (λ n, ∃ kind, dgetN "kind" n = VStr kind ∧ kind ∈ NODE_KINDS) ns ∧ Forall (edge_ok ns) es.
Proof.
  assert (∀ v l cls msg (k : res unit),
    (known ← in_str_set v l; raise_if negb known with cls msg; k) = Ok ()
    ↔ (∃ s, v = VStr s ∧ s ∈ l) ∧ k = Ok ()) as Hset.
  { intros v l cls msg k. rewrite <- in_str_set_true.
    destruct (in_str_set v l) as [[]|e]; unfold raise; cbn [mbind res_bind negb]; intuition congruence. }
  unfold validate_graph. split.
  - intros H. apply res_bind_Ok in H as ([] & H1 & H2). apply res_iter_Ok in H1, H2. split.
    + eapply Forall_impl; [exact H1|]. intros n Hn. apply Hset in Hn as [Hn _]. exact Hn.
    + eapply Forall_impl; [exact H2|]. intros e He. apply Hset in He as [(kind & Hk & Hkin) He].
      apply Hset in He as [(a & Ha & Hain) He]. apply Hset in He as [(b & Hb & Hbin) _].
      by exists kind, a, b.
  - intros [H1 H2].
    assert (res_iter (λ n,
        known ← in_str_set (dgetN "kind" n) NODE_KINDS;
        raise_if negb known with ValueError ("unknown node kind: " +:+ py_str (dgetN "kind" n));
        Ok ()) ns = Ok ()) as ->.
    { apply res_iter_Ok. eapply Forall_impl; [exact H1|]. intros n Hn. by apply Hset. }
    cbn [mbind res_bind]. apply res_iter_Ok. eapply Forall_impl; [exact H2|].
    intros e (kind & a & b & Hk & Ha & Hb & Hkin & Hain & Hbin).
    apply Hset; split; [by exists kind|]. apply Hset; split; [by exists a|]. apply Hset; split; [by exists b|done].
Qed.

Lemma alookup_some {A} (k : string) (l : list (string * A)) :
  (∃ v, alookup k l = Some v) ↔ k ∈ map fst l.
Proof.
  induction l as [|[k' v] l IH]; cbn [alookup map fst].
  - split; [by intros [? ?]|by intros ?%elem_of_nil].
  - rewrite elem_of_cons. destruct (String.eqb_spec k k') as [->|Hne].
    + split; [by left|]. by eexists.
    + rewrite IH. split; [by right|]. by intros [?|?].
Qed.

(** A key is in the index when a node has it. *)
Lemma in_index_key s k : in_index s (VStr k) = true ↔ k ∈ map graph_key (nodes s).
Proof.
  assert (in_index s (VStr k) = true ↔ ∃ n, node_index s k = Some n) as ->.
  { unfold in_index. destruct (node_index s k); split; try done; [by eexists|by intros [? ?]]. }
  unfold node_index. rewrite alookup_some, map_rev, map_map. cbn [fst].
  by rewrite !list_elem_of_In, <- in_rev.
Qed.

(** ** Reachability *)

Section search.
Variable s : GraphSnapshot.
Variables (allowed : list string) (out inn : bool).
Hypothesis Hs : Forall (edge_ok (nodes s)) (edges s).

(** One hop along an edge of the list. *)
Definition hop_edge (es : list dict) (a b : string) : Prop :=
  ∃ e, e ∈ es ∧ edge_allowed allowed e = Ok true
    ∧ (out = true ∧ dgetN "source" e = VStr a ∧ dgetN "target" e = VStr b
       ∨ inn = true ∧ dgetN "target" e = VStr a ∧ dgetN "source" e = VStr b).

(** [reach n a b]: [n] hops lead from [a] to [b]. *)
Inductive reach : nat → string → string → Prop :=
  | ReachHere a : reach 0 a a
  | ReachHop n a b c : reach n a b → hop_edge (edges s) b c → reach (S n) a c.

Lemma reach_side_ok active visited frontier a b :
  b ∈ map graph_key (nodes s) →
  reach_side s active visited frontier (VStr a) (VStr b)
  = Ok (if active && mem_str a frontier && negb (mem_str b visited) then [b] else []).
Proof.
  intros Hb. unfold reach_side. cbn [in_str_set str_in]. fold (mem_str a frontier). fold (mem_str b visited).
  destruct active; cbn [mbind res_bind andb]; [|done]. destruct (mem_str a frontier); cbn [mbind res_bind andb]; [|done].
  apply in_index_key in Hb. rewrite Hb, andb_true_r. done.
Qed.

Lemma edge_allowed_ok e : edge_ok (nodes s) e → ∃ b, edge_allowed allowed e = Ok b.
Proof.
  intros (kind & a & b & Hk & _). unfold edge_allowed. rewrite Hk. destruct allowed; by eexists.
Qed.

Lemma next_frontier_ok visited frontier es :
  Forall (edge_ok (nodes s)) es →
  ∃ found, next_frontier s allowed out inn visited frontier es = Ok found
    ∧ ∀ k, k ∈ found ↔ (k ∉ visited) ∧ ∃ a, a ∈ frontier ∧ hop_edge es a k.
Proof.
  induction 1 as [|e es He _ (found & IH & Hf)]; cbn [next_frontier].
  { exists []. split; [done|]. intros k. rewrite elem_of_nil. split; [done|].
    intros (_ & a & _ & e & He & _). by apply elem_of_nil in He. }
  destruct (edge_allowed_ok e He) as [ok Hok]. rewrite Hok. cbn [mbind res_bind].
  destruct He as (kind & a & b & Hk & Ha & Hb & _ & Hain & Hbin). rewrite Ha, Hb.
  assert (∀ k, ((k ∉ visited) ∧ ∃ c, c ∈ frontier ∧ hop_edge (e :: es) c k)
    ↔ (ok = true ∧ (k ∉ visited) ∧ (out = true ∧ a ∈ frontier ∧ b = k ∨ inn = true ∧ b ∈ frontier ∧ a = k))
      ∨ k ∈ found) as Hsplit.
  { intros k. rewrite Hf. unfold hop_edge. split.
    - intros (Hv & c & Hc & e' & [->|He']%elem_of_cons & Hal & Hdir); [left|right; by eauto 10].
      rewrite Hok in Hal. injection Hal as ->. rewrite Ha, Hb in Hdir. split; [done|]. split; [done|].
      destruct Hdir as [(? & [= <-] & [= <-])|(? & [= <-] & [= <-])]; auto.
    - intros [(-> & Hv & Hdir)|(Hv & c & Hc & e' & He' & Hrest)].
      + split; [done|]. destruct Hdir as [(? & ? & <-)|(? & ? & <-)];
          eexists; (split; [eassumption|]); exists e; (split; [left|]); (split; [done|]); rewrite Ha, Hb; auto.
      + split; [done|]. exists c. split; [done|]. exists e'. split; [by right|done]. }
  destruct ok; cbn [mbind res_bind].
  - rewrite !reach_side_ok by done. cbn [mbind res_bind]. rewrite IH. cbn [mbind res_bind].
    eexists. split; [reflexivity|]. intros k. rewrite Hsplit, !elem_of_app.
    assert (∀ active x y, k ∈ (if active && mem_str x frontier && negb (mem_str y visited) then [y] else [])
      ↔ (k ∉ visited) ∧ active = true ∧ x ∈ frontier ∧ y = k) as Hone.
    { intros active x y. rewrite <- (mem_str_elem x frontier).
      destruct active, (mem_str x frontier); cbn [andb];
        try (rewrite elem_of_nil; intuition congruence).
      destruct (mem_str y visited) eqn:Ey; cbn [negb].
      - rewrite elem_of_nil. apply mem_str_elem in Ey. split; [done|]. by intros (Hv & _ & _ & <-).
      - rewrite list_elem_of_singleton. split; [|by intros (_ & _ & _ & ->)]. intros ->.
        split; [|done]. intros Hv. apply mem_str_elem in Hv. congruence. }
    rewrite !Hone. tauto.
  - rewrite IH. cbn [mbind res_bind]. eexists. split; [reflexivity|]. intros k. rewrite Hsplit.
    split; [by right|]. by intros [[? _]|?].
Qed.

(** The distance from the start, when there is one. *)
Definition dist (start : string) (d : nat) (k : string) : Prop :=
  reach d start k ∧ ∀ j, (j < d)%nat → ¬ reach j start k.

Section from.
Variable start : string.
Variable order : list string → list string.
Hypothesis Horder : ∀ l, order l ≡ₚ l.

(** After [i] hops: [visited] is what is within them, [frontier] what is
    exactly that far. *)
Definition layers (i : nat) (visited frontier : list string) : Prop :=
  (∀ k, k ∈ visited ↔ ∃ j, (j <= i)%nat ∧ reach j start k) ∧ (∀ k, k ∈ frontier ↔ dist start i k).

Lemma layers_start : layers 0 [start] [start].
Proof.
  assert (∀ j k, (j <= 0)%nat → reach j start k → k = start) as H0.
  { intros j k Hj H. destruct H; [done|lia]. }
  split; intros k; rewrite list_elem_of_singleton; split.
  - intros ->. exists 0%nat. split; [lia|constructor].
  - intros (j & Hj & H). by eapply H0.
  - intros ->. split; [constructor|lia].
  - intros [H _]. by eapply H0.
Qed.

Lemma layers_next i visited frontier found :
  layers i visited frontier →
  (∀ k, k ∈ found ↔ (k ∉ visited) ∧ ∃ a, a ∈ frontier ∧ hop_edge (edges s) a k) →
  layers (S i) (found ++ visited) found.
Proof.
  intros [Hv Hf] Hfound.
  assert (∀ k, k ∈ found ↔ dist start (S i) k) as Hnew.
  { intros k. rewrite Hfound. split.
    - intros (Hk & a & Ha & Hhop). apply Hf in Ha as [Ha _]. split; [by econstructor|].
      intros j Hj Hr. apply Hk, Hv. exists j. split; [lia|done].
    - intros [Hr Hmin]. split.
      + intros Hk. apply Hv in Hk as (j & Hj & Hk). apply (Hmin j); [lia|done].
      + inversion Hr as [|? ? b ? Hb Hhop]; subst. exists b. split; [|done]. apply Hf. split; [done|].
        intros j Hj Hrj. apply (Hmin (S j)); [lia|]. by econstructor. }
  split; [|done]. intros k. rewrite elem_of_app, Hnew, Hv. split.
  - intros [[Hr _]|(j & Hj & Hr)]; [by exists (S i)|]. exists j. split; [lia|done].
  - intros (j & Hj & Hr). destruct (decide (k ∈ visited)) as [Hk|Hk]; [right; by apply Hv|left].
    assert (∀ j', (j' <= i)%nat → ¬ reach j' start k) as Hno.
    { intros j' Hj' Hr'. apply Hk, Hv. by exists j'. }
    assert (j = S i) as -> by (destruct (decide (j = S i)); [done|]; destruct (Hno j); [lia|done]).
    split; [done|]. intros j' Hj'. apply Hno. lia.
Qed.

(** When a layer is empty everything reachable is already visited. *)
Lemma layers_empty i visited :
  layers i visited [] → ∀ j k, reach j start k → k ∈ visited.
Proof.
  intros [Hv Hf] j. induction j as [|j IH]; intros k H.
  - apply Hv. exists 0%nat. split; [lia|done].
  - inversion H as [|? ? b ? Hb Hhop]; subst. apply IH, Hv in Hb as (j' & Hj' & Hb).
    destruct (decide (k ∈ visited)) as [|Hk]; [done|]. exfalso.
    (* the predecessor is at distance [i], which nothing is *)
    assert (dist start i b) as Hd; [|by apply Hf, elem_of_nil in Hd].
    assert (∀ m, (m < i)%nat → ¬ reach m start b) as Hno.
    { intros m Hm Hrm. apply Hk, Hv. exists (S m). split; [lia|]. by econstructor. }
    split; [|done]. destruct (decide (j' = i)) as [->|]; [done|]. destruct (Hno j'); [lia|done].
Qed.

Lemma hop_ok depth : ∀ i visited frontier,
  layers i visited frontier →
  ∃ keys, hop s order allowed out inn depth visited frontier = Ok keys
    ∧ NoDup keys ∧ ∀ k, k ∈ keys ↔ (k ∉ visited) ∧ ∃ j, (j <= i + depth)%nat ∧ reach j start k.
Proof.
  induction depth as [|depth IH]; intros i visited frontier HL; cbn [hop].
  { exists []. split; [done|]. split; [constructor|]. intros k. rewrite elem_of_nil. split; [done|].
    intros (Hk & j & Hj & Hr). apply Hk, HL. exists j. split; [lia|done]. }
  destruct (next_frontier_ok visited frontier (edges s) Hs) as (found & -> & Hfound).
  cbn [mbind res_bind]. set (next := order (remove_dups found)).
  assert (∀ k, k ∈ next ↔ (k ∉ visited) ∧ ∃ a, a ∈ frontier ∧ hop_edge (edges s) a k) as Hnext.
  { intros k. rewrite <- Hfound. unfold next. by rewrite (Horder _), elem_of_remove_dups. }
  assert (NoDup next) as Hnd by (unfold next; rewrite (Horder _); apply NoDup_remove_dups).
  clearbody next. pose proof (layers_next _ _ _ _ HL Hnext) as HL'.
  assert (∃ rest, match next with [] => Ok []
      | _ => hop s order allowed out inn depth (next ++ visited) next end = Ok rest
    ∧ NoDup rest ∧ ∀ k, k ∈ rest ↔ (k ∉ next ++ visited) ∧ ∃ j, (j <= S i + depth)%nat ∧ reach j start k)
    as (rest & -> & Hndr & Hrest).
  { destruct next as [|x next].
    - exists []. split; [done|]. split; [constructor|]. intros k. rewrite elem_of_nil. split; [done|].
      intros (Hk & j & _ & Hr). destruct Hk. by eapply (layers_empty (S i)).
    - destruct (IH _ _ _ HL') as (rest & -> & ?). by exists rest. }
  cbn [mbind res_bind]. eexists. split; [reflexivity|]. split.
  - apply NoDup_app. split; [done|]. split; [|done]. intros k Hk Hkr. apply Hrest in Hkr as [Hkr _].
    apply Hkr, elem_of_app. by left.
  - intros k. rewrite elem_of_app, Hrest, not_elem_of_app.
    replace (i + S depth)%nat with (S i + depth)%nat by lia. split.
    + intros [Hk|[[_ Hk] ?]]; [|done]. pose proof (proj1 (Hnext k) Hk) as [Hkv _]. split; [done|].
      apply HL' in Hk as [Hr _]. exists (S i). split; [lia|done].
    + intros [Hk Hr]. destruct (decide (k ∈ next)); [by left|right]. done.
Qed.

(** ** Distances are below the number of nodes *)

Lemma dist_chain d : ∀ k, dist start d k →
  ∃ l, length l = S d ∧ NoDup l ∧ ∀ x, x ∈ l → ∃ i, (i <= d)%nat ∧ dist start i x.
Proof.
  induction d as [|d IH]; intros k Hd.
  - exists [k]. split; [done|]. split; [apply NoDup_singleton|].
    intros x ->%list_elem_of_singleton. by exists 0%nat.
  - pose proof Hd as [Hr Hmin]. inversion Hr as [|? ? b ? Hb Hhop]; subst.
    destruct (IH b) as (l & Hl & Hnd & Hx).
    { split; [done|]. intros j Hj Hrj. apply (Hmin (S j)); [lia|]. by econstructor. }
    exists (k :: l). split; [simpl; lia|]. split.
    + apply NoDup_cons. split; [|done]. intros Hin. apply Hx in Hin as (i & Hi & Hri & _).
      apply (Hmin i); [lia|done].
    + intros x [->|Hin]%elem_of_cons; [by exists (S d)|]. apply Hx in Hin as (i & Hi & Hri).
      exists i. split; [lia|done].
Qed.

Lemma hop_edge_node a b : hop_edge (edges s) a b → b ∈ map graph_key (nodes s).
Proof.
  intros (e & He & _ & Hdir). rewrite Forall_forall in Hs.
  destruct (Hs e He) as (kind & x & y & _ & Hx & Hy & _ & Hxin & Hyin). rewrite Hx, Hy in Hdir.
  by destruct Hdir as [(_ & _ & [= <-])|(_ & _ & [= <-])].
Qed.

Hypothesis Hstart : start ∈ map graph_key (nodes s).

Lemma reach_node n k : reach n start k → k ∈ map graph_key (nodes s).
Proof. inversion 1; subst; [done|]. by eapply hop_edge_node. Qed.

Lemma dist_bound d k : dist start d k → (d < length (nodes s))%nat.
Proof.
  intros Hd. destruct (dist_chain d k Hd) as (l & Hl & Hnd & Hx).
  assert (length l <= length (map graph_key (nodes s)))%nat as Hle.
  { apply NoDup_incl_length; [by apply NoDup_ListNoDup|]. intros x Hin. apply list_elem_of_In in Hin.
    apply Hx in Hin as (i & _ & Hr & _). apply list_elem_of_In. by eapply reach_node. }
  rewrite length_map in Hle. lia.
Qed.

(** A reachable node has a distance. *)
Lemma reach_dist n k : reach n start k → ∃ d, (d <= n)%nat ∧ dist start d k.
Proof.
  induction n as [n IH] using lt_wf_ind. intros Hr.
  destruct n as [|n]; [exists 0%nat; split; [done|]; split; [done|lia]|].
  destruct (hop_ok n 0 _ _ layers_start) as (keys & _ & _ & Hkeys).
  destruct (decide (k = start)) as [->|Hne].
  { exists 0%nat. split; [lia|]. split; [constructor|lia]. }
  destruct (decide (k ∈ keys)) as [Hk|Hk].
  - apply Hkeys in Hk as (_ & j & Hj & Hrj). destruct (IH j ltac:(lia) Hrj) as (d & Hd & Hdist).
    exists d. split; [lia|done].
  - exists (S n). split; [done|]. split; [done|]. intros j Hj Hrj. apply Hk, Hkeys.
    split; [by rewrite list_elem_of_singleton|]. exists j. split; [lia|done].
Qed.

Lemma reach_short n k : reach n start k → ∃ j, (j < length (nodes s))%nat ∧ reach j start k.
Proof.
  intros H. destruct (reach_dist n k H) as (d & _ & Hd). exists d. split; [by eapply dist_bound|apply Hd].
Qed.
End from.
End search.

(** ** The guarantees *)

Lemma node_index_key s k n : node_index s k = Some n → graph_key n = k.
Proof.
  unfold node_index. rewrite <- map_rev. induction (rev (nodes s)) as [|m l IH]; [done|].
  cbn [map alookup]. destruct (String.eqb_spec k (graph_key m)) as [->|]; [by intros [= <-]|done].
Qed.

Lemma filter_map_index s keys :
  Forall (λ k, k ∈ map graph_key (nodes s)) keys →
  map graph_key (filter_map (node_index s) keys) = keys.
Proof.
  induction 1 as [|k keys Hk _ IH]; [done|]. cbn [filter_map].
  apply in_index_key in Hk. unfold in_index in Hk. destruct (node_index s k) as [n|] eqn:E; [|done].
  cbn [map]. by rewrite IH, (node_index_key _ _ _ E).
Qed.

(** On a validated snapshot, [neighbors] returns - once each, whatever the
    order of sets - exactly the nodes other than the start that at most [depth]
    hops along edges of the chosen kinds and direction lead to; and a depth of
    one less than the number of nodes already finds everything reachable, so
    deeper searches stop early. *)
Theorem neighbors_reachable s order kind name namespace depth edge_kinds direction :
  (∀ l, order l ≡ₚ l) → validate_graph (nodes s) (edges s) = Ok () →
  let start := node_key kind namespace name in
  let hops := reach s edge_kinds (mem_str direction ["out"; "both"]) (mem_str direction ["in"; "both"]) in
  start ∈ map graph_key (nodes s) →
  ∃ found, neighbors s order kind name namespace depth edge_kinds direction = Ok found
    ∧ NoDup (map graph_key found)
    ∧ (∀ k, k ∈ map graph_key found ↔ k ≠ start ∧ ∃ j, (j <= Z.to_nat depth)%nat ∧ hops j start k)
    ∧ (Z.of_nat (length (nodes s)) - 1 <= depth →
       ∀ j k, hops j start k → k ≠ start → k ∈ map graph_key found).
Proof.
  intros Horder Hv start hops Hstart. apply validate_graph_ok in Hv as [_ Hedges].
  unfold neighbors. fold start.
  apply in_index_key in Hstart as Hin. unfold in_index in Hin. destruct (node_index s start) eqn:E; [|done].
  destruct (hop_ok s edge_kinds (mem_str direction ["out"; "both"]) (mem_str direction ["in"; "both"]) Hedges
    start order Horder (Z.to_nat depth) 0 [start] [start] (layers_start s edge_kinds _ _ start))
    as (keys & -> & Hnd & Hkeys).
  cbn [mbind res_bind]. eexists. split; [reflexivity|].
  assert (∀ k, k ∈ keys ↔ k ≠ start ∧ ∃ j, (j <= Z.to_nat depth)%nat ∧ hops j start k) as Hspec.
  { intros k. rewrite Hkeys, list_elem_of_singleton. done. }
  rewrite filter_map_index.
  - split; [done|]. split; [done|]. intros Hd j k Hr Hne. apply Hspec. split; [done|].
    destruct (reach_short s edge_kinds _ _ Hedges start order Horder Hstart j k Hr) as (j' & Hj' & Hr').
    exists j'. split; [lia|done].
  - apply Forall_forall. intros k Hk. apply Hspec in Hk as (_ & j & _ & Hr).
    by eapply reach_node.
Qed.

(** A small graph: a service, its deployment and a pod. *)
Definition demo_node (kind name : string) : dict :=
  [("kind", VStr kind); ("name", VStr name); ("namespace", VStr "shop"); ("labels", VDict []);
   ("attributes", VDict [])].
Definition demo_edge (kind source target : string) : dict :=
  [("kind", VStr kind); ("source", VStr source); ("target", VStr target); ("attributes", VDict [])].
Definition demo_nodes : list dict :=
  [demo_node "service" "api"; demo_node "deployment" "api"; demo_node "pod" "api-1"].
Definition demo_edges : list dict :=
  [demo_edge "exposes" "service:shop:api" "deployment:shop:api";
   demo_edge "owns" "deployment:shop:api" "pod:shop:api-1";
   demo_edge "selects" "service:shop:api" "pod:shop:api-1"].
Definition demo_graph : GraphSnapshot := Snapshot (VStr "t") demo_nodes demo_edges.

Lemma neighbors_reachable_witness :
  ∃ found, neighbors demo_graph (λ l, l) (VStr "service") (VStr "api") (VStr "shop") 2 ["exposes"; "owns"] "out"
           = Ok found
    ∧ "pod:shop:api-1" ∈ map graph_key found.
Proof.
  destruct (neighbors_reachable demo_graph (λ l, l) (VStr "service") (VStr "api") (VStr "shop") 2
    ["exposes"; "owns"] "out") as (found & H & _ & Hk & _).
  - reflexivity.
  - reflexivity.
  - left.
  - exists found. split; [exact H|]. apply Hk. split; [discriminate|]. exists 2%nat. split; [lia|].
    apply (ReachHop _ _ _ _ 1 _ "deployment:shop:api").
    + apply (ReachHop _ _ _ _ 0 _ "service:shop:api"); [constructor|].
      eexists. split; [left|]. split; [reflexivity|]. left. done.
    + eexists. split; [right; left|]. split; [reflexivity|]. left. done.
Defined.

(** ** Versions *)

(** [n] updates, none of whose old versions resists deletion. *)
Fixpoint update_run (path : string) (g : graph_state) (us : list (list dict * list dict * string)) : graph_state :=
  match us with
  | [] => g
  | (ns, es, stamp) :: us' => update_run path (update_snapshot path g ns es stamp (λ _, false)).2 us'
  end.

Lemma filter_complement {A} (f : A → bool) l :
  (length (List.filter f l) + length (List.filter (λ x, negb (f x)) l) = length l)%nat.
Proof. induction l as [|x l IH]; [done|]. simpl. destruct (f x); simpl; lia. Qed.

Lemma NoDup_map_filter {A} (f : A → bool) (g : A → string) l : NoDup (map g l) → NoDup (map g (List.filter f l)).
Proof.
  induction l as [|x l IH]; [done|]. cbn [map List.filter]. intros [Hx Hl]%NoDup_cons.
  destruct (f x); [|by apply IH]. cbn [map]. apply NoDup_cons. split; [|by apply IH].
  intros (y & Hy & Hin)%list_elem_of_fmap. apply list_elem_of_In, filter_In in Hin as [Hin _].
  apply Hx. apply list_elem_of_fmap. exists y. split; [done|]. by apply list_elem_of_In.
Qed.

Lemma str_app_length a b : String.length (a +:+ b) = (String.length a + String.length b)%nat.
Proof. induction a as [|c a IH]; simpl; [done|]. by rewrite <- IH. Qed.

Lemma str_app_inv_r a b x : a +:+ x = b +:+ x → a = b.
Proof.
  revert b. induction a as [|c a IH]; intros [|c' b] H; try done.
  - apply (f_equal String.length) in H. rewrite !str_app_length in H. simpl in H. lia.
  - apply (f_equal String.length) in H. rewrite !str_app_length in H. simpl in H. lia.
  - injection H as -> H. by rewrite (IH _ H).
Qed.

Lemma version_names_NoDup vs : NoDup (map fst vs) → NoDup (map version_name vs).
Proof.
  intros H. assert (map version_name vs = map (λ k, k +:+ ".json") (map fst vs)) as -> by (by rewrite map_map).
  apply (NoDup_fmap_2_strong (λ k, k +:+ ".json")); [|done]. intros a b _ _. apply str_app_inv_r.
Qed.

Lemma prune_bound vs :
  NoDup (map fst vs) → (length (prune_versions (λ _, false) vs) <= MAX_VERSIONS)%nat.
Proof.
  intros Hnd%version_names_NoDup. unfold prune_versions.
  set (names := sort_strings (map version_name vs)).
  set (stale := take (length names - MAX_VERSIONS) names).
  assert (length names = length vs) as Hlen by (unfold names; by rewrite length_sort_strings, length_map).
  assert (NoDup names) as Hst by (by apply sort_strings_NoDup).
  pose proof (filter_complement (λ kv, negb (mem_str (version_name kv) stale && negb false)) vs) as Hc.
  set (gone := List.filter (λ kv, negb (negb (mem_str (version_name kv) stale && negb false))) vs) in Hc.
  assert (length stale <= length gone)%nat as Hle.
  { rewrite <- (length_map version_name gone). apply NoDup_incl_length.
    - apply NoDup_ListNoDup. unfold stale. by eapply sublist_NoDup; [|apply sublist_take].
    - intros k Hk. apply list_elem_of_In in Hk.
      assert (k ∈ map version_name vs) as Hin.
      { apply sort_strings_elem. change (k ∈ names).
        rewrite <- (take_drop (length names - MAX_VERSIONS) names). apply elem_of_app. by left. }
      apply list_elem_of_fmap in Hin as (kv & -> & Hin). apply in_map_iff. exists kv.
      split; [done|]. apply filter_In. split; [by apply list_elem_of_In|].
      apply mem_str_elem in Hk. by rewrite Hk. }
  unfold stale in Hle. rewrite length_take in Hle. lia.
Qed.

Lemma set_version_NoDup stem f vs : NoDup (map fst vs) → NoDup (map fst (set_version stem f vs)).
Proof.
  intros H. unfold set_version. cbn [map fst]. apply NoDup_cons. split; [|by apply NoDup_map_filter].
  intros ([k v] & Hk & Hin)%list_elem_of_fmap. apply list_elem_of_In, filter_In in Hin as [_ Hin].
  cbn [fst] in *. subst. by rewrite String.eqb_refl in Hin.
Qed.

Lemma prune_NoDup pinned vs : NoDup (map fst vs) → NoDup (map fst (prune_versions pinned vs)).
Proof. apply NoDup_map_filter. Qed.

Lemma write_snapshot_ok path f s : ∃ f', write_snapshot path f s = (Ok (), f').
Proof.
  unfold write_snapshot. destruct (locked_json _ _ _ _) as [r f'] eqn:E. apply locked_json_cases in E.
  destruct r as [[]|e]; [by exists f'|]. by destruct E as [E _].
Qed.

(** Whatever is recorded, and however often, the versions stay distinct and
    at most fifty. *)
Theorem versions_bounded path us :
  let g := update_run path no_graph us in
  NoDup (list_versions g) ∧ (length (list_versions g) <= MAX_VERSIONS)%nat.
Proof.
  assert (∀ us g, NoDup (map fst (g_versions g)) ∧ (length (g_versions g) <= MAX_VERSIONS)%nat →
    let g' := update_run path g us in
    NoDup (map fst (g_versions g')) ∧ (length (g_versions g') <= MAX_VERSIONS)%nat) as H.
  { clear us. induction us as [|[[ns es] stamp] us IH]; intros g Hg; [done|]. cbn [update_run]. apply IH.
    destruct Hg as [Hnd Hlen]. unfold update_snapshot.
    destruct (validate_graph ns es) as [[]|e]; [|done].
    destruct (write_snapshot_ok path (g_snapshot g) (Snapshot (VStr stamp) ns es)) as [f ->].
    destruct (write_snapshot_ok path (version_file (safe_ts stamp) (g_versions g))
      (Snapshot (VStr stamp) ns es)) as [v ->]. cbn [snd g_versions].
    pose proof (set_version_NoDup (safe_ts stamp) v _ Hnd) as Hs.
    split; [by apply prune_NoDup|by apply prune_bound]. }
  destruct (H us no_graph) as [H1 H2]; [split; [constructor|simpl; lia]|].
  unfold list_versions, version_stems. split; [by apply sort_strings_NoDup|].
  by rewrite length_sort_strings, length_map.
Qed.

(** ** Reading back *)

(** A field dictionary as it is after a trip through the file: only the order
    of keys inside its values changes. *)
Definition read_fields (n : dict) : dict := map_values json_sort n.

Lemma construct_back c n :
  NoDup (field_names c) → is_instance c n → construct_value c (json_sort (VDict n)) = Ok (read_fields n).
Proof.
  intros Hnd Hi. rewrite json_sort_dict. cbn [construct_value]. unfold construct.
  assert (res_iter (λ kv : string * value,
    raise_if negb (mem_str kv.1 (field_names c))
      with TypeError ("unexpected keyword argument " +:+ repr_str kv.1); Ok ()) (sort_dict n) = Ok ()) as ->.
  { apply res_iter_Ok. apply Forall_forall. intros [k v] Hin. cbn [fst].
    apply sort_keys_In, list_elem_of_fmap in Hin as ([k' v'] & [= -> ->] & Hin).
    assert (mem_str k' (field_names c) = true) as ->; [|done].
    apply mem_str_elem. rewrite <- Hi. apply list_elem_of_fmap. by exists (k', v'). }
  cbn [mbind res_bind]. apply bind_fields_instance; [done| |].
  - unfold read_fields, map_values. rewrite map_map. cbn [fst]. exact Hi.
  - intros k v. unfold read_fields. rewrite dget_map_values, dget_sort_dict. done.
Qed.

Lemma construct_back_all c l :
  NoDup (field_names c) → Forall (is_instance c) l →
  res_map (construct_value c) (map json_sort (map VDict l)) = Ok (map read_fields l).
Proof.
  intros Hnd. induction 1 as [|n l Hn _ IH]; [done|]. cbn [map res_map].
  rewrite (construct_back c n Hnd Hn). cbn [mbind res_bind]. by rewrite IH.
Qed.

Lemma read_snapshot_back stamp ns es :
  Forall (is_instance GraphNode) ns → Forall (is_instance GraphEdge) es →
  read_snapshot (sort_dict (snapshot_to_dict (Snapshot (VStr stamp) ns es)))
  = Ok (Snapshot (VStr stamp) (map read_fields ns) (map read_fields es)).
Proof.
  intros Hn He. unfold read_snapshot, dget_or. rewrite !dget_sort_dict.
  cbn [snapshot_to_dict recorded_at nodes edges dget String.eqb Ascii.eqb Bool.eqb fmap option_fmap option_map
       default from_option id json_sort py_iter mbind res_bind].
  rewrite construct_back_all; [|apply (bool_decide_eq_true_1 _); reflexivity|done]. cbn [mbind res_bind].
  rewrite construct_back_all; [|apply (bool_decide_eq_true_1 _); reflexivity|done]. done.
Qed.

(** C39: an update of nodes and edges, instances of their classes that pass the
    validation of the graph, stamped with another time than the snapshot the file
    holds, succeeds, and is what [snapshot] then reads: the same nodes and edges
    with the same fields, in the same order; only the keys inside labels and
    attributes are sorted. *)
Theorem snapshot_roundtrip path g ns es stamp pinned :
  Forall (is_instance GraphNode) ns → Forall (is_instance GraphEdge) es →
  validate_graph ns es = Ok () →
  dget "recorded_at" (file_contents (g_snapshot g)) ≠ Some (VStr stamp) →
  ∃ s g' g'',
    update_snapshot path g ns es stamp pinned = (Ok s, g')
    ∧ snapshot path g' = (Ok (Some (Snapshot (VStr stamp) (map read_fields ns) (map read_fields es))), g'').
Proof.
  intros Hn He Hv Hclock. unfold update_snapshot. rewrite Hv.
  set (s := Snapshot (VStr stamp) ns es).
  destruct (write_snapshot path (g_snapshot g) s) as [r f] eqn:E1.
  pose proof (locked_json_cases _ _ _ _ _ E1) as Hc.
  destruct r as [[]|e]; [|by destruct Hc as [Hc _]].
  destruct Hc as (d' & [= <-] & Hc).
  destruct (write_snapshot_ok path (version_file (safe_ts stamp) (g_versions g)) s) as [v ->].
  assert (file_payload f = Some (sort_dict (snapshot_to_dict s))) as Hf.
  { destruct Hc as [Hc|[_ [Hc|Hc]]]; [done| |].
    - rewrite <- Hc in Hclock. by destruct Hclock.
    - assert (dget "recorded_at" (snapshot_to_dict s) = Some (VStr stamp)) as Hr by reflexivity.
      destruct (py_eq_dict_dget _ _ _ _ Hc Hr) as (w & Hw & Heq). apply py_eq_str_l in Heq as ->. done. }
  destruct (read_file path f) as [r f'] eqn:E2.
  assert (r = Ok (Some (Snapshot (VStr stamp) (map read_fields ns) (map read_fields es)))) as ->.
  { unfold read_file in E2. destruct (f_text f) as [t|] eqn:Et.
    - apply locked_json_cases in E2. unfold file_contents in E2. rewrite Hf in E2.
      cbn [default from_option id] in E2.
      pose proof (read_snapshot_back stamp ns es Hn He) as Hback. fold s in Hback.
      destruct (sort_dict (snapshot_to_dict s)) as [|kv d] eqn:Es;
        [by apply (f_equal length) in Es; unfold sort_dict in Es; rewrite length_sort_keys in Es|].
      rewrite Hback in E2. cbn [mbind res_bind] in E2.
      destruct r as [o|e]; [|by destruct E2]. by destruct E2 as (d2 & [= <- _] & _).
    - unfold file_payload in Hf. by rewrite Et in Hf. }
  eexists _, _, _. split; [reflexivity|]. unfold snapshot. cbn [g_snapshot g_versions]. by rewrite E2.
Qed.

Lemma snapshot_roundtrip_witness :
  ∃ s g' g'',
    update_snapshot "p" no_graph demo_nodes demo_edges "t" (λ _, false) = (Ok s, g')
    ∧ snapshot "p" g' = (Ok (Some (Snapshot (VStr "t") demo_nodes demo_edges)), g'').
Proof.
  apply (snapshot_roundtrip "p" no_graph demo_nodes demo_edges "t" (λ _, false)).
  - repeat constructor.
  - repeat constructor.
  - reflexivity.
  - discriminate.
Defined.
