(* ===== verification/Merkle.v ===== *)
(** * Merkle commitments of a run's events

    [src/shared/mesh_runtime/merkle.py]: leaf and branch hashes, roots,
    inclusion proofs and their verification, over the executable SHA-256.
    Security statements end in an explicit collision: two different strings
    with the same digest. *)

From S2P Require Import Prelude PyFloat PyValue Json Sha256 Models.

Definition canonical_json (payload : dict) : string := dumps true (VDict payload).

Definition leaf_hash_for_payload (payload : dict) : string :=
  sha256_hex ("leaf:" +:+ canonical_json payload).

Definition branch_hash (left_hash right_hash : string) : string :=
  sha256_hex ("node:" +:+ left_hash +:+ ":" +:+ right_hash).

(** [event.merkle_leaf_hash or leaf_hash_for_payload(event.canonical_payload())] *)
Definition event_leaf (e : RunEvent) : string :=
  match ev_merkle_leaf_hash e with
  | Some h => if String.eqb h "" then leaf_hash_for_payload (canonical_payload e) else h
  | None => leaf_hash_for_payload (canonical_payload e)
  end.

(** [if len(layer) % 2 == 1: layer.append(layer\[-1\])] *)
Definition pad_layer (layer : list string) : list string :=
  if Nat.odd (length layer)
  then match last layer with Some h => layer ++ [h] | None => layer end
  else layer.

(** The branch hashes of consecutive pairs. *)
Fixpoint pair_up (layer : list string) : list string :=
  match layer with
  | l :: r :: rest => branch_hash l r :: pair_up rest
  | _ => []
  end.

Definition next_layer (layer : list string) : list string := pair_up (pad_layer layer).

(** The loop [while len(layer) > 1].  Each turn at least halves a layer of two
    or more, so the number of leaves is enough fuel. *)
Fixpoint root_loop (fuel : nat) (layer : list string) : list string :=
  match fuel with
  | O => layer
  | S fuel' =>
      if (1 <? length layer)%nat then root_loop fuel' (next_layer layer) else layer
  end.

Definition empty_root : string := sha256_hex "empty".

Definition compute_merkle_root (leaves : list string) : string :=
  match root_loop (length leaves) leaves with
  | h :: _ => h
  | [] => empty_root
  end.

Definition fold_step (cursor : string) (step : MerkleProofStep) : string :=
  if String.eqb (ps_position step) "left" then branch_hash (ps_hash step) cursor
  else branch_hash cursor (ps_hash step).

Definition verify_merkle_proof (leaf_hash root_hash : string) (proof : list MerkleProofStep) : bool :=
  String.eqb (fold_left fold_step proof leaf_hash) root_hash.

(** One turn of the proof loop: the sibling of [working_index]. *)
Definition proof_step (layer : list string) (working_index : nat) : MerkleProofStep :=
  let sibling_index := if Nat.odd working_index then (working_index - 1)%nat else S working_index in
  {| ps_position := if (sibling_index <? working_index)%nat then "left" else "right";
     ps_hash := nth sibling_index (pad_layer layer) "" |}.

Fixpoint proof_loop (fuel : nat) (layer : list string) (working_index : nat)
    : list MerkleProofStep * list string :=
  match fuel with
  | O => ([], layer)
  | S fuel' =>
      if (1 <? length layer)%nat then
        let step := proof_step layer working_index in
        let '(proof, top) := proof_loop fuel' (next_layer layer) (Nat.div2 working_index) in
        (step :: proof, top)
      else ([], layer)
  end.

(** The last index whose event has the identifier. *)
Fixpoint event_index (event_id : string) (i : nat) (events : list RunEvent) : option nat :=
  match events with
  | [] => None
  | e :: rest =>
      match event_index event_id (S i) rest with
      | Some j => Some j
      | None => if String.eqb (ev_event_id e) event_id then Some i else None
      end
  end.

Definition build_merkle_proof (run_id : string) (events : list RunEvent) (event_id : string)
    : option MerkleProof :=
  match event_index event_id 0 events with
  | None => None
  | Some index =>
      let leaves := map event_leaf events in
      let '(proof, layer) := proof_loop (length leaves) leaves index in
      let root_hash := match layer with h :: _ => h | [] => empty_root end in
      let leaf_hash := nth index leaves "" in
      Some {| mp_run_id := run_id;
              mp_event_id := event_id;
              mp_leaf_hash := leaf_hash;
              mp_root_hash := root_hash;
              mp_proof := proof;
              mp_valid := verify_merkle_proof leaf_hash root_hash proof |}
  end.

Definition build_merkle_snapshot (run_id : string) (events : list RunEvent) : MerkleSnapshot :=
  let leaves := map event_leaf events in
  {| ms_run_id := run_id;
     ms_root_hash := compute_merkle_root leaves;
     ms_leaf_count := Z.of_nat (length leaves);
     ms_event_ids := map ev_event_id events |}.

(** ** Layers *)

Lemma pad_layer_app layer : layer ≠ [] → ∃ tail, pad_layer layer = layer ++ tail.
Proof.
  intros Hne. unfold pad_layer. destruct (Nat.odd _); [|exists []; by rewrite app_nil_r].
  destruct (last layer); [eauto|exists []; by rewrite app_nil_r].
Qed.

Lemma pad_layer_length layer :
  length (pad_layer layer) = if Nat.odd (length layer) then S (length layer) else length layer.
Proof.
  unfold pad_layer. destruct (Nat.odd (length layer)) eqn:E; [|done].
  destruct (last layer) eqn:El; [rewrite length_app; simpl; lia|].
  apply last_None in El as ->. done.
Qed.

Lemma pad_layer_In layer h : h ∈ pad_layer layer → h ∈ layer.
Proof.
  unfold pad_layer. destruct (Nat.odd _); [|done]. destruct (last layer) as [x|] eqn:E; [|done].
  intros [?|Hx]%elem_of_app; [done|]. apply list_elem_of_singleton in Hx as ->.
  by apply last_Some_elem_of.
Qed.

Lemma pair_up_spec layer i :
  (2 * i + 1 < length layer)%nat →
  nth i (pair_up layer) "" = branch_hash (nth (2 * i) layer "") (nth (2 * i + 1) layer "").
Proof.
  revert layer. induction i as [|i IH]; intros layer Hi.
  - destruct layer as [|l [|r rest]]; simpl in *; [lia..|done].
  - destruct layer as [|l [|r rest]]; simpl in Hi; [lia..|].
    replace (2 * S i)%nat with (S (S (2 * i))) by lia. cbn [pair_up nth Nat.add].
    rewrite IH by lia. done.
Qed.

Lemma pair_up_length_le k layer :
  (length layer <= k)%nat → length (pair_up layer) = Nat.div2 (length layer).
Proof.
  revert layer. induction k as [|k IH]; intros layer Hk.
  - by destruct layer; [|simpl in Hk; lia].
  - destruct layer as [|l [|r rest]]; [done..|]. simpl in *. by rewrite IH by lia.
Qed.

Lemma next_layer_length layer : length (next_layer layer) = Nat.div2 (S (length layer)).
Proof.
  unfold next_layer. rewrite (pair_up_length_le _ _ (le_n _)), pad_layer_length.
  destruct (Nat.odd (length layer)) eqn:E; [done|].
  assert (Nat.even (length layer) = true) as [k ->]%Nat.even_spec
    by (rewrite <- Nat.negb_odd, E; done).
  by rewrite Nat.div2_double, <- Nat.add_1_r, Nat.div2_odd'.
Qed.

Lemma next_layer_shorter layer :
  (1 < length layer)%nat →
  (length (next_layer layer) < length layer)%nat ∧ (0 < length (next_layer layer))%nat.
Proof.
  intros H. rewrite next_layer_length. pose proof (Nat.div2_odd (S (length layer))) as Hd.
  destruct (Nat.odd (S (length layer))); cbn [Nat.b2n] in Hd; lia.
Qed.

(** The pair of a position lies in the padded layer. *)
Lemma pair_in_range w layer :
  (w < length layer)%nat → (2 * Nat.div2 w + 1 < length (pad_layer layer))%nat.
Proof.
  intros Hw. pose proof (Nat.div2_odd w) as Hd. rewrite pad_layer_length.
  destruct (Nat.odd (length layer)) eqn:Eo, (Nat.odd w) eqn:Ew; cbn [Nat.b2n] in Hd; try lia.
  assert (Nat.even (length layer) = true) as [k Hk]%Nat.even_spec
    by (rewrite <- Nat.negb_odd, Eo; done). lia.
Qed.

(** The sibling and its side rebuild the parent. *)
Lemma proof_step_parent layer w :
  (w < length layer)%nat → (1 < length layer)%nat →
  fold_step (nth w layer "") (proof_step layer w) = nth (Nat.div2 w) (next_layer layer) ""
  ∧ (Nat.div2 w < length (next_layer layer))%nat.
Proof.
  intros Hw Hl. pose proof (Nat.div2_odd w) as Hd.
  destruct (pad_layer_app layer) as [tail Htail]; [intros ->; simpl in Hw; lia|].
  assert (nth w (pad_layer layer) "" = nth w layer "") as Hnth
    by (rewrite Htail; by apply app_nth1).
  pose proof (pair_in_range _ _ Hw) as Hin.
  split.
  - unfold next_layer. rewrite pair_up_spec by done. unfold fold_step, proof_step.
    cbn [ps_position ps_hash]. rewrite <- Hnth. destruct (Nat.odd w) eqn:Ew; cbn [Nat.b2n] in Hd.
    + destruct (w - 1 <? w)%nat eqn:E; [|apply Nat.ltb_ge in E; lia].
      cbn [String.eqb Ascii.eqb Bool.eqb].
      replace (2 * Nat.div2 w)%nat with (w - 1)%nat by lia.
      by replace (w - 1 + 1)%nat with w by lia.
    + destruct (S w <? w)%nat eqn:E; [apply Nat.ltb_lt in E; lia|].
      cbn [String.eqb Ascii.eqb Bool.eqb].
      replace (2 * Nat.div2 w)%nat with w by lia.
      by replace (w + 1)%nat with (S w) by lia.
  - unfold next_layer. rewrite (pair_up_length_le _ _ (le_n _)).
    pose proof (Nat.div2_odd (length (pad_layer layer))).
    destruct (Nat.odd (length (pad_layer layer))); simpl in *; lia.
Qed.

(** Enough fuel brings a layer down to one hash, which every generated proof
    leads to. *)
Lemma proof_loop_spec fuel : ∀ layer w,
  (w < length layer)%nat → (length layer <= fuel)%nat →
  ∃ root, root_loop fuel layer = [root] ∧ (proof_loop fuel layer w).2 = [root]
    ∧ fold_left fold_step (proof_loop fuel layer w).1 (nth w layer "") = root.
Proof.
  induction fuel as [|fuel IH]; intros layer w Hw Hf; [lia|]. cbn [proof_loop root_loop].
  destruct (1 <? length layer)%nat eqn:E.
  - apply Nat.ltb_lt in E. destruct (proof_step_parent _ _ Hw E) as [Hstep Hin].
    destruct (next_layer_shorter _ E) as [Hshort _].
    destruct (IH (next_layer layer) (Nat.div2 w)) as (root & H1 & H2 & H3); [done|lia|].
    exists root. destruct (proof_loop fuel (next_layer layer) (Nat.div2 w)) as [proof top].
    simpl in *. by rewrite Hstep.
  - apply Nat.ltb_ge in E. destruct layer as [|h [|h' l]]; simpl in *; [lia| |lia].
    exists h. split; [done|]. split; [done|]. by destruct w; [|lia].
Qed.

(** ** The index of an event *)

Lemma event_index_bound id events : ∀ i j,
  event_index id i events = Some j →
  (i <= j < i + length events)%nat
  ∧ ∃ e, nth_error events (j - i) = Some e ∧ ev_event_id e = id.
Proof.
  induction events as [|e rest IH]; intros i j H; [done|]. cbn [event_index] in H.
  destruct (event_index id (S i) rest) as [k|] eqn:E.
  - injection H as ->. destruct (IH _ _ E) as [Hk (x & Hx & Hid)]. cbn [length].
    split; [lia|]. exists x. replace (j - i)%nat with (S (j - S i)) by lia. done.
  - destruct (String.eqb_spec (ev_event_id e) id) as [Hid|]; [|done]. injection H as <-.
    cbn [length]. split; [lia|]. exists e. by rewrite Nat.sub_diag.
Qed.

Lemma event_index_None id events : ∀ i,
  event_index id i events = None ↔ ∀ e, e ∈ events → ev_event_id e ≠ id.
Proof.
  induction events as [|e rest IH]; intros i; cbn [event_index].
  - split; [intros _ e He; by apply elem_of_nil in He|done].
  - specialize (IH (S i)). destruct (event_index id (S i) rest) as [k|] eqn:E.
    + split; [done|]. intros H. assert (Some k = None) as E'; [|done].
      apply IH. intros x Hx. apply H. by right.
    + destruct (String.eqb_spec (ev_event_id e) id) as [Hid|Hid].
      * split; [done|]. intros H. destruct (H e); [by left|done].
      * split; [|done]. intros _ x [->|Hx]%elem_of_cons; [done|]. by apply IH.
Qed.

(** ** Soundness *)

(** The length of the proofs of a tree with [n] leaves. *)
Fixpoint tree_depth (fuel n : nat) : nat :=
  match fuel with
  | O => O
  | S fuel' => if (1 <? n)%nat then S (tree_depth fuel' (Nat.div2 (S n))) else O
  end.

Lemma proof_loop_depth fuel : ∀ layer w,
  length (proof_loop fuel layer w).1 = tree_depth fuel (length layer).
Proof.
  induction fuel as [|fuel IH]; intros layer w; [done|]. cbn [proof_loop tree_depth].
  destruct (1 <? length layer)%nat; [|done].
  specialize (IH (next_layer layer) (Nat.div2 w)). rewrite next_layer_length in IH.
  destruct (proof_loop fuel (next_layer layer) (Nat.div2 w)). simpl in *. by rewrite IH.
Qed.

(** The strings a verifier hashes. *)
Definition step_input (cursor : string) (step : MerkleProofStep) : string :=
  if String.eqb (ps_position step) "left"
  then "node:" +:+ ps_hash step +:+ ":" +:+ cursor
  else "node:" +:+ cursor +:+ ":" +:+ ps_hash step.

Fixpoint verify_inputs (cursor : string) (proof : list MerkleProofStep) : list string :=
  match proof with
  | [] => []
  | step :: rest => step_input cursor step :: verify_inputs (fold_step cursor step) rest
  end.

(** The strings hashed while building the tree above some leaves. *)
Fixpoint pair_inputs (layer : list string) : list string :=
  match layer with
  | l :: r :: rest => ("node:" +:+ l +:+ ":" +:+ r) :: pair_inputs rest
  | _ => []
  end.

Fixpoint tree_inputs (fuel : nat) (layer : list string) : list string :=
  match fuel with
  | O => []
  | S fuel' =>
      if (1 <? length layer)%nat
      then pair_inputs (pad_layer layer) ++ tree_inputs fuel' (next_layer layer)
      else []
  end.

(** Two different strings, one hashed by each side, with one digest. *)
Definition collision_between (xs ys : list string) : Prop :=
  ∃ s t, s ∈ xs ∧ t ∈ ys ∧ s ≠ t ∧ sha256_hex s = sha256_hex t.

Lemma fold_step_input cursor step : fold_step cursor step = sha256_hex (step_input cursor step).
Proof. unfold fold_step, step_input, branch_hash. by destruct (String.eqb _ _). Qed.

Lemma pair_up_In h layer :
  h ∈ pair_up layer → ∃ l r, l ∈ layer ∧ r ∈ layer ∧ h = branch_hash l r
    ∧ ("node:" +:+ l +:+ ":" +:+ r) ∈ pair_inputs layer.
Proof.
  enough (∀ k layer, (length layer <= k)%nat → h ∈ pair_up layer → ∃ l r, l ∈ layer ∧ r ∈ layer
    ∧ h = branch_hash l r ∧ ("node:" +:+ l +:+ ":" +:+ r) ∈ pair_inputs layer) as Hk
    by (apply (Hk (length layer)); done).
  clear layer. induction k as [|k IH]; intros layer Hk Hin.
  - destruct layer; [by apply elem_of_nil in Hin|simpl in Hk; lia].
  - destruct layer as [|l [|r rest]]; [by apply elem_of_nil in Hin..|]. simpl in Hk.
    cbn [pair_up pair_inputs] in *. apply elem_of_cons in Hin as [->|Hin].
    + exists l, r. rewrite !elem_of_cons. auto.
    + destruct (IH rest) as (l' & r' & H1 & H2 & H3 & H4); [lia|done|].
      exists l', r'. rewrite !elem_of_cons. auto 8.
Qed.

Lemma str_app_inv_len (a b c d : string) :
  String.length a = String.length c → a +:+ b = c +:+ d → a = c ∧ b = d.
Proof.
  revert c. induction a as [|x a IH]; intros [|y c] Hl H; simpl in *; try done.
  injection Hl as Hl. injection H as -> H. destruct (IH c Hl H) as [-> ->]. done.
Qed.

(** Branches over digests of one length determine their children. *)
Lemma node_input_inj l r l' r' :
  String.length l = String.length l' →
  ("node:" +:+ l +:+ ":" +:+ r) = ("node:" +:+ l' +:+ ":" +:+ r') → l = l' ∧ r = r'.
Proof.
  intros Hl H. apply str_app_inv_len in H as [_ H]; [|done].
  apply str_app_inv_len in H as [-> H]; [|done]. by apply str_app_inv_len in H as [_ ->].
Qed.

Definition hash_sized (h : string) : Prop := String.length h = 64%nat.

Lemma sha256_sized s : hash_sized (sha256_hex s).
Proof.
  pose proof (sha256_hex_shape s) as H. unfold is_hex_string in H.
  apply andb_true_iff in H as [H _]. by apply Nat.eqb_eq in H.
Qed.

Lemma pair_up_sized layer : Forall hash_sized (pair_up layer).
Proof.
  apply Forall_forall. intros h Hh. apply pair_up_In in Hh as (l & r & _ & _ & -> & _).
  apply sha256_sized.
Qed.

(** A path of full length from a root leads to a hash of the bottom layer, or
    the path and the tree hashed two different strings to one digest. *)
Lemma path_sound fuel : ∀ layer proof leaf,
  (0 < length layer <= fuel)%nat → Forall hash_sized layer → hash_sized leaf →
  Forall (λ st, hash_sized (ps_hash st)) proof →
  length proof = tree_depth fuel (length layer) →
  root_loop fuel layer = [fold_left fold_step proof leaf] →
  leaf ∈ layer ∨ collision_between (verify_inputs leaf proof) (tree_inputs fuel layer).
Proof.
  induction fuel as [|fuel IH]; intros layer proof leaf Hl Hsz Hleaf Hp Hlen Hroot; [lia|].
  cbn [root_loop tree_depth tree_inputs] in *. destruct (1 <? length layer)%nat eqn:E.
  - destruct proof as [|st proof]; [done|]. injection Hlen as Hlen. cbn [fold_left] in Hroot.
    apply Nat.ltb_lt in E. destruct (next_layer_shorter _ E) as [Hshort Hpos].
    apply Forall_cons in Hp as [Hst Hp].
    destruct (IH (next_layer layer) proof (fold_step leaf st)) as [Hin|Hcol]; try done.
    + lia.
    + apply pair_up_sized.
    + rewrite fold_step_input. apply sha256_sized.
    + by rewrite next_layer_length.
    + unfold next_layer in Hin. apply pair_up_In in Hin as (l & r & Hinl & Hinr & Heq & Hinp).
      apply pad_layer_In in Hinl, Hinr. pose proof Hsz as Hsz'. rewrite Forall_forall in Hsz'.
      destruct (decide (step_input leaf st = "node:" +:+ l +:+ ":" +:+ r)) as [Hs|Hs].
      * left. unfold step_input in Hs. destruct (String.eqb (ps_position st) "left").
        -- apply node_input_inj in Hs as [_ ->]; [done|]. by rewrite Hst, Hsz'.
        -- apply node_input_inj in Hs as [-> _]; [done|]. by rewrite Hleaf, Hsz'.
      * right. exists (step_input leaf st), ("node:" +:+ l +:+ ":" +:+ r).
        split; [by left|]. split; [apply elem_of_app; by left|]. split; [done|].
        by rewrite <- fold_step_input.
    + right. destruct Hcol as (s & t & Hs & Ht & Hst'). exists s, t.
      split; [by right|]. split; [apply elem_of_app; by right|done].
  - apply Nat.ltb_ge in E. destruct proof; [|done]. left. simpl in Hroot. subst. by left.
Qed.

Lemma pad_layer_sized layer : Forall hash_sized layer → Forall hash_sized (pad_layer layer).
Proof. rewrite !Forall_forall. intros H h Hh. apply H. by apply pad_layer_In. Qed.

(** The siblings of a generated proof are digests. *)
Lemma proof_loop_sized fuel : ∀ layer w,
  Forall hash_sized layer → (w < length layer)%nat →
  Forall (λ st, hash_sized (ps_hash st)) (proof_loop fuel layer w).1.
Proof.
  induction fuel as [|fuel IH]; intros layer w Hsz Hw; [constructor|]. cbn [proof_loop].
  destruct (1 <? length layer)%nat eqn:E; [|constructor]. apply Nat.ltb_lt in E.
  destruct (proof_step_parent _ _ Hw E) as [_ Hin].
  specialize (IH (next_layer layer) (Nat.div2 w)).
  destruct (proof_loop fuel (next_layer layer) (Nat.div2 w)) as [proof top].
  constructor; [|apply IH; [apply pair_up_sized|done]].
  pose proof (pad_layer_sized _ Hsz) as Hp. rewrite Forall_forall in Hp. apply Hp.
  unfold proof_step. cbn [ps_hash]. apply list_elem_of_In, nth_In.
  pose proof (pair_in_range _ _ Hw). pose proof (Nat.div2_odd w) as Hd.
  destruct (Nat.odd w); cbn [Nat.b2n] in Hd; lia.
Qed.

Lemma generated_proof_verifies leaves w :
  (w < length leaves)%nat →
  verify_merkle_proof (nth w leaves "") (compute_merkle_root leaves)
    (proof_loop (length leaves) leaves w).1 = true.
Proof.
  intros Hw. destruct (proof_loop_spec (length leaves) leaves w) as (root & H1 & _ & H3); [done..|].
  unfold verify_merkle_proof, compute_merkle_root. rewrite H1, H3. apply String.eqb_refl.
Qed.

(** ** Completeness *)

Lemma build_merkle_proof_spec run_id events event_id :
  match build_merkle_proof run_id events event_id with
  | None => ∀ e, e ∈ events → ev_event_id e ≠ event_id
  | Some p =>
      mp_valid p = true
      ∧ mp_root_hash p = ms_root_hash (build_merkle_snapshot run_id events)
      ∧ ∃ e, e ∈ events ∧ ev_event_id e = event_id ∧ mp_leaf_hash p = event_leaf e
  end.
Proof.
  unfold build_merkle_proof. destruct (event_index event_id 0 events) as [i|] eqn:E.
  - apply event_index_bound in E as [Hi (e & He & Hid)]. rewrite Nat.sub_0_r in He.
    set (leaves := map event_leaf events).
    assert (length leaves = length events) as Hlen by apply length_map.
    destruct (proof_loop_spec (length leaves) leaves i) as (root & H1 & H2 & H3); [lia|done|].
    destruct (proof_loop (length leaves) leaves i) as [proof top]. simpl in H2, H3. subst top.
    cbn [mp_valid mp_root_hash mp_leaf_hash build_merkle_snapshot ms_root_hash].
    split; [|split].
    + unfold verify_merkle_proof. rewrite H3. apply String.eqb_refl.
    + unfold compute_merkle_root. fold leaves. by rewrite H1.
    + exists e. split; [apply list_elem_of_In; by eapply nth_error_In|].
      split; [done|]. unfold leaves.
      rewrite (nth_indep _ "" (event_leaf e)) by (rewrite length_map; lia). rewrite map_nth.
      by rewrite (nth_error_nth _ _ _ He).
  - by apply (event_index_None _ _ 0).
Qed.

(** ** The guarantees *)

(** A proof is built exactly for the events of the run; it is marked valid
    and its root is the root of the snapshot of the same events. *)
Theorem build_merkle_proof_complete run_id events event_id :
  match build_merkle_proof run_id events event_id with
  | None => ∀ e, e ∈ events → ev_event_id e ≠ event_id
  | Some p =>
      mp_valid p = true
      ∧ mp_root_hash p = ms_root_hash (build_merkle_snapshot run_id events)
      ∧ ∃ e, e ∈ events ∧ ev_event_id e = event_id ∧ mp_leaf_hash p = event_leaf e
  end.
Proof. apply build_merkle_proof_spec. Qed.

(** C33: for a tree of leaves, a leaf and a proof that are all made of hashes of 64
    characters, and a proof exactly as long as the tree is deep - the verifier
    checks neither, see [inner_nodes_verify] - a proof that verifies against the
    root proves membership: the leaf is one of the committed leaves, unless
    verifier and tree exhibit a SHA-256 collision between two strings they
    actually hashed. *)
Theorem verify_merkle_proof_sound leaves leaf proof :
  leaves ≠ [] → Forall hash_sized leaves → hash_sized leaf →
  Forall (λ st, hash_sized (ps_hash st)) proof →
  length proof = tree_depth (length leaves) (length leaves) →
  verify_merkle_proof leaf (compute_merkle_root leaves) proof = true →
  leaf ∈ leaves
  ∨ collision_between (verify_inputs leaf proof) (tree_inputs (length leaves) leaves).
Proof.
  intros Hne Hsz Hleaf Hp Hlen Hv.
  assert (0 < length leaves)%nat as Hpos by (destruct leaves; simpl; [done|lia]).
  destruct (proof_loop_spec (length leaves) leaves 0) as (root & H1 & _ & _); [done..|].
  unfold verify_merkle_proof, compute_merkle_root in Hv. rewrite H1 in Hv.
  apply String.eqb_eq in Hv. eapply path_sound; try done. by rewrite H1, Hv.
Qed.

(** A tree of three leaves, for the witness: the proof of its second leaf. *)
Definition demo_leaves : list string := map (λ n, sha256_hex (str_of_Z n)) [1; 2; 3].
Definition demo_proof : list MerkleProofStep := (proof_loop 3 demo_leaves 1).1.

Lemma demo_leaves_sized : Forall hash_sized demo_leaves.
Proof.
  apply Forall_forall. intros h Hh. apply list_elem_of_fmap in Hh as (n & -> & _).
  apply sha256_sized.
Qed.

Lemma verify_merkle_proof_sound_witness :
  sha256_hex "2" ∈ demo_leaves
  ∨ collision_between (verify_inputs (sha256_hex "2") demo_proof) (tree_inputs 3 demo_leaves).
Proof.
  apply (verify_merkle_proof_sound demo_leaves (sha256_hex "2") demo_proof).
  - discriminate.
  - exact demo_leaves_sized.
  - apply sha256_sized.
  - apply proof_loop_sized; [exact demo_leaves_sized|simpl; lia].
  - apply proof_loop_depth.
  - apply (generated_proof_verifies demo_leaves 1). simpl. lia.
Defined.

(** The last step of a proof in this tree: the third leaf is paired with itself. *)
Definition last_step : MerkleProofStep :=
  {| ps_position := "right"; ps_hash := branch_hash (nth 2 demo_leaves "") (nth 2 demo_leaves "") |}.

(** A shorter proof verifies a node of the tree as a leaf: the root itself with no
    steps at all, and the parent of the first two leaves with one step.  The
    prefixes that keep leaves and nodes apart are not seen by a verifier that is
    given the hash of the leaf. *)
Theorem inner_nodes_verify :
  let root := compute_merkle_root demo_leaves in
  let parent := branch_hash (nth 0 demo_leaves "") (nth 1 demo_leaves "") in
  verify_merkle_proof root root [] = true ∧ (root ∉ demo_leaves)
  ∧ verify_merkle_proof parent root [last_step] = true
  ∧ (parent ∉ demo_leaves).
Proof. repeat split; try (by vm_compute); apply (bool_decide_unpack _); by vm_compute. Qed.
