(* ===== verification/StateStore.v ===== *)
(** * The file-backed control-plane store: runs and their events

    The run sessions, event logs, event cache and vault mirror of
    [FileStateStore] in [src/shared/mesh_runtime/control_plane_state.py].  An
    operation is a computation over the whole store that may raise; what it
    has changed before raising stays changed.

    In memory a [RunSession] is the dictionary of its attributes, in the order
    of the fields: the class does not check their types and neither does the
    model.  Events are typed, so a log line that holds an object is either an
    event or lacks the fields of one.  A run identifier is a string without
    slashes and names one log.  The notes of the vault are kept as the bundles
    they are rendered from, and writing files does not fail. *)

From S2P Require Import Prelude PyFloat PyValue Json JsonStore Models Merkle.
From stdpp Require Import gmap.
#[local] Open Scope Z_scope.

(** ** Dataclass instances *)

(** The fields of a dataclass and their defaults. *)
Definition dataclass_fields : Type := list (string * option value).

Definition required (names : list string) : dataclass_fields := map (λ k, (k, None)) names.

(** The value of a field: the argument, or the default. *)
Definition field_value (record : dict) (field : string * option value) : res (string * value) :=
  match dget field.1 record, field.2 with
  | Some v, _ | None, Some v => Ok (field.1, v)
  | None, None => raise TypeError ("__init__() missing a required argument: " +:+ repr_str field.1)
  end.

(** [cls] called with the record as keyword arguments, as the dictionary of
    the attributes. *)
Definition dataclass_init (fields : dataclass_fields) (record : dict) : res dict :=
  raise_if negb (forallb (λ kv, mem_str kv.1 (map fst fields)) record)
    with TypeError "__init__() got an unexpected keyword argument";
  res_map (field_value record) fields.

(** [RunSession] *)
Definition session_fields : dataclass_fields :=
  required ["run_id"; "created_at"; "updated_at"; "goal_id"; "scenario_key"; "stage"; "status";
            "steering_mode"; "auto_mode"; "pause_points"; "pending_pause_stage"; "evaluation_mode";
            "orchestration_mode"; "latest_event_id"; "latest_event_sequence"; "latest_merkle_root"]
  ++ [("operator_notes", Some (VList [])); ("artifacts", Some (VDict [])); ("error", Some VNone)].

Definition session_init : dict → res dict := dataclass_init session_fields.

(** [session.to_dict()]: lists and artifacts are copied with [list] and
    [dict]. *)
Definition session_to_dict (session : dict) : res dict :=
  pause_points ← py_iter (dgetN "pause_points" session);
  operator_notes ← py_iter (dgetN "operator_notes" session);
  artifacts ← py_dict (dgetN "artifacts" session);
  Ok (dset "artifacts" (VDict artifacts)
       (dset "operator_notes" (VList operator_notes)
         (dset "pause_points" (VList pause_points) session))).

(** [GoalRecord] *)
Definition goal_fields : dataclass_fields :=
  required ["goal_id"; "title"; "objective"; "success_criteria"; "status"; "created_at"; "updated_at"]
  ++ [("tags", Some (VList [])); ("note_path", Some VNone)].

Definition goal_init : dict → res dict := dataclass_init goal_fields.

(** ** Files of events *)

(** What a record of a log is: not an object, an object [RunEvent] refuses, or
    the dictionary of an event. *)
Inductive log_item :=
  | OtherItem (v : value)
  | MisfitItem (d : dict)
  | EventItem (e : RunEvent).

(** A line of a [.jsonl] file of items of type [A]. *)
Inductive json_line (A : Type) :=
  | BlankLine
  | BrokenLine (raw : string)
  | ItemLine (item : A).
Arguments BlankLine {A}.
Arguments BrokenLine {A} raw.
Arguments ItemLine {A} item.

(** An event as it is read back after it was written with sorted keys. *)
Definition ev_read_back (e : RunEvent) : RunEvent :=
  {| ev_event_id := ev_event_id e; ev_run_id := ev_run_id e; ev_sequence := ev_sequence e;
     ev_stage := ev_stage e; ev_event_type := ev_event_type e; ev_recorded_at := ev_recorded_at e;
     ev_payload := sort_dict (ev_payload e); ev_summary := sort_dict <$> ev_summary e;
     ev_merkle_leaf_hash := ev_merkle_leaf_hash e; ev_artifact_key := ev_artifact_key e;
     ev_integration_name := ev_integration_name e; ev_status := ev_status e |}.

(** The events of the items that are objects, each built by [RunEvent]. *)
Fixpoint item_events (items : list log_item) : res (list RunEvent) :=
  match items with
  | [] => Ok []
  | OtherItem _ :: rest => item_events rest
  | MisfitItem _ :: _ => raise TypeError "RunEvent.__init__() got other arguments than its fields"
  | EventItem e :: rest => es ← item_events rest; Ok (e :: es)
  end.

(** The items of the lines that parse. *)
Definition line_items {A} (lines : list (json_line A)) : list A :=
  omap (λ line, match line with ItemLine item => Some item | _ => None end) lines.

(** [_dedupe_events]: the first position and the last value of each
    identifier. *)
Fixpoint put_event (e : RunEvent) (by_id : list RunEvent) : list RunEvent :=
  match by_id with
  | [] => [e]
  | x :: rest => if String.eqb (ev_event_id e) (ev_event_id x) then e :: rest else x :: put_event e rest
  end.

Definition dedupe_events (events : list RunEvent) : list RunEvent :=
  fold_left (λ by_id e, put_event e by_id) events [].

(** [events.sort(key=lambda event: event.sequence)], a stable sort. *)
Fixpoint insert_event (e : RunEvent) (l : list RunEvent) : list RunEvent :=
  match l with
  | [] => [e]
  | x :: rest => if ev_sequence e <=? ev_sequence x then e :: l else x :: insert_event e rest
  end.

Definition sort_events (events : list RunEvent) : list RunEvent := fold_right insert_event [] events.

(** [l\[-n:\]] for [n > 0], and what a deque of [maxlen] [n] keeps. *)
Definition last_n {A} (n : nat) (l : list A) : list A := drop (length l - n) l.

Definition EVENT_CACHE_SIZE : nat := 512.
Definition VAULT_FORCE_STAGES : list string :=
  ["completed"; "failed"; "cancelled"; "no_trigger"; "awaiting_operator"; "recovery_spawned"].
Definition FINAL_STAGES : list string := ["completed"; "failed"; "cancelled"; "no_trigger"; "recovery_spawned"].
Definition VAULT_QUEUE_SIZE : nat := 256.

(** [_cache_covers_after] *)
Definition cache_covers_after (cached : list RunEvent) (after_sequence : Z) : bool :=
  match cached with
  | [] => true
  | e :: _ => ev_sequence e - 1 <=? after_sequence
  end.

Definition events_after (after_sequence : Z) (events : list RunEvent) : list RunEvent :=
  List.filter (λ e, after_sequence <? ev_sequence e) events.

(** ** The store *)

(** What is written to the vault. *)
Inductive vault_write :=
  | GoalNote (goal : dict)
  | RunBundle (session : dict) (events : list RunEvent) (merkle : MerkleSnapshot) (goal : option dict).

Record store := Store {
  st_goals : file;
  st_sessions : file;
  st_archive : option (list (json_line value));
  st_logs : gmap string (list (json_line log_item));
  st_legacy : gmap string (list log_item);
  st_cache : gmap string (list RunEvent);
  st_vault : list vault_write;
  st_materialized : gmap string float;
  st_queue : list (option string);
  st_stopped : bool;
  st_mirrored : list RunEvent }.

(** [RuntimeConfig.vault_mirror_mode], [MESH_RUN_SESSION_FILE_MAX_RECORDS] and
    [MESH_VAULT_MATERIALIZE_MIN_INTERVAL_SECONDS]. *)
Record store_config := StoreConfig {
  cfg_vault_mirror_mode : string;
  cfg_file_max_records : Z;
  cfg_min_interval : float }.

Definition set_goals (f : file) (s : store) : store :=
  Store f (st_sessions s) (st_archive s) (st_logs s) (st_legacy s) (st_cache s) (st_vault s)
    (st_materialized s) (st_queue s) (st_stopped s) (st_mirrored s).
Definition set_sessions (f : file) (s : store) : store :=
  Store (st_goals s) f (st_archive s) (st_logs s) (st_legacy s) (st_cache s) (st_vault s)
    (st_materialized s) (st_queue s) (st_stopped s) (st_mirrored s).
Definition set_archive (a : option (list (json_line value))) (s : store) : store :=
  Store (st_goals s) (st_sessions s) a (st_logs s) (st_legacy s) (st_cache s) (st_vault s)
    (st_materialized s) (st_queue s) (st_stopped s) (st_mirrored s).
Definition set_logs (l : gmap string (list (json_line log_item))) (s : store) : store :=
  Store (st_goals s) (st_sessions s) (st_archive s) l (st_legacy s) (st_cache s) (st_vault s)
    (st_materialized s) (st_queue s) (st_stopped s) (st_mirrored s).
Definition set_cache (c : gmap string (list RunEvent)) (s : store) : store :=
  Store (st_goals s) (st_sessions s) (st_archive s) (st_logs s) (st_legacy s) c (st_vault s)
    (st_materialized s) (st_queue s) (st_stopped s) (st_mirrored s).
Definition set_vault (v : list vault_write) (m : gmap string float) (s : store) : store :=
  Store (st_goals s) (st_sessions s) (st_archive s) (st_logs s) (st_legacy s) (st_cache s) v
    m (st_queue s) (st_stopped s) (st_mirrored s).
Definition set_queue (q : list (option string)) (stopped : bool) (s : store) : store :=
  Store (st_goals s) (st_sessions s) (st_archive s) (st_logs s) (st_legacy s) (st_cache s) (st_vault s)
    (st_materialized s) q stopped (st_mirrored s).
Definition set_mirrored (m : list RunEvent) (s : store) : store :=
  Store (st_goals s) (st_sessions s) (st_archive s) (st_logs s) (st_legacy s) (st_cache s) (st_vault s)
    (st_materialized s) (st_queue s) (st_stopped s) m.

Definition empty_store : store := Store no_file no_file None ∅ ∅ ∅ [] ∅ [] false [].

(** ** Operations over the store *)

Definition SM (A : Type) : Type := store → res A * store.

#[export] Instance sm_ret : MRet SM := λ A a s, (Ok a, s).
#[export] Instance sm_bind : MBind SM :=
  λ A B f m s, match m s with (Ok a, s') => f a s' | (Err e, s') => (Err e, s') end.

Definition lift {A} (r : res A) : SM A := λ s, (r, s).
Definition modify (f : store → store) : SM unit := λ s, (Ok (), f s).
Definition gets {A} (f : store → A) : SM A := λ s, (Ok (f s), s).

(** [with LockedJsonFile(...) as payload: body] on the two files. *)
Definition in_goals {A} (body : dict → res (A * dict)) : SM A :=
  λ s, let '(r, f) := locked_json true "goals.json" (st_goals s) body in (r, set_goals f s).
Definition in_sessions {A} (body : dict → res (A * dict)) : SM A :=
  λ s, let '(r, f) := locked_json true "run_sessions.json" (st_sessions s) body in (r, set_sessions f s).

(** [payload.setdefault(key, \[\])], on which the code enumerates, inserts and
    sorts: a string or a dictionary has no [insert], other values are not
    iterable. *)
Definition list_default (key : string) (payload : dict) : res (list value) :=
  match dget_or key (VList []) payload with
  | VList l => Ok l
  | VStr _ | VDict _ => raise AttributeError "object has no attribute 'insert'"
  | v => raise TypeError (repr_str (type_name v) +:+ " object is not iterable")
  end.

(** The loop that replaces the first record with the identifier: [None] when
    it ran to its end. *)
Fixpoint replace_record (key : string) (id : value) (change : dict → res dict) (records : list value)
    : res (option (dict * list value)) :=
  match records with
  | [] => Ok None
  | VDict existing :: rest =>
      if py_eq (dgetN key existing) id
      then new ← change existing; Ok (Some (new, VDict new :: rest))
      else out ← replace_record key id change rest;
           Ok (match out with Some (new, rest') => Some (new, VDict existing :: rest') | None => None end)
  | v :: _ => raise AttributeError (repr_str (type_name v) +:+ " object has no attribute 'get'")
  end.

(** [a < b].  Lists, which Python also orders, are refused. *)
Definition py_lt (a b : value) : res bool :=
  match a, b with
  | VStr s, VStr t => Ok (str_ltb s t)
  | _, _ =>
      match num_of a, num_of b with
      | Some x, Some y => Ok (match num_compare x y with Some Lt => true | _ => false end)
      | _, _ => raise TypeError "'<' not supported between instances"
      end
  end.

(** A stable descending sort of records with their keys. *)
Fixpoint insert_desc (k x : value) (l : list (value * value)) : res (list (value * value)) :=
  match l with
  | [] => Ok [(k, x)]
  | (k', x') :: rest =>
      later ← py_lt k k';
      if (later : bool) then rest' ← insert_desc k x rest; Ok ((k', x') :: rest') else Ok ((k, x) :: l)
  end.

Fixpoint sort_desc (l : list (value * value)) : res (list (value * value)) :=
  match l with
  | [] => Ok []
  | (k, x) :: rest => sorted ← sort_desc rest; insert_desc k x sorted
  end.

(** [records.sort(key=lambda record: record.get(key, default), reverse=True)] *)
Definition sort_records (key : string) (default : value) (records : list value) : res (list value) :=
  keyed ← res_map (λ v, match v with
                        | VDict r => Ok (dget_or key default r, v)
                        | _ => raise AttributeError (repr_str (type_name v) +:+ " object has no attribute 'get'")
                        end) records;
  sorted ← sort_desc keyed;
  Ok (map snd sorted).

(** ** Merging a saved session with the stored one *)

(** [int(record.get("latest_event_sequence") or 0)] *)
Definition event_cursor (record : dict) : res Z :=
  py_int (py_or (dgetN "latest_event_sequence" record) (VInt 0)).

Definition preserve_event_cursor (candidate current : dict) : res dict :=
  current_sequence ← event_cursor current;
  candidate_sequence ← event_cursor candidate;
  Ok (if current_sequence <=? candidate_sequence then candidate
      else dset "latest_merkle_root" (dgetN "latest_merkle_root" current)
             (dset "latest_event_sequence" (VInt current_sequence)
               (dset "latest_event_id" (dgetN "latest_event_id" current) candidate))).

(** [r.get("stage") in S or r.get("status") in S] *)
Definition stage_or_status_in (stages : list string) (record : dict) : res bool :=
  in_stage ← in_str_set (dgetN "stage" record) stages;
  if (in_stage : bool) then Ok true else in_str_set (dgetN "status" record) stages.

Definition preserve_final_lifecycle (candidate current : dict) : res dict :=
  current_final ← stage_or_status_in FINAL_STAGES current;
  candidate_final ← stage_or_status_in FINAL_STAGES candidate;
  Ok (if negb current_final || candidate_final then candidate
      else fold_left (λ merged key, dset key (dgetN key current) merged)
             ["stage"; "status"; "pending_pause_stage"; "error"] candidate).

Definition merge_artifacts (candidate_raw current_raw : value) : dict :=
  let candidate := dict_or_empty candidate_raw in
  let current := dict_or_empty current_raw in
  let merged := dupdate current candidate in
  match dgetN "agent_tasks" current, dgetN "agent_tasks" candidate with
  | VList _ as current_agent_tasks, VDict candidate_agent_tasks =>
      if is_string "pending" (dgetN "status" candidate_agent_tasks)
      then dset "agent_tasks" current_agent_tasks merged else merged
  | _, _ => merged
  end.

Definition merge_session_snapshot (candidate current : dict) : res dict :=
  merged ← preserve_event_cursor candidate current;
  merged ← preserve_final_lifecycle merged current;
  Ok (dset "artifacts" (VDict (merge_artifacts (dgetN "artifacts" merged) (dgetN "artifacts" current))) merged).

Section operations.
Context (cfg : store_config).

Definition run_session_file_max_records : nat := Z.to_nat (Z.max 50 (cfg_file_max_records cfg)).

(** The section of [save_run_session]: the session as merged, and the records
    that no longer fit. *)
Definition save_section (session_dict : dict) (payload : dict) : res ((dict * list value) * dict) :=
  records ← list_default "runs" payload;
  found ← replace_record "run_id" (dgetN "run_id" session_dict) (merge_session_snapshot session_dict) records;
  let '(session_dict, records) :=
    match found with Some out => out | None => (session_dict, VDict session_dict :: records) end in
  sorted ← sort_records "created_at" (VStr "") records;
  Ok ((session_dict, drop run_session_file_max_records sorted),
      dset "runs" (VList (take run_session_file_max_records sorted)) payload).

(** [_archive_run_session_records] *)
Definition archive_records (archived : list value) : SM unit :=
  modify (λ s, if bool_decide (archived = []) then s
               else set_archive (Some (default [] (st_archive s)
                                       ++ map (λ v, ItemLine (json_sort v)) archived)) s).

(** The first record of the run. *)
Fixpoint find_run (run_id : string) (records : list value) : option dict :=
  match records with
  | [] => None
  | VDict record :: rest => if is_string run_id (dgetN "run_id" record) then Some record else find_run run_id rest
  | _ :: rest => find_run run_id rest
  end.

Definition get_run_session (run_id : string) : SM (option dict) := λ s,
  match f_text (st_sessions s) with
  | None => (Ok None, s)
  | Some _ =>
      in_sessions (λ payload,
        records ← py_iter (dget_or "runs" (VList []) payload);
        match find_run run_id records with
        | Some record => session ← session_init record; Ok (Some session, payload)
        | None => Ok (None, payload)
        end) s
  end.

(** ** Goals *)

Definition list_goals : SM (list dict) := λ s,
  match f_text (st_goals s) with
  | None => (Ok [], s)
  | Some _ =>
      in_goals (λ payload,
        records ← py_iter (dget_or "goals" (VList []) payload);
        goals ← res_map goal_init (omap as_dict records);
        Ok (goals, payload)) s
  end.

(** [save_goal]; [vault.write_goal] returns the path of the note. *)
Definition save_goal (goal : dict) : SM dict :=
  _ ← modify (λ s, set_vault (st_vault s ++ [GoalNote goal]) (st_materialized s) s);
  let goal := dset "note_path" (VStr ("Goals/" +:+ py_str (dgetN "goal_id" goal) +:+ ".md")) goal in
  in_goals (λ payload,
    records ← list_default "goals" payload;
    found ← replace_record "goal_id" (dgetN "goal_id" goal) (λ _, Ok goal) records;
    let records := match found with Some (_, records') => records' | None => VDict goal :: records end in
    Ok (goal, dset "goals" (VList records) payload)).

Definition default_goal (now : string) : dict :=
  goal_to_dict {|
    goal_goal_id := "goal_default";
    goal_title := "Operate the mesh remediation loop with continuous visibility";
    goal_objective := "Keep the feature-flag remediation system observable, steerable, and reversible while "
                      +:+ "capturing durable operator memory for each run.";
    goal_success_criteria :=
      ["Every run streams stage transitions live.";
       "Execution never bypasses evaluation or operator policy.";
       "Run history is mirrored into the local vault with Merkle roots."];
    goal_status := "active"; goal_created_at := now; goal_updated_at := now;
    goal_tags := ["operations"; "control-plane"]; goal_note_path := None |}.

Definition ensure_default_goal (now : string) : SM dict :=
  goals ← list_goals;
  match goals with goal :: _ => mret goal | [] => save_goal (default_goal now) end.

(** ** Events of a run *)

(** What the files of a run hold, without the cache. *)
Definition stored_events (s : store) (run_id : string) : res (list RunEvent) :=
  legacy ← item_events (default [] (st_legacy s !! run_id));
  logged ← item_events (line_items (default [] (st_logs s !! run_id)));
  Ok (sort_events (dedupe_events (legacy ++ logged))).

(** [_load_run_events_from_disk], which also refills the cache. *)
Definition load_run_events_from_disk (run_id : string) : SM (list RunEvent) := λ s,
  match stored_events s run_id with
  | Err e => (Err e, s)
  | Ok events => (Ok events, set_cache (<[run_id := last_n EVENT_CACHE_SIZE events]> (st_cache s)) s)
  end.

Definition list_run_events (run_id : string) (after_sequence : Z) : SM (list RunEvent) := λ s,
  match st_cache s !! run_id with
  | Some cached =>
      if cache_covers_after cached after_sequence then (Ok (events_after after_sequence cached), s)
      else (events ← load_run_events_from_disk run_id; mret (events_after after_sequence events)) s
  | None => (events ← load_run_events_from_disk run_id; mret (events_after after_sequence events)) s
  end.

Definition get_merkle_snapshot (run_id : string) : SM MerkleSnapshot :=
  events ← load_run_events_from_disk run_id;
  mret (build_merkle_snapshot run_id events).

Definition get_merkle_proof (run_id event_id : string) : SM (option MerkleProof) :=
  events ← load_run_events_from_disk run_id;
  mret (build_merkle_proof run_id events event_id).

(** [list_run_ids_with_event_payload] *)
Fixpoint list_run_ids_with_event_payload (run_ids : list string) (event_type payload_key payload_value : string)
    : SM (list string) :=
  match run_ids with
  | [] => mret []
  | run_id :: rest =>
      events ← list_run_events run_id 0;
      matched ← list_run_ids_with_event_payload rest event_type payload_key payload_value;
      mret (if existsb (λ e, String.eqb (ev_event_type e) event_type
                             && is_string payload_value (dgetN payload_key (ev_payload e))) events
            then run_id :: matched else matched)
  end.

(** ** The vault mirror

    [mono] is the reading of the monotonic clock. *)

Definition throttled (s : store) (run_id : string) (force : bool) (mono : float) : bool :=
  match st_materialized s !! run_id with
  | Some last => negb force && f_ltb (f_sub mono last) (cfg_min_interval cfg)
  | None => false
  end.

(** The goal of the session, from the list of goals. *)
Definition session_goal (session : dict) : SM (option dict) :=
  match dgetN "goal_id" session with
  | VNone => mret None
  | goal_id =>
      goals ← list_goals;
      mret (List.find (λ g, py_eq (dgetN "goal_id" g) goal_id) goals)
  end.

(** [_materialize_vault] *)
Definition materialize_vault (run_id : string) (force : bool) (mono : float) : SM unit := λ s,
  if throttled s run_id force mono then (Ok (), s)
  else
    (found ← get_run_session run_id;
     match found with
     | None => mret ()
     | Some session =>
         goal ← session_goal session;
         events ← load_run_events_from_disk run_id;
         modify (λ s, set_vault (st_vault s ++ [RunBundle session events (build_merkle_snapshot run_id events) goal])
                        (<[run_id := mono]> (st_materialized s)) s)
     end) s.

(** [_schedule_materialize_vault]; there is a queue in the mode ["async"]. *)
Definition schedule_materialize_vault (run_id : string) (mono : float) : SM unit := λ s,
  if String.eqb (cfg_vault_mirror_mode cfg) "off" then (Ok (), s)
  else if st_stopped s then materialize_vault run_id true mono s
  else if negb (String.eqb (cfg_vault_mirror_mode cfg) "async") then materialize_vault run_id false mono s
  else if (length (st_queue s) <? VAULT_QUEUE_SIZE)%nat
       then (Ok (), set_queue (st_queue s ++ [Some run_id]) (st_stopped s) s)
       else materialize_vault run_id false mono s.

(** One turn of [_vault_mirror_loop]: the worker logs exceptions and goes on.
    [true] when it stops. *)
Definition vault_worker_turn (mono : float) (s : store) : bool * store :=
  match st_queue s with
  | [] => (false, s)
  | None :: rest => (true, set_queue rest (st_stopped s) s)
  | Some run_id :: rest => (false, (materialize_vault run_id false mono (set_queue rest (st_stopped s) s)).2)
  end.

(** [close], once its waiting for the queue is over and while the worker
    lives: the stop mark is queued when there is room for it. *)
Definition close_store : SM unit :=
  modify (λ s, if negb (String.eqb (cfg_vault_mirror_mode cfg) "async") then s else set_queue (if (length (st_queue s) <? VAULT_QUEUE_SIZE)%nat then st_queue s ++ [None] else st_queue s)
                 true s).

(** ** Saving sessions *)

(** The locked section of [save_run_session] with the archiving it does. *)
Definition write_session (session_dict : dict) : SM dict :=
  saved ← in_sessions (save_section session_dict);
  _ ← archive_records saved.2;
  mret saved.1.

Definition save_run_session (session : dict) (mono : float) : SM dict :=
  session_dict ← lift (session_to_dict session);
  session_dict ← write_session session_dict;
  session ← lift (session_init session_dict);
  terminal ← lift (stage_or_status_in VAULT_FORCE_STAGES session);
  let run_id := py_str (dgetN "run_id" session) in
  _ ← (if (terminal : bool) then materialize_vault run_id true mono else schedule_materialize_vault run_id mono);
  mret session.

(** [create_run_session]; [now], [stamp] and [hex] as for [RunSession.new]. *)
Definition create_run_session (now stamp hex : string) (goal_id scenario_key : option string)
    (steering_mode : string) (auto_mode : bool) (pause_points : list string)
    (evaluation_mode orchestration_mode : string) (artifacts : dict) (mono : float) : SM dict :=
  let session := rs_to_dict (run_session_new now stamp hex goal_id scenario_key steering_mode auto_mode
                               pause_points evaluation_mode orchestration_mode artifacts) in
  _ ← save_run_session session mono;
  mret session.

Definition update_snapshot (run_id : string) (snapshot : dict) (mono : float) : SM dict :=
  session ← lift (session_init snapshot);
  if negb (is_string run_id (dgetN "run_id" session))
  then lift (raise ValueError ("snapshot run_id " +:+ py_repr (dgetN "run_id" session)
                               +:+ " does not match " +:+ repr_str run_id))
  else save_run_session session mono.

Definition record_operator_note (run_id note now : string) (mono : float) : SM (option dict) :=
  found ← get_run_session run_id;
  match found with
  | None => mret None
  | Some session =>
      notes ← lift (py_append (dgetN "operator_notes" session) (VStr note));
      let session := dset "updated_at" (VStr now) (dset "operator_notes" notes session) in
      _ ← save_run_session session mono;
      mret (Some session)
  end.

(** The artifacts after [artifacts.setdefault("approvals", [])] and the append. *)
Definition add_approval (approval : dict) (artifacts : value) : res value :=
  match artifacts with
  | VDict d =>
      Ok (VDict (dset "approvals" (VList (match dget_or "approvals" (VList []) d with
                                          | VList l => l ++ [VDict approval]
                                          | _ => [VDict approval]
                                          end)) d))
  | v => raise AttributeError (repr_str (type_name v) +:+ " object has no attribute 'setdefault'")
  end.

Definition record_approval (run_id : string) (approval : dict) (now : string) (mono : float) : SM unit :=
  found ← get_run_session run_id;
  match found with
  | None => mret ()
  | Some session =>
      artifacts ← lift (add_approval approval (dgetN "artifacts" session));
      _ ← save_run_session (dset "updated_at" (VStr now) (dset "artifacts" artifacts session)) mono;
      mret ()
  end.

(** ** Appending events *)

(** [f"{n:04d}"] *)
Definition format_04d (n : Z) : string :=
  let digits := str_of_Z (Z.abs n) in
  let sign := if n <? 0 then "-" else "" in
  sign +:+ chars_str (replicate (4 - (String.length sign + String.length digits)) "0"%char) +:+ digits.

Definition next_event_sequence (run_id : string) : SM Z :=
  found ← get_run_session run_id;
  let recorded := match found with Some session => dgetN "latest_event_sequence" session | None => VNone end in
  if truthy recorded then n ← lift (py_int recorded); mret (n + 1)
  else events ← load_run_events_from_disk run_id;
       mret (match last events with Some e => ev_sequence e + 1 | None => 1 end).

(** [_append_event_record]: the line as it will be read back. *)
Definition append_event_record (run_id : string) (e : RunEvent) : SM unit :=
  modify (λ s, set_logs (<[run_id := default [] (st_logs s !! run_id) ++ [ItemLine (EventItem (ev_read_back e))]]>
                           (st_logs s)) s).

Definition append_event_to_cache (run_id : string) (e : RunEvent) : SM unit :=
  modify (λ s, set_cache (<[run_id := last_n EVENT_CACHE_SIZE (default [] (st_cache s !! run_id) ++ [e])]>
                            (st_cache s)) s).

Definition with_leaf_hash (e : RunEvent) (sequence : Z) (leaf : option string) : RunEvent :=
  {| ev_event_id := ev_event_id e; ev_run_id := ev_run_id e; ev_sequence := sequence;
     ev_stage := ev_stage e; ev_event_type := ev_event_type e; ev_recorded_at := ev_recorded_at e;
     ev_payload := ev_payload e; ev_summary := ev_summary e; ev_merkle_leaf_hash := leaf;
     ev_artifact_key := ev_artifact_key e; ev_integration_name := ev_integration_name e;
     ev_status := ev_status e |}.

(** The arguments of [append_run_event] and its readings: the random suffix
    and the times of the event and of the update of its session. *)
Record event_args := EventArgs {
  ea_stage : string; ea_event_type : string; ea_payload : dict; ea_summary : option dict;
  ea_artifact_key : option string; ea_integration_name : option string; ea_status : option string;
  ea_hex : string; ea_recorded_at : string; ea_updated_at : string; ea_mono : float }.

Definition new_event (run_id : string) (sequence : Z) (a : event_args) : RunEvent :=
  let event :=
    {| ev_event_id := "evt_" +:+ format_04d sequence +:+ "_" +:+ ea_hex a;
       ev_run_id := run_id; ev_sequence := sequence; ev_stage := ea_stage a;
       ev_event_type := ea_event_type a; ev_recorded_at := ea_recorded_at a;
       ev_payload := ea_payload a; ev_summary := ea_summary a; ev_merkle_leaf_hash := None;
       ev_artifact_key := ea_artifact_key a; ev_integration_name := ea_integration_name a;
       ev_status := ea_status a |} in
  with_leaf_hash event sequence (Some (leaf_hash_for_payload (canonical_payload event))).

(** The part of [append_run_event] that holds [_event_append_lock]. *)
Definition append_locked (run_id : string) (a : event_args) : SM RunEvent :=
  sequence ← next_event_sequence run_id;
  let event := new_event run_id sequence a in
  _ ← append_event_record run_id event;
  mret event.

(** [_advance_session_event_cursor] *)
Definition advance_session_event_cursor (run_id : string) (e : RunEvent) (now : string) (mono : float) : SM unit :=
  found ← get_run_session run_id;
  match found with
  | None => mret ()
  | Some session =>
      cursor ← lift (event_cursor session);
      if ev_sequence e <? cursor then mret ()
      else
        merkle ← get_merkle_snapshot run_id;
        _ ← save_run_session
              (dset "updated_at" (VStr now)
                (dset "latest_merkle_root" (VStr (ms_root_hash merkle))
                  (dset "latest_event_sequence" (VInt (ev_sequence e))
                    (dset "latest_event_id" (VStr (ev_event_id e)) session)))) mono;
        mret ()
  end.

(** What follows once the lock is released. *)
Definition append_unlocked (run_id : string) (e : RunEvent) (now : string) (mono : float) : SM unit :=
  _ ← append_event_to_cache run_id e;
  _ ← advance_session_event_cursor run_id e now mono;
  modify (λ s, set_mirrored (st_mirrored s ++ [e]) s).

Definition append_run_event (run_id : string) (a : event_args) : SM RunEvent :=
  event ← append_locked run_id a;
  _ ← append_unlocked run_id event (ea_updated_at a) (ea_mono a);
  mret event.

(** [append_event]: a sequence that is not positive and a missing leaf hash
    are filled in. *)
Definition append_event (run_id : string) (e : RunEvent) (now : string) (mono : float) : SM RunEvent :=
  if negb (String.eqb (ev_run_id e) run_id)
  then lift (raise ValueError ("event run_id " +:+ repr_str (ev_run_id e) +:+ " does not match " +:+ repr_str run_id))
  else
    sequence ← (if ev_sequence e <=? 0 then next_event_sequence run_id else mret (ev_sequence e));
    let event := with_leaf_hash e sequence (ev_merkle_leaf_hash e) in
    let event :=
      match ev_merkle_leaf_hash e with
      | None | Some "" => with_leaf_hash event sequence (Some (leaf_hash_for_payload (canonical_payload event)))
      | Some _ => event
      end in
    _ ← append_event_record run_id event;
    _ ← append_unlocked run_id event now mono;
    mret event.

(** ** Listing sessions *)

(** [l\[:n\]] *)
Definition slice_to {A} (n : Z) (l : list A) : list A :=
  if 0 <=? n then take (Z.to_nat n) l else take (length l - Z.to_nat (- n)) l.

(** The first record of each identifier that is a string, with it. *)
Fixpoint dedupe_records (seen : list string) (records : list dict) : list dict :=
  match records with
  | [] => []
  | record :: rest =>
      match dgetN "run_id" record with
      | VStr run_id => if mem_str run_id seen then dedupe_records seen rest
                       else record :: dedupe_records (run_id :: seen) rest
      | _ => dedupe_records seen rest
      end
  end.

(** A stable descending sort by a string. *)
Fixpoint insert_latest (record : dict) (l : list dict) : list dict :=
  let created r := py_str (dget_or "created_at" (VStr "") r) in
  match l with
  | [] => [record]
  | x :: rest => if str_ltb (created record) (created x) then x :: insert_latest record rest else record :: l
  end.

Definition sort_latest (records : list dict) : list dict := fold_right insert_latest [] records.

Definition dict_items (items : list value) : list dict := omap as_dict items.

Definition list_run_sessions (limit : Z) : SM (list dict) := λ s,
  match f_text (st_sessions s) with
  | None => (Ok [], s)
  | Some _ =>
      (records ← in_sessions (λ payload,
         items ← py_iter (dget_or "runs" (VList []) payload); Ok (dict_items items, payload));
       archive ← gets st_archive;
       let archived := if Z.of_nat (length records) <? limit
                       then dict_items (line_items (default [] archive)) else [] in
       lift (res_map session_init (slice_to limit (sort_latest (dedupe_records [] (records ++ archived)))))) s
  end.

(** [RunFilters] *)
Record run_filters := RunFilters {
  rf_limit : Z; rf_status : option string; rf_stage : option string; rf_goal_id : option string }.

Definition matches_field (key : string) (wanted : option string) (session : dict) : bool :=
  match wanted with Some w => is_string w (dgetN key session) | None => true end.

Definition list_runs (filters : run_filters) : SM (list dict) :=
  sessions ← list_run_sessions (Z.max (rf_limit filters) 1);
  let sessions := List.filter (matches_field "status" (rf_status filters)) sessions in
  let sessions := List.filter (matches_field "stage" (rf_stage filters)) sessions in
  let sessions := List.filter (matches_field "goal_id" (rf_goal_id filters)) sessions in
  mret (slice_to (rf_limit filters) sessions).
End operations.
