(* ===== verification/StateFacts.v ===== *)
(** * The control-plane store: what its operations do to the session file

    How the records of [run_sessions.json] evolve under any operation: merging
    never takes a run back, and records only leave the file for the archive. *)

From S2P Require Import Prelude PyFloat PyValue Json JsonStore Models Merkle StateStore.
From stdpp Require Import gmap.
#[local] Open Scope Z_scope.
#[local] Set Warnings "-clear-no-such-hyp".

(** ** Computations that respect a relation on stores *)

Definition sm_keeps {A} (R : relation store) (m : SM A) : Prop := ∀ s, R s (m s).2.

Section keeps.
Context (R : relation store) `{!PreOrder R}.

Lemma keeps_ret {A} (a : A) : sm_keeps R (mret a).
Proof. intros s. apply PreOrder_Reflexive. Qed.

Lemma keeps_lift {A} (r : res A) : sm_keeps R (lift r).
Proof. intros s. apply PreOrder_Reflexive. Qed.

Lemma keeps_gets {A} (f : store → A) : sm_keeps R (gets f).
Proof. intros s. apply PreOrder_Reflexive. Qed.

Lemma keeps_bind {A B} (m : SM A) (f : A → SM B) :
  sm_keeps R m → (∀ a, sm_keeps R (f a)) → sm_keeps R (m ≫= f).
Proof.
  intros Hm Hf s. specialize (Hm s). unfold mbind, sm_bind. destruct (m s) as [[a|e] s1]; [|done].
  etrans; [exact Hm|]. apply Hf.
Qed.

Lemma keeps_if {A} (b : bool) (m n : SM A) : sm_keeps R m → sm_keeps R n → sm_keeps R (if b then m else n).
Proof. by destruct b. Qed.
End keeps.

(** ** Records of the session file *)

Definition items_of (key : string) (d : dict) : list value :=
  match dget_or key (VList []) d with VList l => l | _ => [] end.

Definition session_records (s : store) : list value := items_of "runs" (file_contents (st_sessions s)).

(** The archived records. *)
Definition archived_records (s : store) : list value := line_items (default [] (st_archive s)).

Lemma items_of_sort key d : items_of key (sort_dict d) = map json_sort (items_of key d).
Proof. unfold items_of, dget_or. rewrite dget_sort_dict. by destruct (dget key d) as [[]|]. Qed.

Lemma items_of_set key l d : items_of key (dset key (VList l) d) = l.
Proof. unfold items_of, dget_or. by rewrite dget_dset_eq. Qed.

Lemma list_default_items key d l : list_default key d = Ok l → l = items_of key d.
Proof. unfold list_default, items_of. destruct (dget_or key (VList []) d); intros H; try discriminate H. by injection H. Qed.

(** ** Facts that survive sorting the keys *)

Lemma truthy_sort v : truthy (json_sort v) = truthy v.
Proof.
  destruct v as [| | | | |[]|d]; try done. rewrite json_sort_dict.
  destruct d as [|kv d]; [done|]. destruct (sort_dict (kv :: d)) eqn:E; [|done].
  apply (proj1 (sort_dict_nil _)) in E. discriminate E.
Qed.

Lemma in_str_set_sort v l : in_str_set (json_sort v) l = in_str_set v l.
Proof. by destruct v. Qed.

Lemma py_int_sort v : py_int (json_sort v) = py_int v.
Proof. by destruct v. Qed.

Lemma event_cursor_sort d : event_cursor (sort_dict d) = event_cursor d.
Proof.
  unfold event_cursor, py_or. rewrite dgetN_sort_dict, truthy_sort.
  destruct (truthy _); [apply py_int_sort|done].
Qed.

Lemma stage_or_status_sort l d : stage_or_status_in l (sort_dict d) = stage_or_status_in l d.
Proof. unfold stage_or_status_in. by rewrite !dgetN_sort_dict, !in_str_set_sort. Qed.

(** ** Sorting records permutes them *)

Lemma insert_desc_perm k x l l' : insert_desc k x l = Ok l' → l' ≡ₚ (k, x) :: l.
Proof.
  revert l'. induction l as [|[k' x'] l IH]; intros l' H; cbn [insert_desc] in H; [by res_inv H|].
  apply res_bind_Ok in H as (later & _ & H). destruct later; [|by res_inv H].
  apply res_bind_Ok in H as (rest & Hr & H). injection H as <-. rewrite (IH _ Hr). constructor.
Qed.

Lemma sort_desc_perm l l' : sort_desc l = Ok l' → l' ≡ₚ l.
Proof.
  revert l'. induction l as [|[k x] l IH]; intros l' H; cbn [sort_desc] in H; [by res_inv H|].
  apply res_bind_Ok in H as (sorted & Hs & H). apply insert_desc_perm in H. rewrite H. by constructor; apply IH.
Qed.

Lemma sort_records_perm key x l l' : sort_records key x l = Ok l' → l' ≡ₚ l.
Proof.
  unfold sort_records. intros H. apply res_bind_Ok in H as (keyed & Hk & H).
  apply res_bind_Ok in H as (sorted & Hs & H). injection H as <-. apply sort_desc_perm in Hs. rewrite Hs.
  clear sorted Hs. revert keyed Hk. induction l as [|v l IH]; intros keyed Hk; cbn [res_map] in Hk; [by res_inv Hk|].
  res_inv Hk. destruct v; try done. res_inv Hx. cbn [map snd]. constructor. by apply IH.
Qed.

(** ** Merging *)

(** The run has ended, and [c] of its events are recorded. *)
Definition ended_record (c : Z) (v : value) : Prop :=
  match v with
  | VDict d => stage_or_status_in FINAL_STAGES d = Ok true ∧ ∃ c', event_cursor d = Ok c' ∧ c ≤ c'
  | _ => False
  end.

Lemma ended_record_sort c v : ended_record c v → ended_record c (json_sort v).
Proof.
  destruct v as [| | | | | |d]; try done. rewrite json_sort_dict. unfold ended_record.
  by rewrite stage_or_status_sort, event_cursor_sort.
Qed.

Lemma event_cursor_set_other k v d :
  String.eqb "latest_event_sequence" k = false → event_cursor (dset k v d) = event_cursor d.
Proof. intros Hk. unfold event_cursor. by rewrite dgetN_dset, Hk. Qed.

Lemma stage_set_other l k v d :
  String.eqb "stage" k = false → String.eqb "status" k = false →
  stage_or_status_in l (dset k v d) = stage_or_status_in l d.
Proof. intros H1 H2. unfold stage_or_status_in. by rewrite !dgetN_dset, H1, H2. Qed.

Lemma event_cursor_int d z : dgetN "latest_event_sequence" d = VInt z → event_cursor d = Ok z.
Proof. unfold event_cursor, py_or. intros ->. cbn [truthy]. by destruct (Z.eqb_spec z 0) as [->|]. Qed.

(** The merged cursor is the larger one. *)
Lemma preserve_event_cursor_max candidate current merged :
  preserve_event_cursor candidate current = Ok merged →
  ∃ a b, event_cursor current = Ok a ∧ event_cursor candidate = Ok b ∧ event_cursor merged = Ok (Z.max a b).
Proof.
  unfold preserve_event_cursor. intros H. res_inv H. exists x, x0. split; [done|]. split; [done|].
  destruct (Z.leb_spec x x0); [by rewrite Z.max_r|].
  rewrite Z.max_l by lia. apply event_cursor_int. by simp_rec.
Qed.

Lemma preserve_event_cursor_get k candidate current merged :
  preserve_event_cursor candidate current = Ok merged →
  mem_str k ["latest_event_id"; "latest_event_sequence"; "latest_merkle_root"] = false →
  dgetN k merged = dgetN k candidate.
Proof.
  unfold preserve_event_cursor. intros H Hk. res_inv H. destruct (_ <=? _); [done|].
  unfold mem_str in Hk. cbn [existsb] in Hk. rewrite !orb_false_iff in Hk. destruct Hk as (H1 & H2 & H3 & _).
  by rewrite !dgetN_dset, H1, H2, H3.
Qed.

Lemma preserve_final_lifecycle_final candidate current merged :
  preserve_final_lifecycle candidate current = Ok merged →
  stage_or_status_in FINAL_STAGES current = Ok true → stage_or_status_in FINAL_STAGES merged = Ok true.
Proof.
  unfold preserve_final_lifecycle. intros H Hc. rewrite Hc in H. res_inv H. injection Hx as <-.
  destruct x0; [done|]. cbn [negb orb]. rewrite <- Hc. unfold stage_or_status_in. by simp_rec.
Qed.

Lemma preserve_final_lifecycle_cursor candidate current merged :
  preserve_final_lifecycle candidate current = Ok merged → event_cursor merged = event_cursor candidate.
Proof.
  unfold preserve_final_lifecycle. intros H. res_inv H. destruct (_ || _); [done|].
  unfold event_cursor. cbn [fold_left]. by simp_rec.
Qed.

Lemma merge_keeps_ended c candidate current merged :
  merge_session_snapshot candidate current = Ok merged →
  ended_record c (VDict current) → ended_record c (VDict merged).
Proof.
  unfold merge_session_snapshot, ended_record. intros H (Hf & c' & Hc & Hle). res_inv H.
  destruct (preserve_event_cursor_max _ _ _ Hx) as (a & b & Ha & Hb & Hm).
  rewrite stage_set_other, event_cursor_set_other by done. split.
  - by eapply preserve_final_lifecycle_final.
  - exists (Z.max a b). rewrite (preserve_final_lifecycle_cursor _ _ _ Hx0). split; [done|].
    rewrite Hc in Ha. injection Ha as <-. lia.
Qed.

(** The identifier of the record is the candidate's. *)
Lemma merge_run_id candidate current merged :
  merge_session_snapshot candidate current = Ok merged → dgetN "run_id" merged = dgetN "run_id" candidate.
Proof.
  unfold merge_session_snapshot. intros H. res_inv H. simp_rec.
  transitivity (dgetN "run_id" x); [|by eapply preserve_event_cursor_get].
  unfold preserve_final_lifecycle in Hx0. res_inv Hx0. destruct (_ || _); [done|]. cbn [fold_left]. by simp_rec.
Qed.

(** ** The section that saves *)

Lemma replace_record_cases key id change l out :
  replace_record key id change l = Ok out →
  match out with
  | None => ∀ d, VDict d ∈ l → py_eq (dgetN key d) id = false
  | Some (new, l') => ∃ l1 old l2, l = l1 ++ VDict old :: l2 ∧ l' = l1 ++ VDict new :: l2
      ∧ py_eq (dgetN key old) id = true ∧ change old = Ok new
  end.
Proof.
  revert out. induction l as [|v l IH]; intros out H; cbn [replace_record] in H.
  - injection H as <-. intros d Hd. by apply elem_of_nil in Hd.
  - destruct v as [| | | | | |d]; try done. destruct (py_eq (dgetN key d) id) eqn:Heq.
    + res_inv H. by exists [], d, l.
    + apply res_bind_Ok in H as (out1 & H1 & H). injection H as <-. specialize (IH _ H1).
      destruct out1 as [[new l']|].
      * destruct IH as (l1 & old & l2 & -> & -> & Ho & Hc). by exists (VDict d :: l1), old, l2.
      * intros d' Hd'. apply elem_of_cons in Hd' as [[= ->]|Hd']; [done|by apply IH].
Qed.

(** The records before and after, up to order, with those that no longer fit. *)
Lemma save_section_records cfg sd payload sd' dropped payload' :
  save_section cfg sd payload = Ok ((sd', dropped), payload') →
  let l := items_of "runs" payload in
  let kept := items_of "runs" payload' in
  (length kept <= run_session_file_max_records cfg)%nat
  ∧ ((∃ l1 old l2, l = l1 ++ VDict old :: l2 ∧ py_eq (dgetN "run_id" old) (dgetN "run_id" sd) = true
        ∧ merge_session_snapshot sd old = Ok sd' ∧ kept ++ dropped ≡ₚ l1 ++ VDict sd' :: l2)
     ∨ (sd' = sd ∧ kept ++ dropped ≡ₚ VDict sd :: l
        ∧ ∀ d, VDict d ∈ l → py_eq (dgetN "run_id" d) (dgetN "run_id" sd) = false)).
Proof.
  unfold save_section. intros H. apply res_bind_Ok in H as (l & Hl & H).
  apply list_default_items in Hl as ->. apply res_bind_Ok in H as (out & Hout & H).
  apply replace_record_cases in Hout. cbv zeta.
  destruct (match out with Some o => o | None => _ end) as [sd1 l1] eqn:Eo.
  apply res_bind_Ok in H as (sorted & Hs & H). injection H as <- <- <-.
  apply sort_records_perm in Hs. rewrite items_of_set, take_drop, length_take, Hs. split; [lia|].
  destruct out as [[new l']|]; injection Eo as <- <-.
  - left. destruct Hout as (m1 & old & m2 & -> & -> & Heq & Hm). by exists m1, old, m2.
  - right. done.
Qed.

(** ** Records of one run *)

Definition is_run (r : string) (v : value) : bool :=
  match v with VDict d => is_string r (dgetN "run_id" d) | _ => false end.

Lemma is_run_sort r v : is_run r (json_sort v) = is_run r v.
Proof.
  destruct v as [| | | | | |d]; try done. rewrite json_sort_dict. unfold is_run.
  by rewrite dgetN_sort_dict, is_string_sort.
Qed.

Lemma is_run_py_eq r d id : py_eq (dgetN "run_id" d) id = true → id = VStr r → is_run r (VDict d) = true.
Proof. intros H ->. apply py_eq_str in H. unfold is_run. rewrite H. apply is_string_refl. Qed.

(** The file has records of the run, and in each the run has ended with [c]
    events or more. *)
Definition ended (r : string) (c : Z) (s : store) : Prop :=
  (∃ v, v ∈ session_records s ∧ is_run r v = true)
  ∧ ∀ v, v ∈ session_records s → is_run r v = true → ended_record c v.

Definition ended_in_archive (r : string) (c : Z) (s : store) : Prop :=
  ∃ v, v ∈ archived_records s ∧ is_run r v = true ∧ ended_record c v.

(** What no operation breaks. *)
Definition stays_ended (r : string) (c : Z) (s s' : store) : Prop :=
  (ended_in_archive r c s → ended_in_archive r c s')
  ∧ (ended r c s → ended r c s' ∨ ended_in_archive r c s').

#[export] Instance stays_ended_preorder r c : PreOrder (stays_ended r c).
Proof.
  split; [intros s; split; auto|]. intros s1 s2 s3 [H1 H2] [H3 H4]. split; [auto|].
  intros He. destruct (H2 He) as [H|H]; auto.
Qed.

(** Operations that leave both files of sessions alone. *)
Definition same_sessions (s s' : store) : Prop := st_sessions s' = st_sessions s ∧ st_archive s' = st_archive s.

Lemma same_stays_ended r c s s' : same_sessions s s' → stays_ended r c s s'.
Proof.
  intros [H1 H2]. unfold stays_ended, ended, ended_in_archive, archived_records, session_records.
  rewrite H1, H2. tauto.
Qed.

Lemma records_stay_ended r c s s' :
  st_archive s' = st_archive s →
  session_records s' = session_records s ∨ session_records s' = map json_sort (session_records s) →
  stays_ended r c s s'.
Proof.
  intros Ha Hr. unfold stays_ended, ended_in_archive, archived_records. rewrite Ha. split; [done|].
  intros [(v & Hv & Hrun) Hall]. left. unfold ended. destruct Hr as [->| ->]; [eauto|]. split.
  - exists (json_sort v). rewrite is_run_sort. split; [by apply list_elem_of_fmap_2|done].
  - intros w Hw Hw'. apply list_elem_of_fmap in Hw as (u & -> & Hu). rewrite is_run_sort in Hw'.
    apply ended_record_sort. auto.
Qed.

(** A section that only reads. *)
Definition reads_only {A} (body : dict → res (A * dict)) : Prop := ∀ d a d', body d = Ok (a, d') → d' = d.

Lemma reading_records {A} (body : dict → res (A * dict)) s :
  reads_only body →
  let s' := (in_sessions body s).2 in
  st_archive s' = st_archive s
  ∧ (session_records s' = session_records s ∨ session_records s' = map json_sort (session_records s)).
Proof.
  intros Hbody. unfold in_sessions. destruct (locked_json _ _ _ _) as [out f] eqn:E.
  apply locked_json_cases in E. cbn [snd]. split; [done|].
  unfold session_records. cbn [st_sessions set_sessions]. destruct out as [a|e].
  - destruct E as (d' & Hb & Hf). apply Hbody in Hb as ->. destruct Hf as [Hf|[Hf _]].
    + right. unfold file_contents at 1. rewrite Hf. cbn [default from_option id]. apply items_of_sort.
    + left. unfold file_contents at 1. by rewrite Hf.
  - left. unfold file_contents. by rewrite (proj2 E).
Qed.

(** The records of a run after one of them was replaced or inserted. *)
Lemma replaced_stay_ended cfg r c sd payload sd' dropped payload' :
  save_section cfg sd payload = Ok ((sd', dropped), payload') →
  (∃ v, v ∈ items_of "runs" payload ∧ is_run r v = true) →
  (∀ v, v ∈ items_of "runs" payload → is_run r v = true → ended_record c v) →
  (∃ v, v ∈ items_of "runs" payload' ++ dropped ∧ is_run r v = true)
  ∧ ∀ v, v ∈ items_of "runs" payload' ++ dropped → is_run r v = true → ended_record c v.
Proof.
  intros H (v & Hv & Hrun) Hall. apply save_section_records in H as [_ H]. cbv zeta in H.
  destruct H as [(l1 & old & l2 & Hl & Heq & Hm & Hp)|(-> & Hp & Hno)].
  - assert (is_run r (VDict sd') = true → ended_record c (VDict sd')) as Hnew.
    { intros Hr. unfold is_run in Hr. apply is_string_true in Hr. rewrite (merge_run_id _ _ _ Hm) in Hr.
      eapply merge_keeps_ended; [done|]. apply Hall; [rewrite Hl; set_solver|]. by eapply is_run_py_eq. }
    rewrite Hl in Hv, Hall. split.
    + destruct (decide (v = VDict old)) as [->|Hne].
      * exists (VDict sd'). rewrite Hp. split; [set_solver|]. unfold is_run in *. apply is_string_true in Hrun.
        rewrite (merge_run_id _ _ _ Hm). rewrite Hrun in Heq. apply py_eq_str_l in Heq. rewrite Heq.
        apply is_string_refl.
      * exists v. rewrite Hp. split; [|done]. set_solver.
    + intros w Hw Hr. rewrite Hp in Hw. destruct (decide (w = VDict sd')) as [->|Hne]; [by apply Hnew|].
      apply Hall; [set_solver|done].
  - split; [exists v; rewrite Hp; set_solver|]. intros w Hw Hr. rewrite Hp in Hw.
    apply elem_of_cons in Hw as [->|Hw]; [|by apply Hall].
    destruct v as [| | | | | |d]; try done. unfold is_run in Hrun, Hr.
    apply is_string_true in Hrun, Hr. specialize (Hno _ Hv). by rewrite Hrun, Hr, py_eq_VStr_refl in Hno.
Qed.

(** The store after a write: nothing was done, or the records of the section
    are in the file and the dropped ones in the archive. *)
Lemma write_session_cases cfg sd s :
  let s' := (write_session cfg sd s).2 in
  (session_records s' = session_records s ∧ st_archive s' = st_archive s)
  ∨ ∃ sd' dropped payload',
      save_section cfg sd (file_contents (st_sessions s)) = Ok ((sd', dropped), payload')
      ∧ archived_records s' = archived_records s ++ map json_sort dropped
      ∧ (session_records s' = map json_sort (items_of "runs" payload') ∨ session_records s' = session_records s).
Proof.
  unfold write_session, mbind, sm_bind, in_sessions.
  destruct (locked_json _ _ _ _) as [out f] eqn:E. apply locked_json_cases in E.
  destruct out as [[sd' dropped]|e]; cbn [fst snd].
  2:{ left. split; [|done]. unfold session_records, file_contents. cbn [st_sessions set_sessions].
      by rewrite (proj2 E). }
  destruct E as (payload' & Hb & Hf). right. exists sd', dropped, payload'. split; [done|].
  unfold archive_records, modify, mret, sm_ret. cbn [snd].
  set (s1 := if bool_decide (dropped = []) then _ else _).
  assert (st_sessions s1 = f) as Hs1 by (by subst s1; destruct (bool_decide _)).
  split.
  - subst s1. unfold archived_records. destruct (bool_decide_reflect (dropped = [])) as [->|_];
      [by rewrite app_nil_r|]. cbn [st_archive set_archive set_sessions default from_option id]. unfold line_items.
    rewrite omap_app. f_equal. clear. induction dropped as [|v l IH]; cbn; [done|]. by f_equal.
  - unfold session_records. rewrite Hs1. destruct Hf as [Hf|[Hf _]]; [left|right].
    + unfold file_contents at 1. rewrite Hf. apply items_of_sort.
    + unfold file_contents at 1. by rewrite Hf.
Qed.

Lemma write_session_stays_ended cfg r c sd : sm_keeps (stays_ended r c) (write_session cfg sd).
Proof.
  intros s. destruct (write_session_cases cfg sd s) as [[Hr Ha]|(sd' & dropped & payload' & Hb & Ha & Hr)];
    [apply records_stay_ended; auto|].
  split; [intros (v & Hv & H); exists v; rewrite Ha, elem_of_app; tauto|].
  intros [Hex Hall]. destruct Hr as [Hr|Hr]; [|left; unfold ended; by rewrite Hr].
  destruct (replaced_stay_ended cfg r c _ _ _ _ _ Hb Hex Hall) as [(v & Hv & Hrun) Hall'].
  destruct (existsb (is_run r) (items_of "runs" payload')) eqn:Hin.
  - left. split; rewrite Hr.
    + apply existsb_exists in Hin as (w & Hw & Hrw). exists (json_sort w). rewrite is_run_sort.
      split; [|done]. apply list_elem_of_fmap_2. by apply list_elem_of_In.
    + intros w Hw Hrw. apply list_elem_of_fmap in Hw as (u & -> & Hu). rewrite is_run_sort in Hrw.
      apply ended_record_sort, Hall'; [set_solver|done].
  - right. apply elem_of_app in Hv as [Hv|Hv].
    { exfalso. rewrite <- not_true_iff_false, existsb_exists in Hin. apply Hin. exists v.
      split; [by apply list_elem_of_In|done]. }
    exists (json_sort v). rewrite Ha, is_run_sort. split; [apply elem_of_app; right; by apply list_elem_of_fmap_2|].
    split; [done|]. apply ended_record_sort, Hall'; [set_solver|done].
Qed.

(** ** The size of the file, and the runs in it or in the archive *)

Definition known (r : string) (s : store) : Prop :=
  ∃ v, v ∈ session_records s ++ archived_records s ∧ is_run r v = true.

Definition file_bounded (cfg : store_config) (s s' : store) : Prop :=
  ((length (session_records s) <= run_session_file_max_records cfg)%nat →
   (length (session_records s') <= run_session_file_max_records cfg)%nat)
  ∧ ∀ r, known r s → known r s'.

#[export] Instance file_bounded_preorder cfg : PreOrder (file_bounded cfg).
Proof. split; [by split|]. intros s1 s2 s3 [H1 H2] [H3 H4]. split; auto. Qed.

Lemma known_records r s s' :
  archived_records s' = archived_records s →
  session_records s' = session_records s ∨ session_records s' = map json_sort (session_records s) →
  known r s → known r s'.
Proof.
  intros Ha Hr (v & Hv & Hrun). unfold known. rewrite Ha. destruct Hr as [->| ->]; [eauto|].
  apply elem_of_app in Hv as [Hv|Hv].
  - exists (json_sort v). rewrite is_run_sort, elem_of_app. split; [left; by apply list_elem_of_fmap_2|done].
  - exists v. rewrite elem_of_app. auto.
Qed.

(** No record of a run is lost in a section. *)
Lemma save_section_known cfg sd payload sd' dropped payload' r v :
  save_section cfg sd payload = Ok ((sd', dropped), payload') →
  v ∈ items_of "runs" payload → is_run r v = true →
  ∃ w, w ∈ items_of "runs" payload' ++ dropped ∧ is_run r w = true.
Proof.
  intros H Hv Hrun. apply save_section_records in H as [_ H]. cbv zeta in H.
  destruct H as [(l1 & old & l2 & Hl & Heq & Hm & Hp)|(-> & Hp & _)].
  - rewrite Hl in Hv. destruct (decide (v = VDict old)) as [->|Hne].
    + exists (VDict sd'). rewrite Hp. split; [set_solver|]. apply is_string_true in Hrun.
      unfold is_run. rewrite (merge_run_id _ _ _ Hm). rewrite Hrun in Heq. apply py_eq_str_l in Heq as ->.
      apply is_string_refl.
    + exists v. rewrite Hp. split; [set_solver|done].
  - exists v. rewrite Hp. split; [set_solver|done].
Qed.

Lemma write_session_bounded cfg sd : sm_keeps (file_bounded cfg) (write_session cfg sd).
Proof.
  intros s. destruct (write_session_cases cfg sd s) as [[Hr Ha]|(sd' & dropped & payload' & Hb & Ha & Hr)].
  { split; [by rewrite Hr|]. intros r. apply known_records; [|auto]. unfold archived_records. by rewrite Ha. }
  pose proof (save_section_records _ _ _ _ _ _ Hb) as [Hlen _]. cbv zeta in Hlen. split.
  - intros Hle. destruct Hr as [->| ->]; [by rewrite length_map|done].
  - intros r (v & Hv & Hrun). apply elem_of_app in Hv as [Hv|Hv].
    2:{ exists v. rewrite Ha, !elem_of_app. auto. }
    destruct Hr as [Hr|Hr]; [|exists v; by rewrite Hr, elem_of_app; auto].
    destruct (save_section_known _ _ _ _ _ _ _ _ Hb Hv Hrun) as (w & Hw & Hwr).
    exists (json_sort w). rewrite Hr, Ha, is_run_sort, !elem_of_app. split; [|done].
    apply elem_of_app in Hw as [Hw|Hw]; [left|right; right]; by apply list_elem_of_fmap_2.
Qed.

(** ** Every operation

    A relation on stores that looks only at the sessions and their archive,
    that a read of the session file respects and that a write of a session
    respects, holds across every operation. *)

Class SessionRelation (cfg : store_config) (R : relation store) := {
  sr_preorder :: PreOrder R;
  sr_same s s' : same_sessions s s' → R s s';
  sr_read A (body : dict → res (A * dict)) : reads_only body → sm_keeps R (in_sessions body);
  sr_write sd : sm_keeps R (write_session cfg sd) }.

#[export] Instance stays_ended_relation cfg r c : SessionRelation cfg (stays_ended r c).
Proof.
  split; [apply _|apply same_stays_ended| |apply write_session_stays_ended].
  intros A body Hb s. destruct (reading_records body s Hb). by apply records_stay_ended.
Qed.

#[export] Instance file_bounded_relation cfg : SessionRelation cfg (file_bounded cfg).
Proof.
  split; [apply _| | |apply write_session_bounded].
  - intros s s' [H1 H2]. unfold file_bounded, known, archived_records, session_records. by rewrite H1, H2.
  - intros A body Hb s. destruct (reading_records body s Hb) as [Ha Hr]. split.
    + destruct Hr as [->| ->]; by rewrite ?length_map.
    + intros r. apply known_records; [|done]. unfold archived_records. by rewrite Ha.
Qed.

Create HintDb store.
#[export] Hint Resolve keeps_ret keeps_lift keeps_gets : store.

Lemma get_run_session_reads run_id : reads_only (λ payload,
  records ← py_iter (dget_or "runs" (VList []) payload);
  match find_run run_id records with
  | Some record => session ← session_init record; Ok (Some session, payload)
  | None => Ok (None, payload)
  end).
Proof. intros d a d' H. apply res_bind_Ok in H as (l & _ & H). destruct (find_run _ _); by res_inv H. Qed.

(** The goal is about the result of a computation started anywhere. *)
Ltac any_store :=
  match goal with
  | |- ?R ?s (?m ?s).2 => let H := fresh in enough (sm_keeps R m) as H by apply H
  end.

Section every_operation.
Context (cfg : store_config) (R : relation store) `{!SessionRelation cfg R}.

Lemma keeps_modify f : (∀ s, same_sessions s (f s)) → sm_keeps R (modify f).
Proof. intros H s. apply sr_same, H. Qed.

Lemma keeps_write sd : sm_keeps R (write_session cfg sd).
Proof. apply sr_write. Qed.

Lemma keeps_get_run_session run_id : sm_keeps R (get_run_session run_id).
Proof.
  intros s. unfold get_run_session. case_match; [|apply PreOrder_Reflexive].
  apply sr_read, get_run_session_reads.
Qed.

Lemma keeps_in_goals {A} (body : dict → res (A * dict)) : sm_keeps R (in_goals body).
Proof. intros s. unfold in_goals. destruct (locked_json _ _ _ _). by apply sr_same. Qed.

Lemma keeps_list_goals : sm_keeps R list_goals.
Proof. intros s. unfold list_goals. case_match; [apply keeps_in_goals|apply PreOrder_Reflexive]. Qed.

Lemma keeps_load run_id : sm_keeps R (load_run_events_from_disk run_id).
Proof. intros s. unfold load_run_events_from_disk. by case_match; apply sr_same. Qed.

#[local] Hint Resolve keeps_write keeps_get_run_session keeps_in_goals keeps_list_goals keeps_load : store.

(** Walks through an operation. *)
Ltac keeps_step :=
  repeat first
    [ solve [eauto with store typeclass_instances]
    | apply keeps_bind; [apply _| |intros ?]
    | progress cbv beta zeta
    | apply keeps_modify; intros ?; by split
    | case_match ].

Lemma keeps_session_goal session : sm_keeps R (session_goal session).
Proof. unfold session_goal. keeps_step. Qed.
#[local] Hint Resolve keeps_session_goal : store.

Lemma keeps_materialize run_id force mono : sm_keeps R (materialize_vault cfg run_id force mono).
Proof.
  intros s. unfold materialize_vault. destruct (throttled _ _ _ _ _); [apply PreOrder_Reflexive|].
  any_store. keeps_step.
Qed.
#[local] Hint Resolve keeps_materialize : store.

Lemma keeps_schedule run_id mono : sm_keeps R (schedule_materialize_vault cfg run_id mono).
Proof.
  intros s. unfold schedule_materialize_vault.
  repeat case_match; first [by apply sr_same | any_store; keeps_step].
Qed.
#[local] Hint Resolve keeps_schedule : store.

Lemma keeps_save session mono : sm_keeps R (save_run_session cfg session mono).
Proof. unfold save_run_session. keeps_step. Qed.
#[local] Hint Resolve keeps_save : store.

Lemma keeps_update_snapshot run_id snapshot mono : sm_keeps R (update_snapshot cfg run_id snapshot mono).
Proof. unfold update_snapshot. keeps_step. Qed.

Lemma keeps_operator_note run_id note now mono : sm_keeps R (record_operator_note cfg run_id note now mono).
Proof. unfold record_operator_note. keeps_step. Qed.

Lemma keeps_approval run_id approval now mono : sm_keeps R (record_approval cfg run_id approval now mono).
Proof. unfold record_approval. keeps_step. Qed.

Lemma keeps_save_goal goal : sm_keeps R (save_goal goal).
Proof. unfold save_goal. keeps_step. Qed.
#[local] Hint Resolve keeps_save_goal : store.

Lemma keeps_default_goal now : sm_keeps R (ensure_default_goal now).
Proof. unfold ensure_default_goal. keeps_step. Qed.

Lemma keeps_list_events run_id after : sm_keeps R (list_run_events run_id after).
Proof.
  intros s. unfold list_run_events. repeat case_match; first [by apply sr_same | any_store; keeps_step].
Qed.

Lemma keeps_next_sequence run_id : sm_keeps R (next_event_sequence run_id).
Proof. unfold next_event_sequence. keeps_step. Qed.
#[local] Hint Resolve keeps_next_sequence : store.

Lemma keeps_append_locked run_id a : sm_keeps R (append_locked run_id a).
Proof. unfold append_locked, append_event_record. keeps_step. Qed.
#[local] Hint Resolve keeps_append_locked : store.

Lemma keeps_append_unlocked run_id e now mono : sm_keeps R (append_unlocked cfg run_id e now mono).
Proof. unfold append_unlocked, append_event_to_cache, advance_session_event_cursor, get_merkle_snapshot. keeps_step. Qed.
#[local] Hint Resolve keeps_append_unlocked : store.

Lemma keeps_append_run_event run_id a : sm_keeps R (append_run_event cfg run_id a).
Proof. unfold append_run_event. keeps_step. Qed.

Lemma keeps_append_event run_id e now mono : sm_keeps R (append_event cfg run_id e now mono).
Proof. unfold append_event, append_event_record. keeps_step. Qed.

Lemma keeps_list_sessions limit : sm_keeps R (list_run_sessions limit).
Proof.
  intros s. unfold list_run_sessions. case_match; [|apply PreOrder_Reflexive]. any_store. keeps_step.
  apply sr_read. intros d a d' Hb. by res_inv Hb.
Qed.

Lemma keeps_worker mono s : R s (vault_worker_turn cfg mono s).2.
Proof.
  unfold vault_worker_turn. destruct (st_queue s) as [|[run_id|] rest]; try by apply sr_same.
  cbn [snd]. etrans; [|apply keeps_materialize]. by apply sr_same.
Qed.
End every_operation.
