(* ===== verification/StateTypes.v ===== *)
(** * The control-plane store: well-typed session files

    Sessions whose fields have the types the dataclass declares.  On a file of
    such sessions, one for each run, reading returns what is there and saving
    succeeds and keeps the file so. *)

From S2P Require Import Prelude PyFloat PyValue Json JsonStore Models Merkle StateStore StateFacts.
From stdpp Require Import gmap.
#[local] Open Scope Z_scope.
#[local] Set Warnings "-clear-no-such-hyp".

(** ** Types of fields *)

Definition is_opt_str (v : value) : bool := is_none v || is_str v.
Definition is_bool (v : value) : bool := match v with VBool _ => true | _ => false end.
Definition is_strs (v : value) : bool := match v with VList l => forallb is_str l | _ => false end.
Definition is_count (v : value) : bool := match v with VInt n => 0 <=? n | _ => false end.

(** The annotations of [RunSession]. *)
Definition session_types : list (string * (value → bool)) :=
  [("run_id", is_str); ("created_at", is_str); ("updated_at", is_str); ("goal_id", is_opt_str);
   ("scenario_key", is_opt_str); ("stage", is_str); ("status", is_str); ("steering_mode", is_str);
   ("auto_mode", is_bool); ("pause_points", is_strs); ("pending_pause_stage", is_opt_str);
   ("evaluation_mode", is_str); ("orchestration_mode", is_str); ("latest_event_id", is_opt_str);
   ("latest_event_sequence", is_count); ("latest_merkle_root", is_opt_str); ("operator_notes", is_strs);
   ("artifacts", is_dict); ("error", is_opt_str)].

Definition has_type (d : dict) (kt : string * (value → bool)) : bool :=
  match dget kt.1 d with Some v => kt.2 v | None => false end.

Definition session_typed (d : dict) : bool :=
  forallb (λ kv, mem_str kv.1 (map fst session_types)) d && forallb (has_type d) session_types.

Lemma session_typed_get d k t :
  session_typed d = true → (k, t) ∈ session_types → ∃ v, dget k d = Some v ∧ t v = true.
Proof.
  unfold session_typed. intros H Hk. apply andb_true_iff in H as [_ H]. rewrite forallb_forall in H.
  specialize (H (k, t) (proj1 (list_elem_of_In _ _) Hk)). unfold has_type in H. cbn [fst snd] in H.
  destruct (dget k d); [eauto|done].
Qed.

(** The value of a field, its key and type being literals. *)
Ltac typed_field H k t :=
  let v := fresh "v" in
  let Hv := fresh "Hv" in
  let Ht := fresh "Ht" in
  destruct (session_typed_get _ k t H) as (v & Hv & Ht); [apply list_elem_of_In; cbn; tauto|].

Lemma session_typed_str d k :
  session_typed d = true → (k, is_str) ∈ session_types → ∃ x, dgetN k d = VStr x.
Proof.
  intros H Hk. destruct (session_typed_get _ _ _ H Hk) as (v & Hv & Ht). destruct v as [| | | |x| |]; try done.
  exists x. by apply dgetN_Some.
Qed.

Lemma session_run_id d : session_typed d = true → ∃ x, dgetN "run_id" d = VStr x.
Proof. intros H. apply session_typed_str; [done|]. apply list_elem_of_In; cbn; tauto. Qed.

Lemma session_cursor d :
  session_typed d = true → ∃ n, dgetN "latest_event_sequence" d = VInt n ∧ 0 <= n ∧ event_cursor d = Ok n.
Proof.
  intros H. typed_field H "latest_event_sequence" is_count. destruct v as [| |n| | | |]; try done.
  exists n. apply dgetN_Some in Hv. split; [done|]. split; [by apply Z.leb_le in Ht|by apply event_cursor_int].
Qed.

Lemma stage_or_status_typed l d : session_typed d = true → ∃ b, stage_or_status_in l d = Ok b.
Proof.
  intros H. destruct (session_typed_str d "stage" H) as (x & Hx); [apply list_elem_of_In; cbn; tauto|].
  destruct (session_typed_str d "status" H) as (y & Hy); [apply list_elem_of_In; cbn; tauto|].
  unfold stage_or_status_in. rewrite Hx, Hy. cbn [in_str_set mbind res_bind]. destruct (str_in _ _); eauto.
Qed.

(** ** Operations on typed sessions *)

Lemma In_dset k v (d : dict) kv : kv ∈ dset k v d → kv.1 = k ∨ kv ∈ d.
Proof.
  induction d as [|[k' v'] d IH]; cbn [dset].
  - intros H. apply list_elem_of_singleton in H as ->. by left.
  - destruct (String.eqb_spec k k') as [<-|_]; rewrite !elem_of_cons; intros [->|H]; cbn; auto.
    apply IH in H. tauto.
Qed.

Lemma session_types_lookup kt : kt ∈ session_types → alookup kt.1 session_types = Some kt.2.
Proof.
  assert (Forall (λ kt, alookup kt.1 session_types = Some kt.2) session_types) as H by (repeat constructor).
  rewrite Forall_forall in H. apply H.
Qed.

Lemma mem_str_alookup {A} k (l : list (string * A)) : alookup k l ≠ None → mem_str k (map fst l) = true.
Proof.
  induction l as [|[k' x] l IH]; cbn; [done|]. destruct (String.eqb k k'); [done|]. apply IH.
Qed.

(** Setting a field to a value of its type. *)
Lemma session_typed_set k t v d :
  alookup k session_types = Some t → t v = true → session_typed d = true → session_typed (dset k v d) = true.
Proof.
  intros Hk Hv H. unfold session_typed in *. apply andb_true_iff in H as [Hkeys H].
  apply andb_true_iff. rewrite forallb_forall in Hkeys. split.
  - apply forallb_forall. intros kv Hin. apply list_elem_of_In, In_dset in Hin as [->|Hin].
    + apply mem_str_alookup. by rewrite Hk.
    + apply Hkeys. by apply list_elem_of_In.
  - rewrite forallb_forall in H |- *. intros [k' t'] Hin. specialize (H _ Hin). unfold has_type in *.
    cbn [fst snd] in *. rewrite dget_dset. destruct (String.eqb_spec k' k) as [->|_]; [|done].
    apply list_elem_of_In, session_types_lookup in Hin. cbn [fst snd] in Hin. congruence.
Qed.

Lemma dhas_sort k d : dget k (sort_dict d) = None ↔ dget k d = None.
Proof. rewrite dget_sort_dict. by destruct (dget k d). Qed.

Lemma type_sort kt v : kt ∈ session_types → kt.2 (json_sort v) = kt.2 v.
Proof.
  assert (∀ l, forallb is_str (map json_sort l) = forallb is_str l) as Hl.
  { induction l as [|x l IH]; [done|]. cbn [map forallb]. rewrite IH. by destruct x. }
  intros H. unfold session_types in H. repeat (apply elem_of_cons in H as [->|H]); [..|by apply elem_of_nil in H];
    destruct v; cbn; rewrite ?Hl; done.
Qed.

Lemma forallb_ext_in {A} (f g : A → bool) l : (∀ x, x ∈ l → f x = g x) → forallb f l = forallb g l.
Proof.
  induction l as [|x l IH]; intros H; [done|]. cbn [forallb]. rewrite H by left. f_equal. apply IH.
  intros y Hy. apply H. by right.
Qed.

Lemma session_typed_sort d : session_typed (sort_dict d) = session_typed d.
Proof.
  unfold session_typed. f_equal.
  - unfold sort_dict. rewrite forallb_sort_keys. unfold map_values. induction d as [|[k v] d IH]; [done|].
    cbn [map forallb fst]. by rewrite IH.
  - apply forallb_ext_in. intros kt Hin. unfold has_type. rewrite dget_sort_dict.
    destruct (dget kt.1 d) as [v|]; [|done]. by apply type_sort.
Qed.

Lemma init_fields_present fs d :
  (∀ f, f ∈ fs → ∃ v, dget f.1 d = Some v) →
  res_map (field_value d) fs = Ok (map (λ k, (k, dgetN k d)) (map fst fs)).
Proof.
  induction fs as [|f fs IH]; intros Hall; [done|]. cbn [res_map map]. destruct (Hall f) as (v & Hv); [left|].
  assert (field_value d f = Ok (f.1, dgetN f.1 d)) as ->.
  { unfold field_value, dgetN. by rewrite Hv. }
  cbn [mbind res_bind]. rewrite IH by (intros g Hg; apply Hall; by right). done.
Qed.

(** [RunSession] called with a typed record gives it in the order of the
    fields, and nothing else changes. *)
Lemma session_init_typed d :
  session_typed d = true →
  ∃ d', session_init d = Ok d' ∧ session_typed d' = true ∧ ∀ k, dget k d' = dget k d.
Proof.
  intros H. unfold session_init, dataclass_init. pose proof H as H0. unfold session_typed in H.
  apply andb_true_iff in H as [Hkeys Htypes].
  assert (map fst session_fields = map fst session_types) as Hf by reflexivity. rewrite Hf, Hkeys. cbn [negb].
  rewrite init_fields_present.
  2:{ intros f Hin. assert (f.1 ∈ map fst session_types) as Hk by (rewrite <- Hf; by apply list_elem_of_fmap_2).
      apply list_elem_of_fmap in Hk as ([k t] & -> & Hk).
      destruct (session_typed_get _ _ _ H0 Hk) as (v & Hv & _). eauto. }
  rewrite Hf. set (d' := map (λ k, (k, dgetN k d)) (map fst session_types)).
  exists d'. split; [done|].
  assert (∀ k, dget k d' = dget k d) as Hget.
  { intros k. assert (∀ l, dget k (map (λ k, (k, dgetN k d)) l) = if mem_str k l then Some (dgetN k d) else None) as Hl.
    { induction l as [|k' l IH]; [done|]. cbn [map dget]. unfold mem_str in *. cbn [existsb].
      destruct (String.eqb_spec k k') as [->|_]; [done|apply IH]. }
    subst d'. rewrite Hl. destruct (mem_str k _) eqn:Hm.
    - unfold mem_str in Hm. apply existsb_exists in Hm as (k' & Hin & ->%String.eqb_eq).
      apply list_elem_of_In, list_elem_of_fmap in Hin as ([k t] & -> & Hk).
      destruct (session_typed_get _ _ _ H0 Hk) as (v & Hv & _). cbn [fst]. unfold dgetN. by rewrite Hv.
    - symmetry. destruct (dget k d) as [v|] eqn:Hd; [|done]. exfalso. apply dget_In in Hd.
      rewrite forallb_forall in Hkeys. specialize (Hkeys (k, v) (proj1 (list_elem_of_In _ _) Hd)). cbn [fst] in Hkeys. congruence. }
  split; [|done]. unfold session_typed. apply andb_true_iff. split; [reflexivity|].
  rewrite <- Htypes. apply forallb_ext_in. intros kt _. unfold has_type. by rewrite Hget.
Qed.

Lemma session_typed_getN d k t : alookup k session_types = Some t → session_typed d = true → t (dgetN k d) = true.
Proof.
  intros Hk H. assert ((k, t) ∈ session_types) as Hin.
  { clear H. revert Hk. generalize session_types. induction l as [|[k' t'] l IH]; cbn [alookup]; [done|].
    destruct (String.eqb_spec k k') as [->|_]; [intros [= ->]; left|right; auto]. }
  destruct (session_typed_get _ _ _ H Hin) as (v & Hv & Ht). by rewrite (dgetN_Some _ _ _ Hv).
Qed.

Lemma session_to_dict_typed d : session_typed d = true → session_to_dict d = Ok d.
Proof.
  intros H. unfold session_to_dict.
  typed_field H "pause_points" is_strs. typed_field H "operator_notes" is_strs. typed_field H "artifacts" is_dict.
  rewrite !(dgetN_Some _ _ _ Hv), !(dgetN_Some _ _ _ Hv0), !(dgetN_Some _ _ _ Hv1).
  destruct v as [| | | | |l|], v0 as [| | | | |m|], v1 as [| | | | | |e]; try done.
  cbn [py_iter py_dict mbind res_bind]. by rewrite (dset_same "pause_points"), (dset_same "operator_notes"), dset_same.
Qed.

(** ** Merging typed sessions *)

Lemma preserve_event_cursor_typed candidate current :
  session_typed candidate = true → session_typed current = true →
  ∃ m, preserve_event_cursor candidate current = Ok m ∧ session_typed m = true.
Proof.
  intros Hc Hr. destruct (session_cursor _ Hc) as (a & _ & _ & Ha), (session_cursor _ Hr) as (b & Hbn & Hb0 & Hb).
  unfold preserve_event_cursor. rewrite Ha, Hb. cbn [mbind res_bind]. eexists. split; [done|].
  destruct (b <=? a); [done|].
  apply session_typed_set with is_opt_str; [done|by apply session_typed_getN|].
  apply session_typed_set with is_count; [done|by apply Z.leb_le|].
  apply session_typed_set with is_opt_str; [done|by apply session_typed_getN|done].
Qed.

Lemma preserve_final_lifecycle_typed candidate current :
  session_typed candidate = true → session_typed current = true →
  ∃ m, preserve_final_lifecycle candidate current = Ok m ∧ session_typed m = true.
Proof.
  intros Hc Hr. unfold preserve_final_lifecycle.
  destruct (stage_or_status_typed FINAL_STAGES _ Hr) as (a & ->), (stage_or_status_typed FINAL_STAGES _ Hc) as (b & ->).
  cbn [mbind res_bind]. eexists. split; [done|]. destruct (_ || _); [done|]. cbn [fold_left].
  apply session_typed_set with is_opt_str; [done|by apply session_typed_getN|].
  apply session_typed_set with is_opt_str; [done|by apply session_typed_getN|].
  apply session_typed_set with is_str; [done|by apply session_typed_getN|].
  apply session_typed_set with is_str; [done|by apply session_typed_getN|done].
Qed.

Lemma merge_typed candidate current :
  session_typed candidate = true → session_typed current = true →
  ∃ m, merge_session_snapshot candidate current = Ok m ∧ session_typed m = true.
Proof.
  intros Hc Hr. unfold merge_session_snapshot.
  destruct (preserve_event_cursor_typed _ _ Hc Hr) as (m1 & -> & H1). cbn [mbind res_bind].
  destruct (preserve_final_lifecycle_typed _ _ H1 Hr) as (m2 & -> & H2). cbn [mbind res_bind].
  eexists. split; [done|]. by apply session_typed_set with is_dict.
Qed.

Lemma merge_cursor candidate current merged a b :
  merge_session_snapshot candidate current = Ok merged →
  event_cursor candidate = Ok a → event_cursor current = Ok b → event_cursor merged = Ok (Z.max b a).
Proof.
  unfold merge_session_snapshot. intros H Ha Hb. res_inv H. rewrite event_cursor_set_other by done.
  rewrite (preserve_final_lifecycle_cursor _ _ _ Hx0).
  destruct (preserve_event_cursor_max _ _ _ Hx) as (b' & a' & Hb' & Ha' & ->). congruence.
Qed.

(** ** Sorting typed records *)

Lemma insert_desc_strings s x l :
  Forall (λ kv, is_str kv.1 = true) l → ∃ l', insert_desc (VStr s) x l = Ok l'.
Proof.
  induction 1 as [|[k y] l Hk Hl IH]; cbn [insert_desc]; [eauto|].
  destruct k; try done. cbn [py_lt mbind res_bind]. destruct (str_ltb _ _); [|eauto].
  destruct IH as (l' & ->). cbn [mbind res_bind]. eauto.
Qed.

Lemma sort_desc_strings l : Forall (λ kv, is_str kv.1 = true) l → ∃ l', sort_desc l = Ok l'.
Proof.
  induction 1 as [|[k x] l Hk Hl (l' & IH)]; cbn [sort_desc]; [eauto|]. rewrite IH. cbn [mbind res_bind].
  destruct k; try done. apply insert_desc_strings. by rewrite (sort_desc_perm _ _ IH).
Qed.

(** A list of typed sessions. *)
Definition typed_record (v : value) : Prop := ∃ d, v = VDict d ∧ session_typed d = true.

Lemma typed_record_sort v : typed_record v → typed_record (json_sort v).
Proof. intros (d & -> & H). exists (sort_dict d). by rewrite json_sort_dict, session_typed_sort. Qed.

Lemma sort_records_typed x l : Forall typed_record l → ∃ l', sort_records "created_at" x l = Ok l'.
Proof.
  intros H. unfold sort_records.
  assert (∃ keyed, res_map (λ v, match v with
    | VDict r => Ok (dget_or "created_at" x r, v)
    | _ => raise AttributeError (repr_str (type_name v) +:+ " object has no attribute 'get'") end) l = Ok keyed
    ∧ Forall (λ kv, is_str kv.1 = true) keyed) as (keyed & -> & Hk).
  { induction H as [|v l (d & -> & Hd) _ (keyed & IH & Hk)]; cbn [res_map mbind res_bind]; [by exists []|].
    rewrite IH. cbn [mbind res_bind]. eexists. split; [done|]. constructor; [|done]. cbn [fst].
    typed_field Hd "created_at" is_str. unfold dget_or. by rewrite Hv. }
  cbn [mbind res_bind]. destruct (sort_desc_strings _ Hk) as (l' & ->). cbn [mbind res_bind]. eauto.
Qed.

Lemma replace_record_typed sd l :
  session_typed sd = true → Forall typed_record l →
  ∃ out, replace_record "run_id" (dgetN "run_id" sd) (merge_session_snapshot sd) l = Ok out.
Proof.
  intros Hsd. induction 1 as [|v l (d & -> & Hd) _ (out & IH)]; cbn [replace_record]; [eauto|].
  destruct (py_eq _ _).
  - destruct (merge_typed _ _ Hsd Hd) as (m & -> & _). cbn [mbind res_bind]. eauto.
  - rewrite IH. cbn [mbind res_bind]. eauto.
Qed.

(** ** The session file *)

Definition run_id_of (v : value) : value := match v with VDict d => dgetN "run_id" d | _ => VNone end.
Definition cursor_of (v : value) : value := match v with VDict d => dgetN "latest_event_sequence" d | _ => VNone end.

(** Which run a record is of, and its event cursor. *)
Definition sig (v : value) : value * value := (run_id_of v, cursor_of v).

Lemma sig_sort v : typed_record v → sig (json_sort v) = sig v.
Proof.
  intros (d & -> & H). rewrite json_sort_dict. unfold sig, run_id_of, cursor_of. rewrite !dgetN_sort_dict.
  destruct (session_run_id _ H) as (x & ->), (session_cursor _ H) as (n & -> & _). done.
Qed.

Lemma sig_py_eq v w : typed_record v → typed_record w → py_eq v w = true → sig v = sig w.
Proof.
  intros (d & -> & Hd) (e & -> & He) Heq. unfold sig, run_id_of, cursor_of. f_equal.
  - typed_field Hd "run_id" is_str. destruct v as [| | | |x| |]; try done.
    destruct (py_eq_dict_dget _ _ _ _ Heq Hv) as (w & Hw & Hxw). apply py_eq_str_l in Hxw as ->.
    by rewrite (dgetN_Some _ _ _ Hv), (dgetN_Some _ _ _ Hw).
  - typed_field Hd "latest_event_sequence" is_count. destruct v as [| |n| | | |]; try done.
    destruct (py_eq_dict_dget _ _ _ _ Heq Hv) as (w & Hw & Hnw).
    destruct (session_cursor _ He) as (m & Hm & _). rewrite (dgetN_Some _ _ _ Hw) in Hm. subst w.
    rewrite py_eq_VInt in Hnw. apply Z.eqb_eq in Hnw as ->.
    by rewrite (dgetN_Some _ _ _ Hv), (dgetN_Some _ _ _ Hw).
Qed.

Lemma py_eq_list_elem l m : ∀ w, py_eq (VList l) (VList m) = true → w ∈ m → ∃ v, v ∈ l ∧ py_eq v w = true.
Proof.
  revert m. induction l as [|x l IH]; intros [|y m] w H Hw; try done; [by apply elem_of_nil in Hw|].
  change (py_eq x y && py_eq (VList l) (VList m) = true) in H. apply andb_true_iff in H as [H1 H2].
  apply elem_of_cons in Hw as [->|Hw]; [exists x; split; [left|done]|].
  destruct (IH _ _ H2 Hw) as (v & Hv & Hvw). exists v. split; [by right|done].
Qed.

Lemma py_eq_list_length l m : py_eq (VList l) (VList m) = true → length l = length m.
Proof.
  revert m. induction l as [|x l IH]; intros [|y m] H; try done.
  change (py_eq x y && py_eq (VList l) (VList m) = true) in H. apply andb_true_iff in H as [_ H].
  cbn [length]. f_equal. by apply IH.
Qed.

(** A readable file of typed sessions, one for each run. *)
Record sessions_ok (s : store) : Prop := {
  so_payload : ∃ d, file_payload (st_sessions s) = Some d ∧ list_default "runs" d = Ok (items_of "runs" d);
  so_typed : Forall typed_record (session_records s);
  so_unique : NoDup (map run_id_of (session_records s)) }.

Lemma store_eta_sessions s : set_sessions (st_sessions s) s = s.
Proof. by destruct s. Qed.

(** A section that only reads a readable file changes nothing. *)
Lemma in_sessions_reads {A} (body : dict → res (A * dict)) s d r :
  file_payload (st_sessions s) = Some d → body d = (a ← r; Ok (a, d)) → in_sessions body s = (r, s).
Proof.
  intros Hd Hb. unfold in_sessions. destruct r as [a|e]; cbn [mbind res_bind] in Hb.
  - rewrite (locked_json_Ok _ _ _ _ _ _ _ Hd Hb), locked_exit_unchanged by (by left). by rewrite store_eta_sessions.
  - rewrite (locked_json_Err _ _ _ _ _ _ Hd Hb). by rewrite store_eta_sessions.
Qed.

Lemma file_contents_payload f d : file_payload f = Some d → file_contents f = d.
Proof. unfold file_contents. by intros ->. Qed.

Lemma find_run_spec r l :
  match find_run r l with
  | Some d => VDict d ∈ l ∧ dgetN "run_id" d = VStr r
  | None => ∀ v, v ∈ l → is_run r v = false
  end.
Proof.
  induction l as [|v l IH]; cbn [find_run]; [intros v Hv; by apply elem_of_nil in Hv|].
  assert (is_run r v = false → match find_run r l with
    | Some d => VDict d ∈ v :: l ∧ dgetN "run_id" d = VStr r
    | None => ∀ w, w ∈ v :: l → is_run r w = false end) as Hskip.
  { intros Hv. destruct (find_run r l) as [d|]; [destruct IH; split; [by right|done]|].
    intros w Hw. apply elem_of_cons in Hw as [->|Hw]; auto. }
  destruct v as [| | | | | |d]; try by apply Hskip.
  destruct (is_string r (dgetN "run_id" d)) eqn:E; [|by apply Hskip].
  split; [left|by apply is_string_true].
Qed.

Lemma list_default_iter key d l : list_default key d = Ok l → py_iter (dget_or key (VList []) d) = Ok l.
Proof. unfold list_default. by destruct (dget_or key (VList []) d). Qed.

(** [get_run_session] on such a file. *)
Lemma get_run_session_ok s r :
  sessions_ok s →
  ∃ found, get_run_session r s = (Ok found, s)
  ∧ match found with
    | Some d => session_typed d = true ∧ dgetN "run_id" d = VStr r
        ∧ ∃ w, VDict w ∈ session_records s ∧ ∀ k, dget k d = dget k w
    | None => ∀ v, v ∈ session_records s → is_run r v = false
    end.
Proof.
  intros [(d & Hd & Hl) Htyped _]. unfold session_records in *. rewrite (file_contents_payload _ _ Hd) in *.
  unfold get_run_session. destruct (f_text (st_sessions s)) as [t|] eqn:Ht.
  2:{ exists None. split; [done|]. unfold file_payload in Hd. rewrite Ht in Hd. injection Hd as <-.
      intros v Hv. by apply elem_of_nil in Hv. }
  pose proof (find_run_spec r (items_of "runs" d)) as Hf.
  destruct (find_run r (items_of "runs" d)) as [w|] eqn:Ef.
  - destruct Hf as [Hin Hrun]. rewrite Forall_forall in Htyped. destruct (Htyped _ Hin) as (? & [= <-] & Hw).
    destruct (session_init_typed _ Hw) as (w' & Hinit & Hw' & Hget). exists (Some w'). split.
    + apply in_sessions_reads with d; [done|]. cbv beta. rewrite (list_default_iter _ _ _ Hl). cbn [mbind res_bind].
      by rewrite Ef, Hinit.
    + split; [done|]. split; [unfold dgetN in *; by rewrite Hget|]. by exists w.
  - exists None. split; [|done]. apply in_sessions_reads with d; [done|]. cbv beta.
    rewrite (list_default_iter _ _ _ Hl). cbn [mbind res_bind]. by rewrite Ef.
Qed.

Lemma save_section_typed cfg sd d :
  session_typed sd = true → list_default "runs" d = Ok (items_of "runs" d) →
  Forall typed_record (items_of "runs" d) →
  ∃ sd' dropped d', save_section cfg sd d = Ok ((sd', dropped), d')
    ∧ session_typed sd' = true ∧ Forall typed_record (items_of "runs" d' ++ dropped).
Proof.
  intros Hsd Hl Hall.
  assert (∃ out, save_section cfg sd d = Ok out) as ([[sd' dropped] d'] & Hout).
  { unfold save_section. rewrite Hl. cbn [mbind res_bind].
    destruct (replace_record_typed _ _ Hsd Hall) as (out & Ho). rewrite Ho. cbn [mbind res_bind].
    destruct (match out with Some o => o | None => _ end) as [sd1 l1] eqn:E.
    assert (Forall typed_record l1) as Hl1.
    { pose proof (replace_record_cases _ _ _ _ _ Ho) as Hc. destruct out as [[new l']|]; injection E as <- <-.
      - destruct Hc as (m1 & old & m2 & Hm & -> & _ & Hmerge). rewrite Hm in Hall.
        apply Forall_app in Hall as [H1 H2]. apply Forall_cons in H2 as [(e & [= <-] & He) H2].
        destruct (merge_typed _ _ Hsd He) as (m & Hmm & Hmt). assert (m = new) as -> by congruence.
        apply Forall_app. split; [done|]. constructor; [by exists new|done].
      - constructor; [by exists sd|done]. }
    destruct (sort_records_typed (VStr "") _ Hl1) as (l' & ->). cbn [mbind res_bind]. eauto. }
  exists sd', dropped, d'. split; [done|]. apply save_section_records in Hout as [_ H]. cbv zeta in H.
  destruct H as [(l1 & old & l2 & Hl' & _ & Hm & Hp)|(-> & Hp & _)]; rewrite Hp.
  - rewrite Hl' in Hall. apply Forall_app in Hall as [H1 H2]. apply Forall_cons in H2 as [(e & [= <-] & He) H2].
    destruct (merge_typed _ _ Hsd He) as (m & Hmm & Hmt). assert (m = sd') as -> by congruence.
    split; [done|]. apply Forall_app. split; [done|]. constructor; [by exists sd'|done].
  - split; [done|]. constructor; [by exists sd|done].
Qed.

(** The records after saving a session of the run [r], by their signatures. *)
Lemma save_section_sigs cfg sd r d sd' dropped d' :
  save_section cfg sd d = Ok ((sd', dropped), d') →
  dgetN "run_id" sd = VStr r → NoDup (map run_id_of (items_of "runs" d)) →
  let l := items_of "runs" d in
  let all := items_of "runs" d' ++ dropped in
  dgetN "run_id" sd' = VStr r
  ∧ NoDup (map run_id_of all)
  ∧ (∀ v, v ∈ all → v = VDict sd' ∨ (v ∈ l ∧ is_run r v = false))
  ∧ (sd' = sd ∧ (∀ v, v ∈ l → is_run r v = false)
     ∨ ∃ old, VDict old ∈ l ∧ is_run r (VDict old) = true ∧ merge_session_snapshot sd old = Ok sd').
Proof.
  intros H Hr Hnd. apply save_section_records in H as [_ H]. cbv zeta in *. rewrite Hr in H.
  destruct H as [(l1 & old & l2 & Hl & Heq & Hm & Hp)|(-> & Hp & Hno)].
  - apply py_eq_str in Heq. pose proof (merge_run_id _ _ _ Hm) as Hid. rewrite Hr in Hid.
    assert (map run_id_of (items_of "runs" d) = map run_id_of (l1 ++ VDict sd' :: l2)) as Hids.
    { rewrite Hl, !map_app. cbn [map run_id_of]. by rewrite Hid, Heq. }
    split; [done|]. split; [rewrite Hp, <- Hids; done|]. split.
    + intros v Hv. rewrite Hp in Hv. rewrite elem_of_app, elem_of_cons in Hv.
      assert (v ∈ l1 ∨ v ∈ l2 → is_run r v = false) as Hother.
      { intros Hv'. apply not_true_is_false. intros Hrun. destruct v as [| | | | | |e]; try done.
        apply is_string_true in Hrun. rewrite Hl, map_app, map_cons in Hnd.
        cbn [run_id_of] in Hnd. rewrite Heq in Hnd.
        apply NoDup_app in Hnd as (_ & Hd1 & Hnd). apply NoDup_cons in Hnd as [Hd2 _].
        destruct Hv' as [Hv'|Hv'].
        - apply (Hd1 (VStr r)); [|left]. rewrite <- Hrun. by apply (list_elem_of_fmap_2 run_id_of _ (VDict e)).
        - apply Hd2. rewrite <- Hrun. by apply (list_elem_of_fmap_2 run_id_of _ (VDict e)). }
      rewrite Hl. destruct Hv as [Hv|[->|Hv]]; [right|by left|right];
        (split; [rewrite elem_of_app, elem_of_cons; tauto|by apply Hother; tauto]).
    + right. exists old. rewrite Hl, elem_of_app, elem_of_cons. split; [tauto|]. split; [|done].
      unfold is_run. rewrite Heq. apply is_string_refl.
  - assert (∀ v, v ∈ items_of "runs" d → is_run r v = false) as Hother.
    { intros v Hv. apply not_true_is_false. intros Hrun. destruct v as [| | | | | |e]; try done.
      apply is_string_true in Hrun. specialize (Hno _ Hv). by rewrite Hrun, py_eq_VStr_refl in Hno. }
    split; [done|]. split.
    + rewrite Hp. cbn [map run_id_of]. rewrite Hr. constructor; [|done]. intros Hin.
      apply list_elem_of_fmap in Hin as (v & Hv & Hin). specialize (Hother _ Hin). destruct v as [| | | | | |e]; try done.
      cbn [run_id_of] in Hv. unfold is_run in Hother. by rewrite <- Hv, is_string_refl in Hother.
    + split; [|by left]. intros v Hv. rewrite Hp in Hv. apply elem_of_cons in Hv as [->|Hv]; [by left|].
      right. auto.
Qed.

Lemma save_section_runs cfg sd d out d' :
  save_section cfg sd d = Ok (out, d') → dget "runs" d' = Some (VList (items_of "runs" d')).
Proof.
  unfold save_section. intros H. apply res_bind_Ok in H as (l & _ & H). apply res_bind_Ok in H as (o & _ & H).
  destruct (match o with Some _ => _ | None => _ end). apply res_bind_Ok in H as (m & _ & H). injection H as _ <-.
  by rewrite dget_dset_eq, items_of_set.
Qed.

(** The file a section leaves holds the records it computed, up to the order of
    keys and the representation of numbers. *)
Lemma section_file d d' f' :
  dget "runs" d' = Some (VList (items_of "runs" d')) →
  list_default "runs" d = Ok (items_of "runs" d) →
  Forall typed_record (items_of "runs" d) → NoDup (map run_id_of (items_of "runs" d)) →
  Forall typed_record (items_of "runs" d') → NoDup (map run_id_of (items_of "runs" d')) →
  (file_payload f' = Some (sort_dict d')
   ∨ (file_payload f' = Some d ∧ (d' = d ∨ py_eq (VDict d') (VDict d) = true))) →
  ∃ e, file_payload f' = Some e ∧ list_default "runs" e = Ok (items_of "runs" e)
    ∧ Forall typed_record (items_of "runs" e) ∧ NoDup (map run_id_of (items_of "runs" e))
    ∧ length (items_of "runs" e) = length (items_of "runs" d')
    ∧ ∀ v, v ∈ items_of "runs" e → ∃ w, w ∈ items_of "runs" d' ∧ sig v = sig w.
Proof.
  intros Hruns Hl Ht Hnd Ht' Hnd' [Hf|[Hf Heq]].
  - exists (sort_dict d'). split; [done|]. rewrite items_of_sort. split.
    { unfold list_default, dget_or. by rewrite dget_sort_dict, Hruns. }
    split; [by apply Forall_map; eapply Forall_impl; [exact Ht'|intros v; apply typed_record_sort]|].
    split; [|split; [by rewrite length_map|]].
    + rewrite map_map. erewrite map_ext_Forall; [exact Hnd'|]. eapply Forall_impl; [exact Ht'|].
      intros v Hv. apply (f_equal fst (sig_sort v Hv)).
    + intros v Hv. apply list_elem_of_fmap in Hv as (w & -> & Hw). exists w. split; [done|].
      apply sig_sort. rewrite Forall_forall in Ht'. auto.
  - exists d. split; [done|]. split; [done|]. split; [done|]. split; [done|]. destruct Heq as [->|Heq]; [eauto|].
    destruct (py_eq_dict_dget _ _ _ _ Heq Hruns) as (w & Hw & Hlw).
    assert (w = VList (items_of "runs" d)) as ->.
    { unfold list_default, items_of, dget_or in *. rewrite Hw in *. cbn [default from_option id] in *.
      by destruct w. }
    split; [symmetry; by apply py_eq_list_length|].
    intros v Hv. destruct (py_eq_list_elem _ _ v Hlw Hv) as (x & Hx & Hxv). exists x. split; [done|].
    symmetry. rewrite Forall_forall in Ht, Ht'. apply sig_py_eq; auto.
Qed.

(** ** Saving *)

(** [s'] is [s] with other session files. *)
Definition sessions_differ (s s' : store) : Prop :=
  s' = set_archive (st_archive s') (set_sessions (st_sessions s') s).

Lemma write_session_ok cfg s sd r :
  sessions_ok s → session_typed sd = true → dgetN "run_id" sd = VStr r →
  ∃ sd' s', write_session cfg sd s = (Ok sd', s') ∧ sessions_differ s s' ∧ sessions_ok s'
  ∧ (length (session_records s') <= run_session_file_max_records cfg)%nat
  ∧ session_typed sd' = true ∧ dgetN "run_id" sd' = VStr r
  ∧ (∀ v, v ∈ session_records s' →
       sig v = sig (VDict sd') ∨ ∃ w, w ∈ session_records s ∧ sig v = sig w ∧ is_run r w = false)
  ∧ (sd' = sd ∧ (∀ v, v ∈ session_records s → is_run r v = false)
     ∨ ∃ old, VDict old ∈ session_records s ∧ is_run r (VDict old) = true ∧ merge_session_snapshot sd old = Ok sd').
Proof.
  intros [(d & Hd & Hl) Htyped Hnd] Hsd Hr. unfold session_records in *. rewrite (file_contents_payload _ _ Hd) in *.
  destruct (save_section_typed cfg sd d Hsd Hl Htyped) as (sd' & dropped & d' & Hs & Hsd' & Hall).
  destruct (save_section_sigs _ _ _ _ _ _ _ Hs Hr Hnd) as (Hr' & Hnd' & Hin & Hcases).
  pose proof (save_section_records _ _ _ _ _ _ Hs) as [Hlen _]. cbv zeta in Hlen.
  apply Forall_app in Hall as [Hkept _]. rewrite map_app in Hnd'. apply NoDup_app in Hnd' as (Hnd' & _ & _).
  destruct (locked_json true "run_sessions.json" (st_sessions s) (save_section cfg sd)) as [out f'] eqn:E.
  pose proof E as Hcase. apply locked_json_cases in Hcase. rewrite (file_contents_payload _ _ Hd) in Hcase.
  destruct out as [[sd1 dr1]|e]; [|destruct Hcase; congruence].
  destruct Hcase as (d1 & Hs1 & Hf). rewrite Hs in Hs1. injection Hs1 as <- <- <-.
  destruct (section_file _ _ _ (save_section_runs _ _ _ _ _ Hs) Hl Htyped Hnd Hkept Hnd' Hf)
    as (e & He & Hle & Hte & Hne & Hlene & Hsig).
  set (s' := if bool_decide (dropped = []) then set_sessions f' s
             else set_archive (Some (default [] (st_archive s) ++ map (λ v, ItemLine (json_sort v)) dropped)) (set_sessions f' s)).
  assert (st_sessions s' = f') as Hf' by (by subst s'; destruct (bool_decide _)).
  exists sd', s'. split.
  { unfold write_session, mbind, sm_bind, in_sessions. rewrite E. unfold archive_records, modify. cbn [fst snd].
    unfold mret, sm_ret. done. }
  split; [unfold sessions_differ; subst s'; by destruct s, (bool_decide _)|].
  rewrite Hf', (file_contents_payload _ _ He).
  split. { split; [exists e; by rewrite Hf'| |]; unfold session_records; by rewrite Hf', (file_contents_payload _ _ He). }
  split; [lia|]. split; [done|]. split; [done|]. split; [|done].
  intros v Hv. destruct (Hsig _ Hv) as (w & Hw & Hvw). destruct (Hin w) as [->|[Hwl Hrun]]; [set_solver|by left|].
  right. by exists w.
Qed.
