(* ===== verification/StateEvents.v ===== *)
(** * The control-plane store: event logs and their cache

    Appending adds one event, after all the others, to the log of its run; the
    cursor of a stored session never falls behind the log; and what the cache
    answers is what the files hold. *)

From Stdlib Require Import Sorted.
From S2P Require Import Prelude PyFloat PyValue Json JsonStore Sha256 DateTime Models Merkle StateStore StateFacts StateTypes.
From stdpp Require Import gmap.
#[local] Open Scope Z_scope.
#[local] Set Warnings "-clear-no-such-hyp".

(** ** Event identifiers *)

Lemma digits_val_digit acc d l :
  0 <= d < 10 → digits_val acc (digit_ascii d :: l) = digits_val (acc * 10 + d) l.
Proof.
  intros Hd. assert (d = 0 ∨ d = 1 ∨ d = 2 ∨ d = 3 ∨ d = 4 ∨ d = 5 ∨ d = 6 ∨ d = 7 ∨ d = 8 ∨ d = 9) as H by lia.
  by destruct H as [->|[->|[->|[->|[->|[->|[->|[->|[->| ->]]]]]]]]].
Qed.

Lemma digit_ascii_is_digit d : 0 <= d < 10 → is_digit (digit_ascii d) = true.
Proof.
  intros Hd. assert (d = 0 ∨ d = 1 ∨ d = 2 ∨ d = 3 ∨ d = 4 ∨ d = 5 ∨ d = 6 ∨ d = 7 ∨ d = 8 ∨ d = 9) as H by lia.
  by destruct H as [->|[->|[->|[->|[->|[->|[->|[->|[->| ->]]]]]]]]].
Qed.

(** The digits of a number, before what is already there. *)
Lemma nat_digits_go_spec fuel : ∀ n acc,
  0 <= n < 10 ^ Z.of_nat fuel → (0 < fuel)%nat →
  ∃ l, str_chars (nat_digits_go fuel n acc) = l ++ str_chars acc
    ∧ Forall (λ c, is_digit c = true) l ∧ ∀ rest, digits_val 0 (l ++ rest) = digits_val n rest.
Proof.
  induction fuel as [|fuel IH]; intros n acc Hn Hf; [lia|]. cbn [nat_digits_go].
  pose proof (Z.mod_pos_bound n 10 ltac:(lia)) as Hm. pose proof (Z.div_mod n 10 ltac:(lia)) as Hdm.
  destruct (Z.eqb_spec (n / 10) 0) as [Hz|Hnz].
  - exists [digit_ascii (n mod 10)]. split; [done|]. split; [constructor; [by apply digit_ascii_is_digit|constructor]|].
    intros rest. cbn [app]. rewrite digits_val_digit by done. f_equal. lia.
  - replace (Z.of_nat (S fuel)) with (Z.of_nat fuel + 1) in Hn by lia.
    rewrite Z.pow_add_r in Hn by lia. change (10 ^ 1) with 10 in Hn.
    assert (0 <= n / 10 < 10 ^ Z.of_nat fuel) as Hq by (split; [apply Z.div_pos; lia|apply Z.div_lt_upper_bound; lia]).
    destruct fuel as [|fuel]; [change (10 ^ Z.of_nat 0) with 1 in Hq; lia|].
    destruct (IH (n / 10) (String (digit_ascii (n mod 10)) acc) Hq ltac:(lia)) as (l & Hl & Hd & Hv).
    exists (l ++ [digit_ascii (n mod 10)]). rewrite Hl, <- app_assoc. split; [done|]. split.
    + apply Forall_app. split; [done|]. constructor; [by apply digit_ascii_is_digit|constructor].
    + intros rest. rewrite <- app_assoc, Hv. cbn [app]. rewrite digits_val_digit by done. f_equal. lia.
Qed.

Lemma str_of_Z_digits n :
  0 <= n → Forall (λ c, is_digit c = true) (str_chars (str_of_Z n))
  ∧ ∀ rest, digits_val 0 (str_chars (str_of_Z n) ++ rest) = digits_val n rest.
Proof.
  intros Hn. unfold str_of_Z. rewrite (proj2 (Z.ltb_ge n 0) Hn), Z.abs_eq by done.
  destruct (nat_digits_go_spec (S (Z.to_nat (Z.log2 n))) n "") as (l & -> & Hd & Hv); [|lia|].
  - split; [done|]. destruct (decide (n = 0)) as [->|Hnz]; [done|].
    pose proof (Z.log2_spec n ltac:(lia)) as [_ Hlt]. pose proof (Z.log2_nonneg n).
    eapply Z.lt_le_trans; [exact Hlt|]. replace (Z.of_nat (S (Z.to_nat (Z.log2 n)))) with (Z.succ (Z.log2 n)) by lia.
    apply Z.pow_le_mono_l. lia.
  - cbn [str_chars]. by rewrite app_nil_r.
Qed.

Lemma str_chars_chars_str l : str_chars (chars_str l) = l.
Proof. induction l as [|c l IH]; cbn; [done|]. by rewrite IH. Qed.

Lemma format_04d_digits n :
  0 <= n → Forall (λ c, is_digit c = true) (str_chars (format_04d n))
  ∧ digits_val 0 (str_chars (format_04d n)) = Some n.
Proof.
  intros Hn. unfold format_04d. rewrite (proj2 (Z.ltb_ge n 0) Hn), Z.abs_eq by done. cbn zeta.
  generalize (4 - (String.length "" + String.length (str_of_Z n)))%nat. intros k.
  change ("" +:+ chars_str (replicate k "0"%char) +:+ str_of_Z n) with (chars_str (replicate k "0"%char) +:+ str_of_Z n).
  rewrite str_chars_app, str_chars_chars_str. destruct (str_of_Z_digits n Hn) as [Hd Hv]. split.
  - apply Forall_app. split; [by apply Forall_replicate|done].
  - induction k as [|k IH]; cbn [replicate app]; [|exact IH]. rewrite <- (app_nil_r (str_chars _)), Hv. done.
Qed.

(** The digits in front determine the rest. *)
Lemma digits_prefix a b x y :
  Forall (λ c, is_digit c = true) a → Forall (λ c, is_digit c = true) b →
  a ++ "_"%char :: x = b ++ "_"%char :: y → a = b.
Proof.
  intros Ha. revert b. induction Ha as [|c a Hc Ha IH]; intros b Hb H.
  - destruct Hb as [|d b Hd Hb]; [done|]. injection H as <- _. done.
  - destruct Hb as [|d b Hd Hb]; cbn [app] in H.
    + injection H as -> _. done.
    + injection H as -> H. f_equal. by apply IH.
Qed.

Definition event_id (n : Z) (hex : string) : string := "evt_" +:+ format_04d n +:+ "_" +:+ hex.

Lemma event_id_inj n m h h' : 0 <= n → 0 <= m → event_id n h = event_id m h' → n = m.
Proof.
  intros Hn Hm H. unfold event_id in H. apply (f_equal str_chars) in H. rewrite !str_chars_app in H.
  apply app_inv_head in H. destruct (format_04d_digits n Hn) as [H1 H2], (format_04d_digits m Hm) as [H3 H4].
  apply digits_prefix in H; [|done..]. rewrite H in H2. congruence.
Qed.

(** ** The log of a run *)

Lemma item_events_app l m :
  item_events (l ++ m) = (a ← item_events l; b ← item_events m; Ok (a ++ b)).
Proof.
  induction l as [|[v|d|e] l IH]; cbn [app item_events]; [by destruct (item_events m)|done|done|].
  rewrite IH. destruct (item_events l), (item_events m); done.
Qed.

Lemma put_event_fresh e l :
  (∀ x, x ∈ l → ev_event_id x ≠ ev_event_id e) → put_event e l = l ++ [e].
Proof.
  induction l as [|x l IH]; intros H; cbn [put_event]; [done|].
  destruct (String.eqb_spec (ev_event_id e) (ev_event_id x)) as [Heq|_].
  - destruct (H x); [left|done].
  - cbn [app]. rewrite IH; [done|]. intros y Hy. apply H. by right.
Qed.

Lemma dedupe_events_snoc l e :
  (∀ x, x ∈ dedupe_events l → ev_event_id x ≠ ev_event_id e) → dedupe_events (l ++ [e]) = dedupe_events l ++ [e].
Proof. unfold dedupe_events. rewrite fold_left_app. cbn [fold_left]. apply put_event_fresh. Qed.

Lemma insert_event_perm e l : insert_event e l ≡ₚ e :: l.
Proof. induction l as [|x l IH]; cbn [insert_event]; [done|]. case_match; [done|]. rewrite IH. constructor. Qed.

Lemma sort_events_perm l : sort_events l ≡ₚ l.
Proof. induction l as [|e l IH]; [done|]. cbn. rewrite insert_event_perm. by constructor. Qed.

Lemma insert_event_snoc x e l : ev_sequence x <= ev_sequence e → insert_event x (l ++ [e]) = insert_event x l ++ [e].
Proof.
  intros Hx. induction l as [|y l IH]; cbn [app insert_event].
  - by rewrite (proj2 (Z.leb_le _ _) Hx).
  - destruct (_ <=? _); [done|]. by rewrite IH.
Qed.

Lemma sort_events_snoc l e :
  (∀ x, x ∈ l → ev_sequence x <= ev_sequence e) → sort_events (l ++ [e]) = sort_events l ++ [e].
Proof.
  induction l as [|x l IH]; intros H; cbn; [done|]. unfold sort_events in IH. rewrite IH.
  - apply insert_event_snoc. apply H. left.
  - intros y Hy. apply H. by right.
Qed.

Definition with_line (r : string) (e : RunEvent) (s : store) : store :=
  set_logs (<[r := default [] (st_logs s !! r) ++ [ItemLine (EventItem e)]]> (st_logs s)) s.

Lemma stored_events_other s r r' e : r' ≠ r → stored_events (with_line r e s) r' = stored_events s r'.
Proof. intros Hne. unfold stored_events, with_line. cbn [st_logs st_legacy set_logs]. by rewrite lookup_insert_ne. Qed.

(** A new event that comes after the others is added at the end. *)
Lemma stored_events_append s r es e :
  stored_events s r = Ok es →
  (∀ x, x ∈ es → ev_event_id x ≠ ev_event_id e ∧ ev_sequence x <= ev_sequence e) →
  stored_events (with_line r e s) r = Ok (es ++ [e]).
Proof.
  unfold stored_events, with_line. cbn [st_logs st_legacy set_logs]. rewrite lookup_insert_eq. cbn [default from_option id].
  intros H Hnew. apply res_bind_Ok in H as (legacy & -> & H). apply res_bind_Ok in H as (logged & Hl & H).
  injection H as <-. cbn [mbind res_bind].
  assert (line_items (default [] (st_logs s !! r) ++ [ItemLine (EventItem e)])
    = line_items (default [] (st_logs s !! r)) ++ [EventItem e]) as -> by (unfold line_items; by rewrite omap_app).
  rewrite item_events_app, Hl. cbn [mbind res_bind item_events]. rewrite app_assoc.
  assert (∀ x, x ∈ dedupe_events (legacy ++ logged) → ev_event_id x ≠ ev_event_id e ∧ ev_sequence x <= ev_sequence e) as Hd.
  { intros x Hx. apply Hnew. by rewrite sort_events_perm. }
  rewrite dedupe_events_snoc by (intros x Hx; by apply Hd).
  rewrite sort_events_snoc; [done|]. intros x Hx. by apply Hd.
Qed.

(** ** Equality up to the order of keys *)

Lemma ev_read_back_idem e : ev_read_back (ev_read_back e) = ev_read_back e.
Proof.
  assert (∀ d, sort_dict (sort_dict d) = sort_dict d) as Hd.
  { intros d. pose proof (json_sort_idem (VDict d)) as H. rewrite !json_sort_dict in H. by injection H. }
  unfold ev_read_back. f_equal; cbn [ev_payload ev_summary]; [apply Hd|].
  destruct (ev_summary e); [|done]. cbn [fmap option_fmap option_map]. by rewrite Hd.
Qed.

Definition read_back : list RunEvent → list RunEvent := map ev_read_back.

Lemma events_after_read_back after l : read_back (events_after after l) = events_after after (read_back l).
Proof.
  unfold read_back, events_after. induction l as [|e l IH]; cbn [map List.filter]; [done|].
  change (ev_sequence (ev_read_back e)) with (ev_sequence e). destruct (after <? _); cbn [map]; by rewrite IH.
Qed.

Lemma events_after_app after l m : events_after after (l ++ m) = events_after after l ++ events_after after m.
Proof. unfold events_after. by rewrite List.filter_app. Qed.

Lemma events_after_none after l : Forall (λ e, ev_sequence e <= after) l → events_after after l = [].
Proof.
  induction 1 as [|e l He _ IH]; [done|]. unfold events_after in *. cbn [List.filter].
  by rewrite (proj2 (Z.ltb_ge _ _) He).
Qed.

Lemma last_n_suffix {A} n (l : list A) : ∃ pre, pre ++ last_n n l = l.
Proof. exists (take (length l - n) l). apply take_drop. Qed.

Lemma last_n_nil {A} n (l : list A) : (0 < n)%nat → last_n n l = [] → l = [].
Proof.
  unfold last_n. intros Hn H. apply (f_equal length) in H. rewrite length_drop in H. cbn in H.
  apply length_zero_iff_nil. lia.
Qed.

(** ** The invariant of the logs *)

Definition increasing (es : list RunEvent) : Prop := StronglySorted Z.lt (map ev_sequence es).

(** Positive sequence numbers, and identifiers made from them. *)
Definition numbered (es : list RunEvent) : Prop :=
  Forall (λ e, 0 < ev_sequence e ∧ ∃ hex, ev_event_id e = event_id (ev_sequence e) hex) es.

Definition cache_ok (s : store) (r : string) (es : list RunEvent) : Prop :=
  match st_cache s !! r with
  | Some tail => (∃ pre, read_back (pre ++ tail) = read_back es) ∧ (tail = [] → es = [])
  | None => True
  end.

Definition log_ok (s : store) (r : string) (es : list RunEvent) : Prop :=
  stored_events s r = Ok es ∧ increasing es ∧ numbered es ∧ cache_ok s r es.

Definition logs_ok (s : store) : Prop := ∀ r, ∃ es, log_ok s r es.

(** The stored sessions of the run know of all its events. *)
Definition cursor_bound (s : store) (r : string) (es : list RunEvent) : Prop :=
  ∀ v n, v ∈ session_records s → is_run r v = true → cursor_of v = VInt n → Forall (λ e, ev_sequence e <= n) es.

Record store_ok (s : store) : Prop := {
  st_sessions_ok : sessions_ok s;
  st_logs_ok : logs_ok s;
  st_cursors_ok : ∀ r es, stored_events s r = Ok es → cursor_bound s r es }.

Lemma sessions_ok_frame s s' : st_sessions s' = st_sessions s → sessions_ok s → sessions_ok s'.
Proof. intros H [Hp Ht Hu]. split; unfold session_records in *; by rewrite H. Qed.

(** What the invariant depends on. *)
Definition same_runs (s s' : store) : Prop :=
  st_sessions s' = st_sessions s ∧ st_logs s' = st_logs s ∧ st_legacy s' = st_legacy s ∧ st_cache s' = st_cache s.

Lemma same_runs_ok s s' : same_runs s s' → store_ok s → store_ok s'.
Proof.
  intros (H1 & H2 & H3 & H4) [Hs Hl Hc].
  assert (∀ r, stored_events s' r = stored_events s r) as He by (intros r; unfold stored_events; by rewrite H2, H3).
  split.
  - by apply (sessions_ok_frame s).
  - intros r. destruct (Hl r) as (es & Hes). exists es. unfold log_ok, cache_ok in *. by rewrite He, H4.
  - intros r es Hes. rewrite He in Hes. unfold cursor_bound, session_records. rewrite H1. by apply Hc.
Qed.

Definition preserves (I : store → Prop) : relation store := λ s s', I s → I s'.
#[export] Instance preserves_preorder I : PreOrder (preserves I).
Proof. split; unfold preserves; [intros ?|intros ???]; auto. Qed.

Lemma increasing_sorted es : increasing es → ∀ pre e tail, es = pre ++ e :: tail →
  Forall (λ x, ev_sequence x < ev_sequence e) pre.
Proof.
  unfold increasing. intros H pre e tail ->. induction pre as [|x pre IH]; [constructor|].
  cbn [app map] in H. apply StronglySorted_inv in H as [H Hx]. constructor; [|by apply IH].
  rewrite Forall_forall in Hx. apply Hx. apply list_elem_of_fmap. exists e. split; [done|].
  rewrite elem_of_app, elem_of_cons. tauto.
Qed.

Lemma increasing_read_back es es' : read_back es = read_back es' → increasing es → increasing es'.
Proof.
  unfold increasing. assert (∀ l, map ev_sequence l = map ev_sequence (read_back l)) as H.
  { intros l. unfold read_back. by rewrite map_map. }
  intros Heq. by rewrite (H es), Heq, <- H.
Qed.

Lemma increasing_snoc es e :
  increasing es → Forall (λ x, ev_sequence x < ev_sequence e) es → increasing (es ++ [e]).
Proof.
  unfold increasing. intros Hs Hall. rewrite map_app. induction Hall as [|x es Hx Hall IH]; cbn [map app].
  - repeat constructor.
  - cbn [map] in Hs. apply StronglySorted_inv in Hs as [Hs Hle]. constructor; [by apply IH|].
    apply Forall_app. split; [done|]. by constructor.
Qed.

(** The last event has the largest number. *)
Lemma increasing_last es : increasing es →
  match last es with Some e => Forall (λ x, ev_sequence x <= ev_sequence e) es | None => es = [] end.
Proof.
  intros H. destruct (last es) as [e|] eqn:E.
  - apply last_Some in E as (l & ->). pose proof (increasing_sorted _ H l e [] eq_refl) as Hl.
    apply Forall_app. split; [|by constructor]. eapply Forall_impl; [exact Hl|]. cbn. lia.
  - by apply last_None in E.
Qed.

(** ** Reading *)

Lemma cache_ok_fill s r es :
  cache_ok (set_cache (<[r := last_n EVENT_CACHE_SIZE es]> (st_cache s)) s) r es.
Proof.
  unfold cache_ok. cbn [st_cache set_cache]. rewrite lookup_insert_eq.
  destruct (last_n_suffix EVENT_CACHE_SIZE es) as (pre & Hpre). split; [exists pre; by rewrite Hpre|].
  apply last_n_nil. unfold EVENT_CACHE_SIZE. lia.
Qed.

Lemma load_ok s r es :
  stored_events s r = Ok es →
  load_run_events_from_disk r s = (Ok es, set_cache (<[r := last_n EVENT_CACHE_SIZE es]> (st_cache s)) s).
Proof. unfold load_run_events_from_disk. by intros ->. Qed.

Lemma fill_logs_ok s r es : stored_events s r = Ok es →
  logs_ok s → logs_ok (set_cache (<[r := last_n EVENT_CACHE_SIZE es]> (st_cache s)) s).
Proof.
  intros He Hl r'. destruct (Hl r') as (es' & H1 & H2 & H3 & H4). exists es'. split; [done|]. split; [done|].
  split; [done|]. destruct (decide (r' = r)) as [->|Hne].
  - rewrite He in H1. injection H1 as <-. apply cache_ok_fill.
  - unfold cache_ok in *. cbn [st_cache set_cache]. by rewrite lookup_insert_ne.
Qed.

Lemma keeps_load_ok r : sm_keeps (preserves store_ok) (load_run_events_from_disk r).
Proof.
  intros s [Hs Hl Hc]. destruct (Hl r) as (es & He & _). rewrite (load_ok _ _ _ He). cbn [snd].
  split; [by apply (sessions_ok_frame s)|by apply fill_logs_ok|done].
Qed.

Lemma keeps_same_ok {A} (m : SM A) : sm_keeps same_runs m → sm_keeps (preserves store_ok) m.
Proof. intros H s. unfold preserves. apply same_runs_ok, H. Qed.

Lemma keeps_modify_ok f : (∀ s, same_runs s (f s)) → sm_keeps (preserves store_ok) (modify f).
Proof. intros H. apply keeps_same_ok. exact H. Qed.

Lemma keeps_get_ok r : sm_keeps (preserves store_ok) (get_run_session r).
Proof. intros s Hs. destruct (get_run_session_ok s r) as (found & -> & _); [by destruct Hs|done]. Qed.

Lemma keeps_in_goals_ok {A} (body : dict → res (A * dict)) : sm_keeps (preserves store_ok) (in_goals body).
Proof. apply keeps_same_ok. intros s. unfold in_goals. by destruct (locked_json _ _ _ _). Qed.

Lemma keeps_list_goals_ok : sm_keeps (preserves store_ok) list_goals.
Proof. intros s. unfold list_goals. case_match; [apply keeps_in_goals_ok|apply PreOrder_Reflexive]. Qed.

#[export] Hint Resolve keeps_load_ok keeps_get_ok keeps_in_goals_ok keeps_list_goals_ok : store.

Ltac keeps_ok_step :=
  repeat first
    [ solve [eauto with store typeclass_instances]
    | apply keeps_bind; [apply _| |intros ?]
    | progress cbv beta zeta
    | apply keeps_modify_ok; intros ?; by repeat split
    | case_match ].

Lemma keeps_materialize_ok cfg r force mono : sm_keeps (preserves store_ok) (materialize_vault cfg r force mono).
Proof.
  intros s. unfold materialize_vault. destruct (throttled _ _ _ _ _); [apply PreOrder_Reflexive|].
  match goal with |- preserves _ s (?m s).2 => enough (sm_keeps (preserves store_ok) m) as H by apply H end.
  unfold session_goal. keeps_ok_step.
Qed.

Lemma keeps_schedule_ok cfg r mono : sm_keeps (preserves store_ok) (schedule_materialize_vault cfg r mono).
Proof.
  intros s. unfold schedule_materialize_vault.
  repeat case_match; first [by apply PreOrder_Reflexive | apply keeps_materialize_ok | idtac].
  intros Hs. by apply (same_runs_ok s).
Qed.
#[export] Hint Resolve keeps_materialize_ok keeps_schedule_ok : store.

(** ** Saving *)

(** A session may be saved when its cursor is not behind the log of its run, or
    the file has a session of the run to take the cursor from. *)
Definition save_allowed (s : store) (session : dict) : bool :=
  session_typed session
  && match dgetN "run_id" session with
     | VStr r =>
         match stored_events s r, event_cursor session with
         | Ok es, Ok n => forallb (λ e, ev_sequence e <=? n) es || existsb (is_run r) (session_records s)
         | _, _ => false
         end
     | _ => false
     end.

Lemma sessions_differ_frame s s' : sessions_differ s s' →
  st_logs s' = st_logs s ∧ st_legacy s' = st_legacy s ∧ st_cache s' = st_cache s.
Proof. unfold sessions_differ. intros ->. done. Qed.

Lemma stored_events_frame s s' r :
  st_logs s' = st_logs s → st_legacy s' = st_legacy s → stored_events s' r = stored_events s r.
Proof. unfold stored_events. by intros -> ->. Qed.

Lemma sig_is_run r v w : sig v = sig w → typed_record v → typed_record w → is_run r v = is_run r w.
Proof.
  unfold sig. intros H (d & -> & _) (e & -> & _). injection H as H _. cbn [run_id_of] in H. unfold is_run. by rewrite H.
Qed.

Lemma record_event_cursor d n : cursor_of (VDict d) = VInt n → event_cursor d = Ok n.
Proof. apply event_cursor_int. Qed.

(** After a session of the run [r] was written the stored cursors are bounds
    again, provided those of other runs were and the new one is. *)
Lemma write_cursors_ok cfg s sd r es :
  sessions_ok s → logs_ok s → session_typed sd = true → dgetN "run_id" sd = VStr r →
  stored_events s r = Ok es →
  (∀ r' es', r' ≠ r → stored_events s r' = Ok es' → cursor_bound s r' es') →
  (∀ n, event_cursor sd = Ok n → Forall (λ e, ev_sequence e <= n) es)
    ∨ (cursor_bound s r es ∧ existsb (is_run r) (session_records s) = true) →
  ∃ sd' s', write_session cfg sd s = (Ok sd', s') ∧ sessions_differ s s' ∧ store_ok s' ∧ session_typed sd' = true
    ∧ dgetN "run_id" sd' = VStr r
    ∧ (length (session_records s') <= run_session_file_max_records cfg)%nat.
Proof.
  intros Hs Hl Hsd Hr Hes Hother Hcur.
  destruct (write_session_ok cfg s sd r Hs Hsd Hr) as (sd' & s' & Hw & Hd & Hs' & Hlen & Hsd' & Hr' & Hsig & Hcases).
  exists sd', s'. split; [done|]. split; [done|]. split; [|done].
  destruct (sessions_differ_frame _ _ Hd) as (Hlogs & Hleg & Hcache).
  assert (∀ r', stored_events s' r' = stored_events s r') as Hst by (intros r'; by apply stored_events_frame).
  split; [done| |].
  - intros r'. destruct (Hl r') as (es' & H1 & H2 & H3 & H4). exists es'. unfold log_ok, cache_ok in *.
    by rewrite Hst, Hcache.
  - intros r' es' He' v n Hv Hrun Hn. rewrite Hst in He'.
    pose proof (so_typed _ Hs') as Ht'. rewrite Forall_forall in Ht'. pose proof (Ht' _ Hv) as Htv.
    pose proof (so_typed _ Hs) as Ht. rewrite Forall_forall in Ht.
    destruct (Hsig _ Hv) as [Heq|(w & Hw' & Heq & Hnot)].
    + rewrite (sig_is_run r' _ _ Heq Htv ltac:(by exists sd')) in Hrun. unfold is_run in Hrun.
      rewrite Hr' in Hrun. apply String.eqb_eq in Hrun as ->.
      rewrite Hes in He'. injection He' as <-. unfold sig in Heq. injection Heq as _ Hcv. rewrite Hcv in Hn.
      apply record_event_cursor in Hn. destruct (session_cursor _ Hsd) as (m & _ & _ & Hm).
      destruct Hcases as [[-> Hno]|(old & Hin & Hold & Hmerge)].
      * destruct Hcur as [Hcur|[_ Hex]]; [by apply Hcur|]. apply existsb_exists in Hex as (x & Hx & Hxr).
        apply list_elem_of_In in Hx. by rewrite Hno in Hxr.
      * destruct (Ht _ Hin) as (? & [= <-] & Hto). destruct (session_cursor _ Hto) as (k & Hk & _ & Hko).
        rewrite (merge_cursor _ _ _ _ _ Hmerge Hm Hko) in Hn. injection Hn as <-.
        destruct Hcur as [Hcur|[Hcur _]].
        -- eapply Forall_impl; [by apply Hcur|]. cbn. lia.
        -- eapply Forall_impl; [by apply (Hcur _ k Hin Hold)|]. cbn. lia.
    + assert (r' ≠ r) as Hne.
      { intros ->. rewrite (sig_is_run r _ _ Heq Htv (Ht _ Hw')) in Hrun. congruence. }
      apply (Hother r' es' Hne He' w n Hw').
      * by rewrite <- (sig_is_run r' _ _ Heq Htv (Ht _ Hw')).
      * unfold sig in Heq. injection Heq as _ <-. done.
Qed.

(** The same inside [save_run_session]; what follows the write keeps the
    invariant whatever it raises. *)
Lemma save_cursors_ok cfg s sd r es mono :
  sessions_ok s → logs_ok s → session_typed sd = true → dgetN "run_id" sd = VStr r →
  stored_events s r = Ok es →
  (∀ r' es', r' ≠ r → stored_events s r' = Ok es' → cursor_bound s r' es') →
  (∀ n, event_cursor sd = Ok n → Forall (λ e, ev_sequence e <= n) es)
    ∨ (cursor_bound s r es ∧ existsb (is_run r) (session_records s) = true) →
  store_ok (save_run_session cfg sd mono s).2.
Proof.
  intros Hs Hl Hsd Hr Hes Hother Hcur.
  destruct (write_cursors_ok cfg s sd r es Hs Hl Hsd Hr Hes Hother Hcur)
    as (sd' & s' & Hw & _ & Hok & Hsd' & Hr' & _).
  unfold save_run_session. rewrite (session_to_dict_typed _ Hsd). unfold mbind at 1, sm_bind at 1, lift at 1.
  unfold mbind at 1, sm_bind at 1. rewrite Hw. revert s' Hok Hw.
  match goal with |- ∀ s', _ → _ → store_ok (?m s').2 =>
    enough (sm_keeps (preserves store_ok) m) as H by (intros s' Hok _; by apply H) end.
  keeps_ok_step.
Qed.

Lemma save_allowed_ok cfg s session mono :
  store_ok s → save_allowed s session = true → store_ok (save_run_session cfg session mono s).2.
Proof.
  intros [Hs Hl Hc] H. unfold save_allowed in H. apply andb_true_iff in H as [Ht H].
  destruct (dgetN "run_id" session) as [| | | |r| |] eqn:Hr; try done.
  destruct (stored_events s r) as [es|] eqn:Hes; [|done]. destruct (event_cursor session) as [n|] eqn:Hn; [|done].
  apply (save_cursors_ok cfg s session r es); auto.
  apply orb_true_iff in H as [H|H]; [left|right; auto].
  intros m Hm. rewrite Hn in Hm. injection Hm as <-. apply Forall_forall. intros e He. rewrite forallb_forall in H.
  apply Z.leb_le, H. by apply list_elem_of_In.
Qed.

(** ** Appending *)

(** There is one record of a run. *)
Lemma run_record_unique s r v w :
  sessions_ok s → v ∈ session_records s → w ∈ session_records s →
  is_run r v = true → is_run r w = true → v = w.
Proof.
  intros [_ _ Hu] Hv Hw Hrv Hrw.
  assert (∀ x, is_run r x = true → run_id_of x = VStr r) as Hid.
  { intros x Hx. destruct x as [| | | | | |d]; try done. by apply is_string_true. }
  apply Hid in Hrv, Hrw. revert Hu Hv Hw. generalize (session_records s). clear Hid.
  induction l as [|x l IH]; intros Hu Hv Hw; [by apply elem_of_nil in Hv|].
  cbn [map] in Hu. apply NoDup_cons in Hu as [Hx Hu]. apply elem_of_cons in Hv, Hw.
  destruct Hv as [<-|Hv], Hw as [<-|Hw]; [done| | |by apply IH]; destruct Hx.
  - rewrite Hrv, <- Hrw. by apply (list_elem_of_fmap_2 run_id_of).
  - rewrite Hrw, <- Hrv. by apply (list_elem_of_fmap_2 run_id_of).
Qed.

(** The cursor [_next_event_sequence] reads is that of the stored session and
    is not behind the log. *)
Lemma recorded_cursor s r es :
  store_ok s → stored_events s r = Ok es →
  ∃ found, get_run_session r s = (Ok found, s)
  ∧ let recorded := match found with Some session => dgetN "latest_event_sequence" session | None => VNone end in
    (truthy recorded = true → ∃ m, recorded = VInt m ∧ 0 < m ∧ Forall (λ e, ev_sequence e <= m) es)
    ∧ (∀ v m, v ∈ session_records s → is_run r v = true → cursor_of v = VInt m →
         if truthy recorded then recorded = VInt m else m = 0).
Proof.
  intros [Hs Hl Hc] Hes. destruct (get_run_session_ok s r Hs) as (found & Hget & Hfound).
  exists found. split; [done|]. cbv zeta. destruct found as [d|].
  2:{ split; [done|]. intros v m Hv Hrv _. by rewrite (Hfound v Hv) in Hrv. }
  destruct Hfound as (Hd & Hr & w & Hw & Hget').
  assert (dgetN "latest_event_sequence" d = cursor_of (VDict w)) as Hcw by (unfold cursor_of, dgetN; by rewrite Hget').
  assert (is_run r (VDict w) = true) as Hrun.
  { unfold is_run, dgetN in *. rewrite <- Hget', Hr. apply is_string_refl. }
  destruct (session_cursor _ Hd) as (m & Hm & Hm0 & _). rewrite Hm. split.
  - intros Hm'. exists m. split; [done|]. split; [cbn in Hm'; lia|].
    apply (Hc r es Hes (VDict w) m Hw Hrun). congruence.
  - intros v k Hv Hrv Hk. rewrite (run_record_unique s r v (VDict w)) in Hk by done.
    assert (m = k) as <- by congruence. destruct (truthy (VInt m)) eqn:E; [done|]. cbn in E. lia.
Qed.

(** The stores during an append differ from the first in the cache and the log
    of the run. *)
Lemma next_sequence_ok s r es :
  store_ok s → log_ok s r es →
  ∃ n s1, next_event_sequence r s = (Ok n, s1) ∧ store_ok s1 ∧ log_ok s1 r es
    ∧ st_sessions s1 = st_sessions s ∧ st_logs s1 = st_logs s ∧ st_legacy s1 = st_legacy s
    ∧ 0 < n ∧ Forall (λ e, ev_sequence e < n) es
    ∧ ∀ v m, v ∈ session_records s → is_run r v = true → cursor_of v = VInt m → m < n.
Proof.
  intros Hok Hes. destruct (recorded_cursor s r es Hok (proj1 Hes)) as (found & Hget & Htrue & Hcur).
  unfold next_event_sequence, mbind, sm_bind. rewrite Hget. cbv zeta. revert Htrue Hcur.
  generalize (match found with Some session => dgetN "latest_event_sequence" session | None => VNone end).
  intros recorded Htrue Hcur. destruct (truthy recorded) eqn:E.
  - destruct (Htrue eq_refl) as (m & -> & Hm & Hall). exists (m + 1), s. do 6 (split; [done|]). split; [lia|]. split.
    + eapply Forall_impl; [exact Hall|]. cbn. lia.
    + intros v k Hv Hrv Hk. specialize (Hcur _ _ Hv Hrv Hk). injection Hcur as ->. lia.
  - rewrite (load_ok _ _ _ (proj1 Hes)). destruct Hes as (He & Hinc & Hnum & Hca), Hok as [Hs Hl Hc].
    pose proof (increasing_last _ Hinc) as Hlast.
    exists (match last es with Some e => ev_sequence e + 1 | None => 1 end), (set_cache (<[r:=last_n EVENT_CACHE_SIZE es]> (st_cache s)) s).
    split; [done|]. split; [split; [by apply (sessions_ok_frame s)|by apply fill_logs_ok|done]|].
    split; [split; [done|]; split; [done|]; split; [done|apply cache_ok_fill]|]. do 3 (split; [done|]).
    assert (0 < match last es with Some e => ev_sequence e + 1 | None => 1 end) as Hpos.
    { destruct (last es) as [e|] eqn:El; [|lia]. unfold numbered in Hnum. rewrite Forall_forall in Hnum.
      apply last_Some in El as (l & ->). destruct (Hnum e) as [He0 _]; [|lia]. rewrite elem_of_app, elem_of_cons. tauto. }
    split; [done|]. split.
    + destruct (last es); [|by subst es]. eapply Forall_impl; [exact Hlast|]. cbn. lia.
    + intros v k Hv Hrv Hk. specialize (Hcur _ _ Hv Hrv Hk). lia.
Qed.

Lemma new_event_facts r n a :
  ev_sequence (new_event r n a) = n ∧ ev_event_id (new_event r n a) = event_id n (ea_hex a).
Proof. done. Qed.

(** The log with a new event at its end, and the cache with it. *)
Lemma appended_logs_ok s r es n a :
  logs_ok s → log_ok s r es → 0 < n → Forall (λ e, ev_sequence e < n) es →
  let e := new_event r n a in
  let s' := (append_event_to_cache r e (with_line r (ev_read_back e) s)).2 in
  logs_ok s' ∧ stored_events s' r = Ok (es ++ [ev_read_back e]) ∧ st_sessions s' = st_sessions s
  ∧ ∀ r', r' ≠ r → stored_events s' r' = stored_events s r'.
Proof.
  intros Hl (He & Hinc & Hnum & Hca) Hn Hall. cbv zeta. set (e := new_event r n a).
  assert (stored_events (with_line r (ev_read_back e) s) r = Ok (es ++ [ev_read_back e])) as Happ.
  { apply stored_events_append; [done|]. intros x Hx. rewrite Forall_forall in Hall. split.
    2:{ pose proof (Hall _ Hx). cbn. lia. }
    unfold numbered in Hnum. rewrite Forall_forall in Hnum. destruct (Hnum _ Hx) as (Hx0 & hex & ->).
    intros Heq. apply event_id_inj in Heq; [|lia..]. pose proof (Hall _ Hx). cbn in *. lia. }
  assert (log_ok (append_event_to_cache r e (with_line r (ev_read_back e) s)).2 r (es ++ [ev_read_back e])) as Hlog.
  { split; [exact Happ|]. split; [|split].
    - by apply increasing_snoc.
    - apply Forall_app. split; [done|]. repeat constructor; [done|]. by exists (ea_hex a).
    - unfold cache_ok, append_event_to_cache, modify in *. cbn [snd st_cache set_cache with_line set_logs].
      rewrite lookup_insert_eq. set (tail := default [] (st_cache s !! r)) in *.
      destruct (last_n_suffix EVENT_CACHE_SIZE (tail ++ [e])) as (pre & Hpre). split.
      + assert (∃ pre', read_back (pre' ++ tail) = read_back es) as (pre' & Hpre').
        { subst tail. destruct (st_cache s !! r) as [t|]; [apply Hca|]. exists es. by rewrite app_nil_r. }
        exists (pre' ++ pre). rewrite <- app_assoc, Hpre, app_assoc. unfold read_back in *.
        rewrite !map_app in *. rewrite Hpre'. cbn [map]. by rewrite ev_read_back_idem.
      + intros Hnil. apply last_n_nil in Hnil; [|unfold EVENT_CACHE_SIZE; lia]. by destruct tail. }
  split; [|split; [exact Happ|split; [done|]]].
  - intros r'. destruct (decide (r' = r)) as [->|Hne]; [eauto|].
    destruct (Hl r') as (es' & H1 & H2 & H3 & H4). exists es'. split.
    { rewrite <- H1. by apply stored_events_other. }
    split; [done|]. split; [done|].
    unfold cache_ok, append_event_to_cache, modify in *. cbn [snd st_cache set_cache with_line set_logs].
    by rewrite lookup_insert_ne.
  - intros r' Hne. by apply stored_events_other.
Qed.

(** Everything but the append itself leaves the logs alone. *)
Definition same_logs (s s' : store) : Prop := st_logs s' = st_logs s ∧ st_legacy s' = st_legacy s.

#[export] Instance same_logs_preorder : PreOrder same_logs.
Proof. split; [by split|]. intros s1 s2 s3 [] []. split; congruence. Qed.

Lemma keeps_logs_modify f : (∀ s, same_logs s (f s)) → sm_keeps same_logs (modify f).
Proof. done. Qed.

Lemma keeps_logs_in_sessions {A} (body : dict → res (A * dict)) : sm_keeps same_logs (in_sessions body).
Proof. intros s. unfold in_sessions. by destruct (locked_json _ _ _ _). Qed.

Lemma keeps_logs_in_goals {A} (body : dict → res (A * dict)) : sm_keeps same_logs (in_goals body).
Proof. intros s. unfold in_goals. by destruct (locked_json _ _ _ _). Qed.

Lemma keeps_logs_get r : sm_keeps same_logs (get_run_session r).
Proof. intros s. unfold get_run_session. case_match; [apply keeps_logs_in_sessions|done]. Qed.

Lemma keeps_logs_goals : sm_keeps same_logs list_goals.
Proof. intros s. unfold list_goals. case_match; [apply keeps_logs_in_goals|done]. Qed.

Lemma keeps_logs_load r : sm_keeps same_logs (load_run_events_from_disk r).
Proof. intros s. unfold load_run_events_from_disk. by case_match. Qed.

Lemma keeps_logs_archive l : sm_keeps same_logs (archive_records l).
Proof. apply keeps_logs_modify. intros s. by case_match. Qed.
#[export] Hint Resolve keeps_logs_in_sessions keeps_logs_get keeps_logs_goals keeps_logs_load keeps_logs_archive : store.

Ltac keeps_logs_step :=
  repeat first
    [ solve [eauto with store typeclass_instances]
    | apply keeps_bind; [apply _| |intros ?]
    | progress cbv beta zeta
    | apply keeps_logs_modify; intros ?; by split
    | case_match ].

Lemma keeps_logs_materialize cfg r force mono : sm_keeps same_logs (materialize_vault cfg r force mono).
Proof.
  intros s. unfold materialize_vault. destruct (throttled _ _ _ _ _); [done|].
  match goal with |- same_logs s (?m s).2 => enough (sm_keeps same_logs m) as H by apply H end.
  unfold session_goal. keeps_logs_step.
Qed.

Lemma keeps_logs_schedule cfg r mono : sm_keeps same_logs (schedule_materialize_vault cfg r mono).
Proof. intros s. unfold schedule_materialize_vault. by repeat case_match; try apply keeps_logs_materialize. Qed.
#[export] Hint Resolve keeps_logs_materialize keeps_logs_schedule : store.

Lemma keeps_logs_save cfg session mono : sm_keeps same_logs (save_run_session cfg session mono).
Proof. unfold save_run_session, write_session. keeps_logs_step. Qed.
#[export] Hint Resolve keeps_logs_save : store.

Lemma keeps_logs_unlocked cfg r e now mono : sm_keeps same_logs (append_unlocked cfg r e now mono).
Proof.
  unfold append_unlocked, append_event_to_cache, advance_session_event_cursor, get_merkle_snapshot. keeps_logs_step.
Qed.

(** Moving the cursor to the event just appended restores the invariant. *)
Lemma advance_ok cfg s r es e now mono :
  sessions_ok s → logs_ok s → stored_events s r = Ok es →
  (∀ r' es', r' ≠ r → stored_events s r' = Ok es' → cursor_bound s r' es') →
  0 < ev_sequence e → Forall (λ x, ev_sequence x <= ev_sequence e) es →
  (∀ v m, v ∈ session_records s → is_run r v = true → cursor_of v = VInt m → m < ev_sequence e) →
  store_ok (advance_session_event_cursor cfg r e now mono s).2.
Proof.
  intros Hs Hl Hes Hother Hpos Hall Hless. destruct (get_run_session_ok s r Hs) as (found & Hget & Hfound).
  unfold advance_session_event_cursor, mbind, sm_bind. rewrite Hget. destruct found as [d|].
  2:{ split; [done|done|]. intros r' es' He'. destruct (decide (r' = r)) as [->|Hne]; [|by apply Hother].
      intros v n Hv Hrv _. by rewrite (Hfound v Hv) in Hrv. }
  destruct Hfound as (Hd & Hr & w & Hw & Hget'). destruct (session_cursor _ Hd) as (m & Hm & _ & Hcur).
  unfold lift. rewrite Hcur.
  assert (m < ev_sequence e) as Hlt.
  { apply (Hless (VDict w)); [done| |unfold cursor_of, dgetN in *; by rewrite <- Hget'].
    unfold is_run, dgetN in *. rewrite <- Hget', Hr. apply is_string_refl. }
  rewrite (proj2 (Z.ltb_ge _ _)) by lia. unfold get_merkle_snapshot, mbind, sm_bind.
  rewrite (load_ok _ _ _ Hes). unfold mret, sm_ret.
  set (s4 := set_cache _ s). set (sd := dset "updated_at" _ _).
  enough (store_ok (save_run_session cfg sd mono s4).2) as H by (by destruct (save_run_session cfg sd mono s4) as [[?|?] ?]).
  apply (save_cursors_ok cfg s4 sd r es); [by apply (sessions_ok_frame s)|by apply fill_logs_ok| | |done|exact Hother|].
  - subst sd. apply session_typed_set with is_str; [done..|]. apply session_typed_set with is_opt_str; [done..|].
    apply session_typed_set with is_count; [done|by apply Z.leb_le; lia|]. by apply session_typed_set with is_opt_str.
  - subst sd. by simp_rec.
  - left. intros n Hn. assert (n = ev_sequence e) as ->; [|done].
    rewrite (event_cursor_int sd (ev_sequence e)) in Hn by (subst sd; by simp_rec). congruence.
Qed.

(** Appending to the log of a run keeps the invariant and adds one event, whose
    number is larger than all others. *)
Lemma append_run_event_ok cfg s r es a :
  store_ok s → log_ok s r es →
  ∃ n, 0 < n ∧ Forall (λ e, ev_sequence e < n) es
    ∧ store_ok (append_run_event cfg r a s).2
    ∧ stored_events (append_run_event cfg r a s).2 r = Ok (es ++ [ev_read_back (new_event r n a)])
    ∧ ∀ r', r' ≠ r → stored_events (append_run_event cfg r a s).2 r' = stored_events s r'.
Proof.
  intros Hok Hes. destruct (next_sequence_ok s r es Hok Hes)
    as (n & s1 & Hnext & Hok1 & Hes1 & Hsess & Hlogs & Hleg & Hn & Hall & Hless).
  exists n. split; [done|]. split; [done|]. set (e := new_event r n a).
  destruct Hok1 as [Hs1 Hl1 Hc1]. destruct (appended_logs_ok s1 r es n a Hl1 Hes1 Hn Hall) as (Hl3 & Hst & Hss & Hoth).
  fold e in Hl3, Hst, Hss, Hoth. set (s2 := with_line r (ev_read_back e) s1) in *.
  set (s3 := (append_event_to_cache r e s2).2) in *.
  assert (append_run_event cfg r a s
    = (_ ← append_unlocked cfg r e (ea_updated_at a) (ea_mono a); mret e) s2) as ->.
  { unfold append_run_event, append_locked, mbind at 1, sm_bind at 1. unfold mbind at 1, sm_bind at 1. by rewrite Hnext. }
  assert (store_ok ((_ ← append_unlocked cfg r e (ea_updated_at a) (ea_mono a); mret e) s2).2) as Hfinal.
  { assert (store_ok (advance_session_event_cursor cfg r e (ea_updated_at a) (ea_mono a) s3).2) as Hadv.
    { apply (advance_ok cfg s3 r (es ++ [ev_read_back e])); [by apply (sessions_ok_frame s1)|done|done| |done| |].
      - intros r' es' Hne He'. rewrite Hoth in He' by done. unfold cursor_bound, session_records. rewrite Hss.
        by apply Hc1.
      - apply Forall_app. split; [|by repeat constructor]. eapply Forall_impl; [exact Hall|]. cbn. lia.
      - unfold session_records. rewrite Hss, Hsess. exact Hless. }
    unfold append_unlocked, mbind, sm_bind.
    assert (append_event_to_cache r e s2 = (Ok (), s3)) as -> by done.
    destruct (advance_session_event_cursor _ _ _ _ _ s3) as [[[]|?] s4]; [|exact Hadv].
    unfold modify, mret, sm_ret. cbn [snd]. by apply (same_runs_ok s4). }
  split; [done|].
  assert (same_logs s2 ((_ ← append_unlocked cfg r e (ea_updated_at a) (ea_mono a); mret e) s2).2) as [Hf1 Hf2].
  { enough (sm_keeps same_logs (_ ← append_unlocked cfg r e (ea_updated_at a) (ea_mono a); mret e)) as H by apply H.
    apply keeps_bind; [apply _|apply keeps_logs_unlocked|intros _; apply keeps_ret; apply _]. }
  split; [by rewrite (stored_events_frame s2)|]. intros r' Hne. rewrite (stored_events_frame s2) by done.
  subst s2. rewrite stored_events_other by done. by apply stored_events_frame.
Qed.
