(* ===== verification/StateTheorems.v ===== *)
(** * The control-plane store: guarantees

    Whatever is called and however threads interleave, a run that has ended
    stays ended and its cursor does not go back, the session file stays within
    its bound and loses no run.  When appends do not overlap, the events of a
    run are numbered in increasing order and the cache is invisible; when they
    do, two events can get one number. *)

From S2P Require Import Prelude PyFloat PyValue Json JsonStore Sha256 DateTime Models Merkle StateStore StateFacts StateTypes StateEvents.
From Stdlib Require Import Sorted.
From stdpp Require Import gmap.
#[local] Open Scope Z_scope.

#[local] Set Warnings "-clear-no-such-hyp".

(** ** Calls *)

(** The calls on a store with their clock readings and random values.  The two
    halves of an append are calls of their own: another thread may run between
    them. *)
Inductive store_call :=
  | CreateRunSession (now stamp hex : string) (goal_id scenario_key : option string) (steering_mode : string)
      (auto_mode : bool) (pause_points : list string) (evaluation_mode orchestration_mode : string)
      (artifacts : dict) (mono : float)
  | SaveRunSession (session : dict) (mono : float)
  | UpdateSnapshot (run_id : string) (snapshot : dict) (mono : float)
  | RecordOperatorNote (run_id note now : string) (mono : float)
  | RecordApproval (run_id : string) (approval : dict) (now : string) (mono : float)
  | AppendRunEvent (run_id : string) (a : event_args)
  | AppendLocked (run_id : string) (a : event_args)
  | AppendUnlocked (run_id : string) (e : RunEvent) (now : string) (mono : float)
  | AppendEvent (run_id : string) (e : RunEvent) (now : string) (mono : float)
  | GetRunSession (run_id : string)
  | ListRunSessions (limit : Z)
  | ListRunEvents (run_id : string) (after_sequence : Z)
  | LoadRunEvents (run_id : string)
  | SaveGoal (goal : dict)
  | EnsureDefaultGoal (now : string)
  | MaterializeVault (run_id : string) (force : bool) (mono : float)
  | VaultWorkerTurn (mono : float).

Definition exec (cfg : store_config) (c : store_call) (s : store) : store :=
  match c with
  | CreateRunSession now stamp hex g k st au pp ev orch ar mono =>
      (create_run_session cfg now stamp hex g k st au pp ev orch ar mono s).2
  | SaveRunSession session mono => (save_run_session cfg session mono s).2
  | UpdateSnapshot r snapshot mono => (update_snapshot cfg r snapshot mono s).2
  | RecordOperatorNote r note now mono => (record_operator_note cfg r note now mono s).2
  | RecordApproval r approval now mono => (record_approval cfg r approval now mono s).2
  | AppendRunEvent r a => (append_run_event cfg r a s).2
  | AppendLocked r a => (append_locked r a s).2
  | AppendUnlocked r e now mono => (append_unlocked cfg r e now mono s).2
  | AppendEvent r e now mono => (append_event cfg r e now mono s).2
  | GetRunSession r => (get_run_session r s).2
  | ListRunSessions limit => (list_run_sessions limit s).2
  | ListRunEvents r after => (list_run_events r after s).2
  | LoadRunEvents r => (load_run_events_from_disk r s).2
  | SaveGoal goal => (save_goal goal s).2
  | EnsureDefaultGoal now => (ensure_default_goal now s).2
  | MaterializeVault r force mono => (materialize_vault cfg r force mono s).2
  | VaultWorkerTurn mono => (vault_worker_turn cfg mono s).2
  end.

Definition exec_all (cfg : store_config) (cs : list store_call) (s : store) : store :=
  fold_left (λ s c, exec cfg c s) cs s.

(** A relation that the session file respects holds across any calls. *)
Lemma exec_relation cfg R `{!SessionRelation cfg R} c s : R s (exec cfg c s).
Proof.
  destruct c; cbn [exec].
  - unfold create_run_session.
    assert (sm_keeps R (_ ← save_run_session cfg (rs_to_dict (run_session_new now stamp hex goal_id scenario_key
      steering_mode auto_mode pause_points evaluation_mode orchestration_mode artifacts)) mono;
      mret (rs_to_dict (run_session_new now stamp hex goal_id scenario_key
      steering_mode auto_mode pause_points evaluation_mode orchestration_mode artifacts)))) as H; [|apply H].
    apply keeps_bind; [apply _|by apply keeps_save|intros ?; apply keeps_ret; apply _].
  - by apply (keeps_save cfg).
  - by apply (keeps_update_snapshot cfg).
  - by apply (keeps_operator_note cfg).
  - by apply (keeps_approval cfg).
  - by apply (keeps_append_run_event cfg).
  - by apply (keeps_append_locked cfg).
  - by apply (keeps_append_unlocked cfg).
  - by apply (keeps_append_event cfg).
  - by apply (keeps_get_run_session cfg).
  - by apply (keeps_list_sessions cfg).
  - by apply (keeps_list_events cfg).
  - by apply (keeps_load cfg).
  - by apply (keeps_save_goal cfg).
  - by apply (keeps_default_goal cfg).
  - by apply (keeps_materialize cfg).
  - by apply (keeps_worker cfg).
Qed.

Lemma exec_all_relation cfg R `{!SessionRelation cfg R} cs s : R s (exec_all cfg cs s).
Proof.
  revert s. induction cs as [|c cs IH]; intros s; [apply PreOrder_Reflexive|].
  cbn [exec_all fold_left]. transitivity (exec cfg c s); [by apply (exec_relation cfg)|apply IH].
Qed.

(** C21: a run that has ended does not come back.  When every record of the run
    in the session file has a final stage or status and counts at least [c]
    events, this is still so after any calls, whatever sessions they save and
    however appends interleave - unless the record has been moved to the
    archive, where it has ended with at least [c] events. *)
Theorem ended_run_stays_ended cfg r c cs s :
  ended r c s → ended r c (exec_all cfg cs s) ∨ ended_in_archive r c (exec_all cfg cs s).
Proof. apply (exec_all_relation cfg (stays_ended r c)). Qed.

(** C24: the session file never holds more records than configured, and a run
    that was ever in it stays in it or in the archive. *)
Theorem session_file_bounded cfg cs more r :
  let s := exec_all cfg cs empty_store in
  let s' := exec_all cfg more s in
  (length (session_records s') <= run_session_file_max_records cfg)%nat ∧ (known r s → known r s').
Proof.
  cbv zeta. pose proof (exec_all_relation cfg (file_bounded cfg)) as H.
  split; [|by apply H]. apply H, H. change (length (session_records empty_store)) with 0%nat. lia.
Qed.

(** ** Appends that do not overlap *)

(** The calls of the sequential use: a new run has a new identifier; a saved
    session is typed and, unless the file has a record of its run, not behind the
    log; and events are appended by whole calls of [append_run_event], which give
    them their numbers.  Not allowed are the halves of an append, which make
    appends overlap, and [append_event], whose events bring a number and an
    identifier of their own (only [scripts/seed_ui_operator_state.py] calls it). *)
Definition call_allowed (s : store) (c : store_call) : bool :=
  match c with
  | CreateRunSession now stamp hex g k st au pp ev orch ar mono =>
      save_allowed s (rs_to_dict (run_session_new now stamp hex g k st au pp ev orch ar))
  | SaveRunSession session _ => save_allowed s session
  | UpdateSnapshot _ snapshot _ => save_allowed s snapshot
  | AppendLocked _ _ | AppendUnlocked _ _ _ _ | AppendEvent _ _ _ _ => false
  | _ => true
  end.

Fixpoint calls_allowed (cfg : store_config) (s : store) (cs : list store_call) : bool :=
  match cs with
  | [] => true
  | c :: cs' => call_allowed s c && calls_allowed cfg (exec cfg c s) cs'
  end.

Lemma empty_store_ok : store_ok empty_store.
Proof.
  split.
  - split; [by exists []|constructor|constructor].
  - intros r. exists []. by repeat split; try constructor.
  - intros r es _ v n Hv. by apply elem_of_nil in Hv.
Qed.

(** Saving a typed session of a run the file has keeps the invariant. *)
Lemma save_existing_ok cfg s r session mono w :
  store_ok s → session_typed session = true → dgetN "run_id" session = VStr r →
  w ∈ session_records s → is_run r w = true → store_ok (save_run_session cfg session mono s).2.
Proof.
  intros Hok Ht Hr Hw Hrun. destruct Hok as [Hs Hl Hc]. destruct (Hl r) as (es & Hes & _).
  apply (save_cursors_ok cfg s session r es); auto. right. split; [auto|].
  apply existsb_exists. exists w. split; [by apply list_elem_of_In|done].
Qed.

Lemma operator_note_ok cfg s r note now mono :
  store_ok s → store_ok (record_operator_note cfg r note now mono s).2.
Proof.
  intros Hok. destruct (get_run_session_ok s r) as (found & Hget & Hfound); [by destruct Hok|].
  unfold record_operator_note, mbind, sm_bind. rewrite Hget. destruct found as [d|]; [|done].
  destruct Hfound as (Hd & Hr & w & Hw & Hwd).
  pose proof (session_typed_getN d "operator_notes" is_strs eq_refl Hd) as Hnotes.
  destruct (dgetN "operator_notes" d) as [| | | | |l|] eqn:En; try done.
  unfold lift. cbn [py_append]. set (sd := dset "updated_at" _ _).
  enough (store_ok (save_run_session cfg sd mono s).2) as H by (by destruct (save_run_session cfg sd mono s) as [[?|?] ?]).
  apply (save_existing_ok cfg s r sd mono (VDict w)); [done| | |done|].
  - subst sd. apply session_typed_set with is_str; [done..|]. apply session_typed_set with is_strs; [done| |done].
    cbn [is_strs] in *. by rewrite forallb_app, Hnotes.
  - subst sd. by simp_rec.
  - unfold is_run, dgetN in *. rewrite <- Hwd, Hr. apply is_string_refl.
Qed.

Lemma approval_ok cfg s r approval now mono :
  store_ok s → store_ok (record_approval cfg r approval now mono s).2.
Proof.
  intros Hok. destruct (get_run_session_ok s r) as (found & Hget & Hfound); [by destruct Hok|].
  unfold record_approval, mbind, sm_bind. rewrite Hget. destruct found as [d|]; [|done].
  destruct Hfound as (Hd & Hr & w & Hw & Hwd).
  pose proof (session_typed_getN d "artifacts" is_dict eq_refl Hd) as Hart.
  destruct (dgetN "artifacts" d) as [| | | | | |l] eqn:En; try done.
  unfold lift. cbn [add_approval]. set (sd := dset "updated_at" _ _).
  enough (store_ok (save_run_session cfg sd mono s).2) as H by (by destruct (save_run_session cfg sd mono s) as [[?|?] ?]).
  apply (save_existing_ok cfg s r sd mono (VDict w)); [done| | |done|].
  - subst sd. apply session_typed_set with is_str; [done..|]. by apply session_typed_set with is_dict.
  - subst sd. by simp_rec.
  - unfold is_run, dgetN in *. rewrite <- Hwd, Hr. apply is_string_refl.
Qed.

Lemma save_allowed_get s d d' :
  session_typed d' = true → (∀ k, dget k d' = dget k d) → save_allowed s d = true → save_allowed s d' = true.
Proof.
  intros Ht Hget H. unfold save_allowed in *. apply andb_true_iff in H as [_ H]. rewrite Ht. cbn [andb].
  unfold event_cursor, dgetN in *. by rewrite !Hget.
Qed.

Lemma update_snapshot_ok cfg s r snapshot mono :
  store_ok s → save_allowed s snapshot = true → store_ok (update_snapshot cfg r snapshot mono s).2.
Proof.
  intros Hok Ha. assert (session_typed snapshot = true) as Ht by (by apply andb_true_iff in Ha as [? _]).
  destruct (session_init_typed _ Ht) as (d & Hd & Htd & Hget).
  unfold update_snapshot, mbind, sm_bind, lift. rewrite Hd. destruct (negb _); [done|].
  apply save_allowed_ok; [done|]. by apply (save_allowed_get s snapshot).
Qed.

Lemma list_sessions_ok limit s : store_ok s → store_ok (list_run_sessions limit s).2.
Proof.
  intros Hok. pose proof Hok as [[(d & Hd & Hl) _ _] _ _]. unfold list_run_sessions. destruct (f_text _); [|done].
  unfold mbind at 1, sm_bind at 1. rewrite (in_sessions_reads _ s d (Ok (dict_items (items_of "runs" d))) Hd).
  - done.
  - cbv beta. by rewrite (list_default_iter _ _ _ Hl).
Qed.

Lemma list_events_ok r after : sm_keeps (preserves store_ok) (list_run_events r after).
Proof.
  intros s Hok. unfold list_run_events. destruct Hok as [Hs Hl Hc] eqn:E. destruct (Hl r) as (es & He & _).
  unfold mbind, sm_bind. rewrite (load_ok _ _ _ He). clear E.
  assert (store_ok (set_cache (<[r:=last_n EVENT_CACHE_SIZE es]> (st_cache s)) s)) as Hfill.
  { split; [by apply (sessions_ok_frame s)|by apply fill_logs_ok|done]. }
  repeat case_match; try done.
Qed.

Lemma exec_ok cfg c s : store_ok s → call_allowed s c = true → store_ok (exec cfg c s).
Proof.
  intros Hok Ha. destruct c; cbn [exec call_allowed] in *; try done.
  - unfold create_run_session, mbind, sm_bind.
    pose proof (save_allowed_ok cfg s _ mono Hok Ha) as H. by destruct (save_run_session cfg _ mono s) as [[?|?] ?].
  - by apply save_allowed_ok.
  - by apply update_snapshot_ok.
  - by apply operator_note_ok.
  - by apply approval_ok.
  - destruct (st_logs_ok _ Hok run_id) as (es & Hes).
    by destruct (append_run_event_ok cfg s run_id es a Hok Hes) as (n & _ & _ & H & _).
  - by apply keeps_get_ok.
  - by apply list_sessions_ok.
  - by apply list_events_ok.
  - by apply keeps_load_ok.
  - assert (sm_keeps (preserves store_ok) (save_goal goal)) as H; [|by apply H]. unfold save_goal. keeps_ok_step.
  - assert (sm_keeps (preserves store_ok) (ensure_default_goal now)) as H; [|by apply H].
    unfold ensure_default_goal, save_goal. keeps_ok_step.
  - by apply keeps_materialize_ok.
  - unfold vault_worker_turn. destruct (st_queue s) as [|[run_id|] rest]; [done| |by apply (same_runs_ok s)].
    cbn [snd]. apply keeps_materialize_ok. by apply (same_runs_ok s).
Qed.

Lemma exec_all_ok cfg cs s : store_ok s → calls_allowed cfg s cs = true → store_ok (exec_all cfg cs s).
Proof.
  revert s. induction cs as [|c cs IH]; intros s Hok Ha; [done|]. cbn [calls_allowed] in Ha.
  apply andb_true_iff in Ha as [H1 H2]. cbn [exec_all fold_left]. apply IH; [by apply exec_ok|done].
Qed.

(** C22: from an empty store, as long as events are only appended by
    [append_run_event], one call after the other - not by [append_event] with
    numbers of their own - and sessions are only saved or created when they are
    typed and, for a run the session file has no record of, not behind the log: the
    events of a run are numbered in strictly increasing order, a stored session of
    the run counts all of them, and the next [append_run_event] adds exactly one
    event, at the end and with a larger number.  What happens otherwise is shown by
    [overlapping_appends_collide] and [own_numbers_repeat]. *)
Theorem event_sequences_increase cfg cs :
  calls_allowed cfg empty_store cs = true →
  let s := exec_all cfg cs empty_store in
  ∀ r, ∃ es, stored_events s r = Ok es
    ∧ StronglySorted Z.lt (map ev_sequence es)
    ∧ (∀ v n, v ∈ session_records s → is_run r v = true → cursor_of v = VInt n → Forall (λ e, ev_sequence e <= n) es)
    ∧ ∀ a, ∃ n, Forall (λ e, ev_sequence e < n) es
        ∧ stored_events (exec cfg (AppendRunEvent r a) s) r = Ok (es ++ [ev_read_back (new_event r n a)]).
Proof.
  intros Ha. cbv zeta. intros r. pose proof (exec_all_ok cfg cs _ empty_store_ok Ha) as Hok.
  destruct (st_logs_ok _ Hok r) as (es & Hes). exists es. pose proof Hes as (He & Hinc & _).
  split; [done|]. split; [done|]. split; [by apply (st_cursors_ok _ Hok)|]. intros a.
  destruct (append_run_event_ok cfg _ r es a Hok Hes) as (n & _ & Hn & _ & Happ & _). by exists n.
Qed.

(** Under the same calls the event cache is invisible: listing the events of
    a run after any number gives what the files hold, in order, up to the order
    of keys inside payloads. *)
Theorem cached_events_agree cfg cs :
  calls_allowed cfg empty_store cs = true →
  let s := exec_all cfg cs empty_store in
  ∀ r after, ∃ es out s',
    stored_events s r = Ok es ∧ list_run_events r after s = (Ok out, s')
    ∧ map ev_read_back out = map ev_read_back (events_after after es).
Proof.
  intros Ha. cbv zeta. intros r after. set (s := exec_all cfg cs empty_store).
  assert (store_ok s) as Hok by (by apply exec_all_ok, Ha; apply empty_store_ok).
  destruct (st_logs_ok _ Hok r) as (es & He & Hinc & _ & Hca). exists es.
  unfold list_run_events, mbind, sm_bind. rewrite (load_ok _ _ _ He). unfold cache_ok in Hca.
  destruct (st_cache s !! r) as [tail|] eqn:Et; [|by eexists _, _].
  destruct (cache_covers_after tail after) eqn:Ecov; [|by eexists _, _].
  eexists _, _. split; [done|]. split; [done|]. destruct Hca as [(pre & Hpre) Hnil].
  destruct tail as [|e tail]; [by rewrite Hnil|].
  change (read_back (events_after after (e :: tail)) = read_back (events_after after es)).
  rewrite !events_after_read_back, <- Hpre, <- !events_after_read_back, events_after_app.
  rewrite (events_after_none after pre); [done|]. cbn [cache_covers_after] in Ecov. apply Z.leb_le in Ecov.
  pose proof (increasing_sorted _ (increasing_read_back _ _ (eq_sym Hpre) Hinc) pre e tail eq_refl) as Hlt.
  eapply Forall_impl; [exact Hlt|]. cbn. lia.
Qed.

(** ** Appends that overlap *)

Lemma get_run_session_frame s s' r out :
  st_sessions s' = st_sessions s → get_run_session r s = (out, s) → get_run_session r s' = (out, s').
Proof.
  unfold get_run_session, in_sessions. intros Hs. rewrite Hs. destruct (f_text _); [|by intros [= <-]].
  destruct (locked_json _ _ _ _) as [out' f]. intros [= <- Hf]. apply (f_equal st_sessions) in Hf. cbn in Hf.
  subst f. by rewrite <- Hs, store_eta_sessions.
Qed.

Lemma append_locked_recorded s r session c a :
  get_run_session r s = (Ok (Some session), s) → dgetN "latest_event_sequence" session = VInt c → c ≠ 0 →
  append_locked r a s = (Ok (new_event r (c + 1) a), with_line r (ev_read_back (new_event r (c + 1) a)) s).
Proof.
  intros Hget Hc Hnz. unfold append_locked, next_event_sequence, mbind, sm_bind. rewrite Hget, Hc. cbv zeta.
  assert (truthy (VInt c) = true) as -> by (cbn; by apply negb_true_iff, Z.eqb_neq). done.
Qed.

Lemma event_id_hex n h h' : event_id n h = event_id n h' → h = h'.
Proof.
  unfold event_id. intros H. apply (f_equal str_chars) in H. rewrite !str_chars_app in H.
  do 3 apply app_inv_head in H. rewrite <- (chars_str_chars h), <- (chars_str_chars h'). by rewrite H.
Qed.

(** Numbering is not safe across threads.  Once a session has a cursor, two
    appends to its run that both hold the lock before either moves the cursor
    write two events with one number: a subscriber that has read the first and
    asks for what follows it is never given the second. *)
Theorem overlapping_appends_collide s r session c a b :
  store_ok s → get_run_session r s = (Ok (Some session), s) →
  dgetN "latest_event_sequence" session = VInt c → c ≠ 0 → ea_hex a ≠ ea_hex b →
  let e1 := new_event r (c + 1) a in
  let e2 := new_event r (c + 1) b in
  ∃ s1 s2 es, append_locked r a s = (Ok e1, s1) ∧ append_locked r b s1 = (Ok e2, s2)
    ∧ stored_events s2 r = Ok es ∧ ev_read_back e1 ∈ es ∧ ev_read_back e2 ∈ es ∧ events_after (c + 1) es = [].
Proof.
  intros Hok Hget Hc Hnz Hhex. cbv zeta. destruct (st_logs_ok _ Hok r) as (es & He & Hinc & Hnum & _).
  destruct (recorded_cursor s r es Hok He) as (found & Hget' & Htrue & _). rewrite Hget in Hget'. injection Hget' as <-.
  rewrite Hc in Htrue. destruct Htrue as (m & [= <-] & Hpos & Hall); [cbn; by apply negb_true_iff, Z.eqb_neq|].
  set (e1 := new_event r (c + 1) a). set (e2 := new_event r (c + 1) b).
  set (s1 := with_line r (ev_read_back e1) s). set (s2 := with_line r (ev_read_back e2) s1).
  exists s1, s2, ((es ++ [ev_read_back e1]) ++ [ev_read_back e2]).
  split; [by apply append_locked_recorded with session|].
  split; [apply append_locked_recorded with session; [by apply (get_run_session_frame s)|done..]|].
  assert (∀ e x, ev_event_id e = event_id (c + 1) (ea_hex x) → ∀ y, y ∈ es → ev_event_id y ≠ ev_event_id e ∧ ev_sequence y <= c + 1) as Hnew.
  { intros e x -> y Hy. rewrite Forall_forall in Hall. specialize (Hall _ Hy). split; [|lia].
    unfold numbered in Hnum. rewrite Forall_forall in Hnum. destruct (Hnum _ Hy) as (Hy0 & hex & ->).
    intros Heq. apply event_id_inj in Heq; lia. }
  assert (stored_events s1 r = Ok (es ++ [ev_read_back e1])) as H1.
  { apply stored_events_append; [done|]. intros y Hy. by apply (Hnew (ev_read_back e1) a). }
  split.
  { apply stored_events_append; [done|]. intros y Hy. apply elem_of_app in Hy as [Hy|Hy]; [by apply (Hnew (ev_read_back e2) b)|].
    apply list_elem_of_singleton in Hy as ->. split; [|done]. intros Heq. by apply event_id_hex in Heq. }
  split; [set_solver|]. split; [set_solver|]. apply events_after_none. repeat (apply Forall_app; split).
  - eapply Forall_impl; [exact Hall|]. cbn. lia.
  - by repeat constructor.
  - by repeat constructor.
Qed.

(** * The control-plane store at work

    A run from its creation to its end, at which the guarantees apply, and the
    places where the listings of the file store are not what a caller
    expects. *)

(** The value of a result, or the default. *)
Definition ok_or {A} (x : A) (r : res A) : A := match r with Ok a => a | Err _ => x end.

Definition demo_store_config : store_config := StoreConfig "sync" 100 (f_of_Z 30).

Definition demo_create (now hex : string) : store_call :=
  CreateRunSession now "20250101T000000" hex (Some "goal_default") None "manual" false ["execution"] "mesh" "mesh"
    [("input_signal", VDict [("service", VStr "checkout")])] (f_of_Z 0).

Definition demo_run : string := "run_20250101T000000_aa".

Definition demo_event (event_type hex : string) : event_args :=
  EventArgs "decision" event_type [("zeta", VInt 1); ("alpha", VStr "x")] None None None (Some "recorded")
    hex "2025-01-01T00:00:01+00:00" "2025-01-01T00:00:02+00:00" (f_of_Z 1).

Definition demo_session (stage : string) (cursor : Z) : dict :=
  [("run_id", VStr demo_run); ("created_at", VStr "2025-01-01T00:00:00+00:00");
   ("updated_at", VStr "2025-01-01T00:00:03+00:00"); ("goal_id", VNone); ("scenario_key", VNone);
   ("stage", VStr stage); ("status", VStr stage); ("steering_mode", VStr "manual"); ("auto_mode", VBool false);
   ("pause_points", VList []); ("pending_pause_stage", VNone); ("evaluation_mode", VStr "mesh");
   ("orchestration_mode", VStr "mesh"); ("latest_event_id", VNone); ("latest_event_sequence", VInt cursor);
   ("latest_merkle_root", VNone); ("operator_notes", VList []); ("artifacts", VDict []); ("error", VNone)].

Definition demo_store_calls : list store_call :=
  [EnsureDefaultGoal "2025-01-01T00:00:00+00:00";
   demo_create "2025-01-01T00:00:00+00:00" "aa";
   AppendRunEvent demo_run (demo_event "decision_ready" "0001");
   RecordOperatorNote demo_run "look at the flag" "2025-01-01T00:00:02+00:00" (f_of_Z 2);
   AppendRunEvent demo_run (demo_event "evaluation_ready" "0002");
   ListRunEvents demo_run 1;
   SaveRunSession (demo_session "completed" 1) (f_of_Z 40)].

Definition demo_store : store := exec_all demo_store_config demo_store_calls empty_store.

Lemma demo_calls_allowed : calls_allowed demo_store_config empty_store demo_store_calls = true.
Proof. vm_compute. reflexivity. Qed.

Lemma demo_store_ok : store_ok demo_store.
Proof. apply exec_all_ok; [apply empty_store_ok|apply demo_calls_allowed]. Qed.

Lemma event_sequences_increase_witness :
  ∃ es, stored_events demo_store demo_run = Ok es
    ∧ Sorted.StronglySorted Z.lt (map ev_sequence es)
    ∧ (∀ v n, v ∈ session_records demo_store → is_run demo_run v = true → cursor_of v = VInt n →
         Forall (λ e, ev_sequence e <= n) es)
    ∧ ∀ a, ∃ n, Forall (λ e, ev_sequence e < n) es
        ∧ stored_events (exec demo_store_config (AppendRunEvent demo_run a) demo_store) demo_run
          = Ok (es ++ [ev_read_back (new_event demo_run n a)]).
Proof. apply (event_sequences_increase demo_store_config demo_store_calls). vm_compute. reflexivity. Defined.

(** Two events, numbered from one. *)
Lemma demo_sequences : map ev_sequence (ok_or [] (stored_events demo_store demo_run)) = [1; 2].
Proof. vm_compute. reflexivity. Qed.

Lemma cached_events_agree_witness :
  ∃ es out s', stored_events demo_store demo_run = Ok es ∧ list_run_events demo_run 1 demo_store = (Ok out, s')
    ∧ map ev_read_back out = map ev_read_back (events_after 1 es).
Proof.
  apply (cached_events_agree demo_store_config demo_store_calls). vm_compute. reflexivity.
Defined.

(** The session saved with a stale cursor still counts both events. *)
Definition ended_with_two (v : value) : bool :=
  is_run demo_run v
  && match v with
     | VDict d => ok_or false (stage_or_status_in FINAL_STAGES d) && (ok_or 0 (event_cursor d) =? 2)
     | _ => false
     end.

Lemma ended_with_two_spec v : ended_with_two v = true → is_run demo_run v = true ∧ ended_record 2 v.
Proof.
  unfold ended_with_two. intros [H1 H2]%andb_true_iff. split; [done|]. destruct v as [| | | | | |d]; try done.
  apply andb_true_iff in H2 as [H2 H3]. unfold ended_record.
  destruct (stage_or_status_in FINAL_STAGES d) as [b|]; [|done]. destruct (event_cursor d) as [n|]; [|done].
  cbn [ok_or] in *. apply Z.eqb_eq in H3 as ->. subst b. split; [done|]. exists 2. split; [done|lia].
Qed.

Lemma demo_ended : ended demo_run 2 demo_store.
Proof.
  assert (Hall : forallb ended_with_two (session_records demo_store) = true) by (vm_compute; reflexivity).
  assert (Hlen : length (session_records demo_store) = 1%nat) by (vm_compute; reflexivity).
  revert Hall Hlen. unfold ended. generalize (session_records demo_store). intros [|v [|? ?]] Hall Hlen; try done.
  cbn [forallb] in Hall. rewrite andb_true_r in Hall. apply ended_with_two_spec in Hall as [Hrun He]. split.
  - exists v. split; [left|done].
  - intros w Hw _. by apply list_elem_of_singleton in Hw as ->.
Qed.

(** A stale copy of the running session does not bring the run back. *)
Lemma ended_run_stays_ended_witness :
  let s := exec_all demo_store_config [SaveRunSession (demo_session "running" 0) (f_of_Z 50)] demo_store in
  ended demo_run 2 s ∨ ended_in_archive demo_run 2 s.
Proof. apply ended_run_stays_ended. apply demo_ended. Defined.

Definition demo_stored_session : dict := default [] (ok_or None (get_run_session demo_run demo_store).1).

Lemma overlapping_appends_collide_witness :
  let a := demo_event "approval_recorded" "0003" in
  let b := demo_event "operator_note" "0004" in
  ∃ s1 s2 es, append_locked demo_run a demo_store = (Ok (new_event demo_run 3 a), s1)
    ∧ append_locked demo_run b s1 = (Ok (new_event demo_run 3 b), s2) ∧ stored_events s2 demo_run = Ok es
    ∧ ev_read_back (new_event demo_run 3 a) ∈ es ∧ ev_read_back (new_event demo_run 3 b) ∈ es
    ∧ events_after 3 es = [].
Proof.
  apply (overlapping_appends_collide demo_store demo_run demo_stored_session 2).
  - apply demo_store_ok.
  - vm_compute. reflexivity.
  - vm_compute. reflexivity.
  - done.
  - done.
Defined.

(** An event that brings its own number is stored with it, whatever the run has:
    here a second event with the number 1. *)
Theorem own_numbers_repeat :
  let e := new_event demo_run 1 (demo_event "seeded" "0009") in
  let s := exec_all demo_store_config (demo_store_calls ++ [AppendEvent demo_run e "2025-01-01T00:00:09+00:00" (f_of_Z 60)]) empty_store in
  ∃ es, stored_events s demo_run = Ok es ∧ map ev_sequence es = [1; 1; 2].
Proof. eexists. split; vm_compute; reflexivity. Qed.

(** ** Listings *)

(** [list_runs] takes the newest [limit] sessions first and filters them
    afterwards: with a limit of one, a failed run behind a newer one is not
    found. *)
Definition two_runs : store :=
  exec_all (StoreConfig "off" 100 (f_of_Z 30))
    [SaveRunSession (demo_session "failed" 0) (f_of_Z 0); demo_create "2025-01-02T00:00:00+00:00" "bb"] empty_store.

Lemma list_runs_filters_after_limit :
  (list_runs (RunFilters 1 (Some "failed") None None) two_runs).1 = Ok []
  ∧ length (ok_or [] (list_runs (RunFilters 2 (Some "failed") None None) two_runs).1) = 1%nat.
Proof. split; vm_compute; reflexivity. Qed.

(** Fifty newer runs push the first one out of the session file while it is
    queued.  When it completes later its record goes to the archive behind the
    old one, and the listing keeps the old one; [get_run_session] does not find
    it at all. *)
Definition many_runs : list store_call :=
  SaveRunSession (demo_session "queued" 0) (f_of_Z 0)
  :: map (λ n, demo_create ("2025-02-" +:+ pad_digits 2 (Z.of_nat n) +:+ "T00:00:00+00:00") ("b" +:+ pad_digits 2 (Z.of_nat n)))
       (seq 1 50)
  ++ [SaveRunSession (demo_session "completed" 0) (f_of_Z 0)].

Definition crowded_store : store := exec_all (StoreConfig "off" 0 (f_of_Z 30)) many_runs empty_store.

Lemma archived_run_listed_stale :
  map (dgetN "stage") (List.filter (λ d, is_string demo_run (dgetN "run_id" d))
    (ok_or [] (list_run_sessions 100 crowded_store).1)) = [VStr "queued"]
  ∧ (get_run_session demo_run crowded_store).1 = Ok None.
Proof. split; vm_compute; reflexivity. Qed.
