(* ===== verification/StateRecords.v ===== *)
(** * The control-plane store: benchmarks, learning and memory records

    The rest of [FileStateStore] in
    [src/shared/mesh_runtime/control_plane_state.py]: lists of benchmarks,
    outcomes and artifacts, and the memory records, which are validated
    contracts.  Each list is in a locked file of its own.  What is sent to the
    vault and to the Helix projection is kept in the order it is sent. *)

From S2P Require Import Prelude PyFloat PyValue Json JsonStore SchemaValidation Contracts StateStore StateFacts.
#[local] Open Scope Z_scope.

(** ** Lists in files *)

(** [payload.setdefault(key, \[\]).append(record)] *)
Definition append_section (key : string) (record : dict) (payload : dict) : res (unit * dict) :=
  records ← py_append (dget_or key (VList []) payload) (VDict record);
  Ok ((), dset key records payload).

(** The same with the first record of the identifier replaced, when there is
    one. *)
Definition upsert_section (key id_key : string) (id : value) (record : dict) (payload : dict) : res (unit * dict) :=
  records ← list_default key payload;
  found ← replace_record id_key id (λ _, Ok record) records;
  Ok ((), dset key (VList (match found with Some (_, records') => records' | None => records ++ [VDict record] end))
            payload).

(** [list(payload.get(key, \[\]))] *)
Definition list_section (key : string) (payload : dict) : res (list value * dict) :=
  records ← py_iter (dget_or key (VList []) payload);
  Ok (records, payload).

(** [record.get(key)] of every record the loop visits until one matches. *)
Fixpoint first_with (key : string) (id : value) (records : list value) : res (option dict) :=
  match records with
  | [] => Ok None
  | VDict record :: rest => if py_eq (dgetN key record) id then Ok (Some record) else first_with key id rest
  | v :: _ => raise AttributeError (repr_str (type_name v) +:+ " object has no attribute 'get'")
  end.

(** [\[r for r in records if p(r)\]] for a test that starts with [r.get]. *)
Fixpoint select (p : dict → res bool) (records : list value) : res (list dict) :=
  match records with
  | [] => Ok []
  | VDict record :: rest => keep ← p record; out ← select p rest; Ok (if (keep : bool) then record :: out else out)
  | v :: _ => raise AttributeError (repr_str (type_name v) +:+ " object has no attribute 'get'")
  end.

(** ** Benchmarks *)

Definition BENCHMARKS_KEPT : nat := 1000.

Definition record_benchmark (f : file) (record : dict) : res unit * file :=
  locked_json true "benchmarks/records.json" f (λ payload,
    match dget_or "benchmarks" (VList []) payload with
    | VList rows => Ok ((), dset "benchmarks" (VList (take BENCHMARKS_KEPT (VDict record :: rows))) payload)
    | v => raise AttributeError (repr_str (type_name v) +:+ " object has no attribute 'insert'")
    end).

Definition list_benchmarks (f : file) (limit : Z) : res (list dict) * file :=
  match f_text f with
  | None => (Ok [], f)
  | Some _ =>
      locked_json true "benchmarks/records.json" f (λ payload,
        match dget_or "benchmarks" (VList []) payload with
        | VList rows => Ok (dict_items (slice_to limit rows), payload)
        | VStr _ => Ok ([], payload)
        | v => raise TypeError (repr_str (type_name v) +:+ " object is not subscriptable")
        end)
  end.

Definition get_benchmark (f : file) (benchmark_id : string) : res (option dict) * file :=
  let '(records, f1) := list_benchmarks f 1000 in
  (records ← records; Ok (List.find (λ r, is_string benchmark_id (dgetN "benchmark_id" r)) records), f1).

(** ** Learning outcomes and artifacts *)

Definition OUTCOMES_KEPT : nat := 500.

Definition record_learning_outcome (f : file) (outcome : dict) (now : string) : res unit * file :=
  let record := (dsetdefault "recorded_at" (VStr now) outcome).2 in
  locked_json true "learning/outcomes.json" f (λ payload,
    match dget_or "outcomes" (VList []) payload with
    | VList records =>
        let records := records ++ [VDict record] in
        Ok ((), dset "outcomes" (VList (if (OUTCOMES_KEPT <? length records)%nat then last_n OUTCOMES_KEPT records else records))
                  payload)
    | v => raise AttributeError (repr_str (type_name v) +:+ " object has no attribute 'append'")
    end).

(** [_load_learning_outcomes] *)
Definition load_learning_outcomes (f : file) : res (list value) * file :=
  match f_text f with
  | None => (Ok [], f)
  | Some _ =>
      match locked_json true "learning/outcomes.json" f (list_section "outcomes") with
      | (Err e, f1) => (if isinstance_exc (exc_cls e) ValueError then Ok [] else Err e, f1)
      | out => out
      end
  end.

Definition put_artifact (f : file) (artifact : dict) : res unit * file :=
  locked_json true "artifacts.json" f (append_section "artifacts" artifact).

(** ** Memory records *)

(** Where a record goes besides its file. *)
Inductive projection := ToVault (what : string) (record : dict) | ToHelix (what : string) (record : dict).

Record memory_store := MemoryStore {
  me_observations : file; me_claims : file; me_relationships : file;
  me_supersessions : file; me_retrievals : file; me_packets : file;
  me_sent : list projection }.

Definition empty_memory : memory_store := MemoryStore no_file no_file no_file no_file no_file no_file [].

Definition set_observations (f : file) (sent : list projection) (m : memory_store) : memory_store :=
  MemoryStore f (me_claims m) (me_relationships m) (me_supersessions m) (me_retrievals m) (me_packets m) sent.
Definition set_claims (f : file) (sent : list projection) (m : memory_store) : memory_store :=
  MemoryStore (me_observations m) f (me_relationships m) (me_supersessions m) (me_retrievals m) (me_packets m) sent.
Definition set_relationships (f : file) (sent : list projection) (m : memory_store) : memory_store :=
  MemoryStore (me_observations m) (me_claims m) f (me_supersessions m) (me_retrievals m) (me_packets m) sent.
Definition set_supersessions (f : file) (sent : list projection) (m : memory_store) : memory_store :=
  MemoryStore (me_observations m) (me_claims m) (me_relationships m) f (me_retrievals m) (me_packets m) sent.
Definition set_retrievals (f : file) (sent : list projection) (m : memory_store) : memory_store :=
  MemoryStore (me_observations m) (me_claims m) (me_relationships m) (me_supersessions m) f (me_packets m) sent.
Definition set_packets (f : file) (sent : list projection) (m : memory_store) : memory_store :=
  MemoryStore (me_observations m) (me_claims m) (me_relationships m) (me_supersessions m) (me_retrievals m) f sent.

(** [C.from_dict(record)] and the [to_dict()] of the result. *)
Definition contract_payload (c : contract_class) (record : dict) : res dict :=
  x ← from_dict c record; to_dict c x.

(** Writes a record in its file; the record is sent on when that succeeds. *)
Definition store_record (path : string) (read : memory_store → file)
    (write : file → list projection → memory_store → memory_store) (sends : dict → list projection)
    (body : dict → dict → res (unit * dict)) (payload : res dict) (m : memory_store) : res dict * memory_store :=
  match payload with
  | Err e => (Err e, m)
  | Ok record =>
      match locked_json true path (read m) (body record) with
      | (Err e, f) => (Err e, write f (me_sent m) m)
      | (Ok _, f) => (Ok record, write f (me_sent m ++ sends record) m)
      end
  end.

Definition append_observation (record : dict) : memory_store → res dict * memory_store :=
  store_record "memory/observations.json" me_observations set_observations
    (λ r, [ToVault "observation" r; ToHelix "observation" r]) (append_section "observations")
    (contract_payload ObservationRecord record).

Definition save_claim (record : dict) : memory_store → res dict * memory_store :=
  store_record "memory/claims.json" me_claims set_claims
    (λ r, [ToVault "claim" r; ToHelix "claim" r])
    (λ r, upsert_section "claims" "claim_id" (dgetN "claim_id" r) r) (contract_payload ClaimRecord record).

Definition save_relationship (record : dict) : memory_store → res dict * memory_store :=
  store_record "memory/relationships.json" me_relationships set_relationships
    (λ r, [ToHelix "relationship" r])
    (λ r, upsert_section "relationships" "relationship_id" (dgetN "relationship_id" r) r)
    (contract_payload RelationshipRecord record).

Definition record_memory_retrieval (record : dict) : memory_store → res dict * memory_store :=
  store_record "memory/retrievals.json" me_retrievals set_retrievals
    (λ r, [ToVault "retrieval" r; ToHelix "retrieval" r]) (append_section "retrievals")
    (contract_payload RetrievalRecord record).

Definition save_memory_packet (packet : dict) : memory_store → res dict * memory_store :=
  store_record "memory/packets.json" me_packets set_packets
    (λ r, [ToHelix "packet" r])
    (λ r, upsert_section "packets" "packet_id" (dgetN "packet_id" r) r) (contract_payload MemoryPacket packet).

Definition get_memory_packet (packet_id : string) (m : memory_store) : res (option dict) * memory_store :=
  let '(r, f) := locked_json true "memory/packets.json" (me_packets m) (λ payload,
    records ← py_iter (dget_or "packets" (VList []) payload);
    found ← first_with "packet_id" (VStr packet_id) records;
    Ok (found, payload)) in
  (r, set_packets f (me_sent m) m).

(** ** Scopes and filters *)

(** [_scope_matches]: [candidate.get] is called for the keys the scope sets. *)
Fixpoint scope_matches (candidate : value) (scope : dict) : res bool :=
  match scope with
  | [] => Ok true
  | (key, v) :: rest =>
      if is_none v then scope_matches candidate rest
      else
        candidate_value ← py_get candidate key;
        if negb (is_none candidate_value) && negb (py_eq candidate_value v) then Ok false
        else scope_matches candidate rest
  end.

(** [key in filters and filters\[key\] is not None and record.get(key) != filters\[key\]] *)
Definition filtered_out (key : string) (record filters : dict) : bool :=
  negb (is_none (dgetN key filters)) && negb (py_eq (dgetN key record) (dgetN key filters)).

Definition observation_matches (record filters : dict) : bool :=
  negb (existsb (λ key, filtered_out key record filters) ["service"; "run_id"; "kind"]).

Definition claim_matches (record filters : dict) : bool :=
  negb (existsb (λ key, filtered_out key record filters) ["tier"; "state"]).

(** [x in v] *)
Definition value_in (x v : value) : res bool :=
  match v with
  | VList l => Ok (existsb (λ y, py_eq y x) l)
  | VStr s => match x with
              | VStr t => Ok (str_contains t s)
              | _ => raise TypeError "'in <string>' requires string as left operand"
              end
  | VDict d => match x with
               | VStr t => Ok (dhas t d)
               | VList _ | VDict _ => raise TypeError ("unhashable type: " +:+ repr_str (type_name x))
               | _ => Ok false
               end
  | _ => raise TypeError ("argument of type " +:+ repr_str (type_name v) +:+ " is not iterable")
  end.

Definition claim_scope_matches (record scope : dict) : res bool :=
  match scope with
  | [] => Ok true
  | _ =>
      in_scope ← (match dgetN "scope" record with
                  | VDict candidate_scope => scope_matches (VDict candidate_scope) scope
                  | _ => Ok false
                  end);
      if (in_scope : bool) then Ok true
      else match dgetN "service" scope with
           | VNone => Ok true
           | service => value_in service (dget_or "entity_refs" (VList []) record)
           end
  end.

(** [_relationship_matches]; [None] and the empty list both mean no filter. *)
Definition relationship_matches (node_ids relationship_types : option (list string)) (record : dict) : res bool :=
  let types := default [] relationship_types in
  let nodes := default [] node_ids in
  if negb (match types with [] => true | _ => false end) && negb (str_in (dgetN "type" record) types) then Ok false
  else match nodes with
       | [] => Ok true
       | _ =>
           from ← in_str_set (dgetN "from_id" record) nodes;
           if (from : bool) then Ok true else in_str_set (dgetN "to_id" record) nodes
       end.

(** [int(filters.get("limit", len(matches)))] *)
Definition filter_limit (filters : dict) (matches : list dict) : res Z :=
  py_int (dget_or "limit" (VInt (Z.of_nat (length matches))) filters).

Definition list_observations (scope filters : dict) (m : memory_store) : res (list dict) * memory_store :=
  let '(records, f) := locked_json true "memory/observations.json" (me_observations m) (list_section "observations") in
  (records ← records;
   found ← select (λ r, in_scope ← (match scope with [] => Ok true
                                    | _ => scope_matches (dget_or "scope" (VDict []) r) scope end);
                        Ok (in_scope && observation_matches r filters)) records;
   limit ← filter_limit filters found;
   Ok (slice_to limit found),
   set_observations f (me_sent m) m).

Definition list_claims (scope filters : dict) (m : memory_store) : res (list dict) * memory_store :=
  let '(records, f) := locked_json true "memory/claims.json" (me_claims m) (list_section "claims") in
  (records ← records;
   found ← select (λ r, in_scope ← claim_scope_matches r scope; Ok (in_scope && claim_matches r filters)) records;
   sorted ← sort_records "updated_at" (VStr "") (map VDict found);
   limit ← filter_limit filters found;
   Ok (slice_to limit (dict_items sorted)),
   set_claims f (me_sent m) m).

Definition get_claim (claim_id : string) (m : memory_store) : res (option dict) * memory_store :=
  let '(claims, m1) := list_claims [] [("limit", VInt 1000)] m in
  (claims ← claims; Ok (List.find (λ r, is_string claim_id (dgetN "claim_id" r)) claims), m1).

Definition list_relationships (node_ids relationship_types : option (list string)) (m : memory_store)
    : res (list dict) * memory_store :=
  let '(records, f) := locked_json true "memory/relationships.json" (me_relationships m) (list_section "relationships") in
  (records ← records; select (relationship_matches node_ids relationship_types) records,
   set_relationships f (me_sent m) m).

(** [save_supersession]; the contract has been validated, so its identifiers
    are strings. *)
Definition save_supersession (record : dict) (m : memory_store) : res dict * memory_store :=
  match contract_payload SupersessionRecord record with
  | Err e => (Err e, m)
  | Ok supersession =>
      match locked_json true "memory/supersessions.json" (me_supersessions m) (append_section "supersessions" supersession) with
      | (Err e, f) => (Err e, set_supersessions f (me_sent m) m)
      | (Ok _, f) =>
          let m := set_supersessions f (me_sent m) m in
          let '(old, m) := get_claim (py_str (dgetN "old_claim_id" supersession)) m in
          let '(saved, m) :=
            match old with
            | Err e => (Err e, m)
            | Ok None => (Ok (), m)
            | Ok (Some claim) =>
                let '(r, m) := save_claim (dset "updated_at" (dgetN "created_at" supersession)
                                 (dset "superseded_by" (dgetN "new_claim_id" supersession)
                                   (dset "state" (VStr "superseded") claim))) m in
                (_ ← r; Ok (), m)
            end in
          match saved with
          | Err e => (Err e, m)
          | Ok _ => (Ok supersession,
                     MemoryStore (me_observations m) (me_claims m) (me_relationships m) (me_supersessions m)
                       (me_retrievals m) (me_packets m) (me_sent m ++ [ToHelix "supersession" supersession]))
          end
      end
  end.
