(* ===== verification/LearningLogic.v ===== *)
(** * Learning from past outcomes

    [src/shared/mesh_runtime/learning_logic.py], which both state stores use:
    counts of similar cases, success rates and recovery patterns over the
    recorded outcomes. *)

From S2P Require Import Prelude PyFloat PyValue PyNumbers DateTime.
#[local] Open Scope Z_scope.

(** [parse_timestamp] of a value of any type. *)
Definition parse_timestamp (raw : value) : option datetime :=
  match raw with
  | VStr "" => None
  | VStr s =>
      parsed ← fromisoformat s;
      Some (match dt_off parsed with None => DT (dt_local parsed) (Some 0) | Some _ => parsed end)
  | _ => None
  end.

Definition day_seconds : Z := 86400.

(** [record.get(key) not in (None, x)] *)
Definition other_than (key : string) (x : option string) (record : dict) : bool :=
  match x with
  | None => false
  | Some x => negb (is_none (dgetN key record) || is_string x (dgetN key record))
  end.

Definition ROLLBACK_DECISIONS : list string := ["rollback_deployment"; "reduce_rollout"; "disable_flag"].

Record learning_counts := Counts { lc_similar : Z; lc_rollbacks : Z; lc_regressions : Z }.

(** What one record adds to the counts. *)
Definition count_record (service : string) (endpoint flag_key : option string) (cutoff_24h cutoff_7d : datetime)
    (record : dict) (c : learning_counts) : res learning_counts :=
  if negb (is_string service (dgetN "service" record)) || other_than "endpoint" endpoint record
     || other_than "flag_key" flag_key record then Ok c
  else match parse_timestamp (dget_or "recorded_at" (VStr "") record) with
       | None => Ok c
       | Some recorded_at =>
           last_day ← dt_leb cutoff_24h recorded_at;
           last_week ← dt_leb cutoff_7d recorded_at;
           Ok {| lc_similar := lc_similar c + 1;
                 lc_rollbacks := lc_rollbacks c
                   + Z.b2z ((last_day : bool) && str_in (dgetN "decision_type" record) ROLLBACK_DECISIONS);
                 lc_regressions := lc_regressions c
                   + Z.b2z ((last_week : bool) && negb (is_string "successful" (dgetN "outcome" record))) |}
       end.

Fixpoint count_records (service : string) (endpoint flag_key : option string) (cutoff_24h cutoff_7d : datetime)
    (outcomes : list value) (c : learning_counts) : res learning_counts :=
  match outcomes with
  | [] => Ok c
  | VDict record :: rest =>
      c' ← count_record service endpoint flag_key cutoff_24h cutoff_7d record c;
      count_records service endpoint flag_key cutoff_24h cutoff_7d rest c'
  | v :: _ => raise AttributeError (repr_str (type_name v) +:+ " object has no attribute 'get'")
  end.

Definition counts_dict (c : learning_counts) : dict :=
  [("similar_prior_cases", VInt (lc_similar c)); ("rollbacks_last_24h", VInt (lc_rollbacks c));
   ("regressions_last_7d", VInt (lc_regressions c))].

(** [learning_context_from_outcomes]; [now] is the clock reading, in UTC. *)
Definition learning_context_from_outcomes (now : datetime) (outcomes : list value) (service : string)
    (endpoint flag_key : option string) : res dict :=
  match outcomes with
  | [] => Ok (counts_dict (Counts 0 0 0))
  | _ =>
      cutoff_24h ← add_seconds now (- day_seconds);
      cutoff_7d ← add_seconds now (- (7 * day_seconds));
      c ← count_records service endpoint flag_key cutoff_24h cutoff_7d outcomes (Counts 0 0 0);
      Ok (counts_dict c)
  end.

(** The counters of [historical_success_rate]. *)
Fixpoint count_successes (decision_type : string) (service : option string) (outcomes : list value) (total successful : Z)
    : res (Z * Z) :=
  match outcomes with
  | [] => Ok (total, successful)
  | VDict record :: rest =>
      if negb (is_string decision_type (dgetN "decision_type" record))
         || match service with Some s => negb (is_string s (dgetN "service" record)) | None => false end
      then count_successes decision_type service rest total successful
      else count_successes decision_type service rest (total + 1)
             (successful + Z.b2z (is_string "successful" (dgetN "outcome" record)))
  | v :: _ => raise AttributeError (repr_str (type_name v) +:+ " object has no attribute 'get'")
  end.

Definition historical_success_rate (outcomes : list value) (decision_type : string) (service : option string)
    : res (option float) :=
  counts ← count_successes decision_type service outcomes 0 0;
  let '(total, successful) := (counts : Z * Z) in
  if total =? 0 then Ok None
  else Ok (Some (f_round (int_truediv successful (Z.to_pos total)) 3)).

(** [patterns\[pattern\] = patterns.get(pattern, 0) + 1] for a hashable
    pattern. *)
Fixpoint bump_pattern (pattern : value) (patterns : list (value * Z)) : list (value * Z) :=
  match patterns with
  | [] => [(pattern, 1)]
  | (p, n) :: rest => if py_eq p pattern then (p, n + 1) :: rest else (p, n) :: bump_pattern pattern rest
  end.

Definition hashable (v : value) : bool := match v with VList _ | VDict _ => false | _ => true end.

Fixpoint recovery_patterns_go (service : option string) (outcomes : list value) (patterns : list (value * Z))
    : res (list (value * Z)) :=
  match outcomes with
  | [] => Ok patterns
  | VDict record :: rest =>
      if match service with Some s => negb (is_string s (dgetN "service" record)) | None => false end
      then recovery_patterns_go service rest patterns
      else
        let updates := dget_or "world_model_updates" (VDict []) record in
        of_service ← py_get updates "service_recovery_pattern";
        pattern ← (if truthy of_service then Ok of_service else py_get updates "cluster_recovery_pattern");
        if negb (truthy pattern) then recovery_patterns_go service rest patterns
        else if negb (hashable pattern)
        then raise TypeError ("unhashable type: " +:+ repr_str (type_name pattern))
        else recovery_patterns_go service rest (bump_pattern pattern patterns)
  | v :: _ => raise AttributeError (repr_str (type_name v) +:+ " object has no attribute 'get'")
  end.

Definition recovery_patterns (outcomes : list value) (service : option string) : res (list (value * Z)) :=
  recovery_patterns_go service outcomes [].

(** ** What is counted *)

Definition relevant (service : string) (endpoint flag_key : option string) (record : dict) : bool :=
  is_string service (dgetN "service" record) && negb (other_than "endpoint" endpoint record)
  && negb (other_than "flag_key" flag_key record).

(** The instant a record was made, when it says so. *)
Definition recorded_instant (record : dict) : option Z :=
  t ← parse_timestamp (dget_or "recorded_at" (VStr "") record); dt_instant t.

Definition count_if (p : dict → bool) (records : list dict) : Z := Z.of_nat (length (List.filter p records)).

Lemma count_if_cons p r rs : count_if p (r :: rs) = Z.b2z (p r) + count_if p rs.
Proof. unfold count_if. cbn [List.filter]. destruct (p r); cbn [length Z.b2z]; lia. Qed.

Lemma parse_timestamp_aware v t : parse_timestamp v = Some t → ∃ i, dt_instant t = Some i.
Proof.
  unfold parse_timestamp. destruct v as [| | | |s| |]; try done. destruct s as [|c s]; [done|].
  destruct (fromisoformat (String c s)) as [d|]; [|done]. cbn [mbind option_bind]. intros [= <-].
  unfold dt_instant. destruct (dt_off d) as [off|] eqn:E; [rewrite E|]; cbn; eauto.
Qed.

(** The records that count as similar, as recent rollbacks and as recent
    regressions, by instants. *)
Definition similar_record service endpoint flag_key (record : dict) : bool :=
  relevant service endpoint flag_key record && match recorded_instant record with Some _ => true | None => false end.

Definition since (cutoff : Z) (record : dict) : bool :=
  match recorded_instant record with Some i => cutoff <=? i | None => false end.

Definition rollback_record service endpoint flag_key (cutoff : Z) (record : dict) : bool :=
  relevant service endpoint flag_key record && since cutoff record
  && str_in (dgetN "decision_type" record) ROLLBACK_DECISIONS.

Definition regression_record service endpoint flag_key (cutoff : Z) (record : dict) : bool :=
  relevant service endpoint flag_key record && since cutoff record
  && negb (is_string "successful" (dgetN "outcome" record)).

Lemma count_record_spec service endpoint flag_key c1 c2 i1 i2 record c :
  dt_instant c1 = Some i1 → dt_instant c2 = Some i2 →
  count_record service endpoint flag_key c1 c2 record c = Ok {|
    lc_similar := lc_similar c + Z.b2z (similar_record service endpoint flag_key record);
    lc_rollbacks := lc_rollbacks c + Z.b2z (rollback_record service endpoint flag_key i1 record);
    lc_regressions := lc_regressions c + Z.b2z (regression_record service endpoint flag_key i2 record) |}.
Proof.
  intros H1 H2. unfold count_record, similar_record, rollback_record, regression_record, relevant, since, recorded_instant.
  destruct (is_string service (dgetN "service" record)), (other_than "endpoint" endpoint record),
    (other_than "flag_key" flag_key record); cbn [negb orb andb Z.b2z]; rewrite ?Z.add_0_r; try by destruct c.
  destruct (parse_timestamp _) as [t|] eqn:Et; cbn [mbind option_bind]; [|cbn; rewrite ?Z.add_0_r; by destruct c].
  destruct (parse_timestamp_aware _ _ Et) as (i & Hi). unfold dt_leb, dt_ltb. rewrite H1, H2, Hi.
  cbn [mbind res_bind Z.b2z]. rewrite <- !Z.leb_antisym. done.
Qed.

Lemma count_records_spec service endpoint flag_key c1 c2 i1 i2 records c :
  dt_instant c1 = Some i1 → dt_instant c2 = Some i2 →
  count_records service endpoint flag_key c1 c2 (map VDict records) c = Ok {|
    lc_similar := lc_similar c + count_if (similar_record service endpoint flag_key) records;
    lc_rollbacks := lc_rollbacks c + count_if (rollback_record service endpoint flag_key i1) records;
    lc_regressions := lc_regressions c + count_if (regression_record service endpoint flag_key i2) records |}.
Proof.
  intros H1 H2. revert c. induction records as [|r rs IH]; intros c; cbn [map count_records].
  - destruct c. unfold count_if. cbn. by rewrite !Z.add_0_r.
  - rewrite (count_record_spec _ _ _ _ _ i1 i2) by done. cbn [mbind res_bind]. rewrite IH. cbn.
    rewrite !count_if_cons. f_equal. f_equal; lia.
Qed.

(** The learning context of a service counts, over any recorded outcomes,
    those about the service (and the endpoint and flag when given) whose time
    can be read; of these the rollbacks since a day before [now] and the
    unsuccessful ones since a week before. *)
Theorem learning_context_counts t now records service endpoint flag_key :
  dt_off now = Some 0 → dt_local now = t → 7 * day_us <= t < max_ord * day_us → records ≠ [] →
  learning_context_from_outcomes now (map VDict records) service endpoint flag_key =
  Ok [("similar_prior_cases", VInt (count_if (similar_record service endpoint flag_key) records));
      ("rollbacks_last_24h", VInt (count_if (rollback_record service endpoint flag_key (t - day_us)) records));
      ("regressions_last_7d", VInt (count_if (regression_record service endpoint flag_key (t - 7 * day_us)) records))].
Proof.
  intros Ho Hl Ht Hne. unfold learning_context_from_outcomes.
  destruct (map VDict records) eqn:E; [by destruct records|]. rewrite <- E. clear E.
  unfold add_seconds, in_range, day_seconds. rewrite Ho, Hl.
  assert (day_us = 86400000000) as Hd by reflexivity.
  rewrite !(proj2 (Z.leb_le 0 _)) by lia. rewrite !(proj2 (Z.ltb_lt _ _)) by lia. cbn [andb mbind res_bind].
  rewrite (count_records_spec _ _ _ _ _ (t - day_us) (t - 7 * day_us)) by (unfold dt_instant; cbn; f_equal; lia).
  done.
Qed.

Definition demo_outcome (recorded_at outcome decision_type : string) : dict :=
  [("service", VStr "checkout"); ("recorded_at", VStr recorded_at); ("outcome", VStr outcome);
   ("decision_type", VStr decision_type)].

Lemma learning_context_counts_witness :
  learning_context_from_outcomes (DT 63871286400000000 (Some 0))
    (map VDict [demo_outcome "2024-12-31T12:00:00+00:00" "successful" "disable_flag";
                demo_outcome "2024-12-28T00:00:00" "failed" "disable_flag";
                demo_outcome "yesterday" "failed" "disable_flag"]) "checkout" (Some "/pay") None =
  Ok [("similar_prior_cases", VInt 2); ("rollbacks_last_24h", VInt 1); ("regressions_last_7d", VInt 1)].
Proof.
  etransitivity.
  - apply (learning_context_counts 63871286400000000); [reflexivity|reflexivity|vm_compute; split; congruence|discriminate].
  - vm_compute. reflexivity.
Defined.
