(* ===== verification/RunMachine.v ===== *)
(** * Programs interleaved with other threads

    The threads of the run coordinator share its state.  A program of one of
    them takes a list of ticks: each of its steps happens at the next tick,
    after what the other threads have done meanwhile, which is any function of
    the state.  When the ticks are used up the program is [Unfinished]: a
    theorem about all lists of ticks is about every interleaving and every
    moment of it. *)

From S2P Require Import Prelude PyFloat.

(** What happens before a step and what the step reads: two clock readings,
    compact time stamps, the random suffix and the monotonic clock. *)
Record tick (W : Type) := Tick {
  tk_env : W → W;
  tk_now : string;
  tk_later : string;
  tk_stamp : string;
  tk_hex : string;
  tk_mono : float }.
Arguments Tick {W} tk_env tk_now tk_later tk_stamp tk_hex tk_mono.
Arguments tk_env {W} t.
Arguments tk_now {W} t.
Arguments tk_later {W} t.
Arguments tk_stamp {W} t.
Arguments tk_hex {W} t.
Arguments tk_mono {W} t.

Inductive outcome (A : Type) :=
  | Done (a : A)
  | Raised (e : exc)
  | Unfinished.
Arguments Done {A} a.
Arguments Raised {A} e.
Arguments Unfinished {A}.

(** The state, the trace of what the program did that the state does not
    show, and the ticks to come. *)
Record machine (W E : Type) := Machine { m_world : W; m_trace : list E; m_ticks : list (tick W) }.
Arguments Machine {W E} m_world m_trace m_ticks.
Arguments m_world {W E} m.
Arguments m_trace {W E} m.
Arguments m_ticks {W E} m.

Section programs.
Context {W E : Type}.

Definition RM (A : Type) : Type := machine W E → outcome A * machine W E.

#[global] Instance rm_ret : MRet RM := λ A a m, (Done a, m).
#[global] Instance rm_bind : MBind RM :=
  λ A B f p m, match p m with
               | (Done a, m') => f a m'
               | (Raised e, m') => (Raised e, m')
               | (Unfinished, m') => (Unfinished, m')
               end.

(** One step: the other threads, then [f]. *)
Definition step {A} (f : tick W → W → res A * W) : RM A := λ m,
  match m_ticks m with
  | [] => (Unfinished, m)
  | t :: ticks =>
      match f t (tk_env t (m_world m)) with
      | (Ok a, w) => (Done a, Machine w (m_trace m) ticks)
      | (Err e, w) => (Raised e, Machine w (m_trace m) ticks)
      end
  end.

(** Computing without touching the shared state takes no step. *)
Definition pure {A} (r : res A) : RM A := λ m,
  match r with Ok a => (Done a, m) | Err e => (Raised e, m) end.

Definition throw {A} (e : exc) : RM A := λ m, (Raised e, m).

Definition emit (e : E) : RM unit := λ m, (Done (), Machine (m_world m) (m_trace m ++ [e]) (m_ticks m)).

(** [try: p except Exception as e: handler(e)] *)
Definition catch {A} (p : RM A) (handler : exc → RM A) : RM A := λ m,
  match p m with
  | (Raised e, m') => handler e m'
  | out => out
  end.

(** [try: p finally: cleanup] *)
Definition finally {A} (p : RM A) (cleanup : RM unit) : RM A := λ m,
  match p m with
  | (Done a, m') => (_ ← cleanup; mret a) m'
  | (Raised e, m') => (_ ← cleanup; throw e) m'
  | (Unfinished, m') => (Unfinished, m')
  end.

(** [for x in l: f(x)] *)
Fixpoint for_each {A} (f : A → RM unit) (l : list A) : RM unit :=
  match l with
  | [] => mret ()
  | x :: l' => _ ← f x; for_each f l'
  end.

(** The values of [f(x)] in order. *)
Fixpoint for_map {A B} (f : A → RM B) (l : list A) : RM (list B) :=
  match l with
  | [] => mret []
  | x :: l' => y ← f x; ys ← for_map f l'; mret (y :: ys)
  end.

(** [while True] around a body that says when to go on; the ticks bound the
    turns, and a body that takes no tick would never end. *)
Fixpoint loop_go {S A} (fuel : nat) (body : S → RM (S + A)) (s : S) : RM A :=
  match fuel with
  | O => λ m, (Unfinished, m)
  | S fuel' => out ← body s; match out with inl s' => loop_go fuel' body s' | inr a => mret a end
  end.

Definition loop {S A} (body : S → RM (S + A)) (s : S) : RM A :=
  λ m, loop_go (Datatypes.S (length (m_ticks m))) body s m.
End programs.
Arguments RM W E A : clear implicits.

(** * Reasoning about interleaved programs

    What the programs of [RunMachine] preserve, whatever the other threads do:
    a relation between the state before and the state after, which follows the
    structure of the program; a weakest precondition for the few places where
    the outcome matters; and the number of steps a program may take. *)

#[local] Open Scope nat_scope.

(** ** Preserved relations *)

(** However the program ends, the states before and after are related. *)
Class Respects {W E A} (R : relation (machine W E)) (p : RM W E A) : Prop := respects m : R m (p m).2.

Section respects.
Context {W E : Type} (R : relation (machine W E)) `{!PreOrder R}.

#[export] Instance respects_ret {A} (a : A) : Respects R (mret a : RM W E A).
Proof. intros m. reflexivity. Qed.

#[export] Instance respects_pure {A} (r : res A) : Respects R (pure r : RM W E A).
Proof. intros m. unfold pure. by destruct r. Qed.

#[export] Instance respects_throw {A} e : Respects R (throw e : RM W E A).
Proof. intros m. reflexivity. Qed.

#[export] Instance respects_bind {A B} (p : RM W E A) (f : A → RM W E B) :
  Respects R p → (∀ a, Respects R (f a)) → Respects R (p ≫= f).
Proof.
  intros Hp Hf m. unfold mbind, rm_bind. specialize (Hp m). destruct (p m) as [[a|e|] m']; cbn in *; try done.
  etrans; [exact Hp|apply Hf].
Qed.

#[export] Instance respects_catch {A} (p : RM W E A) h :
  Respects R p → (∀ e, Respects R (h e)) → Respects R (catch p h).
Proof.
  intros Hp Hh m. unfold catch. specialize (Hp m). destruct (p m) as [[a|e|] m']; cbn in *; try done.
  etrans; [exact Hp|apply Hh].
Qed.

#[export] Instance respects_finally {A} (p : RM W E A) cleanup :
  Respects R p → Respects R cleanup → Respects R (finally p cleanup).
Proof.
  intros Hp Hc m. unfold finally. specialize (Hp m). destruct (p m) as [[a|e|] m']; cbn in Hp |- *; try done.
  - etrans; [exact Hp|]. by apply (respects_bind cleanup (λ _, mret a)); [|intros _; apply respects_ret].
  - etrans; [exact Hp|]. by apply (respects_bind cleanup (λ _, throw e)); [|intros _; apply respects_throw].
Qed.

#[export] Instance respects_for_each {A} (f : A → RM W E unit) l : (∀ a, Respects R (f a)) → Respects R (for_each f l).
Proof.
  intros Hf. induction l as [|a l IH]; cbn [for_each]; [apply _|]. apply respects_bind; [apply Hf|done].
Qed.

#[export] Instance respects_for_map {A B} (f : A → RM W E B) l : (∀ a, Respects R (f a)) → Respects R (for_map f l).
Proof.
  intros Hf. induction l as [|a l IH]; cbn [for_map]; [apply _|]. apply respects_bind; [apply Hf|intros y].
  apply respects_bind; [done|intros ys; apply _].
Qed.

#[export] Instance respects_loop {S A} (body : S → RM W E (S + A)) s : (∀ s, Respects R (body s)) → Respects R (loop body s).
Proof.
  intros Hb m. unfold loop. generalize (Datatypes.S (length (m_ticks m))) as fuel. intros fuel.
  revert m s. induction fuel as [|fuel IH]; intros m s; [reflexivity|].
  cbn [loop_go]. apply respects_bind; [apply Hb|]. intros [s'|a]; [intros m'; apply IH|apply _].
Qed.
End respects.

(** ** Programs that return *)

Lemma bind_Done {W E A B} (p : RM W E A) (f : A → RM W E B) m b m' :
  (p ≫= f) m = (Done b, m') → ∃ a m1, p m = (Done a, m1) ∧ f a m1 = (Done b, m').
Proof. unfold mbind, rm_bind. destruct (p m) as [[a|e|] m1]; [eauto|done..]. Qed.

Lemma pure_Done {W E A} (r : res A) (m m' : machine W E) a : pure r m = (Done a, m') → r = Ok a ∧ m' = m.
Proof. unfold pure. destruct r; [by intros [= -> ->]|done]. Qed.

Lemma throw_Done {W E A} e (m m' : machine W E) (a : A) : throw e m ≠ (Done a, m').
Proof. by unfold throw. Qed.

Lemma step_Done {W E A} (f : tick W → W → res A * W) (m : machine W E) a m' :
  step f m = (Done a, m') → ∃ t w, (f t w).1 = Ok a ∧ m_world m' = (f t w).2.
Proof.
  unfold step. destruct (m_ticks m) as [|t ticks]; [done|]. intros H. exists t, (tk_env t (m_world m)).
  destruct (f t _) as [[b|e] w]; [by injection H as -> <-|done].
Qed.

Lemma catch_Done {W E A} (p : RM W E A) h (m m' : machine W E) a :
  catch p h m = (Done a, m') → p m = (Done a, m') ∨ ∃ e m1, p m = (Raised e, m1) ∧ h e m1 = (Done a, m').
Proof. unfold catch. destruct (p m) as [[b|e|] m1]; eauto. Qed.

(** ** Weakest preconditions *)

Definition wp {W E A} (p : RM W E A) (m : machine W E) (Q : outcome A → machine W E → Prop) : Prop := Q (p m).1 (p m).2.

Section wp.
Context {W E : Type}.
Implicit Types (m : machine W E).

Lemma wp_mono {A} (p : RM W E A) m (Q Q' : outcome A → machine W E → Prop) :
  wp p m Q → (∀ o m', Q o m' → Q' o m') → wp p m Q'.
Proof. unfold wp. auto. Qed.

Lemma wp_ret {A} (a : A) m Q : Q (Done a) m → wp (mret a : RM W E A) m Q.
Proof. done. Qed.

(** What a postcondition says of the ends that are not results. *)
Definition stops {A B} (Q : outcome B → machine W E → Prop) (K : A → machine W E → Prop) (o : outcome A) m : Prop :=
  match o with Done a => K a m | Raised e => Q (Raised e) m | Unfinished => Q Unfinished m end.

Lemma wp_bind {A B} (p : RM W E A) (f : A → RM W E B) m Q :
  wp p m (stops Q (λ a m', wp (f a) m' Q)) → wp (p ≫= f) m Q.
Proof. unfold wp, mbind, rm_bind. by destruct (p m) as [[a|e|] m']. Qed.

Lemma wp_respects {A} R (p : RM W E A) m (Q : outcome A → machine W E → Prop) :
  Respects R p → (∀ o m', R m m' → Q o m') → wp p m Q.
Proof. intros Hp H. apply H, Hp. Qed.

(** A program that only has to respect a relation, and then the rest. *)
Lemma wp_after {A B} R (p : RM W E A) (f : A → RM W E B) m Q :
  Respects R p → (∀ e m', R m m' → Q (Raised e) m') → (∀ m', R m m' → Q Unfinished m') →
  (∀ a m', R m m' → wp (f a) m' Q) → wp (p ≫= f) m Q.
Proof. intros Hp He Hu Hf. apply wp_bind, (wp_respects R); [done|]. intros [a|e|] m' HR; cbn; auto. Qed.

Lemma wp_emit (e : E) m Q : Q (Done ()) (Machine (m_world m) (m_trace m ++ [e]) (m_ticks m)) → wp (emit e) m Q.
Proof. done. Qed.

Lemma wp_step {A} (f : tick W → W → res A * W) m Q :
  (m_ticks m = [] → Q Unfinished m) →
  (∀ t ticks, m_ticks m = t :: ticks →
     let out := f t (tk_env t (m_world m)) in
     Q (match out.1 with Ok a => Done a | Err e => Raised e end) (Machine out.2 (m_trace m) ticks)) →
  wp (step f) m Q.
Proof.
  intros H0 H. unfold wp, step. destruct (m_ticks m) as [|t ticks] eqn:Et; [cbn; auto|].
  specialize (H t ticks eq_refl). cbn in H. by destruct (f t _) as [[a|e] w].
Qed.

Lemma wp_catch {A} (p : RM W E A) h m Q :
  wp p m (λ o m', match o with Raised e => wp (h e) m' Q | _ => Q o m' end) → wp (catch p h) m Q.
Proof. unfold wp, catch. by destruct (p m) as [[a|e|] m']. Qed.

Lemma wp_finally {A} (p : RM W E A) cleanup m Q :
  wp p m (λ o m', match o with
                  | Unfinished => Q Unfinished m'
                  | _ => wp cleanup m' (stops Q (λ _ m'', Q o m''))
                  end) → wp (finally p cleanup) m Q.
Proof.
  unfold wp, finally, mbind, rm_bind. destruct (p m) as [[a|e|] m']; cbn; try done;
    by destruct (cleanup m') as [[[]|e'|] m''].
Qed.

(** An invariant of the turns. *)
Lemma wp_loop {S A} (I : S → machine W E → Prop) (body : S → RM W E (S + A)) s m Q :
  (∀ s m, I s m → Q Unfinished m) →
  (∀ s m, I s m → wp (body s) m (stops Q (λ out m', match out with inl s' => I s' m' | inr a => Q (Done a) m' end))) →
  I s m → wp (loop body s) m Q.
Proof.
  intros Hu Hb. unfold wp, loop. generalize (Datatypes.S (length (m_ticks m))) as fuel. intros fuel.
  revert m s. induction fuel as [|fuel IH]; intros m s HI; [by apply (Hu s)|].
  cbn [loop_go]. change (wp (body s ≫= λ out, match out with inl s' => loop_go fuel body s' | inr a => mret a end) m Q).
  apply wp_bind. eapply wp_mono; [by apply Hb|]. intros [[s'|a]|e|] m' H; cbn in *; try done. by apply IH.
Qed.
End wp.

(** ** How many steps *)

(** With [n] steps to come the program ends, and takes at most that many. *)
Class Within {W E A} (n : nat) (p : RM W E A) : Prop :=
  within m : n ≤ length (m_ticks m) → (p m).1 ≠ Unfinished ∧ length (m_ticks m) ≤ n + length (m_ticks (p m).2).

Section within.
Context {W E : Type}.

Lemma within_le {A} n n' (p : RM W E A) : Within n p → n ≤ n' → Within n' p.
Proof. intros Hp Hn m Hm. destruct (Hp m) as [? ?]; [lia|]. split; [done|lia]. Qed.

Lemma within_ret {A} (a : A) : Within 0 (mret a : RM W E A).
Proof. intros m _. split; [done|cbn; lia]. Qed.

Lemma within_pure {A} (r : res A) : Within 0 (pure r : RM W E A).
Proof. intros m _. unfold pure. destruct r; (split; [done|cbn; lia]). Qed.

Lemma within_emit (e : E) : Within 0 (emit e : RM W E unit).
Proof. intros m _. split; [done|cbn; lia]. Qed.

Lemma within_step {A} (f : tick W → W → res A * W) : Within 1 (step f : RM W E A).
Proof.
  intros m Hm. unfold step. destruct (m_ticks m) as [|t ts] eqn:Et; cbn in Hm; [lia|].
  destruct (f t _) as [[a|e] w]; split; cbn; try done; lia.
Qed.

Lemma within_bind {A B} n1 n2 (p : RM W E A) (f : A → RM W E B) :
  Within n1 p → (∀ a, Within n2 (f a)) → Within (n1 + n2) (p ≫= f).
Proof.
  intros Hp Hf m Hm. unfold mbind, rm_bind. destruct (Hp m) as [Ho Hl]; [lia|].
  destruct (p m) as [[a|e|] m']; cbn in *; try (split; [done|lia]).
  destruct (Hf a m') as [Ho' Hl']; [lia|]. split; [done|lia].
Qed.

(** Spends the steps of [p] from a budget. *)
Lemma within_then {A B} n1 n (p : RM W E A) (f : A → RM W E B) :
  Within n1 p → n1 ≤ n → (∀ a, Within (n - n1) (f a)) → Within n (p ≫= f).
Proof. intros Hp Hn Hf. replace n with (n1 + (n - n1)) by lia. by apply within_bind. Qed.

Lemma within_throw {A} e : Within 0 (throw e : RM W E A).
Proof. intros m _. split; [done|cbn; lia]. Qed.

Lemma within_catch {A} n (p : RM W E A) (h : exc → RM W E A) : Within n p → (∀ e, Within 0 (h e)) → Within n (catch p h).
Proof.
  intros Hp Hh m Hm. unfold catch. destruct (Hp m Hm) as [Ho Hl]. destruct (p m) as [[a|e|] m']; cbn in *; try done.
  destruct (Hh e m') as [Ho' Hl']; [lia|]. split; [done|lia].
Qed.

(** A loop whose turns take at most [n] steps and which goes on only after a turn
    that took one and brought the measure down ends before it has taken more
    than the measure allows. *)
Lemma within_loop {S A} (μ : S → nat) n (body : S → RM W E (S + A)) :
  (∀ s, Within (Nat.min 1 (μ s) * n) (body s)) →
  (∀ s s' m m', body s m = (Done (inl s'), m') → μ s' < μ s ∧ length (m_ticks m') < length (m_ticks m)) →
  ∀ s, Within (μ s * n) (loop body s).
Proof.
  intros Hb Hd s m Hm. unfold loop. assert (length (m_ticks m) < Datatypes.S (length (m_ticks m))) as Hf by lia. revert Hf.
  generalize (Datatypes.S (length (m_ticks m))) as fuel. intros fuel. revert s m Hm.
  induction fuel as [|fuel IH]; intros s m Hm Hf; [lia|]. cbn [loop_go]. unfold mbind, rm_bind.
  assert (Nat.min 1 (μ s) * n ≤ μ s * n) as H1 by (apply Nat.mul_le_mono_r; lia).
  assert (Nat.min 1 (μ s) * n ≤ 1 * n) as H2 by (apply Nat.mul_le_mono_r; lia).
  pose proof (Hb s) as Hbs. unfold Within in Hbs. generalize dependent (Nat.min 1 (μ s) * n). intros b H1 H2 Hbs.
  destruct (Hbs m) as [Ho Hl]; [lia|]. destruct (body s m) as [[[s'|a]|e|] m'] eqn:Et; cbn [fst snd mret rm_ret] in *; try (split; [done|lia]).
  destruct (Hd _ _ _ _ Et) as [Hμ Ht]. assert (Datatypes.S (μ s') * n ≤ μ s * n) by (apply Nat.mul_le_mono_r; lia).
  destruct (IH s' m') as [Ho' Hl']; [lia|lia|]. split; [done|lia].
Qed.
End within.
