(* ===== verification/Steering.v ===== *)
(** * Steering commands

    The part of [src/services/control_plane.py] that reads a steering request:
    who sends it, whether the run may be steered that way now, and what the
    threads of a run share with the operator ([RunControl]). *)

From S2P Require Import Prelude PyFloat PyValue PyNumbers Json Models.

Definition PAUSEABLE_STAGES : list string := ["trigger_ready"; "decision_ready"; "evaluation_ready"; "feedback_ready"].
Definition TERMINAL_STAGES : list string := ["completed"; "failed"; "cancelled"; "no_trigger"; "recovery_spawned"].
Definition ALLOWED_STEERING_COMMANDS : list string :=
  ["approve"; "cancel"; "pause_after_stage"; "resume"; "set_auto_mode"; "override_decision";
   "override_execution_parameters"; "explain_blockers"; "chat_with_hermes"; "attach_note"; "handoff";
   "override_review"; "postmortem_review"].
Definition STEERING_DECISION_COMMANDS : list string := ["override_decision"; "override_execution_parameters"].
Definition STEERING_EARLY_STAGES : list string := ["ingesting"; "trigger_ready"].

(** [RunControl]: the pause points are a set. *)
Record run_control := RunControl {
  ct_commands : list SteeringCommand;
  ct_auto_mode : bool;
  ct_pause_points : list string }.

Definition new_control (auto_mode : bool) (pause_points : list string) : run_control :=
  RunControl [] auto_mode (remove_dups pause_points).

(** [_operator_context] *)
Definition operator_context (payload : dict) : option dict :=
  match dgetN "_operator" payload with
  | VDict raw =>
      let operator_id := str_strip (py_str (py_or (dgetN "operator_id" raw) (VStr ""))) in
      if String.eqb operator_id "" then None
      else Some [("operator_id", VStr operator_id);
                 ("roles", match dgetN "roles" raw with VList l => strs (map py_str l) | _ => VList [] end);
                 ("source", VStr (py_str (py_or (dgetN "source" raw) (VStr "unknown"))));
                 ("source_ip", dgetN "source_ip" raw)]
  | _ => None
  end.

(** [len(json.dumps(payload, sort_keys=True, default=str).encode("utf-8"))]: the
    text is ASCII. *)
Definition steering_command_payload_bytes (payload : dict) : Z :=
  Z.of_nat (String.length (dumps true (VDict payload))).

(** [session.pending_pause_stage or session.stage] *)
Definition effective_stage (session : dict) : value :=
  py_or (dgetN "pending_pause_stage" session) (dgetN "stage" session).

Definition not_allowed (command_type : string) (session : dict) (why : string) : string :=
  "steering command " +:+ repr_str command_type +:+ " is not allowed at stage " +:+ py_repr (effective_stage session)
  +:+ " (run stage " +:+ py_repr (dgetN "stage" session) +:+ "). " +:+ why.

(** [_validate_steering_command]; [cap] is [MESH_MAX_STEERING_PAYLOAD_BYTES]. *)
Definition validate_steering_command (cap : Z) (session : dict) (command_type : string) (command_payload : dict) : res unit :=
  raise_if cap <? steering_command_payload_bytes command_payload
    with ValueError ("steering payload exceeds " +:+ str_of_Z cap +:+ " bytes (cap from MESH_MAX_STEERING_PAYLOAD_BYTES)");
  terminal ← in_str_set (dgetN "stage" session) TERMINAL_STAGES;
  if (terminal : bool) then
    raise_if negb (mem_str command_type ["attach_note"; "override_review"; "postmortem_review"])
      with ValueError ("steering command " +:+ repr_str command_type +:+ " is not allowed after run is "
                       +:+ py_repr (dgetN "stage" session)
                       +:+ "; only attach_note, override_review, and postmortem_review are permitted.");
    Ok ()
  else if String.eqb command_type "explain_blockers" then
    raise_if negb (is_string "evaluation_ready" (effective_stage session))
      with ValueError (not_allowed command_type session
             "Hermes explanation is accepted only when the run is paused at evaluation_ready.");
    Ok ()
  else if String.eqb command_type "chat_with_hermes" then
    raise_if negb (is_string "evaluation_ready" (effective_stage session))
      with ValueError (not_allowed command_type session
             "Hermes blocker chat is accepted only when the run is paused at evaluation_ready.");
    raise_if String.eqb (str_strip (py_str (dget_or "message" (VStr "") command_payload))) ""
      with ValueError "chat_with_hermes requires a non-empty message";
    Ok ()
  else if negb (mem_str command_type STEERING_DECISION_COMMANDS) then Ok ()
  else
    early ← in_str_set (effective_stage session) STEERING_EARLY_STAGES;
    let late := is_string "feedback_ready" (effective_stage session) in
    running ← (if (early : bool) || late then Ok true
               else in_str_set (dgetN "stage" session) ["executing"; "feedback_ready"]);
    raise_if (running : bool)
      with ValueError (not_allowed command_type session
             ("Decision and execution-parameter overrides are only accepted when the run is paused at "
              +:+ "evaluation_ready, before actuation."));
    Ok ().

(** The stage of a session and the stage it waits at, for typed sessions. *)
Definition stage_of (session : dict) : string := py_str (dgetN "stage" session).
Definition effective_of (session : dict) : string := py_str (effective_stage session).

(** When a command is let through, by command and stage. *)
Definition steering_allowed (command_type stage effective message : string) : bool :=
  if mem_str stage TERMINAL_STAGES then mem_str command_type ["attach_note"; "override_review"; "postmortem_review"]
  else if String.eqb command_type "explain_blockers" then String.eqb effective "evaluation_ready"
  else if String.eqb command_type "chat_with_hermes"
       then String.eqb effective "evaluation_ready" && negb (String.eqb (str_strip message) "")
  else if mem_str command_type STEERING_DECISION_COMMANDS
       then negb (mem_str effective ["ingesting"; "trigger_ready"; "feedback_ready"])
            && negb (mem_str stage ["executing"; "feedback_ready"])
  else true.

(** For a session with string stages every command is either accepted or
    refused with [ValueError]: it is accepted exactly when its payload is
    within the cap and, after the end of the run, it only adds a note or a
    review; before it, an explanation or a chat asks about a run that waits at
    its evaluation, and an override comes neither while the signal is read nor
    once the run executes. *)
Theorem steering_decides cap session command_type payload stage :
  dgetN "stage" session = VStr stage →
  (dgetN "pending_pause_stage" session = VNone ∨ is_str (dgetN "pending_pause_stage" session) = true) →
  let allowed := (steering_command_payload_bytes payload <=? cap)
                 && steering_allowed command_type stage (effective_of session)
                      (py_str (dget_or "message" (VStr "") payload)) in
  match validate_steering_command cap session command_type payload with
  | Ok _ => allowed = true
  | Err e => allowed = false ∧ exc_cls e = ValueError
  end.
Proof.
  intros Hs Hp allowed. subst allowed.
  assert (∃ eff, effective_stage session = VStr eff) as (eff & He).
  { unfold effective_stage, py_or. rewrite Hs. destruct Hp as [->|Hp]; [by exists stage|].
    destruct (dgetN "pending_pause_stage" session) as [| | | |s| |]; try done.
    destruct (truthy _); eauto. }
  unfold validate_steering_command, effective_of, steering_allowed. rewrite He, Hs. cbn [py_str in_str_set].
  rewrite Z.ltb_antisym. destruct (_ <=? cap); cbn [negb andb]; [|done].
  unfold str_in. fold (mem_str stage TERMINAL_STAGES). cbn [mbind res_bind].
  destruct (mem_str stage TERMINAL_STAGES); [by destruct (mem_str command_type _)|].
  destruct (String.eqb command_type "explain_blockers").
  { cbn [is_string]. rewrite String.eqb_sym. by destruct (String.eqb eff _). }
  destruct (String.eqb command_type "chat_with_hermes").
  { cbn [is_string]. rewrite String.eqb_sym. destruct (String.eqb eff _); [|done]. cbn [negb andb].
    by destruct (String.eqb (str_strip _) ""). }
  destruct (mem_str command_type STEERING_DECISION_COMMANDS); cbn [negb]; [|done].
  fold (mem_str eff STEERING_EARLY_STAGES). fold (mem_str stage ["executing"; "feedback_ready"]).
  assert (mem_str eff ["ingesting"; "trigger_ready"; "feedback_ready"]
          = mem_str eff STEERING_EARLY_STAGES || is_string "feedback_ready" (VStr eff)) as ->.
  { unfold mem_str, STEERING_EARLY_STAGES. cbn [existsb is_string]. rewrite (String.eqb_sym "feedback_ready").
    by destruct (String.eqb eff "ingesting"), (String.eqb eff "trigger_ready"), (String.eqb eff "feedback_ready"). }
  cbn [mbind res_bind]. destruct (mem_str eff _ || _); cbn [negb andb mbind res_bind]; [done|].
  by destruct (mem_str stage _).
Qed.

(** Overrides are accepted long before there is a decision to override. *)
Lemma steering_decides_witness :
  validate_steering_command 65536 [("stage", VStr "evidence_pack_ready"); ("pending_pause_stage", VNone)]
    "override_decision" [] = Ok ().
Proof.
  pose proof (steering_decides 65536 [("stage", VStr "evidence_pack_ready"); ("pending_pause_stage", VNone)]
    "override_decision" [] "evidence_pack_ready" eq_refl (or_introl eq_refl)) as H.
  destruct (validate_steering_command _ _ _ _) as [[]|e]; [done|]. vm_compute in H. by destruct H.
Defined.
