(* ===== verification/Timeline.v ===== *)
(** * Timeline proofs

    [src/shared/mesh_runtime/timeline_proof.py]: the packet that exports the
    ordered events of a run with their Merkle commitment. *)

From S2P Require Import Prelude PyFloat PyValue Json Sha256 DateTime.
From S2P Require Import SchemaValidation Schemas Models Merkle.

(** [_payload_hash] *)
Definition payload_hash (payload : dict) : string := sha256_hex (dumps true (VDict payload)).

(** Microseconds from 0001-01-01 to the Unix epoch. *)
Definition unix_epoch : Z := (ymd2ord 1970 1 1 - 1) * day_us.

(** [_time_unix_nano]: [timestamp()] divides microseconds by a million in
    floating point and [int] truncates towards zero. *)
Definition time_unix_nano (raw : string) : res value :=
  match parse_iso_z raw with
  | None => Ok VNone
  | Some parsed =>
      let parsed := match dt_off parsed with
                    | None => DT (dt_local parsed) (Some 0)
                    | Some _ => parsed
                    end in
      utc ← astimezone_utc parsed;
      let us := dt_local utc - unix_epoch in
      seconds ← py_int (VFloat (int_truediv us 1000000));
      Ok (VInt (seconds * 1000000000 + (dt_local utc mod 1000000) * 1000))
  end.

Definition timeline_entry (event : RunEvent) : res dict :=
  nano ← time_unix_nano (ev_recorded_at event);
  Ok [("sequence", VInt (ev_sequence event));
      ("event_id", VStr (ev_event_id event));
      ("stage", VStr (ev_stage event));
      ("event_type", VStr (ev_event_type event));
      ("recorded_at", VStr (ev_recorded_at event));
      ("time_unix_nano", nano);
      ("payload_sha256", VStr (payload_hash (ev_payload event)));
      ("merkle_leaf_hash", opt_str (ev_merkle_leaf_hash event));
      ("artifact_key", opt_str (ev_artifact_key event));
      ("integration_name", opt_str (ev_integration_name event));
      ("status", opt_str (ev_status event))].

(** [l == sorted(l)] for integers *)
Fixpoint non_decreasing (l : list Z) : bool :=
  match l with
  | a :: (b :: _) as rest => (a <=? b) && non_decreasing rest
  | _ => true
  end.

Definition int_of (v : value) : option Z := match v with VInt z => Some z | _ => None end.

(** [bool(proof and proof.get("valid"))] *)
Definition proof_valid (proof : value) : bool :=
  match proof with VDict p => truthy proof && truthy (dgetN "valid" p) | _ => false end.

(** [generated_at] is the formatted clock reading. *)
Definition build_timeline_proof (run_id : string) (events : list RunEvent)
    (merkle_snapshot : option MerkleSnapshot) (proof_event_id : option string)
    (generated_at : string) : res dict :=
  let snapshot := default (build_merkle_snapshot run_id events) merkle_snapshot in
  let selected_event_id :=
    match proof_event_id with
    | Some id => if String.eqb id "" then ev_event_id <$> last events else Some id
    | None => ev_event_id <$> last events
    end in
  proof ← match selected_event_id with
          | Some id =>
              if String.eqb id "" then Ok VNone
              else
                match build_merkle_proof run_id events id with
                | Some p => Ok (VDict (mp_to_dict p))
                | None => raise AttributeError "'NoneType' object has no attribute 'to_dict'"
                end
          | None => Ok VNone
          end;
  timeline ← res_map timeline_entry events;
  let parsed_times := map (dgetN "time_unix_nano") timeline in
  let parsed_only := omap int_of parsed_times in
  let sequences := map ev_sequence events in
  let expected := map (λ n, Z.of_nat n) (seq 1 (length sequences)) in
  let packet :=
    [("schema_version", VStr "mesh.timeline_proof.v1");
     ("generated_at", VStr generated_at);
     ("run_id", VStr run_id);
     ("event_count", VInt (Z.of_nat (length events)));
     ("timeline", dicts timeline);
     ("merkle", VDict [("snapshot", VDict (ms_to_dict snapshot)); ("latest_event_proof", proof)]);
     ("checks", VDict
        [("sequence_monotonic", VBool (non_decreasing sequences));
         ("sequence_gapless", VBool (bool_decide (sequences = expected)));
         ("timestamp_parseable",
            VBool (Nat.eqb (length parsed_only) (length parsed_times)));
         ("timestamp_non_decreasing", VBool (non_decreasing parsed_only));
         ("merkle_root_present", VBool (negb (String.eqb (ms_root_hash snapshot) "")));
         ("latest_event_proof_valid", VBool (proof_valid proof))])] in
  _ ← validate_named "timeline-proof.schema.json" packet;
  Ok packet.

(** ** The packet is always well formed *)

Lemma time_unix_nano_type raw v :
  time_unix_nano raw = Ok v → v = VNone ∨ ∃ z, v = VInt z.
Proof.
  unfold time_unix_nano. destruct (parse_iso_z raw) as [t|]; [|intros [= <-]; by left].
  intros H. res_inv H. eauto.
Qed.

Lemma conforms_opt_str o :
  conforms (opt_str o) (VDict [("type", VList [VStr "string"; VStr "null"])]).
Proof. destruct o; conform_step. Qed.

(** The schema of the members of [timeline]. *)
Definition timeline_item_schema : value :=
  Eval vm_compute in
    dgetN "items" (dict_or_empty (dgetN "timeline" (schema_fields (dict_or_empty timeline_proof_schema)))).

Lemma timeline_entry_conforms event d :
  timeline_entry event = Ok d → conforms (VDict d) timeline_item_schema.
Proof.
  unfold timeline_entry. intros H. apply res_bind_Ok in H as (nano & Hn & H). injection H as <-.
  assert (conforms nano (VDict [("type", VList [VStr "integer"; VStr "null"])])) as Hnano.
  { apply time_unix_nano_type in Hn as [->|[z ->]]; conform_step. }
  unfold timeline_item_schema.
  conform_step; first [exact Hnano | by conform_step | apply conforms_opt_str].
Qed.

Lemma timeline_packet_conforms run_id events snapshot proof timeline ts flags :
  res_map timeline_entry events = Ok timeline →
  length flags = 6%nat →
  is_none proof || is_dict proof = true →
  conforms (VDict
    [("schema_version", VStr "mesh.timeline_proof.v1");
     ("generated_at", VStr ts);
     ("run_id", VStr run_id);
     ("event_count", VInt (Z.of_nat (length events)));
     ("timeline", dicts timeline);
     ("merkle", VDict [("snapshot", VDict snapshot); ("latest_event_proof", proof)]);
     ("checks", VDict
        (zip ["sequence_monotonic"; "sequence_gapless"; "timestamp_parseable";
              "timestamp_non_decreasing"; "merkle_root_present"; "latest_event_proof_valid"]
             (map VBool flags)))]) timeline_proof_schema.
Proof.
  intros Ht Hf Hp. do 6 (destruct flags as [|? flags]; [done|]). destruct flags; [|done].
  cbn [map zip zip_with].
  conform_step; try (by conform_step).
  - unfold dicts. conform_step. fold timeline_item_schema.
    assert (Forall (λ d, conforms (VDict d) timeline_item_schema) timeline) as Hf'.
    { eapply res_map_Forall; [|exact Ht]. apply timeline_entry_conforms. }
    clear -Hf'. induction Hf'; constructor; done.
  - conform_step; conform_step.
Qed.

(** ** The guarantees *)

Lemma sequences_from events k :
  map ev_sequence events = map (λ n, Z.of_nat n) (seq k (length events))
  ↔ ∀ i e, nth_error events i = Some e → ev_sequence e = Z.of_nat (k + i).
Proof.
  revert k. induction events as [|e0 events IH]; intros k; simpl.
  - split; [intros _ i e He; by destruct i|done].
  - split.
    + intros [= H0 H] [|i] e He; simpl in He; [injection He as <-; by rewrite Nat.add_0_r|].
      rewrite Nat.add_succ_r. by apply (proj1 (IH (S k)) H).
    + intros H. f_equal; [rewrite (H 0%nat e0 eq_refl); lia|].
      apply IH. intros i e He. rewrite (H (S i) e He). lia.
Qed.

Lemma sequences_gapless events :
  map ev_sequence events = map (λ n, Z.of_nat n) (seq 1 (length (map ev_sequence events)))
  ↔ ∀ i e, nth_error events i = Some e → ev_sequence e = Z.of_nat (S i).
Proof. rewrite length_map. apply sequences_from. Qed.

Lemma res_map_total {A B} (f : A → res B) l :
  (∀ x, x ∈ l → is_ok (f x) = true) → ∃ l', res_map f l = Ok l' ∧ length l' = length l.
Proof.
  induction l as [|x l IH]; intros H; simpl; [by eexists|].
  pose proof (H x ltac:(by left)) as Hx. destruct (f x) as [y|]; [|done].
  destruct IH as (l' & -> & Hl); [intros z Hz; apply H; by right|].
  eexists. split; [done|]. simpl. by rewrite Hl.
Qed.

(** The exported timeline of any run with nonempty event identifiers and
    representable times is schema valid, carries a valid inclusion proof of its
    latest event whenever there is one, and reports gap-free sequences exactly
    when the events are numbered 1, 2, 3, ... *)
Theorem timeline_proof_checks run_id events ts :
  Forall (λ e, ev_event_id e ≠ "" ∧ is_ok (time_unix_nano (ev_recorded_at e)) = true) events →
  ∃ packet checks, build_timeline_proof run_id events None None ts = Ok packet
    ∧ dget "checks" packet = Some (VDict checks)
    ∧ dget "latest_event_proof_valid" checks
      = Some (VBool (match events with [] => false | _ => true end))
    ∧ (dget "sequence_gapless" checks = Some (VBool true)
       ↔ ∀ i e, nth_error events i = Some e → ev_sequence e = Z.of_nat (S i)).
Proof.
  intros Hev. unfold build_timeline_proof. cbn [default from_option].
  destruct (res_map_total timeline_entry events) as (timeline & Ht & Hlen).
  { intros e He. rewrite Forall_forall in Hev. destruct (Hev e He) as [_ Hn].
    unfold timeline_entry. by destruct (time_unix_nano (ev_recorded_at e)). }
  assert (∃ proof, (match ev_event_id <$> last events with
      | Some id => if String.eqb id "" then Ok VNone
                   else match build_merkle_proof run_id events id with
                        | Some p => Ok (VDict (mp_to_dict p))
                        | None => raise AttributeError "'NoneType' object has no attribute 'to_dict'"
                        end
      | None => Ok VNone end) = Ok proof
    ∧ is_none proof || is_dict proof = true
    ∧ proof_valid proof = match events with [] => false | _ => true end) as (proof & -> & Hp & Hv).
  { destruct (last events) as [e|] eqn:El; cbn [fmap option_fmap option_map];
      [|apply last_None in El as ->; by eexists].
    apply last_Some_elem_of in El. rewrite Forall_forall in Hev. destruct (Hev e El) as [Hid _].
    destruct (String.eqb_spec (ev_event_id e) ""); [done|].
    pose proof (build_merkle_proof_spec run_id events (ev_event_id e)) as Hb.
    destruct (build_merkle_proof run_id events (ev_event_id e)) as [p|]; [|by destruct (Hb e El)].
    destruct Hb as [Hvalid _]. eexists. split; [done|]. split; [done|].
    cbn [proof_valid truthy mp_to_dict dgetN dget String.eqb Ascii.eqb Bool.eqb default from_option id andb].
    rewrite Hvalid. destruct events; [by apply elem_of_nil in El|done]. }
  cbn [mbind res_bind]. rewrite Ht. cbn [mbind res_bind].
  erewrite validate_named_ok; [|reflexivity|reflexivity|].
  2: { eapply (timeline_packet_conforms run_id events _ proof timeline ts [_;_;_;_;_;_]); done. }
  cbn [mbind res_bind]. do 2 eexists. split; [done|]. split; [reflexivity|].
  split; [cbn [dget String.eqb Ascii.eqb Bool.eqb]; by rewrite Hv|].
  cbn [dget String.eqb Ascii.eqb Bool.eqb]. rewrite <- sequences_gapless.
  split; [intros [= H]; by apply bool_decide_eq_true in H|intros H; by rewrite bool_decide_true].
Qed.

Definition demo_event : RunEvent := {|
  ev_event_id := "e1"; ev_run_id := "r"; ev_sequence := 1; ev_stage := "queued";
  ev_event_type := "created"; ev_recorded_at := "2025-01-01T00:00:00Z"; ev_payload := [];
  ev_summary := None; ev_merkle_leaf_hash := None; ev_artifact_key := None;
  ev_integration_name := None; ev_status := None |}.

Lemma timeline_proof_checks_witness :
  ∃ packet checks, build_timeline_proof "r" [demo_event] None None "t" = Ok packet
    ∧ dget "checks" packet = Some (VDict checks)
    ∧ dget "latest_event_proof_valid" checks = Some (VBool true)
    ∧ (dget "sequence_gapless" checks = Some (VBool true)
       ↔ ∀ i e, nth_error [demo_event] i = Some e → ev_sequence e = Z.of_nat (S i)).
Proof.
  apply (timeline_proof_checks "r" [demo_event] "t"). constructor; [|constructor].
  split; [discriminate|vm_compute; reflexivity].
Defined.

(** Before 1970 the seconds are truncated towards zero while the fraction
    is counted forwards, so half a second before the epoch is exported as half
    a second after it, and two different instants get one timestamp. *)
Theorem time_unix_nano_before_epoch :
  time_unix_nano "1969-12-31T23:59:59.500000Z" = Ok (VInt 500000000)
  ∧ time_unix_nano "1970-01-01T00:00:00.500000Z" = Ok (VInt 500000000).
Proof. split; vm_compute; reflexivity. Qed.
