(* ===== verification/RunAdmission.v ===== *)
(** * Run admission

    [src/shared/mesh_runtime/run_admission.py]: whether a run may start, from
    the depth of the queue, the tenant's quota and the lock on the target. *)

From S2P Require Import Prelude PyFloat PyValue Json SchemaValidation Schemas Models.

(** [str(d.get(key) or "unknown")] *)
Definition str_or_unknown (key : string) (d : dict) : string :=
  py_str (py_or (dgetN key d) (VStr "unknown")).

(** [str(d.get(key) or "unknown").strip() or "unknown"] *)
Definition stripped_or_unknown (key : string) (d : dict) : string :=
  let s := str_strip (str_or_unknown key d) in
  if String.eqb s "" then "unknown" else s.

Definition build_target_lock_key (ownership_boundary : dict) : string :=
  let service := stripped_or_unknown "service" ownership_boundary in
  let environment := stripped_or_unknown "environment" ownership_boundary in
  let tenant_id := stripped_or_unknown "tenant_id" ownership_boundary in
  tenant_id +:+ ":" +:+ environment +:+ ":" +:+ service.

(** [bool(target_lock_holder)] *)
Definition lock_held (holder : option string) : bool :=
  match holder with Some h => negb (String.eqb h "") | None => false end.

Definition admission_blockers (queue_depth queue_size tenant_active_runs tenant_active_run_quota : Z)
    (target_lock_holder : option string) : list string :=
  (if queue_size <=? queue_depth then ["run_queue_full"] else [])
  ++ (if (0 <? tenant_active_run_quota) && (tenant_active_run_quota <=? tenant_active_runs)
      then ["tenant_active_run_quota_exceeded"] else [])
  ++ (if lock_held target_lock_holder then ["target_lock_held"] else []).

(** [timestamp] is the formatted clock reading. *)
Definition build_run_admission (run_id : string) (ownership_boundary : dict)
    (queue_depth queue_size worker_count tenant_active_runs tenant_active_run_quota : Z)
    (target_lock_holder : option string) (timestamp : string) : res dict :=
  let tenant_id := str_or_unknown "tenant_id" ownership_boundary in
  let target_lock_key := build_target_lock_key ownership_boundary in
  let blockers := admission_blockers queue_depth queue_size tenant_active_runs
                    tenant_active_run_quota target_lock_holder in
  let packet :=
    [("schema_version", VStr "mesh.run_admission.v1");
     ("generated_at", VStr timestamp);
     ("decision", VStr (match blockers with [] => "admitted" | _ => "blocked" end));
     ("run_id", VStr run_id);
     ("tenant_id", VStr tenant_id);
     ("target_lock_key", VStr target_lock_key);
     ("queue", VDict
        [("current_depth", VInt (Z.max queue_depth 0));
         ("max_size", VInt (Z.max queue_size 0));
         ("worker_count", VInt (Z.max worker_count 0))]);
     ("quotas", VDict
        [("tenant_active_runs", VInt (Z.max tenant_active_runs 0));
         ("tenant_active_run_quota", VInt (Z.max tenant_active_run_quota 0))]);
     ("lock", VDict
        [("granted", VBool (negb (lock_held target_lock_holder)));
         ("holder_run_id", opt_str target_lock_holder)]);
     ("blockers", strs blockers)] in
  _ ← validate_named "run-admission.schema.json" packet;
  Ok packet.

(** Every packet is well formed. *)
Lemma admission_packet_valid run_id boundary qd qs wc tr tq holder ts :
  is_ok (build_run_admission run_id boundary qd qs wc tr tq holder ts) = true.
Proof.
  unfold build_run_admission. erewrite validate_named_ok; [done|reflexivity|reflexivity|].
  set (blockers := admission_blockers _ _ _ _ _).
  conform_step; try (by conform_step); [destruct blockers; conform_step|..|by apply conforms_strs].
  - conform_step; conform_step.
  - conform_step; conform_step.
  - conform_step; [conform_step|]. destruct holder; conform_step.
Qed.

(** ** Lock keys *)

Definition no_colon (s : string) : bool := negb (existsb (Ascii.eqb ":"%char) (str_chars s)).

Lemma colon_split_inj a b a' b' :
  no_colon a = true → no_colon a' = true →
  a +:+ ":" +:+ b = a' +:+ ":" +:+ b' → a = a' ∧ b = b'.
Proof.
  unfold no_colon. rewrite !negb_true_iff. revert a'.
  induction a as [|c a IH]; intros [|c' a'] Ha Ha' H;
    cbn [str_chars existsb] in Ha, Ha'; try apply orb_false_iff in Ha as [Hc Ha];
    try apply orb_false_iff in Ha' as [Hc' Ha'].
  - by injection H.
  - injection H as <- H. by rewrite Ascii.eqb_refl in Hc'.
  - injection H as -> H. by rewrite Ascii.eqb_refl in Hc.
  - injection H as -> H. destruct (IH a' Ha Ha' H) as [-> ->]. done.
Qed.

Lemma lock_key_eq b :
  build_target_lock_key b
  = stripped_or_unknown "tenant_id" b +:+ ":" +:+ stripped_or_unknown "environment" b
    +:+ ":" +:+ stripped_or_unknown "service" b.
Proof. done. Qed.

(** ** The guarantees *)

(** Admission always yields a schema-valid packet, and the run is admitted
    exactly when the queue has room, the tenant is under its quota (or has
    none) and nobody holds the target lock. *)
Theorem run_admission_decides run_id boundary qd qs wc tr tq holder ts :
  ∃ packet, build_run_admission run_id boundary qd qs wc tr tq holder ts = Ok packet
    ∧ validate_named "run-admission.schema.json" packet = Ok ()
    ∧ (dget "decision" packet = Some (VStr "admitted")
       ↔ qd < qs ∧ (tq <= 0 ∨ tr < tq) ∧ (holder = None ∨ holder = Some "")).
Proof.
  pose proof (admission_packet_valid run_id boundary qd qs wc tr tq holder ts) as Hok.
  destruct (build_run_admission run_id boundary qd qs wc tr tq holder ts) as [packet|] eqn:Hb;
    [|done]. exists packet. split; [done|]. unfold build_run_admission in Hb.
  apply res_bind_Ok in Hb as ([] & Hv & Hb). injection Hb as <-. split; [exact Hv|]. clear Hv.
  cbn [dget String.eqb Ascii.eqb Bool.eqb]. unfold admission_blockers.
  assert (lock_held holder = false ↔ holder = None ∨ holder = Some "") as Hlock.
  { destruct holder as [h|]; simpl; [|tauto]. rewrite negb_false_iff, String.eqb_eq.
    split; [intros ->; auto|by intros [|[= ->]]]. }
  rewrite <- Hlock. clear Hlock Hok.
  destruct (qs <=? qd) eqn:E1; [split; [done|lia]|].
  destruct (0 <? tq) eqn:E2, (tq <=? tr) eqn:E3, (lock_held holder); simpl; split; try done; lia.
Qed.

(** Targets whose tenant, environment and service contain no colon have
    the same lock exactly when all three agree, so locks neither collide nor
    split a target. *)
Theorem target_lock_key_injective b b' :
  no_colon (stripped_or_unknown "tenant_id" b) = true →
  no_colon (stripped_or_unknown "tenant_id" b') = true →
  no_colon (stripped_or_unknown "environment" b) = true →
  no_colon (stripped_or_unknown "environment" b') = true →
  build_target_lock_key b = build_target_lock_key b' ↔
  stripped_or_unknown "tenant_id" b = stripped_or_unknown "tenant_id" b'
  ∧ stripped_or_unknown "environment" b = stripped_or_unknown "environment" b'
  ∧ stripped_or_unknown "service" b = stripped_or_unknown "service" b'.
Proof.
  intros H1 H2 H3 H4. rewrite !lock_key_eq. split; [|by intros (-> & -> & ->)].
  intros H. apply colon_split_inj in H as [-> H]; [|done..].
  by apply colon_split_inj in H as [-> ->].
Qed.

Lemma target_lock_key_injective_witness :
  let b := [("tenant_id", VStr " acme "); ("environment", VStr "prod"); ("service", VNone)] in
  let b' := [("tenant_id", VStr "acme"); ("environment", VStr "prod")] in
  build_target_lock_key b = build_target_lock_key b'.
Proof.
  intros b b'. apply (target_lock_key_injective b b'); [reflexivity..|].
  split; [reflexivity|]. split; reflexivity.
Defined.

(** Without that condition two targets can share a lock. *)
Example target_lock_key_collision :
  build_target_lock_key
    [("tenant_id", VStr "a:b"); ("environment", VStr "c"); ("service", VStr "s")]
  = build_target_lock_key
    [("tenant_id", VStr "a"); ("environment", VStr "b:c"); ("service", VStr "s")].
Proof. reflexivity. Qed.
