(* ===== verification/ExecutionAttempts.v ===== *)
(** * Execution attempts

    [src/shared/mesh_runtime/execution_attempts.py]: the durable ledger that
    keeps a side-effecting command from being replayed after a crash.  The
    dangerous state is a dispatched command with no recorded outcome. *)

From S2P Require Import Prelude PyFloat PyValue Json JsonStore.

(** [payload.setdefault("attempts", {})], on which the code calls [get] or
    [setdefault]: anything but a dictionary has no such method. *)
Definition attempts_table (payload : dict) : res (dict * dict) :=
  match dsetdefault "attempts" (VDict []) payload with
  | (VDict attempts, payload') => Ok (attempts, payload')
  | _ => raise AttributeError "object has no attribute 'get'"
  end.

Section store.
(** The path of the ledger, for messages only. *)
Variable path : string.

(** [get] *)
Definition attempt_get (f : file) (idempotency_key : string) : res (option dict) * file :=
  locked_json true path f (λ payload,
    let record :=
      match dget_or "attempts" (VDict []) payload with
      | VDict attempts => dgetN idempotency_key attempts
      | _ => VNone
      end in
    Ok (as_dict record, payload)).

(** [begin]; [now] is the formatted clock reading. *)
Definition attempt_begin (f : file) (idempotency_key decision_id : string) (plan : dict)
    (now : string) : res dict * file :=
  locked_json true path f (λ payload,
    table ← attempts_table payload;
    let '(attempts, payload') := (table : dict * dict) in
    record ←
      match dgetN idempotency_key attempts with
      | VDict record =>
          count ← py_int (py_or (dget_or "attempt_count" (VInt 0) record) (VInt 0));
          Ok (dset "updated_at" (VStr now) (dset "attempt_count" (VInt (count + 1)) record))
      | _ =>
          Ok [("idempotency_key", VStr idempotency_key);
              ("decision_id", VStr decision_id);
              ("system", dgetN "system" plan);
              ("action", dgetN "action" plan);
              ("status", VStr "attempt_started");
              ("attempt_count", VInt 1);
              ("created_at", VStr now);
              ("updated_at", VStr now)]
      end;
    Ok (record, dset "attempts" (VDict (dset idempotency_key (VDict record) attempts)) payload')).

(** [_update]; [created] and [updated] are the two clock readings. *)
Definition attempt_update (f : file) (idempotency_key : string) (updates : dict)
    (created updated : string) : res dict * file :=
  locked_json true path f (λ payload,
    table ← attempts_table payload;
    let '(attempts, payload') := (table : dict * dict) in
    let '(record, attempts') :=
      dsetdefault idempotency_key
        (VDict [("idempotency_key", VStr idempotency_key);
                ("status", VStr "attempt_started");
                ("attempt_count", VInt 0);
                ("created_at", VStr created)]) attempts in
    match record with
    | VDict record =>
        let record := dset "updated_at" (VStr updated) (dupdate record updates) in
        Ok (record, dset "attempts" (VDict (dset idempotency_key (VDict record) attempts')) payload')
    | _ => raise AttributeError "object has no attribute 'update'"
    end).

(** [mark_dispatched] *)
Definition attempt_mark_dispatched (f : file) (idempotency_key now created updated : string)
    : res dict * file :=
  attempt_update f idempotency_key
    [("status", VStr "remote_command_dispatched"); ("dispatched_at", VStr now)] created updated.

(** [complete] *)
Definition attempt_complete (f : file) (idempotency_key status : string) (external_refs : dict)
    (failure : option dict) (now created updated : string) : res dict * file :=
  attempt_update f idempotency_key
    [("status", VStr status);
     ("completed_at", VStr now);
     ("external_refs", VDict external_refs);
     ("failure", match failure with Some d => VDict d | None => VNone end)] created updated.
End store.

Definition terminal_statuses : list string := ["succeeded"; "failed"; "rejected"].

(** [has_terminal_outcome] *)
Definition has_terminal_outcome (record : option dict) : res bool :=
  match record with
  | Some ((_ :: _) as r) => in_str_set (dgetN "status" r) terminal_statuses
  | _ => Ok false
  end.

(** [dispatched_without_outcome] *)
Definition dispatched_without_outcome (record : option dict) : bool :=
  match record with
  | Some ((_ :: _) as r) => is_string "remote_command_dispatched" (dgetN "status" r)
  | _ => false
  end.

(** ** The status of a key *)

Definition status_path (key : string) : list string := ["attempts"; key; "status"].

Definition file_status (f : file) (key s : string) : Prop := file_has f (status_path key) s.

Lemma dpath_status key s payload :
  dpath (status_path key) (VDict payload) = Some (VStr s) →
  ∃ attempts r, dget "attempts" payload = Some (VDict attempts)
    ∧ dget key attempts = Some (VDict r) ∧ dget "status" r = Some (VStr s).
Proof.
  unfold status_path. cbn [dpath].
  destruct (dget "attempts" payload) as [[| | | | | |attempts]|]; try done.
  destruct (dget key attempts) as [[| | | | | |r]|] eqn:Er; try done.
  destruct (dget "status" r) as [v|] eqn:E; [|done]. intros [= ->].
  exists attempts, r. done.
Qed.

Lemma status_dpath key s payload attempts r :
  dget "attempts" payload = Some (VDict attempts) → dget key attempts = Some (VDict r) →
  dget "status" r = Some (VStr s) → dpath (status_path key) (VDict payload) = Some (VStr s).
Proof. intros H1 H2 H3. unfold status_path. cbn [dpath]. by rewrite H1, H2, H3. Qed.

Lemma attempts_table_Ok payload attempts payload' :
  attempts_table payload = Ok (attempts, payload') →
  (dget "attempts" payload = Some (VDict attempts) ∧ payload' = payload)
  ∨ (dget "attempts" payload = None ∧ attempts = []).
Proof.
  unfold attempts_table, dsetdefault. destruct (dget "attempts" payload) as [v|]; intros H.
  - destruct v; try done. injection H as <- <-. by left.
  - injection H as <- <-. by right.
Qed.

(** What [get] sees of a key whose status is known. *)
Lemma attempt_get_status path f key s :
  file_status f key s →
  ∃ r, attempt_get path f key = (Ok (Some r), f) ∧ dget "status" r = Some (VStr s).
Proof.
  intros (d & Hd & Hs). apply dpath_status in Hs as (attempts & r & H1 & H2 & H3).
  exists r. split; [|done]. unfold attempt_get, dget_or.
  erewrite locked_json_Ok; [|exact Hd|rewrite H1; cbn [default from_option id];
    rewrite (dgetN_Some _ _ _ H2); reflexivity].
  by rewrite locked_exit_unchanged by (by left).
Qed.

(** ** The guarantees *)

(** The calls a process makes on the ledger, with their clock readings. *)
Inductive attempt_call :=
  | Begin (key decision_id : string) (plan : dict) (now : string)
  | Dispatch (key now created updated : string)
  | Complete (key status : string) (refs : dict) (failure : option dict)
             (now created updated : string)
  | Get (key : string).

Definition attempt_call_file (path : string) (f : file) (c : attempt_call) : file :=
  match c with
  | Begin key dec plan now => (attempt_begin path f key dec plan now).2
  | Dispatch key now created updated => (attempt_mark_dispatched path f key now created updated).2
  | Complete key status refs failure now created updated =>
      (attempt_complete path f key status refs failure now created updated).2
  | Get key => (attempt_get path f key).2
  end.

Definition completes (key : string) (c : attempt_call) : bool :=
  match c with Complete k _ _ _ _ _ _ => String.eqb k key | _ => false end.

Lemma status_other key k s payload attempts v payload' :
  k ≠ key → dpath (status_path key) (VDict payload) = Some (VStr s) →
  attempts_table payload = Ok (attempts, payload') →
  dpath (status_path key) (VDict (dset "attempts" (VDict (dset k v attempts)) payload'))
  = Some (VStr s).
Proof.
  intros Hk Hs Ht. apply dpath_status in Hs as (att & r & H1 & H2 & H3).
  apply attempts_table_Ok in Ht as [[H1' ->]|[H1' _]]; [|congruence]. simplify_eq.
  eapply status_dpath; [apply dget_dset_eq| |exact H3].
  rewrite dget_dset_ne; [done|]. apply String.eqb_neq. congruence.
Qed.

Lemma status_same key s payload attempts payload' :
  dpath (status_path key) (VDict payload) = Some (VStr s) →
  attempts_table payload = Ok (attempts, payload') →
  payload' = payload ∧ ∃ r, dget key attempts = Some (VDict r) ∧ dget "status" r = Some (VStr s).
Proof.
  intros Hs Ht. apply dpath_status in Hs as (att & r & H1 & H2 & H3).
  apply attempts_table_Ok in Ht as [[H1' ->]|[H1' _]]; [|congruence]. simplify_eq. eauto.
Qed.

Lemma begin_keeps_status path f key k dec plan now s :
  file_status f key s → file_status (attempt_begin path f k dec plan now).2 key s.
Proof.
  apply locked_json_keeps. intros d r d' Hs Hb. res_inv Hb.
  destruct x as [attempts payload']. res_inv Hb.
  destruct (decide (k = key)) as [->|Hk]; [|by eapply status_other].
  destruct (status_same _ _ _ _ _ Hs Hx) as [-> (r0 & Hr & Hst)].
  rewrite (dgetN_Some _ _ _ Hr) in Hx0. res_inv Hx0.
  eapply status_dpath; [apply dget_dset_eq|apply dget_dset_eq|].
  rewrite !dget_dset. by cbn [String.eqb Ascii.eqb Bool.eqb].
Qed.

(** [update] of a key leaves the status of the others alone, and sets that of
    its own key to the status among the updates. *)
Lemma update_keeps_other path f key k updates created updated s :
  k ≠ key → file_status f key s → file_status (attempt_update path f k updates created updated).2 key s.
Proof.
  intros Hk. apply locked_json_keeps. intros d r d' Hs Hb. res_inv Hb.
  destruct x as [attempts payload']. unfold dsetdefault in Hb.
  assert (∀ v, dpath (status_path key) (VDict (dset "attempts" (VDict (dset k v attempts)) payload'))
    = Some (VStr s)) as Hother by (intros v; by eapply status_other).
  destruct (dget k attempts) as [[| | | | | |r0]|] eqn:Er; try done; res_inv Hb; [apply Hother|].
  destruct (status_same _ _ _ _ _ Hs Hx) as [-> (r1 & Hr & Hst)].
  eapply status_dpath; [apply dget_dset_eq| |exact Hst].
  assert (String.eqb key k = false) as E by (apply String.eqb_neq; congruence).
  by rewrite !dget_dset_ne.
Qed.

(** [record\["status"\]] after [record.update(updates)] *)
Lemma dget_dupdate k d e : dget k (dupdate d e) = match dget k (rev e) with Some v => Some v | None => dget k d end.
Proof.
  unfold dupdate. revert d. induction e as [|[k' v] e IH]; intros d; [done|]. cbn [fold_left].
  rewrite IH. simpl. rewrite dget_app. destruct (dget k (rev e)); [done|]. simpl.
  rewrite dget_dset. by destruct (String.eqb k k').
Qed.

Lemma update_sets_status path f d key updates created updated r f' s :
  file_payload f = Some d → dget "status" (rev updates) = Some (VStr s) →
  attempt_update path f key updates created updated = (Ok r, f') → file_status f' key s.
Proof.
  intros Hd Hs. apply (locked_json_has _ _ _ _ _ _ _ _ _ Hd). intros d' Hb. res_inv Hb.
  destruct x as [attempts payload']. destruct (dsetdefault key _ attempts) as [rec att'] eqn:E.
  destruct rec as [| | | | | |r0]; try done. cbv zeta in Hb. injection Hb as _ <-.
  eapply status_dpath; [apply dget_dset_eq|apply dget_dset_eq|].
  rewrite dget_dset_ne, dget_dupdate by done. by rewrite Hs.
Qed.

Lemma dispatch_keeps_dispatched path f key k now created updated :
  file_status f key "remote_command_dispatched" →
  file_status (attempt_mark_dispatched path f k now created updated).2 key
    "remote_command_dispatched".
Proof.
  intros Hf. destruct (decide (k = key)) as [->|Hk]; [|by unfold attempt_mark_dispatched; apply update_keeps_other].
  destruct (attempt_mark_dispatched path f key now created updated) as [[r|e] f'] eqn:H; simpl.
  - destruct Hf as (d & Hd & _). by eapply update_sets_status; [exact Hd| |exact H].
  - destruct Hf as (d & Hd & Hs). unfold attempt_mark_dispatched, attempt_update, locked_json in H.
    rewrite (locked_enter_payload _ _ _ _ Hd) in H.
    match type of H with (match ?b with _ => _ end) = _ => destruct b as [[? ?]|] end;
      [done|]. injection H as _ <-. by exists d.
Qed.

(** Every call but the completion of the key keeps it dispatched. *)
Lemma call_keeps_dispatched path f key c :
  completes key c = false → file_status f key "remote_command_dispatched" →
  file_status (attempt_call_file path f c) key "remote_command_dispatched".
Proof.
  intros Hc Hf. destruct c; cbn [attempt_call_file completes] in *.
  - by apply begin_keeps_status.
  - by apply dispatch_keeps_dispatched.
  - apply update_keeps_other; [by apply String.eqb_neq|done].
  - by apply locked_json_keeps; [intros d a d' Hs [= _ <-]|].
Qed.

(** Once a command has been marked dispatched, no sequence of calls by any
    process - new attempts at the same key, other keys, repeated marks - hides
    that its outcome is unknown, until the key is completed. *)
Theorem dispatched_until_completed path f key now created updated r f1 calls :
  (∃ d, file_payload f = Some d) →
  attempt_mark_dispatched path f key now created updated = (Ok r, f1) →
  forallb (λ c, negb (completes key c)) calls = true →
  ∃ r', (attempt_get path (fold_left (attempt_call_file path) calls f1) key).1 = Ok (Some r')
    ∧ dispatched_without_outcome (Some r') = true.
Proof.
  intros [d Hd] Hm Hcalls.
  assert (file_status f1 key "remote_command_dispatched") as H1 by (by eapply update_sets_status; [exact Hd| |exact Hm]).
  clear Hm. revert f1 H1. induction calls as [|c calls IH]; intros f1 H1; cbn [fold_left].
  - destruct (attempt_get_status path f1 key _ H1) as (r' & Hg & Hst). exists r'. rewrite Hg.
    split; [done|]. unfold dispatched_without_outcome. destruct r'; [done|].
    by rewrite (dgetN_Some _ _ _ Hst).
  - apply andb_true_iff in Hcalls as [Hc Hcalls]. apply IH; [done|].
    apply call_keeps_dispatched; [by apply negb_true_iff|done].
Qed.

Lemma dispatched_until_completed_witness :
  let calls := [Begin "k" "d2" [] "t3"; Complete "other" "failed" [] None "t" "t" "t"; Get "k"] in
  ∃ r', (attempt_get "p" (fold_left (attempt_call_file "p") calls
          (attempt_mark_dispatched "p" no_file "k" "t0" "t1" "t2").2) "k").1 = Ok (Some r')
    ∧ dispatched_without_outcome (Some r') = true.
Proof.
  intros calls. eapply (dispatched_until_completed "p" no_file "k" "t0" "t1" "t2").
  - exists []. reflexivity.
  - reflexivity.
  - reflexivity.
Defined.

(** Completing a dispatched command records its outcome: it is no longer
    dispatched without an outcome, and it counts as terminal exactly for the
    three terminal statuses. *)
Theorem completed_outcome path f key status refs failure now created updated r f1 :
  (∃ d, file_payload f = Some d) →
  attempt_complete path f key status refs failure now created updated = (Ok r, f1) →
  ∃ r', (attempt_get path f1 key).1 = Ok (Some r')
    ∧ has_terminal_outcome (Some r') = Ok (mem_str status terminal_statuses)
    ∧ dispatched_without_outcome (Some r') = String.eqb "remote_command_dispatched" status.
Proof.
  intros [d Hd] Hm.
  assert (file_status f1 key status) as H1 by (by eapply update_sets_status; [exact Hd| |exact Hm]).
  destruct (attempt_get_status path f1 key _ H1) as (r' & Hg & Hst). exists r'. rewrite Hg.
  split; [done|]. destruct r' as [|kv r']; [done|].
  unfold has_terminal_outcome, dispatched_without_outcome. by rewrite (dgetN_Some _ _ _ Hst).
Qed.

Lemma completed_outcome_witness :
  ∃ r', (attempt_get "p" (attempt_complete "p" no_file "k" "failed" [] None "t0" "t1" "t2").2 "k").1
      = Ok (Some r')
    ∧ has_terminal_outcome (Some r') = Ok true ∧ dispatched_without_outcome (Some r') = false.
Proof.
  eapply (completed_outcome "p" no_file "k" "failed" [] None "t0" "t1" "t2").
  - exists []. reflexivity.
  - reflexivity.
Defined.
