(* ===== verification/DeferredRuns.v ===== *)
(** * Deferred runs

    [src/shared/mesh_runtime/deferred_runs.py]: runs parked until a due time,
    claimed by whoever polls first. *)

From S2P Require Import Prelude PyFloat PyValue Json JsonStore DateTime.

(** [parse_iso] of [str(v)], [None] when it raises. *)
Definition parse_iso_value (v : value) : option datetime := parse_iso_z (py_str v).

(** The items of [payload.setdefault("deferred_runs", \[\])] that the loops
    look at: only a list has dictionaries in it. *)
Definition deferred_items (records : value) : res (list value) :=
  match records with
  | VList l => Ok l
  | VDict _ | VStr _ => Ok []
  | _ => raise TypeError "object is not iterable"
  end.

(** [isinstance(record, dict) and record.get("status") == "pending"] *)
Definition is_pending (record : value) : bool :=
  match record with VDict r => is_string "pending" (dgetN "status" r) | _ => false end.

(** The record of [create]; [hex] is the random identifier. *)
Definition deferred_record (hex source_run_id due_at : string) (signal_payload parameters : dict)
    (now : string) : dict :=
  [("defer_id", VStr ("defer_" +:+ hex));
   ("source_run_id", VStr source_run_id);
   ("due_at", VStr due_at);
   ("signal_payload", VDict signal_payload);
   ("parameters", VDict parameters);
   ("status", VStr "pending");
   ("created_at", VStr now);
   ("claimed_at", VNone);
   ("child_run_id", VNone)].

Definition claimed_record (stamp : string) (r : dict) : dict :=
  dset "claimed_at" (VStr stamp) (dset "status" (VStr "claimed") r).

(** Is a pending record due?  A due time that does not parse counts as now. *)
Definition is_due (now : datetime) (r : dict) : res bool :=
  let due_at := default now (parse_iso_value (dgetN "due_at" r)) in
  late ← dt_ltb now due_at;
  Ok (negb late).

(** The loop of [claim_due]: [n] records are claimed already, [stamp i] is the
    clock reading of the [i]-th claim.  Returns the mutated records and the
    claimed copies. *)
Fixpoint claim_loop (now : datetime) (stamp : nat → string) (limit : Z) (n : nat)
    (records : list value) : res (list value * list dict) :=
  match records with
  | [] => Ok ([], [])
  | record :: rest =>
      if limit <=? Z.of_nat n then Ok (records, [])
      else
        match record with
        | VDict r =>
            if is_pending record then
              due ← is_due now r;
              if (due : bool) then
                let r' := claimed_record (stamp n) r in
                out ← claim_loop now stamp limit (S n) rest;
                Ok (VDict r' :: out.1, r' :: out.2)
              else
                out ← claim_loop now stamp limit n rest;
                Ok (record :: out.1, out.2)
            else
              out ← claim_loop now stamp limit n rest;
              Ok (record :: out.1, out.2)
        | _ =>
            out ← claim_loop now stamp limit n rest;
            Ok (record :: out.1, out.2)
        end
  end.

(** The first record with the identifier, updated. *)
Fixpoint update_first (defer_id : string) (change : dict → dict) (records : list value) : list value :=
  match records with
  | [] => []
  | VDict r :: rest =>
      if is_string defer_id (dgetN "defer_id" r) then VDict (change r) :: rest
      else VDict r :: update_first defer_id change rest
  | record :: rest => record :: update_first defer_id change rest
  end.

(** The payload after a loop over its records. *)
Definition with_records (records : value) (l : list value) (payload : dict) : dict :=
  match records with VList _ => dset "deferred_runs" (VList l) payload | _ => payload end.

Section store.
(** The path of the state file, for messages only. *)
Variable path : string.

(** [create] *)
Definition deferred_create (f : file) (hex source_run_id due_at : string)
    (signal_payload parameters : dict) (now : string) : res dict * file :=
  let record := deferred_record hex source_run_id due_at signal_payload parameters now in
  locked_json true path f (λ payload,
    let '(records, payload') := dsetdefault "deferred_runs" (VList []) payload in
    match records with
    | VList l => Ok (record, dset "deferred_runs" (VList (l ++ [VDict record])) payload')
    | _ => raise AttributeError "object has no attribute 'append'"
    end).

(** [claim_due] *)
Definition claim_due (f : file) (now : datetime) (stamp : nat → string) (limit : Z)
    : res (list dict) * file :=
  locked_json true path f (λ payload,
    let '(records, payload') := dsetdefault "deferred_runs" (VList []) payload in
    l ← deferred_items records;
    out ← claim_loop now stamp limit 0 l;
    Ok (out.2, with_records records out.1 payload')).

(** The two marks: the first record with the identifier gets the fields. *)
Definition deferred_mark (f : file) (defer_id : string) (change : dict → dict) : res unit * file :=
  locked_json true path f (λ payload,
    let '(records, payload') := dsetdefault "deferred_runs" (VList []) payload in
    l ← deferred_items records;
    Ok ((), with_records records (update_first defer_id change l) payload')).

Definition mark_spawned (f : file) (defer_id child_run_id now : string) : res unit * file :=
  deferred_mark f defer_id (λ r,
    dset "updated_at" (VStr now)
      (dset "child_run_id" (VStr child_run_id) (dset "status" (VStr "spawned") r))).

Definition mark_failed (f : file) (defer_id reason now : string) : res unit * file :=
  deferred_mark f defer_id (λ r,
    dset "updated_at" (VStr now)
      (dset "failure" (VDict [("reason", VStr reason)]) (dset "status" (VStr "failed") r))).
End store.

(** ** Pending records by identifier *)

Definition pending_id (id : string) (record : value) : bool :=
  is_pending record
  && match record with VDict r => is_string id (dgetN "defer_id" r) | _ => false end.

Definition count_pending (id : string) (l : list value) : nat := length (List.filter (pending_id id) l).

Definition payload_items (d : dict) : list value :=
  match dgetN "deferred_runs" d with VList l => l | _ => [] end.

Definition file_pending (id : string) (f : file) : nat :=
  count_pending id (payload_items (file_contents f)).

Lemma pending_id_sort id v : pending_id id (json_sort v) = pending_id id v.
Proof.
  destruct v as [| | | | | |r]; try done. rewrite json_sort_dict. unfold pending_id, is_pending.
  rewrite !dgetN_sort_dict, !is_string_sort. done.
Qed.

Lemma count_pending_sort id l : count_pending id (map json_sort l) = count_pending id l.
Proof.
  unfold count_pending. induction l as [|v l IH]; [done|]. simpl. rewrite pending_id_sort.
  destruct (pending_id id v); simpl; by rewrite IH.
Qed.

Lemma payload_items_sort d : payload_items (sort_dict d) = map json_sort (payload_items d).
Proof.
  unfold payload_items. rewrite dgetN_sort_dict. by destruct (dgetN "deferred_runs" d).
Qed.

Lemma file_pending_sort id f d :
  file_payload f = Some (sort_dict d) → file_pending id f = count_pending id (payload_items d).
Proof.
  intros H. unfold file_pending, file_contents. rewrite H. simpl.
  by rewrite payload_items_sort, count_pending_sort.
Qed.

(** What the loop does to the number of pending records of an identifier. *)
Definition claimed_of (id : string) (claimed : list dict) : nat :=
  length (List.filter (λ r, is_string id (dgetN "defer_id" r)) claimed).

Lemma claimed_record_fields stamp r :
  dgetN "status" (claimed_record stamp r) = VStr "claimed"
  ∧ dgetN "defer_id" (claimed_record stamp r) = dgetN "defer_id" r.
Proof. unfold claimed_record. simp_rec. done. Qed.

Lemma py_eq_list_cons x y l m :
  py_eq (VList (x :: l)) (VList (y :: m)) = py_eq x y && py_eq (VList l) (VList m).
Proof. done. Qed.

Lemma claimed_not_equal stamp r :
  is_string "pending" (dgetN "status" r) = true →
  py_eq (VDict (claimed_record stamp r)) (VDict r) = false.
Proof.
  intros Hp. apply not_true_is_false. intros Heq.
  assert (dget "status" (claimed_record stamp r) = Some (VStr "claimed")) as Hs.
  { unfold claimed_record. rewrite dget_dset_ne by done. apply dget_dset_eq. }
  destruct (py_eq_dict_dget _ _ _ _ Heq Hs) as (w & Hw & Hcw).
  rewrite (dgetN_Some _ _ _ Hw) in Hp. apply is_string_true in Hp as ->. done.
Qed.

Lemma claim_loop_pending now stamp limit id l : ∀ n l' claimed,
  claim_loop now stamp limit n l = Ok (l', claimed) →
  (count_pending id l' + claimed_of id claimed = count_pending id l)%nat
  ∧ (claimed ≠ [] → py_eq (VList l') (VList l) = false).
Proof.
  induction l as [|v l IH]; intros n l' claimed H; cbn [claim_loop] in H; [by res_inv H|].
  destruct (limit <=? Z.of_nat n); [by res_inv H|].
  assert (∀ m out, claim_loop now stamp limit m l = Ok out →
    (count_pending id (v :: out.1) + claimed_of id out.2 = count_pending id (v :: l))%nat
    ∧ (out.2 ≠ [] → py_eq (VList (v :: out.1)) (VList (v :: l)) = false)) as Hskip.
  { intros m [l1 c1] Hm. destruct (IH _ _ _ Hm) as [H1 H2]. cbn [fst snd].
    unfold count_pending in *. cbn [List.filter]. split.
    - destruct (pending_id id v); simpl; lia.
    - intros Hc. by rewrite py_eq_list_cons, H2, andb_false_r. }
  destruct v as [| | | | | |r];
    try (apply res_bind_Ok in H as (out & Hout & H); injection H as <- <-; by eapply Hskip).
  destruct (is_pending (VDict r)) eqn:Hp;
    [|apply res_bind_Ok in H as (out & Hout & H); injection H as <- <-; by eapply Hskip].
  apply res_bind_Ok in H as (due & Hdue & H). destruct due;
    [|apply res_bind_Ok in H as (out & Hout & H); injection H as <- <-; by eapply Hskip].
  cbv zeta in H. apply res_bind_Ok in H as ([l1 c1] & Hout & H). injection H as <- <-.
  destruct (IH _ _ _ Hout) as [H1 _]. cbn [fst snd].
  destruct (claimed_record_fields (stamp n) r) as [Hst Hid]. split.
  - unfold count_pending, claimed_of in *. cbn [List.filter].
    rewrite Hid. unfold pending_id at 1. cbn [is_pending]. rewrite Hst.
    cbn [is_string String.eqb Ascii.eqb Bool.eqb andb].
    unfold pending_id at 2. rewrite Hp. destruct (is_string id (dgetN "defer_id" r)); simpl; lia.
  - intros _. rewrite py_eq_list_cons, claimed_not_equal; [done|exact Hp].
Qed.

Lemma update_first_pending id did change l :
  (∀ r, is_string "pending" (dgetN "status" (change r)) = false) →
  (count_pending id (update_first did change l) <= count_pending id l)%nat.
Proof.
  intros Hc. induction l as [|v l IH]; [done|]. unfold count_pending in *.
  destruct v as [| | | | | |r]; cbn [update_first]; try (cbn [List.filter];
    destruct (pending_id id _); simpl; lia).
  destruct (is_string did (dgetN "defer_id" r)); cbn [List.filter].
  - unfold pending_id at 1. cbn [is_pending]. rewrite Hc. cbn [andb].
    destruct (pending_id id (VDict r)); simpl; lia.
  - destruct (pending_id id (VDict r)); simpl; lia.
Qed.

(** ** The sections, by their effect on the pending records *)

Lemma payload_items_set l d : payload_items (dset "deferred_runs" (VList l) d) = l.
Proof. unfold payload_items. by rewrite dgetN_dset. Qed.

Lemma deferred_items_cases d records payload' l :
  dsetdefault "deferred_runs" (VList []) d = (records, payload') → deferred_items records = Ok l →
  payload_items payload' = payload_items d ∧
  (records = VList (payload_items d) ∧ l = payload_items d
   ∨ l = [] ∧ payload_items d = [] ∧ is_list records = false).
Proof.
  unfold dsetdefault, payload_items, dgetN. destruct (dget "deferred_runs" d) as [v|] eqn:E;
    intros [= <- <-] Hl.
  - rewrite E. split; [done|]. destruct v; simpl in *; simplify_eq; auto.
  - rewrite dget_dset_eq. split; [done|]. simpl in *. simplify_eq. auto.
Qed.

(** The pending count of the file a section leaves, from that of the payload it
    computed. *)
Lemma section_pending id f f' d' :
  (file_payload f' = Some (sort_dict d')
   ∨ (file_payload f' = Some (file_contents f)
      ∧ (d' = file_contents f ∨ py_eq (VDict d') (VDict (file_contents f)) = true))) →
  file_pending id f' = count_pending id (payload_items d')
  ∨ file_pending id f' = file_pending id f
    ∧ (d' = file_contents f ∨ py_eq (VDict d') (VDict (file_contents f)) = true).
Proof.
  intros [H|[H Heq]]; [left; by apply file_pending_sort|right].
  split; [|done]. unfold file_pending. unfold file_contents at 1. by rewrite H.
Qed.

Lemma create_pending path id f hex src due sig par now r f' :
  deferred_create path f hex src due sig par now = (r, f') →
  (file_pending id f' <= (if is_ok r && String.eqb id ("defer_" +:+ hex) then 1 else 0)
                         + file_pending id f)%nat.
Proof.
  intros H. apply locked_json_cases in H. destruct r as [rec|e].
  - destruct H as (d' & Hb & Hf). apply (section_pending id) in Hf as [->|[-> _]]; [|lia].
    destruct (dsetdefault _ _ _) as [records payload'] eqn:E in Hb.
    destruct records as [| | | | |l|]; try done. injection Hb as _ <-.
    destruct (deferred_items_cases _ _ _ _ E eq_refl) as [_ [[Hl _]|[_ [_ Hl]]]]; [|done].
    injection Hl as ->. rewrite payload_items_set. unfold file_pending, count_pending.
    rewrite List.filter_app, length_app. cbn [List.filter is_ok andb].
    assert (pending_id id (VDict (deferred_record hex src due sig par now))
      = String.eqb id ("defer_" +:+ hex)) as -> by reflexivity.
    destruct (String.eqb id _); simpl; lia.
  - destruct H as [_ H]. unfold file_pending, file_contents. rewrite H. simpl. lia.
Qed.

Lemma claim_pending path id f now stamp limit r f' :
  claim_due path f now stamp limit = (r, f') →
  (match r with Ok claimed => claimed_of id claimed | Err _ => 0 end + file_pending id f'
   <= file_pending id f)%nat.
Proof.
  intros H. apply locked_json_cases in H. destruct r as [claimed|e].
  - destruct H as (d' & Hb & Hf).
    destruct (dsetdefault _ _ _) as [records payload'] eqn:E in Hb. cbv beta iota in Hb.
    apply res_bind_Ok in Hb as (l & Hl & Hb). apply res_bind_Ok in Hb as ([l1 c1] & Hc & Hb).
    injection Hb as <- <-. cbn [fst snd] in *.
    destruct (deferred_items_cases _ _ _ _ E Hl) as [Hp [[-> ->]|(-> & Hnil & Hlist)]].
    + destruct (claim_loop_pending _ _ _ id _ _ _ _ Hc) as [Hcount Hne].
      cbn [with_records] in Hf. apply (section_pending id) in Hf as [->|[-> Heq]].
      * rewrite payload_items_set. unfold file_pending. lia.
      * assert (claimed_of id c1 = 0%nat) as ->; [|lia].
        destruct Heq as [Heq|Heq].
        -- pose proof (payload_items_set l1 payload') as Hi. rewrite Heq in Hi.
           rewrite Hi in Hcount. lia.
        -- destruct c1 as [|c c1]; [done|]. specialize (Hne ltac:(done)).
           destruct (py_eq_dict_dget _ _ _ _ Heq (dget_dset_eq _ _ _)) as (w & Hw & Hlw).
           unfold payload_items in Hne. rewrite (dgetN_Some _ _ _ Hw) in Hne.
           destruct w; first [congruence|done].
    + injection Hc as <- <-. apply (section_pending id) in Hf as [->|[-> _]]; [|done].
      destruct records; try done; cbn [with_records]; rewrite Hp, Hnil; unfold count_pending; simpl; lia.
  - destruct H as [_ H]. unfold file_pending, file_contents. rewrite H. simpl. lia.
Qed.

Lemma mark_pending path id f did change r f' :
  (∀ x, is_string "pending" (dgetN "status" (change x)) = false) →
  deferred_mark path f did change = (r, f') → (file_pending id f' <= file_pending id f)%nat.
Proof.
  intros Hch H. apply locked_json_cases in H. destruct r as [u|e].
  - destruct H as (d' & Hb & Hf).
    destruct (dsetdefault _ _ _) as [records payload'] eqn:E in Hb. cbv beta iota in Hb.
    apply res_bind_Ok in Hb as (l & Hl & Hb). injection Hb as _ <-.
    apply (section_pending id) in Hf as [->|[-> _]]; [|done].
    destruct (deferred_items_cases _ _ _ _ E Hl) as [Hp [[-> ->]|(-> & Hnil & Hlist)]].
    + cbn [with_records]. rewrite payload_items_set. by apply update_first_pending.
    + destruct records; try done; cbn [with_records]; rewrite Hp, Hnil; unfold count_pending; simpl; lia.
  - destruct H as [_ H]. unfold file_pending, file_contents. by rewrite H.
Qed.

(** ** The guarantees *)

(** The calls on the store, with their clock readings and random values. *)
Inductive deferred_call :=
  | Create (hex source_run_id due_at : string) (signal_payload parameters : dict) (now : string)
  | ClaimDue (now : datetime) (stamp : nat → string) (limit : Z)
  | MarkSpawned (defer_id child_run_id now : string)
  | MarkFailed (defer_id reason now : string).

(** How often a run of calls creates and hands out the identifier [id]. *)
Fixpoint deferred_run (path id : string) (f : file) (cs : list deferred_call) : nat * nat * file :=
  match cs with
  | [] => (0%nat, 0%nat, f)
  | c :: cs' =>
      let '(created, claimed, f1) :=
        match c with
        | Create hex src due sig par now =>
            let '(r, f1) := deferred_create path f hex src due sig par now in
            ((if is_ok r && String.eqb id ("defer_" +:+ hex) then 1%nat else 0%nat), 0%nat, f1)
        | ClaimDue now stamp limit =>
            let '(r, f1) := claim_due path f now stamp limit in
            (0%nat, match r with Ok claimed => claimed_of id claimed | Err _ => 0%nat end, f1)
        | MarkSpawned did child now => (0%nat, 0%nat, (mark_spawned path f did child now).2)
        | MarkFailed did reason now => (0%nat, 0%nat, (mark_failed path f did reason now).2)
        end in
      let '(created', claimed', f2) := deferred_run path id f1 cs' in
      ((created + created')%nat, (claimed + claimed')%nat, f2)
  end.

(** However pollers, creators and markers interleave, an identifier is
    handed out at most as often as it was created: a deferred run is never
    spawned twice by [claim_due]. *)
Theorem claimed_at_most_created path id cs :
  let '(created, claimed, _) := deferred_run path id no_file cs in (claimed <= created)%nat.
Proof.
  assert (∀ f, let '(created, claimed, f') := deferred_run path id f cs in
    (claimed + file_pending id f' <= created + file_pending id f)%nat) as H.
  { induction cs as [|c cs IH]; intros f; [simpl; lia|]. cbn [deferred_run].
    assert (∀ created claimed f1,
      (claimed + file_pending id f1 <= created + file_pending id f)%nat →
      let '(created', claimed', f2) := deferred_run path id f1 cs in
      (claimed + claimed' + file_pending id f2 <= created + created' + file_pending id f)%nat)
      as Hstep.
    { intros created claimed f1 H1. specialize (IH f1).
      destruct (deferred_run path id f1 cs) as [[created' claimed'] f2]. lia. }
    destruct c.
    - destruct (deferred_create _ _ _ _ _ _ _ _) as [r f1] eqn:E.
      apply (create_pending _ id) in E. eapply (Hstep _ 0%nat) in E.
      by destruct (deferred_run path id f1 cs) as [[? ?] ?].
    - destruct (claim_due _ _ _ _ _) as [r f1] eqn:E. apply (claim_pending _ id) in E.
      apply (Hstep 0%nat) in E. by destruct (deferred_run path id f1 cs) as [[? ?] ?].
    - destruct (mark_spawned _ _ _ _ _) as [r f1] eqn:E. apply (mark_pending _ id) in E;
        [|intros x; by simp_rec]. apply (Hstep 0%nat 0%nat) in E. cbn [snd].
      by destruct (deferred_run path id f1 cs) as [[? ?] ?].
    - destruct (mark_failed _ _ _ _ _) as [r f1] eqn:E. apply (mark_pending _ id) in E;
        [|intros x; by simp_rec]. apply (Hstep 0%nat 0%nat) in E. cbn [snd].
      by destruct (deferred_run path id f1 cs) as [[? ?] ?]. }
  specialize (H no_file). destruct (deferred_run path id no_file cs) as [[created claimed] f'].
  assert (file_pending id no_file = 0%nat) as Hz by reflexivity. rewrite Hz in H. lia.
Qed.

(** A record whose due time carries no offset. *)
Definition naive_record : dict :=
  deferred_record "0" "run-1" "2025-01-01T00:00:00" [] [] "t".
Definition due_record : dict :=
  deferred_record "1" "run-2" "2025-01-01T00:00:00Z" [] [] "t".

Definition poisoned_file : file :=
  File (Some (Text (VDict [("deferred_runs", VList [VDict naive_record; VDict due_record])]))) [].

(** A pending record whose due time has no offset parses, but comparing it
    with the clock raises outside the [try]: every poll aborts with a
    [TypeError], changes nothing, and the due records behind it are never
    claimed. *)
Theorem claim_due_blocked_by_naive_time now i stamp limit :
  dt_instant now = Some i → 0 < limit →
  ∃ msg, claim_due "p" poisoned_file now stamp limit = (Err (Exc TypeError msg), poisoned_file).
Proof.
  intros Hi Hl. exists naive_aware_error. unfold claim_due.
  erewrite locked_json_Err; [done|reflexivity|].
  cbn [dsetdefault dget String.eqb Ascii.eqb Bool.eqb deferred_items mbind res_bind claim_loop].
  replace (limit <=? Z.of_nat 0) with false by (symmetry; apply Z.leb_gt; simpl; lia).
  assert (is_pending (VDict naive_record) = true) as -> by reflexivity.
  assert (is_due now naive_record = Err (Exc TypeError naive_aware_error)) as ->; [|done].
  unfold is_due. replace (parse_iso_value (dgetN "due_at" naive_record))
    with (Some (DT 63871286400000000 None)) by (vm_compute; reflexivity).
  unfold dt_ltb. by rewrite Hi.
Qed.

Lemma claim_due_blocked_by_naive_time_witness :
  ∃ msg, claim_due "p" poisoned_file (DT 63881286400000000 (Some 0)) (λ _, "t") 10
         = (Err (Exc TypeError msg), poisoned_file).
Proof.
  apply (claim_due_blocked_by_naive_time _ 63881286400000000); [reflexivity|lia].
Defined.
