(* ===== verification/EvidenceSufficiency.v ===== *)
(** * Evidence sufficiency

    [src/shared/mesh_runtime/evidence_sufficiency.py]: how many independent
    references a decision must bring before it may act.  Triggers and decisions
    are instances of the dataclasses of [Contracts].  Lowercasing maps ASCII
    letters only; no other character lowercases to a tier the code compares
    with. *)

From S2P Require Import Prelude PyFloat PyValue Json PyNumbers SchemaValidation Schemas Models Contracts PacketFacts.

Definition MUTATING_ACTIONS : list string :=
  ["disable_flag"; "reduce_rollout"; "rollback_deployment"; "restart_deployment";
   "scale_deployment"; "patch_resources"; "restart_systemd_service"; "investigate_and_patch"].

(** [_RISK_MINIMUMS.get(risk_tier, 3)] *)
Definition risk_minimum (risk_tier : string) : Z :=
  if String.eqb risk_tier "low" then 1
  else if String.eqb risk_tier "medium" then 3
  else if String.eqb risk_tier "high" then 4
  else 3.

(** [f"{prefix}\[{index}\]"] for the items that [keep] accepts *)
Fixpoint indexed_refs (keep : value → bool) (prefix : string) (index : nat) (items : list value)
    : list string :=
  match items with
  | [] => []
  | item :: rest =>
      (if keep item then [prefix +:+ "[" +:+ str_of_Z (Z.of_nat index) +:+ "]"] else [])
      ++ indexed_refs keep prefix (S index) rest
  end.

Definition extend_list_refs (payload : dict) (key prefix : string) : list string :=
  match dgetN key payload with
  | VList items => indexed_refs truthy prefix 0 items
  | _ => []
  end.

Definition extend_nested_list_refs (payload : dict) (key1 key2 prefix : string) : list string :=
  match dgetN key1 payload with
  | VDict current => extend_list_refs current key2 prefix
  | _ => []
  end.

(** [isinstance(item, str) and item.strip()] *)
Definition is_said (item : value) : bool :=
  match item with VStr s => negb (String.eqb (str_strip s) "") | _ => false end.

(** [decision.reasoning] and its [evidence_pack], when they are dictionaries *)
Definition decision_reasoning (decision : dict) : dict := dict_or_empty (dgetN "reasoning" decision).
Definition decision_evidence_pack (decision : dict) : dict :=
  dict_or_empty (dgetN "evidence_pack" (decision_reasoning decision)).

Definition pack_prefix : string := "decision.reasoning.evidence_pack.".

(** The references in the evidence pack. *)
Definition pack_refs (pack : dict) : list string :=
  extend_list_refs pack "evidence_nodes" (pack_prefix +:+ "evidence_nodes")
  ++ extend_list_refs pack "probe_results" (pack_prefix +:+ "probe_results")
  ++ extend_list_refs pack "fast_path_signatures" (pack_prefix +:+ "fast_path_signatures")
  ++ extend_list_refs pack "citations" (pack_prefix +:+ "citations")
  ++ extend_nested_list_refs pack "scenario_analysis" "evidence_refs"
       (pack_prefix +:+ "scenario_analysis.evidence_refs")
  ++ extend_nested_list_refs pack "investigation_report" "findings"
       (pack_prefix +:+ "investigation_report.findings")
  ++ extend_nested_list_refs pack "investigation_report" "root_cause_candidates"
       (pack_prefix +:+ "investigation_report.root_cause_candidates")
  ++ (if is_true (dgetN "sufficient" pack) then [pack_prefix +:+ "sufficient"] else [])
  ++ match dgetN "evidence_pack_artifact" pack with
     | VDict artifact =>
         if is_true (dgetN "sufficient" artifact)
         then [pack_prefix +:+ "evidence_pack_artifact.sufficient"] else []
     | _ => []
     end.

Definition collect_evidence_refs (trigger decision : dict) : res (list string) :=
  items ← py_iter (py_or (dgetN "evidence" (decision_reasoning decision)) (VList []));
  Ok (sorted_set
        ((if truthy (dgetN "metrics" trigger) then ["trigger.metrics"] else [])
         ++ (if truthy (dgetN "related_context" trigger) then ["trigger.related_context"] else [])
         ++ indexed_refs is_said "decision.reasoning.evidence" 0 items
         ++ pack_refs (decision_evidence_pack decision))).

Definition has_rollback_ref (decision : dict) : res bool :=
  plan ← py_get (dgetN "execution_plan" decision) "rollback_plan";
  Ok (truthy plan).

Definition has_structured_evidence (decision : dict) : bool :=
  let pack := decision_evidence_pack decision in
  is_true (dgetN "sufficient" pack)
  || truthy (dgetN "evidence_nodes" pack)
  || truthy (dgetN "probe_results" pack)
  || truthy (dgetN "investigation_report" pack)
  || truthy (dgetN "scenario_analysis" pack).

Definition sufficiency_notes (mutating : bool) (risk_tier : string) (required : Z) : list string :=
  [if mutating then "mutating action" else "non-mutating action";
   risk_tier +:+ " risk requires " +:+ str_of_Z required +:+ " evidence refs"].

(** [action_class in _MUTATING_ACTIONS or decision.decision_type in _MUTATING_ACTIONS] *)
Definition is_mutating (action_class : string) (decision_type : value) : res bool :=
  if mem_str action_class MUTATING_ACTIONS then Ok true else in_str_set decision_type MUTATING_ACTIONS.

(** What is missing.  The rollback plan is only looked at for the tiers that
    need one. *)
Definition sufficiency_missing (decision : dict) (mutating : bool) (risk_tier : string)
    (required observed : Z) : res (list string) :=
  no_rollback ← (if mutating && mem_str risk_tier ["medium"; "high"]
                 then rollback ← has_rollback_ref decision; Ok (negb rollback) else Ok false);
  Ok ((if observed <? required then ["minimum_evidence_count"] else [])
      ++ (if no_rollback : bool then ["rollback_reference"] else [])
      ++ (if mutating && String.eqb risk_tier "high" && negb (has_structured_evidence decision)
          then ["structured_evidence_pack"] else [])).

Definition evaluate_evidence_sufficiency (trigger decision : dict) : res dict :=
  action ← py_get (dgetN "execution_plan" decision) "action";
  let action_class := py_str (py_or action (dgetN "decision_type" decision)) in
  level ← py_get (dgetN "risk" decision) "level";
  let risk_tier := str_lower (py_str (py_or level (VStr "high"))) in
  mutating ← is_mutating action_class (dgetN "decision_type" decision);
  let required := if mutating : bool then risk_minimum risk_tier else 1 in
  refs ← collect_evidence_refs trigger decision;
  let observed := Z.of_nat (length refs) in
  missing ← sufficiency_missing decision mutating risk_tier required observed;
  let packet :=
    [("schema_version", VStr "mesh.evidence_sufficiency.v1");
     ("passed", VBool (match missing with [] => true | _ => false end));
     ("action_class", VStr action_class);
     ("risk_tier", VStr risk_tier);
     ("required_evidence_count", VInt required);
     ("observed_evidence_count", VInt observed);
     ("evidence_refs", strs refs);
     ("missing", strs missing);
     ("notes", strs (sufficiency_notes mutating risk_tier required))] in
  _ ← validate_named "evidence-sufficiency.schema.json" packet;
  Ok packet.

(** ** Packets are well formed *)

Lemma sufficiency_packet_valid passed action tier (required observed : Z) refs missing notes :
  validate_named "evidence-sufficiency.schema.json"
    [("schema_version", VStr "mesh.evidence_sufficiency.v1");
     ("passed", VBool passed);
     ("action_class", VStr action);
     ("risk_tier", VStr tier);
     ("required_evidence_count", VInt required);
     ("observed_evidence_count", VInt observed);
     ("evidence_refs", strs refs);
     ("missing", strs missing);
     ("notes", strs notes)] = Ok ().
Proof.
  eapply validate_named_ok; [reflexivity..|].
  conform_step; first [by apply conforms_strs | by conform_step].
Qed.

(** ** The guarantee *)

(** Does the decision act, by its plan or by its type? *)
Definition acts (decision_type action : string) : bool :=
  mem_str (if String.eqb action "" then decision_type else action) MUTATING_ACTIONS
  || mem_str decision_type MUTATING_ACTIONS.

(** What a tier asks of a mutating decision with [n] references. *)
Definition tier_satisfied (level : string) (rollback structured : bool) (n : Z) : Prop :=
  level = "low" ∧ 1 <= n
  ∨ level = "medium" ∧ 3 <= n ∧ rollback = true
  ∨ level = "high" ∧ 4 <= n ∧ rollback = true ∧ structured = true.

Lemma missing_none decision mutating (level : string) rollback n :
  level ∈ ["low"; "medium"; "high"] →
  has_rollback_ref decision = Ok rollback →
  ∃ missing,
    sufficiency_missing decision mutating level (if mutating then risk_minimum level else 1) n = Ok missing
    ∧ (missing = [] ↔
       if mutating then tier_satisfied level rollback (has_structured_evidence decision) n else 1 <= n).
Proof.
  intros Hl Hr. unfold sufficiency_missing, tier_satisfied. rewrite Hr.
  assert (∀ m, (if n <? m then ["minimum_evidence_count"] else []) = [] ↔ m <= n) as Hlt.
  { intros m. destruct (Z.ltb_spec n m); split; try done; lia. }
  destruct mutating; cbn [andb mbind res_bind].
  - rewrite !elem_of_cons in Hl. destruct Hl as [->|[->|[->|Hl]]]; [..|by apply elem_of_nil in Hl];
      cbn [mem_str existsb String.eqb Ascii.eqb Bool.eqb orb mbind res_bind andb];
      eexists; (split; [reflexivity|]); rewrite !app_nil, Hlt; unfold risk_minimum;
      cbn [String.eqb Ascii.eqb Bool.eqb];
      destruct rollback, (has_structured_evidence decision); simpl; intuition (try done; try lia).
  - eexists. split; [reflexivity|]. by rewrite !app_nil_r, Hlt.
Qed.

Lemma acts_eq t a :
  is_mutating (py_str (py_or (VStr a) (VStr t))) (VStr t) = Ok (acts t a).
Proof.
  unfold is_mutating, acts, py_or. change (in_str_set (VStr t) MUTATING_ACTIONS)
    with (@Ok bool (mem_str t MUTATING_ACTIONS)).
  cbn [truthy]. destruct (String.eqb a ""); cbn [negb py_str]; by destruct (mem_str _ _).
Qed.

Lemma valid_level_lower level :
  level ∈ ["low"; "medium"; "high"] → str_lower (py_str (py_or (VStr level) (VStr "high"))) = level.
Proof.
  rewrite !elem_of_cons. intros [->|[->|[->|H]]]; [reflexivity..|by apply elem_of_nil in H].
Qed.

Lemma valid_decision_refs trigger decision (p : decision_parts decision) :
  ∃ refs, collect_evidence_refs trigger decision = Ok refs ∧ NoDup refs.
Proof.
  unfold collect_evidence_refs, decision_reasoning. rewrite (dp_reasoning_eq _ p).
  cbn [dict_or_empty as_dict default from_option id]. rewrite (dp_evidence_eq _ p).
  unfold py_or. cbn [truthy]. destruct (map VStr (dp_evidence _ p)); cbn [py_iter mbind res_bind];
    (eexists; split; [reflexivity|apply sorted_set_NoDup]).
Qed.

(** C37: for every decision that passes its schema the evaluation returns a
    well-formed packet, and it passes exactly when the references, counted
    without repetition, reach what the risk tier asks of a decision that acts
    (with a rollback plan from medium risk, and structured evidence at high
    risk), or when there is any reference for one that does not act. *)
Theorem evidence_sufficiency_decides trigger decision :
  validate_named "decision.schema.json" decision = Ok () →
  ∃ refs packet,
    collect_evidence_refs trigger decision = Ok refs ∧ NoDup refs
    ∧ evaluate_evidence_sufficiency trigger decision = Ok packet
    ∧ validate_named "evidence-sufficiency.schema.json" packet = Ok ()
    ∧ (dget "passed" packet = Some (VBool true) ↔
       let n := Z.of_nat (length refs) in
       if acts (str_at ["decision_type"] decision) (str_at ["execution_plan"; "action"] decision)
       then tier_satisfied (str_at ["risk"; "level"] decision)
              (negb (String.eqb (str_at ["execution_plan"; "rollback_plan"] decision) ""))
              (has_structured_evidence decision) n
       else 1 <= n).
Proof.
  intros Hv. destruct (valid_decision_parts _ Hv) as [p].
  destruct (valid_decision_refs trigger _ p) as (refs & Hrefs & Hnd).
  rewrite (dp_type_at _ p), (dp_action_at _ p), (dp_level_at _ p), (dp_rollback_at _ p).
  assert (has_rollback_ref decision = Ok (negb (String.eqb (dp_rollback _ p) ""))) as Hr.
  { unfold has_rollback_ref. rewrite (dp_plan_eq _ p). cbn [py_get mbind res_bind].
    by rewrite (dp_rollback_eq _ p). }
  destruct (missing_none decision (acts (dp_type _ p) (dp_action _ p)) _ _ (Z.of_nat (length refs))
    (dp_level_in _ p) Hr) as (missing & Hm & Hiff).
  exists refs. eexists. split; [done|]. split; [done|]. split; [|split].
  - unfold evaluate_evidence_sufficiency. rewrite (dp_plan_eq _ p), (dp_risk_eq _ p), (dp_type_eq _ p).
    cbn [py_get mbind res_bind]. rewrite (dp_action_eq _ p), (dp_level_eq _ p), acts_eq.
    cbn [mbind res_bind]. rewrite Hrefs, (valid_level_lower _ (dp_level_in _ p)). cbn [mbind res_bind].
    rewrite Hm. cbn [mbind res_bind]. by rewrite sufficiency_packet_valid.
  - apply sufficiency_packet_valid.
  - cbn [dget String.eqb Ascii.eqb Bool.eqb]. rewrite <- Hiff. by destruct missing.
Qed.

Lemma evidence_sufficiency_decides_witness :
  ∃ packet,
    evaluate_evidence_sufficiency [] demo_decision = Ok packet
    ∧ dget "passed" packet = Some (VBool true).
Proof.
  destruct (evidence_sufficiency_decides [] demo_decision ltac:(reflexivity))
    as (refs & packet & H1 & _ & H2 & _ & H3).
  exists packet. split; [exact H2|]. apply H3. vm_compute in H1. injection H1 as <-.
  right; left. split; [reflexivity|]. split; [discriminate|reflexivity].
Defined.
