(* ===== verification/RemediationSafety.v ===== *)
(** * Remediation safety

    [src/shared/mesh_runtime/remediation_safety.py]: the scored safety case of a
    proposed remediation.  Triggers and decisions are instances of the
    dataclasses of [Contracts]; what the state store answers is an argument. *)

From S2P Require Import Prelude PyFloat PyValue PyNumbers Json SchemaValidation Schemas Models Contracts PacketFacts.

(** A decimal literal: [lit n k] is [n / 10^k]. *)
Definition lit (n k : Z) : float := f_of_digits n (- k).

Definition DEFAULT_THRESHOLD : float := lit 72 2.
Definition AUDIT_ACTIONS : list string := ["record_no_action"; "open_incident"].
Definition MUTATING_DECISIONS : list string :=
  ["reduce_rollout"; "disable_flag"; "investigate_and_patch"; "rollback_deployment"; "restart_deployment";
   "restart_pod"; "scale_deployment"; "cordon_node"; "drain_node"; "argocd_sync"; "argocd_rollback";
   "restart_systemd_service"].
Definition SEVERE_SIGNATURES : list string :=
  ["disk_pressure"; "jwt_missing"; "jwt_secret_missing"; "rpc_exposed"; "authrpc_exposed";
   "engine_api_unreachable"; "consensus_disconnect"].
Definition PROTECTED_TIERS : list string := ["strategic"; "platinum"].

Record safety_components := Components {
  c_policy : float; c_quality : float; c_readiness : float; c_evidence : float; c_action : float;
  c_blast_radius : float; c_history : float; c_recovery : float }.

Record RemediationSafetyCase := SafetyCase {
  score : float;
  threshold : float;
  verdict : string;
  passed : bool;
  components : safety_components;
  hard_stops : list string;
  warnings : list string;
  safety_evidence_refs : list string }.

Definition components_dict (c : safety_components) : dict :=
  [("policy", VFloat (c_policy c)); ("quality", VFloat (c_quality c)); ("readiness", VFloat (c_readiness c));
   ("evidence", VFloat (c_evidence c)); ("action", VFloat (c_action c));
   ("blast_radius", VFloat (c_blast_radius c)); ("history", VFloat (c_history c));
   ("recovery", VFloat (c_recovery c))].

Definition case_to_dict (c : RemediationSafetyCase) : dict :=
  [("score", VFloat (score c));
   ("threshold", VFloat (threshold c));
   ("verdict", VStr (verdict c));
   ("passed", VBool (passed c));
   ("components", VDict (components_dict (components c)));
   ("hard_stops", strs (hard_stops c));
   ("warnings", strs (warnings c));
   ("evidence_refs", strs (safety_evidence_refs c))].

(** [state_store]: absent, without [get_historical_success_rate], or what that
    call gives. *)
Inductive history_source :=
  | NoStore
  | NoHistory
  | History (answer : res value).

Definition bool_score (b : bool) : float := if b then f_of_Z 1 else S754_zero false.

(** ** Evidence *)

(** [decision.reasoning.get(key)] *)
Definition reasoning_get (decision : dict) (key : string) : res value := py_get (dgetN "reasoning" decision) key.

Definition source_event_ids (decision : dict) : res (list string) :=
  source ← reasoning_get decision "source_event_ids";
  raw ← (if truthy source then Ok source
         else evidence ← reasoning_get decision "evidence_event_ids"; Ok (py_or evidence (VList [])));
  Ok (match raw with VList l => map py_str l | _ => [] end).

Definition first_dict (values : list value) : dict :=
  match List.filter is_dict values with v :: _ => dict_or_empty v | [] => [] end.

(** [v.get(key, {})] *)
Definition py_get_or_empty (v : value) (key : string) : res value :=
  match v with VDict d => Ok (dget_or key (VDict []) d) | _ => py_get v key end.

(** [v.get(key, \[\])] *)
Definition py_get_or_list (v : value) (key : string) : res value :=
  match v with VDict d => Ok (dget_or key (VList []) d) | _ => py_get v key end.

(** [score += 0.04] for each part of the node's signal *)
Definition node_score (signal : dict) (s : float) : float :=
  fold_left
    (λ s field, if is_dict (dgetN field signal) && truthy (dgetN field signal) then f_add s (lit 4 2) else s)
    ["execution"; "consensus"; "storage"; "rpc"; "node"] s.

Definition evidence_score (trigger decision : dict) : res float :=
  let s := lit 2 1 in
  let s := if truthy (dgetN "metrics" trigger) then f_add s (lit 15 2) else s in
  let s := if truthy (dgetN "related_context" trigger) then f_add s (lit 15 2) else s in
  evidence ← py_get_or_list (dgetN "reasoning" decision) "evidence";
  let s := match evidence with VList (_ :: _ :: _) => f_add s (lit 2 1) | _ => s end in
  pack ← reasoning_get decision "evidence_pack";
  s ← match pack with
      | VDict ((_ :: _) as d) =>
          let s := f_add s (lit 2 1) in
          artifact ← py_get_or_empty (VDict d) "evidence_pack_artifact";
          missing ← py_get_or_list artifact "missing_fields";
          Ok (match missing with
              | VList ((_ :: _) as l) =>
                  f_sub s (f_min (lit 25 2) (f_mul (lit 5 2) (f_of_Z (Z.of_nat (length l)))))
              | _ => s
              end)
      | _ => Ok s
      end;
  ids ← source_event_ids decision;
  let s := match ids with [] => s | _ => f_add s (lit 1 1) end in
  s ← (if is_string "reth_node_degraded" (dgetN "trigger_type" trigger) then
         source ← py_get (dgetN "related_context" trigger) "source_signal";
         Ok (node_score (first_dict [pack; source]) s)
       else Ok s);
  Ok (f_clamp s).

(** ** Action, blast radius, history and recovery *)

(** [decision.risk.get("level") == level] *)
Definition risk_is (decision : dict) (level : string) : res bool :=
  v ← py_get (dgetN "risk" decision) "level"; Ok (is_string level v).

(** [str(decision.execution_plan.get("action") or "")] *)
Definition plan_action (decision : dict) : res string :=
  v ← py_get (dgetN "execution_plan" decision) "action"; Ok (py_str (py_or v (VStr ""))).

Definition plan_rollback (decision : dict) : res bool :=
  v ← py_get (dgetN "execution_plan" decision) "rollback_plan"; Ok (truthy v).

Definition action_score (decision : dict) : res float :=
  action ← plan_action decision;
  let decision_type := py_str (dgetN "decision_type" decision) in
  if mem_str action AUDIT_ACTIONS then Ok (f_of_Z 1)
  else
    let s := lit 4 1 in
    rollback ← plan_rollback decision;
    let s := if rollback : bool then f_add s (lit 2 1) else s in
    sure ← py_ge (dgetN "confidence" decision) (inr (lit 85 2));
    s ← (if sure : bool then Ok (f_add s (lit 2 1))
         else
           likely ← py_ge (dgetN "confidence" decision) (inr (lit 75 2));
           Ok (if likely : bool then f_add s (lit 1 1) else f_sub s (lit 15 2)));
    low ← risk_is decision "low";
    let s := if low : bool then f_add s (lit 1 1) else s in
    high ← risk_is decision "high";
    let s := if high : bool then f_sub s (lit 25 2) else s in
    let s := if mem_str decision_type MUTATING_DECISIONS && negb rollback then f_sub s (lit 25 2) else s in
    Ok (f_clamp s).

(** [str(decision.risk.get("blast_radius") or "").startswith("multi_")] *)
Definition multi_service (decision : dict) : res bool :=
  v ← py_get (dgetN "risk" decision) "blast_radius";
  Ok (str_startswith "multi_" (py_str (py_or v (VStr "")))).

(** [trigger.segment.get("customer_tier") in _PROTECTED_TIERS] *)
Definition protected_tier (trigger : dict) : res bool :=
  v ← py_get (dgetN "segment" trigger) "customer_tier"; in_str_set v PROTECTED_TIERS.

Definition blast_radius_score (trigger decision : dict) : res float :=
  let s := f_of_Z 1 in
  multi ← multi_service decision;
  let s := if multi : bool then f_sub s (lit 45 2) else s in
  high ← risk_is decision "high";
  let s := if high : bool then f_sub s (lit 3 1) else s in
  tier ← protected_tier trigger;
  let s := if tier : bool then f_sub s (lit 25 2) else s in
  gated ← in_str_set (dgetN "autonomy_tier" decision) ["approval_required"; "escalated"];
  let s := if gated : bool then f_sub s (lit 15 2) else s in
  Ok (f_clamp s).

Definition history_score (state_store : history_source) : res float :=
  match state_store with
  | NoStore | NoHistory => Ok (lit 58 2)
  | History (Err _) => Ok (lit 5 1)
  | History (Ok rate) => if is_none rate then Ok (lit 58 2) else f ← py_float rate; Ok (f_clamp f)
  end.

Definition recovery_score (trigger decision : dict) : res float :=
  action ← plan_action decision;
  if mem_str action AUDIT_ACTIONS then Ok (f_of_Z 1)
  else
    seen ← py_get (dgetN "related_context" trigger) "post_action_observations";
    observations ← (if truthy seen then Ok seen
                    else v ← reasoning_get decision "post_action_observations"; Ok (py_or v (VDict [])));
    if is_dict observations && truthy observations then Ok (lit 85 2)
    else
      let expected := match dgetN "expected_outcome" decision with
                      | VDict d => dgetN "target_metrics" d | _ => VNone end in
      Ok (if truthy expected then lit 65 2 else lit 45 2).

(** ** Hard stops and warnings *)

(** The signatures of one source. *)
Definition signatures_of (source : value) : list string :=
  match source with
  | VDict d =>
      let raw := dgetN "error_signatures" d in
      let raw := if is_none raw
                 then match dgetN "logs" d with VDict logs => dgetN "error_signatures" logs | _ => VNone end
                 else raw in
      match raw with VList l => map py_str l | _ => [] end
  | _ => []
  end.

Definition error_signatures (trigger decision : dict) : res (list string) :=
  pack ← reasoning_get decision "evidence_pack";
  Ok (signatures_of (dgetN "related_context" trigger) ++ signatures_of pack).

(** [a and b] where [b] may raise *)
Definition and_then (a : bool) (b : res bool) : res bool := if a then b else Ok false.

(** [prior_blocking_reasons] is an argument of the code and not used by it. *)
Definition hard_stop_list (trigger decision : dict) (prior_blocking_reasons : list string)
    (c : safety_components) (schema_passed policy_passed readiness_passed : bool) : res (list string) :=
  let autonomous := is_string "autonomous" (dgetN "autonomy_tier" decision) in
  high ← and_then autonomous (risk_is decision "high");
  multi ← multi_service decision;
  tier ← protected_tier trigger;
  signatures ← error_signatures trigger decision;
  let severe := existsb (λ s, mem_str s SEVERE_SIGNATURES) signatures in
  mutating ← in_str_set (dgetN "decision_type" decision) MUTATING_DECISIONS;
  Ok ((if negb schema_passed then ["schema validation failed"] else [])
      ++ (if negb policy_passed then ["policy validation failed"] else [])
      ++ (if negb readiness_passed then ["execution readiness failed"] else [])
      ++ (if high : bool then ["autonomous high-risk action is forbidden"] else [])
      ++ (if (multi : bool) && autonomous then ["autonomous multi-service action is forbidden"] else [])
      ++ (if (tier : bool) && autonomous then ["autonomous protected-tier action is forbidden"] else [])
      ++ (if severe && negb (is_string "escalate" (dgetN "decision_type" decision))
          then ["severe signature requires escalation"] else [])
      ++ (if (mutating : bool) && f_ltb (c_evidence c) (lit 55 2)
          then ["mutating action lacks sufficient evidence"] else [])
      ++ (if (mutating : bool) && f_ltb (c_history c) (lit 35 2)
          then ["historical success rate is too weak for autonomous remediation"] else [])).

Definition warning_list (trigger decision : dict) (c : safety_components) (state_store : history_source)
    : res (list string) :=
  conflicting ← py_get (dgetN "related_context" trigger) "conflicting_signals";
  ids ← source_event_ids decision;
  Ok ((if f_ltb (c_history c) (lit 6 1) then ["historical support is weak or unavailable"] else [])
      ++ (if f_ltb (c_recovery c) (lit 6 1) then ["post-action recovery evidence is weak"] else [])
      ++ (if truthy conflicting then ["conflicting signals are present"] else [])
      ++ (match ids with [] => ["no source run event ids available for analysis provenance"] | _ => [] end)
      ++ (match state_store with NoStore => ["state store unavailable for historical prior"] | _ => [] end)).

(** [\[str(ref) for ref in refs if ref\]] *)
Definition evidence_ref_list (trigger decision : dict) : res (list string) :=
  ids ← source_event_ids decision;
  Ok (map py_str (List.filter truthy
        (dgetN "trigger_id" trigger :: dgetN "decision_id" decision :: map VStr ids))).

(** ** The safety case *)

Definition safety_components_of (trigger decision : dict) (state_store : history_source)
    (promptfoo_passed schema_passed policy_passed readiness_passed : bool) : res safety_components :=
  evidence ← evidence_score trigger decision;
  action ← action_score decision;
  blast ← blast_radius_score trigger decision;
  history ← history_score state_store;
  recovery ← recovery_score trigger decision;
  Ok (Components (bool_score (schema_passed && policy_passed)) (bool_score promptfoo_passed)
        (bool_score readiness_passed) evidence action blast history recovery).

(** The weighted sum, added from the left. *)
Definition weighted_sum (c : safety_components) : float :=
  fold_left (λ s p, f_add s (f_mul p.1 p.2))
    [(c_quality c, lit 12 2); (c_readiness c, lit 14 2); (c_evidence c, lit 18 2); (c_action c, lit 14 2);
     (c_blast_radius c, lit 10 2); (c_history c, lit 8 2); (c_recovery c, lit 6 2)]
    (f_mul (c_policy c) (lit 18 2)).

Definition round_components (c : safety_components) : safety_components :=
  Components (f_round (c_policy c) 3) (f_round (c_quality c) 3) (f_round (c_readiness c) 3)
    (f_round (c_evidence c) 3) (f_round (c_action c) 3) (f_round (c_blast_radius c) 3)
    (f_round (c_history c) 3) (f_round (c_recovery c) 3).

Definition evaluate_remediation_safety (trigger decision : dict) (state_store : history_source)
    (prior_blocking_reasons : list string)
    (promptfoo_passed schema_passed policy_passed readiness_passed : bool) (threshold : float)
    : res RemediationSafetyCase :=
  c ← safety_components_of trigger decision state_store promptfoo_passed schema_passed policy_passed
        readiness_passed;
  let score := f_round (weighted_sum c) 3 in
  stops ← hard_stop_list trigger decision prior_blocking_reasons c schema_passed policy_passed
            readiness_passed;
  warnings ← warning_list trigger decision c state_store;
  let verdict := match stops with
                 | _ :: _ => "human_review"
                 | [] => if f_ltb score threshold then "needs_more_evidence" else "pass"
                 end in
  refs ← evidence_ref_list trigger decision;
  Ok (SafetyCase score threshold verdict (String.eqb verdict "pass") (round_components c) stops warnings refs).

Definition safety_blocking_reason (case : RemediationSafetyCase) : option string :=
  if passed case then None
  else match hard_stops case with
       | _ :: _ => Some "remediation safety case has hard stops"
       | [] => Some "remediation safety score below execution threshold"
       end.

(** ** Components are shares *)

#[local] Opaque lit.

Definition in_unit (f : float) : Prop := f_leb (S754_zero false) f = true ∧ f_leb f (f_of_Z 1) = true.

Lemma bool_score_unit b : in_unit (bool_score b).
Proof. destruct b; split; reflexivity. Qed.

Lemma evidence_score_unit trigger decision f : evidence_score trigger decision = Ok f → in_unit f.
Proof. unfold evidence_score. cbv zeta. intros H. res_inv H. apply f_clamp_bounds. Qed.

Lemma action_score_unit decision f : action_score decision = Ok f → in_unit f.
Proof.
  unfold action_score. cbv zeta. intros H. apply res_bind_Ok in H as (a & _ & H).
  destruct (mem_str a AUDIT_ACTIONS); [injection H as <-; apply (bool_score_unit true)|].
  res_inv H. apply f_clamp_bounds.
Qed.

Lemma blast_radius_score_unit trigger decision f : blast_radius_score trigger decision = Ok f → in_unit f.
Proof. unfold blast_radius_score. cbv zeta. intros H. res_inv H. apply f_clamp_bounds. Qed.

Lemma history_score_unit source f : history_score source = Ok f → in_unit f.
Proof.
  destruct source as [| |[rate|e]]; cbn [history_score]; try (intros [= <-]; split; reflexivity).
  destruct (is_none rate); [intros [= <-]; split; reflexivity|]. intros H. res_inv H. apply f_clamp_bounds.
Qed.

Lemma recovery_score_unit trigger decision f : recovery_score trigger decision = Ok f → in_unit f.
Proof.
  unfold recovery_score. cbv zeta. intros H. apply res_bind_Ok in H as (a & _ & H).
  destruct (mem_str a AUDIT_ACTIONS); [injection H as <-; apply (bool_score_unit true)|].
  apply res_bind_Ok in H as (o & _ & H). apply res_bind_Ok in H as (o' & _ & H).
  destruct (is_dict o' && truthy o'); [injection H as <-; split; reflexivity|].
  destruct (truthy _); injection H as <-; split; reflexivity.
Qed.

(** ** Hard stops *)

(** Nothing stops the decision, with [c] the components before rounding. *)
Definition clear_of_stops (trigger decision : dict) (c : safety_components)
    (schema_passed policy_passed readiness_passed : bool) : Prop :=
  schema_passed = true ∧ policy_passed = true ∧ readiness_passed = true
  ∧ (dgetN "autonomy_tier" decision = VStr "autonomous" →
     risk_is decision "high" = Ok false ∧ multi_service decision = Ok false
     ∧ protected_tier trigger = Ok false)
  ∧ (dgetN "decision_type" decision ≠ VStr "escalate" →
     ∃ l, error_signatures trigger decision = Ok l ∧ ∀ s, s ∈ l → s ∉ SEVERE_SIGNATURES)
  ∧ (str_in (dgetN "decision_type" decision) MUTATING_DECISIONS = true →
     f_ltb (c_evidence c) (lit 55 2) = false ∧ f_ltb (c_history c) (lit 35 2) = false).

Lemma if_stop (b : bool) (x : string) : (if b then [x] else []) = [] ↔ b = false.
Proof. by destruct b. Qed.

Lemma both_unless (m a b : bool) :
  (m = false ∨ a = false) ∧ (m = false ∨ b = false) ↔ (m = true → a = false ∧ b = false).
Proof. destruct m; intuition congruence. Qed.

Lemma hard_stops_nil trigger decision prior c sp pp rp l :
  hard_stop_list trigger decision prior c sp pp rp = Ok l →
  l = [] ↔ clear_of_stops trigger decision c sp pp rp.
Proof.
  unfold hard_stop_list, clear_of_stops. cbv zeta. intros H.
  apply res_bind_Ok in H as (high & Hh & H). apply res_bind_Ok in H as (multi & -> & H).
  apply res_bind_Ok in H as (tier & -> & H). apply res_bind_Ok in H as (sigs & -> & H).
  apply res_bind_Ok in H as (mutating & Hm & H). injection H as <-.
  assert (str_in (dgetN "decision_type" decision) MUTATING_DECISIONS = mutating) as ->.
  { destruct (dgetN "decision_type" decision); try done; by injection Hm. }
  assert (is_string "autonomous" (dgetN "autonomy_tier" decision) = true
    ↔ dgetN "autonomy_tier" decision = VStr "autonomous") as Ha.
  { split; [apply is_string_true|intros ->; reflexivity]. }
  assert (is_string "escalate" (dgetN "decision_type" decision) = true
    ↔ dgetN "decision_type" decision = VStr "escalate") as He.
  { split; [apply is_string_true|intros ->; reflexivity]. }
  assert (existsb (λ s, mem_str s SEVERE_SIGNATURES) sigs = false
    ↔ ∀ s, s ∈ sigs → s ∉ SEVERE_SIGNATURES) as Hs.
  { rewrite <- not_true_iff_false, existsb_exists. split.
    - intros Hn s Hin Hsev. apply Hn. exists s. split; [by apply list_elem_of_In|by apply mem_str_elem].
    - intros Hn (s & Hin & Hsev). apply (Hn s); [by apply list_elem_of_In|by apply mem_str_elem]. }
  rewrite !app_nil, !if_stop, !negb_false_iff, !andb_false_iff, negb_false_iff, Hs, He.
  set (severe := ∀ s, s ∈ sigs → s ∉ SEVERE_SIGNATURES).
  set (weak := f_ltb (c_evidence c) (lit 55 2)). set (rare := f_ltb (c_history c) (lit 35 2)).
  assert (high = false ∧ (multi = false ∨ is_string "autonomous" (dgetN "autonomy_tier" decision) = false)
          ∧ (tier = false ∨ is_string "autonomous" (dgetN "autonomy_tier" decision) = false)
          ↔ (dgetN "autonomy_tier" decision = VStr "autonomous" →
             risk_is decision "high" = Ok false ∧ @Ok bool multi = Ok false ∧ @Ok bool tier = Ok false)) as Hauto.
  { rewrite <- Ha. unfold and_then in Hh.
    destruct (is_string "autonomous" (dgetN "autonomy_tier" decision)).
    - rewrite Hh. intuition congruence.
    - injection Hh as <-. intuition congruence. }
  assert ((severe ∨ dgetN "decision_type" decision = VStr "escalate")
    ↔ (dgetN "decision_type" decision ≠ VStr "escalate" →
       ∃ l, Ok sigs = Ok l ∧ ∀ s, s ∈ l → s ∉ SEVERE_SIGNATURES)) as Hsev.
  { split; [intros [?|?] Hn; [by exists sigs|done]|]. intros Hn.
    destruct (is_string "escalate" (dgetN "decision_type" decision)) eqn:E; [right; by apply He|left].
    destruct Hn as (l & [= <-] & Hl); [intros Hx; by apply He in Hx|done]. }
  clearbody severe weak rare.
  rewrite Hsev, <- Hauto, <- both_unless. clear.
  split; [intros (?&?&?&?&?&?&?&?&?)|intros (?&?&?&(?&?&?)&?&?&?)]; split_and!; assumption.
Qed.

(** ** Valid contracts are always scored *)

Record trigger_parts (x : dict) := TriggerParts {
  tp_segment : dict;
  tp_context : dict;
  tp_segment_eq : dgetN "segment" x = VDict tp_segment;
  tp_context_eq : dgetN "related_context" x = VDict tp_context;
  tp_tier : dget "customer_tier" tp_segment = None ∨ is_str (dgetN "customer_tier" tp_segment) = true }.

Lemma valid_trigger_parts x :
  validate_named "trigger.schema.json" x = Ok () → inhabited (trigger_parts x).
Proof.
  intros H. apply (validate_named_conforms _ trigger_schema) in H; [|reflexivity..].
  unfold trigger_schema in H. member H "segment" vs Es Hs. member H "related_context" vc Ec Hc.
  destruct (conforms_dict _ _ Hs eq_refl) as [s ->]. destruct (conforms_dict _ _ Hc eq_refl) as [c ->].
  apply inhabits. apply (TriggerParts x s c); try (by apply dgetN_Some).
  destruct (dget "customer_tier" s) as [v|] eqn:E; [right|by left]. rewrite (dgetN_Some _ _ _ E).
  pose proof (conforms_member _ _ Hs eq_refl "customer_tier" v _ E eq_refl) as Hv.
  by destruct (conforms_str _ _ Hv eq_refl) as [t ->].
Qed.

Lemma valid_decision_confidence x :
  validate_named "decision.schema.json" x = Ok () → ∃ n, num_of (dgetN "confidence" x) = Some n.
Proof.
  intros H. apply (validate_named_conforms _ decision_schema) in H; [|reflexivity..].
  unfold decision_schema in H. member H "confidence" v E Hc. rewrite (dgetN_Some _ _ _ E).
  apply (conforms_type _ _ "number") in Hc; [|reflexivity]. destruct v; try done; by eexists.
Qed.

(** The artifact of the evidence pack, when there is one, is a dictionary. *)
Definition artifact_ok (decision : dict) : bool :=
  match dgetN "evidence_pack" (dict_or_empty (dgetN "reasoning" decision)) with
  | VDict pack => is_dict (dget_or "evidence_pack_artifact" (VDict []) pack)
  | _ => true
  end.

Section scored.
Variables (trigger decision : dict).
Variable t : trigger_parts trigger.
Variable p : decision_parts decision.

Lemma source_ids_total : ∃ l, source_event_ids decision = Ok l.
Proof.
  unfold source_event_ids, reasoning_get. rewrite (dp_reasoning_eq _ p). cbn [py_get mbind res_bind].
  destruct (truthy _); cbn [mbind res_bind]; by eexists.
Qed.

(** The score of the evidence, or the failure on an artifact of another type. *)
Lemma evidence_score_cases :
  if artifact_ok decision then ∃ f, evidence_score trigger decision = Ok f
  else ∃ e, evidence_score trigger decision = Err e ∧ exc_cls e = AttributeError.
Proof.
  unfold artifact_ok, evidence_score, reasoning_get. cbv zeta.
  rewrite (dp_reasoning_eq _ p), (tp_context_eq _ t).
  cbn [py_get py_get_or_list mbind res_bind dict_or_empty].
  destruct source_ids_total as [ids Hids].
  match goal with |- context [dict_or_empty ?r] => change (dict_or_empty r) with (dp_reasoning _ p) end.
  destruct (dgetN "evidence_pack" (dp_reasoning _ p)) as [| | | | | |[|kv d]]; cbn [mbind res_bind];
    try (change (is_dict (dget_or "evidence_pack_artifact" (VDict []) [])) with true; cbv iota);
    try (rewrite Hids; cbn [mbind res_bind]; destruct (is_string _ _); cbn [mbind res_bind]; by eexists).
  cbn [py_get_or_empty mbind res_bind]. destruct (dget_or "evidence_pack_artifact" (VDict []) (kv :: d));
    cbn [is_dict py_get_or_list py_get mbind res_bind]; try (eexists; split; reflexivity).
  rewrite Hids. cbn [mbind res_bind]. destruct (is_string _ _); cbn [mbind res_bind]; by eexists.
Qed.

Lemma action_score_total n : num_of (dgetN "confidence" decision) = Some n → ∃ f, action_score decision = Ok f.
Proof.
  intros Hn. unfold action_score, plan_action, plan_rollback, risk_is, py_ge. cbv zeta.
  rewrite (dp_plan_eq _ p), (dp_risk_eq _ p), Hn. cbn [py_get mbind res_bind].
  destruct (mem_str _ AUDIT_ACTIONS); [by eexists|].
  destruct (num_compare _ _) as [[]|]; cbn [mbind res_bind]; by eexists.
Qed.

Lemma protected_tier_total : ∃ b, protected_tier trigger = Ok b.
Proof.
  unfold protected_tier. rewrite (tp_segment_eq _ t). cbn [py_get mbind res_bind].
  destruct (tp_tier _ t) as [H|H]; [rewrite (dgetN_None _ _ H)|destruct (dgetN _ _); try done]; by eexists.
Qed.

Lemma blast_radius_score_total : ∃ f, blast_radius_score trigger decision = Ok f.
Proof.
  unfold blast_radius_score, multi_service, risk_is. cbv zeta.
  rewrite (dp_risk_eq _ p), (dp_tier_eq _ p). destruct protected_tier_total as [b ->].
  cbn [py_get mbind res_bind in_str_set]. by eexists.
Qed.

Lemma recovery_score_total : ∃ f, recovery_score trigger decision = Ok f.
Proof.
  unfold recovery_score, plan_action, reasoning_get. cbv zeta.
  rewrite (dp_plan_eq _ p), (tp_context_eq _ t), (dp_reasoning_eq _ p). cbn [py_get mbind res_bind].
  destruct (mem_str _ AUDIT_ACTIONS); [by eexists|]. unfold py_or.
  repeat (match goal with |- context [if ?b then _ else _] => destruct b end; cbn [mbind res_bind]);
    by eexists.
Qed.

Lemma hard_stop_list_total prior c sp pp rp : ∃ l, hard_stop_list trigger decision prior c sp pp rp = Ok l.
Proof.
  unfold hard_stop_list, multi_service, risk_is, error_signatures, reasoning_get. cbv zeta.
  rewrite (dp_risk_eq _ p), (dp_tier_eq _ p), (dp_reasoning_eq _ p), (dp_type_eq _ p).
  destruct protected_tier_total as [b ->]. cbn [py_get mbind res_bind in_str_set].
  unfold and_then. destruct (is_string _ _); cbn [mbind res_bind]; by eexists.
Qed.

Lemma warning_list_total c source : ∃ l, warning_list trigger decision c source = Ok l.
Proof.
  unfold warning_list. rewrite (tp_context_eq _ t). cbn [py_get mbind res_bind].
  destruct source_ids_total as [ids ->]. cbn [mbind res_bind]. by eexists.
Qed.
End scored.

(** ** The guarantees *)


(** A valid trigger, for the examples. *)
Definition demo_trigger : dict :=
  [("trigger_id", VStr "trigger-1");
   ("trigger_type", VStr "kubernetes_deployment_unhealthy");
   ("triggered_at", VStr "2025-01-01T00:00:00Z");
   ("environment", VStr "prod");
   ("service", VStr "checkout");
   ("endpoint", VStr "/pay");
   ("flag_key", VNone);
   ("current_rollout_pct", VNone);
   ("comparison_window", VNone);
   ("segment", VDict [("customer_tier", VStr "standard"); ("region", VStr "eu")]);
   ("metrics", VDict
      [("baseline_p95_latency_ms", VInt 200); ("observed_p95_latency_ms", VInt 900);
       ("baseline_error_rate", VNone); ("observed_error_rate", VNone); ("sample_size", VInt 1000)]);
   ("related_context", VDict
      [("release_id", VNone); ("active_incidents", VInt 1); ("similar_prior_cases", VInt 2)])].


(** The blockers an evaluation has already found do not stop the safety
    case: they are passed in and never read, so a rejected action still gets a
    passing case. *)
Theorem prior_blockers_ignored :
  ∃ case,
    evaluate_remediation_safety demo_trigger demo_decision NoStore ["policy denied the action"]
      true true true true DEFAULT_THRESHOLD = Ok case
    ∧ passed case = true ∧ hard_stops case = [] ∧ safety_blocking_reason case = None.
Proof. eexists. split; [vm_compute; reflexivity|]. vm_compute. done. Qed.

(** A valid decision whose evidence pack has a null artifact. *)
Definition null_artifact_decision : dict :=
  dset "reasoning" (VDict
    [("primary_hypothesis", VStr "saturation"); ("evidence", VList [VStr "p95 over budget"]);
     ("evidence_pack", VDict [("evidence_pack_artifact", VNone)]);
     ("alternatives_considered", VList [VStr "no action"])]) demo_decision.

(** A valid decision whose evidence pack says it has no artifact yet makes the
    scorer raise. *)
Example null_artifact_raises :
  validate_named "decision.schema.json" null_artifact_decision = Ok ()
  ∧ match evaluate_remediation_safety demo_trigger null_artifact_decision NoStore [] true true true true
            DEFAULT_THRESHOLD with Err e => exc_cls e = AttributeError | Ok _ => False end.
Proof. split; reflexivity. Qed.
