(* ===== verification/TrustLadder.v ===== *)
(** * Trust ladder

    [src/shared/mesh_runtime/trust_ladder.py]: the autonomy level learned for
    each action class and service, from the outcomes recorded for it.  The state
    file is that of [JsonStore]; clock readings are arguments.  Counters read
    from a file may have any type. *)

From S2P Require Import Prelude PyFloat PyValue PyNumbers Json JsonStore.

Definition TRUST_LEVELS : list string := ["suggest"; "draft"; "approve"; "auto"].

Definition LEVEL_ORDER : list (string * Z) :=
  [("suggest", 0); ("draft", 1); ("approve", 2); ("auto", 3)].

Definition RATIONALE_FIELDS : list string :=
  ["next_level"; "autonomy_ceiling_reason"; "promotion_blockers"; "promotion_requirements"].

(** The thresholds of [TrustLadder.__init__]. *)
Record trust_config := TrustConfig {
  min_draft_runs : Z;
  min_approve_runs : Z;
  min_auto_runs : Z;
  draft_success_rate : float;
  approve_success_rate : float;
  auto_success_rate : float }.

Definition default_config : trust_config :=
  TrustConfig 3 10 30 (f_of_digits 5 (-1)) (f_of_digits 7 (-1)) (f_of_digits 85 (-2)).

Definition entry_key (action_class service : string) : string := action_class +:+ "::" +:+ service.

(** [_LEVEL_ORDER.get(v, 0)] *)
Definition level_index (v : value) : res Z :=
  match v with
  | VList _ | VDict _ => raise TypeError ("unhashable type: " +:+ repr_str (type_name v))
  | VStr s => Ok (default 0 (alookup s LEVEL_ORDER))
  | _ => Ok 0
  end.

Definition level_name (idx : Z) : string := nth (Z.to_nat idx) TRUST_LEVELS "".

Definition next_level (level : string) : option string :=
  let idx := default 0 (alookup level LEVEL_ORDER) in
  if Z.of_nat (length TRUST_LEVELS) - 1 <=? idx then None else Some (level_name (idx + 1)).

Definition persisted_entry (entry : dict) : dict :=
  List.filter (λ kv, negb (mem_str kv.1 RATIONALE_FIELDS)) entry.

Definition default_entry (action_class service : string) : dict :=
  [("action_class", VStr action_class);
   ("service", VStr service);
   ("level", VStr "suggest");
   ("previous_level", VStr "suggest");
   ("total_runs", VInt 0);
   ("successful_runs", VInt 0);
   ("success_rate", VFloat (S754_zero false));
   ("consecutive_failures", VInt 0);
   ("promotion_count", VInt 0);
   ("demotion_count", VInt 0);
   ("override_count", VInt 0);
   ("last_outcome", VNone);
   ("last_outcome_at", VNone);
   ("last_level_change_at", VNone)].

(** [int(entry.get(key, 0))] *)
Definition counter (key : string) (entry : dict) : res Z := py_int (dget_or key (VInt 0) entry).

(** [int(entry.get(key, 0)) + 1] stored back *)
Definition bump (key : string) (entry : dict) : res dict :=
  n ← counter key entry; Ok (dset key (VInt (n + 1)) entry).

Section ladder.
Variable cfg : trust_config.

Definition meets (entry : dict) (min_runs : Z) (min_rate : float) : res bool :=
  enough ← py_ge (dget_or "total_runs" (VInt 0) entry) (inl min_runs);
  if enough : bool then py_ge (dget_or "success_rate" (VFloat (S754_zero false)) entry) (inr min_rate)
  else Ok false.

Definition compute_level (entry : dict) : res string :=
  failing ← py_ge (dget_or "consecutive_failures" (VInt 0) entry) (inl 2);
  if failing : bool then
    current_idx ← level_index (dget_or "level" (VStr "suggest") entry);
    Ok (level_name (Z.max 0 (current_idx - 1)))
  else
    auto ← meets entry (min_auto_runs cfg) (auto_success_rate cfg);
    if auto : bool then Ok "auto"
    else
      approve ← meets entry (min_approve_runs cfg) (approve_success_rate cfg);
      if approve : bool then Ok "approve"
      else
        draft ← meets entry (min_draft_runs cfg) (draft_success_rate cfg);
        Ok (if draft : bool then "draft" else "suggest").

(** [_requirements_for]: the runs and the rate *)
Definition requirements_for (level : option string) : Z * float :=
  match level with
  | Some l =>
      if String.eqb l "draft" then (min_draft_runs cfg, draft_success_rate cfg)
      else if String.eqb l "approve" then (min_approve_runs cfg, approve_success_rate cfg)
      else if String.eqb l "auto" then (min_auto_runs cfg, auto_success_rate cfg)
      else (0, S754_zero false)
  | None => (0, S754_zero false)
  end.

(** The blockers of [_annotate_entry]. *)
Definition promotion_blockers (annotated : dict) (level : option string) (total_runs : Z)
    (success_rate : float) (consecutive_failures : Z) : list string :=
  let '(required_runs, required_rate) := requirements_for level in
  match level with
  | Some l =>
      (if total_runs <? required_runs
       then [str_of_Z (required_runs - total_runs) +:+ " more successful or reviewed runs before " +:+ l]
       else [])
      ++ (if f_ltb success_rate required_rate
          then ["success rate " +:+ f_percent0 success_rate +:+ " below " +:+ f_percent0 required_rate
                +:+ " for " +:+ l] else [])
      ++ (if 0 <? consecutive_failures
          then [str_of_Z consecutive_failures
                +:+ " recent failure(s) must be cleared by successful feedback"] else [])
  | None => []
  end
  ++ (let reason := dgetN "manual_override_reason" annotated in
      if truthy reason then ["manual override: " +:+ py_str reason] else []).

Definition ceiling_reason (current : string) (level : option string) (blockers : list string) : string :=
  if String.eqb current "auto" then
    "auto ceiling reached; production authority still requires policy, allowlist, evaluation, approval-mode, and rollback gates"
  else match blockers, level with
       | _ :: _, _ => str_join "; " blockers
       | [], Some l => "eligible for " +:+ l +:+ " after the next successful feedback update"
       | [], None => "no higher autonomy level is defined"
       end.

Definition annotate_entry (entry : value) : res dict :=
  annotated ← py_dict entry;
  let current := py_str (py_or (dgetN "level" annotated) (VStr "suggest")) in
  let level := next_level current in
  let annotated := dset "next_level" (match level with Some l => VStr l | None => VNone end) annotated in
  let requirements := requirements_for level in
  let annotated := dset "promotion_requirements"
    (VDict [("min_runs", VInt requirements.1); ("min_success_rate", VFloat requirements.2)]) annotated in
  total_runs ← py_int (py_or (dgetN "total_runs" annotated) (VInt 0));
  success_rate ← py_float (py_or (dgetN "success_rate" annotated) (VFloat (S754_zero false)));
  consecutive_failures ← py_int (py_or (dgetN "consecutive_failures" annotated) (VInt 0));
  let blockers := promotion_blockers annotated level total_runs success_rate consecutive_failures in
  Ok (dset "autonomy_ceiling_reason" (VStr (ceiling_reason current level blockers))
        (dset "promotion_blockers" (VList (map VStr blockers)) annotated)).

(** The lines of [record_outcome] that count a run. *)
Definition count_outcome (entry : dict) (successful : bool) (outcome now : string) : res dict :=
  e1 ← bump "total_runs" entry;
  e2 ← (if successful
        then e ← bump "successful_runs" e1; Ok (dset "consecutive_failures" (VInt 0) e)
        else bump "consecutive_failures" e1);
  let e3 := dset "last_outcome_at" (VStr now) (dset "last_outcome" (VStr outcome) e2) in
  total ← counter "total_runs" e3;
  rate ← (if 0 <? total then s ← ditem "successful_runs" e3; py_truediv s total
          else Ok (S754_zero false));
  Ok (dset "success_rate" (VFloat (f_round rate 3)) e3).

(** The lines of [record_outcome] that apply the new level. *)
Definition apply_level (entry : dict) (new_level now : string) : res dict :=
  level ← ditem "level" entry;
  if is_string new_level level then Ok entry
  else
    let e1 := dset "last_level_change_at" (VStr now) (dset "level" (VStr new_level) entry) in
    previous ← level_index (dget_or "previous_level" (VStr "suggest") e1);
    new_idx ← level_index (VStr new_level);
    e2 ← bump (if previous <? new_idx then "promotion_count" else "demotion_count") e1;
    Ok (dset "previous_level" (VStr new_level) e2).

(** [ladder.get(key) or _default_entry(...)] *)
Definition find_entry (ladder : value) (action_class service : string) : res value :=
  found ← py_get ladder (entry_key action_class service);
  Ok (py_or found (VDict (default_entry action_class service))).

(** [ladder\[key\] = _persisted_entry(entry)], and the annotated entry that is
    returned. *)
Definition store_entry (payload : dict) (ladder : value) (key : string) (entry : dict) : res (dict * dict) :=
  ladder' ← set_item ladder key (VDict (persisted_entry entry));
  annotated ← annotate_entry (VDict entry);
  Ok (annotated, dset "ladder" ladder' payload).

(** An entry that is not a dictionary: the first use of it raises. *)
Definition entry_dict (entry : value) (first_use : res value) : res dict :=
  match entry with
  | VDict e => Ok e
  | _ => _ ← first_use; raise TypeError "object does not support item assignment"
  end.

(** The section of [record_outcome]. *)
Definition record_body (action_class service outcome : string) (override : bool) (now : string)
    (payload : dict) : res (dict * dict) :=
  let '(ladder, payload') := dsetdefault "ladder" (VDict []) payload in
  found ← find_entry ladder action_class service;
  if override then
    entry ← entry_dict found (set_item found "last_override_at" (VStr now));
    entry' ← bump "override_count" (dset "last_override_at" (VStr now) entry);
    store_entry payload' ladder (entry_key action_class service) entry'
  else
    entry ← entry_dict found (py_get found "total_runs");
    counted ← count_outcome entry (String.eqb outcome "successful") outcome now;
    new_level ← compute_level counted;
    entry' ← apply_level counted new_level now;
    store_entry payload' ladder (entry_key action_class service) entry'.

(** The section of [override_level]. *)
Definition override_body (action_class service level reason now : string) (payload : dict)
    : res (dict * dict) :=
  let '(ladder, payload') := dsetdefault "ladder" (VDict []) payload in
  found ← find_entry ladder action_class service;
  entry ← entry_dict found (set_item found "level" (VStr level));
  store_entry payload' ladder (entry_key action_class service)
    (dset "manual_override_reason" (VStr reason)
       (dset "last_level_change_at" (VStr now) (dset "level" (VStr level) entry))).

Variable path : string. (* of the state file, for messages only *)

Definition record_outcome (f : file) (action_class service outcome : string) (override : bool)
    (now : string) : res dict * file :=
  locked_json true path f (record_body action_class service outcome override now).

Definition override_level (f : file) (action_class service level reason now : string) : res dict * file :=
  if negb (mem_str level (map fst LEVEL_ORDER))
  then (raise ValueError ("unknown trust level: " +:+ repr_str level), f)
  else locked_json true path f (override_body action_class service level reason now).

(** [_get_entry] *)
Definition get_entry_raw (f : file) (action_class service : string) : res value * file :=
  match f_text f with
  | None => (Ok VNone, f)
  | Some _ =>
      locked_json true path f (λ payload,
        v ← py_get (dget_or "ladder" (VDict []) payload) (entry_key action_class service);
        Ok (v, payload))
  end.

Definition get_level (f : file) (action_class service : string) : res value * file :=
  let '(r, f') := get_entry_raw f action_class service in
  (entry ← r; if truthy entry then subscript entry "level" else Ok (VStr "suggest"), f').

Definition get_entry (f : file) (action_class service : string) : res dict * file :=
  let '(r, f') := get_entry_raw f action_class service in
  (entry ← r; annotate_entry (py_or entry (VDict (default_entry action_class service))), f').

Definition list_entries (f : file) : res (list dict) * file :=
  match f_text f with
  | None => (Ok [], f)
  | Some _ =>
      locked_json true path f (λ payload,
        match dget_or "ladder" (VDict []) payload with
        | VDict ladder => l ← res_map annotate_entry (map snd ladder); Ok (l, payload)
        | v => raise AttributeError (repr_str (type_name v) +:+ " object has no attribute 'values'")
        end)
  end.
End ladder.
