(* ===== verification/TrustTheorems.v ===== *)
(** * The trust ladder: guarantees

    The invariant of the state file over any sequence of outcomes and
    overrides, and what an outcome does to the level. *)

From S2P Require Import Prelude PyFloat PyValue PyNumbers Json JsonStore TrustLadder.

(** * The trust ladder, entry by entry

    What each line of [record_outcome] and [override_level] does to a
    well-formed entry. *)

(** The stored rate of [s] successes in [t] runs. *)
Definition success_rate (s t : Z) : float :=
  f_round (if 0 <? t then int_truediv s (Z.to_pos t) else S754_zero false) 3.

(** [a >= b] for floats *)
Definition f_geb (a b : float) : bool :=
  match f_compare a b with Some Lt | None => false | _ => true end.

(** A well-formed entry: its level and the level last computed for it, its
    runs, successes and current failures, and [q] level changes. *)
Record entry_is (e : dict) (lv pv : string) (t s c q : Z) : Prop := EntryIs {
  ei_level : dget "level" e = Some (VStr lv);
  ei_prev : dget "previous_level" e = Some (VStr pv);
  ei_total : dget "total_runs" e = Some (VInt t);
  ei_succ : dget "successful_runs" e = Some (VInt s);
  ei_fail : dget "consecutive_failures" e = Some (VInt c);
  ei_rate : dget "success_rate" e = Some (VFloat (success_rate s t));
  ei_changes : ∃ p d, dget "promotion_count" e = Some (VInt p) ∧ dget "demotion_count" e = Some (VInt d)
      ∧ 0 <= p ∧ 0 <= d ∧ p + d = q;
  ei_over : ∃ o, dget "override_count" e = Some (VInt o) ∧ 0 <= o;
  ei_levels : lv ∈ TRUST_LEVELS ∧ pv ∈ TRUST_LEVELS;
  ei_counts : 0 <= s ∧ 0 <= c ∧ s + c <= t }.

(** The numbers of an entry are a function of it. *)
Lemma entry_is_fun e lv pv t s c q lv' pv' t' s' c' q' :
  entry_is e lv pv t s c q → entry_is e lv' pv' t' s' c' q' → lv = lv' ∧ t = t' ∧ s = s' ∧ c = c'.
Proof.
  intros H H'. pose proof (ei_level _ _ _ _ _ _ _ H) as H1. pose proof (ei_total _ _ _ _ _ _ _ H) as H2.
  pose proof (ei_succ _ _ _ _ _ _ _ H) as H3. pose proof (ei_fail _ _ _ _ _ _ _ H) as H4.
  rewrite (ei_level _ _ _ _ _ _ _ H') in H1. rewrite (ei_total _ _ _ _ _ _ _ H') in H2.
  rewrite (ei_succ _ _ _ _ _ _ _ H') in H3. rewrite (ei_fail _ _ _ _ _ _ _ H') in H4.
  injection H1. injection H2. injection H3. injection H4. intros. by subst.
Qed.

(** The level one below. *)
Definition lower_level (lv : string) : string :=
  level_name (Z.max 0 (default 0 (alookup lv LEVEL_ORDER) - 1)).

(** The level that [t] runs at rate [r] have earned. *)
Definition earned_level (cfg : trust_config) (t : Z) (r : float) : string :=
  if (min_auto_runs cfg <=? t) && f_geb r (auto_success_rate cfg) then "auto"
  else if (min_approve_runs cfg <=? t) && f_geb r (approve_success_rate cfg) then "approve"
  else if (min_draft_runs cfg <=? t) && f_geb r (draft_success_rate cfg) then "draft"
  else "suggest".

(** The level after an outcome. *)
Definition learned_level (cfg : trust_config) (lv : string) (t s c : Z) : string :=
  if 2 <=? c then lower_level lv else earned_level cfg t (success_rate s t).

Lemma level_cases lv :
  lv ∈ TRUST_LEVELS → lv = "suggest" ∨ lv = "draft" ∨ lv = "approve" ∨ lv = "auto".
Proof. unfold TRUST_LEVELS. rewrite !elem_of_cons, elem_of_nil. tauto. Qed.

Lemma lower_level_in lv : lv ∈ TRUST_LEVELS → lower_level lv ∈ TRUST_LEVELS.
Proof. intros [->|[->|[->| ->]]]%level_cases; apply mem_str_elem; reflexivity. Qed.

Lemma earned_level_in cfg t r : earned_level cfg t r ∈ TRUST_LEVELS.
Proof.
  unfold earned_level. apply mem_str_elem.
  repeat match goal with |- context [if ?b then _ else _] => destruct b; [reflexivity|] end. reflexivity.
Qed.

Lemma learned_level_in cfg lv t s c : lv ∈ TRUST_LEVELS → learned_level cfg lv t s c ∈ TRUST_LEVELS.
Proof. unfold learned_level. destruct (2 <=? c); [apply lower_level_in|intros _; apply earned_level_in]. Qed.

(** ** Fields *)

Lemma bump_VInt k e n : dget k e = Some (VInt n) → bump k e = Ok (dset k (VInt (n + 1)) e).
Proof. intros H. unfold bump, counter, dget_or. rewrite H. reflexivity. Qed.

Lemma py_ge_Z a b : py_ge (VInt a) (inl b) = Ok (b <=? a).
Proof.
  unfold py_ge. cbn [num_of num_compare]. f_equal.
  destruct (Z.compare_spec a b), (Z.leb_spec b a); try done; lia.
Qed.

Lemma py_ge_float a b : py_ge (VFloat a) (inr b) = Ok (f_geb a b).
Proof. reflexivity. Qed.

(** Reads through writes to fields with other names. *)
Ltac field := rewrite ?dget_dset; cbn [String.eqb Ascii.eqb Bool.eqb]; try eassumption; try reflexivity.

Lemma success_rate_small s t :
  0 <= s <= t → 0 < t → py_truediv (VInt s) t = Ok (int_truediv s (Z.to_pos t)).
Proof.
  intros Hs Ht. unfold py_truediv. cbn [num_of].
  replace ((2 ^ 1024 - 2 ^ 970) * t <=? Z.abs s) with false; [done|].
  symmetry. apply Z.leb_gt. rewrite Z.abs_eq by lia.
  assert (2 <= 2 ^ 1024 - 2 ^ 970) by (vm_compute; discriminate). nia.
Qed.

Lemma count_outcome_is e lv pv t s c q ok outcome now :
  entry_is e lv pv t s c q →
  ∃ e', count_outcome e ok outcome now = Ok e'
    ∧ entry_is e' lv pv (t + 1) (if ok then s + 1 else s) (if ok then 0 else c + 1) q
    ∧ dget "manual_override_reason" e' = dget "manual_override_reason" e.
Proof.
  intros [H1 H2 H3 H4 H5 H6 (p & d & H7 & H8 & Hpd) (o & H9 & Ho) H10 H11].
  unfold count_outcome. rewrite (bump_VInt _ _ _ H3). cbn [mbind res_bind].
  set (e1 := dset "total_runs" (VInt (t + 1)) e).
  assert (dget "successful_runs" e1 = Some (VInt s)) as S1 by (unfold e1; field).
  assert (dget "consecutive_failures" e1 = Some (VInt c)) as F1 by (unfold e1; field).
  set (s' := if ok then s + 1 else s). set (c' := if ok then 0 else c + 1).
  assert (∃ e2, (if ok then e ← bump "successful_runs" e1; Ok (dset "consecutive_failures" (VInt 0) e)
                 else bump "consecutive_failures" e1) = Ok e2
    ∧ dget "successful_runs" e2 = Some (VInt s') ∧ dget "consecutive_failures" e2 = Some (VInt c')
    ∧ ∀ k, k ≠ "successful_runs" → k ≠ "consecutive_failures" → dget k e2 = dget k e1)
    as (e2 & -> & S2 & F2 & Hk).
  { unfold s', c'. destruct ok; [rewrite (bump_VInt _ _ _ S1)|rewrite (bump_VInt _ _ _ F1)];
      (eexists; split; [reflexivity|]; split; [field|]; split; [field|]; intros k Hk1 Hk2;
       apply String.eqb_neq in Hk1, Hk2; rewrite ?dget_dset, ?Hk1, ?Hk2; done). }
  cbn [mbind res_bind].
  assert (counter "total_runs" (dset "last_outcome_at" (VStr now) (dset "last_outcome" (VStr outcome) e2))
    = Ok (t + 1)) as ->.
  { unfold counter, dget_or. field. rewrite Hk by done. unfold e1. field. }
  cbn [mbind res_bind]. replace (0 <? t + 1) with true by lia. unfold ditem. field. rewrite S2.
  cbn [mbind res_bind]. assert (0 <= s' <= t + 1 ∧ 0 <= c' ∧ s' + c' <= t + 1) as (Hs & Hc & Hsc)
    by (unfold s', c'; destruct ok; lia).
  rewrite success_rate_small by lia. cbn [mbind res_bind]. eexists. split; [reflexivity|].
  assert (∀ k v, dget k e = Some v → k ≠ "successful_runs" → k ≠ "consecutive_failures" →
    k ≠ "total_runs" → dget k e2 = Some v) as Hrest.
  { intros k v Hv Hk1 Hk2 Hk3. rewrite Hk by done. unfold e1. rewrite dget_dset.
    apply String.eqb_neq in Hk3. by rewrite Hk3. }
  split; [constructor|].
  - field. by apply Hrest.
  - field. by apply Hrest.
  - field. rewrite Hk by done. unfold e1. field.
  - field.
  - field.
  - field. unfold success_rate. by replace (0 <? t + 1) with true by lia.
  - exists p, d. split; [field; by apply Hrest|]. split; [field; by apply Hrest|done].
  - exists o. split; [field; by apply Hrest|done].
  - done.
  - lia.
  - field. rewrite Hk by done. unfold e1. field.
Qed.

Lemma meets_is e lv pv t s c q m r :
  entry_is e lv pv t s c q → meets e m r = Ok ((m <=? t) && f_geb (success_rate s t) r).
Proof.
  intros H. unfold meets, dget_or. rewrite (ei_total _ _ _ _ _ _ _ H), (ei_rate _ _ _ _ _ _ _ H).
  cbn [default from_option id]. rewrite py_ge_Z, py_ge_float. cbn [mbind res_bind]. by destruct (m <=? t).
Qed.

Lemma level_index_known lv : level_index (VStr lv) = Ok (default 0 (alookup lv LEVEL_ORDER)).
Proof. done. Qed.

Lemma compute_level_is cfg e lv pv t s c q :
  entry_is e lv pv t s c q → compute_level cfg e = Ok (learned_level cfg lv t s c).
Proof.
  intros H. unfold compute_level, learned_level, earned_level, dget_or.
  rewrite (ei_fail _ _ _ _ _ _ _ H), (ei_level _ _ _ _ _ _ _ H). cbn [default from_option id].
  rewrite py_ge_Z. cbn [mbind res_bind]. destruct (2 <=? c); [by rewrite level_index_known|].
  rewrite !(meets_is _ _ _ _ _ _ _ _ _ H). cbn [mbind res_bind].
  destruct (_ && _); [done|]. cbn [mbind res_bind]. destruct (_ && _); [done|]. cbn [mbind res_bind].
  by destruct (_ && _).
Qed.

Lemma apply_level_is e lv pv t s c q new now :
  entry_is e lv pv t s c q → new ∈ TRUST_LEVELS →
  ∃ e' pv' q', apply_level e new now = Ok e' ∧ q <= q' <= q + 1 ∧ entry_is e' new pv' t s c q'
    ∧ dget "manual_override_reason" e' = dget "manual_override_reason" e.
Proof.
  intros H Hnew. pose proof H as [H1 H2 H3 H4 H5 H6 (p & d & H7 & H8 & Hpd) (o & H9 & Ho) [H10 H10'] H11].
  unfold apply_level, ditem. rewrite H1. cbn [mbind res_bind is_string].
  destruct (String.eqb_spec new lv) as [->|Hne].
  { exists e, pv, q. split; [done|]. split; [lia|done]. }
  unfold dget_or. field. rewrite H2. cbn [default from_option id]. rewrite !level_index_known.
  cbn [mbind res_bind].
  destruct (default 0 (alookup pv LEVEL_ORDER) <? default 0 (alookup new LEVEL_ORDER));
    [erewrite bump_VInt by (field; exact H7)|erewrite bump_VInt by (field; exact H8)];
    cbn [mbind res_bind]; eexists _, new, (q + 1); (split; [reflexivity|]); (split; [lia|]);
    (split; [|field]); constructor; try (by field); try done; try (by exists o; split; [field|]).
  - exists (p + 1), d. split; [field|]. split; [field|lia].
  - exists p, (d + 1). split; [field|]. split; [field|lia].
Qed.

(** Forcing a level changes the level alone. *)
Lemma force_level_is e lv pv t s c q level now reason :
  entry_is e lv pv t s c q → level ∈ TRUST_LEVELS →
  entry_is (dset "manual_override_reason" (VStr reason)
              (dset "last_level_change_at" (VStr now) (dset "level" (VStr level) e))) level pv t s c q.
Proof.
  intros [H1 H2 H3 H4 H5 H6 (p & d & H7 & H8 & Hpd) (o & H9 & Ho) [H10 H10'] H11] Hl.
  constructor; try (by field); try done.
  - exists p, d. split; [field|]. by split; [field|].
  - exists o. by split; [field|].
Qed.

(** Counting an override leaves the learned fields alone. *)
Lemma override_is e lv pv t s c q now :
  entry_is e lv pv t s c q →
  ∃ e', bump "override_count" (dset "last_override_at" (VStr now) e) = Ok e' ∧ entry_is e' lv pv t s c q
    ∧ dget "manual_override_reason" e' = dget "manual_override_reason" e.
Proof.
  intros [H1 H2 H3 H4 H5 H6 (p & d & H7 & H8 & Hpd) (o & H9 & Ho) H10 H11].
  erewrite bump_VInt by (field; exact H9). eexists. split; [reflexivity|]. split; [|field].
  constructor; try (by field); try done.
  - exists p, d. split; [field|]. by split; [field|].
  - exists (o + 1). split; [field|lia].
Qed.

Lemma default_entry_is a s : entry_is (default_entry a s) "suggest" "suggest" 0 0 0 0.
Proof.
  constructor; try reflexivity.
  - exists 0, 0. repeat (split; [reflexivity|]). lia.
  - exists 0. split; [reflexivity|lia].
  - split; apply mem_str_elem; reflexivity.
  - lia.
Qed.

(** ** What is stored *)

Lemma dget_persisted k e : mem_str k RATIONALE_FIELDS = false → dget k (persisted_entry e) = dget k e.
Proof.
  intros Hk. unfold persisted_entry. induction e as [|[k' v] e IH]; [done|]. cbn [List.filter fst].
  destruct (mem_str k' RATIONALE_FIELDS) eqn:E; cbn [negb dget]; rewrite ?IH; [|done].
  destruct (String.eqb_spec k k') as [->|]; [congruence|done].
Qed.

(** An entry read through a function that keeps the strings, numbers and
    floats of the fields an entry is made of. *)
Lemma entry_is_via (e e' : dict) lv pv t s c q :
  (∀ k v, mem_str k RATIONALE_FIELDS = false → dget k e = Some v → json_sort v = v → dget k e' = Some v) →
  entry_is e lv pv t s c q → entry_is e' lv pv t s c q.
Proof.
  intros Hk [H1 H2 H3 H4 H5 H6 (p & d & H7 & H8 & Hpd) (o & H9 & Ho) H10 H11].
  constructor; try done; try (by apply Hk).
  - exists p, d. split; [by apply Hk|]. by split; [apply Hk|].
  - exists o. by split; [apply Hk|].
Qed.

Lemma persisted_is e lv pv t s c q :
  entry_is e lv pv t s c q → entry_is (persisted_entry e) lv pv t s c q.
Proof. apply entry_is_via. intros k v Hk Hv _. by rewrite dget_persisted. Qed.

Lemma sorted_is e lv pv t s c q : entry_is e lv pv t s c q → entry_is (sort_dict e) lv pv t s c q.
Proof. apply entry_is_via. intros k v _ Hv Hs. rewrite dget_sort_dict, Hv. simpl. by rewrite Hs. Qed.

Lemma annotate_is cfg e lv pv t s c q :
  entry_is e lv pv t s c q → ∃ a, annotate_entry cfg (VDict e) = Ok a.
Proof.
  intros [H1 H2 H3 H4 H5 H6 _ _ _ _]. unfold annotate_entry. cbn [py_dict mbind res_bind].
  rewrite !dgetN_dset. cbn [String.eqb Ascii.eqb Bool.eqb].
  rewrite (dgetN_Some _ _ _ H3), (dgetN_Some _ _ _ H5), (dgetN_Some _ _ _ H6).
  assert (∀ n, py_int (py_or (VInt n) (VInt 0)) = Ok n) as Hi.
  { intros n. unfold py_or. cbn [truthy]. by destruct (Z.eqb_spec n 0) as [->|]. }
  rewrite !Hi. cbn [mbind res_bind].
  assert (∀ x, ∃ y, py_float (py_or (VFloat x) (VFloat (S754_zero false))) = Ok y) as Hf.
  { intros x. unfold py_or. destruct (truthy _); by eexists. }
  destruct (Hf (success_rate s t)) as [y ->]. cbn [mbind res_bind]. by eexists.
Qed.

(** ** The state file *)

(** The entries of a payload. *)
Definition ladder_of (d : dict) : dict := dict_or_empty (dgetN "ladder" d).

Definition entry_of (d : dict) (action service : string) : dict :=
  match dget (entry_key action service) (ladder_of d) with
  | Some (VDict e) => e
  | _ => default_entry action service
  end.

(** Every entry is well formed; and an entry nobody overrode stands at the top
    level only when its record has earned it. *)
Definition earned_or_forced (cfg : trust_config) (e : dict) (lv : string) (t s : Z) : Prop :=
  dget "manual_override_reason" e = None → lv = "auto" → earned_level cfg t (success_rate s t) = "auto".

Definition entry_ok (cfg : trust_config) (e : dict) : Prop :=
  ∃ lv pv t s c q, entry_is e lv pv t s c q ∧ q <= t ∧ earned_or_forced cfg e lv t s.

Definition ladder_ok (cfg : trust_config) (d : dict) : Prop :=
  (dget "ladder" d = None ∨ is_dict (dgetN "ladder" d) = true)
  ∧ ∀ k v, dget k (ladder_of d) = Some v → ∃ e, v = VDict e ∧ entry_ok cfg e.

Lemma entry_of_ok cfg d a s : ladder_ok cfg d → entry_ok cfg (entry_of d a s).
Proof.
  intros [_ H]. unfold entry_of. destruct (dget _ (ladder_of d)) as [v|] eqn:E.
  - destruct (H _ _ E) as (e & -> & He). done.
  - eexists _, _, _, _, _, _. split; [apply default_entry_is|]. by split; [lia|].
Qed.

Lemma entry_ok_sort cfg e : entry_ok cfg e → entry_ok cfg (sort_dict e).
Proof.
  intros (lv & pv & t & s & c & q & He & Hq & Hf). exists lv, pv, t, s, c, q.
  split; [by apply sorted_is|]. split; [done|]. intros Hm. apply Hf.
  rewrite dget_sort_dict in Hm. by destruct (dget "manual_override_reason" e).
Qed.

Lemma ladder_of_sort d : ladder_of (sort_dict d) = sort_dict (ladder_of d).
Proof.
  unfold ladder_of. rewrite dgetN_sort_dict. destruct (dgetN "ladder" d) as [| | | | | |l]; try done.
  by rewrite json_sort_dict.
Qed.

Lemma ladder_ok_sort cfg d : ladder_ok cfg d → ladder_ok cfg (sort_dict d).
Proof.
  intros [H1 H2]. split.
  - rewrite dget_sort_dict, dgetN_sort_dict. destruct H1 as [->|H1]; [by left|right].
    by destruct (dgetN "ladder" d).
  - intros k v. rewrite ladder_of_sort, dget_sort_dict. destruct (dget k (ladder_of d)) eqn:E; [|done].
    intros [= <-]. destruct (H2 _ _ E) as (e & -> & He). exists (sort_dict e).
    rewrite json_sort_dict. split; [done|]. by apply entry_ok_sort.
Qed.

(** The section's view of the payload. *)
Lemma section_ladder cfg d : ladder_ok cfg d →
  ∃ payload', dsetdefault "ladder" (VDict []) d = (VDict (ladder_of d), payload')
    ∧ ladder_of payload' = ladder_of d.
Proof.
  intros [H _]. unfold dsetdefault, ladder_of, dgetN in *.
  destruct (dget "ladder" d) as [v|] eqn:E.
  - destruct H as [|H]; [done|]. destruct v; try done. exists d. by rewrite E.
  - eexists. split; [reflexivity|]. by rewrite dget_dset_eq.
Qed.

Lemma find_entry_ok cfg d a s : ladder_ok cfg d →
  find_entry (VDict (ladder_of d)) a s = Ok (VDict (entry_of d a s)).
Proof.
  intros [_ H]. unfold find_entry, entry_of. cbn [py_get mbind res_bind]. unfold dgetN.
  destruct (dget _ (ladder_of d)) as [v|] eqn:E; [|done].
  destruct (H _ _ E) as (e & -> & (? & ? & ? & ? & ? & ? & He & _)). cbn [default from_option id].
  destruct e; [by destruct He|done].
Qed.

(** Storing an entry that is well formed keeps the others. *)
Lemma store_entry_ok cfg d payload' a s e :
  ladder_ok cfg d → ladder_of payload' = ladder_of d → entry_ok cfg e →
  ∃ ann d', store_entry cfg payload' (VDict (ladder_of d)) (entry_key a s) e = Ok (ann, d')
    ∧ ladder_ok cfg d'
    ∧ entry_of d' a s = persisted_entry e
    ∧ ∀ a' s', entry_key a' s' ≠ entry_key a s → entry_of d' a' s' = entry_of d a' s'.
Proof.
  intros Hd Hp (lv & pv & t & su & c & q & He & Hq & Hf). unfold store_entry.
  cbn [set_item mbind res_bind]. destruct (annotate_is cfg _ _ _ _ _ _ _ He) as [ann ->].
  cbn [mbind res_bind]. eexists ann, _. split; [reflexivity|].
  assert (ladder_of (dset "ladder" (VDict (dset (entry_key a s) (VDict (persisted_entry e)) (ladder_of d)))
    payload') = dset (entry_key a s) (VDict (persisted_entry e)) (ladder_of d)) as Hl.
  { unfold ladder_of at 1. by rewrite dgetN_dset. }
  split; [split|split].
  - right. by rewrite dgetN_dset.
  - rewrite Hl. intros k v. rewrite dget_dset. destruct (String.eqb k _); [|apply Hd].
    intros [= <-]. eexists. split; [reflexivity|]. exists lv, pv, t, su, c, q.
    split; [by apply persisted_is|]. split; [done|]. intros Hm. apply Hf.
    by rewrite dget_persisted in Hm.
  - unfold entry_of. by rewrite Hl, dget_dset_eq.
  - intros a' s' Hne. unfold entry_of. rewrite Hl, dget_dset.
    apply String.eqb_neq in Hne. by rewrite Hne.
Qed.

(** ** Sections *)

(** What an outcome does to the numbers of an entry. *)
Definition runs_after (override : bool) (t : Z) : Z := if override then t else t + 1.
Definition successes_after (override ok : bool) (s : Z) : Z :=
  if negb override && ok then s + 1 else s.
Definition failures_after (override ok : bool) (c : Z) : Z :=
  if override then c else if ok then 0 else c + 1.
Definition level_after (cfg : trust_config) (override ok : bool) (lv : string) (t s c : Z) : string :=
  if override then lv
  else learned_level cfg lv (t + 1) (successes_after false ok s) (failures_after false ok c).

Lemma lower_not_auto lv : lv ∈ TRUST_LEVELS → lower_level lv ≠ "auto".
Proof. by intros [->|[->|[->| ->]]]%level_cases. Qed.

Lemma learned_earned cfg lv t s c :
  lv ∈ TRUST_LEVELS → learned_level cfg lv t s c = "auto" → earned_level cfg t (success_rate s t) = "auto".
Proof. intros Hl. unfold learned_level. destruct (2 <=? c); [|done]. by intros ?%lower_not_auto. Qed.

Section sections.
Variable cfg : trust_config.
Variables action service : string.

Lemma record_body_ok d outcome override now :
  ladder_ok cfg d →
  let ok := String.eqb outcome "successful" in
  ∃ ann d', record_body cfg action service outcome override now d = Ok (ann, d')
    ∧ ladder_ok cfg d'
    ∧ (∀ a' s', entry_key a' s' ≠ entry_key action service → entry_of d' a' s' = entry_of d a' s')
    ∧ ∀ lv pv t s c q, entry_is (entry_of d action service) lv pv t s c q →
      ∃ pv' q', entry_is (entry_of d' action service) (level_after cfg override ok lv t s c) pv'
        (runs_after override t) (successes_after override ok s) (failures_after override ok c) q'.
Proof.
  intros Hd ok. unfold record_body. fold ok. clearbody ok. destruct (section_ladder cfg d Hd) as (payload' & -> & Hp).
  rewrite (find_entry_ok cfg d _ _ Hd). cbn [mbind res_bind entry_dict].
  destruct (entry_of_ok cfg d action service Hd) as (lv & pv & t & s & c & q & He & Hq & Hf).
  destruct override.
  - destruct (override_is _ _ _ _ _ _ _ now He) as (e' & -> & He' & Hm). cbn [mbind res_bind].
    destruct (store_entry_ok cfg d payload' action service e' Hd Hp) as (ann & d' & -> & Hok & Hat & Hoth).
    { exists lv, pv, t, s, c, q. split; [done|]. split; [done|]. unfold earned_or_forced. by rewrite Hm. }
    exists ann, d'. split; [done|]. split; [done|]. split; [done|].
    intros lv0 pv0 t0 s0 c0 q0 H0. rewrite Hat.
    destruct (entry_is_fun _ _ _ _ _ _ _ _ _ _ _ _ _ H0 He) as (-> & -> & -> & ->).
    exists pv, q. by apply persisted_is.
  - destruct (count_outcome_is _ _ _ _ _ _ _ ok outcome now He) as (e1 & -> & He1 & Hm1).
    cbn [mbind res_bind]. rewrite (compute_level_is cfg _ _ _ _ _ _ _ He1). cbn [mbind res_bind].
    assert (lv ∈ TRUST_LEVELS) as Hlv by apply He.
    destruct (apply_level_is _ _ _ _ _ _ _ _ now He1 (learned_level_in cfg lv (t + 1)
      (if ok then s + 1 else s) (if ok then 0 else c + 1) Hlv))
      as (e2 & pv' & q' & -> & Hq' & He2 & Hm2). cbn [mbind res_bind].
    destruct (store_entry_ok cfg d payload' action service e2 Hd Hp) as (ann & d' & -> & Hok & Hat & Hoth).
    { eexists _, _, _, _, _, _. split; [exact He2|]. split; [lia|].
      intros _. by apply learned_earned. }
    exists ann, d'. split; [done|]. split; [done|]. split; [done|].
    intros lv0 pv0 t0 s0 c0 q0 H0. rewrite Hat.
    destruct (entry_is_fun _ _ _ _ _ _ _ _ _ _ _ _ _ H0 He) as (-> & -> & -> & ->).
    exists pv', q'. apply persisted_is. exact He2.
Qed.

Lemma override_body_ok d level reason now :
  ladder_ok cfg d → level ∈ TRUST_LEVELS →
  ∃ ann d', override_body cfg action service level reason now d = Ok (ann, d') ∧ ladder_ok cfg d'.
Proof.
  intros Hd Hl. unfold override_body. destruct (section_ladder cfg d Hd) as (payload' & -> & Hp).
  rewrite (find_entry_ok cfg d _ _ Hd). cbn [mbind res_bind entry_dict].
  destruct (entry_of_ok cfg d action service Hd) as (lv & pv & t & s & c & q & He & Hq & Hf).
  edestruct (store_entry_ok cfg d payload' action service) as (ann & d' & -> & Hok & _); [done|done| |by exists ann, d'].
  exists level, pv, t, s, c, q. split; [by eapply force_level_is|]. split; [done|].
  unfold earned_or_forced. by field.
Qed.
End sections.

(** ** Any sequence of calls *)

Inductive trust_call :=
  | RecordOutcome (action service outcome : string) (override : bool) (now : string)
  | OverrideLevel (action service level reason now : string).

Definition trust_step (cfg : trust_config) (path : string) (f : file) (c : trust_call) : res dict * file :=
  match c with
  | RecordOutcome a s outcome override now => record_outcome cfg path f a s outcome override now
  | OverrideLevel a s level reason now => override_level cfg path f a s level reason now
  end.

(** The results, in order, and the file left. *)
Fixpoint trust_run (cfg : trust_config) (path : string) (f : file) (cs : list trust_call)
    : list (res dict) * file :=
  match cs with
  | [] => ([], f)
  | c :: cs' =>
      let '(r, f1) := trust_step cfg path f c in
      let '(rs, f2) := trust_run cfg path f1 cs' in (r :: rs, f2)
  end.

(** The only call that can fail names a level that does not exist. *)
Definition known_level (c : trust_call) : bool :=
  match c with OverrideLevel _ _ level _ _ => mem_str level TRUST_LEVELS | _ => true end.

Definition state_ok (cfg : trust_config) (f : file) : Prop := ladder_ok cfg (file_contents f).

(** What a section leaves in the file, when its body keeps the invariant. *)
Lemma section_ok cfg path f (body : dict → res (dict * dict)) r f' :
  (∃ ann d', body (file_contents f) = Ok (ann, d') ∧ ladder_ok cfg d') →
  state_ok cfg f → locked_json true path f body = (r, f') → is_ok r = true ∧ state_ok cfg f'.
Proof.
  intros (ann & d' & Hb & Hok) Hf H. apply locked_json_cases in H.
  destruct r as [a|e]; [|destruct H as [H _]; by rewrite Hb in H].
  destruct H as (d1 & Hb1 & H). rewrite Hb in Hb1. injection Hb1 as <- <-.
  split; [done|]. unfold state_ok, file_contents.
  destruct H as [->|[-> _]]; [by apply ladder_ok_sort|done].
Qed.

Lemma trust_step_ok cfg path f c r f' :
  state_ok cfg f → trust_step cfg path f c = (r, f') → is_ok r = known_level c ∧ state_ok cfg f'.
Proof.
  intros Hf H. destruct c as [a s outcome ov now|a s level reason now]; cbn [trust_step known_level] in *.
  - destruct (record_body_ok cfg a s _ outcome ov now Hf) as (ann & d' & Hb & Hok & _).
    eapply section_ok; [|done|exact H]. by exists ann, d'.
  - unfold override_level in H. change (map fst LEVEL_ORDER) with TRUST_LEVELS in H.
    destruct (mem_str level TRUST_LEVELS) eqn:E; cbn [negb] in H; [|by injection H as <- <-].
    apply mem_str_elem in E. destruct (override_body_ok cfg a s _ level reason now Hf E) as (ann & d' & Hb & Hok).
    eapply section_ok; [|done|exact H]. by exists ann, d'.
Qed.

Lemma trust_run_ok cfg path cs : ∀ f,
  state_ok cfg f →
  state_ok cfg (trust_run cfg path f cs).2
  ∧ map is_ok (trust_run cfg path f cs).1 = map known_level cs.
Proof.
  induction cs as [|c cs IH]; intros f Hf; [done|]. cbn [trust_run].
  destruct (trust_step cfg path f c) as [r f1] eqn:E.
  destruct (trust_step_ok _ _ _ _ _ _ Hf E) as [Hr Hf1]. destruct (IH f1 Hf1) as [H1 H2].
  destruct (trust_run cfg path f1 cs) as [rs f2]. cbn [fst snd map] in *. by rewrite Hr, H2.
Qed.

(** ** The guarantees *)

(** What the store knows of a pair: level, runs, successes and current
    failures. *)
Definition knows (f : file) (action service lv : string) (t s c : Z) : Prop :=
  ∃ pv q, entry_is (entry_of (file_contents f) action service) lv pv t s c q.

(** C29: after any calls on a fresh ladder, only a forced level that does not
    exist was refused, and for every pair the level is one of the four, the
    counters are those of some history (successes and current failures add up
    to no more than the runs), the stored rate is that of the counters, and a
    pair nobody overrode is at [auto] only with the runs and the rate that
    [auto] requires. *)
Theorem trust_ladder_invariant cfg path cs :
  let '(results, f) := trust_run cfg path no_file cs in
  map is_ok results = map known_level cs
  ∧ ∀ action service, ∃ lv pv t s c q,
      entry_is (entry_of (file_contents f) action service) lv pv t s c q
      ∧ lv ∈ TRUST_LEVELS ∧ 0 <= s ∧ 0 <= c ∧ s + c <= t ∧ q <= t
      ∧ (dget "manual_override_reason" (entry_of (file_contents f) action service) = None → lv = "auto" →
         min_auto_runs cfg <= t ∧ f_geb (success_rate s t) (auto_success_rate cfg) = true).
Proof.
  assert (state_ok cfg no_file) as H0 by (split; [by left|done]).
  destruct (trust_run_ok cfg path cs no_file H0) as [Hf Hr].
  destruct (trust_run cfg path no_file cs) as [results f]. cbn [fst snd] in *. split; [done|].
  intros a s. destruct (entry_of_ok cfg _ a s Hf) as (lv & pv & t & su & c & q & He & Hq & Hearn).
  exists lv, pv, t, su, c, q. split; [done|]. split; [apply He|].
  destruct (ei_counts _ _ _ _ _ _ _ He) as (? & ? & ?). do 4 (split; [done|]).
  intros Hm Hl. specialize (Hearn Hm Hl). unfold earned_level in Hearn.
  destruct ((min_auto_runs cfg <=? t) && f_geb (success_rate su t) (auto_success_rate cfg)) eqn:E.
  - apply andb_true_iff in E as [E1 E2]. split; [lia|done].
  - destruct (_ && _) in Hearn; [done|]. by destruct (_ && _) in Hearn.
Qed.

(** An entry of the section that counted a run is not that of the file. *)
Lemma run_changes d d' a s lv pv t su c q lv' pv' su' c' q' :
  entry_is (entry_of d a s) lv pv t su c q → entry_is (entry_of d' a s) lv' pv' (t + 1) su' c' q' →
  py_eq (VDict d') (VDict d) = false ∧ d' ≠ d.
Proof.
  intros H H'. split; [|intros ->; destruct (entry_is_fun _ _ _ _ _ _ _ _ _ _ _ _ _ H H') as (_ & ? & _); lia].
  assert (entry_is (default_entry a s) lv' pv' (t + 1) su' c' q' → False) as Hdef.
  { intros Hd. pose proof (ei_total _ _ _ _ _ _ _ Hd) as Ht. injection Ht as Ht.
    destruct (ei_counts _ _ _ _ _ _ _ H). lia. }
  apply not_true_is_false. intros Heq. unfold entry_of in H'.
  destruct (dget (entry_key a s) (ladder_of d')) as [v|] eqn:E; [|done].
  destruct v as [| | | | | |e']; try done. unfold ladder_of, dgetN in E.
  destruct (dget "ladder" d') as [lv1|] eqn:El; [|done]. cbn [default from_option id] in E.
  destruct lv1 as [| | | | | |l']; try done.
  destruct (py_eq_dict_dget _ _ _ _ Heq El) as (w & Hw & Hlw). destruct w as [| | | | | |l]; try done.
  destruct (py_eq_dict_dget _ _ _ _ Hlw E) as (w & Hw2 & Hew). destruct w as [| | | | | |e]; try done.
  assert (entry_of d a s = e) as Hd.
  { unfold entry_of, ladder_of, dgetN. rewrite Hw. cbn [default from_option id dict_or_empty as_dict].
    by rewrite Hw2. }
  rewrite Hd in H. destruct (py_eq_dict_dget _ _ _ _ Hew (ei_total _ _ _ _ _ _ _ H')) as (w & Hw3 & Ht).
  rewrite (ei_total _ _ _ _ _ _ _ H) in Hw3. injection Hw3 as <-.
  rewrite py_eq_VInt in Ht. lia.
Qed.

Lemma knows_sort d a s lv t su c :
  (∃ pv q, entry_is (entry_of d a s) lv pv t su c q) →
  ∃ pv q, entry_is (entry_of (sort_dict d) a s) lv pv t su c q.
Proof.
  intros (pv & q & H). exists pv, q. unfold entry_of in *. rewrite ladder_of_sort, dget_sort_dict.
  destruct (dget _ (ladder_of d)) as [v|]; [|done].
  destruct v as [| | | | | |e]; try done. cbn [fmap option_fmap option_map]. rewrite json_sort_dict.
  by apply sorted_is.
Qed.

(** An outcome never fails on a ladder that calls produced, and is learned
    from at once: the run is counted, a success clears the failures, and the new
    level is one below the old one from the second failure in a row, and
    otherwise what the runs and their rate have earned, whatever the old level
    was.  Nothing is learned about any other pair. *)
Theorem record_outcome_learns cfg path f action service outcome now lv t s c :
  state_ok cfg f → knows f action service lv t s c →
  let ok := String.eqb outcome "successful" in
  let s' := if ok then s + 1 else s in
  let c' := if ok then 0 else c + 1 in
  ∃ entry f',
    record_outcome cfg path f action service outcome false now = (Ok entry, f')
    ∧ state_ok cfg f'
    ∧ knows f' action service
        (if 2 <=? c' then lower_level lv else earned_level cfg (t + 1) (success_rate s' (t + 1)))
        (t + 1) s' c'
    ∧ ∀ a b lv t s c, entry_key a b ≠ entry_key action service →
        knows f a b lv t s c → knows f' a b lv t s c.
Proof.
  intros Hf (pv & q & Hk) ok s' c'.
  destruct (record_body_ok cfg action service _ outcome false now Hf)
    as (ann & d' & Hb & Hok & Hoth & Hlearn).
  destruct (Hlearn _ _ _ _ _ _ Hk) as (pv' & q' & Hk'). cbn [runs_after level_after] in Hk'.
  destruct (record_outcome cfg path f action service outcome false now) as [r f'] eqn:E.
  pose proof (locked_json_cases _ _ _ _ _ E) as Hc.
  destruct r as [a|e]; [|destruct Hc as [Hc _]; by rewrite Hb in Hc].
  destruct Hc as (d1 & Hb1 & Hc). rewrite Hb in Hb1. injection Hb1 as <- <-.
  destruct (run_changes _ _ _ _ _ _ _ _ _ _ _ _ _ _ _ Hk Hk') as [Hne1 Hne2].
  destruct Hc as [Hc|[_ [Hc|Hc]]]; [|done|congruence].
  exists ann, f'. split; [done|].
  assert (file_contents f' = sort_dict d') as Hf' by (unfold file_contents; by rewrite Hc).
  split; [unfold state_ok; rewrite Hf'; by apply ladder_ok_sort|]. split.
  - unfold knows. rewrite Hf'. apply knows_sort. by exists pv', q'.
  - intros a b lv0 t0 s0 c0 Hne (pv0 & q0 & H0). unfold knows. rewrite Hf'. apply knows_sort.
    exists pv0, q0. by rewrite Hoth.
Qed.

Lemma record_outcome_learns_witness :
  ∃ entry f', record_outcome default_config "p" no_file "scale" "api" "failed" false "t" = (Ok entry, f')
    ∧ knows f' "scale" "api" "suggest" 1 0 1.
Proof.
  destruct (record_outcome_learns default_config "p" no_file "scale" "api" "failed" "t" "suggest" 0 0 0)
    as (entry & f' & H & _ & Hk & _).
  - split; [by left|done].
  - exists "suggest", 0. apply default_entry_is.
  - exists entry, f'. split; [exact H|exact Hk].
Defined.

(** ** What the module documentation says otherwise *)

(** The level and the change counters of a pair after some calls. *)
Definition seen (cs : list trust_call) : value * value * value :=
  let e := entry_of (file_contents (trust_run default_config "p" no_file cs).2) "scale" "api" in
  (dgetN "level" e, dgetN "promotion_count" e, dgetN "demotion_count" e).

Definition outcomes (n : nat) (outcome : string) : list trust_call :=
  replicate n (RecordOutcome "scale" "api" outcome false "t").

(** A promotion can be counted as a demotion: forcing a level leaves
    [previous_level] behind, so when the ladder takes the pair back up after an
    override the change is compared with the level before the override. *)
Theorem promotion_counted_as_demotion :
  seen (outcomes 30 "successful" ++ [OverrideLevel "scale" "api" "suggest" "r" "t"])
  = (VStr "suggest", VInt 3, VInt 0)
  ∧ seen (outcomes 30 "successful" ++ [OverrideLevel "scale" "api" "suggest" "r" "t"]
          ++ outcomes 1 "successful")
    = (VStr "auto", VInt 3, VInt 1).
Proof. split; vm_compute; reflexivity. Qed.

(** A forced level lasts until the next outcome of any kind, a success
    included. *)
Example forced_level_lost_on_success :
  seen (OverrideLevel "scale" "api" "auto" "r" "t" :: outcomes 1 "successful")
  = (VStr "suggest", VInt 0, VInt 1).
Proof. vm_compute. reflexivity. Qed.

(** Not only the second failure drops a level: every further one does. *)
Example third_failure_drops_again :
  seen (outcomes 38 "successful" ++ outcomes 2 "failed") = (VStr "approve", VInt 3, VInt 1)
  ∧ seen (outcomes 38 "successful" ++ outcomes 3 "failed") = (VStr "draft", VInt 3, VInt 2).
Proof. split; vm_compute; reflexivity. Qed.
