(* ===== verification/Signing.v ===== *)
(** * HMAC signature proofs

    The symmetric half of [src/shared/mesh_runtime/perennial/signing.py]. *)

From S2P Require Import Prelude PyFloat PyValue Json Sha256.

(** Proofs treat digests as atoms. *)
#[local] Opaque sha256_hex hmac_sha256_hex.

(** [_canonical_bytes] *)
Definition signing_bytes (payload : dict) : string := dumps true (VDict payload).

Definition default_signing_profile : string := "darkharness-hmac-sha256-v1".

Definition build_hmac_signature_proof (payload : dict) (key_id secret signing_profile : string) : dict :=
  let canonical := signing_bytes payload in
  let payload_sha256 := sha256_hex canonical in
  let signature := hmac_sha256_hex secret canonical in
  [("signing_profile", VStr signing_profile);
   ("algorithm", VStr "hmac-sha256");
   ("key_id", VStr key_id);
   ("signature", VStr signature);
   ("payload_sha256", VStr payload_sha256);
   ("status", VStr "verified");
   ("verifier", VStr "orbital_mesh_hmac_sha256_v1")].

(** [str(d.get(key) or default)] *)
Definition str_or (key default : string) (d : dict) : string :=
  py_str (py_or (dgetN key d) (VStr default)).

(** [hmac.compare_digest] on strings *)
Definition is_ascii_str (s : string) : bool := forallb (λ c, byte_z c <? 128) (str_chars s).

Definition compare_digest (a b : string) : res bool :=
  raise_if negb (is_ascii_str a && is_ascii_str b)
    with TypeError "comparing strings with non-ASCII characters is not supported";
  Ok (String.eqb a b).

Definition verify_hmac_signature_proof (payload proof : dict) (secret : string) : res bool :=
  if negb (is_string "hmac-sha256" (dgetN "algorithm" proof)) then Ok false
  else
    let expected :=
      build_hmac_signature_proof payload (str_or "key_id" "" proof) secret
        (str_or "signing_profile" default_signing_profile proof) in
    same_payload ← compare_digest (str_or "payload_sha256" "" proof)
                     (py_str (dgetN "payload_sha256" expected));
    if (same_payload : bool) then
      compare_digest (str_or "signature" "" proof) (py_str (dgetN "signature" expected))
    else Ok false.

Lemma is_hex_ascii c : is_hex c = true → (byte_z c <? 128) = true.
Proof. unfold is_hex. intros H. apply Z.ltb_lt. lia. Qed.

Lemma hex_string_ascii n s : is_hex_string n s = true → is_ascii_str s = true.
Proof.
  unfold is_hex_string, is_ascii_str. intros [_ H]%andb_true_iff.
  rewrite forallb_forall in *. intros c Hc. by apply is_hex_ascii, H.
Qed.

Lemma compare_digest_true a b : compare_digest a b = Ok true → a = b.
Proof. unfold compare_digest. intros H. apply raise_if_Ok in H as [_ [= H]]. by apply String.eqb_eq. Qed.

Lemma compare_digest_refl a : is_ascii_str a = true → compare_digest a a = Ok true.
Proof. unfold compare_digest. intros ->. cbn [andb negb]. by rewrite String.eqb_refl. Qed.

Lemma hmac_ascii secret m : is_ascii_str (hmac_sha256_hex secret m) = true.
Proof. eapply hex_string_ascii, hmac_hex_shape. Qed.

Lemma sha256_ascii m : is_ascii_str (sha256_hex m) = true.
Proof. eapply hex_string_ascii, sha256_hex_shape. Qed.

(** An accepted proof names the algorithm and carries the digest and the HMAC
    of the payload under the secret. *)
Lemma verify_hmac_accepts payload proof secret :
  verify_hmac_signature_proof payload proof secret = Ok true →
  dgetN "algorithm" proof = VStr "hmac-sha256"
  ∧ str_or "payload_sha256" "" proof = sha256_hex (signing_bytes payload)
  ∧ str_or "signature" "" proof = hmac_sha256_hex secret (signing_bytes payload).
Proof.
  unfold verify_hmac_signature_proof.
  destruct (is_string "hmac-sha256" (dgetN "algorithm" proof)) eqn:E; cbn [negb]; [|done].
  intros H. apply res_bind_Ok in H as (b & Hb & H). destruct b; [|done].
  apply compare_digest_true in Hb, H. apply is_string_true in E. done.
Qed.

Lemma hmac_nonempty secret m : hmac_sha256_hex secret m ≠ "".
Proof. intros H. by apply (f_equal String.length) in H. Qed.

Lemma sha256_nonempty m : sha256_hex m ≠ "".
Proof.
  intros H. pose proof (sha256_hex_shape m) as Hs. rewrite H in Hs. done.
Qed.

(** What is signed with a key verifies with it. *)
Lemma build_hmac_verifies payload key_id secret profile :
  verify_hmac_signature_proof payload
    (build_hmac_signature_proof payload key_id secret profile) secret = Ok true.
Proof.
  unfold verify_hmac_signature_proof. set (proof := build_hmac_signature_proof payload key_id secret profile).
  assert (str_or "payload_sha256" "" proof = sha256_hex (signing_bytes payload)) as ->.
  { unfold str_or, proof, build_hmac_signature_proof, py_or.
    cbn [dgetN dget String.eqb Ascii.eqb Bool.eqb default from_option id truthy].
    pose proof (sha256_nonempty (signing_bytes payload)) as Hne. apply String.eqb_neq in Hne.
    by rewrite Hne. }
  assert (str_or "signature" "" proof = hmac_sha256_hex secret (signing_bytes payload)) as ->.
  { unfold str_or, proof, build_hmac_signature_proof, py_or.
    cbn [dgetN dget String.eqb Ascii.eqb Bool.eqb default from_option id truthy].
    pose proof (hmac_nonempty secret (signing_bytes payload)) as Hne. apply String.eqb_neq in Hne.
    by rewrite Hne. }
  assert (is_string "hmac-sha256" (dgetN "algorithm" proof) = true) as -> by reflexivity.
  cbn [negb].
  change (py_str (dgetN "payload_sha256" (build_hmac_signature_proof payload (str_or "key_id" "" proof)
    secret (str_or "signing_profile" default_signing_profile proof))))
    with (sha256_hex (signing_bytes payload)).
  pose proof (compare_digest_refl _ (sha256_ascii (signing_bytes payload))) as Hc.
  rewrite Hc. cbn [mbind res_bind].
  change (py_str (dgetN "signature" (build_hmac_signature_proof payload (str_or "key_id" "" proof)
    secret (str_or "signing_profile" default_signing_profile proof))))
    with (hmac_sha256_hex secret (signing_bytes payload)).
  exact (compare_digest_refl _ (hmac_ascii secret (signing_bytes payload))).
Qed.
