(* ===== verification/RegistryFile.v ===== *)
(** * Registry and manifest files

    How the configuration files of the control plane are found and read:
    [_resolve_path], [_display_path] and the [read_text]/[json.loads] pair that
    [connector_certification.py] and [policy_lifecycle.py] share.  A file is
    what reading it gives: its bytes and what [json.loads] makes of them. *)

From S2P Require Import Prelude PyFloat PyValue Json Sha256 Paths SchemaValidation Schemas.

#[local] Opaque sha256_hex.

(** What is at a path.  [Unreadable e] exists but cannot be opened; the second
    field of [Readable] is the result of [json.loads(path.read_text())], a
    [UnicodeError] or [JSONDecodeError] when the bytes are not UTF-8 or not
    JSON. *)
Inductive file_view :=
  | Absent
  | Unreadable (e : exc)
  | Readable (content : string) (parsed : res value).

(** The files, by path. *)
Definition file_tree : Type := path → file_view.

Definition file_exists (v : file_view) : bool := match v with Absent => false | _ => true end.

Definition not_found (p : path) : exc := Exc OSError ("No such file or directory: " +:+ repr_str (path_str p)).

(** [json.loads(path.read_text(encoding="utf-8"))] *)
Definition load_json (files : file_tree) (p : path) : res value :=
  match files p with
  | Absent => Err (not_found p)
  | Unreadable e => Err e
  | Readable _ parsed => parsed
  end.

(** [_sha256(path)] *)
Definition sha256_of_file (files : file_tree) (p : path) : res string :=
  match files p with
  | Absent => Err (not_found p)
  | Unreadable e => Err e
  | Readable content _ => Ok (sha256_hex content)
  end.

(** [_resolve_path(raw)], the default path for an empty one *)
Definition resolve_config_path (repo_root default_path : path) (raw : option string) : path :=
  let p := match raw with
           | Some s => if String.eqb s "" then default_path else parse_path s
           | None => default_path
           end in
  if is_absolute p then p else path_join repo_root p.

(** [_display_path(path)] *)
Definition display_path (repo_root p : path) : string :=
  match relative_to p repo_root with Some r => path_str r | None => path_str p end.

(** [validate_payload(name, payload)] for a payload of any type *)
Definition validate_value (schema_name : string) (payload : value) : res unit :=
  schema ← load_schema schema_name;
  validate_node payload schema "$".

Lemma validate_value_dict name d : validate_value name (VDict d) = validate_named name d.
Proof. done. Qed.

Lemma validate_value_conforms name schema v :
  load_schema name = Ok schema → schema_wf schema = true →
  validate_value name v = Ok () → conforms v schema.
Proof.
  intros Hl Hwf H. unfold validate_value in H. rewrite Hl in H. cbn [mbind res_bind] in H.
  pose proof (validate_node_decides v schema "$" Hwf) as Hd. unfold decides in Hd. by rewrite H in Hd.
Qed.

(** A path inside the repository is shown relative to it, whatever its
    spelling. *)
Lemma drop_parts_root q p : drop_parts q (q ++ p) = Some p.
Proof. induction q as [|a q IH]; [done|]. simpl. by rewrite String.eqb_refl. Qed.

Lemma display_path_join root p :
  is_absolute root = true → is_absolute p = false →
  display_path root (path_join root p) = path_str (Path "" (p_parts p)).
Proof.
  intros Hr Hp. unfold display_path, relative_to, path_join. rewrite Hp. cbn [p_root p_parts].
  by rewrite String.eqb_refl, drop_parts_root.
Qed.
