(* ===== verification/MetricRules.v ===== *)
(** * Rules from metrics to actions

    [src/shared/mesh_runtime/metric_action_rules.py]: the rules an operator
    writes in a policy file, the first of which that holds of a signal proposes
    an action with its parameters; and [_build_signal_view_from_trigger] of
    [src/services/decision/service.py], which makes the signal.

    The regular expressions of a rule are compiled by an argument, since a rule
    may hold any; the one the code itself uses, of placeholders, is written
    out.  Rules come from JSON, so their fields are values of any type. *)

From S2P Require Import Prelude PyFloat PyValue PyNumbers Json Sha256 Paths RegistryFile.
#[local] Open Scope Z_scope.

(** ** Placeholders *)

Definition open_brace : ascii := "{"%char.
Definition close_brace : ascii := "}"%char.
Definition dot : ascii := "."%char.

(** [path.split(".")] *)
Fixpoint split_dots (s : string) : list string :=
  match s with
  | EmptyString => [""]
  | String c s' =>
      let rest := split_dots s' in
      if Ascii.eqb c dot then "" :: rest
      else match rest with [] => [String c ""] | w :: ws => String c w :: ws end
  end.

(** The longest of the first [n] segments that together are a key. *)
Fixpoint longest_key (cursor : dict) (n : nat) (segments : list string) : option (nat * value) :=
  match n with
  | O => None
  | S n' =>
      match dget (str_join "." (take n segments)) cursor with
      | Some v => Some (n, v)
      | None => longest_key cursor n' segments
      end
  end.

(** Every turn takes a segment at least, so their number is enough fuel. *)
Fixpoint resolve_segments (fuel : nat) (segments : list string) (cursor : value) : value :=
  match fuel, segments, cursor with
  | S fuel', _ :: _, VDict d =>
      match longest_key d (length segments) segments with
      | Some (n, v) => resolve_segments fuel' (drop n segments) v
      | None => VNone
      end
  | _, _, _ => cursor
  end.

(** [_resolve_path] *)
Definition resolve_signal_path (p : string) (signal : dict) : value :=
  let segments := split_dots p in
  match dget p signal with
  | None | Some (VDict _) => resolve_segments (length segments) segments (VDict signal)
  | Some v => v
  end.

(** The text up to the closing brace, if no other opens before, and what
    follows. *)
Fixpoint read_placeholder (s : string) : option (string * string) :=
  match s with
  | EmptyString => None
  | String c s' =>
      if Ascii.eqb c close_brace then Some ("", s')
      else if Ascii.eqb c open_brace then None
      else match read_placeholder s' with Some (p, rest) => Some (String c p, rest) | None => None end
  end.

Definition placeholder_text (signal : dict) (p : string) : string :=
  match resolve_signal_path (str_strip p) signal with VNone => "" | v => py_str v end.

(** Each turn consumes a character, so the length is enough fuel. *)
Fixpoint render_go (fuel : nat) (signal : dict) (s : string) : string :=
  match fuel, s with
  | S fuel', String c s' =>
      if Ascii.eqb c open_brace then
        match read_placeholder s' with
        | Some (String a p, rest) => placeholder_text signal (String a p) +:+ render_go fuel' signal rest
        | _ => String c (render_go fuel' signal s')
        end
      else String c (render_go fuel' signal s')
  | _, _ => ""
  end.

(** [_render_placeholder] *)
Definition render_placeholder (template : string) (signal : dict) : string := render_go (String.length template) signal template.

(** ** Rules *)

(** [MetricActionRule] *)
Record metric_rule := MetricRule {
  mr_name : value;
  mr_match : value;
  mr_propose : value;
  mr_bounds : value;
  mr_confidence : float;
  mr_risk_level : value;
  mr_rollback_plan : value }.

Definition REQUIRED_PROPOSE_KEYS : list string := ["action"; "decision_type"; "parameters"; "system"].
Definition RISK_LEVELS : list string := ["low"; "medium"; "high"].

Definition unhashable (v : value) : bool := is_list v || is_dict v.

(** [MetricActionRule.__post_init__] *)
Definition check_rule (r : metric_rule) : res unit :=
  raise_if negb (truthy (mr_name r)) with ValueError "rule name is required";
  keys ← py_iter (mr_propose r);
  raise_if existsb unhashable keys with TypeError "unhashable type";
  let missing := List.filter (λ k, negb (existsb (is_string k) keys)) REQUIRED_PROPOSE_KEYS in
  raise_if negb (Nat.eqb (length missing) 0)
    with ValueError ("rule " +:+ py_repr (mr_name r) +:+ " missing propose keys: " +:+ py_repr (VList (map VStr missing)));
  raise_if negb (f_leb (S754_zero false) (mr_confidence r) && f_leb (mr_confidence r) (f_of_Z 1))
    with ValueError ("rule " +:+ py_repr (mr_name r) +:+ " confidence must be between 0 and 1");
  known ← in_str_set (mr_risk_level r) RISK_LEVELS;
  raise_if negb known with ValueError ("rule " +:+ py_repr (mr_name r) +:+ " risk_level must be low/medium/high");
  Ok ().

(** [v.get(k, x)] *)
Definition get_or (k : string) (x v : value) : res value :=
  match v with
  | VDict d => Ok (dget_or k x d)
  | _ => raise AttributeError (repr_str (type_name v) +:+ " object has no attribute 'get'")
  end.

(** [v.items()] *)
Definition mapping_items (v : value) : res dict :=
  match v with
  | VDict d => Ok d
  | _ => raise AttributeError (repr_str (type_name v) +:+ " object has no attribute 'items'")
  end.

(** One rule of the file. *)
Definition load_rule (raw : value) : res metric_rule :=
  name ← subscript raw "name";
  conditions ← py_get raw "match";
  propose ← py_get raw "propose";
  bounds ← py_get raw "bounds";
  stated ← get_or "confidence" (VFloat (f_of_ratio 3 4)) raw;
  confidence ← py_float stated;
  risk_level ← get_or "risk_level" (VStr "medium") raw;
  rollback_plan ← get_or "rollback_plan" (VStr "") raw;
  let r := MetricRule name (py_or conditions (VDict [])) (py_or propose (VDict [])) (py_or bounds (VDict [])) confidence
             risk_level rollback_plan in
  _ ← check_rule r; Ok r.

(** What a matched rule proposes: [RuleMatch]. *)
Record rule_match := RuleMatch {
  rm_rule_name : value;
  rm_decision_type : value;
  rm_system : value;
  rm_action : value;
  rm_parameters : dict;
  rm_confidence : float;
  rm_risk_level : value;
  rm_rollback_plan : value;
  rm_bounds : dict;
  rm_matched_on : dict }.

(** ** Conditions *)

(** A condition, which may refuse the signal or add to the evidence. *)
Definition also (c : res (option dict)) (k : dict → res (option dict)) : res (option dict) :=
  out ← c; match out with Some evidence => k evidence | None => Ok None end.

(** [_attribute_matches] *)
Definition attribute_matches (actual expected : value) : bool :=
  if is_string "*" expected then negb (is_none actual) else py_eq actual expected.

(** The conditions on the attributes, noted under [table]. *)
Fixpoint attribute_conditions (table : string) (actual : value) (conditions evidence : dict) : res (option dict) :=
  match conditions with
  | [] => Ok (Some evidence)
  | (key, expected) :: conditions =>
      got ← py_get actual key;
      if attribute_matches got expected
      then attribute_conditions table actual conditions
             (dset table (VDict (dset key got (dict_or_empty (dgetN table evidence)))) evidence)
      else Ok None
  end.

(** A comparison that Python makes only if it has to. *)
Definition float_le (a b : value) : res bool := x ← py_float a; y ← py_float b; Ok (f_leb x y).
Definition float_ge (a b : value) : res bool := x ← py_float a; y ← py_float b; Ok (f_leb y x).

Definition direction_condition (direction observed baseline : value) (evidence : dict) : res (option dict) :=
  if truthy direction && negb (is_none observed) && negb (is_none baseline) then
    not_up ← (if is_string "increasing" direction then float_le observed baseline else Ok false);
    if not_up : bool then Ok None
    else
      not_down ← (if is_string "decreasing" direction then float_ge observed baseline else Ok false);
      if not_down : bool then Ok None else Ok (Some (dset "direction" direction evidence))
  else Ok (Some evidence).

Definition f_abs (x : float) : float := SFabs x.

(** [abs(float(delta)) < float(bound)], and the same turned round *)
Definition delta_below (delta bound : value) : res bool := x ← py_float delta; y ← py_float bound; Ok (f_ltb (f_abs x) y).
Definition delta_above (delta bound : value) : res bool := x ← py_float delta; y ← py_float bound; Ok (f_ltb y (f_abs x)).

Definition delta_condition (delta_min delta_max delta : value) (evidence : dict) : res (option dict) :=
  if is_none delta_min && is_none delta_max then Ok (Some evidence)
  else if is_none delta then Ok None
  else
    below ← (if is_none delta_min then Ok false else delta_below delta delta_min);
    if below : bool then Ok None
    else
      above ← (if is_none delta_max then Ok false else delta_above delta delta_max);
      if above : bool then Ok None else Ok (Some (dset "delta_pct" delta evidence)).

(** ** Parameters *)

(** [-v] of a number *)
Definition py_neg (v : value) : res value :=
  match v with
  | VBool b => Ok (VInt (- Z.b2z b))
  | VInt z => Ok (VInt (- z))
  | VFloat f => Ok (VFloat (SFopp f))
  | _ => raise TypeError ("bad operand type for unary -: " +:+ repr_str (type_name v))
  end.

(** [a > b] and [a < b] for a number [a] *)
Definition num_test (c : comparison) (a b : value) : res bool :=
  match num_of a, num_of b with
  | Some x, Some y => Ok (bool_decide (num_compare x y = Some c))
  | _, _ => raise TypeError ("comparison not supported between instances of " +:+ repr_str (type_name a) +:+ " and "
                             +:+ repr_str (type_name b))
  end.

(** [_clamp_signed] *)
Definition clamp_signed (v bound : value) : res value :=
  above ← num_test Gt v bound;
  if above : bool then Ok bound
  else
    negative ← py_neg bound;
    below ← num_test Lt v negative;
    Ok (if below : bool then negative else v).

Definition is_numeric (v : value) : bool := match num_of v with Some _ => true | None => false end.

Definition render_value (signal : dict) (v : value) : value :=
  match v with
  | VStr s => if str_contains "{" s then VStr (render_placeholder s signal) else v
  | _ => v
  end.

(** [_render_parameters] *)
Definition render_parameters (r : metric_rule) (signal : dict) : res dict :=
  raw ← py_get (mr_propose r) "parameters";
  template ← mapping_items (py_or raw (VDict []));
  let rendered := map (λ kv : string * value, (kv.1, render_value signal kv.2)) template in
  bound ← py_get (mr_bounds r) "replicas_delta_max";
  let delta := dgetN "replicas_delta" rendered in
  if negb (is_none bound) && is_numeric delta
  then clamped ← clamp_signed delta bound; Ok (dset "replicas_delta" clamped rendered)
  else Ok rendered.

(** ** The matcher *)

Section matcher.
(** [re.compile(pattern, re.IGNORECASE)] and [search]: the message of an error,
    or what is found in a text. *)
Context (re_compile : string → string + (string → bool)).

(** The compiled patterns by the name of the rule, the latest first. *)
Definition patterns : Type := list (value * (string → bool)).

Record matcher := Matcher { mt_rules : list metric_rule; mt_patterns : patterns }.

Definition compile_pattern (r : metric_rule) (pattern : value) : res (string → bool) :=
  match pattern with
  | VStr p =>
      match re_compile p with
      | inr search => Ok search
      | inl message => raise ValueError ("rule " +:+ py_repr (mr_name r) +:+ " has invalid metric_name_pattern: " +:+ message)
      end
  | _ => raise TypeError "first argument must be string or compiled pattern"
  end.

Fixpoint compile_patterns (rules : list metric_rule) (compiled : patterns) : res patterns :=
  match rules with
  | [] => Ok compiled
  | r :: rules =>
      pattern ← py_get (mr_match r) "metric_name_pattern";
      if truthy pattern then
        search ← compile_pattern r pattern;
        raise_if unhashable (mr_name r) with TypeError "unhashable type";
        compile_patterns rules ((mr_name r, search) :: compiled)
      else compile_patterns rules compiled
  end.

(** [MetricActionMatcher.__init__] *)
Definition new_matcher (rules : list metric_rule) : res matcher :=
  compiled ← compile_patterns rules []; Ok (Matcher rules compiled).

(** [load_metric_action_rules], without its cache *)
Definition load_rules (payload : value) : res matcher :=
  stated ← py_get payload "rules";
  raw_rules ← py_iter (py_or stated (VList []));
  rules ← res_map load_rule raw_rules;
  new_matcher rules.

Definition load_metric_action_rules (files : file_tree) (default_path : path) (given : option string) : res matcher :=
  let chosen := match given with
                | Some s => s
                | None => if file_exists (files default_path) then path_str default_path else ""
                end in
  if String.eqb chosen "" || negb (file_exists (files (parse_path chosen))) then new_matcher []
  else payload ← load_json files (parse_path chosen); load_rules payload.

(** [self._compiled_patterns.get(name)] *)
Definition pattern_of (mt : matcher) (name : value) : res (option (string → bool)) :=
  raise_if unhashable name with TypeError "unhashable type";
  Ok (snd <$> List.find (λ entry, py_eq entry.1 name) (mt_patterns mt)).

Definition name_condition (pattern : option (string → bool)) (metric_name : value) : res (option dict) :=
  match pattern with
  | None => Ok (Some [])
  | Some search =>
      match metric_name with
      | VStr s => Ok (if search s then Some [("metric_name_matched", metric_name)] else None)
      | _ => raise TypeError "expected string or bytes-like object"
      end
  end.

(** [_try_match] *)
Definition try_match (mt : matcher) (r : metric_rule) (signal : dict) : res (option dict) :=
  let regression := py_or (dgetN "metric_regression" signal) (VDict []) in
  metric_name ← get_or "metric_name" (VStr "") regression;
  observed ← py_get regression "observed_value";
  baseline ← py_get regression "baseline_value";
  delta ← py_get regression "delta_pct";
  let resource_attrs := py_or (dgetN "resource_attributes" signal) (VDict []) in
  stated_attrs ← py_get regression "attributes";
  let attrs := py_or stated_attrs (VDict []) in
  pattern ← pattern_of mt (mr_name r);
  also (name_condition pattern metric_name) (λ evidence,
  direction ← py_get (mr_match r) "direction";
  also (direction_condition direction observed baseline evidence) (λ evidence,
  delta_min ← py_get (mr_match r) "delta_pct_min";
  delta_max ← py_get (mr_match r) "delta_pct_max";
  also (delta_condition delta_min delta_max delta evidence) (λ evidence,
  of_resource ← py_get (mr_match r) "resource_attributes";
  resource_conditions ← mapping_items (py_or of_resource (VDict []));
  also (attribute_conditions "resource_attributes" resource_attrs resource_conditions evidence) (λ evidence,
  of_point ← py_get (mr_match r) "attributes";
  point_conditions ← mapping_items (py_or of_point (VDict []));
  attribute_conditions "attributes" attrs point_conditions evidence)))).

Definition propose (r : metric_rule) (signal matched_on : dict) : res rule_match :=
  parameters ← render_parameters r signal;
  action ← subscript (mr_propose r) "action";
  decision_type ← subscript (mr_propose r) "decision_type";
  system ← subscript (mr_propose r) "system";
  bounds ← py_dict (mr_bounds r);
  Ok (RuleMatch (mr_name r) decision_type system action parameters (mr_confidence r) (mr_risk_level r)
        (py_or (mr_rollback_plan r) (VStr ("undo the last " +:+ py_str action +:+ " action"))) bounds matched_on).

Fixpoint first_match (mt : matcher) (rules : list metric_rule) (signal : dict) : res (option rule_match) :=
  match rules with
  | [] => Ok None
  | r :: rules =>
      matched ← try_match mt r signal;
      match matched with
      | Some evidence => m ← propose r signal evidence; Ok (Some m)
      | None => first_match mt rules signal
      end
  end.

(** [MetricActionMatcher.match] *)
Definition match_signal (mt : matcher) (signal : dict) : res (option rule_match) :=
  _ ← get_or "metric_name" (VStr "?") (py_or (dgetN "metric_regression" signal) (VDict []));
  first_match mt (mt_rules mt) signal.
End matcher.

(** [_build_signal_view_from_trigger] *)
Definition signal_view (trigger : dict) : res dict :=
  let context := dgetN "related_context" trigger in
  regression ← get_or "metric_regression" (VDict []) context;
  resource_attributes ← get_or "resource_attributes" (VDict []) context;
  related_metrics ← get_or "related_metrics" (VList []) context;
  Ok [("service", dgetN "service" trigger); ("endpoint", dgetN "endpoint" trigger);
      ("environment", dgetN "environment" trigger); ("metric_regression", regression);
      ("resource_attributes", resource_attributes); ("related_metrics", related_metrics)].

(** ** What a proposal rests on *)

(** The conditions of a rule, one by one. *)
Definition rises (observed baseline : value) : Prop :=
  ∃ x y, py_float observed = Ok x ∧ py_float baseline = Ok y ∧ f_leb x y = false.
Definition falls (observed baseline : value) : Prop :=
  ∃ x y, py_float observed = Ok x ∧ py_float baseline = Ok y ∧ f_leb y x = false.

Definition within_delta (delta_min delta_max delta : value) : Prop :=
  (delta_min ≠ VNone → ∃ x lo, py_float delta = Ok x ∧ py_float delta_min = Ok lo ∧ f_ltb (f_abs x) lo = false)
  ∧ (delta_max ≠ VNone → ∃ x hi, py_float delta = Ok x ∧ py_float delta_max = Ok hi ∧ f_ltb hi (f_abs x) = false).

Definition attributes_hold (actual : value) (conditions : dict) : Prop :=
  ∀ k expected, (k, expected) ∈ conditions → ∃ got, py_get actual k = Ok got ∧ attribute_matches got expected = true.

(** The pattern a rule states for the name of the metric. *)
Definition own_pattern (r : metric_rule) : value :=
  match mr_match r with VDict conditions => dgetN "metric_name_pattern" conditions | _ => VNone end.

Section licences.
Context (re_compile : string → string + (string → bool)).

(** The name of the metric is one the rule's own pattern is found in. *)
Definition name_matches (r : metric_rule) (name : value) : Prop :=
  ∀ p, own_pattern r = VStr p → p ≠ "" → ∃ search s, re_compile p = inr search ∧ name = VStr s ∧ search s = true.

(** Everything the rule asks of the signal holds. *)
Record licensed (r : metric_rule) (signal conditions regression resource point : dict) : Prop := Licensed {
  li_conditions : mr_match r = VDict conditions;
  li_regression : py_or (dgetN "metric_regression" signal) (VDict []) = VDict regression;
  li_resource : py_or (dgetN "resource_attributes" conditions) (VDict []) = VDict resource;
  li_point : py_or (dgetN "attributes" conditions) (VDict []) = VDict point;
  li_name : name_matches r (dget_or "metric_name" (VStr "") regression);
  li_rises : dgetN "direction" conditions = VStr "increasing" → dgetN "observed_value" regression ≠ VNone →
    dgetN "baseline_value" regression ≠ VNone → rises (dgetN "observed_value" regression) (dgetN "baseline_value" regression);
  li_falls : dgetN "direction" conditions = VStr "decreasing" → dgetN "observed_value" regression ≠ VNone →
    dgetN "baseline_value" regression ≠ VNone → falls (dgetN "observed_value" regression) (dgetN "baseline_value" regression);
  li_delta : within_delta (dgetN "delta_pct_min" conditions) (dgetN "delta_pct_max" conditions) (dgetN "delta_pct" regression);
  li_resource_holds : attributes_hold (py_or (dgetN "resource_attributes" signal) (VDict [])) resource;
  li_point_holds : attributes_hold (py_or (dgetN "attributes" regression) (VDict [])) point }.

Lemma also_Some c k evidence :
  also c k = Ok (Some evidence) → ∃ e, c = Ok (Some e) ∧ k e = Ok (Some evidence).
Proof. unfold also. intros H. apply res_bind_Ok in H as ([e|] & Hc & H); [by exists e|done]. Qed.

Lemma is_none_false v : is_none v = false ↔ v ≠ VNone.
Proof. by destruct v. Qed.

Lemma name_condition_Some pattern name evidence :
  name_condition pattern name = Ok (Some evidence) → ∀ search, pattern = Some search → ∃ s, name = VStr s ∧ search s = true.
Proof.
  intros H search ->. unfold name_condition in H. destruct name; try done. injection H as H.
  destruct (search s) eqn:E; [by exists s|done].
Qed.

Lemma direction_condition_Some direction observed baseline e evidence :
  direction_condition direction observed baseline e = Ok (Some evidence) → observed ≠ VNone → baseline ≠ VNone →
  (direction = VStr "increasing" → rises observed baseline) ∧ (direction = VStr "decreasing" → falls observed baseline).
Proof.
  intros H Ho%is_none_false Hb%is_none_false. unfold direction_condition in H. rewrite Ho, Hb in H.
  split; intros ->; cbn in H; res_inv H; repeat match goal with b : bool |- _ => destruct b; try done end;
    unfold float_le, float_ge, rises, falls in *;
    repeat match goal with Hx : mbind _ _ = Ok _ |- _ => res_inv Hx end; eauto 10.
Qed.

Lemma delta_condition_Some delta_min delta_max delta e evidence :
  delta_condition delta_min delta_max delta e = Ok (Some evidence) → within_delta delta_min delta_max delta.
Proof.
  unfold delta_condition. intros H. split; intros Hn%is_none_false; rewrite Hn in H; cbn [andb] in H;
    [|rewrite andb_false_r in H]; (destruct (is_none delta); [done|]).
  - unfold delta_below in H. res_inv H. destruct x; [done|]. match goal with Hx : mbind _ _ = Ok false |- _ => res_inv Hx end. eauto.
  - apply res_bind_Ok in H as ([] & _ & H); [done|]. unfold delta_above in H. res_inv H. destruct x; [done|].
    match goal with Hx : mbind _ _ = Ok false |- _ => res_inv Hx end. eauto.
Qed.

Lemma attribute_conditions_Some table actual conditions : ∀ e evidence,
  attribute_conditions table actual conditions e = Ok (Some evidence) → attributes_hold actual conditions.
Proof.
  induction conditions as [|[key expected] conditions IH]; intros e evidence H k x Hin; [by apply elem_of_nil in Hin|].
  cbn [attribute_conditions] in H. apply res_bind_Ok in H as (got & Hg & H).
  destruct (attribute_matches got expected) eqn:E; [|done].
  apply elem_of_cons in Hin as [[= -> ->]|Hin]; [by exists got|by eapply IH].
Qed.

Lemma py_get_dict v k x : py_get v k = Ok x → ∃ d, v = VDict d ∧ x = dgetN k d.
Proof. destruct v; try done. intros [= <-]. eauto. Qed.

Lemma mapping_items_dict v d : mapping_items v = Ok d → v = VDict d.
Proof. destruct v; try done. by intros [= ->]. Qed.

Lemma name_condition_None pattern name :
  name_condition pattern name = Ok None → ∃ search, pattern = Some search ∧ ∀ s, name = VStr s → search s = false.
Proof.
  unfold name_condition. destruct pattern as [search|]; [|done]. destruct name; try done. intros [= H].
  exists search. split; [done|]. intros ? [= <-]. by destruct (search s).
Qed.

(** The matcher finds for the rule the pattern the rule states. *)
Definition finds_own_pattern (mt : matcher) (r : metric_rule) : Prop :=
  match own_pattern r with
  | VStr p => if String.eqb p "" then pattern_of mt (mr_name r) = Ok None
              else ∃ search, re_compile p = inr search ∧ pattern_of mt (mr_name r) = Ok (Some search)
  | v => truthy v = false ∧ pattern_of mt (mr_name r) = Ok None
  end.

(** The name condition, on the pattern that was found. *)
Lemma own_name_condition mt r pattern name :
  finds_own_pattern mt r → pattern_of mt (mr_name r) = Ok pattern →
  (∀ evidence, name_condition pattern name = Ok (Some evidence) → name_matches r name)
  ∧ (name_condition pattern name = Ok None → ¬ name_matches r name).
Proof.
  unfold finds_own_pattern, name_matches. intros Hf Hp. destruct (own_pattern r) as [| | | |p| |] eqn:Ep;
    try (destruct Hf as [_ Hf]; rewrite Hp in Hf; injection Hf as ->; by split).
  destruct (String.eqb_spec p "") as [->|Hne].
  { rewrite Hp in Hf. injection Hf as ->. split; [by intros _ _ p [= <-]|done]. }
  destruct Hf as (search & Hc & Hf). rewrite Hp in Hf. injection Hf as ->. split.
  - intros evidence H q [= <-] _. destruct (name_condition_Some _ _ _ H search eq_refl) as (s & -> & Hs). by exists search, s.
  - intros H Hall. destruct (Hall p eq_refl Hne) as (search' & s & Hc' & -> & Hs). rewrite Hc in Hc'. injection Hc' as <-.
    apply name_condition_None in H as (search' & [= <-] & Hno). by rewrite (Hno s eq_refl) in Hs.
Qed.

(** A rule that matches holds. *)
Lemma try_match_licensed mt r signal evidence :
  finds_own_pattern mt r → try_match mt r signal = Ok (Some evidence) →
  ∃ conditions regression resource point, licensed r signal conditions regression resource point.
Proof.
  intros Hown. unfold try_match. cbv zeta. intros H.
  apply res_bind_Ok in H as (name & Hname & H). apply res_bind_Ok in H as (observed & Ho & H).
  apply res_bind_Ok in H as (baseline & Hb & H). apply res_bind_Ok in H as (delta & Hd & H).
  apply res_bind_Ok in H as (attrs & Hattrs & H). apply res_bind_Ok in H as (pattern & Hp & H).
  apply also_Some in H as (e1 & H1 & H). apply res_bind_Ok in H as (direction & Hdir & H).
  apply also_Some in H as (e2 & H2 & H). apply res_bind_Ok in H as (delta_min & Hmin & H).
  apply res_bind_Ok in H as (delta_max & Hmax & H). apply also_Some in H as (e3 & H3 & H).
  apply res_bind_Ok in H as (ofr & Hofr & H). apply res_bind_Ok in H as (resource & Hres & H).
  apply also_Some in H as (e4 & H4 & H). apply res_bind_Ok in H as (ofp & Hofp & H).
  apply res_bind_Ok in H as (point & Hpoint & H).
  apply py_get_dict in Ho as (regression & Hreg & ->). rewrite Hreg in *.
  apply py_get_dict in Hdir as (conditions & Hcond & ->). rewrite Hcond in *.
  injection Hname as <-. injection Hb as <-. injection Hd as <-. injection Hattrs as <-. injection Hmin as <-. injection Hmax as <-.
  injection Hofr as <-. injection Hofp as <-. apply mapping_items_dict in Hres, Hpoint.
  exists conditions, regression, resource, point. split; try done.
  - by apply (proj1 (own_name_condition _ _ _ _ Hown Hp) e1).
  - intros Hx Ho' Hb'. by apply (direction_condition_Some _ _ _ _ _ H2 Ho' Hb').
  - intros Hx Ho' Hb'. by apply (direction_condition_Some _ _ _ _ _ H2 Ho' Hb').
  - by eapply delta_condition_Some.
  - by eapply attribute_conditions_Some.
  - by eapply attribute_conditions_Some.
Qed.

Definition holds (r : metric_rule) (signal : dict) : Prop :=
  ∃ conditions regression resource point, licensed r signal conditions regression resource point.

Lemma also_None c k : also c k = Ok None → c = Ok None ∨ ∃ e, c = Ok (Some e) ∧ k e = Ok None.
Proof. unfold also. intros H. apply res_bind_Ok in H as ([e|] & Hc & H); [right; by exists e|by left]. Qed.

Lemma direction_condition_None direction observed baseline e :
  direction_condition direction observed baseline e = Ok None → observed ≠ VNone ∧ baseline ≠ VNone
  ∧ (direction = VStr "increasing" ∧ ¬ rises observed baseline ∨ direction = VStr "decreasing" ∧ ¬ falls observed baseline).
Proof.
  unfold direction_condition. destruct (truthy direction && _ && _) eqn:E; [|done].
  apply andb_prop in E as [[_ Ho%negb_true_iff%is_none_false]%andb_prop Hb%negb_true_iff%is_none_false].
  intros H. do 2 (split; [done|]). apply res_bind_Ok in H as ([] & Hup & H).
  - destruct (is_string "increasing" direction) eqn:Ed; [|done]. apply is_string_true in Ed. left. split; [done|].
    unfold float_le in Hup. res_inv Hup. intros (x' & y' & Hx' & Hy' & Hle). congruence.
  - apply res_bind_Ok in H as ([] & Hdown & H); [|done].
    destruct (is_string "decreasing" direction) eqn:Ed; [|done]. apply is_string_true in Ed. right. split; [done|].
    unfold float_ge in Hdown. res_inv Hdown. intros (x' & y' & Hx' & Hy' & Hle). congruence.
Qed.

Lemma delta_condition_None delta_min delta_max delta e :
  delta_condition delta_min delta_max delta e = Ok None → ¬ within_delta delta_min delta_max delta.
Proof.
  unfold delta_condition. intros H [Hmin Hmax]. destruct (is_none delta_min && is_none delta_max) eqn:E; [done|].
  destruct (is_none delta) eqn:En.
  - destruct delta; try done. destruct (is_none delta_min) eqn:E1; cbn [andb] in E.
    + by destruct (Hmax ltac:(by apply is_none_false)) as (? & ? & ? & _).
    + by destruct (Hmin ltac:(by apply is_none_false)) as (? & ? & ? & _).
  - apply res_bind_Ok in H as ([] & Hb & H).
    + destruct (is_none delta_min) eqn:E1; [done|]. destruct (Hmin ltac:(by apply is_none_false)) as (x & lo & Hx & Hlo & Hlt).
      unfold delta_below in Hb. rewrite Hx, Hlo in Hb. cbn in Hb. congruence.
    + apply res_bind_Ok in H as ([] & Ha & H); [|done].
      destruct (is_none delta_max) eqn:E1; [done|]. destruct (Hmax ltac:(by apply is_none_false)) as (x & hi & Hx & Hhi & Hlt).
      unfold delta_above in Ha. rewrite Hx, Hhi in Ha. cbn in Ha. congruence.
Qed.

Lemma attribute_conditions_None table actual conditions : ∀ e,
  attribute_conditions table actual conditions e = Ok None → ¬ attributes_hold actual conditions.
Proof.
  induction conditions as [|[key expected] conditions IH]; intros e H Hall; [done|].
  cbn [attribute_conditions] in H. apply res_bind_Ok in H as (got & Hg & H).
  destruct (attribute_matches got expected) eqn:E.
  - apply (IH _ H). intros k x Hin. apply Hall. by apply list_elem_of_further.
  - destruct (Hall key expected) as (got' & Hg' & E'); [apply list_elem_of_here|]. congruence.
Qed.

(** A rule that is passed over does not hold. *)
Lemma try_match_refused mt r signal :
  finds_own_pattern mt r → try_match mt r signal = Ok None → ¬ holds r signal.
Proof.
  intros Hown. unfold try_match. cbv zeta. intros H (conditions & regression & resource & point & L). destruct L as [Lc Lg Lr Lp Ln Lri Lf Ld Lrh Lph].
  rewrite Lg, Lc in H. cbn [get_or py_get mbind res_bind] in H.
  apply res_bind_Ok in H as (pattern & Hp & H). rewrite Lr, Lp in H. cbn [mapping_items mbind res_bind] in H.
  apply also_None in H as [H|(e1 & _ & H)].
  { by apply (proj2 (own_name_condition _ _ _ _ Hown Hp) H). }
  apply also_None in H as [H|(e2 & _ & H)].
  { apply direction_condition_None in H as (Ho & Hb & [[Hd Hno]|[Hd Hno]]); [by apply Hno, Lri|by apply Hno, Lf]. }
  apply also_None in H as [H|(e3 & _ & H)]; [by apply delta_condition_None in H|].
  apply also_None in H as [H|(e4 & _ & H)]; by apply attribute_conditions_None in H.
Qed.

Lemma first_match_spec mt signal rules out :
  Forall (finds_own_pattern mt) rules → first_match mt rules signal = Ok out →
  match out with
  | None => Forall (λ q, ¬ holds q signal) rules
  | Some m => ∃ before r after matched_on, rules = before ++ r :: after ∧ Forall (λ q, ¬ holds q signal) before
      ∧ holds r signal ∧ propose r signal matched_on = Ok m
  end.
Proof.
  revert out. induction rules as [|r rules IH]; intros out Hown H; cbn [first_match] in H; [by injection H as <-|].
  apply Forall_cons in Hown as [Hr Hown]. apply res_bind_Ok in H as ([matched_on|] & Hm & H).
  - apply res_bind_Ok in H as (m & Hp & [= <-]). exists [], r, rules, matched_on.
    split; [done|]. split; [constructor|]. split; [by apply (try_match_licensed _ _ _ _ Hr) in Hm|done].
  - apply (try_match_refused _ _ _ Hr) in Hm. apply (IH _ Hown) in H. destruct out as [m|]; [|by constructor].
    destruct H as (before & r' & after & matched_on & -> & Hb & Hh & Hp). exists (r :: before), r', after, matched_on.
    split; [done|]. split; [by constructor|done].
Qed.

(** *** The compiled patterns *)

(** The name and the compiled pattern are those of one of the rules. *)
Definition compiled_from (rules : list metric_rule) (entry : value * (string → bool)) : Prop :=
  ∃ r p, r ∈ rules ∧ mr_name r = entry.1 ∧ own_pattern r = VStr p ∧ p ≠ "" ∧ re_compile p = inr entry.2.

Lemma compile_pattern_Ok r pattern search :
  truthy pattern = true → compile_pattern re_compile r pattern = Ok search →
  ∃ p, pattern = VStr p ∧ p ≠ "" ∧ re_compile p = inr search.
Proof.
  intros Ht H. unfold compile_pattern in H. destruct pattern as [| | | |p| |]; try done.
  destruct (re_compile p) as [message|found] eqn:E; [done|]. injection H as ->. exists p. split; [done|]. split; [by intros ->|done].
Qed.

Lemma compile_patterns_spec rules : ∀ compiled pats,
  compile_patterns re_compile rules compiled = Ok pats →
  ∃ added, pats = added ++ compiled ∧ Forall (compiled_from rules) added
    ∧ Forall (λ r, truthy (own_pattern r) = true → ∃ search, (mr_name r, search) ∈ added) rules.
Proof.
  induction rules as [|r rules IH]; intros compiled pats H; cbn [compile_patterns] in H.
  { injection H as <-. by exists []. }
  apply res_bind_Ok in H as (pattern & Hp & H). apply py_get_dict in Hp as (conditions & Hc & ->).
  assert (own_pattern r = dgetN "metric_name_pattern" conditions) as Ho by (unfold own_pattern; by rewrite Hc).
  assert (∀ l, Forall (compiled_from rules) l → Forall (compiled_from (r :: rules)) l) as Hmono.
  { intros l Hl. eapply Forall_impl; [exact Hl|]. intros e (q & p & Hq & He). exists q, p. split; [by right|done]. }
  rewrite <- Ho in H. destruct (truthy (own_pattern r)) eqn:Et.
  - apply res_bind_Ok in H as (search & Hs & H). apply (compile_pattern_Ok _ _ _ Et) in Hs as (p & Hp & Hne & Hs).
    destruct (unhashable (mr_name r)); [done|]. apply IH in H as (added & -> & Hf & Ha).
    exists (added ++ [(mr_name r, search)]). rewrite <- app_assoc. split; [done|]. split.
    + apply Forall_app. split; [by apply Hmono|]. apply Forall_singleton. exists r, p. split; [by left|done].
    + constructor; [intros _; exists search; apply elem_of_app; right; apply list_elem_of_here|]. eapply Forall_impl; [exact Ha|].
      intros q Hq Hqt. destruct (Hq Hqt) as [s' Hs']. exists s'. apply elem_of_app. by left.
  - apply IH in H as (added & -> & Hf & Ha). exists added. split; [done|]. split; [by apply Hmono|].
    constructor; [by rewrite Et|done].
Qed.

(** The names are texts, and rules of one name state one pattern. *)
Definition named_apart (rules : list metric_rule) : Prop :=
  Forall (λ r, ∃ s, mr_name r = VStr s) rules
  ∧ ∀ r q, r ∈ rules → q ∈ rules → mr_name r = mr_name q → own_pattern r = own_pattern q.

Lemma matcher_finds_own rules mt :
  new_matcher re_compile rules = Ok mt → named_apart rules → mt_rules mt = rules ∧ Forall (finds_own_pattern mt) rules.
Proof.
  unfold new_matcher. intros H [Hnames Hone]. apply res_bind_Ok in H as (pats & Hc & [= <-]).
  apply compile_patterns_spec in Hc as (added & -> & Hfrom & Hadded). rewrite app_nil_r.
  split; [done|]. apply Forall_forall. intros r Hr. rewrite Forall_forall in Hnames, Hadded. pose proof (proj1 (Forall_forall _ _) Hfrom) as Hin'.
  destruct (Hnames r Hr) as [n Hn]. unfold finds_own_pattern, pattern_of. rewrite Hn. cbn [unhashable is_list is_dict orb mt_patterns].
  destruct (List.find (λ entry, py_eq entry.1 (VStr n)) added) as [entry|] eqn:Ef.
  - apply List.find_some in Ef as [Hin Heq]. rewrite <- list_elem_of_In in Hin.
    destruct (Hin' _ Hin) as (q & p & Hq & Hqn & Hqp & Hne & Hqc).
    destruct (Hnames q Hq) as [m Hm]. rewrite <- Hqn, Hm in Heq. apply String.eqb_eq in Heq. subst m.
    rewrite (Hone r q Hr Hq) by congruence. rewrite Hqp. apply String.eqb_neq in Hne as ->. by exists entry.2.
  - assert (truthy (own_pattern r) = false) as Ht.
    { destruct (truthy (own_pattern r)) eqn:Et; [|done]. destruct (Hadded r Hr Et) as [search Hs]. rewrite Hn in Hs.
      apply list_elem_of_In in Hs. apply (List.find_none _ _ Ef) in Hs. cbn in Hs. by rewrite String.eqb_refl in Hs. }
    destruct (own_pattern r) as [| | | |p| |]; try done. destruct (String.eqb_spec p "") as [->|Hne]; [done|].
    by destruct p.
Qed.

(** C30: a matcher made of rules whose names are texts, and of which two of one
    name state one pattern, proposes what the first rule that holds of the signal
    says, with its parameters rendered from the signal, and proposes nothing
    exactly when no rule holds.  A rule holds when the name of the metric is one
    its own pattern is found in, the value moves the way it says, the change lies
    within its bounds and the attributes are as it asks. *)
Theorem proposal_is_licensed rules mt signal out :
  new_matcher re_compile rules = Ok mt → named_apart rules → match_signal mt signal = Ok out →
  match out with
  | None => Forall (λ q, ¬ holds q signal) rules
  | Some m => ∃ before r after, rules = before ++ r :: after ∧ Forall (λ q, ¬ holds q signal) before ∧ holds r signal
      ∧ rm_rule_name m = mr_name r ∧ rm_risk_level m = mr_risk_level r ∧ rm_confidence m = mr_confidence r
      ∧ subscript (mr_propose r) "decision_type" = Ok (rm_decision_type m) ∧ subscript (mr_propose r) "system" = Ok (rm_system m)
      ∧ subscript (mr_propose r) "action" = Ok (rm_action m) ∧ render_parameters r signal = Ok (rm_parameters m)
      ∧ mr_bounds r = VDict (rm_bounds m)
  end.
Proof.
  intros Hmt Hapart. destruct (matcher_finds_own _ _ Hmt Hapart) as [Hrules Hown].
  unfold match_signal. rewrite Hrules. intros H. apply res_bind_Ok in H as (_ & _ & H).
  apply (first_match_spec _ _ _ _ Hown) in H. destruct out as [m|]; [|done].
  destruct H as (before & r & after & matched_on & Hr & Hb & Hh & Hp). exists before, r, after. do 3 (split; [done|]).
  unfold propose in Hp. res_inv Hp. cbn. repeat (split; [done|]).
  match goal with Hren : render_parameters _ _ = Ok _ |- _ => unfold render_parameters in Hren; res_inv Hren end.
  match goal with Hbound : py_get (mr_bounds r) _ = Ok _ |- _ => apply py_get_dict in Hbound as (d & Hd & _) end.
  rewrite Hd in *. match goal with Hdict : py_dict _ = Ok _ |- _ => injection Hdict as -> end. done.
Qed.
End licences.

(** ** Bounds *)

Definition num_neg (x : Z + float) : Z + float := match x with inl z => inl (- z) | inr f => inr (SFopp f) end.

Lemma num_compare_refl x : num_compare x x ≠ Some Gt ∧ num_compare x x ≠ Some Lt.
Proof.
  destruct x as [z|f]; cbn [num_compare]; [by rewrite Z.compare_refl|].
  pose proof (f_compare_antisym f f) as H. destruct (f_compare f f) as [[]|]; done.
Qed.

Lemma num_compare_neg x : num_compare (num_neg x) x ≠ Some Gt → num_compare x (num_neg x) ≠ Some Lt.
Proof.
  destruct x as [z|f]; cbn [num_compare num_neg].
  - rewrite (Z.compare_antisym (- z) z). by destruct (Z.compare (- z) z).
  - rewrite (f_compare_antisym (SFopp f) f). by destruct (f_compare (SFopp f) f) as [[]|].
Qed.

Lemma py_neg_num v hi negative : num_of v = Some hi → py_neg v = Ok negative → num_of negative = Some (num_neg hi).
Proof. destruct v; try done; cbn; intros [= <-] [= <-]; done. Qed.

Lemma num_test_Ok c a b x y t : num_of a = Some x → num_of b = Some y → num_test c a b = Ok t → t = bool_decide (num_compare x y = Some c).
Proof. unfold num_test. by intros -> -> [= <-]. Qed.

Lemma clamp_signed_within v bound x hi v' y :
  num_of v = Some x → num_of bound = Some hi → num_compare (num_neg hi) hi ≠ Some Gt →
  clamp_signed v bound = Ok v' → num_of v' = Some y → num_compare y hi ≠ Some Gt ∧ num_compare y (num_neg hi) ≠ Some Lt.
Proof.
  intros Hv Hb Hneg H Hy. unfold clamp_signed in H. apply res_bind_Ok in H as (above & Ha & H).
  apply (num_test_Ok _ _ _ _ _ _ Hv Hb) in Ha. destruct above.
  - injection H as <-. rewrite Hb in Hy. injection Hy as <-. split; [apply num_compare_refl|by apply num_compare_neg].
  - symmetry in Ha. apply bool_decide_eq_false in Ha. apply res_bind_Ok in H as (negative & Hn & H).
    pose proof (py_neg_num _ _ _ Hb Hn) as Hnn. apply res_bind_Ok in H as (below & Hl & [= <-]).
    apply (num_test_Ok _ _ _ _ _ _ Hv Hnn) in Hl. destruct below.
    + rewrite Hnn in Hy. injection Hy as <-. split; [done|apply num_compare_refl].
    + rewrite Hv in Hy. injection Hy as <-. symmetry in Hl. apply bool_decide_eq_false in Hl. by split.
Qed.

(** C31: when a rule states a number as its bound, one that is not below its own
    opposite, a number of replicas by which a proposal of the rule scales lies
    between the bound and its opposite, for integers, floats and booleans alike. *)
Theorem replicas_delta_bounded r signal parameters bounds hi y :
  render_parameters r signal = Ok parameters →
  mr_bounds r = VDict bounds → num_of (dgetN "replicas_delta_max" bounds) = Some hi → num_compare (num_neg hi) hi ≠ Some Gt →
  num_of (dgetN "replicas_delta" parameters) = Some y →
  num_compare y hi ≠ Some Gt ∧ num_compare y (num_neg hi) ≠ Some Lt.
Proof.
  intros H Hbounds Hhi Hneg Hy. unfold render_parameters in H. res_inv H. rewrite Hbounds in *.
  match goal with Hb : py_get _ "replicas_delta_max" = Ok _ |- _ => injection Hb as <- end.
  assert (is_none (dgetN "replicas_delta_max" bounds) = false) as En by by destruct (dgetN "replicas_delta_max" bounds).
  rewrite En in H. cbn [negb andb] in H. match type of H with (if is_numeric ?d then _ else _) = _ => set (delta := d) in * end.
  unfold is_numeric in H. destruct (num_of delta) as [n|] eqn:Ed.
  - apply res_bind_Ok in H as (clamped & Hc & [= <-]). rewrite dgetN_dset in Hy. cbn [String.eqb Ascii.eqb Bool.eqb] in Hy.
    exact (clamp_signed_within _ _ _ _ _ _ Ed Hhi Hneg Hc Hy).
  - injection H as <-. subst delta. by rewrite Ed in Hy.
Qed.

(** ** Placeholders of attributes *)

Lemma split_dots_cons s : ∃ w ws, split_dots s = w :: ws.
Proof.
  destruct s as [|c s]; cbn [split_dots]; [by exists "", []|]. destruct (Ascii.eqb c dot); [by eexists _, _|].
  destruct (split_dots s); by eexists _, _.
Qed.

(** A text without dots is one segment before a dot. *)
Lemma split_dots_app a s : dot ∉ str_chars a → split_dots (a +:+ String dot s) = a :: split_dots s.
Proof.
  induction a as [|c a IH]; intros Ha; [done|]. cbn [str_chars] in Ha. apply not_elem_of_cons in Ha as [Hc Ha].
  change (String c a +:+ String dot s) with (String c (a +:+ String dot s)). cbn [split_dots]. rewrite (IH Ha).
  destruct (Ascii.eqb_spec c dot) as [->|_]; [done|]. done.
Qed.

Lemma join_split_dots s : str_join "." (split_dots s) = s.
Proof.
  induction s as [|c s IH]; [done|]. cbn [split_dots]. destruct (split_dots_cons s) as (w & ws & E). rewrite E in *.
  destruct (Ascii.eqb_spec c dot) as [->|_].
  - cbn [str_join] in *. by rewrite IH.
  - destruct ws as [|w' ws]; cbn [str_join] in *; [by rewrite IH|]. by rewrite <- IH.
Qed.

Lemma longest_key_first d n segments : ∀ m, (1 <= m)%nat → (m <= n)%nat →
  (∀ k, (m < k <= n)%nat → dget (str_join "." (take k segments)) d = None) →
  ∀ v, dget (str_join "." (take m segments)) d = Some v → longest_key d n segments = Some (m, v).
Proof.
  induction n as [|n IH]; intros m Hm Hn Hno v Hv; [lia|]. cbn [longest_key].
  destruct (decide (m = S n)) as [->|Hne]; [by rewrite Hv|]. rewrite Hno by lia. apply IH; [lia|lia| |done].
  intros k Hk. apply Hno. lia.
Qed.

Lemma resolve_key d key v fuel :
  dget key d = Some v → resolve_segments (S fuel) (split_dots key) (VDict d) = v.
Proof.
  intros Hv. destruct (split_dots_cons key) as (w & ws & E). cbn [resolve_segments]. rewrite E.
  rewrite (longest_key_first d _ _ (length (w :: ws))) with (v := v); [|cbn; lia|lia|intros k Hk; lia|].
  - rewrite drop_all. by destruct fuel.
  - by rewrite take_ge, <- E, join_split_dots by done.
Qed.

(** An attribute of the resource, under a name that may have dots itself. *)
Lemma resolve_attribute signal attrs table key v :
  dot ∉ str_chars table → dget table signal = Some (VDict attrs) → (∀ s, dget (table +:+ String dot s) signal = None) →
  dget key attrs = Some v → resolve_signal_path (table +:+ String dot key) signal = v.
Proof.
  intros Hdot Htable Hno Hv. unfold resolve_signal_path. rewrite Hno, split_dots_app by done.
  destruct (split_dots_cons key) as (w & ws & E). cbn [length resolve_segments].
  rewrite (longest_key_first signal _ _ 1) with (v := VDict attrs); [|lia|lia| |].
  - cbn [drop]. rewrite E. cbn [length]. rewrite <- E. by apply resolve_key.
  - intros k Hk. rewrite E. destruct k as [|[|k]]; [lia|lia|]. cbn [take str_join]. apply Hno.
  - cbn [take str_join]. done.
Qed.

Lemma read_placeholder_end p : open_brace ∉ str_chars p → close_brace ∉ str_chars p → read_placeholder (p +:+ "}") = Some (p, "").
Proof.
  induction p as [|c p IH]; intros Ho Hc; [done|]. cbn [str_chars] in Ho, Hc.
  apply not_elem_of_cons in Ho as [Ho1 Ho], Hc as [Hc1 Hc].
  change (String c p +:+ "}") with (String c (p +:+ "}")). cbn [read_placeholder]. rewrite (IH Ho Hc).
  destruct (Ascii.eqb_spec c close_brace) as [->|_]; [done|]. by destruct (Ascii.eqb_spec c open_brace) as [->|_].
Qed.

Lemma render_nothing fuel signal : render_go fuel signal "" = "".
Proof. by destruct fuel. Qed.

(** A template that begins with a placeholder. *)
Lemma render_open s p rest signal :
  read_placeholder s = Some (p, rest) → p ≠ "" →
  render_placeholder (String open_brace s) signal = placeholder_text signal p +:+ render_go (String.length s) signal rest.
Proof.
  intros Hr Hp. unfold render_placeholder. cbn [String.length render_go]. rewrite Ascii.eqb_refl, Hr. by destruct p.
Qed.

Lemma attribute_table_plain :
  (dot ∉ str_chars "resource_attributes") ∧ (open_brace ∉ str_chars "resource_attributes.") ∧ (close_brace ∉ str_chars "resource_attributes.").
Proof. repeat split; by apply (bool_decide_unpack _); vm_compute. Qed.

Lemma str_app_nil s : s +:+ "" = s.
Proof. induction s as [|c s IH]; [done|]. change (String c (s +:+ "") = String c s). by rewrite IH. Qed.

(** A placeholder of a resource attribute is replaced by the attribute,
    whatever dots its name has, as long as no field of the signal has a name
    that begins the same way. *)
Theorem attribute_rendered signal attrs key v :
  dget "resource_attributes" signal = Some (VDict attrs) → (∀ s, dget ("resource_attributes." +:+ s) signal = None) →
  dget key attrs = Some v → open_brace ∉ str_chars key → close_brace ∉ str_chars key →
  str_strip ("resource_attributes." +:+ key) = "resource_attributes." +:+ key →
  render_placeholder ("{resource_attributes." +:+ key +:+ "}") signal = match v with VNone => "" | _ => py_str v end.
Proof.
  intros Ha Hno Hv Ho Hc Hs. destruct (attribute_table_plain) as (Hdot & Hopen & Hclose).
  assert (resolve_signal_path ("resource_attributes." +:+ key) signal = v) as Hv'
    by (apply (resolve_attribute signal attrs "resource_attributes" key v); [exact Hdot|exact Ha|exact Hno|exact Hv]).
  assert (read_placeholder (String.append ("resource_attributes." +:+ key) "}") = Some ("resource_attributes." +:+ key, "")) as Hr.
  { apply read_placeholder_end; rewrite str_chars_app, not_elem_of_app; by split. }
  change ("{resource_attributes." +:+ key +:+ "}") with (String open_brace (String.append ("resource_attributes." +:+ key) "}")).
  rewrite (render_open _ _ _ _ Hr) by done. unfold placeholder_text. rewrite Hs, Hv', render_nothing, str_app_nil. by destruct v.
Qed.

(** ** Worked signals *)

(** Patterns without special characters, found in any spelling. *)
Definition literal (pattern : string) : string + (string → bool) := inr (λ s, str_contains (str_lower pattern) (str_lower s)).

Definition lag_parameters (replicas : string * value) : dict :=
  [("deployment_name", VStr "{resource_attributes.k8s.deployment.name}");
   ("namespace", VStr "{resource_attributes.k8s.namespace.name}"); replicas].

(** The rule of the shipped policy that scales on consumer lag. *)
Definition lag_rule (replicas : string * value) (bounds : dict) : value :=
  VDict [("name", VStr "scale on consumer lag");
         ("match", VDict [("metric_name_pattern", VStr "consumer_lag"); ("direction", VStr "increasing"); ("delta_pct_min", VInt 30);
                          ("resource_attributes", VDict [("k8s.deployment.name", VStr "*"); ("k8s.namespace.name", VStr "*")])]);
         ("propose", VDict [("decision_type", VStr "scale_deployment"); ("system", VStr "kubernetes_service");
                            ("action", VStr "scale_deployment"); ("parameters", VDict (lag_parameters replicas))]);
         ("bounds", VDict bounds); ("confidence", VFloat (f_of_ratio 3 4)); ("risk_level", VStr "low");
         ("rollback_plan", VStr "scale back")].

Definition lag_matcher (replicas : string * value) (bounds : dict) : matcher :=
  match load_rules literal (VDict [("rules", VList [lag_rule replicas bounds])]) with Ok mt => mt | Err _ => Matcher [] [] end.

Definition lag_signal (attributes : dict) : dict :=
  [("service", VStr "checkout"); ("endpoint", VStr "/"); ("environment", VStr "prod");
   ("metric_regression", VDict [("metric_name", VStr "kafka_Consumer_Lag"); ("baseline_value", VInt 100); ("observed_value", VInt 250);
                                ("delta_pct", VInt 150); ("attributes", VDict attributes)]);
   ("resource_attributes", VDict [("k8s.deployment.name", VStr "checkout-worker"); ("k8s.namespace.name", VStr "shop")]);
   ("related_metrics", VList [])].

Definition proposed (mt : matcher) (signal : dict) : option dict :=
  match match_signal mt signal with Ok (Some m) => Some (rm_parameters m) | _ => None end.

Example lag_scaled :
  proposed (lag_matcher ("replicas_delta", VInt 50) [("replicas_delta_max", VInt 3)]) (lag_signal [])
  = Some [("deployment_name", VStr "checkout-worker"); ("namespace", VStr "shop"); ("replicas_delta", VInt 3)].
Proof. vm_compute. reflexivity. Qed.

(** The bound the shipped rules state, [replicas_max], is not enforced: a typo in
    the number of replicas goes through, with the low risk of the rule. *)
Theorem replicas_max_not_enforced :
  proposed (lag_matcher ("replicas", VInt 40) [("replicas_max", VInt 8); ("cooldown_seconds", VInt 300)]) (lag_signal [])
  = Some [("deployment_name", VStr "checkout-worker"); ("namespace", VStr "shop"); ("replicas", VInt 40)].
Proof. vm_compute. reflexivity. Qed.

(** A number that is filled in from the signal is text, and is not clamped. *)
Theorem rendered_delta_not_clamped :
  proposed (lag_matcher ("replicas_delta", VStr "{metric_regression.attributes.wanted}") [("replicas_delta_max", VInt 3)])
    (lag_signal [("wanted", VInt 50)])
  = Some [("deployment_name", VStr "checkout-worker"); ("namespace", VStr "shop"); ("replicas_delta", VStr "50")].
Proof. vm_compute. reflexivity. Qed.

(** Placeholders of the attributes of the data point, as documented, are empty;
    a placeholder that goes on below a text is that text. *)
Theorem placeholders_not_as_documented :
  render_placeholder "{attributes.http.route}" (lag_signal [("http.route", VStr "/pay")]) = ""
  ∧ render_placeholder "{service.version}" (lag_signal []) = "checkout".
Proof. vm_compute. split; reflexivity. Qed.

(** Two rules of one name: the first is matched by the pattern of the second. *)
Theorem same_name_shares_pattern :
  ∃ mt m, load_rules literal (VDict [("rules", VList
      [VDict [("name", VStr "r"); ("match", VDict [("metric_name_pattern", VStr "disk_pressure")]);
              ("propose", VDict [("decision_type", VStr "restart_service"); ("system", VStr "s"); ("action", VStr "restart_service"); ("parameters", VDict [])])];
       VDict [("name", VStr "r"); ("match", VDict [("metric_name_pattern", VStr "consumer_lag")]);
              ("propose", VDict [("decision_type", VStr "scale_deployment"); ("system", VStr "s"); ("action", VStr "scale_deployment"); ("parameters", VDict [])])]])]) = Ok mt
    ∧ match_signal mt (lag_signal []) = Ok (Some m) ∧ rm_action m = VStr "restart_service".
Proof. do 2 eexists. split; [reflexivity|]. split; vm_compute; reflexivity. Qed.

(** ** Witnesses *)

(** The rules of a matcher that is loaded. *)
Definition lag_rules (replicas : string * value) (bounds : dict) : list metric_rule :=
  match load_rule (lag_rule replicas bounds) with Ok r => [r] | Err _ => [] end.

Lemma proposal_is_licensed_witness :
  let rules := lag_rules ("replicas_delta", VInt 50) [("replicas_delta_max", VInt 3)] in
  let signal := lag_signal [] in
  ∃ m before r after, rules = before ++ r :: after ∧ Forall (λ q, ¬ holds literal q signal) before ∧ holds literal r signal
    ∧ rm_rule_name m = mr_name r ∧ rm_risk_level m = mr_risk_level r ∧ rm_confidence m = mr_confidence r
    ∧ subscript (mr_propose r) "decision_type" = Ok (rm_decision_type m) ∧ subscript (mr_propose r) "system" = Ok (rm_system m)
    ∧ subscript (mr_propose r) "action" = Ok (rm_action m) ∧ render_parameters r signal = Ok (rm_parameters m)
    ∧ mr_bounds r = VDict (rm_bounds m).
Proof.
  eexists. refine (proposal_is_licensed literal (lag_rules ("replicas_delta", VInt 50) [("replicas_delta_max", VInt 3)])
    (lag_matcher ("replicas_delta", VInt 50) [("replicas_delta_max", VInt 3)]) (lag_signal []) (Some _) _ _ _).
  - vm_compute. reflexivity.
  - split.
    + vm_compute. repeat constructor. by eexists.
    + intros r q Hr Hq _. unfold lag_rules in *. destruct (load_rule _) as [rule|]; [|by apply elem_of_nil in Hr].
      apply list_elem_of_singleton in Hr as ->. by apply list_elem_of_singleton in Hq as ->.
  - vm_compute. reflexivity.
Defined.

Definition delta_rule : metric_rule :=
  MetricRule (VStr "r") (VDict []) (VDict [("parameters", VDict [("replicas_delta", VInt (-50))])]) (VDict [("replicas_delta_max", VInt 3)])
    (f_of_Z 1) (VStr "low") (VStr "").

Lemma replicas_delta_bounded_witness :
  num_compare (inl (-3)) (inl 3) ≠ Some Gt ∧ num_compare (inl (-3)) (num_neg (inl 3)) ≠ Some Lt.
Proof.
  apply (replicas_delta_bounded delta_rule [] [("replicas_delta", VInt (-3))] [("replicas_delta_max", VInt 3)] (inl 3) (inl (-3)));
    [vm_compute; reflexivity|reflexivity|reflexivity|discriminate|reflexivity].
Defined.
