(* ===== verification/Ownership.v ===== *)
(** * Ownership boundaries

    [src/shared/mesh_runtime/ownership.py]: who owns the target of a signal,
    from a registry file.  The files are an argument, as for the other
    registries; so is [Path.resolve], which only shows in [source_refs]. *)

From S2P Require Import Prelude PyFloat PyValue Json Paths SchemaValidation Schemas Models PacketFacts RegistryFile.

(** [_first_text]: the first argument that is a string with something in it. *)
Fixpoint first_text (values : list value) : string :=
  match values with
  | [] => "unknown"
  | VStr s :: rest => if String.eqb (str_strip s) "" then first_text rest else str_strip s
  | _ :: rest => first_text rest
  end.

(** [_nested] *)
Fixpoint nested (v : value) (keys : list string) : value :=
  match keys with
  | [] => v
  | k :: rest => match v with VDict d => nested (dgetN k d) rest | _ => VNone end
  end.

(** [record.get(key) == s] for the records that are objects *)
Definition has_field (key s : string) (record : dict) : bool := is_string s (dgetN key record).

(** The second loop of [_match_record]. *)
Fixpoint find_wildcard (candidates : list dict) : res (option dict) :=
  match candidates with
  | [] => Ok None
  | record :: rest =>
      any ← in_str_set (dgetN "environment" record) ["*"; "any"];
      if (any : bool) then Ok (Some record) else find_wildcard rest
  end.

(** [_match_record]: an exact environment before a wildcard. *)
Definition match_record (registry : dict) (service environment : string) : res (option dict) :=
  let records := match dgetN "records" registry with VList l => l | _ => [] end in
  let candidates := List.filter (has_field "service" service) (omap as_dict records) in
  match List.find (has_field "environment" environment) candidates with
  | Some record => Ok (Some record)
  | None => find_wildcard candidates
  end.

Definition unresolved_boundary (service environment : string) (source_refs blockers : list string) : dict :=
  [("boundary_version", VStr "ownership.boundary.v1"); ("record_id", VStr "unresolved");
   ("resolved", VBool false); ("service", VStr service); ("environment", VStr environment);
   ("namespace", VStr "unknown"); ("tenant_id", VStr "unknown"); ("customer_id", VStr "unknown");
   ("customer_boundary", VStr "unknown");
   ("owner", VDict [("owner_id", VStr "unassigned"); ("source_refs", VList [])]);
   ("approver_roles", VList []); ("rollback_authority", VDict []); ("escalation_route", VStr "");
   ("allowed_action_classes", VList []); ("policy_refs", VList []);
   ("data_boundary", VDict
      [("classification", VStr "unknown"); ("export_allowed", VBool false); ("retention_days", VInt 0);
       ("reservoir_refs", VList []);
       ("export_policy", VDict
          [("allowed", VBool false); ("allowed_destinations", VList []); ("redaction_required", VBool true)]);
       ("legal_action_scope", VDict
          [("allowed", VBool false); ("review_required", VBool true); ("authority_ref", VStr "unresolved")])]);
   ("source_refs", strs source_refs); ("blockers", strs blockers)].

(** [dict(record\[key\])] and [list(record\[key\])] *)
Definition dict_item (key : string) (record : dict) : res value :=
  v ← ditem key record; d ← py_dict v; Ok (VDict d).
Definition list_item (key : string) (record : dict) : res value :=
  v ← ditem key record; l ← py_iter v; Ok (VList l).
Definition str_item (key : string) (record : dict) : res value :=
  v ← ditem key record; Ok (VStr (py_str v)).

Definition resolved_boundary (record : dict) (source_refs : list string) : res dict :=
  record_id ← str_item "record_id" record;
  service ← str_item "service" record;
  environment ← str_item "environment" record;
  namespace ← str_item "namespace" record;
  tenant_id ← str_item "tenant_id" record;
  customer_id ← str_item "customer_id" record;
  customer_boundary ← str_item "customer_boundary" record;
  owner ← dict_item "owner" record;
  approver_roles ← list_item "approver_roles" record;
  rollback_authority ← dict_item "rollback_authority" record;
  escalation_route ← str_item "escalation_route" record;
  allowed_action_classes ← list_item "allowed_action_classes" record;
  policy_refs ← list_item "policy_refs" record;
  data_boundary ← dict_item "data_boundary" record;
  Ok [("boundary_version", VStr "ownership.boundary.v1"); ("record_id", record_id);
      ("resolved", VBool true); ("service", service); ("environment", environment);
      ("namespace", namespace); ("tenant_id", tenant_id); ("customer_id", customer_id);
      ("customer_boundary", customer_boundary); ("owner", owner); ("approver_roles", approver_roles);
      ("rollback_authority", rollback_authority); ("escalation_route", escalation_route);
      ("allowed_action_classes", allowed_action_classes); ("policy_refs", policy_refs);
      ("data_boundary", data_boundary); ("source_refs", strs source_refs); ("blockers", VList [])].

Section repository.
(** The files and the resolution of paths. *)
Variable files : file_tree.
Variable resolve_path : path → path.

Definition load_ownership_registry (p : option string) : res (option value) :=
  match p with
  | None | Some "" => Ok None
  | Some s =>
      let registry_path := parse_path s in
      if negb (file_exists (files registry_path)) then Ok None
      else
        payload ← load_json files registry_path;
        _ ← validate_value "ownership-registry.schema.json" payload;
        Ok (Some payload)
  end.

(** [except (OSError, json.JSONDecodeError, SchemaValidationError)] *)
Definition ownership_error (e : exc) : bool :=
  isinstance_exc (exc_cls e) OSError || isinstance_exc (exc_cls e) JSONDecodeError
  || isinstance_exc (exc_cls e) SchemaValidationError.

Definition ownership_registry_ready (p : option string) : res bool :=
  match load_ownership_registry p with
  | Err e => if ownership_error e then Ok false else Err e
  | Ok None => Ok false
  | Ok (Some registry) =>
      if truthy registry then records ← py_get registry "records"; Ok (truthy records) else Ok false
  end.

Definition registry_refs (p : option string) : list string :=
  match p with
  | Some s => if String.eqb s "" then [] else ["file://" +:+ path_str (resolve_path (parse_path s))]
  | None => []
  end.

Definition build_ownership_boundary (registry_path : option string) (signal_payload : dict)
    (default_environment : string) : res dict :=
  let service := first_text [dgetN "service" signal_payload; dgetN "deployment_name" signal_payload;
                             nested (VDict signal_payload) ["kubernetes"; "deployment_name"]; VStr "unknown"] in
  let environment := first_text [dgetN "environment" signal_payload; VStr default_environment; VStr "local"] in
  registry ← load_ownership_registry registry_path;
  record ← (match registry with
            | Some (VDict ((_ :: _) as r)) => match_record r service environment
            | _ => Ok None
            end);
  boundary ← (match record with
              | None => Ok (unresolved_boundary service environment (registry_refs registry_path)
                              ["ownership_record_missing"])
              | Some record => resolved_boundary record (registry_refs registry_path)
              end);
  _ ← validate_named "ownership-boundary.schema.json" boundary;
  Ok boundary.
End repository.

(** ** Boundaries of valid registries *)

Definition ownership_record_schema : value :=
  match dpath ["properties"; "records"; "items"] ownership_registry_schema with Some v => v | None => VNone end.

(** The fields a boundary takes from its record. *)
Definition RECORD_FIELDS : list string :=
  ["record_id"; "service"; "environment"; "namespace"; "tenant_id"; "customer_id"; "customer_boundary"; "owner";
   "approver_roles"; "rollback_authority"; "escalation_route"; "allowed_action_classes"; "policy_refs"; "data_boundary"].

(** The record that owns a target: the first of the service for the very
    environment or, when there is none, for any. *)
Definition owning_record (records : list dict) (service environment : string) : option dict :=
  let of_service := List.filter (has_field "service" service) records in
  match List.find (has_field "environment" environment) of_service with
  | Some record => Some record
  | None => List.find (λ r, str_in (dgetN "environment" r) ["*"; "any"]) of_service
  end.

Lemma find_wildcard_find records :
  Forall (λ r, is_str (dgetN "environment" r) = true) records →
  find_wildcard records = Ok (List.find (λ r, str_in (dgetN "environment" r) ["*"; "any"]) records).
Proof.
  induction 1 as [|r rs Hr _ IH]; [done|]. cbn [find_wildcard List.find].
  destruct (dgetN "environment" r); try done. cbn [in_str_set mbind res_bind]. by destruct (str_in _ _).
Qed.

Lemma conforms_array_of_strings v d d' :
  conforms v (VDict d) → dget "type" d = Some (VStr "array") → typed_as "array" d true = true →
  dget "items" d = Some (VDict [("type", VStr "string")]) →
  dget "type" d' = Some (VStr "array") → dhas "enum" d' = false → dgetN "minItems" d' = VNone →
  dget "items" d' = Some (VDict [("type", VStr "string")]) →
  (∃ l, v = VList l) ∧ conforms v (VDict d').
Proof.
  intros H H1 H2 H3 H4 H5 H6 H7. destruct (conforms_strings _ _ H H1 H2 H3) as [l ->].
  split; [eauto|]. by apply conforms_strs.
Qed.

Lemma resolved_boundary_valid record refs :
  conforms (VDict record) ownership_record_schema →
  ∃ boundary, resolved_boundary record refs = Ok boundary
    ∧ validate_named "ownership-boundary.schema.json" boundary = Ok ()
    ∧ dgetN "resolved" boundary = VBool true ∧ dgetN "blockers" boundary = VList []
    ∧ Forall (λ k, dget k boundary = dget k record) RECORD_FIELDS.
Proof.
  intros H. unfold ownership_record_schema in H. cbn in H.
  member H "record_id" v1 E1 H1. member H "service" v2 E2 H2. member H "environment" v3 E3 H3.
  member H "namespace" v4 E4 H4. member H "tenant_id" v5 E5 H5. member H "customer_id" v6 E6 H6.
  member H "customer_boundary" v7 E7 H7. member H "owner" v8 E8 H8. member H "approver_roles" v9 E9 H9.
  member H "rollback_authority" v10 E10 H10. member H "escalation_route" v11 E11 H11.
  member H "allowed_action_classes" v12 E12 H12. member H "policy_refs" v13 E13 H13.
  member H "data_boundary" v14 E14 H14.
  destruct (conforms_str _ _ H1 eq_refl) as [s1 ->], (conforms_str _ _ H2 eq_refl) as [s2 ->],
    (conforms_str _ _ H3 eq_refl) as [s3 ->], (conforms_str _ _ H4 eq_refl) as [s4 ->],
    (conforms_str _ _ H5 eq_refl) as [s5 ->], (conforms_str _ _ H6 eq_refl) as [s6 ->],
    (conforms_str _ _ H7 eq_refl) as [s7 ->], (conforms_dict _ _ H8 eq_refl) as [d8 ->],
    (conforms_dict _ _ H10 eq_refl) as [d10 ->], (conforms_str _ _ H11 eq_refl) as [s11 ->],
    (conforms_dict _ _ H14 eq_refl) as [d14 ->].
  destruct (conforms_strings _ _ H9 eq_refl eq_refl eq_refl) as [l9 ->],
    (conforms_strings _ _ H12 eq_refl eq_refl eq_refl) as [l12 ->],
    (conforms_strings _ _ H13 eq_refl eq_refl eq_refl) as [l13 ->].
  unfold resolved_boundary, str_item, dict_item, list_item, ditem.
  rewrite E1, E2, E3, E4, E5, E6, E7, E8, E9, E10, E11, E12, E13, E14. cbn [mbind res_bind py_str py_dict py_iter].
  eexists. split; [reflexivity|]. split; [|split; [done|split; [done|]]].
  - eapply validate_named_ok; [reflexivity..|]. unfold ownership_boundary_schema.
    conform_step; try first [exact H8|exact H10|exact H14|by apply conforms_strs]. all: conform_step; constructor.
  - repeat constructor; symmetry; done.
Qed.

Lemma unresolved_boundary_valid service environment refs blockers :
  validate_named "ownership-boundary.schema.json" (unresolved_boundary service environment refs blockers) = Ok ().
Proof.
  eapply validate_named_ok; [reflexivity..|]. unfold ownership_boundary_schema, unresolved_boundary.
  conform_step; try by apply conforms_strs. all: repeat conform_step; constructor.
Qed.

(** What a registry that loads holds. *)
Lemma loaded_ownership files p v :
  load_ownership_registry files p = Ok (Some v) →
  ∃ r records, v = VDict r ∧ r ≠ [] ∧ dgetN "records" r = VList (map VDict records)
    ∧ Forall (λ record, conforms (VDict record) ownership_record_schema) records.
Proof.
  unfold load_ownership_registry. destruct p as [[|c s]|]; [done| |done]. destruct (negb _); [done|].
  intros H. res_inv H. destruct x0.
  apply (validate_value_conforms _ ownership_registry_schema) in Hx0; [|reflexivity..].
  unfold ownership_registry_schema in Hx0. destruct (conforms_dict _ _ Hx0 eq_refl) as [r ->].
  member Hx0 "records" vr Er Hr. destruct (conforms_list _ _ Hr eq_refl) as [l ->].
  assert (Forall (λ x, conforms x ownership_record_schema) l) as Hl.
  { apply Forall_forall. intros x Hx1. eapply conforms_items; [exact Hr|reflexivity|reflexivity|done]. }
  assert (∃ records, l = map VDict records ∧ Forall (λ record, conforms (VDict record) ownership_record_schema) records)
    as (records & -> & Hrec).
  { clear -Hl. induction Hl as [|x l Hx _ (rs & -> & IH)]; [by exists []|].
    destruct (conforms_dict _ _ Hx eq_refl) as [d ->]. exists (d :: rs). by split; [|constructor]. }
  exists r, records. repeat split; [by intros ->|by apply dgetN_Some|done].
Qed.

Lemma record_environment record :
  conforms (VDict record) ownership_record_schema → is_str (dgetN "environment" record) = true.
Proof.
  intros H. unfold ownership_record_schema in H. cbn in H. member H "environment" v E Hv.
  destruct (conforms_str _ _ Hv eq_refl) as [s ->]. by rewrite (dgetN_Some _ _ _ E).
Qed.

Lemma owning_record_In records service environment record :
  owning_record records service environment = Some record → record ∈ records.
Proof.
  unfold owning_record. destruct (List.find _ _) as [r|] eqn:E; [intros [= <-]|intros E'; revert E'; rename E into E0; intros E];
    apply find_some in E as [E _]; apply filter_In in E as [E _]; by apply list_elem_of_In.
Qed.

Lemma match_record_owning r records service environment :
  dgetN "records" r = VList (map VDict records) →
  Forall (λ record, conforms (VDict record) ownership_record_schema) records →
  match_record r service environment = Ok (owning_record records service environment).
Proof.
  intros Hr Hrec. unfold match_record, owning_record. rewrite Hr.
  replace (omap as_dict (map VDict records)) with records by (clear; induction records; [done|]; cbn; by f_equal).
  destruct (List.find _ _); [done|]. apply find_wildcard_find.
  apply Forall_forall. intros x Hx. apply list_elem_of_In, filter_In in Hx as [Hx _].
  rewrite Forall_forall in Hrec. by apply record_environment, Hrec, list_elem_of_In.
Qed.

(** The service and environment a signal is about. *)
Definition signal_service (signal : dict) : string :=
  first_text [dgetN "service" signal; dgetN "deployment_name" signal;
              nested (VDict signal) ["kubernetes"; "deployment_name"]; VStr "unknown"].
Definition signal_environment (signal : dict) (default_environment : string) : string :=
  first_text [dgetN "environment" signal; VStr default_environment; VStr "local"].

(** C40: when the registry loads or there is none, every signal gets a boundary
    that validates; it is resolved exactly when the registry has a record for
    the service in this environment or in any, and then all its fields are
    those of that record, an exact environment before a wildcard.  Otherwise it
    names the blocker. *)
Theorem ownership_boundary_decides files resolve p registry signal default_environment :
  load_ownership_registry files p = Ok registry →
  let records := match registry with Some v => omap as_dict (default [] (as_list (dgetN "records" (dict_or_empty v)))) | None => [] end in
  ∃ boundary, build_ownership_boundary files resolve p signal default_environment = Ok boundary
    ∧ validate_named "ownership-boundary.schema.json" boundary = Ok ()
    ∧ match owning_record records (signal_service signal) (signal_environment signal default_environment) with
      | Some record => dgetN "resolved" boundary = VBool true ∧ dgetN "blockers" boundary = VList []
          ∧ Forall (λ k, dget k boundary = dget k record) RECORD_FIELDS
      | None => dgetN "resolved" boundary = VBool false ∧ dgetN "blockers" boundary = strs ["ownership_record_missing"]
      end.
Proof.
  intros Hl records. unfold build_ownership_boundary. rewrite Hl. cbn [mbind res_bind].
  fold (signal_service signal). fold (signal_environment signal default_environment).
  destruct registry as [v|]; cycle 1.
  { cbn [mbind res_bind]. rewrite unresolved_boundary_valid. cbn [mbind res_bind]. eexists.
    split; [reflexivity|]. split; [apply unresolved_boundary_valid|done]. }
  destruct (loaded_ownership _ _ _ Hl) as (r & recs & -> & Hne & Hr & Hrec).
  assert (records = recs) as ->.
  { subst records. unfold dict_or_empty. cbn [as_dict default from_option id]. rewrite Hr.
    clear. cbn. induction recs; [done|]; cbn; by f_equal. }
  destruct r as [|kv r]; [done|]. rewrite (match_record_owning _ recs) by done. cbn [mbind res_bind].
  destruct (owning_record recs _ _) as [record|] eqn:Eo.
  - apply owning_record_In in Eo. rewrite Forall_forall in Hrec.
    destruct (resolved_boundary_valid record (registry_refs resolve p) (Hrec _ Eo)) as (b & -> & Hb & H1 & H2 & H3).
    cbn [mbind res_bind]. rewrite Hb. cbn [mbind res_bind]. by exists b.
  - cbn [mbind res_bind]. rewrite unresolved_boundary_valid. cbn [mbind res_bind]. eexists.
    split; [reflexivity|]. split; [apply unresolved_boundary_valid|done].
Qed.

Definition demo_owner_record (environment : string) : dict :=
  [("record_id", VStr ("own-" +:+ environment)); ("service", VStr "checkout"); ("environment", VStr environment);
   ("namespace", VStr "shop"); ("tenant_id", VStr "acme"); ("customer_id", VStr "c1");
   ("customer_boundary", VStr "acme/shop"); ("owner", VDict [("owner_id", VStr "team-pay")]);
   ("approver_roles", strs ["approver"]); ("rollback_authority", VDict []); ("escalation_route", VStr "pager");
   ("allowed_action_classes", strs ["rollback"]); ("policy_refs", strs ["p1"]);
   ("data_boundary", VDict
      [("classification", VStr "internal"); ("export_allowed", VBool false); ("retention_days", VInt 30);
       ("reservoir_refs", VList []);
       ("export_policy", VDict
          [("allowed", VBool false); ("allowed_destinations", VList []); ("redaction_required", VBool true)]);
       ("legal_action_scope", VDict
          [("allowed", VBool true); ("review_required", VBool false); ("authority_ref", VStr "a1")])])].

Definition demo_ownership_registry : value :=
  VDict [("version", VStr "1"); ("records", dicts [demo_owner_record "*"; demo_owner_record "prod"])].

Definition demo_ownership_files : file_tree := λ _, Readable "{}" (Ok demo_ownership_registry).

(** Production has a record of its own, staging falls back on the wildcard. *)
Lemma ownership_boundary_decides_witness :
  ∃ boundary,
    build_ownership_boundary demo_ownership_files id (Some "own.json")
      [("service", VStr "checkout"); ("environment", VStr "prod")] "local" = Ok boundary
    ∧ dgetN "record_id" boundary = VStr "own-prod".
Proof.
  destruct (ownership_boundary_decides demo_ownership_files id (Some "own.json") (Some demo_ownership_registry)
    [("service", VStr "checkout"); ("environment", VStr "prod")] "local") as (b & Hb & _ & H); [by vm_compute|].
  exists b. split; [exact Hb|]. replace (owning_record _ _ _) with (Some (demo_owner_record "prod")) in H
    by (vm_compute; reflexivity).
  destruct H as (_ & _ & H). inversion H as [|? ? H1 _]. unfold dgetN. by rewrite H1.
Defined.

(** A boundary from a wildcard record names the wildcard, not the environment
    of the signal. *)
Lemma wildcard_boundary_environment :
  (boundary ← build_ownership_boundary demo_ownership_files id (Some "own.json")
     [("service", VStr "checkout"); ("environment", VStr "staging")] "local";
   Ok (dgetN "environment" boundary)) = Ok (VStr "*").
Proof. vm_compute. reflexivity. Qed.
