(* ===== verification/OperatorReviews.v ===== *)
(** * Handoffs and reviews by operators

    [src/shared/mesh_runtime/operator_handoff.py], [override_review.py] and
    [postmortem_review.py]: the packets that record who hands a run over, who
    reviews an override and who reviews a finished run.  [timestamp] is the
    formatted clock reading.

    [str_lower] lowers ASCII letters only, which is enough to decide whether a
    word is in the sets below: no other character lowers to their letters. *)

From S2P Require Import Prelude PyFloat PyValue Json PyNumbers SchemaValidation Schemas Models PacketFacts.

(** [s.split(",")] *)
Fixpoint split_commas (s : string) : list string :=
  match s with
  | EmptyString => [""]
  | String c rest =>
      if Ascii.eqb c "," then "" :: split_commas rest
      else match split_commas rest with
           | [] => [String c ""]
           | w :: ws => String c w :: ws
           end
  end.

(** [str(x).strip()] of the items that have something left. *)
Definition stripped_items (l : list value) : list string :=
  List.filter (λ s, negb (String.eqb s "")) (map (λ v, str_strip (py_str v)) l).

(** [_roles], as the set it returns *)
Definition operator_roles (raw : value) : list string :=
  match raw with
  | VStr s => stripped_items (map VStr (split_commas s))
  | VList l => stripped_items l
  | _ => []
  end.

(** [str(d.get(key) or default)] of a value that should be a dictionary *)
Definition text_or (key default : string) (v : value) : res string :=
  x ← py_get v key; Ok (py_str (py_or x (VStr default))).

(** [_operator_record]; the three modules have the same one. *)
Definition operator_record (operator : value) : res dict :=
  operator_id ← text_or "operator_id" "" operator;
  let operator_id := str_strip operator_id in
  raise_if String.eqb operator_id "" with ValueError "operator_id is required";
  roles ← py_get operator "roles";
  source ← text_or "source" "proxy_header" operator;
  Ok [("operator_id", VStr operator_id); ("roles", strs (sorted_set (operator_roles roles)));
      ("source", VStr (str_strip source))].

(** [s.strip() if isinstance(s, str) and s.strip() else None] *)
Definition stripped_or_none (s : option string) : option string :=
  match s with
  | Some s => if String.eqb (str_strip s) "" then None else Some (str_strip s)
  | None => None
  end.

Definition blank (s : string) : bool := String.eqb (str_strip s) "".

(** ** Handoffs *)

Definition OPERATOR_HANDOFF_URGENCIES : list string := ["low"; "normal"; "high"; "critical"].

Definition build_operator_handoff (run_id : string) (from_operator to_operator : value)
    (reason next_action handoff_id : string) (related_event_id : option string) (urgency : string)
    (due_at : option string) (timestamp : string) : res dict :=
  raise_if blank run_id with ValueError "run_id is required";
  raise_if blank handoff_id with ValueError "handoff_id is required";
  raise_if blank reason with ValueError "handoff reason is required";
  raise_if blank next_action with ValueError "handoff next_action is required";
  let lowered := str_lower (str_strip urgency) in
  let normalized_urgency := if String.eqb lowered "" then "normal" else lowered in
  raise_if negb (mem_str normalized_urgency OPERATOR_HANDOFF_URGENCIES)
    with ValueError ("unsupported handoff urgency: " +:+ urgency);
  from_record ← operator_record from_operator;
  to_record ← operator_record to_operator;
  let packet :=
    [("schema_version", VStr "mesh.operator_handoff.v1"); ("handoff_id", VStr (str_strip handoff_id));
     ("run_id", VStr (str_strip run_id)); ("created_at", VStr timestamp);
     ("from_operator", VDict from_record); ("to_operator", VDict to_record);
     ("reason", VStr (str_strip reason)); ("next_action", VStr (str_strip next_action));
     ("urgency", VStr normalized_urgency); ("status", VStr "open");
     ("related_event_id", opt_str related_event_id); ("due_at", opt_str (stripped_or_none due_at))] in
  _ ← validate_named "operator-handoff.schema.json" packet;
  Ok packet.

(** ** Reviews of overrides *)

Definition REVIEW_VERDICTS : list string := ["accepted"; "needs_followup"; "rejected"].
Definition OVERRIDE_REVIEW_COMMANDS : list string := ["override_decision"; "override_execution_parameters"].

(** [_override_command_record] *)
Definition override_command_record (command : value) : res dict :=
  event_id ← text_or "event_id" "" command;
  command_id ← text_or "command_id" "" command;
  command_type ← text_or "command_type" "" command;
  issued_at ← text_or "issued_at" "" command;
  let event_id := str_strip event_id in
  let command_id := str_strip command_id in
  let command_type := str_strip command_type in
  let issued_at := str_strip issued_at in
  raise_if String.eqb event_id "" with ValueError "override command event_id is required";
  raise_if String.eqb command_id "" with ValueError "override command command_id is required";
  raise_if negb (mem_str command_type OVERRIDE_REVIEW_COMMANDS)
    with ValueError ("unsupported override command type: " +:+ command_type);
  raise_if String.eqb issued_at "" with ValueError "override command issued_at is required";
  operator_id ← py_get command "operator_id";
  let normalized_operator_id := if is_none operator_id then None else stripped_or_none (Some (py_str operator_id)) in
  Ok [("event_id", VStr event_id); ("command_id", VStr command_id); ("command_type", VStr command_type);
      ("issued_at", VStr issued_at); ("operator_id", opt_str normalized_operator_id)].

(** [_strings] *)
Definition strings_of (raw : value) : list string :=
  match raw with VList l => stripped_items l | _ => [] end.

Definition build_override_review (run_id review_id : string) (reviewer override_command : value)
    (verdict reason : string) (findings action_items : value) (related_event_id : option string)
    (timestamp : string) : res dict :=
  raise_if blank run_id with ValueError "run_id is required";
  raise_if blank review_id with ValueError "review_id is required";
  raise_if blank reason with ValueError "override review reason is required";
  let normalized_verdict := str_lower (str_strip verdict) in
  raise_if negb (mem_str normalized_verdict REVIEW_VERDICTS)
    with ValueError ("unsupported override review verdict: " +:+ verdict);
  reviewer_record ← operator_record reviewer;
  override_record ← override_command_record override_command;
  let override_operator_id := dgetN "operator_id" override_record in
  let independent := is_none override_operator_id
                     || negb (py_eq override_operator_id (dgetN "operator_id" reviewer_record)) in
  raise_if negb independent with ValueError "override reviewer must differ from override operator";
  let packet :=
    [("schema_version", VStr "mesh.override_review.v1"); ("review_id", VStr (str_strip review_id));
     ("run_id", VStr (str_strip run_id)); ("created_at", VStr timestamp);
     ("reviewer", VDict reviewer_record); ("override_command", VDict override_record);
     ("independent_reviewer", VBool independent); ("verdict", VStr normalized_verdict);
     ("reason", VStr (str_strip reason)); ("findings", strs (strings_of findings));
     ("action_items", strs (strings_of action_items)); ("related_event_id", opt_str related_event_id)] in
  _ ← validate_named "override-review.schema.json" packet;
  Ok packet.

(** ** Reviews of finished runs *)

(** [_SHA256_RE.match(s)] for a string without white space at its end *)
Definition is_sha256_hex (s : string) : bool :=
  Nat.eqb (String.length s) 64
  && forallb (λ c, is_dec_digit c || let n := byte_z c in (97 <=? n) && (n <=? 102)) (str_chars s).

Definition build_postmortem_review (run_id review_id : string) (reviewer : value)
    (launcher_operator_id : option string) (verdict : string) (findings action_items : value)
    (reviewed_export_id reviewed_package_sha256 related_event_id : option string) (timestamp : string) : res dict :=
  raise_if blank run_id with ValueError "run_id is required";
  raise_if blank review_id with ValueError "review_id is required";
  let normalized_verdict := str_lower (str_strip verdict) in
  raise_if negb (mem_str normalized_verdict REVIEW_VERDICTS)
    with ValueError ("unsupported postmortem review verdict: " +:+ verdict);
  reviewer_record ← operator_record reviewer;
  let launcher_id := stripped_or_none launcher_operator_id in
  let independent := match launcher_id with
                     | None => true
                     | Some l => negb (py_eq (VStr l) (dgetN "operator_id" reviewer_record))
                     end in
  raise_if negb independent with ValueError "postmortem reviewer must differ from launch operator";
  let package_sha := stripped_or_none reviewed_package_sha256 in
  raise_if match package_sha with Some sha => negb (is_sha256_hex sha) | None => false end
    with ValueError "reviewed_package_sha256 must be a lowercase SHA-256 hex digest";
  let packet :=
    [("schema_version", VStr "mesh.postmortem_review.v1"); ("review_id", VStr (str_strip review_id));
     ("run_id", VStr (str_strip run_id)); ("created_at", VStr timestamp);
     ("reviewer", VDict reviewer_record); ("launcher_operator_id", opt_str launcher_id);
     ("independent_reviewer", VBool independent); ("verdict", VStr normalized_verdict);
     ("findings", strs (strings_of findings)); ("action_items", strs (strings_of action_items));
     ("reviewed_export_id", opt_str (stripped_or_none reviewed_export_id));
     ("reviewed_package_sha256", opt_str package_sha); ("related_event_id", opt_str related_event_id)] in
  _ ← validate_named "postmortem-review.schema.json" packet;
  Ok packet.

(** ** What the packets are *)

Lemma operator_record_shape operator r :
  operator_record operator = Ok r →
  ∃ id roles source, id ≠ "" ∧ r = [("operator_id", VStr id); ("roles", strs roles); ("source", VStr source)].
Proof.
  unfold operator_record. intros H. res_inv H. apply String.eqb_neq in Hg. by eexists _, _, _.
Qed.

Lemma override_command_record_shape command c :
  override_command_record command = Ok c →
  ∃ event command_id command_type issued operator, mem_str command_type OVERRIDE_REVIEW_COMMANDS = true
    ∧ c = [("event_id", VStr event); ("command_id", VStr command_id); ("command_type", VStr command_type);
           ("issued_at", VStr issued); ("operator_id", opt_str operator)].
Proof.
  unfold override_command_record. intros H. res_inv H. apply negb_false_iff in Hg1.
  by eexists _, _, _, _, _.
Qed.

Lemma mem_str_enum s l : mem_str s l = true → in_list (VStr s) (map VStr l) = true.
Proof.
  unfold mem_str, in_list. intros (x & Hx & Hs)%existsb_exists. apply existsb_exists. exists (VStr x).
  by split; [apply in_map|].
Qed.

Lemma conforms_opt_str_value s : conforms (opt_str s) (VDict [("type", VList [VStr "string"; VStr "null"])]).
Proof. destruct s; cbn [opt_str]; conform_step. Qed.

Lemma conforms_enum s l :
  mem_str s l = true → conforms (VStr s) (VDict [("type", VStr "string"); ("enum", VList (map VStr l))]).
Proof.
  intros H. apply conforms_scalar; [done| |by eapply type_ok_intro].
  intros _. by apply mem_str_enum.
Qed.

(** Goes through a packet of such members. *)
Ltac conform_packet :=
  match goal with
  | H : mem_str ?s ?l = true |- conforms (VStr ?s) _ => exact (conforms_enum s l H)
  | |- conforms (strs _) _ => apply conforms_strs; reflexivity
  | |- conforms (opt_str _) _ => apply conforms_opt_str_value
  | |- conforms (VDict _) _ => conform_step; conform_packet
  | |- conforms _ _ => conform_step
  end.

Lemma override_packet_valid run review created rr cc independent verdict reason findings actions event packet :
  operator_record rr.1 = Ok rr.2 → override_command_record cc.1 = Ok cc.2 → mem_str verdict REVIEW_VERDICTS = true →
  packet = [("schema_version", VStr "mesh.override_review.v1"); ("review_id", VStr review); ("run_id", VStr run);
     ("created_at", VStr created); ("reviewer", VDict rr.2); ("override_command", VDict cc.2);
     ("independent_reviewer", VBool independent); ("verdict", VStr verdict); ("reason", VStr reason);
     ("findings", strs findings); ("action_items", strs actions); ("related_event_id", opt_str event)] →
  validate_named "override-review.schema.json" packet = Ok ().
Proof.
  intros (i & ro & so & _ & ->)%operator_record_shape (e & ci & ct & ti & op & Hct & ->)%override_command_record_shape Hv ->.
  eapply validate_named_ok; [reflexivity..|]. unfold override_review_schema.
  conform_packet.
Qed.

Lemma handoff_packet_valid id run created fr tr reason next urgency event due packet :
  operator_record fr.1 = Ok fr.2 → operator_record tr.1 = Ok tr.2 → mem_str urgency OPERATOR_HANDOFF_URGENCIES = true →
  packet = [("schema_version", VStr "mesh.operator_handoff.v1"); ("handoff_id", VStr id); ("run_id", VStr run);
     ("created_at", VStr created); ("from_operator", VDict fr.2); ("to_operator", VDict tr.2);
     ("reason", VStr reason); ("next_action", VStr next); ("urgency", VStr urgency); ("status", VStr "open");
     ("related_event_id", opt_str event); ("due_at", opt_str due)] →
  validate_named "operator-handoff.schema.json" packet = Ok ().
Proof.
  intros (i & ro & so & _ & ->)%operator_record_shape (j & rp & sp & _ & ->)%operator_record_shape Hu ->.
  eapply validate_named_ok; [reflexivity..|]. unfold operator_handoff_schema. conform_packet.
Qed.

Lemma postmortem_packet_valid id run created rr launcher independent verdict findings actions export sha event packet :
  operator_record rr.1 = Ok rr.2 → mem_str verdict REVIEW_VERDICTS = true →
  packet = [("schema_version", VStr "mesh.postmortem_review.v1"); ("review_id", VStr id); ("run_id", VStr run);
     ("created_at", VStr created); ("reviewer", VDict rr.2); ("launcher_operator_id", opt_str launcher);
     ("independent_reviewer", VBool independent); ("verdict", VStr verdict); ("findings", strs findings);
     ("action_items", strs actions); ("reviewed_export_id", opt_str export);
     ("reviewed_package_sha256", opt_str sha); ("related_event_id", opt_str event)] →
  validate_named "postmortem-review.schema.json" packet = Ok ().
Proof.
  intros (i & ro & so & _ & ->)%operator_record_shape Hv ->.
  eapply validate_named_ok; [reflexivity..|]. unfold postmortem_review_schema. conform_packet.
Qed.

(** The operator of a record. *)
Definition record_operator (r : dict) : string := str_at ["operator_id"] r.

(** For an identified reviewer and a complete override command, a review is
    recorded exactly when run, review and reason are given, the verdict is one
    of the three and the reviewer is not the operator who gave the override;
    the packet then validates and says that the reviewer is independent. *)
Theorem override_review_decides run_id review_id reviewer command verdict reason findings actions event ts rr cc :
  operator_record reviewer = Ok rr → override_command_record command = Ok cc →
  let accepted := negb (blank run_id) && negb (blank review_id) && negb (blank reason)
                  && mem_str (str_lower (str_strip verdict)) REVIEW_VERDICTS
                  && negb (py_eq (dgetN "operator_id" cc) (dgetN "operator_id" rr)) in
  match build_override_review run_id review_id reviewer command verdict reason findings actions event ts with
  | Ok packet => accepted = true ∧ validate_named "override-review.schema.json" packet = Ok ()
      ∧ dgetN "independent_reviewer" packet = VBool true
      ∧ dgetN "reviewer" packet = VDict rr ∧ dgetN "override_command" packet = VDict cc
  | Err e => accepted = false ∧ exc_cls e = ValueError
  end.
Proof.
  intros Hr Hc accepted. unfold build_override_review. subst accepted.
  destruct (blank run_id); [done|]. destruct (blank review_id); [done|]. destruct (blank reason); [done|].
  destruct (mem_str _ _) eqn:Hv; cbn [negb andb]; [|done]. rewrite Hr, Hc. cbn [mbind res_bind].
  destruct (operator_record_shape _ _ Hr) as (i & ro & so & Hi & ->).
  destruct (override_command_record_shape _ _ Hc) as (e & ci & ct & ti & op & _ & ->).
  cbn [dgetN dget String.eqb Ascii.eqb Bool.eqb default from_option id].
  assert (is_none (opt_str op) || negb (py_eq (opt_str op) (VStr i)) = negb (py_eq (opt_str op) (VStr i))) as ->
    by (by destruct op).
  destruct (py_eq (opt_str op) (VStr i)); cbn [negb]; [done|].
  erewrite (override_packet_valid _ _ _ (reviewer, _) (command, _)) by (try done; reflexivity).
  cbn [mbind res_bind]. split; [done|]. split; [|done].
  by erewrite (override_packet_valid _ _ _ (reviewer, _) (command, _)) by (try done; reflexivity).
Qed.

(** A review nobody signs is not refused but raises [AttributeError]. *)
Lemma unsigned_review_raises run_id review_id command verdict reason findings actions event ts :
  blank run_id = false → blank review_id = false → blank reason = false →
  mem_str (str_lower (str_strip verdict)) REVIEW_VERDICTS = true →
  raises (build_override_review run_id review_id VNone command verdict reason findings actions event ts) AttributeError.
Proof. intros H1 H2 H3 H4. unfold build_override_review. by rewrite H1, H2, H3, H4. Qed.
