(* ===== verification/Coordinator.v ===== *)
(** * The run coordinator

    What the threads of [RunCoordinator] in [src/services/control_plane.py]
    share, and the methods that every run goes through: admission with its
    locks and quotas, sessions and events, controls, and the clean-up at the
    end.  Programs are those of [RunMachine]; one step is one section under
    [_lock] or one operation of the state store, except that appending an event
    takes two, as in the store. *)

From S2P Require Import Prelude PyFloat PyValue Json JsonStore Paths Models Merkle StateStore RunMachine Steering RunAdmission RegistryFile.
From S2P Require Import Ownership.
From stdpp Require Import gmap.
#[local] Open Scope Z_scope.

(** ** State *)

(** The settings the kill switch changes. *)
Record switches := Switches {
  sw_force_approval_gate : bool;
  sw_default_steering_mode : string;
  sw_kubernetes_live_execution_enabled : bool;
  sw_kubernetes_allowed_namespaces : list string }.

(** An entry of the run queue: the run, its copy of the configuration (the
    modes and the settings of the kill switch), the signal and the scenario
    key. *)
Record queued_run := QueuedRun {
  qr_run_id : string;
  qr_evaluation_mode : value;
  qr_orchestration_mode : value;
  qr_switches : switches;
  qr_signal : dict;
  qr_scenario_key : value }.

(** A control object outlives its entry in [controls], so the objects and the
    keys of the dictionary are kept apart. *)
Record coordinator := Coordinator {
  co_store : store;
  co_controls : gmap string run_control;
  co_tracked : gset string;
  co_threads : gset string;
  co_agent_threads : gset string;
  co_tenants : gmap string string;
  co_run_locks : gmap string string;
  co_target_locks : gmap string string;
  co_queue : list queued_run;
  co_worker_stop : bool;
  co_switches : switches;
  co_artifacts : file;
  co_benchmarks : file;
  co_deferred : file;
  co_trust : file }.

(** The settings that do not change. *)
Record settings := Settings {
  se_store : store_config;
  se_environment : string;
  se_evaluation_mode : string;
  se_orchestration_mode : string;
  se_ownership_registry_path : option string;
  se_default_pause_point : string;
  se_run_queue_size : Z;
  se_run_worker_count : Z;
  se_tenant_active_run_quota : Z;
  se_steering_payload_cap : Z;
  se_agent_tasks_mode : string;
  se_agent_reconciliation_enabled : bool;
  se_reasoning_bank_enabled : bool;
  se_max_transient_retries : Z;
  se_rule_learning_enabled : bool }.

Definition upd_store (s : store) (w : coordinator) : coordinator :=
  Coordinator s (co_controls w) (co_tracked w) (co_threads w) (co_agent_threads w) (co_tenants w) (co_run_locks w)
    (co_target_locks w) (co_queue w) (co_worker_stop w) (co_switches w) (co_artifacts w) (co_benchmarks w)
    (co_deferred w) (co_trust w).
Definition upd_controls (c : gmap string run_control) (tracked : gset string) (w : coordinator) : coordinator :=
  Coordinator (co_store w) c tracked (co_threads w) (co_agent_threads w) (co_tenants w) (co_run_locks w)
    (co_target_locks w) (co_queue w) (co_worker_stop w) (co_switches w) (co_artifacts w) (co_benchmarks w)
    (co_deferred w) (co_trust w).
Definition upd_threads (threads agents : gset string) (w : coordinator) : coordinator :=
  Coordinator (co_store w) (co_controls w) (co_tracked w) threads agents (co_tenants w) (co_run_locks w)
    (co_target_locks w) (co_queue w) (co_worker_stop w) (co_switches w) (co_artifacts w) (co_benchmarks w)
    (co_deferred w) (co_trust w).
Definition upd_locks (tenants run_locks target_locks : gmap string string) (w : coordinator) : coordinator :=
  Coordinator (co_store w) (co_controls w) (co_tracked w) (co_threads w) (co_agent_threads w) tenants run_locks
    target_locks (co_queue w) (co_worker_stop w) (co_switches w) (co_artifacts w) (co_benchmarks w)
    (co_deferred w) (co_trust w).
Definition upd_queue (q : list queued_run) (w : coordinator) : coordinator :=
  Coordinator (co_store w) (co_controls w) (co_tracked w) (co_threads w) (co_agent_threads w) (co_tenants w)
    (co_run_locks w) (co_target_locks w) q (co_worker_stop w) (co_switches w) (co_artifacts w) (co_benchmarks w)
    (co_deferred w) (co_trust w).
Definition upd_switches (sw : switches) (w : coordinator) : coordinator :=
  Coordinator (co_store w) (co_controls w) (co_tracked w) (co_threads w) (co_agent_threads w) (co_tenants w)
    (co_run_locks w) (co_target_locks w) (co_queue w) (co_worker_stop w) sw (co_artifacts w) (co_benchmarks w)
    (co_deferred w) (co_trust w).
Definition upd_files (artifacts benchmarks deferred trust : file) (w : coordinator) : coordinator :=
  Coordinator (co_store w) (co_controls w) (co_tracked w) (co_threads w) (co_agent_threads w) (co_tenants w)
    (co_run_locks w) (co_target_locks w) (co_queue w) (co_worker_stop w) (co_switches w) artifacts benchmarks
    deferred trust.

(** What the threads do that the state does not show: a run is admitted to its
    target, a command is taken from the queue, a decision is evaluated, and the
    orchestrator is called. *)
Inductive act :=
  | Admission (run_id target_lock_key : string)
  | Took (run_id stage : string) (command : SteeringCommand)
  | Evaluated (run_id : string) (decision evaluation : dict)
  | Executed (run_id : string) (decision evaluation : dict).

Abbreviation CM := (RM coordinator act).

Section coordinator.
Context (cfg : settings).

(** ** Sessions and events *)

Definition store_step {A} (f : tick coordinator → SM A) : CM A :=
  step (λ t w, let '(r, s) := f t (co_store w) in (r, upd_store s w)).

Definition get_session (run_id : string) : CM (option dict) := store_step (λ _, get_run_session run_id).

Definition save_session (session : dict) : CM dict :=
  store_step (λ t, save_run_session (se_store cfg) session (tk_mono t)).

(** The current time, for a session that is then saved. *)
Definition stamped (session : dict) : CM dict :=
  store_step (λ t, save_run_session (se_store cfg) (dset "updated_at" (VStr (tk_now t)) session) (tk_mono t)).

(** [state_store.append_run_event]: the arguments that are not given are
    [None]. *)
Definition append_event (run_id stage event_type : string) (payload : dict) (summary : option dict)
    (artifact_key integration_name status : option string) : CM RunEvent :=
  e ← store_step (λ t, append_locked run_id
        (EventArgs stage event_type payload summary artifact_key integration_name status
           (tk_hex t) (tk_now t) (tk_later t) (tk_mono t)));
  _ ← store_step (λ t, append_unlocked (se_store cfg) run_id e (tk_later t) (tk_mono t));
  mret e.

(** The same for an event nobody reads back. *)
Definition record_event (run_id stage event_type : string) (payload summary : dict)
    (artifact_key integration_name status : option string) : CM unit :=
  _ ← append_event run_id stage event_type payload (Some summary) artifact_key integration_name status;
  mret ().

(** [_set_artifact] *)
Definition set_artifact (run_id key : string) (v : value) : CM unit :=
  found ← get_session run_id;
  match found with
  | None => mret ()
  | Some session =>
      artifacts ← pure (set_item (dgetN "artifacts" session) key v);
      _ ← stamped (dset "artifacts" artifacts session);
      mret ()
  end.

(** [_update_session] *)
Definition update_session (run_id : string) (updates : dict) : CM unit :=
  found ← get_session run_id;
  match found with
  | None => mret ()
  | Some session => _ ← stamped (dupdate session updates); mret ()
  end.

(** ** Controls and locks *)

(** A section under [_lock] or on a condition. *)
Definition locked {A} (f : coordinator → A * coordinator) : CM A :=
  step (λ _ w, let '(a, w') := f w in (Ok a, w')).

(** [_get_control]: the run is tracked. *)
Definition get_control (run_id : string) : CM (option run_control) :=
  locked (λ w, (if bool_decide (run_id ∈ co_tracked w) then co_controls w !! run_id else None, w)).

(** [self._active_target_locks.pop(key)] if the run holds it *)
Definition pop_target_lock (run_id : string) (w : coordinator) : gmap string string :=
  match co_run_locks w !! run_id with
  | Some key => if negb (String.eqb key "") && bool_decide (co_target_locks w !! key = Some run_id)
                then delete key (co_target_locks w) else co_target_locks w
  | None => co_target_locks w
  end.

Definition release_locks (run_id : string) (w : coordinator) : coordinator :=
  upd_locks (delete run_id (co_tenants w)) (delete run_id (co_run_locks w)) (pop_target_lock run_id w) w.

(** [_release_run_admission] *)
Definition release_run_admission (run_id : string) : CM unit := locked (λ w, ((), release_locks run_id w)).

(** [_finalize_run] *)
Definition finalized (run_id : string) (w : coordinator) : coordinator :=
  upd_controls (co_controls w) (co_tracked w ∖ {[run_id]})
    (upd_threads (co_threads w ∖ {[run_id]}) (co_agent_threads w) (release_locks run_id w)).
Definition finalize_run (run_id : string) : CM unit := locked (λ w, ((), finalized run_id w)).

(** [_build_run_admission] *)
Definition tenant_active_runs (tenant_id : string) (w : coordinator) : Z :=
  Z.of_nat (length (List.filter (λ kv, String.eqb kv.2 tenant_id) (map_to_list (co_tenants w)))).

Definition build_admission (run_id : string) (ownership_boundary : dict) (enforce_target_lock : bool) : CM dict :=
  let target_lock_key := build_target_lock_key ownership_boundary in
  let tenant_id := str_or_unknown "tenant_id" ownership_boundary in
  step (λ t w,
    let target_lock_holder := if enforce_target_lock then co_target_locks w !! target_lock_key else None in
    (build_run_admission run_id ownership_boundary (Z.of_nat (length (co_queue w))) (se_run_queue_size cfg)
       (se_run_worker_count cfg) (tenant_active_runs tenant_id w) (se_tenant_active_run_quota cfg)
       target_lock_holder (tk_now t), w)).

(** The section of [create_run] that registers an admitted run. *)
Definition registered (run_id : string) (auto_mode : bool) (pause_points : list string) (tenant_id target_lock_key : string)
    (target_lock_enabled : bool) (w : coordinator) : coordinator :=
  upd_controls (<[run_id := new_control auto_mode pause_points]> (co_controls w)) ({[run_id]} ∪ co_tracked w)
    (upd_locks (<[run_id := tenant_id]> (co_tenants w)) (<[run_id := target_lock_key]> (co_run_locks w))
       (if target_lock_enabled then <[target_lock_key := run_id]> (co_target_locks w) else co_target_locks w) w).
Definition register_run (run_id : string) (auto_mode : bool) (pause_points : list string) (tenant_id target_lock_key : string)
    (target_lock_enabled : bool) : CM unit :=
  locked (λ w, ((), registered run_id auto_mode pause_points tenant_id target_lock_key target_lock_enabled w)).

(** [self._run_queue.put_nowait]: [false] when the queue is full. *)
Definition put_run (q : queued_run) : CM bool :=
  locked (λ w, if Z.of_nat (length (co_queue w)) <? se_run_queue_size cfg
               then (true, upd_queue (co_queue w ++ [q]) w) else (false, w)).

(** ** Reading runs *)

(** [_settle_agent_tasks_before_terminal]: waiting for the thread is one step
    of the others. *)
Definition settle_agent_tasks (run_id : string) : CM unit :=
  found ← get_session run_id;
  tasks ← match found with
          | Some session => pure (py_get (dgetN "artifacts" session) "agent_tasks")
          | None => mret VNone
          end;
  match tasks with
  | VDict d =>
      if negb (is_string "pending" (dgetN "status" d)) then mret ()
      else
        running ← locked (λ w, (bool_decide (run_id ∈ co_agent_threads w), w));
        if (running : bool) then locked (λ w, ((), w)) else mret ()
  | _ => mret ()
  end.

(** The record of [get_run] for a session and its events. *)
Definition run_view (run_id : string) (session : dict) (latest_sequence after_sequence : Z) (events : list RunEvent)
    : res dict :=
  d ← session_to_dict session;
  Ok (dupdate d
    [("events", dicts (map ev_to_dict events)); ("events_truncated", VBool (0 <? after_sequence));
     ("event_count", VInt latest_sequence);
     ("merkle", VDict
        [("run_id", VStr run_id); ("root_hash", dgetN "latest_merkle_root" session);
         ("leaf_count", VInt latest_sequence); ("event_ids", strs (map ev_event_id events))])]).

Definition get_run (run_id : string) : CM (option dict) :=
  found ← get_session run_id;
  match found with
  | None => mret None
  | Some session =>
      terminal ← pure (in_str_set (dgetN "stage" session) TERMINAL_STAGES);
      found ← (if (terminal : bool) then _ ← settle_agent_tasks run_id; get_session run_id else mret (Some session));
      match found with
      | None => mret None
      | Some session =>
          latest_sequence ← pure (event_cursor session);
          let after_sequence := Z.max 0 (latest_sequence - 200) in
          events ← store_step (λ _, list_run_events run_id after_sequence);
          view ← pure (run_view run_id session latest_sequence after_sequence events);
          mret (Some view)
      end
  end.

(** [self.get_run(run_id) or session.to_dict()] *)
Definition get_run_or (run_id : string) (session : dict) : CM dict :=
  found ← get_run run_id;
  match found with
  | Some view => mret view
  | None => pure (session_to_dict session)
  end.
End coordinator.

(** * What a run asks of the other services

    The services that [RunCoordinator] in [src/services/control_plane.py]
    calls while a run goes on, as arguments of the model: any function of the
    moment of the call, of the coordinator and of the arguments.  What a
    service changes is part of what happens before the next step.  Objects are
    the dictionaries of their fields. *)

Definition call (A : Type) : Type := tick coordinator → coordinator → res A.

(** A call is one step. *)
Definition service {A} (f : call A) : CM A := step (λ t w, (f t w, w)).

Record services := Services {
  (** signal profiles, and what the investigation harness returns *)
  profile : Type;
  harness : Type;
  signal_source : profile → string;
  (** files and paths of the ownership registry *)
  sv_files : file_tree;
  sv_resolve_path : path → path;
  (** [build_readiness] for two modes *)
  sv_readiness : value → value → call dict;
  (** [load_fixture] of a signal, [_resolve_fixture_repo_path],
      [OtlpPushIngester.build_signal] and [collect_kubernetes_signal] *)
  sv_fixture : string → call dict;
  sv_fixture_repo : call (option string);
  sv_otlp : dict → dict → call dict;
  sv_kubernetes : dict → call dict;
  (** [MeshRuntimeEngine()], [engine.ingest.normalize_signal],
      [engine.trigger.detect] and [resolve_signal_profile] *)
  sv_engine : queued_run → call unit;
  sv_normalize : dict → call dict;
  sv_detect : dict → call (option dict);
  sv_profile : dict → option dict → call profile;
  (** planners, evidence, investigation and scenario analysis *)
  sv_plan : profile → dict → dict → call dict;
  sv_assemble : dict → dict → option dict → call dict;
  sv_harness : dict → dict → call harness;
  sv_rb_disabled : string → dict;
  sv_rb_retrieve : dict → option dict → call dict;
  sv_rb_distill : call dict;
  sv_memory : dict → call dict;
  sv_service_context : dict → call dict;
  sv_investigate : dict → option dict → dict → dict → list dict → harness → call dict;
  sv_failure_report : dict → string → call dict;
  sv_analyze : dict → value → option dict → call (dict * option dict);
  (** routing, decision, root cause, evaluation and their traces *)
  sv_route : dict → call dict;
  sv_decide : dict → option dict → option dict → value → option dict → call dict;
  sv_rca : profile → dict → dict → option dict → call dict;
  sv_evaluate : dict → dict → bool → call dict;
  sv_trajectory : dict → dict → dict → value → value → list RunEvent → dict → call dict;
  sv_delivery_context : dict → call (dict * dict * dict);
  sv_agent_tasks : dict → dict → dict → option dict → option dict → call (list dict);
  sv_reconcile : list dict → call dict;
  (** recovery and deferral *)
  sv_active_facts : dict → call (list value);
  sv_similar_incidents : string → call (list value);
  sv_learning_context : dict → call value;
  sv_due_at : Z → call string;
  (** execution, feedback and what is learnt *)
  sv_execute : dict → dict → call dict;
  sv_feedback : dict → dict → dict → dict → call dict;
  sv_learn : dict → dict → dict → call unit;
  sv_override_outcome : dict → call unit;
  sv_update_context : dict → call unit;
  sv_crystallize : call dict;
  sv_record_override : dict → dict → dict → call unit;
  (** scoring of a simulated run and the path of its export *)
  sv_score : string → dict → dict → list RunEvent → MerkleSnapshot → call dict;
  sv_export_path : string;
  (** [explain_blockers] and [chat_blockers] of the Hermes adapter *)
  sv_explain : dict → dict → list string → call dict;
  sv_chat : dict → dict → list string → list dict → string → call dict;
  (** the watchers, and the clusters that are allowed *)
  sv_stop_watchers : call unit;
  sv_watchers : call dict;
  sv_allowed_contexts : list string }.

(** What a [try] block with [except Exception] gives back instead. *)
Definition or_else {A} (p : CM A) (handler : exc → CM A) : CM A := catch p handler.

(** [session.artifacts] if it is a dictionary *)
Definition artifacts_of (session : option dict) : dict :=
  match session with Some s => dict_or_empty (dgetN "artifacts" s) | None => [] end.

(** [session.artifacts.get(key)] *)
Definition artifact (session : dict) (key : string) : res value := py_get (dgetN "artifacts" session) key.

(** [d.get(key) if isinstance(d.get(key), dict) else None] *)
Definition opt_dict_at (key : string) (d : dict) : option dict := as_dict (dgetN key d).

(** The fields of a result that the events of the run repeat. *)
Definition project (fields : list (string * string)) (d : dict) : dict :=
  map (λ f, (f.1, dgetN f.2 d)) fields.
