(* ===== verification/OperatorActions.v ===== *)
(** * What operators do to a run

    [steer_run], the reviews, handoffs and explanations it records, and the
    kill switch of [src/services/control_plane.py]. *)

From S2P Require Import Prelude PyFloat PyValue Json JsonStore Models Contracts StateStore StateRecords RunMachine.
From S2P Require Import Steering OperatorReviews Coordinator.
From stdpp Require Import gmap.
#[local] Open Scope Z_scope.

(** [str(v.get(key) or default)] of a request *)
Definition request_text (key default : string) (payload : dict) : string :=
  py_str (py_or (dgetN key payload) (VStr default)).

(** [payload.get(key) if isinstance(payload.get(key), list) else []] *)
Definition list_at (key : string) (d : dict) : value :=
  match dgetN key d with VList l => VList l | _ => VList [] end.

Definition str_at_key (key : string) (d : dict) : option string := as_str (dgetN key d).

(** The number of the next record in a list of artifacts. *)
Definition next_index (v : value) : Z := match v with VList l => Z.of_nat (length l) + 1 | _ => 1 end.

(** [s.strip() or None] *)
Definition stripped_opt (s : string) : option string :=
  if String.eqb (str_strip s) "" then None else Some (str_strip s).

(** The record of an event that holds an override command, if the request
    means it. *)
Definition override_event (override_event_id override_command_id : string) (e : RunEvent) : option dict :=
  let payload := ev_payload e in
  let command_type := str_strip (request_text "command_type" "" payload) in
  let command_id := str_strip (request_text "command_id" "" payload) in
  let operator := dict_or_empty (dgetN "operator" payload) in
  if String.eqb (ev_event_type e) "steering_command" && mem_str command_type STEERING_DECISION_COMMANDS
     && (String.eqb override_event_id "" || String.eqb (ev_event_id e) override_event_id)
     && (String.eqb override_command_id "" || String.eqb command_id override_command_id)
  then Some [("event_id", VStr (ev_event_id e)); ("command_id", VStr command_id); ("command_type", VStr command_type);
             ("issued_at", VStr (py_str (py_or (dgetN "issued_at" payload) (VStr (ev_recorded_at e)))));
             ("operator_id", opt_str (str_at_key "operator_id" operator))]
  else None.

(** The last override among the events that the request may mean. *)
Definition select_override (payload : dict) (events : list RunEvent) : res dict :=
  let override_event_id := str_strip (request_text "override_event_id" "" payload) in
  let override_command_id :=
    str_strip (py_str (py_or (py_or (dgetN "command_id" payload) (dgetN "override_command_id" payload)) (VStr ""))) in
  match last (omap (override_event override_event_id override_command_id) events) with
  | Some record => Ok record
  | None =>
      if String.eqb override_event_id "" && String.eqb override_command_id ""
      then raise ValueError "override review requires a prior override command"
      else raise ValueError "override review target command was not found"
  end.

(** The artifacts of a session after a record joins one of their lists. *)
Definition add_to_artifact (key : string) (record : dict) (session : dict) : res dict :=
  existing ← artifact session key;
  artifacts ← set_item (dgetN "artifacts" session) key
                (VList (match existing with VList l => l | _ => [] end ++ [VDict record]));
  Ok (dset "artifacts" artifacts session).

(** The messages of an explanation so far, for the adapter. *)
Definition chat_history (existing : dict) : list dict :=
  omap (λ item, match item with
                | VDict d => Some [("role", VStr (py_str (dget_or "role" (VStr "") d)));
                                   ("content", VStr (py_str (dget_or "content" (VStr "") d)))]
                | _ => None
                end)
       (match dgetN "messages" existing with VList l => l | _ => [] end).

Section actions.
Context (cfg : settings) (sv : services).

Definition read_clock : CM (tick coordinator) := step (λ t w, (Ok t, w)).

(** ** Reviews *)

(** [_select_override_command_for_review] *)
Definition select_override_command_for_review (run_id : string) (payload : dict) : CM dict :=
  events ← store_step (λ _, list_run_events run_id 0);
  pure (select_override payload events).

(** [_build_override_review_record] *)
Definition build_override_review_record (run_id : string) (session payload : dict) (operator : option dict) : CM dict :=
  reviews ← pure (artifact session "override_reviews");
  t ← read_clock;
  command ← select_override_command_for_review run_id payload;
  pure (build_override_review run_id
          ("override_review_" +:+ tk_stamp t +:+ "_" +:+ str_of_Z (next_index reviews))
          (opt_dict operator) (VDict command) (request_text "verdict" "needs_followup" payload)
          (request_text "reason" "" payload) (list_at "findings" payload) (list_at "action_items" payload)
          None (tk_later t)).

(** [_build_postmortem_review_record] *)
Definition build_postmortem_review_record (run_id : string) (session payload : dict) (operator : option dict) : CM dict :=
  reviews ← pure (artifact session "postmortem_reviews");
  launcher ← pure (artifact session "operator");
  run_export ← pure (artifact session "run_export_package");
  t ← read_clock;
  let exported key := py_or (dgetN key (dict_or_empty run_export)) (VStr "") in
  pure (build_postmortem_review run_id
          ("postmortem_review_" +:+ tk_stamp t +:+ "_" +:+ str_of_Z (next_index reviews))
          (opt_dict operator) (str_at_key "operator_id" (dict_or_empty launcher))
          (request_text "verdict" "needs_followup" payload) (list_at "findings" payload) (list_at "action_items" payload)
          (stripped_opt (py_str (py_or (dgetN "reviewed_export_id" payload) (exported "export_id"))))
          (stripped_opt (py_str (py_or (dgetN "reviewed_package_sha256" payload) (exported "package_sha256"))))
          None (tk_later t)).

(** The common part of [_save_override_review], [_save_postmortem_review] and
    [_record_operator_handoff]: the record joins the newest session. *)
Definition save_in_artifacts (run_id key : string) (session record : dict) : CM dict :=
  found ← get_session run_id;
  session ← pure (add_to_artifact key record (default session found));
  _ ← stamped cfg session;
  mret session.

(** [_save_override_review] *)
Definition save_override_review (run_id : string) (session review : dict) : CM unit :=
  session ← save_in_artifacts run_id "override_reviews" session review;
  record_event cfg run_id (stage_of session) "override_review_recorded" review
    [("review_id", dgetN "review_id" review);
     ("reviewer_id", dgetN "operator_id" (dict_or_empty (dgetN "reviewer" review)));
     ("override_event_id", dgetN "event_id" (dict_or_empty (dgetN "override_command" review)));
     ("verdict", dgetN "verdict" review); ("independent_reviewer", dgetN "independent_reviewer" review)]
    (Some "override_review") None (Some (py_str (dgetN "verdict" review))).

(** [_save_postmortem_review] *)
Definition save_postmortem_review (run_id : string) (session review : dict) : CM unit :=
  session ← save_in_artifacts run_id "postmortem_reviews" session review;
  record_event cfg run_id (stage_of session) "postmortem_review_recorded" review
    [("review_id", dgetN "review_id" review);
     ("reviewer_id", dgetN "operator_id" (dict_or_empty (dgetN "reviewer" review)));
     ("verdict", dgetN "verdict" review); ("independent_reviewer", dgetN "independent_reviewer" review)]
    (Some "postmortem_review") None (Some (py_str (dgetN "verdict" review))).

(** [_record_operator_handoff] *)
Definition record_operator_handoff (run_id : string) (session payload : dict) (operator : option dict)
    (related_event_id : string) : CM unit :=
  handoffs ← pure (artifact session "operator_handoffs");
  t ← read_clock;
  handoff ← pure (build_operator_handoff run_id (opt_dict operator)
    (VDict [("operator_id", VStr (str_strip (request_text "to_operator_id" "" payload)));
            ("roles", list_at "to_roles" payload);
            ("source", VStr (request_text "to_operator_source" "operator_handoff" payload))])
    (request_text "reason" "" payload) (request_text "next_action" "" payload)
    ("handoff_" +:+ tk_stamp t +:+ "_" +:+ str_of_Z (next_index handoffs)) (Some related_event_id)
    (request_text "urgency" "normal" payload) (str_at_key "due_at" payload) (tk_later t));
  session ← save_in_artifacts run_id "operator_handoffs" session handoff;
  record_event cfg run_id (stage_of session) "operator_handoff_recorded" handoff
    [("handoff_id", dgetN "handoff_id" handoff);
     ("from_operator_id", dgetN "operator_id" (dict_or_empty (dgetN "from_operator" handoff)));
     ("to_operator_id", dgetN "operator_id" (dict_or_empty (dgetN "to_operator" handoff)));
     ("urgency", dgetN "urgency" handoff)]
    (Some "operator_handoff") None (Some "open").

(** ** Explanations *)

Record blocker_context := BlockerContext {
  bc_decision : dict;
  bc_decision_payload : dict;
  bc_evaluation_payload : dict;
  bc_blocking_reasons : list string;
  bc_existing : dict }.

(** [_hermes_blocker_context] *)
Definition hermes_blocker_context (session : dict) : res blocker_context :=
  raise_if negb (is_string "evaluation_ready" (effective_stage session))
    with ValueError "blocked-evaluation explanation is only available at evaluation_ready";
  decision ← artifact session "decision";
  evaluation ← artifact session "evaluation";
  existing ← artifact session "hermes_explanation";
  match decision, evaluation with
  | VDict decision_payload, VDict evaluation_payload =>
      decision ← from_dict Contracts.Decision decision_payload;
      Ok (BlockerContext decision decision_payload evaluation_payload
            (match dgetN "blocking_reasons" evaluation_payload with VList l => map py_str l | _ => [] end)
            (dict_or_empty existing))
  | _, _ => raise ValueError "decision and evaluation artifacts are required before Hermes can explain blockers"
  end.

(** The explanation after one more answer. *)
Definition explanation_messages (existing latest : dict) (user_message : option string) (now later : string) : list value :=
  let reply := str_strip (py_str (dget_or "assistant_reply" (dget_or "summary" (VStr "") latest) latest)) in
  match dgetN "messages" existing with VList l => l | _ => [] end
  ++ match user_message with
     | Some m => if String.eqb m "" then []
                 else [VDict [("role", VStr "user"); ("content", VStr m); ("recorded_at", VStr now)]]
     | None => []
     end
  ++ (if String.eqb reply "" then []
      else [VDict [("role", VStr "assistant"); ("content", VStr reply); ("recorded_at", VStr later)]]).

Definition explanation_payload (c : blocker_context) (latest : dict) (messages : list value) : dict :=
  let reply := str_strip (py_str (dget_or "assistant_reply" (dget_or "summary" (VStr "") latest) latest)) in
  dupdate (dupdate (bc_existing c) latest)
    [("assistant_reply", py_or (VStr reply) (dgetN "summary" latest));
     ("blocking_reasons", strs (bc_blocking_reasons c));
     ("decision_type", dgetN "decision_type" (bc_decision_payload c)); ("messages", VList messages)].

(** [_persist_hermes_explanation] *)
Definition persist_hermes_explanation (run_id : string) (c : blocker_context) (latest : dict)
    (user_message : option string) : CM unit :=
  t ← read_clock;
  let messages := explanation_messages (bc_existing c) latest user_message (tk_now t) (tk_later t) in
  let payload := explanation_payload c latest messages in
  _ ← set_artifact cfg run_id "hermes_explanation" (VDict payload);
  record_event cfg run_id "awaiting_operator" "integration_artifact_recorded" payload
    [("recommendation", dgetN "recommendation" payload); ("next_action", dgetN "next_action" payload);
     ("message_count", VInt (Z.of_nat (length messages)))]
    (Some "hermes_explanation") (Some "hermes") (Some "recorded").

(** [_explain_blockers] *)
Definition explain_blockers (run_id : string) (session : dict) : CM unit :=
  c ← pure (hermes_blocker_context session);
  latest ← service (sv_explain sv (bc_decision c) (bc_evaluation_payload c) (bc_blocking_reasons c));
  persist_hermes_explanation run_id c latest None.

(** [_chat_with_hermes] *)
Definition chat_with_hermes (run_id : string) (session : dict) (user_message : string) : CM unit :=
  c ← pure (hermes_blocker_context session);
  reply ← service (sv_chat sv (bc_decision c) (bc_evaluation_payload c) (bc_blocking_reasons c)
                     (chat_history (bc_existing c)) user_message);
  persist_hermes_explanation run_id c reply (Some user_message).

(** ** Steering *)

Definition command_payload (payload : dict) : dict := dpop "_operator" (dpop "command" payload).

(** The reviews, built before the command is recorded. *)
Definition build_review (run_id command_type : string) (session payload : dict) (operator : option dict) : CM (option dict) :=
  if String.eqb command_type "override_review" then
    review ← build_override_review_record run_id session payload operator; mret (Some review)
  else if String.eqb command_type "postmortem_review" then
    review ← build_postmortem_review_record run_id session payload operator; mret (Some review)
  else mret None.

Definition new_command (run_id command_type : string) (session payload : dict) : CM SteeringCommand :=
  notes ← pure (py_iter (dgetN "operator_notes" session));
  t ← read_clock;
  mret {| cmd_command_id := "cmd_" +:+ tk_stamp t +:+ "_" +:+ str_of_Z (Z.of_nat (length notes) + 1);
          cmd_run_id := run_id; cmd_command_type := command_type; cmd_issued_at := tk_later t; cmd_payload := payload |}.

Definition APPROVAL_COMMANDS : list string := ["approve"; "resume"; "override_decision"; "override_execution_parameters"].

(** The command joins the queue of the control. *)
Definition push_command (run_id : string) (command : SteeringCommand) : CM unit :=
  locked (λ w, match co_controls w !! run_id with
               | Some c => ((), upd_controls (<[run_id := RunControl (ct_commands c ++ [command]) (ct_auto_mode c)
                                                            (ct_pause_points c)]> (co_controls w)) (co_tracked w) w)
               | None => ((), w)
               end).

(** What [steer_run] does for a run that has a control. *)
Definition deliver_command (run_id : string) (session : dict) (command : SteeringCommand) (operator : option dict)
    (event_id : string) : CM dict :=
  let command_type := cmd_command_type command in
  let payload := cmd_payload command in
  _ ← (if mem_str command_type APPROVAL_COMMANDS
       then store_step (λ t, record_approval (se_store cfg) run_id
              [("event_id", VStr event_id); ("command_id", VStr (cmd_command_id command));
               ("command_type", VStr command_type); ("issued_at", VStr (cmd_issued_at command));
               ("payload", VDict payload); ("operator", opt_dict operator)] (tk_now t) (tk_mono t))
       else mret ());
  if String.eqb command_type "explain_blockers" then _ ← explain_blockers run_id session; get_run_or run_id session
  else if String.eqb command_type "chat_with_hermes" then
    _ ← chat_with_hermes run_id session (str_strip (py_str (dget_or "message" (VStr "") payload)));
    get_run_or run_id session
  else
    _ ← (if String.eqb command_type "handoff" then record_operator_handoff run_id session payload operator event_id
         else mret ());
    _ ← (if String.eqb command_type "cancel" then release_run_admission run_id else mret ());
    _ ← push_command run_id command;
    get_run_or run_id session.

(** [attach_note] with a note: the session read at the start is saved. *)
Definition attach_note (run_id : string) (session : dict) (note : value) : CM dict :=
  notes ← pure (py_append (dgetN "operator_notes" session) note);
  let session := dset "operator_notes" notes session in
  _ ← stamped cfg session;
  get_run_or run_id session.

(** What follows once the command is on record. *)
Definition apply_command (run_id : string) (session : dict) (review : option dict) (command : SteeringCommand)
    (operator : option dict) (event_id : string) : CM dict :=
  let command_type := cmd_command_type command in
  let note := dgetN "note" (cmd_payload command) in
  match review with
  | Some review =>
      let review := dset "related_event_id" (VStr event_id) review in
      _ ← (if String.eqb command_type "override_review" then save_override_review run_id session review
           else save_postmortem_review run_id session review);
      get_run_or run_id session
  | None =>
      if String.eqb command_type "attach_note" && truthy note then attach_note run_id session note
      else
        control ← get_control run_id;
        match control with
        | None => throw (Exc KeyError run_id)
        | Some _ => deliver_command run_id session command operator event_id
        end
  end.

(** [steer_run] *)
Definition steer_run (run_id : string) (payload : dict) : CM dict :=
  known ← pure (in_str_set (dgetN "command" payload) ALLOWED_STEERING_COMMANDS);
  let command_type := py_str (dgetN "command" payload) in
  if negb known then throw (Exc ValueError ("unsupported steering command: " +:+ command_type))
  else
    let operator := operator_context payload in
    found ← get_session run_id;
    match found with
    | None => throw (Exc KeyError run_id)
    | Some session =>
        let payload := command_payload payload in
        _ ← pure (validate_steering_command (se_steering_payload_cap cfg) session command_type payload);
        review ← build_review run_id command_type session payload operator;
        command ← new_command run_id command_type session payload;
        event ← append_event cfg run_id (stage_of session) "steering_command"
          (cmd_to_dict command ++ [("operator", opt_dict operator)])
          (Some [("command", VStr command_type);
                 ("operator_id", match operator with Some o => dgetN "operator_id" o | None => VNone end)])
          (Some "operator_command") None (Some "received");
        apply_command run_id session review command operator (ev_event_id event)
    end.

(** ** The kill switch *)

(** Every control that is tracked loses its automatic mode and pauses at the
    evaluation. *)
Definition gated (c : run_control) : run_control :=
  RunControl (ct_commands c) false
    (if mem_str "evaluation_ready" (ct_pause_points c) then ct_pause_points c
     else ct_pause_points c ++ ["evaluation_ready"]).

Definition gate_controls (w : coordinator) : gmap string run_control :=
  map_imap (λ run_id c, Some (if bool_decide (run_id ∈ co_tracked w) then gated c else c)) (co_controls w).

(** The changes of the settings, and what they are called. *)
Definition switch_actions (payload : dict) (stop_watchers : bool) : list string :=
  (if stop_watchers then ["watchers_stopped"] else [])
  ++ (if is_true (dgetN "disable_live_execution" payload) || is_false (dgetN "live_execution_enabled" payload)
      then ["live_execution_disabled"] else [])
  ++ (if is_true (dgetN "clear_namespace_allowlist" payload) then ["namespace_allowlist_cleared"] else [])
  ++ (if is_true (dgetN "force_approval_gate" payload) then ["approval_gate_forced"] else []).

Definition switched (actions : list string) (sw : switches) : switches :=
  Switches (sw_force_approval_gate sw || mem_str "approval_gate_forced" actions)
    (if mem_str "approval_gate_forced" actions then "approval_gate" else sw_default_steering_mode sw)
    (sw_kubernetes_live_execution_enabled sw && negb (mem_str "live_execution_disabled" actions))
    (if mem_str "namespace_allowlist_cleared" actions then [] else sw_kubernetes_allowed_namespaces sw).

Definition apply_switches (actions : list string) (w : coordinator) : coordinator :=
  let w' := upd_switches (switched actions (co_switches w)) w in
  if mem_str "approval_gate_forced" actions then upd_controls (gate_controls w') (co_tracked w') w' else w'.

(** [kill_switch_status] *)
Definition kill_switch_status : CM dict :=
  watchers ← service (sv_watchers sv);
  sw ← locked (λ w, (co_switches w, w));
  mret [("watchers", VDict watchers);
        ("live_execution_enabled", VBool (sw_kubernetes_live_execution_enabled sw));
        ("force_approval_gate", VBool (sw_force_approval_gate sw));
        ("default_steering_mode", VStr (sw_default_steering_mode sw));
        ("allowed_contexts", strs (sv_allowed_contexts sv));
        ("allowed_namespaces", strs (sw_kubernetes_allowed_namespaces sw))].

(** [apply_kill_switch] *)
Definition apply_kill_switch (payload : dict) : CM dict :=
  let operator := operator_context payload in
  stop ← pure (if is_true (dgetN "stop_watchers" payload) then Ok true
               else in_str_set (dgetN "watchers" payload) ["stop"; "pause"]);
  _ ← (if (stop : bool) then service (sv_stop_watchers sv) else mret ());
  let actions := switch_actions payload stop in
  _ ← locked (λ w, ((), apply_switches actions w));
  _ ← step (λ t w,
        let '(r, f) := put_artifact (co_artifacts w)
              [("artifact_key", VStr "kill_switch");
               ("status", VStr (match actions with [] => "no_op" | _ => "applied" end));
               ("actions", strs actions); ("operator", opt_dict operator); ("recorded_at", VStr (tk_now t))] in
        (r, upd_files f (co_benchmarks w) (co_deferred w) (co_trust w) w));
  status ← kill_switch_status;
  mret (dupdate status [("actions", strs actions); ("operator", opt_dict operator)]).
End actions.
