(* ===== verification/CreateRun.v ===== *)
(** * Creating runs

    [create_run] of [src/services/control_plane.py]: the signal a request
    names, the run it may join, admission, and the queue; and the rechecks that
    are created when a deferred run is due. *)

From S2P Require Import Prelude PyFloat PyValue PyNumbers Json JsonStore Paths DateTime Models StateStore RunMachine.
From S2P Require Import Steering RunAdmission Ownership DeferredRuns Coordinator.
From stdpp Require Import gmap.
#[local] Open Scope Z_scope.

(** ** Signals *)

(** [_normalize_pause_points] *)
Definition normalize_pause_points (pause_points : value) : res (list string) :=
  stages ← py_iter pause_points;
  kept ← res_map (λ v, found ← in_str_set v PAUSEABLE_STAGES; Ok (if (found : bool) then [py_str v] else [])) stages;
  Ok (concat kept).

Definition CORRELATION_FIELDS : list string := ["correlation"; "correlation_key"; "co_signatures"].

(** The fields of the request that [_collect_live_kubernetes_signal] copies to
    the context of the signal. *)
Definition copy_correlation (live_signal : dict) (signal : dict) : dict :=
  match dsetdefault "related_context" (VDict []) signal with
  | (VDict related, signal) =>
      dset "related_context"
        (VDict (fold_left (λ r key, match dget key live_signal with Some v => dset key v r | None => r end)
                  CORRELATION_FIELDS related)) signal
  | (_, signal) => signal
  end.

(** [live_kubernetes:<namespace>/<deployment_name>] *)
Definition split_scenario (remainder : string) : option (string * string) := split_at "/" remainder.

(** The cluster of a [live_kubernetes:] request and its environment. *)
Definition live_context (payload : dict) : value * string :=
  let extras := dict_or_empty (dgetN "live_kubernetes" payload) in
  let environment := py_str (py_or (dgetN "environment" extras) (VStr "staging")) in
  (py_or (dgetN "kube_context" extras) (dgetN "kube_context" payload),
   py_str (py_or (dgetN "environment" payload) (VStr environment))).

(** The request a [live_kubernetes:] scenario stands for. *)
Definition live_scenario (scenario_key : string) (payload : dict) : res dict :=
  let bad why := raise ValueError ("invalid live_kubernetes scenario_key " +:+ repr_str scenario_key +:+ ": " +:+ why) in
  match split_scenario (str_strip (str_removeprefix "live_kubernetes:" scenario_key)) with
  | None => bad "expected live_kubernetes:<namespace>/<deployment_name>"
  | Some (namespace, deployment_name) =>
      let namespace := str_strip namespace in
      let deployment_name := str_strip deployment_name in
      if String.eqb namespace "" || String.eqb deployment_name ""
      then bad "namespace and deployment_name must be non-empty"
      else
        let '(kube_context, environment) := live_context payload in
        raise_if negb (truthy kube_context) with ValueError "live_kubernetes scenario_key requires kube_context";
        Ok [("source", VStr "kubernetes"); ("deployment_name", VStr deployment_name); ("namespace", VStr namespace);
            ("kube_context", kube_context); ("environment", VStr environment)]
  end.

Section create.
Context (cfg : settings) (sv : services).

(** [_resolve_signal_placeholders] *)
Definition resolve_signal_placeholders (signal : dict) : CM dict :=
  match dgetN "related_context" signal with
  | VDict related =>
      if is_string "__FIXTURE_REPO__" (dgetN "repo_path" related) then
        found ← service (sv_fixture_repo sv);
        mret (match found with
              | Some p => if String.eqb p "" then signal
                          else dset "related_context" (VDict (dset "repo_path" (VStr p) related)) signal
              | None => signal
              end)
      else mret signal
  | _ => mret signal
  end.

(** [_build_signal_from_otlp]: the signal, and the request with its scenario
    key. *)
Definition build_signal_from_otlp (otlp_payload payload : dict) : CM (dict * dict) :=
  let raw_context := py_or (dgetN "alert_context" payload) (VDict []) in
  context ← pure (match raw_context with
                  | VDict d => Ok d
                  | v => raise AttributeError (repr_str (type_name v) +:+ " object has no attribute 'get'")
                  end);
  signal ← service (sv_otlp sv otlp_payload context);
  regression ← pure (ditem "metric_regression" signal);
  metric_name ← pure (match regression with
                      | VDict d => Ok (dget_or "metric_name" (VStr "metric") d)
                      | v => py_get v "metric_name"
                      end);
  let key := "otlp:" +:+ py_str (dget_or "service" (VStr "unknown") signal) +:+ "/" +:+ py_str metric_name in
  mret (signal, (dsetdefault "scenario_key" (VStr key) payload).2).

(** [_collect_live_kubernetes_signal] *)
Definition collect_live_kubernetes_signal (live_signal payload : dict) : CM (dict * dict) :=
  _ ← pure (ditem "deployment_name" live_signal);
  signal ← service (sv_kubernetes sv live_signal);
  let key := "live_kubernetes:" +:+ py_str (dget_or "namespace" (VStr "default") live_signal) +:+ "/"
             +:+ py_str (dgetN "deployment_name" live_signal) in
  mret (copy_correlation live_signal signal, dset "scenario_key" (VStr key) payload).

(** The fixture a scenario key names. *)
Definition fixture_signal (scenario_key : value) : CM dict :=
  raw ← service (sv_fixture sv (py_str scenario_key));
  signal ← resolve_signal_placeholders raw;
  signal_id ← pure (ditem "signal_id" signal);
  hex ← step (λ t w, (Ok (tk_hex t), w));
  mret (dset "signal_id" (VStr (py_str signal_id +:+ "_" +:+ hex)) signal).

(** [_resolve_signal] *)
Definition resolve_signal (payload : dict) : CM (dict * dict) :=
  match opt_dict_at "signal_payload" payload, opt_dict_at "otlp_payload" payload with
  | Some signal, _ => signal ← resolve_signal_placeholders signal; mret (signal, payload)
  | None, Some otlp_payload => build_signal_from_otlp otlp_payload payload
  | None, None =>
      let live_signal := dict_or_empty (dgetN "live_signal" payload) in
      let scenario_key := dgetN "scenario_key" payload in
      if is_string "kubernetes" (dgetN "source" live_signal) then collect_live_kubernetes_signal live_signal payload
      else if is_str scenario_key && str_startswith "live_kubernetes:" (py_str scenario_key) then
        live ← pure (live_scenario (py_str scenario_key) payload);
        collect_live_kubernetes_signal live payload
      else if truthy scenario_key then signal ← fixture_signal scenario_key; mret (signal, payload)
      else throw (Exc ValueError "scenario_key or signal_payload is required")
  end.

(** ** Correlation *)

Definition has_correlation (correlation_key : string) (session : dict) : res bool :=
  key ← artifact session "correlation_key";
  if is_string correlation_key key then Ok true
  else
    input_signal ← artifact session "input_signal";
    Ok (is_string correlation_key
          (dgetN "correlation_key" (dict_or_empty (dgetN "related_context" (dict_or_empty input_signal))))).

(** The first run that has not ended with the key. *)
Fixpoint correlation_parent (correlation_key : string) (sessions : list dict) : res (option dict) :=
  match sessions with
  | [] => Ok None
  | session :: rest =>
      ended ← in_str_set (dgetN "status" session) ["completed"; "failed"; "cancelled"];
      if (ended : bool) then correlation_parent correlation_key rest
      else
        found ← has_correlation correlation_key session;
        if (found : bool) then Ok (Some session) else correlation_parent correlation_key rest
  end.

(** [_find_active_correlation_parent] *)
Definition find_active_correlation_parent (correlation_key : string) : CM (option dict) :=
  sessions ← store_step (λ _, list_run_sessions 100);
  pure (correlation_parent correlation_key sessions).

(** The artifacts of a run that one more signal has joined. *)
Definition joined_artifacts (event_payload : dict) (artifacts : value) : res value :=
  d ← py_dict artifacts;
  Ok (VDict (dset "correlated_signals"
        (VList (default [] (as_list (dgetN "correlated_signals" d)) ++ [VDict event_payload])) d)).

(** [_maybe_attach_to_correlated_run]: the run the signal joins, or the request
    and the signal with the key. *)
Definition maybe_attach_to_correlated_run (payload signal_payload : dict) : CM (dict + dict * dict) :=
  match dgetN "live_signal" payload with
  | VDict live_signal =>
      let correlation_key := dgetN "correlation_key" live_signal in
      if negb (truthy correlation_key) then mret (inr (payload, signal_payload))
      else
        found ← find_active_correlation_parent (py_str correlation_key);
        match found with
        | None =>
            let '(related, signal) := dsetdefault "related_context" (VDict []) signal_payload in
            related ← pure (set_item related "correlation_key" correlation_key);
            mret (inr (dset "correlation_key" correlation_key payload, dset "related_context" related signal))
        | Some parent =>
            let event_payload := [("correlation_key", correlation_key); ("live_signal", VDict live_signal);
                                  ("signal_payload", VDict signal_payload)] in
            let run_id := py_str (dgetN "run_id" parent) in
            _ ← record_event cfg run_id (stage_of parent) "correlated_signal_recorded" event_payload
                  [("correlation_key", correlation_key)] (Some "correlated_signal") None (Some "recorded");
            artifacts ← pure (joined_artifacts event_payload (dgetN "artifacts" parent));
            let parent := dset "artifacts" artifacts parent in
            _ ← stamped cfg parent;
            view ← get_run_or run_id parent;
            mret (inl view)
        end
  | _ => mret (inr (payload, signal_payload))
  end.

(** ** Admission and the queue *)

(** What [create_run] reads from the request and the switches. *)
Record run_request := RunRequest {
  rq_steering_mode : value;
  rq_audit_reason : string;
  rq_operator : option dict;
  rq_pause_points : list string;
  rq_goal_id : value }.

Definition rq_auto_mode (r : run_request) : bool := is_string "interruptible_auto" (rq_steering_mode r).

Definition read_request (payload : dict) : CM run_request :=
  let operator := operator_context payload in
  sw ← locked (λ w, (co_switches w, w));
  let steering_mode := if sw_force_approval_gate sw then VStr "approval_gate"
                       else dget_or "steering_mode" (VStr (sw_default_steering_mode sw)) payload in
  let auto_mode := is_string "interruptible_auto" steering_mode in
  pause_points ← pure (normalize_pause_points
    (dget_or "pause_points" (if auto_mode then VList [] else strs [se_default_pause_point cfg]) payload));
  goal_id ← (if truthy (dgetN "goal_id" payload) then mret (dgetN "goal_id" payload)
             else goal ← store_step (λ t, ensure_default_goal (tk_now t)); mret (dgetN "goal_id" goal));
  mret (RunRequest steering_mode (str_strip (py_str (py_or (dgetN "audit_reason" payload) (VStr ""))))
          operator pause_points goal_id).

(** The artifacts of a new run. *)
Definition initial_artifacts (payload signal_payload ownership_boundary : dict) (r : run_request) (now : string) : dict :=
  [("input_signal", VDict signal_payload); ("ownership_boundary", VDict ownership_boundary)]
  ++ match rq_operator r with
     | Some operator =>
         [("operator", VDict operator);
          ("operator_audit", VDict
             [("state_slice", VStr "meshapp.run-admission-launch.v1");
              ("reason", VStr (if String.eqb (rq_audit_reason r) "" then "not_provided" else rq_audit_reason r));
              ("operator_id", dgetN "operator_id" operator); ("recorded_at", VStr now)])]
     | None => []
     end
  ++ (if is_true (dgetN "chaos_probe" payload) then [("chaos_probe", VBool true)] else [])
  ++ (if truthy (dgetN "correlation_key" payload) then [("correlation_key", dgetN "correlation_key" payload)] else [])
  ++ (if is_dict (dgetN "simulation_context" payload)
      then [("simulation_context", dgetN "simulation_context" payload)] else []).

(** [RunSession.new] for the values of a request. *)
Definition new_session (t : tick coordinator) (r : run_request) (scenario_key evaluation_mode orchestration_mode : value)
    (artifacts : dict) : dict :=
  dset "goal_id" (rq_goal_id r)
    (dset "scenario_key" scenario_key
      (dset "steering_mode" (rq_steering_mode r)
        (dset "evaluation_mode" evaluation_mode
          (dset "orchestration_mode" orchestration_mode
            (rs_to_dict (run_session_new (tk_now t) (tk_stamp t) (tk_hex t) None None "" (rq_auto_mode r)
                           (rq_pause_points r) "" "" artifacts)))))).

(** [state_store.create_run_session] *)
Definition create_session (payload signal_payload ownership_boundary : dict) (r : run_request) (modes : value * value) : CM dict :=
  store_step (λ t,
    let session := new_session t r (dgetN "scenario_key" payload) modes.1 modes.2
                     (initial_artifacts payload signal_payload ownership_boundary r (tk_later t)) in
    _ ← save_run_session (se_store cfg) session (tk_mono t);
    mret session).

Definition blockers_of (admission : dict) : list string :=
  match dgetN "blockers" admission with VList l => map py_str l | _ => [] end.

(** The branch of a run that is not admitted. *)
Definition block_run (run_id : string) (session admission : dict) : CM dict :=
  _ ← record_event cfg run_id "blocked" "run_admission_recorded" admission
        [("status", VStr "blocked"); ("blockers", dgetN "blockers" admission)] (Some "run_admission") None (Some "blocked");
  _ ← update_session cfg run_id
        [("stage", VStr "failed"); ("status", VStr "failed"); ("pending_pause_stage", VNone);
         ("error", VStr (str_join "; " (blockers_of admission)))];
  get_run_or run_id session.

(** The events of an admitted run. *)
Definition record_admission (run_id : string) (admission : dict) : CM unit :=
  queue ← pure (subscript (dgetN "queue" admission) "current_depth");
  record_event cfg run_id "queued" "run_admission_recorded" admission
    [("status", VStr "admitted"); ("tenant_id", dgetN "tenant_id" admission);
     ("target_lock_key", dgetN "target_lock_key" admission); ("queue_depth", queue)]
    (Some "run_admission") None (Some "admitted").

Definition record_queued (run_id : string) (r : run_request) (scenario_key : value) : CM unit :=
  let operator_id := match rq_operator r with Some o => dgetN "operator_id" o | None => VNone end in
  record_event cfg run_id "queued" "run_queued"
    [("scenario_key", scenario_key); ("goal_id", rq_goal_id r); ("steering_mode", rq_steering_mode r);
     ("pause_points", strs (rq_pause_points r)); ("operator", opt_dict (rq_operator r));
     ("audit_reason", if String.eqb (rq_audit_reason r) "" then VNone else VStr (rq_audit_reason r))]
    [("status", VStr "queued"); ("operator_id", operator_id);
     ("audit_reason_recorded", VBool (negb (String.eqb (rq_audit_reason r) "")))]
    None None (Some "queued").

Definition record_boundary (run_id : string) (boundary : dict) : CM unit :=
  owner_id ← pure (py_get (dgetN "owner" boundary) "owner_id");
  record_event cfg run_id "queued" "ownership_boundary_recorded" boundary
    (project [("resolved", "resolved"); ("service", "service"); ("namespace", "namespace");
              ("tenant_id", "tenant_id"); ("customer_boundary", "customer_boundary")] boundary
     ++ [("owner_id", owner_id)])
    (Some "ownership_boundary") None
    (Some (if truthy (dgetN "resolved" boundary) then "captured" else "blocked")).

Definition record_readiness (run_id : string) (readiness : dict) : CM unit :=
  promptfoo ← pure (v ← ditem "promptfoo" readiness; subscript v "ready");
  goose ← pure (v ← ditem "goose" readiness; subscript v "ready");
  record_event cfg run_id "queued" "integration_readiness_recorded" readiness
    [("promptfoo_ready", promptfoo); ("goose_ready", goose)] (Some "integration_readiness") None (Some "captured").

(** The queue has no room: the run fails. *)
Definition overload_run (run_id : string) : CM unit :=
  _ ← release_run_admission run_id;
  _ ← record_event cfg run_id "failed" "run_failed"
        [("error", VStr "run queue is full"); ("queue_size", VInt (se_run_queue_size cfg))]
        [("status", VStr "overloaded")] None None (Some "failed");
  _ ← update_session cfg run_id [("stage", VStr "failed"); ("status", VStr "failed")];
  finalize_run run_id.

(** The part of [create_run] after the session exists. *)
Definition admit_run (payload signal_payload boundary session : dict) (r : run_request) (modes : value * value)
    (config : switches) : CM dict :=
  let run_id := py_str (dgetN "run_id" session) in
  sw ← locked (λ w, (co_switches w, w));
  let target_lock_enabled := sw_kubernetes_live_execution_enabled sw || is_true (dgetN "require_target_lock" payload) in
  admission ← build_admission cfg run_id boundary target_lock_enabled;
  _ ← set_artifact cfg run_id "run_admission" (VDict admission);
  if negb (is_string "admitted" (dgetN "decision" admission)) then block_run run_id session admission
  else
    _ ← register_run run_id (rq_auto_mode r) (rq_pause_points r) (py_str (dgetN "tenant_id" admission))
          (py_str (dgetN "target_lock_key" admission)) target_lock_enabled;
    _ ← emit (Admission run_id (py_str (dgetN "target_lock_key" admission)));
    readiness ← service (sv_readiness sv modes.1 modes.2);
    _ ← set_artifact cfg run_id "integration_readiness" (VDict readiness);
    _ ← record_admission run_id admission;
    _ ← record_queued run_id r (dgetN "scenario_key" payload);
    _ ← record_boundary run_id boundary;
    _ ← record_readiness run_id readiness;
    queued ← put_run cfg (QueuedRun run_id modes.1 modes.2 config signal_payload (dgetN "scenario_key" payload));
    _ ← (if (queued : bool) then mret () else overload_run run_id);
    get_run_or run_id session.

(** The modes of the run: those of the request or of the configuration. *)
Definition run_modes (payload : dict) : value * value :=
  (dget_or "evaluation_mode" (VStr (se_evaluation_mode cfg)) payload,
   dget_or "orchestration_mode" (VStr (se_orchestration_mode cfg)) payload).

(** [create_run] *)
Definition create_run (payload : dict) : CM dict :=
  stopped ← locked (λ w, (co_worker_stop w, w));
  if (stopped : bool) then throw (Exc RuntimeError "run coordinator is stopped")
  else
    r ← read_request payload;
    resolved ← resolve_signal payload;
    attached ← maybe_attach_to_correlated_run resolved.2 resolved.1;
    match attached with
    | inl view => mret view
    | inr (payload, signal_payload) =>
        let modes := run_modes payload in
        config ← locked (λ w, (co_switches w, w));
        boundary ← pure (build_ownership_boundary (sv_files sv) (sv_resolve_path sv)
                           (se_ownership_registry_path cfg) signal_payload (se_environment cfg));
        session ← create_session payload signal_payload boundary r modes;
        admit_run payload signal_payload boundary session r modes config
    end.

(** ** Deferred runs *)

(** The signal of a recheck, with what it follows. *)
Definition recheck_signal (record : dict) : res dict :=
  signal ← py_dict (py_or (dgetN "signal_payload" record) (VDict []));
  match dsetdefault "related_context" (VDict []) signal with
  | (VDict related, signal) =>
      recovery ← py_dict (py_or (dgetN "recovery_context" related) (VDict []));
      condition ← py_get (py_or (dgetN "parameters" record) (VDict [])) "condition";
      Ok (dset "related_context" (VDict (dset "recovery_context" (VDict (dupdate recovery
            [("defer_id", dgetN "defer_id" record); ("source_run_id", dgetN "source_run_id" record);
             ("previous_decision_type", VStr "defer_until"); ("defer_condition", condition)])) related)) signal)
  | (_, signal) => Ok signal
  end.

(** [_spawn_deferred_recheck] *)
Definition spawn_deferred_recheck (record : dict) : CM dict :=
  signal ← pure (recheck_signal record);
  sw ← locked (λ w, (co_switches w, w));
  create_run
    [("signal_payload", VDict signal);
     ("scenario_key", VStr ("deferred_recheck:" +:+ py_str (dgetN "source_run_id" record)));
     ("steering_mode", VStr (sw_default_steering_mode sw));
     ("evaluation_mode", VStr (se_evaluation_mode cfg));
     ("orchestration_mode", VStr (se_orchestration_mode cfg))].

(** An operation on the file of deferred runs. *)
Definition deferred_step {A} (f : tick coordinator → file → res A * file) : CM A :=
  step (λ t w, let '(r, d) := f t (co_deferred w) in
               (r, upd_files (co_artifacts w) (co_benchmarks w) d (co_trust w) w)).

Definition DEFERRED_PATH : string := "deferred_runs.json".

(** One turn of [_deferred_recheck_loop] for the record it claimed. *)
Definition recheck (record : dict) : CM unit :=
  or_else
    (child ← spawn_deferred_recheck record;
     defer_id ← pure (ditem "defer_id" record);
     deferred_step (λ t f, mark_spawned DEFERRED_PATH f (py_str defer_id) (py_str (dgetN "run_id" child)) (tk_now t)))
    (λ e, deferred_step (λ t f, mark_failed DEFERRED_PATH f (py_str (dgetN "defer_id" record)) (exc_str e) (tk_now t))).

(** The records that are due, at most five, each in its turn. *)
Definition deferred_recheck_turn (now : datetime) : CM unit :=
  due ← deferred_step (λ t f, claim_due DEFERRED_PATH f now (λ _, tk_now t) 5);
  for_each recheck due.
End create.
