(* ===== verification/RunEvidence.v ===== *)
(** * What a run gathers

    The records that [_execute_run] of [src/services/control_plane.py] makes
    before a decision (evidence, investigation, scenario analysis, earlier
    cases) and after the end (scores, lessons). *)

From S2P Require Import Prelude PyFloat PyValue PyNumbers Json JsonStore Models Contracts Merkle StateStore StateRecords.
From S2P Require Import TrustLadder RunMachine Steering Coordinator.
#[local] Open Scope Z_scope.

(** [list(v)] of an attribute *)
Definition items_of (v : value) : res value := l ← py_iter v; Ok (VList l).

Definition count_of (v : value) : res value := l ← py_iter v; Ok (VInt (Z.of_nat (length l))).

(** ** The evidence graph *)

(** [_evidence_graph]: the node of a piece of evidence, *)
Definition evidence_graph_node (evidence : dict) : list value :=
  if truthy (dgetN "evidence_id" evidence) then
    [VDict [("id", dgetN "evidence_id" evidence); ("type", VStr "evidence");
            ("label", dget_or "summary" (dget_or "kind" (VStr "evidence") evidence) evidence);
            ("analyzer", dgetN "analyzer" evidence); ("confidence", dgetN "confidence" evidence)]]
  else [].

(** that of a part of the decision with what supports it, *)
Definition subdecision_graph (analysis_id : value) (subdecision : dict) : res (list value * list value) :=
  let id := dgetN "subdecision_id" subdecision in
  if truthy id then
    refs ← py_iter (dget_or "evidence_refs" (VList []) subdecision);
    Ok ([VDict [("id", id); ("type", VStr "subdecision"); ("label", dgetN "recommendation" subdecision);
                ("analyzer", dgetN "analyzer" subdecision);
                ("requires_review", dgetN "requires_review" subdecision)]],
        map (λ r, VDict [("source", r); ("target", id); ("kind", VStr "supports")]) refs
        ++ [VDict [("source", id); ("target", analysis_id); ("kind", VStr "feeds")]])
  else Ok ([], []).

(** [item.get(...)] needs a dictionary. *)
Definition need_dict (v : value) : res dict :=
  match v with
  | VDict d => Ok d
  | v => raise AttributeError (repr_str (type_name v) +:+ " object has no attribute 'get'")
  end.

(** and the whole. *)
Definition evidence_graph (analysis : dict) : res dict :=
  evidence ← py_iter (dget_or "evidence_nodes" (VList []) analysis);
  evidence ← res_map need_dict evidence;
  subdecisions ← py_iter (dget_or "subdecisions" (VList []) analysis);
  subdecisions ← res_map need_dict subdecisions;
  parts ← res_map (subdecision_graph (dgetN "analysis_id" analysis)) subdecisions;
  Ok [("nodes", VList (concat (map evidence_graph_node evidence) ++ concat (map fst parts)
         ++ [VDict [("id", dgetN "analysis_id" analysis); ("type", VStr "scenario_analysis");
                    ("label", dgetN "suggested_decision_type" analysis);
                    ("merkle_root", dgetN "merkle_root" analysis)]]));
      ("edges", VList (concat (map snd parts)));
      ("merkle_root", dgetN "merkle_root" analysis)].

(** ** Evidence packs *)

(** The part of a probe result that events and packs show. *)
Definition probe_dict (probe : dict) : res dict :=
  citations ← items_of (dgetN "citations" probe);
  Ok (project [("name", "name"); ("source", "source"); ("success", "success"); ("latency_ms", "latency_ms");
               ("error", "error")] probe
      ++ [("payload", py_or (dgetN "payload" probe) (VDict [])); ("citations", citations)]).

Definition pack_probes (pack : dict) : res (list dict) :=
  probes ← py_iter (dgetN "probe_results" pack);
  res_map need_dict probes.

(** [EvidencePack.to_dict] *)
Definition pack_to_dict (pack : dict) : res dict :=
  probes ← pack_probes pack;
  probes ← res_map probe_dict probes;
  missing ← items_of (dgetN "missing_fields" pack);
  signatures ← items_of (dgetN "fast_path_signatures" pack);
  Ok (project [("pack", "pack"); ("assembled_at", "assembled_at"); ("source", "source")] pack
      ++ [("probe_results", dicts probes); ("sufficient", dgetN "sufficient" pack); ("missing_fields", missing);
          ("fast_path_signatures", signatures)]).

(** ** Runs like this one *)

(** The entry of an earlier run of the same service. *)
Definition related_run (session : dict) (artifacts : dict) : res dict :=
  decision_type ← py_get (dget_or "decision" (VDict []) artifacts) "decision_type";
  outcome ← py_get (dget_or "feedback" (VDict []) artifacts) "outcome";
  Ok (project [("run_id", "run_id"); ("stage", "stage"); ("status", "status")] session
      ++ [("decision_type", decision_type); ("feedback_outcome", outcome)]).

(** The first [n] of them; [service_of] reads the service of the trigger of an
    earlier run. *)
Fixpoint related_runs (n : nat) (run_id : string) (service : value) (service_of : value → res (option value))
    (sessions : list dict) : res (list dict) :=
  match sessions, n with
  | [], _ | _, O => Ok []
  | session :: rest, S n' =>
      if is_string run_id (dgetN "run_id" session) then related_runs n run_id service service_of rest
      else
        let artifacts := dict_or_empty (dgetN "artifacts" session) in
        theirs ← service_of (dget_or "trigger" (VDict []) artifacts);
        if match theirs with Some v => py_eq v service | None => false end then
          entry ← related_run session artifacts;
          more ← related_runs n' run_id service service_of rest;
          Ok (entry :: more)
        else related_runs n run_id service service_of rest
  end.

(** The words of a memory query. *)
Definition memory_query (run_id : string) (trigger : dict) : dict :=
  let words := List.filter truthy [dgetN "service" trigger; dgetN "endpoint" trigger; dgetN "trigger_type" trigger] in
  [("query", VStr (str_join " " (map py_str words)));
   ("scope", VDict [("service", dgetN "service" trigger); ("run_id", VStr run_id)]); ("limit", VInt 8)].

Section evidence.
Context (cfg : settings) (sv : services).

(** [_is_chaos_probe_run] *)
Definition is_chaos_probe_run (run_id : string) : CM bool :=
  found ← get_session run_id;
  match found with
  | Some session => v ← pure (artifact session "chaos_probe"); mret (is_true v)
  | None => mret false
  end.

(** ** Scores of simulated runs *)

(** An operation on the file of benchmarks. *)
Definition benchmark_step {A} (f : file → res A * file) : CM A :=
  step (λ _ w, let '(r, b) := f (co_benchmarks w) in
               (r, upd_files (co_artifacts w) b (co_deferred w) (co_trust w) w)).

(** The score of a run, on record in the three places. *)
Definition score_session (run_id : string) (session context : dict) : CM unit :=
  let scenario_id := str_strip (py_str (py_or (dgetN "scenario_id" context) (VStr ""))) in
  events ← store_step (λ _, list_run_events run_id 0);
  merkle ← store_step (λ _, get_merkle_snapshot run_id);
  d ← pure (session_to_dict session);
  record ← service (sv_score sv scenario_id context d events merkle);
  _ ← benchmark_step (λ f, StateRecords.record_benchmark f record);
  _ ← set_artifact cfg run_id "benchmark_score" (VDict record);
  _ ← set_artifact cfg run_id "dataset_export_ref" (VDict [("path", VStr (sv_export_path sv)); ("format", VStr "jsonl")]);
  record_event cfg run_id (stage_of session) "integration_artifact_recorded" record
    (project [("score", "score"); ("passed", "passed")] record) (Some "benchmark_score") (Some "benchmark") (Some "recorded").

(** [_record_benchmark_if_simulation] *)
Definition record_benchmark_if_simulation (run_id : string) : CM unit :=
  found ← get_session run_id;
  match found with
  | None => mret ()
  | Some session =>
      context ← pure (artifact session "simulation_context");
      score ← pure (artifact session "benchmark_score");
      match context with
      | VDict context => if is_dict score then mret () else score_session run_id session context
      | _ => mret ()
      end
  end.

(** ** Evidence *)

(** [_record_investigation_plan] *)
Definition record_investigation_plan (run_id : string) (trigger signal_payload : dict) (p : profile sv) : CM dict :=
  plan ← service (sv_plan sv p trigger signal_payload);
  payload ← pure (to_dict InvestigationPlan plan);
  _ ← set_artifact cfg run_id "investigation_plan" (VDict payload);
  planner ← pure (py_get (dget_or "probe_budget" (VDict []) payload) "planner");
  probes ← pure (count_of (dget_or "probes" (VList []) payload));
  _ ← record_event cfg run_id "evidence_pack_ready" "integration_artifact_recorded" payload
        [("planner", planner); ("probe_count", probes)] (Some "investigation_plan")
        (Some (signal_source sv p +:+ "_planner")) (Some "recorded");
  mret payload.

Definition record_probe (run_id : string) (probe : dict) : CM unit :=
  payload ← pure (probe_dict probe);
  record_event cfg run_id "evidence_pack_ready" "evidence_probe_completed" payload
    (project [("probe", "name"); ("success", "success")] probe) None None (Some "recorded").

(** [_record_evidence_pack] *)
Definition record_evidence_pack (run_id : string) (trigger signal_payload : dict) (plan : option dict) : CM dict :=
  _ ← update_session cfg run_id [("stage", VStr "evidence_pack_ready"); ("status", VStr "running")];
  _ ← record_event cfg run_id "evidence_pack_ready" "evidence_pack_assembling"
        [("trigger_id", dgetN "trigger_id" trigger); ("signal_type", dgetN "signal_type" signal_payload)]
        [("trigger_type", dgetN "trigger_type" trigger)] None None (Some "running");
  pack ← service (sv_assemble sv trigger signal_payload plan);
  probes ← pure (pack_probes pack);
  _ ← for_each (record_probe run_id) probes;
  payload ← pure (pack_to_dict pack);
  _ ← set_artifact cfg run_id "evidence_pack" (VDict payload);
  missing ← pure (count_of (dgetN "missing_fields" pack));
  _ ← record_event cfg run_id "evidence_pack_ready" "evidence_pack_ready" payload
        (project [("source", "source"); ("sufficient", "sufficient")] pack
         ++ [("missing_field_count", missing); ("fast_path_signatures", dgetN "fast_path_signatures" pack)])
        (Some "evidence_pack") None (Some "recorded");
  mret pack.

(** [_record_reasoning_bank_retrieval] *)
Definition record_reasoning_bank_retrieval (run_id : string) (trigger : dict) (evidence_pack : option dict) : CM dict :=
  if negb (se_reasoning_bank_enabled cfg) then mret (sv_rb_disabled sv "disabled")
  else
    or_else
      (artifact ← service (sv_rb_retrieve sv trigger evidence_pack);
       _ ← set_artifact cfg run_id "reasoning_bank_packet" (VDict artifact);
       strategies ← pure (count_of (dget_or "strategies" (VList []) artifact));
       _ ← record_event cfg run_id "scenario_analysis_ready" "integration_artifact_recorded" artifact
             [("strategies", strategies); ("enabled", dgetN "enabled" artifact)]
             (Some "reasoning_bank_packet") (Some "reasoning_bank") (Some "recorded");
       mret artifact)
      (λ _, mret (sv_rb_disabled sv "retrieval_failed")).

(** The service of the trigger of an earlier run, if it is a dictionary. *)
Definition trigger_service (v : value) : res (option value) := Ok (dgetN "service" <$> as_dict v).

(** [_record_investigation_report] *)
Definition record_investigation_report (run_id : string) (trigger : dict) (evidence_pack : option dict) (h : harness sv) : CM dict :=
  _ ← update_session cfg run_id [("stage", VStr "investigation_ready"); ("status", VStr "running")];
  memory ← service (sv_memory sv (memory_query run_id trigger));
  packet ← pure (py_dict (dget_or "packet" (VDict []) memory));
  context ← service (sv_service_context sv trigger);
  sessions ← store_step (λ _, list_run_sessions 25);
  recent ← pure (related_runs 10 run_id (dgetN "service" trigger) trigger_service sessions);
  report ← service (sv_investigate sv trigger evidence_pack packet context recent h);
  payload ← pure (to_dict InvestigationReport report);
  _ ← set_artifact cfg run_id "investigation_report" (VDict payload);
  probes ← pure (count_of (dgetN "probe_results" report));
  findings ← pure (count_of (dgetN "findings" report));
  _ ← record_event cfg run_id "investigation_ready" "investigation_ready" payload
        ([("probe_count", probes); ("finding_count", findings)]
         ++ project [("uncertainty", "uncertainty"); ("stop_reason", "stop_reason")] report)
        (Some "investigation_report") None (Some "recorded");
  mret report.

(** ** Scenario analysis *)

(** The events of the nodes and of the parts, with their identifiers. *)
Definition record_evidence_node (run_id : string) (evidence : value) : CM string :=
  d ← pure (need_dict evidence);
  e ← append_event cfg run_id "scenario_analysis_ready" "evidence_node_recorded" d
        (Some (project [("analyzer", "analyzer"); ("kind", "kind")] d)) (Some "scenario_analysis") None (Some "recorded");
  mret (ev_event_id e).

Definition record_subdecision (run_id : string) (subdecision : value) : CM string :=
  d ← pure (need_dict subdecision);
  e ← append_event cfg run_id "scenario_analysis_ready" "subdecision_recorded" d
        (Some (project [("analyzer", "analyzer"); ("recommendation", "recommendation");
                        ("requires_review", "requires_review")] d))
        (Some "scenario_analysis") None (Some "recorded");
  mret (ev_event_id e).

(** The compaction of the memory, when there is one. *)
Definition record_compaction (run_id : string) (root : value) (compaction : option dict) : CM unit :=
  match compaction with
  | None => mret ()
  | Some c =>
      let c := dset "merkle_root" root c in
      payload ← pure (to_dict MemoryCompactionRecord c);
      _ ← set_artifact cfg run_id "memory_compaction" (VDict payload);
      active ← pure (count_of (dgetN "active_facts" c));
      suppressed ← pure (count_of (dgetN "suppressed_facts" c));
      record_event cfg run_id "scenario_analysis_ready" "memory_compaction_recorded" payload
        [("active_facts", active); ("suppressed_facts", suppressed)] (Some "memory_compaction") None (Some "recorded")
  end.

(** [_record_scenario_analysis] *)
Definition record_scenario_analysis (run_id : string) (trigger : dict) (packet : value) (report : option dict) : CM dict :=
  _ ← update_session cfg run_id [("stage", VStr "scenario_analysis_ready"); ("status", VStr "running")];
  out ← service (sv_analyze sv trigger packet report);
  let '(analysis, compaction) := out in
  nodes ← pure (py_iter (dgetN "evidence_nodes" analysis));
  node_ids ← for_map (record_evidence_node run_id) nodes;
  parts ← pure (py_iter (dgetN "subdecisions" analysis));
  part_ids ← for_map (record_subdecision run_id) parts;
  merkle ← store_step (λ _, get_merkle_snapshot run_id);
  let root := VStr (ms_root_hash merkle) in
  let analysis := dset "merkle_event_ids" (strs (node_ids ++ part_ids)) (dset "merkle_root" root analysis) in
  _ ← pure (validate ScenarioAnalysis analysis);
  payload ← pure (to_dict ScenarioAnalysis analysis);
  _ ← set_artifact cfg run_id "scenario_analysis" (VDict payload);
  graph ← pure (evidence_graph payload);
  _ ← set_artifact cfg run_id "evidence_graph" (VDict graph);
  reasons ← pure (count_of (dgetN "required_review_reasons" analysis));
  _ ← record_event cfg run_id "scenario_analysis_ready" "scenario_analysis_ready" payload
        [("suggested_decision_type", dgetN "suggested_decision_type" analysis); ("required_review_count", reasons)]
        (Some "scenario_analysis") None (Some "recorded");
  _ ← record_compaction run_id root compaction;
  mret analysis.

(** ** After the end *)

(** The trust ladder counts the outcome of an action. *)
Definition record_trust (decision trigger feedback : dict) : CM unit :=
  let action_class := dgetN "decision_type" decision in
  if str_in action_class ["no_action"; "escalate"] then mret ()
  else step (λ t w,
         let '(r, f) := record_outcome default_config "trust_ladder.json" (co_trust w) (py_str action_class)
                          (py_str (dgetN "service" trigger)) (py_str (dgetN "outcome" feedback)) false (tk_now t) in
         (_ ← r; Ok (), upd_files (co_artifacts w) (co_benchmarks w) (co_deferred w) f w)).

(** [_record_learning] *)
Definition record_learning (run_id : string) (trigger decision feedback : dict) : CM unit :=
  or_else
    (_ ← service (sv_learn sv trigger decision feedback);
     _ ← (if se_rule_learning_enabled cfg then or_else (service (sv_override_outcome sv feedback)) (λ _, mret ())
          else mret ());
     completed ← get_session run_id;
     _ ← match completed with
         | Some session => d ← pure (session_to_dict session); service (sv_update_context sv d)
         | None => mret ()
         end;
     record_trust decision trigger feedback)
    (λ _, mret ()).

(** [_record_memory_crystallization] *)
Definition record_memory_crystallization (run_id : string) : CM unit :=
  or_else
    (crystallization ← service (sv_crystallize sv);
     _ ← set_artifact cfg run_id "memory_crystallization" (VDict crystallization);
     record_event cfg run_id "completed" "integration_artifact_recorded" crystallization
       (project [("observations_recorded", "observations_recorded"); ("claims_recorded", "claims_recorded")]
          crystallization)
       (Some "memory_crystallization") (Some "memory") (Some "recorded"))
    (λ _, mret ()).

(** The artifact of [_record_reasoning_bank_lessons] when there is none yet. *)
Definition distill_lessons (run_id : string) : CM (option value) :=
  or_else
    (artifact ← service (sv_rb_distill sv);
     _ ← set_artifact cfg run_id "reasoning_bank" (VDict artifact);
     lessons ← pure (count_of (dget_or "lessons" (VList []) artifact));
     _ ← record_event cfg run_id "completed" "integration_artifact_recorded" artifact
           [("lessons", lessons); ("enabled", dgetN "enabled" artifact)]
           (Some "reasoning_bank") (Some "reasoning_bank") (Some "recorded");
     mret (Some (VDict artifact)))
    (λ _, mret None).

(** [_record_reasoning_bank_lessons] *)
Definition record_reasoning_bank_lessons (run_id : string) : CM (option value) :=
  if negb (se_reasoning_bank_enabled cfg) then mret None
  else
    found ← get_session run_id;
    existing ← match found with
               | Some session => pure (artifact session "reasoning_bank")
               | None => mret VNone
               end;
    if is_dict existing then mret (Some existing) else distill_lessons run_id.
End evidence.
