(* ===== verification/RunDecision.v ===== *)
(** * Decisions, evaluations and recovery of a run

    [_record_decision_and_evaluation], the agent tasks and trajectories it
    records, recovery runs, deferral and overrides of
    [src/services/control_plane.py]. *)

From S2P Require Import Prelude PyFloat PyValue PyNumbers Json JsonStore Models Contracts StateStore DeferredRuns.
From S2P Require Import RunMachine Steering Coordinator CreateRun RunEvidence.
From stdpp Require Import gmap.
#[local] Open Scope Z_scope.

(** ** Decisions *)

(** [decision.reasoning.setdefault("evidence_pack", {})["rca_report"] = ...] *)
Definition with_rca (rca : dict) (decision : dict) : res dict :=
  match dgetN "reasoning" decision with
  | VDict reasoning =>
      let '(pack, reasoning) := dsetdefault "evidence_pack" (VDict []) reasoning in
      pack ← set_item pack "rca_report"
        (VDict (project [("report_id", "report_id"); ("likely_cause", "likely_cause"); ("confidence", "confidence");
                         ("recommended_next_step", "recommended_next_step")] rca));
      Ok (dset "reasoning" (VDict (dset "evidence_pack" pack reasoning)) decision)
  | v => raise AttributeError (repr_str (type_name v) +:+ " object has no attribute 'setdefault'")
  end.

(** [_ranked_hypotheses_from_decision] *)
Definition ranked_hypotheses_from_decision (decision : dict) : list dict :=
  let reasoning := dict_or_empty (dgetN "reasoning" decision) in
  match dgetN "ranked_hypotheses" reasoning with
  | VList l => omap as_dict l
  | _ =>
      match dgetN "hypotheses" (dict_or_empty (dgetN "evidence_pack" reasoning)) with
      | VList l => omap as_dict l
      | _ => []
      end
  end.

(** [evaluation.passed and evaluation.final_recommendation == "execute"] *)
Definition passes (evaluation : dict) : bool :=
  truthy (dgetN "passed" evaluation) && is_string "execute" (dgetN "final_recommendation" evaluation).

(** ** Overrides *)

(** [{ **a, **b}] *)
Definition merged (a b : value) : res value :=
  match a, b with
  | VDict a, VDict b => Ok (VDict (dupdate a b))
  | _, _ => raise TypeError "object is not a mapping"
  end.

(** The plan of a decision that [override_decision] changes. *)
Definition override_plan (plan new_plan : value) : res value :=
  execution_plan ← merged plan new_plan;
  match dgetN "parameters" (dict_or_empty plan), dgetN "parameters" (dict_or_empty new_plan) with
  | VDict a, VDict b => set_item execution_plan "parameters" (VDict (dupdate a b))
  | _, _ => Ok execution_plan
  end.

(** The fields of a request that replace those of the decision. *)
Definition override_fields (payload data : dict) : dict :=
  fold_left (λ d key, match dget key payload with Some v => dset key v d | None => d end)
    ["decision_type"; "summary"; "autonomy_tier"; "confidence"] data.

(** [_apply_override] *)
Definition apply_override (decision payload : dict) : res dict :=
  data ← to_dict Contracts.Decision decision;
  type ← ditem "type" payload;
  data ← (if is_string "override_decision" type then
            let data := override_fields payload data in
            data ← (if is_dict (dgetN "risk" payload)
                    then risk ← merged (dgetN "risk" data) (dgetN "risk" payload); Ok (dset "risk" risk data)
                    else Ok data);
            if is_dict (dgetN "execution_plan" payload)
            then plan ← override_plan (dgetN "execution_plan" data) (dgetN "execution_plan" payload);
                 Ok (dset "execution_plan" plan data)
            else Ok data
          else
            plan ← ditem "execution_plan" data;
            old ← subscript plan "parameters";
            parameters ← merged old (dget_or "parameters" (VDict []) payload);
            plan ← set_item plan "parameters" parameters;
            plan ← (match dget "rollback_plan" payload with
                    | Some v => set_item plan "rollback_plan" v
                    | None => Ok plan
                    end);
            Ok (dset "execution_plan" plan data));
  from_dict Contracts.Decision data.

(** ** Agent tasks *)

Definition dict_at (key : string) (d : dict) : value :=
  match dgetN key d with VDict x => VDict x | _ => VDict [] end.

Definition list_or_empty (key : string) (d : dict) : value :=
  match dgetN key d with VList x => VList x | _ => VList [] end.

(** [str(a.get(key) or b.get(key) or "")] *)
Definition first_of (key : string) (a b : dict) : value :=
  VStr (py_str (py_or (py_or (dgetN key a) (dgetN key b)) (VStr ""))).

(** The entry of an attempt whose output has a thread. *)
Definition attempt_thread (task : dict) (attempt : value) : res (list dict) :=
  match attempt with
  | VDict attempt =>
      match dgetN "thread" (dict_or_empty (dgetN "output" attempt)) with
      | VDict thread =>
          lifecycle ← items_of (py_or (dgetN "lifecycle" thread) (VList []));
          Ok [[("task_id", first_of "task_id" task attempt); ("attempt_id", first_of "attempt_id" attempt thread);
               ("agent", first_of "agent" attempt thread); ("adapter", first_of "adapter" attempt thread);
               ("thread_id", first_of "thread_id" thread []); ("status", first_of "status" thread attempt);
               ("event_count", VInt (Z.of_nat (length (match dgetN "events" thread with VList l => l | _ => [] end))));
               ("lifecycle", lifecycle); ("request", dict_at "request" thread);
               ("tool_calls", list_or_empty "tool_calls" thread); ("output", dict_at "output" thread);
               ("changed_files", list_or_empty "changed_files" attempt);
               ("risk_flags", list_or_empty "risk_flags" thread); ("test_results", list_or_empty "test_results" thread);
               ("release_status", dict_at "release_status" thread); ("authority", dict_at "authority" thread)]]
      | _ => Ok []
      end
  | _ => Ok []
  end.

(** [_agent_attempt_thread_projection] *)
Definition agent_attempt_thread_projection (tasks : list dict) : res (list dict) :=
  per_task ← res_map (λ task,
    match dgetN "attempts" task with
    | VList attempts => l ← res_map (attempt_thread task) attempts; Ok (concat l)
    | _ => Ok []
    end) tasks;
  Ok (concat per_task).

(** [_signal_source_for_routing] *)
Definition signal_source_for_routing (trigger : dict) : value :=
  let context := dict_or_empty (dgetN "related_context" trigger) in
  let type := py_str (dgetN "trigger_type" trigger) in
  if str_startswith "kubernetes_" type then VStr "kubernetes"
  else if str_startswith "otel_" type then VStr "otel"
  else if str_contains "flag" type then VStr "feature_flag"
  else VStr (py_str (py_or (py_or (dgetN "signal_source" context) (dgetN "source" context)) (VStr "default"))).

(** The routing that the first task names, or that of the run. *)
Definition lane_routing (trigger decision : dict) (service_agent : value) (tasks : list dict) : value :=
  match tasks with
  | task :: _ =>
      match dget_or "lane_routing" VNone task with
      | VDict d => VDict d
      | _ => VDict [("signal_source", signal_source_for_routing trigger); ("decision_type", dgetN "decision_type" decision);
                    ("service_agent", service_agent); ("agents", dget_or "agents" (VList []) task)]
      end
  | [] => VDict [("signal_source", signal_source_for_routing trigger); ("decision_type", dgetN "decision_type" decision);
                 ("service_agent", service_agent); ("agents", VList [])]
  end.

(** What is on record of a collection of tasks. *)
Record task_report := TaskReport {
  tr_tasks : list dict;
  tr_status : string;
  tr_summary : dict;
  tr_payload : dict }.

Definition task_summary (tasks : list dict) (projection : list dict) : res dict :=
  counts ← res_map (λ task, l ← py_iter (dget_or "attempts" (VList []) task); Ok (Z.of_nat (length l))) tasks;
  Ok ([("tasks", VInt (Z.of_nat (length tasks))); ("agents", VInt (fold_right Z.add 0 counts))]
      ++ match projection with [] => [] | _ => [("attempt_threads", VInt (Z.of_nat (length projection)))] end).

Definition failed_tasks (e : exc) : task_report :=
  TaskReport [] "failed" [("tasks", VInt 0); ("error", VStr (exc_str e))]
    [("tasks", VList []); ("error", VStr (exc_str e))].

(** ** Recovery *)

(** [l\[i:\]] *)
Definition slice_from {A} (i : Z) (l : list A) : list A :=
  if i <? 0 then drop (Z.to_nat (Z.max 0 (Z.of_nat (length l) + i))) l else drop (Z.to_nat i) l.

(** [_existing_recovery_context] *)
Definition existing_recovery_context (session trigger : dict) : res dict :=
  raw ← py_get (dgetN "related_context" trigger) "recovery_context";
  match raw with
  | VDict d => Ok d
  | _ =>
      let input_signal := dict_or_empty (dgetN "input_signal" (artifacts_of (Some session))) in
      Ok (dict_or_empty (dgetN "recovery_context" (dict_or_empty (dgetN "related_context" input_signal))))
  end.

(** [int(d.get(key, default) or default)] *)
Definition int_or (key : string) (dflt : Z) (d : dict) : res Z :=
  py_int (py_or (dget_or key (VInt dflt) d) (VInt dflt)).

(** The scorers of the trajectory that did not pass. *)
Definition failing_scorer (item : value) : option value :=
  match item with
  | VDict d => if truthy (dgetN "passed" d) then None
               else Some (VDict [("name", dgetN "name" d); ("reason", dgetN "note" d)])
  | _ => None
  end.

Definition failing_scorers (evaluation : dict) : res (list value) :=
  quality ← py_get (dgetN "stage_results" evaluation) "trajectory_quality";
  let artifacts := dict_or_empty (dgetN "artifacts" (dict_or_empty quality)) in
  scorers ← py_iter (dget_or "scorers" (VList []) artifacts);
  Ok (omap (M := list) failing_scorer scorers).

(** The key under which similar incidents are kept. *)
Definition incident_key (trigger decision : dict) : res string :=
  signatures ← py_get (dgetN "related_context" trigger) "error_signatures";
  match signatures with
  | VList ((_ :: _) as l) =>
      parts ← res_map (λ v, match v with
                            | VStr s => Ok s
                            | v => raise TypeError ("sequence item: expected str instance, " +:+ type_name v +:+ " found")
                            end) l;
      Ok (str_join "|" parts)
  | _ => Ok (py_str (dgetN "decision_type" decision))
  end.

(** The service of an earlier run, whose trigger must be a dictionary. *)
Definition required_service (v : value) : res (option value) := s ← py_get v "service"; Ok (Some s).

(** The counts and lists of [_collect_recovery_evidence]. *)
Definition recovery_evidence (session : dict) (facts similar : list value) (related : list dict) (failing : list value)
    (service_context learning_context : value) : res dict :=
  let artifacts := artifacts_of (Some session) in
  refs ← py_iter (dget_or "evidence_refs" (VList []) (dict_or_empty (dgetN "scenario_analysis" artifacts)));
  hermes ← py_get (dget_or "hermes_explanation" (VDict []) artifacts) "assistant_reply";
  let counts := [length facts; length similar; length related; length refs; length failing] in
  let num n := VInt (Z.of_nat n) in
  Ok [("corroborating_evidence_count", num (length (List.filter (λ n, Nat.ltb 0 n) counts)));
      ("active_memory_count", num (length facts)); ("similar_incident_count", num (length similar));
      ("related_run_count", num (length related)); ("scenario_evidence_count", num (length refs));
      ("trajectory_failure_count", num (length failing)); ("service_context", service_context);
      ("learning_context", learning_context); ("similar_incidents", VList similar); ("related_runs", dicts related);
      ("failing_trajectory_scorers", VList failing); ("hermes_summary", hermes)].

Definition EVIDENCE_COUNTS : list string :=
  ["corroborating_evidence_count"; "active_memory_count"; "similar_incident_count"; "related_run_count";
   "scenario_evidence_count"; "trajectory_failure_count"].

(** What a run says of its own attempt. *)
Definition attempt_fields (decision evaluation blockers : dict) : res (value * value * value) :=
  reasons ← items_of (dgetN "blocking_reasons" evaluation);
  recoverable ← items_of (dget_or "recoverable_blockers" (VList []) blockers);
  hints ← items_of (dget_or "retry_hints" (VList []) blockers);
  Ok (reasons, recoverable, hints).

(** The attempts so far, with this one. *)
Definition prior_attempts (run_id : value) (decision existing : dict) (reasons recoverable : value) : list value :=
  match dgetN "previous_attempts" existing with VList l => l | _ => [] end
  ++ [VDict [("run_id", run_id); ("decision_type", dgetN "decision_type" decision);
             ("confidence", dgetN "confidence" decision); ("blocking_reasons", reasons);
             ("recoverable_blockers", recoverable)]].

(** The context of the signal of a child run. *)
Definition child_context (related recovery evidence : dict) (next_retry_index : Z) : res dict :=
  cases ← int_or "similar_prior_cases" 0 related;
  runs ← int_or "related_run_count" 0 evidence;
  signals ← py_iter (dget_or "trigger_signals" (VList []) related);
  let marker := "recovery_context_retry_" +:+ str_of_Z next_retry_index in
  let signals := if existsb (is_string marker) signals then signals else signals ++ [VStr marker] in
  Ok (dset "trigger_signals" (VList signals)
       (dset "similar_prior_cases" (VInt (Z.max cases runs)) (dset "recovery_context" (VDict recovery) related))).

(** [_build_recovery_child_payload]: the request of the child and the record of
    the parent. *)
Definition build_recovery_child_payload (session : dict) (scenario_key : value) (signal_payload decision evaluation blockers : dict)
    (retry_index retry_budget : Z) (existing evidence : dict) : res (dict * dict) :=
  let next := retry_index + 1 in
  let run_id := dgetN "run_id" session in
  let original := py_str (py_or (dgetN "signal_id" signal_payload) run_id) in
  let signal := dset "signal_id" (VStr (original +:+ "-retry-" +:+ str_of_Z next)) signal_payload in
  let '(related, signal) := dsetdefault "related_context" (VDict []) signal in
  fields ← attempt_fields decision evaluation blockers;
  let '(reasons, recoverable, hints) := fields in
  let attempts := prior_attempts run_id decision existing reasons recoverable in
  let root := py_or (dgetN "root_run_id" existing) run_id in
  let recovery := dupdate
    [("root_run_id", root); ("parent_run_id", run_id); ("retry_index", VInt next); ("retry_budget", VInt retry_budget);
     ("previous_attempts", VList (slice_from (- retry_budget) attempts));
     ("prior_attempt_count", VInt (Z.of_nat (length attempts)));
     ("latest_decision_type", dgetN "decision_type" decision); ("parent_blocking_reasons", reasons);
     ("recoverable_blockers", recoverable); ("retry_hints", hints); ("original_signal_id", VStr original)] evidence in
  context ← (match related with
             | VDict related => child_context related recovery evidence next
             | _ => raise TypeError "object does not support item assignment"
             end);
  Ok ([("goal_id", dgetN "goal_id" session); ("scenario_key", scenario_key);
       ("signal_payload", VDict (dset "related_context" (VDict context) signal));
       ("evaluation_mode", dgetN "evaluation_mode" session); ("orchestration_mode", dgetN "orchestration_mode" session);
       ("steering_mode", dgetN "steering_mode" session); ("pause_points", dgetN "pause_points" session)],
      [("status", VStr "queued"); ("root_run_id", dgetN "root_run_id" recovery); ("parent_run_id", run_id);
       ("retry_index", VInt next); ("retry_budget", VInt retry_budget); ("decision_type", dgetN "decision_type" decision);
       ("blocking_reasons", reasons); ("recoverable_blockers", recoverable); ("retry_hints", hints);
       ("evidence_summary", VDict (map (λ k, (k, dgetN k recovery)) EVIDENCE_COUNTS))]).

(** Whether a blocked evaluation may be tried again. *)
Definition remediable_blockers (evaluation : dict) : res (option dict) :=
  if passes evaluation then Ok None
  else
    blockers ← py_get (dgetN "stage_results" evaluation) "blocker_analysis";
    match blockers with
    | VDict d => if truthy (dgetN "can_auto_remediate" d) then Ok (Some d) else Ok None
    | _ => Ok None
    end.

Section decision.
Context (cfg : settings) (sv : services).

(** ** Trajectories and delivery *)

Definition TRAJECTORY_ARTIFACTS : list string := ["task_trace"; "trajectory_score"; "verifier_output"; "phoenix_spans"].

(** [_trajectory_artifact_summary] *)
Definition trajectory_artifact_summary (artifact_key : string) (payload : value) : dict :=
  if String.eqb artifact_key "phoenix_spans"
  then [("span_count", VInt (match payload with VList l => Z.of_nat (length l) | _ => 0 end))]
  else match payload with
       | VDict d =>
           if String.eqb artifact_key "trajectory_score" then project [("score", "score"); ("passed", "passed")] d
           else if String.eqb artifact_key "verifier_output" then project [("passed", "passed"); ("facts", "facts")] d
           else if String.eqb artifact_key "task_trace"
           then [("trace_version", dgetN "trace_version" d);
                 ("trigger_type", dgetN "trigger_type" (dict_or_empty (dgetN "task" d)))]
           else [("artifact_key", VStr artifact_key)]
       | _ => [("artifact_key", VStr artifact_key)]
       end.

(** The artifact and the event of one part of the trace.  The payload of an
    event is an object here; the event of the spans, whose payload is a list,
    is a step of the others. *)
Definition record_trace_part (run_id stage : string) (bundle : dict) (artifact_key : string) : CM unit :=
  payload ← pure (ditem artifact_key bundle);
  _ ← set_artifact cfg run_id artifact_key payload;
  match payload with
  | VDict d => record_event cfg run_id stage "integration_artifact_recorded" d
                 (trajectory_artifact_summary artifact_key payload) (Some artifact_key) (Some "mesh_trajectory")
                 (Some "recorded")
  | _ => locked (λ w, ((), w))
  end.

(** [_record_trajectory_artifacts] *)
Definition record_trajectory_artifacts (run_id : string) (trigger decision evaluation : dict)
    (execution feedback : option dict) : CM unit :=
  found ← get_session run_id;
  let artifacts := artifacts_of found in
  evaluation ← pure (to_dict EvaluationResult evaluation);
  execution_payload ← match execution with
                      | Some e => d ← pure (to_dict ExecutionRecord e); mret (VDict d)
                      | None => mret (dgetN "execution" artifacts)
                      end;
  feedback_payload ← match feedback with
                     | Some f => d ← pure (to_dict FeedbackRecord f); mret (VDict d)
                     | None => mret (dgetN "feedback" artifacts)
                     end;
  events ← store_step (λ _, list_run_events run_id 0);
  bundle ← service (sv_trajectory sv trigger decision evaluation execution_payload feedback_payload events artifacts);
  let stage := match execution, feedback with None, None => "evaluation_ready" | _, _ => "feedback_ready" end in
  for_each (record_trace_part run_id stage bundle) TRAJECTORY_ARTIFACTS.

(** [_record_delivery_context] *)
Definition record_delivery_context (run_id : string) (emit_event : bool) : CM (option dict) :=
  found ← get_session run_id;
  match found with
  | None => mret None
  | Some session =>
      out ← service (sv_delivery_context sv session);
      let '(graph, view, summary) := out in
      _ ← set_artifact cfg run_id "delivery_context_graph" (VDict graph);
      _ ← set_artifact cfg run_id "delivery_context_summary" (VDict summary);
      _ ← set_artifact cfg run_id "delivery_context" (VDict view);
      nodes ← pure (count_of (dgetN "nodes" graph));
      _ ← (if emit_event
           then record_event cfg run_id (stage_of session) "integration_artifact_recorded"
                  [("graph", VDict graph); ("summary", VDict summary)]
                  [("graph_id", dgetN "graph_id" graph); ("node_count", nodes);
                   ("evidence_gap_count", dgetN "evidence_gap_count" summary)]
                  (Some "delivery_context") (Some "delivery_context") (Some "recorded")
           else mret ());
      mret (Some view)
  end.

(** ** Agent tasks *)

(** The [try] block of [_record_agent_tasks]. *)
Definition collect_agent_tasks (run_id : string) (trigger decision evaluation : dict) : CM task_report :=
  found ← get_session run_id;
  service_agent ← match found with Some s => pure (artifact s "service_agent") | None => mret VNone end;
  readiness ← match found with Some s => pure (artifact s "integration_readiness") | None => mret VNone end;
  tasks ← service (sv_agent_tasks sv trigger decision evaluation (as_dict service_agent) (as_dict readiness));
  let routing := lane_routing trigger decision service_agent tasks in
  _ ← set_artifact cfg run_id "lane_routing" routing;
  projection ← pure (agent_attempt_thread_projection tasks);
  summary ← pure (task_summary tasks projection);
  mret (TaskReport tasks "recorded" summary
          ([("tasks", dicts tasks); ("lane_routing", routing)]
           ++ match projection with [] => [] | _ => [("attempt_threads", dicts projection)] end)).

(** What the agents agree on. *)
Definition record_reconciliation (run_id : string) (tasks : list dict) : CM unit :=
  reconciliation ← service (sv_reconcile sv tasks);
  _ ← set_artifact cfg run_id "reconciliation" (VDict reconciliation);
  record_event cfg run_id "evaluation_ready" "integration_artifact_recorded" reconciliation
    (project [("selected_action", "selected_action"); ("confidence", "confidence"); ("disagreement", "disagreement")]
       reconciliation)
    (Some "reconciliation") (Some "agent_mesh") (Some "recorded").

(** [_record_agent_tasks] *)
Definition record_agent_tasks (run_id : string) (trigger decision evaluation : dict) : CM unit :=
  report ← or_else (collect_agent_tasks run_id trigger decision evaluation) (λ e, mret (failed_tasks e));
  _ ← set_artifact cfg run_id "agent_tasks" (dicts (tr_tasks report));
  found ← get_session run_id;
  let stage := match found with Some session => stage_of session | None => "evaluation_ready" end in
  _ ← record_event cfg run_id stage "agent_task_recorded" (tr_payload report) (tr_summary report)
        (Some "agent_tasks") (Some "agent_mesh") (Some (tr_status report));
  _ ← (if String.eqb (tr_status report) "recorded" && se_agent_reconciliation_enabled cfg
       then record_reconciliation run_id (tr_tasks report) else mret ());
  store_step (λ t, materialize_vault (se_store cfg) run_id true (tk_mono t)).

(** [_record_agent_tasks_async], the program of the thread that
    [_maybe_record_agent_tasks] starts. *)
Definition record_agent_tasks_async (run_id : string) (trigger decision evaluation : dict) : CM unit :=
  finally (record_agent_tasks run_id trigger decision evaluation)
    (locked (λ w, ((), upd_threads (co_threads w) (co_agent_threads w ∖ {[run_id]}) w))).

(** [_maybe_record_agent_tasks]; the thread is one of the others. *)
Definition maybe_record_agent_tasks (run_id : string) (trigger decision evaluation : dict) : CM unit :=
  if String.eqb (se_agent_tasks_mode cfg) "off" then set_artifact cfg run_id "agent_tasks" (VList [])
  else if String.eqb (se_agent_tasks_mode cfg) "blocking" then record_agent_tasks run_id trigger decision evaluation
  else
    _ ← set_artifact cfg run_id "agent_tasks" (VDict [("status", VStr "pending")]);
    locked (λ w, ((), upd_threads (co_threads w) ({[run_id]} ∪ co_agent_threads w) w)).

(** ** Decision and evaluation *)

(** The root cause report of a decision, which it then refers to. *)
Definition record_rca (run_id : string) (trigger decision : dict) (p : profile sv) : CM dict :=
  found ← get_session run_id;
  let evidence_pack := dget_or "evidence_pack" (VDict []) (artifacts_of found) in
  rca ← service (sv_rca sv p trigger decision (as_dict evidence_pack));
  decision ← pure (with_rca rca decision);
  payload ← pure (to_dict RcaReport rca);
  _ ← set_artifact cfg run_id "rca_report" (VDict payload);
  _ ← record_event cfg run_id "decision_ready" "integration_artifact_recorded" payload
        (project [("likely_cause", "likely_cause"); ("confidence", "confidence");
                  ("recommended_next_step", "recommended_next_step")] rca)
        (Some "rca_report") (Some (signal_source sv p +:+ "_rca")) (Some "recorded");
  mret decision.

Definition record_hypotheses (run_id : string) (trigger decision : dict) : CM unit :=
  match ranked_hypotheses_from_decision decision with
  | [] => mret ()
  | top :: _ as ranked =>
      _ ← set_artifact cfg run_id "ranked_hypotheses" (dicts ranked);
      record_event cfg run_id "decision_ready" "hypothesis_ranked"
        [("trigger_id", dgetN "trigger_id" trigger); ("top_hypothesis", VDict top); ("ranked_hypotheses", dicts ranked)]
        [("top_hypothesis", dgetN "hypothesis_id" top); ("recommended_action", dgetN "recommended_action" top)]
        (Some "ranked_hypotheses") None (Some "recorded")
  end.

Definition record_decision (run_id : string) (decision : dict) : CM unit :=
  payload ← pure (to_dict Contracts.Decision decision);
  _ ← set_artifact cfg run_id "decision" (VDict payload);
  _ ← update_session cfg run_id [("stage", VStr "decision_ready"); ("status", VStr "running")];
  record_event cfg run_id "decision_ready" "decision_ready" payload
    (project [("decision_type", "decision_type"); ("autonomy_tier", "autonomy_tier")] decision)
    (Some "decision") None (Some "recorded").

(** The evaluation, which counts from the moment the service returns it. *)
Definition record_evaluation (q : queued_run) (trigger decision : dict) (again : bool) : CM dict :=
  let run_id := qr_run_id q in
  evaluation ← service (sv_evaluate sv trigger decision again);
  _ ← emit (Evaluated run_id decision evaluation);
  payload ← pure (to_dict EvaluationResult evaluation);
  _ ← set_artifact cfg run_id "evaluation" (VDict payload);
  _ ← update_session cfg run_id [("stage", VStr "evaluation_ready"); ("status", VStr "running")];
  let mode := qr_evaluation_mode q in
  _ ← record_event cfg run_id "evaluation_ready" "evaluation_ready" payload
        [("recommendation", dgetN "final_recommendation" evaluation); ("passed", dgetN "passed" evaluation)]
        (Some "evaluation") (if is_string "native" mode || is_none mode then None else Some (py_str mode))
        (Some (py_str (dgetN "final_recommendation" evaluation)));
  mret evaluation.

(** What follows an evaluation. *)
Definition record_follow_up (run_id : string) (trigger decision evaluation : dict) (again : bool) : CM unit :=
  let skipped payload summary status :=
    record_event cfg run_id "evaluation_ready" "integration_artifact_recorded" payload summary
      (Some "agent_tasks") (Some "agent_mesh") (Some status) in
  if again then
    skipped [("reason", VStr "operator_override_rereevaluation"); ("agent_tasks_reused", VBool true)]
      [("agent_tasks_reused", VBool true)] "reused"
  else
    chaos_probe ← is_chaos_probe_run run_id;
    if (chaos_probe : bool) then
      skipped [("reason", VStr "chaos_probe_fast_path"); ("skipped", strs ["agent_tasks"; "agent_reconciliation"])]
        [("status", VStr "skipped"); ("reason", VStr "chaos_probe_fast_path")] "skipped"
    else maybe_record_agent_tasks run_id trigger decision evaluation.

(** [_record_decision_and_evaluation]: the decision, which now refers to the
    report, and its evaluation. *)
Definition record_decision_and_evaluation (q : queued_run) (trigger decision : dict) (p : profile sv) (again : bool)
    : CM (dict * dict) :=
  let run_id := qr_run_id q in
  decision ← record_rca run_id trigger decision p;
  _ ← record_hypotheses run_id trigger decision;
  _ ← record_decision run_id decision;
  evaluation ← record_evaluation q trigger decision again;
  _ ← record_trajectory_artifacts run_id trigger decision evaluation None None;
  _ ← record_delivery_context run_id false;
  _ ← record_follow_up run_id trigger decision evaluation again;
  mret (decision, evaluation).

(** ** Overrides *)

(** [_record_override_for_learning] *)
Definition record_override_for_learning (run_id : string) (original overridden : dict) : CM unit :=
  if negb (se_rule_learning_enabled cfg) then mret ()
  else
    found ← get_session run_id;
    match found with
    | None => mret ()
    | Some session =>
        raw ← pure (artifact session "input_signal");
        signal ← pure (need_dict (py_or raw (VDict [])));
        if is_string "otel_metric_regression" (dgetN "signal_type" signal)
        then or_else (service (sv_record_override sv signal original overridden)) (λ _, mret ())
        else mret ()
    end.

(** ** Recovery *)

(** [_collect_recovery_evidence] *)
Definition collect_recovery_evidence (run_id : string) (trigger decision evaluation session : dict) : CM dict :=
  facts ← service (sv_active_facts sv trigger);
  key ← pure (incident_key trigger decision);
  similar ← service (sv_similar_incidents sv key);
  sessions ← store_step (λ _, list_run_sessions 25);
  related ← pure (related_runs 5 run_id (dgetN "service" trigger) required_service sessions);
  failing ← pure (failing_scorers evaluation);
  learning_context ← service (sv_learning_context sv trigger);
  service_context ← service (sv_service_context sv trigger);
  pure (recovery_evidence session facts similar related failing (VDict service_context) learning_context).

(** The attempts are used up. *)
Definition record_exhausted (run_id : string) (evaluation blockers existing : dict) (retry_index retry_budget : Z) : CM unit :=
  reasons ← pure (items_of (dgetN "blocking_reasons" evaluation));
  recoverable ← pure (items_of (dget_or "recoverable_blockers" (VList []) blockers));
  hints ← pure (items_of (dget_or "retry_hints" (VList []) blockers));
  now ← step (λ t w, (Ok (tk_now t), w));
  let exhausted :=
    [("status", VStr "budget_exhausted"); ("parent_run_id", VStr run_id);
     ("root_run_id", py_or (dgetN "root_run_id" existing) (VStr run_id)); ("retry_index", VInt retry_index);
     ("retry_budget", VInt retry_budget); ("blocking_reasons", reasons); ("recoverable_blockers", recoverable);
     ("retry_hints", hints); ("recorded_at", VStr now)] in
  _ ← set_artifact cfg run_id "recovery" (VDict exhausted);
  record_event cfg run_id "evaluation_ready" "integration_artifact_recorded" exhausted
    [("status", VStr "budget_exhausted")] (Some "recovery") (Some "mesh") (Some "budget_exhausted").

(** The child run and the end of its parent. *)
Definition launch_recovery (run_id : string) (session : dict) (scenario_key : value) (signal_payload trigger decision evaluation blockers : dict)
    (retry_index retry_budget : Z) (existing : dict) : CM unit :=
  evidence ← collect_recovery_evidence (py_str (dgetN "run_id" session)) trigger decision evaluation session;
  request ← pure (build_recovery_child_payload session scenario_key signal_payload decision evaluation blockers
                    retry_index retry_budget existing evidence);
  child ← create_run cfg sv request.1;
  child_run_id ← pure (ditem "run_id" child);
  now ← step (λ t w, (Ok (tk_now t), w));
  let recovery := dset "launched_at" (VStr now)
                    (dset "child_run_id" child_run_id (dset "status" (VStr "launched") request.2)) in
  _ ← set_artifact cfg run_id "recovery" (VDict recovery);
  _ ← record_event cfg run_id "evaluation_ready" "integration_artifact_recorded" recovery
        [("status", VStr "launched"); ("child_run_id", child_run_id)] (Some "recovery") (Some "mesh") (Some "launched");
  _ ← update_session cfg run_id [("stage", VStr "recovery_spawned"); ("status", VStr "recovery_spawned");
                                 ("pending_pause_stage", VNone)];
  record_benchmark_if_simulation cfg sv run_id.

(** [_maybe_launch_recovery_run] *)
Definition maybe_launch_recovery_run (run_id : string) (scenario_key : value) (signal_payload trigger decision evaluation : dict) : CM bool :=
  control ← get_control run_id;
  if negb (match control with Some c => ct_auto_mode c | None => false end) then mret false
  else
    found ← pure (remediable_blockers evaluation);
    match found with
    | None => mret false
    | Some blockers =>
        found ← get_session run_id;
        match found with
        | None => mret false
        | Some session =>
            existing ← pure (existing_recovery_context session trigger);
            retry_index ← pure (int_or "retry_index" 0 existing);
            retry_budget ← pure (int_or "retry_budget" (se_max_transient_retries cfg) existing);
            if retry_budget <=? retry_index then
              _ ← record_exhausted run_id evaluation blockers existing retry_index retry_budget; mret false
            else
              _ ← launch_recovery run_id session scenario_key signal_payload trigger decision evaluation blockers
                    retry_index retry_budget existing;
              mret true
        end
    end.

(** ** Deferral *)

(** [_record_deferred_recheck] *)
Definition record_deferred_recheck (run_id : string) (signal_payload decision : dict) : CM dict :=
  plan ← pure (need_dict (dgetN "execution_plan" decision));
  parameters ← pure (py_dict (dget_or "parameters" (VDict []) plan));
  defer_seconds ← pure (int_or "defer_seconds" 300 parameters);
  due_at ← service (sv_due_at sv (Z.max defer_seconds 0));
  record ← deferred_step (λ t f, deferred_create DEFERRED_PATH f (tk_hex t) run_id due_at signal_payload parameters (tk_now t));
  _ ← set_artifact cfg run_id "deferred_recheck" (VDict record);
  _ ← record_event cfg run_id "decision_ready" "deferred_recheck_scheduled" record
        [("due_at", VStr due_at); ("condition", dgetN "condition" parameters)]
        (Some "deferred_recheck") None (Some "scheduled");
  mret record.
End decision.
