(* ===== verification/ApprovalQueue.v ===== *)
(** * The queue of runs that wait for an approval

    [src/shared/mesh_runtime/approval_queue.py]: the packet that lists the runs
    that wait for an operator, why an approval would be blocked and which
    commands an operator may send.  An event is what its [to_dict] gives, or
    any other value. *)

From S2P Require Import Prelude PyFloat PyValue Json PyNumbers Models SchemaValidation Schemas PacketFacts Paths RegistryFile Merkle OperatorReviews RunDecision.
#[local] Open Scope Z_scope.

Definition APPROVAL_QUEUE_VERSION : string := "mesh.approval_queue.v1".
Definition APPROVAL_READY_RECOMMENDATIONS : list string := ["execute"; "approve"].
Definition APPROVAL_BLOCKED : string := "approval_blocked".

(** [_string_or_none] *)
Definition string_or_none (v : value) : option string :=
  match v with
  | VNone => None
  | _ => let text := str_strip (py_str v) in if String.eqb text "" then None else Some text
  end.

(** [\[str(item) for item in l if str(item).strip()\]] *)
Definition texts (l : list value) : list string :=
  List.filter (λ s, negb (String.eqb (str_strip s) "")) (map py_str l).

(** [list(dict.fromkeys(l))] *)
Definition from_keys (l : list string) : list string :=
  fold_left (λ seen s, if mem_str s seen then seen else seen ++ [s]) l [].

(** [_latest_approval_blocked_event] *)
Definition latest_approval_blocked_event (events : list value) : option dict :=
  List.find (λ record, is_string APPROVAL_BLOCKED (dgetN "event_type" record)) (omap as_dict (rev events)).

Definition event_payload (blocked_event : option dict) : dict :=
  match blocked_event with Some e => dict_or_empty (dgetN "payload" e) | None => [] end.

(** [_blockers] *)
Definition queue_blockers (blocked_event : option dict) (evaluation : dict) : list string :=
  match py_or (py_or (dgetN "blocking_reasons" (event_payload blocked_event)) (dgetN "blocking_reasons" evaluation)) (VList []) with
  | VList l => texts l
  | v => texts [v]
  end.

(** [_final_recommendation] *)
Definition queue_recommendation (blocked_event : option dict) (evaluation : dict) : option string :=
  string_or_none (py_or (dgetN "final_recommendation" (event_payload blocked_event)) (dgetN "final_recommendation" evaluation)).

(** [_evaluation_blocks_approval] *)
Definition evaluation_blocks_approval (evaluation : dict) (final_recommendation : option string) : bool :=
  match evaluation with
  | [] => false
  | _ =>
      match dgetN "passed" evaluation with
      | VBool false => true
      | _ => match final_recommendation with
             | Some r => negb (mem_str r APPROVAL_READY_RECOMMENDATIONS)
             | None => false
             end
      end
  end.

(** [_approver_roles] *)
Definition queue_approver_roles (ownership : dict) : list string :=
  match dgetN "approver_roles" ownership with
  | VList l => match texts l with [] => ["approver"; "admin"] | roles => roles end
  | _ => ["approver"; "admin"]
  end.

(** [_allowed_commands] *)
Definition queue_commands (blocked : bool) : list string :=
  if blocked then ["explain_blockers"; "override_decision"; "cancel"; "handoff"] else ["approve"; "resume"; "cancel"; "handoff"].

(** The references of one record. *)
Definition record_refs (record : dict) : list string :=
  match py_or (py_or (dgetN "evidence_refs" record) (dgetN "required_evidence_refs" record)) (VList []) with
  | VList l => texts l
  | _ => []
  end.

(** [_evidence_refs] *)
Definition queue_evidence_refs (session : RunSession) (decision evaluation : dict) (blocked_event : option dict) : list string :=
  from_keys
    (["run://" +:+ rs_run_id session]
     ++ match rs_latest_event_id session with
        | Some id => if String.eqb id "" then [] else ["event://" +:+ id]
        | None => []
        end
     ++ match blocked_event with
        | Some e => if truthy (dgetN "event_id" e) then ["event://" +:+ py_str (dgetN "event_id" e)] else []
        | None => []
        end
     ++ record_refs decision ++ record_refs evaluation).

(** Does the run wait for an operator? *)
Definition awaiting_operator (session : RunSession) : bool :=
  String.eqb (rs_stage session) "awaiting_operator" || String.eqb (rs_status session) "awaiting_operator".

(** Would an approval be blocked? *)
Definition approval_is_blocked (session : RunSession) (events : list value) : bool :=
  let evaluation := dict_or_empty (dgetN "evaluation" (rs_artifacts session)) in
  let blocked_event := latest_approval_blocked_event events in
  (match blocked_event with Some (_ :: _) => true | _ => false end)
  || evaluation_blocks_approval evaluation (queue_recommendation blocked_event evaluation).

(** [_approval_queue_item] of a run that waits *)
Definition queue_item (session : RunSession) (events : list value) (environment : string) : dict :=
  let artifacts := rs_artifacts session in
  let decision := dict_or_empty (dgetN "decision" artifacts) in
  let evaluation := dict_or_empty (dgetN "evaluation" artifacts) in
  let ownership := dict_or_empty (dgetN "ownership_boundary" artifacts) in
  let input_signal := dict_or_empty (dgetN "input_signal" artifacts) in
  let blocked_event := latest_approval_blocked_event events in
  let blocked := approval_is_blocked session events in
  [("queue_id", VStr ("approval://" +:+ rs_run_id session));
   ("run_id", VStr (rs_run_id session));
   ("created_at", VStr (rs_created_at session));
   ("updated_at", VStr (rs_updated_at session));
   ("scenario_key", opt_str (rs_scenario_key session));
   ("service", opt_str (string_or_none (py_or (dgetN "service" input_signal) (dgetN "service" ownership))));
   ("namespace", opt_str (string_or_none (py_or (dgetN "namespace" input_signal) (dgetN "namespace" ownership))));
   ("environment", VStr (default environment (string_or_none (dgetN "environment" input_signal))));
   ("stage", VStr (rs_stage session));
   ("pending_pause_stage", opt_str (rs_pending_pause_stage session));
   ("steering_mode", VStr (rs_steering_mode session));
   ("decision_type", opt_str (string_or_none (dgetN "decision_type" decision)));
   ("risk_level", opt_str (string_or_none (dgetN "risk_level" decision)));
   ("final_recommendation", opt_str (queue_recommendation blocked_event evaluation));
   ("approval_state", VStr (if blocked then "blocked" else "pending"));
   ("blockers", strs (queue_blockers blocked_event evaluation));
   ("requested_by", opt_dict (as_dict (dgetN "operator" artifacts)));
   ("owner", opt_dict (as_dict (dgetN "owner" ownership)));
   ("approver_roles", strs (queue_approver_roles ownership));
   ("allowed_commands", strs (queue_commands blocked));
   ("evidence_refs", strs (queue_evidence_refs session decision evaluation blocked_event));
   ("latest_event_id", opt_str (rs_latest_event_id session))].

(** Is the item of a blocked approval? *)
Definition blocked_item (item : dict) : bool := is_string "blocked" (dgetN "approval_state" item).

(** The status of the packet. *)
Definition queue_status (blocked_count : nat) (items : list dict) : string :=
  if Nat.eqb blocked_count 0 then (match items with [] => "empty" | _ => "ready" end) else "blocked".

(** [build_approval_queue_packet] *)
Definition build_approval_queue_packet (sessions : list RunSession) (events_by_run : string → list value)
    (environment generated_at : string) : res dict :=
  let items := map (λ s, queue_item s (events_by_run (rs_run_id s)) environment) (List.filter awaiting_operator sessions) in
  let blocked_count := length (List.filter blocked_item items) in
  let payload :=
    [("schema_version", VStr APPROVAL_QUEUE_VERSION); ("generated_at", VStr generated_at);
     ("status", VStr (queue_status blocked_count items));
     ("pending_count", VInt (Z.of_nat (length items)));
     ("blocked_count", VInt (Z.of_nat blocked_count));
     ("source_refs", strs ["state_store://run_sessions"; "state_store://run_events"]);
     ("items", VList (map VDict items))] in
  _ ← validate_named "approval-queue.schema.json" payload;
  Ok payload.

(** ** The packet *)

Lemma conforms_opt_dict o : conforms (opt_dict o) (VDict [("type", VList [VStr "object"; VStr "null"])]).
Proof.
  destruct o as [o|]; [|conform_step]. apply conforms_inv. split; [by apply enum_ok_none|].
  split; [by eapply type_ok_intro|]. intros _. split; [constructor|]. by split.
Qed.

Lemma state_in (b : bool) : mem_str (if b then "blocked" else "pending") ["pending"; "blocked"] = true.
Proof. by destruct b. Qed.

Lemma queue_item_conforms session events environment p :
  dget "items" (dict_or_empty (dgetN "items" (schema_fields (dict_or_empty approval_queue_schema)))) = Some p →
  conforms (VDict (queue_item session events environment)) p.
Proof.
  intros [= <-]. unfold queue_item. pose proof (state_in (approval_is_blocked session events)) as Hs.
  conform_step; first [apply conforms_opt_dict | conform_packet].
Qed.

Lemma queue_status_in (n : nat) (l : list dict) : mem_str (queue_status n l) ["empty"; "ready"; "blocked"] = true.
Proof. destruct n, l; done. Qed.

Lemma queue_item_state session events environment :
  is_string "blocked" (dgetN "approval_state" (queue_item session events environment)) = approval_is_blocked session events.
Proof. change (is_string "blocked" (VStr (if approval_is_blocked session events then "blocked" else "pending")) = approval_is_blocked session events).
  by destruct (approval_is_blocked _ _). Qed.

(** A valid evaluation blocks what does not pass. *)
Lemma valid_evaluation_blocks evaluation :
  validate_named "evaluation-result.schema.json" evaluation = Ok () →
  evaluation_blocks_approval evaluation (queue_recommendation None evaluation) = negb (passes evaluation).
Proof.
  intros H. apply (validate_named_conforms _ evaluation_result_schema) in H; [|reflexivity..].
  unfold evaluation_result_schema in H.
  member H "passed" vp Ep Hp. member H "final_recommendation" vr Er Hr.
  destruct (conforms_bool _ _ Hp eq_refl) as [p ->]. destruct (conforms_str _ _ Hr eq_refl) as [r ->].
  apply conforms_inv in Hr as (Hr & _). specialize (Hr eq_refl).
  apply dgetN_Some in Ep, Er. unfold passes, queue_recommendation, evaluation_blocks_approval, py_or.
  rewrite Ep, Er. destruct evaluation as [|kv e]; [done|].
  destruct p; [|done].
  assert (r ∈ ["execute"; "human_review"; "reject"]) as Hin by (apply mem_str_elem; exact Hr).
  repeat (apply elem_of_cons in Hin as [->|Hin]; [done|]). by apply not_elem_of_nil in Hin.
Qed.

(** What one item says of its run. *)
Definition item_of (session : RunSession) (events : list value) (item : dict) : Prop :=
  dgetN "run_id" item = VStr (rs_run_id session)
  ∧ dgetN "approval_state" item = VStr (if approval_is_blocked session events then "blocked" else "pending")
  ∧ dgetN "allowed_commands" item = strs (queue_commands (approval_is_blocked session events))
  ∧ (∀ evaluation,
       dgetN "evaluation" (rs_artifacts session) = VDict evaluation →
       validate_named "evaluation-result.schema.json" evaluation = Ok () →
       mem_str "approve" (queue_commands (approval_is_blocked session events))
       = passes evaluation && match latest_approval_blocked_event events with Some _ => false | None => true end).

Lemma latest_blocked_nonempty events e : latest_approval_blocked_event events = Some e → ∃ kv e', e = kv :: e'.
Proof. intros [_ H]%find_some. destruct e; [done|eauto]. Qed.

Lemma offers_approve blocked : mem_str "approve" (queue_commands blocked) = negb blocked.
Proof. by destruct blocked. Qed.

Lemma queue_item_of session events environment : item_of session events (queue_item session events environment).
Proof.
  split; [done|]. split; [done|]. split; [done|]. intros evaluation He Hv.
  rewrite offers_approve. unfold approval_is_blocked. rewrite He. cbn [dict_or_empty as_dict default from_option id].
  destruct (latest_approval_blocked_event events) as [e|] eqn:E.
  - apply latest_blocked_nonempty in E as (kv & e' & ->). by rewrite andb_false_r.
  - rewrite valid_evaluation_blocks by done. by rewrite orb_false_l, negb_involutive, andb_true_r.
Qed.

Lemma blocked_count_zero (events_by_run : string → list value) environment waiting :
  Nat.eqb (length (List.filter blocked_item (map (λ s, queue_item s (events_by_run (rs_run_id s)) environment) waiting))) 0
  = negb (existsb (λ s, approval_is_blocked s (events_by_run (rs_run_id s))) waiting).
Proof.
  induction waiting as [|s l IH]; [done|].
  cbn [map List.filter existsb]. unfold blocked_item at 1. rewrite queue_item_state.
  by destruct (approval_is_blocked s _).
Qed.

Lemma queue_status_spec (events_by_run : string → list value) environment waiting :
  let items := map (λ s, queue_item s (events_by_run (rs_run_id s)) environment) waiting in
  let status := queue_status (length (List.filter blocked_item items)) items in
  (status = "blocked"
   ↔ ∃ session, session ∈ waiting ∧ approval_is_blocked session (events_by_run (rs_run_id session)) = true)
  ∧ (status = "empty" ↔ waiting = []).
Proof.
  intros items status. unfold status, queue_status, items. rewrite blocked_count_zero.
  setoid_rewrite list_elem_of_In. rewrite <- existsb_exists. destruct (existsb _ _) eqn:E; cbn [negb].
  - split; [done|]. split; [done|]. intros ->. done.
  - by destruct waiting.
Qed.

(** C32 - The packet of the approval queue is always built: its items are the
    runs that wait for an operator, in their order, each with its blocked or
    pending state and the commands it takes; the packet is blocked exactly when
    one of them is.  A run whose latest evaluation is a valid one is offered an
    approval exactly when that evaluation passes, as the run demands of an
    approval it accepts, and no approval of it has been blocked yet. *)
Theorem approval_queue_decides sessions events_by_run environment generated_at :
  let waiting := List.filter awaiting_operator sessions in
  ∃ packet items,
    build_approval_queue_packet sessions events_by_run environment generated_at = Ok packet
    ∧ dgetN "items" packet = VList (map VDict items)
    ∧ Forall2 (λ session item, item_of session (events_by_run (rs_run_id session)) item) waiting items
    ∧ dgetN "pending_count" packet = VInt (Z.of_nat (length waiting))
    ∧ (dgetN "status" packet = VStr "blocked"
       ↔ ∃ session, session ∈ waiting ∧ approval_is_blocked session (events_by_run (rs_run_id session)) = true)
    ∧ (dgetN "status" packet = VStr "empty" ↔ waiting = []).
Proof.
  intros waiting. unfold build_approval_queue_packet. fold waiting.
  destruct (queue_status_spec events_by_run environment waiting) as [Hb He].
  set (items := map _ waiting) in *. set (n := length (List.filter _ items)) in *.
  rewrite (validate_named_ok _ approval_queue_schema); [|done|done|].
  - cbn [mbind res_bind]. eexists _, items. split; [done|]. split; [done|].
    split; [|split; [|split]].
    + unfold items. clear. induction waiting; cbn; constructor; [apply queue_item_of|done].
    + unfold items. by rewrite length_map.
    + rewrite <- Hb. split; [by intros [= ->]|by intros <-].
    + rewrite <- He. split; [by intros [= ->]|by intros <-].
  - clear Hb He. unfold approval_queue_schema. pose proof (queue_status_in n items) as Hs. conform_step; try conform_packet.
    apply Forall_forall. intros x (y & -> & (s & -> & _)%list_elem_of_fmap)%list_elem_of_fmap.
    by apply queue_item_conforms.
Qed.
