(* ===== verification/RunExecution.v ===== *)
(** * The execution of a run

    [_wait_if_needed], [_execute_run] and the worker loop of
    [src/services/control_plane.py]: what a worker does with a run of the
    queue, from the signal to the feedback, the commands it waits for on the
    way, and what it leaves behind.  The body of [_execute_run] is cut into its
    phases. *)

From S2P Require Import Prelude PyFloat PyValue Json PyNumbers Models Contracts StateStore RunMachine Steering.
From S2P Require Import Coordinator CreateRun RunEvidence RunDecision.
From stdpp Require Import gmap.
#[local] Open Scope Z_scope.

(** ** Waiting for operators *)

(** What [_wait_if_needed] tells its caller to do. *)
Inductive wait_result :=
  | Continue
  | Cancel
  | Override (payload : dict).

(** The control object of a run. *)
Definition control_of (run_id : string) (w : coordinator) : run_control :=
  default (new_control false []) (co_controls w !! run_id).

Definition change_control (run_id : string) (f : run_control → run_control) (w : coordinator) : coordinator :=
  upd_controls (<[run_id := f (control_of run_id w)]> (co_controls w)) (co_tracked w) w.

Definition read_control (run_id : string) : CM run_control := locked (λ w, (control_of run_id w, w)).

Definition set_auto_mode (run_id : string) (enabled : bool) : CM unit :=
  locked (λ w, ((), change_control run_id (λ c, RunControl (ct_commands c) enabled (ct_pause_points c)) w)).

(** [control.pause_points.add(stage)], and the set after it. *)
Definition add_pause_point (run_id stage : string) : CM (list string) :=
  locked (λ w, let c := control_of run_id w in
    let points := if mem_str stage (ct_pause_points c) then ct_pause_points c else ct_pause_points c ++ [stage] in
    (points, change_control run_id (λ c, RunControl (ct_commands c) (ct_auto_mode c) points) w)).

(** [control.commands.popleft()] of a queue that is not empty. *)
Definition take_command (run_id stage : string) : CM (option SteeringCommand) :=
  next ← locked (λ w, let c := control_of run_id w in
    match ct_commands c with
    | command :: rest =>
        (Some command, change_control run_id (λ c, RunControl rest (ct_auto_mode c) (ct_pause_points c)) w)
    | [] => (None, w)
    end);
  match next with
  | Some command => _ ← emit (Took run_id stage command); mret (Some command)
  | None => mret None
  end.

(** [evaluation and evaluation.passed and ...] *)
Definition passing (evaluation : option dict) : bool :=
  match evaluation with Some e => passes e | None => false end.

Section execution.
Context (cfg : settings) (sv : services).

(** The run goes on from where it waited. *)
Definition resume_run (run_id stage : string) : CM wait_result :=
  _ ← update_session cfg run_id [("stage", VStr stage); ("status", VStr "running"); ("pending_pause_stage", VNone)];
  mret Continue.

(** No command: the state of the run and its mode decide. *)
Definition wait_idle (run_id stage : string) (evaluation : option dict) : CM (() + wait_result) :=
  current ← get_session run_id;
  stopped ← pure (match current with
                  | Some session => in_str_set (dgetN "status" session) ["cancelled"; "failed"]
                  | None => Ok false
                  end);
  if (stopped : bool) then mret (inr Cancel)
  else
    control ← read_control run_id;
    if String.eqb stage "evaluation_ready" && ct_auto_mode control && passing evaluation
    then out ← resume_run run_id stage; mret (inr out)
    else mret (inl ()).

(** [pause_after_stage] *)
Definition on_pause (run_id : string) (payload : dict) : CM unit :=
  let pause_stage := dgetN "stage" payload in
  pauseable ← pure (in_str_set pause_stage PAUSEABLE_STAGES);
  if (pauseable : bool) then
    points ← add_pause_point run_id (py_str pause_stage);
    update_session cfg run_id [("pause_points", strs (sort_strings points))]
  else mret ().

(** [resume] and [approve] of a run that may not go on. *)
Definition block_approval (run_id : string) (evaluation : option dict) : CM unit :=
  reasons ← match evaluation with
            | Some e => pure (items_of (dgetN "blocking_reasons" e))
            | None => mret (VList [])
            end;
  let recommendation := match evaluation with Some e => dgetN "final_recommendation" e | None => VNone end in
  record_event cfg run_id "awaiting_operator" "approval_blocked"
    [("reason", VStr "evaluation did not pass"); ("final_recommendation", recommendation); ("blocking_reasons", reasons)]
    [("status", VStr "blocked");
     ("recommendation", match evaluation with Some _ => recommendation | None => VStr "unknown" end)]
    None None (Some "blocked").

(** What a command does to a run that waits. *)
Definition on_command (run_id stage : string) (evaluation : option dict) (command : SteeringCommand) : CM (() + wait_result) :=
  let type := cmd_command_type command in
  let payload := cmd_payload command in
  if String.eqb type "attach_note" then mret (inl ())
  else if String.eqb type "pause_after_stage" then _ ← on_pause run_id payload; mret (inl ())
  else if String.eqb type "set_auto_mode" then
    let enabled := truthy (dget_or "enabled" (VBool true) payload) in
    _ ← set_auto_mode run_id enabled;
    _ ← update_session cfg run_id [("auto_mode", VBool enabled)];
    if String.eqb stage "evaluation_ready" && enabled && passing evaluation
    then out ← resume_run run_id stage; mret (inr out)
    else mret (inl ())
  else if String.eqb type "cancel" then mret (inr Cancel)
  else if mem_str type ["resume"; "approve"] then
    if String.eqb stage "evaluation_ready" && negb (passing evaluation)
    then _ ← block_approval run_id evaluation; mret (inl ())
    else out ← resume_run run_id stage; mret (inr out)
  else if mem_str type STEERING_DECISION_COMMANDS then
    _ ← update_session cfg run_id [("stage", VStr "awaiting_operator"); ("status", VStr "awaiting_operator")];
    mret (inr (Override (dupdate [("type", VStr type)] payload)))
  else mret (inl ()).

(** One turn of the loop; waiting for half a second is one step of the
    others. *)
Definition wait_turn (run_id stage : string) (evaluation : option dict) (_ : ()) : CM (() + wait_result) :=
  next ← take_command run_id stage;
  match next with
  | Some command => on_command run_id stage evaluation command
  | None => wait_idle run_id stage evaluation
  end.

(** [_wait_if_needed] *)
Definition wait_if_needed (run_id stage : string) (evaluation : option dict) : CM wait_result :=
  found ← get_session run_id;
  control ← get_control run_id;
  match found, control with
  | Some _, Some _ =>
      c ← read_control run_id;
      let requires_pause := mem_str stage (ct_pause_points c)
                            || (String.eqb stage "evaluation_ready" && negb (ct_auto_mode c)) in
      c ← read_control run_id;
      let can_auto_continue :=
        (String.eqb stage "evaluation_ready" && ct_auto_mode c && passing evaluation
         && negb (mem_str stage (ct_pause_points c)))
        || (String.eqb stage "feedback_ready" && negb (mem_str stage (ct_pause_points c))) in
      if negb requires_pause && can_auto_continue then mret Continue
      else if negb requires_pause && negb (mem_str stage ["evaluation_ready"; "feedback_ready"]) then mret Continue
      else
        _ ← update_session cfg run_id [("stage", VStr "awaiting_operator"); ("status", VStr "awaiting_operator");
                                       ("pending_pause_stage", VStr stage)];
        _ ← record_benchmark_if_simulation cfg sv run_id;
        loop (wait_turn run_id stage evaluation) ()
  | _, _ => mret Cancel
  end.

(** ** From the signal to the trigger *)

Definition run_status (run_id stage status : string) : CM unit :=
  update_session cfg run_id [("stage", VStr stage); ("status", VStr status); ("pending_pause_stage", VNone)].

(** [_execute_run] up to the normalised event: the signal and the event. *)
Definition ingest_run (q : queued_run) (session : dict) : CM (dict * dict) :=
  let run_id := qr_run_id q in
  readiness ← service (sv_readiness sv (qr_evaluation_mode q) (qr_orchestration_mode q));
  _ ← set_artifact cfg run_id "integration_readiness" (VDict readiness);
  _ ← record_event cfg run_id "queued" "run_queued"
        (("scenario_key", qr_scenario_key q)
         :: project [("goal_id", "goal_id"); ("steering_mode", "steering_mode"); ("pause_points", "pause_points")] session)
        [("status", VStr "queued")] None None (Some "queued");
  _ ← record_readiness cfg run_id readiness;
  _ ← update_session cfg run_id [("stage", VStr "ingesting"); ("status", VStr "running")];
  let deferred := dict_or_empty (dgetN "__deferred_live_signal" (qr_signal q)) in
  signal ← (if is_string "kubernetes" (dgetN "source" deferred)
            then collected ← collect_live_kubernetes_signal sv deferred [];
                 _ ← set_artifact cfg run_id "input_signal" (VDict collected.1);
                 mret collected.1
            else mret (qr_signal q));
  normalized ← service (sv_normalize sv signal);
  _ ← set_artifact cfg run_id "normalized_event" (VDict normalized);
  _ ← append_event cfg run_id "ingesting" "normalized_event" normalized (as_dict (dgetN "summary" normalized))
        (Some "normalized_event") None (Some "recorded");
  mret (signal, normalized).

Definition end_without_trigger (run_id : string) : CM unit :=
  _ ← record_event cfg run_id "no_trigger" "no_trigger"
        [("reason", VStr "signal did not satisfy trigger thresholds")] [("status", VStr "completed")]
        None None (Some "completed");
  _ ← run_status run_id "no_trigger" "completed";
  record_benchmark_if_simulation cfg sv run_id.

(** [normalized_event.payload], or the signal *)
Definition canonical_signal (signal normalized : dict) : dict :=
  match dgetN "payload" normalized with VDict d => d | _ => signal end.

Definition record_trigger (run_id : string) (trigger : dict) : CM unit :=
  payload ← pure (to_dict Trigger trigger);
  _ ← set_artifact cfg run_id "trigger" (VDict payload);
  _ ← update_session cfg run_id [("stage", VStr "trigger_ready"); ("status", VStr "running")];
  record_event cfg run_id "trigger_ready" "trigger_ready" payload
    (project [("trigger_type", "trigger_type")] trigger) (Some "trigger") None (Some "recorded").

(** An operator cancelled the run. *)
Definition cancel_run (run_id : string) : CM unit :=
  _ ← record_event cfg run_id "cancelled" "run_cancelled" [("reason", VStr "operator_cancelled")]
        [("status", VStr "cancelled")] None None (Some "cancelled");
  run_status run_id "cancelled" "cancelled".

(** A gate where overrides come too early or too late: [true] to go on. *)
Definition gate_turn (run_id stage reason detail : string) (evaluation : option dict) (_ : ()) : CM (() + bool) :=
  outcome ← wait_if_needed run_id stage evaluation;
  match outcome with
  | Continue => mret (inr true)
  | Cancel => _ ← cancel_run run_id; mret (inr false)
  | Override _ =>
      _ ← record_event cfg run_id stage "steering_rejected" [("reason", VStr reason); ("detail", VStr detail)]
            [("status", VStr "rejected")] None None (Some "rejected");
      mret (inl ())
  end.

Definition trigger_gate (run_id : string) : CM bool :=
  loop (gate_turn run_id "trigger_ready" "override_before_decision"
          "Decision overrides are not valid before evaluation_ready; command drained from queue." None) ().

(** ** Evidence and advice *)

(** The evidence pack, unless the run is a probe or the stage fails. *)
Definition evidence_phase (run_id : string) (signal canonical trigger : dict) (p : profile sv) (chaos_probe : bool) : CM (option dict) :=
  if chaos_probe then
    _ ← update_session cfg run_id [("stage", VStr "evidence_pack_ready"); ("status", VStr "running")];
    _ ← record_event cfg run_id "evidence_pack_ready" "evidence_pack_ready"
          [("source", VStr "chaos_probe_fast_path"); ("trigger_id", dgetN "trigger_id" trigger);
           ("signal_type", dgetN "signal_type" signal)]
          [("status", VStr "skipped"); ("reason", VStr "chaos_probe_fast_path")] (Some "evidence_pack") None (Some "skipped");
    mret None
  else
    plan ← record_investigation_plan cfg sv run_id trigger canonical p;
    or_else
      (plan ← pure (to_dict InvestigationPlan plan);
       pack ← record_evidence_pack cfg sv run_id trigger canonical (Some plan);
       mret (Some pack))
      (λ e, _ ← record_event cfg run_id "evidence_pack_ready" "evidence_pack_ready"
                  [("error", VStr (exc_str e)); ("fallback", VStr "inline_signal")]
                  [("status", VStr "failed")] (Some "evidence_pack") None (Some "failed");
            mret None).

(** What the run knows when it decides: the packet of earlier cases, the
    report of the investigation and the scenario analysis. *)
Record advice := Advice {
  ad_packet : value;
  ad_report : option dict;
  ad_scenario : option dict }.

(** [x.to_dict() if x is not None else None] *)
Definition opt_to_dict (f : dict → res dict) (x : option dict) : res (option dict) :=
  match x with Some x => d ← f x; Ok (Some d) | None => Ok None end.

Definition investigation_phase (run_id : string) (trigger : dict) (pack : option dict) (h : harness sv) : CM dict :=
  or_else
    (pack ← pure (opt_to_dict pack_to_dict pack);
     record_investigation_report cfg sv run_id trigger pack h)
    (λ e,
     report ← service (sv_failure_report sv trigger (exc_str e));
     payload ← pure (to_dict InvestigationReport report);
     _ ← set_artifact cfg run_id "investigation_report" (VDict payload);
     _ ← record_event cfg run_id "investigation_ready" "investigation_ready" payload
           [("status", VStr "failed"); ("stop_reason", dgetN "stop_reason" report)]
           (Some "investigation_report") None (Some "failed");
     mret report).

Definition scenario_phase (run_id : string) (trigger : dict) (packet : value) (report : dict) : CM (option dict) :=
  or_else
    (report ← pure (to_dict InvestigationReport report);
     analysis ← record_scenario_analysis cfg sv run_id trigger packet (Some report);
     mret (Some analysis))
    (λ e, _ ← record_event cfg run_id "scenario_analysis_ready" "scenario_analysis_ready"
                [("error", VStr (exc_str e)); ("fallback", VStr "existing_decision_service")]
                [("status", VStr "failed")] (Some "scenario_analysis") None (Some "failed");
          mret None).

Definition advice_phase (run_id : string) (signal trigger : dict) (pack : option dict) (chaos_probe : bool) : CM advice :=
  if chaos_probe then
    _ ← record_event cfg run_id "evidence_pack_ready" "integration_artifact_recorded"
          [("reason", VStr "chaos_probe_fast_path");
           ("skipped", strs ["reasoning_bank"; "investigation"; "scenario_analysis"])]
          [("status", VStr "skipped"); ("reason", VStr "chaos_probe_fast_path")]
          (Some "chaos_probe_fast_path") None (Some "skipped");
    mret (Advice VNone None None)
  else
    h ← service (sv_harness sv signal trigger);
    pack_dict ← pure (opt_to_dict pack_to_dict pack);
    artifact ← record_reasoning_bank_retrieval cfg sv run_id trigger pack_dict;
    let packet := if truthy (dgetN "enabled" artifact) then dgetN "packet" artifact else VNone in
    let packet := match packet with VDict d => VDict d | _ => VNone end in
    report ← investigation_phase run_id trigger pack h;
    scenario ← scenario_phase run_id trigger packet report;
    mret (Advice packet (Some report) scenario).

(** ** Decision *)

Definition decision_phase (q : queued_run) (trigger : dict) (pack : option dict) (a : advice) (p : profile sv) : CM (dict * dict) :=
  let run_id := qr_run_id q in
  payload ← pure (to_dict Trigger trigger);
  service_agent ← service (sv_route sv payload);
  _ ← set_artifact cfg run_id "service_agent" (VDict service_agent);
  agent_service ← pure (py_get (dget_or "agent" (VDict []) service_agent) "service");
  _ ← record_event cfg run_id "trigger_ready" "integration_artifact_recorded" service_agent
        [("service", agent_service); ("matched", dgetN "matched" service_agent)]
        (Some "service_agent") (Some "service_agents") (Some "recorded");
  pack ← pure (opt_to_dict pack_to_dict pack);
  report ← pure (opt_to_dict (to_dict InvestigationReport) (ad_report a));
  decision ← service (sv_decide sv trigger (ad_scenario a) pack (ad_packet a) report);
  record_decision_and_evaluation cfg sv q trigger decision p false.

(** The run ends with a recheck in the future. *)
Definition end_deferred (run_id : string) (signal decision : dict) : CM unit :=
  _ ← record_deferred_recheck cfg sv run_id signal decision;
  _ ← settle_agent_tasks run_id;
  _ ← record_event cfg run_id "completed" "run_completed"
        [("decision_type", VStr "defer_until"); ("status", VStr "deferred")] [("status", VStr "deferred")]
        None None (Some "deferred");
  run_status run_id "completed" "completed".

(** The gate before the execution: [None] when the run was cancelled. *)
Definition evaluation_turn (q : queued_run) (trigger : dict) (p : profile sv) (de : dict * dict)
    : CM (dict * dict + option (dict * dict)) :=
  let '(decision, evaluation) := de in
  let run_id := qr_run_id q in
  outcome ← wait_if_needed run_id "evaluation_ready" (Some evaluation);
  match outcome with
  | Continue => mret (inr (Some (decision, evaluation)))
  | Cancel => _ ← cancel_run run_id; mret (inr None)
  | Override payload =>
      overridden ← pure (apply_override decision payload);
      _ ← record_override_for_learning cfg sv run_id decision overridden;
      de ← record_decision_and_evaluation cfg sv q trigger overridden p true;
      mret (inl de)
  end.

Definition evaluation_gate (q : queued_run) (trigger : dict) (p : profile sv) (de : dict * dict) : CM (option (dict * dict)) :=
  loop (evaluation_turn q trigger p) de.

(** ** Execution and feedback *)

(** [_orchestration_integration_name] *)
Definition orchestration_integration_name (mode : value) : res (option string) :=
  native ← in_str_set mode ["native"; "native_hermes"; "native_goose"];
  Ok (if (native : bool) || is_none mode then None else Some (py_str mode)).

(** [_execution_review_artifact] *)
Definition execution_review_artifact (execution : dict) : option (string * string * dict) :=
  match dgetN "external_refs" execution with
  | VDict refs =>
      match dgetN "hermes_review" refs, dgetN "goose_review" refs with
      | VDict d, _ => Some ("hermes_review", "hermes", d)
      | _, VDict d => Some ("goose_review", "goose", d)
      | _, _ => None
      end
  | _ => None
  end.

Definition record_review (run_id : string) (execution : dict) : CM unit :=
  match execution_review_artifact execution with
  | None => mret ()
  | Some (artifact_key, integration_name, payload) =>
      _ ← set_artifact cfg run_id artifact_key (VDict payload);
      record_event cfg run_id "executing" "integration_artifact_recorded" payload
        (project [("approved", "approved")] payload) (Some artifact_key) (Some integration_name) (Some "recorded")
  end.

(** The call of the orchestrator and its record. *)
Definition execution_phase (q : queued_run) (decision evaluation : dict) : CM dict :=
  let run_id := qr_run_id q in
  _ ← run_status run_id "executing" "running";
  _ ← emit (Executed run_id decision evaluation);
  execution ← service (sv_execute sv decision evaluation);
  payload ← pure (to_dict ExecutionRecord execution);
  _ ← set_artifact cfg run_id "execution" (VDict payload);
  name ← pure (orchestration_integration_name (qr_orchestration_mode q));
  _ ← record_event cfg run_id "executing" "execution_recorded" payload (project [("status", "status")] execution)
        (Some "execution") name (Some (py_str (dgetN "status" execution)));
  _ ← record_review run_id execution;
  mret execution.

Definition feedback_phase (run_id : string) (trigger decision evaluation execution normalized : dict) : CM dict :=
  feedback ← service (sv_feedback sv trigger decision execution normalized);
  payload ← pure (to_dict FeedbackRecord feedback);
  _ ← set_artifact cfg run_id "feedback" (VDict payload);
  _ ← run_status run_id "feedback_ready" "running";
  _ ← record_event cfg run_id "feedback_ready" "feedback_recorded" payload (project [("outcome", "outcome")] feedback)
        (Some "feedback") None (Some (py_str (dgetN "outcome" feedback)));
  _ ← record_trajectory_artifacts cfg sv run_id trigger decision evaluation (Some execution) (Some feedback);
  mret feedback.

Definition feedback_gate (run_id : string) (evaluation : dict) : CM bool :=
  loop (gate_turn run_id "feedback_ready" "override_after_execution"
          "Decision-changing steering after actuation is rejected (late intervention would corrupt the run record)."
          (Some evaluation)) ().

(** The end of a run that was executed. *)
Definition complete_run (run_id : string) (trigger decision execution feedback : dict) : CM unit :=
  _ ← settle_agent_tasks run_id;
  _ ← record_event cfg run_id "completed" "run_completed"
        [("execution_status", dgetN "status" execution); ("feedback_outcome", dgetN "outcome" feedback)]
        [("status", VStr "completed")] None None (Some "completed");
  _ ← run_status run_id "completed" "completed";
  _ ← record_learning cfg sv run_id trigger decision feedback;
  _ ← record_memory_crystallization cfg sv run_id;
  _ ← record_benchmark_if_simulation cfg sv run_id;
  _ ← record_reasoning_bank_lessons cfg sv run_id;
  mret ().

(** From an evaluation that may be executed to the end. *)
Definition actuate (q : queued_run) (trigger normalized decision evaluation : dict) : CM unit :=
  let run_id := qr_run_id q in
  execution ← execution_phase q decision evaluation;
  feedback ← feedback_phase run_id trigger decision evaluation execution normalized;
  go_on ← feedback_gate run_id evaluation;
  if (go_on : bool) then complete_run run_id trigger decision execution feedback else mret ().

(** From a decision and its evaluation to the end. *)
Definition settle (q : queued_run) (signal normalized trigger : dict) (p : profile sv) (de : dict * dict) : CM unit :=
  let run_id := qr_run_id q in
  let '(decision, evaluation) := de in
  recovered ← maybe_launch_recovery_run cfg sv run_id (qr_scenario_key q) signal trigger decision evaluation;
  if (recovered : bool) then mret ()
  else if is_string "defer_until" (dgetN "decision_type" decision) then end_deferred run_id signal decision
  else
    out ← evaluation_gate q trigger p (decision, evaluation);
    match out with
    | None => mret ()
    | Some (decision, evaluation) => actuate q trigger normalized decision evaluation
    end.

(** From a trigger to the end. *)
Definition handle_trigger (q : queued_run) (signal normalized trigger : dict) : CM unit :=
  let run_id := qr_run_id q in
  let canonical := canonical_signal signal normalized in
  p ← service (sv_profile sv trigger (Some canonical));
  _ ← record_trigger run_id trigger;
  go_on ← trigger_gate run_id;
  if negb go_on then mret ()
  else
    chaos_probe ← is_chaos_probe_run run_id;
    pack ← evidence_phase run_id signal canonical trigger p chaos_probe;
    a ← advice_phase run_id signal trigger pack chaos_probe;
    de ← decision_phase q trigger pack a p;
    settle q signal normalized trigger p de.

(** The [try] block of [_execute_run]. *)
Definition run_body (q : queued_run) (session : dict) : CM unit :=
  ingested ← ingest_run q session;
  let '(signal, normalized) := ingested in
  detected ← service (sv_detect sv normalized);
  match detected with
  | None => end_without_trigger (qr_run_id q)
  | Some trigger => handle_trigger q signal normalized trigger
  end.

(** [except Exception]: both records may fail as well. *)
Definition fail_run (run_id : string) (e : exc) : CM unit :=
  _ ← or_else (record_event cfg run_id "failed" "run_failed" [("error", VStr (exc_str e))]
                 [("status", VStr "failed")] None None (Some "failed")) (λ _, mret ());
  or_else (update_session cfg run_id [("stage", VStr "failed"); ("status", VStr "failed");
                                      ("pending_pause_stage", VNone); ("error", VStr (exc_str e))]) (λ _, mret ()).

(** The [try] statement: whatever happens, the run is no longer tracked. *)
Definition guarded_run (q : queued_run) (session : dict) : CM unit :=
  finally (or_else (run_body q session) (fail_run (qr_run_id q))) (finalize_run (qr_run_id q)).

(** [_execute_run] *)
Definition execute_run (q : queued_run) : CM unit :=
  found ← get_session (qr_run_id q);
  match found with
  | None => mret ()
  | Some session => _ ← service (sv_engine sv q); guarded_run q session
  end.

(** The [try] statement of [_run_worker_loop] for the run it took. *)
Definition work_on (q : queued_run) : CM unit :=
  finally
    (_ ← locked (λ w, ((), upd_threads ({[qr_run_id q]} ∪ co_threads w) (co_agent_threads w) w));
     execute_run q)
    (finalize_run (qr_run_id q)).

(** One turn of [_run_worker_loop]: [false] when the queue is empty. *)
Definition worker_turn : CM bool :=
  next ← locked (λ w, match co_queue w with
                      | q :: rest => (Some q, upd_queue rest w)
                      | [] => (None, w)
                      end);
  match next with
  | None => mret false
  | Some q => _ ← work_on q; mret true
  end.
End execution.
