(* ===== verification/RunFrame.v ===== *)
(** * What the operations of the coordinator leave alone

    The relation that almost every program of the coordinator respects: the
    trace grows by acts of a given kind, and what the other threads keep true
    of the state they share stays true. *)

From S2P Require Import Prelude PyFloat PyValue Models StateStore RunMachine Steering Coordinator.
From S2P Require Import OperatorReviews CreateRun RunEvidence RunDecision OperatorActions RunExecution.
From stdpp Require Import gmap.
#[local] Open Scope nat_scope.

(** What the others may rely on: the controls, the locks on targets and the
    switches. *)
Record view := View {
  v_controls : gmap string run_control;
  v_targets : gmap string string;
  v_switches : switches }.

Definition view_of (w : coordinator) : view := View (co_controls w) (co_target_locks w) (co_switches w).

Section frame.
Context (I : view → Prop) (P : act → Prop).
Implicit Types m : machine coordinator act.

(** The other threads keep [I] true of the controls. *)
Definition env_keeps (ticks : list (tick coordinator)) : Prop :=
  Forall (λ t, ∀ w, I (view_of w) → I (view_of (tk_env t w))) ticks.

Record frame m m' : Prop := Frame {
  frame_trace : ∃ l, m_trace m' = m_trace m ++ l ∧ Forall P l;
  frame_ticks : m_ticks m' `suffix_of` m_ticks m;
  frame_controls : env_keeps (m_ticks m) → I (view_of (m_world m)) → I (view_of (m_world m')) }.

Lemma env_keeps_suffix ticks ticks' : ticks' `suffix_of` ticks → env_keeps ticks → env_keeps ticks'.
Proof. intros [k ->]. unfold env_keeps. by intros [_ H]%Forall_app. Qed.

#[export] Instance frame_preorder : PreOrder frame.
Proof.
  split.
  - intros m. split; [by exists []; rewrite app_nil_r|done|done].
  - intros a b c [(l & H1 & Hl) H2 H3] [(l' & H1' & Hl') H2' H3']. split.
    + exists (l ++ l'). rewrite H1', H1, app_assoc. split; [done|by apply Forall_app].
    + by etrans.
    + intros Ht HI. apply H3'; [by eapply env_keeps_suffix|by apply H3].
Qed.

Lemma frame_step {A} (f : tick coordinator → coordinator → res A * coordinator) :
  (∀ t w, view_of (f t w).2 = view_of w) → Respects frame (step f).
Proof.
  intros Hf [w tr [|t ts]]; unfold step; cbn; [reflexivity|].
  specialize (Hf t (tk_env t w)).
  assert (frame (Machine w tr (t :: ts)) (Machine (f t (tk_env t w)).2 tr ts)) as H.
  { split; cbn; [by exists []; rewrite app_nil_r|by apply suffix_cons_r|].
    intros [Ht _]%Forall_cons HI. rewrite Hf. by apply Ht. }
  by destruct (f t (tk_env t w)) as [[a|e] w'].
Qed.

Lemma frame_locked {A} (f : coordinator → A * coordinator) :
  (∀ w, view_of (f w).2 = view_of w) → Respects frame (locked f).
Proof. intros Hf. apply frame_step. intros t w. specialize (Hf w). by destruct (f w). Qed.

Lemma frame_emit (e : act) : P e → Respects frame (emit e).
Proof. intros He m. split; cbn; [exists [e]; split; [done|by constructor]|done|done]. Qed.

Lemma frame_store_step {A} (f : tick coordinator → SM A) : Respects frame (store_step f).
Proof. apply frame_step. intros t w. by destruct (f t (co_store w)). Qed.

Lemma frame_service {A} (f : call A) : Respects frame (service f).
Proof. apply frame_step. done. Qed.

Lemma frame_or_else {A} (p : CM A) h : Respects frame p → (∀ e, Respects frame (h e)) → Respects frame (or_else p h).
Proof. intros Hp Hh. unfold or_else. apply respects_catch; [apply _|exact Hp|exact Hh]. Qed.
End frame.

Create HintDb frame discriminated.
#[export] Hint Constants Opaque : frame.
#[export] Hint Resolve frame_store_step frame_service : frame.

(** The structure of a program, down to the programs with an instance. *)
Ltac respects_step :=
  lazymatch goal with
  | |- ∀ _, _ => intro; cbv beta
  | |- Respects _ (let _ := _ in _) => cbv zeta
  | |- Respects _ (match ?x with _ => _ end) => destruct x
  | |- Respects _ ((match ?x with _ => _ end) _) => destruct x; cbv beta
  | |- Respects _ (mbind _ _) => apply respects_bind; [apply _| |]
  | |- Respects _ (mret _) => apply respects_ret; apply _
  | |- Respects _ (pure _) => apply respects_pure; apply _
  | |- Respects _ (throw _) => apply respects_throw; apply _
  | |- Respects _ (or_else _ _) => apply frame_or_else
  | |- Respects _ (finally _ _) => apply respects_finally; [apply _| |]
  | |- Respects _ (for_each _ _) => apply respects_for_each; [apply _|]
  | |- Respects _ (for_map _ _) => apply respects_for_map; [apply _|]
  | |- Respects _ (loop _ _) => apply respects_loop; [apply _|]
  | |- Respects _ (step _) => apply frame_step; intros; repeat case_match; reflexivity
  | |- Respects _ (locked _) =>
      first [solve [auto 1 with frame nocore]
            | apply frame_locked; intros; repeat case_match; reflexivity]
  | |- Respects _ _ => solve [auto 2 with frame nocore]
  end.
Ltac respects := repeat respects_step.

Section instances.
Context (I : view → Prop) (P : act → Prop) (cfg : settings) (sv : services).
Abbreviation R := (frame I P).

(** ** The coordinator *)

Lemma frame_get_session r : Respects R (get_session r).
Proof. unfold get_session. respects. Qed.
#[local] Hint Resolve frame_get_session : frame.
Lemma frame_stamped s : Respects R (stamped cfg s).
Proof. unfold stamped. respects. Qed.
#[local] Hint Resolve frame_stamped : frame.
Lemma frame_append_event r a b c d e f g : Respects R (append_event cfg r a b c d e f g).
Proof. unfold append_event. respects. Qed.
#[local] Hint Resolve frame_append_event : frame.
Lemma frame_record_event r a b c d e f g : Respects R (record_event cfg r a b c d e f g).
Proof. unfold record_event. respects. Qed.
#[local] Hint Resolve frame_record_event : frame.
Lemma frame_set_artifact r k v : Respects R (set_artifact cfg r k v).
Proof. unfold set_artifact. respects. Qed.
#[local] Hint Resolve frame_set_artifact : frame.
Lemma frame_update_session r u : Respects R (update_session cfg r u).
Proof. unfold update_session. respects. Qed.
#[local] Hint Resolve frame_update_session : frame.
Lemma frame_get_control r : Respects R (get_control r).
Proof. unfold get_control. respects. Qed.
#[local] Hint Resolve frame_get_control : frame.
Lemma frame_build_admission r b l : Respects R (build_admission cfg r b l).
Proof. unfold build_admission. respects. Qed.
#[local] Hint Resolve frame_build_admission : frame.
Lemma frame_put_run q : Respects R (put_run cfg q).
Proof. unfold put_run. respects. Qed.
#[local] Hint Resolve frame_put_run : frame.
Lemma frame_settle r : Respects R (settle_agent_tasks r).
Proof. unfold settle_agent_tasks. respects. Qed.
#[local] Hint Resolve frame_settle : frame.
Lemma frame_get_run r : Respects R (get_run r).
Proof. unfold get_run. respects. Qed.
#[local] Hint Resolve frame_get_run : frame.
Lemma frame_get_run_or r s : Respects R (get_run_or r s).
Proof. unfold get_run_or. respects. Qed.
#[local] Hint Resolve frame_get_run_or : frame.
Lemma frame_read_control r : Respects R (read_control r).
Proof. unfold read_control. respects. Qed.
#[local] Hint Resolve frame_read_control : frame.

(** ** Evidence, scores and lessons *)

Lemma frame_is_chaos r : Respects R (is_chaos_probe_run r).
Proof. unfold is_chaos_probe_run. respects. Qed.
#[local] Hint Resolve frame_is_chaos : frame.
Lemma frame_score r s c : Respects R (score_session cfg sv r s c).
Proof. unfold score_session, benchmark_step. respects. Qed.
#[local] Hint Resolve frame_score : frame.
Lemma frame_benchmark r : Respects R (record_benchmark_if_simulation cfg sv r).
Proof. unfold record_benchmark_if_simulation. respects. Qed.
#[local] Hint Resolve frame_benchmark : frame.
Lemma frame_plan r t s p : Respects R (record_investigation_plan cfg sv r t s p).
Proof. unfold record_investigation_plan. respects. Qed.
#[local] Hint Resolve frame_plan : frame.
Lemma frame_probe r p : Respects R (record_probe cfg r p).
Proof. unfold record_probe. respects. Qed.
#[local] Hint Resolve frame_probe : frame.
Lemma frame_pack r t s p : Respects R (record_evidence_pack cfg sv r t s p).
Proof. unfold record_evidence_pack. respects. Qed.
#[local] Hint Resolve frame_pack : frame.
Lemma frame_rb r t e : Respects R (record_reasoning_bank_retrieval cfg sv r t e).
Proof. unfold record_reasoning_bank_retrieval. respects. Qed.
#[local] Hint Resolve frame_rb : frame.
Lemma frame_report r t e h : Respects R (record_investigation_report cfg sv r t e h).
Proof. unfold record_investigation_report. respects. Qed.
#[local] Hint Resolve frame_report : frame.
Lemma frame_node r v : Respects R (record_evidence_node cfg r v).
Proof. unfold record_evidence_node. respects. Qed.
#[local] Hint Resolve frame_node : frame.
Lemma frame_subdecision r v : Respects R (record_subdecision cfg r v).
Proof. unfold record_subdecision. respects. Qed.
#[local] Hint Resolve frame_subdecision : frame.
Lemma frame_compaction r v c : Respects R (record_compaction cfg r v c).
Proof. unfold record_compaction. respects. Qed.
#[local] Hint Resolve frame_compaction : frame.
Lemma frame_scenario r t p e : Respects R (record_scenario_analysis cfg sv r t p e).
Proof. unfold record_scenario_analysis. respects. Qed.
#[local] Hint Resolve frame_scenario : frame.
Lemma frame_trust d t f : Respects R (record_trust d t f).
Proof. unfold record_trust. respects. Qed.
#[local] Hint Resolve frame_trust : frame.
Lemma frame_learning r t d f : Respects R (record_learning cfg sv r t d f).
Proof. unfold record_learning. respects. Qed.
#[local] Hint Resolve frame_learning : frame.
Lemma frame_crystallization r : Respects R (record_memory_crystallization cfg sv r).
Proof. unfold record_memory_crystallization. respects. Qed.
#[local] Hint Resolve frame_crystallization : frame.
Lemma frame_distill r : Respects R (distill_lessons cfg sv r).
Proof. unfold distill_lessons. respects. Qed.
#[local] Hint Resolve frame_distill : frame.
Lemma frame_lessons r : Respects R (record_reasoning_bank_lessons cfg sv r).
Proof. unfold record_reasoning_bank_lessons. respects. Qed.
#[local] Hint Resolve frame_lessons : frame.

(** ** Decisions and evaluations *)

Lemma frame_trace_part r s b k : Respects R (record_trace_part cfg r s b k).
Proof. unfold record_trace_part. respects. Qed.
#[local] Hint Resolve frame_trace_part : frame.
Lemma frame_trajectory r t d e x f : Respects R (record_trajectory_artifacts cfg sv r t d e x f).
Proof. unfold record_trajectory_artifacts. respects. Qed.
#[local] Hint Resolve frame_trajectory : frame.
Lemma frame_delivery r b : Respects R (record_delivery_context cfg sv r b).
Proof. unfold record_delivery_context. respects. Qed.
#[local] Hint Resolve frame_delivery : frame.
Lemma frame_collect_tasks r t d e : Respects R (collect_agent_tasks cfg sv r t d e).
Proof. unfold collect_agent_tasks. respects. Qed.
#[local] Hint Resolve frame_collect_tasks : frame.
Lemma frame_reconciliation r l : Respects R (record_reconciliation cfg sv r l).
Proof. unfold record_reconciliation. respects. Qed.
#[local] Hint Resolve frame_reconciliation : frame.
Lemma frame_agent_tasks r t d e : Respects R (record_agent_tasks cfg sv r t d e).
Proof. unfold record_agent_tasks. respects. Qed.
#[local] Hint Resolve frame_agent_tasks : frame.
Lemma frame_maybe_tasks r t d e : Respects R (maybe_record_agent_tasks cfg sv r t d e).
Proof. unfold maybe_record_agent_tasks. respects. Qed.
#[local] Hint Resolve frame_maybe_tasks : frame.
Lemma frame_rca r t d p : Respects R (record_rca cfg sv r t d p).
Proof. unfold record_rca. respects. Qed.
#[local] Hint Resolve frame_rca : frame.
Lemma frame_hypotheses r t d : Respects R (record_hypotheses cfg r t d).
Proof. unfold record_hypotheses. respects. Qed.
#[local] Hint Resolve frame_hypotheses : frame.
Lemma frame_decision r d : Respects R (record_decision cfg r d).
Proof. unfold record_decision. respects. Qed.
#[local] Hint Resolve frame_decision : frame.
Lemma frame_follow_up r t d e b : Respects R (record_follow_up cfg sv r t d e b).
Proof. unfold record_follow_up. respects. Qed.
#[local] Hint Resolve frame_follow_up : frame.
Lemma frame_override_learning r d d' : Respects R (record_override_for_learning cfg sv r d d').
Proof. unfold record_override_for_learning. respects. Qed.
#[local] Hint Resolve frame_override_learning : frame.
Lemma frame_recovery_evidence r t d e s : Respects R (collect_recovery_evidence sv r t d e s).
Proof. unfold collect_recovery_evidence. respects. Qed.
#[local] Hint Resolve frame_recovery_evidence : frame.
Lemma frame_exhausted r e b x i n : Respects R (record_exhausted cfg r e b x i n).
Proof. unfold record_exhausted. respects. Qed.
#[local] Hint Resolve frame_exhausted : frame.
Lemma frame_deferred r s d : Respects R (record_deferred_recheck cfg sv r s d).
Proof. unfold record_deferred_recheck, deferred_step. respects. Qed.
#[local] Hint Resolve frame_deferred : frame.

(** ** Creating runs *)

Lemma frame_placeholders s : Respects R (resolve_signal_placeholders sv s).
Proof. unfold resolve_signal_placeholders. respects. Qed.
#[local] Hint Resolve frame_placeholders : frame.
Lemma frame_otlp o p : Respects R (build_signal_from_otlp sv o p).
Proof. unfold build_signal_from_otlp. respects. Qed.
#[local] Hint Resolve frame_otlp : frame.
Lemma frame_collect_live l p : Respects R (collect_live_kubernetes_signal sv l p).
Proof. unfold collect_live_kubernetes_signal. respects. Qed.
#[local] Hint Resolve frame_collect_live : frame.
Lemma frame_fixture k : Respects R (fixture_signal sv k).
Proof. unfold fixture_signal. respects. Qed.
#[local] Hint Resolve frame_fixture : frame.
Lemma frame_resolve p : Respects R (resolve_signal sv p).
Proof. unfold resolve_signal. respects. Qed.
#[local] Hint Resolve frame_resolve : frame.
Lemma frame_parent k : Respects R (find_active_correlation_parent k).
Proof. unfold find_active_correlation_parent. respects. Qed.
#[local] Hint Resolve frame_parent : frame.
Lemma frame_attach p s : Respects R (maybe_attach_to_correlated_run cfg p s).
Proof. unfold maybe_attach_to_correlated_run. respects. Qed.
#[local] Hint Resolve frame_attach : frame.
Lemma frame_read_request p : Respects R (read_request cfg p).
Proof. unfold read_request. respects. Qed.
#[local] Hint Resolve frame_read_request : frame.
Lemma frame_create_session p s b q m : Respects R (create_session cfg p s b q m).
Proof. unfold create_session. respects. Qed.
#[local] Hint Resolve frame_create_session : frame.
Lemma frame_block r s a : Respects R (block_run cfg r s a).
Proof. unfold block_run. respects. Qed.
#[local] Hint Resolve frame_block : frame.
Lemma frame_record_admission r a : Respects R (record_admission cfg r a).
Proof. unfold record_admission. respects. Qed.
#[local] Hint Resolve frame_record_admission : frame.
Lemma frame_record_queued r q k : Respects R (record_queued cfg r q k).
Proof. unfold record_queued. respects. Qed.
#[local] Hint Resolve frame_record_queued : frame.
Lemma frame_record_boundary r b : Respects R (record_boundary cfg r b).
Proof. unfold record_boundary. respects. Qed.
#[local] Hint Resolve frame_record_boundary : frame.
Lemma frame_record_readiness r d : Respects R (record_readiness cfg r d).
Proof. unfold record_readiness. respects. Qed.
#[local] Hint Resolve frame_record_readiness : frame.

(** ** The phases of a run *)

Lemma frame_resume r s : Respects R (resume_run cfg r s).
Proof. unfold resume_run. respects. Qed.
#[local] Hint Resolve frame_resume : frame.
Lemma frame_idle r s e : Respects R (wait_idle cfg r s e).
Proof. unfold wait_idle. respects. Qed.
#[local] Hint Resolve frame_idle : frame.
Lemma frame_block_approval r e : Respects R (block_approval cfg r e).
Proof. unfold block_approval. respects. Qed.
#[local] Hint Resolve frame_block_approval : frame.
Lemma frame_run_status r s t : Respects R (run_status cfg r s t).
Proof. unfold run_status. respects. Qed.
#[local] Hint Resolve frame_run_status : frame.
Lemma frame_ingest q s : Respects R (ingest_run cfg sv q s).
Proof. unfold ingest_run. respects. Qed.
#[local] Hint Resolve frame_ingest : frame.
Lemma frame_no_trigger r : Respects R (end_without_trigger cfg sv r).
Proof. unfold end_without_trigger. respects. Qed.
#[local] Hint Resolve frame_no_trigger : frame.
Lemma frame_record_trigger r t : Respects R (record_trigger cfg r t).
Proof. unfold record_trigger. respects. Qed.
#[local] Hint Resolve frame_record_trigger : frame.
Lemma frame_cancel r : Respects R (cancel_run cfg r).
Proof. unfold cancel_run. respects. Qed.
#[local] Hint Resolve frame_cancel : frame.
Lemma frame_evidence_phase r s c t p b : Respects R (evidence_phase cfg sv r s c t p b).
Proof. unfold evidence_phase. respects. Qed.
#[local] Hint Resolve frame_evidence_phase : frame.
Lemma frame_investigation r t k h : Respects R (investigation_phase cfg sv r t k h).
Proof. unfold investigation_phase. respects. Qed.
#[local] Hint Resolve frame_investigation : frame.
Lemma frame_scenario_phase r t k e : Respects R (scenario_phase cfg sv r t k e).
Proof. unfold scenario_phase. respects. Qed.
#[local] Hint Resolve frame_scenario_phase : frame.
Lemma frame_advice r s t k b : Respects R (advice_phase cfg sv r s t k b).
Proof. unfold advice_phase. respects. Qed.
#[local] Hint Resolve frame_advice : frame.
Lemma frame_end_deferred r s d : Respects R (end_deferred cfg sv r s d).
Proof. unfold end_deferred. respects. Qed.
#[local] Hint Resolve frame_end_deferred : frame.
Lemma frame_review r x : Respects R (record_review cfg r x).
Proof. unfold record_review. respects. Qed.
#[local] Hint Resolve frame_review : frame.
Lemma frame_feedback r t d e x n : Respects R (feedback_phase cfg sv r t d e x n).
Proof. unfold feedback_phase. respects. Qed.
#[local] Hint Resolve frame_feedback : frame.
Lemma frame_complete r t d x f : Respects R (complete_run cfg sv r t d x f).
Proof. unfold complete_run. respects. Qed.
#[local] Hint Resolve frame_complete : frame.
Lemma frame_fail r e : Respects R (fail_run cfg r e).
Proof. unfold fail_run. respects. Qed.
#[local] Hint Resolve frame_fail : frame.
End instances.

#[export] Hint Resolve
  frame_get_session frame_stamped frame_append_event frame_record_event frame_set_artifact
  frame_update_session frame_get_control frame_build_admission frame_put_run
  frame_settle frame_get_run frame_get_run_or frame_read_control frame_is_chaos frame_score
  frame_benchmark frame_plan frame_probe frame_pack frame_rb frame_report frame_node frame_subdecision
  frame_compaction frame_scenario frame_trust frame_learning frame_crystallization frame_distill
  frame_lessons frame_trace_part frame_trajectory frame_delivery frame_collect_tasks frame_reconciliation
  frame_agent_tasks frame_maybe_tasks frame_rca frame_hypotheses frame_decision frame_follow_up
  frame_override_learning frame_recovery_evidence frame_exhausted frame_deferred frame_placeholders
  frame_otlp frame_collect_live frame_fixture frame_resolve frame_parent frame_attach frame_read_request
  frame_create_session frame_block frame_record_admission frame_record_queued frame_record_boundary
  frame_record_readiness frame_resume frame_idle frame_block_approval frame_run_status
  frame_ingest frame_no_trigger frame_record_trigger frame_cancel frame_evidence_phase
  frame_investigation frame_scenario_phase frame_advice frame_end_deferred frame_review frame_feedback
  frame_complete frame_fail : frame.

(** ** Operations that release targets *)

Section unlocking.
Context (I : view → Prop) (P : act → Prop) (cfg : settings).
Context (I_targets : ∀ v targets, I v → I (View (v_controls v) targets (v_switches v))).
Abbreviation R := (frame I P).

Lemma frame_unlock {A} (f : coordinator → A * coordinator) :
  (∀ w, co_controls (f w).2 = co_controls w ∧ co_switches (f w).2 = co_switches w) → Respects R (locked f).
Proof.
  intros Hf [w tr [|t ts]]; unfold locked, step; cbn; [reflexivity|].
  destruct (Hf (tk_env t w)) as [H1 H2]. destruct (f (tk_env t w)) as [a w']; cbn in *. split; cbn.
  - exists []. by rewrite app_nil_r.
  - by apply suffix_cons_r.
  - intros [Ht _]%Forall_cons HI. unfold view_of. rewrite H1, H2. by apply (I_targets (view_of (tk_env t w))), Ht.
Qed.

Lemma frame_release r : Respects R (release_run_admission r).
Proof. by apply frame_unlock. Qed.
Lemma frame_finalize r : Respects R (finalize_run r).
Proof. by apply frame_unlock. Qed.
#[local] Hint Resolve frame_release frame_finalize : frame.
Lemma frame_overload r : Respects R (overload_run cfg r).
Proof. unfold overload_run. respects. Qed.
End unlocking.

(** ** Operations that change controls *)

Section closed.
Context (I : view → Prop) (P : act → Prop) (cfg : settings) (sv : services).
Context (I_targets : ∀ v targets, I v → I (View (v_controls v) targets (v_switches v))).
Context (I_insert : ∀ v run_id k, I v → I (View (<[run_id := k]> (v_controls v)) (v_targets v) (v_switches v))) (P_took : ∀ run_id stage c, P (Took run_id stage c))
  (P_admitted : ∀ run_id key, P (Admission run_id key)).
Abbreviation R := (frame I P).

Lemma frame_insert {A} (f : coordinator → A * coordinator) :
  (∀ w, view_of (f w).2 = view_of w
        ∨ ∃ run_id k targets, view_of (f w).2 = View (<[run_id := k]> (co_controls w)) targets (co_switches w)) →
  Respects R (locked f).
Proof.
  intros Hf [w tr [|t ts]]; unfold locked, step; cbn; [reflexivity|].
  specialize (Hf (tk_env t w)). destruct (f (tk_env t w)) as [a w']; cbn in *. split; cbn.
  - exists []. by rewrite app_nil_r.
  - by apply suffix_cons_r.
  - intros [Ht _]%Forall_cons HI. destruct Hf as [->|(run_id & k & targets & ->)]; [by apply Ht|].
    apply (I_targets (View _ (co_target_locks (tk_env t w)) _)). by apply (I_insert (view_of (tk_env t w))), Ht.
Qed.

Lemma frame_register r a p t k b : Respects R (register_run r a p t k b).
Proof. apply frame_insert. intros w. right. by eexists _, _, _. Qed.
#[local] Hint Resolve frame_register frame_overload : frame.

Lemma frame_admit p s b d q m c : Respects R (admit_run cfg sv p s b d q m c).
Proof. pose proof (λ r k, frame_emit I P (Admission r k) (P_admitted r k)). unfold admit_run. respects. Qed.
#[local] Hint Resolve frame_admit : frame.

Lemma frame_create p : Respects R (create_run cfg sv p).
Proof. unfold create_run. respects. Qed.
#[local] Hint Resolve frame_create : frame.

Lemma frame_launch r s k p t d e b i n x : Respects R (launch_recovery cfg sv r s k p t d e b i n x).
Proof. unfold launch_recovery. respects. Qed.
#[local] Hint Resolve frame_launch : frame.

Lemma frame_recovery r k s t d e : Respects R (maybe_launch_recovery_run cfg sv r k s t d e).
Proof. unfold maybe_launch_recovery_run. respects. Qed.

Lemma frame_set_auto r b : Respects R (set_auto_mode r b).
Proof. apply frame_insert. intros w. right. by eexists _, _, _. Qed.
Lemma frame_add_pause r s : Respects R (add_pause_point r s).
Proof. apply frame_insert. intros w. right. by eexists _, _, _. Qed.
#[local] Hint Resolve frame_set_auto frame_add_pause : frame.

Lemma frame_take r s : Respects R (take_command r s).
Proof.
  unfold take_command. apply respects_bind; [apply _| |].
  - apply frame_insert. intros w. cbv zeta. destruct (ct_commands _); [by left|right; by eexists _, _, _].
  - intros [c|]; [|respects]. apply respects_bind; [apply _|by apply frame_emit|respects].
Qed.
#[local] Hint Resolve frame_take : frame.

Lemma frame_on_pause r p : Respects R (on_pause cfg r p).
Proof. unfold on_pause. respects. Qed.
#[local] Hint Resolve frame_on_pause : frame.

Lemma frame_on_command r s e c : Respects R (on_command cfg r s e c).
Proof. unfold on_command. respects. Qed.
#[local] Hint Resolve frame_on_command : frame.

Lemma frame_wait r s e : Respects R (wait_if_needed cfg sv r s e).
Proof. unfold wait_if_needed, wait_turn. respects. Qed.
#[local] Hint Resolve frame_wait : frame.

Lemma frame_gate_turn r s a b e u : Respects R (gate_turn cfg sv r s a b e u).
Proof. unfold gate_turn. respects. Qed.
#[local] Hint Resolve frame_gate_turn : frame.

Lemma frame_feedback_gate r e : Respects R (feedback_gate cfg sv r e).
Proof. unfold feedback_gate. respects. Qed.
End closed.
