(* ===== verification/RunTheorems.v ===== *)
(** * What a run may do

    Theorems on [execute_run] for every list of ticks, that is, for everything
    the other threads may do and every moment of the run: the orchestrator is
    called at most once, on the decision that was evaluated last and whose
    evaluation lets it through; without automatic mode an operator has agreed
    to it; however the run ends, nothing of it stays in memory; and a run that
    waits stops when it is cancelled. *)

From S2P Require Import Prelude PyFloat PyValue Json Models Contracts StateStore RunMachine Steering Coordinator CreateRun.
From S2P Require Import RunEvidence RunDecision RunExecution RunFrame OperatorActions.
From stdpp Require Import gmap.
#[local] Open Scope nat_scope.

(** * What a run may do

    Theorems on [execute_run] for every list of ticks, that is, for everything
    the other threads may do and every moment of the run: the orchestrator is
    called at most once, on the decision that was evaluated last and whose
    evaluation lets it through; without automatic mode an operator has agreed
    to it; and however the run ends, nothing of it stays in memory. *)

(** ** Traces *)

Definition not_executed (e : act) : Prop := match e with Executed _ _ _ => False | _ => True end.
Definition is_took (e : act) : Prop := match e with Took _ _ _ => True | _ => False end.

(** The decision that was evaluated last, with its evaluation. *)
Definition last_evaluated (l : list act) : option (dict * dict) :=
  fold_left (λ acc e, match e with Evaluated _ d v => Some (d, v) | _ => acc end) l None.

(** A command by which an operator lets a run go on from its evaluation. *)
Definition approves (run_id : string) (e : act) : Prop :=
  match e with
  | Took r stage c => r = run_id ∧ stage = "evaluation_ready" ∧ mem_str (cmd_command_type c) ["resume"; "approve"] = true
  | _ => False
  end.

(** A command that switches the automatic mode on. *)
Definition enables_auto (run_id : string) (e : act) : Prop :=
  match e with
  | Took r _ c => r = run_id ∧ cmd_command_type c = "set_auto_mode"
                  ∧ truthy (dget_or "enabled" (VBool true) (cmd_payload c)) = true
  | _ => False
  end.

Definition not_evaluated (e : act) : Prop := match e with Evaluated _ _ _ => False | _ => True end.

(** The operators agreed: they switched to automatic mode, or they approved
    after the last evaluation. *)
Definition approved (run_id : string) (l : list act) : Prop :=
  Exists (enables_auto run_id) l
  ∨ ∃ before e after, l = before ++ e :: after ∧ approves run_id e ∧ Forall not_evaluated after.

Lemma last_evaluated_app l l' :
  last_evaluated (l ++ l') = match last_evaluated l' with Some p => Some p | None => last_evaluated l end.
Proof.
  unfold last_evaluated. rewrite fold_left_app. generalize (fold_left (λ acc e, match e with Evaluated _ d v => Some (d, v) | _ => acc end) l None) as acc.
  induction l' as [|e l' IH] using rev_ind; intros acc; [done|]. rewrite !fold_left_app. cbn.
  destruct e; try apply IH; done.
Qed.

Lemma last_evaluated_none l : Forall not_evaluated l → last_evaluated l = None.
Proof.
  induction l as [|e l IH] using rev_ind; [done|]. intros [Hl He]%Forall_app. inv He.
  rewrite last_evaluated_app. unfold last_evaluated at 1. cbn. destruct e; cbn in *; first [by apply IH|done].
Qed.

Lemma took_not_evaluated l : Forall is_took l → Forall not_evaluated l.
Proof. intros H. eapply Forall_impl; [exact H|by intros []]. Qed.

Lemma took_not_executed l : Forall is_took l → Forall not_executed l.
Proof. intros H. eapply Forall_impl; [exact H|by intros []]. Qed.

Lemma approved_app r l l' : Forall not_evaluated l' → approved r l → approved r (l ++ l').
Proof.
  intros Hl' [H|(b & e & a & -> & He & Ha)].
  - left. apply Exists_app. by left.
  - right. exists b, e, (a ++ l'). rewrite <- app_assoc. split; [done|]. split; [done|]. by apply Forall_app.
Qed.

Lemma enables_app r l l' : Exists (enables_auto r) l → Exists (enables_auto r) (l ++ l').
Proof. intros H. apply Exists_app. by left. Qed.

Lemma frame_mono {I} {P P' : act → Prop} m m' : (∀ e, P e → P' e) → frame I P m m' → frame I P' m m'.
Proof. intros HP [(l & Hl & Hp) H2 H3]. split; [exists l; split; [done|by eapply Forall_impl]|done|done]. Qed.

(** ** The invariant of a run before its execution *)

Section run.
Context (cfg : settings) (sv : services) (r : string) (G : Prop).
Implicit Types m : machine coordinator act.

(** The control of the run is not in automatic mode. *)
Definition manual (v : view) : Prop :=
  ∀ k, v_controls v !! r = Some k → ct_auto_mode k = false.

(** Nothing was executed; and in the case [G], in which the other threads do not
    switch the run to automatic mode, it is not in that mode unless it took the
    command. *)
Definition pending (m : machine coordinator act) : Prop :=
  Forall not_executed (m_trace m)
  ∧ (G → env_keeps manual (m_ticks m)
         ∧ (Exists (enables_auto r) (m_trace m) ∨ manual (view_of (m_world m)))).

Lemma pending_frame m m' : frame manual not_executed m m' → pending m → pending m'.
Proof.
  intros [(l & Hl & Hp) Ht Hc] [He HG]. split.
  - rewrite Hl. by apply Forall_app.
  - intros g. destruct (HG g) as [Hk Ha]. split; [by eapply env_keeps_suffix|].
    rewrite Hl. destruct Ha as [Ha|Ha]; [left; by apply enables_app|right; by apply Hc].
Qed.

(** What happens while the run waits. *)
Record waits m m' : Prop := Waits {
  waits_trace : ∃ l, m_trace m' = m_trace m ++ l ∧ Forall is_took l;
  waits_pending : pending m → pending m' }.

#[export] Instance waits_preorder : PreOrder waits.
Proof.
  split; [intros m; split; [exists []; by rewrite app_nil_r|done]|].
  intros a b c [(l & H1 & Hl) H2] [(l' & H1' & Hl') H2']. split; [|by auto].
  exists (l ++ l'). rewrite H1', H1, app_assoc. split; [done|by apply Forall_app].
Qed.

Lemma frame_waits m m' : frame manual is_took m m' → waits m m'.
Proof.
  intros H. split; [exact (frame_trace _ _ _ _ H)|]. apply pending_frame.
  eapply frame_mono; [|exact H]. by intros [].
Qed.

Lemma respects_waits {A} (p : CM A) : Respects (frame manual is_took) p → Respects waits p.
Proof. intros H m. apply frame_waits, H. Qed.

(** The invariant under a change of the control that keeps the mode. *)
Lemma waits_change {A} (f : coordinator → A * coordinator) :
  (∀ w, view_of (f w).2 = view_of w
        ∨ ∃ g, (∀ c, ct_auto_mode (g c) = ct_auto_mode c)
               ∧ co_controls (f w).2 = <[r := g (control_of r w)]> (co_controls w)) →
  Respects (frame manual is_took) (locked f).
Proof.
  intros Hf [w tr [|t ts]]; unfold locked, step; cbn; [reflexivity|].
  specialize (Hf (tk_env t w)). destruct (f (tk_env t w)) as [a w']; cbn in *. split; cbn.
  - exists []. by rewrite app_nil_r.
  - by apply suffix_cons_r.
  - intros [Ht _]%Forall_cons HI. specialize (Ht _ HI). destruct Hf as [->|(g & Hg & Hc)]; [done|].
    intros k Hk. cbn in Hk. rewrite Hc, lookup_insert_eq in Hk. injection Hk as <-. rewrite Hg. unfold control_of.
    destruct (co_controls (tk_env t w) !! r) as [k|] eqn:E; cbn; [by apply Ht|done].
Qed.

Lemma waits_add_pause s : Respects (frame manual is_took) (add_pause_point r s).
Proof.
  apply waits_change. intros w. right. eexists (λ c, RunControl (ct_commands c) (ct_auto_mode c) _). by split.
Qed.
#[local] Hint Resolve waits_add_pause : frame.

Lemma waits_on_pause p : Respects (frame manual is_took) (on_pause cfg r p).
Proof. unfold on_pause. respects. Qed.

(** A command that is taken is in the trace. *)
Lemma wp_take_command s m :
  wp (take_command r s) m (λ o m', waits m m' ∧
    match o with Done (Some c) => ∃ l, m_trace m' = l ++ [Took r s c] | _ => True end).
Proof.
  unfold take_command. apply (wp_after (frame manual is_took)).
  - apply waits_change. intros w. cbv zeta. destruct (ct_commands _) as [|c cs]; [by left|right].
    by exists (λ k, RunControl cs (ct_auto_mode k) (ct_pause_points k)).
  - intros e m' H. by split; [apply frame_waits|].
  - intros m' H. by split; [apply frame_waits|].
  - intros [c|] m' H; [|by split; [apply frame_waits|]].
    apply wp_bind, wp_emit. cbn. split; [|by exists (m_trace m')].
    etrans; [by apply frame_waits|]. apply frame_waits, (frame_emit manual is_took (Took r s c) I m').
Qed.

Lemma wp_read_control m :
  wp (read_control r) m (λ o m', waits m m' ∧ match o with Done c => c = control_of r (m_world m') | _ => True end).
Proof.
  unfold wp. split; [apply frame_waits, (frame_read_control manual is_took r m)|].
  unfold read_control, locked, step. destruct m as [w tr [|t ts]]; [done|]. done.
Qed.

(** Going on from the evaluation: it passed, and in the case [G] the operators
    agreed. *)
Definition goes_on (s : string) (evaluation : option dict) (out : wait_result) m : Prop :=
  out = Continue → s = "evaluation_ready" → passing evaluation = true ∧ (G → approved r (m_trace m)).

Lemma auto_approved m : pending m → ct_auto_mode (control_of r (m_world m)) = true → G → approved r (m_trace m).
Proof.
  intros [_ HG] Ha g. destruct (HG g) as [_ [H|H]]; [by left|].
  unfold control_of in Ha. destruct (co_controls (m_world m) !! r) as [k|] eqn:E; cbn in Ha; [|done].
  by rewrite (H k E) in Ha.
Qed.

(** A waiting program and what holds of its result. *)
Definition waiting {A} (p : CM A) m (K : A → machine coordinator act → Prop) : Prop :=
  wp p m (λ o m', waits m m' ∧ match o with Done a => K a m' | _ => True end).

Lemma waiting_bind {A B} (p : CM A) (f : A → CM B) m K :
  waiting p m (λ a m', waiting (f a) m' K) → waiting (p ≫= f) m K.
Proof.
  unfold waiting. intros H. apply wp_bind. eapply wp_mono; [exact H|]. intros [a|e|] m' [Hw Hk]; cbn; [|done..].
  eapply wp_mono; [exact Hk|]. intros o m'' [Hw' Ho]. split; [by etrans|done].
Qed.

Lemma waiting_ret {A} (a : A) m K : (K a m : Prop) → waiting (mret a) m K.
Proof. intros H. apply wp_ret. by split. Qed.

Lemma waiting_frame {A} (p : CM A) m K :
  Respects (frame manual is_took) p → (∀ a m', waits m m' → K a m') → waiting p m K.
Proof.
  intros Hp HK. apply (wp_respects (frame manual is_took)); [done|]. intros o m' H%frame_waits.
  split; [done|]. destruct o; auto.
Qed.

Lemma waits_approved m m' : waits m m' → approved r (m_trace m) → approved r (m_trace m').
Proof. intros [(l & -> & Hl) _]. apply approved_app. by apply took_not_evaluated. Qed.

(** The result of a turn of the loop. *)
Definition turn_ok (s : string) (evaluation : option dict) (out : () + wait_result) m : Prop :=
  match out with inl _ => True | inr out => goes_on s evaluation out m end.

(** [resume_run] goes on when the run may. *)
Lemma waiting_resume s evaluation m :
  (s = "evaluation_ready" → passing evaluation = true ∧ (G → approved r (m_trace m))) →
  waiting (out ← resume_run cfg r s; mret (inr out)) m (turn_ok s evaluation).
Proof.
  intros H. apply waiting_bind, waiting_frame; [auto with frame nocore|]. intros out m' Hw.
  apply waiting_ret. intros _ Hs. destruct (H Hs) as [Hp Ha]. split; [done|]. intros g. by eapply waits_approved, Ha.
Qed.

Lemma waiting_idle s evaluation m :
  pending m → waiting (wait_idle cfg r s evaluation) m (turn_ok s evaluation).
Proof.
  intros Hm. unfold wait_idle. apply waiting_bind, waiting_frame; [auto with frame nocore|]. intros current m1 Hw1.
  apply waiting_bind, waiting_frame; [apply _|]. intros stopped m2 Hw2.
  destruct stopped; [by apply waiting_ret|].
  apply waiting_bind. unfold waiting. eapply wp_mono; [apply wp_read_control|]. intros o m3 [Hw3 Hc]. split; [done|].
  destruct o as [c| |]; [subst c|done..].
  assert (pending m3) as Hm3 by (eapply waits_pending, waits_pending, waits_pending; eauto).
  destruct (String.eqb s "evaluation_ready") eqn:Es; cbn [andb]; [|by apply waiting_ret].
  destruct (ct_auto_mode (control_of r (m_world m3))) eqn:Ea; cbn [andb]; [|by apply waiting_ret].
  destruct (passing evaluation) eqn:Ep; [|by apply waiting_ret].
  apply waiting_resume. intros _. split; [done|]. intros g. by apply auto_approved.
Qed.

(** Setting the mode keeps the invariant when the trace has the command. *)
Lemma waits_set_auto b m :
  (b = true → G → Exists (enables_auto r) (m_trace m)) → pending m →
  waiting (set_auto_mode r b) m (λ _ _, True).
Proof.
  intros Hb Hm. unfold waiting, set_auto_mode, locked. apply wp_step; [done|]. intros t ts Ht. cbn. split; [|done].
  split; cbn; [exists []; by rewrite app_nil_r|]. intros [He HG]. split; [done|]. intros g.
  destruct (HG g) as [Hk Ha]. rewrite Ht in Hk. apply Forall_cons in Hk as [_ Hk]. split; [done|].
  destruct b; [left; by apply Hb|]. right. intros k Hl. cbn in Hl. rewrite lookup_insert_eq in Hl. by injection Hl as <-.
Qed.

Lemma waiting_set_auto s evaluation c l m :
  cmd_command_type c = "set_auto_mode" → m_trace m = l ++ [Took r s c] → pending m →
  waiting (_ ← set_auto_mode r (truthy (dget_or "enabled" (VBool true) (cmd_payload c)));
           _ ← update_session cfg r [("auto_mode", VBool (truthy (dget_or "enabled" (VBool true) (cmd_payload c))))];
           if String.eqb s "evaluation_ready" && truthy (dget_or "enabled" (VBool true) (cmd_payload c)) && passing evaluation
           then out ← resume_run cfg r s; mret (inr out) else mret (inl ())) m (turn_ok s evaluation).
Proof.
  intros Hc Hl Hm. set (b := truthy _).
  assert (b = true → Exists (enables_auto r) (m_trace m)) as Hen.
  { intros Hb. rewrite Hl. apply Exists_app. right. constructor. by repeat split. }
  apply waiting_bind. unfold waiting. eapply wp_mono; [by apply waits_set_auto; auto|]. intros o m1 [Hw1 _].
  split; [done|]. destruct o as [[]| |]; [|done..].
  apply waiting_bind, waiting_frame; [auto with frame nocore|]. intros _ m2 Hw2.
  destruct (String.eqb s "evaluation_ready") eqn:Es; cbn [andb]; [|by apply waiting_ret].
  destruct b eqn:Eb; cbn [andb]; [|by apply waiting_ret].
  destruct (passing evaluation) eqn:Ep; [|by apply waiting_ret].
  apply waiting_resume. intros _. split; [done|]. intros g.
  eapply waits_approved; [exact Hw2|]. eapply waits_approved; [exact Hw1|]. left. by apply Hen.
Qed.

Lemma waiting_on_command s evaluation c l m :
  m_trace m = l ++ [Took r s c] → pending m →
  waiting (on_command cfg r s evaluation c) m (turn_ok s evaluation).
Proof.
  intros Hl Hm. unfold on_command. cbv zeta.
  destruct (String.eqb (cmd_command_type c) "attach_note") eqn:E1; [by apply waiting_ret|].
  destruct (String.eqb (cmd_command_type c) "pause_after_stage") eqn:E2.
  { apply waiting_bind, waiting_frame; [apply waits_on_pause|]. intros _ m' _. by apply waiting_ret. }
  destruct (String.eqb (cmd_command_type c) "set_auto_mode") eqn:E3.
  { apply String.eqb_eq in E3. by eapply waiting_set_auto. }
  destruct (String.eqb (cmd_command_type c) "cancel") eqn:E4; [by apply waiting_ret|].
  destruct (mem_str (cmd_command_type c) ["resume"; "approve"]) eqn:E5.
  - destruct (String.eqb s "evaluation_ready" && negb (passing evaluation)) eqn:Eb.
    + apply waiting_bind, waiting_frame; [auto with frame nocore|]. intros _ m' _. by apply waiting_ret.
    + apply waiting_resume. intros ->. cbn in Eb. apply negb_false_iff in Eb. split; [done|]. intros _. right.
      exists l, (Took r "evaluation_ready" c), []. by repeat split.
  - destruct (mem_str _ STEERING_DECISION_COMMANDS); [|by apply waiting_ret].
    apply waiting_bind, waiting_frame; [auto with frame nocore|]. intros _ m' _. by apply waiting_ret.
Qed.

Lemma waiting_turn s evaluation u m :
  pending m → waiting (wait_turn cfg r s evaluation u) m (turn_ok s evaluation).
Proof.
  intros Hm. unfold wait_turn. apply waiting_bind. unfold waiting. eapply wp_mono; [apply wp_take_command|].
  intros o m1 [Hw1 Ho]. split; [done|]. destruct o as [[c|]| |]; [|  |done..].
  - destruct Ho as [l Hl]. by eapply waiting_on_command, waits_pending.
  - by eapply waiting_idle, waits_pending.
Qed.

(** Whatever the other threads do, a run goes on from its evaluation only when
    that passed, and with an agreement of the operators. *)
Lemma waiting_wait s evaluation m :
  pending m → waiting (wait_if_needed cfg sv r s evaluation) m (goes_on s evaluation).
Proof.
  intros Hm. unfold wait_if_needed.
  apply waiting_bind, waiting_frame; [auto with frame nocore|]. intros found m1 Hw1.
  apply waiting_bind, waiting_frame; [auto with frame nocore|]. intros control m2 Hw2.
  destruct found, control; try by apply waiting_ret.
  apply waiting_bind, waiting_frame; [auto with frame nocore|]. intros c1 m3 Hw3.
  apply waiting_bind. unfold waiting at 1. eapply wp_mono; [apply wp_read_control|]. intros o m4 [Hw4 Hc].
  split; [done|]. destruct o as [c2| |]; [subst c2|done..]. cbv zeta.
  assert (pending m4) as Hm4 by (do 4 (eapply waits_pending; [eassumption|]); done).
  destruct (_ && _) eqn:E1.
  { apply waiting_ret. intros _ ->. apply andb_prop in E1 as [_ E1]. cbn in E1. rewrite orb_false_r in E1.
    apply andb_prop in E1 as [[Ha Hp]%andb_prop _]. split; [done|]. intros g. by apply auto_approved. }
  destruct (negb _ && negb _) eqn:E2.
  { apply waiting_ret. intros _ ->. by rewrite andb_false_r in E2. }
  apply waiting_bind, waiting_frame; [auto with frame nocore|]. intros _ m5 Hw5.
  apply waiting_bind, waiting_frame; [auto with frame nocore|]. intros _ m6 Hw6.
  assert (pending m6) as Hm6 by (do 2 (eapply waits_pending; [eassumption|]); done).
  unfold waiting. apply (wp_loop (λ _ m', waits m6 m')); [by intros _ m'| |done].
  intros [] m' Hw'. eapply wp_mono; [apply waiting_turn; by eapply waits_pending|].
  intros [[[]|out]|e|] m'' [Hw'' Ho]; cbn; try (split; [|done]); by etrans.
Qed.

(** ** The trace of a whole run *)

Abbreviation anything := (λ _ : view, True).
Abbreviation nothing := (λ _ : act, False).

(** At most one execution: that of the decision evaluated last, whose
    evaluation lets it through, and which in the case [G] the operators agreed
    to. *)
Definition sound_trace (l : list act) : Prop :=
  Forall not_executed l
  ∨ ∃ before d e after, l = before ++ Executed r d e :: after ∧ Forall not_executed (before ++ after)
      ∧ last_evaluated before = Some (d, e) ∧ passes e = true ∧ (G → approved r before).

Definition sound {A} (_ : outcome A) m : Prop := sound_trace (m_trace m).

Lemma sound_frame m m' : frame anything not_executed m m' → sound_trace (m_trace m) → sound_trace (m_trace m').
Proof.
  intros [(l & -> & Hl) _ _] [H|(b & d & e & a & -> & Hb & H)].
  - left. by apply Forall_app.
  - right. exists b, d, e, (a ++ l). rewrite <- app_assoc. split; [done|]. split; [|done].
    rewrite app_assoc. by apply Forall_app.
Qed.

Lemma frame_anything {I P} m m' : frame I P m m' → frame anything P m m'.
Proof. by intros [? ? ?]. Qed.

Lemma pending_silent m m' : frame manual nothing m m' → pending m → pending m'.
Proof. intros H. apply pending_frame. by eapply frame_mono, H. Qed.

Lemma silent_trace {I} m m' : frame I nothing m m' → m_trace m' = m_trace m.
Proof. intros [([|e l] & -> & Hl) _ _]; [by rewrite app_nil_r|by inv Hl]. Qed.

Lemma pending_sound m : pending m → sound_trace (m_trace m).
Proof. intros [H _]. by left. Qed.

(** What does not execute anything keeps a trace sound. *)
Lemma wp_sound {A} (p : CM A) m :
  Respects (frame anything not_executed) p → sound_trace (m_trace m) → wp p m sound.
Proof. intros Hp Hm. apply (wp_respects (frame anything not_executed)); [done|]. intros o m' H. by eapply sound_frame. Qed.

(** A program before the execution, and what holds of its result. *)
Definition prepares {A} (p : CM A) m (K : A → machine coordinator act → Prop) : Prop :=
  wp p m (λ o m', pending m' ∧ match o with Done a => K a m' | _ => True end).

Lemma prepares_bind {A B} (p : CM A) (f : A → CM B) m K :
  prepares p m (λ a m', pending m' → prepares (f a) m' K) → prepares (p ≫= f) m K.
Proof.
  unfold prepares. intros H. apply wp_bind. eapply wp_mono; [exact H|]. intros [a|e|] m' [Hw Hk]; cbn; auto.
Qed.

Lemma prepares_ret {A} (a : A) m K : pending m → (K a m : Prop) → prepares (mret a) m K.
Proof. intros Hm H. by apply wp_ret. Qed.

Lemma prepares_silent {A} (p : CM A) m K :
  Respects (frame manual nothing) p → pending m → (∀ a m', m_trace m' = m_trace m → (K a m' : Prop)) → prepares p m K.
Proof.
  intros Hp Hm HK. apply (wp_respects (frame manual nothing)); [done|]. intros o m' H.
  split; [by eapply pending_silent|]. destruct o; [|done..]. by apply HK, (silent_trace _ _ H).
Qed.

Lemma prepares_waiting {A} (p : CM A) m K : pending m → waiting p m (λ a m', waits m m' → (K a m' : Prop)) → prepares p m K.
Proof.
  intros Hm. unfold waiting, prepares. intros H. eapply wp_mono; [exact H|]. intros o m' [Hw Ho].
  split; [by eapply waits_pending|]. destruct o; auto.
Qed.

(** Then the rest of a run. *)
Lemma wp_prepares {A B} (p : CM A) (f : A → CM B) m K :
  prepares p m K → (∀ a m', pending m' → K a m' → wp (f a) m' sound) → wp (p ≫= f) m sound.
Proof.
  unfold prepares. intros H Hf. apply wp_bind. eapply wp_mono; [exact H|].
  intros [a|e|] m' [Hm Hk]; cbn; [by apply Hf|by apply pending_sound..].
Qed.

Lemma wp_silent {A B} (p : CM A) (f : A → CM B) m :
  Respects (frame manual nothing) p → pending m →
  (∀ a m', pending m' → m_trace m' = m_trace m → wp (f a) m' sound) → wp (p ≫= f) m sound.
Proof. intros Hp Hm Hf. eapply wp_prepares; [by apply prepares_silent; [..|intros a m' E; exact E]|]. auto. Qed.

Definition evaluated_last (de : dict * dict) m : Prop := last_evaluated (m_trace m) = Some de.

(** A property of the trace passes a silent program. *)
Lemma prepares_keep {A B} (p : CM A) (f : A → CM B) m (T : list act → Prop) K :
  Respects (frame manual nothing) p → pending m → T (m_trace m) →
  (∀ a m', pending m' → T (m_trace m') → prepares (f a) m' K) → prepares (p ≫= f) m K.
Proof.
  intros Hp Hm HT Hf. apply prepares_bind, prepares_silent; [done|done|]. intros a m' E Hm'.
  apply Hf; [done|by rewrite E].
Qed.

(** The evaluation counts from the moment it is there. *)
Lemma prepares_record_evaluation q t d again m :
  pending m → prepares (record_evaluation cfg sv q t d again) m (λ e m', evaluated_last (d, e) m').
Proof.
  intros Hm. unfold record_evaluation. cbv zeta.
  apply prepares_bind, prepares_silent; [auto with frame nocore|done|]. intros e m1 _ Hm1.
  apply prepares_bind. unfold prepares at 1. apply wp_emit. split.
  { eapply pending_frame, Hm1. apply (frame_emit manual not_executed (Evaluated _ d e) I m1). }
  intros Hm2. set (T l := last_evaluated l = Some (d, e)).
  assert (T (m_trace m1 ++ [Evaluated (qr_run_id q) d e])) as HT by (unfold T; by rewrite last_evaluated_app).
  apply (prepares_keep _ _ _ T); [apply _|done|done|]. intros payload m3 Hm3 HT3.
  do 3 (apply (prepares_keep _ _ _ T); [auto with frame nocore|done|done|]; clear HT3; intros _ ? ? HT3).
  by apply prepares_ret.
Qed.

Lemma prepares_record_decision_and_evaluation q t d p again m :
  pending m → prepares (record_decision_and_evaluation cfg sv q t d p again) m evaluated_last.
Proof.
  intros Hm. unfold record_decision_and_evaluation. cbv zeta.
  apply (prepares_keep _ _ _ (λ _, True)); [auto with frame nocore|done|done|]. intros d' m1 Hm1 _.
  do 2 (apply (prepares_keep _ _ _ (λ _, True)); [auto with frame nocore|done|done|]; intros _ ? ? _).
  apply prepares_bind. eapply wp_mono; [by apply prepares_record_evaluation|].
  intros [e|e|] m2 [Hm2 He]; (split; [done|]); [|done..]. intros _.
  set (T l := last_evaluated l = Some (d', e)). cbn in He.
  do 3 (apply (prepares_keep _ _ _ T); [auto with frame nocore|done|done|]; clear He; intros ? ? ? He).
  by apply prepares_ret.
Qed.

(** ** The gate before the execution *)

(** The pair that passes the gate. *)
Definition cleared (out : option (dict * dict)) m : Prop :=
  match out with
  | Some (d, e) => evaluated_last (d, e) m ∧ passes e = true ∧ (G → approved r (m_trace m))
  | None => True
  end.

Lemma waits_evaluated de m m' : waits m m' → evaluated_last de m → evaluated_last de m'.
Proof.
  intros [(l & E & Hl) _]. unfold evaluated_last. rewrite E, last_evaluated_app.
  by rewrite (last_evaluated_none l (took_not_evaluated l Hl)).
Qed.

Lemma prepares_evaluation_turn q t p de m :
  qr_run_id q = r → pending m → evaluated_last de m →
  prepares (evaluation_turn cfg sv q t p de) m (λ out m',
    match out with inl de => evaluated_last de m' | inr out => cleared out m' end).
Proof.
  intros Hq Hm Hde. destruct de as [d e]. unfold evaluation_turn. cbv zeta. rewrite Hq.
  apply prepares_bind, prepares_waiting; [done|].
  unfold waiting. eapply wp_mono; [by apply waiting_wait|]. intros o m1 [Hw Ho]. split; [done|].
  destruct o as [out| |]; [|done..]. intros _ Hm1. apply (waits_evaluated _ _ _ Hw) in Hde.
  destruct out as [| |payload].
  - apply prepares_ret; [done|]. destruct (Ho eq_refl eq_refl) as [Hp Ha]. by split.
  - apply (prepares_keep _ _ _ (λ _, True)); [auto with frame nocore|done|done|]. intros _ m2 Hm2 _. by apply prepares_ret.
  - apply (prepares_keep _ _ _ (λ _, True)); [apply _|done|done|]. intros d' m2 Hm2 _.
    apply (prepares_keep _ _ _ (λ _, True)); [auto with frame nocore|done|done|]. intros _ m3 Hm3 _.
    apply prepares_bind. eapply wp_mono; [by apply prepares_record_decision_and_evaluation|].
    intros [de|e'|] m4 [Hm4 He]; (split; [done|]); [|done..]. intros _. by apply prepares_ret.
Qed.

Lemma prepares_evaluation_gate q t p de m :
  qr_run_id q = r → pending m → evaluated_last de m → prepares (evaluation_gate cfg sv q t p de) m cleared.
Proof.
  intros Hq Hm Hde. unfold evaluation_gate, prepares.
  apply (wp_loop (λ de m, pending m ∧ evaluated_last de m)); [by intros de' m' []| |done].
  intros de' m' [Hm' Hde']. eapply wp_mono; [by apply prepares_evaluation_turn|].
  by intros [[de''|out]|e|] m'' [Hm'' Ho]; cbn.
Qed.

(** ** The whole run *)

Lemma took_unexecuted run_id stage c : not_executed (Took run_id stage c).
Proof. exact I. Qed.

(** What follows the call of the orchestrator executes nothing. *)
Lemma quiet_feedback_gate e : Respects (frame anything not_executed) (feedback_gate cfg sv r e).
Proof. by apply frame_feedback_gate. Qed.

Lemma sound_actuate q t n d e m :
  qr_run_id q = r → pending m → cleared (Some (d, e)) m → wp (actuate cfg sv q t n d e) m sound.
Proof.
  intros Hq Hm (Hde & Hp & Ha). unfold actuate, execution_phase. cbv zeta. rewrite Hq.
  apply wp_bind. apply wp_bind. apply (wp_respects (frame manual nothing)); [auto with frame nocore|].
  assert (∀ m1, frame manual nothing m m1 → m_trace m1 = m_trace m ∧ pending m1) as H1.
  { intros m1 H. split; [by eapply silent_trace|by eapply pending_silent]. }
  intros o m1 H%H1. destruct H as [E1 Hm1]. destruct o as [u|x|]; cbn; [clear u|by apply pending_sound..].
  apply wp_bind, wp_emit. cbn. rewrite E1.
  assert (sound_trace (m_trace m ++ [Executed r d e])) as Hs.
  { right. exists (m_trace m), d, e, []. rewrite app_nil_r. split; [done|]. split; [by apply Hm|done]. }
  eapply wp_mono.
  { apply wp_sound; [|exact Hs]. pose proof quiet_feedback_gate. respects. }
  intros [x|y|] m2 Hm2; cbn; [|done..]. apply wp_sound; [|done].
  pose proof quiet_feedback_gate as Hg. apply respects_bind; [apply _|auto with frame nocore|intros f].
  apply respects_bind; [apply _|apply Hg|intros b]. respects.
Qed.

(** Without a child run the controls are left alone. *)
Lemma prepares_recovery k s t d e m :
  pending m →
  wp (maybe_launch_recovery_run cfg sv r k s t d e) m (λ o m', sound_trace (m_trace m')
    ∧ (o = Done false → pending m' ∧ m_trace m' = m_trace m)).
Proof.
  intros Hm. unfold maybe_launch_recovery_run.
  set (Q := λ (o : outcome bool) m', _).
  assert (∀ o m', frame manual nothing m m' → Q o m') as HQ.
  { intros o m' H. split; [by eapply pending_sound, pending_silent|]. intros _. split; [by eapply pending_silent|by eapply silent_trace]. }
  assert (∀ {A} (p : CM A) (f : A → CM bool) m1, Respects (frame manual nothing) p → frame manual nothing m m1 →
            (∀ a m', frame manual nothing m m' → wp (f a) m' Q) → wp (p ≫= f) m1 Q) as Hthen.
  { intros A p f m1 Hp H1 Hf. apply (wp_after (frame manual nothing)); [done|..].
    - intros x m' H. apply HQ. by etrans.
    - intros m' H. apply HQ. by etrans.
    - intros a m' H. apply Hf. by etrans. }
  assert (∀ b m1, frame manual nothing m m1 → wp (mret b) m1 Q) as Hret by (intros b m1 H; by apply HQ).
  apply Hthen; [auto with frame nocore|reflexivity|]. intros control m1 H1.
  destruct (negb _); [by apply Hret|].
  apply Hthen; [apply _|done|]. intros found m2 H2. destruct found as [blockers|]; [|by apply Hret].
  apply Hthen; [auto with frame nocore|done|]. intros session m3 H3. destruct session as [session|]; [|by apply Hret].
  do 3 (apply Hthen; [apply _|eassumption|]; intros ? ? ?).
  destruct (Z.leb _ _).
  - apply Hthen; [auto with frame nocore|done|]. intros _ m7 H7. by apply Hret.
  - apply (wp_after (frame anything not_executed)).
    + by apply frame_launch.
    + intros x mf Hf. split; [|done]. by eapply sound_frame, pending_sound, pending_silent.
    + intros mf Hf. split; [|done]. by eapply sound_frame, pending_sound, pending_silent.
    + intros _ mf Hf. apply wp_ret. split; [|done]. by eapply sound_frame, pending_sound, pending_silent.
Qed.

Lemma sound_settle q s n t p de m :
  qr_run_id q = r → pending m → evaluated_last de m → wp (settle cfg sv q s n t p de) m sound.
Proof.
  intros Hq Hm Hde. unfold settle. cbv zeta. destruct de as [d e]. rewrite Hq.
  apply wp_bind. eapply wp_mono; [by apply prepares_recovery|].
  intros [[]|x|] m1 [Hs H1]; cbn; [done| |done..]. destruct (H1 eq_refl) as [Hm1 E1].
  destruct (is_string _ _); [by apply wp_sound; [auto with frame nocore|]|].
  eapply wp_prepares; [apply prepares_evaluation_gate; [done..|]|].
  { unfold evaluated_last. by rewrite E1. }
  intros [[d' e']|] m2 Hm2 Hc; [by apply sound_actuate|]. apply wp_sound; [respects|by apply pending_sound].
Qed.

Lemma prepares_trigger_gate m : pending m → prepares (trigger_gate cfg sv r) m (λ _ _, True).
Proof.
  intros Hm. unfold trigger_gate, prepares. apply (wp_loop (λ _ m, pending m)); [by intros _ m'| |done].
  intros u m' Hm'. unfold gate_turn. apply wp_bind. eapply wp_mono; [by apply waiting_wait|].
  intros [out|e|] m1 [Hw _]; cbn; [|split; [by eapply waits_pending|done]..].
  apply (waits_pending _ _ Hw) in Hm'.
  destruct out.
  - by apply wp_ret.
  - apply (wp_after (frame manual nothing)); [auto with frame nocore|..];
      intros; (split; [by eapply pending_silent|done]).
  - apply (wp_after (frame manual nothing)); [auto with frame nocore|..];
      [intros; by split; [eapply pending_silent|]..|].
    intros _ m2 H2. apply wp_ret. by eapply pending_silent.
Qed.

Lemma prepares_decision_phase q t k a p m : pending m → prepares (decision_phase cfg sv q t k a p) m evaluated_last.
Proof.
  intros Hm. unfold decision_phase. cbv zeta.
  do 8 (apply (prepares_keep _ _ _ (λ _, True)); [solve [apply _|auto with frame nocore]|done|done|]; intros ? ? ? _).
  by apply prepares_record_decision_and_evaluation.
Qed.

Lemma sound_handle_trigger q s n t m :
  qr_run_id q = r → pending m → wp (handle_trigger cfg sv q s n t) m sound.
Proof.
  intros Hq Hm. unfold handle_trigger. cbv zeta. rewrite Hq.
  apply wp_silent; [auto with frame nocore|done|]. intros p m1 Hm1 _.
  apply wp_silent; [auto with frame nocore|done|]. intros _ m2 Hm2 _.
  eapply wp_prepares; [by apply prepares_trigger_gate|]. intros [] m3 Hm3 _; cbn.
  2:{ apply wp_sound; [respects|by apply pending_sound]. }
  do 3 (apply wp_silent; [auto with frame nocore|done|]; intros ? ? ? _).
  eapply wp_prepares; [by apply prepares_decision_phase|]. intros de m7 Hm7 Hde. by apply sound_settle.
Qed.

Lemma sound_run_body q s m : qr_run_id q = r → pending m → wp (run_body cfg sv q s) m sound.
Proof.
  intros Hq Hm. unfold run_body. apply wp_silent; [auto with frame nocore|done|]. intros [sig n] m1 Hm1 _.
  apply wp_silent; [auto with frame nocore|done|]. intros [t|] m2 Hm2 _; [by apply sound_handle_trigger|].
  apply wp_sound; [auto with frame nocore|by apply pending_sound].
Qed.

Lemma sound_execute_run q m : qr_run_id q = r → pending m → wp (execute_run cfg sv q) m sound.
Proof.
  intros Hq Hm. unfold execute_run. apply wp_silent; [auto with frame nocore|done|]. intros [s|] m1 Hm1 _.
  2:{ apply wp_sound; [respects|by apply pending_sound]. }
  apply wp_silent; [auto with frame nocore|done|]. intros _ m2 Hm2 _.
  unfold guarded_run. apply wp_finally. unfold or_else. apply wp_catch.
  assert (∀ (o : outcome ()) m, sound_trace (m_trace m) →
    match o with Unfinished => sound o m
               | _ => wp (finalize_run (qr_run_id q)) m (stops (A:=()) (B:=()) sound (λ _, sound o)) end) as Hfin.
  { intros o m3 Hs. assert (wp (finalize_run (qr_run_id q)) m3 (stops (A:=()) (B:=()) sound (λ _, sound o))).
    { eapply wp_mono; [apply wp_sound; [by apply frame_finalize|exact Hs]|]. by intros [[]|e|]. }
    by destruct o. }
  eapply wp_mono; [by apply sound_run_body|]. intros [u|e|] m3 Hs; [by apply (Hfin (Done u))| |done].
  eapply wp_mono; [by apply wp_sound; [auto with frame nocore|]|]. intros o m4 Hs4. by apply (Hfin o).
Qed.
End run.

(** ** Executions *)

Lemma passes_spec e :
  passes e = true → truthy (dgetN "passed" e) = true ∧ dgetN "final_recommendation" e = VStr "execute".
Proof.
  unfold passes. intros [Hp Hr]%andb_prop. split; [done|]. unfold is_string in Hr.
  destruct (dgetN "final_recommendation" e); try done. by apply String.eqb_eq in Hr as <-.
Qed.

(** C1: a run calls the orchestrator at most once, and then with the decision it
    evaluated last and an evaluation that passed and recommends to execute it,
    whatever operators and other threads do at any moment of the run. *)
Theorem executes_only_what_passed cfg sv q w ticks :
  let l := m_trace (execute_run cfg sv q (Machine w [] ticks)).2 in
  Forall not_executed l
  ∨ ∃ before d e after, l = before ++ Executed (qr_run_id q) d e :: after ∧ Forall not_executed (before ++ after)
      ∧ last_evaluated before = Some (d, e)
      ∧ truthy (dgetN "passed" e) = true ∧ dgetN "final_recommendation" e = VStr "execute".
Proof.
  assert (pending (qr_run_id q) False (Machine w [] ticks)) as Hm by (split; [constructor|done]).
  destruct (sound_execute_run cfg sv (qr_run_id q) False q _ eq_refl Hm) as [H|(b & d & e & a & E & Hq & He & Hp & _)].
  - by left.
  - right. exists b, d, e, a. split; [done|]. split; [done|]. split; [done|]. by apply passes_spec.
Qed.

(** A list splits in one way around its only element of a kind. *)
Lemma split_unique {A} (P : A → Prop) b x a b' x' a' :
  Forall P (b ++ a) → ¬ P x' → b ++ x :: a = b' ++ x' :: a' → b = b' ∧ x = x'.
Proof.
  revert b'. induction b as [|y b IH]; intros [|y' b'] Hb Hx E; cbn in *; simplify_eq; try done.
  - exfalso. apply Hx. rewrite Forall_forall in Hb. apply Hb. apply list_elem_of_In, in_or_app. right. by left.
  - inv Hb. contradiction.
  - inv Hb. destruct (IH b') as [-> ->]; auto.
Qed.

(** C15: when the control of a run is not in automatic mode and no other thread
    puts it in that mode, then before the orchestrator is called the run took
    an approval or a resumption at its evaluation, after the last evaluation,
    or a command that switches the automatic mode on. *)
Theorem execution_needs_approval cfg sv q w ticks before r d e after :
  env_keeps (manual (qr_run_id q)) ticks → manual (qr_run_id q) (view_of w) →
  m_trace (execute_run cfg sv q (Machine w [] ticks)).2 = before ++ Executed r d e :: after →
  approved (qr_run_id q) before.
Proof.
  intros Hk Hw E.
  assert (pending (qr_run_id q) True (Machine w [] ticks)) as Hm by (split; [constructor|intros _; by split; [|right]]).
  destruct (sound_execute_run cfg sv (qr_run_id q) True q _ eq_refl Hm) as [H|(b & d' & e' & a & E' & Hq & He & Hp & Ha)].
  - rewrite E in H. by apply Forall_app in H as [_ [[]]%Forall_cons].
  - rewrite E in E'. symmetry in E'. destruct (split_unique not_executed _ _ _ _ (Executed r d e) _ Hq id E') as [-> _]. by apply Ha.
Qed.

(** ** Threads that do not switch the mode on *)

(** A section that keeps the mode of every control it finds. *)
Lemma frame_mode r P {A} (f : coordinator → A * coordinator) :
  (∀ w k, co_controls (f w).2 !! r = Some k → ct_auto_mode k = true →
          ∃ k', co_controls w !! r = Some k' ∧ ct_auto_mode k' = true) →
  Respects (frame (manual r) P) (locked f).
Proof.
  intros Hf [w tr [|t ts]]; unfold locked, step; cbn; [reflexivity|].
  specialize (Hf (tk_env t w)). destruct (f (tk_env t w)) as [a w']; cbn in *. split; cbn.
  - exists []. by rewrite app_nil_r.
  - by apply suffix_cons_r.
  - intros [Ht _]%Forall_cons HI k Hk. specialize (Ht _ HI). destruct (ct_auto_mode k) eqn:Ek; [|done].
    destruct (Hf k Hk Ek) as (k' & Hk' & Ek'). by rewrite (Ht k' Hk') in Ek'.
Qed.

Lemma frame_push r P r' c : Respects (frame (manual r) P) (push_command r' c).
Proof.
  apply frame_mode. intros w k. destruct (co_controls w !! r') as [k'|] eqn:E; cbn; [|by eauto].
  destruct (decide (r = r')) as [->|Hr]; [rewrite lookup_insert_eq|rewrite lookup_insert_ne; eauto].
  intros [= <-]. cbn. eauto.
Qed.

Lemma frame_switches r P actions : Respects (frame (manual r) P) (locked (λ w, ((), apply_switches actions w))).
Proof.
  apply frame_mode. intros w k. cbn. unfold apply_switches. cbv zeta.
  destruct (mem_str _ _); cbn; [|by eauto]. unfold gate_controls. rewrite map_lookup_imap. cbn.
  destruct (co_controls w !! r) as [k'|] eqn:E; cbn; [|done]. intros [= <-]. case_bool_decide; cbn; [done|eauto].
Qed.

Section steering.
Context (r : string) (P : act → Prop) (cfg : settings) (sv : services).
Abbreviation R := (frame (manual r) P).

Lemma frame_read_clock : Respects R read_clock.
Proof. unfold read_clock. respects. Qed.
Lemma frame_release_mode r' : Respects R (release_run_admission r').
Proof. by apply frame_release. Qed.
#[local] Hint Resolve frame_read_clock frame_push frame_switches frame_release_mode : frame.

Lemma frame_save_in r' k s d : Respects R (save_in_artifacts cfg r' k s d).
Proof. unfold save_in_artifacts. respects. Qed.
#[local] Hint Resolve frame_save_in : frame.

Lemma frame_build_review r' t s p o : Respects R (build_review r' t s p o).
Proof.
  unfold build_review, build_override_review_record, build_postmortem_review_record,
    select_override_command_for_review. respects.
Qed.
#[local] Hint Resolve frame_build_review : frame.

Lemma frame_handoff r' s p o e : Respects R (record_operator_handoff cfg r' s p o e).
Proof. unfold record_operator_handoff. respects. Qed.
#[local] Hint Resolve frame_handoff : frame.

Lemma frame_persist r' c d u : Respects R (persist_hermes_explanation cfg r' c d u).
Proof. unfold persist_hermes_explanation. respects. Qed.
#[local] Hint Resolve frame_persist : frame.

Lemma frame_deliver r' s c o e : Respects R (deliver_command cfg sv r' s c o e).
Proof. unfold deliver_command, explain_blockers, chat_with_hermes. respects. Qed.
#[local] Hint Resolve frame_deliver : frame.

(** No request to [steer_run] and none to the kill switch puts a run in
    automatic mode: only the run does, when it takes the command. *)
Lemma frame_steer r' p : Respects R (steer_run cfg sv r' p).
Proof.
  unfold steer_run, apply_command, save_override_review, save_postmortem_review, attach_note, new_command. respects.
Qed.

Lemma frame_kill_switch p : Respects R (apply_kill_switch sv p).
Proof. unfold apply_kill_switch, kill_switch_status. respects. Qed.
End steering.
