(* ===== verification/RunEnds.v ===== *)
(** * How runs and waits end

    What a worker leaves behind when a run ends in any way, and when a run that
    waits for its operators stops waiting. *)

From S2P Require Import Prelude PyFloat PyValue Json Models Contracts StateStore RunMachine Steering Coordinator CreateRun.
From S2P Require Import RunEvidence RunDecision RunExecution RunFrame RunTheorems RunAdmission.
From stdpp Require Import gmap.
#[local] Open Scope nat_scope.

(** ** The tables of target locks *)

(** Whoever holds a target is on record with it. *)
Definition locks_consistent (w : coordinator) : Prop :=
  ∀ key run_id, co_target_locks w !! key = Some run_id → key ≠ "" ∧ co_run_locks w !! run_id = Some key.

(** Nothing of a run is left. *)
Record forgotten (run_id : string) (w : coordinator) : Prop := Forgotten {
  forgotten_control : run_id ∉ co_tracked w;
  forgotten_thread : run_id ∉ co_threads w;
  forgotten_tenant : co_tenants w !! run_id = None;
  forgotten_lock : co_run_locks w !! run_id = None }.

Lemma finalized_forgotten run_id w : forgotten run_id (finalized run_id w).
Proof.
  split; cbn; try apply lookup_delete_eq; rewrite elem_of_difference, elem_of_singleton; by intros [].
Qed.

Lemma pop_target_lock_spec run_id w key r :
  locks_consistent w →
  pop_target_lock run_id w !! key = Some r ↔ co_target_locks w !! key = Some r ∧ r ≠ run_id.
Proof.
  intros Hw. unfold pop_target_lock.
  destruct (co_run_locks w !! run_id) as [k|] eqn:Ek.
  2:{ split; [|by intros []]. intros H. split; [done|]. intros ->. destruct (Hw key run_id H) as [_ H']. by rewrite Ek in H'. }
  destruct (String.eqb_spec k "") as [->|Hk]; cbn [negb andb].
  { split; [|by intros []]. intros H. split; [done|]. intros ->. destruct (Hw key run_id H) as [Hne H'].
    rewrite Ek in H'. by injection H' as <-. }
  case_bool_decide as Hh.
  - destruct (decide (key = k)) as [->|Hne].
    + rewrite lookup_delete_eq, Hh. split; [done|]. intros [[= ->] []]. done.
    + rewrite lookup_delete_ne by done. split; [|by intros []]. intros H. split; [done|]. intros ->.
      destruct (Hw key run_id H) as [_ H']. rewrite Ek in H'. by injection H' as <-.
  - split; [|by intros []]. intros H. split; [done|]. intros ->.
    destruct (Hw key run_id H) as [_ H']. rewrite Ek in H'. by injection H' as <-.
Qed.

(** The sections under [_lock] that change the tables: a run that is not on
    record registers with the key of its boundary, and runs leave. *)
Inductive lock_section : coordinator → coordinator → Prop :=
  | section_register run_id auto_mode pause_points tenant_id boundary enabled w :
      co_run_locks w !! run_id = None →
      lock_section w (registered run_id auto_mode pause_points tenant_id (build_target_lock_key boundary) enabled w)
  | section_release run_id w : lock_section w (release_locks run_id w)
  | section_finalize run_id w : lock_section w (finalized run_id w)
  | section_other w w' :
      co_run_locks w' = co_run_locks w → co_target_locks w' = co_target_locks w → lock_section w w'.

Lemma lock_key_not_empty boundary : build_target_lock_key boundary ≠ "".
Proof.
  rewrite lock_key_eq. generalize (stripped_or_unknown "tenant_id" boundary) as t. by intros [].
Qed.

Lemma release_consistent run_id w : locks_consistent w → locks_consistent (release_locks run_id w).
Proof.
  intros Hw key r. cbn. rewrite (pop_target_lock_spec run_id w key r Hw). intros [H Hr].
  destruct (Hw key r H) as [Hk H']. split; [done|]. by rewrite lookup_delete_ne.
Qed.

Lemma lock_section_consistent w w' : lock_section w w' → locks_consistent w → locks_consistent w'.
Proof.
  intros Hs Hw. destruct Hs as [run_id auto pp tenant boundary enabled w Hnew|run_id w|run_id w|w w' H1 H2].
  - intros key r. cbn. destruct enabled.
    + destruct (decide (key = build_target_lock_key boundary)) as [->|Hk].
      * rewrite lookup_insert_eq. intros [= <-]. rewrite lookup_insert_eq. split; [apply lock_key_not_empty|done].
      * rewrite lookup_insert_ne by done. intros H. destruct (Hw key r H) as [Hne H']. split; [done|].
        rewrite lookup_insert_ne; [done|]. intros <-. by rewrite Hnew in H'.
    + intros H. destruct (Hw key r H) as [Hne H']. split; [done|].
      rewrite lookup_insert_ne; [done|]. intros <-. by rewrite Hnew in H'.
  - by apply release_consistent.
  - exact (release_consistent run_id w Hw).
  - intros key r. rewrite H1, H2. apply Hw.
Qed.

(** C20: from a coordinator without runs, any sequence of registrations,
    releases and finalisations leaves a holder on record for every target that
    is held, and a run that is finalised then holds none; every other holder
    keeps its target. *)
Theorem locks_stay_consistent w w' run_id :
  co_target_locks w = ∅ → rtc lock_section w w' →
  locks_consistent w'
  ∧ forgotten run_id (finalized run_id w')
  ∧ ∀ key r, co_target_locks (finalized run_id w') !! key = Some r ↔ co_target_locks w' !! key = Some r ∧ r ≠ run_id.
Proof.
  intros Hw Hs. assert (locks_consistent w') as Hc.
  { revert Hs. apply rtc_ind_r; [intros key r; by rewrite Hw, lookup_empty|].
    intros w1 w2 _ H12 H1. by eapply lock_section_consistent. }
  split; [done|]. split; [apply finalized_forgotten|]. intros key r. cbn. by apply pop_target_lock_spec.
Qed.

(** ** The end of a run *)

Section ends.
Context (cfg : settings) (sv : services).

(** Programs that do not raise. *)
Definition never_raises {A} (p : CM A) : Prop := ∀ m e, (p m).1 ≠ Raised e.

Lemma never_raises_ret {A} (a : A) : never_raises (mret a).
Proof. done. Qed.

Lemma never_raises_bind {A B} (p : CM A) (f : A → CM B) :
  never_raises p → (∀ a, never_raises (f a)) → never_raises (p ≫= f).
Proof.
  intros Hp Hf m e. unfold mbind, rm_bind. specialize (Hp m e). destruct (p m) as [[a|e'|] m']; cbn in *; [apply Hf| |done].
  congruence.
Qed.

Lemma never_raises_or_else {A} (p : CM A) h : (∀ e, never_raises (h e)) → never_raises (or_else p h).
Proof. intros Hh m e. unfold or_else, catch. destruct (p m) as [[a|e'|] m']; [done|apply Hh|done]. Qed.

Lemma never_raises_locked {A} (f : coordinator → A * coordinator) : never_raises (locked f).
Proof. intros [w tr [|t ts]] e; unfold locked, step; cbn; [done|]. by destruct (f _). Qed.

Lemma never_raises_fail r e : never_raises (fail_run cfg r e).
Proof.
  unfold fail_run. apply never_raises_bind; [|intros _]; apply never_raises_or_else; intros; apply never_raises_ret.
Qed.

(** The [try] statement of a run: every error is caught, and the last step
    drops the run. *)
Lemma guarded_run_ends q s m :
  match guarded_run cfg sv q s m with
  | (Done _, m') => ∃ w, m_world m' = finalized (qr_run_id q) w
  | (Raised _, _) => False
  | (Unfinished, _) => True
  end.
Proof.
  unfold guarded_run, finally.
  pose proof (never_raises_or_else (run_body cfg sv q s) (fail_run cfg (qr_run_id q)) (never_raises_fail _)) as Hp.
  specialize (Hp m). destruct (or_else _ _ m) as [[u|e|] m1]; [|by destruct (Hp e)|done].
  unfold finalize_run, locked, step, mbind, rm_bind. destruct m1 as [w tr [|t ts]]; cbn; [done|]. by eexists.
Qed.

(** C18: an error anywhere in the body of a run (the services, the store, the
    validation of a contract, the record of the failure itself) does not reach
    the worker: [_execute_run] raises only from reading the session or from
    building its engine, before anything of the run is done; and however the
    work on a run ends, the run is no longer tracked and has neither a thread,
    nor a tenant, nor a lock. *)
Theorem work_leaves_nothing q m :
  match execute_run cfg sv q m with
  | (Raised e, m') => m_trace m' = m_trace m ∧ length (m_ticks m) ≤ 2 + length (m_ticks m')
  | _ => True
  end
  ∧ match work_on cfg sv q m with
    | (Unfinished, _) => True
    | (_, m') => forgotten (qr_run_id q) (m_world m')
    end.
Proof.
  split.
  - unfold execute_run, mbind, rm_bind.
    pose proof (frame_get_session (λ _, True) (λ _, False) (qr_run_id q) m) as [(l & Hl & Hn) _ _].
    destruct l as [|a l]; [|by inv Hn]. rewrite app_nil_r in Hl.
    destruct m as [w tr [|t ts]]; [done|]. unfold get_session, store_step, step in *. cbn [m_ticks m_world m_trace] in *.
    destruct (get_run_session _ _) as [[[s|]|e] st]; cbn in *; [|done|split; [done|lia]].
    destruct ts as [|t' ts]; unfold service, step; cbn; [done|].
    destruct (sv_engine sv q t' _) as [u|e]; cbn; [|split; [done|lia]].
    match goal with |- context [guarded_run cfg sv q s ?m1] => pose proof (guarded_run_ends q s m1) as H end.
    destruct (guarded_run _ _ _ _ _) as [[u'|e|] m2]; done.
  - unfold work_on, finally. destruct (mbind (M := RM coordinator act) _ _ m) as [[u|e|] m1]; [| |done].
    all: unfold finalize_run, locked, step, mbind, rm_bind; destruct m1 as [w tr [|t ts]]; cbn; [done|];
      apply (finalized_forgotten (qr_run_id q)).
Qed.
End ends.

(** ** The end of a wait *)

Section waits.
Context (cfg : settings) (sv : services) (r stage : string) (evaluation : option dict).

(** The queue of the run starts with these commands. *)
Definition queue_starts (queue : list SteeringCommand) (v : view) : Prop :=
  ∃ k more, v_controls v !! r = Some k ∧ ct_commands k = queue ++ more.

Lemma queue_frame_locked queue {A} (f : coordinator → A * coordinator) :
  (∀ w, ∃ g, co_controls (f w).2 = <[r := g (control_of r w)]> (co_controls w)
             ∧ ∀ k, ct_commands (g k) = ct_commands k) → Respects (frame (queue_starts queue) is_took) (locked f).
Proof.
  intros Hf [w tr [|t ts]]; unfold locked, step; cbn; [reflexivity|].
  destruct (Hf (tk_env t w)) as (g & Hc & Hg). destruct (f (tk_env t w)) as [a w']; cbn in *. split; cbn.
  - exists []. by rewrite app_nil_r.
  - by apply suffix_cons_r.
  - intros [Ht _]%Forall_cons HI. destruct (Ht _ HI) as (k & more & Hk & Hm). cbn in Hk.
    exists (g k), more. cbn. rewrite Hc. unfold control_of. rewrite Hk, lookup_insert_eq. split; [done|]. by rewrite Hg.
Qed.

Lemma queue_set_auto queue b : Respects (frame (queue_starts queue) is_took) (set_auto_mode r b).
Proof.
  apply queue_frame_locked. intros w. by exists (λ c, RunControl (ct_commands c) b (ct_pause_points c)).
Qed.

Lemma queue_add_pause queue s : Respects (frame (queue_starts queue) is_took) (add_pause_point r s).
Proof.
  apply queue_frame_locked. intros w. eexists (λ c, RunControl (ct_commands c) (ct_auto_mode c) _). by split.
Qed.
#[local] Hint Resolve queue_set_auto queue_add_pause : frame.

(** What a command does leaves the queue alone. *)
Lemma queue_on_command queue c : Respects (frame (queue_starts queue) is_took) (on_command cfg r stage evaluation c).
Proof. unfold on_command, on_pause. respects. Qed.

(** The others only add commands at the end of the queue. *)
Definition env_appends (ticks : list (tick coordinator)) : Prop := ∀ queue, env_keeps (queue_starts queue) ticks.

(** The first command is the one that is taken. *)
Lemma take_first c cs m :
  env_appends (m_ticks m) → queue_starts (c :: cs) (view_of (m_world m)) → m_ticks m ≠ [] →
  ∃ m', take_command r stage m = (Done (Some c), m') ∧ queue_starts cs (view_of (m_world m'))
        ∧ m_ticks m' `suffix_of` m_ticks m ∧ length (m_ticks m) = S (length (m_ticks m')).
Proof.
  destruct m as [w tr [|t ts]]; cbn; [done|]. intros He Hq _.
  pose proof (He (c :: cs)) as [Ht _]%Forall_cons. destruct (Ht w Hq) as (k & more & Hk & Hm). cbn in Hk.
  unfold take_command, locked, step, mbind, rm_bind. cbn. unfold control_of. rewrite Hk. cbn. rewrite Hm. cbn.
  eexists. split; [reflexivity|]. cbn. split; [|by split; [apply suffix_cons_r|]].
  exists (RunControl (cs ++ more) (ct_auto_mode k) (ct_pause_points k)), more.
  cbn. rewrite lookup_insert_eq. unfold control_of. rewrite Hk. by split.
Qed.
End waits.

(** ** How many steps a wait takes *)

Lemma within_locked {A} (f : coordinator → A * coordinator) : Within 1 (locked f).
Proof. apply within_step. Qed.
Lemma within_store_step {A} (f : tick coordinator → SM A) : Within 1 (store_step f).
Proof. apply within_step. Qed.
Lemma within_service {A} (f : call A) : Within 1 (service f).
Proof. apply within_step. Qed.

Ltac within_one :=
  lazymatch goal with
  | |- ∀ _, _ => intro; cbv beta
  | |- Within _ (let _ := _ in _) => cbv zeta
  | |- Within _ (match ?x with _ => _ end) => destruct x
  | |- Within _ (mbind _ (service _)) => apply (within_then 1); [apply within_service|lia|cbn [Nat.sub]]
  | |- Within _ (mbind _ (store_step _)) => apply (within_then 1); [apply within_store_step|lia|cbn [Nat.sub]]
  | |- Within _ (mbind _ (locked _)) => apply (within_then 1); [apply within_locked|lia|cbn [Nat.sub]]
  | |- Within _ (mbind _ (step _)) => apply (within_then 1); [apply within_step|lia|cbn [Nat.sub]]
  | |- Within _ (mbind _ (pure _)) => apply (within_then 0); [apply within_pure|lia|cbn [Nat.sub]]
  | |- Within _ (mbind _ (mret _)) => apply (within_then 0); [apply within_ret|lia|cbn [Nat.sub]]
  | |- Within _ (mbind _ (match ?x with _ => _ end)) => destruct x
  | |- Within _ (mbind _ _) => eapply within_then; [solve [auto 1 with within nocore]|lia|cbn [Nat.sub]]
  | |- Within _ (mret _) => eapply within_le; [apply within_ret|lia]
  | |- Within _ (store_step _) => eapply within_le; [apply within_store_step|lia]
  | |- Within _ (service _) => eapply within_le; [apply within_service|lia]
  | |- Within _ (locked _) => eapply within_le; [apply within_locked|lia]
  | |- Within _ _ => eapply within_le; [solve [auto 1 with within nocore]|lia]
  end.
Ltac within := repeat within_one.
Create HintDb within discriminated.
#[export] Hint Constants Opaque : within.

Section steps.
Context (cfg : settings) (sv : services).

Lemma within_get_session r : Within 1 (get_session r).
Proof. unfold get_session. within. Qed.
#[local] Hint Resolve within_get_session : within.
Lemma within_stamped s : Within 1 (stamped cfg s).
Proof. unfold stamped. within. Qed.
#[local] Hint Resolve within_stamped : within.
Lemma within_append_event r a b c d e f g : Within 2 (append_event cfg r a b c d e f g).
Proof. unfold append_event. within. Qed.
#[local] Hint Resolve within_append_event : within.
Lemma within_record_event r a b c d e f g : Within 2 (record_event cfg r a b c d e f g).
Proof. unfold record_event. within. Qed.
Lemma within_set_artifact r k v : Within 2 (set_artifact cfg r k v).
Proof. unfold set_artifact. within. Qed.
Lemma within_update_session r u : Within 2 (update_session cfg r u).
Proof. unfold update_session. within. Qed.
#[local] Hint Resolve within_record_event within_set_artifact within_update_session : within.
Lemma within_resume r s : Within 2 (resume_run cfg r s).
Proof. unfold resume_run. within. Qed.
Lemma within_set_auto r b : Within 1 (set_auto_mode r b).
Proof. apply within_locked. Qed.
Lemma within_add_pause r s : Within 1 (add_pause_point r s).
Proof. apply within_locked. Qed.
#[local] Hint Resolve within_resume within_set_auto within_add_pause : within.
Lemma within_on_pause r p : Within 3 (on_pause cfg r p).
Proof. unfold on_pause. within. Qed.
Lemma within_block_approval r e : Within 2 (block_approval cfg r e).
Proof. unfold block_approval. within. Qed.
#[local] Hint Resolve within_on_pause within_block_approval : within.
Lemma within_on_command r s e c : Within 5 (on_command cfg r s e c).
Proof. unfold on_command. within. Qed.
Lemma within_score r s c : Within 10 (score_session cfg sv r s c).
Proof. unfold score_session, benchmark_step. within. Qed.
#[local] Hint Resolve within_score : within.
Lemma within_benchmark r : Within 11 (record_benchmark_if_simulation cfg sv r).
Proof. unfold record_benchmark_if_simulation. within. Qed.
End steps.

(** ** Cancelling a run that waits *)

Section cancel.
Context (cfg : settings) (sv : services) (r stage : string) (evaluation : option dict).

Lemma env_appends_suffix ticks ticks' : ticks' `suffix_of` ticks → env_appends r ticks → env_appends r ticks'.
Proof. intros H He queue. by eapply env_keeps_suffix. Qed.

Lemma wait_turn_takes {A} c m m1 (f : () + wait_result → CM A) :
  take_command r stage m = (Done (Some c), m1) →
  (wait_turn cfg r stage evaluation () ≫= f) m = (on_command cfg r stage evaluation c ≫= f) m1.
Proof. intros E. unfold wait_turn, mbind, rm_bind. by rewrite E. Qed.

(** The loop ends at the latest with the first [cancel] of the queue. *)
Lemma wait_loop_ends c queue fuel m :
  cmd_command_type c = "cancel" → env_appends r (m_ticks m) →
  queue_starts r (queue ++ [c]) (view_of (m_world m)) →
  6 * S (length queue) ≤ length (m_ticks m) → length queue < fuel →
  (loop_go fuel (wait_turn cfg r stage evaluation) () m).1 ≠ Unfinished.
Proof.
  intros Hc. revert fuel m. induction queue as [|c' queue IH]; intros fuel m He Hq Hn Hf;
    (destruct fuel as [|fuel]; [cbn in Hf; lia|]); cbn [app] in Hq; cbn [length] in Hn;
    (assert (m_ticks m ≠ []) as Hne by (intros E; rewrite E in Hn; cbn in Hn; lia));
    destruct (take_first r stage _ _ _ He Hq Hne) as (m1 & E1 & Hq1 & Hs1 & Hl1); cbn [loop_go];
    rewrite (wait_turn_takes _ _ _ _ E1).
  - unfold on_command. by rewrite Hc.
  - destruct (within_on_command cfg r stage evaluation c' m1) as [Ho Hl]; [lia|].
    pose proof (queue_on_command cfg r stage evaluation (queue ++ [c]) c' m1) as [_ Hs Hk].
    assert (env_appends r (m_ticks m1)) as He1 by (by eapply env_appends_suffix).
    unfold mbind, rm_bind. destruct (on_command _ _ _ _ _ m1) as [[[[]|out]|e|] m2]; cbn in *; try done.
    apply IH; [by eapply env_appends_suffix|by apply Hk|lia|lia].
Qed.

(** C19: a run that has a [cancel] command in its queue stops waiting, at any
    gate and whatever else is queued before it and arrives meanwhile, as long
    as the other threads only add commands: within 17 steps and 6 for each
    command up to the [cancel] the wait is over. *)
Theorem cancelled_wait_ends c queue m :
  cmd_command_type c = "cancel" → env_appends r (m_ticks m) →
  queue_starts r (queue ++ [c]) (view_of (m_world m)) →
  17 + 6 * S (length queue) ≤ length (m_ticks m) →
  (wait_if_needed cfg sv r stage evaluation m).1 ≠ Unfinished.
Proof.
  intros Hc He Hq Hn.
  assert (∀ {A} n (p : CM A) (f : A → CM wait_result) m1, Within n p → Respects (frame (queue_starts r (queue ++ [c])) is_took) p →
    m_ticks m1 `suffix_of` m_ticks m → queue_starts r (queue ++ [c]) (view_of (m_world m1)) → n ≤ length (m_ticks m1) →
    (∀ a m2, m_ticks m2 `suffix_of` m_ticks m → queue_starts r (queue ++ [c]) (view_of (m_world m2)) →
             length (m_ticks m1) ≤ n + length (m_ticks m2) → (f a m2).1 ≠ Unfinished) →
    ((p ≫= f) m1).1 ≠ Unfinished) as Hstep.
  { intros A n p f m1 Hp HR Hs Hq1 Hn1 Hf. unfold mbind, rm_bind.
    destruct (Hp m1 Hn1) as [Ho Hl]. destruct (HR m1) as [_ Hs1 Hk1].
    destruct (p m1) as [[a|e|] m2]; cbn in *; [|done..]. apply Hf; [by etrans| |done].
    apply Hk1; [|done]. by eapply env_appends_suffix. }
  unfold wait_if_needed.
  apply (Hstep _ 1); [apply within_get_session|auto with frame nocore|done|done|lia|]. intros found m1 Hs1 Hq1 Hl1.
  apply (Hstep _ 1); [apply within_locked|auto with frame nocore|done|done|lia|]. intros control m2 Hs2 Hq2 Hl2.
  destruct found, control; try done.
  do 2 (eapply (Hstep _ 1); [apply within_locked|auto with frame nocore|eassumption|eassumption|lia|]; intros ? ? ? ? ?).
  cbv zeta. destruct (_ && _); [done|]. destruct (negb _ && negb _); [done|].
  apply (Hstep _ 2); [apply within_update_session|auto with frame nocore|done|done|lia|]. intros _ m5 Hs5 Hq5 Hl5.
  apply (Hstep _ 11); [apply within_benchmark|auto with frame nocore|done|done|lia|]. intros _ m6 Hs6 Hq6 Hl6.
  unfold loop. eapply wait_loop_ends; [done|by eapply env_appends_suffix|done|lia|lia].
Qed.
End cancel.

(** * Locks on targets

    [create_run] admits nobody to a target that another run holds, as long as
    it is held and locks are on; and what that does not exclude. *)

Lemma admission_fields run_id boundary qd qs wc tr tq holder ts packet :
  build_run_admission run_id boundary qd qs wc tr tq holder ts = Ok packet →
  dgetN "target_lock_key" packet = VStr (build_target_lock_key boundary)
  ∧ (lock_held holder = true → is_string "admitted" (dgetN "decision" packet) = false).
Proof.
  unfold build_run_admission. cbv zeta. intros H. apply res_bind_Ok in H as ([] & _ & H). injection H as <-.
  split; [reflexivity|]. intros Hl. cbn. unfold admission_blockers. rewrite Hl.
  by destruct (qs <=? qd)%Z, ((0 <? tq)%Z && (tq <=? tr)%Z).
Qed.

Section locks.
Context (cfg : settings) (sv : services) (key holder : string).

(** The target is held, and locks are on. *)
Record held (v : view) : Prop := Held {
  held_by : v_targets v !! key = Some holder;
  held_run : holder ≠ "";
  held_on : sw_kubernetes_live_execution_enabled (v_switches v) = true }.

Definition not_admitted (e : act) : Prop := match e with Admission _ k => k ≠ key | _ => True end.

Definition kept {A} (_ : outcome A) (m : machine coordinator act) : Prop := Forall not_admitted (m_trace m).

(** The rest of a program whose start keeps the target held, with what is known
    of the result of the start. *)
Lemma wp_held_fact {A B} (p : CM A) (f : A → CM B) m (F : A → Prop) :
  wp p m (λ o _, match o with Done a => F a | _ => True end) →
  Respects (frame held (λ _, False)) p → env_keeps held (m_ticks m) → held (view_of (m_world m)) → kept (Done ()) m →
  (∀ a m', F a → env_keeps held (m_ticks m') → held (view_of (m_world m')) → kept (Done ()) m' → wp (f a) m' kept) →
  wp (p ≫= f) m kept.
Proof.
  intros HF Hp He Hh Hk Hf. apply wp_bind. unfold wp in HF |- *. specialize (Hp m).
  assert (env_keeps held (m_ticks (p m).2) ∧ held (view_of (m_world (p m).2)) ∧ kept (Done ()) (p m).2) as (H1 & H2 & H3).
  { destruct Hp as [(l & Hl & Hn) Ht Hc]. split; [by eapply env_keeps_suffix|]. split; [by apply Hc|].
    unfold kept in *. rewrite Hl. apply Forall_app. split; [done|]. by eapply Forall_impl. }
  destruct (p m) as [[a|e|] m']; cbn in *; [by apply Hf|done..].
Qed.

Lemma wp_held {A B} (p : CM A) (f : A → CM B) m :
  Respects (frame held (λ _, False)) p → env_keeps held (m_ticks m) → held (view_of (m_world m)) → kept (Done ()) m →
  (∀ a m', env_keeps held (m_ticks m') → held (view_of (m_world m')) → kept (Done ()) m' → wp (f a) m' kept) →
  wp (p ≫= f) m kept.
Proof.
  intros Hp He Hh Hk Hf. apply (wp_held_fact _ _ _ (λ _, True)); auto. unfold wp. by destruct (p m).1.
Qed.

(** A program that admits nobody to the target. *)
Lemma wp_kept {A} (p : CM A) m :
  Respects (frame (λ _, True) not_admitted) p → kept (Done ()) m → wp p m kept.
Proof.
  intros Hp Hk. apply (wp_respects (frame (λ _, True) not_admitted)); [done|]. intros o m' [(l & Hl & Hn) _ _].
  unfold kept in *. rewrite Hl. by apply Forall_app.
Qed.

(** What the admission packet says of a target that is held. *)
Lemma wp_build_admission run_id boundary m :
  env_keeps held (m_ticks m) → held (view_of (m_world m)) →
  wp (build_admission cfg run_id boundary true) m (λ o _, match o with
    | Done admission => dgetN "target_lock_key" admission = VStr (build_target_lock_key boundary)
        ∧ (build_target_lock_key boundary = key → is_string "admitted" (dgetN "decision" admission) = false)
    | _ => True end).
Proof.
  intros He Hh. unfold build_admission. apply wp_step; [done|]. intros t ts Ht out. subst out.
  rewrite Ht in He. apply Forall_cons in He as [He _]. specialize (He _ Hh). destruct He as [Hby Hrun _].
  cbn in Hby. destruct (build_run_admission _ _ _ _ _ _ _ _ _) as [admission|x] eqn:Ea; [|done].
  apply admission_fields in Ea as [Hkey Hblocked]. split; [done|]. intros Hk. apply Hblocked.
  rewrite Hk, Hby. cbn. by destruct (String.eqb_spec holder "") as [->|].
Qed.

Lemma wp_admit payload signal boundary session r modes config m :
  env_keeps held (m_ticks m) → held (view_of (m_world m)) → kept (Done ()) m →
  wp (admit_run cfg sv payload signal boundary session r modes config) m kept.
Proof.
  intros He Hh Hk. unfold admit_run. cbv zeta. unfold locked at 1.
  apply wp_bind, wp_step; [done|]. intros t ts Ht. cbn. rewrite Ht in He. apply Forall_cons in He as [He1 He].
  specialize (He1 _ Hh). pose proof (held_on _ He1) as Hon. cbn in Hon. rewrite Hon. cbn [orb].
  set (m2 := Machine _ _ ts).
  assert (env_keeps held (m_ticks m2)) as He2 by done. assert (held (view_of (m_world m2))) as Hh2 by done.
  assert (kept (Done ()) m2) as Hk2 by done. clearbody m2.
  apply (wp_held_fact _ _ _ _ (wp_build_admission _ _ _ He2 Hh2)); [auto with frame nocore|done..|].
  intros admission m3 [Hkey Hblocked] He3 Hh3 Hk3.
  apply wp_held; [auto with frame nocore|done|done|done|]. intros _ m4 He4 Hh4 Hk4.
  destruct (decide (build_target_lock_key boundary = key)) as [Eb|Hne].
  - rewrite Hblocked by done. cbn [negb]. apply wp_kept; [auto with frame nocore|done].
  - destruct (is_string _ _); cbn [negb]; [|apply wp_kept; [auto with frame nocore|done]].
    apply wp_kept; [|done]. rewrite Hkey. cbn [py_str].
    pose proof (frame_register (λ _, True) not_admitted (λ _ _ _, I) (λ _ _ _ _, I)) as H1.
    pose proof (frame_emit (λ _, True) not_admitted (Admission (py_str (dgetN "run_id" session)) _) Hne) as H2.
    pose proof (frame_overload (λ _, True) not_admitted cfg (λ _ _ _, I)) as H3.
    respects.
Qed.

(** C17: as long as a target is held by a run and locks are on, no request is
    admitted to it, whatever its steps are interleaved with; it may only be
    admitted to other targets. *)
Theorem held_target_admits_nobody payload w ticks r :
  env_keeps held ticks → held (view_of w) →
  Admission r key ∉ m_trace (create_run cfg sv payload (Machine w [] ticks)).2.
Proof.
  intros He Hh Hin. assert (wp (create_run cfg sv payload) (Machine w [] ticks) kept) as Hk.
  2:{ unfold wp, kept in Hk. rewrite Forall_forall in Hk. by apply (Hk _ Hin). }
  unfold create_run. cbv zeta. apply wp_held; [respects|done|done|constructor|]. intros [] m1 He1 Hh1 Hk1; [done|].
  do 3 (apply wp_held; [auto with frame nocore|done|done|done|]; intros ? ? ? ? ?).
  destruct (_ : dict + dict * dict) as [v|[p s]]; [done|].
  apply wp_held; [respects|done|done|done|]. intros config m5 He5 Hh5 Hk5.
  apply wp_held; [apply _|done|done|done|]. intros boundary m6 He6 Hh6 Hk6.
  apply wp_held; [auto with frame nocore|done|done|done|]. intros session m7 He7 Hh7 Hk7.
  by apply wp_admit.
Qed.
End locks.
