(* ===== verification/RunExamples.v ===== *)
(** * A run from the request to its end

    The coordinator of [RunExecution] with services that answer at once: what
    the theorems say at concrete inputs, and the behaviours that no theorem
    excludes. *)

From S2P Require Import Prelude PyFloat PyValue Json JsonStore Paths Models Contracts StateStore RegistryFile RunMachine Steering.
From S2P Require Import RunAdmission Ownership Coordinator CreateRun RunEvidence RunDecision RunExecution OperatorActions RunFrame RunTheorems RunEnds.
From stdpp Require Import gmap.
#[local] Open Scope Z_scope.

(** ** Services *)

Definition demo_trigger : dict :=
  [("trigger_id", VStr "trg"); ("trigger_type", VStr "feature_flag_performance_regression"); ("triggered_at", VStr "t");
   ("environment", VStr "prod"); ("service", VStr "search"); ("endpoint", VStr "/q"); ("flag_key", VStr "f");
   ("current_rollout_pct", VInt 10); ("comparison_window", VDict [("baseline", VStr "b"); ("observed", VStr "o")]);
   ("segment", VDict []);
   ("metrics", VDict [("baseline_p95_latency_ms", VInt 1); ("observed_p95_latency_ms", VInt 2);
                      ("baseline_error_rate", VInt 0); ("observed_error_rate", VInt 1); ("sample_size", VInt 9)]);
   ("related_context", VDict [("release_id", VStr "r"); ("active_incidents", VInt 0); ("similar_prior_cases", VInt 0)])].

Definition demo_decision : dict :=
  [("decision_id", VStr "dec"); ("trigger_id", VStr "trg"); ("summary", VStr "s"); ("decision_type", VStr "no_action");
   ("autonomy_tier", VStr "autonomous");
   ("reasoning", VDict [("primary_hypothesis", VStr "h"); ("evidence", VList [VStr "e"]);
                        ("alternatives_considered", VList [VStr "a"])]);
   ("expected_outcome", VDict [("target_metrics", VDict [("p95_latency_ms", VStr "1"); ("error_rate", VStr "0")]);
                               ("time_to_effect", VStr "t")]);
   ("risk", VDict [("level", VStr "low"); ("blast_radius", VStr "b"); ("customer_impact_if_wrong", VStr "c")]);
   ("confidence", VInt 1);
   ("execution_plan", VDict [("system", VStr "feature_flag_service"); ("action", VStr "set_rollout");
                             ("parameters", VDict []); ("rollback_plan", VStr "r")])].

Definition demo_rca : dict :=
  [("report_id", VStr "rca"); ("trigger_id", VStr "trg"); ("created_at", VStr "t"); ("likely_cause", VStr "c");
   ("confidence", VInt 1); ("supporting_evidence", VList []); ("disconfirming_evidence", VList []);
   ("ruled_out_causes", VList []); ("unknowns", VList []); ("evidence_checked", VList []);
   ("recommended_next_step", VStr "n"); ("safety_reason", VStr "s")].

(** An evaluation with this outcome and these blockers. *)
Definition demo_evaluation (passed : bool) (recommendation : string) (blockers : dict) : dict :=
  [("evaluation_id", VStr "eva"); ("decision_id", VStr "dec"); ("passed", VBool passed);
   ("final_recommendation", VStr recommendation);
   ("stage_results", VDict
     [("schema_validation", VDict []); ("policy_validation", VDict []); ("contract_checks", VDict []);
      ("trajectory_quality", VDict []); ("behavioral_scores", VDict []); ("verifier", VDict []);
      ("business_rules", VDict []); ("execution_readiness", VDict []); ("blocker_analysis", VDict blockers)]);
   ("blocking_reasons", VList []); ("review_route", VNone)].

Definition demo_execution : dict :=
  [("execution_id", VStr "exe"); ("decision_id", VStr "dec"); ("started_at", VStr "t"); ("completed_at", VStr "t");
   ("executor", VStr "x"); ("status", VStr "succeeded"); ("idempotency_key", VStr "k");
   ("applied_action", VDict [("system", VStr "s"); ("action", VStr "a"); ("parameters", VDict [])]);
   ("external_refs", VDict []); ("failure", VNone)].

Definition demo_feedback : dict :=
  [("feedback_id", VStr "fee"); ("decision_id", VStr "dec"); ("execution_id", VStr "exe"); ("measured_at", VStr "t");
   ("window", VStr "w"); ("outcome", VStr "successful"); ("metric_comparison", VDict []); ("prediction_accuracy", VDict []);
   ("side_effects", VList []); ("world_model_updates", VDict []); ("recommended_follow_up", VNone);
   ("quality_measurements", VNone)].

(** A service that answers with the same value at every moment. *)
Definition answers {A} (a : A) : call A := λ _ _, Ok a.
Definition unavailable {A} : call A := λ _ _, raise RuntimeError "unavailable".

Definition demo_services (evaluation : dict) : services :=
  {| profile := string; harness := unit; signal_source := λ p, p;
     sv_files := λ _, Readable "{}" (Ok (VDict [])); sv_resolve_path := λ p, p;
     sv_readiness := λ _ _, answers [("promptfoo", VDict [("ready", VBool true)]); ("goose", VDict [("ready", VBool true)])];
     sv_fixture := λ _, unavailable; sv_fixture_repo := answers None; sv_otlp := λ _ _, unavailable;
     sv_kubernetes := λ _, unavailable; sv_engine := λ _, answers ();
     sv_normalize := λ d, answers [("payload", VDict d); ("summary", VNone)]; sv_detect := λ _, answers (Some demo_trigger);
     sv_profile := λ _ _, answers "flags"; sv_plan := λ _ _ _, unavailable; sv_assemble := λ _ _ _, unavailable;
     sv_harness := λ _ _, answers (); sv_rb_disabled := λ _, []; sv_rb_retrieve := λ _ _, unavailable;
     sv_rb_distill := unavailable; sv_memory := λ _, answers []; sv_service_context := λ _, answers [];
     sv_investigate := λ _ _ _ _ _ _, unavailable; sv_failure_report := λ _ _, unavailable;
     sv_analyze := λ _ _ _, unavailable; sv_route := λ _, answers [("agent", VDict [("service", VStr "search")])];
     sv_decide := λ _ _ _ _ _, answers demo_decision; sv_rca := λ _ _ _ _, answers demo_rca;
     sv_evaluate := λ _ _ _, answers evaluation;
     sv_trajectory := λ _ _ _ _ _ _ _, answers [("task_trace", VDict []); ("trajectory_score", VDict []);
                                                 ("verifier_output", VDict []); ("phoenix_spans", VList [])];
     sv_delivery_context := λ _, answers ([("nodes", VList [])], [], []);
     sv_agent_tasks := λ _ _ _ _ _, answers []; sv_reconcile := λ _, answers [];
     sv_active_facts := λ _, answers []; sv_similar_incidents := λ _, answers []; sv_learning_context := λ _, answers VNone;
     sv_due_at := λ _, answers "t"; sv_execute := λ _ _, answers demo_execution;
     sv_feedback := λ _ _ _ _, answers demo_feedback; sv_learn := λ _ _ _, answers (); sv_override_outcome := λ _, answers ();
     sv_update_context := λ _, answers (); sv_crystallize := answers []; sv_record_override := λ _ _ _, answers ();
     sv_score := λ _ _ _ _ _, unavailable; sv_export_path := "export.jsonl"; sv_explain := λ _ _ _, unavailable;
     sv_chat := λ _ _ _ _ _, unavailable; sv_stop_watchers := answers (); sv_watchers := answers [];
     sv_allowed_contexts := [] |}.

(** ** Worlds and requests *)

Definition demo_settings : settings :=
  {| se_store := StoreConfig "async" 500 (S754_zero false); se_environment := "prod"; se_evaluation_mode := "native";
     se_orchestration_mode := "native"; se_ownership_registry_path := None; se_default_pause_point := "evaluation_ready";
     se_run_queue_size := 8; se_run_worker_count := 1; se_tenant_active_run_quota := 4; se_steering_payload_cap := 65536;
     se_agent_tasks_mode := "off"; se_agent_reconciliation_enabled := false; se_reasoning_bank_enabled := false;
     se_max_transient_retries := 2; se_rule_learning_enabled := false |}.

Definition demo_world (live : bool) : coordinator :=
  {| co_store := empty_store; co_controls := ∅; co_tracked := ∅; co_threads := ∅; co_agent_threads := ∅; co_tenants := ∅;
     co_run_locks := ∅; co_target_locks := ∅; co_queue := []; co_worker_stop := false;
     co_switches := Switches false "interruptible_auto" live []; co_artifacts := no_file; co_benchmarks := no_file;
     co_deferred := no_file; co_trust := no_file |}.

(** Ticks at which nobody else does anything; [hex] makes identifiers. *)
Definition quiet_tick (hex : string) : tick coordinator := Tick id "t1" "t2" "stamp" hex (S754_zero false).
Definition quiet_ticks (n : nat) (hex : string) : list (tick coordinator) := repeat (quiet_tick hex) n.

Definition demo_signal : dict := [("signal_type", VStr "flag"); ("service", VStr "search"); ("environment", VStr "prod")].

(** What a program leaves of a world. *)
Definition run_in {A} (p : CM A) (w : coordinator) (ticks : list (tick coordinator)) : outcome A * machine coordinator act :=
  p (Machine w [] ticks).

(** A run of the queue that is tracked, in manual mode or not, with these
    commands waiting for it. *)
Definition demo_session (auto_mode : bool) : dict :=
  dset "latest_event_sequence" (VInt 1000000)
    (rs_to_dict (run_session_new "t0" "stamp" "a" None None "m" auto_mode [] "native" "native" [("chaos_probe", VBool true)])).

Definition demo_run : queued_run :=
  QueuedRun "run_stamp_a" (VStr "native") (VStr "native") (Switches false "m" false []) demo_signal VNone.

Definition tracked_world (auto_mode : bool) (commands : list SteeringCommand) : coordinator :=
  let w := upd_store (save_run_session (se_store demo_settings) (demo_session auto_mode) (S754_zero false) empty_store).2
             (demo_world false) in
  upd_controls {["run_stamp_a" := RunControl commands auto_mode []]} {["run_stamp_a"]} w.

Definition demo_command (command_type : string) (payload : dict) : SteeringCommand :=
  {| cmd_command_id := "cmd"; cmd_run_id := "run_stamp_a"; cmd_command_type := command_type; cmd_issued_at := "t";
     cmd_payload := payload |}.

(** A run holds the target of [demo_signal]. *)
Definition held_world : coordinator :=
  registered "run_1" false [] "unknown" "unknown:prod:search" true (demo_world true).

(** ** The theorems at concrete inputs *)

Lemma quiet_keeps I n hex : env_keeps I (quiet_ticks n hex).
Proof. apply Forall_forall. by intros t Ht%list_elem_of_In%repeat_spec w H; subst. Qed.

(** A run in manual mode that was approved once: it evaluates, takes the
    approval, and executes. *)
Lemma execution_needs_approval_witness :
  let run := run_in (execute_run demo_settings (demo_services (demo_evaluation true "execute" [])) demo_run)
               (tracked_world false [demo_command "approve" []]) (quiet_ticks 170 "b") in
  approved "run_stamp_a" (firstn 2 (m_trace run.2)).
Proof.
  unfold run_in. cbv zeta.
  match goal with |- context [execute_run ?c ?s ?q ?m] => let x := constr:(m_trace (execute_run c s q m).2) in
    let v := eval vm_compute in x in assert (x = v) as E by (vm_cast_no_check (eq_refl v)) end.
  rewrite E. cbn [firstn].
  lazymatch type of E with _ = ?a :: ?b :: ?e :: ?l => change (a :: b :: e :: l) with ([a; b] ++ e :: l) in E end.
  refine (execution_needs_approval _ _ _ _ _ _ _ _ _ _ (quiet_keeps _ _ _) _ E).
  intros k. cbn. intros [= <-]. reflexivity.
Defined.

(** Two runs register for one target one after the other, as the first has left. *)
Lemma locks_stay_consistent_witness :
  let boundary := [("tenant_id", VStr "acme"); ("environment", VStr "prod"); ("service", VStr "search")] in
  let w := registered "run_2" false [] "acme" (build_target_lock_key boundary) true
             (release_locks "run_1"
                (registered "run_1" false [] "acme" (build_target_lock_key boundary) true (demo_world true))) in
  locks_consistent w ∧ forgotten "run_2" (finalized "run_2" w)
  ∧ ∀ key r, co_target_locks (finalized "run_2" w) !! key = Some r ↔ co_target_locks w !! key = Some r ∧ r ≠ "run_2".
Proof.
  intros boundary w. apply (locks_stay_consistent (demo_world true) w "run_2"); [reflexivity|].
  eapply rtc_l; [apply (section_register "run_1" false [] "acme" boundary true); reflexivity|].
  eapply rtc_l; [apply (section_release "run_1")|].
  eapply rtc_l; [apply (section_register "run_2" false [] "acme" boundary true); reflexivity|]. apply rtc_refl.
Defined.

(** A note and a [cancel]: 29 steps are enough. *)
Lemma cancelled_wait_ends_witness :
  (wait_if_needed demo_settings (demo_services []) "run_stamp_a" "trigger_ready" None
     (Machine (tracked_world false [demo_command "attach_note" []; demo_command "cancel" []]) [] (quiet_ticks 29 "b"))).1
  ≠ Unfinished.
Proof.
  apply (cancelled_wait_ends demo_settings (demo_services []) "run_stamp_a" "trigger_ready" None
           (demo_command "cancel" []) [demo_command "attach_note" []]).
  - reflexivity.
  - intros queue. apply quiet_keeps.
  - exists (RunControl [demo_command "attach_note" []; demo_command "cancel" []] false []), []. split; reflexivity.
  - cbn. lia.
Defined.

(** Another run asks for the target of one that is held. *)
Lemma held_target_admits_nobody_witness :
  ¬ Admission "run_stamp_b" "unknown:prod:search" ∈
    m_trace (create_run demo_settings (demo_services [])
               [("signal_payload", VDict demo_signal); ("steering_mode", VStr "interruptible_auto")] (Machine held_world [] (quiet_ticks 40 "b"))).2.
Proof.
  apply (held_target_admits_nobody _ _ _ "run_1"); [apply quiet_keeps|]. split; [reflexivity|done|reflexivity].
Defined.

(** * Interleavings and gates that the theorems do not exclude

    Concrete runs of the coordinator in which it does not do what its messages
    and its documentation say. *)

(** ** Worlds *)

(** The session of [run_1] at this stage. *)
Definition session_at (stage : string) : dict :=
  dset "artifacts" (VDict [("input_signal", VDict demo_signal)])
    (dset "stage" (VStr stage) (dset "run_id" (VStr "run_1") (demo_session true))).

(** The run [run_1] in automatic mode at this stage, with its target. *)
Definition running_world (stage : string) : coordinator :=
  upd_store (save_run_session (se_store demo_settings) (session_at stage) (S754_zero false) empty_store).2
    (registered "run_1" true [] "unknown" "unknown:prod:search" true (demo_world true)).

(** A gate of [run_stamp_a], reached with these commands in its queue. *)
Definition at_gate (auto_mode : bool) (pause_points : list string) (commands : list SteeringCommand)
    (stage : string) (evaluation : option dict) : outcome wait_result * list act :=
  let w := upd_controls {["run_stamp_a" := RunControl commands auto_mode pause_points]} {["run_stamp_a"]}
             (tracked_world auto_mode []) in
  let out := run_in (wait_if_needed demo_settings (demo_services []) "run_stamp_a" stage evaluation) w (quiet_ticks 20 "b") in
  (out.1, m_trace out.2).

Definition passed_evaluation : dict := demo_evaluation true "execute" [].

Definition demo_request : dict := [("signal_payload", VDict demo_signal); ("steering_mode", VStr "interruptible_auto")].

Definition create_with (ticks : list (tick coordinator)) (w : coordinator) : outcome dict * machine coordinator act :=
  run_in (create_run demo_settings (demo_services []) demo_request) w ticks.

(** Between the check of the target and the registration another request goes
    through. *)
Definition overlapping_ticks : list (tick coordinator) :=
  quiet_ticks 8 "b"
  ++ Tick (λ w, m_world (create_with (quiet_ticks 40 "c") w).2) "t1" "t2" "stamp" "b" (S754_zero false)
  :: quiet_ticks 40 "b".

Definition remediable_evaluation : dict :=
  demo_evaluation false "retry" [("can_auto_remediate", VBool true); ("recoverable_blockers", VList [VStr "low_confidence"])].

Definition recovery_of_running : outcome bool * machine coordinator act :=
  run_in (maybe_launch_recovery_run demo_settings (demo_services []) "run_1" VNone demo_signal demo_trigger demo_decision
            remediable_evaluation) (running_world "evaluation_ready") (quiet_ticks 80 "b").

(** The status of a session, its error and one of its artifacts. *)
Definition session_facts (run_id key : string) (w : coordinator) : value * value * value :=
  match get_run_session run_id (co_store w) with
  | (Ok (Some s), _) => (dgetN "status" s, dgetN "error" s, dgetN key (dict_or_empty (dgetN "artifacts" s)))
  | _ => (VNone, VNone, VNone)
  end.

(** ** Gates *)

(** In automatic mode a run whose evaluation passed goes on although a [cancel]
    waits in its queue: it is not even taken. *)
Example auto_mode_ignores_cancel :
  at_gate true [] [demo_command "cancel" []] "evaluation_ready" (Some passed_evaluation) = (Done Continue, [])
  ∧ at_gate true [] [demo_command "cancel" []] "trigger_ready" None = (Done Continue, []).
Proof. split; vm_compute; reflexivity. Qed.

(** A pause point at the evaluation does not stop a run in automatic mode: the
    first turn of the wait goes on. *)
Example auto_mode_ignores_pause :
  at_gate true ["evaluation_ready"] [] "evaluation_ready" (Some passed_evaluation) = (Done Continue, []).
Proof. vm_compute. reflexivity. Qed.

(** A [cancel] during the execution frees the target while the run goes on. *)
Example cancel_frees_running_target :
  let out := run_in (steer_run demo_settings (demo_services []) "run_1" [("command", VStr "cancel")])
               (running_world "executing") (quiet_ticks 30 "b") in
  match out.1 with Done _ => true | _ => false end = true
  ∧ co_target_locks (m_world out.2) !! "unknown:prod:search" = None
  ∧ co_controls (m_world out.2) !! "run_1" ≠ None.
Proof. vm_compute. done. Qed.

(** ** Admission *)

(** A request that is made while another one is between its check and its
    registration is admitted to the same target, and so is the other. *)
Example overlapping_requests_share_target :
  let out := create_with overlapping_ticks (demo_world true) in
  m_trace out.2 = [Admission "run_stamp_b" "unknown:prod:search"]
  ∧ co_run_locks (m_world out.2) !! "run_stamp_b" = Some "unknown:prod:search"
  ∧ co_run_locks (m_world out.2) !! "run_stamp_c" = Some "unknown:prod:search".
Proof. vm_compute. done. Qed.

(** With locks on, the child of a recovery asks for the target its parent still
    holds: it fails at once, and the parent records it as launched and ends. *)
Example recovery_blocked_by_parent :
  recovery_of_running.1 = Done true
  ∧ (session_facts "run_stamp_b" "" (m_world recovery_of_running.2)).1 = (VStr "failed", VStr "target_lock_held")
  ∧ (session_facts "run_1" "" (m_world recovery_of_running.2)).1.1 = VStr "recovery_spawned".
Proof. vm_compute. done. Qed.

(** ** The kill switch *)

(** The switches a queued run carries are those of its request: the kill switch
    does not reach it, as long as it waits for a worker. *)
Lemma kill_switch_spares_queue actions w : co_queue (apply_switches actions w) = co_queue w.
Proof. unfold apply_switches. cbv zeta. by destruct (mem_str _ _). Qed.

(** A run that the kill switch took out of automatic mode goes back into it, and
    on, with a [set_auto_mode] command. *)
Example kill_switch_undone :
  let control := gated (RunControl [demo_command "set_auto_mode" []] true []) in
  at_gate (ct_auto_mode control) (ct_pause_points control) (ct_commands control) "evaluation_ready"
    (Some passed_evaluation)
  = (Done Continue, [Took "run_stamp_a" "evaluation_ready" (demo_command "set_auto_mode" [])]).
Proof. vm_compute. reflexivity. Qed.
