(* ===== verification/ConnectorCertification.v ===== *)
(** * Connector certification

    [src/shared/mesh_runtime/connector_certification.py]: the registry of
    certified connectors and the matrix of what each may do now, from the
    registry and from what the runtime observes.  The files are an argument
    ([RegistryFile]), read to the same result each time one call reads them. *)

From S2P Require Import Prelude PyFloat PyValue Json Sha256 PyNumbers Paths SchemaValidation Schemas Models Contracts PacketFacts RegistryFile.

#[local] Opaque sha256_hex.

(** [STATE_ORDER.get(state)] *)
Definition STATE_ORDER : list (string * Z) :=
  [("disabled", 0); ("mock", 1); ("unfinished", 1); ("read-only", 2); ("proposal-only", 2);
   ("staging-ready", 3); ("pilot-ready", 4); ("production-ready", 5)].

Definition state_order (state : string) : option Z := alookup state STATE_ORDER.

(** [STATE_ORDER\[state\]] *)
Definition state_rank (state : string) : Z := default 0 (state_order state).

Definition bounded_state (certified_state observed_state : string) : string :=
  let observed_state := match state_order observed_state with Some _ => observed_state | None => "mock" end in
  let certified_state := match state_order certified_state with Some _ => certified_state | None => "mock" end in
  if state_rank observed_state <=? state_rank certified_state then observed_state else certified_state.

(** [except (OSError, json.JSONDecodeError, SchemaValidationError)] *)
Definition registry_error (e : exc) : bool :=
  isinstance_exc (exc_cls e) OSError || isinstance_exc (exc_cls e) JSONDecodeError
  || isinstance_exc (exc_cls e) SchemaValidationError.

(** [record.get(key)] is true, for a runtime record of any type *)
Definition get_true (v : value) (key : string) : res bool :=
  x ← py_get v key; Ok (truthy x).

Definition credential_boundary_blockers (connector_id state : string) (credential_boundary : dict)
    (runtime_record : value) : res (list string) :=
  let production := truthy (dgetN "production_actuator_credentials_allowed" credential_boundary) in
  let lane := String.eqb state "proposal-only" in
  production_present ← (if lane then get_true runtime_record "production_actuator_credentials_present"
                        else Ok false);
  write_present ← (if lane then get_true runtime_record "repo_write_credentials_present" else Ok false);
  break_glass ← get_true runtime_record "break_glass_used";
  Ok ((if negb (String.eqb connector_id "kubernetes") && production
       then ["non_kubernetes_connector_allows_production_actuator_credentials"] else [])
      ++ (if lane && production then ["proposal_lane_allows_production_actuator_credentials"] else [])
      ++ (if lane && truthy (dgetN "repo_write_credentials_allowed" credential_boundary)
          then ["proposal_lane_allows_repo_write_credentials"] else [])
      ++ (if production_present : bool then ["proposal_lane_production_actuator_credentials_present"] else [])
      ++ (if write_present : bool then ["proposal_lane_repo_write_credentials_present"] else [])
      ++ (if (break_glass : bool)
             && negb (truthy (dgetN "break_glass_recording_required" credential_boundary))
          then ["break_glass_used_without_recording_contract"] else [])).

(** [sorted(set(l))], which compares the items; a validated record lists
    strings only. *)
Definition string_items (l : list value) : res (list string) :=
  res_map (λ v, match v with VStr s => Ok s | _ => raise TypeError "'<' not supported" end) l.

(** One record of the registry: its key in the matrix and its entry. *)
Definition connector_entry (record observed : dict) : res (string * dict) :=
  id ← ditem "connector_id" record;
  let connector_id := py_str id in
  let runtime_record := dget_or connector_id (VDict []) observed in
  state ← ditem "state" record;
  let certified_state := py_str state in
  seen ← py_get runtime_record "state";
  let observed_state := py_str (py_or seen (VStr certified_state)) in
  let effective_state := bounded_state certified_state observed_state in
  own ← py_iter (dget_or "blockers" (VList []) record);
  reported ← py_get runtime_record "blockers";
  more ← (if truthy reported then py_iter reported else Ok []);
  boundary ← ditem "credential_boundary" record;
  credential_boundary ← py_dict boundary;
  lane ← credential_boundary_blockers connector_id effective_state credential_boundary runtime_record;
  display_name ← ditem "display_name" record;
  domain ← ditem "domain" record;
  required_before ← ditem "required_before" record;
  posture ← ditem "authority_posture" record;
  policy ← ditem "credential_policy" record;
  degraded ← ditem "degraded_behavior" record;
  scopes ← py_iter (dget_or "allowed_scopes" (VList []) record);
  refs ← py_iter (dget_or "evidence_refs" (VList []) record);
  own ← string_items own;
  Ok (connector_id,
      [("connector_id", VStr connector_id);
       ("display_name", VStr (py_str display_name));
       ("domain", VStr (py_str domain));
       ("state", VStr effective_state);
       ("certified_state", VStr certified_state);
       ("observed_state", VStr observed_state);
       ("required_before", VStr (py_str required_before));
       ("authority_posture", VStr (py_str posture));
       ("credential_policy", VStr (py_str policy));
       ("credential_boundary", VDict credential_boundary);
       ("degraded_behavior", VStr (py_str degraded));
       ("allowed_scopes", VList scopes);
       ("evidence_refs", VList refs);
       ("blockers", strs (sorted_set (own ++ map py_str more ++ lane)))]).

(** The loop over the records. *)
Fixpoint connector_entries (observed : dict) (records : list value) (connectors : dict) : res dict :=
  match records with
  | [] => Ok connectors
  | VDict record :: rest =>
      entry ← connector_entry record observed;
      connector_entries observed rest (dset entry.1 (VDict entry.2) connectors)
  | _ :: rest => connector_entries observed rest connectors
  end.

Section repository.
(** The checkout and its files. *)
Variable REPO_ROOT : path.
Variable files : file_tree.

Definition DEFAULT_CONNECTOR_CERTIFICATION_REGISTRY : path :=
  path_join REPO_ROOT (parse_path "config/connector-certification.registry.json").

Definition registry_resolve_path : option string → path :=
  resolve_config_path REPO_ROOT DEFAULT_CONNECTOR_CERTIFICATION_REGISTRY.

(** [not path] *)
Definition no_path (p : option string) : bool :=
  match p with Some s => String.eqb s "" | None => true end.

Definition load_connector_certification_registry (p : option string) : res (option value) :=
  if no_path p then Ok None
  else
    let registry_path := registry_resolve_path p in
    if negb (file_exists (files registry_path)) then Ok None
    else
      payload ← load_json files registry_path;
      _ ← validate_value "connector-certification-registry.schema.json" payload;
      Ok (Some payload).

Definition connector_certification_registry_ready (p : option string) : res bool :=
  match load_connector_certification_registry p with
  | Err e => if registry_error e then Ok false else Err e
  | Ok None => Ok false
  | Ok (Some registry) =>
      if truthy registry then connectors ← py_get registry "connectors"; Ok (truthy connectors)
      else Ok false
  end.

(** [registry.get(key, [])] *)
Definition py_get_or_nil (v : value) (key : string) : res value :=
  match v with VDict d => Ok (dget_or key (VList []) d) | _ => py_get v key end.

(** The registry, or [None] with the blockers the failure adds. *)
Definition registry_or_blockers (p : option string) : res (option value * list string) :=
  match load_connector_certification_registry p with
  | Ok r => Ok (r, [])
  | Err e => if registry_error e
             then Ok (None, ["connector_certification_registry_invalid:" +:+ exc_str e])
             else Err e
  end.

Definition registry_digest (p : option string) : res value :=
  if no_path p then Ok VNone
  else
    let registry_path := registry_resolve_path p in
    if file_exists (files registry_path)
    then h ← sha256_of_file files registry_path; Ok (VStr h)
    else Ok VNone.

Definition build_connector_certification_matrix (registry_path : option string)
    (runtime_states : option dict) (timestamp : string) : res dict :=
  loaded ← registry_or_blockers registry_path;
  found ← match loaded.1 with
          | None => Ok ([], loaded.2 ++ ["connector_certification_registry_missing"])
          | Some registry =>
              records ← py_get_or_nil registry "connectors";
              l ← py_iter records;
              connectors ← connector_entries (default [] runtime_states) l [];
              Ok (connectors, loaded.2)
          end;
  digest ← registry_digest registry_path;
  let '(connectors, blockers) := found in
  let packet :=
    [("schema_version", VStr "mesh.connector_certification.v1");
     ("generated_at", VStr timestamp);
     ("status", VStr (match connectors, blockers with _ :: _, [] => "complete" | _, _ => "incomplete" end));
     ("registry_path",
       if no_path registry_path then VNone
       else VStr (display_path REPO_ROOT (registry_resolve_path registry_path)));
     ("registry_sha256", digest);
     ("connectors", VDict connectors);
     ("blockers", strs blockers)] in
  _ ← validate_named "connector-certification-matrix.schema.json" packet;
  Ok packet.
End repository.

(** ** States *)

Lemma state_order_known s : mem_str s (map fst STATE_ORDER) = true → ∃ n, state_order s = Some n.
Proof.
  unfold state_order, STATE_ORDER. cbn [map fst]. intros H.
  apply mem_str_elem in H. rewrite !elem_of_cons in H.
  destruct H as [->|[->|[->|[->|[->|[->|[->|[->|H]]]]]]]]; [eexists; reflexivity..|].
  by apply elem_of_nil in H.
Qed.

(** The effective state is never above the certified one. *)
Lemma bounded_state_le certified observed n :
  state_order certified = Some n → state_rank (bounded_state certified observed) <= state_rank certified.
Proof.
  unfold bounded_state. intros ->.
  destruct (Z.leb_spec (state_rank (match state_order observed with Some _ => observed | None => "mock" end))
    (state_rank certified)); lia.
Qed.

(** ** Entries *)

Definition record_schema : value :=
  dgetN "items" (dict_or_empty (dgetN "connectors"
    (dict_or_empty (dgetN "properties" (dict_or_empty connector_certification_registry_schema))))).

(** What the builder records of a connector, from its registry record. *)
Definition capped_entry (record entry : dict) : Prop :=
  ∃ certified observed boundary blockers,
    dgetN "state" record = certified
    ∧ dgetN "certified_state" entry = VStr (py_str certified)
    ∧ dgetN "state" entry = VStr (bounded_state (py_str certified) observed)
    ∧ dgetN "credential_boundary" record = boundary
    ∧ dgetN "blockers" entry = strs blockers
    ∧ (bounded_state (py_str certified) observed = "proposal-only" →
       truthy (dgetN "production_actuator_credentials_allowed" (dict_or_empty boundary))
       || truthy (dgetN "repo_write_credentials_allowed" (dict_or_empty boundary)) = true →
       blockers ≠ []).

Lemma boundary_blockers_lane id boundary rt l :
  credential_boundary_blockers id "proposal-only" boundary rt = Ok l →
  truthy (dgetN "production_actuator_credentials_allowed" boundary)
  || truthy (dgetN "repo_write_credentials_allowed" boundary) = true →
  l ≠ [].
Proof.
  unfold credential_boundary_blockers. cbn [String.eqb Ascii.eqb Bool.eqb]. intros H Hb. res_inv H.
  intros Hn. rewrite !app_nil in Hn. destruct Hn as (_ & H1 & H2 & _).
  cbn [andb] in H1, H2. apply orb_true_iff in Hb as [Hb|Hb]; by rewrite Hb in *.
Qed.

Lemma connector_entry_capped record observed id entry :
  connector_entry record observed = Ok (id, entry) →
  VStr id = VStr (py_str (dgetN "connector_id" record)) ∧ capped_entry record entry.
Proof.
  intros H. unfold connector_entry in H. res_inv H. cbn [fst snd] in *.
  assert (∀ k v, ditem k record = Ok v → dgetN k record = v) as Hd.
  { intros k v Hv. unfold ditem, dgetN in *. destruct (dget k record); [by injection Hv|done]. }
  rewrite (Hd _ _ Hx). split; [done|].
  match goal with Hb : credential_boundary_blockers _ _ _ _ = Ok ?lane |- _ =>
    eexists _, _, _, _; split; [by apply Hd|]; split; [reflexivity|]; split; [reflexivity|];
    split; [by apply Hd|]; split; [reflexivity|]; intros Hs Ht;
    rewrite Hs in Hb; apply boundary_blockers_lane in Hb end.
  - intros Hn. apply sorted_set_nil, app_nil in Hn as [_ [_ Hn]%app_nil]. done.
  - match goal with Hp : py_dict ?b = Ok ?cb |- _ => destruct b as [| | | | [|]|[|]|]; try done; injection Hp as <- end;
    exact Ht.
Qed.

(** Every entry of the matrix comes from a record of the registry. *)
Lemma connector_entries_from observed l : ∀ acc cs id c,
  connector_entries observed l acc = Ok cs → dget id cs = Some c →
  dget id acc = Some c
  ∨ ∃ record entry, VDict record ∈ l ∧ connector_entry record observed = Ok (id, entry) ∧ c = VDict entry.
Proof.
  induction l as [|v l IH]; intros acc cs id c H Hc; cbn [connector_entries] in H.
  { injection H as ->. by left. }
  assert (∀ acc', connector_entries observed l acc' = Ok cs →
    dget id acc' = Some c ∨ ∃ record entry, VDict record ∈ v :: l
      ∧ connector_entry record observed = Ok (id, entry) ∧ c = VDict entry) as Hrest.
  { intros acc' H'. destruct (IH _ _ _ _ H' Hc) as [?|(r & e & Hr & ?)]; [by left|].
    right. exists r, e. split; [by right|done]. }
  destruct v as [| | | | | |record]; try by apply Hrest.
  apply res_bind_Ok in H as ([k e] & He & H). apply Hrest in H as [H|H]; [|by right].
  cbn [fst snd] in H. rewrite dget_dset in H. destruct (String.eqb_spec id k) as [->|]; [|by left].
  injection H as <-. right. exists record, e. split; [left|done].
Qed.

(** ** Registries *)

Record certified_record (record : dict) (id state : string) (scopes : list string) : Prop :=
  CertifiedRecord {
    cr_id : dgetN "connector_id" record = VStr id;
    cr_state : dgetN "state" record = VStr state;
    cr_known : is_Some (state_order state);
    cr_scopes : dget "allowed_scopes" record = Some (VList (map VStr scopes)) }.

Lemma record_certified v :
  conforms v record_schema → ∃ record id state scopes, v = VDict record ∧ certified_record record id state scopes.
Proof.
  intros H. unfold record_schema in H. cbn in H.
  destruct (conforms_dict _ _ H eq_refl) as [record ->].
  member H "connector_id" vi Ei Hi. member H "state" vs Es Hs. member H "allowed_scopes" va Ea Ha.
  destruct (conforms_str _ _ Hi eq_refl) as [i ->]. destruct (conforms_str _ _ Hs eq_refl) as [st ->].
  destruct (conforms_strings _ _ Ha eq_refl eq_refl eq_refl) as [scopes ->].
  exists record, i, st, scopes. split; [done|]. split; [by apply dgetN_Some..| |done].
  apply conforms_inv in Hs as (Hs & _). specialize (Hs eq_refl).
  destruct (state_order_known st) as [n Hn]; [exact Hs|]. by exists n.
Qed.

(** What a loaded registry is. *)
Lemma loaded_registry root files p registry :
  load_connector_certification_registry root files p = Ok (Some registry) →
  ∃ d l, registry = VDict d ∧ dget "connectors" d = Some (VList l) ∧ l ≠ []
    ∧ load_json files (registry_resolve_path root p) = Ok registry
    ∧ ∀ v, v ∈ l → ∃ record id state scopes,
        v = VDict record ∧ certified_record record id state scopes.
Proof.
  unfold load_connector_certification_registry. destruct (no_path p); [done|].
  destruct (negb _); [done|]. intros H. res_inv H. destruct x0.
  apply (validate_value_conforms _ connector_certification_registry_schema) in Hx0; [|reflexivity..].
  pose proof Hx0 as Hv. unfold connector_certification_registry_schema in Hv.
  destruct (conforms_dict _ _ Hv eq_refl) as [d ->].
  member Hv "connectors" vc Ec Hc. destruct (conforms_list _ _ Hc eq_refl) as [l ->].
  exists d, l. split; [done|]. split; [done|]. split; [|split; [done|]].
  - intros ->. apply conforms_inv in Hc as (_ & _ & Hc). destruct (Hc eq_refl) as [Hm _].
    specialize (Hm 1 eq_refl). simpl in Hm. lia.
  - intros v Hin. apply record_certified. eapply conforms_items; [exact Hc|reflexivity|reflexivity|done].
Qed.

Lemma loaded_conform root files p d l :
  load_connector_certification_registry root files p = Ok (Some (VDict d)) →
  dget "connectors" d = Some (VList l) → Forall (λ v, conforms v record_schema) l.
Proof.
  unfold load_connector_certification_registry. destruct (no_path p); [done|].
  destruct (negb _); [done|]. intros H Hd. res_inv H. destruct x0.
  apply (validate_value_conforms _ connector_certification_registry_schema) in Hx0; [|reflexivity..].
  unfold connector_certification_registry_schema in Hx0.
  pose proof (conforms_member _ _ Hx0 eq_refl "connectors" _ _ Hd eq_refl) as Hc.
  apply Forall_forall. intros v Hin. eapply conforms_items; [exact Hc|reflexivity|reflexivity|done].
Qed.

(** A connector appears in the matrix only with a record in a valid
    registry, in a state no higher than the registry certifies, whatever the
    runtime reports; and a connector in the proposal lane whose credential
    boundary allows actuator or write credentials is never without a blocker. *)
Theorem certification_caps_connectors root files p runtime ts packet cs cid c :
  build_connector_certification_matrix root files p runtime ts = Ok packet →
  dget "connectors" packet = Some (VDict cs) → dget cid cs = Some c →
  ∃ records record entry certified state blockers,
    load_connector_certification_registry root files p = Ok (Some (VDict records))
    ∧ VDict record ∈ default [] (as_list (dgetN "connectors" records))
    ∧ str_at ["connector_id"] record = cid ∧ str_at ["state"] record = certified
    ∧ c = VDict entry
    ∧ str_at ["certified_state"] entry = certified ∧ str_at ["state"] entry = state
    ∧ state_rank state <= state_rank certified
    ∧ dgetN "blockers" entry = strs blockers
    ∧ (state = "proposal-only" →
       truthy (dgetN "production_actuator_credentials_allowed" (dict_or_empty (dgetN "credential_boundary" record)))
       || truthy (dgetN "repo_write_credentials_allowed" (dict_or_empty (dgetN "credential_boundary" record))) = true →
       blockers ≠ []).
Proof.
  intros H Hcs Hc. unfold build_connector_certification_matrix in H. res_inv H.
  destruct x0 as [connectors blockers]. apply res_bind_Ok in H as ([] & _ & H). injection H as <-.
  cbn [dget String.eqb Ascii.eqb Bool.eqb] in Hcs. injection Hcs as ->.
  unfold registry_or_blockers in Hx.
  destruct (load_connector_certification_registry root files p) as [[registry|]|e] eqn:Hl;
    [|injection Hx as <-; injection Hx0 as <- <-; done
     |destruct (registry_error e); [|done]; injection Hx as <-; injection Hx0 as <- <-; done].
  injection Hx as <-. destruct (loaded_registry _ _ _ _ Hl) as (d & l & -> & Hd & _ & _ & Hrec).
  cbn [fst snd py_get_or_nil mbind res_bind] in Hx0. unfold dget_or in Hx0. rewrite Hd in Hx0.
  cbn [default from_option id py_iter mbind res_bind] in Hx0. res_inv Hx0.
  destruct (connector_entries_from _ _ _ _ _ _ Hx Hc) as [?|(record & entry & Hin & He & ->)]; [done|].
  destruct (Hrec _ Hin) as (? & i & st & sc & [= <-] & [Hi Hs [n Hn] _]).
  destruct (connector_entry_capped _ _ _ _ He) as [[= Hid] (cert & obs & bd & bl & H1 & H2 & H3 & H4 & H5 & H6)].
  rewrite Hi in Hid. cbn [py_str] in Hid. subst. rewrite Hs in *. cbn [py_str] in *.
  exists d, record, entry, st, (bounded_state st obs), bl. split; [done|].
  split; [by rewrite (dgetN_Some _ _ _ Hd)|]. split; [by apply str_at_1|]. split; [by apply str_at_1|].
  split; [done|]. split; [by apply str_at_1|]. split; [by apply str_at_1|].
  split; [by eapply bounded_state_le|]. by rewrite H5.
Qed.

(** A registry with one connector, in the proposal lane with credentials it
    should not have. *)
Definition demo_registry : value :=
  VDict
    [("schema_version", VStr "connector.certification.registry.v1");
     ("connectors", VList
        [VDict
           [("connector_id", VStr "codex");
            ("display_name", VStr "Codex");
            ("domain", VStr "repo");
            ("state", VStr "proposal-only");
            ("required_before", VStr "pilot");
            ("authority_posture", VStr "proposal");
            ("credential_policy", VStr "none");
            ("credential_boundary", VDict
               [("service_account_ref", VNone);
                ("credential_mode", VStr "none");
                ("production_actuator_credentials_allowed", VBool false);
                ("repo_write_credentials_allowed", VBool true);
                ("runtime_secret_mount_required", VBool false);
                ("rotation_evidence_ref", VNone);
                ("break_glass_recording_required", VBool true)]);
            ("degraded_behavior", VStr "stop");
            ("allowed_scopes", VList [VStr "proposal"]);
            ("evidence_refs", VList []);
            ("blockers", VList [])]])].

Lemma certification_caps_connectors_witness :
  let root := Path "/" ["repo"] in
  let files := λ _, Readable "{}" (Ok demo_registry) in
  ∃ packet cs c, build_connector_certification_matrix root files (Some "r.json")
      (Some [("codex", VDict [("state", VStr "production-ready")])]) "t" = Ok packet
    ∧ dget "connectors" packet = Some (VDict cs) ∧ dget "codex" cs = Some c
    ∧ ∃ entry, c = VDict entry ∧ dgetN "blockers" entry ≠ strs [].
Proof.
  intros root files. eexists _, _, _. split; [vm_compute; reflexivity|]. split; [reflexivity|].
  split; [reflexivity|].
  edestruct (certification_caps_connectors root files (Some "r.json")
    (Some [("codex", VDict [("state", VStr "production-ready")])]) "t") with (cid := "codex")
    as (records & record & entry & cert & st & bl & Hl & Hin & _ & _ & He & _ & Hs & _ & Hb & Hlane);
    [vm_compute; reflexivity|reflexivity|reflexivity|].
  exists entry. split; [exact He|]. injection He as <-. rewrite Hb. intros [= Hn].
  apply Hlane; [by rewrite <- Hs| |by apply map_eq_nil in Hn].
  vm_compute in Hl. injection Hl as <-. cbn in Hin. apply list_elem_of_singleton in Hin.
  injection Hin as ->. reflexivity.
Defined.

(** ** Every readable registry yields a matrix *)

(** A runtime record is a dictionary whose blockers are a list. *)
Definition runtime_ok (observed : dict) : Prop :=
  ∀ k v, dget k observed = Some v →
  ∃ r, v = VDict r ∧ (truthy (dgetN "blockers" r) = true → is_list (dgetN "blockers" r) = true).

Lemma string_items_strs l : string_items (map VStr l) = Ok l.
Proof. unfold string_items. induction l as [|s l IH]; [done|]. cbn [map res_map mbind res_bind]. by rewrite IH. Qed.

Lemma connector_entry_total v observed :
  conforms v record_schema → runtime_ok observed →
  ∃ record entry, v = VDict record ∧ connector_entry record observed = Ok entry.
Proof.
  intros H Hrt. unfold record_schema in H. cbn in H. destruct (conforms_dict _ _ H eq_refl) as [record ->].
  exists record. member H "connector_id" v1 E1 H1. member H "display_name" v2 E2 H2.
  member H "domain" v3 E3 H3. member H "state" v4 E4 H4. member H "required_before" v5 E5 H5.
  member H "authority_posture" v6 E6 H6. member H "credential_policy" v7 E7 H7.
  member H "credential_boundary" v8 E8 H8. member H "degraded_behavior" v9 E9 H9.
  member H "allowed_scopes" v10 E10 H10. member H "evidence_refs" v11 E11 H11.
  member H "blockers" v12 E12 H12.
  destruct (conforms_dict _ _ H8 eq_refl) as [boundary ->].
  destruct (conforms_list _ _ H10 eq_refl) as [scopes ->]. destruct (conforms_list _ _ H11 eq_refl) as [refs ->].
  destruct (conforms_strings _ _ H12 eq_refl eq_refl eq_refl) as [own ->].
  assert (∃ r, dget_or (py_str v1) (VDict []) observed = VDict r
    ∧ (truthy (dgetN "blockers" r) = true → is_list (dgetN "blockers" r) = true)) as (r & Hr & Hb).
  { unfold dget_or. destruct (dget (py_str v1) observed) as [w|] eqn:E; [by apply Hrt in E|by exists []]. }
  unfold connector_entry, ditem. rewrite E1, E2, E3, E4, E5, E6, E7, E8, E9. cbn [mbind res_bind].
  rewrite Hr. cbn [py_get mbind res_bind]. unfold dget_or. rewrite E10, E11, E12.
  cbn [default from_option id py_iter mbind res_bind].
  assert (∃ more, (if truthy (dgetN "blockers" r) then py_iter (dgetN "blockers" r) else Ok []) = Ok more)
    as [more ->].
  { destruct (truthy _); [|by eexists]. destruct (dgetN "blockers" r); try by specialize (Hb eq_refl). by eexists. }
  cbn [mbind res_bind py_dict]. rewrite string_items_strs.
  unfold credential_boundary_blockers, get_true. cbn [py_get mbind res_bind].
  destruct (String.eqb _ "proposal-only"); cbn [mbind res_bind]; by eexists.
Qed.

Lemma connector_entries_total observed l acc :
  runtime_ok observed → Forall (λ v, conforms v record_schema) l →
  ∃ cs, connector_entries observed l acc = Ok cs ∧ (l ≠ [] ∨ acc ≠ [] → cs ≠ []).
Proof.
  intros Hrt Hl. revert acc. induction Hl as [|v l Hv _ IH]; intros acc; cbn [connector_entries].
  { exists acc. split; [done|]. by intros [?|?]. }
  destruct (connector_entry_total v observed Hv Hrt) as (record & entry & -> & ->).
  cbn [mbind res_bind]. destruct (IH (dset entry.1 (VDict entry.2) acc)) as (cs & -> & Hcs).
  exists cs. split; [done|]. intros _. apply Hcs. right.
  intros Hn. pose proof (dget_dset_eq entry.1 (VDict entry.2) acc) as He. by rewrite Hn in He.
Qed.

Lemma all_conform_free fields : all_conform [] fields.
Proof. by induction fields as [|[k v] fields IH]. Qed.

Lemma matrix_packet_valid ts status path digest connectors blockers :
  mem_str status ["complete"; "incomplete"] = true →
  path = VNone ∨ is_str path = true → digest = VNone ∨ is_str digest = true →
  validate_named "connector-certification-matrix.schema.json"
    [("schema_version", VStr "mesh.connector_certification.v1"); ("generated_at", VStr ts);
     ("status", VStr status); ("registry_path", path); ("registry_sha256", digest);
     ("connectors", VDict connectors); ("blockers", strs blockers)] = Ok ().
Proof.
  intros Hs Hp Hd. eapply validate_named_ok; [reflexivity..|].
  conform_step; try (by apply conforms_strs); try (by conform_step).
  - conform_step. intros _. exact Hs.
  - destruct Hp as [->|Hp]; [by conform_step|]. destruct path; try done. conform_step.
  - destruct Hd as [->|Hd]; [by conform_step|]. destruct digest; try done. conform_step.
  - conform_step. apply all_conform_free.
Qed.

Section guarantees.
Variable root : path.
Variable files : file_tree.
Variable p : option string.
#[local] Abbreviation view := (files (registry_resolve_path root p)).

(** Reading the registry fails in a way the builder reports. *)
Lemma load_cases :
  (∀ e, view ≠ Unreadable e) →
  (∀ content e, view = Readable content (Err e) → exc_cls e = JSONDecodeError) →
  match load_connector_certification_registry root files p with
  | Ok _ => True
  | Err e => registry_error e = true
  end.
Proof.
  intros Hu Hp. unfold load_connector_certification_registry. destruct (no_path p); [done|].
  unfold load_json. destruct view as [|e|content [v|e]] eqn:E; cbn [file_exists negb mbind res_bind].
  - done.
  - by destruct (Hu e).
  - unfold validate_value. cbn [load_schema String.eqb Ascii.eqb Bool.eqb mbind res_bind].
    pose proof (validate_node_decides v connector_certification_registry_schema "$" eq_refl) as Hd.
    destruct (validate_node v _ _) as [[]|e]; [done|]. unfold decides in Hd. cbn [mbind res_bind].
    unfold registry_error. destruct Hd as [-> _]. reflexivity.
  - unfold registry_error. by rewrite (Hp _ _ eq_refl).
Qed.

(** With any registry file that can be opened and is UTF-8 text - missing,
    not JSON, or not a valid registry included - the builder returns a
    well-formed matrix, and its status is complete exactly when a valid registry
    was loaded. *)
Theorem certification_matrix_reports runtime ts :
  runtime_ok (default [] runtime) →
  (∀ e, view ≠ Unreadable e) →
  (∀ content e, view = Readable content (Err e) → exc_cls e = JSONDecodeError) →
  ∃ packet, build_connector_certification_matrix root files p runtime ts = Ok packet
    ∧ validate_named "connector-certification-matrix.schema.json" packet = Ok ()
    ∧ (dget "status" packet = Some (VStr "complete")
       ↔ ∃ registry, load_connector_certification_registry root files p = Ok (Some registry)).
Proof.
  intros Hrt Hu Hp. pose proof (load_cases Hu Hp) as Hl.
  assert (∃ digest, registry_digest root files p = Ok digest ∧ (digest = VNone ∨ is_str digest = true))
    as (digest & Hd & Hdt).
  { unfold registry_digest. destruct (no_path p); [eauto|]. unfold sha256_of_file.
    destruct view as [|e|content v] eqn:E; cbn [file_exists mbind res_bind];
      [eauto|by destruct (Hu e)|eauto]. }
  set (shown := if no_path p then VNone else VStr (display_path root (registry_resolve_path root p))).
  assert (shown = VNone ∨ is_str shown = true) as Hshown by (unfold shown; destruct (no_path p); auto).
  unfold build_connector_certification_matrix, registry_or_blockers.
  destruct (load_connector_certification_registry root files p) as [[registry|]|e] eqn:Hload.
  - destruct (loaded_registry _ _ _ _ Hload) as (d & l & -> & Hdl & Hne & _).
    cbn [fst snd mbind res_bind py_get_or_nil]. unfold dget_or. rewrite Hdl.
    cbn [default from_option id py_iter mbind res_bind].
    destruct (connector_entries_total (default [] runtime) l [] Hrt (loaded_conform _ _ _ _ _ Hload Hdl))
      as (cs & -> & Hcs). cbn [mbind res_bind]. rewrite Hd. cbn [mbind res_bind].
    fold shown. destruct cs as [|c cs]; [by destruct Hcs; auto|].
    rewrite matrix_packet_valid by auto. eexists. split; [reflexivity|].
    split; [by apply matrix_packet_valid|]. split; [eauto|done].
  - cbn [fst snd mbind res_bind app]. rewrite Hd. cbn [mbind res_bind]. fold shown.
    rewrite matrix_packet_valid by auto. eexists. split; [reflexivity|].
    split; [by apply matrix_packet_valid|]. split; [done|by intros [? ?]].
  - rewrite Hl. cbn [fst snd mbind res_bind app]. rewrite Hd. cbn [mbind res_bind]. fold shown.
    rewrite matrix_packet_valid by auto. eexists. split; [reflexivity|].
    split; [by apply matrix_packet_valid|]. split; [done|by intros [? ?]].
Qed.

(** A registry path that exists but cannot be opened - a directory, or no
    permission - is not reported in the matrix: the second read, for the
    digest, is outside the [try] and the builder raises. *)
Theorem certification_matrix_unreadable runtime ts msg :
  no_path p = false → view = Unreadable (Exc OSError msg) →
  build_connector_certification_matrix root files p runtime ts = Err (Exc OSError msg)
  ∧ connector_certification_registry_ready root files p = Ok false.
Proof.
  intros Hn Hv. unfold build_connector_certification_matrix, connector_certification_registry_ready.
  unfold registry_or_blockers, load_connector_certification_registry, registry_digest.
  unfold load_json, sha256_of_file. rewrite Hn. rewrite Hv. split; reflexivity.
Qed.
End guarantees.

Lemma certification_matrix_reports_witness :
  let root := Path "/" ["repo"] in
  let files := λ _, Readable "{" (Err (Exc JSONDecodeError "Expecting property name")) in
  ∃ packet, build_connector_certification_matrix root files None None "t" = Ok packet.
Proof.
  intros root files. edestruct (certification_matrix_reports root files None None "t")
    as (packet & H & _); [by intros k v [=]|done| |by exists packet].
  intros content e [= _ <-]. reflexivity.
Defined.

Lemma certification_matrix_unreadable_witness :
  let root := Path "/" ["repo"] in
  let files := λ _, Unreadable (Exc OSError "Is a directory") in
  build_connector_certification_matrix root files (Some "config") None "t"
  = Err (Exc OSError "Is a directory").
Proof.
  intros root files. apply (certification_matrix_unreadable root files (Some "config")); reflexivity.
Defined.

(** The schema pins [schema_version] with [const], which the validator does not
    know: a registry of another version loads. *)
Example registry_version_unchecked :
  validate_value "connector-certification-registry.schema.json"
    (VDict (dset "schema_version" (VStr "connector.certification.registry.v9")
              (dict_or_empty demo_registry))) = Ok ().
Proof. reflexivity. Qed.
