(* ===== verification/AutonomyPolicy.v ===== *)
(** * Autonomy policy

    [src/shared/mesh_runtime/autonomy_policy.py]: whether a decision may run,
    and whether it may run live, from its autonomy tier, the certification of
    the connector it goes through, the scope it asks for, its evidence and the
    approval seen.  Lowercasing the target profile maps ASCII letters only; no
    other character lowercases to a profile of the table. *)

From S2P Require Import Prelude PyFloat PyValue Json PyNumbers Paths SchemaValidation Schemas Models Contracts PacketFacts RegistryFile ConnectorCertification.

Definition ADVISORY_SCOPES : list string :=
  ["contract-check"; "eval-read"; "explain"; "local-audit"; "metrics-read"; "orchestration-evidence";
   "proposal"; "read-only"; "review"].

Definition MUTATING_SCOPES : list string :=
  ["alert-intake"; "append-only-audit-write"; "incident-write"; "patch"; "rollback"; "rollout-restart";
   "scale"; "write"].

Definition TARGET_MINIMUM_STATE : list (string * string) :=
  [("local", "staging-ready"); ("staging", "staging-ready"); ("pilot", "pilot-ready");
   ("production", "production-ready"); ("prod", "production-ready"); ("expansion", "production-ready")].

Definition SYSTEM_CONNECTOR : list (string * string) :=
  [("audit_log_sink", "audit_sink"); ("feature_flag_service", "feature_flag_adapter");
   ("incident_service", "incident_adapter"); ("kubernetes_service", "kubernetes");
   ("repo_patch_service", "codex"); ("systemd_service", "systemd_service")].

Definition ACTION_SCOPE : list (string * string) :=
  [("investigate_and_patch", "proposal"); ("open_incident", "incident-write"); ("patch_resources", "patch");
   ("record_defer_until", "local-audit"); ("record_no_action", "local-audit");
   ("restart_deployment", "rollout-restart"); ("restart_pod", "rollout-restart");
   ("restart_systemd_service", "restart-service"); ("rollback_deployment", "rollback");
   ("scale_deployment", "scale"); ("set_rollout", "write")].

Record AutonomyPolicyVerdict := Verdict {
  policy_tier : string;
  allowed : bool;
  live_execution_allowed : bool;
  mock_execution_only : bool;
  connector_id : string;
  connector_state : option string;
  requested_scope : string;
  minimum_state : string;
  blockers : list string;
  live_blockers : list string;
  evidence_refs : list string;
  approval_observed : bool }.

Definition verdict_to_dict (v : AutonomyPolicyVerdict) : dict :=
  [("policy_tier", VStr (policy_tier v));
   ("allowed", VBool (allowed v));
   ("live_execution_allowed", VBool (live_execution_allowed v));
   ("mock_execution_only", VBool (mock_execution_only v));
   ("connector_id", VStr (connector_id v));
   ("connector_state", opt_str (connector_state v));
   ("requested_scope", VStr (requested_scope v));
   ("minimum_state", VStr (minimum_state v));
   ("blockers", strs (blockers v));
   ("live_blockers", strs (live_blockers v));
   ("evidence_refs", strs (evidence_refs v));
   ("approval_observed", VBool (approval_observed v))].

(** ** What the decision asks for *)

Definition tier_from_decision (decision : dict) : string :=
  let raw := py_str (dgetN "autonomy_tier" decision) in
  if String.eqb raw "autonomous" then "fully_autonomous"
  else if String.eqb raw "approval_required" then "approval_required"
  else "advisory_only".

(** [str(d\[key\])] when [d] is a dictionary with a true value there *)
Definition override_in (v : value) (key : string) : option string :=
  match v with
  | VDict d => if truthy (dgetN key d) then Some (py_str (dgetN key d)) else None
  | _ => None
  end.

Definition execution_override (decision : dict) (key : string) : res (option string) :=
  parameters ← py_get (dgetN "execution_plan" decision) "parameters";
  match override_in parameters key with
  | Some s => Ok (Some s)
  | None =>
      certification ← py_get (dgetN "reasoning" decision) "connector_certification";
      Ok (override_in certification key)
  end.

(** The override when it is a non-empty string, or the table's entry for the
    plan's [field]. *)
Definition overridden (decision : dict) (key field : string) (table : list (string * string)) : res string :=
  override ← execution_override decision key;
  match override with
  | Some s =>
      if String.eqb s "" then
        v ← py_get (dgetN "execution_plan" decision) field;
        Ok (default "unknown" (alookup (py_str (py_or v (VStr ""))) table))
      else Ok s
  | None =>
      v ← py_get (dgetN "execution_plan" decision) field;
      Ok (default "unknown" (alookup (py_str (py_or v (VStr ""))) table))
  end.

Definition decision_connector_id (decision : dict) : res string :=
  overridden decision "connector_id" "system" SYSTEM_CONNECTOR.

Definition decision_requested_scope (decision : dict) : res string :=
  overridden decision "requested_scope" "action" ACTION_SCOPE.

Definition decision_evidence_refs (decision : dict) : res (list value) :=
  source ← py_get (dgetN "reasoning" decision) "source_event_ids";
  evidence ← py_get (dgetN "reasoning" decision) "evidence_event_ids";
  pack ← py_get (dgetN "reasoning" decision) "evidence_pack";
  let listed v := match v with VList l => map (λ x, VStr (py_str x)) l | _ => [] end in
  Ok (dgetN "decision_id" decision :: listed source ++ listed evidence
      ++ match pack with
         | VDict d =>
             flat_map (λ key, if truthy (dgetN key d) then [VStr (py_str (dgetN key d))] else [])
               ["artifact_ref"; "proof_ref"; "run_export_ref"]
         | _ => []
         end).

(** [tuple(str(ref) for ref in refs if str(ref).strip())] *)
Definition stated_refs (refs : list value) : list string :=
  List.filter (λ s, negb (String.eqb (str_strip s) "")) (map py_str refs).

(** ** States and scopes *)

Definition target_minimum_state (target_profile : string) : string :=
  default "pilot-ready" (alookup (str_lower target_profile) TARGET_MINIMUM_STATE).

Definition state_at_least (observed minimum : string) : bool :=
  default (state_rank "pilot-ready") (state_order minimum) <=? default 0 (state_order observed).

Definition scope_is_mutating (scope : string) : bool :=
  mem_str scope MUTATING_SCOPES || negb (mem_str scope ADVISORY_SCOPES).

(** [a or b] for strings and a fallback that may raise *)
Definition str_or (a : option string) (b : res string) : res string :=
  match a with Some s => if String.eqb s "" then b else Ok s | None => b end.

Section repository.
Variable REPO_ROOT : path.
Variable files : file_tree.

(** The record whose identifier is [connector_id]. *)
Fixpoint find_record (cid : string) (records : list value) : option dict :=
  match records with
  | [] => None
  | VDict record :: rest =>
      if is_string cid (dgetN "connector_id" record) then Some record else find_record cid rest
  | _ :: rest => find_record cid rest
  end.

Definition connector_record (registry_path cid : string) : res (option dict) :=
  match load_connector_certification_registry REPO_ROOT files (Some registry_path) with
  | Err e => if registry_error e then Ok None else Err e
  | Ok registry =>
      records ← match registry with
                | Some r => if truthy r then py_get_or_nil r "connectors" else Ok (VList [])
                | None => Ok (VList [])
                end;
      l ← py_iter records;
      Ok (find_record cid l)
  end.

(** The two lists of blockers, before [live_execution_enabled] is looked at. *)
Definition tier_blockers (tier scope : string) (refs : list string) (approval force_gate : bool) : list string :=
  (if String.eqb tier "denied_always" then ["autonomy_tier_denied_always"] else [])
  ++ (if String.eqb tier "advisory_only" && negb (mem_str scope ADVISORY_SCOPES)
      then ["advisory_only_scope_cannot_mutate"] else [])
  ++ (if String.eqb tier "approval_required" && negb approval
      then ["approval_required_before_execution"] else [])
  ++ (if String.eqb tier "fully_autonomous" && force_gate
      then ["approval_required_before_execution"] else [])
  ++ (if scope_is_mutating scope && String.eqb tier "fully_autonomous"
         && match refs with [] => true | _ => false end
      then ["evidence_required_before_execution"] else []).

Definition certification_blockers (record : option dict) (state : option string) (minimum scope : string)
    (allowed_scopes : list string) : list string :=
  (match record with
   | None => ["connector_not_certified"]
   | Some _ =>
       let observed := match state with Some s => if String.eqb s "" then "disabled" else s
                                   | None => "disabled" end in
       if negb (state_at_least observed minimum) then ["connector_state_below_target_minimum"] else []
   end)
  ++ (if negb (mem_str scope allowed_scopes) then ["scope_not_allowed_by_connector_certification"] else []).

Definition no_items {A} (l : list A) : bool := match l with [] => true | _ => false end.

(** [given_tier], [registry_path], [given_connector], [given_scope] and
    [given_refs] are the optional arguments. *)
Definition evaluate_autonomy_policy (decision : dict) (given_tier registry_path : option string)
    (target_profile : string) (given_connector given_scope : option string)
    (given_refs : option (list string)) (approval live_enabled force_gate : bool)
    : res AutonomyPolicyVerdict :=
  tier ← str_or given_tier (Ok (tier_from_decision decision));
  connector ← str_or given_connector (decision_connector_id decision);
  scope ← str_or given_scope (decision_requested_scope decision);
  raw ← match given_refs with
        | Some (r :: rs) => Ok (map VStr (r :: rs))
        | _ => decision_evidence_refs decision
        end;
  let refs := stated_refs raw in
  let minimum := target_minimum_state target_profile in
  path ← str_or registry_path (Ok (path_str (DEFAULT_CONNECTOR_CERTIFICATION_REGISTRY REPO_ROOT)));
  record ← connector_record path connector;
  let state := match record with
               | Some ((_ :: _) as r) => Some (py_str (dgetN "state" r)) | _ => None end in
  scopes ← match record with
           | Some ((_ :: _) as r) => l ← py_iter (dget_or "allowed_scopes" (VList []) r); Ok (map py_str l)
           | _ => Ok []
           end;
  let tier_b := tier_blockers tier scope refs approval force_gate in
  let cert_b := certification_blockers record state minimum scope scopes in
  let blockers := tier_b ++ (if live_enabled then cert_b else []) in
  let live_blockers := blockers ++ cert_b
    ++ (if scope_is_mutating scope && negb live_enabled then ["live_execution_disabled"] else []) in
  let allowed := no_items blockers in
  let live := allowed && no_items live_blockers in
  Ok (Verdict tier allowed live (allowed && negb live) connector state scope minimum
        (sorted_set blockers) (sorted_set live_blockers) refs approval).
End repository.

(** ** Blockers *)

Lemma if_nil (b : bool) (x : string) : (if b then [x] else []) = [] ↔ b = false.
Proof. by destruct b. Qed.

Lemma no_items_true {A} (l : list A) : no_items l = true ↔ l = [].
Proof. by destruct l. Qed.

(** What the tier asks before a decision may run. *)
Definition tier_permits (tier scope : string) (refs : list string) (approval force_gate : bool) : Prop :=
  tier ≠ "denied_always"
  ∧ (tier = "advisory_only" → scope ∈ ADVISORY_SCOPES)
  ∧ (tier = "approval_required" → approval = true)
  ∧ (tier = "fully_autonomous" → force_gate = false ∧ (scope_is_mutating scope = true → refs ≠ [])).

Lemma tier_blockers_nil tier scope refs approval force_gate :
  tier_blockers tier scope refs approval force_gate = [] ↔ tier_permits tier scope refs approval force_gate.
Proof.
  unfold tier_blockers, tier_permits. rewrite !app_nil, !if_nil, <- mem_str_elem.
  rewrite !andb_false_iff, !negb_false_iff, !String.eqb_neq.
  split.
  - intros (H1 & H2 & H3 & H4 & H5). split; [done|]. split; [by destruct H2|]. split; [by destruct H3|].
    intros ->. split; [by destruct H4|]. intros Hm ->. by destruct H5 as [[H5|H5]|H5]; congruence.
  - intros (H1 & H2 & H3 & H4). split; [done|].
    destruct (decide (tier = "advisory_only")), (decide (tier = "approval_required")),
      (decide (tier = "fully_autonomous")); try congruence; try tauto.
    destruct (H4 e) as [Hg Hr]. destruct refs; [|tauto].
    destruct (scope_is_mutating scope); [by destruct Hr|tauto].
Qed.

Lemma target_minimum_known profile : ∃ n, state_order (target_minimum_state profile) = Some n.
Proof.
  unfold target_minimum_state, TARGET_MINIMUM_STATE. cbn [alookup].
  repeat (destruct (String.eqb _ _); [eexists; reflexivity|]). eexists. reflexivity.
Qed.

(** The connector is certified for the scope, at the state the target asks
    for or above. *)
Definition certified_for (root : path) (files : file_tree) (p cid minimum scope : string) : Prop :=
  ∃ registry record state scopes,
    load_connector_certification_registry root files (Some p) = Ok (Some (VDict registry))
    ∧ find_record cid (default [] (as_list (dgetN "connectors" registry))) = Some record
    ∧ certified_record record cid state scopes
    ∧ state_rank minimum <= state_rank state ∧ scope ∈ scopes.

Lemma find_record_in cid l record :
  find_record cid l = Some record → VDict record ∈ l ∧ dgetN "connector_id" record = VStr cid.
Proof.
  induction l as [|v l IH]; [done|]. cbn [find_record].
  destruct v as [| | | | | |r]; try (intros H; destruct (IH H); split; [by right|done]).
  destruct (is_string cid (dgetN "connector_id" r)) eqn:E.
  - intros [= <-]. apply is_string_true in E. split; [left|done].
  - intros H. destruct (IH H). split; [by right|done].
Qed.

(** A registry that cannot be read for a reason the code does not handle. *)
Definition unhandled_registry (root : path) (files : file_tree) (p : string) (e : exc) : Prop :=
  load_connector_certification_registry root files (Some p) = Err e ∧ registry_error e = false.

(** The record looked up, or the failure that is passed on. *)
Lemma connector_record_cases root files p cid :
  (∃ e, unhandled_registry root files p e ∧ connector_record root files p cid = Err e)
  ∨ (∀ e, ¬ unhandled_registry root files p e)
  ∧ (connector_record root files p cid = Ok None ∧ (∀ minimum scope, ¬ certified_for root files p cid minimum scope)
  ∨ ∃ registry record state scopes,
      connector_record root files p cid = Ok (Some record)
      ∧ load_connector_certification_registry root files (Some p) = Ok (Some (VDict registry))
      ∧ find_record cid (default [] (as_list (dgetN "connectors" registry))) = Some record
      ∧ certified_record record cid state scopes).
Proof.
  unfold connector_record, certified_for, unhandled_registry.
  destruct (load_connector_certification_registry root files (Some p)) as [[registry|]|e] eqn:Hl; cycle 2.
  - destruct (registry_error e) eqn:He; [|left; exists e; by rewrite He].
    right. split; [by intros e' [[= <-] ?]; congruence|]. left. split; [done|]. by intros ? ? (? & ? & ? & ? & ? & _).
  - right. split; [by intros ? [? _]|]. destruct (loaded_registry _ _ _ _ Hl) as (d & l & -> & Hd & _ & _ & Hrec).
    assert (truthy (VDict d) = true) as -> by (by destruct d).
    cbn [py_get_or_nil mbind res_bind]. unfold dget_or. rewrite Hd.
    cbn [default from_option id py_iter mbind res_bind].
    assert (default [] (as_list (dgetN "connectors" d)) = l) as Hc by (by rewrite (dgetN_Some _ _ _ Hd)).
    destruct (find_record cid l) as [record|] eqn:Hf.
    + right. destruct (find_record_in _ _ _ Hf) as [Hin Hid].
      destruct (Hrec _ Hin) as (r & i & st & sc & [= <-] & Hr).
      exists d, record, st, sc. rewrite Hc. split; [done|]. split; [done|]. split; [done|].
      destruct Hr as [Hi Hs Hk Hsc]. rewrite Hid in Hi. injection Hi as <-. by constructor.
    + left. split; [done|]. intros minimum scope (d' & record & st & sc & [= <-] & Hr & _).
      by rewrite Hc, Hf in Hr.
  - right. split; [by intros ? [? _]|]. left. split; [done|]. by intros ? ? (? & ? & ? & ? & ? & _).
Qed.

Lemma certified_record_fun record cid st scopes st' scopes' :
  certified_record record cid st scopes → certified_record record cid st' scopes' →
  st = st' ∧ scopes = scopes'.
Proof.
  intros [_ H1 _ H2] [_ H1' _ H2']. rewrite H1 in H1'. rewrite H2 in H2'. injection H1' as <-.
  injection H2' as H. split; [done|]. revert scopes' H. clear.
  induction scopes as [|s l IH]; intros [|s' l'] H; try done. injection H as <- H. by rewrite (IH _ H).
Qed.

Lemma certified_known record cid state scopes profile scope :
  certified_record record cid state scopes →
  certification_blockers (Some record) (Some state) (target_minimum_state profile) scope scopes = []
  ↔ state_rank (target_minimum_state profile) <= state_rank state ∧ scope ∈ scopes.
Proof.
  intros [_ _ [n Hn] _]. destruct (target_minimum_known profile) as [m Hm].
  unfold certification_blockers. rewrite app_nil, !if_nil, !negb_false_iff, mem_str_elem.
  assert (String.eqb state "" = false) as ->.
  { apply String.eqb_neq. intros ->. done. }
  unfold state_at_least, state_rank. rewrite Hm, Hn. cbn [default from_option id].
  by rewrite Z.leb_le.
Qed.

(** ** The guarantee *)

Lemma overridden_total decision (p : decision_parts decision) key field table s :
  dgetN field (dp_plan _ p) = VStr s → ∃ r, overridden decision key field table = Ok r.
Proof.
  intros Hs. unfold overridden, execution_override. rewrite (dp_plan_eq _ p), (dp_reasoning_eq _ p).
  cbn [py_get mbind res_bind]. rewrite Hs.
  destruct (override_in _ _) as [o|]; cbn [mbind res_bind]; [destruct (String.eqb o ""); by eexists|].
  destruct (override_in _ _) as [o|]; [destruct (String.eqb o "")|]; by eexists.
Qed.

Lemma decision_refs_total decision (p : decision_parts decision) :
  ∃ l, decision_evidence_refs decision = Ok l.
Proof.
  unfold decision_evidence_refs. rewrite (dp_reasoning_eq _ p). cbn [py_get mbind res_bind]. by eexists.
Qed.

Lemma str_or_total a b : (∃ s, b = Ok s) → ∃ s, str_or a b = Ok s.
Proof. intros [s ->]. destruct a as [a|]; simpl; [destruct (String.eqb a "")|]; by eexists. Qed.

(** The registry that is consulted. *)
Definition policy_registry (root : path) (registry_path : option string) : string :=
  match registry_path with
  | Some s => if String.eqb s "" then path_str (DEFAULT_CONNECTOR_CERTIFICATION_REGISTRY root) else s
  | None => path_str (DEFAULT_CONNECTOR_CERTIFICATION_REGISTRY root)
  end.

Lemma policy_registry_eq root rp :
  str_or rp (Ok (path_str (DEFAULT_CONNECTOR_CERTIFICATION_REGISTRY root))) = Ok (policy_registry root rp).
Proof. unfold str_or, policy_registry. destruct rp as [s|]; [by destruct (String.eqb s "")|done]. Qed.

(** From the lists of blockers to the verdict. *)
Lemma verdict_decides (permitted certified : Prop) (tier_b cert_b : list string) (live mutating : bool) :
  (tier_b = [] ↔ permitted) → (cert_b = [] ↔ certified) →
  let blockers := tier_b ++ (if live then cert_b else []) in
  let live_blockers := blockers ++ cert_b
    ++ (if mutating && negb live then ["live_execution_disabled"] else []) in
  (no_items blockers = true ↔ permitted ∧ (live = true → certified))
  ∧ (no_items blockers && no_items live_blockers = true
     ↔ permitted ∧ certified ∧ (mutating = true → live = true)).
Proof.
  intros Ht Hc. cbv zeta. rewrite andb_true_iff, !no_items_true, !app_nil, if_nil.
  rewrite andb_false_iff, negb_false_iff, Ht.
  destruct live, mutating; rewrite ?Hc; intuition congruence.
Qed.

(** The decision a valid record gives, up to the registry: the tier, the
    connector, the scope and the references are found in it. *)
Lemma policy_inputs decision given_tier gc gs (gr : option (list string)) :
  validate_named "decision.schema.json" decision = Ok () →
  ∃ tier cid scope raw,
    str_or given_tier (Ok (tier_from_decision decision)) = Ok tier
    ∧ str_or gc (decision_connector_id decision) = Ok cid
    ∧ str_or gs (decision_requested_scope decision) = Ok scope
    ∧ match gr with Some (r :: rs) => Ok (map VStr (r :: rs)) | _ => decision_evidence_refs decision end = Ok raw.
Proof.
  intros Hv. destruct (valid_decision_parts _ Hv) as [p].
  destruct (str_or_total given_tier (Ok (tier_from_decision decision))) as [tier Htier]; [by eexists|].
  destruct (str_or_total gc (decision_connector_id decision)) as [cid Hcid];
    [by apply (overridden_total _ p _ _ _ _ (dp_system_eq _ p))|].
  destruct (str_or_total gs (decision_requested_scope decision)) as [scope Hscope];
    [by apply (overridden_total _ p _ _ _ _ (dp_action_eq _ p))|].
  destruct (decision_refs_total _ p) as [l Hl].
  exists tier, cid, scope. destruct gr as [[|r rs]|]; by eexists.
Qed.

(** C28: for every decision that passes its schema, and whatever the registry
    file holds, either loading the registry raises an exception the code does not
    handle (another than OSError, JSONDecodeError or SchemaValidationError, as a
    file that is not UTF-8 does) and the policy raises it, or the policy gives a
    verdict.  Then the decision is allowed exactly when its tier permits it and,
    with live execution on, the connector is certified for the scope; it may run
    live exactly when the tier permits it, the connector is certified at the
    target's minimum state for that scope, and a mutating scope meets an enabled
    switch; it may otherwise only be mocked. *)
Theorem autonomy_policy_decides root files decision given_tier rp profile gc gs gr approval live force :
  validate_named "decision.schema.json" decision = Ok () →
  let verdict := evaluate_autonomy_policy root files decision given_tier rp profile gc gs gr approval live force in
  (∃ e, unhandled_registry root files (policy_registry root rp) e ∧ verdict = Err e)
  ∨ (∀ e, ¬ unhandled_registry root files (policy_registry root rp) e)
    ∧ ∃ v, verdict = Ok v
      ∧ let certified := certified_for root files (policy_registry root rp) (connector_id v)
                           (target_minimum_state profile) (requested_scope v) in
        let permitted := tier_permits (policy_tier v) (requested_scope v) (evidence_refs v) approval force in
        (allowed v = true ↔ permitted ∧ (live = true → certified))
        ∧ (live_execution_allowed v = true ↔
             permitted ∧ certified ∧ (scope_is_mutating (requested_scope v) = true → live = true))
        ∧ mock_execution_only v = allowed v && negb (live_execution_allowed v).
Proof.
  intros Hv. cbv zeta.
  destruct (policy_inputs _ given_tier gc gs gr Hv) as (tier & cid & scope & raw & Htier & Hcid & Hscope & Hraw).
  unfold evaluate_autonomy_policy. rewrite Htier, Hcid, Hscope, Hraw, policy_registry_eq.
  cbn [mbind res_bind].
  destruct (connector_record_cases root files (policy_registry root rp) cid)
    as [(e & He & ->)|[Hload [[-> Hno]|(registry & record & st & scopes & -> & Hl & Hf & Hr)]]]; cbn [mbind res_bind];
    [left; by exists e|right; split; [done|]..].
  - eexists. split; [reflexivity|].
    cbn [connector_id requested_scope policy_tier evidence_refs allowed live_execution_allowed mock_execution_only].
    refine ((λ H, conj (proj1 H) (conj (proj2 H) eq_refl)) _). apply verdict_decides.
    + apply tier_blockers_nil.
    + unfold certification_blockers. split; [by rewrite app_nil; intros [? _]|].
      intros H. by destruct (Hno _ _ H).
  - destruct record as [|kv record]; [by destruct Hr as [Hid _ _ _]|].
    rewrite (cr_state _ _ _ _ Hr). unfold dget_or. rewrite (cr_scopes _ _ _ _ Hr).
    cbn [default from_option id py_iter mbind res_bind]. eexists. split; [reflexivity|].
    cbn [connector_id requested_scope policy_tier evidence_refs allowed live_execution_allowed mock_execution_only].
    refine ((λ H, conj (proj1 H) (conj (proj2 H) eq_refl)) _). apply verdict_decides.
    + apply tier_blockers_nil.
    + rewrite map_map. cbn [py_str]. rewrite map_id.
      rewrite (certified_known _ _ _ _ profile scope Hr). unfold certified_for. split.
      * intros [Hle Hin]. by exists registry, (kv :: record), st, scopes.
      * intros (registry' & record' & st' & scopes' & Hl' & Hf' & Hr' & Hle & Hin).
        rewrite Hl in Hl'. injection Hl' as <-. rewrite Hf in Hf'. injection Hf' as <-.
        by destruct (certified_record_fun _ _ _ _ _ _ Hr Hr') as [<- <-].
Qed.

(** The kubernetes connector, certified for production. *)
Definition production_registry : value :=
  VDict
    [("schema_version", VStr "connector.certification.registry.v1");
     ("connectors", VList
        [VDict
           [("connector_id", VStr "kubernetes");
            ("display_name", VStr "Kubernetes");
            ("domain", VStr "runtime");
            ("state", VStr "production-ready");
            ("required_before", VStr "pilot");
            ("authority_posture", VStr "actuator");
            ("credential_policy", VStr "secret");
            ("credential_boundary", VDict
               [("service_account_ref", VStr "mesh");
                ("credential_mode", VStr "runtime-secret");
                ("production_actuator_credentials_allowed", VBool true);
                ("repo_write_credentials_allowed", VBool false);
                ("runtime_secret_mount_required", VBool true);
                ("rotation_evidence_ref", VNone);
                ("break_glass_recording_required", VBool true)]);
            ("degraded_behavior", VStr "stop");
            ("allowed_scopes", VList [VStr "scale"]);
            ("evidence_refs", VList []);
            ("blockers", VList [])]])].

Lemma autonomy_policy_decides_witness :
  let root := Path "/" ["repo"] in
  let files := λ _, Readable "{}" (Ok production_registry) in
  ∃ v, evaluate_autonomy_policy root files demo_decision None None "prod" None None None false true false = Ok v
       ∧ live_execution_allowed v = true
       ∧ certified_for root files (policy_registry root None) "kubernetes" "production-ready" "scale".
Proof.
  intros root files.
  destruct (autonomy_policy_decides root files demo_decision None None "prod" None None None false true false)
    as [(e & [H _] & _)|(_ & v & Hv & _ & Hlive & _)]; [reflexivity|vm_compute in H; discriminate H|].
  exists v. vm_compute in Hv. injection Hv as <-. split; [vm_compute; reflexivity|].
  split; [reflexivity|]. by apply Hlive.
Defined.
