(* ===== verification/PermitValidation.v ===== *)
(** * Semantics of execution permits

    [src/shared/mesh_runtime/repo_patch_permit_validation.py]: the issues of a
    repo-patch execution permit, in the order the source appends them. *)

From S2P Require Import Prelude PyFloat PyValue Json Sha256 DateTime.

#[local] Opaque sha256_hex.

Definition REPO_PATCH_EXECUTION_PERMIT_VERSION : string := "mesh.repo_patch_execution_permit.v1".
Definition REPO_PATCH_EXECUTION_TRANSACTION_VERSION : string :=
  "mesh.repo_patch_execution_transaction.v1".
Definition REPO_PATCH_AUTHORITY_SCOPE : string := "local_disposable_repo_patch_only".
Definition REPO_PATCH_ACTION_KIND : string := "repo_patch".
Definition REPO_PATCH_PERMIT_SIGNING_PROFILE : string :=
  "mesh-repo-patch-execution-permit-hmac-sha256-v1".
Definition REPO_PATCH_PERMIT_MAX_TTL_SECONDS : Z := 300.

Definition SHA256_FIELDS : list string :=
  ["hsai_request_digest"; "hsai_decision_digest"; "candidate_payload_digest";
   "action_proposal_digest"; "evidence_packet_digest"; "policy_snapshot_digest";
   "canonical_actuation_payload_digest"; "target_preimage_digest"; "target_postimage_digest";
   "expected_ledger_tip_before"; "authority_entry_digest"; "ledger_tip_after"; "permit_digest"].

Definition CLAIM_LIST_FIELDS : list string :=
  ["requested_claims"; "accepted_claims"; "explicit_nonclaims"; "enforced_nonclaims"].

Definition AUTHORIZATION_PROOF_FIELDS : list string :=
  ["signing_profile"; "algorithm"; "key_id"; "signature"; "payload_sha256"; "status"; "verifier"].

Definition ENTRY_DERIVED_FIELDS : list string :=
  ["authority_entry_digest"; "ledger_tip_after"; "permit_digest"; "authorization_proof"].

(** [issues.append(issue)] when [b] *)
Definition issue_if (b : bool) (issue : string) : list string := if b then [issue] else [].

Definition is_hex64 (v : value) : bool :=
  match v with VStr s => is_hex_string 64 s | _ => false end.

(** [^sha256:\[0-9a-f\]{64}$] under [fullmatch] *)
Definition is_sha256_digest (v : value) : bool :=
  match v with
  | VStr s => str_startswith "sha256:" s && is_hex_string 64 (str_removeprefix "sha256:" s)
  | _ => false
  end.

Definition nonempty_string (v : value) : bool :=
  match v with
  | VStr s => negb (String.eqb (str_strip s) "") && String.eqb s (str_strip s)
  | _ => false
  end.

Definition parse_aware_time (v : value) : option datetime :=
  match v with
  | VStr s =>
      if String.eqb (str_strip s) "" then None
      else match parse_iso_z s with
           | Some t => match dt_off t with Some _ => Some t | None => None end
           | None => None
           end
  | _ => None
  end.

(** [{key: item for key, item in value.items() if key not in fields}] *)
Definition without_fields (d : dict) (fields : list string) : dict :=
  List.filter (λ kv, negb (mem_str kv.1 fields)) d.

Definition canonical_digest_strict (v : value) : res string :=
  encoded ← dumps_finite false v;
  Ok ("sha256:" +:+ sha256_hex encoded).

Definition authorization_canonical (d : dict) : string := dumps true (VDict d).

Definition expect_exact (permit : dict) (field expected issue : string) : list string :=
  issue_if (negb (is_string expected (dgetN field permit))) issue.

(** The microseconds from [a] to [b], both aware. *)
Definition dt_span (a b : datetime) : Z :=
  match dt_instant a, dt_instant b with Some x, Some y => y - x | _, _ => 0 end.

Definition validate_time_window (permit : dict) : list string :=
  let issued_at := parse_aware_time (dgetN "issued_at" permit) in
  let not_before := parse_aware_time (dgetN "not_before" permit) in
  let expires_at := parse_aware_time (dgetN "expires_at" permit) in
  issue_if (match issued_at with None => true | _ => false end) "issued_at_invalid_or_naive"
  ++ issue_if (match not_before with None => true | _ => false end) "not_before_invalid_or_naive"
  ++ issue_if (match expires_at with None => true | _ => false end) "expires_at_invalid_or_naive"
  ++ match issued_at, not_before, expires_at with
     | Some i, Some n, Some e =>
         let window_seconds := int_truediv (dt_span i e) 1000000 in
         issue_if (negb ((0 <=? dt_span i n) && (0 <? dt_span n e)))
           "permit_activation_window_not_ordered"
         ++ (if f_leb window_seconds (f_of_Z 0) then ["permit_time_window_not_ordered"]
             else issue_if (f_ltb (f_of_Z REPO_PATCH_PERMIT_MAX_TTL_SECONDS) window_seconds)
                    "permit_time_window_exceeds_300_seconds")
     | _, _, _ => []
     end.

(** The items of a claim list as strings. *)
Definition claim_strings (l : list value) : list string :=
  omap (λ v, match v with VStr s => Some s | _ => None end) l.

(** [len(set(values)) != len(values)] *)
Fixpoint has_duplicate (l : list string) : bool :=
  match l with
  | [] => false
  | s :: l' => mem_str s l' || has_duplicate l'
  end.

(** One field of [_validate_claim_lists]: its issues and its set. *)
Definition validate_claim_list (permit : dict) (field : string)
    : list string * option (list string) :=
  match dgetN field permit with
  | VList ((_ :: _) as raw) =>
      if existsb (λ v, negb (nonempty_string v)) raw
      then ([field +:+ "_contains_invalid_claim"], None)
      else let values := claim_strings raw in
           (issue_if (has_duplicate values) (field +:+ "_contains_duplicate_claim"), Some values)
  | _ => ([field +:+ "_empty_or_invalid"], None)
  end.

Definition validate_claim_lists (permit : dict) : list string :=
  concat (map (λ field, (validate_claim_list permit field).1) CLAIM_LIST_FIELDS).

Definition claim_set (permit : dict) (field : string) : option (list string) :=
  (validate_claim_list permit field).2.

Definition subset_of (a b : list string) : bool := forallb (λ s, mem_str s b) a.

Definition validate_claim_relations (permit : dict) : list string :=
  issue_if
    (match claim_set permit "requested_claims", claim_set permit "accepted_claims" with
     | Some requested, Some accepted => negb (subset_of accepted requested)
     | _, _ => false
     end) "accepted_claims_not_subset_of_requested_claims"
  ++ issue_if
    (match claim_set permit "explicit_nonclaims", claim_set permit "enforced_nonclaims" with
     | Some explicit, Some enforced => negb (subset_of explicit enforced)
     | _, _ => false
     end) "enforced_nonclaims_not_superset_of_explicit_nonclaims".

(** [frozenset(raw.keys()) == fields] *)
Definition same_keys (d : dict) (fields : list string) : bool :=
  forallb (λ kv, mem_str kv.1 fields) d && forallb (λ k, dhas k d) fields.

Definition validate_authorization_proof (permit : dict) : list string :=
  match dgetN "authorization_proof" permit with
  | VDict raw =>
      issue_if (negb (same_keys raw AUTHORIZATION_PROOF_FIELDS)) "authorization_proof_fields_mismatch"
      ++ issue_if (negb (is_string REPO_PATCH_PERMIT_SIGNING_PROFILE (dgetN "signing_profile" raw)))
           "authorization_proof_signing_profile_mismatch"
      ++ issue_if (negb (is_string "hmac-sha256" (dgetN "algorithm" raw)))
           "authorization_proof_algorithm_mismatch"
      ++ issue_if (negb (nonempty_string (dgetN "key_id" raw))) "authorization_proof_key_id_missing"
      ++ issue_if (negb (is_hex64 (dgetN "signature" raw))) "authorization_proof_signature_invalid"
      ++ issue_if (negb (is_hex64 (dgetN "payload_sha256" raw)))
           "authorization_proof_payload_sha256_invalid"
      ++ issue_if (negb (is_string "verified" (dgetN "status" raw)))
           "authorization_proof_status_mismatch"
      ++ issue_if (negb (is_string "orbital_mesh_hmac_sha256_v1" (dgetN "verifier" raw)))
           "authorization_proof_verifier_mismatch"
      ++ let expected_payload_sha256 :=
           sha256_hex (authorization_canonical (without_fields permit ["authorization_proof"])) in
         issue_if (negb (is_string expected_payload_sha256 (dgetN "payload_sha256" raw)))
           "authorization_proof_payload_sha256_mismatch"
  | _ => ["authorization_proof_invalid"]
  end.

Definition tip_before (permit : dict) : value := dgetN "expected_ledger_tip_before" permit.

Definition expected_permit_digest (permit : dict) : res string :=
  canonical_digest_strict (VDict (without_fields permit ["permit_digest"; "authorization_proof"])).

Definition expected_entry_digest (permit : dict) : res string :=
  canonical_digest_strict
    (VDict [("tip_before", tip_before permit);
            ("permit", VDict (without_fields permit ENTRY_DERIVED_FIELDS))]).

Definition expected_ledger_tip (permit : dict) : res string :=
  canonical_digest_strict
    (VDict [("tip_before", tip_before permit);
            ("entry_digest", dgetN "authority_entry_digest" permit)]).

Definition validate_digest_chain (permit : dict) : list string :=
  let computed :=
    a ← expected_permit_digest permit;
    b ← expected_entry_digest permit;
    c ← expected_ledger_tip permit;
    Ok (a, b, c) in
  match computed with
  | Err _ => ["permit_digest_chain_not_canonical_json"]
  | Ok (expected_permit_digest, expected_entry_digest, expected_ledger_tip) =>
      issue_if (negb (is_string expected_permit_digest (dgetN "permit_digest" permit)))
        "permit_digest_mismatch"
      ++ issue_if (negb (is_string expected_entry_digest (dgetN "authority_entry_digest" permit)))
           "authority_entry_digest_mismatch"
      ++ issue_if (negb (is_string expected_ledger_tip (dgetN "ledger_tip_after" permit)))
           "ledger_tip_after_mismatch"
  end.

Definition repo_patch_execution_permit_semantic_issues (permit : dict) : list string :=
  expect_exact permit "schema_version" REPO_PATCH_EXECUTION_PERMIT_VERSION "schema_version_mismatch"
  ++ expect_exact permit "transaction_version" REPO_PATCH_EXECUTION_TRANSACTION_VERSION
       "transaction_version_mismatch"
  ++ expect_exact permit "authority_scope" REPO_PATCH_AUTHORITY_SCOPE "authority_scope_mismatch"
  ++ expect_exact permit "action_kind" REPO_PATCH_ACTION_KIND "action_kind_mismatch"
  ++ concat (map (λ field, issue_if (negb (nonempty_string (dgetN field permit))) (field +:+ "_missing"))
               ["issuer"; "executor_audience"; "tenant"])
  ++ issue_if (negb (is_hex64 (dgetN "authority_nonce" permit))) "authority_nonce_invalid"
  ++ concat (map (λ field, issue_if (negb (is_sha256_digest (dgetN field permit))) (field +:+ "_invalid"))
               SHA256_FIELDS)
  ++ validate_time_window permit
  ++ validate_claim_lists permit
  ++ validate_claim_relations permit
  ++ validate_authorization_proof permit
  ++ validate_digest_chain permit.

Definition validate_repo_patch_execution_permit_semantics (permit : dict) : res unit :=
  match repo_patch_execution_permit_semantic_issues permit with
  | [] => Ok ()
  | issues => raise RepoPatchPermitSemanticError
      ("repo patch execution permit semantic validation failed: " +:+ str_join ", " issues)
  end.

(** ** What acceptance means *)

Lemma issue_if_nil b i : issue_if b i = [] → b = false.
Proof. by destruct b. Qed.

Lemma app_nil_both {A} (l m : list A) : l ++ m = [] → l = [] ∧ m = [].
Proof. apply app_nil. Qed.

(** Splits an empty concatenation of issues into its parts. *)
Ltac no_issues H :=
  repeat match type of H with
  | _ ++ _ = [] => let Hi := fresh "Hi" in apply app_nil_both in H as [Hi H]
  end.

Lemma has_duplicate_NoDup l : has_duplicate l = false → NoDup l.
Proof.
  induction l as [|s l IH]; cbn [has_duplicate]; [constructor|].
  intros [Hm Hd]%orb_false_iff. constructor; [|by apply IH]. intros Hin.
  enough (mem_str s l = true) by congruence. apply existsb_exists. exists s.
  split; [by apply list_elem_of_In|apply String.eqb_refl].
Qed.

(** A claim list that raises no issue: strings, none twice. *)
Lemma claim_list_ok permit field :
  (validate_claim_list permit field).1 = [] →
  ∃ values, claim_set permit field = Some values ∧ values ≠ [] ∧ NoDup values
    ∧ dgetN field permit = VList (map VStr values)
    ∧ Forall (λ s, nonempty_string (VStr s) = true) values.
Proof.
  unfold claim_set, validate_claim_list. destruct (dgetN field permit) as [| | | | |[|v raw]|] eqn:E; try done.
  destruct (existsb _ _) eqn:Ex; [done|]. cbn [fst snd]. intros Hd%issue_if_nil.
  exists (claim_strings (v :: raw)). split; [done|].
  assert (∀ l, existsb (λ v, negb (nonempty_string v)) l = false →
    l = map VStr (claim_strings l) ∧ Forall (λ s, nonempty_string (VStr s) = true) (claim_strings l)) as Hstr.
  { induction l as [|x l IH]; cbn [existsb]; [done|]. intros [Hx Hl]%orb_false_iff.
    apply negb_false_iff in Hx. destruct (IH Hl) as [IH1 IH2]. destruct x as [| | | |s| |]; try done.
    cbn [claim_strings omap list_omap map]. split; [by f_equal|by constructor]. }
  destruct (Hstr _ Ex) as [H1 H2]. split; [intros Hnil; by rewrite Hnil in H1|].
  split; [by apply has_duplicate_NoDup|]. split; [by f_equal|done].
Qed.

Lemma subset_of_incl a b : subset_of a b = true → a ⊆ b.
Proof.
  unfold subset_of. rewrite forallb_forall. intros H s Hs. apply list_elem_of_In in Hs. apply H in Hs.
  apply existsb_exists in Hs as (t & Ht & <-%String.eqb_eq). by apply list_elem_of_In.
Qed.

(** The claims of an accepted permit. *)
Definition claims_ok (permit : dict) : Prop :=
  ∃ requested accepted explicit enforced,
    dgetN "requested_claims" permit = VList (map VStr requested) ∧ NoDup requested
    ∧ dgetN "accepted_claims" permit = VList (map VStr accepted) ∧ NoDup accepted
    ∧ dgetN "explicit_nonclaims" permit = VList (map VStr explicit) ∧ NoDup explicit
    ∧ dgetN "enforced_nonclaims" permit = VList (map VStr enforced) ∧ NoDup enforced
    ∧ accepted ⊆ requested ∧ explicit ⊆ enforced.

Lemma claims_accepted permit :
  validate_claim_lists permit = [] → validate_claim_relations permit = [] → claims_ok permit.
Proof.
  unfold validate_claim_lists, CLAIM_LIST_FIELDS. cbn [map concat]. intros H R. no_issues H.
  repeat match goal with Hi : (validate_claim_list permit _).1 = [] |- _ =>
    apply claim_list_ok in Hi as (? & ? & _ & ? & ? & _) end.
  unfold validate_claim_relations in R. apply app_nil_both in R as [R1%issue_if_nil R2%issue_if_nil].
  repeat match goal with Hc : claim_set permit _ = Some _ |- _ => rewrite Hc in * end.
  apply negb_false_iff, subset_of_incl in R1, R2.
  unfold claims_ok. eauto 20.
Qed.

(** The validity window of an accepted permit: issued before it starts, starting
    before it ends, at most five minutes in all. *)
Definition window_ok (permit : dict) : Prop :=
  ∃ i n e, parse_aware_time (dgetN "issued_at" permit) = Some i
    ∧ parse_aware_time (dgetN "not_before" permit) = Some n
    ∧ parse_aware_time (dgetN "expires_at" permit) = Some e
    ∧ 0 <= dt_span i n ∧ 0 < dt_span n e
    ∧ f_ltb (f_of_Z REPO_PATCH_PERMIT_MAX_TTL_SECONDS) (int_truediv (dt_span i e) 1000000) = false.

Lemma window_accepted permit : validate_time_window permit = [] → window_ok permit.
Proof.
  unfold validate_time_window. cbv zeta. intros H.
  apply app_nil_both in H as [H1%issue_if_nil H]. apply app_nil_both in H as [H2%issue_if_nil H].
  apply app_nil_both in H as [H3%issue_if_nil H].
  destruct (parse_aware_time (dgetN "issued_at" permit)) as [i|] eqn:Ei; [|done].
  destruct (parse_aware_time (dgetN "not_before" permit)) as [n|] eqn:En; [|done].
  destruct (parse_aware_time (dgetN "expires_at" permit)) as [e|] eqn:Ee; [|done].
  apply app_nil_both in H as [Hw%issue_if_nil H]. destruct (f_leb _ _); [done|]. apply issue_if_nil in H.
  apply negb_false_iff, andb_true_iff in Hw as [Hw1%Z.leb_le Hw2%Z.ltb_lt]. by exists i, n, e.
Qed.

(** The digests of an accepted permit are those of its contents. *)
Definition digests_ok (permit : dict) : Prop :=
  ∃ digest entry tip,
    expected_permit_digest permit = Ok digest ∧ dgetN "permit_digest" permit = VStr digest
    ∧ expected_entry_digest permit = Ok entry ∧ dgetN "authority_entry_digest" permit = VStr entry
    ∧ expected_ledger_tip permit = Ok tip ∧ dgetN "ledger_tip_after" permit = VStr tip.

Lemma digests_accepted permit : validate_digest_chain permit = [] → digests_ok permit.
Proof.
  unfold validate_digest_chain, digests_ok.
  destruct (expected_permit_digest permit) as [a|]; [|done].
  destruct (expected_entry_digest permit) as [b|]; [|done].
  destruct (expected_ledger_tip permit) as [c|]; [|done]. cbn [mbind res_bind]. intros H.
  apply app_nil_both in H as [H1%issue_if_nil H]. apply app_nil_both in H as [H2%issue_if_nil H3%issue_if_nil].
  apply negb_false_iff, is_string_true in H1, H2, H3. by exists a, b, c.
Qed.

(** The authorisation proof of an accepted permit covers all its other fields. *)
Definition proof_ok (permit : dict) : Prop :=
  ∃ proof, dgetN "authorization_proof" permit = VDict proof
    ∧ dgetN "signing_profile" proof = VStr REPO_PATCH_PERMIT_SIGNING_PROFILE
    ∧ dgetN "algorithm" proof = VStr "hmac-sha256"
    ∧ dgetN "payload_sha256" proof
      = VStr (sha256_hex (authorization_canonical (without_fields permit ["authorization_proof"]))).

Lemma proof_accepted permit : validate_authorization_proof permit = [] → proof_ok permit.
Proof.
  unfold validate_authorization_proof. destruct (dgetN "authorization_proof" permit) as [| | | | | |raw] eqn:E; try done.
  cbv zeta. intros H. no_issues H. exists raw. split; [done|].
  repeat match goal with Hi : issue_if _ _ = [] |- _ => apply issue_if_nil in Hi end.
  repeat match goal with Hi : negb (is_string _ _) = false |- _ => apply negb_false_iff, is_string_true in Hi end.
  auto.
Qed.

(** A permit without semantic issues has the digests of its own contents,
    an authorisation proof over all of them, a bounded and ordered validity
    window, and claims that stay within what was requested. *)
Theorem accepted_permit_is_bound permit :
  validate_repo_patch_execution_permit_semantics permit = Ok () →
  digests_ok permit ∧ proof_ok permit ∧ window_ok permit ∧ claims_ok permit
  ∧ dgetN "action_kind" permit = VStr REPO_PATCH_ACTION_KIND
  ∧ dgetN "authority_scope" permit = VStr REPO_PATCH_AUTHORITY_SCOPE.
Proof.
  unfold validate_repo_patch_execution_permit_semantics.
  destruct (repo_patch_execution_permit_semantic_issues permit) as [|i l] eqn:H; [|done]. intros _.
  unfold repo_patch_execution_permit_semantic_issues, expect_exact in H. no_issues H.
  repeat match goal with Hi : issue_if (negb (is_string _ _)) _ = [] |- _ =>
    apply issue_if_nil, negb_false_iff, is_string_true in Hi end.
  split; [by apply digests_accepted|]. split; [by apply proof_accepted|].
  split; [by apply window_accepted|]. split; [by apply claims_accepted|]. done.
Qed.
