(* ===== verification/PermitLedger.v ===== *)
(** * The permit ledger

    The ledger of [src/shared/mesh_runtime/repo_patch_permits.py]: digests and
    signed payloads of permits, the state machine of a permit record, and the
    bodies of the ledger sections of [RepoPatchPermitStore], as functions of the
    ledger's payload. *)

From S2P Require Import Prelude PyFloat PyValue Json Sha256 JsonStore DateTime.

#[local] Opaque sha256_hex.

Definition HSAI_EXECUTION_CONTEXT_KEY : string := "_mesh_hsai_admission_context".
Definition GENESIS_LEDGER_TIP : string :=
  "sha256:0000000000000000000000000000000000000000000000000000000000000000".
Definition TERMINAL_STATES : list string := ["committed"; "aborted"; "recovery_required"].
Definition MUTATION_STATES : list string :=
  ["prepared"; "claimed"; "applying"; "applied"; "verifying"].

Definition ALLOWED_TRANSITIONS : list (string * list string) :=
  [("issued", ["prepared"]);
   ("prepared", ["claimed"; "aborted"; "recovery_required"]);
   ("claimed", ["applying"; "aborted"; "recovery_required"]);
   ("applying", ["applied"; "aborted"; "recovery_required"]);
   ("applied", ["verifying"; "aborted"; "recovery_required"]);
   ("verifying", ["committed"; "aborted"; "recovery_required"])].

(** [ALLOWED_TRANSITIONS.get(state, frozenset())] *)
Fixpoint allowed_from (table : list (string * list string)) (state : string) : list string :=
  match table with
  | [] => []
  | (s, targets) :: table' => if String.eqb state s then targets else allowed_from table' state
  end.

Definition transition_allowed (expected_state new_state : string) : bool :=
  mem_str new_state (allowed_from ALLOWED_TRANSITIONS expected_state).

(** ** Digests *)

Definition canonical_digest (v : value) : string := "sha256:" +:+ sha256_hex (dumps false v).

Definition canonical_actuation_parameters (parameters : dict) : dict :=
  dpop HSAI_EXECUTION_CONTEXT_KEY parameters.

Definition permit_signed_payload (permit : dict) : dict := dpop "authorization_proof" permit.

Definition permit_digest (permit : dict) : string :=
  canonical_digest (VDict (dpop "authorization_proof" (dpop "permit_digest" permit))).

Definition permit_format_time (t : datetime) : res string :=
  u ← astimezone_utc t; Ok (iso_z u).

Definition permit_parse_time (s : string) : res datetime :=
  match parse_iso_z s with
  | None => raise ValueError ("Invalid isoformat string: " +:+ repr_str s)
  | Some t => astimezone_utc t
  end.

(** ** The record of a permit *)

Definition history_entry (state now : string) : value :=
  VDict [("state", VStr state); ("recorded_at", VStr now)].

(** [_transition_record]: the record after the transition. *)
Definition transition_record (record : dict) (expected_state new_state : string) (now : datetime)
    (details terminal_result : option dict) : res dict :=
  raise_if negb (is_string expected_state (dgetN "state" record))
    with ValueError ("repo patch authority state mismatch: expected " +:+ expected_state
                     +:+ ", got " +:+ py_str (dgetN "state" record));
  let record := dset "state" (VStr new_state) record in
  let '(history, record) := dsetdefault "state_history" (VList []) record in
  stamp ← permit_format_time now;
  history' ← py_append history (history_entry new_state stamp);
  let record := dset "state_history" history' record in
  record ← match details with
           | Some ((_ :: _) as d) =>
               let '(transaction, record) := dsetdefault "transaction" (VDict []) record in
               transaction' ← py_update transaction d;
               Ok (dset "transaction" transaction' record)
           | _ => Ok record
           end;
  match terminal_result with
  | Some r => Ok (dset "terminal_result" (VDict r) record)
  | None => Ok record
  end.

(** [ledger.get("permits")], which must be a dictionary. *)
Definition permits_of (ledger : dict) : res dict :=
  match dgetN "permits" ledger with
  | VDict records => Ok records
  | _ => raise ValueError "repo patch authority ledger is missing permits"
  end.

Definition not_in_ledger {A} : res A :=
  raise ValueError "repo patch permit is not present in the authority ledger".

(** ** Ledger sections *)

(** [record_transition]: the checks before the section and its body. *)
Definition check_transition (expected_state new_state : string) (terminal_result : option dict)
    : res unit :=
  raise_if negb (transition_allowed expected_state new_state)
    with ValueError ("invalid repo patch authority transition: " +:+ expected_state +:+ "->" +:+ new_state);
  let terminal := mem_str new_state TERMINAL_STATES in
  raise_if terminal && (match terminal_result with None => true | _ => false end)
    with ValueError "terminal repo patch transition requires a stored result";
  raise_if negb terminal && (match terminal_result with None => false | _ => true end)
    with ValueError "non-terminal repo patch transition cannot store a terminal result";
  Ok ().

Definition transition_body (permit_id expected_state new_state : string) (now : datetime)
    (details terminal_result : option dict) (ledger : dict) : res (dict * dict) :=
  records ← permits_of ledger;
  match dgetN permit_id records with
  | VDict record =>
      record' ← transition_record record expected_state new_state now details terminal_result;
      Ok (record', dset "permits" (VDict (dset permit_id (VDict record') records)) ledger)
  | _ => not_in_ledger
  end.

(** The body of [consume]; the permit has been validated, so its identifier and
    its nonce are strings. *)
Definition consume_body (permit : dict) (permit_id nonce : string) (now : datetime) (ledger : dict)
    : res (unit * dict) :=
  records ← permits_of ledger;
  match dgetN permit_id records with
  | VDict record =>
      raise_if negb (py_eq (dgetN "permit" record) (VDict permit))
        with ValueError "repo patch permit is not present in the authority ledger";
      raise_if negb (is_string "prepared" (dgetN "state" record))
        with ValueError "repo patch permit is not prepared or was already claimed";
      let '(nonces, ledger) := dsetdefault "consumed_nonces" (VDict []) ledger in
      used ← py_contains nonce nonces;
      raise_if used with ValueError "repo patch authority nonce already consumed";
      record' ← transition_record record "prepared" "claimed" now None None;
      nonces' ← set_item nonces nonce (VStr permit_id);
      Ok ((), dset "consumed_nonces" nonces'
                (dset "permits" (VDict (dset permit_id (VDict record') records)) ledger))
  | _ => not_in_ledger
  end.

(** [ledger.get("permits", {}).get(permit_id)] *)
Definition permits_get (ledger : dict) (permit_id : value) : res value :=
  py_get_key (dget_or "permits" (VDict []) ledger) permit_id.

(** The body of [_fence_recovery]. *)
Definition fence_body (permit_id expected_state repo_path reason : string) (terminal : dict)
    (now : datetime) (ledger : dict) : res (unit * dict) :=
  found ← permits_get ledger (VStr permit_id);
  match found with
  | VDict record =>
      raise_if negb (is_string expected_state (dgetN "state" record))
        with ValueError "repo patch authority recovery state changed concurrently";
      record' ← transition_record record expected_state "recovery_required" now
                  (Some [("recovery_failure", VStr reason)]) (Some terminal);
      permits' ← set_item (dget_or "permits" (VDict []) ledger) permit_id (VDict record');
      let ledger := dset "permits" permits' ledger in
      if String.eqb repo_path "" then Ok ((), ledger)
      else
        let '(fenced, ledger) := dsetdefault "fenced_roots" (VDict []) ledger in
        stamp ← permit_format_time now;
        fenced' ← set_item fenced repo_path
                    (VDict [("permit_id", VStr permit_id); ("reason", VStr reason);
                            ("fenced_at", VStr stamp)]);
        Ok ((), dset "fenced_roots" fenced' ledger)
  | _ => raise ValueError "repo patch authority recovery state changed concurrently"
  end.

(** The record found through an idempotency key, when it is terminal. *)
Definition terminal_record (idempotency_key : string) (ledger : dict) : res (option dict) :=
  permit_id ← py_get (dget_or "idempotency" (VDict []) ledger) idempotency_key;
  found ← (if truthy permit_id then permits_get ledger permit_id else Ok VNone);
  match found with
  | VDict record =>
      terminal ← in_str_set (dgetN "state" record) TERMINAL_STATES;
      Ok (if (terminal : bool) then Some record else None)
  | _ => Ok None
  end.

(** The body of [terminal_result_for_idempotency]. *)
Definition terminal_result_body (idempotency_key : string) (ledger : dict) : res (option dict * dict) :=
  found ← terminal_record idempotency_key ledger;
  match found with
  | None => Ok (None, ledger)
  | Some record =>
      match dgetN "terminal_result" record with
      | VDict result => Ok (Some result, ledger)
      | _ => raise ValueError "terminal repo patch authority record is missing its result"
      end
  end.
