(* ===== verification/PermitLedgerFacts.v ===== *)
(** * What the ledger sections do to the records

    Every section moves the state of a record along [ALLOWED_TRANSITIONS] only,
    and keeps its permit, the nonces used and the idempotency keys. *)

From S2P Require Import Prelude PyFloat PyValue Json Sha256 JsonStore DateTime PermitLedger.
From stdpp Require Import relations.

#[local] Opaque sha256_hex.

(** One step of the state machine. *)
Definition step (s t : string) : Prop := transition_allowed s t = true.

(** Where a state is on the way from issue to a terminal state. *)
Definition rank (s : string) : nat :=
  if String.eqb s "issued" then 0
  else if String.eqb s "prepared" then 1
  else if String.eqb s "claimed" then 2
  else if String.eqb s "applying" then 3
  else if String.eqb s "applied" then 4
  else if String.eqb s "verifying" then 5
  else 6.

Lemma allowed_from_In table s t :
  t ∈ allowed_from table s → ∃ targets, (s, targets) ∈ table ∧ t ∈ targets.
Proof.
  induction table as [|[s' ts] table IH]; simpl; [by intros ?%elem_of_nil|].
  destruct (String.eqb_spec s s') as [->|_].
  - intros H. exists ts. split; [apply list_elem_of_here|done].
  - intros (ts' & H & Ht)%IH. exists ts'. split; [by apply list_elem_of_further|done].
Qed.

Lemma step_rank s t : step s t → (rank s < rank t)%nat.
Proof.
  unfold step, transition_allowed, mem_str. intros H. apply existsb_exists in H as (t' & Ht & <-%String.eqb_eq).
  apply list_elem_of_In in Ht. apply allowed_from_In in Ht as (ts & Hs & Ht).
  unfold ALLOWED_TRANSITIONS in Hs.
  repeat (apply elem_of_cons in Hs as [[= -> ->]|Hs];
    [repeat (apply elem_of_cons in Ht as [->|Ht]; [vm_compute; lia|]); by apply elem_of_nil in Ht|]).
  by apply elem_of_nil in Hs.
Qed.

Lemma steps_rank s t : rtc step s t → (rank s <= rank t)%nat.
Proof. induction 1 as [|s t u H _ IH]; [done|]. apply step_rank in H. lia. Qed.

(** A state with no way out. *)
Lemma steps_stuck s t : allowed_from ALLOWED_TRANSITIONS s = [] → rtc step s t → t = s.
Proof.
  intros Hs H. inversion H as [|? u ? Hst]; [done|]. unfold step, transition_allowed in Hst. by rewrite Hs in Hst.
Qed.

(** ** Paths into the ledger *)

Definition state_path (id : string) : list string := ["permits"; id; "state"].

(** A path outside the table [k] is not affected by changing [k]. *)
Lemma dpath_dset_other k v k' ks d :
  String.eqb k' k = false → dpath (k' :: ks) (VDict (dset k v d)) = dpath (k' :: ks) (VDict d).
Proof. intros H. cbn [dpath]. rewrite dget_dset. by rewrite H. Qed.

Lemma dpath_dset_same k v ks d : dpath (k :: ks) (VDict (dset k v d)) = dpath ks v.
Proof. cbn [dpath]. by rewrite dget_dset_eq. Qed.

(** [setdefault] keeps every string below an existing key. *)
Lemma dsetdefault_keeps k x d v d' ks s :
  dsetdefault k x d = (v, d') → dpath ks (VDict d) = Some (VStr s) → dpath ks (VDict d') = Some (VStr s).
Proof.
  unfold dsetdefault. destruct (dget k d) as [w|] eqn:E; intros [= <- <-]; [done|].
  destruct ks as [|k' ks]; [done|]. destruct (String.eqb k' k) eqn:Ek.
  - apply String.eqb_eq in Ek as ->. cbn [dpath]. by rewrite E.
  - by rewrite dpath_dset_other.
Qed.

Lemma dsetdefault_get k x d v d' : dsetdefault k x d = (v, d') → dget k d' = Some v.
Proof.
  unfold dsetdefault. destruct (dget k d) as [w|] eqn:E; intros [= <- <-]; [done|]. apply dget_dset_eq.
Qed.

Lemma dsetdefault_other k x d v d' k' :
  dsetdefault k x d = (v, d') → String.eqb k' k = false → dget k' d' = dget k' d.
Proof.
  unfold dsetdefault. destruct (dget k d) as [w|] eqn:E; intros [= <- <-]; [done|]. intros H.
  rewrite dget_dset. by rewrite H.
Qed.

(** The value under a key some path goes through. *)
Lemma dpath_cons k ks d s :
  dpath (k :: ks) (VDict d) = Some (VStr s) → ∃ v, dget k d = Some v ∧ dpath ks v = Some (VStr s).
Proof. cbn [dpath]. destruct (dget k d) as [v|]; [eauto|done]. Qed.

Lemma dpath_member k ks v s :
  dpath (k :: ks) v = Some (VStr s) → ∃ d, v = VDict d ∧ dpath (k :: ks) (VDict d) = Some (VStr s).
Proof. cbn [dpath]. destruct v as [| | | | | |d]; try done. eauto. Qed.

(** ** The record *)

(** A transition was from the expected state; the record is in the new one. *)
Lemma transition_record_spec record expected new now details terminal record' :
  transition_record record expected new now details terminal = Ok record' →
  dgetN "state" record = VStr expected
  ∧ dget "state" record' = Some (VStr new)
  ∧ (∀ r, terminal = Some r → dget "terminal_result" record' = Some (VDict r))
  ∧ (∀ k, String.eqb k "state" = false → String.eqb k "state_history" = false →
       String.eqb k "transaction" = false → String.eqb k "terminal_result" = false →
       dget k record' = dget k record).
Proof.
  unfold transition_record. intros H. apply raise_if_Ok in H as [Hs H].
  apply negb_false_iff, is_string_true in Hs. split; [done|].
  destruct (dsetdefault "state_history" _ _) as [history record1] eqn:E1.
  apply res_bind_Ok in H as (stamp & _ & H). apply res_bind_Ok in H as (history' & _ & H).
  apply res_bind_Ok in H as (record2 & H2 & H).
  assert (dget "state" record1 = Some (VStr new)) as Hst1.
  { rewrite (dsetdefault_other _ _ _ _ _ "state" E1) by done. by rewrite dget_dset_eq. }
  assert (∀ k, String.eqb k "state" = false → String.eqb k "state_history" = false →
            dget k record1 = dget k record) as Ho1.
  { intros k Hk Hk'. rewrite (dsetdefault_other _ _ _ _ _ k E1) by done. rewrite dget_dset. by rewrite Hk. }
  assert (dget "state" record2 = Some (VStr new)
          ∧ ∀ k, String.eqb k "state" = false → String.eqb k "state_history" = false →
              String.eqb k "transaction" = false → dget k record2 = dget k record) as [Hst2 Ho2].
  { destruct details as [[|kv d]|].
    - injection H2 as <-. split; [by rewrite dget_dset|]. intros k Hk Hk' _. rewrite dget_dset. rewrite Hk'. auto.
    - destruct (dsetdefault "transaction" _ _) as [transaction record3] eqn:E3.
      apply res_bind_Ok in H2 as (transaction' & _ & [= <-]). split.
      + rewrite dget_dset. cbn [String.eqb Ascii.eqb Bool.eqb].
        rewrite (dsetdefault_other _ _ _ _ _ "state" E3) by done. by rewrite dget_dset.
      + intros k Hk Hk' Hk''. rewrite dget_dset. rewrite Hk''.
        rewrite (dsetdefault_other _ _ _ _ _ k E3) by done. rewrite dget_dset. rewrite Hk'. auto.
    - injection H2 as <-. split; [by rewrite dget_dset|]. intros k Hk Hk' _. rewrite dget_dset. rewrite Hk'. auto. }
  destruct terminal as [r|]; injection H as <-.
  - split; [by rewrite dget_dset|]. split; [intros ? [= ->]; by rewrite dget_dset_eq|].
    intros k Hk Hk' Hk'' Hr. rewrite dget_dset. rewrite Hr. auto.
  - split; [done|]. split; [done|]. auto.
Qed.

(** ** Evolution of a ledger *)

(** Strings no section changes: nonces used, idempotency keys taken, and the
    permits themselves. *)
Inductive kept : list string → Prop :=
  | kept_nonce nonce : kept ["consumed_nonces"; nonce]
  | kept_key key : kept ["idempotency"; key]
  | kept_permit id ks : kept ("permits" :: id :: "permit" :: ks).

Definition fence_path (root : string) : list string := ["fenced_roots"; root; "permit_id"].

(** What holds of a ledger before and after some sections that move the state
    of a permit along [R]. *)
Record evolves_by (R : relation string) (has has' : list string → string → Prop) : Prop := Evolves {
  ev_state : ∀ id s, has (state_path id) s → ∃ s', has' (state_path id) s' ∧ rtc R s s';
  ev_kept : ∀ ks s, kept ks → has ks s → has' ks s;
  ev_fence : ∀ root s, has (fence_path root) s → ∃ s', has' (fence_path root) s' }.
Arguments ev_state {R} has has'.
Arguments ev_kept {R} has has'.
Arguments ev_fence {R} has has'.

(** Along the transition table. *)
Abbreviation evolves := (evolves_by step).

Lemma evolves_mono (R R' : relation string) has has' :
  (∀ s t, R s t → R' s t) → evolves_by R has has' → evolves_by R' has has'.
Proof.
  intros Hsub [S K F]. split; [|done..]. intros id s (s' & Hs' & H)%S. exists s'. split; [done|].
  by eapply (rtc_subrel R R').
Qed.

Definition ledger_has (d : dict) (ks : list string) (s : string) : Prop :=
  dpath ks (VDict d) = Some (VStr s).

Lemma evolves_refl {T : relation string} has : evolves_by T has has.
Proof. split; eauto. intros id s H. exists s. split; [done|apply rtc_refl]. Qed.

Lemma evolves_trans {T : relation string} has has' has'' : evolves_by T has has' → evolves_by T has' has'' → evolves_by T has has''.
Proof.
  intros [S1 K1 F1] [S2 K2 F2]. split.
  - intros id s (s1 & H1 & R1)%S1. apply S2 in H1 as (s2 & H2 & R2). exists s2. split; [done|]. by etrans.
  - eauto.
  - intros root s (s1 & H1)%F1. eauto.
Qed.

(** A section evolves the file when its body evolves the payload. *)
Lemma section_evolves {T : relation string} {A} path f (body : dict → res (A * dict)) :
  (∀ d a d', body d = Ok (a, d') → evolves_by T (ledger_has d) (ledger_has d')) →
  evolves_by T (file_has f) (file_has (locked_json false path f body).2).
Proof.
  intros Hb. split.
  - intros id s. apply (locked_json_moves _ _ _ _ _ _ (rtc T s)); [apply rtc_refl|].
    intros d a d' H E. by apply (ev_state _ _ (Hb _ _ _ E)).
  - intros ks s Hk. apply locked_json_keeps. intros d a d' H E. by apply (ev_kept _ _ (Hb _ _ _ E)).
  - intros root s H.
    destruct (locked_json_moves false path f body (fence_path root) s (λ _, True)) as (s' & H' & _); eauto.
    intros d a d' Hd E. destruct (ev_fence _ _ (Hb _ _ _ E) _ _ Hd) as (s' & ?). by exists s'.
Qed.

(** A section that does not change the payload. *)
Lemma reader_evolves {T : relation string} {A} path f (body : dict → res (A * dict)) :
  (∀ d a d', body d = Ok (a, d') → d' = d) → evolves_by T (file_has f) (file_has (locked_json false path f body).2).
Proof. intros Hb. apply section_evolves. intros d a d' ->%Hb. apply evolves_refl. Qed.

(** Keys other than [k] are not seen by paths through [k]. *)
Lemma evolves_dset_other {T : relation string} k v d :
  String.eqb k "permits" = false → String.eqb k "consumed_nonces" = false →
  String.eqb k "idempotency" = false → String.eqb k "fenced_roots" = false →
  evolves_by T (ledger_has d) (ledger_has (dset k v d)).
Proof.
  intros H1 H2 H3 H4.
  assert (∀ k' ks s, k' ∈ ["permits"; "consumed_nonces"; "idempotency"; "fenced_roots"] →
            ledger_has d (k' :: ks) s → ledger_has (dset k v d) (k' :: ks) s) as Hsame.
  { intros k' ks s Hk' Hs. unfold ledger_has. rewrite dpath_dset_other; [done|].
    rewrite String.eqb_sym. by rewrite !elem_of_cons, elem_of_nil in Hk'; destruct Hk' as [->|[->|[->|[->|[]]]]]. }
  split.
  - intros id s H. exists s. split; [|apply rtc_refl]. apply Hsame; [set_solver|done].
  - intros ks s [] H; apply Hsame; (done || set_solver).
  - intros root s H. exists s. apply Hsame; [set_solver|done].
Qed.

Lemma evolves_setdefault {T : relation string} k x d v d' :
  dsetdefault k x d = (v, d') → evolves_by T (ledger_has d) (ledger_has d').
Proof.
  intros E. split.
  - intros id s H. exists s. split; [by eapply dsetdefault_keeps|apply rtc_refl].
  - intros ks s _ H. by eapply dsetdefault_keeps.
  - intros root s H. exists s. by eapply dsetdefault_keeps.
Qed.

(** Replacing the value of table [k] in a ledger only matters below [k]. *)
Lemma evolves_table {T : relation string} k v v' d :
  dget k d = Some v →
  (∀ ks s, dpath ks v = Some (VStr s) → dpath ks v' = Some (VStr s)) →
  evolves_by T (ledger_has d) (ledger_has (dset k v' d)).
Proof.
  intros Hv Hsub.
  assert (∀ k' ks s, ledger_has d (k' :: ks) s → ledger_has (dset k v' d) (k' :: ks) s) as Hsame.
  { intros k' ks s H. unfold ledger_has in *. destruct (String.eqb_spec k' k) as [->|Hne].
    - rewrite dpath_dset_same. apply dpath_cons in H as (w & Hw & H). rewrite Hv in Hw. injection Hw as <-. auto.
    - by rewrite dpath_dset_other by by apply String.eqb_neq. }
  split.
  - intros id s H. exists s. split; [by apply Hsame|apply rtc_refl].
  - intros ks s [] H; by apply Hsame.
  - intros root s H. exists s. by apply Hsame.
Qed.

(** Adding an entry that was not there. *)
Lemma set_item_new v k x v' ks s :
  set_item v k x = Ok v' → py_contains k v = Ok false →
  dpath ks v = Some (VStr s) → dpath ks v' = Some (VStr s).
Proof.
  destruct v as [| | | | | |d]; try done. intros [= <-] [= Hnew] H.
  destruct ks as [|k' ks]; [done|]. destruct (String.eqb_spec k' k) as [->|Hne].
  - apply dpath_cons in H as (w & Hw & _). unfold dhas in Hnew. by rewrite Hw in Hnew.
  - by rewrite dpath_dset_other by by apply String.eqb_neq.
Qed.

(** Replacing one record by one whose state has made some steps. *)
Lemma evolves_record {T : relation string} id records record record' ledger :
  dgetN "permits" ledger = VDict records → dgetN id records = VDict record →
  (∀ s, dget "state" record = Some (VStr s) → ∃ s', dget "state" record' = Some (VStr s') ∧ rtc T s s') →
  dget "permit" record' = dget "permit" record →
  evolves_by T (ledger_has ledger) (ledger_has (dset "permits" (VDict (dset id (VDict record') records)) ledger)).
Proof.
  intros Hp Hr Hs Hpm.
  assert (dget "permits" ledger = Some (VDict records)) as Hp'
    by (unfold dgetN in Hp; destruct (dget "permits" ledger); simpl in Hp; congruence).
  assert (dget id records = Some (VDict record)) as Hr'
    by (unfold dgetN in Hr; destruct (dget id records); simpl in Hr; congruence).
  assert (∀ id' ks s, ledger_has ledger ("permits" :: id' :: ks) s → id' ≠ id →
    ledger_has (dset "permits" (VDict (dset id (VDict record') records)) ledger) ("permits" :: id' :: ks) s) as Hother.
  { intros id' ks s H Hne. unfold ledger_has in *. rewrite dpath_dset_same. cbn [dpath] in *.
    rewrite Hp' in H. by rewrite dget_dset_ne by by apply String.eqb_neq. }
  split.
  - intros id' s H. destruct (decide (id' = id)) as [->|Hne].
    + unfold ledger_has, state_path in *. cbn [dpath] in *. rewrite Hp', Hr' in H.
      destruct (dget "state" record) as [w|] eqn:Ew; [|done]. injection H as ->.
      destruct (Hs _ eq_refl) as (s' & Hs' & R). exists s'. split; [|done].
      rewrite dget_dset_eq, dget_dset_eq. by rewrite Hs'.
    + exists s. split; [by apply Hother|apply rtc_refl].
  - intros ks s [nonce|key|id' ks'] H; try (unfold ledger_has; by rewrite dpath_dset_other).
    destruct (decide (id' = id)) as [->|Hne]; [|by apply Hother].
    unfold ledger_has in *. rewrite dpath_dset_same. cbn [dpath] in *. rewrite Hp', Hr' in H.
    rewrite dget_dset_eq. by rewrite Hpm.
  - intros root s H. exists s. unfold ledger_has, fence_path in *. by rewrite dpath_dset_other.
Qed.

(** A transition allowed by the table. *)
Lemma evolves_transition {T : relation string} id records record record' ledger expected new now details terminal :
  dgetN "permits" ledger = VDict records → dgetN id records = VDict record →
  transition_record record expected new now details terminal = Ok record' →
  T expected new →
  evolves_by T (ledger_has ledger) (ledger_has (dset "permits" (VDict (dset id (VDict record') records)) ledger)).
Proof.
  intros Hp Hr Ht Hstep. apply transition_record_spec in Ht as (Hs & Hs' & _ & Ho).
  apply (evolves_record id records record); [done|done| |by apply Ho].
  intros s Hss. exists new. split; [done|]. rewrite (dgetN_Some _ _ _ Hss) in Hs. injection Hs as ->.
  by apply rtc_once.
Qed.

(** ** The sections *)

Lemma permits_of_Ok ledger records : permits_of ledger = Ok records → dgetN "permits" ledger = VDict records.
Proof. unfold permits_of. destruct (dgetN "permits" ledger); intros [=]; congruence. Qed.

Lemma check_transition_Ok expected new terminal :
  check_transition expected new terminal = Ok () →
  step expected new ∧ (mem_str new TERMINAL_STATES = true ↔ is_Some terminal).
Proof.
  unfold check_transition, step. intros H. apply raise_if_Ok in H as [Ha H]. apply negb_false_iff in Ha.
  apply raise_if_Ok in H as [H1 H]. apply raise_if_Ok in H as [H2 _]. split; [done|].
  destruct terminal as [r|], (mem_str new TERMINAL_STATES); simpl in *; try done;
    (split; intros; [done || by eexists|done]) || (split; [done|by intros [? [=]]]).
Qed.

Lemma transition_body_spec id expected new now details terminal ledger record' ledger' :
  transition_body id expected new now details terminal ledger = Ok (record', ledger') →
  ∃ records record, dgetN "permits" ledger = VDict records ∧ dgetN id records = VDict record
    ∧ transition_record record expected new now details terminal = Ok record'
    ∧ ledger' = dset "permits" (VDict (dset id (VDict record') records)) ledger.
Proof.
  unfold transition_body. intros H. apply res_bind_Ok in H as (records & Hp%permits_of_Ok & H).
  destruct (dgetN id records) as [| | | | | |record] eqn:Hr; try done.
  apply res_bind_Ok in H as (r & Ht & [= <- <-]). by exists records, record.
Qed.

Lemma transition_body_evolves id expected new now details terminal d r d' :
  step expected new → transition_body id expected new now details terminal d = Ok (r, d') →
  evolves (ledger_has d) (ledger_has d').
Proof.
  intros Hstep (records & record & Hp & Hr & Ht & ->)%transition_body_spec. by eapply evolves_transition.
Qed.

Lemma dgetN_dict k d e : dgetN k d = VDict e → dget k d = Some (VDict e).
Proof. unfold dgetN. destruct (dget k d); simpl; congruence. Qed.

Lemma set_item_dict v k x v' : set_item v k x = Ok v' → ∃ d, v = VDict d ∧ v' = VDict (dset k x d).
Proof. destruct v; intros [=]; eauto. Qed.

(** The sealed facts of [consume]'s section. *)
Lemma consume_body_spec permit id nonce now ledger u ledger' :
  consume_body permit id nonce now ledger = Ok (u, ledger') →
  ∃ records record record' nonces ledger1,
    dgetN "permits" ledger = VDict records ∧ dgetN id records = VDict record
    ∧ py_eq (dgetN "permit" record) (VDict permit) = true
    ∧ dsetdefault "consumed_nonces" (VDict []) ledger = (VDict nonces, ledger1)
    ∧ dhas nonce nonces = false
    ∧ transition_record record "prepared" "claimed" now None None = Ok record'
    ∧ ledger' = dset "consumed_nonces" (VDict (dset nonce (VStr id) nonces))
                  (dset "permits" (VDict (dset id (VDict record') records)) ledger1).
Proof.
  unfold consume_body. intros H. apply res_bind_Ok in H as (records & Hp%permits_of_Ok & H).
  destruct (dgetN id records) as [| | | | | |record] eqn:Hr; try done.
  apply raise_if_Ok in H as [Hpm%negb_false_iff H]. apply raise_if_Ok in H as [_ H].
  destruct (dsetdefault _ _ _) as [nonces ledger1] eqn:E.
  apply res_bind_Ok in H as (used & Hused & H). apply raise_if_Ok in H as [-> H].
  apply res_bind_Ok in H as (record' & Ht & H). apply res_bind_Ok in H as (nonces' & Hn & [= <- <-]).
  apply set_item_dict in Hn as (nd & -> & ->). injection Hused as Hused.
  by exists records, record, record', nd, ledger1.
Qed.

Lemma consume_body_evolves permit id nonce now d u d' :
  consume_body permit id nonce now d = Ok (u, d') → evolves (ledger_has d) (ledger_has d').
Proof.
  intros (records & record & record' & nonces & d1 & Hp & Hr & _ & E & Hn & Ht & ->)%consume_body_spec.
  eapply evolves_trans; [by eapply evolves_setdefault|].
  eapply evolves_trans; [eapply (evolves_transition id records record record'); [|done|exact Ht|reflexivity]|].
  - unfold dgetN. by rewrite (dsetdefault_other _ _ _ _ _ "permits" E).
  - eapply evolves_table.
    + rewrite dget_dset_ne by done. by eapply dsetdefault_get.
    + intros ks s. eapply (set_item_new _ nonce (VStr id)); [done|]. simpl. by rewrite Hn.
Qed.

Lemma permits_get_dict ledger id record :
  permits_get ledger (VStr id) = Ok (VDict record) →
  ∃ records, dgetN "permits" ledger = VDict records ∧ dgetN id records = VDict record.
Proof.
  unfold permits_get, dget_or, dgetN. destruct (dget "permits" ledger) as [v|]; cbn [default from_option Datatypes.id py_get_key].
  - destruct v; try done. intros [= H]. eauto.
  - by intros [=].
Qed.

(** The states a fence may start from. *)
Lemma mutation_step s : mem_str s MUTATION_STATES = true → step s "recovery_required" ∧ step s "aborted".
Proof.
  unfold mem_str. intros H. apply existsb_exists in H as (t & Ht & <-%String.eqb_eq).
  apply list_elem_of_In in Ht. unfold MUTATION_STATES in Ht.
  repeat (apply elem_of_cons in Ht as [->|Ht]; [split; reflexivity|]). by apply elem_of_nil in Ht.
Qed.

Lemma fence_body_spec id expected root reason terminal now ledger u ledger' :
  fence_body id expected root reason terminal now ledger = Ok (u, ledger') →
  ∃ records record record' ledger1,
    dgetN "permits" ledger = VDict records ∧ dgetN id records = VDict record
    ∧ transition_record record expected "recovery_required" now
        (Some [("recovery_failure", VStr reason)]) (Some terminal) = Ok record'
    ∧ ledger1 = dset "permits" (VDict (dset id (VDict record') records)) ledger
    ∧ (root = "" ∧ ledger' = ledger1
       ∨ root ≠ "" ∧ ∃ fenced stamp ledger2,
           dsetdefault "fenced_roots" (VDict []) ledger1 = (VDict fenced, ledger2)
           ∧ ledger' = dset "fenced_roots"
               (VDict (dset root (VDict [("permit_id", VStr id); ("reason", VStr reason);
                                         ("fenced_at", VStr stamp)]) fenced)) ledger2).
Proof.
  unfold fence_body. intros H. apply res_bind_Ok in H as (found & Hf & H).
  destruct found as [| | | | | |record]; try done. apply permits_get_dict in Hf as (records & Hp & Hr).
  apply raise_if_Ok in H as [_ H]. apply res_bind_Ok in H as (record' & Ht & H).
  apply res_bind_Ok in H as (permits' & Hset & H).
  unfold dget_or in Hset. rewrite (dgetN_dict _ _ _ Hp) in Hset. injection Hset as <-.
  exists records, record, record', (dset "permits" (VDict (dset id (VDict record') records)) ledger).
  do 4 (split; [done|]). destruct (String.eqb_spec root "") as [->|Hne].
  - injection H as _ <-. by left.
  - right. split; [done|]. destruct (dsetdefault _ _ _) as [fenced ledger2] eqn:E.
    apply res_bind_Ok in H as (stamp & _ & H). apply res_bind_Ok in H as (fenced' & Hfs & [= _ <-]).
    apply set_item_dict in Hfs as (fd & -> & ->). by exists fd, stamp, ledger2.
Qed.

Lemma fence_body_moves (R : relation string) id expected root reason terminal now d u d' :
  R expected "recovery_required" →
  fence_body id expected root reason terminal now d = Ok (u, d') → evolves_by R (ledger_has d) (ledger_has d').
Proof.
  intros Hm (records & record & record' & d1 & Hp & Hr & Ht & -> & Hroot)%fence_body_spec.
  eapply evolves_trans; [eapply (evolves_transition id records record); [done|done|exact Ht|done]|].
  destruct Hroot as [[_ ->]|(_ & fenced & stamp & d2 & E & ->)]; [apply evolves_refl|].
  eapply evolves_trans; [by eapply evolves_setdefault|]. split.
  - intros i s H. exists s. split; [|apply rtc_refl]. unfold ledger_has, state_path in *. by rewrite dpath_dset_other.
  - intros ks s Hk H. destruct Hk; unfold ledger_has in *; by rewrite dpath_dset_other.
  - intros r s H. unfold ledger_has, fence_path in *. rewrite dpath_dset_same. cbn [dpath].
    rewrite dget_dset. destruct (String.eqb_spec r root) as [->|Hne]; [by exists id|].
    exists s. cbn [dpath] in H. by rewrite (dsetdefault_get _ _ _ _ _ E) in H.
Qed.

Lemma fence_body_evolves id expected root reason terminal now d u d' :
  mem_str expected MUTATION_STATES = true →
  fence_body id expected root reason terminal now d = Ok (u, d') → evolves (ledger_has d) (ledger_has d').
Proof. intros Hm. by apply fence_body_moves, mutation_step. Qed.

Lemma terminal_result_body_reads key d a d' : terminal_result_body key d = Ok (a, d') → d' = d.
Proof.
  unfold terminal_result_body. intros H. apply res_bind_Ok in H as ([record|] & _ & H); [|congruence].
  destruct (dgetN "terminal_result" record); try done; congruence.
Qed.
