(* ===== verification/Permits.v ===== *)
(** * Repo-patch execution permits

    [src/shared/mesh_runtime/repo_patch_permits.py]: binding a patch to its
    target file, issuing and consuming permits, aborting with restoration and
    recovering incomplete actions.  Decisions and evaluations are instances of
    the dataclasses of [Contracts]; clock readings, random tokens, the failpoint
    hook and the success of disk writes are arguments, and so is the admission
    gate's own validator, which [services] other than this file define. *)

From S2P Require Import Prelude PyFloat PyValue Json Sha256 Paths JsonStore DateTime SchemaValidation Schemas PyNumbers Signing PermitValidation PermitLedger.

#[local] Opaque sha256_hex hmac_sha256_hex.

(** ** Binding a patch to its target *)

(** [{str(Path(path)) for path in ...}] *)
Definition allowed_path_str (v : value) : res string :=
  match v with
  | VStr s => Ok (path_str (parse_path s))
  | _ => raise TypeError "expected str, bytes or os.PathLike object"
  end.

(** [(repo_path, target_path, preimage digest)] *)
Definition repo_patch_target_binding (fs : filesystem) (parameters : dict) : res (path * path * string) :=
  raw_repo ← ditem "repo_path" parameters;
  let repo_path := parse_path (py_str raw_repo) in
  raise_if negb (is_absolute repo_path) || is_symlink fs repo_path
    with ValueError "repo patch root must be an absolute non-symlink path";
  repo_path ← resolve fs repo_path;
  match dgetN "patch_template" parameters with
  | VDict patch_template =>
      let raw_target := parse_path (py_str (py_or (dgetN "target_file" patch_template) (VStr ""))) in
      let unresolved_target := if is_absolute raw_target then raw_target
                               else path_join repo_path raw_target in
      raise_if is_symlink fs unresolved_target
        with ValueError "repo patch target must not be a symlink";
      target_path ← resolve fs unresolved_target;
      match relative_to target_path repo_path with
      | None => raise ValueError "repo patch target escapes repo scope"
      | Some relative_target =>
          items ← py_iter (dget_or "allowed_paths" (VList []) parameters);
          allowed ← res_map allowed_path_str items;
          raise_if negb (mem_str (path_str relative_target) allowed)
            with ValueError "repo patch target falls outside allowed patch scope";
          raise_if negb (is_file fs target_path)
            with ValueError "repo patch target must be an existing regular file";
          digest ← file_digest fs target_path;
          Ok (repo_path, target_path, digest)
      end
  | _ => raise ValueError "repo patch template is missing"
  end.

(** [except classes as exc: raise ValueError(prefix + str(exc)) from exc] *)
Definition reraise {A} (classes : list exc_class) (prefix : string) (m : res A) : res A :=
  match m with
  | Err e => if existsb (isinstance_exc (exc_cls e)) classes
             then raise ValueError (prefix +:+ exc_str e) else m
  | Ok _ => m
  end.

(** The bytes after the patch and their digest. *)
Definition repo_patch_postimage (fs : filesystem) (parameters : dict) (target_path : path)
    : res (string * string) :=
  match dgetN "patch_template" parameters with
  | VDict patch_template =>
      '(original, find_text, replace_text) ←
        reraise [KeyError; OSError; UnicodeError] "repo patch postimage binding failed: "
          (original ← read_text fs target_path;
           find ← ditem "find" patch_template;
           replace ← ditem "replace" patch_template;
           Ok (original, py_str find, py_str replace));
      raise_if negb (str_contains find_text original)
        with ValueError "patch anchor not found in target file";
      let postimage := str_replace_first find_text replace_text original in
      Ok (postimage, bytes_digest postimage)
  | _ => raise ValueError "repo patch template is missing"
  end.

(** ** The store *)

Record permit_store := PermitStore {
  ps_path : string;
  ps_backup_directory : path;
  ps_signing_key : string;
  ps_signing_key_id : string;
  ps_issuer : string;
  ps_executor_audience : string }.

(** [RepoPatchPermitStore.__init__] *)
Definition permit_store_init (fs : filesystem) (state_directory : string) (signing_key : option string)
    (signing_key_id issuer executor_audience : string) : res permit_store :=
  dir ← resolve fs (parse_path state_directory);
  Ok {| ps_path := path_str (path_join dir (parse_path "repo_patch_authority_ledger.json"));
        ps_backup_directory := path_join dir (parse_path "repo_patch_backups");
        ps_signing_key := str_strip (default "" signing_key);
        ps_signing_key_id := str_strip signing_key_id;
        ps_issuer := str_strip issuer;
        ps_executor_audience := str_strip executor_audience |}.

Definition require_authority_configuration (store : permit_store) : res unit :=
  raise_if String.eqb (ps_signing_key store) ""
    with ValueError "repo patch permit signing key is required for mutable authority";
  raise_if String.eqb (ps_signing_key_id store) ""
    with ValueError "repo patch permit signing key id is required";
  raise_if String.eqb (ps_issuer store) "" with ValueError "repo patch permit issuer is required";
  raise_if String.eqb (ps_executor_audience store) ""
    with ValueError "repo patch permit executor audience is required";
  Ok ().

(** [f"{decision.decision_id}:{decision.execution_plan\['action'\]}"] *)
Definition decision_key (decision : dict) : res string :=
  action ← subscript (dgetN "execution_plan" decision) "action";
  Ok (py_str (dgetN "decision_id" decision) +:+ ":" +:+ py_str action).

(** The parameters of the decision's plan without the admission context. *)
Definition decision_parameters (decision : dict) : res dict :=
  raw ← subscript (dgetN "execution_plan" decision) "parameters";
  parameters ← py_dict raw;
  Ok (canonical_actuation_parameters parameters).

(** ** Issuing *)

(** The values a permit is made of. *)
Record binding := Binding {
  b_request : dict;
  b_admission : dict;
  b_gate : dict;
  b_evaluation : dict;
  b_parameters : dict;
  b_repo_path : path;
  b_target_path : path;
  b_preimage : string;
  b_postimage : string;
  b_issued_at : string;
  b_expires_at : string }.

(** [list(v or \[\])] *)
Definition claims_or_empty (v : value) : res value := l ← py_iter (py_or v (VList [])); Ok (VList l).

(** The permit before its digests. *)
Definition permit_core (store : permit_store) (b : binding) (permit_id nonce idempotency_key tip_before : string)
    : res dict :=
  let request := b_request b in
  actor ← ditem "actor_ref" request;
  tenant ← subscript actor "team_id";
  mesh_run_id ← ditem "mesh_run_id" request;
  mesh_action_id ← ditem "mesh_action_id" request;
  action_kind ← ditem "action_kind" request;
  request_digest ← ditem "request_digest" (b_gate b);
  decision_digest ← ditem "decision_digest" (b_gate b);
  candidate_digest ← ditem "candidate_digest" (b_gate b);
  action_proposal_digest ← ditem "action_proposal_digest" request;
  evidence_packet_digest ← ditem "evidence_packet_digest" request;
  mesh_policy_id ← ditem "mesh_policy_id" request;
  raw_requested ← ditem "requested_claims" request;
  requested ← py_iter raw_requested;
  accepted ← claims_or_empty (dgetN "accepted_claims" (b_admission b));
  raw_nonclaims ← ditem "explicit_nonclaims" request;
  nonclaims ← py_iter raw_nonclaims;
  enforced ← claims_or_empty (dgetN "enforced_nonclaims" (b_admission b));
  Ok [("schema_version", VStr REPO_PATCH_EXECUTION_PERMIT_VERSION);
      ("transaction_version", VStr REPO_PATCH_EXECUTION_TRANSACTION_VERSION);
      ("permit_id", VStr permit_id);
      ("authority_scope", VStr "local_disposable_repo_patch_only");
      ("issuer", VStr (ps_issuer store));
      ("executor_audience", VStr (ps_executor_audience store));
      ("tenant", tenant);
      ("mesh_run_id", mesh_run_id);
      ("mesh_action_id", mesh_action_id);
      ("action_kind", action_kind);
      ("authority_nonce", VStr nonce);
      ("idempotency_key", VStr idempotency_key);
      ("hsai_request_digest", request_digest);
      ("hsai_decision_digest", decision_digest);
      ("candidate_payload_digest", candidate_digest);
      ("action_proposal_digest", action_proposal_digest);
      ("evidence_packet_digest", evidence_packet_digest);
      ("mesh_policy_id", mesh_policy_id);
      ("policy_snapshot_digest", VStr (canonical_digest (VDict (b_evaluation b))));
      ("canonical_actuation_payload_digest", VStr (canonical_digest (VDict (b_parameters b))));
      ("repo_path", VStr (path_str (b_repo_path b)));
      ("target_path", VStr (path_str (b_target_path b)));
      ("target_preimage_digest", VStr (b_preimage b));
      ("target_postimage_digest", VStr (b_postimage b));
      ("requested_claims", VList requested);
      ("accepted_claims", accepted);
      ("explicit_nonclaims", VList nonclaims);
      ("enforced_nonclaims", enforced);
      ("expected_ledger_tip_before", VStr tip_before);
      ("issued_at", VStr (b_issued_at b));
      ("not_before", VStr (b_issued_at b));
      ("expires_at", VStr (b_expires_at b))].

Definition entry_digest (tip_before : string) (core : dict) : string :=
  canonical_digest (VDict [("tip_before", VStr tip_before); ("permit", VDict core)]).

Definition next_tip (tip_before entry : string) : string :=
  canonical_digest (VDict [("tip_before", VStr tip_before); ("entry_digest", VStr entry)]).

(** The digests and the signature, in the order they are added. *)
Definition seal_permit (store : permit_store) (tip_before : string) (core : dict) : dict :=
  let entry := entry_digest tip_before core in
  let permit := dset "authority_entry_digest" (VStr entry) core in
  let permit := dset "ledger_tip_after" (VStr (next_tip tip_before entry)) permit in
  let permit := dset "permit_digest" (VStr (permit_digest permit)) permit in
  dset "authorization_proof"
    (VDict (build_hmac_signature_proof (permit_signed_payload permit) (ps_signing_key_id store)
              (ps_signing_key store) REPO_PATCH_PERMIT_SIGNING_PROFILE)) permit.

Definition issued_record (permit : dict) (now : string) : dict :=
  [("permit", VDict permit);
   ("state", VStr "issued");
   ("state_history", VList [history_entry "issued" now])].

(** The permit already recorded under the idempotency key. *)
Definition existing_permit_of (permits existing_permit_id : value) (parameters : dict) : res dict :=
  existing_record ← py_get_key permits existing_permit_id;
  match existing_record with
  | VDict record =>
      match dgetN "permit" record with
      | VDict existing_permit =>
          bound ← ditem "canonical_actuation_payload_digest" existing_permit;
          raise_if negb (is_string (canonical_digest (VDict parameters)) bound)
            with ValueError "repo patch idempotency binding mismatch";
          Ok existing_permit
      | _ => raise ValueError "repo patch idempotency entry is corrupt"
      end
  | _ => raise ValueError "repo patch idempotency entry is corrupt"
  end.

(** The body of [issue]. *)
Definition issue_body (store : permit_store) (b : binding) (idempotency_key : string)
    (permit_id nonce : string) (ledger : dict) : res (dict * dict) :=
  let '(permits, ledger) := dsetdefault "permits" (VDict []) ledger in
  let '(nonces, ledger) := dsetdefault "consumed_nonces" (VDict []) ledger in
  let '(idempotency, ledger) := dsetdefault "idempotency" (VDict []) ledger in
  let '(fenced_roots, ledger) := dsetdefault "fenced_roots" (VDict []) ledger in
  fenced ← py_contains (path_str (b_repo_path b)) fenced_roots;
  raise_if fenced with ValueError "repo patch root is fenced pending authority recovery";
  let tip_before := py_str (py_or (dgetN "tip" ledger) (VStr GENESIS_LEDGER_TIP)) in
  existing_permit_id ← py_get idempotency idempotency_key;
  if negb (is_none existing_permit_id) then
    existing ← existing_permit_of permits existing_permit_id (b_parameters b);
    Ok (existing, ledger)
  else
    known ← py_contains permit_id permits;
    raise_if known with ValueError "repo patch permit id already exists";
    used ← py_contains nonce nonces;
    raise_if used with ValueError "repo patch permit nonce already exists";
    core ← permit_core store b permit_id nonce idempotency_key tip_before;
    let permit := seal_permit store tip_before core in
    _ ← validate_named "repo-patch-execution-permit.schema.json" permit;
    _ ← validate_repo_patch_execution_permit_semantics permit;
    permits' ← set_item permits permit_id (VDict (issued_record permit (b_issued_at b)));
    idempotency' ← set_item idempotency idempotency_key (VStr permit_id);
    Ok (permit, dset "tip" (dgetN "ledger_tip_after" permit)
                  (dset "idempotency" idempotency' (dset "permits" permits' ledger))).

Section issue.
Context (validate_bridge_gate : dict → dict → dict → res unit).

(** Everything [issue] does before it opens the ledger. *)
Definition issue_binding (store : permit_store) (fs : filesystem) (decision evaluation gate : dict)
    (idempotency_key : string) (ttl_seconds : Z) (now : datetime) : res binding :=
  _ ← require_authority_configuration store;
  _ ← validate_bridge_gate gate decision evaluation;
  raise_if negb ((1 <=? ttl_seconds) && (ttl_seconds <=? 300))
    with ValueError "repo patch permit ttl must be between 1 and 300 seconds";
  allowed ← (if truthy (dgetN "allowed" gate)
             then verdict ← py_get (dget_or "decision" (VDict []) gate) "decision";
                  Ok (is_string "allow" verdict)
             else Ok false);
  raise_if negb allowed with ValueError "repo patch permit requires an allowed HSAI decision";
  raise_if negb (is_true (dgetN "authority_eligible" gate))
    with ValueError "repo patch permit requires an authority-eligible HSAI adapter";
  raise_if negb (truthy (dgetN "passed" evaluation)
                 && is_string "execute" (dgetN "final_recommendation" evaluation))
    with ValueError "repo patch permit requires Mesh execute approval";
  expected_idempotency_key ← decision_key decision;
  raise_if negb (String.eqb idempotency_key expected_idempotency_key)
    with ValueError "repo patch permit idempotency key mismatch";
  parameters ← decision_parameters decision;
  '(repo_path, target_path, preimage) ← repo_patch_target_binding fs parameters;
  '(_, postimage) ← repo_patch_postimage fs parameters target_path;
  now ← astimezone_utc now;
  expires_at ← add_seconds now ttl_seconds;
  raw_request ← ditem "request" gate;
  request ← py_dict raw_request;
  raw_admission ← ditem "decision" gate;
  admission ← py_dict raw_admission;
  issued ← permit_format_time now;
  expires ← permit_format_time expires_at;
  Ok {| b_request := request; b_admission := admission; b_gate := gate; b_evaluation := evaluation;
        b_parameters := parameters; b_repo_path := repo_path; b_target_path := target_path;
        b_preimage := preimage; b_postimage := postimage;
        b_issued_at := issued; b_expires_at := expires |}.

(** [RepoPatchPermitStore.issue].  [permit_id] and [nonce] are the arguments, or
    the random tokens drawn in their place. *)
Definition issue (store : permit_store) (f : file) (fs : filesystem) (decision evaluation gate : dict)
    (idempotency_key : string) (ttl_seconds : Z) (permit_id nonce : string) (now : datetime)
    : res dict * file :=
  match issue_binding store fs decision evaluation gate idempotency_key ttl_seconds now with
  | Err e => (Err e, f)
  | Ok b => locked_json false (ps_path store) f (issue_body store b idempotency_key permit_id nonce)
  end.
End issue.

(** ** Consuming *)

(** [a != b] of two items *)
Definition same_item (k : string) (permit : dict) (v : value) : res bool :=
  item ← ditem k permit; Ok (py_eq item v).

(** The bindings of the permit to the admission context of the decision. *)
Definition check_context (permit decision : dict) : res unit :=
  parameters ← subscript (dgetN "execution_plan" decision) "parameters";
  found ← py_get parameters HSAI_EXECUTION_CONTEXT_KEY;
  match found with
  | VDict context =>
      tenant_bound ← match dgetN "request" context with
                     | VDict request =>
                         tenant ← ditem "tenant" permit;
                         team ← py_get (dget_or "actor_ref" (VDict []) request) "team_id";
                         Ok (py_eq tenant team)
                     | _ => Ok false
                     end;
      raise_if negb tenant_bound with ValueError "repo patch permit tenant mismatch";
      res_iter (λ pair : string * string,
        bound ← same_item pair.1 permit (dgetN pair.2 context);
        raise_if negb bound with ValueError ("repo patch permit " +:+ pair.1 +:+ " mismatch");
        Ok ())
        [("hsai_request_digest", "request_digest");
         ("hsai_decision_digest", "decision_digest");
         ("candidate_payload_digest", "candidate_digest")]
  | _ => raise ValueError "repo patch permit missing HSAI execution context"
  end.

(** [_validate_permit] up to the signature: what does not look at the decision. *)
Definition check_authority (store : permit_store) (permit : dict) : res unit :=
  _ ← require_authority_configuration store;
  _ ← validate_named "repo-patch-execution-permit.schema.json" permit;
  _ ← validate_repo_patch_execution_permit_semantics permit;
  raise_if negb (is_string (ps_issuer store) (dgetN "issuer" permit))
    with ValueError "repo patch permit issuer mismatch";
  raise_if negb (is_string (ps_executor_audience store) (dgetN "executor_audience" permit))
    with ValueError "repo patch permit executor audience mismatch";
  match dgetN "authorization_proof" permit with
  | VDict proof =>
      raise_if negb (is_string (ps_signing_key_id store) (dgetN "key_id" proof))
        with ValueError "repo patch permit signing key id mismatch";
      raise_if negb (is_string REPO_PATCH_PERMIT_SIGNING_PROFILE (dgetN "signing_profile" proof))
        with ValueError "repo patch permit signing profile mismatch";
      verified ← verify_hmac_signature_proof (permit_signed_payload permit) proof (ps_signing_key store);
      raise_if negb verified with ValueError "repo patch permit HMAC verification failed";
      raise_if negb (is_string (permit_digest permit) (dgetN "permit_digest" permit))
        with ValueError "repo patch permit digest mismatch";
      Ok ()
  | _ => raise ValueError "repo patch permit authorization proof missing"
  end.

(** The validity window at the clock reading [now]. *)
Definition check_window (permit : dict) (now : datetime) : res unit :=
  now ← astimezone_utc now;
  raw_not_before ← ditem "not_before" permit;
  not_before ← permit_parse_time (py_str raw_not_before);
  early ← dt_ltb now not_before;
  raise_if early with ValueError "repo patch permit is not active yet";
  raw_expires ← ditem "expires_at" permit;
  expires_at ← permit_parse_time (py_str raw_expires);
  late ← dt_ltb expires_at now;
  raise_if late with ValueError "repo patch permit expired";
  Ok ().

(** [RepoPatchPermitStore._validate_permit] *)
Definition validate_permit (store : permit_store) (fs : filesystem) (permit decision : dict)
    (idempotency_key : string) (actuation_parameters : dict) (now : datetime) : res unit :=
  _ ← check_authority store permit;
  let parameters := canonical_actuation_parameters actuation_parameters in
  '(repo_path, target_path, current_preimage) ← repo_patch_target_binding fs parameters;
  _ ← check_window permit now;
  same_key ← same_item "idempotency_key" permit (VStr idempotency_key);
  raise_if negb same_key with ValueError "repo patch permit idempotency key mismatch";
  expected_key ← decision_key decision;
  raise_if negb (String.eqb idempotency_key expected_key)
    with ValueError "repo patch decision idempotency binding mismatch";
  same_action ← same_item "mesh_action_id" permit (dgetN "decision_id" decision);
  raise_if negb same_action with ValueError "repo patch permit action mismatch";
  same_payload ← same_item "canonical_actuation_payload_digest" permit
                   (VStr (canonical_digest (VDict parameters)));
  raise_if negb same_payload with ValueError "repo patch permit actuation payload mismatch";
  same_repo ← same_item "repo_path" permit (VStr (path_str repo_path));
  same_target ← (if (same_repo : bool) then same_item "target_path" permit (VStr (path_str target_path))
                 else Ok false);
  raise_if negb same_target with ValueError "repo patch permit target path mismatch";
  same_preimage ← same_item "target_preimage_digest" permit (VStr current_preimage);
  raise_if negb same_preimage with ValueError "repo patch permit target preimage mismatch";
  '(_, current_postimage) ← repo_patch_postimage fs parameters target_path;
  same_postimage ← same_item "target_postimage_digest" permit (VStr current_postimage);
  raise_if negb same_postimage with ValueError "repo patch permit target postimage mismatch";
  check_context permit decision.

(** An item of a validated permit that is a string. *)
Definition item_str (k : string) (permit : dict) : res string :=
  v ← ditem k permit;
  match v with VStr s => Ok s | _ => raise TypeError ("unhashable type: " +:+ repr_str (type_name v)) end.

(** What [consume] returns. *)
Definition consumption (permit : dict) : res dict :=
  permit_id ← ditem "permit_id" permit;
  digest ← ditem "permit_digest" permit;
  entry ← ditem "authority_entry_digest" permit;
  tip ← ditem "ledger_tip_after" permit;
  preimage ← ditem "target_preimage_digest" permit;
  postimage ← ditem "target_postimage_digest" permit;
  Ok [("permit_id", permit_id);
      ("permit_digest", digest);
      ("authority_entry_digest", entry);
      ("ledger_tip_after", tip);
      ("target_preimage_digest", preimage);
      ("target_postimage_digest", postimage);
      ("transaction_version", VStr REPO_PATCH_EXECUTION_TRANSACTION_VERSION)].

(** [RepoPatchPermitStore.consume]; [now] and [now'] are its two clock readings. *)
Definition consume (store : permit_store) (f : file) (fs : filesystem) (permit decision : dict)
    (idempotency_key : string) (actuation_parameters : dict) (failpoint : string → res unit)
    (now now' : datetime) : res dict * file :=
  match (_ ← validate_permit store fs permit decision idempotency_key actuation_parameters now;
         stamp ← astimezone_utc now';
         permit_id ← item_str "permit_id" permit;
         nonce ← item_str "authority_nonce" permit;
         Ok (stamp, permit_id, nonce)) with
  | Err e => (Err e, f)
  | Ok (stamp, permit_id, nonce) =>
      match locked_json false (ps_path store) f (consume_body permit permit_id nonce stamp) with
      | (Err e, f1) => (Err e, f1)
      | (Ok _, f1) => (_ ← failpoint "claimed"; consumption permit, f1)
      end
  end.

(** [RepoPatchPermitStore.record_transition] *)
Definition record_transition (store : permit_store) (f : file) (permit_id expected_state new_state : string)
    (details terminal_result : option dict) (failpoint : string → res unit) (now : datetime)
    : res dict * file :=
  match (_ ← check_transition expected_state new_state terminal_result; astimezone_utc now) with
  | Err e => (Err e, f)
  | Ok stamp =>
      match locked_json false (ps_path store) f
              (transition_body permit_id expected_state new_state stamp details terminal_result) with
      | (Err e, f1) => (Err e, f1)
      | (Ok record, f1) => (_ ← failpoint new_state; Ok record, f1)
      end
  end.

(** [RepoPatchPermitStore.terminal_result_for_idempotency] *)
Definition terminal_result_for_idempotency (store : permit_store) (f : file) (idempotency_key : string)
    : res (option dict) * file :=
  locked_json false (ps_path store) f (terminal_result_body idempotency_key).

(** The bindings [terminal_result_for_replay] compares. *)
Definition replay_bindings (decision evaluation gate request : dict) (idempotency_key : string)
    (parameters : dict) : dict :=
  [("mesh_action_id", dgetN "decision_id" decision);
   ("mesh_run_id", dgetN "mesh_run_id" request);
   ("idempotency_key", VStr idempotency_key);
   ("hsai_request_digest", dgetN "request_digest" gate);
   ("hsai_decision_digest", dgetN "decision_digest" gate);
   ("candidate_payload_digest", dgetN "candidate_digest" gate);
   ("action_proposal_digest", dgetN "action_proposal_digest" request);
   ("evidence_packet_digest", dgetN "evidence_packet_digest" request);
   ("mesh_policy_id", dgetN "mesh_policy_id" request);
   ("policy_snapshot_digest", VStr (canonical_digest (VDict evaluation)));
   ("canonical_actuation_payload_digest", VStr (canonical_digest (VDict parameters)))].

Definition replay_body (bindings : dict) (idempotency_key : string) (ledger : dict)
    : res (option dict * dict) :=
  found ← terminal_record idempotency_key ledger;
  match found with
  | None => Ok (None, ledger)
  | Some record =>
      match dgetN "permit" record, dgetN "terminal_result" record with
      | VDict permit, VDict result =>
          let mismatched := map fst (List.filter (λ kv, negb (py_eq (dgetN kv.1 permit) kv.2)) bindings) in
          raise_if (match mismatched with [] => false | _ => true end)
            with ValueError ("repo patch terminal replay binding mismatch: "
                             +:+ py_repr (VList (map VStr (sort_strings mismatched))));
          Ok (Some result, ledger)
      | _, _ => raise ValueError "terminal repo patch authority record is incomplete"
      end
  end.

(** [RepoPatchPermitStore.terminal_result_for_replay] *)
Definition terminal_result_for_replay (store : permit_store) (f : file) (decision evaluation gate : dict)
    (idempotency_key : string) : res (option dict) * file :=
  match (expected_key ← decision_key decision;
         raise_if negb (String.eqb idempotency_key expected_key)
           with ValueError "repo patch terminal replay idempotency mismatch";
         parameters ← decision_parameters decision;
         match dgetN "request" gate with
         | VDict request =>
             Ok (replay_bindings decision evaluation gate request idempotency_key parameters)
         | _ => raise ValueError "repo patch terminal replay gate request is missing"
         end) with
  | Err e => (Err e, f)
  | Ok bindings => locked_json false (ps_path store) f (replay_body bindings idempotency_key)
  end.
