(* ===== verification/PermitRecovery.v ===== *)
(** * Restoring and fencing repo-patch actions

    The part of [src/shared/mesh_runtime/repo_patch_permits.py] that undoes an
    action: [abort_with_restoration], [recover_incomplete_actions] and
    [_fence_recovery].  They act on the ledger file and on the file system
    together. *)

From S2P Require Import Prelude PyFloat PyValue Json Sha256 Paths JsonStore DateTime SchemaValidation Schemas Signing PermitValidation PermitLedger Permits.

#[local] Opaque sha256_hex.

Record world := World { w_ledger : file; w_fs : filesystem }.

Definition set_ledger (w : world) (f : file) : world := World f (w_fs w).
Definition set_fs (w : world) (fs : filesystem) : world := World (w_ledger w) fs.

(** ** Restoring the target *)

(** [_validated_backup_path] *)
Definition validated_backup_path (store : permit_store) (fs : filesystem) (details permit : dict) : res path :=
  backup_path ← resolve fs (parse_path (py_str (py_or (dgetN "backup_path" details) (VStr ""))));
  directory ← resolve fs (ps_backup_directory store);
  match relative_to backup_path directory with
  | None => raise ValueError "authority backup escapes the configured backup directory"
  | Some _ =>
      raise_if negb (is_file fs backup_path) with ValueError "authority backup is missing";
      digest ← file_digest fs backup_path;
      preimage ← ditem "target_preimage_digest" permit;
      raise_if negb (is_string digest preimage)
        with ValueError "authority backup does not match the authorized preimage";
      Ok backup_path
  end.

(** An element of a set must be hashable. *)
Definition hashable_item (k : string) (permit : dict) : res value :=
  v ← ditem k permit;
  raise_if is_list v || is_dict v with TypeError ("unhashable type: " +:+ repr_str (type_name v));
  Ok v.

(** The restoration both callers perform, with the file system it leaves. *)
Definition restore_target (store : permit_store) (fs : filesystem) (details permit : dict)
    (became_symlink : string) (disk_ok : bool) : res path * filesystem :=
  match (backup_path ← validated_backup_path store fs details permit;
         raw_target ← ditem "target_path" permit;
         let target_path := parse_path (py_str raw_target) in
         raise_if is_symlink fs target_path with ValueError became_symlink;
         current ← file_digest fs target_path;
         preimage ← hashable_item "target_preimage_digest" permit;
         postimage ← hashable_item "target_postimage_digest" permit;
         raise_if negb (is_string current preimage || is_string current postimage)
           with ValueError "target state does not match the authorized preimage or postimage";
         content ← read_bytes fs backup_path;
         fs' ← atomic_replace_bytes fs target_path content disk_ok;
         Ok (backup_path, target_path, preimage, fs')) with
  | Err e => (Err e, fs)
  | Ok (backup_path, target_path, preimage, fs') =>
      ((restored ← file_digest fs' target_path;
        raise_if negb (is_string restored preimage)
          with ValueError "restored target does not match the authorized preimage";
        Ok backup_path), fs')
  end.

(** [except (KeyError, OSError, TypeError, ValueError)] *)
Definition restoration_errors : list exc_class := [KeyError; OSError; TypeError; ValueError].

Definition caught (e : exc) : bool := existsb (isinstance_exc (exc_cls e)) restoration_errors.

(** ** Results *)

Definition aborted_result (permit_id : value) (reason : string) (backup_path : path) (test_results : list value)
    : dict :=
  [("status", VStr "failed");
   ("external_refs", VDict [("permit_id", permit_id);
                            ("backup_path", VStr (path_str backup_path));
                            ("test_results", VList test_results);
                            ("target_restored", VBool true)]);
   ("failure", VDict [("reason", VStr reason)]);
   ("retryable", VBool false)].

Definition fenced_result (permit_id repo_path reason : string) : dict :=
  [("status", VStr "failed");
   ("external_refs", VDict [("permit_id", VStr permit_id);
                            ("root_fenced", VBool (negb (String.eqb repo_path "")))]);
   ("failure", VDict [("reason", VStr ("repo patch recovery required: " +:+ reason))]);
   ("retryable", VBool false)].

(** The root a permit names, empty when there is none. *)
Definition permit_root (permit : value) : string :=
  match permit with
  | VDict d => py_str (py_or (dgetN "repo_path" d) (VStr ""))
  | _ => ""
  end.

(** [_fence_recovery]: the stored result and the ledger. *)
Definition fence_recovery (store : permit_store) (f : file) (permit_id expected_state : string)
    (permit : value) (reason : string) (failpoint : string → res unit) (now : datetime)
    : res dict * file :=
  let repo_path := permit_root permit in
  let terminal := fenced_result permit_id repo_path reason in
  match astimezone_utc now with
  | Err e => (Err e, f)
  | Ok stamp =>
      match locked_json false (ps_path store) f
              (fence_body permit_id expected_state repo_path reason terminal stamp) with
      | (Err e, f1) => (Err e, f1)
      | (Ok _, f1) => (_ ← failpoint "recovery_required"; Ok terminal, f1)
      end
  end.

(** ** Aborting *)

(** The transaction details of a permit in the expected state. *)
Definition transaction_body (permit_id : value) (expected_state : string) (ledger : dict) : res (value * dict) :=
  found ← permits_get ledger permit_id;
  match found with
  | VDict record =>
      raise_if negb (is_string expected_state (dgetN "state" record))
        with ValueError "repo patch authority restoration state changed concurrently";
      Ok (dgetN "transaction" record, ledger)
  | _ => raise ValueError "repo patch authority restoration state changed concurrently"
  end.

(** The [try] block of [abort_with_restoration]. *)
Definition abort_restore (store : permit_store) (w : world) (permit : dict) (expected_state : string)
    (disk_ok : bool) : res path * world :=
  match ditem "permit_id" permit with
  | Err e => (Err e, w)
  | Ok permit_id =>
      match locked_json false (ps_path store) (w_ledger w) (transaction_body permit_id expected_state) with
      | (Err e, f1) => (Err e, set_ledger w f1)
      | (Ok (VDict details), f1) =>
          let '(r, fs') := restore_target store (w_fs w) details permit
                             "repo patch restoration target became a symlink" disk_ok in
          (r, World f1 fs')
      | (Ok _, f1) => (raise ValueError "authority transaction metadata is missing", set_ledger w f1)
      end
  end.

(** [abort_with_restoration]; [now] and [now'] are the clock readings of the
    details and of the transition. *)
Definition abort_with_restoration (store : permit_store) (w : world) (permit : dict)
    (expected_state reason : string) (test_results : list value) (failpoint : string → res unit)
    (disk_ok : bool) (now now' : datetime) : res dict * world :=
  match abort_restore store w permit expected_state disk_ok with
  | (Err e, w1) =>
      if caught e then
        match item_str "permit_id" permit with
        | Err e' => (Err e', w1)
        | Ok permit_id =>
            let '(r, f2) := fence_recovery store (w_ledger w1) permit_id expected_state (VDict permit)
                              (exc_str e) failpoint now in
            (r, set_ledger w1 f2)
        end
      else (Err e, w1)
  | (Ok backup_path, w1) =>
      match (permit_id ← item_str "permit_id" permit;
             restored_at ← permit_format_time now;
             Ok (permit_id, restored_at)) with
      | Err e => (Err e, w1)
      | Ok (permit_id, restored_at) =>
          let terminal := aborted_result (VStr permit_id) reason backup_path test_results in
          let '(r, f2) := record_transition store (w_ledger w1) permit_id expected_state "aborted"
                            (Some [("restored", VBool true); ("restored_at", VStr restored_at)])
                            (Some terminal) failpoint now' in
          (_ ← r; Ok terminal, set_ledger w1 f2)
      end
  end.

(** ** Recovery at start-up *)

(** The records in a mutation state, in ledger order. *)
Definition candidates_body (ledger : dict) : res (list (string * dict) * dict) :=
  match dget_or "permits" (VDict []) ledger with
  | VDict records =>
      found ← res_map (λ kv : string * value,
                match kv.2 with
                | VDict record =>
                    active ← in_str_set (dgetN "state" record) MUTATION_STATES;
                    Ok (if (active : bool) then [(kv.1, record)] else [])
                | _ => Ok []
                end) records;
      Ok (concat found, ledger)
  | _ => raise ValueError "repo patch authority ledger is missing permits"
  end.

Definition recovery_entry (permit_id state : string) (result : dict) : dict :=
  [("permit_id", VStr permit_id); ("state", VStr state); ("result", VDict result)].

Definition recovery_reason : string :=
  "incomplete repo patch authority transaction restored during recovery".

Section recover.
Context (store : permit_store) (failpoint : string → res unit)
  (disk_ok : nat → bool) (clock : nat → datetime).

(** Fencing the [i]-th candidate. *)
Definition fence_one (w : world) (i : nat) (permit_id state : string) (permit : value) (reason : string)
    : res dict * world :=
  let '(r, f) := fence_recovery store (w_ledger w) permit_id state permit reason failpoint (clock (2 * i)) in
  (terminal ← r; Ok (recovery_entry permit_id "recovery_required" terminal), set_ledger w f).

(** Marking it aborted once its target is restored. *)
Definition abort_one (w : world) (i : nat) (permit_id state : string) (permit : dict) (backup_path : path)
    : res dict * world :=
  match (id ← ditem "permit_id" permit;
         recovered_at ← permit_format_time (clock (2 * i));
         Ok (aborted_result id recovery_reason backup_path [], recovered_at)) with
  | Err e => (Err e, w)
  | Ok (terminal, recovered_at) =>
      let '(r, f) := record_transition store (w_ledger w) permit_id state "aborted"
                       (Some [("recovered_at", VStr recovered_at); ("restored", VBool true)])
                       (Some terminal) failpoint (clock (2 * i + 1)) in
      (_ ← r; Ok (recovery_entry permit_id "aborted" terminal), set_ledger w f)
  end.

(** One candidate, the [i]-th: it is fenced or aborted. *)
Definition recover_one (w : world) (i : nat) (permit_id : string) (record : dict) : res dict * world :=
  let state := py_str (dgetN "state" record) in
  match dgetN "permit" record, dgetN "transaction" record with
  | VDict permit, VDict details =>
      let '(r, fs') := restore_target store (w_fs w) details permit
                         "repo patch recovery target became a symlink" (disk_ok i) in
      let w1 := set_fs w fs' in
      match r with
      | Err e => if caught e then fence_one w1 i permit_id state (VDict permit) (exc_str e) else (Err e, w1)
      | Ok backup_path => abort_one w1 i permit_id state permit backup_path
      end
  | permit, _ => fence_one w i permit_id state permit "authority transaction metadata is missing"
  end.

Fixpoint recover_loop (w : world) (i : nat) (candidates : list (string * dict)) : res (list dict) * world :=
  match candidates with
  | [] => (Ok [], w)
  | (permit_id, record) :: rest =>
      match recover_one w i permit_id record with
      | (Err e, w1) => (Err e, w1)
      | (Ok entry, w1) =>
          let '(r, w2) := recover_loop w1 (S i) rest in
          (entries ← r; Ok (entry :: entries), w2)
      end
  end.

(** [recover_incomplete_actions] *)
Definition recover_incomplete_actions (w : world) : res (list dict) * world :=
  match locked_json false (ps_path store) (w_ledger w) candidates_body with
  | (Err e, f1) => (Err e, set_ledger w f1)
  | (Ok candidates, f1) => recover_loop (set_ledger w f1) 0 candidates
  end.
End recover.
