(* ===== verification/PermitFacts.v ===== *)
(** * Facts about issuing, consuming and recovering permits

    How the operations of [Permits] and [PermitRecovery] change the ledger file:
    each evolves it in the sense of [PermitLedgerFacts]. *)

From S2P Require Import Prelude PyFloat PyValue Json Sha256 Paths JsonStore DateTime SchemaValidation Schemas Signing PermitValidation.
From S2P Require Import PermitLedger Permits PermitLedgerFacts PermitRecovery.
From stdpp Require Import relations.

(** * Sealing a permit

    The digests and the signature [issue] adds to the core of a permit are what
    the semantic validation and [consume] recompute. *)

#[local] Opaque sha256_hex hmac_sha256_hex.

(** Membership of a literal in a list of literals. *)
Ltac auto_key := repeat first [apply list_elem_of_here | apply list_elem_of_further].

Lemma dset_new k v d : dget k d = None → dset k v d = d ++ [(k, v)].
Proof.
  induction d as [|[k' v'] d IH]; cbn [dget dset]; [done|].
  destruct (String.eqb k k'); [done|]. intros H. by rewrite IH.
Qed.

Lemma dpop_absent k d : dget k d = None → dpop k d = d.
Proof.
  induction d as [|[k' v'] d IH]; cbn [dget dpop]; [done|].
  destruct (String.eqb k k'); [done|]. intros H. by rewrite IH.
Qed.

Lemma dpop_app k d e : dpop k (d ++ e) = dpop k d ++ dpop k e.
Proof.
  induction d as [|[k' v'] d IH]; cbn [app dpop]; [done|]. destruct (String.eqb k k'); [done|]. by rewrite IH.
Qed.

(** The keys [seal_permit] adds. *)
Definition seal_keys : list string :=
  ["authority_entry_digest"; "ledger_tip_after"; "permit_digest"; "authorization_proof"].

(** A sealed permit, entry by entry. *)
Definition sealed (store : permit_store) (tip : string) (core : dict) : dict :=
  let body := core ++ [("authority_entry_digest", VStr (entry_digest tip core));
                       ("ledger_tip_after", VStr (next_tip tip (entry_digest tip core)))] in
  let signed := body ++ [("permit_digest", VStr (canonical_digest (VDict body)))] in
  signed ++ [("authorization_proof",
    VDict (build_hmac_signature_proof signed (ps_signing_key_id store) (ps_signing_key store)
             REPO_PATCH_PERMIT_SIGNING_PROFILE))].

Lemma seal_permit_sealed store tip core :
  (∀ k, k ∈ seal_keys → dget k core = None) → seal_permit store tip core = sealed store tip core.
Proof.
  intros Hnone. unfold seal_permit. cbv zeta.
  assert (∀ k e, k ∈ seal_keys → dget k e = None → dget k (core ++ e) = None) as Happ.
  { intros k e Hk He. rewrite dget_app. by rewrite Hnone. }
  rewrite (dset_new "authority_entry_digest") by (apply Hnone; auto_key).
  rewrite (dset_new "ledger_tip_after") by (apply Happ; [auto_key|done]).
  rewrite <- (app_assoc core). cbn [app].
  set (body := core ++ _). assert (permit_digest body = canonical_digest (VDict body)) as ->.
  { unfold permit_digest. rewrite (dpop_absent "permit_digest") by (apply Happ; [auto_key|done]).
    by rewrite dpop_absent by (apply Happ; [auto_key|done]). }
  rewrite (dset_new "permit_digest") by (apply Happ; [auto_key|done]).
  unfold sealed. fold body. set (signed := body ++ _).
  assert (dget "authorization_proof" signed = None) as Hs.
  { unfold signed, body. rewrite <- app_assoc. apply Happ; [auto_key|done]. }
  unfold permit_signed_payload. rewrite (dpop_absent _ signed Hs). by rewrite dset_new.
Qed.

(** The seal holds of a sealed permit. *)
Lemma sealed_verifies store tip core :
  (∀ k, k ∈ seal_keys → dget k core = None) →
  let permit := sealed store tip core in
  dgetN "permit_digest" permit = VStr (permit_digest permit)
  ∧ ∃ proof, dgetN "authorization_proof" permit = VDict proof
      ∧ dgetN "key_id" proof = VStr (ps_signing_key_id store)
      ∧ dgetN "signing_profile" proof = VStr REPO_PATCH_PERMIT_SIGNING_PROFILE
      ∧ verify_hmac_signature_proof (permit_signed_payload permit) proof (ps_signing_key store) = Ok true.
Proof.
  intros Hnone permit.
  assert (∀ k, k ∈ seal_keys → dpop k core = core) as Hpop by (intros k Hk; by apply dpop_absent, Hnone).
  unfold permit, sealed. set (body := core ++ _). set (signed := body ++ _).
  assert (dpop "authorization_proof" signed = signed) as Hsigned.
  { unfold signed, body. rewrite !dpop_app. by rewrite Hpop by auto_key. }
  split.
  - assert (permit_digest (signed ++ [("authorization_proof",
      VDict (build_hmac_signature_proof signed (ps_signing_key_id store) (ps_signing_key store)
               REPO_PATCH_PERMIT_SIGNING_PROFILE))]) = canonical_digest (VDict body)) as ->.
    { unfold permit_digest, signed. rewrite !dpop_app. cbn [dpop String.eqb Ascii.eqb Bool.eqb].
      rewrite !app_nil_r. unfold body. rewrite !dpop_app. rewrite !Hpop by auto_key.
      by cbn [dpop String.eqb Ascii.eqb Bool.eqb]. }
    unfold dgetN, signed, body. rewrite !dget_app. by rewrite Hnone by auto_key.
  - exists (build_hmac_signature_proof signed (ps_signing_key_id store) (ps_signing_key store)
              REPO_PATCH_PERMIT_SIGNING_PROFILE).
    split; [unfold dgetN, signed, body; rewrite !dget_app; by rewrite Hnone by auto_key|].
    split; [done|]. split; [done|]. unfold permit_signed_payload. rewrite dpop_app, Hsigned.
    cbn [dpop String.eqb Ascii.eqb Bool.eqb]. rewrite app_nil_r. apply build_hmac_verifies.
Qed.

Lemma sealed_dgetN store tip core k v :
  dgetN k core = v → v ≠ VNone → dgetN k (sealed store tip core) = v.
Proof.
  unfold sealed, dgetN. intros H Hv. rewrite !dget_app. destruct (dget k core); [done|]. by subst v.
Qed.


(** ** The seal passes the semantic validation *)

(** The issues of a core, the ones about the seal aside. *)
Definition core_issues (core : dict) : list string :=
  expect_exact core "schema_version" REPO_PATCH_EXECUTION_PERMIT_VERSION "schema_version_mismatch"
  ++ expect_exact core "transaction_version" REPO_PATCH_EXECUTION_TRANSACTION_VERSION
       "transaction_version_mismatch"
  ++ expect_exact core "authority_scope" REPO_PATCH_AUTHORITY_SCOPE "authority_scope_mismatch"
  ++ expect_exact core "action_kind" REPO_PATCH_ACTION_KIND "action_kind_mismatch"
  ++ concat (map (λ field, issue_if (negb (nonempty_string (dgetN field core))) (field +:+ "_missing"))
               ["issuer"; "executor_audience"; "tenant"])
  ++ issue_if (negb (is_hex64 (dgetN "authority_nonce" core))) "authority_nonce_invalid"
  ++ concat (map (λ field, issue_if (negb (is_sha256_digest (dgetN field core))) (field +:+ "_invalid"))
               (List.filter (λ k, negb (mem_str k seal_keys)) SHA256_FIELDS))
  ++ validate_time_window core
  ++ validate_claim_lists core
  ++ validate_claim_relations core.

Lemma digest_is_sha256 v : is_sha256_digest (VStr (canonical_digest v)) = true.
Proof.
  unfold canonical_digest, is_sha256_digest. apply andb_true_iff. split; [reflexivity|].
  change (str_removeprefix "sha256:" ("sha256:" +:+ ?t)) with t. apply sha256_hex_shape.
Qed.

Lemma without_absent d fields : (∀ k, k ∈ fields → dget k d = None) → without_fields d fields = d.
Proof.
  intros H. unfold without_fields. induction d as [|[k v] d IH]; [done|]. cbn [List.filter fst].
  assert (mem_str k fields = false) as ->.
  { apply not_true_iff_false. intros Hm. apply existsb_exists in Hm as (k' & Hin & <-%String.eqb_eq).
    apply list_elem_of_In, H in Hin. cbn [dget] in Hin. by rewrite String.eqb_refl in Hin. }
  cbn [negb]. rewrite IH; [done|]. intros k' Hk'. specialize (H k' Hk'). cbn [dget] in H.
  by destruct (String.eqb k' k).
Qed.

Lemma without_app d e fields : without_fields (d ++ e) fields = without_fields d fields ++ without_fields e fields.
Proof. unfold without_fields. by rewrite List.filter_app. Qed.

Lemma issues_nil {A} (b : A → bool) (m : A → string) l :
  concat (map (λ x, issue_if (b x) (m x)) l) = [] ↔ ∀ x, x ∈ l → b x = false.
Proof.
  induction l as [|x l IH]; cbn [map concat]; [split; [intros _ x H; by apply elem_of_nil in H|done]|].
  split.
  - intros [Hx%issue_if_nil Hl]%app_nil y [->|Hy]%elem_of_cons; [done|by apply IH].
  - intros H. apply app_nil. split; [by rewrite H by apply list_elem_of_here|].
    apply IH. intros y Hy. apply H. by apply list_elem_of_further.
Qed.

Section seal.
Context (store : permit_store) (tip : string) (core : dict)
  (Hnone : ∀ k, k ∈ seal_keys → dget k core = None)
  (Htip : dgetN "expected_ledger_tip_before" core = VStr tip)
  (Hfinite : json_finite (VDict core) = true)
  (Hkey : nonempty_string (VStr (ps_signing_key_id store)) = true).

Lemma sealed_other k : mem_str k seal_keys = false → dgetN k (sealed store tip core) = dgetN k core.
Proof.
  unfold mem_str, seal_keys. cbn [existsb].
  rewrite !orb_false_iff. intros (H1 & H2 & H3 & H4 & _). unfold sealed, dgetN. rewrite !dget_app.
  destruct (dget k core); [done|]. cbn [dget]. by rewrite H1, H2, H3, H4.
Qed.

Lemma sealed_without fields :
  (∀ k, k ∈ fields → k ∈ seal_keys) →
  without_fields (sealed store tip core) fields
  = core ++ without_fields (drop (length core) (sealed store tip core)) fields.
Proof.
  intros Hf. unfold sealed. cbv zeta. rewrite <- !app_assoc. rewrite drop_app_length.
  rewrite without_app. rewrite without_absent; [done|]. intros k Hk. by apply Hnone, Hf.
Qed.
Lemma digest_strict v : json_finite v = true → canonical_digest_strict v = Ok (canonical_digest v).
Proof. unfold canonical_digest_strict, dumps_finite. by intros ->. Qed.

Lemma finite_app d e :
  json_finite (VDict d) = true → json_finite (VDict e) = true → json_finite (VDict (d ++ e)) = true.
Proof. rewrite !json_finite_dict, forallb_app. by intros -> ->. Qed.

Lemma seal_digests : validate_digest_chain (sealed store tip core) = [].
Proof.
  unfold validate_digest_chain, expected_permit_digest, expected_entry_digest, expected_ledger_tip, tip_before.
  rewrite (sealed_other "expected_ledger_tip_before"), Htip by reflexivity.
  assert (dgetN "authority_entry_digest" (sealed store tip core) = VStr (entry_digest tip core)) as ->.
  { unfold sealed, dgetN. rewrite !dget_app. by rewrite Hnone by auto_key. }
  rewrite !sealed_without by (intros k Hk; repeat (apply elem_of_cons in Hk as [->|Hk]; [auto_key|]);
    by apply elem_of_nil in Hk).
  unfold sealed. cbv zeta. rewrite <- !app_assoc, drop_app_length.
  cbn [app without_fields List.filter fst mem_str existsb String.eqb Ascii.eqb Bool.eqb orb negb].
  set (body := core ++ [_; _]). rewrite app_nil_r.
  rewrite (digest_strict (VDict body)) by (apply finite_app; [exact Hfinite|reflexivity]).
  rewrite (digest_strict (VDict [_; ("permit", _)])) by (cbn [json_finite] in *; by rewrite Hfinite).
  rewrite (digest_strict (VDict [_; ("entry_digest", _)])) by reflexivity.
  cbn [mbind res_bind]. unfold dgetN. rewrite !dget_app. rewrite !Hnone by auto_key.
  cbn [dget String.eqb Ascii.eqb Bool.eqb default from_option id]. unfold is_string, entry_digest, next_tip.
  by rewrite !String.eqb_refl.
Qed.
Lemma seal_proof : validate_authorization_proof (sealed store tip core) = [].
Proof.
  unfold validate_authorization_proof.
  set (signed := core ++ [("authority_entry_digest", VStr (entry_digest tip core));
                          ("ledger_tip_after", VStr (next_tip tip (entry_digest tip core)));
                          ("permit_digest", VStr (canonical_digest (VDict (core ++
                            [("authority_entry_digest", VStr (entry_digest tip core));
                             ("ledger_tip_after", VStr (next_tip tip (entry_digest tip core)))]))))]).
  assert (sealed store tip core = signed ++ [("authorization_proof",
    VDict (build_hmac_signature_proof signed (ps_signing_key_id store) (ps_signing_key store)
             REPO_PATCH_PERMIT_SIGNING_PROFILE))]) as E.
  { unfold sealed, signed. cbv zeta. by rewrite <- !app_assoc. }
  assert (without_fields (sealed store tip core) ["authorization_proof"] = signed) as ->.
  { rewrite E, without_app. cbn [without_fields List.filter fst mem_str existsb String.eqb Ascii.eqb Bool.eqb orb negb].
    rewrite app_nil_r. apply without_absent. intros k Hk. apply elem_of_cons in Hk as [->|Hk]; [|by apply elem_of_nil in Hk].
    unfold signed. rewrite dget_app. by rewrite Hnone by auto_key. }
  assert (dgetN "authorization_proof" (sealed store tip core)
    = VDict (build_hmac_signature_proof signed (ps_signing_key_id store) (ps_signing_key store)
               REPO_PATCH_PERMIT_SIGNING_PROFILE)) as ->.
  { rewrite E. unfold dgetN, signed. rewrite !dget_app. by rewrite Hnone by auto_key. }
  unfold build_hmac_signature_proof. cbv zeta. unfold dgetN.
  cbn [dget String.eqb Ascii.eqb Bool.eqb default from_option id].
  rewrite Hkey. unfold is_hex64. rewrite hmac_hex_shape, sha256_hex_shape.
  unfold signing_bytes, authorization_canonical, is_string. by rewrite !String.eqb_refl.
Qed.

(** Validators that do not read the seal see the core. *)
Lemma seal_claim_list field :
  mem_str field seal_keys = false →
  validate_claim_list (sealed store tip core) field = validate_claim_list core field.
Proof. intros H. unfold validate_claim_list. by rewrite (sealed_other field H). Qed.

Lemma sealed_semantics :
  core_issues core = [] →
  validate_repo_patch_execution_permit_semantics (sealed store tip core) = Ok ().
Proof.
  intros Hcore. unfold validate_repo_patch_execution_permit_semantics.
  enough (repo_patch_execution_permit_semantic_issues (sealed store tip core) = []) as -> by done.
  unfold core_issues, expect_exact in Hcore. no_issues Hcore. rename Hcore into Hrel.
  unfold repo_patch_execution_permit_semantic_issues, expect_exact.
  rewrite (sealed_other "schema_version"), (sealed_other "transaction_version"), (sealed_other "authority_scope"),
    (sealed_other "action_kind"), (sealed_other "authority_nonce") by reflexivity.
  rewrite Hi, Hi0, Hi1, Hi2, Hi4, seal_digests, seal_proof. cbn [app].
  assert (validate_time_window (sealed store tip core) = validate_time_window core) as ->.
  { unfold validate_time_window. by rewrite !sealed_other by reflexivity. }
  assert (validate_claim_lists (sealed store tip core) = validate_claim_lists core) as ->.
  { unfold validate_claim_lists. cbn [map CLAIM_LIST_FIELDS]. by rewrite !seal_claim_list by reflexivity. }
  assert (validate_claim_relations (sealed store tip core) = validate_claim_relations core) as ->.
  { unfold validate_claim_relations, claim_set. by rewrite !seal_claim_list by reflexivity. }
  rewrite Hi6, Hi7, Hrel, !app_nil_r. apply app_nil. split.
  - rewrite issues_nil in Hi3 |- *. intros k Hk. rewrite sealed_other; [by apply Hi3|].
    repeat (apply elem_of_cons in Hk as [->|Hk]; [reflexivity|]). by apply elem_of_nil in Hk.
  - rewrite issues_nil in Hi5 |- *. intros k Hk. apply negb_false_iff.
    destruct (mem_str k seal_keys) eqn:Em.
    + unfold mem_str, seal_keys in Em. cbn [existsb] in Em.
      assert (k = "authorization_proof" ∨ k ∈ take 3 seal_keys) as [->|Hs].
      { cbn [seal_keys take]. rewrite !elem_of_cons.
        repeat (apply orb_true_iff in Em as [Em|Em]; [apply String.eqb_eq in Em as ->; tauto|]). done. }
      * by repeat (apply elem_of_cons in Hk as [Hk|Hk]; [discriminate Hk|]); apply elem_of_nil in Hk.
      * cbn [seal_keys take] in Hs. unfold sealed, dgetN. rewrite !dget_app.
        repeat (apply elem_of_cons in Hs as [->|Hs]; [rewrite Hnone by auto_key; apply digest_is_sha256|]).
        by apply elem_of_nil in Hs.
    + rewrite sealed_other by done. apply negb_false_iff. apply Hi5. apply list_elem_of_In, filter_In.
      split; [by apply list_elem_of_In|]. by rewrite Em.
Qed.

End seal.

(** Sealing the core of a permit whose own fields are in order gives a
    permit without semantic issues, so [issue] never fails on what it added
    itself. *)
Theorem sealed_permit_valid store tip core :
  (∀ k, k ∈ seal_keys → dget k core = None) →
  dgetN "expected_ledger_tip_before" core = VStr tip →
  json_finite (VDict core) = true →
  nonempty_string (VStr (ps_signing_key_id store)) = true →
  core_issues core = [] →
  validate_repo_patch_execution_permit_semantics (seal_permit store tip core) = Ok ().
Proof. intros Hn Ht Hf Hk Hc. rewrite seal_permit_sealed by done. by apply sealed_semantics. Qed.

#[local] Opaque sha256_hex hmac_sha256_hex.

(** Case analysis on the computation the goal first matches on. *)
Ltac case_res x e E :=
  match goal with |- context [match ?m with Ok _ => _ | Err _ => _ end] => destruct m as [x|e] eqn:E end.

(** ** Issuing *)

(** Adding an entry under a key that has none, or [None]. *)
Lemma set_item_none v k x v' ks s :
  set_item v k x = Ok v' → py_get v k = Ok VNone →
  dpath ks v = Some (VStr s) → dpath ks v' = Some (VStr s).
Proof.
  intros (d & -> & ->)%set_item_dict [= Hnone] H. destruct ks as [|k' ks]; [done|].
  destruct (String.eqb_spec k' k) as [->|Hne].
  - apply dpath_cons in H as (w & Hw & H). rewrite (dgetN_Some _ _ _ Hw) in Hnone. subst w. by destruct ks.
  - rewrite dpath_dset_other; [done|]. by apply String.eqb_neq.
Qed.

(** The ledger with its four tables set up. *)
Record opened (ledger : dict) (permits nonces idempotency fenced : value) (ledger' : dict) : Prop := Opened {
  op_permits : dget "permits" ledger' = Some permits;
  op_nonces : dget "consumed_nonces" ledger' = Some nonces;
  op_idempotency : dget "idempotency" ledger' = Some idempotency;
  op_fenced : dget "fenced_roots" ledger' = Some fenced;
  op_other : ∀ k, k ∉ ["permits"; "consumed_nonces"; "idempotency"; "fenced_roots"] →
    dget k ledger' = dget k ledger;
  op_table : ∀ k, k ∈ ["permits"; "consumed_nonces"; "idempotency"; "fenced_roots"] →
    dget k ledger' = Some (dget_or k (VDict []) ledger);
  op_evolves : evolves (ledger_has ledger) (ledger_has ledger') }.

Lemma dsetdefault_dget k x d v d' k' :
  dsetdefault k x d = (v, d') →
  dget k' d' = if String.eqb k' k then Some (dget_or k x d) else dget k' d.
Proof.
  intros E. destruct (String.eqb k' k) eqn:Ek; [|by eapply dsetdefault_other].
  apply String.eqb_eq in Ek as ->. rewrite (dsetdefault_get _ _ _ _ _ E).
  unfold dsetdefault, dget_or in *. by destruct (dget k d); injection E as <- <-.
Qed.

Lemma open_tables ledger permits nonces idempotency fenced l1 l2 l3 l4 :
  dsetdefault "permits" (VDict []) ledger = (permits, l1) →
  dsetdefault "consumed_nonces" (VDict []) l1 = (nonces, l2) →
  dsetdefault "idempotency" (VDict []) l2 = (idempotency, l3) →
  dsetdefault "fenced_roots" (VDict []) l3 = (fenced, l4) →
  opened ledger permits nonces idempotency fenced l4.
Proof.
  intros E1 E2 E3 E4.
  assert (∀ k, dget k l4 = if String.eqb k "fenced_roots" then Some (dget_or "fenced_roots" (VDict []) l3)
    else if String.eqb k "idempotency" then Some (dget_or "idempotency" (VDict []) l2)
    else if String.eqb k "consumed_nonces" then Some (dget_or "consumed_nonces" (VDict []) l1)
    else if String.eqb k "permits" then Some (dget_or "permits" (VDict []) ledger) else dget k ledger) as Hget.
  { intros k. rewrite (dsetdefault_dget _ _ _ _ _ k E4).
    destruct (String.eqb k "fenced_roots"); [done|]. rewrite (dsetdefault_dget _ _ _ _ _ k E3).
    destruct (String.eqb k "idempotency"); [done|]. rewrite (dsetdefault_dget _ _ _ _ _ k E2).
    destruct (String.eqb k "consumed_nonces"); [done|]. by rewrite (dsetdefault_dget _ _ _ _ _ k E1). }
  assert (∀ k x d v d', dsetdefault k x d = (v, d') → v = dget_or k x d) as Hv.
  { intros k x d v d' E. unfold dsetdefault, dget_or in *. by destruct (dget k d); injection E as <- <-. }
  assert (dget_or "consumed_nonces" (VDict []) l1 = dget_or "consumed_nonces" (VDict []) ledger) as G2.
  { unfold dget_or. by rewrite (dsetdefault_other _ _ _ _ _ "consumed_nonces" E1). }
  assert (dget_or "idempotency" (VDict []) l2 = dget_or "idempotency" (VDict []) ledger) as G3.
  { unfold dget_or. rewrite (dsetdefault_other _ _ _ _ _ "idempotency" E2) by done.
    by rewrite (dsetdefault_other _ _ _ _ _ "idempotency" E1). }
  assert (dget_or "fenced_roots" (VDict []) l3 = dget_or "fenced_roots" (VDict []) ledger) as G4.
  { unfold dget_or. rewrite (dsetdefault_other _ _ _ _ _ "fenced_roots" E3) by done.
    rewrite (dsetdefault_other _ _ _ _ _ "fenced_roots" E2) by done.
    by rewrite (dsetdefault_other _ _ _ _ _ "fenced_roots" E1). }
  split; try (rewrite Hget; cbn [String.eqb Ascii.eqb Bool.eqb]; f_equal; symmetry; by eapply Hv).
  - intros k Hk. rewrite Hget.
    assert (∀ t, t ∈ ["permits"; "consumed_nonces"; "idempotency"; "fenced_roots"] → String.eqb k t = false) as Hne.
    { intros t Ht. apply String.eqb_neq. by intros ->. }
    rewrite !Hne by set_solver. done.
  - intros k Hk. rewrite Hget. rewrite !elem_of_cons, elem_of_nil in Hk.
    destruct Hk as [->|[->|[->|[->|[]]]]]; cbn [String.eqb Ascii.eqb Bool.eqb]; congruence.
  - eapply evolves_trans; [by eapply evolves_setdefault|]. eapply evolves_trans; [by eapply evolves_setdefault|].
    eapply evolves_trans; by eapply evolves_setdefault.
Qed.

(** The two ways a permit comes out of [issue]'s section. *)
Inductive issue_outcome (store : permit_store) (b : binding) (key permit_id nonce : string)
    (ledger : dict) (permit : dict) (ledger' : dict) : Prop :=
  | issue_replayed permits nonces idempotency fenced ledger1 id :
      opened ledger permits nonces idempotency fenced ledger1 →
      py_contains (path_str (b_repo_path b)) fenced = Ok false →
      py_get idempotency key = Ok id → is_none id = false →
      existing_permit_of permits id (b_parameters b) = Ok permit →
      ledger' = ledger1 → issue_outcome store b key permit_id nonce ledger permit ledger'
  | issue_fresh permits nonces idempotency fenced ledger1 core permits' idempotency' :
      opened ledger permits nonces idempotency fenced ledger1 →
      py_contains (path_str (b_repo_path b)) fenced = Ok false →
      py_get idempotency key = Ok VNone →
      py_contains permit_id permits = Ok false →
      py_contains nonce nonces = Ok false →
      permit_core store b permit_id nonce key
        (py_str (py_or (dgetN "tip" ledger) (VStr GENESIS_LEDGER_TIP))) = Ok core →
      permit = seal_permit store (py_str (py_or (dgetN "tip" ledger) (VStr GENESIS_LEDGER_TIP))) core →
      validate_named "repo-patch-execution-permit.schema.json" permit = Ok () →
      validate_repo_patch_execution_permit_semantics permit = Ok () →
      set_item permits permit_id (VDict (issued_record permit (b_issued_at b))) = Ok permits' →
      set_item idempotency key (VStr permit_id) = Ok idempotency' →
      ledger' = dset "tip" (dgetN "ledger_tip_after" permit)
                  (dset "idempotency" idempotency' (dset "permits" permits' ledger1)) →
      issue_outcome store b key permit_id nonce ledger permit ledger'.

Lemma issue_body_cases store b key permit_id nonce ledger permit ledger' :
  issue_body store b key permit_id nonce ledger = Ok (permit, ledger') →
  issue_outcome store b key permit_id nonce ledger permit ledger'.
Proof.
  unfold issue_body. intros H.
  destruct (dsetdefault "permits" _ _) as [permits l1] eqn:E1.
  destruct (dsetdefault "consumed_nonces" _ _) as [nonces l2] eqn:E2.
  destruct (dsetdefault "idempotency" _ _) as [idempotency l3] eqn:E3.
  destruct (dsetdefault "fenced_roots" _ _) as [fenced l4] eqn:E4.
  pose proof (open_tables _ _ _ _ _ _ _ _ _ E1 E2 E3 E4) as Hop. clear E1 E2 E3 E4.
  apply res_bind_Ok in H as (fb & Hf & H). apply raise_if_Ok in H as [-> H].
  assert (dgetN "tip" l4 = dgetN "tip" ledger) as Htip.
  { unfold dgetN. rewrite (op_other _ _ _ _ _ _ Hop); [done|]. compute_done. }
  rewrite Htip in H. apply res_bind_Ok in H as (id & Hid & H).
  destruct (is_none id) eqn:Hnone; cbn [negb] in H.
  - destruct id; try done. apply res_bind_Ok in H as (known & Hk & H). apply raise_if_Ok in H as [-> H].
    apply res_bind_Ok in H as (used & Hu & H). apply raise_if_Ok in H as [-> H].
    apply res_bind_Ok in H as (core & Hc & H). cbv zeta in H.
    apply res_bind_Ok in H as ([] & Hv & H). apply res_bind_Ok in H as ([] & Hs & H).
    apply res_bind_Ok in H as (permits' & Hp & H). apply res_bind_Ok in H as (idempotency' & Hi & H).
    injection H as <- <-. by eapply issue_fresh.
  - apply res_bind_Ok in H as (e & He & [= <- <-]). by eapply issue_replayed.
Qed.

Lemma issue_body_evolves store b key permit_id nonce d p d' :
  issue_body store b key permit_id nonce d = Ok (p, d') → evolves (ledger_has d) (ledger_has d').
Proof.
  intros [permits nonces idempotency fenced d1 i Hop _ _ _ _ ->
         |permits nonces idempotency fenced d1 core permits' idempotency' Hop _ Hk Hp _ _ _ _ _ Hsp Hsi ->]%issue_body_cases;
    [apply Hop|].
  eapply evolves_trans; [apply Hop|].
  eapply evolves_trans; [eapply (evolves_table "permits"); [apply Hop|intros ks s; by eapply set_item_new]|].
  eapply evolves_trans; [eapply (evolves_table "idempotency");
    [rewrite dget_dset_ne by done; apply Hop|intros ks s; by eapply set_item_none]|].
  by apply evolves_dset_other.
Qed.

Lemma issue_evolves vbg store f fs decision evaluation gate key ttl pid nonce now :
  evolves (file_has f) (file_has (issue vbg store f fs decision evaluation gate key ttl pid nonce now).2).
Proof.
  unfold issue. destruct (issue_binding _ _ _ _ _ _ _ _ _) as [b|e]; [|apply evolves_refl].
  apply section_evolves. intros d a d'. apply issue_body_evolves.
Qed.

(** ** Consuming and recording *)

Lemma consume_evolves store f fs permit decision key params failpoint now now' :
  evolves (file_has f) (file_has (consume store f fs permit decision key params failpoint now now').2).
Proof.
  unfold consume. case_res x e Ev; [destruct x as [[stamp pid] nonce]|apply evolves_refl].
  pose proof (section_evolves (ps_path store) f (consume_body permit pid nonce stamp)
    (λ d a d', consume_body_evolves _ _ _ _ d a d')) as H.
  by destruct (locked_json _ _ _ _) as [[]].
Qed.

Lemma record_transition_evolves store f pid expected new details terminal failpoint now :
  evolves (file_has f)
    (file_has (record_transition store f pid expected new details terminal failpoint now).2).
Proof.
  unfold record_transition. case_res stamp e E; [|apply evolves_refl].
  apply res_bind_Ok in E as ([] & [Hs _]%check_transition_Ok & _).
  pose proof (section_evolves (ps_path store) f (transition_body pid expected new stamp details terminal)
    (λ d a d', transition_body_evolves _ _ _ _ _ _ d a d' Hs)) as H.
  by destruct (locked_json _ _ _ _) as [[]].
Qed.

Lemma fence_recovery_moves (T : relation string) store f pid expected permit reason failpoint now :
  T expected "recovery_required" →
  evolves_by T (file_has f) (file_has (fence_recovery store f pid expected permit reason failpoint now).2).
Proof.
  intros Hm. unfold fence_recovery. destruct (astimezone_utc now) as [stamp|e]; [|apply evolves_refl].
  cbv zeta. pose proof (section_evolves (ps_path store) f
    (fence_body pid expected (permit_root permit) reason (fenced_result pid (permit_root permit) reason) stamp)
    (λ d a d', fence_body_moves T _ _ _ _ _ _ d a d' Hm)) as H.
  by destruct (locked_json _ _ _ _) as [[]].
Qed.

Lemma fence_recovery_evolves store f pid expected permit reason failpoint now :
  mem_str expected MUTATION_STATES = true →
  evolves (file_has f) (file_has (fence_recovery store f pid expected permit reason failpoint now).2).
Proof. intros Hm. by apply fence_recovery_moves, mutation_step. Qed.

Lemma terminal_result_evolves store f key :
  evolves (file_has f) (file_has (terminal_result_for_idempotency store f key).2).
Proof. apply reader_evolves. intros d a d'. apply terminal_result_body_reads. Qed.

Lemma replay_evolves store f decision evaluation gate key :
  evolves (file_has f) (file_has (terminal_result_for_replay store f decision evaluation gate key).2).
Proof.
  unfold terminal_result_for_replay. case_res bindings e E; [|apply evolves_refl]. clear E.
  apply reader_evolves. unfold replay_body. intros d a d' H.
  apply res_bind_Ok in H as ([record|] & _ & H); [|congruence].
  destruct (dgetN "permit" record); try done. destruct (dgetN "terminal_result" record); try done.
  cbv zeta in H. apply raise_if_Ok in H as [_ H]. congruence.
Qed.

(** ** Restoring *)

Lemma transaction_body_reads pid expected d v d' : transaction_body pid expected d = Ok (v, d') → d' = d.
Proof.
  unfold transaction_body. intros H. apply res_bind_Ok in H as (found & _ & H).
  destruct found; try done. apply raise_if_Ok in H as [_ H]. congruence.
Qed.

Lemma abort_restore_evolves {T : relation string} store w permit expected disk :
  evolves_by T (file_has (w_ledger w)) (file_has (w_ledger (abort_restore store w permit expected disk).2)).
Proof.
  unfold abort_restore. destruct (ditem "permit_id" permit) as [pid|e]; [|apply evolves_refl].
  pose proof (reader_evolves (T := T) (ps_path store) (w_ledger w) (transaction_body pid expected)
    (λ d a d', transaction_body_reads _ _ d a d')) as H.
  destruct (locked_json _ _ _ _) as [[v|e] f1]; [|done].
  destruct v; try done. by destruct (restore_target _ _ _ _ _ _).
Qed.

(** An abort moves along the table, or from the state it names to recovery. *)
Lemma abort_moves (T : relation string) store w permit expected reason tests failpoint disk now now' :
  (∀ s t, step s t → T s t) → T expected "recovery_required" →
  evolves_by T (file_has (w_ledger w))
    (file_has (w_ledger (abort_with_restoration store w permit expected reason tests failpoint disk now now').2)).
Proof.
  intros Hsub Hm. unfold abort_with_restoration.
  pose proof (abort_restore_evolves (T := T) store w permit expected disk) as H.
  destruct (abort_restore _ _ _ _ _) as [[backup|e] w1]; cbn [snd] in H.
  - case_res x e Ex; [destruct x as [pid stamp]|done]. cbv zeta.
    destruct (record_transition _ _ _ _ _ _ _ _ _) as [r f2] eqn:E. cbn [snd w_ledger set_ledger].
    eapply evolves_trans; [exact H|]. change f2 with (r, f2).2. rewrite <- E.
    eapply evolves_mono; [exact Hsub|apply record_transition_evolves].
  - destruct (caught e); [|done]. destruct (item_str _ _) as [pid|e']; [|done].
    destruct (fence_recovery _ _ _ _ _ _ _ _) as [r f2] eqn:E. cbn [snd w_ledger set_ledger].
    eapply evolves_trans; [exact H|]. change f2 with (r, f2).2. rewrite <- E. by apply fence_recovery_moves.
Qed.

Lemma abort_evolves store w permit expected reason tests failpoint disk now now' :
  mem_str expected MUTATION_STATES = true →
  evolves (file_has (w_ledger w))
    (file_has (w_ledger (abort_with_restoration store w permit expected reason tests failpoint disk now now').2)).
Proof. intros Hm. apply abort_moves; [done|by apply mutation_step]. Qed.

Lemma candidates_body_reads d a d' : candidates_body d = Ok (a, d') → d' = d.
Proof.
  unfold candidates_body. destruct (dget_or _ _ _); try done. intros H.
  apply res_bind_Ok in H as (found & _ & H). congruence.
Qed.

Section recover.
Context (store : permit_store) (failpoint : string → res unit)
  (disk_ok : nat → bool) (clock : nat → datetime).

Lemma fence_one_evolves w i pid state permit reason :
  mem_str state MUTATION_STATES = true →
  evolves (file_has (w_ledger w))
    (file_has (w_ledger (fence_one store failpoint clock w i pid state permit reason).2)).
Proof.
  intros Hm. unfold fence_one.
  pose proof (fence_recovery_evolves store (w_ledger w) pid state permit reason failpoint (clock (2 * i)%nat) Hm) as H.
  by destruct (fence_recovery _ _ _ _ _ _ _ _).
Qed.

Lemma abort_one_evolves w i pid state permit backup :
  evolves (file_has (w_ledger w))
    (file_has (w_ledger (abort_one store failpoint clock w i pid state permit backup).2)).
Proof.
  unfold abort_one. case_res x e Ex; [destruct x as [terminal stamp]|apply evolves_refl].
  match goal with |- context [record_transition ?st ?f ?a ?b ?c ?d ?e ?g ?h] =>
    pose proof (record_transition_evolves st f a b c d e g h) as H end.
  by destruct (record_transition _ _ _ _ _ _ _ _ _).
Qed.

(** The state of a candidate. *)
Lemma mutation_state record :
  str_in (dgetN "state" record) MUTATION_STATES = true →
  ∃ s, dgetN "state" record = VStr s ∧ mem_str s MUTATION_STATES = true.
Proof.
  intros (s & Hst & Hs)%str_in_Ok. exists s. split; [done|].
  apply existsb_exists. exists s. split; [by apply list_elem_of_In|apply String.eqb_refl].
Qed.

Lemma recover_one_evolves w i pid record :
  str_in (dgetN "state" record) MUTATION_STATES = true →
  evolves (file_has (w_ledger w))
    (file_has (w_ledger (recover_one store failpoint disk_ok clock w i pid record).2)).
Proof.
  intros (s & Hst & Hm)%mutation_state. unfold recover_one. rewrite Hst. cbv zeta. cbn [py_str].
  destruct (dgetN "permit" record) as [| | | | | |permit]; try by apply fence_one_evolves.
  destruct (dgetN "transaction" record) as [| | | | | |details]; try by apply fence_one_evolves.
  destruct (restore_target _ _ _ _ _ _) as [[backup|e] fs'].
  - apply (abort_one_evolves (set_fs w fs')).
  - destruct (caught e); [|apply evolves_refl]. by apply (fence_one_evolves (set_fs w fs')).
Qed.

Lemma recover_loop_evolves candidates : ∀ w i,
  Forall (λ c, str_in (dgetN "state" c.2) MUTATION_STATES = true) candidates →
  evolves (file_has (w_ledger w))
    (file_has (w_ledger (recover_loop store failpoint disk_ok clock w i candidates).2)).
Proof.
  induction candidates as [|[pid record] rest IH]; intros w i Hc; cbn [recover_loop]; [apply evolves_refl|].
  apply Forall_cons in Hc as [Hc Hrest]. cbn [snd] in Hc.
  pose proof (recover_one_evolves w i pid record Hc) as H.
  destruct (recover_one _ _ _ _ _ _ _ _) as [[entry|e] w1]; cbn [snd] in H; [|done].
  specialize (IH w1 (S i) Hrest). destruct (recover_loop _ _ _ _ _ _ _) as [r w2]. by eapply evolves_trans.
Qed.

(** The candidates found are records of the ledger in a mutation state, and all
    of them. *)
Lemma candidates_body_spec d candidates d' :
  candidates_body d = Ok (candidates, d') →
  Forall (λ c, str_in (dgetN "state" c.2) MUTATION_STATES = true) candidates
  ∧ ∀ id s, ledger_has d (state_path id) s → mem_str s MUTATION_STATES = true →
      ∃ record, (id, record) ∈ candidates.
Proof.
  unfold candidates_body. destruct (dget_or "permits" (VDict []) d) as [| | | | | |records] eqn:Hrec; try done.
  intros H. apply res_bind_Ok in H as (found & Hf & [= <- _]).
  assert (∀ id s, ledger_has d (state_path id) s → ∃ record,
    (id, VDict record) ∈ records ∧ dgetN "state" record = VStr s) as Hin.
  { intros id s Hs. apply dpath_cons in Hs as (v & Hv & Hs). unfold dget_or in Hrec. rewrite Hv in Hrec.
    cbn in Hrec. subst v. apply dpath_cons in Hs as (v & Hv' & Hs).
    apply dpath_member in Hs as (record & -> & Hs). exists record. split; [by apply dget_In|].
    apply dpath_cons in Hs as (v & Hv'' & [= ->]). by apply dgetN_Some. }
  assert (Forall (λ c, str_in (dgetN "state" c.2) MUTATION_STATES = true) (concat found)
          ∧ ∀ id record, (id, VDict record) ∈ records → str_in (dgetN "state" record) MUTATION_STATES = true →
              (id, record) ∈ concat found) as [H1 H2].
  { clear Hrec Hin. revert found Hf. induction records as [|[k v] records IH]; intros found Hf; cbn [res_map] in Hf.
    - injection Hf as <-. split; [constructor|]. intros ? ? H. by apply elem_of_nil in H.
    - apply res_bind_Ok in Hf as (l & Hl & Hf). apply res_bind_Ok in Hf as (ls & Hls & [= <-]).
      destruct (IH _ Hls) as [IH1 IH2]. cbn [concat snd fst] in *.
      destruct v as [| | | | | |record]; try (injection Hl as <-; split; [done|];
        intros id r Hr; apply elem_of_cons in Hr as [[=]|Hr]; by apply IH2).
      apply res_bind_Ok in Hl as (active & Ha & [= <-]).
      assert (str_in (dgetN "state" record) MUTATION_STATES = active) as Hact
        by (destruct (dgetN "state" record); cbn [in_str_set] in Ha; try done; by injection Ha).
      subst active. split.
      + destruct (str_in _ _) eqn:Hm; [|done]. constructor; [exact Hm|exact IH1].
      + intros id r Hr Hm. apply elem_of_app. apply elem_of_cons in Hr as [[= -> ->]|Hr]; [left|right; by apply IH2].
        rewrite Hm. apply list_elem_of_here. }
  split; [done|]. intros id s Hs Hm. apply Hin in Hs as (record & Hr & Hst). exists record. apply H2; [done|].
  rewrite Hst. cbn [str_in]. unfold mem_str in Hm. exact Hm.
Qed.

Lemma recover_evolves w :
  evolves (file_has (w_ledger w))
    (file_has (w_ledger (recover_incomplete_actions store failpoint disk_ok clock w).2)).
Proof.
  unfold recover_incomplete_actions.
  pose proof (reader_evolves (T := step) (ps_path store) (w_ledger w) candidates_body candidates_body_reads) as H.
  destruct (locked_json _ _ _ _) as [[candidates|e] f1] eqn:E; [|done].
  eapply evolves_trans; [exact H|]. apply (recover_loop_evolves candidates (set_ledger w f1)).
  unfold locked_json in E. destruct (locked_enter _ _ _) as [[[d c]|e] f2]; [|done].
  destruct (candidates_body d) as [[cs d']|e] eqn:Ec; [|done]. injection E as -> _.
  by apply candidates_body_spec in Ec as [? _].
Qed.
End recover.
