(* ===== verification/PermitTheorems.v ===== *)
(** * The guarantees of repo-patch permits

    Any sequence of calls of the permit store, with any arguments and with the
    files changing in between, keeps to the state machine of a permit: it is
    consumed once, its state follows the transition table, a fenced root stays
    fenced. *)

From S2P Require Import Prelude PyFloat PyValue Json Sha256 Paths JsonStore DateTime SchemaValidation Schemas Signing PermitValidation PermitLedger PermitLedgerFacts Permits PermitRecovery PermitFacts.
From stdpp Require Import relations.

#[local] Opaque sha256_hex hmac_sha256_hex.

(** ** Sequences of calls *)

Inductive permit_call :=
  | CIssue (validate_bridge_gate : dict → dict → dict → res unit) (decision evaluation gate : dict)
      (idempotency_key : string) (ttl_seconds : Z) (permit_id nonce : string) (now : datetime)
  | CConsume (permit decision : dict) (idempotency_key : string) (actuation_parameters : dict)
      (failpoint : string → res unit) (now now' : datetime)
  | CTransition (permit_id expected_state new_state : string) (details terminal_result : option dict)
      (failpoint : string → res unit) (now : datetime)
  | CResult (idempotency_key : string)
  | CReplay (decision evaluation gate : dict) (idempotency_key : string)
  | CAbort (permit : dict) (expected_state reason : string) (test_results : list value)
      (failpoint : string → res unit) (disk_ok : bool) (now now' : datetime)
  | CRecover (failpoint : string → res unit) (disk_ok : nat → bool) (clock : nat → datetime)
  | CFiles (fs : filesystem).

(** The world after a call; [CFiles] is another process changing the files. *)
Definition call_world (store : permit_store) (w : world) (c : permit_call) : world :=
  match c with
  | CIssue vbg decision evaluation gate key ttl permit_id nonce now =>
      set_ledger w (issue vbg store (w_ledger w) (w_fs w) decision evaluation gate key ttl permit_id nonce now).2
  | CConsume permit decision key parameters failpoint now now' =>
      set_ledger w (consume store (w_ledger w) (w_fs w) permit decision key parameters failpoint now now').2
  | CTransition permit_id expected new details terminal failpoint now =>
      set_ledger w (record_transition store (w_ledger w) permit_id expected new details terminal failpoint now).2
  | CResult key => set_ledger w (terminal_result_for_idempotency store (w_ledger w) key).2
  | CReplay decision evaluation gate key =>
      set_ledger w (terminal_result_for_replay store (w_ledger w) decision evaluation gate key).2
  | CAbort permit expected reason tests failpoint disk_ok now now' =>
      (abort_with_restoration store w permit expected reason tests failpoint disk_ok now now').2
  | CRecover failpoint disk_ok clock => (recover_incomplete_actions store failpoint disk_ok clock w).2
  | CFiles fs => set_fs w fs
  end.

Fixpoint run_calls (store : permit_store) (w : world) (cs : list permit_call) : world :=
  match cs with
  | [] => w
  | c :: cs' => run_calls store (call_world store w c) cs'
  end.

(** Actions are aborted from the states in which they may have touched the
    target, as every caller does. *)
Definition proper (c : permit_call) : Prop :=
  match c with
  | CAbort _ expected _ _ _ _ _ _ => mem_str expected MUTATION_STATES = true
  | _ => True
  end.

(** The permit a call consumes, if it does. *)
Definition granted (store : permit_store) (w : world) (c : permit_call) : option dict :=
  match c with
  | CConsume permit decision key parameters failpoint now now' =>
      match (consume store (w_ledger w) (w_fs w) permit decision key parameters failpoint now now').1 with
      | Ok _ => Some permit
      | Err _ => None
      end
  | _ => None
  end.

(** The number of grants to permits with the string [s] in field [k]. *)
Fixpoint grants (store : permit_store) (k s : string) (w : world) (cs : list permit_call) : nat :=
  match cs with
  | [] => 0
  | c :: cs' =>
      (match granted store w c with Some permit => if is_string s (dgetN k permit) then 1 else 0 | None => 0 end
       + grants store k s (call_world store w c) cs')%nat
  end.

(** ** Lemmas *)

Lemma call_evolves store w c :
  proper c → evolves (file_has (w_ledger w)) (file_has (w_ledger (call_world store w c))).
Proof.
  destruct c; intros Hp; cbn [call_world set_ledger set_fs w_ledger].
  - apply issue_evolves.
  - apply consume_evolves.
  - apply record_transition_evolves.
  - apply terminal_result_evolves.
  - apply replay_evolves.
  - by apply abort_evolves.
  - apply recover_evolves.
  - apply evolves_refl.
Qed.

Lemma calls_evolve store cs : ∀ w,
  Forall proper cs → evolves (file_has (w_ledger w)) (file_has (w_ledger (run_calls store w cs))).
Proof.
  induction cs as [|c cs IH]; intros w Hp; [apply evolves_refl|].
  apply Forall_cons in Hp as [Hc Hp]. eapply evolves_trans; [by apply call_evolves|by apply IH].
Qed.

(** What a successful [consume] finds and leaves. *)
Lemma consume_section store f fs permit decision key parameters failpoint now now' r f' :
  consume store f fs permit decision key parameters failpoint now now' = (Ok r, f') →
  ∃ id nonce stamp d d',
    dgetN "permit_id" permit = VStr id ∧ dgetN "authority_nonce" permit = VStr nonce
    ∧ validate_permit store fs permit decision key parameters now = Ok ()
    ∧ file_payload f = Some d ∧ consume_body permit id nonce stamp d = Ok ((), d')
    ∧ f' = locked_exit d false d' f.
Proof.
  unfold consume. intros H. revert H. case_res x e E; [|done]. intros H.
  apply res_bind_Ok in E as ([] & Hv & E). apply res_bind_Ok in E as (stamp & _ & E).
  apply res_bind_Ok in E as (id & Hid & E). apply res_bind_Ok in E as (nonce & Hn & [= <-]).
  destruct (locked_json _ _ _ _) as [[u|e] f1] eqn:Ej; [|done].
  injection H as _ <-. apply locked_json_strict in Ej as (d & d' & Hd & Hb & ->).
  assert (∀ k s, item_str k permit = Ok s → dgetN k permit = VStr s) as Hitem.
  { intros k s Hs. unfold item_str, ditem in Hs. unfold dgetN. destruct (dget k permit) as [v|]; [|done].
    cbn in Hs |- *. destruct v; congruence || done. }
  destruct u. exists id, nonce, stamp, d, d'. auto 10.
Qed.

Lemma consume_state store f fs permit decision key parameters failpoint now now' r f' id :
  consume store f fs permit decision key parameters failpoint now now' = (Ok r, f') →
  dgetN "permit_id" permit = VStr id →
  file_has f (state_path id) "prepared" ∧ file_has f' (state_path id) "claimed".
Proof.
  intros (id' & nonce & stamp & d & d' & Hid & _ & _ & Hd & Hb & ->)%consume_section Hid'.
  rewrite Hid in Hid'. injection Hid' as ->.
  apply consume_body_spec in Hb as (records & record & record' & nonces & d1 & Hp & Hr & _ & E & _ & Ht & ->).
  apply transition_record_spec in Ht as (Hs & Hs' & _). split.
  - exists d. split; [done|]. unfold state_path. cbn [dpath].
    rewrite (dgetN_dict _ _ _ Hp), (dgetN_dict _ _ _ Hr).
    unfold dgetN in Hs. destruct (dget "state" record); cbn in Hs; congruence.
  - apply locked_exit_has; [done|]. unfold state_path.
    rewrite dpath_dset_other by done. rewrite dpath_dset_same. cbn [dpath]. rewrite dget_dset_eq. by rewrite Hs'.
Qed.

Lemma consume_nonce store f fs permit decision key parameters failpoint now now' r f' nonce :
  consume store f fs permit decision key parameters failpoint now now' = (Ok r, f') →
  dgetN "authority_nonce" permit = VStr nonce →
  (∀ s, ¬ file_has f ["consumed_nonces"; nonce] s) ∧ ∃ s, file_has f' ["consumed_nonces"; nonce] s.
Proof.
  intros (id & nonce' & stamp & d & d' & _ & Hn & _ & Hd & Hb & ->)%consume_section Hn'.
  rewrite Hn in Hn'. injection Hn' as ->.
  apply consume_body_spec in Hb as (records & record & record' & nonces & d1 & Hp & Hr & _ & E & Hnew & Ht & ->).
  split.
  - intros s Hs. apply (file_has_payload _ _ _ _ Hd) in Hs. eapply dsetdefault_keeps in Hs; [|exact E].
    apply dpath_cons in Hs as (v & Hv & Hs). rewrite (dsetdefault_get _ _ _ _ _ E) in Hv. injection Hv as <-.
    apply dpath_cons in Hs as (v & Hv & _). unfold dhas in Hnew. by rewrite Hv in Hnew.
  - exists id. apply locked_exit_has; [done|]. rewrite dpath_dset_same. cbn [dpath]. by rewrite dget_dset_eq.
Qed.

(** A condition that a grant establishes, that then persists, and that refuses
    further grants, allows one grant. *)
Lemma granted_once store k s (used : file → Prop) :
  (∀ w c, used (w_ledger w) → used (w_ledger (call_world store w c))) →
  (∀ w c permit, granted store w c = Some permit → dgetN k permit = VStr s →
     ¬ used (w_ledger w) ∧ used (w_ledger (call_world store w c))) →
  ∀ cs w, (grants store k s w cs <= 1)%nat ∧ (used (w_ledger w) → grants store k s w cs = 0%nat).
Proof.
  intros Hkeep Hgrant. induction cs as [|c cs IH]; intros w; cbn [grants]; [by split; [lia|]|].
  destruct (IH (call_world store w c)) as [Hle Hzero].
  destruct (granted store w c) as [permit|] eqn:Eg.
  - destruct (is_string s (dgetN k permit)) eqn:Es.
    + apply is_string_true in Es. destruct (Hgrant _ _ _ Eg Es) as [Hno Hyes].
      rewrite (Hzero Hyes). split; [lia|]. intros Hu. by destruct Hno.
    + split; [lia|]. intros Hu. rewrite Hzero; [done|by apply Hkeep].
  - split; [lia|]. intros Hu. rewrite Hzero; [done|by apply Hkeep].
Qed.

(** The call behind a grant. *)
Lemma granted_consume store w c permit :
  granted store w c = Some permit →
  ∃ decision key parameters failpoint now now' r,
    c = CConsume permit decision key parameters failpoint now now'
    ∧ consume store (w_ledger w) (w_fs w) permit decision key parameters failpoint now now'
      = (Ok r, w_ledger (call_world store w c)).
Proof.
  destruct c; try done. cbn [granted call_world set_ledger w_ledger].
  destruct (consume _ _ _ _ _ _ _ _ _ _) as [[r|e] f'] eqn:E; [|done]. intros [= ->]. eauto 10.
Qed.

(** ** The state machine *)

(** An abort that says the permit is in the state [s]. *)
Definition aborts_from (s : string) (c : permit_call) : Prop :=
  match c with CAbort _ expected _ _ _ _ _ _ => expected = s | _ => False end.

(** The moves of a permit's state under the calls: those of the table, and from
    a state that some abort names to recovery. *)
Definition moves (cs : list permit_call) (s t : string) : Prop :=
  step s t ∨ t = "recovery_required" ∧ Exists (aborts_from s) cs.

Lemma call_moves store w c :
  evolves_by (moves [c]) (file_has (w_ledger w)) (file_has (w_ledger (call_world store w c))).
Proof.
  assert (∀ s t, step s t → moves [c] s t) as Hstep by (intros s t H; by left).
  destruct c eqn:E; try (eapply evolves_mono; [exact Hstep|by apply call_evolves]).
  cbn [call_world]. apply abort_moves; [done|]. right. split; [done|]. by constructor.
Qed.

Lemma moves_weaken cs cs' s t : (∀ c, c ∈ cs → c ∈ cs') → moves cs s t → moves cs' s t.
Proof.
  intros Hsub [H|[-> H]]; [by left|right]. split; [done|]. apply Exists_exists in H as (c & Hc & Ha). apply Exists_exists. eauto.
Qed.

Lemma calls_move store cs : ∀ w,
  evolves_by (moves cs) (file_has (w_ledger w)) (file_has (w_ledger (run_calls store w cs))).
Proof.
  induction cs as [|c cs IH]; intros w; [apply evolves_refl|]. cbn [run_calls]. eapply evolves_trans.
  - eapply evolves_mono; [|apply call_moves]. intros s t. apply moves_weaken. intros c' ->%list_elem_of_singleton. by left.
  - eapply evolves_mono; [|apply IH]. intros s t. apply moves_weaken. intros c'. rewrite elem_of_cons. tauto.
Qed.

Lemma terminal_no_step s t : s ∈ TERMINAL_STATES → ¬ step s t.
Proof.
  unfold TERMINAL_STATES. intros Hs. by repeat (apply elem_of_cons in Hs as [->|Hs]; [vm_compute; congruence|]); apply elem_of_nil in Hs.
Qed.

Lemma terminal_moves cs s t :
  s ∈ TERMINAL_STATES → rtc (moves cs) s t → t = s ∨ t = "recovery_required" ∧ Exists (aborts_from s) cs.
Proof.
  intros Hs. cut (∀ u, u = s ∨ u = "recovery_required" ∧ Exists (aborts_from s) cs → rtc (moves cs) u t →
    t = s ∨ t = "recovery_required" ∧ Exists (aborts_from s) cs); [by eauto|].
  intros u Hu R. induction R as [u|u v t M _ IH]; [done|]. apply IH. destruct Hu as [->|[-> Ha]].
  - destruct M as [M|M]; [by destruct (terminal_no_step _ _ Hs M)|by right].
  - destruct M as [M|[-> _]]; [|by right]. exfalso. apply (terminal_no_step "recovery_required" v); [|done].
    unfold TERMINAL_STATES. rewrite !elem_of_cons. tauto.
Qed.

(** C27: whatever is called, with the files changing in between, the state of a
    permit follows the transition table, but for one move: an abort whose
    restoration fails takes the permit from whatever state the call names to
    recovery.  So a terminal state only changes when an abort names it, and only
    to recovery; and if every abort names a state in which the target may have
    been touched, as those in the sources do, the table is all there is and a
    terminal state never changes. *)
Theorem permit_state_follows_transitions store w cs id s :
  file_has (w_ledger w) (state_path id) s →
  ∃ s', file_has (w_ledger (run_calls store w cs)) (state_path id) s'
    ∧ rtc (moves cs) s s'
    ∧ (s ∈ TERMINAL_STATES → s' = s ∨ s' = "recovery_required" ∧ Exists (aborts_from s) cs)
    ∧ (Forall proper cs → rtc step s s' ∧ (s ∈ TERMINAL_STATES → s' = s)).
Proof.
  intros Hs. destruct (ev_state _ _ (calls_move store cs w) id s Hs) as (s' & Hs' & R).
  exists s'. split; [done|]. split; [done|]. split.
  - intros Ht. by apply terminal_moves.
  - intros Hp. destruct (ev_state _ _ (calls_evolve store cs w Hp) id s Hs) as (t & Ht & R').
    rewrite (file_has_unique _ _ _ _ Hs' Ht). split; [done|]. intros Hterm. destruct R' as [|u v t M _]; [done|].
    by destruct (terminal_no_step _ _ Hterm M).
Qed.

(** A permit that has been claimed stays so, late aborts included. *)
Lemma moves_rank cs s t : rtc (moves cs) s t → (2 <= rank s)%nat → (2 <= rank t)%nat.
Proof.
  induction 1 as [|s u t M _ IH]; [done|]. intros Hs. apply IH. destruct M as [M|[-> _]]; [|vm_compute; lia].
  apply step_rank in M. lia.
Qed.

(** C14: over any sequence of calls, with the files changing in between and
    whatever states the aborts among them name, a permit is consumed at most
    once, and so is a nonce. *)
Theorem permit_consumed_once store w cs id nonce :
  (grants store "permit_id" id w cs <= 1)%nat ∧ (grants store "authority_nonce" nonce w cs <= 1)%nat.
Proof.
  split.
  - apply (granted_once store "permit_id" id (λ f, ∃ s, file_has f (state_path id) s ∧ (2 <= rank s)%nat)).
    + intros w' c (s & Hs & Hr). destruct (ev_state _ _ (call_moves store w' c) _ _ Hs) as (s' & Hs' & R).
      exists s'. split; [done|]. by apply moves_rank in R.
    + intros w' c permit (dec & key & ps & fp & now & now' & r & _ & Hcons)%granted_consume Hid.
      destruct (consume_state _ _ _ _ _ _ _ _ _ _ _ _ _ Hcons Hid) as [Hbefore Hafter]. split.
      * intros (s & Hs & Hr). rewrite (file_has_unique _ _ _ _ Hs Hbefore) in Hr. vm_compute in Hr. lia.
      * exists "claimed". split; [done|]. vm_compute. lia.
  - apply (granted_once store "authority_nonce" nonce (λ f, ∃ s, file_has f ["consumed_nonces"; nonce] s)).
    + intros w' c (s & Hs). exists s. eapply ev_kept; [by apply call_moves|constructor|done].
    + intros w' c permit (dec & key & ps & fp & now & now' & r & _ & Hcons)%granted_consume Hn.
      destruct (consume_nonce _ _ _ _ _ _ _ _ _ _ _ _ _ Hcons Hn) as [Hno Hyes].
      split; [|done]. intros (s & Hs). by apply (Hno s).
Qed.

(** ** Issuing *)

(** The fields of the core that do not depend on the gate. *)
Lemma permit_core_fields store b permit_id nonce key tip core :
  permit_core store b permit_id nonce key tip = Ok core →
  (∀ k, k ∈ seal_keys → dget k core = None)
  ∧ dgetN "issuer" core = VStr (ps_issuer store)
  ∧ dgetN "executor_audience" core = VStr (ps_executor_audience store)
  ∧ dgetN "permit_id" core = VStr permit_id
  ∧ dgetN "not_before" core = VStr (b_issued_at b)
  ∧ dgetN "expires_at" core = VStr (b_expires_at b)
  ∧ dgetN "canonical_actuation_payload_digest" core = VStr (canonical_digest (VDict (b_parameters b))).
Proof.
  unfold permit_core. intros H. cbv zeta in H. res_inv H.
  split; [|repeat split].
  intros k Hk. unfold seal_keys in Hk.
  repeat (apply elem_of_cons in Hk as [->|Hk]; [reflexivity|]). by apply elem_of_nil in Hk.
Qed.

(** The ledger has no permit for the key. *)
Definition key_unused (f : file) (key : string) : Prop :=
  ∃ d, file_payload f = Some d ∧ dgetN key (dict_or_empty (dgetN "idempotency" d)) = VNone.

(** What a fresh [issue] returns. *)
Lemma issue_unused vbg store f fs decision evaluation gate key ttl pid nonce now permit f' :
  issue vbg store f fs decision evaluation gate key ttl pid nonce now = (Ok permit, f') →
  key_unused f key →
  ∃ b d d', issue_binding vbg store fs decision evaluation gate key ttl now = Ok b
    ∧ file_payload f = Some d ∧ f' = locked_exit d false d' f
    ∧ issue_body store b key pid nonce d = Ok (permit, d')
    ∧ ∃ core, permit = sealed store (py_str (py_or (dgetN "tip" d) (VStr GENESIS_LEDGER_TIP))) core
        ∧ permit_core store b pid nonce key (py_str (py_or (dgetN "tip" d) (VStr GENESIS_LEDGER_TIP))) = Ok core
        ∧ validate_named "repo-patch-execution-permit.schema.json" permit = Ok ()
        ∧ validate_repo_patch_execution_permit_semantics permit = Ok ().
Proof.
  unfold issue. intros H (d & Hd & Hk). destruct (issue_binding _ _ _ _ _ _ _ _ _) as [b|e]; [|done].
  apply locked_json_strict in H as (d0 & d' & Hd' & Hb & Hf'). rewrite Hd in Hd'. injection Hd' as <-.
  exists b, d, d'. do 4 (split; [done|]).
  destruct (issue_body_cases _ _ _ _ _ _ _ _ Hb)
    as [permits nonces idem fenced d1 i Hop _ Hi Hnone _ _
       |permits nonces idem fenced d1 core permits' idem' Hop _ _ _ _ Hc Hp Hv Hs _ _ _].
  - exfalso. pose proof (op_table _ _ _ _ _ _ Hop "idempotency") as Ht.
    rewrite (op_idempotency _ _ _ _ _ _ Hop) in Ht. specialize (Ht ltac:(set_solver)). injection Ht as ->.
    unfold dget_or, dgetN in *. destruct (dget "idempotency" d) as [v|]; cbn in Hi, Hk.
    + destruct v; try done. cbn in Hk. injection Hi as <-. unfold dgetN in Hnone. by rewrite Hk in Hnone.
    + by injection Hi as <-.
  - exists core. rewrite seal_permit_sealed in Hp by by eapply permit_core_fields. auto.
Qed.

(** A sealed permit passes the checks on itself. *)
Lemma sealed_authority store tip core :
  require_authority_configuration store = Ok () →
  (∀ k, k ∈ seal_keys → dget k core = None) →
  dgetN "issuer" core = VStr (ps_issuer store) →
  dgetN "executor_audience" core = VStr (ps_executor_audience store) →
  validate_named "repo-patch-execution-permit.schema.json" (sealed store tip core) = Ok () →
  validate_repo_patch_execution_permit_semantics (sealed store tip core) = Ok () →
  check_authority store (sealed store tip core) = Ok ().
Proof.
  intros Hcfg Hnone Hiss Haud Hv Hs. unfold check_authority. rewrite Hcfg, Hv. cbn [mbind res_bind].
  rewrite Hs. cbn [mbind res_bind].
  rewrite (sealed_dgetN _ _ _ _ _ Hiss), (sealed_dgetN _ _ _ _ _ Haud) by done. rewrite !is_string_refl.
  destruct (sealed_verifies store tip core Hnone) as (Hd & proof & Hpr & Hkey & Hprof & Hmac).
  rewrite Hpr, Hkey, Hprof, !is_string_refl, Hmac. cbn [negb mbind res_bind]. by rewrite Hd, is_string_refl.
Qed.

(** A permit that [issue] returns for an idempotency key the ledger has no
    permit for passes every check of [consume] that does not depend on the call:
    schema, semantics, issuer, audience, key, HMAC and digest. *)
Theorem issued_permit_verifies vbg store f fs decision evaluation gate key ttl pid nonce now permit f' :
  issue vbg store f fs decision evaluation gate key ttl pid nonce now = (Ok permit, f') →
  key_unused f key →
  check_authority store permit = Ok ().
Proof.
  intros H Hk. destruct (issue_unused _ _ _ _ _ _ _ _ _ _ _ _ _ _ H Hk)
    as (b & d & d' & Hb & _ & _ & _ & core & -> & Hc & Hv & Hs).
  apply permit_core_fields in Hc as (Hnone & Hiss & Haud & _).
  unfold issue_binding in Hb. apply res_bind_Ok in Hb as ([] & Hcfg & _). by apply sealed_authority.
Qed.

(** Issuing again under a key that has a permit. *)
Lemma issue_body_existing store b key pid nonce d id permit :
  py_contains (path_str (b_repo_path b)) (dget_or "fenced_roots" (VDict []) d) = Ok false →
  dpath ["idempotency"; key] (VDict d) = Some (VStr id) →
  dpath ["permits"; id; "permit"] (VDict d) = Some (VDict permit) →
  dget "canonical_actuation_payload_digest" permit = Some (VStr (canonical_digest (VDict (b_parameters b)))) →
  ∃ d', issue_body store b key pid nonce d = Ok (permit, d').
Proof.
  intros Hf Hk Hp Hb. unfold issue_body.
  destruct (dsetdefault "permits" _ _) as [permits l1] eqn:E1.
  destruct (dsetdefault "consumed_nonces" _ _) as [nonces l2] eqn:E2.
  destruct (dsetdefault "idempotency" _ _) as [idempotency l3] eqn:E3.
  destruct (dsetdefault "fenced_roots" _ _) as [fenced l4] eqn:E4.
  pose proof (open_tables _ _ _ _ _ _ _ _ _ E1 E2 E3 E4) as Hop. clear E1 E2 E3 E4.
  assert (∀ k v, k ∈ ["permits"; "consumed_nonces"; "idempotency"; "fenced_roots"] →
            dget k l4 = Some v → v = dget_or k (VDict []) d) as Htab.
  { intros k v Hin Hv. rewrite (op_table _ _ _ _ _ _ Hop k Hin) in Hv. congruence. }
  rewrite (Htab "fenced_roots" fenced) by (set_solver || apply Hop). rewrite Hf. cbn [mbind res_bind].
  rewrite (Htab "idempotency" idempotency) by (set_solver || apply Hop).
  rewrite (Htab "permits" permits) by (set_solver || apply Hop).
  unfold dget_or. cbn [dpath] in Hk, Hp.
  destruct (dget "idempotency" d) as [v|]; [|done]. destruct v as [| | | | | |e]; try done. cbn [default from_option Datatypes.id].
  destruct (dget key e) as [w|] eqn:Ew; [|done]. injection Hk as ->.
  cbn [py_get]. rewrite (dgetN_Some _ _ _ Ew). cbn [mbind res_bind is_none negb].
  destruct (dget "permits" d) as [v|]; [|done]. destruct v as [| | | | | |records]; try done. cbn [default from_option Datatypes.id].
  destruct (dget id records) as [v|] eqn:Er; [|done]. destruct v as [| | | | | |record]; try done.
  destruct (dget "permit" record) as [v|] eqn:Epm; [|done]. injection Hp as ->.
  unfold existing_permit_of. cbn [py_get_key py_get]. rewrite (dgetN_Some _ _ _ Er). cbn [mbind res_bind].
  rewrite (dgetN_Some _ _ _ Epm). unfold ditem. rewrite Hb. cbn [mbind res_bind].
  rewrite is_string_refl. cbn [negb]. eauto.
Qed.

Lemma issue_binding_parameters vbg store fs decision evaluation gate key ttl now b :
  issue_binding vbg store fs decision evaluation gate key ttl now = Ok b →
  decision_parameters decision = Ok (b_parameters b).
Proof.
  unfold issue_binding. intros H. res_inv_pairs H. assumption.
Qed.

(** The root is free in the ledger. *)
Definition root_free (f : file) (root : string) : Prop :=
  ∃ d, file_payload f = Some d ∧ py_contains root (dget_or "fenced_roots" (VDict []) d) = Ok false.

(** A fresh permit is found under its key from then on. *)
Lemma issue_recorded store b key pid nonce d permit d' core tip :
  issue_body store b key pid nonce d = Ok (permit, d') →
  dgetN key (dict_or_empty (dgetN "idempotency" d)) = VNone →
  permit = sealed store tip core → dgetN "permit_id" core = VStr pid →
  ledger_has d' ["idempotency"; key] pid
  ∧ ∀ k s, dget k permit = Some (VStr s) → ledger_has d' ["permits"; pid; "permit"; k] s.
Proof.
  intros Hb Hk Hperm Hpid.
  destruct (issue_body_cases _ _ _ _ _ _ _ _ Hb)
    as [permits nonces idem fenced d1 i Hop _ Hi Hnone _ _
       |permits nonces idem fenced d1 core' permits' idem' Hop _ _ _ _ _ _ _ _ Hsp Hsi ->].
  - exfalso. pose proof (op_table _ _ _ _ _ _ Hop "idempotency") as Ht.
    rewrite (op_idempotency _ _ _ _ _ _ Hop) in Ht. specialize (Ht ltac:(set_solver)). injection Ht as ->.
    unfold dget_or, dgetN in *. destruct (dget "idempotency" d) as [v|]; cbn in Hi, Hk.
    + destruct v; try done. cbn in Hk. injection Hi as <-. unfold dgetN in Hnone. by rewrite Hk in Hnone.
    + by injection Hi as <-.
  - apply set_item_dict in Hsp as (ps & -> & ->), Hsi as (ids & -> & ->). unfold ledger_has. split.
    + rewrite dpath_dset_other by done. rewrite dpath_dset_same. cbn [dpath]. by rewrite dget_dset_eq.
    + intros k s Hks. rewrite !dpath_dset_other by done. rewrite dpath_dset_same. cbn [dpath].
      rewrite dget_dset_eq. unfold issued_record. cbn [dget String.eqb Ascii.eqb Bool.eqb]. by rewrite Hks.
Qed.

(** Issuing is idempotent: under the same key and parameters a later call,
    whatever happened in between, returns the permit that was issued first. *)
Theorem issue_idempotent vbg vbg' store f fs fs' decision decision' evaluation evaluation' gate gate' key
    ttl ttl' pid pid' nonce nonce' now now' permit f1 b cs :
  issue vbg store f fs decision evaluation gate key ttl pid nonce now = (Ok permit, f1) →
  key_unused f key → Forall proper cs →
  let w := run_calls store (World f1 fs) cs in
  issue_binding vbg' store fs' decision' evaluation' gate' key ttl' now' = Ok b →
  decision_parameters decision' = decision_parameters decision →
  root_free (w_ledger w) (path_str (b_repo_path b)) →
  ∃ permit' f2, issue vbg' store (w_ledger w) fs' decision' evaluation' gate' key ttl' pid' nonce' now'
                = (Ok permit', f2)
    ∧ ∀ k s, dget k permit = Some (VStr s) → dget k permit' = Some (VStr s).
Proof.
  intros H Hk Hp w Hb' Hpar (d2 & Hd2 & Hfree).
  destruct (issue_unused _ _ _ _ _ _ _ _ _ _ _ _ _ _ H Hk)
    as (b0 & d & d' & Hb & Hd & -> & Hbody & core & Hperm & Hc & _ & _).
  pose proof (permit_core_fields _ _ _ _ _ _ _ Hc) as (_ & _ & _ & Hid & _ & _ & Hpay).
  destruct Hk as (d0 & Hd0 & Hk). rewrite Hd in Hd0. injection Hd0 as <-.
  destruct (issue_recorded _ _ _ _ _ _ _ _ _ _ Hbody Hk Hperm Hid) as [Hkey Hfields].
  pose proof (calls_evolve store cs (World (locked_exit d false d' f) fs) Hp) as Hev.
  assert (∀ ks s, kept ks → ledger_has d' ks s → dpath ks (VDict d2) = Some (VStr s)) as Hlater.
  { intros ks s Hks Hs. apply (file_has_payload _ _ _ _ Hd2). apply (ev_kept _ _ Hev); [done|].
    by apply locked_exit_has. }
  assert (dget "permit_id" permit = Some (VStr pid)) as Hpid.
  { pose proof (sealed_dgetN store (py_str (py_or (dgetN "tip" d) (VStr GENESIS_LEDGER_TIP))) core _ _ Hid
      ltac:(done)) as Hx. rewrite <- Hperm in Hx. unfold dgetN in Hx.
    destruct (dget "permit_id" permit); cbn in Hx; congruence. }
  pose proof (Hlater _ _ (kept_permit _ _) (Hfields _ _ Hpid)) as Hrec. cbn [dpath] in Hrec.
  destruct (dget "permits" d2) as [v|] eqn:E1; [|done]. destruct v as [| | | | | |records]; try done.
  destruct (dget pid records) as [v|] eqn:E2; [|done]. destruct v as [| | | | | |record]; try done.
  destruct (dget "permit" record) as [v|] eqn:E3; [|done]. destruct v as [| | | | | |permit']; try done.
  assert (∀ k s, dget k permit = Some (VStr s) → dget k permit' = Some (VStr s)) as Hsame.
  { intros k s Hks. pose proof (Hlater _ _ (kept_permit _ _) (Hfields _ _ Hks)) as Hx.
    cbn [dpath] in Hx. rewrite E1, E2, E3 in Hx. destruct (dget k permit'); congruence. }
  destruct (issue_body_existing store b key pid' nonce' d2 pid permit') as (d3 & Hbody').
  - exact Hfree.
  - by apply Hlater; [constructor|].
  - cbn [dpath]. by rewrite E1, E2, E3.
  - apply Hsame. apply issue_binding_parameters in Hb, Hb'. rewrite Hpar, Hb in Hb'. injection Hb' as <-.
    pose proof (sealed_dgetN store (py_str (py_or (dgetN "tip" d) (VStr GENESIS_LEDGER_TIP))) core _ _ Hpay
      ltac:(done)) as Hx. rewrite <- Hperm in Hx. unfold dgetN in Hx.
    destruct (dget "canonical_actuation_payload_digest" permit); cbn in Hx; congruence.
  - exists permit', (locked_exit d2 false d3 (w_ledger w)). split; [|done].
    unfold issue. rewrite Hb'. by apply locked_json_Ok.
Qed.

(** ** Fences *)

Lemma fence_recovery_section store f id expected permit reason failpoint now r f' :
  fence_recovery store f id expected permit reason failpoint now = (Ok r, f') →
  ∃ stamp terminal d d', file_payload f = Some d
    ∧ fence_body id expected (permit_root permit) reason terminal stamp d = Ok ((), d')
    ∧ f' = locked_exit d false d' f.
Proof.
  unfold fence_recovery. intros H. cbv zeta in H. destruct (astimezone_utc now) as [stamp|e]; [|done].
  destruct (locked_json _ _ _ _) as [[u|e] f1] eqn:E; [|done]. injection H as _ <-.
  apply locked_json_strict in E as (d & d' & Hd & Hb & ->). destruct u. eauto 10.
Qed.

Lemma fence_recovery_state store f id expected permit reason failpoint now r f' :
  fence_recovery store f id expected permit reason failpoint now = (Ok r, f') →
  file_has f' (state_path id) "recovery_required".
Proof.
  intros (stamp & terminal & d & d' & Hd & Hb & ->)%fence_recovery_section.
  apply fence_body_spec in Hb as (records & record & record' & d1 & Hp & Hr & Ht & -> & Hroot).
  apply transition_record_spec in Ht as (_ & Hs' & _). apply locked_exit_has; [done|].
  destruct Hroot as [[_ ->]|(_ & fenced & st & d2 & E & ->)].
  - unfold state_path. rewrite dpath_dset_same. cbn [dpath]. rewrite dget_dset_eq. by rewrite Hs'.
  - unfold state_path. rewrite dpath_dset_other by done. eapply dsetdefault_keeps; [exact E|].
    rewrite dpath_dset_same. cbn [dpath]. rewrite dget_dset_eq. by rewrite Hs'.
Qed.

Lemma fence_recovery_fences store f id expected permit reason failpoint now r f' :
  fence_recovery store f id expected permit reason failpoint now = (Ok r, f') →
  permit_root permit ≠ "" → ∃ s, file_has f' (fence_path (permit_root permit)) s.
Proof.
  intros (stamp & terminal & d & d' & Hd & Hb & ->)%fence_recovery_section Hne.
  apply fence_body_spec in Hb as (records & record & record' & d1 & Hp & Hr & Ht & -> & [[? _]|(_ & fenced & st & d2 & E & ->)]);
    [done|].
  exists id. apply locked_exit_has; [done|]. unfold fence_path. rewrite dpath_dset_same. cbn [dpath].
  by rewrite dget_dset_eq.
Qed.

(** C25: once an action on a root had to be fenced, no permit is issued for that
    root, whatever is called in between, with the files changing and whatever
    states the aborts among the calls name. *)
Theorem fenced_root_refuses vbg store f fs id expected permit reason failpoint now r f1 cs decision evaluation gate
    key ttl pid nonce now' b :
  fence_recovery store f id expected permit reason failpoint now = (Ok r, f1) →
  let w := run_calls store (World f1 fs) cs in
  issue_binding vbg store (w_fs w) decision evaluation gate key ttl now' = Ok b →
  path_str (b_repo_path b) = permit_root permit → permit_root permit ≠ "" →
  issue vbg store (w_ledger w) (w_fs w) decision evaluation gate key ttl pid nonce now'
  = (raise ValueError "repo patch root is fenced pending authority recovery", w_ledger w).
Proof.
  intros H w Hb Hroot Hne.
  destruct (fence_recovery_fences _ _ _ _ _ _ _ _ _ _ H Hne) as (s & Hs).
  destruct (ev_fence _ _ (calls_move store cs (World f1 fs)) _ _ Hs) as (s' & d & Hd & Hs').
  unfold issue. rewrite Hb. apply (locked_json_Err _ _ _ d); [exact Hd|].
  unfold issue_body.
  destruct (dsetdefault "permits" _ _) as [permits l1] eqn:E1.
  destruct (dsetdefault "consumed_nonces" _ _) as [nonces l2] eqn:E2.
  destruct (dsetdefault "idempotency" _ _) as [idempotency l3] eqn:E3.
  destruct (dsetdefault "fenced_roots" _ _) as [fenced l4] eqn:E4.
  pose proof (open_tables _ _ _ _ _ _ _ _ _ E1 E2 E3 E4) as Hop.
  pose proof (op_table _ _ _ _ _ _ Hop "fenced_roots") as Ht.
  rewrite (op_fenced _ _ _ _ _ _ Hop) in Ht. specialize (Ht ltac:(set_solver)). injection Ht as ->.
  unfold fence_path in Hs'. unfold dget_or. cbn [dpath] in Hs'.
  destruct (dget "fenced_roots" d) as [v|]; [|done]. destruct v as [| | | | | |fr]; try done.
  cbn [default from_option Datatypes.id]. rewrite Hroot. cbn [py_contains]. unfold dhas.
  destruct (dget (permit_root permit) fr); [|done]. done.
Qed.
