(* ===== verification/PermitSafety.v ===== *)
(** * What a consumed, aborted or recovered permit says about the files

    The file-system side of the repo-patch permits: what [consume] has checked,
    where a target can lie, and what abort and recovery leave behind. *)

From S2P Require Import Prelude PyFloat PyValue Json Sha256 Paths JsonStore DateTime SchemaValidation Schemas Signing PermitValidation PermitLedger PermitLedgerFacts Permits PermitRecovery PermitFacts PermitTheorems.
From stdpp Require Import gmap relations.
#[local] Open Scope Z_scope.

#[local] Opaque sha256_hex hmac_sha256_hex.

(** ** Consuming *)

Lemma same_item_true k permit v : same_item k permit v = Ok true → py_eq (dgetN k permit) v = true.
Proof.
  unfold same_item, ditem, dgetN. destruct (dget k permit); cbn; [by intros [= ->]|done].
Qed.

Lemma same_item_str k permit s : same_item k permit (VStr s) = Ok true → dgetN k permit = VStr s.
Proof. intros H%same_item_true. by apply py_eq_str. Qed.

Lemma check_authority_signed store permit :
  check_authority store permit = Ok () →
  ∃ proof, dgetN "authorization_proof" permit = VDict proof
    ∧ str_or "signature" "" proof
      = hmac_sha256_hex (ps_signing_key store) (signing_bytes (permit_signed_payload permit)).
Proof.
  unfold check_authority. intros H. res_inv H. destruct (dgetN "authorization_proof" permit) as [| | | | | |proof]; try done.
  exists proof. split; [done|]. res_inv H.
  match goal with Hv : negb ?b = false, Hm : verify_hmac_signature_proof _ _ _ = Ok ?b |- _ =>
    apply negb_false_iff in Hv; rewrite Hv in Hm; by apply verify_hmac_accepts in Hm as (_ & _ & ?) end.
Qed.

(** The window, as instants. *)
Definition within (permit : dict) (now : datetime) : Prop :=
  ∃ t0 t1 n0 n1 n,
    permit_parse_time (py_str (dgetN "not_before" permit)) = Ok t0
    ∧ permit_parse_time (py_str (dgetN "expires_at" permit)) = Ok t1
    ∧ dt_instant t0 = Some n0 ∧ dt_instant t1 = Some n1 ∧ dt_instant now = Some n ∧ n0 <= n <= n1.

Lemma astimezone_utc_instant t u : astimezone_utc t = Ok u → dt_instant u = dt_instant t.
Proof.
  unfold astimezone_utc. destruct (dt_instant t) as [x|]; [|done]. destruct (in_range x); [|done].
  intros [= <-]. unfold dt_instant. cbn. f_equal. lia.
Qed.

Lemma permit_parse_time_aware s t : permit_parse_time s = Ok t → ∃ n, dt_instant t = Some n.
Proof.
  unfold permit_parse_time. destruct (parse_iso_z s); [|done]. unfold astimezone_utc.
  destruct (dt_instant _) as [x|]; [|done]. destruct (in_range x); [|done]. intros [= <-].
  unfold dt_instant. cbn. eauto.
Qed.

Lemma check_window_within permit now : check_window permit now = Ok () → within permit now.
Proof.
  unfold check_window. intros H. res_inv H.
  match goal with Ha : astimezone_utc now = Ok ?u, H0 : ditem "not_before" permit = Ok ?a,
      H1 : permit_parse_time (py_str ?a) = Ok ?t0, H2 : ditem "expires_at" permit = Ok ?b,
      H3 : permit_parse_time (py_str ?b) = Ok ?t1, L0 : dt_ltb ?u ?t0 = _, L1 : dt_ltb ?t1 ?u = _ |- _ =>
    apply astimezone_utc_instant in Ha; apply ditem_dgetN in H0, H2; subst a b;
    destruct (permit_parse_time_aware _ _ H1) as (n0 & Hn0);
    destruct (permit_parse_time_aware _ _ H3) as (n1 & Hn1);
    unfold dt_ltb in L0, L1; rewrite Hn0 in L0; rewrite Hn1 in L1;
    destruct (dt_instant u) as [n|] eqn:Hn; [|done];
    exists t0, t1, n0, n1, n; injection L0 as L0; injection L1 as L1
  end.
  do 5 (split; [done|]). subst; lia.
Qed.

Lemma postimage_digest fs parameters target post digest :
  repo_patch_postimage fs parameters target = Ok (post, digest) → digest = bytes_digest post.
Proof.
  unfold repo_patch_postimage. destruct (dgetN "patch_template" parameters); try done.
  intros H. res_inv_pairs H. done.
Qed.

(** The bindings [_validate_permit] has compared. *)
Lemma validate_permit_facts store fs permit decision key parameters now :
  validate_permit store fs permit decision key parameters now = Ok () →
  check_authority store permit = Ok () ∧ check_window permit now = Ok () ∧ decision_key decision = Ok key
  ∧ dgetN "canonical_actuation_payload_digest" permit
    = VStr (canonical_digest (VDict (canonical_actuation_parameters parameters)))
  ∧ ∃ repo target preimage postimage,
      repo_patch_target_binding fs (canonical_actuation_parameters parameters) = Ok (repo, target, preimage)
      ∧ repo_patch_postimage fs (canonical_actuation_parameters parameters) target
        = Ok (postimage, bytes_digest postimage)
      ∧ dgetN "repo_path" permit = VStr (path_str repo)
      ∧ dgetN "target_path" permit = VStr (path_str target)
      ∧ dgetN "target_preimage_digest" permit = VStr preimage
      ∧ dgetN "target_postimage_digest" permit = VStr (bytes_digest postimage).
Proof.
  unfold validate_permit. cbv zeta. intros H. apply res_bind_Ok in H as ([] & Hauth & H).
  res_inv_pairs H. repeat match goal with Hb : negb ?b = false |- _ => apply negb_false_iff in Hb; subst || idtac end.
  match goal with Hk : String.eqb key _ = true |- _ => apply String.eqb_eq in Hk; subst end.
  match goal with Hr : same_item "repo_path" _ _ = Ok ?b, Ht : (if ?b then _ else _) = Ok true |- _ =>
    destruct b; [|done]; apply same_item_str in Hr, Ht end.
  repeat match goal with Hs : same_item _ _ (VStr _) = Ok true |- _ => apply same_item_str in Hs end.
  match goal with Hw : check_window _ _ = Ok ?u, Hp : repo_patch_postimage _ _ _ = Ok _ |- _ =>
    destruct u; pose proof (postimage_digest _ _ _ _ _ Hp); subst end.
  do 4 (split; [assumption|]). eauto 10.
Qed.

(** C26: a successful [consume] was signed with the store's key for exactly this
    payload, happens within the validity window, is for the target and the very
    bytes the permit names, before and after the patch, and takes the permit
    from prepared to claimed. *)
Theorem consume_authorised store f fs permit decision key parameters failpoint now now' r f' :
  consume store f fs permit decision key parameters failpoint now now' = (Ok r, f') →
  (∃ proof, dgetN "authorization_proof" permit = VDict proof
     ∧ str_or "signature" "" proof
       = hmac_sha256_hex (ps_signing_key store) (signing_bytes (permit_signed_payload permit)))
  ∧ within permit now
  ∧ decision_key decision = Ok key
  ∧ dgetN "canonical_actuation_payload_digest" permit
    = VStr (canonical_digest (VDict (canonical_actuation_parameters parameters)))
  ∧ (∃ repo target preimage postimage,
       repo_patch_target_binding fs (canonical_actuation_parameters parameters) = Ok (repo, target, preimage)
       ∧ repo_patch_postimage fs (canonical_actuation_parameters parameters) target
         = Ok (postimage, bytes_digest postimage)
       ∧ dgetN "repo_path" permit = VStr (path_str repo)
       ∧ dgetN "target_path" permit = VStr (path_str target)
       ∧ dgetN "target_preimage_digest" permit = VStr preimage
       ∧ dgetN "target_postimage_digest" permit = VStr (bytes_digest postimage))
  ∧ ∃ id, dgetN "permit_id" permit = VStr id
      ∧ file_has f (state_path id) "prepared" ∧ file_has f' (state_path id) "claimed".
Proof.
  intros H. pose proof H as (id & nonce & stamp & d & d' & Hid & _ & Hv & _)%consume_section.
  apply validate_permit_facts in Hv as (Hauth & Hw & Hkey & Hpay & Hfiles).
  split; [by apply check_authority_signed|]. split; [by apply check_window_within|].
  do 3 (split; [done|]). exists id. split; [done|]. by apply (consume_state _ _ _ _ _ _ _ _ _ _ _ _ _ H).
Qed.

(** [consume] grants a prepared permit all of whose checks hold. *)
Lemma same_item_refl k permit s : dget k permit = Some (VStr s) → same_item k permit (VStr s) = Ok true.
Proof. intros H. unfold same_item, ditem. rewrite H. cbn. by rewrite String.eqb_refl. Qed.

Lemma consume_body_grants permit id nonce now records record stamp ledger :
  dgetN "permits" ledger = VDict records → dgetN id records = VDict record →
  py_eq (dgetN "permit" record) (VDict permit) = true → dgetN "state" record = VStr "prepared" →
  dget "state_history" record = None → dget "consumed_nonces" ledger = None →
  permit_format_time now = Ok stamp →
  ∃ ledger', consume_body permit id nonce now ledger = Ok ((), ledger').
Proof.
  intros Hp Hr Hpm Hs Hh Hn Ht. unfold consume_body, permits_of. rewrite Hp. cbn [mbind res_bind].
  rewrite Hr, Hpm, Hs. rewrite is_string_refl. cbn [negb]. unfold dsetdefault at 1. rewrite Hn.
  cbn [py_contains dhas dget mbind res_bind]. unfold transition_record. rewrite Hs, is_string_refl. cbn [negb].
  unfold dsetdefault. rewrite dget_dset. cbn [String.eqb Ascii.eqb Bool.eqb]. rewrite Hh, Ht.
  cbn [mbind res_bind py_append set_item]. eauto.
Qed.

Lemma consume_grants store f fs permit decision key parameters (failpoint : string → res unit) now now'
    stamp id nonce d d' r :
  validate_permit store fs permit decision key parameters now = Ok () →
  astimezone_utc now' = Ok stamp → item_str "permit_id" permit = Ok id →
  item_str "authority_nonce" permit = Ok nonce → file_payload f = Some d →
  consume_body permit id nonce stamp d = Ok ((), d') → failpoint "claimed" = Ok () →
  consumption permit = Ok r →
  consume store f fs permit decision key parameters failpoint now now' = (Ok r, locked_exit d false d' f).
Proof.
  intros Hv Hst Hid Hn Hd Hb Hfp Hr. unfold consume. rewrite Hv, Hst. cbn [mbind res_bind]. rewrite Hid.
  cbn [mbind res_bind]. rewrite Hn. cbn [mbind res_bind].
  rewrite (locked_json_Ok false _ f d _ () d' Hd Hb). rewrite Hfp. cbn [mbind res_bind]. by rewrite Hr.
Qed.

(** ** Targets *)

(** No path meets a loop of symbolic links. *)
Definition no_link_loops (fs : filesystem) : Prop := ∀ p, (real_parts fs p).1 = true.

(** It suffices that there is no link at all. *)
Lemma realpath_without_links fs depth todo : ∀ cur,
  (∀ l t, fs !! l ≠ Some (NLink t)) → (realpath depth fs cur todo).1 = true.
Proof.
  induction todo as [|name rest IH]; intros cur Hl; [by rewrite realpath_nil|]. rewrite realpath_cons.
  destruct (String.eqb name ".."); [by apply IH|].
  destruct (fs !! (cur ++ [name])) as [[c| |t]|] eqn:E; try by apply IH. by destruct (Hl _ _ E).
Qed.

Lemma no_links_no_loops fs : (∀ l t, fs_nodes fs !! l ≠ Some (NLink t)) → no_link_loops fs.
Proof. intros Hl p. by apply realpath_without_links. Qed.

(** The root and the working directory are real directories. *)
Definition real_start (fs : filesystem) : Prop :=
  (∀ t, fs_nodes fs !! [] ≠ Some (NLink t)) ∧ clean (fs_nodes fs) (fs_cwd fs).

(** C36: on a file system without loops of links, whose root and working
    directory are real directories, a target that [repo_patch_target_binding]
    accepts is a regular file inside the repository, with no link on the way to
    it; its path from the repository is one of the allowed paths, and the digest
    is that of its bytes.  With a loop it may be a link out of the repository, see
    [target_binding_escapes_through_loop]. *)
Theorem target_binding_confined fs parameters repo target digest :
  no_link_loops fs → real_start fs →
  repo_patch_target_binding fs parameters = Ok (repo, target, digest) →
  ∃ relative content allowed,
    p_parts target = p_parts repo ++ relative
    ∧ clean (fs_nodes fs) (p_parts target)
    ∧ fs_nodes fs !! p_parts target = Some (NFile content)
    ∧ digest = bytes_digest content
    ∧ (items ← py_iter (dget_or "allowed_paths" (VList []) parameters); res_map allowed_path_str items) = Ok allowed
    ∧ path_str (Path "" relative) ∈ allowed.
Proof.
  intros Hloops [Hroot Hcwd]. unfold repo_patch_target_binding. cbv zeta. intros H. res_inv H.
  destruct (dgetN "patch_template" parameters) as [| | | | | |template]; try done. res_inv H.
  match type of H with match ?r with _ => _ end = _ => destruct r as [relative|] eqn:Hrel; [|done] end.
  res_inv H.
  match goal with Hr : resolve fs _ = Ok target |- _ =>
    apply resolve_clean in Hr as [Hslash Hclean]; [|done|done|apply Hloops] end.
  repeat match goal with Hb : negb _ = false |- _ => apply negb_false_iff in Hb end.
  match goal with Hf : is_file fs target = true |- _ =>
    destruct (clean_file _ _ Hslash Hclean Hf) as (content & Hnode & _ & Hread) end.
  unfold relative_to in Hrel. destruct (String.eqb _ _); [|done].
  destruct (drop_parts _ _) as [rel|] eqn:Hdrop; [|done]. injection Hrel as <-.
  apply drop_parts_app in Hdrop.
  match goal with Hm : mem_str _ ?l = true |- _ => exists rel, content, l;
    apply existsb_exists in Hm as (s & Hs & Heq%String.eqb_eq); subst s end.
  split; [done|]. split; [done|]. split; [done|]. split.
  { match goal with Hd : file_digest _ _ = Ok digest |- _ => unfold file_digest in Hd; rewrite Hread in Hd;
      cbn in Hd; congruence end. }
  split; [|by apply list_elem_of_In].
  match goal with Hi : py_iter _ = Ok _ |- _ => rewrite Hi end. assumption.
Qed.

(** A repository with a link to itself and a link that leaves it. *)
Definition looping_repo : filesystem :=
  Filesystem (<[["repo"] := NDir]> (<[["repo"; "loop"] := NLink "loop"]> (<[["repo"; "evil"] := NLink "/secret"]>
       (<[["secret"] := NFile "key"]> ∅)))) [].

(** With a link loop the confinement fails: a target written through the
    loop resolves to a symbolic link, and its digest is that of the file outside
    the repository the link points to. *)
Theorem target_binding_escapes_through_loop :
  let parameters := [("repo_path", VStr "/repo"); ("allowed_paths", VList [VStr "evil"]);
                     ("patch_template", VDict [("target_file", VStr "loop/../evil")])] in
  repo_patch_target_binding looping_repo parameters
  = Ok (Path "/" ["repo"], Path "/" ["repo"; "evil"], bytes_digest "key")
  ∧ is_symlink looping_repo (Path "/" ["repo"; "evil"]) = true
  ∧ walk max_links (fs_nodes looping_repo) true [] ["repo"; "evil"] = Found ["secret"].
Proof. split; [vm_compute; reflexivity|]. split; vm_compute; reflexivity. Qed.

(** ** Restoring *)

(** After a successful restoration the target has the authorised preimage. *)
Lemma restore_target_restores store fs details permit msg disk backup fs' :
  restore_target store fs details permit msg disk = (Ok backup, fs') →
  ∃ preimage, dgetN "target_preimage_digest" permit = VStr preimage
    ∧ file_digest fs' (parse_path (py_str (dgetN "target_path" permit))) = Ok preimage.
Proof.
  unfold restore_target. case_res x e E; [|done]. destruct x as [[[b target] preimage] fs1].
  intros [= H <-]. apply res_bind_Ok in H as (restored & Hr & H). apply raise_if_Ok in H as [Hs _].
  apply negb_false_iff, is_string_true in Hs. cbv zeta in E. res_inv E.
  match goal with Ht : ditem "target_path" permit = Ok ?v |- _ => apply ditem_dgetN in Ht; subst v end.
  match goal with Hp : hashable_item "target_preimage_digest" permit = Ok _ |- _ =>
    unfold hashable_item in Hp; res_inv Hp end.
  match goal with Hi : ditem "target_preimage_digest" permit = Ok _ |- _ => apply ditem_dgetN in Hi end.
  exists restored. split; [congruence|done].
Qed.

Lemma record_transition_sets store f id expected new details terminal failpoint now r f' :
  record_transition store f id expected new details terminal failpoint now = (Ok r, f') →
  file_has f' (state_path id) new.
Proof.
  unfold record_transition. case_res stamp e E; [|done].
  destruct (locked_json _ _ _ _) as [[rec|e] f1] eqn:Ej; [|done]. intros [= _ <-].
  apply locked_json_strict in Ej as (d & d' & Hd & Hb & ->).
  apply transition_body_spec in Hb as (records & record & Hp & Hr & Ht & ->).
  apply transition_record_spec in Ht as (_ & Hs & _). apply locked_exit_has; [done|].
  unfold state_path. rewrite dpath_dset_same. cbn [dpath]. rewrite dget_dset_eq. by rewrite Hs.
Qed.

Lemma item_str_dgetN k permit s : item_str k permit = Ok s → dgetN k permit = VStr s.
Proof.
  unfold item_str. intros H. apply res_bind_Ok in H as (v & Hv%ditem_dgetN & H). destruct v; congruence || done.
Qed.

(** An abort that returns has restored the target and closed the permit, or
    could not restore it and has fenced the root. *)
Lemma abort_returns store w permit expected reason tests failpoint disk now now' r w' :
  abort_with_restoration store w permit expected reason tests failpoint disk now now' = (Ok r, w') →
  ∃ id w1 f, dgetN "permit_id" permit = VStr id ∧ w' = set_ledger w1 f
    ∧ ((∃ backup details record, abort_restore store w permit expected disk = (Ok backup, w1)
          ∧ r = aborted_result (VStr id) reason backup tests
          ∧ record_transition store (w_ledger w1) id expected "aborted" details (Some r) failpoint now' = (Ok record, f))
       ∨ ∃ e, fence_recovery store (w_ledger w1) id expected (VDict permit) (exc_str e) failpoint now = (Ok r, f)).
Proof.
  unfold abort_with_restoration. destruct (abort_restore _ _ _ _ _) as [[backup|e] w1] eqn:Er.
  - case_res x e E; [destruct x as [id restored_at]|done]. cbv zeta.
    destruct (record_transition _ _ _ _ _ _ _ _ _) as [res f2] eqn:Et. intros [= H <-].
    apply res_bind_Ok in H as (record & -> & [= <-]).
    apply res_bind_Ok in E as (id' & Hid%item_str_dgetN & E). apply res_bind_Ok in E as (? & _ & [= -> _]).
    exists id, w1, f2. do 2 (split; [done|]). left. by eexists backup, _, record.
  - destruct (caught e); [|done]. destruct (item_str "permit_id" permit) as [id|e'] eqn:Ei; [|done].
    destruct (fence_recovery _ _ _ _ _ _ _ _) as [res f2] eqn:Ef. intros [= -> <-].
    exists id, w1, f2. split; [by apply item_str_dgetN|]. split; [done|]. right. by exists e.
Qed.

Lemma fence_recovery_result store f id expected permit reason failpoint now r f' :
  fence_recovery store f id expected permit reason failpoint now = (Ok r, f') → r = fenced_result id (permit_root permit) reason.
Proof.
  unfold fence_recovery. cbv zeta. destruct (astimezone_utc now) as [stamp|e]; [|done].
  destruct (locked_json _ _ _ _) as [[u|e] f1]; [|done]. intros [= H _]. by apply res_bind_Ok in H as (? & _ & [= <-]).
Qed.

(** Closed as aborted with the bytes of the permit's target restored, or closed
    as needing recovery with the root fenced. *)
Definition put_back (permit : dict) (id : string) (w : world) : Prop :=
  file_has (w_ledger w) (state_path id) "aborted"
  ∧ ∃ preimage, dgetN "target_preimage_digest" permit = VStr preimage
      ∧ file_digest (w_fs w) (parse_path (py_str (dgetN "target_path" permit))) = Ok preimage.
Definition fenced_off (permit : dict) (id : string) (w : world) : Prop :=
  file_has (w_ledger w) (state_path id) "recovery_required"
  ∧ (permit_root (VDict permit) ≠ "" → ∃ s, file_has (w_ledger w) (fence_path (permit_root (VDict permit))) s).

Lemma abort_settles store w permit expected reason tests failpoint disk now now' r w' :
  abort_with_restoration store w permit expected reason tests failpoint disk now now' = (Ok r, w') →
  ∃ id, dgetN "permit_id" permit = VStr id ∧ (put_back permit id w' ∨ fenced_off permit id w').
Proof.
  intros (id & w1 & f & Hid & -> & H)%abort_returns. exists id. split; [done|]. cbn [w_ledger w_fs set_ledger].
  destruct H as [(backup & details & record & Er & _ & Et)|(e & Ef)].
  - left. split; [by apply record_transition_sets in Et|].
    unfold abort_restore in Er. destruct (ditem "permit_id" permit); [|done].
    destruct (locked_json _ _ _ _) as [[v|e] f1]; [|done]. destruct v; try done.
    destruct (restore_target _ _ _ _ _ _) as [rt fs'] eqn:Et'. injection Er as -> <-.
    by apply restore_target_restores in Et'.
  - right. split; [by apply fence_recovery_state in Ef|]. intros Hne. by eapply fence_recovery_fences.
Qed.

(** C35: an abort that returns has either put back the authorised preimage and
    closed the permit as aborted, or closed it as needing recovery with its root
    fenced. *)
Theorem abort_restores_or_fences store w permit expected reason tests failpoint disk now now' r w' :
  abort_with_restoration store w permit expected reason tests failpoint disk now now' = (Ok r, w') →
  ∃ id, dgetN "permit_id" permit = VStr id
    ∧ ((file_has (w_ledger w') (state_path id) "aborted"
        ∧ ∃ preimage, dgetN "target_preimage_digest" permit = VStr preimage
            ∧ file_digest (w_fs w') (parse_path (py_str (dgetN "target_path" permit))) = Ok preimage)
       ∨ (file_has (w_ledger w') (state_path id) "recovery_required"
          ∧ (permit_root (VDict permit) ≠ "" →
             ∃ s, file_has (w_ledger w') (fence_path (permit_root (VDict permit))) s))).
Proof. apply abort_settles. Qed.

(** ** Recovery *)

Definition settled (s : string) : Prop := s = "aborted" ∨ s = "recovery_required".

Section recovery.
Context (store : permit_store) (failpoint : string → res unit)
  (disk_ok : nat → bool) (clock : nat → datetime).

Lemma recover_one_settles w i id record entry w' :
  recover_one store failpoint disk_ok clock w i id record = (Ok entry, w') →
  ∃ s, settled s ∧ file_has (w_ledger w') (state_path id) s.
Proof.
  assert (∀ w state permit reason entry w',
    fence_one store failpoint clock w i id state permit reason = (Ok entry, w') →
    ∃ s, settled s ∧ file_has (w_ledger w') (state_path id) s) as Hfence.
  { intros w0 state permit reason entry0 w0'. unfold fence_one.
    destruct (fence_recovery _ _ _ _ _ _ _ _) as [r f] eqn:Ef. intros [= H <-].
    apply res_bind_Ok in H as (terminal & -> & _). exists "recovery_required".
    split; [by right|]. by apply fence_recovery_state in Ef. }
  unfold recover_one. cbv zeta.
  destruct (dgetN "permit" record) as [| | | | | |permit]; try apply Hfence.
  destruct (dgetN "transaction" record) as [| | | | | |details]; try apply Hfence.
  destruct (restore_target _ _ _ _ _ _) as [[backup|e] fs'].
  - unfold abort_one. case_res x e E; [destruct x as [terminal stamp]|done].
    destruct (record_transition _ _ _ _ _ _ _ _ _) as [r f] eqn:Et. intros [= H <-].
    apply res_bind_Ok in H as (rec & -> & _). exists "aborted". split; [by left|].
    by apply record_transition_sets in Et.
  - destruct (caught e); [apply Hfence|done].
Qed.

Lemma settled_stays w cs' i r w' s id :
  Forall (λ c, str_in (dgetN "state" c.2) MUTATION_STATES = true) cs' →
  recover_loop store failpoint disk_ok clock w i cs' = (r, w') →
  settled s → file_has (w_ledger w) (state_path id) s → file_has (w_ledger w') (state_path id) s.
Proof.
  intros Hc Hl Hs Hf. pose proof (recover_loop_evolves store failpoint disk_ok clock cs' w i Hc) as Hev.
  rewrite Hl in Hev. destruct (ev_state _ _ Hev id s Hf) as (s' & Hs' & R).
  apply steps_stuck in R; [by subst s'|]. by destruct Hs as [->| ->].
Qed.

Lemma recover_loop_settles candidates : ∀ w i entries w' id record,
  Forall (λ c, str_in (dgetN "state" c.2) MUTATION_STATES = true) candidates →
  recover_loop store failpoint disk_ok clock w i candidates = (Ok entries, w') →
  (id, record) ∈ candidates → ∃ s, settled s ∧ file_has (w_ledger w') (state_path id) s.
Proof.
  induction candidates as [|[id0 record0] rest IH]; intros w i entries w' id record Hc Hl Hin;
    [by apply elem_of_nil in Hin|].
  apply Forall_cons in Hc as [_ Hc]. cbn [recover_loop] in Hl.
  destruct (recover_one _ _ _ _ _ _ _ _) as [[entry|e] w1] eqn:E1; [|done].
  destruct (recover_loop _ _ _ _ w1 _ _) as [r w2] eqn:E2. injection Hl as Hl <-.
  apply res_bind_Ok in Hl as (entries' & -> & _).
  apply elem_of_cons in Hin as [[= -> ->]|Hin]; [|by eapply IH].
  apply recover_one_settles in E1 as (s & Hs & Hf). exists s. split; [done|]. by eapply settled_stays.
Qed.

(** Recovery settles the permits it finds in the middle of an action and leaves
    the others to the state machine. *)
Lemma recovery_moves w entries w' id s :
  recover_incomplete_actions store failpoint disk_ok clock w = (Ok entries, w') →
  file_has (w_ledger w) (state_path id) s →
  ∃ s', file_has (w_ledger w') (state_path id) s' ∧ rtc step s s' ∧ (mem_str s MUTATION_STATES = true → settled s').
Proof.
  intros H Hs. pose proof (recover_evolves store failpoint disk_ok clock w) as Hev. rewrite H in Hev.
  destruct (ev_state _ _ Hev id s Hs) as (s' & Hs' & R). exists s'. split; [done|]. split; [done|]. intros Hm.
  unfold recover_incomplete_actions in H. destruct (locked_json _ _ _ _) as [[candidates|e] f1] eqn:E; [|done].
  apply locked_json_strict in E as (d & d' & Hd & Hb & _).
  apply candidates_body_spec in Hb as [Hall Hfound].
  destruct (Hfound id s (file_has_payload _ _ _ _ Hd Hs) Hm) as (record & Hin).
  edestruct (recover_loop_settles candidates) as (s'' & Hset & Hs''); [done|exact H|exact Hin|].
  by rewrite (file_has_unique _ _ _ _ Hs' Hs'').
Qed.

(** When start-up recovery returns, every permit that was in the middle of
    an action is aborted or waits for recovery. *)
Theorem recovery_settles w entries w' id s :
  recover_incomplete_actions store failpoint disk_ok clock w = (Ok entries, w') →
  file_has (w_ledger w) (state_path id) s → mem_str s MUTATION_STATES = true →
  ∃ s', settled s' ∧ file_has (w_ledger w') (state_path id) s'.
Proof.
  intros H Hs Hm. destruct (recovery_moves _ _ _ _ _ H Hs) as (s' & Hs' & _ & Hset). exists s'. split; [by apply Hset|done].
Qed.
End recovery.

(** ** Line ends *)

Definition no_cr (s : string) : Prop := cr ∉ str_chars s.

Lemma universal_newlines_no_cr s : no_cr (universal_newlines s).
Proof.
  unfold no_cr. remember (String.length s) as n eqn:Hn. revert s Hn.
  induction n as [n IH] using lt_wf_ind. intros s ->.
  assert (∀ t, (String.length t < String.length s)%nat → cr ∉ str_chars (universal_newlines t)) as IH'
    by (intros t Ht; by eapply IH). clear IH.
  assert (∀ c t, c ≠ cr → cr ∉ str_chars t → cr ∉ str_chars (String c t)) as Hcons
    by (intros c t Hc Ht [H|H]%elem_of_cons; [by apply Hc|by apply Ht]).
  destruct s as [|c s]; cbn [universal_newlines str_chars]; [by intros ?%elem_of_nil|].
  destruct (Ascii.eqb_spec c cr) as [->|Hne].
  - destruct s as [|d s]; [apply Hcons; [done|by intros ?%elem_of_nil]|].
    destruct (Ascii.eqb d lf); apply Hcons; try done; apply IH'; cbn [String.length]; lia.
  - apply Hcons; [done|]. apply IH'. cbn [String.length]. lia.
Qed.

Lemma str_drop_chars n s : str_chars (str_drop n s) = drop n (str_chars s).
Proof. revert s. induction n as [|n IH]; intros [|c s]; cbn; auto. Qed.

Lemma split_at_chars find s a b :
  split_at find s = Some (a, b) → ∀ c, c ∈ str_chars a ∨ c ∈ str_chars b → c ∈ str_chars s.
Proof.
  revert a b. induction s as [|x s IH]; intros a b; cbn [split_at];
    (destruct (String.prefix find _); [intros [= <- <-] c [H|H]|]).
  - by apply elem_of_nil in H.
  - rewrite str_drop_chars in H. cbn [str_chars] in H. by rewrite drop_nil in H.
  - done.
  - by apply elem_of_nil in H.
  - rewrite str_drop_chars in H. by apply subseteq_drop in H.
  - destruct (split_at find s) as [[a' b']|] eqn:E; [|done]. intros [= <- <-] c Hc. cbn [str_chars].
    apply elem_of_cons. destruct Hc as [[->|Hc]%elem_of_cons|Hc]; [by left|right..]; eapply IH; eauto.
Qed.

(** The bytes after a patch hold no carriage return but those of the
    replacement: a patch rewrites every line end of a file with DOS line ends,
    not the anchor alone. *)
Theorem postimage_rewrites_line_ends fs parameters template target post digest :
  dgetN "patch_template" parameters = VDict template →
  repo_patch_postimage fs parameters target = Ok (post, digest) →
  no_cr (py_str (dgetN "replace" template)) → no_cr post.
Proof.
  unfold repo_patch_postimage. intros -> H Hrep.
  apply res_bind_Ok in H as ([[original find] replace] & Ho & H). apply raise_if_Ok in H as [_ [= <- _]].
  unfold reraise in Ho. revert Ho. case_res x e E; [|by destruct (existsb _ _)]. intros [= ->].
  apply res_bind_Ok in E as (text & Ht & E). apply res_bind_Ok in E as (f & _ & E).
  apply res_bind_Ok in E as (r & Hr%ditem_dgetN & [= -> _ <-]). subst r.
  unfold read_text in Ht. apply res_bind_Ok in Ht as (raw & _ & Ht). apply raise_if_Ok in Ht as [_ [= <-]].
  unfold str_replace_first, no_cr. pose proof (universal_newlines_no_cr raw) as Hno. unfold no_cr in Hno.
  destruct (split_at _ _) as [[a b]|] eqn:Es; [|done].
  rewrite !str_chars_app. intros [Hin|[Hin|Hin]%elem_of_app]%elem_of_app; [..|].
  - apply Hno. eapply split_at_chars; eauto.
  - by apply Hrep.
  - apply Hno. eapply split_at_chars; eauto.
Qed.
