(* ===== verification/PermitExamples.v ===== *)
(** * A worked permit

    A small repository, a decision to patch it and its admission, run through
    the permit store; the guarantees of repo-patch permits applied to it. *)

From S2P Require Import Prelude PyFloat PyValue Json Sha256 Paths JsonStore DateTime SchemaValidation Schemas Signing PermitValidation PermitLedger PermitLedgerFacts Permits PermitRecovery PermitFacts PermitTheorems PermitSafety.
From stdpp Require Import gmap relations.
#[local] Open Scope Z_scope.

Definition demo_store : permit_store :=
  PermitStore "/state/ledger.json" (Path "/" ["state"; "backups"]) "secret" "key-1"
    "mesh.orchestrator" "mesh.repo_patch_actuator".

Definition demo_fs : filesystem :=
  Filesystem (<[["repo"] := NDir]> (<[["repo"; "app.py"] := NFile "x = 1"]> ∅)) [].

Definition digest_of (c : string) : value := VStr ("sha256:" +:+ str_join "" (replicate 64 c)).

Definition demo_request : dict :=
  [("actor_ref", VDict [("team_id", VStr "team-1")]); ("mesh_run_id", VStr "run-1");
   ("mesh_action_id", VStr "dec-1"); ("action_kind", VStr "repo_patch");
   ("action_proposal_digest", digest_of "a"); ("evidence_packet_digest", digest_of "b");
   ("mesh_policy_id", VStr "policy-1"); ("requested_claims", VList [VStr "patch"]);
   ("explicit_nonclaims", VList [VStr "no-deploy"])].

Definition demo_gate : dict :=
  [("allowed", VBool true); ("authority_eligible", VBool true); ("request", VDict demo_request);
   ("decision", VDict [("decision", VStr "allow"); ("accepted_claims", VList [VStr "patch"]);
                       ("enforced_nonclaims", VList [VStr "no-deploy"])]);
   ("request_digest", digest_of "c"); ("decision_digest", digest_of "d"); ("candidate_digest", digest_of "e")].

Definition demo_parameters : dict :=
  [("repo_path", VStr "/repo"); ("allowed_paths", VList [VStr "app.py"]);
   ("patch_template", VDict [("target_file", VStr "app.py"); ("find", VStr "1"); ("replace", VStr "2")]);
   (HSAI_EXECUTION_CONTEXT_KEY,
    VDict [("request", VDict demo_request); ("request_digest", digest_of "c");
           ("decision_digest", digest_of "d"); ("candidate_digest", digest_of "e")])].

Definition demo_decision : dict :=
  [("decision_id", VStr "dec-1");
   ("execution_plan", VDict [("action", VStr "patch"); ("parameters", VDict demo_parameters)])].

Definition demo_evaluation : dict :=
  [("passed", VBool true); ("final_recommendation", VStr "execute")].

Definition demo_now : datetime := DT 63902822400000000 (Some 0).

Definition accept_gate (_ _ _ : dict) : res unit := Ok ().

Definition demo_nonce : string := str_join "" (replicate 64 "0").

(** The patch bound to its target. *)
Definition demo_binding : binding :=
  {| b_request := demo_request; b_admission := dict_or_empty (dgetN "decision" demo_gate);
     b_gate := demo_gate; b_evaluation := demo_evaluation;
     b_parameters := canonical_actuation_parameters demo_parameters;
     b_repo_path := Path "/" ["repo"]; b_target_path := Path "/" ["repo"; "app.py"];
     b_preimage := bytes_digest "x = 1"; b_postimage := bytes_digest "x = 2";
     b_issued_at := "2026-01-01T00:00:00Z"; b_expires_at := "2026-01-01T00:05:00Z" |}.

Lemma demo_binding_ok :
  issue_binding accept_gate demo_store demo_fs demo_decision demo_evaluation demo_gate "dec-1:patch" 300 demo_now
  = Ok demo_binding.
Proof. reflexivity. Qed.

Definition demo_core : dict :=
  match permit_core demo_store demo_binding "permit_1" demo_nonce "dec-1:patch" GENESIS_LEDGER_TIP with
  | Ok core => core
  | Err _ => []
  end.

Definition demo_permit : dict := sealed demo_store GENESIS_LEDGER_TIP demo_core.

Lemma demo_core_ok :
  permit_core demo_store demo_binding "permit_1" demo_nonce "dec-1:patch" GENESIS_LEDGER_TIP = Ok demo_core.
Proof. reflexivity. Qed.

Lemma demo_core_clean : ∀ k, k ∈ seal_keys → dget k demo_core = None.
Proof. by eapply permit_core_fields, demo_core_ok. Qed.

Lemma bytes_digest_is_sha256 s : is_sha256_digest (VStr (bytes_digest s)) = true.
Proof.
  unfold bytes_digest, is_sha256_digest. apply andb_true_iff. split; [reflexivity|].
  change (str_removeprefix "sha256:" ("sha256:" +:+ ?t)) with t. apply sha256_hex_shape.
Qed.

Lemma demo_core_issues : core_issues demo_core = [].
Proof.
  unfold core_issues.
  assert (∀ l m, l = [] → m = [] → (l ++ m : list string) = []) as Happ by (by intros l m -> ->).
  do 6 (apply Happ; [reflexivity|]). apply Happ; [|reflexivity].
  apply issues_nil. intros k Hk. apply negb_false_iff.
  do 5 (apply elem_of_cons in Hk as [->|Hk]; [reflexivity|]).
  do 2 (apply elem_of_cons in Hk as [->|Hk]; [apply digest_is_sha256|]).
  do 2 (apply elem_of_cons in Hk as [->|Hk]; [apply bytes_digest_is_sha256|]).
  apply elem_of_cons in Hk as [->|Hk]; [reflexivity|]. by apply elem_of_nil in Hk.
Qed.

Lemma demo_schema : validate_named "repo-patch-execution-permit.schema.json" demo_permit = Ok ().
Proof. reflexivity. Qed.

Lemma demo_semantics : validate_repo_patch_execution_permit_semantics demo_permit = Ok ().
Proof.
  apply sealed_semantics; [exact demo_core_clean|reflexivity|reflexivity|reflexivity|exact demo_core_issues].
Qed.

(** ** Issuing it *)

(** The ledger after a first permit. *)
Definition first_ledger (permit : dict) (id key now : string) : dict :=
  [("permits", VDict [(id, VDict (issued_record permit now))]);
   ("consumed_nonces", VDict []);
   ("idempotency", VDict [(key, VStr id)]);
   ("fenced_roots", VDict []);
   ("tip", dgetN "ledger_tip_after" permit)].

Lemma first_issue store b key id nonce core :
  permit_core store b id nonce key GENESIS_LEDGER_TIP = Ok core →
  validate_named "repo-patch-execution-permit.schema.json" (sealed store GENESIS_LEDGER_TIP core) = Ok () →
  validate_repo_patch_execution_permit_semantics (sealed store GENESIS_LEDGER_TIP core) = Ok () →
  issue_body store b key id nonce []
  = Ok (sealed store GENESIS_LEDGER_TIP core,
        first_ledger (sealed store GENESIS_LEDGER_TIP core) id key (b_issued_at b)).
Proof.
  intros Hc Hv Hs. pose proof (permit_core_fields _ _ _ _ _ _ _ Hc) as (Hnone & _).
  pose proof (seal_permit_sealed store GENESIS_LEDGER_TIP core Hnone) as Hseal.
  unfold issue_body. cbn [dsetdefault dget dset String.eqb Ascii.eqb Bool.eqb py_contains dhas mbind res_bind].
  change (py_str (py_or (dgetN "tip" _) _)) with GENESIS_LEDGER_TIP.
  change (py_get (VDict []) key) with (Ok VNone). cbn [mbind res_bind is_none negb].
  rewrite Hc. cbn [mbind res_bind]. rewrite Hseal, Hv. cbn [mbind res_bind]. rewrite Hs. reflexivity.
Qed.

Definition demo_ledger : file :=
  locked_exit [] false (first_ledger demo_permit "permit_1" "dec-1:patch" "2026-01-01T00:00:00Z") no_file.

Lemma demo_issue :
  issue accept_gate demo_store no_file demo_fs demo_decision demo_evaluation demo_gate "dec-1:patch" 300
    "permit_1" demo_nonce demo_now = (Ok demo_permit, demo_ledger).
Proof.
  unfold issue. rewrite demo_binding_ok. apply locked_json_Ok; [reflexivity|].
  exact (first_issue _ demo_binding _ _ _ _ demo_core_ok demo_schema demo_semantics).
Qed.

Lemma demo_unused : key_unused no_file "dec-1:patch".
Proof. by exists []. Qed.

Lemma issued_permit_verifies_witness : check_authority demo_store demo_permit = Ok ().
Proof. exact (issued_permit_verifies _ _ _ _ _ _ _ _ _ _ _ _ _ _ demo_issue demo_unused). Defined.

Lemma sealed_permit_valid_witness :
  validate_repo_patch_execution_permit_semantics (seal_permit demo_store GENESIS_LEDGER_TIP demo_core) = Ok ().
Proof.
  apply sealed_permit_valid; [exact demo_core_clean|reflexivity|reflexivity|reflexivity|exact demo_core_issues].
Defined.

Lemma accepted_permit_is_bound_witness :
  digests_ok demo_permit ∧ proof_ok demo_permit ∧ window_ok demo_permit ∧ claims_ok demo_permit
  ∧ dgetN "action_kind" demo_permit = VStr REPO_PATCH_ACTION_KIND
  ∧ dgetN "authority_scope" demo_permit = VStr REPO_PATCH_AUTHORITY_SCOPE.
Proof. exact (accepted_permit_is_bound demo_permit demo_semantics). Defined.

(** Issuing it again, with the files touched in between. *)
Lemma demo_calls_proper : Forall proper [CFiles demo_fs].
Proof. repeat constructor. Qed.

Lemma issue_idempotent_witness :
  ∃ permit' f2,
    issue accept_gate demo_store (w_ledger (run_calls demo_store (World demo_ledger demo_fs) [CFiles demo_fs]))
      demo_fs demo_decision demo_evaluation demo_gate "dec-1:patch" 60 "permit_2" "nonce" demo_now
    = (Ok permit', f2)
    ∧ ∀ k s, dget k demo_permit = Some (VStr s) → dget k permit' = Some (VStr s).
Proof.
  eapply (issue_idempotent accept_gate accept_gate demo_store no_file demo_fs demo_fs demo_decision demo_decision
    demo_evaluation demo_evaluation demo_gate demo_gate "dec-1:patch" 300 60 "permit_1" "permit_2" demo_nonce "nonce"
    demo_now demo_now demo_permit demo_ledger _ [CFiles demo_fs] demo_issue demo_unused demo_calls_proper).
  - reflexivity.
  - reflexivity.
  - eexists. split; reflexivity.
Defined.

(** ** Consuming it *)

(** The record of the prepared permit, and the ledger it is in. *)
Definition prepared_record : dict := [("permit", json_sort (VDict demo_permit)); ("state", VStr "prepared")].
Definition prepared_records : dict := [("permit_1", VDict prepared_record)].

(** The ledger once the action has been prepared. *)
Definition prepared_ledger : file :=
  File (Some (Text (VDict [("permits", VDict prepared_records)]))) [].

Lemma demo_authority : check_authority demo_store demo_permit = Ok ().
Proof.
  pose proof (permit_core_fields _ _ _ _ _ _ _ demo_core_ok) as (Hnone & Hiss & Haud & _).
  exact (sealed_authority demo_store _ _ eq_refl Hnone Hiss Haud demo_schema demo_semantics).
Qed.

Lemma demo_validates :
  validate_permit demo_store demo_fs demo_permit demo_decision "dec-1:patch" demo_parameters demo_now = Ok ().
Proof.
  unfold validate_permit. rewrite demo_authority. cbn [mbind res_bind].
  change (repo_patch_target_binding demo_fs _)
    with (Ok (Path "/" ["repo"], Path "/" ["repo"; "app.py"], bytes_digest "x = 1")). cbn [mbind res_bind].
  change (check_window demo_permit demo_now) with (@Ok unit ()). cbn [mbind res_bind].
  rewrite !same_item_refl by reflexivity. cbn [mbind res_bind negb].
  change (decision_key demo_decision) with (Ok "dec-1:patch"). cbn [mbind res_bind].
  change (dgetN "decision_id" demo_decision) with (VStr "dec-1").
  rewrite !same_item_refl by reflexivity. cbn [mbind res_bind negb].
  rewrite String.eqb_refl. cbn [negb].
  change (repo_patch_postimage demo_fs _ _) with (Ok ("x = 2", bytes_digest "x = 2")). cbn [mbind res_bind].
  rewrite !same_item_refl by reflexivity. reflexivity.
Qed.

Lemma demo_consume_body :
  ∃ d', consume_body demo_permit "permit_1" demo_nonce demo_now [("permits", VDict prepared_records)] = Ok ((), d').
Proof.
  apply (consume_body_grants demo_permit "permit_1" demo_nonce demo_now prepared_records prepared_record
    "2026-01-01T00:00:00Z"); [reflexivity|reflexivity|by apply py_eq_read_back|reflexivity..].
Qed.

Definition demo_receipt : dict := match consumption demo_permit with Ok r => r | Err _ => [] end.

Lemma demo_consume :
  ∃ f', consume demo_store prepared_ledger demo_fs demo_permit demo_decision "dec-1:patch" demo_parameters
          (λ _, Ok ()) demo_now demo_now = (Ok demo_receipt, f').
Proof.
  destruct demo_consume_body as [d' Hb]. eexists.
  apply (consume_grants demo_store prepared_ledger demo_fs demo_permit demo_decision "dec-1:patch" demo_parameters
    (λ _, Ok ()) demo_now demo_now demo_now "permit_1" demo_nonce [("permits", VDict prepared_records)] d' demo_receipt
    demo_validates); [reflexivity|reflexivity|reflexivity|reflexivity|exact Hb|reflexivity|reflexivity].
Qed.

Lemma consume_authorised_witness : within demo_permit demo_now.
Proof.
  destruct demo_consume as (f' & H).
  exact (proj1 (proj2 (consume_authorised _ _ _ _ _ _ _ _ _ _ _ _ H))).
Defined.

(** A committed permit, and an abort that names this state and finds nothing to
    restore: the permit needs recovery afterwards. *)
Definition committed_ledger : file :=
  File (Some (Text (VDict [("permits", VDict [("permit_1", VDict [("permit", VDict demo_permit); ("state", VStr "committed")])])]))) [].

Definition late_abort : permit_call :=
  CAbort demo_permit "committed" "too late" [] (λ _, Ok ()) true demo_now demo_now.

Theorem late_abort_reopens :
  file_has committed_ledger (state_path "permit_1") "committed"
  ∧ file_has (w_ledger (run_calls demo_store (World committed_ledger demo_fs) [late_abort])) (state_path "permit_1") "recovery_required".
Proof. split; eexists; split; vm_compute; reflexivity. Qed.

Lemma permit_state_follows_transitions_witness :
  ∃ s, file_has (w_ledger (run_calls demo_store (World committed_ledger demo_fs) [late_abort])) (state_path "permit_1") s
    ∧ rtc (moves [late_abort]) "committed" s
    ∧ ("committed" ∈ TERMINAL_STATES → s = "committed" ∨ s = "recovery_required" ∧ Exists (aborts_from "committed") [late_abort])
    ∧ (Forall proper [late_abort] → rtc step "committed" s ∧ ("committed" ∈ TERMINAL_STATES → s = "committed")).
Proof. apply permit_state_follows_transitions. eexists. split; vm_compute; reflexivity. Defined.

Lemma permit_consumed_once_witness :
  let call := CConsume demo_permit demo_decision "dec-1:patch" demo_parameters (λ _, Ok ()) demo_now demo_now in
  (grants demo_store "permit_id" "permit_1" (World prepared_ledger demo_fs) [call; call] <= 1)%nat
  ∧ (grants demo_store "authority_nonce" demo_nonce (World prepared_ledger demo_fs) [call; call] <= 1)%nat.
Proof. apply permit_consumed_once. Defined.

(** ** Where the target lies *)

Lemma demo_fs_no_links l t : fs_nodes demo_fs !! l ≠ Some (NLink t).
Proof.
  unfold demo_fs. cbn [fs_nodes]. intros H.
  apply lookup_insert_Some in H as [[_ H]|[_ H]]; [done|].
  apply lookup_insert_Some in H as [[_ H]|[_ H]]; [done|]. by rewrite lookup_empty in H.
Qed.

Lemma target_binding_confined_witness :
  ∃ relative content allowed,
    ["repo"; "app.py"] = ["repo"] ++ relative
    ∧ clean (fs_nodes demo_fs) ["repo"; "app.py"]
    ∧ fs_nodes demo_fs !! ["repo"; "app.py"] = Some (NFile content)
    ∧ bytes_digest "x = 1" = bytes_digest content
    ∧ (items ← py_iter (dget_or "allowed_paths" (VList []) demo_parameters); res_map allowed_path_str items) = Ok allowed
    ∧ path_str (Path "" relative) ∈ allowed.
Proof.
  apply (target_binding_confined demo_fs demo_parameters (Path "/" ["repo"]) (Path "/" ["repo"; "app.py"])).
  - apply no_links_no_loops, demo_fs_no_links.
  - split; [intros t; apply demo_fs_no_links|]. split; [|constructor]. intros a b t _. apply demo_fs_no_links.
  - reflexivity.
Defined.

(** ** Undoing it *)

(** The patch applied, with the backup of the original. *)
Definition patched_fs : filesystem :=
  Filesystem (<[["repo"] := NDir]> (<[["repo"; "app.py"] := NFile "x = 2"]>
    (<[["state"] := NDir]> (<[["state"; "backups"] := NDir]>
      (<[["state"; "backups"; "p.bak"] := NFile "x = 1"]> ∅))))) [].

(** The fields of a permit that undoing looks at. *)
Definition small_permit : dict :=
  [("permit_id", VStr "p"); ("repo_path", VStr "/repo"); ("target_path", VStr "/repo/app.py");
   ("target_preimage_digest", VStr (bytes_digest "x = 1"));
   ("target_postimage_digest", VStr (bytes_digest "x = 2"))].

Definition applied_world (fs : filesystem) : world :=
  World (File (Some (Text (VDict [("permits", VDict [("p", VDict
    [("permit", VDict small_permit); ("state", VStr "applied");
     ("transaction", VDict [("backup_path", VStr "/state/backups/p.bak")])])])]))) []) fs.

Definition run_abort (fs : filesystem) : res dict * world :=
  abort_with_restoration demo_store (applied_world fs) small_permit "applied" "tests failed" [] (λ _, Ok ()) true
    demo_now demo_now.

Lemma run_abort_ok : ∃ r w', run_abort patched_fs = (Ok r, w').
Proof. vm_compute. eauto. Qed.

Lemma abort_restores_or_fences_witness :
  ∃ w' id, dgetN "permit_id" small_permit = VStr id
    ∧ ((file_has (w_ledger w') (state_path id) "aborted"
        ∧ ∃ preimage, dgetN "target_preimage_digest" small_permit = VStr preimage
            ∧ file_digest (w_fs w') (parse_path (py_str (dgetN "target_path" small_permit))) = Ok preimage)
       ∨ (file_has (w_ledger w') (state_path id) "recovery_required"
          ∧ (permit_root (VDict small_permit) ≠ "" →
             ∃ s, file_has (w_ledger w') (fence_path (permit_root (VDict small_permit))) s))).
Proof.
  destruct run_abort_ok as (r & w' & H). exists w'. exact (abort_restores_or_fences _ _ _ _ _ _ _ _ _ _ _ _ H).
Defined.

Definition run_recovery (fs : filesystem) : res (list dict) * world :=
  recover_incomplete_actions demo_store (λ _, Ok ()) (λ _, true) (λ _, demo_now) (applied_world fs).

Lemma run_recovery_ok : ∃ entries w', run_recovery patched_fs = (Ok entries, w').
Proof. vm_compute. eauto. Qed.

Lemma recovery_settles_witness : ∃ w' s', settled s' ∧ file_has (w_ledger w') (state_path "p") s'.
Proof.
  destruct run_recovery_ok as (entries & w' & H). exists w'.
  apply (recovery_settles _ _ _ _ _ _ _ "p" "applied" H); [|reflexivity].
  eexists. split; reflexivity.
Defined.

(** Without the backup the action is fenced, and then no permit is issued. *)
Definition run_fence : res dict * file :=
  fence_recovery demo_store (w_ledger (applied_world demo_fs)) "p" "applied" (VDict small_permit)
    "authority backup is missing" (λ _, Ok ()) demo_now.

Definition fenced_ledger : file := run_fence.2.

Lemma run_fence_ok : ∃ r, run_fence = (Ok r, fenced_ledger).
Proof. eexists. reflexivity. Qed.

Lemma fenced_root_refuses_witness :
  issue accept_gate demo_store fenced_ledger demo_fs demo_decision demo_evaluation demo_gate "dec-1:patch" 300
    "permit_1" demo_nonce demo_now
  = (raise ValueError "repo patch root is fenced pending authority recovery", fenced_ledger).
Proof.
  destruct run_fence_ok as [r H].
  exact (fenced_root_refuses accept_gate demo_store _ demo_fs "p" "applied" (VDict small_permit) _ _ _ r
    fenced_ledger [] demo_decision demo_evaluation demo_gate "dec-1:patch" 300 "permit_1" demo_nonce demo_now
    demo_binding H demo_binding_ok eq_refl ltac:(done)).
Defined.

(** ** A file with DOS line ends *)

Definition dos_text : string := String "a" (String cr (String lf (String "b" (String cr (String lf ""))))).

Definition dos_fs : filesystem := Filesystem (<[["f"] := NFile dos_text]> ∅) [].

Definition dos_template : dict := [("find", VStr "a"); ("replace", VStr "c")].

Lemma postimage_rewrites_line_ends_witness :
  no_cr (String "c" (String lf (String "b" (String lf "")))).
Proof.
  apply (postimage_rewrites_line_ends dos_fs [("patch_template", VDict dos_template)] dos_template (Path "/" ["f"])
    _ (bytes_digest (String "c" (String lf (String "b" (String lf "")))))); [reflexivity|reflexivity|].
  unfold no_cr. compute_done.
Defined.
