(* ===== verification/HsaiBridge.v ===== *)
(** * The admission bridge

    [src/shared/mesh_runtime/hsai_bridge.py]: the request a repository patch
    makes to the external admission gate, what is checked of the answer, and
    the proof packet that binds both to what was executed.  The gate is an
    argument; so are clock readings.  Contract instances are the dictionaries
    of [Contracts]. *)

From S2P Require Import Prelude PyFloat PyValue Json Sha256 DateTime PyNumbers Paths Models SchemaValidation Schemas Contracts.
#[local] Open Scope Z_scope.

(** * Splitting command lines

    [shlex.split] of the Python library, with its defaults: POSIX rules and no
    comments.  One pass over the characters. *)

(** Between words, in a word, in quotes, and after a backslash, which returns
    to the quotes it came from. *)
Inductive lex_state :=
  | Blank
  | Word
  | Quoted (quote : ascii)
  | Escaped (quote : option ascii).

Definition shlex_blank (c : ascii) : bool :=
  let n := byte_z c in (n =? 32) || (n =? 9) || (n =? 13) || (n =? 10).
Definition shlex_quote (c : ascii) : bool := Ascii.eqb c dquote || Ascii.eqb c squote.

(** [token] holds the characters of the word so far, last first, and [quoted]
    says that it had quotes, so that it counts even if it is empty. *)
Fixpoint shlex_go (l : list ascii) (st : lex_state) (token : list ascii) (quoted : bool) : res (list string) :=
  let word := chars_str (rev token) in
  match l with
  | [] =>
      match st with
      | Quoted _ => raise ValueError "No closing quotation"
      | Escaped _ => raise ValueError "No escaped character"
      | _ => Ok (match token, quoted with [], false => [] | _, _ => [word] end)
      end
  | c :: l =>
      match st with
      | Blank | Word =>
          if shlex_blank c then
            match token, quoted with
            | [], false => shlex_go l Blank [] false
            | _, _ => words ← shlex_go l Blank [] false; Ok (word :: words)
            end
          else if Ascii.eqb c bslash then shlex_go l (Escaped None) token quoted
          else if shlex_quote c then shlex_go l (Quoted c) token quoted
          else shlex_go l Word (c :: token) quoted
      | Quoted q =>
          if Ascii.eqb c q then shlex_go l Word token true
          else if Ascii.eqb c bslash && Ascii.eqb q dquote then shlex_go l (Escaped (Some q)) token true
          else shlex_go l (Quoted q) (c :: token) true
      | Escaped None => shlex_go l Word (c :: token) quoted
      | Escaped (Some q) =>
          let token := if Ascii.eqb c bslash || Ascii.eqb c q then token else bslash :: token in
          shlex_go l (Quoted q) (c :: token) quoted
      end
  end.

Definition shlex_split (s : string) : res (list string) := shlex_go (str_chars s) Blank [] false.

(** ** Plain words *)

Definition plain_char (c : ascii) : bool := negb (shlex_blank c || Ascii.eqb c bslash || shlex_quote c).
Definition plain_word (s : string) : bool := negb (String.eqb s "") && forallb plain_char (str_chars s).

Lemma plain_char_false c :
  plain_char c = true → shlex_blank c = false ∧ Ascii.eqb c bslash = false ∧ shlex_quote c = false.
Proof. unfold plain_char. rewrite negb_true_iff, !orb_false_iff. tauto. Qed.

Lemma shlex_plain_go w l st token :
  forallb plain_char w = true → w ≠ [] → st = Blank ∨ st = Word →
  shlex_go (w ++ l) st token false = shlex_go l Word (rev w ++ token) false.
Proof.
  revert st token. induction w as [|c w IH]; intros st token; [done|]. cbn [forallb].
  rewrite andb_true_iff. intros [(Hb & Hs & Hq)%plain_char_false Hw] _ Hst. cbn [app shlex_go].
  assert (shlex_go (w ++ l) Word (c :: token) false = shlex_go l Word (rev (c :: w) ++ token) false) as E.
  { cbn [rev]. rewrite <- app_assoc. cbn [app]. destruct w as [|c' w']; [done|]. apply IH; auto; done. }
  destruct Hst as [-> | ->]; by rewrite Hb, Hs, Hq.
Qed.

(** Words without blanks, quotes and backslashes, joined by spaces, come back. *)
Theorem shlex_split_join words :
  forallb plain_word words = true → shlex_split (str_join " " words) = Ok words.
Proof.
  unfold shlex_split. induction words as [|w words IH]; [done|]. cbn [forallb].
  rewrite andb_true_iff. intros [[Hne Hw]%andb_prop Hws].
  assert (str_chars w ≠ []) as Hnil by (intros E; destruct w; done).
  assert (∃ c t, rev (str_chars w) ++ [] = c :: t ∧ chars_str (rev (c :: t)) = w) as (c & t & E & Ew).
  { rewrite app_nil_r. destruct (rev (str_chars w)) as [|c t] eqn:E.
    - apply (f_equal (@rev ascii)) in E. by rewrite rev_involutive in E.
    - exists c, t. split; [done|]. by rewrite <- E, rev_involutive, chars_str_chars. }
  destruct words as [|w' words].
  - cbn [str_join]. rewrite <- (app_nil_r (str_chars w)), shlex_plain_go by auto. cbn [shlex_go].
    by rewrite E, Ew.
  - change (str_join " " (w :: w' :: words)) with (w +:+ (" " +:+ str_join " " (w' :: words))).
    rewrite !str_chars_app, shlex_plain_go by auto. cbn [str_chars app shlex_go].
    rewrite IH by done. by rewrite E, Ew.
Qed.

Lemma shlex_split_join_witness : shlex_split (str_join " " ["pytest"; "-q"; "tests/x.py"]) = Ok ["pytest"; "-q"; "tests/x.py"].
Proof. apply (shlex_split_join ["pytest"; "-q"; "tests/x.py"]). reflexivity. Defined.

(** Quotes and escapes *)
Example shlex_quotes :
  shlex_split ("a '' " +:+ String dquote ("b\ \" +:+ String dquote ("c d" +:+ String dquote "e\ f")))
  = Ok ["a"; ""; "b\ " +:+ String dquote "c de f"].
Proof. vm_compute. reflexivity. Qed.

(** ** Constants *)

Definition HSAI_ADMISSION_REQUEST_VERSION : string := "mesh.hsai_admission_request.v1".
Definition HSAI_ADMISSION_REQUEST_V2_VERSION : string := "mesh.hsai_admission_request.v2".
Definition HSAI_ADMISSION_DECISION_VERSION : string := "mesh.hsai_admission_decision.v1".
Definition COMBINED_PROOF_PACKET_VERSION : string := "mesh.combined_proof_packet.v1".
Definition COMBINED_PROOF_PACKET_VERIFICATION_VERSION : string := "mesh.combined_proof_packet_verification.v1".
Definition HSAI_EXECUTION_CONTEXT_VERSION : string := "mesh.hsai_execution_context.v1".
Definition EXECUTION_CONTEXT_KEY : string := "_mesh_hsai_admission_context".

Definition DEFAULT_EXPLICIT_NONCLAIMS : list string :=
  ["does_not_claim_global_correctness"; "does_not_claim_security_review_complete";
   "does_not_claim_production_certification"; "does_not_claim_accepted_hsai_evidence"; "does_not_claim_formal_proof"].
Definition DEFAULT_REQUESTED_CLAIMS : list string :=
  ["patch_applies_cleanly"; "tests_passed"; "no_protected_paths_modified"].
Definition DEFAULT_PROTECTED_REPO_PATHS : list string := [".git"; ".github"; "AGENTS.md"].

(** ** Helpers *)

(** [json.dumps(..., allow_nan=False)] and its digest *)
Definition sha256_digest (payload : value) : res string :=
  encoded ← dumps_finite true payload;
  Ok ("sha256:" +:+ sha256_hex encoded).

Definition decision_digest (decision : dict) : res string := sha256_digest (VDict (dpop "decision_digest" decision)).

Definition executor_receipt_digest (status : string) (external_refs : dict) (failure : option dict) : res string :=
  sha256_digest (VDict [("status", VStr status); ("external_refs", VDict external_refs); ("failure", opt_dict failure)]).

(** [_string_list] *)
Definition string_list (v : value) : list string :=
  match v with VList l => sort_strings (map py_str l) | _ => [] end.

(** The strings among the items of a list: all of them where a schema says so. *)
Definition str_items (v : value) : list string := match v with VList l => omap as_str l | _ => [] end.

(** [list(d.get(key) or [])] *)
Definition list_or_nil (key : string) (d : dict) : res value :=
  l ← py_iter (py_or (dgetN key d) (VList [])); Ok (VList l).

(** [str(a or b or default)] *)
Definition first_str (a b : value) (default : string) : string := py_str (py_or (py_or a b) (VStr default)).

Definition require_digest (label : string) (v : value) : res unit :=
  let canonical := match v with VStr s => str_startswith "sha256:" s && Nat.eqb (length (utf8_chars s)) 71 | _ => false end in
  raise_if negb canonical with ValueError (label +:+ " is not a canonical sha256 digest");
  Ok ().

(** [decision.execution_plan.get(key)] *)
Definition plan_get (decision : dict) (key : string) : res value := py_get (dgetN "execution_plan" decision) key.

(** [_dict(decision.execution_plan.get("parameters"))] *)
Definition plan_parameters (decision : dict) : res dict :=
  p ← plan_get decision "parameters"; Ok (dict_or_empty p).

Definition repo_patch_requires_hsai (decision : dict) : res bool :=
  system ← plan_get decision "system";
  action ← plan_get decision "action";
  Ok (is_string "repo_patch_service" system && is_string "investigate_and_patch" action).

Definition mesh_policy_allows (evaluation : dict) : bool :=
  truthy (dgetN "passed" evaluation) && is_string "execute" (dgetN "final_recommendation" evaluation).

Definition expected_mesh_run_id (decision : dict) : res string :=
  parameters ← plan_parameters decision;
  Ok (first_str (dgetN "mesh_run_id" parameters) (dgetN "run_id" parameters)
        ("run_" +:+ py_str (dgetN "trigger_id" decision))).

Definition expected_mesh_action_id (decision : dict) : res string :=
  parameters ← plan_parameters decision;
  Ok (py_str (py_or (dgetN "mesh_action_id" parameters) (dgetN "decision_id" decision))).

(** [_mesh_policy_id] *)
Definition mesh_policy_id (decision evaluation parameters : dict) : res string :=
  let explicit := dgetN "mesh_policy_id" parameters in
  if truthy explicit then Ok (py_str explicit)
  else
    validation ← py_get (dgetN "stage_results" evaluation) "policy_validation";
    let validation := dict_or_empty validation in
    let policy_id := py_or (dgetN "policy_id" validation) (dgetN "policy_ref" validation) in
    if truthy policy_id then Ok (py_str policy_id)
    else Ok ("mesh_policy://" +:+ py_str (dgetN "autonomy_tier" decision) +:+ "/" +:+ py_str (dgetN "evaluation_id" evaluation)).

Definition decision_payload_without_hsai_context (decision : dict) : res dict :=
  payload ← to_dict Decision decision;
  parameters ← plan_parameters payload;
  if dhas EXECUTION_CONTEXT_KEY parameters then
    plan ← py_dict (dgetN "execution_plan" payload);
    Ok (dset "execution_plan" (VDict (dset "parameters" (VDict (dpop EXECUTION_CONTEXT_KEY parameters)) plan)) payload)
  else Ok payload.

(** ** Requests *)

Definition actor_ref (parameters : dict) : dict :=
  let actor := dict_or_empty (dgetN "actor_ref" parameters) in
  [("actor_id", VStr (first_str (dgetN "actor_id" actor) (dgetN "actor_id" parameters) "mesh.orchestrator"));
   ("team_id", VStr (first_str (dgetN "team_id" actor) (dgetN "team_id" parameters) "mesh.default"))].

(** [_string_list(parameters.get(key)) if key in parameters else list(default)] *)
Definition claims_of (key : string) (default : list string) (parameters : dict) : list string :=
  if dhas key parameters then string_list (dgetN key parameters) else default.

(** [_evidence_packet] *)
Definition evidence_packet (decision evaluation : dict) : dict :=
  [("schema_version", VStr "mesh.repo_patch_evidence_packet.v1"); ("decision_id", dgetN "decision_id" decision);
   ("decision_reasoning", dgetN "reasoning" decision); ("evaluation_id", dgetN "evaluation_id" evaluation);
   ("evaluation_stage_results", dgetN "stage_results" evaluation);
   ("blocking_reasons", dgetN "blocking_reasons" evaluation)].

(** What the digest of the proposed action covers. *)
Definition action_proposal (decision : dict) : value :=
  VDict [("decision_id", dgetN "decision_id" decision); ("execution_plan", dgetN "execution_plan" decision);
         ("risk", dgetN "risk" decision)].

Definition build_hsai_admission_request (decision evaluation : dict) (now : string) : res dict :=
  parameters ← plan_parameters decision;
  evidence_digest ← sha256_digest (VDict (evidence_packet decision evaluation));
  policy_id ← mesh_policy_id decision evaluation parameters;
  run_id ← expected_mesh_run_id decision;
  action_id ← expected_mesh_action_id decision;
  proposal_digest ← sha256_digest (action_proposal decision);
  candidate ← decision_payload_without_hsai_context decision;
  candidate_digest ← sha256_digest (VDict candidate);
  let request :=
    [("schema_version", VStr HSAI_ADMISSION_REQUEST_VERSION); ("mesh_run_id", VStr run_id);
     ("mesh_action_id", VStr action_id); ("action_kind", VStr "repo_patch");
     ("actor_ref", VDict (actor_ref parameters)); ("mesh_policy_id", VStr policy_id);
     ("action_proposal_digest", VStr proposal_digest); ("candidate_payload_digest", VStr candidate_digest);
     ("evidence_packet_digest", VStr evidence_digest);
     ("attestation_refs", VList [VDict [("kind", VStr "mesh_runtime_proof_packet"); ("digest", VStr evidence_digest)]]);
     ("requested_claims", strs (claims_of "requested_claims" DEFAULT_REQUESTED_CLAIMS parameters));
     ("explicit_nonclaims", strs (claims_of "explicit_nonclaims" DEFAULT_EXPLICIT_NONCLAIMS parameters));
     ("created_at", VStr now)] in
  _ ← validate_named "hsai-admission-request.schema.json" request;
  Ok request.

(** *** Version 2, bound to a preflight *)

(** The words of a declared verification command. *)
Definition command_words (command : value) : res (list string) :=
  match command with
  | VStr s =>
      argv ← shlex_split s;
      raise_if (match argv with [] => true | _ => existsb (String.eqb "") argv end)
        with ValueError "HSAI v2 candidate verification command is empty";
      Ok argv
  | _ => raise ValueError "HSAI v2 candidate verification command must be a string"
  end.

Definition declared_commands (parameters : dict) : res (list (list string)) :=
  match dgetN "test_commands" parameters with
  | VList ((_ :: _) as commands) => res_map command_words commands
  | _ => raise ValueError "HSAI v2 candidate requires verification commands"
  end.

(** The executed command: the declared one, with an absolute program. *)
Definition executed_command (declared : list string) (result : value) : res (list string) :=
  match result with
  | VDict r =>
      match dgetN "argv" r with
      | VList ((_ :: _) as argv) =>
          let words := omap as_str argv in
          raise_if negb (Nat.eqb (length words) (length argv)) || existsb (String.eqb "") words
            with ValueError "HSAI v2 preflight test argv is invalid";
          raise_if negb (is_absolute (parse_path (default "" (head words)))) || bool_decide (tail words ≠ tail declared)
            with ValueError "HSAI v2 preflight argv is not bound to the declared verification command";
          Ok words
      | _ => raise ValueError "HSAI v2 preflight test argv is invalid"
      end
  | _ => raise ValueError "HSAI v2 preflight test result must be an object"
  end.

Definition executed_commands (declared : list (list string)) (preflight_receipt : value) : res (list (list string)) :=
  results ← py_get preflight_receipt "test_results";
  match results with
  | VList results =>
      raise_if negb (Nat.eqb (length results) (length declared))
        with ValueError "HSAI v2 preflight commands do not match the declared verification commands";
      res_map (λ p, executed_command p.1 p.2) (combine declared results)
  | _ => raise ValueError "HSAI v2 preflight commands do not match the declared verification commands"
  end.

(** [str(d.get(key) or "")] *)
Definition text_at (key : string) (d : dict) : value := VStr (py_str (py_or (dgetN key d) (VStr ""))).

(** [_normalized_repo_patch_candidate] *)
Definition normalized_repo_patch_candidate (decision evaluation : dict) (preflight_receipt : value) : res dict :=
  parameters ← plan_parameters decision;
  repo_patch ← repo_patch_requires_hsai decision;
  raise_if negb repo_patch with ValueError "HSAI v2 candidate is not the bounded repo-patch action";
  let action_id := dgetN "mesh_action_id" parameters in
  raise_if negb (is_none action_id) && negb (py_eq (VStr (py_str action_id)) (dgetN "decision_id" decision))
    with ValueError "HSAI v2 candidate mesh action id must equal the decision id";
  let patch_template := dict_or_empty (dgetN "patch_template" parameters) in
  declared ← declared_commands parameters;
  commands ← executed_commands declared preflight_receipt;
  policy_id ← mesh_policy_id decision evaluation parameters;
  run_id ← expected_mesh_run_id decision;
  rollback_plan ← plan_get decision "rollback_plan";
  let plan :=
    [("system", VStr "repo_patch_service"); ("action", VStr "investigate_and_patch");
     ("parameters", VDict
        [("repo_path", text_at "repo_path" parameters);
         ("allowed_paths", strs (string_list (dgetN "allowed_paths" parameters)));
         ("protected_paths", strs (claims_of "protected_paths" DEFAULT_PROTECTED_REPO_PATHS parameters));
         ("patch_template", VDict [("target_file", text_at "target_file" patch_template);
                                   ("find", text_at "find" patch_template); ("replace", text_at "replace" patch_template)]);
         ("test_commands", VList (map strs commands)); ("mesh_run_id", VStr run_id);
         ("mesh_action_id", dgetN "decision_id" decision); ("mesh_policy_id", VStr policy_id);
         ("actor_ref", VDict (actor_ref parameters))]);
     ("rollback_plan", VStr (py_str (py_or rollback_plan (VStr ""))))] in
  Ok (map (λ k, (k, dgetN k decision))
        ["decision_id"; "trigger_id"; "decision_type"; "autonomy_tier"; "summary"; "reasoning"; "expected_outcome";
         "risk"; "confidence"]
      ++ [("execution_plan", VDict plan)]).

(** The members of a candidate that the request repeats. *)
Definition candidate_parameter (key : string) (candidate : dict) : value :=
  dgetN key (dict_or_empty (dgetN "parameters" (dict_or_empty (dgetN "execution_plan" candidate)))).

Definition pre_execution_evidence (decision evaluation preflight_receipt : dict) : res dict :=
  let stage_results := dict_or_empty (dgetN "stage_results" evaluation) in
  reasons ← py_iter (dgetN "blocking_reasons" evaluation);
  stage_digest ← sha256_digest (VDict stage_results);
  Ok [("schema_version", VStr "mesh.repo_patch_pre_execution_evidence.v1"); ("decision_id", dgetN "decision_id" decision);
      ("evaluation_id", dgetN "evaluation_id" evaluation); ("evaluation_passed", dgetN "passed" evaluation);
      ("final_recommendation", dgetN "final_recommendation" evaluation); ("blocking_reasons", VList reasons);
      ("stage_results", VDict stage_results); ("stage_results_digest", VStr stage_digest);
      ("preflight_receipt", VDict preflight_receipt)].

Definition build_hsai_admission_request_v2 (decision evaluation preflight_receipt : dict) (now : string) : res dict :=
  parameters ← plan_parameters decision;
  candidate ← normalized_repo_patch_candidate decision evaluation (VDict preflight_receipt);
  candidate_digest ← sha256_digest (VDict candidate);
  evidence ← pre_execution_evidence decision evaluation preflight_receipt;
  evidence_digest ← sha256_digest (VDict evidence);
  proposal_digest ← sha256_digest (action_proposal candidate);
  let request :=
    [("schema_version", VStr HSAI_ADMISSION_REQUEST_V2_VERSION);
     ("mesh_run_id", candidate_parameter "mesh_run_id" candidate); ("mesh_action_id", dgetN "decision_id" decision);
     ("action_kind", VStr "repo_patch"); ("actor_ref", candidate_parameter "actor_ref" candidate);
     ("mesh_policy_id", candidate_parameter "mesh_policy_id" candidate);
     ("action_proposal_digest", VStr proposal_digest); ("candidate_payload_digest", VStr candidate_digest);
     ("evidence_packet_digest", VStr evidence_digest);
     ("attestation_refs", VList [VDict [("kind", VStr "mesh_repo_patch_preflight_receipt"); ("digest", VStr evidence_digest)]]);
     ("requested_claims", strs (claims_of "requested_claims" DEFAULT_REQUESTED_CLAIMS parameters));
     ("explicit_nonclaims", strs (claims_of "explicit_nonclaims" DEFAULT_EXPLICIT_NONCLAIMS parameters));
     ("created_at", VStr now); ("candidate_payload", VDict candidate); ("pre_execution_evidence", VDict evidence)] in
  _ ← validate_named "hsai-admission-request-v2.schema.json" request;
  Ok request.

(** ** Decisions of the gate *)

(** [type(exc).__name__] *)
Definition class_name (c : exc_class) : string :=
  match c with
  | ValueError => "ValueError" | TypeError => "TypeError" | KeyError => "KeyError" | IndexError => "IndexError"
  | AttributeError => "AttributeError" | OverflowError => "OverflowError" | OSError => "OSError"
  | RuntimeError => "RuntimeError" | UnicodeError => "UnicodeError" | JSONDecodeError => "JSONDecodeError"
  | SchemaValidationError => "SchemaValidationError" | AuthorityStoreError => "AuthorityStoreError"
  | AuthorityConflictError => "AuthorityConflictError" | AuthorityNotFoundError => "AuthorityNotFoundError"
  | AuthorityStateError => "AuthorityStateError" | RepoPatchPermitSemanticError => "RepoPatchPermitSemanticError"
  end.

(** [validate_payload] of a value that may be no dictionary *)
Definition validate_value (schema_name : string) (v : value) : res unit :=
  schema ← load_schema schema_name; validate_node v schema "$".

(** [_error_decision] *)
Definition error_decision (request : dict) (reason now : string) : res dict :=
  request_digest ← sha256_digest (VDict request);
  nonclaims ← list_or_nil "explicit_nonclaims" request;
  reason_digest ← sha256_digest (VStr reason);
  let decision :=
    [("schema_version", VStr HSAI_ADMISSION_DECISION_VERSION);
     ("decision_id", VStr ("hsai_error_" +:+ py_str (dget_or "mesh_action_id" (VStr "unknown") request)));
     ("mesh_run_id", text_at "mesh_run_id" request); ("mesh_action_id", text_at "mesh_action_id" request);
     ("action_kind", text_at "action_kind" request); ("request_digest", VStr request_digest);
     ("candidate_digest", text_at "candidate_payload_digest" request); ("decision", VStr "error");
     ("admission_policy_id", text_at "mesh_policy_id" request);
     ("gate_results", VList [VDict [("gate", VStr "bridge_adapter"); ("result", VStr "error");
                                    ("metadata_digest", VStr reason_digest)]]);
     ("accepted_claims", VList []); ("enforced_nonclaims", nonclaims);
     ("formal_evidence_metadata", VDict
        [("backend", VStr "hsai-bridge-adapter"); ("phase_range", VStr "265-277");
         ("backend_run_id", VStr "unavailable_or_invalid"); ("metadata_digest", VStr reason_digest);
         ("nonclaim", VStr "error metadata only; not formal proof, accepted evidence, or production certification")]);
     ("reason_codes", strs [reason]); ("created_at", VStr now)] in
  digest ← decision_digest decision;
  Ok (dset "decision_digest" (VStr digest) decision).

(** [_validate_hsai_request_payload] *)
Definition validate_hsai_request_payload (request : dict) : res unit :=
  let version := dgetN "schema_version" request in
  if is_string HSAI_ADMISSION_REQUEST_VERSION version then validate_named "hsai-admission-request.schema.json" request
  else if is_string HSAI_ADMISSION_REQUEST_V2_VERSION version then validate_named "hsai-admission-request-v2.schema.json" request
  else raise ValueError "unsupported HSAI admission request schema version".

(** [if d\[k\] != e\[k'\]: raise ValueError(message)] *)
Definition require_equal (d : dict) (k : string) (e : dict) (k' message : string) : res unit :=
  a ← ditem k d; b ← ditem k' e;
  raise_if negb (py_eq a b) with ValueError message; Ok ().

Definition validate_hsai_decision (request : dict) (decision : value) : res unit :=
  _ ← validate_hsai_request_payload request;
  _ ← validate_value "hsai-admission-decision.schema.json" decision;
  let decision := dict_or_empty decision in
  expected_request_digest ← sha256_digest (VDict request);
  _ ← (v ← ditem "request_digest" decision; require_digest "hsai request digest" v);
  _ ← (v ← ditem "candidate_digest" decision; require_digest "hsai candidate digest" v);
  _ ← (v ← ditem "decision_digest" decision; require_digest "hsai decision digest" v);
  _ ← res_iter (λ field, v ← ditem field request; require_digest ("hsai request " +:+ field) v)
        ["action_proposal_digest"; "candidate_payload_digest"; "evidence_packet_digest"];
  raise_if negb (py_eq (dgetN "request_digest" decision) (VStr expected_request_digest))
    with ValueError "hsai request digest mismatch";
  _ ← require_equal decision "mesh_run_id" request "mesh_run_id" "hsai mesh run id mismatch";
  _ ← require_equal decision "mesh_action_id" request "mesh_action_id" "hsai mesh action id mismatch";
  _ ← require_equal decision "action_kind" request "action_kind" "hsai action kind mismatch";
  _ ← require_equal decision "candidate_digest" request "candidate_payload_digest" "hsai candidate digest mismatch";
  _ ← require_equal decision "admission_policy_id" request "mesh_policy_id" "hsai policy id mismatch";
  raise_if is_string "allow" (dgetN "decision" decision) && negb (truthy (dgetN "explicit_nonclaims" request))
    with ValueError "hsai request missing explicit nonclaims";
  let missing := sorted_diff (str_items (dgetN "explicit_nonclaims" request)) (str_items (dgetN "enforced_nonclaims" decision)) in
  raise_if (match missing with [] => false | _ => true end)
    with ValueError ("hsai enforced nonclaims missing: " +:+ py_repr (strs missing));
  expected_decision_digest ← decision_digest decision;
  raise_if negb (py_eq (dgetN "decision_digest" decision) (VStr expected_decision_digest))
    with ValueError "hsai decision digest mismatch";
  Ok ().

(** ** The gate *)

(** The members of the request that may not be blank. *)
Definition GATE_FIELDS : list string :=
  ["mesh_run_id"; "mesh_action_id"; "mesh_policy_id"; "action_proposal_digest"; "candidate_payload_digest";
   "evidence_packet_digest"].

Definition is_v2 (request : dict) : bool := is_string HSAI_ADMISSION_REQUEST_V2_VERSION (dgetN "schema_version" request).

(** [if a != b: raise ValueError(message)] *)
Definition require_same (a b : value) (message : string) : res unit :=
  raise_if negb (py_eq a b) with ValueError message; Ok ().

(** The candidate digest that the request has to have. *)
Definition expected_candidate_digest (request expected_decision : dict) : res value :=
  if is_v2 request then
    digest ← sha256_digest (VDict (dict_or_empty (dgetN "candidate_payload" request)));
    _ ← require_same (dgetN "candidate_payload_digest" request) (VStr digest) "bridge gate v2 candidate payload digest mismatch";
    digest ← sha256_digest (VDict (dict_or_empty (dgetN "pre_execution_evidence" request)));
    _ ← require_same (dgetN "evidence_packet_digest" request) (VStr digest) "bridge gate v2 evidence packet digest mismatch";
    Ok (dgetN "candidate_payload_digest" request)
  else
    candidate ← decision_payload_without_hsai_context expected_decision;
    digest ← sha256_digest (VDict candidate);
    Ok (VStr digest).

(** The request is for this decision. *)
Definition validate_gate_decision (request expected_decision : dict) : res unit :=
  candidate_digest ← expected_candidate_digest request expected_decision;
  run_id ← expected_mesh_run_id expected_decision;
  _ ← require_same (dgetN "mesh_run_id" request) (VStr run_id) "bridge gate mesh run id mismatch";
  action_id ← expected_mesh_action_id expected_decision;
  _ ← require_same (dgetN "mesh_action_id" request) (VStr action_id) "bridge gate mesh action id mismatch";
  _ ← require_same (dgetN "candidate_payload_digest" request) candidate_digest "bridge gate current candidate digest mismatch";
  candidate ← (if is_v2 request then Ok (dict_or_empty (dgetN "candidate_payload" request))
               else to_dict Decision expected_decision);
  decision_id ← ditem "decision_id" candidate;
  plan ← ditem "execution_plan" candidate;
  risk ← ditem "risk" candidate;
  proposal_digest ← sha256_digest (VDict [("decision_id", decision_id); ("execution_plan", plan); ("risk", risk)]);
  require_same (dgetN "action_proposal_digest" request) (VStr proposal_digest) "bridge gate action proposal digest mismatch".

(** [a is b] for booleans *)
Definition same_bool (a b : value) : bool := (is_true a && is_true b) || (is_false a && is_false b).

(** The evidence of a version 2 request is of this evaluation. *)
Definition validate_gate_evidence (request expected_decision expected_evaluation : dict) : res unit :=
  let evidence := dict_or_empty (dgetN "pre_execution_evidence" request) in
  let receipt := dget_or "preflight_receipt" (VDict []) evidence in
  candidate ← normalized_repo_patch_candidate expected_decision expected_evaluation receipt;
  _ ← require_same (dgetN "candidate_payload" request) (VDict candidate) "bridge gate v2 current candidate payload mismatch";
  _ ← require_same (dgetN "decision_id" evidence) (dgetN "decision_id" expected_decision) "bridge gate v2 evidence decision mismatch";
  _ ← require_same (dgetN "evaluation_id" evidence) (dgetN "evaluation_id" expected_evaluation)
        "bridge gate v2 evaluation id mismatch";
  raise_if negb (same_bool (dgetN "evaluation_passed" evidence) (dgetN "passed" expected_evaluation))
    with ValueError "bridge gate v2 evaluation verdict mismatch";
  _ ← require_same (dgetN "final_recommendation" evidence) (dgetN "final_recommendation" expected_evaluation)
        "bridge gate v2 recommendation mismatch";
  reasons ← py_iter (dgetN "blocking_reasons" expected_evaluation);
  _ ← require_same (dgetN "blocking_reasons" evidence) (VList reasons) "bridge gate v2 blocking reasons mismatch";
  let stage_results := dgetN "stage_results" expected_evaluation in
  _ ← require_same (dgetN "stage_results" evidence) stage_results "bridge gate v2 stage results mismatch";
  digest ← sha256_digest stage_results;
  require_same (dgetN "stage_results_digest" evidence) (VStr digest) "bridge gate v2 stage results digest mismatch".

(** The request is under the policy of this evaluation. *)
Definition validate_gate_policy (request expected_decision expected_evaluation : dict) : res unit :=
  parameters ← plan_parameters expected_decision;
  policy_id ← mesh_policy_id expected_decision expected_evaluation parameters;
  _ ← require_same (dgetN "mesh_policy_id" request) (VStr policy_id) "bridge gate mesh policy id mismatch";
  if is_v2 request then validate_gate_evidence request expected_decision expected_evaluation else Ok ().

Definition validate_bridge_gate (gate : dict) (expected_decision expected_evaluation : option dict)
    (require_mesh_policy_approved : bool) : res unit :=
  let request := dict_or_empty (dgetN "request" gate) in
  let decision := dict_or_empty (dgetN "decision" gate) in
  _ ← validate_hsai_decision request (VDict decision);
  digest ← sha256_digest (VDict request);
  _ ← require_same (dgetN "request_digest" gate) (VStr digest) "bridge gate request digest mismatch";
  _ ← require_same (dgetN "decision_digest" gate) (dgetN "decision_digest" decision) "bridge gate decision digest mismatch";
  _ ← require_same (dgetN "candidate_digest" gate) (dgetN "candidate_payload_digest" request)
        "bridge gate candidate digest mismatch";
  _ ← res_iter (λ field,
        raise_if String.eqb (str_strip (py_str (py_or (dgetN field request) (VStr "")))) ""
          with ValueError ("bridge gate missing " +:+ field); Ok ()) GATE_FIELDS;
  raise_if negb (is_string "repo_patch" (dgetN "action_kind" request)) with ValueError "bridge gate action kind mismatch";
  _ ← (match expected_decision with Some d => validate_gate_decision request d | None => Ok () end);
  _ ← (match expected_evaluation with
       | None => Ok ()
       | Some e =>
           _ ← (match expected_decision with Some d => validate_gate_policy request d e | None => Ok () end);
           raise_if require_mesh_policy_approved && negb (mesh_policy_allows e)
             with ValueError "bridge gate Mesh policy is not approved";
           Ok ()
       end);
  let allow := is_string "allow" (dgetN "decision" decision) in
  raise_if allow && negb (is_true (dgetN "allowed" gate)) with ValueError "bridge gate allow flag mismatch";
  raise_if negb allow && is_true (dgetN "allowed" gate) with ValueError "bridge gate deny/error flag mismatch";
  Ok ().

(** The gate for a decision that passed [validate_hsai_decision]. *)
Definition gate_of (request decision : dict) (authority_eligible : option bool) : res dict :=
  request_digest ← sha256_digest (VDict request);
  decision_digest ← ditem "decision_digest" decision;
  candidate_digest ← ditem "candidate_digest" decision;
  reasons ← list_or_nil "reason_codes" decision;
  Ok ([("allowed", VBool (is_string "allow" (dgetN "decision" decision)))]
      ++ match authority_eligible with Some b => [("authority_eligible", VBool b)] | None => [] end
      ++ [("request", VDict request); ("decision", VDict decision); ("request_digest", VStr request_digest);
          ("decision_digest", decision_digest); ("candidate_digest", candidate_digest); ("reason_codes", reasons)]).

(** The decision [evaluate_hsai_gate] settles on: the answer of the gate when it
    is one to this request, and otherwise an error. *)
Definition settled_decision (request : dict) (answer : res value) (now now' : string) : res value :=
  raw ← (match answer with
         | Ok v => Ok v
         | Err e => d ← error_decision request ("hsai_unavailable:" +:+ class_name (exc_cls e) +:+ ":" +:+ exc_str e) now;
                    Ok (VDict d)
         end);
  match validate_hsai_decision request raw with
  | Ok _ => Ok raw
  | Err e =>
      if isinstance_exc (exc_cls e) ValueError then
        d ← error_decision request ("hsai_malformed_or_mismatched:" +:+ exc_str e) now';
        _ ← validate_hsai_decision request (VDict d);
        Ok (VDict d)
      else Err e
  end.

(** [evaluate_hsai_gate]; [answer] is what [adapter.admit(request)] does. *)
Definition evaluate_hsai_gate (request : dict) (answer : res value) (authority_eligible : bool) (now now' : string) : res dict :=
  decision ← settled_decision request answer now now';
  gate ← gate_of request (dict_or_empty decision) (Some authority_eligible);
  _ ← validate_bridge_gate gate None None false;
  Ok gate.

(** ** Proof packets *)

(** The members of a packet that repeat the request. *)
Definition PACKET_FIELDS : list string := ["mesh_run_id"; "mesh_action_id"; "mesh_policy_id"].

(** [audit.get(key) is True] or equal to a text, else the message *)
Definition require_audit (ok : bool) (message : string) : res unit := raise_if negb ok with ValueError message; Ok ().

(** The audit metadata of a packet. *)
Definition validate_audit (audit request decision : dict) : res unit :=
  _ ← require_audit (is_true (dgetN "exportable" audit)) "combined proof packet must be exportable";
  _ ← require_audit (is_string "mesh_proof_export.v1" (dgetN "format" audit)) "combined proof packet export format mismatch";
  _ ← require_audit (is_true (dgetN "included_in_execution_external_refs" audit))
        "combined proof packet missing execution export assertion";
  _ ← require_audit (is_string "mesh.hsai_admission_bridge.v1" (dgetN "state_slice" audit))
        "combined proof packet state slice mismatch";
  _ ← (version ← ditem "schema_version" request;
       require_same (dgetN "hsai_request_schema_version" audit) version "combined proof packet request schema version mismatch");
  _ ← (version ← ditem "schema_version" decision;
       require_same (dgetN "hsai_decision_schema_version" audit) version
         "combined proof packet decision schema version mismatch");
  _ ← require_audit (is_string "json.sha256.sorted_keys.compact.v1" (dgetN "canonical_digest" audit))
        "combined proof packet canonical digest assertion mismatch";
  _ ← require_audit (is_true (dgetN "replay_protected" audit)) "combined proof packet replay protection assertion missing";
  metadata ← ditem "formal_evidence_metadata" decision;
  require_same (dgetN "formal_evidence_metadata" audit) metadata "combined proof packet formal metadata mismatch".

(** What the packet says was executed. *)
Definition validate_result (packet : dict) : res unit :=
  let result := dict_or_empty (dgetN "action_execution_result" packet) in
  let status := py_str (py_or (dgetN "status" result) (VStr "")) in
  let receipt := dgetN "executor_receipt_digest" packet in
  raise_if String.eqb status "blocked" && negb (is_none receipt)
    with ValueError "blocked combined proof packet cannot include executor receipt";
  raise_if mem_str status ["executed"; "failed"] && negb (truthy receipt)
    with ValueError "executed combined proof packet requires executor receipt";
  raise_if dhas "accepted_claims" packet || dhas "accepted_claims" result
    with ValueError "combined proof packet cannot promote accepted claims";
  Ok ().

Definition validate_combined_proof_packet (gate packet : dict) : res unit :=
  _ ← validate_bridge_gate gate None None false;
  _ ← validate_named "combined-proof-packet.schema.json" packet;
  let request := dict_or_empty (dgetN "request" gate) in
  let decision := dict_or_empty (dgetN "decision" gate) in
  _ ← res_iter (λ k, require_equal packet k request k ("combined proof packet " +:+ k +:+ " mismatch")) PACKET_FIELDS;
  _ ← require_equal packet "hsai_request_digest" gate "request_digest" "combined proof packet request digest mismatch";
  _ ← require_equal packet "hsai_decision_digest" gate "decision_digest" "combined proof packet decision digest mismatch";
  _ ← require_equal packet "hsai_candidate_digest" gate "candidate_digest" "combined proof packet candidate digest mismatch";
  _ ← require_equal packet "hsai_decision" decision "decision" "combined proof packet HSAI decision mismatch";
  nonclaims ← (v ← ditem "enforced_nonclaims" decision; py_iter v);
  _ ← require_same (dgetN "nonclaims" packet) (VList nonclaims) "combined proof packet nonclaims mismatch";
  _ ← validate_audit (dict_or_empty (dgetN "audit_export_metadata" packet)) request decision;
  validate_result packet.

Definition build_combined_proof_packet (gate : dict) (mesh_policy_approved : bool) (action_execution_result : dict)
    (executor_receipt_digest : option string) (now : string) (expected_decision expected_evaluation : option dict) : res dict :=
  _ ← validate_bridge_gate gate expected_decision expected_evaluation mesh_policy_approved;
  let request := dict_or_empty (dgetN "request" gate) in
  let decision := dict_or_empty (dgetN "decision" gate) in
  nonclaims ← py_iter (dgetN "enforced_nonclaims" decision);
  let packet :=
    [("schema_version", VStr COMBINED_PROOF_PACKET_VERSION); ("mesh_run_id", dgetN "mesh_run_id" request);
     ("mesh_action_id", dgetN "mesh_action_id" request); ("mesh_policy_id", dgetN "mesh_policy_id" request);
     ("hsai_request_digest", dgetN "request_digest" gate); ("hsai_decision_digest", dgetN "decision_digest" gate);
     ("hsai_candidate_digest", dgetN "candidate_digest" gate); ("hsai_decision", dgetN "decision" decision);
     ("nonclaims", VList nonclaims); ("action_execution_result", VDict action_execution_result);
     ("executor_receipt_digest", opt_str executor_receipt_digest);
     ("audit_export_metadata", VDict
        [("exportable", VBool true); ("format", VStr "mesh_proof_export.v1");
         ("included_in_execution_external_refs", VBool true); ("mesh_policy_approved", VBool mesh_policy_approved);
         ("canonical_digest", VStr "json.sha256.sorted_keys.compact.v1");
         ("hsai_request_schema_version", dgetN "schema_version" request);
         ("hsai_decision_schema_version", dgetN "schema_version" decision); ("replay_protected", VBool true);
         ("state_slice", VStr "mesh.hsai_admission_bridge.v1");
         ("formal_evidence_metadata", dgetN "formal_evidence_metadata" decision)]);
     ("created_at", VStr now)] in
  _ ← validate_combined_proof_packet gate packet;
  Ok packet.

(** [_validate_combined_proof_claim_adequacy] *)
Definition validate_claim_adequacy (request decision packet : dict) : res unit :=
  let accepted := string_list (dgetN "accepted_claims" decision) in
  let requested := string_list (dgetN "requested_claims" request) in
  _ ← (if is_string "allow" (dgetN "decision" decision) then
         raise_if negb (truthy (dgetN "nonclaims" packet))
           with ValueError "allowed combined proof packet must preserve nonclaims";
         raise_if (match accepted with [] => true | _ => false end)
           with ValueError "allowed HSAI decision must preserve accepted claims";
         raise_if negb (forallb (λ c, mem_str c requested) accepted)
           with ValueError "allowed HSAI decision accepted claims exceed requested claims";
         Ok ()
       else
         raise_if (match accepted with [] => false | _ => true end)
           with ValueError "non-allow HSAI decision cannot preserve accepted claims";
         let result := dict_or_empty (dgetN "action_execution_result" packet) in
         raise_if negb (is_string "blocked" (dgetN "status" result))
           with ValueError "non-allow combined proof packet must be blocked";
         let missing := sorted_diff (string_list (dgetN "reason_codes" decision)) (string_list (dgetN "hsai_reason_codes" result)) in
         raise_if (match missing with [] => false | _ => true end)
           with ValueError ("non-allow combined proof packet missing HSAI reason codes: " +:+ py_repr (strs missing));
         Ok ());
  let metadata := dict_or_empty (dgetN "formal_evidence_metadata" (dict_or_empty (dgetN "audit_export_metadata" packet))) in
  raise_if String.eqb (str_strip (py_str (py_or (dgetN "nonclaim" metadata) (VStr "")))) ""
    with ValueError "combined proof packet formal metadata must preserve nonclaim boundary";
  Ok ().

(** [verify_combined_proof_packet_payload]: the first issue, if there is one. *)
Definition packet_issue (packet request decision : dict) : res unit :=
  _ ← validate_hsai_decision request (VDict decision);
  gate ← gate_of request decision None;
  _ ← validate_combined_proof_packet gate packet;
  validate_claim_adequacy request decision packet.

Definition verify_combined_proof_packet_payload (packet request decision : dict) : res dict :=
  issues ← (match packet_issue packet request decision with
            | Ok _ => Ok []
            | Err e => if isinstance_exc (exc_cls e) ValueError then Ok [exc_str e] else Err e
            end);
  Ok ([("schema_version", VStr COMBINED_PROOF_PACKET_VERIFICATION_VERSION);
       ("status", VStr (match issues with [] => "pass" | _ => "fail" end)); ("issues", strs issues)]
      ++ map (λ k, (k, dgetN k packet))
           ["mesh_run_id"; "mesh_action_id"; "mesh_policy_id"; "hsai_request_digest"; "hsai_decision_digest";
            "hsai_candidate_digest"; "hsai_decision"]).

(** ** Execution contexts *)

Definition attach_hsai_execution_context (decision gate : dict) (execution_permit : option dict) : res dict :=
  _ ← validate_bridge_gate gate (Some decision) None false;
  payload ← decision_payload_without_hsai_context decision;
  plan ← py_dict (dgetN "execution_plan" payload);
  parameters ← py_dict (py_or (dgetN "parameters" plan) (VDict []));
  _ ← (match execution_permit with
       | Some permit => validate_named "repo-patch-execution-permit.schema.json" permit
       | None => Ok ()
       end);
  let context :=
    [("schema_version", VStr HSAI_EXECUTION_CONTEXT_VERSION); ("request", dgetN "request" gate);
     ("decision", dgetN "decision" gate); ("request_digest", dgetN "request_digest" gate);
     ("decision_digest", dgetN "decision_digest" gate); ("candidate_digest", dgetN "candidate_digest" gate)]
    ++ match execution_permit with Some permit => [("execution_permit", VDict permit)] | None => [] end in
  from_dict Decision
    (dset "execution_plan" (VDict (dset "parameters" (VDict (dset EXECUTION_CONTEXT_KEY (VDict context) parameters)) plan))
       payload).

Definition validate_hsai_execution_context (decision : dict) : res dict :=
  parameters ← plan_parameters decision;
  let context := dict_or_empty (dgetN EXECUTION_CONTEXT_KEY parameters) in
  raise_if negb (is_string HSAI_EXECUTION_CONTEXT_VERSION (dgetN "schema_version" context))
    with ValueError "missing or unsupported HSAI execution context";
  let request := dict_or_empty (dgetN "request" context) in
  let admission := dict_or_empty (dgetN "decision" context) in
  _ ← validate_hsai_decision request (VDict admission);
  run_id ← expected_mesh_run_id decision;
  _ ← require_same (dgetN "mesh_run_id" request) (VStr run_id) "HSAI execution context mesh run id mismatch";
  action_id ← expected_mesh_action_id decision;
  _ ← require_same (dgetN "mesh_action_id" request) (VStr action_id) "HSAI execution context mesh action id mismatch";
  digest ← sha256_digest (VDict request);
  _ ← require_same (dgetN "request_digest" context) (VStr digest) "HSAI execution context request digest mismatch";
  _ ← require_same (dgetN "decision_digest" context) (dgetN "decision_digest" admission)
        "HSAI execution context decision digest mismatch";
  _ ← require_same (dgetN "candidate_digest" context) (dgetN "candidate_payload_digest" request)
        "HSAI execution context candidate digest mismatch";
  _ ← (if is_v2 request then
         gate ← gate_of request admission None;
         validate_bridge_gate gate (Some decision) None false
       else
         candidate ← decision_payload_without_hsai_context decision;
         digest ← sha256_digest (VDict candidate);
         require_same (dgetN "candidate_payload_digest" request) (VStr digest)
           "HSAI execution context decision payload mismatch");
  raise_if negb (is_string "allow" (dgetN "decision" admission)) with ValueError "HSAI execution context is not allow";
  Ok context.

(** [repo_patch_admission_failure] *)
Definition repo_patch_admission_failure (decision : dict) : res (option dict) :=
  match validate_hsai_execution_context decision with
  | Ok _ => Ok None
  | Err e =>
      if isinstance_exc (exc_cls e) ValueError then
        Ok (Some [("status", VStr "failed"); ("external_refs", VDict []);
                  ("failure", VDict [("reason", VStr "hsai_admission_context_invalid"); ("detail", VStr (exc_str e))]);
                  ("retryable", VBool false)])
      else Err e
  end.

(** The decision of the local adapter; [metadata] is that of a formal backend
    run, if there is one. *)
Definition local_hsai_allow_decision (request : dict) (now : string) (metadata : option dict) : res dict :=
  let bare := negb (truthy (dgetN "explicit_nonclaims" request)) in
  let result := VStr (if bare then "fail" else "pass") in
  action_id ← ditem "mesh_action_id" request;
  run_id ← ditem "mesh_run_id" request;
  action_kind ← ditem "action_kind" request;
  request_digest ← sha256_digest (VDict request);
  candidate_digest ← ditem "candidate_payload_digest" request;
  policy_id ← ditem "mesh_policy_id" request;
  evidence_digest ← ditem "evidence_packet_digest" request;
  let nonclaims := py_or (dgetN "explicit_nonclaims" request) (VList []) in
  nonclaims_digest ← sha256_digest nonclaims;
  accepted ← (if bare then Ok [] else claims ← ditem "requested_claims" request; py_iter claims);
  enforced ← py_iter nonclaims;
  local_digest ← sha256_digest (VDict [("phase_range", VStr "265-277"); ("request_digest", VStr request_digest);
                                       ("nonclaims", nonclaims)]);
  let local :=
    [("backend", VStr "hsai-local-adapter"); ("phase_range", VStr "265-277"); ("backend_run_id", VStr "local_metadata_only");
     ("metadata_digest", VStr local_digest);
     ("nonclaim", VStr "local metadata only; not formal proof, accepted evidence, or production certification")] in
  let decision :=
    [("schema_version", VStr HSAI_ADMISSION_DECISION_VERSION); ("decision_id", VStr ("hsai_decision_" +:+ py_str action_id));
     ("mesh_run_id", run_id); ("mesh_action_id", action_id); ("action_kind", action_kind);
     ("request_digest", VStr request_digest); ("candidate_digest", candidate_digest);
     ("decision", VStr (if bare then "deny" else "allow")); ("admission_policy_id", policy_id);
     ("gate_results", VList
        [VDict [("gate", VStr "candidate_evidence"); ("result", result); ("metadata_digest", evidence_digest)];
         VDict [("gate", VStr "nonclaim_enforcement"); ("result", result); ("metadata_digest", VStr nonclaims_digest)]]);
     ("accepted_claims", VList accepted); ("enforced_nonclaims", VList enforced);
     ("formal_evidence_metadata", match metadata with Some ((_ :: _) as m) => VDict m | _ => VDict local end);
     ("reason_codes", strs (if bare then ["missing_explicit_nonclaims"] else [])); ("created_at", VStr now)] in
  digest ← decision_digest decision;
  let decision := dset "decision_digest" (VStr digest) decision in
  _ ← validate_named "hsai-admission-decision.schema.json" decision;
  Ok decision.
