(* ===== verification/HsaiTheorems.v ===== *)
(** * Theorems about the admission bridge

    Whatever the external gate answers or raises, a repository patch gets a
    gate, which is open exactly when the answer is a decision to this request
    that says so; what an accepted gate is bound to; when a packet verifies. *)

From S2P Require Import Prelude PyFloat PyValue Json Sha256 PyNumbers Signing Paths Models SchemaValidation Schemas Contracts PacketFacts Merkle HsaiBridge.
#[local] Open Scope Z_scope.

(** ** Definitions *)

(** The members of a request that hold a digest. *)
Definition DIGEST_FIELDS : list string := ["action_proposal_digest"; "candidate_payload_digest"; "evidence_packet_digest"].

(** A text that is not all white space. *)
Definition not_blank (v : value) : Prop := ∃ s, v = VStr s ∧ String.eqb (str_strip s) "" = false.

(** The computation returns a value or raises what the bridge catches. *)
Definition returns_or_value_error {A} (m : res A) : Prop :=
  match m with Ok _ => True | Err e => isinstance_exc (exc_cls e) ValueError = true end.

(** What a request has to be for the gate to be asked at all. *)
Record admissible (request : dict) : Prop := Admissible {
  ad_valid : validate_hsai_request_payload request = Ok ();
  ad_finite : json_finite (VDict request) = true;
  ad_kind : dgetN "action_kind" request = VStr "repo_patch";
  ad_blank : Forall (λ k, not_blank (dgetN k request)) GATE_FIELDS;
  ad_digests : Forall (λ k, ∃ s, dgetN k request = VStr s ∧ require_digest "" (VStr s) = Ok ()) DIGEST_FIELDS;
  ad_nonclaims : ∃ l, dgetN "explicit_nonclaims" request = VList (map VStr l) }.

(** The members of a decision before it is sealed. *)
Definition gate_result (g : string * string * string) : value :=
  VDict [("gate", VStr g.1.1); ("result", VStr g.1.2); ("metadata_digest", VStr g.2)].

Definition decision_fields (run act kind pol rd cd verdict now id : string) (gates : list (string * string * string))
    (acc l reasons : list string) (meta : dict) : dict :=
  [("schema_version", VStr HSAI_ADMISSION_DECISION_VERSION); ("decision_id", VStr id);
   ("mesh_run_id", VStr run); ("mesh_action_id", VStr act); ("action_kind", VStr kind); ("request_digest", VStr rd);
   ("candidate_digest", VStr cd); ("decision", VStr verdict); ("admission_policy_id", VStr pol);
   ("gate_results", VList (map gate_result gates)); ("accepted_claims", strs acc); ("enforced_nonclaims", strs l);
   ("formal_evidence_metadata", VDict meta); ("reason_codes", strs reasons); ("created_at", VStr now)].

(** When the verifier of packets is satisfied with what is claimed. *)
Record adequate (request decision result : dict) : Prop := Adequate {
  aq_allow : dgetN "decision" decision = VStr "allow" →
    string_list (dgetN "accepted_claims" decision) ≠ []
    ∧ string_list (dgetN "accepted_claims" decision) ⊆ string_list (dgetN "requested_claims" request);
  aq_refuse : dgetN "decision" decision ≠ VStr "allow" →
    string_list (dgetN "accepted_claims" decision) = [] ∧ dgetN "status" result = VStr "blocked"
    ∧ string_list (dgetN "reason_codes" decision) ⊆ string_list (dgetN "hsai_reason_codes" result);
  aq_metadata : String.eqb (str_strip (py_str (py_or
    (dgetN "nonclaim" (dict_or_empty (dgetN "formal_evidence_metadata" decision))) (VStr "")))) "" = false }.

(** What the check of a decision establishes. *)
Record accepted (request d : dict) : Prop := Accepted {
  ac_valid : validate_hsai_request_payload request = Ok ();
  ac_finite : json_finite (VDict request) = true;
  ac_conforms : conforms (VDict d) hsai_admission_decision_schema;
  ac_request : dgetN "request_digest" d = VStr ("sha256:" +:+ sha256_hex (dumps true (VDict request)));
  ac_same : Forall (λ p, ∃ s, dgetN p.1 d = VStr s ∧ dgetN p.2 request = VStr s)
    [("mesh_run_id", "mesh_run_id"); ("mesh_action_id", "mesh_action_id"); ("action_kind", "action_kind");
     ("candidate_digest", "candidate_payload_digest"); ("admission_policy_id", "mesh_policy_id")];
  ac_nonclaims : ∃ l m, dgetN "explicit_nonclaims" request = VList (map VStr l)
    ∧ dgetN "enforced_nonclaims" d = VList (map VStr m) ∧ l ⊆ m
    ∧ (is_string "allow" (dgetN "decision" d) = true → l ≠ []);
  ac_seal : ∃ dg, decision_digest d = Ok dg ∧ dgetN "decision_digest" d = VStr dg;
  ac_reasons : ∃ l, dgetN "reason_codes" d = VList (map VStr l) }.

(** The parts of a gate. *)
Definition gate_request (gate : dict) : dict := dict_or_empty (dgetN "request" gate).
Definition gate_decision (gate : dict) : dict := dict_or_empty (dgetN "decision" gate).

(** What the gate was accepted for. *)
Record bound_to (gate decision evaluation : dict) (approved : bool) : Prop := BoundTo {
  bt_accepted : accepted (gate_request gate) (gate_decision gate);
  bt_kind : dgetN "action_kind" (gate_request gate) = VStr "repo_patch";
  bt_run : ∃ s, expected_mesh_run_id decision = Ok s ∧ dgetN "mesh_run_id" (gate_request gate) = VStr s;
  bt_action : ∃ s, expected_mesh_action_id decision = Ok s ∧ dgetN "mesh_action_id" (gate_request gate) = VStr s;
  bt_payload : is_v2 (gate_request gate) = false → ∃ p s, decision_payload_without_hsai_context decision = Ok p
    ∧ sha256_digest (VDict p) = Ok s ∧ dgetN "candidate_payload_digest" (gate_request gate) = VStr s;
  bt_evidence : is_v2 (gate_request gate) = true → validate_gate_evidence (gate_request gate) decision evaluation = Ok ();
  bt_policy : approved = true → mesh_policy_allows evaluation = true;
  bt_allowed : is_true (dgetN "allowed" gate) = is_string "allow" (dgetN "decision" (gate_decision gate)) }.

(** ** Digests *)

Lemma utf8_chars_ascii s : is_ascii_str s = true → length (utf8_chars s) = String.length s.
Proof.
  unfold is_ascii_str. induction s as [|c s IH]; [done|]. cbn [str_chars forallb].
  intros [_ Hs]%andb_true_iff. specialize (IH Hs). cbn [utf8_chars String.length].
  assert (∀ w ws, utf8_chars s = w :: ws → ∃ d t, w = String d t ∧ byte_z d < 128) as Hhead.
  { clear IH. destruct s as [|d s]; [done|]. intros w ws. cbn [utf8_chars].
    cbn [str_chars forallb] in Hs. apply andb_true_iff in Hs as [Hd%Z.ltb_lt Hs].
    destruct (utf8_chars s) as [|[|e t] us]; try (intros [= <- _]; eauto).
    destruct (_ && _); intros [= <- _]; eauto. }
  destruct (utf8_chars s) as [|w ws]; [by rewrite <- IH|].
  destruct (Hhead w ws eq_refl) as (d & t & -> & Hd).
  replace (128 <=? byte_z d) with false by (symmetry; apply Z.leb_gt; lia).
  cbn [andb length] in *. by rewrite IH.
Qed.

Lemma require_digest_sha256 label x : require_digest label (VStr ("sha256:" +:+ sha256_hex x)) = Ok ().
Proof.
  unfold require_digest. pose proof (sha256_hex_shape x) as Hs. pose proof (sha256_ascii x) as Ha.
  unfold is_hex_string in Hs. apply andb_true_iff in Hs as [Hl%Nat.eqb_eq _].
  change (str_startswith "sha256:" ("sha256:" +:+ sha256_hex x)) with true.
  rewrite utf8_chars_ascii by exact Ha. rewrite str_length_app, Hl. reflexivity.
Qed.

Lemma require_digest_label l l' v : require_digest l v = Ok () → require_digest l' v = Ok ().
Proof. unfold require_digest. by destruct (match v with VStr _ => _ | _ => _ end). Qed.

Lemma sha256_digest_finite v : json_finite v = true → sha256_digest v = Ok ("sha256:" +:+ sha256_hex (dumps true v)).
Proof. unfold sha256_digest, dumps_finite. by intros ->. Qed.

Lemma sha256_digest_Ok v s :
  sha256_digest v = Ok s → json_finite v = true ∧ s = "sha256:" +:+ sha256_hex (dumps true v).
Proof. unfold sha256_digest, dumps_finite. destruct (json_finite v); [by intros [= <-]|done]. Qed.

(** [lstrip] keeps a last character that is in no white space. *)
Lemma first_prefix_spec ps l r : first_prefix ps l = Some r → ∃ p, p ∈ ps ∧ l = p ++ r.
Proof.
  assert (∀ p l r, drop_prefix p l = Some r → l = p ++ r) as Hd.
  { induction p as [|c p IH]; intros m t; [by destruct m; intros [= <-]|]. destruct m as [|d m]; [done|]. cbn.
    destruct (Ascii.eqb_spec c d) as [->|]; [|done]. intros H. by rewrite (IH _ _ H). }
  induction ps as [|p ps IH]; [done|]. cbn. destruct (drop_prefix p l) eqn:E.
  - intros [= <-]. exists p. split; [by left|by apply Hd].
  - intros H. destruct (IH H) as (q & Hq & ->). exists q. split; [by right|done].
Qed.

Lemma lstrip_keeps ps c n : is_ws c = false → Forall (λ p, c ∉ p) ps → ∀ l, ∃ l', lstrip_go ps n (l ++ [c]) = l' ++ [c].
Proof.
  intros Hc Hps. induction n as [|n IH]; intros l; [by exists l|]. cbn [lstrip_go].
  destruct (l ++ [c]) as [|d m] eqn:E; [by destruct l|].
  destruct (is_ws d) eqn:Hd.
  - destruct l as [|e l]; injection E as -> <-; [by rewrite Hc in Hd|apply IH].
  - destruct (first_prefix ps (d :: m)) as [r|] eqn:Ep; [|exists l; by rewrite E].
    destruct (first_prefix_spec _ _ _ Ep) as (p & Hp & Hr). rewrite <- E in Hr.
    rewrite Forall_forall in Hps. specialize (Hps p Hp).
    induction r as [|d' r _] using rev_ind.
    + destruct Hps. rewrite app_nil_r in Hr. rewrite <- Hr. apply elem_of_app. right. by left.
    + rewrite app_assoc in Hr. apply app_inj_tail in Hr as [_ <-]. apply IH.
Qed.

Lemma not_blank_sha256 x : not_blank (VStr ("sha256:" +:+ sha256_hex x)).
Proof.
  eexists. split; [done|]. apply String.eqb_neq. unfold str_strip.
  rewrite str_chars_app. cbn [str_chars app length]. generalize (str_chars (sha256_hex x)). intros l.
  match goal with |- context [lstrip_go ?ps (S ?n) (?c :: ?m)] =>
    assert (lstrip_go ps (S n) (c :: m) = c :: m) as -> by reflexivity end.
  cbn [rev]. edestruct (lstrip_keeps (map (@rev _) multibyte_ws) "s"%char) as [m ->]; [reflexivity| |].
  - by apply (bool_decide_unpack _).
  - rewrite rev_app_distr. done.
Qed.

(** ** Requests *)

(** What both versions of the schema say of the members that are read. *)
Lemma request_members request :
  validate_hsai_request_payload request = Ok () →
  ∃ run act kind pol l, dgetN "mesh_run_id" request = VStr run ∧ dgetN "mesh_action_id" request = VStr act
    ∧ dgetN "action_kind" request = VStr kind ∧ dgetN "mesh_policy_id" request = VStr pol
    ∧ dgetN "explicit_nonclaims" request = VList (map VStr l)
    ∧ Forall (λ k, dhas k request = true) DIGEST_FIELDS ∧ ∃ q, dgetN "requested_claims" request = VList (map VStr q).
Proof.
  unfold validate_hsai_request_payload. cbv zeta. intros H.
  match type of H with (if ?b then _ else _) = _ => destruct b end;
    [|match type of H with (if ?b then _ else _) = _ => destruct b end; [|discriminate H]].
  - apply (validate_named_conforms _ hsai_admission_request_schema) in H; [|reflexivity..].
    unfold hsai_admission_request_schema in H.
    member H "mesh_run_id" vr Er Hr. member H "mesh_action_id" va Ea Ha. member H "action_kind" vk Ek Hk.
    member H "mesh_policy_id" vp Ep Hp. member H "explicit_nonclaims" ve Ee He.
    member H "action_proposal_digest" v1 E1 H1. member H "candidate_payload_digest" v2 E2 H2. member H "evidence_packet_digest" v3 E3 H3.
    destruct (conforms_str _ _ Hr eq_refl) as [run ->]. destruct (conforms_str _ _ Ha eq_refl) as [act ->].
    destruct (conforms_str _ _ Hk eq_refl) as [kind ->]. destruct (conforms_str _ _ Hp eq_refl) as [pol ->].
    destruct (conforms_strings _ _ He eq_refl eq_refl eq_refl) as [l ->].
    exists run, act, kind, pol, l. unfold DIGEST_FIELDS, dhas. rewrite !Forall_cons, E1, E2, E3, Forall_nil.
    member H "requested_claims" vq Erq Hq. destruct (conforms_strings _ _ Hq eq_refl eq_refl eq_refl) as [q ->].
    repeat split; try (by apply dgetN_Some). exists q. by apply dgetN_Some.
  - apply (validate_named_conforms _ hsai_admission_request_v2_schema) in H; [|reflexivity..].
    unfold hsai_admission_request_v2_schema in H.
    member H "mesh_run_id" vr Er Hr. member H "mesh_action_id" va Ea Ha. member H "action_kind" vk Ek Hk.
    member H "mesh_policy_id" vp Ep Hp. member H "explicit_nonclaims" ve Ee He.
    member H "action_proposal_digest" v1 E1 H1. member H "candidate_payload_digest" v2 E2 H2. member H "evidence_packet_digest" v3 E3 H3.
    destruct (conforms_str _ _ Hr eq_refl) as [run ->]. destruct (conforms_str _ _ Ha eq_refl) as [act ->].
    destruct (conforms_str _ _ Hp eq_refl) as [pol ->].
    destruct (conforms_strings _ _ He eq_refl eq_refl eq_refl) as [l ->].
    apply conforms_inv in Hk as (Hk & _). specialize (Hk eq_refl). cbn in Hk. rewrite orb_false_r in Hk.
    apply py_eq_str in Hk as ->.
    exists run, act, "repo_patch", pol, l. unfold DIGEST_FIELDS, dhas. rewrite !Forall_cons, E1, E2, E3, Forall_nil.
    member H "requested_claims" vq Erq Hq. destruct (conforms_strings _ _ Hq eq_refl eq_refl eq_refl) as [q ->].
    repeat split; try (by apply dgetN_Some). exists q. by apply dgetN_Some.
Qed.

(** What the gate needs of the request follows from few facts. *)
Lemma admissible_intro request :
  validate_hsai_request_payload request = Ok () → json_finite (VDict request) = true →
  dgetN "action_kind" request = VStr "repo_patch" →
  Forall (λ k, not_blank (dgetN k request)) ["mesh_run_id"; "mesh_action_id"; "mesh_policy_id"] →
  Forall (λ k, ∃ x, dgetN k request = VStr ("sha256:" +:+ sha256_hex x)) DIGEST_FIELDS →
  admissible request.
Proof.
  intros Hv Hf Hk Hb Hd. destruct (request_members request Hv) as (run & act & kind & pol & l & _ & _ & _ & _ & Hl & _).
  split; [done..| | |by exists l].
  - unfold DIGEST_FIELDS, GATE_FIELDS in *. rewrite !Forall_cons in *.
    destruct Hb as (? & ? & ? & _), Hd as ((x & ->) & (y & ->) & (z & ->) & _).
    repeat split; try done; apply not_blank_sha256.
  - eapply Forall_impl; [exact Hd|]. intros k [x ->]. eexists. split; [done|apply require_digest_sha256].
Qed.

(** ** The check of a decision *)

Lemma rve_bind {A B} (m : res A) (k : A → res B) :
  returns_or_value_error m → (∀ a, m = Ok a → returns_or_value_error (k a)) → returns_or_value_error (mbind k m).
Proof. destruct m; [|done]. intros _ H. by apply H. Qed.

Lemma rve_if {A} (b : bool) msg (k : res A) :
  returns_or_value_error k → returns_or_value_error (if b then raise ValueError msg else k).
Proof. by destruct b. Qed.

Lemma rve_require_digest label v : returns_or_value_error (require_digest label v).
Proof. unfold require_digest. by apply rve_if. Qed.

Lemma rve_sha256_digest v : returns_or_value_error (sha256_digest v).
Proof. unfold sha256_digest, dumps_finite. by destruct (json_finite v). Qed.

Lemma ditem_dhas k d : dhas k d = true → ditem k d = Ok (dgetN k d).
Proof. unfold dhas, ditem, dgetN. by destruct (dget k d). Qed.

Lemma dhas_not_none k d v : dgetN k d = v → v ≠ VNone → dhas k d = true.
Proof. unfold dhas, dgetN. destruct (dget k d); [done|]. by intros <-. Qed.

Lemma require_equal_eq d k e k' message :
  dhas k d = true → dhas k' e = true →
  require_equal d k e k' message = (raise_if negb (py_eq (dgetN k d) (dgetN k' e)) with ValueError message; Ok ()).
Proof. intros Hd He. unfold require_equal. by rewrite (ditem_dhas k d Hd), (ditem_dhas k' e He). Qed.

(** An answer the schema accepts is a dictionary with these members. *)
Lemma decision_members v :
  validate_value "hsai-admission-decision.schema.json" v = Ok () →
  ∃ d, v = VDict d ∧ Forall (λ k, dhas k d = true)
    ["request_digest"; "candidate_digest"; "decision_digest"; "mesh_run_id"; "mesh_action_id"; "action_kind"; "admission_policy_id"]
  ∧ ∃ l, dget "reason_codes" d = Some (VList l).
Proof.
  intros H. unfold validate_value in H.
  pose proof (validate_node_decides v hsai_admission_decision_schema "$" eq_refl) as Hd.
  change (load_schema _) with (Ok hsai_admission_decision_schema) in H. cbn [mbind res_bind] in H. rewrite H in Hd.
  cbn [decides] in Hd. unfold hsai_admission_decision_schema in Hd. clear H.
  destruct (conforms_dict _ _ Hd eq_refl) as [d ->]. exists d. split; [done|].
  member Hd "request_digest" v1 E1 H1. member Hd "candidate_digest" v2 E2 H2. member Hd "decision_digest" v3 E3 H3.
  member Hd "mesh_run_id" v4 E4 H4. member Hd "mesh_action_id" v5 E5 H5. member Hd "action_kind" v6 E6 H6.
  member Hd "admission_policy_id" v7 E7 H7. member Hd "reason_codes" v8 E8 H8.
  destruct (conforms_list _ _ H8 eq_refl) as [l ->].
  split; [|by exists l]. unfold dhas. rewrite !Forall_cons, E1, E2, E3, E4, E5, E6, E7. done.
Qed.

Lemma rve_validate_value name schema v :
  load_schema name = Ok schema → schema_wf schema = true → returns_or_value_error (validate_value name v).
Proof.
  intros Hl Hwf. unfold validate_value. rewrite Hl. cbn [mbind res_bind].
  pose proof (validate_node_decides v schema "$" Hwf) as H. unfold decides, returns_or_value_error in *.
  destruct (validate_node v schema "$"); [done|]. by destruct H as [-> _].
Qed.

Lemma forallb_finite_strings l : forallb json_finite (map VStr l) = true.
Proof. by induction l. Qed.

Lemma str_items_strings l : str_items (VList (map VStr l)) = l.
Proof. cbn [str_items]. induction l as [|s l IH]; [done|]. cbn. by rewrite IH. Qed.

Lemma require_equal_Ok d k e k' message u :
  require_equal d k e k' message = Ok u → py_eq (dgetN k d) (dgetN k' e) = true.
Proof.
  unfold require_equal, ditem, dgetN. intros H. destruct (dget k d), (dget k' e); try discriminate H.
  cbn in *. by destruct (py_eq _ _).
Qed.

Lemma decision_check_inv request d : validate_hsai_decision request (VDict d) = Ok () → accepted request d.
Proof.
  intros Hm. unfold validate_hsai_decision in Hm. apply res_bind_Ok in Hm as ([] & Hv & Hm). apply res_bind_Ok in Hm as ([] & Hs & Hm).
  destruct (request_members request Hv) as (run & act & kind & pol & l & Erun & Eact & Ekind & Epol & El & _).
  unfold validate_value in Hs. pose proof (validate_node_decides (VDict d) hsai_admission_decision_schema "$" eq_refl) as Hc.
  change (load_schema _) with (Ok hsai_admission_decision_schema) in Hs. cbn [mbind res_bind] in Hs. rewrite Hs in Hc.
  cbn [decides] in Hc. clear Hs. pose proof Hc as Hc'. unfold hsai_admission_decision_schema in Hc'.
  member Hc' "enforced_nonclaims" vn En Hn. member Hc' "reason_codes" vr Er Hr. member Hc' "candidate_digest" vc Ec Hcd.
  destruct (conforms_strings _ _ Hn eq_refl eq_refl eq_refl) as [m ->].
  destruct (conforms_strings _ _ Hr eq_refl eq_refl eq_refl) as [r ->].
  destruct (conforms_str _ _ Hcd eq_refl) as [cd ->].
  cbv zeta in Hm. cbn [dict_or_empty as_dict default from_option id] in Hm. res_inv Hm.
  destruct (sha256_digest_Ok _ _ Hx) as [Hf ->].
  repeat match goal with H : require_equal _ _ _ _ _ = Ok _ |- _ => apply require_equal_Ok in H end.
  repeat match goal with H : negb _ = false |- _ => apply negb_false_iff, py_eq_str in H end.
  rewrite (dgetN_Some _ _ _ En), El, !str_items_strings in *.
  rewrite ?Erun, ?Eact, ?Ekind, ?Epol, (dgetN_Some _ _ _ Ec) in *. clear Hc'.
  repeat match goal with H : py_eq _ (VStr _) = true |- _ => apply py_eq_str in H
    | H : py_eq (VStr _) _ = true |- _ => apply py_eq_str_l in H end.
  split; try done; [|exists l, m|by exists x9|exists r; by apply dgetN_Some].
  - rewrite !Forall_cons, Forall_nil. cbn [fst snd]. apply dgetN_Some in Ec. repeat split; by eexists.
  - split; [done|]. split; [by apply dgetN_Some|]. split.
    + intros s Hs. assert (sorted_diff l m = []) as Hd by (by destruct (sorted_diff l m)).
      by apply (proj1 (sorted_diff_nil l m) Hd).
    + intros Ha ->. by rewrite Ha in Hg0.
Qed.

Section checked.
Context (request : dict) (Had : admissible request).

Lemma admissible_has k : k ∈ GATE_FIELDS ++ ["action_kind"] → dhas k request = true.
Proof.
  destruct Had as [_ _ Hk Hb _ _]. intros [Hin| ->%list_elem_of_singleton]%elem_of_app.
  - rewrite Forall_forall in Hb. destruct (Hb k Hin) as (s & Hs & _). by eapply dhas_not_none.
  - by eapply dhas_not_none.
Qed.

(** Whatever the answer is, the check returns or raises a [ValueError]. *)
Lemma rve_validate_hsai_decision v : returns_or_value_error (validate_hsai_decision request v).
Proof.
  unfold validate_hsai_decision. rewrite (ad_valid _ Had). cbn [mbind res_bind].
  apply rve_bind; [by eapply rve_validate_value|]. intros [] Hv.
  destruct (decision_members v Hv) as (d & -> & Hd & _). cbv zeta. cbn [dict_or_empty as_dict default from_option id].
  rewrite !Forall_cons in Hd. destruct Hd as (H1 & H2 & H3 & H4 & H5 & H6 & H7 & _).
  rewrite !ditem_dhas, !require_equal_eq by (try done; apply admissible_has; by apply mem_str_elem).
  cbn [mbind res_bind]. cbn [res_iter].
  rewrite !ditem_dhas by (apply admissible_has; by apply mem_str_elem). cbn [mbind res_bind].
  repeat first [apply rve_if | apply rve_bind; [first [apply rve_sha256_digest | apply rve_require_digest | by apply rve_if | repeat (apply rve_bind; [apply rve_require_digest|intros [] _])]|intros ? _] | done].
Qed.
(** *** The decision for an answer that cannot be used *)

Lemma text_at_str k d s : dgetN k d = VStr s → text_at k d = VStr s.
Proof. unfold text_at. intros ->. by destruct s. Qed.

Lemma list_or_nil_strings k d l : dgetN k d = VList (map VStr l) → list_or_nil k d = Ok (VList (map VStr l)).
Proof. unfold list_or_nil. intros ->. by destruct l. Qed.

Lemma decision_fields_conform run act kind pol rd cd verdict now id gates acc l reasons meta digest :
  mem_str verdict ["allow"; "deny"; "needs_human"; "error"] = true →
  conforms (VDict (decision_fields run act kind pol rd cd verdict now id gates acc l reasons meta ++ [("decision_digest", VStr digest)]))
    hsai_admission_decision_schema.
Proof.
  intros Hv. unfold decision_fields, hsai_admission_decision_schema, HSAI_ADMISSION_DECISION_VERSION. cbn [app].
  conform_step; try (by apply conforms_strs); try (by conform_step).
  - conform_step. intros _. exact Hv.
  - conform_step. apply Forall_forall. intros x (g & -> & _)%list_elem_of_fmap. unfold gate_result. repeat conform_step.
  - repeat conform_step. induction meta as [|[k v] meta IH]; [done|]. cbn. done.
Qed.

Lemma validate_value_ok name schema v :
  load_schema name = Ok schema → schema_wf schema = true → conforms v schema → validate_value name v = Ok ().
Proof.
  intros Hl Hwf Hc. unfold validate_value. rewrite Hl. cbn [mbind res_bind].
  pose proof (validate_node_decides v schema "$" Hwf) as H. unfold decides in H.
  destruct (validate_node v schema "$") as [[]|]; [done|]. by destruct H as [_ []].
Qed.

Lemma ditem_str k d s : dgetN k d = VStr s → ditem k d = Ok (VStr s).
Proof. intros H. by apply dgetN_ditem. Qed.

Lemma require_equal_str d k e k' message s :
  dgetN k d = VStr s → dgetN k' e = VStr s → require_equal d k e k' message = Ok ().
Proof.
  intros Hd He. unfold require_equal. rewrite (ditem_str _ _ _ Hd), (ditem_str _ _ _ He). cbn [mbind res_bind].
  by rewrite py_eq_VStr_refl.
Qed.

(** A sealed decision that repeats the request passes. *)
Lemma decision_check_ok d dg l :
  conforms (VDict d) hsai_admission_decision_schema →
  dgetN "request_digest" d = VStr ("sha256:" +:+ sha256_hex (dumps true (VDict request))) →
  Forall (λ p, dgetN p.1 d = dgetN p.2 request)
    [("mesh_run_id", "mesh_run_id"); ("mesh_action_id", "mesh_action_id"); ("action_kind", "action_kind");
     ("candidate_digest", "candidate_payload_digest"); ("admission_policy_id", "mesh_policy_id");
     ("enforced_nonclaims", "explicit_nonclaims")] →
  dgetN "explicit_nonclaims" request = VList (map VStr l) →
  is_string "allow" (dgetN "decision" d) && bool_decide (l = []) = false →
  decision_digest d = Ok dg → dgetN "decision_digest" d = VStr dg →
  validate_hsai_decision request (VDict d) = Ok ().
Proof.
  destruct Had as [Hv Hf Hk Hb Hd _]. intros Hc Hr Heq El Hallow Hdg Hseal.
  destruct (request_members request Hv) as (run & act & kind & pol & l' & Erun & Eact & Ekind & Epol & _ & _).
  unfold DIGEST_FIELDS in Hd. rewrite !Forall_cons in Hd. destruct Hd as ((d1 & E1 & H1) & (d2 & E2 & H2) & (d3 & E3 & H3) & _).
  rewrite !Forall_cons in Heq. cbn [fst snd] in Heq. rewrite Erun, Eact, Ekind, Epol, E2, El in Heq.
  destruct Heq as (Q1 & Q2 & Q3 & Q4 & Q5 & Q6 & _).
  unfold validate_hsai_decision. rewrite Hv. cbn [mbind res_bind].
  erewrite validate_value_ok; [|reflexivity|reflexivity|exact Hc].
  cbn [mbind res_bind]. cbv zeta. cbn [dict_or_empty as_dict default from_option id].
  rewrite (sha256_digest_finite _ Hf). cbn [mbind res_bind].
  rewrite (ditem_str _ _ _ Hr), (ditem_str _ _ _ Q4), (ditem_str _ _ _ Hseal). cbn [mbind res_bind].
  rewrite require_digest_sha256, (require_digest_label _ _ _ H2). cbn [mbind res_bind res_iter].
  destruct (sha256_digest_Ok _ _ Hdg) as [_ ->]. rewrite require_digest_sha256. cbn [mbind res_bind].
  rewrite (ditem_str _ _ _ E1), (ditem_str _ _ _ E2), (ditem_str _ _ _ E3). cbn [mbind res_bind].
  rewrite (require_digest_label _ _ _ H1), (require_digest_label _ _ _ H2), (require_digest_label _ _ _ H3). cbn [mbind res_bind].
  rewrite Hr, py_eq_VStr_refl. cbn [negb].
  rewrite (require_equal_str _ _ _ _ _ _ Q1 Erun), (require_equal_str _ _ _ _ _ _ Q2 Eact),
    (require_equal_str _ _ _ _ _ _ Q3 Ekind), (require_equal_str _ _ _ _ _ _ Q4 E2), (require_equal_str _ _ _ _ _ _ Q5 Epol).
  cbn [mbind res_bind]. rewrite El, Q6, str_items_strings.
  replace (is_string _ _ && _) with false by (destruct l; [by rewrite andb_true_r in *|by rewrite andb_false_r]).
  assert (sorted_diff l l = []) as -> by (by apply sorted_diff_nil).
  rewrite Hdg. cbn [mbind res_bind]. by rewrite Hseal, py_eq_VStr_refl.
Qed.

(** Sealing the members of a decision to this request gives one that passes. *)
Lemma sealed_decision_valid run act kind pol cd verdict now id gates acc l reasons meta :
  dgetN "mesh_run_id" request = VStr run → dgetN "mesh_action_id" request = VStr act →
  dgetN "action_kind" request = VStr kind → dgetN "mesh_policy_id" request = VStr pol →
  dgetN "candidate_payload_digest" request = VStr cd → dgetN "explicit_nonclaims" request = VList (map VStr l) →
  mem_str verdict ["allow"; "deny"; "needs_human"; "error"] = true → (verdict = "allow" → l ≠ []) →
  json_finite (VDict meta) = true →
  let d := decision_fields run act kind pol ("sha256:" +:+ sha256_hex (dumps true (VDict request))) cd verdict now id gates acc l reasons meta in
  ∃ d', (digest ← decision_digest d; Ok (dset "decision_digest" (VStr digest) d)) = Ok d'
    ∧ validate_hsai_decision request (VDict d') = Ok ()
    ∧ conforms (VDict d') hsai_admission_decision_schema ∧ dgetN "decision" d' = VStr verdict.
Proof.
  intros Erun Eact Ekind Epol E2 El Hverdict Hallow Hmeta d.
  assert (json_finite (VDict d) = true) as Hfin.
  { rewrite json_finite_dict. cbn [d decision_fields forallb snd]. rewrite Hmeta. unfold strs. cbn [json_finite].
    rewrite !forallb_finite_strings. assert (forallb json_finite (map gate_result gates) = true) as -> by (by induction gates).
    done. }
  unfold decision_digest. change (dpop "decision_digest" d) with d. rewrite (sha256_digest_finite _ Hfin). cbn [mbind res_bind].
  set (dg := "sha256:" +:+ sha256_hex (dumps true (VDict d))).
  change (dset "decision_digest" (VStr dg) d) with (d ++ [("decision_digest", VStr dg)]).
  eexists. split; [done|]. split; [|split; [by apply decision_fields_conform|done]].
  apply (decision_check_ok _ dg l); try done; [by apply decision_fields_conform| | |].
  - rewrite !Forall_cons. cbn [fst snd]. by rewrite Erun, Eact, Ekind, Epol, E2, El.
  - change (dgetN "decision" _) with (VStr verdict). destruct (is_string "allow" (VStr verdict)) eqn:E; [|done].
    apply is_string_true in E. injection E as ->. apply bool_decide_eq_false. by apply Hallow.
  - unfold decision_digest. change (dpop _ _) with d. by rewrite (sha256_digest_finite _ Hfin).
Qed.

Lemma error_decision_valid reason now :
  ∃ d, error_decision request reason now = Ok d ∧ validate_hsai_decision request (VDict d) = Ok ()
    ∧ dgetN "decision" d = VStr "error".
Proof.
  destruct Had as [Hv Hf Hk Hb Hd _].
  destruct (request_members request Hv) as (run & act & kind & pol & l & Erun & Eact & Ekind & Epol & El & _).
  unfold DIGEST_FIELDS in Hd. rewrite !Forall_cons in Hd. destruct Hd as (_ & (d2 & E2 & _) & _).
  unfold error_decision. rewrite (sha256_digest_finite _ Hf), (list_or_nil_strings _ _ _ El), (sha256_digest_finite (VStr reason) eq_refl).
  cbn [mbind res_bind]. cbv zeta.
  rewrite (text_at_str _ _ _ Erun), (text_at_str _ _ _ Eact), (text_at_str _ _ _ Ekind), (text_at_str _ _ _ E2), (text_at_str _ _ _ Epol).
  set (dg := "sha256:" +:+ sha256_hex (dumps true (VStr reason))). fold (strs l).
  match goal with |- context [VDict [("backend", ?b); ?p; ?r; ?m; ?n]] => set (meta := [("backend", b); p; r; m; n]) end.
  destruct (sealed_decision_valid run act kind pol d2 "error" now
    ("hsai_error_" +:+ py_str (dget_or "mesh_action_id" (VStr "unknown") request)) [("bridge_adapter", "error", dg)] [] l [reason] meta)
    as (d & Hd' & Hc & _ & He); try done.
  exists d. split; [exact Hd'|done].
Qed.

(** *** The gate *)

Lemma gate_of_valid d eligible :
  accepted request d → validate_hsai_decision request (VDict d) = Ok () →
  ∃ gate, gate_of request d eligible = Ok gate ∧ validate_bridge_gate gate None None false = Ok ()
    ∧ dgetN "allowed" gate = VBool (is_string "allow" (dgetN "decision" d))
    ∧ dgetN "request" gate = VDict request ∧ dgetN "decision" gate = VDict d
    ∧ dget_or "authority_eligible" (VBool false) gate = VBool (default false eligible).
Proof.
  intros [_ Hf _ Hr Hs _ (dg & _ & Hdg) (rl & Hrl)] H. destruct Had as [_ _ Hk Hb _ _].
  rewrite !Forall_cons in Hs. cbn [fst snd] in Hs. destruct Hs as (_ & _ & _ & (cd & Hcd & Ecd) & _).
  unfold gate_of. rewrite (sha256_digest_finite _ Hf), (ditem_str _ _ _ Hdg), (ditem_str _ _ _ Hcd),
    (list_or_nil_strings _ _ _ Hrl). cbn [mbind res_bind].
  eexists. split; [done|]. split; [|by destruct eligible].
  match goal with |- validate_bridge_gate ?g _ _ _ = _ => set (gate := g) end.
  assert (Forall (λ p, dgetN p.1 gate = p.2)
    [("allowed", VBool (is_string "allow" (dgetN "decision" d))); ("request", VDict request); ("decision", VDict d);
     ("request_digest", VStr ("sha256:" +:+ sha256_hex (dumps true (VDict request)))); ("decision_digest", VStr dg);
     ("candidate_digest", VStr cd)]) as Hg by (subst gate; by destruct eligible; rewrite !Forall_cons).
  rewrite !Forall_cons in Hg. cbn [fst snd] in Hg. destruct Hg as (G1 & G2 & G3 & G4 & G5 & G6 & _). clearbody gate.
  unfold validate_bridge_gate. rewrite G2, G3. cbv zeta. cbn [dict_or_empty as_dict default from_option id].
  rewrite H, (sha256_digest_finite _ Hf), G1, G4, G5, G6, Hdg, Ecd, Hk. cbn [mbind res_bind].
  unfold require_same. rewrite !py_eq_VStr_refl. cbn [mbind res_bind negb].
  replace (res_iter _ GATE_FIELDS) with (Ok () : res unit).
  - cbn [mbind res_bind is_true]. by destruct (is_string "allow" (dgetN "decision" d)).
  - symmetry. apply res_iter_Ok. eapply Forall_impl; [exact Hb|]. intros k (s & -> & Hs). cbv beta.
    replace (py_str (py_or (VStr s) (VStr ""))) with s by (by destruct s). by rewrite Hs.
Qed.

(** What the gate decides on. *)
Lemma settled_decision_cases answer now now' :
  ∃ d, settled_decision request answer now now' = Ok (VDict d) ∧ validate_hsai_decision request (VDict d) = Ok ()
    ∧ (answer = Ok (VDict d) ∨ dgetN "decision" d = VStr "error" ∧ ∀ v, answer = Ok v → validate_hsai_decision request v ≠ Ok ()).
Proof.
  unfold settled_decision. destruct answer as [v|e]; cbn [mbind res_bind].
  - pose proof (rve_validate_hsai_decision v) as Hr. destruct (validate_hsai_decision request v) as [[]|e] eqn:E.
    + pose proof E as Em. unfold validate_hsai_decision in Em. apply res_bind_Ok in Em as ([] & _ & Em).
      apply res_bind_Ok in Em as ([] & Hv & _). destruct (decision_members v Hv) as (d & -> & _). eauto.
    + cbn [returns_or_value_error] in Hr. rewrite Hr.
      destruct (error_decision_valid ("hsai_malformed_or_mismatched:" +:+ exc_str e) now') as (d & -> & Hd & Hk).
      cbn [mbind res_bind]. rewrite Hd. cbn [mbind res_bind]. exists d. split; [done|]. split; [done|].
      right. split; [done|]. intros v' [= <-]. by rewrite E.
  - destruct (error_decision_valid ("hsai_unavailable:" +:+ class_name (exc_cls e) +:+ ":" +:+ exc_str e) now) as (d & -> & Hd & Hk).
    cbn [mbind res_bind]. rewrite Hd. exists d. split; [done|]. split; [done|]. by right.
Qed.

Lemma evaluate_hsai_gate_settles answer eligible now now' :
  ∃ gate d, evaluate_hsai_gate request answer eligible now now' = Ok gate
    ∧ validate_bridge_gate gate None None false = Ok () ∧ validate_hsai_decision request (VDict d) = Ok ()
    ∧ dgetN "request" gate = VDict request ∧ dgetN "decision" gate = VDict d
    ∧ dget_or "authority_eligible" (VBool false) gate = VBool eligible
    ∧ dgetN "allowed" gate = VBool (is_string "allow" (dgetN "decision" d))
    ∧ (answer = Ok (VDict d) ∨ dgetN "decision" d = VStr "error" ∧ ∀ v, answer = Ok v → validate_hsai_decision request v ≠ Ok ()).
Proof.
  destruct (settled_decision_cases answer now now') as (d & Hs & Hd & Hc). unfold evaluate_hsai_gate. rewrite Hs.
  cbn [mbind res_bind dict_or_empty as_dict default from_option id].
  destruct (gate_of_valid d (Some eligible) (decision_check_inv _ _ Hd) Hd) as (gate & -> & Hg & Ha & Hr & Hdd & He).
  cbn [mbind res_bind]. rewrite Hg. cbn [mbind res_bind]. exists gate, d. eauto 10.
Qed.

End checked.

(** ** Requests that are built *)

Lemma json_finite_dget d k : json_finite (VDict d) = true → json_finite (dgetN k d) = true.
Proof.
  rewrite json_finite_dict. unfold dgetN. intros H. destruct (dget k d) as [v|] eqn:E; [|done].
  apply dget_In in E. rewrite forallb_forall in H. apply (H (k, v)). by apply list_elem_of_In.
Qed.

Lemma json_finite_dict_or_empty v : json_finite v = true → json_finite (VDict (dict_or_empty v)) = true.
Proof. by destruct v. Qed.

(** A request that was built is admissible unless one of its identifiers is
    blank. *)
Lemma built_v1_admissible decision evaluation now request :
  build_hsai_admission_request decision evaluation now = Ok request →
  Forall (λ k, not_blank (dgetN k request)) ["mesh_run_id"; "mesh_action_id"; "mesh_policy_id"] → admissible request.
Proof.
  intros H Hb. unfold build_hsai_admission_request in H. res_inv H.
  apply sha256_digest_Ok in Hx0 as [_ ->]. apply sha256_digest_Ok in Hx4 as [_ ->]. apply sha256_digest_Ok in Hx6 as [_ ->].
  apply admissible_intro; [| |done|exact Hb|].
  - unfold validate_hsai_request_payload. destruct x7. exact Hx7.
  - rewrite json_finite_dict. cbn. unfold strs. by rewrite !forallb_finite_strings.
  - unfold DIGEST_FIELDS. rewrite !Forall_cons, Forall_nil. repeat split; by eexists.
Qed.

Lemma built_v2_admissible decision evaluation receipt now request :
  build_hsai_admission_request_v2 decision evaluation receipt now = Ok request →
  Forall (λ k, not_blank (dgetN k request)) ["mesh_run_id"; "mesh_action_id"; "mesh_policy_id"] → admissible request.
Proof.
  intros H Hb. unfold build_hsai_admission_request_v2 in H. res_inv H.
  apply sha256_digest_Ok in Hx1 as [Hc ->]. apply sha256_digest_Ok in Hx3 as [He ->]. apply sha256_digest_Ok in Hx4 as [_ ->].
  apply admissible_intro; [| |done|exact Hb|].
  - unfold validate_hsai_request_payload. destruct x5. exact Hx5.
  - rewrite json_finite_dict. rewrite !Forall_cons in Hb. destruct Hb as ((a & Ha & _) & (b & Hb & _) & (c & Hc' & _) & _).
    change (candidate_parameter "mesh_run_id" x0 = VStr a) in Ha. change (dgetN "decision_id" decision = VStr b) in Hb.
    change (candidate_parameter "mesh_policy_id" x0 = VStr c) in Hc'. cbn [forallb snd]. rewrite Ha, Hb, Hc', Hc, He.
    unfold strs, candidate_parameter. cbn [json_finite]. rewrite !forallb_finite_strings.
    rewrite (json_finite_dget _ "actor_ref"); [done|]. by repeat apply json_finite_dict_or_empty, json_finite_dget.
  - unfold DIGEST_FIELDS. rewrite !Forall_cons, Forall_nil. repeat split; by eexists.
Qed.

(** ** The local adapter *)

(** The local adapter answers every admissible request with a decision that
    passes the check, and says allow when the request declares what it does not
    claim. *)
Lemma local_decision_accepted request now :
  admissible request →
  ∃ d, local_hsai_allow_decision request now None = Ok d ∧ validate_hsai_decision request (VDict d) = Ok ()
    ∧ is_string "allow" (dgetN "decision" d) = truthy (dgetN "explicit_nonclaims" request).
Proof.
  intros Had. destruct (request_members _ (ad_valid _ Had)) as (run & act & kind & pol & l & Erun & Eact & Ekind & Epol & El & _ & q & Erq).
  pose proof Had as [Hv Hf Hk Hb Hd Hn].
  unfold DIGEST_FIELDS in Hd. rewrite !Forall_cons in Hd. destruct Hd as (_ & (d2 & E2 & _) & (d3 & E3 & _) & _).
  assert (ditem "requested_claims" request = Ok (VList (map VStr q))) as Hq by (by apply dgetN_ditem).
  unfold local_hsai_allow_decision. cbv zeta.
  rewrite (ditem_str _ _ _ Eact), (ditem_str _ _ _ Erun), (ditem_str _ _ _ Ekind), (ditem_str _ _ _ E2),
    (ditem_str _ _ _ Epol), (ditem_str _ _ _ E3), (sha256_digest_finite _ Hf), Hq, El. cbn [mbind res_bind].
  replace (py_or (VList (map VStr l)) (VList [])) with (VList (map VStr l)) by (by destruct l).
  rewrite (sha256_digest_finite (VList (map VStr l))) by (apply forallb_finite_strings).
  rewrite (sha256_digest_finite (VDict _)) by (rewrite json_finite_dict; cbn; by rewrite forallb_finite_strings).
  set (bare := negb (truthy (VList (map VStr l)))). set (acc := if bare then [] else q).
  replace (if bare then Ok [] else _) with (Ok (map VStr acc) : res (list value)) by (subst acc; by destruct bare).
  cbn [mbind res_bind py_iter].
  match goal with |- context [VDict [("backend", ?b); ?p; ?r; ?m; ?n]] => set (meta := [("backend", b); p; r; m; n]) end.
  destruct (sealed_decision_valid request Had run act kind pol d2 (if bare then "deny" else "allow") now ("hsai_decision_" +:+ act)
    [("candidate_evidence", if bare then "fail" else "pass", d3);
     ("nonclaim_enforcement", if bare then "fail" else "pass", "sha256:" +:+ sha256_hex (dumps true (VList (map VStr l))))]
    acc l (if bare then ["missing_explicit_nonclaims"] else []) meta) as (d & Hd & Hc & Hconf & He); try done.
  - by destruct bare.
  - subst bare. by destruct l.
  - exists d. apply res_bind_Ok in Hd as (dg & Hdg & [= <-]). cbv zeta in Hdg.
    match goal with |- context [decision_digest ?x] => change x with
      (decision_fields run act kind pol ("sha256:" +:+ sha256_hex (dumps true (VDict request))) d2 (if bare then "deny" else "allow") now
        ("hsai_decision_" +:+ act)
        [("candidate_evidence", if bare then "fail" else "pass", d3);
         ("nonclaim_enforcement", if bare then "fail" else "pass", "sha256:" +:+ sha256_hex (dumps true (VList (map VStr l))))]
        acc l (if bare then ["missing_explicit_nonclaims"] else []) meta) end.
    rewrite Hdg. cbn [mbind res_bind]. erewrite validate_named_ok; [|reflexivity|reflexivity|exact Hconf]. cbn [mbind res_bind].
    split; [done|]. split; [done|]. rewrite He. subst bare. by destruct l.
Qed.

(** ** What the gate promises *)

Lemma str_app_cancel p a b : p +:+ a = p +:+ b → a = b.
Proof. induction p as [|c p IH]; [done|]. cbn. intros [=]. auto. Qed.

(** Payloads with one digest have one serialization, or they are a collision. *)
Lemma same_digest x y s t :
  sha256_digest x = Ok s → sha256_digest y = Ok t → s = t →
  dumps true x = dumps true y ∨ Merkle.collision_between [dumps true x] [dumps true y].
Proof.
  intros [_ ->]%sha256_digest_Ok [_ ->]%sha256_digest_Ok H. destruct (decide (dumps true x = dumps true y)) as [|Hne]; [by left|].
  right. exists (dumps true x), (dumps true y). split; [by left|]. split; [by left|]. split; [done|]. by eapply str_app_cancel.
Qed.

(** ** What an accepted gate is bound to *)

Lemma require_same_Ok a b message u : require_same a b message = Ok u → py_eq a b = true.
Proof. unfold require_same. by destruct (py_eq a b). Qed.

Lemma validate_gate_decision_inv request decision :
  validate_gate_decision request decision = Ok () →
  (∃ s, expected_mesh_run_id decision = Ok s ∧ dgetN "mesh_run_id" request = VStr s)
  ∧ (∃ s, expected_mesh_action_id decision = Ok s ∧ dgetN "mesh_action_id" request = VStr s)
  ∧ (is_v2 request = false → ∃ p s, decision_payload_without_hsai_context decision = Ok p
       ∧ sha256_digest (VDict p) = Ok s ∧ dgetN "candidate_payload_digest" request = VStr s).
Proof.
  intros H. unfold validate_gate_decision in H. apply res_bind_Ok in H as (c & Hc & H). res_inv H.
  repeat match goal with H : require_same _ (VStr _) _ = Ok _ |- _ => apply require_same_Ok, py_eq_str in H end.
  split; [by eexists|]. split; [by eexists|]. intros Hv. unfold expected_candidate_digest in Hc. rewrite Hv in Hc.
  res_inv Hc. match goal with H : require_same _ (VStr _) _ = Ok _ |- _ => apply require_same_Ok, py_eq_str in H end.
  by do 2 eexists.
Qed.

Lemma bridge_gate_bound gate decision evaluation approved :
  validate_bridge_gate gate (Some decision) (Some evaluation) approved = Ok () → bound_to gate decision evaluation approved.
Proof.
  intros H. unfold validate_bridge_gate in H. cbv zeta in H. fold (gate_request gate) (gate_decision gate) in H.
  apply res_bind_Ok in H as ([] & Hd & H). res_inv H. apply decision_check_inv in Hd.
  destruct x4, x5. apply validate_gate_decision_inv in Hx4 as (Hrun & Hact & Hpay).
  apply res_bind_Ok in Hx5 as ([] & Hp & Hx5). apply raise_if_Ok in Hx5 as [Happ _].
  unfold validate_gate_policy in Hp. res_inv Hp.
  split; try done.
  - apply negb_false_iff, is_string_true in Hg. exact Hg.
  - intros Hv. rewrite Hv in Hp. exact Hp.
  - intros ->. by apply negb_false_iff in Happ.
  - revert Hg0 Hg1. by destruct (is_string "allow" _), (is_true _).
Qed.

(** C12: One gate is accepted for one patch.  If it is accepted for two decisions,
    they have the run and the action in common, and then, in version 1, the
    canonical form of their payloads - or these two strings are a collision of
    SHA-256 - and, in version 2, both normalise to the candidate the gate holds. *)
Theorem gate_admits_one_decision gate d e approved d' e' approved' :
  validate_bridge_gate gate (Some d) (Some e) approved = Ok () →
  validate_bridge_gate gate (Some d') (Some e') approved' = Ok () →
  expected_mesh_run_id d = expected_mesh_run_id d' ∧ expected_mesh_action_id d = expected_mesh_action_id d'
  ∧ if is_v2 (gate_request gate) then
      ∃ receipt n n', normalized_repo_patch_candidate d e receipt = Ok n ∧ normalized_repo_patch_candidate d' e' receipt = Ok n'
        ∧ py_eq (dgetN "candidate_payload" (gate_request gate)) (VDict n) = true
        ∧ py_eq (dgetN "candidate_payload" (gate_request gate)) (VDict n') = true
    else
      ∃ p p', decision_payload_without_hsai_context d = Ok p ∧ decision_payload_without_hsai_context d' = Ok p'
        ∧ (dumps true (VDict p) = dumps true (VDict p')
           ∨ Merkle.collision_between [dumps true (VDict p)] [dumps true (VDict p')]).
Proof.
  intros H H'. apply bridge_gate_bound in H as [_ _ (r & -> & Hr) (a & -> & Ha) Hp He _ _].
  apply bridge_gate_bound in H' as [_ _ (r' & -> & Hr') (a' & -> & Ha') Hp' He' _ _].
  rewrite Hr in Hr'. rewrite Ha in Ha'. injection Hr' as ->. injection Ha' as ->.
  split; [done|]. split; [done|]. destruct (is_v2 _).
  - specialize (He eq_refl). specialize (He' eq_refl). unfold validate_gate_evidence in He, He'. cbv zeta in He, He'.
    apply res_bind_Ok in He as (n & Hn & He). apply res_bind_Ok in He as (? & Hs%require_same_Ok & _).
    apply res_bind_Ok in He' as (n' & Hn' & He'). apply res_bind_Ok in He' as (? & Hs'%require_same_Ok & _). eauto 10.
  - destruct (Hp eq_refl) as (p & s & -> & Hs & Hd), (Hp' eq_refl) as (p' & s' & -> & Hs' & Hd').
    exists p, p'. split; [done|]. split; [done|]. eapply same_digest; [done..|]. rewrite Hd in Hd'. by injection Hd'.
Qed.

(** ** Packets *)

Lemma bridge_gate_admissible gate ed ee approved :
  validate_bridge_gate gate ed ee approved = Ok () →
  admissible (gate_request gate) ∧ validate_hsai_decision (gate_request gate) (VDict (gate_decision gate)) = Ok ().
Proof.
  intros H. unfold validate_bridge_gate in H. cbv zeta in H. fold (gate_request gate) (gate_decision gate) in H.
  apply res_bind_Ok in H as ([] & Hd & H). split; [|done]. pose proof (decision_check_inv _ _ Hd) as Hac.
  unfold validate_hsai_decision in Hd. res_inv Hd. clear Hd.
  destruct Hac as [Hv Hf _ _ _ (l & _ & Hl & _) _ _].
  destruct (request_members _ Hv) as (run & act & kind & pol & _ & Erun & Eact & _ & Epol & _).
  assert (Forall (λ k, ∃ s, dgetN k (gate_request gate) = VStr s ∧ require_digest "" (VStr s) = Ok ()) DIGEST_FIELDS) as Hdig.
  { match goal with H : res_iter _ ["action_proposal_digest"; _; _] = Ok ?u |- _ => destruct u; apply res_iter_Ok in H;
      eapply Forall_impl; [exact H|] end.
    intros k Hk. cbv beta in Hk. apply res_bind_Ok in Hk as (v & Hkv & Hk). apply (require_digest_label _ "") in Hk.
    apply ditem_dgetN in Hkv. destruct v; try discriminate Hk. by eexists. }
  res_inv H. split; try done; [|  |by exists l].
  - match goal with H : negb (is_string "repo_patch" _) = false |- _ => apply negb_false_iff, is_string_true in H; exact H end.
  - match goal with H : res_iter _ GATE_FIELDS = Ok ?u |- _ => destruct u; apply res_iter_Ok in H; rename H into Hb end.
    rewrite Forall_forall in *. intros k Hk. specialize (Hb k Hk). cbv beta in Hb. apply raise_if_Ok in Hb as [Hb _].
    assert (∃ s, dgetN k (gate_request gate) = VStr s) as [s Hs].
    { unfold GATE_FIELDS in Hk. rewrite !elem_of_cons in Hk.
      destruct Hk as [->|[->|[->|Hk]]]; [by eexists..|].
      destruct (Hdig k) as (s & Hs & _); [|by eexists]. unfold DIGEST_FIELDS. rewrite !elem_of_cons. tauto. }
    exists s. split; [done|]. rewrite Hs in Hb. by replace (py_str (py_or (VStr s) (VStr ""))) with s in Hb by (by destruct s).
Qed.

(** A request whose identifiers say something. *)
Definition identified (request : dict) : Prop :=
  Forall (λ k, not_blank (dgetN k request)) ["mesh_run_id"; "mesh_action_id"; "mesh_policy_id"].

Lemma gate_of_request request decision eligible gate : gate_of request decision eligible = Ok gate → dgetN "request" gate = VDict request.
Proof.
  unfold gate_of. intros H. res_inv H. by destruct eligible.
Qed.

Lemma evaluated_identified request answer eligible now now' gate :
  evaluate_hsai_gate request answer eligible now now' = Ok gate → identified request.
Proof.
  unfold evaluate_hsai_gate. intros H. apply res_bind_Ok in H as (d & _ & H). apply res_bind_Ok in H as (g & Hg & H).
  apply res_bind_Ok in H as ([] & Hv & [= <-]). apply gate_of_request in Hg. apply bridge_gate_admissible in Hv as [[_ _ _ Hb _ _] _].
  unfold gate_request in Hb. rewrite Hg in Hb. cbn [dict_or_empty as_dict default from_option id] in Hb.
  unfold GATE_FIELDS, identified in *. rewrite !Forall_cons in *. by destruct Hb as (? & ? & ? & _).
Qed.

(** C11: Whatever the external gate answers or raises, a repository patch whose
    request was built - of either version - and whose run, action and policy
    identifiers are not blank gets a gate; it repeats the request
    and is open exactly when the answer is a decision that passed every check
    against this request and says allow.  An answer that failed a check, or an
    exception, becomes an error decision that passes those checks.  With a blank
    identifier there is no gate at all, whatever the answer: the evaluation
    raises. *)
Theorem gate_fails_closed decision evaluation request answer eligible now now' now'' :
  (build_hsai_admission_request decision evaluation now = Ok request
   ∨ ∃ receipt, build_hsai_admission_request_v2 decision evaluation receipt now = Ok request) →
  (identified request →
     ∃ gate d, evaluate_hsai_gate request answer eligible now' now'' = Ok gate
       ∧ validate_bridge_gate gate None None false = Ok ()
       ∧ dgetN "request" gate = VDict request ∧ dgetN "decision" gate = VDict d ∧ accepted request d
       ∧ (is_true (dgetN "allowed" gate) = true ↔
            ∃ a, answer = Ok (VDict a) ∧ validate_hsai_decision request (VDict a) = Ok ()
                 ∧ dgetN "decision" a = VStr "allow")
       ∧ ((∀ a, answer = Ok a → validate_hsai_decision request a ≠ Ok ()) → dgetN "decision" d = VStr "error"))
  ∧ (¬ identified request → ∃ e, evaluate_hsai_gate request answer eligible now' now'' = Err e).
Proof.
  intros Hbuilt. split; [intros Hb|].
  - assert (admissible request) as Had.
    { destruct Hbuilt as [H|[receipt H]]; [by eapply built_v1_admissible|by eapply built_v2_admissible]. }
    destruct (evaluate_hsai_gate_settles request Had answer eligible now' now'')
      as (gate & d & -> & Hg & Hd & Hr & Hdd & _ & Ha & Hc).
    exists gate, d. split; [done|]. split; [done|]. split; [done|]. split; [done|].
    split; [by apply decision_check_inv|]. rewrite Ha. split; [split|].
    + intros Hal. destruct (is_string "allow" _) eqn:E; [|done]. apply is_string_true in E.
      destruct Hc as [->|[He _]]; [by exists d|by rewrite He in E].
    + intros (a & -> & Hv & Hal). destruct Hc as [[= ->]|[_ Hn]]; [by rewrite Hal|by destruct (Hn _ eq_refl)].
    + intros Hn. destruct Hc as [->|[? _]]; [by destruct (Hn _ eq_refl)|done].
  - intros Hb. destruct (evaluate_hsai_gate _ _ _ _ _) as [gate|e] eqn:E; [|by exists e].
    by destruct Hb; eapply evaluated_identified.
Qed.

Lemma gate_digests gate ed ee approved :
  validate_bridge_gate gate ed ee approved = Ok () →
  ∃ a b c, sha256_digest (VDict (gate_request gate)) = Ok a ∧ dgetN "decision_digest" (gate_decision gate) = VStr b
    ∧ dgetN "candidate_payload_digest" (gate_request gate) = VStr c ∧ dget "request_digest" gate = Some (VStr a)
    ∧ dget "decision_digest" gate = Some (VStr b) ∧ dget "candidate_digest" gate = Some (VStr c).
Proof.
  intros H. destruct (bridge_gate_admissible _ _ _ _ H) as [_ Hd]. apply decision_check_inv in Hd.
  destruct Hd as [_ _ _ _ Hs _ (dg & _ & Hdg) _]. rewrite !Forall_cons in Hs. destruct Hs as (_ & _ & _ & (cd & _ & Hcd) & _).
  unfold validate_bridge_gate in H. cbv zeta in H. fold (gate_request gate) (gate_decision gate) in H. res_inv H.
  repeat match goal with H : require_same _ _ _ = Ok _ |- _ => apply require_same_Ok in H end.
  cbn [fst snd] in *. rewrite Hdg, Hcd in *.
  repeat match goal with H : py_eq _ (VStr _) = true |- _ => apply py_eq_str in H end.
  assert (∀ k s, dgetN k gate = VStr s → dget k gate = Some (VStr s)) as Hsome
    by (unfold dgetN; intros k s; destruct (dget k gate); [by intros [= ->]|done]).
  exists x0, dg, cd. do 3 (split; [done|]). split; [by apply Hsome|]. split; by apply Hsome.
Qed.

(** The gate a verifier rebuilds from the request and the decision stands for
    the one the packet was made with. *)
Lemma rebuilt_gate gate ed ee approved :
  validate_bridge_gate gate ed ee approved = Ok () →
  ∃ gate', gate_of (gate_request gate) (gate_decision gate) None = Ok gate'
    ∧ validate_bridge_gate gate None None false = Ok () ∧ validate_bridge_gate gate' None None false = Ok ()
    ∧ gate_request gate' = gate_request gate ∧ gate_decision gate' = gate_decision gate
    ∧ Forall (λ k, dget k gate' = dget k gate) ["request_digest"; "decision_digest"; "candidate_digest"].
Proof.
  intros H. destruct (bridge_gate_admissible _ _ _ _ H) as [Had Hd]. pose proof (decision_check_inv _ _ Hd) as Hac.
  destruct (gate_of_valid _ Had _ None Hac Hd) as (gate' & Hg & Hv' & _ & Hr & Hdd & _). exists gate'.
  split; [done|]. assert (gate_request gate' = gate_request gate) as Er by (unfold gate_request at 1; by rewrite Hr).
  assert (gate_decision gate' = gate_decision gate) as Ed by (unfold gate_decision at 1; by rewrite Hdd).
  split; [|split; [done|split; [done|split; [done|]]]].
  - clear Had Hd Hac Hg Hv' Hr Hdd Er Ed. unfold validate_bridge_gate in *. cbv zeta in *. res_inv H.
    repeat match goal with Hm : ?m = Ok _ |- context [mbind _ ?m] => rewrite Hm; cbn [mbind res_bind] end.
    by repeat match goal with Hm : _ = false |- _ => rewrite Hm end.
  - destruct (gate_digests _ _ _ _ H) as (s1 & s2 & s3 & A1 & A2 & A3 & B1 & B2 & B3).
    destruct (gate_digests _ _ _ _ Hv') as (t1 & t2 & t3 & C1 & C2 & C3 & D1 & D2 & D3).
    rewrite Er, Ed in *. rewrite !Forall_cons, B1, B2, B3, D1, D2, D3, Forall_nil. repeat split; congruence.
Qed.

Lemma same_gate_same_verdict gate gate' packet :
  validate_bridge_gate gate None None false = Ok () → validate_bridge_gate gate' None None false = Ok () →
  gate_request gate' = gate_request gate → gate_decision gate' = gate_decision gate →
  Forall (λ k, dget k gate' = dget k gate) ["request_digest"; "decision_digest"; "candidate_digest"] →
  validate_combined_proof_packet gate' packet = validate_combined_proof_packet gate packet.
Proof.
  intros H H' Er Ed Hk. rewrite !Forall_cons in Hk. destruct Hk as (K1 & K2 & K3 & _).
  unfold validate_combined_proof_packet. rewrite H, H'. cbn [mbind res_bind]. unfold gate_request, gate_decision in Er, Ed.
  rewrite Er, Ed. unfold require_equal at 2 3 4 6 7 8. unfold ditem. by rewrite K1, K2, K3.
Qed.

Lemma guard_iff (b : bool) c msg (k : res unit) : (if b then raise c msg else k) = Ok () ↔ b = false ∧ k = Ok ().
Proof. destruct b; [split; [done|by intros [? _]]|tauto]. Qed.

Lemma unit_bind_iff (m k : res unit) : (_ ← m; k) = Ok () ↔ m = Ok () ∧ k = Ok ().
Proof. destruct m as [[]|]; cbn; [tauto|]. split; [done|by intros [? _]]. Qed.

Lemma forallb_subset (a b : list string) : forallb (λ c, mem_str c b) a = true ↔ a ⊆ b.
Proof.
  rewrite forallb_forall. split; intros H x.
  - intros Hx. by apply mem_str_elem, H, list_elem_of_In.
  - intros Hx. by apply mem_str_elem, H, list_elem_of_In.
Qed.

Lemma rve_claim_adequacy request decision packet : returns_or_value_error (validate_claim_adequacy request decision packet).
Proof.
  unfold validate_claim_adequacy. cbv zeta. apply rve_bind; [|intros ? _; by apply rve_if].
  destruct (is_string _ _); repeat apply rve_if; done.
Qed.

(** The adequacy check decides [adequate]. *)
Lemma claim_adequacy_correct request decision packet l result :
  dgetN "nonclaims" packet = VList l → (dgetN "decision" decision = VStr "allow" → l ≠ []) →
  dict_or_empty (dgetN "action_execution_result" packet) = result →
  dgetN "formal_evidence_metadata" (dict_or_empty (dgetN "audit_export_metadata" packet)) = dgetN "formal_evidence_metadata" decision →
  validate_claim_adequacy request decision packet = Ok () ↔ adequate request decision result.
Proof.
  intros Hl Hne Hres Hmeta. unfold validate_claim_adequacy. rewrite Hl, Hres, Hmeta. cbv zeta.
  rewrite unit_bind_iff, guard_iff.
  destruct (is_string "allow" (dgetN "decision" decision)) eqn:E.
  - apply is_string_true in E. specialize (Hne E). rewrite !guard_iff, !negb_false_iff, forallb_subset.
    destruct l as [|x l]; [done|]. split.
    + intros ((_ & Ha & Hs & _) & Hm & _). split; [|by rewrite E|done]. intros _. split; [by intros Hn; rewrite Hn in Ha|done].
    + intros [Ha _ Hm]. destruct (Ha E) as [Hn Hs]. by destruct (string_list (dgetN "accepted_claims" decision)).
  - assert (dgetN "decision" decision ≠ VStr "allow") as E' by (intros H; by rewrite H in E).
    rewrite !guard_iff, negb_false_iff. split.
    + intros ((Ha & Hb & Hc & _) & Hm & _). split; [done| |done]. intros _.
      split; [by destruct (string_list (dgetN "accepted_claims" decision))|]. split; [by apply is_string_true|].
      intros c Hin. eapply sorted_diff_nil; [|exact Hin]. by destruct (sorted_diff _ _).
    + intros [_ Ha Hm]. destruct (Ha E') as (-> & -> & Hc). by rewrite (proj2 (sorted_diff_nil _ _) Hc).
Qed.

(** A packet that was built passes the verifier of exported packets exactly when
    the claims are adequate: an open gate is only as good as the accepted claims
    its decision lists, a closed one as the reasons the packet repeats.  The
    verifier always reports. *)
Theorem exported_packet_verifies gate approved result receipt now ed ee packet :
  build_combined_proof_packet gate approved result receipt now ed ee = Ok packet →
  ∃ report, verify_combined_proof_packet_payload packet (gate_request gate) (gate_decision gate) = Ok report
    ∧ (dgetN "status" report = VStr "pass" ↔ adequate (gate_request gate) (gate_decision gate) result).
Proof.
  intros H. unfold build_combined_proof_packet in H. cbv zeta in H. fold (gate_request gate) (gate_decision gate) in H.
  apply res_bind_Ok in H as ([] & Hg & H). apply res_bind_Ok in H as (l & Hl & H). apply res_bind_Ok in H as ([] & Hp & [= <-]).
  destruct (rebuilt_gate _ _ _ _ Hg) as (gate' & Hof & Hv & Hv' & Er & Ed & Hk).
  destruct (bridge_gate_admissible _ _ _ _ Hg) as [_ Hd].
  unfold verify_combined_proof_packet_payload, packet_issue. rewrite Hd. cbn [mbind res_bind]. rewrite Hof. cbn [mbind res_bind].
  rewrite (same_gate_same_verdict gate gate' _ Hv Hv' Er Ed Hk), Hp. cbn [mbind res_bind].
  match goal with |- context [validate_claim_adequacy ?r ?d ?p] =>
    pose proof (rve_claim_adequacy r d p) as Hr; pose proof (claim_adequacy_correct r d p l result) as Ha end.
  assert (dgetN "decision" (gate_decision gate) = VStr "allow" → l ≠ []) as Hne.
  { apply decision_check_inv in Hd. destruct (ac_nonclaims _ _ Hd) as (ns & ms & _ & Em & Hsub & Hne). intros Eal.
    rewrite Em in Hl. injection Hl as <-. rewrite Eal in Hne. specialize (Hne eq_refl). destruct ns as [|n ns]; [done|].
    destruct ms as [|m ms]; [|done]. exfalso. eapply not_elem_of_nil, (Hsub n). by left. }
  specialize (Ha eq_refl Hne eq_refl eq_refl). destruct (validate_claim_adequacy _ _ _) as [[]|e].
  - eexists. split; [done|]. split; [by intros _; apply Ha|done].
  - cbn [returns_or_value_error] in Hr. rewrite Hr. eexists. split; [done|]. split; [done|]. intros Hq. by apply Ha in Hq.
Qed.

(** ** Execution contexts *)

Lemma dset_dset k v w d : dset k v (dset k w d) = dset k v d.
Proof. induction d as [|[k' x] d IH]; cbn; [by rewrite String.eqb_refl|]. destruct (String.eqb k k') eqn:E; cbn; by rewrite E, ?IH. Qed.

Lemma dset_names k v d : dhas k d = true → map fst (dset k v d) = map fst d.
Proof.
  unfold dhas. induction d as [|[k' x] d IH]; cbn; [done|]. destruct (String.eqb k k') eqn:E; cbn; [done|].
  intros H. by rewrite IH.
Qed.

Lemma dpop_dset k v d : dget k d = None → dpop k (dset k v d) = d.
Proof.
  induction d as [|[k' x] d IH]; cbn; [by rewrite String.eqb_refl|]. destruct (String.eqb k k') eqn:E; [done|].
  cbn. rewrite E. intros H. by rewrite IH.
Qed.

(** A decision whose parameters carry a context, and what is left of it without. *)
Section context.
Context (p plan params : dict) (ctx : value).
Hypothesis Hplan : dget "execution_plan" p = Some (VDict plan).
Hypothesis Hparams : dget "parameters" plan = Some (VDict params).
Hypothesis Hnone : dget EXECUTION_CONTEXT_KEY params = None.
Let d' := dset "execution_plan" (VDict (dset "parameters" (VDict (dset EXECUTION_CONTEXT_KEY ctx params)) plan)) p.

Lemma with_context_parameters : plan_parameters d' = Ok (dset EXECUTION_CONTEXT_KEY ctx params).
Proof.
  unfold plan_parameters, plan_get, d'. rewrite dgetN_dset. change (String.eqb _ _) with true. cbn [py_get mbind res_bind].
  by rewrite dgetN_dset.
Qed.

Lemma with_context_payload : to_dict Decision d' = Ok d' → decision_payload_without_hsai_context d' = Ok p.
Proof.
  intros Hd. unfold decision_payload_without_hsai_context. rewrite Hd. cbn [mbind res_bind].
  rewrite with_context_parameters. cbn [mbind res_bind]. unfold dhas. rewrite dget_dset, String.eqb_refl.
  unfold d'. rewrite dgetN_dset. change (String.eqb "execution_plan" "execution_plan") with true. cbn [py_dict mbind res_bind].
  rewrite (dpop_dset _ _ _ Hnone), !dset_dset, (dset_same _ _ _ Hparams), (dset_same _ _ _ Hplan). done.
Qed.

Lemma with_context_ids :
  expected_mesh_run_id d' = expected_mesh_run_id p ∧ expected_mesh_action_id d' = expected_mesh_action_id p.
Proof.
  unfold expected_mesh_run_id, expected_mesh_action_id. rewrite with_context_parameters.
  assert (plan_parameters p = Ok params) as ->.
  { unfold plan_parameters, plan_get. rewrite (dgetN_Some _ _ _ Hplan). cbn [py_get mbind res_bind].
    by rewrite (dgetN_Some _ _ _ Hparams). }
  cbn [mbind res_bind]. unfold d'. rewrite !dgetN_dset. done.
Qed.
End context.

(** A decision, taken apart: its identifiers do not depend on a context. *)
Lemma payload_shape d p :
  decision_payload_without_hsai_context d = Ok p →
  ∃ plan params, dget "execution_plan" p = Some (VDict plan) ∧ dget "parameters" plan = Some (VDict params)
    ∧ dget EXECUTION_CONTEXT_KEY params = None ∧ map fst p = map fst d
    ∧ expected_mesh_run_id p = expected_mesh_run_id d ∧ expected_mesh_action_id p = expected_mesh_action_id d.
Proof.
  unfold decision_payload_without_hsai_context, to_dict. cbv zeta. intros H. apply res_bind_Ok in H as (d0 & Hx & H). apply res_bind_Ok in Hx as ([] & Hx & [= <-]).
  apply (validate_named_conforms _ decision_schema) in Hx; [|reflexivity..]. unfold decision_schema in Hx.
  member Hx "execution_plan" vp Ep Hp. destruct (conforms_dict _ _ Hp eq_refl) as [plan ->].
  member Hp "parameters" vm Em Hm. destruct (conforms_dict _ _ Hm eq_refl) as [params ->].
  clear Hx Hp Hm.
  assert (plan_parameters d = Ok params) as Hpp.
  { unfold plan_parameters, plan_get. rewrite (dgetN_Some _ _ _ Ep). cbn [py_get mbind res_bind]. by rewrite (dgetN_Some _ _ _ Em). }
  rewrite Hpp in H. cbn [mbind res_bind] in H. unfold dhas in H. destruct (dget EXECUTION_CONTEXT_KEY params) as [c|] eqn:Ec.
  - rewrite (dgetN_Some _ _ _ Ep) in H. cbn [py_dict mbind res_bind] in H. injection H as <-.
    exists (dset "parameters" (VDict (dpop EXECUTION_CONTEXT_KEY params)) plan), (dpop EXECUTION_CONTEXT_KEY params).
    rewrite !dget_dset_eq, dget_dpop, String.eqb_refl, dset_names by (unfold dhas; by rewrite Ep).
    do 4 (split; [done|]). unfold expected_mesh_run_id, expected_mesh_action_id. rewrite Hpp.
    assert (plan_parameters (dset "execution_plan" (VDict (dset "parameters" (VDict (dpop EXECUTION_CONTEXT_KEY params)) plan)) d)
            = Ok (dpop EXECUTION_CONTEXT_KEY params)) as ->.
    { unfold plan_parameters, plan_get. rewrite dgetN_dset, String.eqb_refl. cbn [py_get mbind res_bind].
      by rewrite dgetN_dset, String.eqb_refl. }
    cbn [mbind res_bind]. rewrite !dgetN_dset. unfold dgetN. by rewrite !dget_dpop.
  - injection H as <-. by exists plan, params.
Qed.

Lemma v2_gate_decision_ids request d d' :
  validate_gate_decision request d = Ok () → is_v2 request = true →
  expected_mesh_run_id d' = expected_mesh_run_id d → expected_mesh_action_id d' = expected_mesh_action_id d →
  validate_gate_decision request d' = Ok ().
Proof.
  intros H Hv Hr Ha. unfold validate_gate_decision, expected_candidate_digest in *. rewrite Hv, Hr, Ha in *. exact H.
Qed.

Lemma gate_parts gate :
  accepted (gate_request gate) (gate_decision gate) →
  dgetN "request" gate = VDict (gate_request gate) ∧ dgetN "decision" gate = VDict (gate_decision gate).
Proof.
  unfold gate_request, gate_decision. intros Hac. split.
  - pose proof (ac_valid _ _ Hac) as H. destruct (dgetN "request" gate); try done; discriminate H.
  - destruct (ac_seal _ _ Hac) as (dg & _ & H). destruct (dgetN "decision" gate); try done; discriminate H.
Qed.

Lemma bridge_gate_decision gate d ee approved :
  validate_bridge_gate gate (Some d) ee approved = Ok () →
  validate_gate_decision (gate_request gate) d = Ok ()
  ∧ is_true (dgetN "allowed" gate) = is_string "allow" (dgetN "decision" (gate_decision gate)).
Proof.
  intros H. unfold validate_bridge_gate in H. cbv zeta in H. fold (gate_request gate) (gate_decision gate) in H. res_inv H.
  match goal with H : validate_gate_decision _ _ = Ok ?u |- _ => destruct u end. split; [done|].
  revert Hg0 Hg1. by destruct (is_string "allow" _), (is_true _).
Qed.

Lemma bridge_gate_add gate d :
  validate_bridge_gate gate None None false = Ok () → validate_gate_decision (gate_request gate) d = Ok () →
  validate_bridge_gate gate (Some d) None false = Ok ().
Proof.
  intros H Hd. unfold validate_bridge_gate in *. cbv zeta in *. fold (gate_request gate) (gate_decision gate) in *. res_inv H.
  rewrite Hd. repeat match goal with Hm : ?m = Ok _ |- context [mbind _ ?m] => rewrite Hm; cbn [mbind res_bind] end.
  by repeat match goal with Hm : _ = false |- _ => rewrite Hm end.
Qed.

(** A context made of the parts of an open gate, in a decision with the
    identifiers and the payload the gate was accepted for. *)
Lemma context_of_gate_validates gate d p d1 params context :
  validate_bridge_gate gate (Some d) None false = Ok () → is_true (dgetN "allowed" gate) = true →
  decision_payload_without_hsai_context d = Ok p → plan_parameters d1 = Ok params →
  dgetN EXECUTION_CONTEXT_KEY params = VDict context →
  Forall (λ kv, dgetN kv.1 context = kv.2)
    [("schema_version", VStr HSAI_EXECUTION_CONTEXT_VERSION); ("request", VDict (gate_request gate));
     ("decision", VDict (gate_decision gate)); ("request_digest", dgetN "request_digest" gate);
     ("decision_digest", dgetN "decision_digest" gate); ("candidate_digest", dgetN "candidate_digest" gate)] →
  expected_mesh_run_id d1 = expected_mesh_run_id d → expected_mesh_action_id d1 = expected_mesh_action_id d →
  decision_payload_without_hsai_context d1 = Ok p → validate_hsai_execution_context d1 = Ok context.
Proof.
  intros Hg Hallow Hp Hpar Hctx Hk Hrun Hact Hpay. rewrite !Forall_cons in Hk. cbn [fst snd] in Hk.
  destruct Hk as (K1 & K2 & K3 & K4 & K5 & K6 & _).
  destruct (bridge_gate_admissible _ _ _ _ Hg) as [_ Hdec]. destruct (bridge_gate_decision _ _ _ _ Hg) as [Hgd Hal].
  destruct (gate_digests _ _ _ _ Hg) as (a & b & c & A1 & A2 & A3 & B1%dgetN_Some & B2%dgetN_Some & B3%dgetN_Some).
  destruct (validate_gate_decision_inv _ _ Hgd) as ((r & R1 & R2) & (x & X1 & X2) & Hv1).
  unfold validate_hsai_execution_context. rewrite Hpar. cbn [mbind res_bind]. rewrite Hctx. cbn [dict_or_empty as_dict default from_option id].
  rewrite K1, K2, K3. cbn [dict_or_empty as_dict default from_option id]. rewrite is_string_refl. cbn [negb].
  rewrite Hdec, Hrun, Hact, R1, X1, R2, X2, A1, K4, K5, K6, B1, B2, B3, A2, A3. unfold require_same. cbn [mbind res_bind].
  rewrite !py_eq_VStr_refl. cbn [mbind res_bind negb].
  rewrite Hallow in Hal. rewrite <- Hal. cbn [negb].
  destruct (is_v2 (gate_request gate)) eqn:Ev.
  - destruct (rebuilt_gate _ _ _ _ Hg) as (gate' & -> & _ & Hv' & Er & _ & _). cbn [mbind res_bind].
    rewrite bridge_gate_add; [done..|]. rewrite Er. by eapply v2_gate_decision_ids.
  - destruct (Hv1 eq_refl) as (p' & s & Hp' & Hs & Hc). rewrite Hp in Hp'. injection Hp' as <-. rewrite A3 in Hc. injection Hc as ->.
    rewrite Hpay. cbn [mbind res_bind]. rewrite Hs. cbn [mbind res_bind]. rewrite py_eq_VStr_refl. done.
Qed.

(** What is attached to a decision is found again: when an open gate was
    accepted for the decision, the actuator that gets the decision with its
    context accepts the context, for both versions of the request, and returns
    the request and the answer of that gate. *)
Theorem attached_context_validates d gate permit d' :
  is_instance Decision d → is_true (dgetN "allowed" gate) = true →
  attach_hsai_execution_context d gate permit = Ok d' →
  ∃ context, validate_hsai_execution_context d' = Ok context ∧ repo_patch_admission_failure d' = Ok None
    ∧ dgetN "request" context = VDict (gate_request gate) ∧ dgetN "decision" context = VDict (gate_decision gate)
    ∧ dget "execution_permit" context = VDict <$> permit
    ∧ decision_payload_without_hsai_context d' = decision_payload_without_hsai_context d.
Proof.
  intros Hd Hallow H. unfold attach_hsai_execution_context in H. apply res_bind_Ok in H as ([] & Hg & H).
  apply res_bind_Ok in H as (p & Hp & H). destruct (payload_shape _ _ Hp) as (plan & params & E1 & E2 & E3 & E4 & E5 & E6).
  rewrite (dgetN_Some _ _ _ E1) in H. cbn [py_dict mbind res_bind] in H. rewrite (dgetN_Some _ _ _ E2) in H.
  replace (py_or (VDict params) (VDict [])) with (VDict params) in H by (by destruct params). cbn [py_dict mbind res_bind] in H.
  apply res_bind_Ok in H as (? & _ & H). cbv zeta in H.
  destruct (bridge_gate_admissible _ _ _ _ Hg) as [Had Hdec]. pose proof (decision_check_inv _ _ Hdec) as Hac.
  destruct (gate_parts _ Hac) as [Gr Gd]. rewrite Gr, Gd in H.
  match type of H with from_dict _ (dset _ (VDict (dset _ (VDict (dset _ ?c _)) _)) _) = _ => set (ctx := c) in * end.
  destruct (with_context_ids p plan params ctx E1 E2) as [Hrun Hact].
  pose proof (with_context_parameters p plan params ctx) as Hpar.
  pose proof (with_context_payload p plan params ctx E1 E2 E3) as Hpay. cbv zeta in *.
  match type of H with from_dict _ ?x = _ => set (d1 := x) in * end.
  assert (d' = d1 ∧ to_dict Decision d1 = Ok d1) as [-> Htd].
  { unfold from_dict in H. apply res_bind_Ok in H as ([] & Hv & H). split.
    - rewrite construct_instance in H; [by injection H| |].
      + apply contract_class_NoDup. by apply list_elem_of_In; unfold contract_classes; cbn [In]; tauto.
      + unfold is_instance, d1. rewrite dset_names by (unfold dhas; by rewrite E1). by rewrite E4.
    - unfold to_dict. cbv zeta. by rewrite Hv. }
  specialize (Hpay Htd).
  assert (validate_hsai_execution_context d1 = Ok (dict_or_empty ctx)) as Hok; [|].
  2:{ exists (dict_or_empty ctx). split; [done|]. split; [unfold repo_patch_admission_failure; by rewrite Hok|].
      split; [done|]. split; [done|]. split; [by destruct permit|]. by rewrite Hpay, Hp. }
  rewrite E5 in Hrun. rewrite E6 in Hact.
  eapply (context_of_gate_validates gate d p d1 _ (dict_or_empty ctx) Hg Hallow Hp Hpar); try done.
  - rewrite dgetN_dset. by rewrite String.eqb_refl.
  - destruct permit; repeat constructor.
Qed.

(** With the local adapter the gate of a built request is open exactly when the
    request declares what it does not claim, and never eligible for authority. *)
Theorem local_gate_opens request t now now' :
  admissible request →
  ∃ gate, evaluate_hsai_gate request (a ← local_hsai_allow_decision request t None; Ok (VDict a)) false now now' = Ok gate
    ∧ is_true (dgetN "allowed" gate) = truthy (dgetN "explicit_nonclaims" request)
    ∧ dget_or "authority_eligible" (VBool false) gate = VBool false.
Proof.
  intros Had. destruct (local_decision_accepted request t Had) as (a & -> & Ha & Hal). cbn [mbind res_bind].
  destruct (evaluate_hsai_gate_settles request Had (Ok (VDict a)) false now now') as (gate & d & Hg & _ & _ & _ & _ & He & Hw & Hc).
  exists gate. split; [done|]. split; [|done]. destruct Hc as [[= <-]|[_ Hn]]; [by rewrite Hw, <- Hal; destruct (is_string _ _)|].
  by destruct (Hn _ eq_refl).
Qed.
