(* ===== verification/HsaiExamples.v ===== *)
(** * A repository patch at the admission gate

    One decision with its evaluation, its requests of both versions, the local
    adapter's answer, the gate, a packet, and an attached context; witnesses of
    [HsaiTheorems]; what the gate lets through and the packet verifier does not. *)

From S2P Require Import Prelude PyFloat PyValue Json Sha256 PyNumbers Signing Paths Models SchemaValidation Schemas Contracts PacketFacts Merkle HsaiBridge HsaiTheorems.
#[local] Open Scope Z_scope.

Definition patch_decision : dict :=
  [("decision_id", VStr "decision-1"); ("trigger_id", VStr "trigger-1"); ("summary", VStr "patch the checkout timeout");
   ("decision_type", VStr "investigate_and_patch"); ("autonomy_tier", VStr "approval_required");
   ("reasoning", VDict
      [("primary_hypothesis", VStr "timeout too short"); ("evidence", VList [VStr "p95 over budget"]);
       ("evidence_pack", VDict [("citations", VList [VStr "c1"]); ("artifact_ref", VStr "artifact-1")]);
       ("alternatives_considered", VList [VStr "no action"])]);
   ("expected_outcome", VDict
      [("target_metrics", VDict [("p95_latency_ms", VStr "<300"); ("error_rate", VStr "<1%")]); ("time_to_effect", VStr "5m")]);
   ("risk", VDict [("level", VStr "medium"); ("blast_radius", VStr "one service"); ("customer_impact_if_wrong", VStr "none")]);
   ("confidence", VInt 1);
   ("execution_plan", VDict
      [("system", VStr "repo_patch_service"); ("action", VStr "investigate_and_patch");
       ("parameters", VDict
          [("repo_path", VStr "/repo"); ("allowed_paths", VList [VStr "app.py"]); ("test_commands", VList [VStr "pytest -q"]);
           ("patch_template", VDict [("target_file", VStr "app.py"); ("find", VStr "1"); ("replace", VStr "2")])]);
       ("rollback_plan", VStr "git revert")])].

Definition patch_evaluation : dict :=
  [("evaluation_id", VStr "eval-1"); ("decision_id", VStr "decision-1"); ("passed", VBool true);
   ("final_recommendation", VStr "execute");
   ("stage_results", VDict (map (λ k, (k, VDict []))
      ["schema_validation"; "policy_validation"; "contract_checks"; "trajectory_quality";
       "behavioral_scores"; "verifier"; "business_rules"; "execution_readiness"]));
   ("blocking_reasons", VList []); ("review_route", VNone)].

Definition patch_receipt : dict :=
  [("state_slice", VStr "mesh.repo_patch_disposable_worktree.v1");
   ("test_results", VList [VDict [("argv", VList [VStr "/usr/bin/pytest"; VStr "-q"])]])].

Definition ok_or_nil (m : res dict) : dict := match m with Ok d => d | Err _ => [] end.

Definition patch_request : dict := Eval vm_compute in ok_or_nil (build_hsai_admission_request patch_decision patch_evaluation "t0").
Definition patch_request_v2 : dict :=
  Eval vm_compute in ok_or_nil (build_hsai_admission_request_v2 patch_decision patch_evaluation patch_receipt "t0").
Definition patch_answer : dict := Eval vm_compute in ok_or_nil (local_hsai_allow_decision patch_request "t1" None).
Definition patch_answer_v2 : dict := Eval vm_compute in ok_or_nil (local_hsai_allow_decision patch_request_v2 "t1" None).
Definition patch_gate : dict :=
  Eval vm_compute in ok_or_nil (evaluate_hsai_gate patch_request (Ok (VDict patch_answer)) true "t2" "t3").
Definition patch_gate_v2 : dict :=
  Eval vm_compute in ok_or_nil (evaluate_hsai_gate patch_request_v2 (Ok (VDict patch_answer_v2)) true "t2" "t3").

(** An answer that says allow and accepts none of the claims. *)
Definition empty_answer : dict :=
  Eval vm_compute in
    (let d := dset "accepted_claims" (VList []) patch_answer in
     match decision_digest d with Ok digest => dset "decision_digest" (VStr digest) d | Err _ => [] end).

Definition empty_gate : dict :=
  Eval vm_compute in ok_or_nil (evaluate_hsai_gate patch_request (Ok (VDict empty_answer)) true "t2" "t3").

Definition executed_result : dict := [("status", VStr "executed"); ("result_status", VStr "succeeded")].

Definition patch_packet (gate : dict) : res dict :=
  build_combined_proof_packet gate true executed_result (Some "sha256:receipt") "t4" (Some patch_decision) (Some patch_evaluation).

Definition attached : dict := Eval vm_compute in ok_or_nil (attach_hsai_execution_context patch_decision patch_gate_v2 None).

Definition proof_packet : dict := Eval vm_compute in ok_or_nil (patch_packet patch_gate).

Definition empty_packet : dict := Eval vm_compute in ok_or_nil (patch_packet empty_gate).
Definition empty_report : dict :=
  Eval vm_compute in
    ok_or_nil (verify_combined_proof_packet_payload empty_packet (gate_request empty_gate) (gate_decision empty_gate)).

Example patch_request_built : build_hsai_admission_request patch_decision patch_evaluation "t0" = Ok patch_request.
Proof. vm_compute. reflexivity. Qed.
Example patch_request_v2_built : build_hsai_admission_request_v2 patch_decision patch_evaluation patch_receipt "t0" = Ok patch_request_v2.
Proof. vm_compute. reflexivity. Qed.
Example patch_gate_v2_open : is_true (dgetN "allowed" patch_gate_v2) = true.
Proof. vm_compute. reflexivity. Qed.
Example patch_gates_accepted :
  validate_bridge_gate patch_gate (Some patch_decision) (Some patch_evaluation) true = Ok ()
  ∧ validate_bridge_gate patch_gate_v2 (Some patch_decision) (Some patch_evaluation) true = Ok ()
  ∧ validate_bridge_gate empty_gate (Some patch_decision) (Some patch_evaluation) true = Ok ().
Proof. vm_compute. repeat split. Qed.

Lemma patch_fields_not_blank : Forall (λ k, not_blank (dgetN k patch_request)) ["mesh_run_id"; "mesh_action_id"; "mesh_policy_id"].
Proof. repeat constructor; eexists; split; vm_compute; reflexivity. Qed.

(** The gate when the adapter raises. *)
Definition unavailable : res value := Err (Exc RuntimeError "hsai admission command failed: 3").

Lemma gate_fails_closed_witness :
  identified patch_request
  ∧ (identified patch_request →
     ∃ gate d, evaluate_hsai_gate patch_request unavailable true "t2" "t3" = Ok gate
       ∧ validate_bridge_gate gate None None false = Ok ()
       ∧ dgetN "request" gate = VDict patch_request ∧ dgetN "decision" gate = VDict d ∧ accepted patch_request d
       ∧ (is_true (dgetN "allowed" gate) = true ↔
            ∃ a, unavailable = Ok (VDict a) ∧ validate_hsai_decision patch_request (VDict a) = Ok ()
                 ∧ dgetN "decision" a = VStr "allow")
       ∧ ((∀ a, unavailable = Ok a → validate_hsai_decision patch_request a ≠ Ok ()) → dgetN "decision" d = VStr "error"))
  ∧ (¬ identified patch_request → ∃ e, evaluate_hsai_gate patch_request unavailable true "t2" "t3" = Err e).
Proof.
  split; [exact patch_fields_not_blank|]. apply (gate_fails_closed patch_decision patch_evaluation patch_request _ true "t0").
  left. exact patch_request_built.
Defined.

Lemma gate_admits_one_decision_witness :
  is_v2 (gate_request patch_gate_v2) = true
  ∧ (expected_mesh_run_id patch_decision = expected_mesh_run_id patch_decision
     ∧ expected_mesh_action_id patch_decision = expected_mesh_action_id patch_decision
     ∧ if is_v2 (gate_request patch_gate_v2) then
         ∃ receipt n n', normalized_repo_patch_candidate patch_decision patch_evaluation receipt = Ok n
           ∧ normalized_repo_patch_candidate patch_decision patch_evaluation receipt = Ok n'
           ∧ py_eq (dgetN "candidate_payload" (gate_request patch_gate_v2)) (VDict n) = true
           ∧ py_eq (dgetN "candidate_payload" (gate_request patch_gate_v2)) (VDict n') = true
       else
         ∃ p p', decision_payload_without_hsai_context patch_decision = Ok p
           ∧ decision_payload_without_hsai_context patch_decision = Ok p'
           ∧ (dumps true (VDict p) = dumps true (VDict p')
              ∨ Merkle.collision_between [dumps true (VDict p)] [dumps true (VDict p')])).
Proof.
  split; [vm_compute; reflexivity|].
  exact (gate_admits_one_decision patch_gate_v2 patch_decision patch_evaluation true patch_decision patch_evaluation true
           (proj1 (proj2 patch_gates_accepted)) (proj1 (proj2 patch_gates_accepted))).
Defined.

Example patch_packet_built :
  build_combined_proof_packet patch_gate true executed_result (Some "sha256:receipt") "t4" (Some patch_decision) (Some patch_evaluation)
  = Ok proof_packet.
Proof. vm_compute. reflexivity. Qed.

Lemma exported_packet_verifies_witness :
  ∃ report, verify_combined_proof_packet_payload proof_packet (gate_request patch_gate) (gate_decision patch_gate) = Ok report
    ∧ (dgetN "status" report = VStr "pass" ↔ adequate (gate_request patch_gate) (gate_decision patch_gate) executed_result).
Proof. exact (exported_packet_verifies patch_gate true executed_result (Some "sha256:receipt") "t4"
  (Some patch_decision) (Some patch_evaluation) proof_packet patch_packet_built). Defined.

(** A gate may be open with no claim accepted; what is executed under it leaves
    a packet that the verifier of exported packets rejects. *)
Theorem open_gate_packet_fails :
  evaluate_hsai_gate patch_request (Ok (VDict empty_answer)) true "t2" "t3" = Ok empty_gate
  ∧ is_true (dgetN "allowed" empty_gate) = true
  ∧ ∃ packet report, patch_packet empty_gate = Ok packet
    ∧ verify_combined_proof_packet_payload packet (gate_request empty_gate) (gate_decision empty_gate) = Ok report
    ∧ dgetN "status" report = VStr "fail"
    ∧ dgetN "issues" report = strs ["allowed HSAI decision must preserve accepted claims"].
Proof.
  split; [vm_compute; reflexivity|]. split; [vm_compute; reflexivity|].
  exists empty_packet, empty_report. split; [vm_compute; reflexivity|]. split; [vm_compute; reflexivity|]. split; reflexivity.
Qed.

Lemma attached_context_validates_witness :
  ∃ context, validate_hsai_execution_context attached = Ok context ∧ repo_patch_admission_failure attached = Ok None
    ∧ dgetN "request" context = VDict (gate_request patch_gate_v2) ∧ dgetN "decision" context = VDict (gate_decision patch_gate_v2)
    ∧ dget "execution_permit" context = VDict <$> None
    ∧ decision_payload_without_hsai_context attached = decision_payload_without_hsai_context patch_decision.
Proof.
  apply (attached_context_validates patch_decision patch_gate_v2 None attached); [reflexivity|vm_compute; reflexivity..].
Defined.

Lemma local_gate_opens_witness :
  ∃ gate, evaluate_hsai_gate patch_request (a ← local_hsai_allow_decision patch_request "t1" None; Ok (VDict a)) false "t2" "t3" = Ok gate
    ∧ is_true (dgetN "allowed" gate) = truthy (dgetN "explicit_nonclaims" patch_request)
    ∧ dget_or "authority_eligible" (VBool false) gate = VBool false.
Proof.
  apply (local_gate_opens patch_request "t1" "t2" "t3").
  eapply built_v1_admissible; [exact patch_request_built|exact patch_fields_not_blank].
Defined.
