(* ===== verification/Orchestrator.v ===== *)
(** * The orchestrator

    [src/services/orchestrator/service.py]: how an approved decision is carried
    out - the guards before it, the ledger of attempts around it, the admission
    gate, review and authority service of a repository patch, retries, and the
    record that is returned.  Adapters, the authority client, the external gate,
    clocks and sleeping are arguments; other threads may change the ledger
    before every step. *)

From S2P Require Import Prelude PyFloat PyValue PyNumbers Json JsonStore DateTime Models Schemas Contracts ExecutionAttempts HsaiBridge RunMachine.
#[local] Open Scope Z_scope.

(** ** Data *)

Definition REPO_PATCH_REVIEW_ONLY_STATE_SLICE : string := "mesh.repo_patch_review_only_boundary.v1".
Definition REPO_PATCH_AUTHORITY_ORCHESTRATION_STATE_SLICE : string := "mesh.repo_patch_authority_orchestration.v1".

Definition REPO_PATCH_REVIEW_FLAGS : dict :=
  [("repo_patch_review_only", VBool true); ("repo_patch_final_parameters_unchanged", VBool true);
   ("repo_patch_authority_invoked", VBool false); ("repo_patch_authority_credentials_forwarded", VBool false);
   ("repo_patch_review_state_slice", VStr REPO_PATCH_REVIEW_ONLY_STATE_SLICE)].
Definition NESTED_REPO_PATCH_REVIEW_FLAGS : dict :=
  [("repo_patch_review_only", VBool true); ("final_parameters_unchanged", VBool true);
   ("authority_invoked", VBool false); ("authority_credentials_forwarded", VBool false)].
Definition CREDENTIAL_FIELD_FRAGMENTS : list string :=
  ["access_token"; "api_key"; "authorization_header"; "bearer_token"; "cookie"; "credential"; "kubeconfig"; "password";
   "private_key"; "refresh_token"; "secret"].
Definition PROHIBITED_REVIEW_FIELDS : list string :=
  ["authorization_proof"; "execution_permit"; "authority_response"; "authority_receipt"].

(** [CliExecutionResult] of [adapters_common.py] *)
Record CliExecutionResult := CliResult {
  x_status : string;
  x_refs : dict;
  x_failure : option dict;
  x_retryable : bool }.

(** The members of [RuntimeConfig] that are read, and the path of the ledger. *)
Record settings := Settings {
  orchestration_mode : string;
  max_transient_retries : Z;
  max_retry_window_seconds : Z;
  repo_patch_authority_key_id : string;
  attempts_path : string }.

(** The ledger of attempts, and whether there is an authority client. *)
Record orchestrator := Orch { o_attempts : file; o_client : bool }.

(** What was asked of the outside, and what the reviewing adapter answered. *)
Inductive act :=
  | Reviewed (idempotency_key : string)
  | Answered (idempotency_key : string) (review : CliExecutionResult)
  | Acted (idempotency_key : string)
  | Authorised (idempotency_key : string) (gate : dict)
  | Incident (reason : value)
  | Slept (seconds : float).

Definition OM : Type → Type := RM orchestrator act.
Definition ocall (A : Type) : Type := tick orchestrator → orchestrator → res A.

(** The collaborators.  [inl] is a [RepoPatchAuthorityError] with its message. *)
Record collaborators := Collaborators {
  co_eligible : bool;
  co_admit : dict → ocall value;
  co_execute_decision : dict → string → ocall CliExecutionResult;
  co_open_incident : dict → value → ocall dict;
  co_build_client : ocall unit;
  co_preflight : dict → dict → string → ocall (string + dict);
  co_authority_execute : dict → dict → dict → string → dict → ocall (string + dict);
  co_sleep : float → ocall unit }.

(** ** Fields of untrusted results *)

(** [str(key).lower()]; U+212A is the one character outside ASCII whose lower
    case is an ASCII letter of the names looked for. *)
Definition kelvin : string := chars_str (bytes [226; 132; 170]).
Definition key_lower (s : string) : string := str_lower (str_replace kelvin "k" s).

Fixpoint contains_prohibited_review_field (v : value) : bool :=
  match v with
  | VDict d =>
      (fix go (d : dict) : bool :=
         match d with
         | [] => false
         | (key, item) :: d' =>
             mem_str (key_lower key) PROHIBITED_REVIEW_FIELDS || contains_prohibited_review_field item || go d'
         end) d
  | VList l => existsb contains_prohibited_review_field l
  | _ => false
  end.

Fixpoint contains_credential_field (v : value) : bool :=
  match v with
  | VDict d =>
      (fix go (d : dict) : bool :=
         match d with
         | [] => false
         | (key, item) :: d' =>
             let normalized_key := key_lower key in
             (if mem_str normalized_key ["authority_credentials_forwarded"; "repo_patch_authority_credentials_forwarded"]
                 && is_false item then false
              else existsb (λ fragment, str_contains fragment normalized_key) CREDENTIAL_FIELD_FRAGMENTS
                   || contains_credential_field item)
             || go d'
         end) d
  | VList l => existsb contains_credential_field l
  | _ => false
  end.

(** [_repo_patch_parameter_contract_failure] *)
Definition repo_patch_parameter_contract_failure (decision : dict) : res (option string) :=
  parameters ← plan_get decision "parameters";
  Ok (match parameters with
      | VDict parameters =>
          if dhas EXECUTION_CONTEXT_KEY parameters then Some "repo_patch_pre_attached_authority_context_rejected"
          else if contains_credential_field (VDict parameters) then Some "repo_patch_parameter_credentials_rejected"
          else None
      | _ => Some "repo_patch_parameters_rejected"
      end).

Definition requires_replay_guard (decision : dict) : res bool :=
  repo_patch ← repo_patch_requires_hsai decision;
  system ← plan_get decision "system";
  action ← plan_get decision "action";
  Ok (repo_patch || (is_string "systemd_service" system && is_string "restart_systemd_service" action)).

(** A text that is not blank. *)
Definition says_something (v : value) : bool := match v with VStr s => negb (String.eqb (str_strip s) "") | _ => false end.

Definition flags_hold (flags refs : dict) : bool := forallb (λ kv, py_eq (dgetN kv.1 refs) kv.2) flags.

(** [key not in d or d\[key\] is True] *)
Definition absent_or_true (key : string) (d : dict) : bool := negb (dhas key d) || is_true (dgetN key d).

(** The review that a repository patch's adapter claims to have made. *)
Definition nested_review_ok (nested : value) : bool :=
  match nested with
  | VDict nested =>
      flags_hold NESTED_REPO_PATCH_REVIEW_FLAGS nested && is_true (dgetN "approved" nested)
      && is_string "authority_service_review_required" (dgetN "next_action" nested)
      && says_something (dgetN "mode" nested) && says_something (dgetN "summary" nested)
      && match dgetN "risk_flags" nested with VList l => forallb is_str l | _ => false end
      && absent_or_true "model_parameter_changes_ignored" nested
  | _ => false
  end.

(** [_repo_patch_review_contract_failure] *)
Definition repo_patch_review_contract_failure (review : CliExecutionResult) : option string :=
  let refs := x_refs review in
  let review_keys := filter (λ key, dhas key refs = true) ["goose_review"; "hermes_review"] in
  if negb (String.eqb (x_status review) "succeeded") || x_retryable review || bool_decide (x_failure review ≠ None)
     || negb (flags_hold REPO_PATCH_REVIEW_FLAGS refs)
  then Some "repo_patch_review_contract_rejected"
  else
    match review_keys with
    | [key] =>
        let allowed_top_level := key :: "repo_patch_model_parameter_changes_ignored" :: map fst REPO_PATCH_REVIEW_FLAGS in
        if negb (forallb (λ kv, mem_str kv.1 allowed_top_level) refs)
           || negb (absent_or_true "repo_patch_model_parameter_changes_ignored" refs)
           || negb (nested_review_ok (dgetN key refs))
        then Some "repo_patch_review_contract_rejected"
        else if contains_prohibited_review_field (VDict refs) then Some "repo_patch_review_authority_material_rejected"
        else if contains_credential_field (VDict refs) then Some "repo_patch_review_credentials_rejected"
        else None
    | _ => Some "repo_patch_review_contract_rejected"
    end.

Definition response_rejected : option string := Some "repo_patch_authority_response_contract_rejected".

(** The proof that comes with a response: what the client verified, and with
    which key. *)
Definition proof_named (proof : dict) (expected_authority_key_id : string) : bool :=
  is_string "mesh-repo-patch-authority-response-ed25519-v1" (dgetN "signing_profile" proof)
  && is_string "ed25519" (dgetN "algorithm" proof) && is_string expected_authority_key_id (dgetN "key_id" proof)
  && is_string "verified" (dgetN "status" proof) && is_string "orbital_mesh_ed25519_v1" (dgetN "verifier" proof).

(** [_authority_response_contract_failure] *)
Definition authority_response_contract_failure (response : dict) (expected_authority_key_id : string) : res (option string) :=
  if negb (is_string "mesh.repo_patch_authority_response.v1" (dgetN "schema_version" response)) then Ok response_rejected
  else
    let status := dgetN "status" response in
    known ← in_str_set status ["completed"; "rejected"];
    if negb known then Ok response_rejected
    else
      match dgetN "execution_result" response, dgetN "receipt" response, dgetN "authorization_proof" response with
      | VDict execution_result, VDict receipt, VDict proof =>
          terminal ← in_str_set (dgetN "status" execution_result) ["succeeded"; "failed"; "rejected"];
          let failure := dgetN "failure" execution_result in
          let rejection := dgetN "rejection" response in
          Ok (if negb terminal || negb (is_dict (dgetN "external_refs" execution_result))
                 || (negb (is_none failure) && negb (is_dict failure))
                 || negb (is_false (dgetN "retryable" execution_result))
                 || (is_string "completed" status && negb (is_none rejection))
                 || (is_string "rejected" status && negb (is_dict rejection))
                 || negb (proof_named proof expected_authority_key_id)
              then response_rejected
              else if contains_credential_field (VDict [("execution_result", VDict execution_result); ("receipt", VDict receipt)])
              then Some "repo_patch_authority_response_credentials_rejected"
              else None)
      | _, _, _ => Ok response_rejected
      end.

(** ** Results and records *)

(** [_result_from_prior_attempt] *)
Definition result_from_prior_attempt (record : dict) : res CliExecutionResult :=
  refs ← py_dict (py_or (dgetN "external_refs" record) (VDict []));
  Ok (CliResult (py_str (dget_or "status" (VStr "failed") record)) (dset "idempotency_replayed" (VBool true) refs)
        (as_dict (dgetN "failure" record)) false).

(** [_unknown_after_dispatch] *)
Definition unknown_after_dispatch (record : option dict) : CliExecutionResult :=
  CliResult "failed"
    [("idempotency_guard", VStr "remote_command_dispatched_without_outcome");
     ("idempotency_key", dgetN "idempotency_key" (default [] record))]
    (Some [("reason", VStr "outcome_unknown_after_dispatch");
           ("detail", VStr "remote command may already have executed; refusing to retry side-effecting action")])
    false.

Definition failed_result (refs failure : dict) : CliExecutionResult := CliResult "failed" refs (Some failure) false.

(** A failure that holds something. *)
Definition failure_or (failure : option dict) (other : dict) : dict :=
  match failure with Some ((_ :: _) as d) => d | _ => other end.

(** [_retry_delay_seconds] *)
Definition retry_delay_seconds (attempts : Z) (failure : option dict) : res float :=
  let hint := match failure with Some d => dgetN "retry_after_seconds" d | None => VNone end in
  if is_none hint then Ok (f_of_Z (Z.min (2 ^ Z.max (attempts - 1) 0) 8)) else py_float hint.

(** [decision.execution_plan\[key\]] *)
Definition plan_item (decision : dict) (key : string) : res value := subscript (dgetN "execution_plan" decision) key.

Definition idempotency_key_of (decision : dict) : res string :=
  action ← plan_item decision "action";
  Ok (py_str (dgetN "decision_id" decision) +:+ ":" +:+ py_str action).

(** [ExecutionRecord(...)] and its [validate()] *)
Definition execution_record (cfg : settings) (decision : dict) (idempotency_key started_at completed_at status : string)
    (external_refs : dict) (failure : option dict) : res dict :=
  system ← plan_item decision "system";
  action ← plan_item decision "action";
  parameters ← plan_item decision "parameters";
  let record :=
    [("execution_id", VStr ("exe_" +:+ py_str (dgetN "decision_id" decision))); ("decision_id", dgetN "decision_id" decision);
     ("started_at", VStr started_at); ("completed_at", VStr completed_at); ("executor", VStr (orchestration_mode cfg));
     ("status", VStr status); ("idempotency_key", VStr idempotency_key);
     ("applied_action", VDict [("system", system); ("action", action); ("parameters", parameters)]);
     ("external_refs", VDict external_refs); ("failure", opt_dict failure)] in
  _ ← validate ExecutionRecord record;
  Ok record.

(** [_hsai_external_refs] *)
Definition hsai_external_refs (gate proof_packet : dict) : res dict :=
  _ ← validate_bridge_gate gate None None false;
  _ ← validate_combined_proof_packet gate proof_packet;
  reasons ← (v ← ditem "reason_codes" gate; py_iter v);
  Ok [("hsai_admission", VDict
         [("schema_version", VStr "mesh.hsai_admission_bridge.v1"); ("request_digest", dgetN "request_digest" gate);
          ("decision_digest", dgetN "decision_digest" gate); ("candidate_digest", dgetN "candidate_digest" gate);
          ("decision", dgetN "decision" (dict_or_empty (dgetN "decision" gate))); ("reason_codes", VList reasons)]);
      ("combined_proof_packet", VDict proof_packet)].

Section orchestrator.
Context (cfg : settings) (co : collaborators).

(** ** Steps *)

Definition collaborate {A} (f : ocall A) : OM A := step (λ t w, (f t w, w)).

(** A clock reading. *)
Definition read_clock : OM string := step (λ t w, (Ok (tk_now t), w)).
Definition read_monotonic : OM float := step (λ t w, (Ok (tk_mono t), w)).

(** One section of the ledger. *)
Definition on_attempts {A} (f : tick orchestrator → file → res A * file) : OM A :=
  step (λ t w, let '(r, attempts) := f t (o_attempts w) in (r, Orch attempts (o_client w))).

Definition prior_attempt (key : string) : OM (option dict) := on_attempts (λ _ f, attempt_get (attempts_path cfg) f key).

Definition begin_attempt (decision : dict) (key : string) : OM dict :=
  on_attempts (λ t f, attempt_begin (attempts_path cfg) f key (py_str (dgetN "decision_id" decision))
                        (dict_or_empty (dgetN "execution_plan" decision)) (tk_now t)).

Definition mark_dispatched (key : string) : OM dict :=
  on_attempts (λ t f, attempt_mark_dispatched (attempts_path cfg) f key (tk_now t) (tk_later t) (tk_later t)).

Definition complete_attempt (key status : string) (refs : dict) (failure : option dict) : OM dict :=
  on_attempts (λ t f, attempt_complete (attempts_path cfg) f key status refs failure (tk_now t) (tk_later t) (tk_later t)).

(** [evaluate_hsai_gate(request, self.hsai_admission_adapter)] *)
Definition ask_gate (request : dict) : OM dict :=
  answer ← step (λ t w, (Ok (co_admit co request t w), w));
  now ← read_clock;
  pure (evaluate_hsai_gate request answer (co_eligible co) now now).

(** ** Rejections *)

(** [_repo_patch_review_rejected] *)
Definition repo_patch_review_rejected (decision : dict) (key started_at : string) (review : CliExecutionResult) : OM dict :=
  let failure := failure_or (x_failure review) [("reason", VStr "repo_patch_review_rejected")] in
  let failure := dset "orchestration_mode" (VStr (orchestration_mode cfg)) failure in
  completed_at ← read_clock;
  pure (execution_record cfg decision key started_at completed_at "rejected" (x_refs review) (Some failure)).

(** [_repo_patch_admission_rejected] *)
Definition repo_patch_admission_rejected (decision evaluation : dict) (key started_at : string) (gate : dict) (reason : string)
    : OM dict :=
  let mesh_allowed := mesh_policy_allows evaluation in
  created_at ← read_clock;
  prepared ← pure (
    reasons ← py_iter (py_or (dgetN "reason_codes" gate) (VList []));
    blocking ← py_iter (dgetN "blocking_reasons" evaluation);
    proof_packet ← build_combined_proof_packet gate mesh_allowed
      [("status", VStr "blocked"); ("executor", VStr (orchestration_mode cfg)); ("reason", VStr reason);
       ("hsai_reason_codes", VList reasons); ("mesh_blocking_reasons", VList blocking)]
      None created_at (Some decision) (Some evaluation);
    verdict ← (d ← ditem "decision" gate; subscript d "decision");
    refs ← hsai_external_refs gate proof_packet;
    Ok (refs, [("reason", VStr reason); ("blocking_reasons", VList (blocking ++ reasons));
               ("hsai_decision", verdict); ("mesh_policy_approved", VBool mesh_allowed)]));
  let '(refs, failure) := (prepared : dict * dict) in
  completed_at ← read_clock;
  pure (execution_record cfg decision key started_at completed_at "rejected" refs (Some failure)).

(** ** One turn of the retry loop *)

(** How a turn ends: with the record to return, out of the loop with a result,
    or with the candidate of this attempt. *)
Inductive turn :=
  | Returns (record : dict)
  | Breaks (result : CliExecutionResult)
  | Attempted (candidate : CliExecutionResult).

(** [self.attempt_store.get(idempotency_key) if replay_guarded else None] *)
Definition guarded_attempt (replay_guarded : bool) (key : string) : OM (option dict) :=
  if replay_guarded then prior_attempt key else mret None.

(** The attempt is on the ledger as dispatched before it is made. *)
Definition note_dispatch (replay_guarded : bool) (decision : dict) (key : string) : OM unit :=
  if replay_guarded then _ ← begin_attempt decision key; _ ← mark_dispatched key; mret () else mret ().

(** The result in a response of the authority service. *)
Definition authority_candidate (review : CliExecutionResult) (response execution_result : dict) : CliExecutionResult :=
  CliResult (py_str (py_or (dgetN "status" execution_result) (VStr "failed")))
    (dset "repo_patch_authority"
       (VDict (("state_slice", VStr REPO_PATCH_AUTHORITY_ORCHESTRATION_STATE_SLICE)
               :: map (λ k, (k, dgetN k response))
                    ["schema_version"; "status"; "receipt"; "rejection"; "authorization_proof"]))
       (dupdate (x_refs review) (dict_or_empty (dgetN "external_refs" execution_result))))
    (as_dict (dgetN "failure" execution_result)) false.

(** The call of the authority service, under a gate that was accepted. *)
Definition authority_turn (decision evaluation : dict) (key : string) (gate preflight_receipt : dict)
    (review : CliExecutionResult) (replay_guarded : bool) : OM turn :=
  _ ← note_dispatch replay_guarded decision key;
  _ ← emit (Authorised key gate);
  response ← collaborate (co_authority_execute co decision evaluation gate key preflight_receipt);
  let unknown := prior ← guarded_attempt replay_guarded key; mret (Breaks (unknown_after_dispatch prior)) in
  match response with
  | inl _ => unknown
  | inr response =>
      failure ← pure (authority_response_contract_failure response (repo_patch_authority_key_id cfg));
      match failure, dgetN "execution_result" response with
      | None, VDict execution_result => mret (Attempted (authority_candidate review response execution_result))
      | _, _ => unknown
      end
  end.

(** From the review of the adapter on. *)
Definition review_turn (decision evaluation : dict) (key started_at : string) (gate preflight_receipt : dict)
    (replay_guarded : bool) : OM turn :=
  _ ← emit (Reviewed key);
  review ← collaborate (co_execute_decision co decision key);
  _ ← emit (Answered key review);
  if negb (String.eqb (x_status review) "succeeded") then
    record ← repo_patch_review_rejected decision key started_at review; mret (Returns record)
  else
    match repo_patch_review_contract_failure review with
    | Some reason =>
        record ← repo_patch_review_rejected decision key started_at (failed_result [] [("reason", VStr reason)]);
        mret (Returns record)
    | None => authority_turn decision evaluation key gate preflight_receipt review replay_guarded
    end.

(** From the preflight on; the gate the turn asked is remembered. *)
Definition admission_turn (decision evaluation : dict) (key started_at : string) (replay_guarded : bool)
    (hsai_gate : option dict) : OM (option dict * turn) :=
  preflight ← collaborate (co_preflight co decision evaluation key);
  match preflight with
  | inl detail =>
      mret (hsai_gate, Breaks (failed_result [] [("reason", VStr "repo_patch_authority_preflight_rejected"); ("detail", VStr detail)]))
  | inr receipt =>
      now ← read_clock;
      match build_hsai_admission_request_v2 decision evaluation receipt now with
      | Err e =>
          if isinstance_exc (exc_cls e) TypeError || isinstance_exc (exc_cls e) ValueError then
            now ← read_clock;
            request ← pure (build_hsai_admission_request decision evaluation now);
            gate ← ask_gate request;
            record ← repo_patch_admission_rejected decision evaluation key started_at gate "hsai_pre_execution_request_invalid";
            mret (hsai_gate, Returns record)
          else throw e
      | Ok request =>
          gate ← ask_gate request;
          _ ← pure (validate_bridge_gate gate (Some decision) (Some evaluation) false);
          if negb (is_true (dgetN "allowed" gate)) || negb (is_true (dgetN "authority_eligible" gate)) then
            record ← repo_patch_admission_rejected decision evaluation key started_at gate "hsai_admission_blocked";
            mret (Some gate, Returns record)
          else
            ended ← review_turn decision evaluation key started_at gate receipt replay_guarded;
            mret (Some gate, ended)
      end
  end.

(** The client of the authority service, resolved at the first dispatch. *)
Definition need_client : OM (option dict) :=
  present ← step (λ t w, (Ok (o_client w), w));
  if (present : bool) then mret None
  else
    built ← catch (_ ← collaborate (co_build_client co); mret None) (λ e,
      if isinstance_exc (exc_cls e) OSError || isinstance_exc (exc_cls e) TypeError || isinstance_exc (exc_cls e) ValueError
      then mret (Some [("reason", VStr "repo_patch_authority_configuration_rejected"); ("detail", VStr (exc_str e))])
      else throw e);
    match built with
    | None => step (λ t w, (Ok None, Orch (o_attempts w) true))
    | Some failure => mret (Some failure)
    end.

(** One turn.  A repository patch never comes to a second one. *)
Definition attempt_turn (decision evaluation : dict) (key started_at : string) (replay_guarded repo_patch_action : bool)
    (hsai_gate : option dict) : OM (option dict * turn) :=
  prior ← guarded_attempt replay_guarded key;
  terminal ← pure (has_terminal_outcome prior);
  if (terminal : bool) then
    result ← pure (result_from_prior_attempt (default [] prior)); mret (hsai_gate, Breaks result)
  else if dispatched_without_outcome prior then mret (hsai_gate, Breaks (unknown_after_dispatch prior))
  else if repo_patch_action then
    missing ← need_client;
    match missing with
    | Some failure => mret (hsai_gate, Breaks (failed_result [] failure))
    | None => admission_turn decision evaluation key started_at replay_guarded hsai_gate
    end
  else
    _ ← note_dispatch replay_guarded decision key;
    _ ← emit (Acted key);
    candidate ← collaborate (co_execute_decision co decision key);
    mret (hsai_gate, Attempted candidate).

(** What the loop leaves: how many attempts there were, the last result and the
    gate; or a record to return at once. *)
Record loop_end := LoopEnd { le_attempts : Z; le_result : option CliExecutionResult; le_gate : option dict }.

(** After a candidate: whether the loop goes on, and the wait before it does. *)
Definition goes_on (attempts : Z) (candidate : CliExecutionResult) (retry_window_started_at : float) : OM bool :=
  if String.eqb (x_status candidate) "succeeded" || negb (x_retryable candidate) || (max_transient_retries cfg <? attempts)
  then mret false
  else
    delay ← pure (retry_delay_seconds attempts (x_failure candidate));
    now ← read_monotonic;
    let elapsed := f_add (f_sub now retry_window_started_at) delay in
    if match num_compare (inr elapsed) (inl (max_retry_window_seconds cfg)) with Some Gt => true | _ => false end then mret false
    else if f_ltb (S754_zero false) delay then
      _ ← emit (Slept delay);
      _ ← collaborate (co_sleep co delay);
      mret true
    else mret true.

(** One turn of [while attempts <= self.config.max_transient_retries]: the test
    of the condition, then the body, which counts the attempt first. *)
Definition loop_turn (decision evaluation : dict) (key started_at : string) (replay_guarded repo_patch_action : bool)
    (retry_window_started_at : float) (state : loop_end) : OM (loop_end + (dict + loop_end)) :=
  if le_attempts state <=? max_transient_retries cfg then
    let attempts := le_attempts state + 1 in
    out ← attempt_turn decision evaluation key started_at replay_guarded repo_patch_action (le_gate state);
    let '(gate, ended) := (out : option dict * turn) in
    match ended with
    | Returns record => mret (inr (inl record))
    | Breaks result => mret (inr (inr (LoopEnd attempts (Some result) gate)))
    | Attempted candidate =>
        _ ← (if replay_guarded
             then _ ← complete_attempt key (x_status candidate) (x_refs candidate) (x_failure candidate); mret ()
             else mret ());
        again ← goes_on attempts candidate retry_window_started_at;
        let state := LoopEnd attempts (Some candidate) gate in
        mret (if (again : bool) then inl state else inr (inr state))
    end
  else mret (inr (inr state)).

(** The loop itself, which ends only when a turn says so. *)
Definition attempt_loop (decision evaluation : dict) (key started_at : string) (replay_guarded repo_patch_action : bool)
    (retry_window_started_at : float) (state : loop_end) : OM (dict + loop_end) :=
  loop (loop_turn decision evaluation key started_at replay_guarded repo_patch_action retry_window_started_at) state.

(** ** After the loop *)

(** The incident for a failure that may be transient, and the failure to report. *)
Definition final_failure (decision : dict) (attempts : Z) (result : CliExecutionResult) : OM (dict * option dict) :=
  let failure := x_failure result in
  if negb (String.eqb (x_status result) "succeeded") && x_retryable result then
    reason ← pure (match failure with Some ((_ :: _) as d) => ditem "reason" d | _ => Ok (VStr "transient_execution_failure") end);
    _ ← emit (Incident reason);
    incident ← collaborate (co_open_incident co decision reason);
    mret (dupdate (x_refs result) incident,
          Some (dupdate (failure_or failure [("reason", VStr "transient_execution_failure")])
                  [("human_review_route", VStr "human_review"); ("attempts", VInt attempts);
                   ("orchestration_mode", VStr (orchestration_mode cfg))]))
  else
    mret (x_refs result,
          match failure with
          | Some ((_ :: _) as d) =>
              Some (dupdate d [("attempts", VInt attempts); ("orchestration_mode", VStr (orchestration_mode cfg))])
          | _ => failure
          end).

Definition idempotency_replayed (refs : dict) : bool := truthy (dgetN "idempotency_replayed" refs).

(** The proof packet of what was executed under a gate. *)
Definition with_proof_packet (decision evaluation gate : dict) (status : string) (refs : dict) (failure : option dict) : OM dict :=
  receipt_digest ← pure (executor_receipt_digest status refs failure);
  created_at ← read_clock;
  added ← pure (
    proof_packet ← build_combined_proof_packet gate true
      [("status", VStr (if String.eqb status "succeeded" then "executed" else "failed"));
       ("executor", VStr (orchestration_mode cfg)); ("result_status", VStr status); ("result_digest", VStr receipt_digest)]
      (Some receipt_digest) created_at (Some decision) (Some evaluation);
    hsai_external_refs gate proof_packet);
  mret (dupdate refs added).

Definition finish_execution (decision evaluation : dict) (key started_at : string) (replay_guarded : bool) (state : loop_end) : OM dict :=
  match le_result state with
  | None => throw (Exc RuntimeError "execution did not produce a result")
  | Some result =>
      settled ← final_failure decision (le_attempts state) result;
      let '(refs, failure) := (settled : dict * option dict) in
      refs ← (match le_gate state with
              | Some gate =>
                  if idempotency_replayed refs then mret refs
                  else with_proof_packet decision evaluation gate (x_status result) refs failure
              | None => mret refs
              end);
      _ ← (if replay_guarded && negb (idempotency_replayed refs)
              && negb (is_string "remote_command_dispatched_without_outcome" (dgetN "idempotency_guard" refs))
           then _ ← complete_attempt key (x_status result) refs failure; mret ()
           else mret ());
      completed_at ← read_clock;
      pure (execution_record cfg decision key started_at completed_at (x_status result) refs failure)
  end.

(** ** [OrchestratorService.execute] *)

(** The checks before a repository patch: a record when it is turned away. *)
Definition repo_patch_guard (decision evaluation : dict) (key started_at : string) : OM (option dict) :=
  parameter_failure ← pure (repo_patch_parameter_contract_failure decision);
  match parameter_failure with
  | Some reason =>
      record ← repo_patch_review_rejected decision key started_at (failed_result [] [("reason", VStr reason)]);
      mret (Some record)
  | None =>
      let mesh_allowed := mesh_policy_allows evaluation in
      if negb mesh_allowed || negb (co_eligible co) then
        now ← read_clock;
        request ← pure (build_hsai_admission_request decision evaluation now);
        gate ← ask_gate request;
        _ ← pure (validate_bridge_gate gate (Some decision) (Some evaluation) false);
        let reason :=
          if negb mesh_allowed then "mesh_policy_blocked"
          else if negb (is_true (dgetN "allowed" gate)) then "hsai_admission_blocked"
          else "hsai_adapter_not_authority_eligible: authority-eligible HSAI adapter required" in
        record ← repo_patch_admission_rejected decision evaluation key started_at gate reason;
        mret (Some record)
      else mret None
  end.

Definition not_approved (decision evaluation : dict) (key started_at : string) : OM dict :=
  completed_at ← read_clock;
  pure (
    blocking ← py_iter (dgetN "blocking_reasons" evaluation);
    execution_record cfg decision key started_at completed_at "rejected" []
      (Some [("reason", dgetN "final_recommendation" evaluation); ("blocking_reasons", VList blocking)])).

Definition execute (decision evaluation : dict) : OM dict :=
  started_at ← read_clock;
  key ← pure (idempotency_key_of decision);
  replay_guarded ← pure (requires_replay_guard decision);
  repo_patch_action ← pure (repo_patch_requires_hsai decision);
  turned_away ← (if (repo_patch_action : bool) then repo_patch_guard decision evaluation key started_at else mret None);
  match turned_away with
  | Some record => mret record
  | None =>
      if negb (mesh_policy_allows evaluation) then not_approved decision evaluation key started_at
      else
        retry_window_started_at ← read_monotonic;
        ended ← attempt_loop decision evaluation key started_at replay_guarded repo_patch_action retry_window_started_at
                  (LoopEnd 0 None None);
        match (ended : dict + loop_end) with
        | inl record => mret record
        | inr state => finish_execution decision evaluation key started_at replay_guarded state
        end
  end.
End orchestrator.
