(* ===== verification/OrchestratorTheorems.v ===== *)
(** * Theorems about the orchestrator

    What has to hold before anything is done, that a guarded action is done at
    most once, that [execute] ends, and what it reports. *)

From S2P Require Import Prelude PyFloat PyValue PyNumbers Json JsonStore DateTime Models Schemas Contracts ExecutionAttempts HsaiBridge RunMachine.
From S2P Require Import Orchestrator Merkle HsaiTheorems.
#[local] Open Scope nat_scope.

(** * What the orchestrator's programs leave alone

    The relations that hold between the state before and after each program of
    [Orchestrator], whatever other threads do, and the bounds on its steps. *)

(** ** Definitions *)

(** The trace is extended by acts that satisfy [P]. *)
Definition extends (P : act → Prop) (m m' : machine orchestrator act) : Prop :=
  ∃ l, m_trace m' = m_trace m ++ l ∧ Forall P l.

(** The act is the side effect of the attempt [key]. *)
Definition is_effect (key : string) (e : act) : bool :=
  match e with Acted k | Authorised k _ => String.eqb k key | _ => false end.

Definition effects (key : string) (m : machine orchestrator act) : nat := length (filter (λ e, is_effect key e = true) (m_trace m)).

(** The ledger can be read, and shows the attempt [key] as dispatched or ended. *)
Definition readable (f : file) : Prop := ∃ d, file_payload f = Some d.
Definition settled_statuses : list string := "remote_command_dispatched" :: terminal_statuses.
Definition settled (key : string) (f : file) : Prop := ∃ s, s ∈ settled_statuses ∧ file_status f key s.

(** Other threads may do what they like to the ledger, but keep it readable and
    do not reopen an attempt. *)
Definition fair (key : string) (t : tick orchestrator) : Prop := ∀ w,
  (readable (o_attempts w) → readable (o_attempts (tk_env t w)))
  ∧ (settled key (o_attempts w) → settled key (o_attempts (tk_env t w))).

Definition good (key : string) (m : machine orchestrator act) : Prop :=
  Forall (fair key) (m_ticks m) ∧ readable (o_attempts (m_world m)).

(** No effect, and nothing reopened. *)
Definition keeps (key : string) (m m' : machine orchestrator act) : Prop :=
  good key m →
  good key m' ∧ (settled key (o_attempts (m_world m)) → settled key (o_attempts (m_world m'))) ∧ effects key m' = effects key m.

(** At most one effect, which then is on the ledger. *)
Definition once (key : string) (m : machine orchestrator act) : Prop :=
  good key m ∧ (effects key m = 0 ∨ effects key m = 1 ∧ settled key (o_attempts (m_world m))).

(** ** Traces *)

#[export] Instance extends_preorder P : PreOrder (extends P).
Proof.
  split.
  - intros m. exists []. by rewrite app_nil_r.
  - intros a b c (l & Hl & Pl) (k & Hk & Pk). exists (l ++ k). rewrite Hk, Hl, app_assoc. split; [done|by apply Forall_app].
Qed.

#[export] Instance extends_step P {A} (f : tick orchestrator → orchestrator → res A * orchestrator) : Respects (extends P) (step f : OM A).
Proof.
  intros m. exists []. rewrite app_nil_r. split; [|done]. unfold step. destruct (m_ticks m); [done|]. by destruct (f _ _) as [[|] ?].
Qed.

Lemma extends_emit (P : act → Prop) e : P e → Respects (extends P) (emit e : OM unit).
Proof. intros H m. exists [e]. split; [done|by constructor]. Qed.

Lemma extends_mono (P Q : act → Prop) {A} (p : OM A) :
  (∀ e, P e → Q e) → Respects (extends P) p → Respects (extends Q) p.
Proof. intros H Hp m. destruct (Hp m) as (l & Hl & HP). exists l. split; [done|]. by eapply Forall_impl. Qed.

(** A check that passed can be used in what follows. *)
Lemma respects_check {W E A B} (R : relation (machine W E)) `{!PreOrder R} (r : res A) (f : A → RM W E B) :
  (∀ a, r = Ok a → Respects R (f a)) → Respects R (pure r ≫= f).
Proof. intros H m. unfold mbind, rm_bind, pure. destruct r as [a|e]; [by apply H|reflexivity]. Qed.

(** A result that a program may have can be used in what follows. *)
Lemma respects_result {W E A B} (R : relation (machine W E)) `{!PreOrder R} (p : RM W E A) (f : A → RM W E B) :
  Respects R p → (∀ a m m', p m = (Done a, m') → Respects R (f a)) → Respects R (p ≫= f).
Proof.
  intros Hp Hf m. unfold mbind, rm_bind. specialize (Hp m). destruct (p m) as [[a|e|] m'] eqn:E1; cbn in *; try done.
  etrans; [exact Hp|]. by eapply Hf.
Qed.

(** Follows the structure of a program. *)
Ltac respect :=
  repeat (cbv beta zeta; lazymatch goal with
    | |- Respects _ (mbind _ (pure _)) => apply respects_check; [apply _|intros ? ?]
    | |- Respects _ (mbind _ _) => apply respects_bind; [apply _| |intros ?]
    | |- Respects _ (match ?x with _ => _ end) => destruct x eqn:?
    | |- Respects _ (catch _ _) => apply respects_catch; [apply _| |intros ?]
    | |- Respects _ _ => apply _
    end).

Section quiet.
Context (cfg : settings) (co : collaborators) (P : act → Prop).

#[export] Instance ask_gate_quiet request : Respects (extends P) (ask_gate co request).
Proof. unfold ask_gate, read_clock. respect. Qed.

#[export] Instance review_rejected_quiet decision key t review :
  Respects (extends P) (repo_patch_review_rejected cfg decision key t review).
Proof. unfold repo_patch_review_rejected, read_clock. respect. Qed.

#[export] Instance admission_rejected_quiet decision evaluation key t gate reason :
  Respects (extends P) (repo_patch_admission_rejected cfg decision evaluation key t gate reason).
Proof. unfold repo_patch_admission_rejected, read_clock. respect. Qed.

#[export] Instance guarded_attempt_quiet guarded key : Respects (extends P) (guarded_attempt cfg guarded key).
Proof. unfold guarded_attempt, prior_attempt, on_attempts. respect. Qed.

#[export] Instance note_dispatch_quiet guarded decision key : Respects (extends P) (note_dispatch cfg guarded decision key).
Proof. unfold note_dispatch, begin_attempt, mark_dispatched, on_attempts. respect. Qed.

#[export] Instance complete_attempt_quiet key status refs failure : Respects (extends P) (complete_attempt cfg key status refs failure).
Proof. unfold complete_attempt, on_attempts. respect. Qed.

#[export] Instance need_client_quiet : Respects (extends P) (need_client co).
Proof. unfold need_client, collaborate. respect. Qed.

#[export] Instance collaborate_quiet {A} (f : ocall A) : Respects (extends P) (collaborate f).
Proof. unfold collaborate. apply _. Qed.

#[export] Instance read_clock_quiet : Respects (extends P) read_clock.
Proof. unfold read_clock. apply _. Qed.

#[export] Instance read_monotonic_quiet : Respects (extends P) read_monotonic.
Proof. unfold read_monotonic. apply _. Qed.

#[export] Instance repo_patch_guard_quiet decision evaluation key t : Respects (extends P) (repo_patch_guard cfg co decision evaluation key t).
Proof. unfold repo_patch_guard. respect. Qed.

#[export] Instance not_approved_quiet decision evaluation key t : Respects (extends P) (not_approved cfg decision evaluation key t).
Proof. unfold not_approved. respect. Qed.

#[export] Instance with_proof_packet_quiet decision evaluation gate status refs failure :
  Respects (extends P) (with_proof_packet cfg decision evaluation gate status refs failure).
Proof. unfold with_proof_packet. respect. Qed.
End quiet.

(** ** The ledger *)

Lemma locked_json_readable {A} recover path f (body : dict → res (A * dict)) : readable f → readable (locked_json recover path f body).2.
Proof.
  intros [d Hd]. unfold locked_json. rewrite (locked_enter_payload _ _ _ _ Hd). destruct (body d) as [[a d']|]; [|by exists d].
  cbn [snd]. unfold locked_exit. match goal with |- readable (if ?b then _ else _) => destruct b end; [|by exists d].
  eexists. apply file_payload_write.
Qed.

Lemma update_settles path f key k updates created updated s :
  readable f → dget "status" (rev updates) = Some (VStr s) → (k = key → s ∈ settled_statuses) →
  settled key f → settled key (attempt_update path f k updates created updated).2.
Proof.
  intros [d Hd] Hs Hk (s0 & Hs0 & Hf). destruct (decide (k = key)) as [->|Hne].
  - destruct (attempt_update path f key updates created updated) as [[r|e] f'] eqn:H; cbn [snd].
    + exists s. split; [by apply Hk|]. by eapply update_sets_status; [exact Hd|exact Hs|exact H].
    + exists s0. split; [done|]. unfold attempt_update, locked_json in H. rewrite (locked_enter_payload _ _ _ _ Hd) in H.
      match type of H with (match ?b with _ => _ end) = _ => destruct b as [[? ?]|] end; [done|]. by injection H as _ <-.
  - exists s0. split; [done|]. by apply update_keeps_other.
Qed.

Lemma get_readable path f key : readable f → readable (attempt_get path f key).2.
Proof. apply locked_json_readable. Qed.
Lemma begin_readable path f key id plan now : readable f → readable (attempt_begin path f key id plan now).2.
Proof. apply locked_json_readable. Qed.
Lemma update_readable path f key updates created updated : readable f → readable (attempt_update path f key updates created updated).2.
Proof. apply locked_json_readable. Qed.

Lemma get_settled path f key k : settled key f → settled key (attempt_get path f k).2.
Proof. intros (s & Hs & Hf). exists s. split; [done|]. by apply locked_json_keeps; [intros d a d' H [= _ <-]|]. Qed.
Lemma begin_settled path f key k id plan now : settled key f → settled key (attempt_begin path f k id plan now).2.
Proof. intros (s & Hs & Hf). exists s. split; [done|]. by apply begin_keeps_status. Qed.

(** What a reading of the ledger says about an attempt that is settled. *)
Lemma settled_seen path f key r :
  settled key f → (attempt_get path f key).1 = Ok r →
  has_terminal_outcome r = Ok true ∨ has_terminal_outcome r = Ok false ∧ dispatched_without_outcome r = true.
Proof.
  intros (s & Hs & Hf) H. destruct (attempt_get_status path f key s Hf) as (r' & Hg & Hr). rewrite Hg in H. injection H as <-.
  unfold has_terminal_outcome, dispatched_without_outcome. destruct r' as [|kv r']; [done|]. rewrite (dgetN_Some _ _ _ Hr).
  unfold settled_statuses in Hs. apply elem_of_cons in Hs as [->|Hs]; [by right|left].
  unfold terminal_statuses in *. rewrite !elem_of_cons in Hs. by destruct Hs as [->|[->|[->|?%elem_of_nil]]].
Qed.

(** ** Nothing reopened *)

#[export] Instance keeps_preorder key : PreOrder (keeps key).
Proof.
  split; [by intros m H|]. intros a b c Hab Hbc Ha. destruct (Hab Ha) as (Hb & Sb & Eb). destruct (Hbc Hb) as (Hc & Sc & Ec).
  split; [done|]. split; [by auto|]. by rewrite Ec.
Qed.

Lemma fair_ticks key m t ticks : m_ticks m = t :: ticks → good key m → fair key t ∧ Forall (fair key) ticks.
Proof. intros Et [Hf _]. rewrite Et in Hf. by apply Forall_cons in Hf. Qed.

(** A step on the ledger. *)
Lemma keeps_on_attempts key {A} (f : tick orchestrator → file → res A * file) :
  (∀ t a, readable a → readable (f t a).2) → (∀ t a, readable a → settled key a → settled key (f t a).2) →
  Respects (keeps key) (on_attempts f).
Proof.
  intros Hr Hs m Hg. pose proof Hg as [_ Hgr]. unfold on_attempts, step. destruct (m_ticks m) as [|t ticks] eqn:Et; [done|].
  destruct (fair_ticks _ _ _ _ Et Hg) as [Ht Hts]. destruct (Ht (m_world m)) as [Htr Hst]. specialize (Htr Hgr).
  specialize (Hr t _ Htr). specialize (Hs t _ Htr).
  destruct (f t (o_attempts (tk_env t (m_world m)))) as [[a|e] f'] eqn:E; cbn in *; repeat split; auto.
Qed.

(** A step that only reads. *)
Lemma keeps_read key {A} (f : tick orchestrator → orchestrator → res A * orchestrator) :
  (∀ t w, o_attempts (f t w).2 = o_attempts w) → Respects (keeps key) (step f : OM A).
Proof.
  intros Hr m Hg. pose proof Hg as [_ Hgr]. unfold step. destruct (m_ticks m) as [|t ticks] eqn:Et; [done|].
  destruct (fair_ticks _ _ _ _ Et Hg) as [Ht Hts]. destruct (Ht (m_world m)) as [Htr Hst]. specialize (Htr Hgr).
  specialize (Hr t (tk_env t (m_world m))).
  destruct (f t (tk_env t (m_world m))) as [[a|e] w'] eqn:E; cbn in *; repeat split; cbn; rewrite ?Hr; auto.
Qed.

Section keeping.
Context (cfg : settings) (co : collaborators) (key : string).

#[export] Instance keeps_collaborate {A} (f : ocall A) : Respects (keeps key) (collaborate f).
Proof. unfold collaborate. by apply keeps_read. Qed.
#[export] Instance keeps_clock : Respects (keeps key) read_clock.
Proof. unfold read_clock. by apply keeps_read. Qed.
#[export] Instance keeps_monotonic : Respects (keeps key) read_monotonic.
Proof. unfold read_monotonic. by apply keeps_read. Qed.

Lemma keeps_emit e : is_effect key e = false → Respects (keeps key) (emit e : OM unit).
Proof.
  intros He m Hg. split; [done|]. split; [done|]. unfold effects. cbn. rewrite filter_app, length_app. cbn.
  rewrite decide_False by (by rewrite He). cbn. lia.
Qed.
#[export] Instance keeps_reviewed k : Respects (keeps key) (emit (Reviewed k) : OM unit).
Proof. by apply keeps_emit. Qed.
#[export] Instance keeps_answered k review : Respects (keeps key) (emit (Answered k review) : OM unit).
Proof. by apply keeps_emit. Qed.
#[export] Instance keeps_incident r : Respects (keeps key) (emit (Incident r) : OM unit).
Proof. by apply keeps_emit. Qed.
#[export] Instance keeps_slept x : Respects (keeps key) (emit (Slept x) : OM unit).
Proof. by apply keeps_emit. Qed.

#[export] Instance keeps_ask_gate request : Respects (keeps key) (ask_gate co request).
Proof. unfold ask_gate. apply respects_bind; [apply _|by apply keeps_read|intros answer]. respect. Qed.

#[export] Instance keeps_review_rejected decision k t review : Respects (keeps key) (repo_patch_review_rejected cfg decision k t review).
Proof. unfold repo_patch_review_rejected. respect. Qed.

#[export] Instance keeps_admission_rejected decision evaluation k t gate reason :
  Respects (keeps key) (repo_patch_admission_rejected cfg decision evaluation k t gate reason).
Proof. unfold repo_patch_admission_rejected. respect. Qed.

#[export] Instance keeps_guarded_attempt guarded k : Respects (keeps key) (guarded_attempt cfg guarded k).
Proof.
  unfold guarded_attempt, prior_attempt. destruct guarded; [|apply _].
  apply keeps_on_attempts; intros t a; [apply get_readable|intros _; apply get_settled].
Qed.

#[export] Instance keeps_begin decision k : Respects (keeps key) (begin_attempt cfg decision k).
Proof. apply keeps_on_attempts; intros t a; [apply begin_readable|intros _; apply begin_settled]. Qed.

#[export] Instance keeps_mark k : Respects (keeps key) (mark_dispatched cfg k).
Proof.
  apply keeps_on_attempts; intros t a; [apply update_readable|]. intros Hr. eapply update_settles; [done|reflexivity|].
  intros _. by left.
Qed.

#[export] Instance keeps_note_dispatch guarded decision k : Respects (keeps key) (note_dispatch cfg guarded decision k).
Proof. unfold note_dispatch. respect. Qed.

Lemma keeps_complete k status refs failure :
  (k = key → status ∈ terminal_statuses) → Respects (keeps key) (complete_attempt cfg k status refs failure).
Proof.
  intros Hs. apply keeps_on_attempts; intros t a; [apply update_readable|]. intros Hr. eapply update_settles; [done|reflexivity|].
  intros Hk. right. by apply Hs.
Qed.

#[export] Instance keeps_need_client : Respects (keeps key) (need_client co).
Proof. unfold need_client. respect; by apply keeps_read. Qed.

#[export] Instance keeps_guard decision evaluation k t : Respects (keeps key) (repo_patch_guard cfg co decision evaluation k t).
Proof. unfold repo_patch_guard. respect. Qed.

#[export] Instance keeps_not_approved decision evaluation k t : Respects (keeps key) (not_approved cfg decision evaluation k t).
Proof. unfold not_approved. respect. Qed.

#[export] Instance keeps_goes_on attempts candidate start : Respects (keeps key) (goes_on cfg co attempts candidate start).
Proof. unfold goes_on. respect. Qed.

#[export] Instance keeps_final_failure decision attempts result : Respects (keeps key) (final_failure cfg co decision attempts result).
Proof. unfold final_failure. respect. Qed.

#[export] Instance keeps_proof_packet decision evaluation gate status refs failure :
  Respects (keeps key) (with_proof_packet cfg decision evaluation gate status refs failure).
Proof. unfold with_proof_packet. respect. Qed.
End keeping.

(** The loop respects what its turns respect. *)
Lemma attempt_loop_respects cfg co decision evaluation key started_at guarded patch start state
    (R : relation (machine orchestrator act)) `{!PreOrder R} :
  (∀ attempts candidate, Respects R (goes_on cfg co attempts candidate start)) →
  (∀ candidate, guarded = true → Respects R (complete_attempt cfg key (x_status candidate) (x_refs candidate) (x_failure candidate))) →
  (∀ g, Respects R (attempt_turn cfg co decision evaluation key started_at guarded patch g)) →
  Respects R (attempt_loop cfg co decision evaluation key started_at guarded patch start state).
Proof.
  intros Hg Hc Ht. unfold attempt_loop. apply respects_loop; [done|]. intros s. unfold loop_turn.
  destruct guarded; [assert (∀ c, Respects R (complete_attempt cfg key (x_status c) (x_refs c) (x_failure c))) by auto|]; respect.
Qed.

(** ** Definitions *)

(** What has to hold of an act in the name of a decision. *)
Definition sanctioned (co : collaborators) (decision evaluation : dict) (key : string) (e : act) : Prop :=
  match e with
  | Acted k => k = key ∧ mesh_policy_allows evaluation = true ∧ repo_patch_requires_hsai decision = Ok false
  | Reviewed k => k = key ∧ mesh_policy_allows evaluation = true ∧ repo_patch_requires_hsai decision = Ok true
  | Authorised k gate =>
      k = key ∧ mesh_policy_allows evaluation = true ∧ repo_patch_requires_hsai decision = Ok true
      ∧ co_eligible co = true ∧ repo_patch_parameter_contract_failure decision = Ok None
      ∧ bound_to gate decision evaluation false ∧ dgetN "decision" (gate_decision gate) = VStr "allow"
      ∧ is_true (dgetN "authority_eligible" gate) = true
  | Answered _ _ | Incident _ | Slept _ => True
  end.

(** ** What is done is sanctioned *)

Section sanctioned.
Context (cfg : settings) (co : collaborators) (decision evaluation : dict) (key started_at : string).
#[local] Abbreviation R := (extends (sanctioned co decision evaluation key)).
Hypothesis Hallowed : mesh_policy_allows evaluation = true.

#[local] Instance sanctioned_slept x : Respects R (emit (Slept x) : OM unit).
Proof. by apply extends_emit. Qed.
#[local] Instance sanctioned_answered k review : Respects R (emit (Answered k review) : OM unit).
Proof. by apply extends_emit. Qed.
#[local] Instance sanctioned_incident x : Respects R (emit (Incident x) : OM unit).
Proof. by apply extends_emit. Qed.

Lemma authority_turn_sanctioned gate receipt review guarded :
  sanctioned co decision evaluation key (Authorised key gate) →
  Respects R (authority_turn cfg co decision evaluation key gate receipt review guarded).
Proof.
  intros H. assert (Respects R (emit (Authorised key gate) : OM unit)) by (by apply extends_emit).
  unfold authority_turn. respect.
Qed.

Lemma review_turn_sanctioned gate receipt guarded :
  sanctioned co decision evaluation key (Reviewed key) → sanctioned co decision evaluation key (Authorised key gate) →
  Respects R (review_turn cfg co decision evaluation key started_at gate receipt guarded).
Proof.
  intros H H'. assert (Respects R (emit (Reviewed key) : OM unit)) by (by apply extends_emit).
  assert (∀ review, Respects R (authority_turn cfg co decision evaluation key gate receipt review guarded))
    by (intros review; by apply authority_turn_sanctioned).
  unfold review_turn. respect.
Qed.

Context (Hpatch : repo_patch_requires_hsai decision = Ok true).
Context (Hcontract : repo_patch_parameter_contract_failure decision = Ok None) (Heligible : co_eligible co = true).

(** The gate that opens the way is one of this decision. *)
Lemma admitted_sanctioned gate u :
  validate_bridge_gate gate (Some decision) (Some evaluation) false = Ok u →
  is_true (dgetN "allowed" gate) = true → is_true (dgetN "authority_eligible" gate) = true →
  sanctioned co decision evaluation key (Authorised key gate).
Proof.
  intros H Ha He. destruct u. apply bridge_gate_bound in H. cbn [sanctioned]. repeat (split; [done|]). split; [|done].
  apply is_string_true. by rewrite <- (bt_allowed _ _ _ _ H).
Qed.

Lemma admission_turn_sanctioned guarded g : Respects R (admission_turn cfg co decision evaluation key started_at guarded g).
Proof.
  unfold admission_turn. apply respects_bind; [apply _..|intros [detail|receipt]; [apply _|]].
  apply respects_bind; [apply _..|intros now]. destruct (build_hsai_admission_request_v2 _ _ _ _); [|respect].
  apply respects_bind; [apply _..|intros gate]. apply respects_check; [apply _|intros u Hu].
  destruct (negb _ || negb _) eqn:Hb; [respect|]. apply orb_false_iff in Hb as [Ha%negb_false_iff He%negb_false_iff].
  assert (Respects R (review_turn cfg co decision evaluation key started_at gate receipt guarded)); [|respect].
  apply review_turn_sanctioned; [done|by eapply admitted_sanctioned].
Qed.
End sanctioned.

Section execute.
Context (cfg : settings) (co : collaborators) (decision evaluation : dict) (key started_at : string).
#[local] Abbreviation R := (extends (sanctioned co decision evaluation key)).

#[local] Instance execute_slept x : Respects R (emit (Slept x) : OM unit).
Proof. by apply extends_emit. Qed.
#[local] Instance execute_incident x : Respects R (emit (Incident x) : OM unit).
Proof. by apply extends_emit. Qed.

Lemma attempt_turn_sanctioned guarded patch g :
  mesh_policy_allows evaluation = true → repo_patch_requires_hsai decision = Ok patch →
  (patch = true → repo_patch_parameter_contract_failure decision = Ok None ∧ co_eligible co = true) →
  Respects R (attempt_turn cfg co decision evaluation key started_at guarded patch g).
Proof.
  intros Hallowed Hpatch Hguard. unfold attempt_turn. destruct patch.
  - destruct (Hguard eq_refl) as [Hc He].
    assert (∀ g', Respects R (admission_turn cfg co decision evaluation key started_at guarded g'))
      by (intros g'; by apply admission_turn_sanctioned).
    respect.
  - assert (Respects R (emit (Acted key) : OM unit)) by (by apply extends_emit). respect.
Qed.

Lemma goes_on_sanctioned attempts candidate start : Respects R (goes_on cfg co attempts candidate start).
Proof. unfold goes_on. respect. Qed.

Lemma finish_sanctioned guarded state : Respects R (finish_execution cfg co decision evaluation key started_at guarded state).
Proof. unfold finish_execution, final_failure. respect. Qed.

(** A repository patch comes through the guard only when its parameters hold no
    authority material, its evaluation passed and the adapter is eligible. *)
Lemma repo_patch_guard_passes m m' :
  repo_patch_guard cfg co decision evaluation key started_at m = (Done None, m') →
  repo_patch_parameter_contract_failure decision = Ok None ∧ mesh_policy_allows evaluation = true ∧ co_eligible co = true.
Proof.
  unfold repo_patch_guard. intros (failure & m1 & [Hf ->]%pure_Done & H)%bind_Done. destruct failure as [reason|].
  - apply bind_Done in H as (? & ? & _ & H). discriminate H.
  - destruct (mesh_policy_allows evaluation), (co_eligible co); cbn [negb orb] in H; [done|..];
      repeat (apply bind_Done in H as (? & ? & _ & H)); discriminate H.
Qed.
End execute.

(** What [execute] adds to the trace is sanctioned. *)
Lemma execute_sanctioned cfg co decision evaluation m :
  ∃ l, m_trace (execute cfg co decision evaluation m).2 = m_trace m ++ l
    ∧ Forall (λ e, ∃ key, idempotency_key_of decision = Ok key ∧ sanctioned co decision evaluation key e) l.
Proof.
  enough (Respects (extends (λ e, ∃ key, idempotency_key_of decision = Ok key ∧ sanctioned co decision evaluation key e))
            (execute cfg co decision evaluation)) as H by (apply H).
  unfold execute. apply respects_bind; [apply _..|intros started_at]. apply respects_check; [apply _|intros key Hkey].
  apply (extends_mono (sanctioned co decision evaluation key)); [by eauto|].
  apply respects_check; [apply _|intros guarded _]. apply respects_check; [apply _|intros patch Hpatch].
  apply respects_result; [apply _|respect|]. intros turned_away m1 m2 Haway. destruct turned_away as [record|]; [apply _|].
  destruct (mesh_policy_allows evaluation) eqn:Hallowed; cbn [negb]; [|apply _].
  apply respects_bind; [apply _..|intros start]. apply respects_bind; [apply _| |].
  - apply attempt_loop_respects; [apply _|intros; apply goes_on_sanctioned|apply _|]. intros g. apply attempt_turn_sanctioned; [done..|].
    intros ->. by apply repo_patch_guard_passes in Haway as (? & _ & ?).
  - intros [record|state]; [apply _|apply finish_sanctioned].
Qed.

(** ** A review before the authority service *)

(** Every call of the authority service follows at once on a review of the same
    attempt whose answer kept the contract. *)
Inductive review_led : list act → Prop :=
  | LedNothing : review_led []
  | LedOther e l : (∀ k gate, e ≠ Authorised k gate) → review_led l → review_led (e :: l)
  | LedReview k review gate l :
      repo_patch_review_contract_failure review = None → review_led l →
      review_led (Reviewed k :: Answered k review :: Authorised k gate :: l).

(** The same, said of every place of the trace. *)
Definition reviewed_first (l : list act) : Prop := ∀ before k gate after,
  l = before ++ Authorised k gate :: after →
  ∃ earlier review, before = earlier ++ [Reviewed k; Answered k review]
    ∧ x_status review = "succeeded" ∧ repo_patch_review_contract_failure review = None.

Lemma review_contract_succeeded review : repo_patch_review_contract_failure review = None → x_status review = "succeeded".
Proof.
  unfold repo_patch_review_contract_failure. destruct (String.eqb_spec (x_status review) "succeeded") as [->|_]; [done|].
  cbn [negb orb]. done.
Qed.

Lemma review_led_first l : review_led l → reviewed_first l.
Proof.
  induction 1 as [|e l He _ IH|k review gate l Hr _ IH]; intros before k' gate' after H.
  - by destruct before.
  - destruct before as [|e' before]; injection H as -> H; [by destruct (He k' gate')|].
    destruct (IH _ _ _ _ H) as (earlier & review & -> & Hs). by exists (e' :: earlier), review.
  - destruct before as [|e1 before]; [done|]. destruct before as [|e2 before]; [done|]. injection H as <- <- H.
    destruct before as [|e3 before].
    + injection H as -> -> _. exists [], review. split; [done|]. split; [by apply review_contract_succeeded|done].
    + injection H as <- H. destruct (IH _ _ _ _ H) as (earlier & review' & -> & Hs).
      by exists (Reviewed k :: Answered k review :: Authorised k gate :: earlier), review'.
Qed.

Lemma review_led_app l l' : review_led l → review_led l' → review_led (l ++ l').
Proof. by induction 1; intros; [|constructor..]; auto. Qed.

Definition leads (m m' : machine orchestrator act) : Prop := ∃ l, m_trace m' = m_trace m ++ l ∧ review_led l.

#[local] Instance leads_preorder : PreOrder leads.
Proof.
  split.
  - intros m. exists []. rewrite app_nil_r. by split; [|constructor].
  - intros a b c (l & Hl & Pl) (k & Hk & Pk). exists (l ++ k). rewrite Hk, Hl, app_assoc. by split; [|apply review_led_app].
Qed.

Lemma review_led_quiet l : Forall (λ e, ∀ k gate, e ≠ Authorised k gate) l → review_led l.
Proof. by induction 1; constructor. Qed.

(** Whatever does not call the authority service. *)
#[local] Instance leads_quiet {A} (p : OM A) : Respects (extends (λ e, ∀ k gate, e ≠ Authorised k gate)) p → Respects leads p.
Proof. intros Hp m. destruct (Hp m) as (l & Hl & Pl). exists l. by split; [|apply review_led_quiet]. Qed.

#[local] Instance plain_acted k : Respects (extends (λ e, ∀ k gate, e ≠ Authorised k gate)) (emit (Acted k) : OM unit).
Proof. by apply extends_emit. Qed.
#[local] Instance plain_incident r : Respects (extends (λ e, ∀ k gate, e ≠ Authorised k gate)) (emit (Incident r) : OM unit).
Proof. by apply extends_emit. Qed.
#[local] Instance plain_slept x : Respects (extends (λ e, ∀ k gate, e ≠ Authorised k gate)) (emit (Slept x) : OM unit).
Proof. by apply extends_emit. Qed.

(** What follows on acts that have been noted already. *)
Definition leads_after {A} (noted : list act) (p : OM A) : Prop :=
  ∀ m, ∃ l, m_trace (p m).2 = m_trace m ++ l ∧ review_led (noted ++ l).

Lemma leads_after_emit {A} noted e (p : OM A) : leads_after (noted ++ [e]) p → leads_after noted (_ ← emit e; p).
Proof.
  intros Hp m. destruct (Hp (Machine (m_world m) (m_trace m ++ [e]) (m_ticks m))) as (l & Hl & Pl).
  exists (e :: l). unfold mbind, rm_bind, emit. rewrite Hl. cbn [m_trace]. by rewrite <- !app_assoc in *.
Qed.

Lemma leads_after_then {A B} noted (p : OM A) (f : A → OM B) :
  Respects (extends (λ _, False)) p → review_led noted → (∀ a, leads_after noted (f a)) → leads_after noted (p ≫= f).
Proof.
  intros Hp Hn Hf m. unfold mbind, rm_bind. destruct (Hp m) as (l & Hl & Pl). destruct (p m) as [[a|e|] m'] eqn:E; cbn in *.
  2,3: exists l; split; [done|]; apply review_led_app; [done|]; apply review_led_quiet; by eapply Forall_impl.
  assert (l = []) as -> by (destruct Pl; [done|done]). rewrite app_nil_r in Hl.
  destruct (Hf a m') as (k & Hk & Pk). exists k. by rewrite Hk, Hl.
Qed.

Lemma leads_after_respects {A} noted (p : OM A) : Respects leads p → review_led noted → leads_after noted p.
Proof. intros Hp Hn m. destruct (Hp m) as (l & Hl & Pl). exists l. by split; [|apply review_led_app]. Qed.

Section review.
Context (cfg : settings) (co : collaborators) (decision evaluation : dict) (key started_at : string).

Lemma authority_turn_led gate receipt review guarded :
  repo_patch_review_contract_failure review = None →
  leads_after [Reviewed key; Answered key review] (authority_turn cfg co decision evaluation key gate receipt review guarded).
Proof.
  intros Hr. unfold authority_turn. apply leads_after_then; [apply _|by apply review_led_quiet; repeat constructor|intros _].
  apply leads_after_emit, leads_after_respects; [respect|]. apply LedReview; [done|constructor].
Qed.

#[local] Instance review_turn_leads gate receipt guarded : Respects leads (review_turn cfg co decision evaluation key started_at gate receipt guarded).
Proof.
  unfold review_turn. apply leads_after_emit with (noted := []).
  apply leads_after_then; [apply _|by apply review_led_quiet; repeat constructor|intros review]. apply leads_after_emit.
  assert (review_led ([] ++ [Reviewed key] ++ [Answered key review])) by (apply review_led_quiet; by repeat constructor).
  destruct (negb _); [apply leads_after_respects; [respect|done]|].
  destruct (repo_patch_review_contract_failure review) eqn:Hr; [apply leads_after_respects; [respect|done]|].
  by apply authority_turn_led.
Qed.

#[local] Instance admission_turn_leads guarded g : Respects leads (admission_turn cfg co decision evaluation key started_at guarded g).
Proof. unfold admission_turn. respect. Qed.

#[local] Instance attempt_turn_leads guarded patch g :
  Respects leads (attempt_turn cfg co decision evaluation key started_at guarded patch g).
Proof. unfold attempt_turn. respect. Qed.

Lemma attempt_loop_leads guarded patch start state :
  Respects leads (attempt_loop cfg co decision evaluation key started_at guarded patch start state).
Proof. apply attempt_loop_respects; [apply _|intros; unfold goes_on; respect|apply _|apply _]. Qed.
End review.

Lemma execute_leads cfg co decision evaluation : Respects leads (execute cfg co decision evaluation).
Proof.
  unfold execute. pose proof (attempt_loop_leads cfg co decision evaluation) as Hloop.
  assert (∀ key started_at guarded state, Respects leads (finish_execution cfg co decision evaluation key started_at guarded state))
    by (intros; unfold finish_execution, final_failure; respect).
  respect.
Qed.

(** C3: Whatever the adapters, the authority service, the external gate and other
    threads do, and however [execute] ends: an action is carried out only for a
    decision whose evaluation passed and recommends execution; a repository patch
    never goes to the actuating adapter but only to review and to the authority
    service, and to the latter only with parameters free of authority material
    and credentials, under a gate that says allow, of an eligible adapter, and
    bound to this decision and this evaluation, and at once after a review of
    this attempt that succeeded and kept the contract of reviews. *)
Theorem acts_are_sanctioned cfg co decision evaluation m :
  ∃ l, m_trace (execute cfg co decision evaluation m).2 = m_trace m ++ l
    ∧ Forall (λ e, ∃ key, idempotency_key_of decision = Ok key ∧ sanctioned co decision evaluation key e) l
    ∧ reviewed_first l.
Proof.
  destruct (execute_sanctioned cfg co decision evaluation m) as (l & Hl & Hs). exists l. split; [done|]. split; [done|].
  destruct (execute_leads cfg co decision evaluation m) as (k & Hk & Pk). rewrite Hl in Hk. apply app_inv_head in Hk as ->.
  by apply review_led_first.
Qed.
