(* ===== verification/OrchestratorOnce.v ===== *)
(** * A guarded action is done at most once

    However often [execute] is called for a guarded action, whatever the
    adapters answer and whatever other threads do that does not reopen the
    attempt. *)

From S2P Require Import Prelude PyFloat PyValue PyNumbers Json JsonStore DateTime Models Schemas Contracts ExecutionAttempts HsaiBridge.
From S2P Require Import RunMachine Orchestrator OrchestratorTheorems.
#[local] Open Scope nat_scope.

(** ** Definitions *)

(** Nothing has been done under the attempt [key]. *)
Definition fresh (key : string) (m : machine orchestrator act) : Prop := good key m ∧ effects key m = 0.

(** At most one effect afterwards, and [T] of the result. *)
Definition once_then {A} (key : string) (T : A → Prop) (o : outcome A) (m : machine orchestrator act) : Prop :=
  once key m ∧ match o with Done a => T a | _ => True end.

(** A turn that leaves the ledger with an outcome has a terminal one. *)
Definition result_ended (t : turn) : Prop :=
  match t with Returns _ => True | Breaks r | Attempted r => x_status r ∈ terminal_statuses end.

Definition turn_ended (out : option dict * turn) : Prop := result_ended out.2.

Definition loop_ended (out : dict + loop_end) : Prop :=
  match out with inl _ => True | inr s => match le_result s with Some r => x_status r ∈ terminal_statuses | None => True end end.

(** One call after the other; what a call raises does not stop the next. *)
Definition execute_all (cfg : settings) (co : collaborators) (calls : list (dict * dict)) : OM unit :=
  for_each (λ c, catch (_ ← execute cfg co c.1 c.2; mret ()) (λ _, mret ())) calls.

(** ** Rules *)

Lemma once_keeps key m m' : once key m → keeps key m m' → once key m'.
Proof. intros [Hg Hc] Hk. destruct (Hk Hg) as (Hg' & Hs & He). split; [done|]. rewrite He. destruct Hc as [?|[? ?]]; [by left|right; auto]. Qed.

Lemma fresh_keeps key m m' : fresh key m → keeps key m m' → fresh key m'.
Proof. intros [Hg Hc] Hk. destruct (Hk Hg) as (Hg' & _ & He). split; [done|]. by rewrite He. Qed.

Lemma fresh_once key m : fresh key m → once key m.
Proof. intros [Hg Hc]. split; [done|by left]. Qed.

Section rules.
Context (key : string).

Lemma once_after {A B} (p : OM A) (f : A → OM B) (T : B → Prop) m :
  Respects (keeps key) p → once key m → (∀ a m', once key m' → wp (f a) m' (once_then key T)) → wp (p ≫= f) m (once_then key T).
Proof.
  intros Hp Hm Hf. eapply (wp_after (keeps key)); [done|..].
  - intros e m' Hk. split; [by eapply once_keeps|done].
  - intros m' Hk. split; [by eapply once_keeps|done].
  - intros a m' Hk. apply Hf. by eapply once_keeps.
Qed.

Lemma fresh_after {A B} (p : OM A) (f : A → OM B) (T : B → Prop) m :
  Respects (keeps key) p → fresh key m → (∀ a m', fresh key m' → wp (f a) m' (once_then key T)) → wp (p ≫= f) m (once_then key T).
Proof.
  intros Hp Hm Hf. eapply (wp_after (keeps key)); [done|..].
  - intros e m' Hk. split; [by eapply fresh_once, fresh_keeps|done].
  - intros m' Hk. split; [by eapply fresh_once, fresh_keeps|done].
  - intros a m' Hk. apply Hf. by eapply fresh_keeps.
Qed.

Lemma check_after {A B} (r : res A) (f : A → OM B) (T : B → Prop) m :
  once key m → (∀ a, r = Ok a → wp (f a) m (once_then key T)) → wp (pure r ≫= f) m (once_then key T).
Proof. intros Hm Hf. unfold wp, mbind, rm_bind, pure. destruct r as [a|e]; [by apply Hf|by split]. Qed.

Lemma once_done {A} (a : A) (T : A → Prop) m : once key m → T a → wp (mret a : OM A) m (once_then key T).
Proof. intros Hm Ha. by split. Qed.

Lemma once_throw {A} e (T : A → Prop) m : once key m → wp (throw e : OM A) m (once_then key T).
Proof. by split. Qed.
End rules.

Lemma attempt_get_same path f key : readable f → (attempt_get path f key).2 = f.
Proof.
  intros [d Hd]. unfold attempt_get. erewrite locked_json_Ok; [|exact Hd|reflexivity]. cbn [snd].
  by apply locked_exit_unchanged; left.
Qed.

(** What a collaborator answered is what it is said to answer. *)
Lemma collaborate_after {A B} key (c : ocall A) (f : A → OM B) (T : B → Prop) m :
  once key m → (∀ a m', once key m' → (∃ t w, c t w = Ok a) → wp (f a) m' (once_then key T)) →
  wp (collaborate c ≫= f) m (once_then key T).
Proof.
  intros Hm Hf. pose proof (keeps_collaborate key c m) as Hk. apply wp_bind. unfold wp.
  destruct (collaborate c m) as [o m'] eqn:E. cbn [fst snd] in *. pose proof (once_keeps _ _ _ Hm Hk) as Hm'.
  destruct o as [a|e|]; cbn [stops]; [|by split..]. apply Hf; [done|]. unfold collaborate, step in E.
  destruct (m_ticks m) as [|t ticks]; [done|]. destruct (c t _) as [b|e] eqn:Ec; [|done]. injection E as <- _. eauto.
Qed.

(** Where the result only has to be one that [T] always allows. *)
Lemma once_respects {A} key (p : OM A) (T : A → Prop) m :
  Respects (keeps key) p → once key m → (∀ a, T a) → wp p m (once_then key T).
Proof. intros Hp Hm HT. split; [by eapply once_keeps, Hp|]. by destruct (p m).1. Qed.

(** A response that is accepted names an outcome. *)
Lemma authority_status_terminal response key_id r :
  authority_response_contract_failure response key_id = Ok None → dgetN "execution_result" response = VDict r →
  py_str (py_or (dgetN "status" r) (VStr "failed")) ∈ terminal_statuses.
Proof.
  unfold authority_response_contract_failure. intros H Hr. rewrite Hr in H. cbv zeta in H. destruct (negb _); [done|].
  apply res_bind_Ok in H as (known & _ & H). destruct (negb known); [done|].
  destruct (dgetN "receipt" response), (dgetN "authorization_proof" response); try done.
  apply res_bind_Ok in H as (terminal & Ht & H). destruct terminal; [|done].
  apply in_str_set_Ok in Ht as (s & -> & Hs). rewrite !elem_of_cons in Hs.
  by destruct Hs as [->|[->|[->|?%elem_of_nil]]]; apply mem_str_elem.
Qed.

(** ** The turn of the guarded attempt *)

Section turn.
Context (cfg : settings) (co : collaborators) (decision evaluation : dict) (key started_at : string).
(** What the adapters report as the outcome of an action is an outcome. *)
Hypothesis Hadapter : ∀ k t w r, co_execute_decision co decision k t w = Ok r → x_status r ∈ terminal_statuses.

(** The reading of the ledger: an attempt that is not shown as settled is fresh. *)
Lemma prior_reads {B} (f : option dict → OM B) (T : B → Prop) m :
  once key m →
  (∀ r m', once key m' →
     (has_terminal_outcome r = Ok true ∨ dispatched_without_outcome r = true ∨ fresh key m') → wp (f r) m' (once_then key T)) →
  wp (prior_attempt cfg key ≫= f) m (once_then key T).
Proof.
  intros Hm Hf. apply wp_bind, wp_step.
  - intros _. by split.
  - intros t ticks Et. cbv zeta. pose proof (keeps_guarded_attempt cfg key true key m) as Hk. cbn [guarded_attempt] in Hk.
    unfold prior_attempt, on_attempts, step in Hk. rewrite Et in Hk.
    destruct (attempt_get (attempts_path cfg) (o_attempts (tk_env t (m_world m))) key) as [[r|e] f'] eqn:E; cbn in Hk |- *.
    + apply Hf; [by eapply once_keeps|]. pose proof (once_keeps _ _ _ Hm Hk) as [Hg Hc]. destruct Hc as [Hc|[_ Hs]]; [right; right; by split|].
      cbn in Hs. destruct (settled_seen (attempts_path cfg) f' key r Hs) as [?|[_ ?]]; [|by left|right; by left].
      destruct Hm as [Hgm _]. destruct (fair_ticks _ _ _ _ Et Hgm) as [Ht _]. destruct Hgm as [_ Hr].
      pose proof (attempt_get_same (attempts_path cfg) _ key (proj1 (Ht (m_world m)) Hr)) as Hsame.
      rewrite E in Hsame. cbn [snd] in Hsame. subst f'. by rewrite E.
    + split; [by eapply once_keeps|done].
Qed.

Lemma mark_settles m r m' : good key m → mark_dispatched cfg key m = (Done r, m') → settled key (o_attempts (m_world m')).
Proof.
  intros Hg H. pose proof Hg as [_ Hr]. unfold mark_dispatched, on_attempts, step in H. destruct (m_ticks m) as [|t ticks] eqn:Et; [done|].
  destruct (fair_ticks _ _ _ _ Et Hg) as [Ht _]. destruct (proj1 (Ht (m_world m)) Hr) as [d Hd].
  destruct (attempt_mark_dispatched _ _ _ _ _ _) as [[a|e] f'] eqn:E; [|done]. injection H as _ <-. cbn.
  exists "remote_command_dispatched". split; [by left|]. by eapply update_sets_status; [exact Hd| |exact E].
Qed.

(** After the note of a dispatch the attempt is settled. *)
Lemma dispatch_noted {B} (f : unit → OM B) (T : B → Prop) m :
  fresh key m →
  (∀ m', fresh key m' → settled key (o_attempts (m_world m')) → wp (f ()) m' (once_then key T)) →
  wp (note_dispatch cfg true decision key ≫= f) m (once_then key T).
Proof.
  intros Hm Hf.
  assert (wp (note_dispatch cfg true decision key) m
    (λ o m', fresh key m' ∧ (o = Done () → settled key (o_attempts (m_world m'))))) as Hn.
  { split; [by eapply fresh_keeps, keeps_note_dispatch|]. destruct (note_dispatch cfg true decision key m) as [o m'] eqn:E.
    cbn [fst snd]. intros ->. unfold note_dispatch in E. apply bind_Done in E as (? & m1 & E1 & E). apply bind_Done in E as (? & m2 & E2 & E).
    injection E as <-. eapply mark_settles; [|exact E2]. pose proof (keeps_begin cfg key decision key m) as Hk. rewrite E1 in Hk.
    by apply Hk, Hm. }
  apply wp_bind. eapply wp_mono; [exact Hn|]. intros [[]|e|] m' [Hm' Hs]; cbn [stops]; [by apply Hf; auto|..];
    by (split; [by apply fresh_once|]).
Qed.

Lemma effect_once e m :
  is_effect key e = true → fresh key m → settled key (o_attempts (m_world m)) →
  once key (Machine (m_world m) (m_trace m ++ [e]) (m_ticks m)).
Proof.
  intros He [Hg Hc] Hs. split; [exact Hg|]. right. split; [|exact Hs]. unfold effects in *. cbn.
  rewrite filter_app, length_app, Hc. cbn. by rewrite decide_True.
Qed.

Lemma terminal_failed : "failed" ∈ terminal_statuses.
Proof. by apply mem_str_elem. Qed.

(** An effect in its place: on the ledger first, then the outcome. *)
Lemma guarded_effect e (rest : OM turn) m (T : turn → Prop) :
  is_effect key e = true → fresh key m → (∀ m', once key m' → wp rest m' (once_then key T)) →
  wp (_ ← note_dispatch cfg true decision key; _ ← emit e; rest) m (once_then key T).
Proof.
  intros He Hm Hrest. apply dispatch_noted; [done|]. intros m' Hm' Hs. apply wp_bind, wp_emit. cbn [stops].
  by apply Hrest, effect_once.
Qed.

Lemma unknown_once m :
  once key m → wp (prior ← guarded_attempt cfg true key; mret (Breaks (unknown_after_dispatch prior))) m (once_then key result_ended).
Proof.
  intros Hm. apply once_after; [apply _|done|]. intros prior m' Hm'. apply once_done; [done|apply terminal_failed].
Qed.

Lemma authority_turn_once gate receipt review m :
  fresh key m → wp (authority_turn cfg co decision evaluation key gate receipt review true) m (once_then key result_ended).
Proof.
  intros Hm. unfold authority_turn. apply guarded_effect; [apply String.eqb_refl|done|]. intros m' Hm'.
  apply once_after; [apply _|done|]. intros response m2 Hm2. destruct response as [detail|response]; [by apply unknown_once|].
  apply check_after; [done|]. intros failure Hf.
  destruct failure as [reason|]; [by apply unknown_once|]. destruct (dgetN "execution_result" response) eqn:Ex; try by apply unknown_once.
  apply once_done; [done|]. cbn [result_ended authority_candidate x_status].
  by eapply authority_status_terminal.
Qed.

Lemma returns_once gate m (p : OM dict) :
  Respects (keeps key) p → once key m → wp (record ← p; mret (gate, Returns record)) m (once_then key turn_ended).
Proof. intros Hp Hm. apply once_after; [done..|]. intros record m' Hm'. by apply once_done. Qed.

Lemma review_turn_once gate receipt m :
  fresh key m → wp (review_turn cfg co decision evaluation key started_at gate receipt true) m (once_then key result_ended).
Proof.
  intros Hm. unfold review_turn. apply fresh_after; [apply _|done|]. intros _ m1 Hm1.
  apply fresh_after; [apply _|done|]. intros review m1' Hm1'. apply fresh_after; [apply _|done|]. intros _ m2 Hm2. destruct (negb _).
  - apply once_after; [apply _|by apply fresh_once|]. intros record m3 Hm3. by apply once_done.
  - destruct (repo_patch_review_contract_failure review); [|by apply authority_turn_once].
    apply once_after; [apply _|by apply fresh_once|]. intros record m3 Hm3. by apply once_done.
Qed.

Lemma admission_turn_once g m :
  fresh key m → wp (admission_turn cfg co decision evaluation key started_at true g) m (once_then key turn_ended).
Proof.
  intros Hm. unfold admission_turn. apply fresh_after; [apply _|done|]. intros [detail|receipt] m1 Hm1.
  { apply once_done; [by apply fresh_once|apply terminal_failed]. }
  apply fresh_after; [apply _|done|]. intros now m2 Hm2. destruct (build_hsai_admission_request_v2 _ _ _ _) as [request|e].
  - apply fresh_after; [apply _|done|]. intros gate m3 Hm3. apply fresh_after; [apply _|done|]. intros _ m4 Hm4.
    destruct (_ || _); [by apply returns_once; [apply _|apply fresh_once]|].
    apply wp_bind. eapply wp_mono; [by apply review_turn_once|]. intros [ended|e|] m' [Ho Ht]; by split.
  - destruct (_ || _); [|by apply once_throw, fresh_once].
    apply fresh_after; [apply _|done|]. intros now' m3 Hm3. apply fresh_after; [apply _|done|]. intros request m4 Hm4.
    apply fresh_after; [apply _|done|]. intros gate m5 Hm5. by apply returns_once; [apply _|apply fresh_once].
Qed.

Lemma prior_result_terminal prior result :
  has_terminal_outcome prior = Ok true → result_from_prior_attempt (default [] prior) = Ok result → x_status result ∈ terminal_statuses.
Proof.
  unfold has_terminal_outcome, result_from_prior_attempt. intros H Hr. destruct prior as [[|kv r]|]; try done.
  apply in_str_set_Ok in H as (s & Hs & Hin). apply res_bind_Ok in Hr as (refs & _ & [= <-]). cbn [default from_option id] in *.
  cbn [x_status]. unfold dget_or. unfold dgetN in Hs. by destruct (dget "status" (kv :: r)); [cbn in Hs |- *; rewrite Hs|].
Qed.

Lemma attempt_turn_once patch g m :
  once key m → wp (attempt_turn cfg co decision evaluation key started_at true patch g) m (once_then key turn_ended).
Proof.
  intros Hm. unfold attempt_turn. cbn [guarded_attempt]. apply prior_reads; [done|]. intros prior m1 Hm1 Hseen.
  apply check_after; [done|]. intros terminal Ht. destruct terminal.
  { apply check_after; [done|]. intros result Hr. apply once_done; [done|]. by eapply prior_result_terminal. }
  destruct (dispatched_without_outcome prior) eqn:Hd; [by apply once_done; [|apply terminal_failed]|].
  destruct Hseen as [?|[?|Hfresh]]; [congruence..|]. destruct patch.
  - apply fresh_after; [apply _|done|]. intros [failure|] m2 Hm2; [|by apply admission_turn_once].
    apply once_done; [by apply fresh_once|apply terminal_failed].
  - apply (dispatch_noted (λ _, _ ← emit (Acted key); candidate ← collaborate (co_execute_decision co decision key);
                                mret (g, Attempted candidate))); [done|]. intros m2 Hm2 Hs.
    apply wp_bind, wp_emit. cbn [stops]. pose proof (effect_once (Acted key) m2 (String.eqb_refl key) Hm2 Hs) as Hone.
    apply collaborate_after; [done|]. intros r m3 Hm3 (t & w & Hr). apply once_done; [done|by eapply Hadapter].
Qed.

(** ** The loop and what follows it *)

Definition turn_goes (out : loop_end + (dict + loop_end)) : Prop :=
  match out with inl state => loop_ended (inr state) | inr ended => loop_ended ended end.

Lemma loop_turn_once patch start state m :
  once key m → loop_ended (inr state) →
  wp (loop_turn cfg co decision evaluation key started_at true patch start state) m (once_then key turn_goes).
Proof.
  intros Hm Hs. unfold loop_turn. destruct (_ <=? _)%Z; [|by apply once_done].
  apply wp_bind. eapply wp_mono; [by apply attempt_turn_once|]. intros [[gate ended]|e|] m1 [Hm1 He]; cbn [stops]; [|by split..].
  destruct ended as [record|result|candidate]; [by apply once_done..|].
  assert (Respects (keeps key) (complete_attempt cfg key (x_status candidate) (x_refs candidate) (x_failure candidate)))
    by (by apply keeps_complete).
  apply once_after; [respect|done|]. intros _ m2 Hm2. apply once_after; [apply _|done|]. intros again m3 Hm3.
  by apply once_done; [|destruct again].
Qed.

Lemma attempt_loop_once patch start state m :
  once key m → loop_ended (inr state) →
  wp (attempt_loop cfg co decision evaluation key started_at true patch start state) m (once_then key loop_ended).
Proof.
  intros Hm Hs. apply (wp_loop (λ state m, once key m ∧ loop_ended (inr state))); [by intros s m' [H _]| |done].
  clear Hm Hs m state. intros state m [Hm Hs]. eapply wp_mono; [by apply loop_turn_once|].
  intros [[state'|ended]|e|] m' [Ho He]; by split.
Qed.

Lemma finish_once state m :
  once key m → loop_ended (inr state) →
  wp (finish_execution cfg co decision evaluation key started_at true state) m (once_then key (λ _, True)).
Proof.
  intros Hm Hs. unfold finish_execution. cbn [loop_ended] in Hs. destruct (le_result state) as [result|]; [|by apply once_throw].
  assert (∀ refs failure, Respects (keeps key) (complete_attempt cfg key (x_status result) refs failure))
    by (intros refs failure; by apply keeps_complete).
  apply once_respects; [|done..]. respect.
Qed.
End turn.

(** ** Calls *)

Section calls.
Context (cfg : settings) (co : collaborators) (key : string).
Hypothesis Hadapter : ∀ decision k t w r, co_execute_decision co decision k t w = Ok r → x_status r ∈ terminal_statuses.

(** A call under the key. *)
Lemma execute_once decision evaluation m :
  idempotency_key_of decision = Ok key → requires_replay_guard decision = Ok true → once key m →
  wp (execute cfg co decision evaluation) m (once_then key (λ _, True)).
Proof.
  intros Hk Hguard Hm. unfold execute. rewrite Hk, Hguard. apply once_after; [apply _|done|]. intros started_at m1 Hm1.
  apply check_after; [done|]. intros key' [= <-]. apply check_after; [done|]. intros guarded [= <-].
  apply check_after; [done|]. intros patch _. apply once_after; [respect|done|]. intros [record|] m2 Hm2; [by apply once_done|].
  destruct (negb _); [by apply once_respects; [apply _|..]|]. apply once_after; [apply _|done|]. intros start m3 Hm3.
  apply wp_bind. eapply wp_mono; [apply attempt_loop_once; [exact (Hadapter decision)|done|done]|].
  intros [[record|state]|e|] m4 [Hm4 He]; cbn [stops]; [by apply once_done| |by split..].
  by apply finish_once.
Qed.

(** A call under another key. *)
Lemma execute_elsewhere decision evaluation :
  idempotency_key_of decision ≠ Ok key → Respects (keeps key) (execute cfg co decision evaluation).
Proof.
  intros Hk. unfold execute. apply respects_bind; [apply _..|intros started_at]. apply respects_check; [apply _|intros k Ek].
  assert (k ≠ key) as Hne by congruence.
  assert (∀ gate, Respects (keeps key) (emit (Authorised k gate) : OM unit))
    by (intros gate; apply keeps_emit; by apply String.eqb_neq).
  assert (Respects (keeps key) (emit (Acted k) : OM unit)) by (apply keeps_emit; by apply String.eqb_neq).
  assert (∀ status refs failure, Respects (keeps key) (complete_attempt cfg k status refs failure))
    by (intros status refs failure; by apply keeps_complete).
  assert (∀ gate receipt review guarded, Respects (keeps key) (authority_turn cfg co decision evaluation k gate receipt review guarded))
    by (intros; unfold authority_turn; respect).
  assert (∀ gate receipt guarded, Respects (keeps key) (review_turn cfg co decision evaluation k started_at gate receipt guarded))
    by (intros; unfold review_turn; respect).
  assert (∀ guarded g, Respects (keeps key) (admission_turn cfg co decision evaluation k started_at guarded g))
    by (intros; unfold admission_turn; respect).
  assert (∀ guarded patch g, Respects (keeps key) (attempt_turn cfg co decision evaluation k started_at guarded patch g))
    by (intros; unfold attempt_turn; respect).
  assert (∀ guarded patch start state,
    Respects (keeps key) (attempt_loop cfg co decision evaluation k started_at guarded patch start state))
    by (intros; apply attempt_loop_respects; auto; apply _).
  unfold finish_execution. respect.
Qed.

(** C2: however often [execute] is called, for this attempt and for others: what
    the attempt stands for is done at most once, if its decisions are guarded -
    repository patches and restarts of host services -, and when it was done the
    attempt is on the ledger as dispatched or ended, wherever the last call
    stopped.  This holds under the conditions that
    (1) an adapter that answers about an action names one of the outcomes
        succeeded, failed and rejected; [goose_adapter.py] passes on any status,
        and with another one the action is repeated, see [unknown_status_reopens];
    (2) the calls are made one after the other; two that overlap may both act, see
        [concurrent_calls_both_act];
    (3) the ledger can be read at the start, and other threads, which may change
        everything else between any two steps, neither make it unreadable nor
        reopen the attempt.
    Adapters and the authority service may also raise, and a call may stop
    anywhere. *)
Theorem guarded_action_acts_once calls m :
  Forall (λ c, idempotency_key_of c.1 = Ok key → requires_replay_guard c.1 = Ok true) calls →
  Forall (fair key) (m_ticks m) → readable (o_attempts (m_world m)) → effects key m = 0 →
  effects key (execute_all cfg co calls m).2 ≤ 1
  ∧ (effects key (execute_all cfg co calls m).2 = 1 → settled key (o_attempts (m_world (execute_all cfg co calls m).2))).
Proof.
  intros Hcalls Hf Hr H0.
  enough (once key (execute_all cfg co calls m).2) as [_ [->|[-> Hs]]] by (split; [lia|by intros]).
  assert (once key m) as Hm by (split; [by split|by left]). clear Hf Hr H0. revert m Hm.
  induction Hcalls as [|[decision evaluation] calls Hc _ IH]; intros m Hm; [done|]. unfold execute_all. cbn [for_each fst snd].
  assert (once key (catch (_ ← execute cfg co decision evaluation; mret ()) (λ _, mret ()) m).2) as Hone.
  { assert (wp (execute cfg co decision evaluation) m (once_then key (λ _, True))) as [Ho _].
    { assert (idempotency_key_of decision = Ok key ∨ idempotency_key_of decision ≠ Ok key) as [Hk|Hk];
        [|by apply execute_once; auto|by apply once_respects; [apply execute_elsewhere|..]].
      destruct (idempotency_key_of decision) as [k|e]; [|by right]. destruct (decide (k = key)) as [->|?]; [by left|right; congruence]. }
    unfold catch, mbind, rm_bind. by destruct (execute _ _ _ _ m) as [[a|e|] m']. }
  unfold mbind, rm_bind. destruct (catch _ _ m) as [[[]|e|] m']; [by apply IH|done..].
Qed.
End calls.
