(* ===== verification/OrchestratorEnds.v ===== *)
(** * The orchestrator ends

    [execute] takes a bounded number of steps, and tries an action at most once
    more than there are retries. *)

From S2P Require Import Prelude PyFloat PyValue PyNumbers Json JsonStore DateTime Models Schemas Contracts ExecutionAttempts HsaiBridge.
From S2P Require Import RunMachine Orchestrator OrchestratorTheorems.
#[local] Open Scope nat_scope.

(** ** Definitions *)

(** What one turn may take, and what [execute] may take besides its turns. *)
Definition turn_steps : nat := 16.
Definition other_steps : nat := 16.

Definition retry_turns (cfg : settings) : nat := Z.to_nat (max_transient_retries cfg + 1).

(** The attempts that a loop in this state may still begin. *)
Definition retries_left (cfg : settings) (state : loop_end) : nat := Z.to_nat (max_transient_retries cfg + 1 - le_attempts state).

(** Time only passes. *)
Definition passes_time (m m' : machine orchestrator act) : Prop := length (m_ticks m') ≤ length (m_ticks m).

(** The program does at most [n] effects under any key. *)
Class Effects (n : nat) {A} (p : OM A) : Prop := at_most key m : effects key (p m).2 ≤ n + effects key m.

(** An act that is the effect of no attempt. *)
Definition harmless (e : act) : Prop := ∀ key, is_effect key e = false.

(** ** Time passes *)

Section time.
Context (cfg : settings) (co : collaborators).

#[local] Instance passes_preorder : PreOrder passes_time.
Proof. split; [by intros m; red|]. unfold passes_time. intros a b c Hab Hbc. lia. Qed.
#[local] Instance passes_step {A} (f : tick orchestrator → orchestrator → res A * orchestrator) : Respects passes_time (step f : OM A).
Proof. intros m. unfold passes_time, step. destruct (m_ticks m) as [|t ts] eqn:E; [by cbn; rewrite E|]. destruct (f _ _) as [[a|e] w]; cbn; lia. Qed.
#[local] Instance passes_emit e : Respects passes_time (emit e : OM unit).
Proof. intros m. by red. Qed.

#[local] Instance attempt_turn_passes decision evaluation key t guarded patch g :
  Respects passes_time (attempt_turn cfg co decision evaluation key t guarded patch g).
Proof.
  unfold attempt_turn, admission_turn, review_turn, authority_turn, need_client, ask_gate, note_dispatch, guarded_attempt, prior_attempt,
    begin_attempt, mark_dispatched, repo_patch_review_rejected, repo_patch_admission_rejected, on_attempts, collaborate, read_clock.
  respect.
Qed.

#[local] Instance complete_attempt_passes key status refs failure : Respects passes_time (complete_attempt cfg key status refs failure).
Proof. unfold complete_attempt, on_attempts. respect. Qed.

(** To go on takes the reading of a clock at least. *)
Lemma goes_on_takes attempts candidate start m m' :
  goes_on cfg co attempts candidate start m = (Done true, m') → length (m_ticks m') < length (m_ticks m).
Proof.
  unfold goes_on. destruct (_ || _); [done|]. intros (delay & m1 & [_ ->]%pure_Done & H)%bind_Done.
  apply bind_Done in H as (now & m2 & H2 & H). assert (length (m_ticks m2) < length (m_ticks m)) as Hlt.
  { unfold read_monotonic, step in H2. destruct (m_ticks m) as [|tk ts]; [done|]. injection H2 as _ <-. cbn. lia. }
  cbv zeta in H. match type of H with (if ?b then _ else _) _ = _ => destruct b; [done|] end.
  destruct (f_ltb _ _); [|by injection H as <-].
  assert (passes_time m2 m'); [|unfold passes_time in *; lia].
  eassert (Respects passes_time _) as Hr; [|specialize (Hr m2); rewrite H in Hr; exact Hr]. unfold collaborate. respect.
Qed.

(** A turn after which the loop goes on has counted an attempt. *)
Lemma loop_turn_goes decision evaluation key t guarded patch start state state' m m' :
  loop_turn cfg co decision evaluation key t guarded patch start state m = (Done (inl state'), m') →
  retries_left cfg state' < retries_left cfg state ∧ length (m_ticks m') < length (m_ticks m).
Proof.
  unfold loop_turn, retries_left. destruct (Z.leb_spec (le_attempts state) (max_transient_retries cfg)) as [Hle|]; [|done].
  intros ([gate ended] & m1 & H1 & H)%bind_Done.
  pose proof (attempt_turn_passes decision evaluation key t guarded patch (le_gate state) m) as P1. rewrite H1 in P1. cbn [snd] in P1.
  destruct ended as [record|result|candidate]; [done..|]. apply bind_Done in H as ([] & m2 & H2 & H).
  assert (passes_time m1 m2) as P2.
  { eassert (Respects passes_time _) as Hr; [|specialize (Hr m1); rewrite H2 in Hr; exact Hr]. respect. }
  apply bind_Done in H as (again & m3 & H3 & H). destruct again; [|done]. injection H as <- <-.
  apply goes_on_takes in H3. unfold passes_time in *. cbn [le_attempts]. lia.
Qed.
End time.

(** ** Steps *)

Section steps.
#[local] Existing Instances within_ret within_pure within_emit within_throw within_step.

(** Spends the steps of a program from a budget. *)
Ltac spend :=
  repeat (cbv beta zeta; lazymatch goal with
    | |- Within _ (mbind _ _) => eapply within_then; [apply _|cbn; lia|intros ?; cbn [Nat.sub]]
    | |- Within _ (match ?x with _ => _ end) => destruct x
    | |- Within _ (catch _ _) => apply within_catch; [|intros ?]
    | |- Within _ _ => eapply within_le; [apply _|cbn; lia]
    end).

Context (cfg : settings) (co : collaborators).

#[local] Instance within_collaborate {A} (f : ocall A) : Within 1 (collaborate f).
Proof. unfold collaborate. apply _. Qed.
#[local] Instance within_clock : Within 1 read_clock.
Proof. unfold read_clock. apply _. Qed.
#[local] Instance within_monotonic : Within 1 read_monotonic.
Proof. unfold read_monotonic. apply _. Qed.
#[local] Instance within_on_attempts {A} (f : tick orchestrator → file → res A * file) : Within 1 (on_attempts f).
Proof. unfold on_attempts. apply _. Qed.
#[local] Instance within_ask_gate request : Within 2 (ask_gate co request).
Proof. unfold ask_gate. spend. Qed.
#[local] Instance within_review_rejected decision key t review : Within 1 (repo_patch_review_rejected cfg decision key t review).
Proof. unfold repo_patch_review_rejected. spend. Qed.
#[local] Instance within_admission_rejected decision evaluation key t gate reason :
  Within 2 (repo_patch_admission_rejected cfg decision evaluation key t gate reason).
Proof. unfold repo_patch_admission_rejected. spend. Qed.
#[local] Instance within_guarded_attempt guarded key : Within 1 (guarded_attempt cfg guarded key).
Proof. unfold guarded_attempt, prior_attempt. spend. Qed.
#[local] Instance within_note_dispatch guarded decision key : Within 2 (note_dispatch cfg guarded decision key).
Proof. unfold note_dispatch, begin_attempt, mark_dispatched. spend. Qed.
#[local] Instance within_authority_turn decision evaluation key gate receipt review guarded :
  Within 4 (authority_turn cfg co decision evaluation key gate receipt review guarded).
Proof. unfold authority_turn. spend. Qed.
#[local] Instance within_review_turn decision evaluation key t gate receipt guarded :
  Within 5 (review_turn cfg co decision evaluation key t gate receipt guarded).
Proof. unfold review_turn. spend. Qed.
#[local] Instance within_admission_turn decision evaluation key t guarded g :
  Within 9 (admission_turn cfg co decision evaluation key t guarded g).
Proof. unfold admission_turn. spend. Qed.
#[local] Instance within_need_client : Within 3 (need_client co).
Proof. unfold need_client. spend. apply (within_then 1); [spend|lia|intros ?; cbn [Nat.sub]; spend]. Qed.
#[local] Instance within_attempt_turn decision evaluation key t guarded patch g :
  Within 13 (attempt_turn cfg co decision evaluation key t guarded patch g).
Proof. unfold attempt_turn. spend. Qed.
#[local] Instance within_goes_on attempts candidate start : Within 2 (goes_on cfg co attempts candidate start).
Proof. unfold goes_on. spend. Qed.
#[local] Instance within_complete key status refs failure : Within 1 (complete_attempt cfg key status refs failure).
Proof. unfold complete_attempt. spend. Qed.
#[local] Instance within_guard decision evaluation key t : Within 5 (repo_patch_guard cfg co decision evaluation key t).
Proof. unfold repo_patch_guard. spend. Qed.
#[local] Instance within_not_approved decision evaluation key t : Within 1 (not_approved cfg decision evaluation key t).
Proof. unfold not_approved. spend. Qed.
#[local] Instance within_final_failure decision attempts result : Within 1 (final_failure cfg co decision attempts result).
Proof. unfold final_failure. spend. Qed.
#[local] Instance within_proof_packet decision evaluation gate status refs failure :
  Within 1 (with_proof_packet cfg decision evaluation gate status refs failure).
Proof. unfold with_proof_packet. spend. Qed.
#[local] Instance within_finish decision evaluation key t guarded state :
  Within 4 (finish_execution cfg co decision evaluation key t guarded state).
Proof.
  unfold finish_execution. destruct (le_result state) as [result|]; [|spend].
  apply (within_then 1); [apply _|lia|]. intros [refs failure]. apply (within_then 1); [destruct (le_gate state); spend|lia|]. intros refs'.
  apply (within_then 1); [destruct (_ && _); spend|lia|]. intros _. cbn [Nat.sub]. spend.
Qed.

Lemma loop_turn_within decision evaluation key t guarded patch start state :
  Within (Nat.min 1 (retries_left cfg state) * turn_steps) (loop_turn cfg co decision evaluation key t guarded patch start state).
Proof.
  unfold loop_turn, retries_left, turn_steps. destruct (Z.leb_spec (le_attempts state) (max_transient_retries cfg)) as [Hle|]; [|eapply within_le; [apply _|lia]].
  replace (Nat.min 1 _) with 1 by lia. cbn [Nat.mul].
  apply (within_then 13); [apply _|lia|]. intros [gate ended].
  destruct ended as [record|result|candidate]; [eapply within_le; [apply _|lia]..|].
  apply (within_then 1); [destruct guarded; spend|lia|]. intros _. apply (within_then 2); [apply _|lia|]. intros again.
  eapply within_le; [apply _|lia].
Qed.

Lemma attempt_loop_within decision evaluation key t guarded patch start state :
  Within (retries_left cfg state * turn_steps) (attempt_loop cfg co decision evaluation key t guarded patch start state).
Proof. apply within_loop; [apply loop_turn_within|apply loop_turn_goes]. Qed.

(** C13: however other threads and the collaborators behave, and with any answers:
    [execute] ends - with a record or an exception - in a number of steps that is
    linear in the configured number of retries.  The retry loop goes on until a
    turn says it is over; that one does, whatever happens, is what counting the
    attempts in every turn brings about. *)
Theorem execute_ends decision evaluation m :
  retry_turns cfg * turn_steps + other_steps ≤ length (m_ticks m) →
  (execute cfg co decision evaluation m).1 ≠ Unfinished
  ∧ length (m_ticks m) ≤ retry_turns cfg * turn_steps + other_steps + length (m_ticks (execute cfg co decision evaluation m).2).
Proof.
  enough (Within (retry_turns cfg * turn_steps + other_steps) (execute cfg co decision evaluation)) as H by (apply H).
  unfold execute, other_steps. fold (retry_turns cfg).
  apply (within_then 1); [apply _|lia|intros started_at]. apply (within_then 0); [apply _|lia|intros key].
  apply (within_then 0); [apply _|lia|intros guarded]. apply (within_then 0); [apply _|lia|intros patch].
  apply (within_then 5); [destruct patch; spend|lia|]. intros [record|]; [eapply within_le; [apply _|lia]|].
  destruct (negb _); [eapply within_le; [apply _|lia]|]. apply (within_then 1); [apply _|lia|intros start].
  apply (within_then (retry_turns cfg * turn_steps));
    [eapply within_le; [apply attempt_loop_within|unfold retries_left; cbn [le_attempts]; rewrite Z.sub_0_r; done]|lia|]. intros [record|state]; (eapply within_le; [apply _|lia]).
Qed.
End steps.

(** ** Attempts *)

Section effects.
Context (cfg : settings) (co : collaborators).

Lemma effects_app key l k : length (filter (λ e, is_effect key e = true) (l ++ k))
  = length (filter (λ e, is_effect key e = true) l) + length (filter (λ e, is_effect key e = true) k).
Proof. by rewrite filter_app, length_app. Qed.

#[local] Instance effects_none {A} (p : OM A) : Respects (extends harmless) p → Effects 0 p.
Proof.
  intros Hp key m. unfold effects. destruct (Hp m) as (l & -> & Hl). rewrite effects_app.
  assert (filter (λ e, is_effect key e = true) l = []) as ->; [|cbn; lia].
  induction Hl as [|e l He _ IH]; [done|]. rewrite filter_cons_False; [done|]. by rewrite (He key).
Qed.

#[local] Instance effects_emit e : Effects 1 (emit e : OM unit).
Proof.
  intros key m. unfold effects. cbn [snd m_trace emit]. rewrite effects_app. cbn. destruct (decide _); cbn; lia.
Qed.

Lemma effects_le {A} n n' (p : OM A) : Effects n p → n ≤ n' → Effects n' p.
Proof. intros Hp Hn key m. specialize (Hp key m). lia. Qed.

Lemma effects_then {A B} n1 n (p : OM A) (f : A → OM B) :
  Effects n1 p → n1 ≤ n → (∀ a, Effects (n - n1) (f a)) → Effects n (p ≫= f).
Proof.
  intros Hp Hn Hf key m. unfold mbind, rm_bind. specialize (Hp key m). destruct (p m) as [[a|e|] m']; cbn in *; try lia.
  specialize (Hf a key m'). lia.
Qed.

#[local] Instance harmless_reviewed k : Respects (extends harmless) (emit (Reviewed k) : OM unit).
Proof. by apply extends_emit. Qed.
#[local] Instance harmless_answered k review : Respects (extends harmless) (emit (Answered k review) : OM unit).
Proof. by apply extends_emit. Qed.
#[local] Instance harmless_incident r : Respects (extends harmless) (emit (Incident r) : OM unit).
Proof. by apply extends_emit. Qed.
#[local] Instance harmless_slept x : Respects (extends harmless) (emit (Slept x) : OM unit).
Proof. by apply extends_emit. Qed.
#[local] Instance harmless_goes_on attempts candidate start : Respects (extends harmless) (goes_on cfg co attempts candidate start).
Proof. unfold goes_on. respect. Qed.
#[local] Instance harmless_finish decision evaluation key t guarded state :
  Respects (extends harmless) (finish_execution cfg co decision evaluation key t guarded state).
Proof. unfold finish_execution, final_failure. respect. Qed.

(** Spends the effects of a program from a budget. *)
Ltac spend_effects :=
  repeat (cbv beta zeta; lazymatch goal with
    | |- Effects _ (mbind _ _) => eapply effects_then; [apply _|cbn; lia|intros ?; cbn [Nat.sub]]
    | |- Effects _ (match ?x with _ => _ end) => destruct x
    | |- Effects _ _ => eapply effects_le; [apply _|cbn; lia]
    end).

#[local] Instance effects_authority_turn decision evaluation key gate receipt review guarded :
  Effects 1 (authority_turn cfg co decision evaluation key gate receipt review guarded).
Proof. unfold authority_turn. spend_effects. Qed.
#[local] Instance effects_review_turn decision evaluation key t gate receipt guarded :
  Effects 1 (review_turn cfg co decision evaluation key t gate receipt guarded).
Proof. unfold review_turn. apply (effects_then 0); [apply _|lia|intros _; cbn [Nat.sub]].
  apply (effects_then 0); [apply _|lia|intros review; cbn [Nat.sub]]. apply (effects_then 0); [apply _|lia|intros _; cbn [Nat.sub]].
  spend_effects.
Qed.
#[local] Instance effects_admission_turn decision evaluation key t guarded g :
  Effects 1 (admission_turn cfg co decision evaluation key t guarded g).
Proof. unfold admission_turn. spend_effects. Qed.
#[local] Instance effects_attempt_turn decision evaluation key t guarded patch g :
  Effects 1 (attempt_turn cfg co decision evaluation key t guarded patch g).
Proof. unfold attempt_turn. spend_effects. Qed.

Lemma loop_turn_effects decision evaluation key t guarded patch start state :
  Effects (Nat.min 1 (retries_left cfg state)) (loop_turn cfg co decision evaluation key t guarded patch start state).
Proof.
  unfold loop_turn, retries_left. destruct (Z.leb_spec (le_attempts state) (max_transient_retries cfg)) as [Hle|]; [|eapply effects_le; [apply _|lia]].
  replace (Nat.min 1 _) with 1 by lia. apply (effects_then 1); [apply _|lia|]. intros [gate ended].
  destruct ended as [record|result|candidate]; [eapply effects_le; [apply _|lia]..|].
  apply (effects_then 0); [destruct guarded; apply effects_none; respect|lia|]. intros _.
  apply (effects_then 0); [apply _|lia|]. intros again. apply _.
Qed.

Lemma effects_loop decision evaluation key t guarded patch start state :
  Effects (retries_left cfg state) (attempt_loop cfg co decision evaluation key t guarded patch start state).
Proof.
  intros k m. unfold attempt_loop, loop. generalize (Datatypes.S (length (m_ticks m))) as fuel. intros fuel. revert state m.
  induction fuel as [|fuel IH]; intros state m; [cbn; lia|]. cbn [loop_go]. unfold mbind, rm_bind.
  pose proof (loop_turn_effects decision evaluation key t guarded patch start state k m) as H.
  destruct (loop_turn _ _ _ _ _ _ _ _ _ _ m) as [[[s'|a]|e|] m'] eqn:Et; cbn [fst snd mret rm_ret] in *; try lia.
  apply loop_turn_goes in Et as [Hd _]. specialize (IH s' m'). lia.
Qed.

(** One call of [execute] tries an action at most once more than the configured
    number of retries. *)
Theorem attempts_bounded decision evaluation key m :
  effects key (execute cfg co decision evaluation m).2 ≤ retry_turns cfg + effects key m.
Proof.
  enough (Effects (retry_turns cfg) (execute cfg co decision evaluation)) as H by (apply H).
  unfold execute. fold (retry_turns cfg). apply (effects_then 0); [apply _|lia|intros started_at].
  apply (effects_then 0); [apply _|lia|intros k]. apply (effects_then 0); [apply _|lia|intros guarded].
  apply (effects_then 0); [apply _|lia|intros patch].
  apply (effects_then 0); [destruct patch; apply _|lia|]. intros [record|]; [eapply effects_le; [apply _|lia]|].
  destruct (negb _); [eapply effects_le; [apply _|lia]|]. apply (effects_then 0); [apply _|lia|intros start].
  apply (effects_then (retry_turns cfg));
    [eapply effects_le; [apply effects_loop|unfold retries_left; cbn [le_attempts]; rewrite Z.sub_0_r; done]|lia|]. intros [record|state]; (eapply effects_le; [apply _|lia]).
Qed.
End effects.
