(* ===== verification/OrchestratorExamples.v ===== *)
(** * The orchestrator at work

    Runs of [execute] from beginning to end, which are the witnesses of its
    theorems, and what its guarantees do not cover. *)

From S2P Require Import Prelude PyFloat PyValue PyNumbers Json JsonStore DateTime Models Schemas Contracts ExecutionAttempts Merkle HsaiBridge HsaiTheorems HsaiExamples.
From S2P Require Import RunMachine Orchestrator OrchestratorTheorems OrchestratorOnce OrchestratorEnds.
#[local] Open Scope nat_scope.

(** ** A restart of a host service, and a rollout *)

Definition with_plan (id : string) (system action : string) : dict :=
  [("decision_id", VStr id); ("trigger_id", VStr "trigger-1");
   ("execution_plan", VDict
      [("system", VStr system); ("action", VStr action); ("parameters", VDict [("host", VStr "node-1")]);
       ("rollback_plan", VStr "none")])].

Definition restart : dict := with_plan "decision-1" "systemd_service" "restart_systemd_service".
Definition rollout : dict := with_plan "decision-2" "feature_flag_service" "set_rollout".
Definition restart_key : string := "decision-1:restart_systemd_service".

Definition config : settings := Settings "native_hermes" 2 60 "key-1" "execution_attempts.json".

(** An adapter that answers by the time of the call. *)
Definition adapter_of (answer : string → CliExecutionResult) : collaborators :=
  Collaborators false (λ _ _ _, raise RuntimeError "no gate") (λ _ _ t _, Ok (answer (tk_now t)))
    (λ _ _ _ _, Ok [("incident_id", VStr "inc-1")]) (λ _ _, Ok ()) (λ _ _ _ _ _, Ok (inl "none"))
    (λ _ _ _ _ _ _ _, Ok (inl "none")) (λ _ _ _, Ok ()).

Definition succeeds : CliExecutionResult := CliResult "succeeded" [("job", VStr "7")] None false.
Definition transient : CliExecutionResult := CliResult "failed" [] (Some [("reason", VStr "timeout")]) true.

(** Ticks at which nothing else happens, and their times. *)
Definition quiet_tick (now : string) : tick orchestrator := Tick id now now now "0" (S754_zero false).
Definition start (ticks : list (tick orchestrator)) : machine orchestrator act := Machine (Orch no_file false) [] ticks.
Definition quiet : machine orchestrator act := start (repeat (quiet_tick "t") 64).

(** The status, the failure and the references of the record, and what was done. *)
Definition report (r : outcome dict * machine orchestrator act) : option (value * value * value) * list act :=
  (match r.1 with
   | Done record => Some (dgetN "status" record, dgetN "failure" record, dgetN "external_refs" record)
   | _ => None
   end, m_trace r.2).

(** An adapter whose answer names no outcome. *)
Definition skipped : CliExecutionResult := CliResult "skipped" [] None false.

(** Another process dispatches the same attempt. *)
Definition other_dispatches (w : orchestrator) : orchestrator :=
  let begun := (attempt_begin (attempts_path config) (o_attempts w) restart_key "decision-1" [] "t").2 in
  Orch (attempt_mark_dispatched (attempts_path config) begun restart_key "t" "t" "t").2 (o_client w).

(** It does so after the [n]-th step. *)
Definition overtaken (n : nat) : machine orchestrator act :=
  start (repeat (quiet_tick "t") n ++ Tick other_dispatches "t" "t" "t" "0" (S754_zero false) :: repeat (quiet_tick "t") 20).

(** The collaborators of a repository patch that goes well. *)
Definition good_review : CliExecutionResult :=
  CliResult "succeeded"
    (REPO_PATCH_REVIEW_FLAGS
     ++ [("hermes_review", VDict (NESTED_REPO_PATCH_REVIEW_FLAGS
            ++ [("approved", VBool true); ("next_action", VStr "authority_service_review_required"); ("mode", VStr "native");
                ("summary", VStr "reviewed"); ("risk_flags", VList [])]))])
    None false.

Definition good_response : dict :=
  [("schema_version", VStr "mesh.repo_patch_authority_response.v1"); ("status", VStr "completed");
   ("execution_result", VDict [("status", VStr "succeeded"); ("external_refs", VDict [("commit", VStr "abc")]);
                               ("failure", VNone); ("retryable", VBool false)]);
   ("receipt", VDict [("id", VStr "r-1")]); ("rejection", VNone);
   ("authorization_proof", VDict
      [("signing_profile", VStr "mesh-repo-patch-authority-response-ed25519-v1"); ("algorithm", VStr "ed25519");
       ("key_id", VStr "key-1"); ("status", VStr "verified"); ("verifier", VStr "orbital_mesh_ed25519_v1")])].

Definition patch_collaborators : collaborators :=
  Collaborators true (λ request _ _, a ← local_hsai_allow_decision request "t" None; Ok (VDict a)) (λ _ _ _ _, Ok good_review)
    (λ _ _ _ _, Ok []) (λ _ _, Ok ()) (λ _ _ _ _ _, Ok (inr patch_receipt))
    (λ _ _ _ _ _ _ _, Ok (inr good_response)) (λ _ _ _, Ok ()).

(** What was done, without the gates. *)
Definition act_kind (e : act) : string :=
  match e with
  | Reviewed _ => "reviewed" | Answered _ _ => "answered" | Acted _ => "acted" | Authorised _ _ => "authorised" | Incident _ => "incident" | Slept _ => "slept"
  end.

(** Transient failures of an unguarded action are retried after one and two
    seconds; after the last one there is an incident. *)
Example rollout_retried :
  report (execute config (adapter_of (λ _, transient)) rollout patch_evaluation quiet)
  = (Some (VStr "failed",
           VDict [("reason", VStr "timeout"); ("human_review_route", VStr "human_review"); ("attempts", VInt 3);
                  ("orchestration_mode", VStr "native_hermes")],
           VDict [("incident_id", VStr "inc-1")]),
     [Acted "decision-2:set_rollout"; Slept (f_of_Z 1); Acted "decision-2:set_rollout"; Slept (f_of_Z 2);
      Acted "decision-2:set_rollout"; Incident (VStr "timeout")]).
Proof. vm_compute. reflexivity. Qed.

(** The same failure of a guarded action: it is recorded as the outcome of the
    attempt, so after the wait the next turn replays it as final.  There is no
    second attempt and no incident. *)
Theorem transient_guarded_failure_is_final :
  report (execute config (adapter_of (λ _, transient)) restart patch_evaluation quiet)
  = (Some (VStr "failed",
           VDict [("reason", VStr "timeout"); ("attempts", VInt 2); ("orchestration_mode", VStr "native_hermes")],
           VDict [("idempotency_replayed", VBool true)]),
     [Acted restart_key; Slept (f_of_Z 1)]).
Proof. vm_compute. reflexivity. Qed.

(** An outcome that is none of the three: the record is refused, the attempt is
    open again, and the next call repeats the action. *)
Theorem unknown_status_reopens :
  let m := (execute_all config (adapter_of (λ _, skipped)) [(restart, patch_evaluation); (restart, patch_evaluation)] quiet).2 in
  (execute config (adapter_of (λ _, skipped)) restart patch_evaluation quiet).1
    = Raised (Exc SchemaValidationError "$.status: 'skipped' not in enum ['succeeded', 'failed', 'rejected']")
  ∧ m_trace m = [Acted restart_key; Acted restart_key].
Proof. vm_compute. split; reflexivity. Qed.

(** The reading of the ledger and the note of the attempt are two sections: a
    process that is overtaken between them - the fourth step here - dispatches
    an attempt that the ledger shows as dispatched.  Overtaken before it reads,
    it does not. *)
Theorem concurrent_calls_both_act :
  (settled restart_key (o_attempts (other_dispatches (Orch no_file false))))
  ∧ m_trace (execute config (adapter_of (λ _, succeeds)) restart patch_evaluation (overtaken 3)).2 = [Acted restart_key]
  ∧ m_trace (execute config (adapter_of (λ _, succeeds)) restart patch_evaluation (overtaken 2)).2 = [].
Proof.
  split; [|vm_compute; split; reflexivity]. exists "remote_command_dispatched". split; [by left|].
  eexists. split; vm_compute; reflexivity.
Qed.

(** A repository patch: reviewed, then authorised under an open gate, and its
    record carries a proof packet that a verifier accepts. *)
Example patch_executed :
  let r := execute config patch_collaborators patch_decision patch_evaluation quiet in
  map act_kind (m_trace r.2) = ["reviewed"; "answered"; "authorised"]
  ∧ match r.1 with
    | Done record =>
        let packet := dict_or_empty (dgetN "combined_proof_packet" (dict_or_empty (dgetN "external_refs" record))) in
        is_string "succeeded" (dgetN "status" record) && is_string "allow" (dgetN "hsai_decision" packet)
    | _ => false
    end = true.
Proof. vm_compute. split; reflexivity. Qed.

(** ** Witnesses *)

Lemma execute_ends_witness :
  (execute config (adapter_of (λ _, transient)) rollout patch_evaluation quiet).1 ≠ Unfinished
  ∧ length (m_ticks quiet)
    ≤ retry_turns config * turn_steps + other_steps
      + length (m_ticks (execute config (adapter_of (λ _, transient)) rollout patch_evaluation quiet).2).
Proof. apply (execute_ends config (adapter_of (λ _, transient)) rollout patch_evaluation quiet). vm_compute. lia. Defined.

Lemma guarded_action_acts_once_witness :
  let m := (execute_all config (adapter_of (λ _, succeeds)) [(restart, patch_evaluation); (restart, patch_evaluation)] quiet).2 in
  m_trace m = [Acted restart_key]
  ∧ effects restart_key m ≤ 1 ∧ (effects restart_key m = 1 → settled restart_key (o_attempts (m_world m))).
Proof.
  intros m. split; [vm_compute; reflexivity|].
  apply (guarded_action_acts_once config (adapter_of (λ _, succeeds)) restart_key).
  - intros decision k t w r [= <-]. apply mem_str_elem. reflexivity.
  - repeat constructor; intros _; vm_compute; reflexivity.
  - apply Forall_forall. intros t Ht. apply list_elem_of_In, repeat_spec in Ht. subst t. intros w. split; exact (λ H, H).
  - exists []. reflexivity.
  - reflexivity.
Defined.
