(* ===== verification/PatchActuator.v ===== *)
(** * The executor of repository patches

    [src/services/actuators/repo_patch.py]: [execute_patch] claims the permit of
    a decision, replaces the target file and verifies it with the bounded test
    commands, as a program of [RunMachine] over the ledger of permits and the
    file system, both of which others may change between any two steps.  With it
    [write_immutable_backup] of [repo_patch_permits.py] and [shlex.join].

    A decision is an instance of the dataclass, so the first guard of
    [execute_patch] does not fire.  Clock readings, the disk and the test
    commands are arguments that read the tick. *)

From S2P Require Import Prelude PyFloat PyValue Json Paths JsonStore DateTime PermitLedger Permits PermitRecovery HsaiBridge RunMachine.
From stdpp Require Import gmap.
#[local] Open Scope Z_scope.

#[local] Opaque Sha256.sha256_hex.

(** ** [shlex.join] *)

Definition shlex_safe (c : ascii) : bool :=
  let n := byte_z c in
  ((48 <=? n) && (n <=? 57)) || ((65 <=? n) && (n <=? 90)) || ((97 <=? n) && (n <=? 122))
  || existsb (Ascii.eqb c) (str_chars "_@%+=:,./-").

(** [shlex.quote] *)
Definition shlex_quoted (s : string) : string :=
  if String.eqb s "" then "''"
  else if forallb shlex_safe (str_chars s) then s
  else "'" +:+ str_replace "'" (chars_str [squote; dquote; squote; dquote; squote]) s +:+ "'".

Definition shlex_join (words : list string) : string := str_join " " (map shlex_quoted words).

(** ** Backups *)

(** What becomes of a write: it is done, it fails and leaves nothing, or it is
    done and an error is reported afterwards. *)
Inductive disk_outcome := DiskOk | DiskFull | DiskLate.

Definition disk_ok (d : disk_outcome) : bool := match d with DiskOk => true | _ => false end.

Definition parent_of (p : path) : path := Path (p_root p) (removelast (p_parts p)).
Definition name_of (p : path) : string := List.last (p_parts p) "".

(** A new entry of the parent directory. *)
Definition add_entry (fs : filesystem) (p : path) (n : node) : option filesystem :=
  match lstat fs p, stat fs (parent_of p) with
  | Missing, Found loc =>
      match node_at fs (Found loc) with
      | Some NDir => Some (Filesystem (<[loc ++ [name_of p] := n]> (fs_nodes fs)) (fs_cwd fs))
      | _ => None
      end
  | _, _ => None
  end.

(** [p.mkdir(parents=True, exist_ok=True)], one directory after another *)
Definition make_directory (fs : filesystem) (p : path) (d : disk_outcome) : res unit * filesystem :=
  match node_at fs (stat fs p) with
  | Some NDir => (Ok (), fs)
  | Some _ => (raise OSError (path_str p), fs)
  | None =>
      match add_entry fs p NDir with
      | Some fs' => if disk_ok d then (Ok (), fs') else (raise OSError (path_str p), fs)
      | None => (raise OSError (path_str p), fs)
      end
  end.

Fixpoint make_directories (fs : filesystem) (root : string) (above below : list string) (d : disk_outcome)
    : res unit * filesystem :=
  match below with
  | [] => (Ok (), fs)
  | name :: below =>
      match make_directory fs (Path root (above ++ [name])) d with
      | (Ok _, fs') => make_directories fs' root (above ++ [name]) below d
      | (Err e, fs') => (Err e, fs')
      end
  end.

(** [write_immutable_backup] *)
Definition write_immutable_backup (fs : filesystem) (p : path) (content : string) (d : disk_outcome)
    : res unit * filesystem :=
  if has_nul p then (raise ValueError "embedded null byte", fs)
  else
    match make_directories fs (p_root p) [] (p_parts (parent_of p)) d with
    | (Err e, fs1) => (Err e, fs1)
    | (Ok _, fs1) =>
        match node_at fs1 (stat fs1 p) with
        | Some (NFile old) =>
            if is_symlink fs1 p || negb (String.eqb old content)
            then (raise ValueError "authority backup path already exists with different content", fs1) else (Ok (), fs1)
        | Some _ => (raise ValueError "authority backup path already exists with different content", fs1)
        | None =>
            match add_entry fs1 p (NFile content), d with
            | Some fs2, DiskOk => (Ok (), fs2)
            | Some fs2, DiskLate => (raise OSError (path_str p), fs2)
            | _, _ => (raise OSError (path_str p), fs1)
            end
        end
    end.

(** ** Test commands *)

Definition SHELL_TOKENS : list string := ["&&"; "||"; ";"; "|"; ">"; "<"; "$("; "`"].

(** The allowlist of an executor: that of its caller or the configured one,
    without empty commands or arguments. *)
Definition allowed_test_commands (given : option (list (list string))) (configured : list string) : res (list (list string)) :=
  commands ← match given with None => res_map shlex_split configured | Some commands => Ok commands end;
  raise_if existsb (λ command, bool_decide (command = []) || existsb (String.eqb "") command) commands
    with ValueError "repo patch verification allowlist contains an empty command or argument";
  Ok commands.

(** [_uses_shell_syntax] *)
Definition uses_shell_syntax (command : string) : bool :=
  str_startswith "cd " (str_strip command) || existsb (λ token, str_contains token command) SHELL_TOKENS.

(** [_authorize_test_commands] *)
Definition authorize_command (allowed : list (list string)) (command : value) : res (list string) :=
  raise_if uses_shell_syntax (py_str command)
    with ValueError "repo patch verification command contains prohibited shell syntax";
  arguments ← shlex_split (py_str command);
  raise_if bool_decide (arguments = []) with ValueError "empty repo patch verification command";
  raise_if negb (bool_decide (arguments ∈ allowed))
    with ValueError "repo patch verification command is not explicitly allowlisted";
  Ok arguments.

Definition authorize_test_commands (allowed : list (list string)) (commands : value) : res (list (list string)) :=
  match commands with
  | VList l =>
      raise_if negb (forallb is_str l) with ValueError "repo patch verification commands must be a list of strings";
      res_map (authorize_command allowed) l
  | _ => raise ValueError "repo patch verification commands must be a list of strings"
  end.

(** [subprocess.run] of one command: the exit code and the output *)
Record completed_process := Completed { cp_returncode : Z; cp_stdout : string; cp_stderr : string }.

Definition test_result (arguments : list string) (c : completed_process) : value :=
  VDict [("command", VStr (shlex_join arguments)); ("returncode", VInt (cp_returncode c));
         ("stdout", VStr (str_strip (cp_stdout c))); ("stderr", VStr (str_strip (cp_stderr c)))].

(** ** The permit of a decision *)

(** [_authority_failure] *)
Definition authority_failure (reason : string) : dict :=
  [("status", VStr "failed"); ("external_refs", VDict []); ("failure", VDict [("reason", VStr reason)]); ("retryable", VBool false)].

(** The permit, or the result that says what is wrong with it. *)
Definition permit_of (decision : dict) (idempotency_key : string) : res (dict + dict) :=
  context_failure ← repo_patch_admission_failure decision;
  match context_failure with
  | Some result => Ok (inr result)
  | None =>
      parameters ← subscript (dgetN "execution_plan" decision) "parameters";
      context ← py_get parameters HSAI_EXECUTION_CONTEXT_KEY;
      Ok (match dgetN "execution_permit" (dict_or_empty context) with
          | VDict permit =>
              if py_eq (dgetN "idempotency_key" permit) (VStr idempotency_key) then inl permit
              else inr (authority_failure "repo patch execution permit idempotency key mismatch")
          | _ => inr (authority_failure "repo patch execution permit is missing")
          end)
  end.

(** The parameters of an execution, and the test commands among them. *)
Definition parameters_of (decision : dict) (resolved_parameters : option dict) : res dict :=
  match resolved_parameters with
  | Some ((_ :: _) as d) => Ok d
  | _ => raw ← subscript (dgetN "execution_plan" decision) "parameters"; py_dict raw
  end.

Definition commands_of (parameters : dict) : value := dget_or "test_commands" (VList []) parameters.

(** ** The executor *)

(** What the world does not show of an execution. *)
Inductive patch_act :=
  | Claimed (permit_id : string)
  | Replaced (permit_id : string) (target : path) (content : string)
  | Ran (permit_id : string) (arguments : list string).

Definition PM : Type → Type := RM world patch_act.

(** [RepoPatchAdapter] and what its calls read: two clock readings, the disk,
    and a test command, [inl] being the message of an error it is stopped by. *)
Record executor := Executor {
  pa_store : permit_store;
  pa_allowed : list (list string);
  pa_failpoint : string → res unit;
  pa_now : tick world → datetime;
  pa_later : tick world → datetime;
  pa_disk : tick world → disk_outcome;
  pa_run : list string → path → tick world → string + res completed_process }.

(** [try: p except classes as exc: return failure(prefix + str(exc))] *)
Definition guarded {A} (classes : list exc_class) (prefix : string) (p : PM (A + dict)) : PM (A + dict) :=
  catch p (λ e, if existsb (isinstance_exc (exc_cls e)) classes
                then mret (inr (authority_failure (prefix +:+ exc_str e))) else throw e).

(** Going on unless there is a result already. *)
Definition or_return {A} (p : PM (A + dict)) (k : A → PM dict) : PM dict :=
  out ← p; match out with inl a => k a | inr result => mret result end.

Section executor.
Context (x : executor).

Definition files {A} (f : filesystem → res A) : PM A := step (λ _ w, (f (w_fs w), w)).

Definition transition (permit_id expected new : string) (details terminal : option dict) : PM dict :=
  step (λ t w,
    let '(r, f) := record_transition (pa_store x) (w_ledger w) permit_id expected new details terminal (pa_failpoint x) (pa_now x t) in
    (r, set_ledger w f)).

Definition abort (permit : dict) (expected reason : string) (test_results : list value) : PM dict :=
  step (λ t w, abort_with_restoration (pa_store x) w permit expected reason test_results (pa_failpoint x)
                 (disk_ok (pa_disk x t)) (pa_now x t) (pa_later x t)).

(** The result stored for the key, if there is one. *)
Definition prior_result (idempotency_key : string) : PM (unit + dict) :=
  guarded [OSError; TypeError; ValueError] "repo patch terminal-result lookup rejected: "
    (found ← step (λ _ w,
       let '(r, f) := terminal_result_for_idempotency (pa_store x) (w_ledger w) idempotency_key in (r, set_ledger w f));
     mret (match found with Some result => inr result | None => inl () end)).

(** The repository, the target and the bytes after the patch. *)
Definition bind_patch (permit parameters : dict) : PM ((path * path * string) + dict) :=
  guarded restoration_errors "repo patch target binding rejected: "
    (bound ← files (λ fs, repo_patch_target_binding fs parameters);
     let '(repo_path, target_path, preimage) := bound in
     if negb (py_eq (dgetN "target_preimage_digest" permit) (VStr preimage))
     then mret (inr (authority_failure "repo patch execution permit rejected: target preimage mismatch"))
     else
       image ← files (λ fs, repo_patch_postimage fs parameters target_path);
       let '(postimage, digest) := image in
       if negb (py_eq (dgetN "target_postimage_digest" permit) (VStr digest))
       then mret (inr (authority_failure "repo patch execution permit rejected: target postimage mismatch"))
       else mret (inl (repo_path, target_path, postimage))).

(** The bytes before the patch, which have to be those of the permit. *)
Definition read_original (permit : dict) (target_path : path) : PM (string + dict) :=
  or_fail ← guarded [OSError] "repo patch preflight failed: "
              (original ← files (λ fs, read_bytes fs target_path); mret (inl original));
  match or_fail with
  | inr result => mret (inr result)
  | inl original =>
      digest ← files (λ fs, file_digest fs target_path);
      preimage ← pure (ditem "target_preimage_digest" permit);
      if negb (py_eq preimage (VStr digest))
      then mret (inr (authority_failure "repo patch execution permit rejected: target preimage changed"))
      else mret (inl original)
  end.

(** [permit\["permit_id"\].encode("utf-8")] *)
Definition permit_id_of (permit : dict) : res string :=
  id ← ditem "permit_id" permit;
  match id with
  | VStr s => Ok s
  | _ => raise AttributeError (repr_str (type_name id) +:+ " object has no attribute 'encode'")
  end.

Definition backup_path_of (permit_id : string) : path :=
  path_join (ps_backup_directory (pa_store x)) (parse_path (Sha256.sha256_hex permit_id +:+ ".bak")).

(** The backup and the step to prepared. *)
Definition prepare (permit_id : string) (repo_path target_path : path) (original : string) : PM (unit + dict) :=
  guarded [OSError; TypeError; ValueError] "repo patch durable preparation rejected: "
    (_ ← step (λ t w, let '(r, fs) := write_immutable_backup (w_fs w) (backup_path_of permit_id) original (pa_disk x t) in
                      (r, set_fs w fs));
     _ ← transition permit_id "issued" "prepared"
           (Some [("backup_path", VStr (path_str (backup_path_of permit_id))); ("repo_path", VStr (path_str repo_path));
                  ("target_path", VStr (path_str target_path))]) None;
     mret (inl ())).

Definition claim (permit decision : dict) (permit_id idempotency_key : string) (parameters : dict) : PM (dict + dict) :=
  guarded restoration_errors "repo patch execution permit rejected: "
    (receipt ← step (λ t w,
       let '(r, f) := consume (pa_store x) (w_ledger w) (w_fs w) permit decision idempotency_key parameters (pa_failpoint x)
                        (pa_now x t) (pa_later x t) in
       (r, set_ledger w f));
     _ ← emit (Claimed permit_id);
     mret (inl receipt)).

(** Has the target the digest of the item, and is it no link? *)
Definition target_is (permit : dict) (key : string) (fs : filesystem) (target_path : path) : res bool :=
  if is_symlink fs target_path then Ok false
  else digest ← file_digest fs target_path; wanted ← ditem key permit; Ok (py_eq (VStr digest) wanted).

(** The target still is the one the permit was claimed for. *)
Definition unchanged (permit : dict) (target_path : path) : PM (unit + dict) :=
  catch
    (same ← files (λ fs, target_is permit "target_preimage_digest" fs target_path);
     if same : bool then mret (inl ())
     else r ← abort permit "applying" "repo patch target changed after authority claim" []; mret (inr r))
    (λ e, if isinstance_exc (exc_cls e) OSError
          then r ← abort permit "applying" "repo patch target became unavailable after authority claim" []; mret (inr r)
          else throw e).

Definition replace_target (permit : dict) (permit_id : string) (target_path : path) (postimage : string) : PM (unit + dict) :=
  replaced ← step (λ t w,
    match atomic_replace_bytes (w_fs w) target_path postimage (disk_ok (pa_disk x t)) with
    | Ok fs => (Ok None, set_fs w fs)
    | Err e => if isinstance_exc (exc_cls e) OSError then (Ok (Some e), w) else (Err e, w)
    end);
  match replaced with
  | Some e => r ← abort permit "applying" ("repo patch atomic replacement failed: " +:+ exc_str e) []; mret (inr r)
  | None => _ ← emit (Replaced permit_id target_path postimage); mret (inl ())
  end.

(** The claimed permit's target is replaced. *)
Definition apply_patch (permit : dict) (permit_id : string) (target_path : path) (postimage : string) : PM (unit + dict) :=
  _ ← transition permit_id "claimed" "applying" None None;
  drifted ← unchanged permit target_path;
  match drifted with
  | inr result => mret (inr result)
  | inl _ =>
      replaced ← replace_target permit permit_id target_path postimage;
      match replaced with
      | inr result => mret (inr result)
      | inl _ =>
          _ ← transition permit_id "applying" "applied" None None;
          same ← files (λ fs, digest ← file_digest fs target_path; wanted ← ditem "target_postimage_digest" permit;
                              Ok (py_eq (VStr digest) wanted));
          if same : bool then _ ← transition permit_id "applied" "verifying" None None; mret (inl ())
          else r ← abort permit "applied" "repo patch target postimage verification failed" []; mret (inr r)
      end
  end.

(** The test commands, with the results so far. *)
Fixpoint verify_patch (permit : dict) (permit_id : string) (repo_path : path) (commands : list (list string))
    (results : list value) : PM (list value + dict) :=
  match commands with
  | [] => mret (inl results)
  | arguments :: commands =>
      _ ← emit (Ran permit_id arguments);
      ran ← step (λ t w, match pa_run x arguments repo_path t with
                         | inl message => (Ok (inl message), w)
                         | inr (Ok c) => (Ok (inr c), w)
                         | inr (Err e) => (Err e, w)
                         end);
      match ran with
      | inl message => r ← abort permit "verifying" ("bounded verification failed: " +:+ message) results; mret (inr r)
      | inr c =>
          let results := results ++ [test_result arguments c] in
          if cp_returncode c =? 0 then verify_patch permit permit_id repo_path commands results
          else r ← abort permit "verifying" "bounded verification failed" results; mret (inr r)
      end
  end.

Definition patch_result (receipt : dict) (backup_path target_file : path) (test_results : list value) : dict :=
  [("status", VStr "succeeded");
   ("external_refs", VDict [("authority_receipt", VDict receipt); ("backup_path", VStr (path_str backup_path));
                            ("patched_files", VList [VStr (path_str target_file)]); ("test_results", VList test_results)]);
   ("retryable", VBool false)].

(** The last look at the target, and the end of the transaction. *)
Definition commit (permit receipt : dict) (permit_id : string) (repo_path target_path : path) (test_results : list value) : PM dict :=
  verified ← step (λ _ w,
    match target_is permit "target_postimage_digest" (w_fs w) target_path with
    | Ok b => (Ok b, w)
    | Err e => if isinstance_exc (exc_cls e) OSError then (Ok false, w) else (Err e, w)
    end);
  if negb verified then abort permit "verifying" "repo patch target drifted during bounded verification" test_results
  else
    target_file ← pure (match relative_to target_path repo_path with
                        | Some p => Ok p
                        | None => raise ValueError (repr_str (path_str target_path) +:+ " is not in the subpath of "
                                                    +:+ repr_str (path_str repo_path))
                        end);
    digest ← files (λ fs, file_digest fs target_path);
    let result := patch_result (dset "target_postimage_digest" (VStr digest) receipt) (backup_path_of permit_id) target_file
                    test_results in
    _ ← transition permit_id "verifying" "committed" (Some [("committed_postimage_digest", VStr digest)]) (Some result);
    mret result.

(** [RepoPatchAdapter.execute_patch] *)
Definition execute_patch (decision : dict) (idempotency_key : string) (resolved_parameters : option dict) : PM dict :=
  or_return (pure (permit_of decision idempotency_key)) (λ permit,
  or_return (prior_result idempotency_key) (λ _,
  parameters ← pure (parameters_of decision resolved_parameters);
  or_return (bind_patch permit parameters) (λ bound,
  let '(repo_path, target_path, postimage) := bound in
  match relative_to (ps_backup_directory (pa_store x)) repo_path with
  | Some _ => mret (authority_failure "repo patch authority state must be outside the target repository")
  | None =>
      or_return (guarded [TypeError; ValueError] "repo patch verification policy rejected: "
                   (commands ← pure (authorize_test_commands (pa_allowed x) (commands_of parameters));
                    mret (inl commands))) (λ commands,
      or_return (read_original permit target_path) (λ original,
      permit_id ← pure (permit_id_of permit);
      or_return (prepare permit_id repo_path target_path original) (λ _,
      or_return (claim permit decision permit_id idempotency_key parameters) (λ receipt,
      or_return (apply_patch permit permit_id target_path postimage) (λ _,
      or_return (verify_patch permit permit_id repo_path commands []) (λ test_results,
      commit permit receipt permit_id repo_path target_path test_results))))))
  end))).
End executor.
