(* ===== verification/PatchActuatorTheorems.v ===== *)
(** * What an execution of a repository patch does

    Whatever others do to the ledger and to the files between the steps: a
    target is only replaced after its permit was claimed, by the bytes of the
    permit, once; the test commands are allowed ones; an execution that claimed
    a permit and returns has concluded its transaction. *)

From S2P Require Import Prelude PyFloat PyValue Json Sha256 Paths JsonStore DateTime PermitLedger PermitLedgerFacts Permits PermitRecovery PermitFacts PermitTheorems PermitSafety HsaiBridge HsaiExamples PermitExamples.
From S2P Require Import RunMachine PatchActuator.
From stdpp Require Import gmap relations.
#[local] Open Scope nat_scope.

#[local] Opaque Sha256.sha256_hex Sha256.hmac_sha256_hex.

(** ** Definitions *)

(** Others keep to the state machine of the ledger; the files they may change. *)
Definition tame (t : tick world) : Prop := ∀ w, evolves (file_has (w_ledger w)) (file_has (w_ledger (tk_env t w))).
Definition honest (m : machine world patch_act) : Prop := Forall tame (m_ticks m).

Definition later (m m' : machine world patch_act) : Prop :=
  honest m → honest m' ∧ evolves (file_has (w_ledger (m_world m))) (file_has (w_ledger (m_world m'))).

(** Nothing claimed, replaced or run. *)
Definition quietly (m m' : machine world patch_act) : Prop := m_trace m' = m_trace m ∧ later m m'.

(** The trace goes on with [acts]. *)
Definition adds (acts : list patch_act) (m m' : machine world patch_act) : Prop := m_trace m' = m_trace m ++ acts ∧ later m m'.

Definition state_of (id : string) (m : machine world patch_act) (s : string) : Prop := file_has (w_ledger (m_world m)) (state_path id) s.

(** The permit has been claimed before. *)
Definition used (id : string) (m : machine world patch_act) : Prop := ∃ s, state_of id m s ∧ 2 ≤ rank s.

(** Failed, with the target restored or the root fenced. *)
Definition undone (permit : dict) (id : string) (r : dict) (m : machine world patch_act) : Prop :=
  dgetN "status" r = VStr "failed" ∧ (put_back permit id (m_world m) ∨ fenced_off permit id (m_world m)).

Definition concluded (permit : dict) (id : string) (r : dict) (m : machine world patch_act) : Prop :=
  dgetN "status" r = VStr "succeeded" ∧ state_of id m "committed" ∨ undone permit id r m.

(** Acts of an execution that claimed the permit [id]: no more, or the target
    replaced and some of the [commands] run, in order. *)
Inductive deeds (id : string) (target : path) (content : string) (commands : list (list string)) : list patch_act → Prop :=
  | deeds_claimed : deeds id target content commands [Claimed id]
  | deeds_replaced done rest : commands = done ++ rest →
      deeds id target content commands (Claimed id :: Replaced id target content :: map (Ran id) done).

(** The target and the bytes are those the permit was issued for. *)
Definition authorised (permit parameters : dict) (repo target : path) (content : string) : Prop :=
  (∃ fs preimage, repo_patch_target_binding fs parameters = Ok (repo, target, preimage)
     ∧ dgetN "target_preimage_digest" permit = VStr preimage)
  ∧ (∃ fs, repo_patch_postimage fs parameters target = Ok (content, bytes_digest content))
  ∧ dgetN "target_postimage_digest" permit = VStr (bytes_digest content).

(** The permit was claimed at some moment between [m] and [m']. *)
Definition claimed (x : executor) (permit decision : dict) (key : string) (parameters : dict) (m m' : machine world patch_act) : Prop :=
  ∃ f f' fs now now' receipt,
    consume (pa_store x) f fs permit decision key parameters (pa_failpoint x) now now' = (Ok receipt, f')
    ∧ (honest m → evolves (file_has (w_ledger (m_world m))) (file_has f)
                  ∧ evolves (file_has f') (file_has (w_ledger (m_world m')))).

(** How an execution from [m] to [m'] went. *)
Inductive execution (x : executor) (decision : dict) (key : string) (resolved : option dict)
    (m : machine world patch_act) (o : outcome dict) (m' : machine world patch_act) : Prop :=
  | execution_refused : quietly m m' → execution x decision key resolved m o m'
  | execution_claimed permit parameters id repo target content commands acts :
      permit_of decision key = Ok (inl permit) → dgetN "permit_id" permit = VStr id →
      parameters_of decision resolved = Ok parameters →
      authorised permit parameters repo target content →
      authorize_test_commands (pa_allowed x) (commands_of parameters) = Ok commands →
      claimed x permit decision key parameters m m' →
      m_trace m' = m_trace m ++ acts → deeds id target content commands acts →
      (∀ r, o = Done r → concluded permit id r m') →
      (∀ r, o = Done r → dgetN "status" r = VStr "succeeded" →
         acts = Claimed id :: Replaced id target content :: map (Ran id) commands) →
      (honest m → honest m') →
      execution x decision key resolved m o m'.

(** One execution after another, by any executors and for any decisions. *)
Record execution_call := ExecutionCall {
  ec_executor : executor; ec_decision : dict; ec_key : string; ec_parameters : option dict }.

Definition execute_call (c : execution_call) : PM dict :=
  execute_patch (ec_executor c) (ec_decision c) (ec_key c) (ec_parameters c).

Fixpoint executions (calls : list execution_call) (m : machine world patch_act) : machine world patch_act :=
  match calls with
  | [] => m
  | c :: calls => executions calls (execute_call c m).2
  end.

(** How often a permit was claimed, and its target replaced. *)
Definition is_claim (id : string) (a : patch_act) : bool := match a with Claimed i => String.eqb i id | _ => false end.
Definition is_replacement (id : string) (a : patch_act) : bool := match a with Replaced i _ _ => String.eqb i id | _ => false end.
Definition times (f : patch_act → bool) (acts : list patch_act) : nat := length (filter (λ a, f a = true) acts).

(** ** Steps *)

#[export] Instance later_preorder : PreOrder later.
Proof.
  split.
  - intros m H. split; [done|apply evolves_refl].
  - intros a b c H1 H2 H. destruct (H1 H) as [Hb E1]. destruct (H2 Hb) as [Hc E2]. split; [done|]. by eapply evolves_trans.
Qed.

#[export] Instance quietly_preorder : PreOrder quietly.
Proof. split; [by intros m|]. intros a b c [T1 L1] [T2 L2]. split; [congruence|by etrans]. Qed.

Lemma quietly_adds m m' : quietly m m' → adds [] m m'.
Proof. intros [T L]. split; [by rewrite app_nil_r|done]. Qed.

Lemma adds_quietly acts m m1 m2 : adds acts m m1 → quietly m1 m2 → adds acts m m2.
Proof. intros [T1 L1] [T2 L2]. split; [congruence|by etrans]. Qed.

Lemma quietly_adds_trans acts m m1 m2 : quietly m m1 → adds acts m1 m2 → adds acts m m2.
Proof. intros [T1 L1] [T2 L2]. split; [congruence|by etrans]. Qed.

Lemma adds_trans acts acts' m m1 m2 : adds acts m m1 → adds acts' m1 m2 → adds (acts ++ acts') m m2.
Proof. intros [T1 L1] [T2 L2]. split; [by rewrite T2, T1, app_assoc|by etrans]. Qed.

(** A step of ours that evolves the ledger. *)
Definition evolving {A} (f : tick world → world → res A * world) : Prop :=
  ∀ t w, evolves (file_has (w_ledger w)) (file_has (w_ledger (f t w).2)).

(** The state a step starts from, and the one it leaves. *)
Lemma wp_evolving {A} (f : tick world → world → res A * world) (m : machine world patch_act) Q :
  evolving f → (∀ m', quietly m m' → Q Unfinished m') →
  (∀ t w m', quietly m m' → m_world m' = (f t w).2 →
     (honest m → evolves (file_has (w_ledger (m_world m))) (file_has (w_ledger w))) →
     Q (match (f t w).1 with Ok a => Done a | Err e => Raised e end) m') → wp (step f) m Q.
Proof.
  intros Hf Hu Hs. apply wp_step; [intros _; by apply Hu|]. intros t ticks Et out.
  apply (Hs t (tk_env t (m_world m))); [|done|].
  - split; [done|]. intros Hm. unfold honest in Hm. rewrite Et in Hm. apply Forall_cons in Hm as [Ht Hts]. split; [done|].
    eapply evolves_trans; [apply Ht|apply Hf].
  - intros Hm. unfold honest in Hm. rewrite Et in Hm. by apply Forall_cons in Hm as [Ht _].
Qed.

Lemma step_quiet {A} (f : tick world → world → res A * world) : evolving f → Respects quietly (step f : PM A).
Proof. intros Hf m. by apply (wp_evolving f m (λ _ m', quietly m m')). Qed.

Lemma files_quiet {A} (f : filesystem → res A) : Respects quietly (files f).
Proof. apply step_quiet. intros t w. apply evolves_refl. Qed.

Lemma guarded_quiet {A} classes prefix (p : PM (A + dict)) : Respects quietly p → Respects quietly (guarded classes prefix p).
Proof. intros Hp. unfold guarded. apply respects_catch; [apply _|done|]. intros e. destruct (existsb _ _); apply _. Qed.

(** Follows the structure of a program, with the two lemmas. *)
Ltac quiet :=
  repeat (cbv beta zeta; lazymatch goal with
    | |- Respects _ (mbind _ _) => apply respects_bind; [apply _| |intros ?]
    | |- Respects _ (guarded _ _ _) => apply guarded_quiet
    | |- Respects _ (files _) => apply files_quiet
    | |- Respects _ (match ?x with _ => _ end) => destruct x
    | |- Respects _ _ => apply _
    end).

Section executor.
Context (x : executor).

Lemma transition_evolving id expected new details terminal :
  evolving (λ t w, let '(r, f) := record_transition (pa_store x) (w_ledger w) id expected new details terminal (pa_failpoint x) (pa_now x t) in
                   (r, set_ledger w f)).
Proof.
  intros t w. pose proof (record_transition_evolves (pa_store x) (w_ledger w) id expected new details terminal (pa_failpoint x) (pa_now x t)) as H.
  by destruct (record_transition _ _ _ _ _ _ _ _ _).
Qed.

#[export] Instance transition_quiet id expected new details terminal : Respects quietly (transition x id expected new details terminal).
Proof. apply step_quiet, transition_evolving. Qed.

#[export] Instance prior_result_quiet key : Respects quietly (prior_result x key).
Proof.
  unfold prior_result. apply guarded_quiet, respects_bind; [apply _| |intros found; destruct found; apply _].
  apply step_quiet. intros t w. pose proof (terminal_result_evolves (pa_store x) (w_ledger w) key) as H.
  by destruct (terminal_result_for_idempotency _ _ _).
Qed.

#[export] Instance bind_patch_quiet permit parameters : Respects quietly (bind_patch permit parameters).
Proof. unfold bind_patch. quiet. Qed.

#[export] Instance read_original_quiet permit target : Respects quietly (read_original permit target).
Proof. unfold read_original. quiet. Qed.

#[export] Instance prepare_quiet id repo target original : Respects quietly (prepare x id repo target original).
Proof.
  unfold prepare. apply guarded_quiet, respects_bind; [apply _| |intros _; quiet].
  apply step_quiet. intros t w. destruct (write_immutable_backup _ _ _ _). apply evolves_refl.
Qed.

Lemma wp_transition id expected new details terminal m :
  wp (transition x id expected new details terminal) m (λ o m', quietly m m' ∧ ∀ r, o = Done r → state_of id m' new).
Proof.
  apply wp_evolving; [apply transition_evolving|by intros m' Hq|]. intros t w m' Hq Hw _. split; [done|]. intros r.
  destruct (record_transition _ _ _ _ _ _ _ _ _) as [[rec|e] f] eqn:E; [|done]. intros _. cbn in Hw.
  unfold state_of. rewrite Hw. by apply record_transition_sets in E.
Qed.

Lemma wp_abort permit id expected reason tests m :
  mem_str expected MUTATION_STATES = true → dgetN "permit_id" permit = VStr id →
  wp (abort x permit expected reason tests) m (λ o m', quietly m m' ∧ ∀ r, o = Done r → undone permit id r m').
Proof.
  intros Hm Hid. apply wp_evolving; [intros t w; by apply abort_evolves|by intros m' Hq|].
  intros t w m' Hq Hw _. split; [done|]. intros r.
  destruct (abort_with_restoration _ _ _ _ _ _ _ _ _ _) as [[r'|e] w'] eqn:E; [|done]. intros [= ->]. cbn in Hw.
  unfold undone. rewrite Hw. split.
  - apply abort_returns in E as (id' & w1 & f & _ & _ & [(backup & details & record & _ & -> & _)|(e & Ef)]); [done|].
    by rewrite (fence_recovery_result _ _ _ _ _ _ _ _ _ _ Ef).
  - apply abort_settles in E as (id' & Hid' & H). rewrite Hid in Hid'. by injection Hid' as <-.
Qed.

(** A failed execution: the abort, as the end of a longer program. *)
Lemma wp_aborted {A} permit id expected reason tests m :
  mem_str expected MUTATION_STATES = true → dgetN "permit_id" permit = VStr id →
  wp (r ← abort x permit expected reason tests; mret (inr r) : PM (A + dict)) m
    (λ o m', quietly m m' ∧ match o with Done (inl _) => False | Done (inr r) => undone permit id r m' | _ => True end).
Proof.
  intros Hm Hid. apply wp_bind. eapply wp_mono; [by apply wp_abort|].
  intros [r|e|] m' [Hq Hr]; [|by split..]. cbn. split; [done|]. by apply Hr.
Qed.

(** The program has undone what it did, if it returns a result. *)
Definition undoes {A} (permit : dict) (id : string) (o : outcome (A + dict)) (m : machine world patch_act) : Prop :=
  match o with Done (inr r) => undone permit id r m | _ => True end.

Lemma wp_unchanged permit id target m :
  dgetN "permit_id" permit = VStr id →
  wp (unchanged x permit target) m (λ o m', quietly m m' ∧ undoes permit id o m').
Proof.
  intros Hid. unfold unchanged. apply wp_catch, (wp_after quietly); [quiet|..].
  - intros e m1 Hq. destruct (isinstance_exc _ _); [|by split].
    eapply wp_mono; [by apply wp_aborted|]. intros [[[]|r]|e'|] m2 [Hq' H]; (split; [by etrans|done]).
  - intros m1 Hq. by split.
  - intros same m1 Hq. destruct (same : bool); [by apply wp_ret|].
    eapply wp_mono; [by apply wp_aborted|]. intros [[[]|r]|e|] m2 [Hq' H]; try (split; [by etrans|done]).
    destruct (isinstance_exc _ _); [|split; [by etrans|done]].
    eapply wp_mono; [by apply wp_aborted|]. intros [[[]|r]|e'|] m3 [Hq3 H3]; (split; [by do 2 etrans|done]).
Qed.

Lemma adds_emit (e : patch_act) m : adds [e] m (Machine (m_world m) (m_trace m ++ [e]) (m_ticks m)).
Proof. split; [done|]. intros Hm. split; [done|apply evolves_refl]. Qed.

(** Either nothing is replaced, or the target is, and only then the program goes on. *)
Definition replaces {A} (permit : dict) (id : string) (target : path) (content : string) (m : machine world patch_act)
    (o : outcome (A + dict)) (m' : machine world patch_act) : Prop :=
  (adds [] m m' ∧ (∀ a, o ≠ Done (inl a)) ∨ adds [Replaced id target content] m m') ∧ undoes permit id o m'.

Lemma wp_replace permit id target post m :
  dgetN "permit_id" permit = VStr id → wp (replace_target x permit id target post) m (replaces permit id target post m).
Proof.
  intros Hid. unfold replace_target. apply (wp_after quietly).
  - apply step_quiet. intros t w. destruct (atomic_replace_bytes _ _ _ _); [|destruct (isinstance_exc _ _)]; apply evolves_refl.
  - intros e m1 Hq. split; [left; split; [by apply quietly_adds|done]|done].
  - intros m1 Hq. split; [left; split; [by apply quietly_adds|done]|done].
  - intros [e|] m1 Hq.
    + eapply wp_mono; [by apply wp_aborted|].
      intros [[[]|r]|e'|] m2 [Hq' H]; (split; [left; split; [apply quietly_adds; by etrans|done]|done]).
    + apply wp_bind, wp_emit, wp_ret. split; [|done]. right. eapply quietly_adds_trans; [done|apply adds_emit].
Qed.

Lemma replaces_quietly {A B} permit id target content m m1 m2 (o : outcome (A + dict)) (o' : outcome (B + dict)) :
  quietly m m1 → replaces permit id target content m1 o m2 → undoes permit id o' m2 → (∀ b, o' = Done (inl b) → ∃ a, o = Done (inl a)) →
  replaces permit id target content m o' m2.
Proof.
  intros Hq [H _] Ho Hdone. split; [|done]. destruct H as [[H Hn]|H]; [left|right]; [|by eapply quietly_adds_trans].
  split; [by eapply quietly_adds_trans|]. intros b [a Ha]%Hdone. by apply (Hn a).
Qed.

Lemma wp_apply permit id target post m :
  dgetN "permit_id" permit = VStr id → wp (apply_patch x permit id target post) m (replaces permit id target post m).
Proof.
  intros Hid. unfold apply_patch.
  assert (∀ (o : outcome (unit + dict)) m1, quietly m m1 → undoes permit id o m1 → (∀ a, o ≠ Done (inl a)) → replaces permit id target post m o m1) as Hnone
    by (intros o m1 Hq Hu Hn; split; [left; split; [by apply quietly_adds|done]|done]).
  apply (wp_after quietly); [apply _|intros; by apply Hnone|intros; by apply Hnone|]. intros _ m1 Hq1.
  apply wp_bind. eapply wp_mono; [by apply wp_unchanged|].
  intros [[[]|r]|e|] m2 [Hq2 Hu2]; cbn; try (apply Hnone; [by etrans|done|done]).
  assert (quietly m m2) as Hq by by etrans. clear Hq1 Hq2 Hu2 m1.
  apply wp_bind. eapply wp_mono; [by apply wp_replace|].
  intros [[[]|r]|e|] m3 Hr; cbn; try (eapply replaces_quietly; [done|exact Hr|apply Hr|by intros []]).
  destruct Hr as [[[_ Hn]|Hr] _]; [by destruct (Hn ())|].
  assert (∀ (o : outcome (unit + dict)) m4, quietly m3 m4 → undoes permit id o m4 → replaces permit id target post m o m4) as Hdone.
  { intros o m4 Hq4 Hu. split; [|done]. right. eapply quietly_adds_trans; [done|]. by eapply adds_quietly. }
  apply (wp_after quietly); [apply _|intros; by apply Hdone|intros; by apply Hdone|]. intros _ m4 Hq4.
  apply (wp_after quietly); [quiet|intros; apply Hdone; [by etrans|done]..|]. intros same m5 Hq5.
  destruct (same : bool).
  - apply (wp_after quietly); [apply _|intros; apply Hdone; [by do 2 etrans|done]..|]. intros _ m6 Hq6.
    apply wp_ret, Hdone; [by do 2 etrans|done].
  - eapply wp_mono; [by apply wp_aborted|]. intros [[[]|r]|e|] m6 [Hq6 Hu6]; (apply Hdone; [by do 2 etrans|done]).
Qed.

Lemma wp_verify permit id repo commands m :
  dgetN "permit_id" permit = VStr id → ∀ results,
  wp (verify_patch x permit id repo commands results) m (λ o m',
    ∃ done rest, commands = done ++ rest ∧ adds (map (Ran id) done) m m' ∧ undoes permit id o m'
      ∧ (∀ l, o = Done (inl l) → rest = [])).
Proof.
  intros Hid. revert m. induction commands as [|c commands IH]; intros m results.
  { apply wp_ret. exists [], []. split; [done|]. split; [by apply quietly_adds|done]. }
  cbn [verify_patch]. apply wp_bind, wp_emit. pose proof (adds_emit (Ran id c) m) as H1.
  set (m1 := Machine _ _ _) in *. clearbody m1.
  assert (∀ (o : outcome (list value + dict)) m2, quietly m1 m2 → undoes permit id o m2 → (∀ l, o ≠ Done (inl l)) →
    ∃ done rest, c :: commands = done ++ rest ∧ adds (map (Ran id) done) m m2 ∧ undoes permit id o m2
      ∧ (∀ l, o = Done (inl l) → rest = [])) as Hstop.
  { intros o m2 Hq Hu Hn. exists [c], commands. split; [done|]. split; [by eapply adds_quietly|]. split; [done|].
    intros l Hl. by destruct (Hn l). }
  apply (wp_after quietly).
  - apply step_quiet. intros t w. destruct (pa_run x c repo t) as [|[|]]; apply evolves_refl.
  - intros e m2 Hq. by apply Hstop.
  - intros m2 Hq. by apply Hstop.
  - intros ran m2 Hq. cbv zeta. destruct ran as [message|cp].
    + eapply wp_mono; [by apply wp_aborted|]. intros [[l|r]|e|] m3 [Hq' Hu]; (done || (apply Hstop; [by etrans|done|done])).
    + destruct (cp_returncode cp =? 0)%Z.
      * eapply wp_mono; [by apply IH|]. intros o m3 (ran & rest & -> & Ha & Hu & Hr).
        exists (c :: ran), rest. split; [done|]. split; [|done]. eapply (adds_trans [Ran id c]); [exact H1|].
        by eapply quietly_adds_trans.
      * eapply wp_mono; [by apply wp_aborted|]. intros [[l|r]|e|] m3 [Hq' Hu]; (done || (apply Hstop; [by etrans|done|done])).
Qed.

Lemma wp_commit permit receipt id repo target tests m :
  dgetN "permit_id" permit = VStr id →
  wp (commit x permit receipt id repo target tests) m (λ o m', quietly m m' ∧ ∀ r, o = Done r → concluded permit id r m').
Proof.
  intros Hid. unfold commit. apply (wp_after quietly); [|by intros|by intros|].
  { apply step_quiet. intros t w. destruct (target_is _ _ _ _); [|destruct (isinstance_exc _ _)]; apply evolves_refl. }
  intros verified m1 Hq1. destruct (negb verified).
  - eapply wp_mono; [by apply wp_abort|]. intros o m2 [Hq2 Hu]. split; [by etrans|]. intros r Hr. right. by apply Hu.
  - apply (wp_after quietly); [apply _|intros e m2 Hq2; split; [by etrans|done]|intros m2 Hq2; split; [by etrans|done]|].
    intros file m2 Hq2. apply (wp_after quietly); [quiet|intros e m3 Hq3; split; [by do 2 etrans|done]|intros m3 Hq3; split; [by do 2 etrans|done]|].
    intros digest m3 Hq3. cbv zeta. apply wp_bind. eapply wp_mono; [apply wp_transition|].
    intros [rec|e|] m4 [Hq4 Hs]; (split; [by do 3 etrans|]); [|done..]. intros r [= <-]. left. split; [done|]. by eapply Hs.
Qed.

Lemma consume_evolving permit decision key parameters :
  evolving (λ t w, let '(r, f) := consume (pa_store x) (w_ledger w) (w_fs w) permit decision key parameters (pa_failpoint x)
                                    (pa_now x t) (pa_later x t) in (r, set_ledger w f)).
Proof.
  intros t w. pose proof (consume_evolves (pa_store x) (w_ledger w) (w_fs w) permit decision key parameters (pa_failpoint x)
    (pa_now x t) (pa_later x t)) as H. by destruct (consume _ _ _ _ _ _ _ _ _ _).
Qed.

Lemma wp_claim permit decision id key parameters m :
  wp (claim x permit decision id key parameters) m (λ o m',
    match o with
    | Done (inl _) => adds [Claimed id] m m' ∧ claimed x permit decision key parameters m m'
    | _ => quietly m m'
    end).
Proof.
  unfold claim, guarded. apply wp_catch, wp_bind, wp_evolving; [apply consume_evolving|by intros m1 Hq|].
  intros t w m1 Hq Hw Hbefore.
  destruct (consume _ _ _ _ _ _ _ _ _ _) as [[receipt|e] f'] eqn:E; cbn [fst snd] in *.
  - apply wp_bind, wp_emit, wp_ret. split; [eapply quietly_adds_trans; [done|apply adds_emit]|].
    exists (w_ledger w), f', (w_fs w), (pa_now x t), (pa_later x t), receipt. split; [done|]. intros Hm.
    split; [by apply Hbefore|]. cbn [m_world]. rewrite Hw. apply evolves_refl.
  - cbn [stops]. by destruct (existsb _ restoration_errors).
Qed.

(** ** Executions *)

Lemma guarded_Done {A} classes prefix (p : PM (A + dict)) m a m' :
  guarded classes prefix p m = (Done (inl a), m') → p m = (Done (inl a), m').
Proof.
  unfold guarded. intros [H|(e & m1 & _ & H)]%catch_Done; [done|]. by destruct (existsb _ classes).
Qed.

Lemma files_Done {A} (f : filesystem → res A) m a m' : files f m = (Done a, m') → ∃ fs, f fs = Ok a.
Proof. intros (t & w & H & _)%step_Done. by exists (w_fs w). Qed.

Lemma py_eq_dgetN k permit s : negb (py_eq (dgetN k permit) (VStr s)) = false → dgetN k permit = VStr s.
Proof. intros H%negb_false_iff. by apply py_eq_str. Qed.

Lemma bind_patch_authorised permit parameters m repo target content m' :
  bind_patch permit parameters m = (Done (inl (repo, target, content)), m') → authorised permit parameters repo target content.
Proof.
  unfold bind_patch. intros H%guarded_Done. apply bind_Done in H as ([[repo' target'] preimage] & m1 & (fs & Hb)%files_Done & H).
  destruct (negb _) eqn:E1 in H; [done|]. apply py_eq_dgetN in E1.
  apply bind_Done in H as ([post digest] & m2 & (fs2 & Hp)%files_Done & H).
  destruct (negb _) eqn:E2 in H; [done|]. apply py_eq_dgetN in E2. injection H as -> -> -> _.
  pose proof (postimage_digest _ _ _ _ _ Hp) as ->. split; [by exists fs, preimage|]. split; [by exists fs2|done].
Qed.

Lemma permit_id_of_Ok permit id : permit_id_of permit = Ok id → dgetN "permit_id" permit = VStr id.
Proof.
  unfold permit_id_of. intros H. apply res_bind_Ok in H as (v & Hv%ditem_dgetN & H). destruct v; congruence || done.
Qed.

Lemma claimed_adds permit decision key parameters m m1 m2 :
  claimed x permit decision key parameters m m1 → later m m1 → later m1 m2 → claimed x permit decision key parameters m m2.
Proof.
  intros (f & f' & fs & now & now' & receipt & Hc & He) L1 L2. exists f, f', fs, now, now', receipt. split; [done|].
  intros Hm. destruct (He Hm) as [E1 E2]. split; [done|]. eapply evolves_trans; [exact E2|]. by apply L2, L1.
Qed.

Section execution.
Context (decision : dict) (key : string) (resolved : option dict).

(** A program that comes before the claim. *)
Lemma wp_before {A} m0 m (p : PM (A + dict)) (k : A → PM dict) :
  quietly m0 m → Respects quietly p →
  (∀ a m', p m = (Done (inl a), m') → quietly m0 m' → wp (k a) m' (execution x decision key resolved m0)) →
  wp (or_return p k) m (execution x decision key resolved m0).
Proof.
  intros Hq Hp Hk. unfold or_return. apply wp_bind. unfold wp at 1. specialize (Hp m). specialize (Hk).
  destruct (p m) as [[[a|r]|e|] m'] eqn:E; cbn in Hp |- *; [|apply execution_refused; by etrans..].
  apply Hk; [done|by etrans].
Qed.

(** A computation that comes before the claim. *)
Lemma wp_compute {A} m0 m (r : res A) (f : A → PM dict) :
  quietly m0 m → (∀ a, r = Ok a → wp (f a) m (execution x decision key resolved m0)) →
  wp (pure r ≫= f) m (execution x decision key resolved m0).
Proof. intros Hq H. apply wp_bind. destruct r as [a|e]; [by apply H|by apply execution_refused]. Qed.

Lemma wp_carry_out permit parameters id repo target content commands receipt m m1 :
  permit_of decision key = Ok (inl permit) → dgetN "permit_id" permit = VStr id →
  parameters_of decision resolved = Ok parameters → authorised permit parameters repo target content →
  authorize_test_commands (pa_allowed x) (commands_of parameters) = Ok commands →
  claimed x permit decision key parameters m m1 → adds [Claimed id] m m1 →
  wp (or_return (apply_patch x permit id target content) (λ _,
      or_return (verify_patch x permit id repo commands []) (λ test_results,
      commit x permit receipt id repo target test_results))) m1 (execution x decision key resolved m).
Proof.
  intros Hperm Hid Hpar Haut Hcmd Hcl Hadd.
  assert (∀ (o : outcome dict) acts m2, adds acts m1 m2 → deeds id target content commands (Claimed id :: acts) →
    (∀ r, o = Done r → concluded permit id r m2) →
    (∀ r, o = Done r → dgetN "status" r = VStr "succeeded" → acts = Replaced id target content :: map (Ran id) commands) →
    execution x decision key resolved m o m2) as Hend.
  { intros o acts m2 Ha Hd He Hs. destruct (adds_trans _ _ _ _ _ Hadd Ha) as [Htr Hlater].
    eapply execution_claimed; try done; [eapply claimed_adds; [done|apply Hadd|apply Ha]| |intros Hm; by apply Hlater].
    intros r Hr Hst. by rewrite (Hs r Hr Hst). }
  assert (∀ (o : outcome dict) acts m2, adds acts m1 m2 → deeds id target content commands (Claimed id :: acts) →
    (∀ r, o = Done r → undone permit id r m2) → execution x decision key resolved m o m2) as Hfail.
  { intros o acts m2 Ha Hd Hu. apply (Hend o acts); [done|done|intros r Hr; right; by apply Hu|].
    intros r Hr Hst. destruct (Hu r Hr) as [Hf _]. congruence. }
  unfold or_return. apply wp_bind. eapply wp_mono; [by apply wp_apply|]. intros o m2 [Hr Hu].
  assert (∃ acts, adds acts m1 m2 ∧ deeds id target content commands (Claimed id :: acts)) as (acts & Ha & Hd).
  { destruct Hr as [[Ha _]|Ha]; eexists; (split; [exact Ha|]); [constructor|].
    by apply (deeds_replaced id target content commands [] commands). }
  destruct o as [[[]|r]|e|]; cbn; [|by apply (Hfail _ acts); [..|intros ? [= <-]]|by apply (Hfail _ acts)..].
  clear acts Ha Hd.
  destruct Hr as [[_ Hn]|Ha]; [by destruct (Hn ())|].
  apply wp_bind. eapply wp_mono; [by apply wp_verify|]. intros o m3 (done & rest & Hsplit & Hran & Hu3 & Hall).
  pose proof (adds_trans _ _ _ _ _ Ha Hran) as Ha3. cbn [app] in Ha3.
  pose proof (deeds_replaced id target content commands done rest Hsplit) as Hd.
  destruct o as [[l|r]|e|]; cbn; [|by eapply Hfail; [exact Ha3|exact Hd|intros ? [= <-]]|by eapply Hfail; [exact Ha3|exact Hd|]..].
  rewrite (Hall l eq_refl), app_nil_r in Hsplit. subst done. eapply wp_mono; [by apply wp_commit|].
  intros o m4 [Hq He]. eapply Hend; [by eapply adds_quietly|exact Hd|exact He|done].
Qed.

(** Every execution is refused before it claims, or goes on as planned. *)
Lemma wp_execute m : wp (execute_patch x decision key resolved) m (execution x decision key resolved m).
Proof.
  unfold execute_patch. apply wp_before; [done|apply _|]. intros permit m1 [Hperm ->]%pure_Done Hq1.
  apply wp_before; [done|apply _|]. intros [] m2 _ Hq2.
  apply wp_compute; [done|]. intros parameters Hpar.
  apply wp_before; [done|apply _|]. intros [[repo target] content] m3 Hbound%bind_patch_authorised Hq3.
  destruct (relative_to _ _); [apply wp_ret; by apply execution_refused|].
  apply wp_before; [done|apply guarded_quiet; quiet|]. intros commands m4 Hcmd Hq4.
  apply guarded_Done, bind_Done in Hcmd as (c & ? & [Hcmd _]%pure_Done & [= -> _]).
  apply wp_before; [done|apply _|]. intros original m5 _ Hq5.
  apply wp_compute; [done|]. intros id Hid%permit_id_of_Ok.
  apply wp_before; [done|apply _|]. intros [] m6 _ Hq6.
  unfold or_return at 1. apply wp_bind. eapply wp_mono; [apply wp_claim|].
  intros [[receipt|r]|e|] m7; cbn; [|intros Hq7; apply execution_refused; by etrans..].
  intros [Hadd Hcl]. apply (wp_carry_out permit parameters _ _ _ _ commands); try done; [|by eapply quietly_adds_trans].
  destruct Hcl as (f & f' & fs & now & now' & r & Hc & He). exists f, f', fs, now, now', r. split; [done|].
  intros Hm. destruct Hq6 as [_ L]. destruct (L Hm) as [Hm6 E0]. destruct (He Hm6) as [E1 E2].
  split; [by eapply evolves_trans|done].
Qed.
End execution.
End executor.

(** ** What is done *)

Lemma authorized_allowed allowed v commands :
  authorize_test_commands allowed v = Ok commands → Forall (λ c, c ∈ allowed) commands.
Proof.
  unfold authorize_test_commands. destruct v; try done. intros H. res_inv H.
  eapply res_map_Forall; [|eassumption]. intros command c Hc. unfold authorize_command in Hc. res_inv Hc.
  match goal with Hb : negb (bool_decide (_ ∈ _)) = false |- _ => apply negb_false_iff, bool_decide_eq_true in Hb; done end.
Qed.

(** C7: an execution does nothing, or it first claims the permit of its
    decision, then replaces at most one target, the one bound by the permit's
    digests, by exactly the bytes the permit names, and then runs, in order, the
    first of the test commands of its parameters, which are all allowed. *)
Theorem patched_as_authorised x decision key resolved m :
  ∃ acts, m_trace (execute_patch x decision key resolved m).2 = m_trace m ++ acts
    ∧ (acts = []
       ∨ ∃ permit parameters id repo target content commands f f' fs now now' receipt,
           permit_of decision key = Ok (inl permit) ∧ dgetN "permit_id" permit = VStr id
           ∧ parameters_of decision resolved = Ok parameters
           ∧ consume (pa_store x) f fs permit decision key parameters (pa_failpoint x) now now' = (Ok receipt, f')
           ∧ authorised permit parameters repo target content
           ∧ authorize_test_commands (pa_allowed x) (commands_of parameters) = Ok commands
           ∧ Forall (λ c, c ∈ pa_allowed x) commands
           ∧ deeds id target content commands acts).
Proof.
  destruct (wp_execute x decision key resolved m) as [[Htr _]|permit parameters id repo target content commands acts
    Hperm Hid Hpar Haut Hcmd (f & f' & fs & now & now' & receipt & Hc & _) Htr Hd _ _ _].
  - exists []. rewrite app_nil_r. split; [done|by left].
  - exists acts. split; [done|]. right. exists permit, parameters, id, repo, target, content, commands, f, f', fs, now, now', receipt.
    do 6 (split; [done|]). split; [by eapply authorized_allowed|done].
Qed.

Lemma deeds_times id target content commands acts id' :
  deeds id target content commands acts →
  times (is_replacement id') acts ≤ times (is_claim id') acts ≤ 1 ∧ (id' ≠ id → times (is_claim id') acts = 0)
  ∧ (∀ a, Claimed a ∈ acts → a = id).
Proof.
  assert (∀ f done, (∀ c, f (Ran id c) = false) → times f (map (Ran id) done) = 0) as Hran.
  { intros f done Hf. unfold times. induction done as [|c done IH]; [done|]. cbn [map].
    rewrite filter_cons_False; [done|by rewrite Hf]. }
  assert (∀ f a l, times f (a :: l) = (if f a then 1 else 0) + times f l) as Hcons.
  { intros f a l. unfold times. rewrite filter_cons. destruct (f a); by case_decide. }
  intros [|ran rest _].
  - rewrite !Hcons. cbn [is_claim is_replacement times filter]. destruct (String.eqb_spec id id') as [->|Hne];
      (split; [cbn; lia|split; [|by intros a [[= ->]|[]%elem_of_nil]%elem_of_cons]]); [done|].
    intros _. cbn. done.
  - rewrite !Hcons, !Hran by done. cbn [is_claim is_replacement]. split; [destruct (String.eqb id id'); lia|]. split.
    + intros Hne. destruct (String.eqb_spec id id'); [by subst|done].
    + intros a [[= ->]|[[=]|(c & [=] & _)%list_elem_of_fmap]%elem_of_cons]%elem_of_cons. done.
Qed.

Lemma claimed_used x permit decision key parameters m m' id :
  claimed x permit decision key parameters m m' → dgetN "permit_id" permit = VStr id → honest m → ¬ used id m ∧ used id m'.
Proof.
  intros (f & f' & fs & now & now' & receipt & Hc & He) Hid Hm. destruct (He Hm) as [E1 E2].
  destruct (consume_state _ _ _ _ _ _ _ _ _ _ _ _ _ Hc Hid) as [Hbefore Hafter]. split.
  - intros (s & Hs & Hr). destruct (ev_state _ _ E1 _ _ Hs) as (s' & Hs' & R).
    rewrite (file_has_unique _ _ _ _ Hs' Hbefore) in R. apply steps_rank in R. change (rank "prepared") with 1 in R. lia.
  - destruct (ev_state _ _ E2 _ _ Hafter) as (s' & Hs' & R). exists s'. split; [done|].
    apply steps_rank in R. exact R.
Qed.

Lemma times_app f l k : times f (l ++ k) = times f l + times f k.
Proof. unfold times. by rewrite filter_app, length_app. Qed.

(** An execution claims a permit that was not used before, and uses it. *)
Lemma execution_once x decision key resolved m o m' id :
  execution x decision key resolved m o m' → honest m →
  honest m' ∧ ∃ acts, m_trace m' = m_trace m ++ acts ∧ times (is_replacement id) acts ≤ times (is_claim id) acts ≤ 1
    ∧ (used id m → used id m' ∧ times (is_claim id) acts = 0) ∧ (times (is_claim id) acts = 0 ∨ used id m').
Proof.
  intros [[Htr L]|permit parameters id' repo target content commands acts _ Hid _ _ _ Hcl Htr Hd _ _ Hh] Hm.
  - destruct (L Hm) as [Hm' E]. split; [done|]. exists []. rewrite app_nil_r. do 2 (split; [done || (cbn; lia)|]).
    split; [|by left]. intros (s & Hs & Hr). split; [|done]. destruct (ev_state _ _ E _ _ Hs) as (s' & Hs' & R).
    exists s'. split; [done|]. apply steps_rank in R. lia.
  - split; [by apply Hh|]. exists acts. split; [done|]. destruct (deeds_times _ _ _ _ _ id Hd) as (Hle & Hne & _). split; [done|].
    destruct (claimed_used _ _ _ _ _ _ _ _ Hcl Hid Hm) as [Hno Hyes]. destruct (decide (id = id')) as [->|Hdiff].
    + split; [by intros Hu|by right].
    + split; [|by left; apply Hne]. intros (s & Hs & Hr). split; [|by apply Hne].
      destruct Hcl as (f & f' & fs & now & now' & receipt & Hc & He). destruct (He Hm) as [E1 E2].
      pose proof (consume_evolves (pa_store x) f fs permit decision key parameters (pa_failpoint x) now now') as E. rewrite Hc in E.
      destruct (ev_state _ _ (evolves_trans _ _ _ E1 (evolves_trans _ _ _ E E2)) _ _ Hs) as (s' & Hs' & R).
      exists s'. split; [done|]. apply steps_rank in R. lia.
Qed.

Lemma executions_once id calls : ∀ m, honest m →
  ∃ acts, m_trace (executions calls m) = m_trace m ++ acts ∧ times (is_replacement id) acts ≤ times (is_claim id) acts ≤ 1
    ∧ (used id m → times (is_claim id) acts = 0).
Proof.
  induction calls as [|c calls IH]; intros m Hm; cbn [executions].
  { exists []. rewrite app_nil_r. cbn. auto with lia. }
  destruct (execution_once _ _ _ _ _ _ _ id (wp_execute (ec_executor c) (ec_decision c) (ec_key c) (ec_parameters c) m) Hm)
    as (Hm1 & acts & Htr & Hle & Hused & Hor).
  destruct (IH (execute_call c m).2 Hm1) as (acts' & Htr' & Hle' & Hused'). exists (acts ++ acts').
  split; [rewrite Htr', app_assoc; f_equal; exact Htr|]. rewrite !times_app. split.
  - destruct Hor as [Hz|Hu]; [|specialize (Hused' Hu)]; lia.
  - intros Hu. destruct (Hused Hu) as [Hu1 Hz]. specialize (Hused' Hu1). lia.
Qed.

(** C8: over any number of executions, by any executors, and with others working
    on the files as they like and on the ledger within its state machine (states
    move along the table of transitions, and what is recorded stays) between any
    two steps, a permit is claimed at most once and its target is replaced at most
    once, never without a claim. *)
Theorem patch_written_once calls m id :
  honest m → m_trace m = [] →
  let acts := m_trace (executions calls m) in
  times (is_replacement id) acts ≤ times (is_claim id) acts ≤ 1.
Proof.
  intros Hm Hnil. destruct (executions_once id calls m Hm) as (acts & Htr & Hle & _). rewrite Htr, Hnil. exact Hle.
Qed.

(** ** How it ends *)

Lemma nothing_added {A} (l acts : list A) : l = l ++ acts → acts = [].
Proof. rewrite <- (app_nil_r l) at 1. by intros <-%app_inv_head. Qed.

(** C9: an execution that claims a permit and returns has concluded its
    transaction: it reports success, the ledger says committed, and the target
    was replaced and every test command run; or it reports a failure, and the
    ledger says aborted with the target of the permit back at the bytes the
    permit was issued for, or it says that recovery is needed with the root of
    the permit fenced. *)
Theorem claimed_patch_settles x decision key resolved m r m' acts id :
  execute_patch x decision key resolved m = (Done r, m') → m_trace m' = m_trace m ++ acts → Claimed id ∈ acts →
  ∃ permit parameters, permit_of decision key = Ok (inl permit) ∧ dgetN "permit_id" permit = VStr id
    ∧ parameters_of decision resolved = Ok parameters
    ∧ ((dgetN "status" r = VStr "succeeded" ∧ state_of id m' "committed"
        ∧ ∃ target content commands, authorize_test_commands (pa_allowed x) (commands_of parameters) = Ok commands
            ∧ acts = Claimed id :: Replaced id target content :: map (Ran id) commands)
       ∨ dgetN "status" r = VStr "failed" ∧ (put_back permit id (m_world m') ∨ fenced_off permit id (m_world m'))).
Proof.
  intros H Htr Hin. pose proof (wp_execute x decision key resolved m) as He. unfold wp in He. rewrite H in He. cbn [fst snd] in He.
  destruct He as [[Htr' _]|permit parameters id' repo target content commands acts' Hperm Hpid Hpar _ Hcmd _ Htr' Hd Hend Hall _].
  { rewrite Htr' in Htr. by rewrite (nothing_added _ _ Htr), elem_of_nil in Hin. }
  rewrite Htr' in Htr. apply app_inv_head in Htr as ->. destruct (deeds_times _ _ _ _ _ id Hd) as (_ & _ & Hid).
  apply Hid in Hin as <-. exists permit, parameters. do 3 (split; [done|]). destruct (Hend r eq_refl) as [[Hst Hs]|Hu]; [left|by right].
  do 2 (split; [done|]). exists target, content, commands. split; [done|]. by apply (Hall r).
Qed.

(** Where the state machine leads. *)
Lemma step_target s t : PermitLedgerFacts.step s t → t ∈ MUTATION_STATES ++ TERMINAL_STATES.
Proof.
  unfold PermitLedgerFacts.step, transition_allowed, mem_str. intros H. apply existsb_exists in H as (t' & Ht & <-%String.eqb_eq).
  apply list_elem_of_In, allowed_from_In in Ht as (ts & Hs & Ht). unfold ALLOWED_TRANSITIONS in Hs.
  repeat (apply elem_of_cons in Hs as [[= -> ->]|Hs];
    [repeat (apply elem_of_cons in Ht as [->|Ht]; [apply list_elem_of_In; cbn; tauto|]); by apply elem_of_nil in Ht|]).
  by apply elem_of_nil in Hs.
Qed.

Lemma steps_target s t : rtc PermitLedgerFacts.step s t → s ∈ MUTATION_STATES ++ TERMINAL_STATES → t ∈ MUTATION_STATES ++ TERMINAL_STATES.
Proof. induction 1 as [|s t u H _ IH]; [done|]. intros _. by eapply IH, step_target. Qed.

(** C10: wherever an execution that claimed a permit is interrupted, and
    whatever others do to the ledger within its state machine until then, a
    recovery that returns leaves the permit in a terminal state. *)
Theorem interrupted_patch_recovered x decision key resolved m acts id w store failpoint disk clock entries w' :
  let m' := (execute_patch x decision key resolved m).2 in
  honest m → m_trace m' = m_trace m ++ acts → Claimed id ∈ acts →
  evolves (file_has (w_ledger (m_world m'))) (file_has (w_ledger w)) →
  recover_incomplete_actions store failpoint disk clock w = (Ok entries, w') →
  ∃ s, s ∈ TERMINAL_STATES ∧ file_has (w_ledger w') (state_path id) s.
Proof.
  intros m' Hm Htr Hin E H. pose proof (wp_execute x decision key resolved m) as He. unfold wp in He. subst m'.
  destruct (execute_patch x decision key resolved m) as [o m']. cbn [fst snd] in *.
  destruct He as [[Htr' _]|permit parameters id' repo target content commands acts' _ Hid _ _ _ (f & f' & fs & now & now' & receipt & Hc & Hev) Htr' Hd _ _ _].
  { rewrite Htr' in Htr. by rewrite (nothing_added _ _ Htr), elem_of_nil in Hin. }
  rewrite Htr' in Htr. apply app_inv_head in Htr as ->. destruct (deeds_times _ _ _ _ _ id Hd) as (_ & _ & Hids).
  apply Hids in Hin as <-. destruct (Hev Hm) as [_ E2].
  destruct (consume_state _ _ _ _ _ _ _ _ _ _ _ _ _ Hc Hid) as [_ Hclaimed].
  destruct (ev_state _ _ (evolves_trans _ _ _ E2 E) _ _ Hclaimed) as (s & Hs & R).
  apply steps_target in R; [|by apply list_elem_of_In; cbn; tauto].
  destruct (recovery_moves _ _ _ _ _ _ _ _ _ H Hs) as (s' & Hs' & R' & Hset). exists s'. split; [|done].
  apply elem_of_app in R as [Hmut|Hterm].
  - destruct Hset as [-> | ->]; [|apply list_elem_of_In; cbn; tauto..].
    unfold mem_str. apply existsb_exists. exists s. split; [by apply list_elem_of_In|by apply String.eqb_refl].
  - apply steps_stuck in R'; [by subst|]. unfold TERMINAL_STATES in Hterm.
    by repeat (apply elem_of_cons in Hterm as [->|Hterm]; [reflexivity|]); apply elem_of_nil in Hterm.
Qed.

(** ** A worked patch *)

Definition gate_check (gate decision evaluation : dict) : res unit := validate_bridge_gate gate (Some decision) (Some evaluation) true.

Definition patch_key : string := "decision-1:investigate_and_patch".

(** The gate of a decision, its permit with the ledger, and the decision that
    carries it. *)
Definition admission_of (decision : dict) : res dict :=
  request ← build_hsai_admission_request_v2 decision patch_evaluation patch_receipt "t0";
  answer ← local_hsai_allow_decision request "t1" None;
  evaluate_hsai_gate request (Ok (VDict answer)) true "t2" "t3".

Definition permit_for (decision gate : dict) (fs : filesystem) : res dict * file :=
  issue gate_check demo_store no_file fs decision patch_evaluation gate patch_key 300 "permit_1" demo_nonce demo_now.

Definition carrying (decision gate : dict) (permit : res dict) : dict :=
  ok_or_nil (p ← permit; attach_hsai_execution_context decision gate (Some p)).

Definition demo_executor : executor :=
  Executor demo_store [["pytest"; "-q"]] (λ _, Ok ()) (λ _, demo_now) (λ _, demo_now) (λ _, DiskOk)
    (λ _ _ _, inr (Ok (Completed 0 "1 passed" ""))).

Definition tick_of (env : world → world) : tick world := Tick env "t" "t" "t" "0" (SpecFloat.S754_zero false).

(** The repository, and the executor with [n] steps to come and nobody else. *)
Definition patch_fs : filesystem :=
  Filesystem (<[["repo"] := NDir]> (<[["state"] := NDir]> (<[["repo"; "app.py"] := NFile "x = 1"]> ∅))) [].

Definition patch_permit : res dict * file := Eval vm_compute in permit_for patch_decision patch_gate_v2 patch_fs.
Definition bound_decision : dict := Eval vm_compute in carrying patch_decision patch_gate_v2 patch_permit.1.

Definition alone (n : nat) : machine world patch_act := Machine (World patch_permit.2 patch_fs) [] (repeat (tick_of id) n).

Lemma alone_honest n : honest (alone n).
Proof. apply Forall_forall. intros t Ht. apply list_elem_of_In, repeat_spec in Ht. subst t. intros w. apply evolves_refl. Qed.

Definition app_py : path := Path "/" ["repo"; "app.py"].

Definition patch_acts : list patch_act := [Claimed "permit_1"; Replaced "permit_1" app_py "x = 2"; Ran "permit_1" ["pytest"; "-q"]].

Example patch_carried_out :
  let out := execute_patch demo_executor bound_decision patch_key None (alone 22) in
  match out.1 with Done r => dgetN "status" r | _ => VNone end = VStr "succeeded"
  ∧ m_trace out.2 = patch_acts ∧ fs_nodes (w_fs (m_world out.2)) !! ["repo"; "app.py"] = Some (NFile "x = 2").
Proof. vm_compute. repeat split. Qed.

(** The test command fails, and the bytes are put back. *)
Definition failing_executor : executor :=
  Executor demo_store [["pytest"; "-q"]] (λ _, Ok ()) (λ _, demo_now) (λ _, demo_now) (λ _, DiskOk)
    (λ _ _ _, inr (Ok (Completed 1 "1 failed" ""))).

Example failing_patch_put_back :
  let out := execute_patch failing_executor bound_decision patch_key None (alone 22) in
  match out.1 with Done r => dgetN "status" r | _ => VNone end = VStr "failed"
  ∧ m_trace out.2 = patch_acts ∧ fs_nodes (w_fs (m_world out.2)) !! ["repo"; "app.py"] = Some (NFile "x = 1").
Proof. vm_compute. repeat split. Qed.

Lemma claimed_patch_settles_witness :
  ∃ r m', execute_patch failing_executor bound_decision patch_key None (alone 22) = (Done r, m')
    ∧ ∃ permit parameters, permit_of bound_decision patch_key = Ok (inl permit) ∧ dgetN "permit_id" permit = VStr "permit_1"
        ∧ parameters_of bound_decision None = Ok parameters
        ∧ ((dgetN "status" r = VStr "succeeded" ∧ state_of "permit_1" m' "committed"
            ∧ ∃ target content commands, authorize_test_commands (pa_allowed failing_executor) (commands_of parameters) = Ok commands
                ∧ patch_acts = Claimed "permit_1" :: Replaced "permit_1" target content :: map (Ran "permit_1") commands)
           ∨ dgetN "status" r = VStr "failed"
             ∧ (put_back permit "permit_1" (m_world m') ∨ fenced_off permit "permit_1" (m_world m'))).
Proof.
  pose proof failing_patch_put_back as (Hs & Htr & _).
  destruct (execute_patch failing_executor bound_decision patch_key None (alone 22)) as [[r|e|] m'] eqn:E;
    cbn [fst snd] in Hs, Htr; [|discriminate Hs..].
  exists r, m'. split; [reflexivity|]. eapply claimed_patch_settles; [exact E|exact Htr|apply list_elem_of_here].
Defined.

(** The same decision executed twice. *)
Definition demo_call : execution_call := ExecutionCall demo_executor bound_decision patch_key None.

Lemma patch_written_once_witness :
  let acts := m_trace (executions [demo_call; demo_call] (alone 44)) in
  times (is_replacement "permit_1") acts ≤ times (is_claim "permit_1") acts ≤ 1.
Proof.
  apply (patch_written_once [demo_call; demo_call] (alone 44) "permit_1"); [apply alone_honest|reflexivity].
Defined.

(** An execution stopped once the target is replaced, and the recovery. *)
Definition stopped : machine world patch_act := (execute_patch demo_executor bound_decision patch_key None (alone 12)).2.
Definition recovered : res (list dict) * world :=
  recover_incomplete_actions demo_store (λ _, Ok ()) (λ _, true) (λ _, demo_now) (m_world stopped).

Example stopped_and_recovered :
  m_trace stopped = [Claimed "permit_1"; Replaced "permit_1" app_py "x = 2"]
  ∧ fs_nodes (w_fs (m_world stopped)) !! ["repo"; "app.py"] = Some (NFile "x = 2")
  ∧ is_ok recovered.1 = true ∧ fs_nodes (w_fs recovered.2) !! ["repo"; "app.py"] = Some (NFile "x = 1").
Proof. vm_compute. repeat split. Qed.

Lemma interrupted_patch_recovered_witness :
  ∃ s, s ∈ TERMINAL_STATES ∧ file_has (w_ledger recovered.2) (state_path "permit_1") s.
Proof.
  destruct stopped_and_recovered as (Htr & _ & Hok & _).
  destruct recovered as [[entries|e] w'] eqn:E; [|discriminate Hok]. unfold recovered, stopped in E.
  exact (interrupted_patch_recovered demo_executor bound_decision patch_key None (alone 12) _ "permit_1" _ demo_store
           (λ _, Ok ()) (λ _, true) (λ _, demo_now) entries w' (alone_honest 12) Htr
           (list_elem_of_here _ _) (evolves_refl _) E).
Defined.

(** ** A target the permit does not name *)

(** Two copies of the file, and a link to the directory of one of them. *)
Definition two_copies (current : string) : filesystem :=
  Filesystem (<[["repo"] := NDir]> (<[["state"] := NDir]> (<[["repo"; "a"] := NDir]> (<[["repo"; "b"] := NDir]>
    (<[["repo"; "a"; "app.py"] := NFile "x = 1"]> (<[["repo"; "b"; "app.py"] := NFile "x = 1"]>
    (<[["repo"; "current"] := NLink current]> ∅))))))) [].

Definition linked_decision : dict :=
  dset "execution_plan" (VDict
      [("system", VStr "repo_patch_service"); ("action", VStr "investigate_and_patch");
       ("parameters", VDict
          [("repo_path", VStr "/repo"); ("allowed_paths", VList [VStr "a/app.py"; VStr "b/app.py"]); ("test_commands", VList [VStr "pytest -q"]);
           ("patch_template", VDict [("target_file", VStr "current/app.py"); ("find", VStr "1"); ("replace", VStr "2")])]);
       ("rollback_plan", VStr "git revert")]) patch_decision.

Definition linked_gate : dict := Eval vm_compute in ok_or_nil (admission_of linked_decision).
Definition linked_permit : res dict * file := Eval vm_compute in permit_for linked_decision linked_gate (two_copies "a").
Definition linked_bound : dict := Eval vm_compute in carrying linked_decision linked_gate linked_permit.1.

(** Somebody points the link to the other copy while the executor binds the
    target, and back before it claims the permit. *)
Definition relink (current : string) (w : world) : world :=
  set_fs w (Filesystem (<[["repo"; "current"] := NLink current]> (fs_nodes (w_fs w))) (fs_cwd (w_fs w))).

Definition swapped : machine world patch_act :=
  Machine (World linked_permit.2 (two_copies "a")) []
    ([tick_of (relink "b")] ++ repeat (tick_of id) 6 ++ [tick_of (relink "a")] ++ repeat (tick_of id) 20).

(** The permit names a target and the executor replaces another one, with
    success: it binds the target itself and never compares it with the permit. *)
Theorem patch_of_another_target :
  let out := execute_patch demo_executor linked_bound patch_key None swapped in
  match linked_permit.1 with Ok permit => dgetN "target_path" permit | Err _ => VNone end = VStr "/repo/a/app.py"
  ∧ match out.1 with Done r => dgetN "status" r | _ => VNone end = VStr "succeeded"
  ∧ m_trace out.2 = [Claimed "permit_1"; Replaced "permit_1" (Path "/" ["repo"; "b"; "app.py"]) "x = 2"; Ran "permit_1" ["pytest"; "-q"]]
  ∧ fs_nodes (w_fs (m_world out.2)) !! ["repo"; "a"; "app.py"] = Some (NFile "x = 1")
  ∧ fs_nodes (w_fs (m_world out.2)) !! ["repo"; "b"; "app.py"] = Some (NFile "x = 2").
Proof. vm_compute. repeat split. Qed.
