(* ===== verification/ReviewBlockers.v ===== *)
(** * Why a decision is not executed, and whether a recovery may help

    [src/shared/mesh_runtime/review_blockers.py]: the blocking reasons of an
    evaluation, sorted into those that end the matter and those that a new
    attempt with more evidence may lift. *)

From S2P Require Import Prelude PyFloat PyValue Json Sha256 PyNumbers DateTime Models.
#[local] Open Scope Z_scope.

Definition TERMINAL_REVIEW_PATTERNS : list string :=
  ["recent rollback cooldown is active"; "signal indicates multi-service impact"; "signal indicates high business impact";
   "required execution credentials are unavailable"; "cross-run correlation requires approval";
   "correlated failure type is"; "unclassified trigger type"].
Definition RECOVERABLE_REVIEW_PATTERNS : list string :=
  ["conflicting signals are present"; "historical success rate is weak for";
   "no source run event ids available for analysis provenance"; "kubernetes trigger lacks error signatures"].
Definition TERMINAL_BLOCKER_PATTERNS : list string :=
  ["decision type falls outside the allowed action set"; "execution plan falls outside the allowed action set";
   "duplicate evaluation suppressed for trigger_id"; "scope requires approval before execution";
   "decision routes to human review"; "recent rollback cooldown conflict"; "risk level is high";
   "action is not idempotent"; "rollback parameters are missing"; "required credentials are unavailable";
   "remediation safety case has hard stops"].
Definition RECOVERABLE_BLOCKER_PATTERNS : list string :=
  ["trajectory quality gate did not pass"; "confidence below minimum threshold";
   "remediation safety score below execution threshold"; "repo path is missing or does not exist";
   "allowed repo patch paths are missing"; "bounded test commands are missing"; "patch template is missing";
   "patch template field `"].
Definition RETRY_HINTS : list (string * string) :=
  [("trajectory quality gate did not pass",
    "Expand grounded evidence and rerun the Mesh trajectory scorer against the updated run context.");
   ("confidence below minimum threshold",
    "Add corroborating evidence from prior runs, active memory, or historical outcomes before reevaluating.");
   ("conflicting signals are present",
    "Collect corroborating evidence to disambiguate the conflicting telemetry before rerunning.");
   ("historical success rate is weak for",
    "Bring in stronger verification or service-specific prior cases before retrying the action.");
   ("no source run event ids available for analysis provenance",
    "Preserve run-event provenance on the next attempt so the analysis can cite source evidence.");
   ("kubernetes trigger lacks error signatures",
    "Collect fresh rollout event signatures or pod symptoms before retrying.");
   ("repo path is missing or does not exist", "Restore bounded repo context before relaunching the remediation run.");
   ("allowed repo patch paths are missing", "Attach bounded repo patch paths before retrying.");
   ("bounded test commands are missing", "Attach bounded verification commands before retrying.");
   ("patch template is missing", "Attach a bounded patch template before retrying.");
   ("patch template field `", "Fill in the missing bounded patch template fields before retrying.")].

(** The two spellings that are settled by the review reasons. *)
Definition APPROVAL_BLOCKERS : list string := ["approval required before execution"; "approval_required_before_execution"].

(** [s.lower()] for comparison with ASCII text: U+212A is the one character
    outside ASCII whose lower case is an ASCII letter alone. *)
Definition kelvin : string := chars_str (bytes [226; 132; 170]).
Definition py_lower (s : string) : string := str_lower (str_replace kelvin "k" s).

(** [_matches] *)
Definition matches (reason : string) (patterns : list string) : option string :=
  let lowered := py_lower (str_strip reason) in
  List.find (λ pattern, str_contains (str_lower pattern) lowered) patterns.

Definition matched (reason : string) (patterns : list string) : bool := negb (bool_decide (matches reason patterns = None)).

(** The reasons, stripped, without the blank ones. *)
Definition stated_reasons (reasons : list string) : list string :=
  List.filter (λ r, negb (String.eqb r "")) (map str_strip reasons).

(** One list of reasons after another, as the loops fill them. *)
Record review_analysis := Review {
  rv_terminal : list string;
  rv_recoverable : list string;
  rv_unclassified : list string }.

Definition add_review (v : review_analysis) (reason : string) : review_analysis :=
  if matched reason TERMINAL_REVIEW_PATTERNS then Review (rv_terminal v ++ [reason]) (rv_recoverable v) (rv_unclassified v)
  else if matched reason RECOVERABLE_REVIEW_PATTERNS
  then Review (rv_terminal v) (rv_recoverable v ++ [reason]) (rv_unclassified v)
  else Review (rv_terminal v) (rv_recoverable v) (rv_unclassified v ++ [reason]).

Definition some_items {A} (l : list A) : bool := match l with [] => false | _ => true end.

Definition review_can_recover (v : review_analysis) : bool :=
  some_items (rv_recoverable v) && negb (some_items (rv_terminal v)) && negb (some_items (rv_unclassified v)).

Definition review_reasons (reasons : list string) : review_analysis :=
  fold_left add_review (stated_reasons reasons) (Review [] [] []).

Definition review_dict (v : review_analysis) : dict :=
  [("terminal_review_reasons", strs (rv_terminal v)); ("recoverable_review_reasons", strs (rv_recoverable v));
   ("unclassified_review_reasons", strs (rv_unclassified v)); ("can_auto_remediate", VBool (review_can_recover v))].

Definition classify_review_reasons (reasons : list string) : dict := review_dict (review_reasons reasons).

Record blocker_analysis := Blockers {
  bl_terminal : list string;
  bl_recoverable : list string;
  bl_derived : list string;
  bl_unclassified : list string }.

Definition put_terminal (r : string) (b : blocker_analysis) : blocker_analysis :=
  Blockers (bl_terminal b ++ [r]) (bl_recoverable b) (bl_derived b) (bl_unclassified b).
Definition put_recoverable (r : string) (b : blocker_analysis) : blocker_analysis :=
  Blockers (bl_terminal b) (bl_recoverable b ++ [r]) (bl_derived b) (bl_unclassified b).
Definition put_derived (r : string) (b : blocker_analysis) : blocker_analysis :=
  Blockers (bl_terminal b) (bl_recoverable b) (bl_derived b ++ [r]) (bl_unclassified b).
Definition put_unclassified (r : string) (b : blocker_analysis) : blocker_analysis :=
  Blockers (bl_terminal b) (bl_recoverable b) (bl_derived b) (bl_unclassified b ++ [r]).

Definition add_blocker (review : review_analysis) (b : blocker_analysis) (reason : string) : blocker_analysis :=
  if mem_str reason APPROVAL_BLOCKERS then
    put_derived reason (if review_can_recover review then put_recoverable reason b else put_terminal reason b)
  else if matched reason TERMINAL_BLOCKER_PATTERNS then put_terminal reason b
  else if matched reason RECOVERABLE_BLOCKER_PATTERNS then put_recoverable reason b
  else if mem_str reason (rv_recoverable review) then put_recoverable reason b
  else if mem_str reason (rv_terminal review) || mem_str reason (rv_unclassified review) then put_terminal reason b
  else put_unclassified reason b.

Definition blockers_of_reasons (blocking_reasons : list string) (review : review_analysis) : blocker_analysis :=
  fold_left (add_blocker review) (stated_reasons blocking_reasons) (Blockers [] [] [] []).

Definition can_auto_remediate (b : blocker_analysis) : bool :=
  some_items (bl_recoverable b) && negb (some_items (bl_terminal b)) && negb (some_items (bl_unclassified b)).

(** The hint for a reason, and the hints without repetition. *)
Definition hint_of (reason : string) : option string :=
  pattern ← matches reason (map fst RETRY_HINTS); alookup pattern RETRY_HINTS.

Definition retry_hints (recoverable : list string) : list string :=
  fold_left (λ hints reason,
    match hint_of reason with
    | Some hint => if mem_str hint hints then hints else hints ++ [hint]
    | None => hints
    end) recoverable [].

Definition classify_blocking_reasons (blocking_reasons scenario_review_reasons : list string) : dict :=
  let review := review_reasons scenario_review_reasons in
  let b := blockers_of_reasons blocking_reasons review in
  let auto := can_auto_remediate b in
  [("terminal_blockers", strs (bl_terminal b)); ("recoverable_blockers", strs (bl_recoverable b));
   ("derived_blockers", strs (bl_derived b)); ("unclassified_blockers", strs (bl_unclassified b));
   ("review_reason_analysis", VDict (review_dict review)); ("can_auto_remediate", VBool auto);
   ("recommended_route", VStr (if auto then "needs_more_evidence"
                               else if some_items blocking_reasons then "human_review" else "execute"));
   ("retry_hints", strs (retry_hints (bl_recoverable b)))].

(** ** What a new attempt may lift *)

(** A reason a recovery run can do something about: bounded context or evidence
    that is missing, and an approval when that is all the review asks for. *)
Definition liftable (review : review_analysis) (reason : string) : bool :=
  if mem_str reason APPROVAL_BLOCKERS then review_can_recover review
  else negb (matched reason TERMINAL_BLOCKER_PATTERNS)
       && (matched reason RECOVERABLE_BLOCKER_PATTERNS || mem_str reason (rv_recoverable review)).

(** A reason that no pattern and no review reason speaks of. *)
Definition unheard_of (review : review_analysis) (reason : string) : bool :=
  negb (mem_str reason APPROVAL_BLOCKERS) && negb (matched reason TERMINAL_BLOCKER_PATTERNS)
  && negb (matched reason RECOVERABLE_BLOCKER_PATTERNS)
  && negb (existsb (mem_str reason) [rv_recoverable review; rv_terminal review; rv_unclassified review]).

Lemma add_blocker_cases review b reason :
  let b' := add_blocker review b reason in
  bl_recoverable b' = bl_recoverable b ++ List.filter (liftable review) [reason]
  ∧ bl_unclassified b' = bl_unclassified b ++ List.filter (unheard_of review) [reason]
  ∧ bl_terminal b' = bl_terminal b ++ List.filter (λ r, negb (liftable review r) && negb (unheard_of review r)) [reason].
Proof.
  cbv zeta. unfold add_blocker, liftable, unheard_of. cbn [List.filter existsb].
  destruct (mem_str reason APPROVAL_BLOCKERS); cbn [negb andb orb].
  { destruct (review_can_recover review); cbn; by rewrite ?app_nil_r. }
  destruct (matched reason TERMINAL_BLOCKER_PATTERNS); cbn; [by rewrite ?app_nil_r|].
  destruct (matched reason RECOVERABLE_BLOCKER_PATTERNS); cbn; [by rewrite ?app_nil_r|].
  destruct (mem_str reason (rv_recoverable review)); cbn; [by rewrite ?app_nil_r|].
  destruct (mem_str reason (rv_terminal review)), (mem_str reason (rv_unclassified review)); cbn; by rewrite ?app_nil_r.
Qed.

Lemma blockers_filtered review reasons b :
  let b' := fold_left (add_blocker review) reasons b in
  bl_recoverable b' = bl_recoverable b ++ List.filter (liftable review) reasons
  ∧ bl_unclassified b' = bl_unclassified b ++ List.filter (unheard_of review) reasons
  ∧ bl_terminal b' = bl_terminal b ++ List.filter (λ r, negb (liftable review r) && negb (unheard_of review r)) reasons.
Proof.
  cbv zeta. revert b. induction reasons as [|r l IH]; intros b; [by rewrite !app_nil_r|]. cbn [fold_left].
  destruct (IH (add_blocker review b r)) as (-> & -> & ->). destruct (add_blocker_cases review b r) as (-> & -> & ->).
  rewrite <- !app_assoc. cbn [List.filter]. destruct (liftable review r), (unheard_of review r); done.
Qed.

Lemma unheard_of_not_liftable review r : unheard_of review r = true → liftable review r = false.
Proof.
  unfold unheard_of, liftable. destruct (mem_str r APPROVAL_BLOCKERS); [done|].
  destruct (matched r TERMINAL_BLOCKER_PATTERNS); [done|]. destruct (matched r RECOVERABLE_BLOCKER_PATTERNS); [done|].
  cbn [existsb]. by destruct (mem_str r (rv_recoverable review)).
Qed.

Lemma some_items_filter {A} (f : A → bool) l : some_items (List.filter f l) = existsb f l.
Proof. induction l as [|x l IH]; [done|]. cbn. by destruct (f x). Qed.

Lemma forallb_no_others {A} (f u : A → bool) l :
  (∀ x, u x = true → f x = false) →
  negb (existsb (λ x, negb (f x) && negb (u x)) l) && negb (existsb u l) = forallb f l.
Proof.
  intros Hx. induction l as [|x l IH]; [done|]. cbn [existsb forallb]. rewrite <- IH. specialize (Hx x).
  destruct (f x), (u x); cbn; try done; try (by discriminate Hx); try (by rewrite andb_false_r).
Qed.

Lemma Permutation_three {A} (f u : A → bool) l :
  (∀ x, u x = true → f x = false) →
  Permutation (List.filter (λ x, negb (f x) && negb (u x)) l ++ List.filter f l ++ List.filter u l) l.
Proof.
  intros Hx. induction l as [|x l IH]; [done|]. cbn [List.filter]. specialize (Hx x).
  destruct (f x), (u x); cbn [negb andb app]; try (by discriminate Hx; reflexivity).
  - eapply Permutation_trans; [symmetry; apply Permutation_middle|]. by constructor.
  - eapply Permutation_trans; [rewrite app_assoc; symmetry; apply Permutation_middle|]. rewrite <- app_assoc. by constructor.
  - by constructor.
Qed.

(** Every stated reason is put into one list, in order: those a new attempt may
    lift, those that end the matter, and those nothing is known of.  A recovery
    may run exactly when there is a reason and every reason can be lifted, and
    the route is to execute exactly when nothing blocks. *)
Theorem recovery_lifts_every_blocker blocking reviews :
  let review := review_reasons reviews in
  let b := blockers_of_reasons blocking review in
  let stated := stated_reasons blocking in
  bl_recoverable b = List.filter (liftable review) stated
  ∧ Permutation (bl_terminal b ++ bl_recoverable b ++ bl_unclassified b) stated
  ∧ (can_auto_remediate b = true ↔ stated ≠ [] ∧ ∀ r, In r stated → liftable review r = true)
  ∧ dgetN "recommended_route" (classify_blocking_reasons blocking reviews)
    = VStr (if can_auto_remediate b then "needs_more_evidence"
            else if some_items blocking then "human_review" else "execute").
Proof.
  cbv zeta. set (review := review_reasons reviews). unfold blockers_of_reasons.
  destruct (blockers_filtered review (stated_reasons blocking) (Blockers [] [] [] [])) as (Hr & Hu & Ht).
  cbn [bl_recoverable bl_unclassified bl_terminal app] in Hr, Hu, Ht. split; [done|]. split; [|split; [|done]].
  - rewrite Hr, Hu, Ht. apply Permutation_three, unheard_of_not_liftable.
  - unfold can_auto_remediate. rewrite Hr, Hu, Ht, !some_items_filter, <- andb_assoc.
    rewrite (forallb_no_others _ _ _ (unheard_of_not_liftable review)), andb_true_iff, forallb_forall.
    destruct (stated_reasons blocking) as [|r l]; [by split; intros [? _]|]. cbn [existsb].
    split; [intros [_ H]; by split|]. intros [_ H]. split; [|done]. by rewrite (H r (or_introl eq_refl)).
Qed.

Example spelling_of_approval :
  can_auto_remediate (blockers_of_reasons ["approval_required_before_execution"]
                        (review_reasons ["conflicting signals are present in telemetry"])) = true
  ∧ can_auto_remediate (blockers_of_reasons ["Evidence sufficiency gate did not pass"] (review_reasons [])) = false.
Proof. by vm_compute. Qed.
