(* ===== verification/Trajectory.v ===== *)
(** * The trace of a run and its score

    [src/services/evaluation/mesh_evaluator.py], with [temperature_policy.py]
    and [phoenix_trace.py] of the runtime: the contract checks of an evaluation,
    the task trace, the behavioural scores over it, and the spans exported from
    it.  Events are the records of the event log; contract instances are the
    dictionaries of [Contracts]. *)

From S2P Require Import Prelude PyFloat PyValue PyNumbers Json Models StateStore RemediationSafety.
#[local] Open Scope Z_scope.

(** ** Temperatures *)

Definition T_MIN : float := lit 5 2.
Definition T_MAX : float := lit 70 2.

(** [_unit] *)
Definition unit_interval (v : value) : res float :=
  match py_float v with
  | Ok f => Ok (f_max (S754_zero false) (f_min (f_of_Z 1) f))
  | Err e =>
      if isinstance_exc (exc_cls e) TypeError || isinstance_exc (exc_cls e) ValueError then Ok (S754_zero false) else Err e
  end.

Definition clamp_temperature (x : float) : float := f_max T_MIN (f_min T_MAX x).

Definition fixed_temperature (component : string) : dict :=
  let component_policy :=
    [("verifier", S754_zero false); ("judge", S754_zero false); ("scorer", S754_zero false); ("tool_executor", lit 10 2);
     ("memory_distiller", lit 20 2)] in
  [("component", VStr component); ("temperature", VFloat (default (S754_zero false) (alookup component component_policy)));
   ("policy", VStr "fixed_component_v1"); ("acceptance", VStr "deterministic_verifier_required")].

(** The members of [TemperatureInputs], with their weights in the sum. *)
Definition TEMPERATURE_WEIGHTS : list (string * (bool * float)) :=
  [("novelty", (true, lit 20 2)); ("ambiguity", (true, lit 15 2)); ("search_need", (true, lit 20 2));
   ("risk", (false, lit 30 2)); ("contract_strictness", (false, lit 25 2)); ("prior_failure_similarity", (false, lit 25 2))].

Definition generator_temperature (inputs : dict) : res dict :=
  normalized ← res_map (λ w, x ← unit_interval (dget_or w.1 (VFloat (S754_zero false)) inputs); Ok (w.1, x))
                 TEMPERATURE_WEIGHTS;
  let raw := fold_left (λ s p, let '((_, (plus, w)), (_, x)) := p in if plus : bool then f_add s (f_mul w x) else f_sub s (f_mul w x))
               (combine TEMPERATURE_WEIGHTS normalized) (lit 20 2) in
  Ok [("temperature", VFloat (clamp_temperature raw)); ("raw_temperature", VFloat raw); ("min", VFloat T_MIN);
      ("max", VFloat T_MAX); ("inputs", VDict (map (λ p, (p.1, VFloat p.2)) normalized));
      ("policy", VStr "dynamic_generator_v1"); ("acceptance", VStr "deterministic_verifier_required")].

(** ** Contract checks *)

(** [_stage_passed] *)
Definition stage_passed (stage : dict) : bool :=
  if dhas "passed" stage then truthy (dgetN "passed" stage) else negb (truthy (dgetN "hard_stops" stage)).

(** [ContractCheckAdapter.summarize] *)
Definition summarize (schema_validation policy_validation business_rules execution_readiness remediation_safety : dict) : dict :=
  let checks :=
    [("schema_validation", schema_validation); ("policy_validation", policy_validation); ("business_rules", business_rules);
     ("execution_readiness", execution_readiness); ("remediation_safety", remediation_safety)] in
  let ok := forallb (λ c, stage_passed c.2) checks in
  [("passed", VBool ok); ("score", VFloat (bool_score ok)); ("temperature", VDict (fixed_temperature "verifier"));
   ("checks", VDict (map (λ c, (c.1, VDict c.2)) checks))].

(** ** The trace *)

(** [_get] *)
Definition get_in (payload : value) (key : string) : value := dgetN key (dict_or_empty payload).

(** [_nested] *)
Definition nested_in (payload : value) (keys : list string) : value := fold_left get_in keys payload.

Definition TOOL_EVENTS : list string :=
  ["evidence_probe_completed"; "subdecision_recorded"; "agent_task_recorded"; "execution_recorded"].

(** [_tool_calls] *)
Definition tool_calls (events : list RunEvent) (execution : value) : list value :=
  map (λ e, VDict (map (λ k, (k, dgetN k (ev_to_dict e))) ["stage"; "event_type"; "artifact_key"; "summary"]))
    (List.filter (λ e, mem_str (ev_event_type e) TOOL_EVENTS) events)
  ++ match get_in execution "applied_action" with
     | VDict applied =>
         [VDict [("stage", VStr "executing"); ("event_type", VStr "applied_action"); ("summary", VDict applied)]]
     | _ => []
     end.

(** [_failure_cause] *)
Definition failure_cause (evaluation execution feedback : value) : value :=
  match get_in evaluation "blocking_reasons" with
  | VList (reason :: _) => VStr (py_str reason)
  | _ =>
      let failure := get_in execution "failure" in
      if truthy failure then VStr (py_str failure)
      else
        let outcome := get_in feedback "outcome" in
        if is_dict feedback && negb (is_none outcome) && negb (is_string "successful" outcome)
        then VStr (py_str outcome) else VNone
  end.

(** [TrajectoryEvaluator.build_trace], without a failure cause of the caller *)
Definition build_trace (trigger decision evaluation execution feedback : option dict) (run_events : list RunEvent)
    (artifacts : dict) : dict :=
  let events := sort_events run_events in
  let trigger_payload := py_or (opt_dict trigger) (dgetN "trigger" artifacts) in
  let decision_payload := py_or (opt_dict decision) (dgetN "decision" artifacts) in
  let decision_reasoning := dget_or "reasoning" (VDict []) (dict_or_empty decision_payload) in
  let reasoning_evidence := dget_or "evidence_pack" (VDict []) (dict_or_empty decision_reasoning) in
  let evaluation_payload := py_or (opt_dict evaluation) (dgetN "evaluation" artifacts) in
  let execution_payload := py_or (opt_dict execution) (dgetN "execution" artifacts) in
  let feedback_payload := py_or (opt_dict feedback) (dgetN "feedback" artifacts) in
  [("trace_version", VStr "mesh_task_trace_v1"); ("mesh_eval", dgetN "mesh_eval" artifacts);
   ("task", VDict (map (λ k, (k, get_in trigger_payload k)) ["trigger_id"; "trigger_type"; "service"; "endpoint"]));
   ("context", VDict
      [("evidence_pack", py_or (dgetN "evidence_pack" artifacts) reasoning_evidence);
       ("reasoning_bank_packet", dgetN "reasoning_bank_packet" artifacts);
       ("scenario_analysis", py_or (dgetN "scenario_analysis" artifacts) (get_in reasoning_evidence "scenario_analysis"));
       ("service_agent", dgetN "service_agent" artifacts)]);
   ("decision", decision_payload); ("evaluation", evaluation_payload); ("execution", execution_payload);
   ("feedback", feedback_payload); ("events", dicts (map ev_to_dict events));
   ("tool_calls", VList (tool_calls events execution_payload));
   ("failure_cause", failure_cause evaluation_payload execution_payload feedback_payload)].

(** ** Scores over a trace *)

(** [trace.get(key) if isinstance(trace.get(key), dict) else {}], and for lists *)
Definition dict_of (key : string) (d : dict) : dict := dict_or_empty (dgetN key d).
Definition list_of (key : string) (d : dict) : list value := default [] (as_list (dgetN key d)).

(** [v in {None, "a", ...}] *)
Definition none_or_in (v : value) (l : list string) : res bool := if is_none v then Ok true else in_str_set v l.

(** One scorer's verdict. *)
Record scored := Scored {
  sc_name : string;
  sc_passed : bool;
  sc_blocking : bool;
  sc_score : float;
  sc_note : string;
  sc_refs : list value }.

Definition scored_dict (s : scored) : dict :=
  [("name", VStr (sc_name s)); ("passed", VBool (sc_passed s)); ("blocking", VBool (sc_blocking s));
   ("score", VFloat (sc_score s)); ("note", VStr (sc_note s)); ("evidence_refs", VList (sc_refs s))].

Definition INSPECTION_EVENTS : list string := ["evidence_pack_ready"; "evidence_probe_completed"; "evidence_node_recorded"].

(** [_event_refs] *)
Fixpoint event_refs (events : list value) (event_types : list string) : res (list value) :=
  match events with
  | [] => Ok []
  | event :: events' =>
      event_type ← py_get event "event_type";
      hit ← in_str_set event_type event_types;
      refs ← event_refs events' event_types;
      Ok (if hit : bool
          then VDict (map (λ k, (k, get_in event k)) ["event_id"; "stage"; "event_type"; "artifact_key"]) :: refs
          else refs)
  end.

(** [any(event.get("event_type") in types for event in events if isinstance(event, dict))] *)
Fixpoint any_event (events : list value) (event_types : list string) : res bool :=
  match events with
  | [] => Ok false
  | VDict event :: events' =>
      hit ← in_str_set (dgetN "event_type" event) event_types;
      if hit : bool then Ok true else any_event events' event_types
  | _ :: events' => any_event events' event_types
  end.

(** [_has_kubernetes_diagnostic_context] *)
Definition has_kubernetes_diagnostic_context (trace : dict) : bool :=
  let evidence_pack := dict_of "evidence_pack" (dict_of "context" trace) in
  negb (is_string "kubernetes_deployment_unhealthy" (dgetN "trigger_type" (dict_of "task" trace)))
  || existsb (λ k, truthy (dgetN k evidence_pack)) ["probe_results"; "fast_path_signatures"; "evidence_nodes"]
  || truthy (dgetN "evidence" (dict_of "reasoning" (dict_of "decision" trace))).

Definition trace_action (trace : dict) : value := nested_in (VDict (dict_of "decision" trace)) ["execution_plan"; "action"].

(** [_evidence_inspection] *)
Definition evidence_inspection (trace : dict) : res scored :=
  let events := list_of "events" trace in
  inspected ← (if truthy (dgetN "evidence_pack" (dict_of "context" trace)) then Ok true
               else any_event events INSPECTION_EVENTS);
  refs ← event_refs events INSPECTION_EVENTS;
  Ok (Scored "evidence_inspection" inspected true (bool_score inspected)
        (if inspected then "agent inspected evidence" else "agent reached evaluation without evidence inspection") refs).

(** [_tool_sequence] *)
Definition tool_sequence (trace : dict) : scored :=
  let action := trace_action trace in
  let ok := truthy action && negb (is_string "restart_deployment" action && negb (has_kubernetes_diagnostic_context trace)) in
  Scored "tool_sequence" ok true (bool_score ok)
    (if ok then "tool/action sequence matches task context"
     else "tool/action sequence is missing or restarts without diagnostic context")
    (list_of "tool_calls" trace).

(** [_known_failure_avoidance] *)
Definition known_failure_avoidance (trace : dict) : scored :=
  let packet := dict_of "reasoning_bank_packet" (dict_of "context" trace) in
  let guardrails := list_of "claims" packet ++ list_of "contradictions" packet in
  let ok := negb (is_string "restart_deployment" (trace_action trace)) || has_kubernetes_diagnostic_context trace in
  Scored "known_failure_avoidance" ok true (bool_score ok)
    (if ok then "known failure modes avoided" else "known blind restart failure mode was not avoided")
    (map (λ item, VDict [("claim_id", get_in item "claim_id"); ("statement", get_in item "statement")])
       (List.filter is_dict (take 5 guardrails))).

(** [_outcome] *)
Definition system_outcome (trace : dict) : res scored :=
  let execution := dict_of "execution" trace in
  let feedback := dict_of "feedback" trace in
  if negb (truthy (VDict execution)) && negb (truthy (VDict feedback)) then
    Ok (Scored "system_outcome" true false (lit 5 1) "outcome pending at evaluation gate" [])
  else
    executed ← none_or_in (dgetN "status" execution) ["succeeded"; "rejected"];
    ok ← (if executed : bool then none_or_in (dgetN "outcome" feedback) ["successful"; "rolled_back"] else Ok false);
    Ok (Scored "system_outcome" ok false (bool_score ok)
          (if ok then "system outcome matches verifier state" else "system outcome indicates failed execution or feedback")
          [VDict [("artifact_key", VStr "execution"); ("status", dgetN "status" execution)];
           VDict [("artifact_key", VStr "feedback"); ("outcome", dgetN "outcome" feedback)]]).

Record TraceScore := TraceScored {
  ts_passed : bool;
  ts_score : float;
  ts_notes : list string;
  ts_artifacts : dict }.

Definition trace_score_dict (s : TraceScore) : dict :=
  [("passed", VBool (ts_passed s)); ("score", VFloat (ts_score s)); ("notes", strs (ts_notes s));
   ("artifacts", VDict (ts_artifacts s))].

(** [BehavioralScorer.score] *)
Definition score_trace (trace : dict) : res TraceScore :=
  inspection ← evidence_inspection trace;
  outcome ← system_outcome trace;
  let scores := [inspection; tool_sequence trace; known_failure_avoidance trace; outcome] in
  let aggregate := f_div (fold_left (λ s x, f_add s (sc_score x)) scores (S754_zero false)) (f_of_Z 4) in
  Ok (TraceScored (forallb (λ s, negb (sc_blocking s) || sc_passed s) scores) (f_round aggregate 4) (map sc_note scores)
        [("scorers", dicts (map scored_dict scores)); ("temperature", VDict (fixed_temperature "scorer"))]).

(** [Verifier.verify] *)
Definition verify_trace (trace : dict) : res dict :=
  let execution := dict_of "execution" trace in
  let feedback := dict_of "feedback" trace in
  let evaluation := dict_of "evaluation" trace in
  let facts :=
    [("evaluation_recommendation", dgetN "final_recommendation" evaluation); ("evaluation_passed", dgetN "passed" evaluation);
     ("execution_status", dgetN "status" execution); ("feedback_outcome", dgetN "outcome" feedback)] in
  judged ← (if negb (truthy (VDict execution)) && negb (truthy (VDict feedback)) then Ok (true, "post-action verifier pending")
            else
              executed ← in_str_set (dgetN "status" execution) ["succeeded"; "rejected"];
              ok ← (if executed : bool then in_str_set (dgetN "outcome" feedback) ["successful"; "rolled_back"; "not_executed"]
                    else Ok false);
              Ok (ok, if ok : bool then "verifier accepted observed state" else "verifier rejected observed state"));
  let '(ok, note) := (judged : bool * string) in
  Ok [("passed", VBool ok); ("score", VFloat (bool_score ok)); ("temperature", VDict (fixed_temperature "verifier"));
      ("facts", VDict facts); ("notes", strs [note])].

(** ** The temperature a trace asks for *)

Definition risk_weight (level : string) : float :=
  default (lit 5 1) (alookup level [("low", lit 2 1); ("medium", lit 5 1); ("high", f_of_Z 1)]).

Definition temperature_policy_for_trace (trace : dict) : res dict :=
  let decision := dict_of "decision" trace in
  let context := dict_of "context" trace in
  let packet := dict_of "reasoning_bank_packet" context in
  let risk := risk_weight (py_str (py_or (nested_in (VDict decision) ["risk"; "level"]) (VStr "medium"))) in
  strict ← in_str_set (nested_in (VDict decision) ["execution_plan"; "system"]) ["kubernetes_service"; "systemd_service"];
  let prior := existsb (λ k, truthy (dgetN k packet)) ["claims"; "procedures"; "contradictions"] in
  confidence ← py_float (py_or (dget_or "confidence" (VFloat (lit 5 1)) decision) (VFloat (lit 5 1)));
  generator_temperature
    [("novelty", VFloat (if prior then lit 3 1 else lit 7 1)); ("ambiguity", VFloat (f_sub (f_of_Z 1) confidence));
     ("search_need", VFloat (if truthy (dgetN "evidence_pack" context) then lit 2 1 else lit 6 1)); ("risk", VFloat risk);
     ("contract_strictness", VFloat (if strict : bool then f_of_Z 1 else lit 5 1));
     ("prior_failure_similarity", VFloat (if prior then lit 8 1 else S754_zero false))].

(** ** Spans *)

Definition SPAN_ORDER : list string :=
  ["trigger_ready"; "evidence_pack_ready"; "reasoning_bank_packet"; "scenario_analysis_ready"; "decision_ready";
   "evaluation_ready"; "execution_recorded"; "feedback_recorded"; "reasoning_bank"].

Definition span_kind (name : string) : string :=
  if mem_str name ["evidence_pack_ready"; "reasoning_bank_packet"] then "retriever"
  else if mem_str name ["decision_ready"; "evaluation_ready"; "scenario_analysis_ready"] then "llm"
  else if mem_str name ["execution_recorded"; "feedback_recorded"] then "tool"
  else "agent".

(** [_span_kind(name).upper()] *)
Definition span_kind_upper (name : string) : string :=
  default "AGENT" (alookup (span_kind name) [("retriever", "RETRIEVER"); ("llm", "LLM"); ("tool", "TOOL")]).

Definition span_input (task_trace : dict) (name : string) : value :=
  if String.eqb name "trigger_ready" then dgetN "task" task_trace
  else if String.eqb name "decision_ready" then dgetN "context" task_trace
  else if String.eqb name "evaluation_ready" then dgetN "decision" task_trace
  else if mem_str name ["execution_recorded"; "feedback_recorded"] then dgetN "evaluation" task_trace
  else dgetN "task" task_trace.

Definition span_name (event : dict) : string :=
  if is_string "integration_artifact_recorded" (dgetN "event_type" event) && truthy (dgetN "artifact_key" event)
  then py_str (dgetN "artifact_key" event)
  else py_str (py_or (py_or (py_or (dgetN "event_type" event) (dgetN "artifact_key" event)) (dgetN "stage" event)) (VStr "")).

(** One span; [now] is the reading of the clock for an event without a time. *)
Definition event_span (task_trace event : dict) (name now : string) : value :=
  VDict
    [("name", VStr name); ("span_kind", VStr (span_kind name)); ("timestamp", py_or (dgetN "created_at" event) (VStr now));
     ("attributes", VDict
        [("openinference.span.kind", VStr (span_kind_upper name)); ("mesh.stage", dgetN "stage" event);
         ("mesh.event_type", dgetN "event_type" event); ("mesh.artifact_key", dgetN "artifact_key" event);
         ("mesh.status", dgetN "status" event)]);
     ("input", span_input task_trace name); ("output", py_or (dgetN "summary" event) (dgetN "payload" event))].

(** The spans of the events, with the readings of the clock in their order. *)
Definition event_spans (task_trace : dict) (clock : nat → string) (events : list value) : list value :=
  concat (imap (λ i event,
    match event with
    | VDict event =>
        let name := span_name event in
        if mem_str name SPAN_ORDER then [event_span task_trace event name (clock i)] else []
    | _ => []
    end) events).

Definition build_phoenix_spans (task_trace : dict) (clock : nat → string) : res (list value) :=
  events ← py_iter (dget_or "events" (VList []) task_trace);
  Ok (match event_spans task_trace clock events with
      | [] =>
          [VDict
             [("name", VStr "mesh.task"); ("span_kind", VStr "agent"); ("timestamp", VStr (clock (length events)));
              ("attributes", VDict
                 [("openinference.span.kind", VStr "AGENT"); ("mesh.trace_version", dgetN "trace_version" task_trace)]);
              ("input", dgetN "task" task_trace);
              ("output", VDict
                 [("failure_cause", dgetN "failure_cause" task_trace);
                  ("tool_call_count", VInt (Z.of_nat (length (list_of "tool_calls" task_trace))))])]]
      | spans => spans
      end).

(** ** What the score says *)

(** At the gate - before anything was executed - the trajectory passes exactly
    when there is evidence to look at and the plan names an action, which is no
    restart of a deployment without a diagnosis. *)
Lemma gate_trajectory_passes trace :
  dict_of "execution" trace = [] → dict_of "feedback" trace = [] →
  (∀ v, In v (list_of "events" trace) → ∃ e, v = VDict (ev_to_dict e)) →
  ∃ s, score_trace trace = Ok s
    ∧ (ts_passed s = true ↔
         (truthy (dgetN "evidence_pack" (dict_of "context" trace)) = true
          ∨ ∃ e, In (VDict (ev_to_dict e)) (list_of "events" trace) ∧ mem_str (ev_event_type e) INSPECTION_EVENTS = true)
         ∧ truthy (trace_action trace) = true
         ∧ (is_string "restart_deployment" (trace_action trace) = true → has_kubernetes_diagnostic_context trace = true)).
Proof.
  intros He Hf Hev. unfold score_trace, evidence_inspection, system_outcome. rewrite He, Hf. cbn [truthy negb andb].
  assert (∃ b, any_event (list_of "events" trace) INSPECTION_EVENTS = Ok b
    ∧ (b = true ↔ ∃ e, In (VDict (ev_to_dict e)) (list_of "events" trace) ∧ mem_str (ev_event_type e) INSPECTION_EVENTS = true))
    as (b & -> & Hb).
  { revert Hev. induction (list_of "events" trace) as [|v l IH]; intros Hev; [exists false; split; [done|]; split; [done|by intros (?&[]&_)]|].
    destruct (Hev v (or_introl eq_refl)) as [e ->]. destruct IH as (b & Hl & Hb); [by intros; apply Hev; right|].
    cbn [any_event]. change (in_str_set (dgetN "event_type" (ev_to_dict e)) INSPECTION_EVENTS)
      with (@Ok bool (mem_str (ev_event_type e) INSPECTION_EVENTS)). cbn [mbind res_bind].
    destruct (mem_str (ev_event_type e) INSPECTION_EVENTS) eqn:Ee.
    - exists true. split; [done|]. split; [|done]. intros _. exists e. split; [by left|done].
    - exists b. split; [done|]. rewrite Hb. split; intros (e' & Hin & He'); exists e'; (split; [|done]); [by right|].
      destruct Hin as [E|Hin]; [|done]. injection E; intros. unfold ev_to_dict in E. congruence. }
  assert (∃ refs, event_refs (list_of "events" trace) INSPECTION_EVENTS = Ok refs) as [refs ->].
  { revert Hev. clear. induction (list_of "events" trace) as [|v l IH]; intros Hev; [by eexists|].
    destruct (Hev v (or_introl eq_refl)) as [e ->]. destruct IH as [refs Hl]; [by intros; apply Hev; right|].
    cbn [event_refs py_get mbind res_bind]. change (in_str_set (dgetN "event_type" (ev_to_dict e)) INSPECTION_EVENTS)
      with (@Ok bool (mem_str (ev_event_type e) INSPECTION_EVENTS)). cbn [mbind res_bind]. rewrite Hl. by eexists. }
  assert ((if truthy (dgetN "evidence_pack" (dict_of "context" trace)) then Ok true else Ok b)
    = Ok (truthy (dgetN "evidence_pack" (dict_of "context" trace)) || b)) as -> by (by destruct (truthy _)).
  cbn [mbind res_bind]. eexists. split; [reflexivity|]. cbn [ts_passed forallb sc_blocking sc_passed tool_sequence known_failure_avoidance negb orb].
  rewrite <- Hb.
  destruct (truthy (dgetN _ _)), b, (truthy (trace_action trace)), (is_string _ _), (has_kubernetes_diagnostic_context trace);
    cbn; intuition congruence.
Qed.

(** A span of a recorded event never carries the time of the event: the code
    reads [created_at], and the records of the log have [recorded_at]. *)
Lemma spans_carry_export_time task_trace e name now :
  dgetN "timestamp" (dict_or_empty (event_span task_trace (ev_to_dict e) name now)) = VStr now.
Proof. reflexivity. Qed.
