(* ===== verification/EvaluationAdvice.v ===== *)
(** * What only advises an evaluation

    [src/services/evaluation/evaluation_stack.py], the map of external
    evaluation tools and what is ready for them, and [sre_judge.py], the second
    opinion of a judge: deterministic, or a language model whose answers are an
    argument.  Tuples are lists. *)

From S2P Require Import Prelude PyFloat PyValue PyNumbers Json Models Contracts OperatorReviews RemediationSafety.
From S2P Require Import ReviewBlockers Trajectory.
#[local] Open Scope Z_scope.

(** ** The evaluation stack *)

(** [EvaluationIntegration] with its [EvaluationAccountConfig] *)
Record EvaluationIntegration := Integration {
  in_id : string;
  in_display_name : string;
  in_best_for : string;
  in_native_role : string;
  in_native_artifacts : list string;
  in_external_config : list string;
  in_credential_env : list string;
  in_endpoint_env : list string;
  in_project_env : list string;
  in_account_env : list string }.

Definition EVALUATION_INTEGRATIONS : list EvaluationIntegration :=
  [Integration "promptfoo" "Promptfoo"
     "prompt assertions, regression fixtures, and legacy prompt-eval compatibility"
     "contract assertion lane" ["contract_checks"; "trajectory_quality"; "task_trace.mesh_eval.promptfoo_role"]
     ["MESH_PROMPTFOO_COMMAND"]
     ["MESH_EVAL_PROMPTFOO_API_KEY"; "PROMPTFOO_API_KEY"] ["MESH_EVAL_PROMPTFOO_ENDPOINT"; "PROMPTFOO_REMOTE_API_BASE_URL"]
     ["MESH_EVAL_PROMPTFOO_PROJECT"] ["MESH_EVAL_PROMPTFOO_ACCOUNT"];
   Integration "langsmith" "LangSmith"
     "LangChain tracing, prompt versioning, and structured evals"
     "trace and experiment projection lane" ["task_trace"; "run_events"; "sre_judgment"]
     []
     ["MESH_EVAL_LANGSMITH_API_KEY"; "LANGSMITH_API_KEY"; "LANGCHAIN_API_KEY"] ["MESH_EVAL_LANGSMITH_ENDPOINT"; "LANGSMITH_ENDPOINT"]
     ["MESH_EVAL_LANGSMITH_PROJECT"; "LANGSMITH_PROJECT"; "LANGCHAIN_PROJECT"] ["MESH_EVAL_LANGSMITH_ACCOUNT"];
   Integration "deepeval" "DeepEval / Confident AI"
     "pytest-style evaluation, custom metrics, and CI-friendly tests"
     "code-defined metric lane" ["contract_checks"; "trajectory_quality"; "behavioral_scores"]
     ["PYTEST_ADDOPTS"]
     ["MESH_EVAL_DEEPEVAL_API_KEY"; "DEEPEVAL_API_KEY"; "CONFIDENT_API_KEY"; "CONFIDENT_AI_API_KEY"] ["MESH_EVAL_DEEPEVAL_ENDPOINT"; "CONFIDENT_API_BASE_URL"]
     ["MESH_EVAL_DEEPEVAL_PROJECT"; "CONFIDENT_PROJECT"] ["MESH_EVAL_DEEPEVAL_ACCOUNT"];
   Integration "ragas" "RAGAS"
     "RAG retrieval quality, answer faithfulness, and context precision checks"
     "retrieval quality lane" ["task_trace.context.evidence_pack"; "task_trace.context.reasoning_bank_packet"; "evidence_sufficiency"]
     []
     ["MESH_EVAL_RAGAS_API_KEY"; "RAGAS_API_KEY"] ["MESH_EVAL_RAGAS_ENDPOINT"; "RAGAS_ENDPOINT"]
     ["MESH_EVAL_RAGAS_PROJECT"] ["MESH_EVAL_RAGAS_ACCOUNT"];
   Integration "trulens" "TruLens"
     "feedback-function evaluation and RAG relevance checks"
     "feedback-function lane" ["evidence_sufficiency"; "verifier"; "task_trace.context"]
     []
     ["MESH_EVAL_TRULENS_API_KEY"; "TRULENS_API_KEY"] ["MESH_EVAL_TRULENS_ENDPOINT"; "TRULENS_ENDPOINT"]
     ["MESH_EVAL_TRULENS_PROJECT"] ["MESH_EVAL_TRULENS_ACCOUNT"];
   Integration "braintrust" "Braintrust"
     "production monitoring, shared experiments, and evaluation governance"
     "governance export lane" ["evaluation_id"; "decision_id"; "stage_results"; "blocker_analysis"]
     []
     ["MESH_EVAL_BRAINTRUST_API_KEY"; "BRAINTRUST_API_KEY"] ["MESH_EVAL_BRAINTRUST_ENDPOINT"; "BRAINTRUST_API_URL"]
     ["MESH_EVAL_BRAINTRUST_PROJECT"; "BRAINTRUST_PROJECT"] ["MESH_EVAL_BRAINTRUST_ACCOUNT"; "BRAINTRUST_ORG_NAME"];
   Integration "opik" "Opik"
     "open-source tracing, prompt versioning, and CI-friendly tests"
     "open trace export lane" ["task_trace"; "phoenix_spans"; "trajectory_quality"]
     []
     ["MESH_EVAL_OPIK_API_KEY"; "OPIK_API_KEY"] ["MESH_EVAL_OPIK_ENDPOINT"; "OPIK_URL"]
     ["MESH_EVAL_OPIK_PROJECT"; "OPIK_PROJECT_NAME"] ["MESH_EVAL_OPIK_ACCOUNT"; "OPIK_WORKSPACE"];
   Integration "weave" "Weave"
     "Weights & Biases eval dashboards, versioning, and experiment comparison"
     "dashboard export lane" ["trajectory_quality"; "behavioral_scores"; "verifier"]
     []
     ["MESH_EVAL_WEAVE_API_KEY"; "WEAVE_API_KEY"; "WANDB_API_KEY"] ["MESH_EVAL_WEAVE_ENDPOINT"; "WANDB_BASE_URL"]
     ["MESH_EVAL_WEAVE_PROJECT"; "WANDB_PROJECT"] ["MESH_EVAL_WEAVE_ACCOUNT"; "WANDB_ENTITY"];
   Integration "maxim_ai" "Maxim AI"
     "prompt building, simulation, and continuous eval workflows"
     "simulation and prompt-workflow lane" ["task_trace.context.scenario_analysis"; "trajectory_quality"; "verifier"]
     []
     ["MESH_EVAL_MAXIM_AI_API_KEY"; "MAXIM_API_KEY"; "MAXIM_AI_API_KEY"] ["MESH_EVAL_MAXIM_AI_ENDPOINT"; "MAXIM_API_BASE_URL"]
     ["MESH_EVAL_MAXIM_AI_PROJECT"; "MAXIM_PROJECT"] ["MESH_EVAL_MAXIM_AI_ACCOUNT"];
   Integration "zenml" "ZenML"
     "reusable evaluation pipelines with lineage and governance"
     "pipeline lineage lane" ["task_trace"; "stage_results"; "mesh_eval"]
     []
     ["MESH_EVAL_ZENML_API_KEY"; "ZENML_STORE_API_KEY"] ["MESH_EVAL_ZENML_ENDPOINT"; "ZENML_STORE_URL"]
     ["MESH_EVAL_ZENML_PROJECT"] ["MESH_EVAL_ZENML_ACCOUNT"];
   Integration "arize_phoenix" "Arize Phoenix"
     "local-first debugging, hallucination checks, and RAG analysis"
     "span and RAG-debug lane" ["phoenix_spans"; "task_trace.context.evidence_pack"; "verifier"]
     []
     ["MESH_EVAL_ARIZE_PHOENIX_API_KEY"; "PHOENIX_API_KEY"; "ARIZE_API_KEY"] ["MESH_EVAL_ARIZE_PHOENIX_ENDPOINT"; "PHOENIX_COLLECTOR_ENDPOINT"; "PHOENIX_ENDPOINT"]
     ["MESH_EVAL_ARIZE_PHOENIX_PROJECT"; "PHOENIX_PROJECT_NAME"; "ARIZE_SPACE_KEY"] ["MESH_EVAL_ARIZE_PHOENIX_ACCOUNT"; "ARIZE_ORG_KEY"]].

Definition EVALUATION_INTEGRATION_IDS : list string := map in_id EVALUATION_INTEGRATIONS.

Definition LANE_ALIASES : list (string * string) :=
  [("arize", "arize_phoenix"); ("phoenix", "arize_phoenix"); ("arize_phoenix", "arize_phoenix"); ("confident", "deepeval");
   ("confident_ai", "deepeval"); ("deep_eval", "deepeval"); ("maxim", "maxim_ai"); ("maxim_ai", "maxim_ai")].

(** [_normalize_lane_id] *)
Definition normalize_lane_id (raw : string) : string :=
  let lane := DateTime.str_replace "/" "_" (DateTime.str_replace " " "_" (DateTime.str_replace "-" "_" (py_lower (str_strip raw)))) in
  default lane (alookup lane LANE_ALIASES).

Definition normalize_integration_lanes (raw : option string) : list string :=
  let given := match raw with Some s => if String.eqb s "" then "all" else s | None => "all" end in
  let v := py_lower (str_strip given) in
  if mem_str v [""; "all"; "*"] then EVALUATION_INTEGRATION_IDS
  else fold_left (λ lanes lane, if mem_str lane lanes then lanes else lanes ++ [lane])
         (List.filter (λ lane, mem_str lane EVALUATION_INTEGRATION_IDS) (map normalize_lane_id (split_commas v))) [].

(** [asdict(integration)] *)
Definition integration_dict (i : EvaluationIntegration) : dict :=
  [("integration_id", VStr (in_id i)); ("display_name", VStr (in_display_name i)); ("best_for", VStr (in_best_for i));
   ("native_role", VStr (in_native_role i)); ("native_artifacts", strs (in_native_artifacts i));
   ("optional_external_config", strs (in_external_config i));
   ("account_config", VDict
      [("credential_env", strs (in_credential_env i)); ("endpoint_env", strs (in_endpoint_env i));
       ("project_env", strs (in_project_env i)); ("account_env", strs (in_account_env i))])].

Section environment.
(** The environment variables. *)
Context (env : string → option string).

(** [env.get(name, "").strip()] *)
Definition env_text (name : string) : string := str_strip (default "" (env name)).

Definition first_configured (names : list string) : option string :=
  List.find (λ name, negb (String.eqb (env_text name) "")) names.

Definition safe_ref (name : option string) : option string :=
  match name with
  | None => None
  | Some name =>
      let v := env_text name in
      if String.eqb v "" then None
      else if Nat.leb (length (utf8_chars v)) 80 then Some v
      else Some (String.concat "" (take 77 (utf8_chars v)) +:+ "...")
  end.

(** [_truthy] *)
Definition switched_on (v : option string) : bool := mem_str (str_lower (str_strip (default "" v))) ["1"; "true"; "yes"; "on"].

(** [str.upper] of the identifiers above *)
Definition upper_char (c : ascii) : ascii :=
  let z := byte_z c in if (97 <=? z) && (z <=? 122) then ascii_of_N (Z.to_N (z - 32)) else c.
Definition id_upper (s : string) : string := chars_str (map upper_char (str_chars s)).

Definition export_enabled (integration_id : string) : bool :=
  switched_on (env ("MESH_EVAL_" +:+ id_upper integration_id +:+ "_EXPORT_ENABLED"))
  || switched_on (env "MESH_EVAL_EXPORT_ENABLED").

Definition configured (name : option string) : value := VBool (match name with Some _ => true | None => false end).

Definition account_connection (i : EvaluationIntegration) : dict :=
  let credential := first_configured (in_credential_env i) in
  let endpoint := first_configured (in_endpoint_env i) in
  let project := first_configured (in_project_env i) in
  let account := first_configured (in_account_env i) in
  let command := first_configured (in_external_config i) in
  let configured_vars := omap id [credential; endpoint; project; account; command] in
  [("status", VStr (if some_items configured_vars then "connected" else "not_configured"));
   ("credential_configured", configured credential); ("endpoint_configured", configured endpoint);
   ("project_configured", configured project); ("account_configured", configured account);
   ("command_configured", configured command); ("configured_env", strs configured_vars);
   ("account_ref", opt_str (match safe_ref account with Some r => Some r | None => safe_ref project end));
   ("outbound_export_enabled", VBool (export_enabled (in_id i)));
   ("notes", strs [if some_items configured_vars then "credentials are redacted; Mesh records configuration state only"
                   else "set Mesh-owned account variables or existing vendor variables to connect this lane"])].

(** [_integration_status] *)
Definition integration_status (i : EvaluationIntegration) (trace stage_results : dict) (phoenix_spans : list value) : string :=
  let among := λ ids, mem_str (in_id i) ids in
  let context := dict_of "context" trace in
  let rag := truthy (dgetN "evidence_pack" context) || truthy (dgetN "reasoning_bank_packet" context) in
  if (among ["arize_phoenix"] && some_items phoenix_spans)
     || (among ["ragas"; "trulens"; "arize_phoenix"] && rag)
     || (among ["maxim_ai"] && truthy (dgetN "scenario_analysis" context))
     || (among ["promptfoo"; "deepeval"; "weave"] && truthy (dgetN "trajectory_quality" stage_results))
     || (among ["langsmith"; "opik"; "zenml"] && some_items trace)
     || (among ["braintrust"] && truthy (dgetN "blocker_analysis" stage_results))
  then "native_artifacts_ready" else "declared".

Definition build_evaluation_stack (requested_lanes : list string) (trace stage_results : dict) (phoenix_spans : list value) : dict :=
  let lanes := if some_items requested_lanes then requested_lanes else EVALUATION_INTEGRATION_IDS in
  let integrations := omap (λ lane, List.find (λ i, String.eqb (in_id i) lane) EVALUATION_INTEGRATIONS) lanes in
  [("version", VStr "mesh_evaluation_stack_v1"); ("authority", VStr "mesh_native");
   ("native_gates", strs ["schema_validation"; "policy_validation"; "contract_checks"; "trajectory_quality"; "verifier";
                          "evidence_sufficiency"; "remediation_safety"]);
   ("external_authority", VStr "disabled");
   ("integrations", VList (map (λ i, VDict
      (integration_dict i
       ++ [("authority", VStr "advisory"); ("status", VStr (integration_status i trace stage_results phoenix_spans));
           ("account_connection", VDict (account_connection i))])) integrations))].
End environment.

(** ** The judge *)

Record SreCheck := Check_ { ck_name : string; ck_verdict : string; ck_reason : string }.

Record SreJudgment := Judgment {
  jd_recommendation : string;
  jd_confidence : float;
  jd_risk_assessment : string;
  jd_missing_evidence : list string;
  jd_sre_rationale : string;
  jd_required_followups : list string;
  jd_checks : list SreCheck;
  jd_model : string;
  jd_agreement : option bool;
  jd_raw_judgments : list dict;
  jd_error : option string }.

Definition check_dict (c : SreCheck) : dict :=
  [("name", VStr (ck_name c)); ("verdict", VStr (ck_verdict c)); ("reason", VStr (ck_reason c))].

Definition judgment_dict (j : SreJudgment) : dict :=
  [("recommendation", VStr (jd_recommendation j)); ("confidence", VFloat (f_round (f_clamp (jd_confidence j)) 3));
   ("risk_assessment", VStr (jd_risk_assessment j)); ("missing_evidence", strs (jd_missing_evidence j));
   ("sre_rationale", VStr (jd_sre_rationale j)); ("required_followups", strs (jd_required_followups j));
   ("checks", dicts (map check_dict (jd_checks j))); ("model", VStr (jd_model j));
   ("agreement", match jd_agreement j with Some b => VBool b | None => VNone end);
   ("raw_judgments", dicts (jd_raw_judgments j)); ("error", opt_str (jd_error j))].

(** A judgment with the defaults of the class. *)
Definition plain_judgment (recommendation : string) (confidence : float) (risk rationale model : string) (error : option string)
    : SreJudgment :=
  Judgment recommendation confidence risk [] rationale [] [] model None [] error.

Definition RECOMMENDATION_RANK : list (string * Z) := [("execute", 0); ("defer", 1); ("human_review", 2); ("reject", 3)].

(** A judge: what [evaluate] does. *)
Definition judge : Type := dict → dict → dict → list string → res SreJudgment.

Definition HARD_BLOCKERS : list string :=
  ["falls outside"; "human review"; "risk level is high"; "not idempotent"; "required credentials"; "approval required";
   "not allowlisted"].
Definition is_hard_blocker (reason : string) : bool := existsb (λ token, str_contains token (py_lower reason)) HARD_BLOCKERS.

(** [d.get(key, default)] *)
Definition get_default (v : value) (key : string) (default : value) : res value :=
  match v with VDict d => Ok (dget_or key default d) | _ => py_get v key end.

(** [_missing_evidence_from_decision] *)
Definition missing_evidence_from_decision (decision : dict) : res (list string) :=
  pack ← get_default (dgetN "reasoning" decision) "evidence_pack" (VDict []);
  let artifact := dict_of "evidence_pack_artifact" (dict_or_empty pack) in
  missing ← py_iter (dget_or "missing_fields" (VList []) artifact);
  Ok (map py_str missing).

(** [NativeSreJudge.evaluate] *)
Definition native_judge : judge := λ trigger decision stage_results blocking_reasons,
  evidence ← py_get (dgetN "reasoning" decision) "evidence";
  level ← py_get (dgetN "risk" decision) "level";
  let verdict := λ b : bool, if b then "pass" else "fail" in
  let joined := str_join "; " blocking_reasons in
  let checks :=
    [Check_ "decision_has_evidence" (verdict (truthy evidence)) "decision includes evidence";
     Check_ "risk_level" (verdict (negb (is_string "high" level))) ("risk=" +:+ py_str level);
     Check_ "blocking_reasons" (verdict (negb (some_items blocking_reasons))) (if String.eqb joined "" then "none" else joined)] in
  let '(recommendation, rationale) :=
    if is_string "defer_until" (dgetN "decision_type" decision)
    then ("defer", "Decision explicitly requests a timed recheck before action.")
    else if existsb is_hard_blocker blocking_reasons then ("human_review", "Hard safety or review blockers are present.")
    else if some_items blocking_reasons then ("human_review", "Evaluation has unresolved blockers.")
    else ("execute", "No blockers remain after policy and readiness checks.") in
  risk ← get_default (dgetN "risk" decision) "level" (VStr "medium");
  missing ← missing_evidence_from_decision decision;
  let execute := String.eqb recommendation "execute" in
  Ok (Judgment recommendation (if execute then lit 75 2 else lit 65 2) (py_str risk) missing rationale
        (if execute then [] else ["human review or additional evidence"]) checks "native" None [] None).

(** [_judgment_from_payload] *)
Definition stated_items (payload : value) (key : string) : res (list string) :=
  items ← (v ← get_default payload key (VList []); py_iter v);
  Ok (map py_str (List.filter truthy items)).

Definition judgment_from_payload (payload : value) (model : string) : res SreJudgment :=
  given ← get_default payload "recommendation" (VStr "human_review");
  let given := str_strip (py_str given) in
  let recommendation := match alookup given RECOMMENDATION_RANK with Some _ => given | None => "human_review" end in
  confidence ← (v ← get_default payload "confidence" (VFloat (S754_zero false));
                match py_float v with
                | Ok f => Ok f
                | Err e => if isinstance_exc (exc_cls e) TypeError || isinstance_exc (exc_cls e) ValueError
                           then Ok (S754_zero false) else Err e
                end);
  items ← (v ← get_default payload "checks" (VList []); py_iter v);
  let checks := omap (λ item, d ← as_dict item;
    Some (Check_ (py_str (dget_or "name" (VStr "unknown") d)) (py_str (dget_or "verdict" (VStr "unknown") d))
            (py_str (dget_or "reason" (VStr "") d)))) items in
  risk ← get_default payload "risk_assessment" (VStr "medium");
  missing ← stated_items payload "missing_evidence";
  rationale ← get_default payload "sre_rationale" (VStr "");
  followups ← stated_items payload "required_followups";
  Ok (Judgment recommendation confidence (py_str risk) missing (py_str rationale) followups checks model None [] None).

(** [LlmSreJudge.evaluate].  [prompt] redacts and prints the payload, [ask] is
    the completion: [inl] is an [ObserverClientError] with its message. *)
Definition llm_judge (is_configured : bool) (model : string) (prompt : dict → res string) (ask : string → string + res value) : judge :=
  λ trigger decision stage_results blocking_reasons,
    if negb is_configured then
      Ok (plain_judgment "human_review" (S754_zero false) "high" "LLM SRE judge is not configured."
            (if String.eqb model "" then "llm_unconfigured" else model) (Some "sre_judge_unconfigured"))
    else
      t ← to_dict Trigger trigger;
      d ← to_dict Decision decision;
      message ← prompt [("trigger", VDict t); ("decision", VDict d); ("evaluation_stage_results", VDict stage_results);
                        ("blocking_reasons", strs blocking_reasons)];
      let failed := λ detail, Ok (plain_judgment "human_review" (S754_zero false) "high"
                                    "SRE judge failed; route to human review." model (Some detail)) in
      match ask message with
      | inl detail => failed detail
      | inr (Err e) =>
          if isinstance_exc (exc_cls e) ValueError || isinstance_exc (exc_cls e) TypeError then failed (exc_str e) else Err e
      | inr (Ok parsed) => judgment_from_payload parsed model
      end.

(** [_most_conservative] of two: is it the second? *)
Definition rank_of (recommendation : string) : Z := default 2 (alookup recommendation RECOMMENDATION_RANK).
Definition second_is_stricter (a b : SreJudgment) : bool := rank_of (jd_recommendation a) <? rank_of (jd_recommendation b).

Definition with_agreement (agreement : bool) (j : SreJudgment) : SreJudgment :=
  Judgment (jd_recommendation j) (jd_confidence j) (jd_risk_assessment j) (jd_missing_evidence j) (jd_sre_rationale j)
    (jd_required_followups j) (jd_checks j) (jd_model j) (Some agreement) (jd_raw_judgments j) (jd_error j).

(** The fields of the chosen judgment that are set last. *)
Definition with_raw (raw : list dict) (model : string) (j : SreJudgment) : SreJudgment :=
  Judgment (jd_recommendation j) (jd_confidence j) (jd_risk_assessment j) (jd_missing_evidence j) (jd_sre_rationale j)
    (jd_required_followups j) (jd_checks j) model (jd_agreement j) raw (jd_error j).

(** [MultiModelSreJudge.evaluate].  The chosen judgment is one of the two
    objects, so the copy of it in [raw_judgments] has its agreement already. *)
Definition multi_judge (primary : judge) (secondary : option judge) : judge :=
  λ trigger decision stage_results blocking_reasons,
    a ← primary trigger decision stage_results blocking_reasons;
    match secondary with
    | None => Ok a
    | Some secondary =>
        b ← secondary trigger decision stage_results blocking_reasons;
        let agreement := String.eqb (jd_recommendation a) (jd_recommendation b) in
        let model := jd_model a +:+ "+" +:+ jd_model b in
        let chosen := if second_is_stricter a b then b else a in
        if negb agreement && String.eqb (jd_recommendation chosen) "execute" then
          Ok (with_raw [judgment_dict a; judgment_dict b] model
                (with_agreement agreement
                   (plain_judgment "human_review" (f_max (jd_confidence a) (jd_confidence b)) "medium"
                      "SRE judges disagreed; route to human review." model None)))
        else if second_is_stricter a b then
          let b := with_agreement agreement b in Ok (with_raw [judgment_dict a; judgment_dict b] model b)
        else
          let a := with_agreement agreement a in Ok (with_raw [judgment_dict a; judgment_dict b] model a)
    end.

(** ** What the judges say *)

(** Two judges are never more lenient than either: their recommendation ranks as
    the stricter of the two at least, so that "execute" takes both. *)
Lemma multi_judge_strict primary secondary t d stages blocking j :
  multi_judge primary (Some secondary) t d stages blocking = Ok j →
  ∃ a b, primary t d stages blocking = Ok a ∧ secondary t d stages blocking = Ok b
    ∧ rank_of (jd_recommendation a) <= rank_of (jd_recommendation j)
    ∧ rank_of (jd_recommendation b) <= rank_of (jd_recommendation j).
Proof.
  unfold multi_judge. intros H. apply res_bind_Ok in H as (a & Ha & H). apply res_bind_Ok in H as (b & Hb & H).
  exists a, b. split; [done|]. split; [done|]. revert H. unfold second_is_stricter. cbv zeta.
  destruct (Z.ltb_spec (rank_of (jd_recommendation a)) (rank_of (jd_recommendation b)));
    (destruct (negb _ && _) eqn:E; intros [= <-]; cbn [jd_recommendation with_raw with_agreement plain_judgment];
     [apply andb_true_iff in E as [_ E]; apply String.eqb_eq in E; rewrite E in *; cbn in *; lia|lia]).
Qed.

(** A language model that answers with a null where a list is expected takes
    the evaluation down with it, while an answer that is no JSON at all is routed
    to a human. *)
Theorem judge_null_field_raises risk model :
  judgment_from_payload (VDict [("recommendation", VStr "execute"); ("risk_assessment", VStr risk); ("missing_evidence", VNone)]) model
  = raise TypeError (repr_str "NoneType" +:+ " object is not iterable").
Proof. reflexivity. Qed.
