(* ===== verification/Evaluation.v ===== *)
(** * The evaluation of a decision

    [src/services/evaluation/service.py]: [evaluate] runs a decision through the
    policies, the evidence and safety gates, the score of its trajectory and the
    judge, and says whether it may be executed.  With it the ledger of evaluated
    triggers of [src/shared/mesh_runtime/state.py].  Files, environment, clocks,
    the history of outcomes, the probe of the token service and the judge are
    arguments; run events are the records of the event log. *)

From S2P Require Import Prelude PyFloat PyValue PyNumbers Json Paths JsonStore Models SchemaValidation Contracts StateStore.
From S2P Require Import RegistryFile ConnectorCertification AutonomyPolicy EvidenceSufficiency RemediationSafety.
From S2P Require Import ReviewBlockers Trajectory EvaluationAdvice.
#[local] Open Scope Z_scope.

(** ** The policies of [policies/] *)

Definition ALLOWED_DECISION_TYPES : list string :=
  ["no_action"; "reduce_rollout"; "disable_flag"; "defer_until"; "escalate"; "investigate_and_patch"; "rollback_deployment";
   "restart_deployment"; "restart_pod"; "scale_deployment"; "cordon_node"; "drain_node"; "argocd_sync"; "argocd_rollback";
   "restart_systemd_service"].
Definition ALLOWED_EXECUTION_ACTIONS : list (string * list string) :=
  [("feature_flag_service", ["set_rollout"]); ("incident_service", ["open_incident"]);
   ("audit_log_sink", ["record_no_action"; "record_defer_until"]); ("repo_patch_service", ["investigate_and_patch"]);
   ("kubernetes_service", ["rollback_deployment"; "restart_deployment"; "restart_pod"; "scale_deployment"; "cordon_node";
                           "drain_node"]);
   ("argocd_service", ["sync_application"; "rollback_application"]); ("systemd_service", ["restart_systemd_service"])].
Definition ALLOWED_EXECUTION_SYSTEMS : list string :=
  ["feature_flag_service"; "incident_service"; "audit_log_sink"; "repo_patch_service"; "kubernetes_service"; "argocd_service";
   "systemd_service"].
Definition IDEMPOTENT_ACTIONS : list string :=
  ["set_rollout"; "open_incident"; "record_no_action"; "record_defer_until"; "investigate_and_patch"; "rollback_deployment";
   "restart_deployment"; "restart_pod"; "scale_deployment"; "cordon_node"; "sync_application"; "rollback_application";
   "restart_systemd_service"].
Definition APPROVAL_REQUIRED_TIERS : list string := ["strategic"; "platinum"].
Definition ROLLBACK_PLAN_TYPES : list string :=
  ["reduce_rollout"; "disable_flag"; "investigate_and_patch"; "rollback_deployment"; "restart_deployment"].
Definition MINIMUM_CONFIDENCE : float := lit 75 2.

(** ** The ledger of evaluated triggers *)

(** [RuntimeStateStore.register_evaluation]: was the trigger new? *)
Definition register_trigger (trigger_id : string) (decision_id : value) (now : string) (payload : dict) : res (bool * dict) :=
  match dsetdefault "evaluated_triggers" (VDict []) payload with
  | (VDict records, payload') =>
      if is_none (dgetN trigger_id records) then
        let record := VDict [("decision_id", decision_id); ("recorded_at", VStr now)] in
        Ok (true, dset "evaluated_triggers" (VDict (dset trigger_id record records)) payload')
      else Ok (false, payload')
  | (other, _) => raise AttributeError (repr_str (type_name other) +:+ " object has no attribute 'get'")
  end.

Definition register_evaluation (path : string) (f : file) (trigger_id : string) (decision_id : value) (now : string)
    : res bool * file :=
  locked_json true path f (register_trigger trigger_id decision_id now).

(** ** Configuration *)

(** The members of [RuntimeConfig] that are read, and the requested lanes of
    [MeshEvalConfig]. *)
Record evaluation_config := EvaluationConfig {
  readiness_profile : string;
  certification_registry : option string;
  feature_flag_credentials : bool;
  incident_credentials : bool;
  audit_logging : bool;
  kubernetes_live : bool;
  force_approval_gate : bool;
  ssh_allowed_hosts : list string;
  ssh_allowed_services : list string;
  judge_enforces : bool;
  evaluated_path : string;
  lanes : list string }.

(** What is asked outside of the service. *)
Record surroundings := Surroundings {
  su_root : Paths.path;
  su_files : file_tree;
  su_exists : string → res bool;
  su_env : string → option string;
  su_history : history_source;
  su_probe : option dict → option dict → res dict;
  su_run_events : string → list RunEvent;
  su_run_artifacts : string → dict;
  su_judge : judge;
  su_clock : nat → string }.

(** ** Helpers *)

(** [v > n] and [v < x] for numbers *)
Definition py_above (v : value) (n : Z) : res bool :=
  match num_of v with
  | Some x => Ok (match num_compare x (inl n) with Some Gt => true | _ => false end)
  | None => raise TypeError ("'>' not supported between instances of " +:+ repr_str (type_name v) +:+ " and 'int'")
  end.
Definition py_below (v : value) (x : float) : res bool :=
  match num_of v with
  | Some y => Ok (match num_compare y (inr x) with Some Lt => true | _ => false end)
  | None => raise TypeError ("'<' not supported between instances of " +:+ repr_str (type_name v) +:+ " and 'float'")
  end.

(** One note for each condition that holds. *)
Definition notes_of (l : list (bool * string)) : list string := map snd (List.filter fst l).

(** [_approval_observed] *)
Definition approval_event (e : RunEvent) : bool :=
  let payload := ev_payload e in
  let text := λ key, py_lower (py_str (py_or (dgetN key payload) (VStr ""))) in
  let event_type := py_lower (py_str (py_or (dgetN "event_type" payload) (VStr (ev_event_type e)))) in
  (str_contains "approval" event_type && mem_str (text "outcome") ["approved"; "accepted"; "succeeded"])
  || mem_str (text "command") ["approve"; "approved"].

Definition approval_observed (run_events : list RunEvent) (artifacts : dict) : bool :=
  existsb approval_event run_events
  || match dgetN "approval_records" artifacts with VList (_ :: _) => true | _ => false end.

Definition live_execution_enabled (cfg : evaluation_config) (system : value) : bool :=
  is_string "kubernetes_service" system && kubernetes_live cfg.

(** [_scenario_review_reasons] *)
Definition scenario_review_reasons (decision : dict) : res (list string) :=
  pack ← get_default (dgetN "reasoning" decision) "evidence_pack" (VDict []);
  analysis ← get_default pack "scenario_analysis" (VDict []);
  reasons ← get_default analysis "required_review_reasons" (VList []);
  Ok (match reasons with VList l => map py_str l | _ => [] end).

(** ** The single checks *)

(** [trigger.validate()] and [decision.validate()]: the message of a schema error. *)
Definition schema_error (trigger decision : dict) : res (option string) :=
  match (_ ← validate Trigger trigger; validate Decision decision) with
  | Ok _ => Ok None
  | Err e => if isinstance_exc (exc_cls e) SchemaValidationError then Ok (Some (exc_str e)) else Err e
  end.

(** What the policy says of type and plan. *)
Record plan_check := PlanCheck {
  pl_system : value;
  pl_action : value;
  pl_type_allowed : bool;
  pl_system_allowed : bool;
  pl_action_allowed : bool;
  pl_idempotent : bool }.

Definition check_plan (decision : dict) : res plan_check :=
  system ← subscript (dgetN "execution_plan" decision) "system";
  action ← subscript (dgetN "execution_plan" decision) "action";
  actions ← (match system with
             | VList _ | VDict _ => raise TypeError ("unhashable type: " +:+ repr_str (type_name system))
             | VStr s => Ok (default [] (alookup s ALLOWED_EXECUTION_ACTIONS))
             | _ => Ok []
             end);
  Ok (PlanCheck system action (str_in (dgetN "decision_type" decision) ALLOWED_DECISION_TYPES)
        (str_in system ALLOWED_EXECUTION_SYSTEMS) (str_in action actions) (str_in action IDEMPOTENT_ACTIONS)).

Definition policy_notes (plan : plan_check) (duplicate allow_rereevaluation : bool) : list string :=
  notes_of
    [(negb (pl_type_allowed plan), "decision type falls outside the allowed action set");
     (negb (pl_system_allowed plan) || negb (pl_action_allowed plan), "execution plan falls outside the allowed action set");
     (duplicate && negb allow_rereevaluation, "duplicate evaluation suppressed for trigger_id")].

Definition business_notes (trigger decision : dict) : res (list string) :=
  customer_tier ← subscript (dgetN "segment" trigger) "customer_tier";
  rollbacks ← get_default (dgetN "related_context" trigger) "rollbacks_last_24h" (VInt 0);
  repeated_rollback ← py_above rollbacks 0;
  blast_radius ← subscript (dgetN "risk" decision) "blast_radius";
  let autonomous := is_string "autonomous" (dgetN "autonomy_tier" decision) in
  let multi := str_startswith "multi_" (py_str blast_radius) in
  Ok (notes_of
    [(autonomous && (str_in customer_tier APPROVAL_REQUIRED_TIERS || repeated_rollback || multi),
      "scope requires approval before execution");
     (is_string "approval_required" (dgetN "autonomy_tier" decision), "approval required before execution");
     (repeated_rollback && autonomous, "recent rollback cooldown conflict");
     (is_string "escalate" (dgetN "decision_type" decision)
      && negb (is_string "webhook_alert_firing" (dgetN "trigger_type" trigger)), "decision routes to human review")]).

Definition credentials_available (cfg : evaluation_config) (trigger : dict) (system : value) : res value :=
  let context := dgetN "related_context" trigger in
  feature_flag ← get_default context "feature_flag_credentials_available" (VBool (feature_flag_credentials cfg));
  incident ← get_default context "incident_credentials_available" (VBool (incident_credentials cfg));
  audit ← get_default context "audit_logging_available" (VBool (audit_logging cfg));
  cluster ← get_default context "cluster_access_available" (VBool true);
  let also := λ v, if truthy v then audit else v in
  Ok (if is_string "feature_flag_service" system then also feature_flag
      else if is_string "incident_service" system then also incident
      else if is_string "kubernetes_service" system then also (VBool (truthy cluster))
      else audit).

(** A text that is not empty, and a list that is not. *)
Definition full_text (v : value) : bool := is_str v && truthy v.
Definition full_list (v : value) : bool := is_list v && truthy v.

(** [_repo_patch_ready]: the notes; ready when there are none. *)
Definition repo_patch_notes (su : surroundings) (decision : dict) : res (list string) :=
  system ← subscript (dgetN "execution_plan" decision) "system";
  if negb (is_string "repo_patch_service" system) then Ok []
  else
    parameters ← get_default (dgetN "execution_plan" decision) "parameters" (VDict []);
    repo_path ← py_get parameters "repo_path";
    allowed_paths ← py_get parameters "allowed_paths";
    patch_template ← py_get parameters "patch_template";
    test_commands ← py_get parameters "test_commands";
    found ← (match repo_path with VStr s => if String.eqb s "" then Ok false else su_exists su s | _ => Ok false end);
    Ok (notes_of
          [(negb found, "repo path is missing or does not exist");
           (negb (full_list allowed_paths), "allowed repo patch paths are missing");
           (negb (full_list test_commands), "bounded test commands are missing")]
        ++ match patch_template with
           | VDict template =>
               notes_of (map (λ key, (negb (full_text (dgetN key template)), "patch template field `" +:+ key +:+ "` is missing"))
                           ["target_file"; "find"; "replace"])
           | _ => ["patch template is missing"]
           end).

(** [s.endswith(p)] *)
Definition str_endswith (p s : string) : bool :=
  String.eqb (str_drop (String.length s - String.length p) s) p.

(** [host.split("@", 1)\[-1\].strip()] *)
Definition bare_host (host : string) : string :=
  str_strip (match split_at "@" host with Some (_, rest) => rest | None => host end).

(** [_systemd_service_ready] *)
Definition systemd_notes (cfg : evaluation_config) (decision : dict) : res (list string) :=
  system ← subscript (dgetN "execution_plan" decision) "system";
  if negb (is_string "systemd_service" system) then Ok []
  else
    parameters ← get_default (dgetN "execution_plan" decision) "parameters" (VDict []);
    host ← py_get parameters "host";
    service ← py_get parameters "service";
    let host_unlisted := match host with VStr h => negb (mem_str (bare_host h) (ssh_allowed_hosts cfg)) | _ => false end in
    let service_unlisted :=
      match service with
      | VStr s =>
          let canonical := if str_endswith ".service" s then s else s +:+ ".service" in
          negb (mem_str s (ssh_allowed_services cfg)) && negb (mem_str canonical (ssh_allowed_services cfg))
      | _ => false
      end in
    Ok (notes_of
          [(negb (full_text host), "systemd host is missing"); (negb (full_text service), "systemd service is missing");
           (negb (some_items (ssh_allowed_hosts cfg)), "systemd host allowlist is empty");
           (some_items (ssh_allowed_hosts cfg) && host_unlisted, "systemd host is not allowlisted");
           (negb (some_items (ssh_allowed_services cfg)), "systemd service allowlist is empty");
           (some_items (ssh_allowed_services cfg) && service_unlisted, "systemd service is not allowlisted")]).

(** ** The readiness of a plan *)

(** The notes, and the value of [readiness_passed], which is what
    [credentials_available] is when that is false. *)
Definition readiness (cfg : evaluation_config) (su : surroundings) (trigger decision : dict) (plan : plan_check)
    : res (list string * value) :=
  rollback_plan ← py_get (dgetN "execution_plan" decision) "rollback_plan";
  let rollback_missing := str_in (dgetN "decision_type" decision) ROLLBACK_PLAN_TYPES && negb (truthy rollback_plan) in
  credentials ← credentials_available cfg trigger (pl_system plan);
  repo_notes ← repo_patch_notes su decision;
  host_notes ← systemd_notes cfg decision;
  unsure ← py_below (dgetN "confidence" decision) MINIMUM_CONFIDENCE;
  level ← subscript (dgetN "risk" decision) "level";
  sure ← py_ge (dgetN "confidence" decision) (inr MINIMUM_CONFIDENCE);
  let high := is_string "high" level in
  let ready := negb rollback_missing && pl_idempotent plan && sure && negb high
               && negb (some_items repo_notes) && negb (some_items host_notes) in
  Ok (notes_of
        [(unsure, "confidence below minimum threshold"); (high, "risk level is high");
         (negb (pl_idempotent plan), "action is not idempotent"); (rollback_missing, "rollback parameters are missing");
         (negb (truthy credentials), "required credentials are unavailable")] ++ repo_notes ++ host_notes,
      if truthy credentials then VBool ready else credentials).

Definition readiness_default_notes (system : value) : list string :=
  [if is_string "feature_flag_service" system then "feature flag credentials available"
   else if is_string "incident_service" system then "incident credentials available"
   else "audit logging available"; "rollback value present"].

(** ** The trace and its stages *)

Definition or_default (l default : list string) : list string := if some_items l then l else default.

(** The trace of [evaluate] and [evaluate_trace], with its temperature. *)
Definition traced (trace : dict) : res dict :=
  policy ← temperature_policy_for_trace trace; Ok (dset "temperature_policy" (VDict policy) trace).

(** [artifact_payload], for a run with what the state store has of it *)
Definition artifact_payload (su : surroundings) (trigger decision : option dict) (run_id : option string) (artifacts : dict)
    : res dict :=
  probe ← su_probe su trigger decision;
  let payload := dset "mesh_eval" (VDict probe) artifacts in
  match run_id with
  | None => Ok payload
  | Some run_id =>
      probe ← su_probe su trigger decision;
      Ok (dset "mesh_eval" (VDict probe) (dupdate payload (su_run_artifacts su run_id)))
  end.

(** The trace at the evaluation gate, its score and the verifier's verdict. *)
Definition evaluation_trajectory (su : surroundings) (trigger decision : dict) (run_id : option string)
    (run_events : list RunEvent) (artifacts : dict) : res (dict * TraceScore * dict) :=
  payload ← artifact_payload su (Some trigger) (Some decision) run_id artifacts;
  let events := match run_events, run_id with [], Some run_id => su_run_events su run_id | _, _ => run_events end in
  trace ← traced (build_trace (Some trigger) (Some decision) None None None events payload);
  s ← score_trace trace;
  verified ← verify_trace trace;
  Ok (trace, s, verified).

(** ** The verdict *)

(** What the judge adds to the blocking reasons, and whether it rejects. *)
Definition judge_reasons (enforces : bool) (recommendation : string) (blocking_reasons : list string) : list string :=
  (if enforces && mem_str recommendation ["human_review"; "defer"] && negb (some_items blocking_reasons)
   then ["sre judge recommends " +:+ recommendation] else [])
  ++ (if enforces && String.eqb recommendation "reject" then ["sre judge rejected decision"] else []).

Definition final_recommendation (reject blocked judge_defers : bool) : string :=
  let first := if reject then "reject" else if blocked then "human_review" else "execute" in
  if negb reject && judge_defers then "human_review" else first.

(** The stages before the trajectory. *)
Record gates := Gates {
  g_schema_validation : dict;
  g_policy_validation : dict;
  g_business_rules : dict;
  g_execution_readiness : dict;
  g_evidence_sufficiency : dict;
  g_autonomy : AutonomyPolicyVerdict;
  g_safety : RemediationSafetyCase;
  g_reject : bool;
  g_blocking : list string }.

Definition run_gates (cfg : evaluation_config) (su : surroundings) (trigger decision : dict) (invalid : option string)
    (plan : plan_check) (duplicate allow_rereevaluation : bool) (approved : bool) : res gates :=
  let policy := policy_notes plan duplicate allow_rereevaluation in
  business ← business_notes trigger decision;
  ready ← readiness cfg su trigger decision plan;
  let '(readiness_notes, readiness_passed) := (ready : list string * value) in
  sufficiency ← evaluate_evidence_sufficiency trigger decision;
  autonomy ← evaluate_autonomy_policy (su_root su) (su_files su) decision None (certification_registry cfg)
               (readiness_profile cfg) None None None approved (live_execution_enabled cfg (pl_system plan))
               (force_approval_gate cfg);
  let blocking :=
    option_list invalid ++ policy ++ business ++ readiness_notes
    ++ (if truthy (dgetN "passed" sufficiency) then [] else ["evidence sufficiency gate did not pass"])
    ++ blockers autonomy in
  let policy_passed := pl_type_allowed plan && pl_system_allowed plan && pl_action_allowed plan
                       && (allow_rereevaluation || negb duplicate) in
  case ← evaluate_remediation_safety trigger decision (su_history su) blocking true (bool_decide (invalid = None))
           policy_passed (truthy readiness_passed) DEFAULT_THRESHOLD;
  Ok (Gates
        (match invalid with None => [("passed", VBool true)] | Some m => [("passed", VBool false); ("notes", strs [m])] end)
        [("passed", VBool policy_passed); ("notes", strs policy)]
        [("passed", VBool (negb (some_items business)));
         ("notes", strs (or_default business ["single-service scope"; "no cooldown conflict"]))]
        [("passed", readiness_passed); ("notes", strs (or_default readiness_notes (readiness_default_notes (pl_system plan))))]
        sufficiency autonomy case (some_items policy) (blocking ++ option_list (safety_blocking_reason case))).

(** [preliminary_stage_results], in the order of the source *)
Definition stage_results (cfg : evaluation_config) (su : surroundings) (g : gates) (blocking review_reasons : list string)
    (trace : dict) (trajectory : TraceScore) (verified : dict) (phoenix_spans : list value) : dict :=
  let quality := VDict (trace_score_dict trajectory) in
  let sufficiency := VDict (g_evidence_sufficiency g) in
  let autonomy := VDict (verdict_to_dict (g_autonomy g)) in
  let analysis := VDict (classify_blocking_reasons blocking review_reasons) in
  let stack := build_evaluation_stack (su_env su) (lanes cfg) trace
                 [("trajectory_quality", quality); ("verifier", VDict verified); ("evidence_sufficiency", sufficiency);
                  ("autonomy_policy", autonomy); ("blocker_analysis", analysis)] phoenix_spans in
  [("schema_validation", VDict (g_schema_validation g)); ("policy_validation", VDict (g_policy_validation g));
   ("contract_checks", VDict (summarize (g_schema_validation g) (g_policy_validation g) (g_business_rules g)
                                (g_execution_readiness g) (case_to_dict (g_safety g))));
   ("trajectory_quality", quality); ("behavioral_scores", VDict (ts_artifacts trajectory)); ("verifier", VDict verified);
   ("business_rules", VDict (g_business_rules g)); ("execution_readiness", VDict (g_execution_readiness g));
   ("evidence_sufficiency", sufficiency); ("autonomy_policy", autonomy);
   ("remediation_safety", VDict (case_to_dict (g_safety g))); ("blocker_analysis", analysis);
   ("evaluation_stack", VDict stack); ("phoenix_spans", VList phoenix_spans)].

(** From the gates to the result. *)
Definition conclude (cfg : evaluation_config) (su : surroundings) (trigger decision : dict) (run_id : option string)
    (run_events : list RunEvent) (artifacts : dict) (g : gates) : res dict :=
  scored ← evaluation_trajectory su trigger decision run_id run_events artifacts;
  let '(trace, trajectory, verified) := (scored : dict * TraceScore * dict) in
  let blocking := g_blocking g ++ (if ts_passed trajectory then [] else ["trajectory quality gate did not pass"]) in
  review_reasons ← scenario_review_reasons decision;
  spans ← build_phoenix_spans trace (su_clock su);
  let stages := stage_results cfg su g blocking review_reasons trace trajectory verified spans in
  judgment ← su_judge su trigger decision stages blocking;
  let opinion := jd_recommendation judgment in
  let reasons := blocking ++ judge_reasons (judge_enforces cfg) opinion blocking in
  let reject := g_reject g || (judge_enforces cfg && String.eqb opinion "reject") in
  let ok := negb (some_items reasons) in
  let result :=
    [("evaluation_id", VStr ("eval_" +:+ py_str (dgetN "decision_id" decision))); ("decision_id", dgetN "decision_id" decision);
     ("passed", VBool ok);
     ("final_recommendation", VStr (final_recommendation reject (some_items reasons)
                                      (judge_enforces cfg && String.eqb opinion "defer")));
     ("stage_results", VDict
        (dset "blocker_analysis" (VDict (classify_blocking_reasons reasons review_reasons))
           (dset "sre_judgment" (VDict (judgment_dict judgment)) stages)));
     ("blocking_reasons", strs reasons);
     ("review_route", if negb ok && negb reject then VStr "human_review" else VNone)] in
  _ ← validate EvaluationResult result;
  Ok result.

(** [EvaluationService.evaluate] *)
Definition evaluate (cfg : evaluation_config) (su : surroundings) (f : file) (trigger decision : dict)
    (allow_rereevaluation : bool) (run_id : option string) (run_events : list RunEvent) (artifacts : dict) (now : string)
    : res dict * file :=
  match (invalid ← schema_error trigger decision; plan ← check_plan decision; Ok (invalid, plan)) with
  | Err e => (Err e, f)
  | Ok (invalid, plan) =>
      let '(accepted, f') :=
        match invalid with
        | Some _ => (Ok true, f)
        | None => register_evaluation (evaluated_path cfg) f (py_str (dgetN "trigger_id" trigger))
                    (dgetN "decision_id" decision) now
        end in
      (accepted ← accepted;
       g ← run_gates cfg su trigger decision invalid plan (negb accepted) allow_rereevaluation
             (approval_observed run_events artifacts);
       conclude cfg su trigger decision run_id run_events artifacts g, f')
  end.

(** [EvaluationService.evaluate_trace]; [events] are those of the run. *)
Definition evaluate_trace (cfg : evaluation_config) (su : surroundings) (trigger decision evaluation execution feedback : option dict)
    (run_events : list RunEvent) (artifacts : dict) : res dict :=
  payload ← artifact_payload su trigger decision None artifacts;
  trace ← traced (build_trace trigger decision evaluation execution feedback run_events payload);
  s ← score_trace trace;
  verified ← verify_trace trace;
  spans ← build_phoenix_spans trace (su_clock su);
  let stack := build_evaluation_stack (su_env su) (lanes cfg) trace
                 [("trajectory_quality", VDict (trace_score_dict s)); ("verifier_output", VDict verified)] spans in
  Ok [("task_trace", VDict trace); ("trajectory_score", VDict (trace_score_dict s)); ("verifier_output", VDict verified);
      ("phoenix_spans", VList spans); ("evaluation_stack", VDict stack)].
