(* ===== verification/EvaluationTheorems.v ===== *)
(** * What an evaluation decides

    The verdict of [evaluate] (see [Evaluation]) in terms of the conditions it
    stands for, the ledger that lets a trigger through once, and what follows for
    the actions of [execute] (see [Orchestrator]). *)

From S2P Require Import Prelude PyFloat PyValue PyNumbers Json Paths JsonStore Models SchemaValidation Contracts StateStore PacketFacts.
From S2P Require Import RegistryFile ConnectorCertification AutonomyPolicy EvidenceSufficiency RemediationSafety.
From S2P Require Import ReviewBlockers Trajectory EvaluationAdvice Evaluation.
From S2P Require Import PermitLedgerFacts HsaiBridge RunMachine Orchestrator OrchestratorTheorems OrchestratorExamples.
#[local] Open Scope Z_scope.

(** ** What an evaluation decides *)

Lemma notes_nil l : notes_of l = [] ↔ Forall (λ c, c.1 = false) l.
Proof.
  unfold notes_of. induction l as [|[b m] l IH]; [by split|]. rewrite Forall_cons, <- IH. cbn [List.filter map fst].
  destruct b; cbn; [|tauto]. by split; [|intros [? _]].
Qed.

Lemma some_items_false {A} (l : list A) : some_items l = false ↔ l = [].
Proof. by destruct l. Qed.

(** Type and plan are among those the policy allows. *)
Definition plan_allowed (plan : plan_check) : bool :=
  pl_type_allowed plan && pl_system_allowed plan && pl_action_allowed plan.

Lemma policy_notes_nil plan duplicate allow :
  policy_notes plan duplicate allow = [] ↔ plan_allowed plan = true ∧ (duplicate = false ∨ allow = true).
Proof.
  unfold policy_notes, plan_allowed. rewrite notes_nil, !Forall_cons, Forall_nil. cbn [fst].
  destruct (pl_type_allowed plan), (pl_system_allowed plan), (pl_action_allowed plan), duplicate, allow; cbn; intuition congruence.
Qed.

(** What the business rules and the readiness checks ask, as conditions. *)
Record business_clear (trigger decision : dict) : Prop := BusinessClear {
  bc_no_approval : dgetN "autonomy_tier" decision ≠ VStr "approval_required";
  bc_routed : dgetN "decision_type" decision = VStr "escalate" → dgetN "trigger_type" trigger = VStr "webhook_alert_firing";
  bc_autonomous : dgetN "autonomy_tier" decision = VStr "autonomous" →
    ∃ tier rollbacks blast, subscript (dgetN "segment" trigger) "customer_tier" = Ok tier
      ∧ str_in tier APPROVAL_REQUIRED_TIERS = false
      ∧ get_default (dgetN "related_context" trigger) "rollbacks_last_24h" (VInt 0) = Ok rollbacks ∧ py_above rollbacks 0 = Ok false
      ∧ subscript (dgetN "risk" decision) "blast_radius" = Ok blast ∧ str_startswith "multi_" (py_str blast) = false }.

Lemma business_notes_nil trigger decision notes :
  business_notes trigger decision = Ok notes → (notes = [] ↔ business_clear trigger decision).
Proof.
  unfold business_notes. intros H. res_inv H. cbv zeta in *. rewrite notes_nil, !Forall_cons, Forall_nil. cbn [fst].
  rewrite !andb_false_iff, negb_false_iff, !orb_false_iff. split.
  - intros (Ha & Hr & Hc & He & _). split.
    + intros E. by rewrite E in Hr.
    + intros E. rewrite E in He. destruct He as [He|He]; [done|by apply is_string_true].
    + intros E. rewrite E in Ha, Hc. destruct Ha as [Ha|[[Ha1 Ha2] Ha3]]; [done|]. subst. eauto 10.
  - intros [Ha He Hc]. split; [|split; [|split; [|split; [|done]]]].
    + destruct (is_string "autonomous" _) eqn:E; [|by left]. right. apply is_string_true in E.
      destruct (Hc E) as (? & ? & ? & H1 & H2 & H3 & H4 & H5 & H6). split; [split|]; congruence.
    + destruct (is_string "approval_required" _) eqn:E; [|done]. by apply is_string_true in E.
    + destruct (is_string "autonomous" _) eqn:E; [|by right]. left. apply is_string_true in E.
      destruct (Hc E) as (? & ? & ? & H1 & H2 & H3 & H4 & H5 & H6). congruence.
    + destruct (is_string "escalate" _) eqn:E; [|by left]. right. apply is_string_true in E. rewrite (He E). done.
Qed.

Record plan_ready (cfg : evaluation_config) (su : surroundings) (trigger decision : dict) (plan : plan_check) : Prop := PlanReady {
  pr_idempotent : pl_idempotent plan = true;
  pr_confident : py_ge (dgetN "confidence" decision) (inr MINIMUM_CONFIDENCE) = Ok true;
  pr_risk : ∃ level, subscript (dgetN "risk" decision) "level" = Ok level ∧ level ≠ VStr "high";
  pr_rollback : str_in (dgetN "decision_type" decision) ROLLBACK_PLAN_TYPES = true →
    ∃ v, py_get (dgetN "execution_plan" decision) "rollback_plan" = Ok v ∧ truthy v = true;
  pr_credentials : ∃ v, credentials_available cfg trigger (pl_system plan) = Ok v ∧ truthy v = true;
  pr_repo_patch : repo_patch_notes su decision = Ok [];
  pr_systemd : systemd_notes cfg decision = Ok [] }.

(** A confidence that is at least the minimum is not below it. *)
Lemma sure_not_unsure v x : py_ge v (inr x) = Ok true → py_below v x = Ok false.
Proof.
  unfold py_ge, py_below. destruct (num_of v) as [n|]; [|done]. by destruct (num_compare n (inr x)) as [[]|].
Qed.

Lemma readiness_decides cfg su trigger decision plan notes ready :
  readiness cfg su trigger decision plan = Ok (notes, ready) →
  (notes = [] ∧ truthy ready = true ↔ plan_ready cfg su trigger decision plan).
Proof.
  unfold readiness. intros H. apply res_bind_Ok in H as (rb & Hrb & H). apply res_bind_Ok in H as (cr & Hcr & H).
  apply res_bind_Ok in H as (rn & Hrn & H). apply res_bind_Ok in H as (hn & Hhn & H).
  apply res_bind_Ok in H as (un & Hun & H). apply res_bind_Ok in H as (lv & Hlv & H). apply res_bind_Ok in H as (su' & Hsu & H).
  cbv zeta in H. injection H as <- <-. rewrite !app_nil, notes_nil, !Forall_cons, Forall_nil. cbn [fst].
  rewrite andb_false_iff, !negb_false_iff. split.
  - intros [((_ & Hh & Hi & Hro & Hcred & _) & -> & ->) Ht]. rewrite Hcred in Ht. cbn [truthy] in Ht.
    rewrite !andb_true_iff in Ht. destruct Ht as [[[[[_ _] Hge] _] _] _]. rewrite Hge in Hsu. split; try done; eauto.
    + exists lv. split; [done|]. intros ->. done.
    + intros Ht. destruct Hro as [Hro|Hro]; [congruence|]. eauto.
  - intros [Hi Hge (lv' & Hl & Hn) Hr (cr' & Hc & Ht) Hrp Hsy].
    rewrite Hge in Hsu. injection Hsu as <-. pose proof (sure_not_unsure _ _ Hge) as Hu.
    assert (un = false) as -> by congruence. assert (lv' = lv) as -> by congruence. assert (cr' = cr) as -> by congruence.
    assert (rn = []) as -> by congruence. assert (hn = []) as -> by congruence.
    assert (is_string "high" lv = false) as -> by (destruct (is_string "high" lv) eqn:E; [by apply is_string_true in E|done]).
    rewrite Ht, Hi. assert (str_in (dgetN "decision_type" decision) ROLLBACK_PLAN_TYPES = false ∨ truthy rb = true) as Hx.
    { destruct (str_in _ _); [right|by left]. destruct (Hr eq_refl) as (v & Hv & Hv'). congruence. }
    split; [tauto|]. cbn [truthy]. destruct Hx as [-> | ->]; [done|]. by rewrite andb_false_r.
Qed.

(** A safety case that passes had its schema, policy and readiness in order. *)
Lemma safety_needs_checks trigger decision h prior sp pp rp thr case :
  evaluate_remediation_safety trigger decision h prior true sp pp rp thr = Ok case → RemediationSafety.passed case = true →
  sp = true ∧ pp = true ∧ rp = true.
Proof.
  unfold evaluate_remediation_safety. intros H. apply res_bind_Ok in H as (c & _ & H). cbv zeta in H.
  apply res_bind_Ok in H as (stops & Hs & H). apply res_bind_Ok in H as (w & _ & H). apply res_bind_Ok in H as (refs & _ & H).
  injection H as <-. cbn [RemediationSafety.passed]. destruct stops; [|done]. intros _.
  by destruct (proj1 (hard_stops_nil _ _ _ _ _ _ _ _ Hs) eq_refl) as (? & ? & ? & _).
Qed.

Lemma safety_prior h trigger decision prior prior' pf sp pp rp thr :
  evaluate_remediation_safety trigger decision h prior pf sp pp rp thr
  = evaluate_remediation_safety trigger decision h prior' pf sp pp rp thr.
Proof. reflexivity. Qed.

Lemma safety_reason_nil case : option_list (safety_blocking_reason case) = [] ↔ RemediationSafety.passed case = true.
Proof. unfold safety_blocking_reason. destruct (RemediationSafety.passed case); [done|]. by destruct (hard_stops case). Qed.

(** A verdict without blockers allows. *)
Lemma allowed_no_blockers root files decision gt rp profile gc gs gr approval live force v :
  evaluate_autonomy_policy root files decision gt rp profile gc gs gr approval live force = Ok v →
  (blockers v = [] ↔ allowed v = true).
Proof.
  unfold evaluate_autonomy_policy. intros H. res_inv H. cbn [blockers allowed]. by rewrite sorted_set_nil, no_items_true.
Qed.

(** The trajectory at the gate. *)
Definition trajectory_clear (su : surroundings) (trigger decision : dict) (run_id : option string) (run_events : list RunEvent)
    (artifacts : dict) : Prop :=
  ∃ trace s verified, evaluation_trajectory su trigger decision run_id run_events artifacts = Ok (trace, s, verified)
    ∧ ts_passed s = true.

(** Nothing the gates look at stands against the decision. *)
Record gates_clear (cfg : evaluation_config) (su : surroundings) (trigger decision : dict) (fresh allow approved : bool) : Prop :=
  GatesClear {
  gc_valid : validate Trigger trigger = Ok () ∧ validate Decision decision = Ok ();
  gc_plan : ∃ plan, check_plan decision = Ok plan ∧ plan_allowed plan = true ∧ plan_ready cfg su trigger decision plan;
  gc_fresh : fresh = true ∨ allow = true;
  gc_business : business_clear trigger decision;
  gc_evidence : ∃ packet, evaluate_evidence_sufficiency trigger decision = Ok packet ∧ truthy (dgetN "passed" packet) = true;
  gc_autonomy : ∃ plan v, check_plan decision = Ok plan
    ∧ evaluate_autonomy_policy (su_root su) (su_files su) decision None (certification_registry cfg) (readiness_profile cfg)
        None None None approved (live_execution_enabled cfg (pl_system plan)) (force_approval_gate cfg) = Ok v
    ∧ allowed v = true;
  gc_safety : ∃ case, evaluate_remediation_safety trigger decision (su_history su) [] true true true true DEFAULT_THRESHOLD = Ok case
    ∧ RemediationSafety.passed case = true }.

Lemma schema_error_none trigger decision :
  schema_error trigger decision = Ok None ↔ validate Trigger trigger = Ok () ∧ validate Decision decision = Ok ().
Proof.
  unfold schema_error. destruct (validate Trigger trigger) as [[]|e]; cbn [mbind res_bind].
  - destruct (validate Decision decision) as [[]|e]; [done|]. destruct (isinstance_exc _ _); (split; [discriminate|intros [? ?]; discriminate]).
  - destruct (isinstance_exc _ _); (split; [discriminate|intros [? ?]; discriminate]).
Qed.

Lemma run_gates_decides cfg su trigger decision invalid plan duplicate allow approved g :
  schema_error trigger decision = Ok invalid → check_plan decision = Ok plan →
  run_gates cfg su trigger decision invalid plan duplicate allow approved = Ok g →
  (g_blocking g = [] ↔ gates_clear cfg su trigger decision (negb duplicate) allow approved)
  ∧ (g_reject g = true ↔ plan_allowed plan = false ∨ duplicate = true ∧ allow = false).
Proof.
  intros Hinv Hplan H. unfold run_gates in H. cbv zeta in H.
  apply res_bind_Ok in H as (business & Hb & H). apply res_bind_Ok in H as ([notes ready] & Hr & H).
  apply res_bind_Ok in H as (suff & Hsf & H). apply res_bind_Ok in H as (auto & Ha & H). apply res_bind_Ok in H as (case & Hc & H).
  injection H as <-. cbn [g_blocking g_reject].
  split.
  - rewrite !app_nil, policy_notes_nil, (business_notes_nil _ _ _ Hb), (allowed_no_blockers _ _ _ _ _ _ _ _ _ _ _ _ _ Ha), safety_reason_nil.
    split.
    + intros [(Hi & [Hpa Hfresh] & Hbc & Hn & Hev & Hal) Hp].
      destruct (safety_needs_checks _ _ _ _ _ _ _ _ _ Hc Hp) as (Hsp & Hpp & Hrp).
      assert (invalid = None) as -> by by destruct invalid. rewrite Hsp, Hpp, Hrp in Hc.
      assert (plan_ready cfg su trigger decision plan) by by eapply readiness_decides.
      split; [| |destruct Hfresh as [->|]; [by left|by right]|done| | |by exists case].
      * by apply schema_error_none.
      * by exists plan.
      * exists suff. split; [done|]. by destruct (truthy _).
      * by exists plan, auto.
    + intros [Hv (plan' & Hp' & Hpa & Hrd) Hfresh Hbc (suff' & Hs' & Hsp) (plan'' & v & Hp'' & Hv' & Hal) (case' & Hc' & Hcp)].
      assert (plan' = plan) as -> by congruence. assert (plan'' = plan) as -> by congruence. assert (suff' = suff) as -> by congruence.
      assert (v = auto) as -> by congruence. apply schema_error_none in Hv. assert (invalid = None) as -> by congruence.
      apply (readiness_decides _ _ _ _ _ _ _ Hr) in Hrd as [-> Hrd]. unfold plan_allowed in Hpa. rewrite Hrd, Hpa in Hc.
      assert (allow || negb duplicate = true) as Hf by (by destruct Hfresh as [-> | ->]; [apply orb_true_r|]).
      rewrite Hf, bool_decide_true in Hc by done. cbn [andb] in Hc. rewrite (safety_prior _ _ _ _ []) in Hc.
      assert (case' = case) as -> by congruence. rewrite Hsp. split; [|done]. split; [done|]. split; [|done].
      split; [done|]. destruct duplicate; [right; by destruct allow|by left].
  - assert (some_items (policy_notes plan duplicate allow) = true ↔ policy_notes plan duplicate allow ≠ []) as ->
      by by destruct (policy_notes plan duplicate allow).
    rewrite policy_notes_nil. destruct (plan_allowed plan), duplicate, allow; intuition congruence.
Qed.

(** What the judge of a result said, and whether that stops an execution. *)
Definition opinion_of (result : dict) : value := dgetN "recommendation" (dict_of "sre_judgment" (dict_of "stage_results" result)).

Definition judge_consents (enforces : bool) (opinion : value) : Prop :=
  enforces = true → str_in opinion ["human_review"; "defer"; "reject"] = false.

Definition judge_rejects (enforces : bool) (opinion : value) : Prop := enforces = true ∧ opinion = VStr "reject".

(** The verdict of the gates and the judge. *)
Lemma judged_verdict enforces opinion blocking rejected :
  (rejected = true → blocking ≠ []) →
  let reasons := blocking ++ judge_reasons enforces opinion blocking in
  let reject := rejected || (enforces && String.eqb opinion "reject") in
  let verdict := final_recommendation reject (some_items reasons) (enforces && String.eqb opinion "defer") in
  (VStr verdict = VStr "execute" ↔ blocking = [] ∧ judge_consents enforces (VStr opinion))
  ∧ (VBool (negb (some_items reasons)) = VBool true ↔ VStr verdict = VStr "execute")
  ∧ (VStr verdict = VStr "reject" ↔ rejected = true ∨ judge_rejects enforces (VStr opinion)).
Proof.
  intros Hr. unfold judge_reasons, judge_consents, judge_rejects, final_recommendation, mem_str. cbn [str_in existsb].
  assert (VStr opinion = VStr "reject" ↔ String.eqb opinion "reject" = true) as ->.
  { rewrite String.eqb_eq. split; [by intros [=]|by intros ->]. }
  destruct (String.eqb_spec opinion "reject") as [->|]; [|destruct (String.eqb_spec opinion "defer") as [->|]];
    try destruct (String.eqb opinion "human_review"); destruct enforces, rejected, blocking; cbn in *; intuition congruence.
Qed.

Lemma conclude_decides cfg su trigger decision run_id run_events artifacts g r :
  conclude cfg su trigger decision run_id run_events artifacts g = Ok r → (g_reject g = true → g_blocking g ≠ []) →
  (dgetN "final_recommendation" r = VStr "execute" ↔
     g_blocking g = [] ∧ trajectory_clear su trigger decision run_id run_events artifacts
     ∧ judge_consents (judge_enforces cfg) (opinion_of r))
  ∧ (dgetN "passed" r = VBool true ↔ dgetN "final_recommendation" r = VStr "execute")
  ∧ (dgetN "final_recommendation" r = VStr "reject" ↔ g_reject g = true ∨ judge_rejects (judge_enforces cfg) (opinion_of r))
  ∧ dgetN "decision_id" r = dgetN "decision_id" decision ∧ validate EvaluationResult r = Ok ().
Proof.
  unfold conclude. intros H Hrej. apply res_bind_Ok in H as ([[trace s] verified] & Ht & H). cbv zeta in H.
  apply res_bind_Ok in H as (reviews & _ & H). apply res_bind_Ok in H as (spans & _ & H).
  apply res_bind_Ok in H as (j & _ & H). apply res_bind_Ok in H as ([] & Hv & H). injection H as <-.
  match goal with |- context [opinion_of ?r] => change (opinion_of r) with (VStr (jd_recommendation j)) end.
  set (blocking := g_blocking g ++ _) in *.
  destruct (judged_verdict (judge_enforces cfg) (jd_recommendation j) blocking (g_reject g)) as (He & Hp & Hr).
  { intros E. specialize (Hrej E). subst blocking. by destruct (g_blocking g). }
  split; [|split; [|split; [|split]]]; [|exact Hp|exact Hr|reflexivity|exact Hv].
  etransitivity; [exact He|]. subst blocking. unfold trajectory_clear. rewrite Ht, app_nil. split.
  - intros [[Hg Hs] Hj]. split; [done|]. split; [|done]. exists trace, s, verified. by destruct (ts_passed s).
  - intros (Hg & (? & ? & ? & [= <- <- <-] & ->) & Hj). done.
Qed.

(** Is the ledger going to take the trigger for a new one? *)
Definition new_trigger (cfg : evaluation_config) (f : file) (trigger decision : dict) (now : string) : bool :=
  match register_evaluation (evaluated_path cfg) f (py_str (dgetN "trigger_id" trigger)) (dgetN "decision_id" decision) now with
  | (Ok accepted, _) => accepted
  | _ => false
  end.

Lemma evaluate_decides cfg su f trigger decision allow run_id run_events artifacts now r f' :
  evaluate cfg su f trigger decision allow run_id run_events artifacts now = (Ok r, f') →
  let fresh := new_trigger cfg f trigger decision now in
  (dgetN "final_recommendation" r = VStr "execute" ↔
     gates_clear cfg su trigger decision fresh allow (approval_observed run_events artifacts)
     ∧ trajectory_clear su trigger decision run_id run_events artifacts ∧ judge_consents (judge_enforces cfg) (opinion_of r))
  ∧ (dgetN "passed" r = VBool true ↔ dgetN "final_recommendation" r = VStr "execute")
  ∧ (dgetN "final_recommendation" r = VStr "reject" ↔
     (∃ plan, check_plan decision = Ok plan ∧ plan_allowed plan = false)
     ∨ (schema_error trigger decision = Ok None ∧ fresh = false ∧ allow = false)
     ∨ judge_rejects (judge_enforces cfg) (opinion_of r))
  ∧ dgetN "decision_id" r = dgetN "decision_id" decision ∧ validate EvaluationResult r = Ok ().
Proof.
  unfold evaluate, new_trigger. destruct (schema_error trigger decision) as [invalid|] eqn:Hi; cbn [mbind res_bind]; [|done].
  destruct (check_plan decision) as [plan|] eqn:Hplan; cbn [mbind res_bind]; [|done].
  destruct (register_evaluation _ f _ _ now) as [accepted g'] eqn:Hreg.
  assert (match invalid with Some _ => (Ok true, f) | None => (accepted, g') end
          = (match invalid with Some _ => Ok true | None => accepted end, match invalid with Some _ => f | None => g' end))
    as -> by by destruct invalid.
  intros [= H _]. apply res_bind_Ok in H as (acc & Hacc & H). apply res_bind_Ok in H as (g & Hg & H).
  destruct (run_gates_decides _ _ _ _ _ _ _ _ _ _ Hi Hplan Hg) as [Hb Hrj]. rewrite negb_involutive in Hb.
  assert (g_reject g = true → g_blocking g ≠ []) as Himp.
  { rewrite Hrj, Hb. intros Hw [_ (plan' & Hp' & Hpa & _) Hf _ _ _ _]. destruct acc, Hw as [Hw|[? ?]], Hf; cbn in *; congruence. }
  destruct (conclude_decides _ _ _ _ _ _ _ _ _ H Himp) as (He & Hp & Hr & Hrest).
  split; [|split; [exact Hp|split; [|exact Hrest]]].
  - rewrite He, Hb. destruct invalid as [m|]; [|by rewrite Hacc].
    assert (∀ b b', ¬ gates_clear cfg su trigger decision b allow b') as Hno by
      (intros b b' [Hv _ _ _ _ _ _]; apply schema_error_none in Hv; congruence).
    split; intros [Hg' _]; by apply Hno in Hg'.
  - rewrite Hr, Hrj. assert (plan_allowed plan = false ↔ ∃ plan', Ok plan = Ok plan' ∧ plan_allowed plan' = false) as ->.
    { split; [eauto|]. by intros (? & [= <-] & ?). }
    destruct invalid as [m|]; [injection Hacc as <-|rewrite Hacc; destruct acc]; cbn; intuition congruence.
Qed.

(** ** The ledger of evaluated triggers *)

(** A section over a file that cannot be read starts from nothing. *)
Lemma locked_json_corrupt {A} path f (body : dict → res (A * dict)) a d' :
  file_payload f = None → body [] = Ok (a, d') →
  ∃ f1, file_payload f1 = None ∧ is_Some (f_text f1) ∧ locked_json true path f body = (Ok a, locked_exit [] true d' f1).
Proof.
  unfold locked_json, locked_enter, load_payload, file_payload.
  destruct (f_text f) as [[|raw|[]]|] eqn:Hf; intros ? Hb; try done;
    cbn [default from_option id negb andb]; rewrite Hb; eexists; (split; [|split; [|reflexivity]]); cbn; by rewrite Hf.
Qed.

(** A section that ends normally: what its body left is on the file, whether
    the file was missing, readable or replaced. *)
Lemma locked_json_reads {A} path f (body : dict → res (A * dict)) a f' :
  locked_json true path f body = (Ok a, f') →
  ∃ d d', body d = Ok (a, d') ∧ (∀ x, file_payload f = Some x → d = x)
    ∧ ∀ k ks s, dpath (k :: ks) (VDict d') = Some (VStr s) → file_has f' (k :: ks) s.
Proof.
  intros H. destruct (file_payload f) as [d|] eqn:Hd.
  - destruct (body d) as [[x d']|e] eqn:Hb; [|by rewrite (locked_json_Err _ _ _ _ _ _ Hd Hb) in H].
    rewrite (locked_json_Ok _ _ _ _ _ _ _ Hd Hb) in H. injection H as -> <-. exists d, d'. split; [done|].
    split; [by intros ? [= ->]|]. intros k ks s Hs. by apply locked_exit_has.
  - unfold locked_json, locked_enter, load_payload, file_payload in *.
    destruct (f_text f) as [[|raw|[]]|] eqn:Hf; cbn [default from_option id negb andb] in H; try done;
      (destruct (body []) as [[x d']|e] eqn:Hb; [|done]); injection H as -> <-; exists [], d'; (split; [done|split; [done|]]);
      intros k ks t Ht; unfold locked_exit; cbn [f_text backup_corrupt_json negb andb]; rewrite Hf; cbn [negb andb orb];
      exists (sort_dict d'); (split; [done|]); rewrite <- json_sort_dict; by apply dpath_sort.
Qed.

(** The place of a trigger's record. *)
Definition recorded (f : file) (trigger_id at_time : string) : Prop :=
  file_has f ["evaluated_triggers"; trigger_id; "recorded_at"] at_time.

Lemma recorded_table trigger_id t d :
  dpath ["evaluated_triggers"; trigger_id; "recorded_at"] (VDict d) = Some (VStr t) →
  ∃ records r, dget "evaluated_triggers" d = Some (VDict records) ∧ dget trigger_id records = Some (VDict r)
    ∧ dget "recorded_at" r = Some (VStr t).
Proof.
  cbn [dpath]. destruct (dget "evaluated_triggers" d) as [[| | | | | |records]|]; try done.
  destruct (dget trigger_id records) as [[| | | | | |r]|] eqn:Er; try done. destruct (dget "recorded_at" r) as [x|] eqn:E; [|done].
  intros [= ->]. by exists records, r.
Qed.

Section ledger.
Context (path : string).

Lemma register_new f id decision_id now f' :
  register_evaluation path f id decision_id now = (Ok true, f') → recorded f' id now.
Proof.
  intros H. apply locked_json_reads in H as (d & d' & Hb & _ & Hf'). apply Hf'. unfold register_trigger in Hb.
  destruct (dsetdefault _ _ d) as [[| | | | | |records] d1]; try done. destruct (is_none _); [|done]. injection Hb as <-.
  rewrite dpath_dset_same. rewrite dpath_dset_same. done.
Qed.

Lemma register_known f id decision_id now t :
  recorded f id t → register_evaluation path f id decision_id now = (Ok false, f).
Proof.
  intros (d & Hd & Ht). apply recorded_table in Ht as (records & r & He & Hr & _).
  unfold register_evaluation. rewrite (locked_json_Ok _ _ _ d _ false d Hd).
  - by rewrite locked_exit_unchanged by by left.
  - unfold register_trigger, dsetdefault. rewrite He. unfold dgetN, dget_or. by rewrite Hr.
Qed.

Lemma register_keeps f id id' decision_id now t :
  recorded f id t → recorded (register_evaluation path f id' decision_id now).2 id t.
Proof.
  apply locked_json_keeps. intros d a d' Hs Hb.
  pose proof (recorded_table _ _ _ Hs) as (records & r & He & Hr & Ht). unfold register_trigger, dsetdefault in Hb. rewrite He in Hb.
  destruct (is_none (dgetN id' records)) eqn:Hn; [|by injection Hb as _ <-]. injection Hb as _ <-. cbn [dpath].
  rewrite dget_dset_eq, dget_dset. destruct (String.eqb_spec id id') as [->|_].
  - exfalso. revert Hn. unfold dgetN, dget_or. by rewrite Hr.
  - by rewrite Hr, Ht.
Qed.
End ledger.

(** ** The ledger's type *)

Definition record_type (r : value) : Prop :=
  ∃ e decision_id at_time, r = VDict e ∧ dget "decision_id" e = Some decision_id ∧ dget "recorded_at" e = Some (VStr at_time).

Definition ledger_type (d : dict) : Prop :=
  ∀ v, dget "evaluated_triggers" d = Some v → ∃ records, v = VDict records ∧ ∀ id r, dget id records = Some r → record_type r.

(** A file whose payload, if it has one, is a ledger. *)
Definition ledger_file (f : file) : Prop := ∀ d, file_payload f = Some d → ledger_type d.

Lemma record_type_sorted r : record_type r → record_type (json_sort r).
Proof.
  intros (e & i & t & -> & Hi & Ht). exists (sort_dict e), (json_sort i), t. rewrite json_sort_dict, !dget_sort_dict, Hi, Ht. done.
Qed.

Lemma ledger_type_sorted d : ledger_type d → ledger_type (sort_dict d).
Proof.
  intros Hd v. rewrite dget_sort_dict. destruct (dget "evaluated_triggers" d) as [x|] eqn:E; [|done]. intros [= <-].
  destruct (Hd _ E) as (records & -> & Hr). exists (sort_dict records). split; [apply json_sort_dict|].
  intros id r. rewrite dget_sort_dict. destruct (dget id records) as [y|] eqn:Ey; [|done]. intros [= <-].
  apply record_type_sorted. by eapply Hr.
Qed.

(** A section that ends normally with a ledger leaves one. *)
Lemma locked_exit_ledger f d (corrupt : bool) d' :
  file_payload f = (if corrupt then None else Some d) → ledger_type d' → (corrupt = false → ledger_type d) →
  ledger_file (locked_exit d corrupt d' f).
Proof.
  intros Hf Hd' Hd. unfold locked_exit. cbv zeta.
  match goal with |- ledger_file (if ?b then _ else _) => destruct b eqn:E end.
  - intros x [= <-]. by apply ledger_type_sorted.
  - intros x Hx. destruct corrupt; [congruence|]. rewrite Hf in Hx. injection Hx as <-. by apply Hd.
Qed.

(** [register_evaluation] on a ledger. *)
Lemma register_trigger_typed d id decision_id now :
  ledger_type d →
  ∃ accepted d', register_trigger id decision_id now d = Ok (accepted, d') ∧ ledger_type d'
    ∧ (accepted = true ↔ ∀ records, dget "evaluated_triggers" d = Some (VDict records) → dget id records = None).
Proof.
  intros Hd. unfold register_trigger, dsetdefault. destruct (dget "evaluated_triggers" d) as [w|] eqn:Ew.
  - destruct (Hd _ Ew) as (records & -> & Hr). destruct (dget id records) as [r|] eqn:Eid.
    + destruct (Hr _ _ Eid) as (e & i & t & -> & _). unfold dgetN, dget_or. rewrite Eid. eexists _, _. split; [reflexivity|].
      split; [done|]. split; [done|]. intros H. specialize (H records eq_refl). congruence.
    + unfold dgetN, dget_or. rewrite Eid. eexists _, _. split; [reflexivity|]. split; [|split; [by intros _ ? [= <-]|done]].
      intros v. rewrite dget_dset_eq. intros [= <-]. eexists. split; [done|]. intros id' r. rewrite dget_dset.
      destruct (String.eqb id' id); [|apply Hr]. intros [= <-]. by eexists _, _, _.
  - eexists _, _. split; [reflexivity|]. split; [|done]. intros v. rewrite dget_dset_eq. intros [= <-]. eexists. split; [done|].
    intros id' r. simpl. destruct (String.eqb _ _); [|done]. intros [= <-]. by eexists _, _, _.
Qed.

(** C23: The ledger of evaluated triggers keeps its type: on a file that is
    missing, blank, unreadable or holds a ledger (a table of records with a
    decision and a time under ["evaluated_triggers"]), [register_evaluation]
    never raises, leaves such a file, and accepts exactly the triggers that the
    ledger it read has no record of. *)
Theorem register_evaluation_typed path f id decision_id now :
  ledger_file f →
  ∃ accepted f', register_evaluation path f id decision_id now = (Ok accepted, f') ∧ ledger_file f'
    ∧ (accepted = true ↔
       ∀ d records, file_payload f = Some d → dget "evaluated_triggers" d = Some (VDict records) → dget id records = None).
Proof.
  intros Hf. unfold register_evaluation. destruct (file_payload f) as [d|] eqn:Hd.
  - destruct (register_trigger_typed d id decision_id now (Hf _ Hd)) as (accepted & d' & Hb & Ht & Ha).
    exists accepted, (locked_exit d false d' f). split; [by apply locked_json_Ok|]. split.
    + apply locked_exit_ledger; [done..|]. intros _. by apply Hf.
    + rewrite Ha. split; [intros H ? ? [= <-]; apply H|intros H records; by apply H].
  - destruct (register_trigger_typed [] id decision_id now) as (accepted & d' & Hb & Ht & Ha); [done|].
    destruct (locked_json_corrupt path f (register_trigger id decision_id now) accepted d' Hd Hb) as (f1 & H1 & _ & ->).
    exists accepted, (locked_exit [] true d' f1). split; [done|]. split; [by apply locked_exit_ledger|].
    rewrite Ha. done.
Qed.

Lemma register_evaluation_typed_witness :
  ∃ f1, register_evaluation "e" no_file "t1" (VStr "d1") "now" = (Ok true, f1) ∧ ledger_file f1
    ∧ ∃ f2, register_evaluation "e" f1 "t1" (VStr "d1") "now" = (Ok false, f2).
Proof.
  destruct (register_evaluation_typed "e" no_file "t1" (VStr "d1") "now") as (a & f1 & H & Hf & Ha).
  - intros d [= <-] v Hv. discriminate Hv.
  - assert (a = true) as -> by (apply Ha; intros d records [= <-] He; discriminate He).
    exists f1. split; [exact H|]. split; [exact Hf|]. vm_compute in H. injection H as <-. eexists. vm_compute. reflexivity.
Defined.

(** ** A trigger is let through once *)

Lemma evaluate_file cfg su f trigger decision allow run_id run_events artifacts now :
  (evaluate cfg su f trigger decision allow run_id run_events artifacts now).2 = f
  ∨ (evaluate cfg su f trigger decision allow run_id run_events artifacts now).2
    = (register_evaluation (evaluated_path cfg) f (py_str (dgetN "trigger_id" trigger)) (dgetN "decision_id" decision) now).2.
Proof.
  unfold evaluate. destruct (schema_error trigger decision) as [[m|]|]; cbn [mbind res_bind]; try (by left);
    (destruct (check_plan decision); cbn [mbind res_bind]; [|by left]); [by left|]. right.
  by destruct (register_evaluation _ f _ _ now).
Qed.

(** One evaluation in a sequence; what is outside of the service may be
    different each time. *)
Record evaluation_call := EvaluationCall {
  ca_config : evaluation_config;
  ca_surroundings : surroundings;
  ca_trigger : dict;
  ca_decision : dict;
  ca_run_id : option string;
  ca_run_events : list RunEvent;
  ca_artifacts : dict;
  ca_now : string }.

Definition evaluate_call (f : file) (c : evaluation_call) : res dict * file :=
  evaluate (ca_config c) (ca_surroundings c) f (ca_trigger c) (ca_decision c) false (ca_run_id c) (ca_run_events c)
    (ca_artifacts c) (ca_now c).

Fixpoint evaluations (f : file) (calls : list evaluation_call) : list (evaluation_call * res dict) :=
  match calls with
  | [] => []
  | c :: calls => (c, (evaluate_call f c).1) :: evaluations (evaluate_call f c).2 calls
  end.

(** An evaluation of the trigger that recommends execution. *)
Definition executes (trigger_id : string) (e : evaluation_call * res dict) : bool :=
  String.eqb (py_str (dgetN "trigger_id" (ca_trigger e.1))) trigger_id
  && match e.2 with Ok r => is_string "execute" (dgetN "final_recommendation" r) | Err _ => false end.

Lemma executes_new id f c :
  executes id (c, (evaluate_call f c).1) = true →
  py_str (dgetN "trigger_id" (ca_trigger c)) = id
  ∧ (evaluate_call f c).2 = (register_evaluation (evaluated_path (ca_config c)) f id (dgetN "decision_id" (ca_decision c)) (ca_now c)).2
  ∧ (register_evaluation (evaluated_path (ca_config c)) f id (dgetN "decision_id" (ca_decision c)) (ca_now c)).1 = Ok true.
Proof.
  unfold executes. cbn [fst snd]. intros [Hid H]%andb_true_iff. apply String.eqb_eq in Hid. subst id.
  destruct (evaluate_call f c) as [[r|e] f'] eqn:Hc; [|done]. cbn [fst snd] in *. apply is_string_true in H.
  unfold evaluate_call in Hc. destruct (evaluate_decides _ _ _ _ _ _ _ _ _ _ _ _ Hc) as [He _].
  apply He in H as [[Hv _ [Hf|[=]] _ _ _ _] _]. apply schema_error_none in Hv.
  unfold new_trigger in Hf. unfold evaluate in Hc. rewrite Hv in Hc. cbn [mbind res_bind] in Hc.
  destruct (check_plan (ca_decision c)); cbn [mbind res_bind] in Hc; [|done].
  destruct (register_evaluation _ f _ _ _) as [[[]|] g]; try done. by injection Hc as _ ->.
Qed.

(** Once recorded, a trigger is never let through again. *)
Lemma recorded_never_executes id t calls : ∀ f, recorded f id t → List.filter (executes id) (evaluations f calls) = [].
Proof.
  induction calls as [|c calls IH]; intros f Hf; [done|]. cbn [evaluations List.filter].
  destruct (executes id (c, (evaluate_call f c).1)) eqn:E.
  - apply executes_new in E as (_ & _ & E). by rewrite (register_known _ _ _ _ _ _ Hf) in E.
  - apply IH. unfold evaluate_call.
    destruct (evaluate_file (ca_config c) (ca_surroundings c) f (ca_trigger c) (ca_decision c) false (ca_run_id c)
                (ca_run_events c) (ca_artifacts c) (ca_now c)) as [-> | ->]; [done|by apply register_keeps].
Qed.

(** C6: However often, with whatever decisions, configuration and surroundings
    a trigger is evaluated, and whatever the ledger holds at the start: without
    leave to re-evaluate, at most one of the evaluations recommends execution. *)
Theorem trigger_executed_once trigger_id f calls :
  (length (List.filter (executes trigger_id) (evaluations f calls)) <= 1)%nat.
Proof.
  revert f. induction calls as [|c calls IH]; intros f; [cbn; lia|]. cbn [evaluations List.filter].
  destruct (executes trigger_id (c, (evaluate_call f c).1)) eqn:E; [|apply IH].
  apply executes_new in E as (_ & -> & E). destruct (register_evaluation _ f _ _ _) as [a f'] eqn:H. cbn [fst snd] in *. subst a.
  apply register_new in H. by rewrite (recorded_never_executes _ _ _ _ H).
Qed.

(** ** What follows for execution *)

(** C5: The verdict of [evaluate], whenever it has one.  It recommends execution
    exactly when both documents satisfy their schemas, the policy allows type,
    system and action of the plan, the trigger is new or may be evaluated again,
    no business rule asks for approval, the plan is ready (credentials, rollback
    plan, idempotency, confidence, risk, repository patch and host parameters),
    the evidence suffices, the autonomy policy allows it, the safety case passes,
    the trajectory passes and an enforcing judge does not object; the result
    has passed exactly then.  It rejects exactly when the policy does not allow
    the plan, the trigger has been evaluated before, or an enforcing judge
    rejects; the result is valid and names the decision. *)
Theorem evaluation_decides cfg su f trigger decision allow run_id run_events artifacts now r f' :
  evaluate cfg su f trigger decision allow run_id run_events artifacts now = (Ok r, f') →
  let fresh := new_trigger cfg f trigger decision now in
  (dgetN "final_recommendation" r = VStr "execute" ↔
     gates_clear cfg su trigger decision fresh allow (approval_observed run_events artifacts)
     ∧ trajectory_clear su trigger decision run_id run_events artifacts ∧ judge_consents (judge_enforces cfg) (opinion_of r))
  ∧ (dgetN "passed" r = VBool true ↔ dgetN "final_recommendation" r = VStr "execute")
  ∧ (dgetN "final_recommendation" r = VStr "reject" ↔
     (∃ plan, check_plan decision = Ok plan ∧ plan_allowed plan = false)
     ∨ (schema_error trigger decision = Ok None ∧ fresh = false ∧ allow = false)
     ∨ judge_rejects (judge_enforces cfg) (opinion_of r))
  ∧ dgetN "decision_id" r = dgetN "decision_id" decision ∧ validate EvaluationResult r = Ok ().
Proof. apply evaluate_decides. Qed.

(** An action, a review or a grant of authority. *)
Definition carried_out (e : act) : Prop :=
  match e with Acted _ | Reviewed _ | Authorised _ _ => True | Answered _ _ | Incident _ | Slept _ => False end.

(** C4: From evaluation to execution: when [execute] is given what [evaluate]
    returned for the decision and carries anything out, by the adapter, by
    review or through the authority service, then every gate was clear for that
    decision and trigger, the trajectory passed and no enforcing judge objected. *)
Theorem execution_follows_gates cfg su f trigger decision allow run_id run_events artifacts now r f' settings co m :
  evaluate cfg su f trigger decision allow run_id run_events artifacts now = (Ok r, f') →
  ∃ l, m_trace (execute settings co decision r m).2 = m_trace m ++ l
    ∧ (Exists carried_out l →
       gates_clear cfg su trigger decision (new_trigger cfg f trigger decision now) allow (approval_observed run_events artifacts)
       ∧ trajectory_clear su trigger decision run_id run_events artifacts
       ∧ judge_consents (judge_enforces cfg) (opinion_of r)).
Proof.
  intros H. destruct (execute_sanctioned settings co decision r m) as (l & Hl & Hs). exists l. split; [exact Hl|].
  intros (e & Hin & He)%Exists_exists. rewrite Forall_forall in Hs. destruct (Hs _ Hin) as (key & _ & Hk).
  destruct (evaluate_decides _ _ _ _ _ _ _ _ _ _ _ _ H) as [Hex _]. apply Hex.
  assert (mesh_policy_allows r = true) as Ha by by destruct e; try done; destruct Hk as (_ & Hk & _).
  apply andb_true_iff in Ha as [_ Ha]. by apply is_string_true.
Qed.

(** ** Evaluations of a decision to scale a deployment *)

Definition demo_surroundings : surroundings :=
  Surroundings (Path "/" ["repo"]) (λ _, Readable "{}" (Ok production_registry)) (λ _, Ok true) (λ _, None) NoStore
    (λ _ _, Ok [("status", VStr "ready")]) (λ _, []) (λ _, []) native_judge (λ _, "2025-01-01T00:00:00+00:00").
Definition demo_config : evaluation_config :=
  EvaluationConfig "prod" None true true true true false [] [] false "evaluations.json" [].

Definition demo_evaluate (f : file) (trigger decision : dict) : res dict * file :=
  evaluate demo_config demo_surroundings f trigger decision false None [] [] "now".

(** What an evaluation recommends and why, or the class of what it raises. *)
Definition verdict_of (x : res dict * file) : value * value + exc_class :=
  match x.1 with
  | Ok r => inl (dgetN "final_recommendation" r, dgetN "blocking_reasons" r)
  | Err e => inr (exc_cls e)
  end.

Definition with_tier (tier : string) : dict :=
  dset "segment" (VDict [("customer_tier", VStr tier); ("region", VStr "eu")]) demo_trigger.
Definition without_tier : dict := dset "segment" (VDict [("region", VStr "eu")]) demo_trigger.

(** The decision may be executed; a second evaluation of its trigger is
    rejected, and so is a trigger of a protected customer sent to review. *)
Example demo_verdicts :
  verdict_of (demo_evaluate no_file demo_trigger demo_decision) = inl (VStr "execute", VList [])
  ∧ verdict_of (demo_evaluate (demo_evaluate no_file demo_trigger demo_decision).2 demo_trigger demo_decision)
    = inl (VStr "reject", strs ["duplicate evaluation suppressed for trigger_id"; "remediation safety case has hard stops"])
  ∧ verdict_of (demo_evaluate no_file (with_tier "platinum") demo_decision)
    = inl (VStr "human_review", strs ["scope requires approval before execution"; "remediation safety case has hard stops"]).
Proof. vm_compute. done. Qed.

Lemma evaluation_decides_witness :
  gates_clear demo_config demo_surroundings demo_trigger demo_decision true false false
  ∧ trajectory_clear demo_surroundings demo_trigger demo_decision None [] [].
Proof.
  destruct (demo_evaluate no_file demo_trigger demo_decision) as [[r|e] f'] eqn:H; [|vm_compute in H; discriminate H].
  destruct (evaluation_decides _ _ _ _ _ _ _ _ _ _ _ _ H) as [Hx _].
  assert (new_trigger demo_config no_file demo_trigger demo_decision "now" = true) as Hn by (vm_compute; reflexivity).
  rewrite Hn in Hx. vm_compute in H. injection H as <- _. destruct (proj1 Hx) as (Hg & Ht & _); [reflexivity|].
  split; [exact Hg|exact Ht].
Defined.

Lemma execution_follows_gates_witness :
  ∃ r f', demo_evaluate no_file demo_trigger demo_decision = (Ok r, f')
  ∧ (execute config (adapter_of (λ _, succeeds)) demo_decision r quiet).2.(m_trace) = [Acted "decision-1:scale_deployment"]
  ∧ gates_clear demo_config demo_surroundings demo_trigger demo_decision
      (new_trigger demo_config no_file demo_trigger demo_decision "now") false false.
Proof.
  destruct (demo_evaluate no_file demo_trigger demo_decision) as [[r|e] f'] eqn:H; [|vm_compute in H; discriminate H].
  exists r, f'. split; [reflexivity|].
  destruct (execution_follows_gates _ _ _ _ _ _ _ _ _ _ _ _ config (adapter_of (λ _, succeeds)) quiet H) as (l & Hl & Hg).
  assert (m_trace (execute config (adapter_of (λ _, succeeds)) demo_decision r quiet).2 = [Acted "decision-1:scale_deployment"]) as Ht.
  { vm_compute in H. injection H as <- _. vm_compute. reflexivity. }
  split; [exact Ht|]. rewrite Ht in Hl. cbn [m_trace quiet start app] in Hl. subst l. apply Hg. by constructor.
Defined.

(** The policy names decision types that the schema of decisions refuses, and
    the schema knows one that the policy does not. *)
Theorem policy_and_schema_disagree :
  List.filter (λ t, match validate Decision (dset "decision_type" (VStr t) demo_decision) with Ok _ => false | Err _ => true end)
    ALLOWED_DECISION_TYPES = ["restart_pod"; "cordon_node"; "drain_node"; "argocd_sync"; "argocd_rollback"]
  ∧ validate Decision (dset "decision_type" (VStr "patch_resources") demo_decision) = Ok ()
  ∧ verdict_of (demo_evaluate no_file demo_trigger (dset "decision_type" (VStr "patch_resources") demo_decision))
    = inl (VStr "reject", strs ["decision type falls outside the allowed action set"; "remediation safety case has hard stops"]).
Proof. vm_compute. done. Qed.

(** A trigger that its schema accepts but whose segment names no customer tier
    makes [evaluate] raise after it has been registered: once the tier is
    supplied, the trigger is rejected as a duplicate. *)
Theorem raising_evaluation_uses_trigger :
  schema_error without_tier demo_decision = Ok None
  ∧ verdict_of (demo_evaluate no_file without_tier demo_decision) = inr KeyError
  ∧ verdict_of (demo_evaluate (demo_evaluate no_file without_tier demo_decision).2 demo_trigger demo_decision)
    = inl (VStr "reject", strs ["duplicate evaluation suppressed for trigger_id"; "remediation safety case has hard stops"]).
Proof. vm_compute. done. Qed.
